(* ===== verification/_CoqProject ===== *)
-Q . S2P
Prelude.v
PyDecimal.v
PyFloat.v
PyValue.v
PyEq.v
PyTime.v
PyFormat.v
PyJson.v
PyJsonRead.v
Effects.v
Enums.v
LeaseState.v
Provider.v
Cooldown.v
CircuitBreaker.v
SloGovernor.v
RoutingTypes.v
Constraints.v
Scoring.v
Availability.v
Planner.v
BudgetGate.v
SubBudget.v
LeaseStore.v
Policy.v
Bidding.v
Estimator.v
WorkloadStore.v
GateTable.v
RequestKeys.v
SyncGate.v
Hedging.v
Coalescing.v
SemanticCache.v
Cascade.v
Registry.v
Jobs.v
GitOpsPlan.v
GitOps.v
GitOpsProofs.v
RateLimit.v
Pods.v
PodCreate.v
KillSwitch.v
Teardown.v
Reconciler.v
Sweeps.v
LaunchPlan.v
Templates.v
Launch.v
WebhookSigner.v
WebhookReceiver.v
WebhookSubscriptions.v
WebhookDelivery.v
Typed.v
Canary.v
PyOrder.v
Arbitrage.v
Failover.v
Scorecards.v
PyUrl.v
OpenAIChain.v
OpenAIUrl.v
OpenAIProxy.v
Egress.v
Retention.v
Simulator.v
Autopilot.v
KillEscalation.v
BurnRate.v
Reservations.v
Discovery.v
Drift.v
Recommendations.v
TimeMachine.v
Prewarm.v
CostLedger.v
Alerts.v
Resolver.v
Staging.v
