(* ===== verification/Prelude.v ===== *)
(** * Verification development of Pitwall, a GPU broker

    Pitwall ([src/src/pitwall]) takes requests for GPU capabilities and
    serves them from RunPod and other providers: it keeps a registry of
    capabilities and providers, decides where a request runs and what it may
    cost, launches pods under leases, follows the workloads, and takes
    everything down again.  This library models that core and proves what
    makes it correct.  Names of files in brackets are under [src/src/pitwall];
    definitions carry the source's names without leading underscores.

    ** How the program is put together

    A request is planned: the planner ([Planner]) filters the providers of a
    capability by hard constraints ([Constraints]), by health and cooldown
    ([Cooldown]) and by probed GPU availability ([Availability]), scores the
    survivors ([Scoring]) and returns attempts in order.  The estimator
    ([Estimator]) prices the work and the budget gate ([BudgetGate], in front
    of it [SubBudget]) admits it against the month's spend under an advisory
    lock; the circuit breaker ([CircuitBreaker]), the SLO governor
    ([SloGovernor]) and the policy evaluator ([Policy]) advise or veto, also
    for spot bids ([Bidding]).  Requests may be hedged, cascaded, coalesced
    and rate limited ([Hedging], [Cascade], [Coalescing], [RateLimit]),
    answered from the semantic cache ([SemanticCache]), sent to a canary or
    moved to another provider ([Canary], [Arbitrage], [Failover]), and ranked
    by what was observed of the providers ([Scorecards]).

    [Resolver] finds the capability and the provider of a synchronous request
    and builds its URL; the request passes [SyncGate], which admits it, calls
    RunPod and keeps its row; an asynchronous one becomes a job ([Jobs]).  The
    OpenAI routes resolve a chain of providers ([OpenAIChain]), build the URL of
    each ([OpenAIUrl]) and pass requests through ([OpenAIProxy]).  RunPod's
    webhooks arrive at [WebhookReceiver]; the events go out to subscribers
    ([WebhookSubscriptions], [WebhookDelivery]), signed ([WebhookSigner]) and
    only to public hosts ([Egress]).

    A lease is launched by [Launch]: it reads the provider's configuration
    ([LaunchPlan]), passes the budget gate, obtains a template ([Templates]),
    creates a pod ([PodCreate], over the pod requests of [Pods]) and keeps
    the row of the lease ([LeaseStore], whose states are those of
    [LeaseState]); [Staging] vends its keys to the storage and cleans up after
    killed pods.  [Teardown] closes a lease, [Sweeps] closes the expired
    ones and probes provider health, [KillSwitch] terminates everything.
    Workloads live in [WorkloadStore]; [Reconciler] follows their jobs and
    [Retention] archives and deletes the old ones.  [Registry] holds
    capabilities and providers, and [GitOpsPlan], [GitOps] and [GitOpsProofs]
    bring it to a declared state.

    Above these, some modules advise.  [Simulator] replays the planner under
    other prices; [TimeMachine] compares history with such a replay and
    [Reservations] compares reservations with it, with the runway of
    [BurnRate].  [Discovery] reads RunPod's catalog and [Drift] compares
    providers with it; [Prewarm] forecasts demand.  [Recommendations] ranks
    all this for operators, [Prewarm] also turns it into signals, and
    [Autopilot] applies what policy, simulation, limits and breaker let
    through; [KillEscalation] decides when a spent budget pulls the kill
    switch.  [CostLedger] keeps the costs of each day and sets them to what
    providers billed; [Alerts] tells operators of budgets that run out and of
    endpoints that should be asleep.

    ** The files

    Shared ground: [Prelude] (results, the exceptions of Python, lists,
    insertion-ordered dictionaries, sorting), [PyDecimal] ([Decimal] with 28
    digits, and exact sums of money), [PyFloat] (binary64 on [SpecFloat]),
    [PyValue], [PyEq], [PyFormat], [PyTime] (JSON values and what Python does
    with them), [PyOrder] (tuples as sort keys), [PyJson] and [PyJsonRead]
    (canonical JSON, its reader, and the round trip), [PyUrl] (URLs and
    addresses), [Effects] (stores, errors, and runs that keep
    a relation), [Enums] ([core/enums.py]), [Provider] ([core/models.py] and
    the field readers), [RequestKeys] (idempotency, coalescing and cache keys),
    [GateTable] (the budget gate on whole rows of the workload table), [Typed]
    (every statement keeps the workload table well typed).

    One file per component, named after it; the comment at the top of each
    says which source files it models and what stands outside.  State is
    explicit: a table is a map or a list of rows with the constraints of its
    migration, a statement commits on its own unless the code opens a
    transaction, and an operation returns the new state with a value or an
    error, so that what was written before a failure stays written.
    Concurrent parts are step relations or executable step functions over
    every interleaving: the budget gate's lock ([BudgetGate.gate_step]), the
    coalescer, the hedged race, the rate limiter's loop, the catalog's cache
    ([Discovery.act]).

    What is not the program's is an interface: [Pods.RunPodApi] (RunPod's
    REST API, its SDK, the pods' HTTP proxy, the clocks), [PodCreate.LawfulRunPod]
    (what RunPod promises about the pods that exist), [Templates.TemplateApi],
    [Launch.StagingVendor], [Teardown.Channel], [KillSwitch.KillDeps],
    [Reconciler.ReconcileDeps], [Sweeps.Prober], [SyncGate.SyncDeps],
    [Jobs.QueueDeps], [WebhookReceiver.ReceiverDeps],
    [WebhookSubscriptions.Aead], [WebhookDelivery.DeliveryDeps],
    [Egress.EgressNet], [OpenAIChain.OpenAIUpstream], [OpenAIProxy.ProxyDeps],
    [Retention.RetentionDeps], [Staging.StagingDeps], [CostLedger.CostDeps],
    [Alerts.AlertDeps],
    [Autopilot.AutopilotExecutor], and the plugins of
    [Failover].  Each is an arbitrary function of a world [F]; theorems
    quantify over it, and a scripted world at the end of a file shows that the
    hypotheses hold somewhere.  Components meet at interfaces, too: [Launch]
    runs pod creation over its own world, whose [RunPodApi] is lifted from
    [F]'s, and so inherits its theorems; [Egress.egress_delivery] is the
    [DeliveryDeps] that opens connections under the egress policy;
    [Staging.store_vendor] is a [Launch.StagingVendor];
    [Autopilot.WhatIf] is the simulator of the autopilot, with the law
    [LawfulWhatIf] that [Autopilot.planner_lawful] proves of [Simulator].

    ** What the theorems show

    - Money: admissions never exceed the month's budget in any interleaving;
      rejections are justified; retries insert nothing; estimates lie within
      their bounds; sub-budgets hold in sequence (and not when interleaved);
      an exhausted budget blocks; bids stay within the rails; projections,
      replays and reservations add up to the micro-dollar, and the
      recommended reservation is a cheapest one; a truth-up sets the ledger to
      what was billed, a rollup rebuilds it from the workloads.
    - Pods: whatever a launch meets, every pod it leaves is named by the row
      of its lease and paid for by an admitted workload; creation leaves no
      pod behind; the readiness wait ends; the pod's environment cannot be
      forged; a lease is closed only when its pod is gone; the kill switch
      clears the listed pods; staging keys are scoped and a cleanup deletes the
      objects of its pods and no others.
    - Leases and workloads: the life cycles are respected by every history of
      operations; mutations take effect once; renewals are neither lost nor
      unbounded; a terminal workload is final and announced once; a job is
      dispatched once; the expiry sweep closes what it read as expired and
      nothing else; only what is archived is deleted.
    - Requests: a synchronous call and a proxied one are admitted before they
      are sent and accounted after, a reused key replays the answer, equal
      keys mean equal requests, and a proxied URL stays under its base.
    - Webhooks: signatures verify exactly, deliveries reach public hosts
      only, and what is delivered reads back as the event.
    - Routing: a resolution names the best eligible provider and its URL stays
      with RunPod; a plan attempts only eligible providers, boundedly many,
      and accounts for every one; a snapshot answers as the cache it froze;
      hedges, cascades, canaries and coalesced calls do what they promise; a
      forecast counts the history, and prewarming is warranted by it.
    - Alerts: a budget alert is sent once a month and a crossing reported once;
      the scheduled alert, as it is wired, is never sent.
    - Advice: drift is found exactly where record and observation differ,
      recommendations answer their signals, and the autopilot applies nothing
      that a gate has not let through and stays within the limits of a run.
    - GitOps: plans converge, need approval to delete, and snapshots round
      trip; policies decide exactly and hide secrets.
    - What the code does against its own documents is stated as it is:
      theorems and examples name the findings (an unanswered poll that times
      out a workload, a sweep that stops at one stuck pod, a retried launch
      that starts a second pod, and others).

    ** Fuel and bounds

    Recursion that is not structural has fuel.  [PyDecimal.ndigits] and
    [PyFloat.shortest] use the number of bits or the 17 digits that suffice
    for binary64; the readers of [PyJsonRead] use the length of the text.
    [Hedging.fill_slots] has a unit per provider.
    [RateLimit.acquire_loop] and [PodCreate.wait_loop] are the program's
    waiting loops, [Staging.delete_pages] follows the pages of a listing:
    running out of fuel means still waiting, [wait_terminates] and
    [cleanup_is_exact] say how much is enough, and [launch_records_every_pod]
    holds at every cut.  [RateLimit.drain_limit] bounds a burst at 4096
    requests.  Integers of columns keep their width ([Registry.int4],
    NUMERIC(12,6) as micro dollars); Python's integers are unbounded.

    ** Not modelled

    Routes, schemas and the application of [api/], the MCP server, the TUI,
    the command line, configuration and seeding: they parse, call the
    operations modelled here and print.  The clients of other provider clouds
    and of the rest of RunPod's API: one request each, whose answers come from
    outside.  Cost reports and exports, drills and audits: they read tables,
    files or deployments and render text without deciding anything the program
    acts on.  Tracing and worker processes.
    Within modelled files the [to_dict] views, which print records, are left
    out, and so are filtered listings.  Text is ASCII; log lines, metrics and
    the texts of most exceptions are left out.  Cryptography (SHA-256, HMAC,
    AES-GCM) and [getaddrinfo] are parameters. *)

From stdpp Require Export base list strings gmap.
From Stdlib Require Export ZArith Lia.
From Stdlib Require Export Sorting.Permutation Sorting.Sorted.

#[global] Open Scope Z_scope.

(** ** Exceptions and the result monad

    Python raises; the model returns.  [exn] lists the built-in exception
    classes the modelled code raises or lets through.  Exceptions the
    program declares itself are separate types in their components and are
    combined with [exn] through the parameter [E] of [result]. *)
Inductive exn : Type :=
| ValueError (msg : string)
| TypeError (msg : string)
| RuntimeError (msg : string)
| AttributeError (name : string)
| AssertionError
| OverflowError
| ZeroDivisionError
| DecimalOverflow
| DecimalInvalidOperation
| DecimalDivisionByZero.

#[global] Instance exn_eq_dec : EqDecision exn.
Proof. solve_decision. Defined.

Inductive result (E A : Type) : Type :=
| Ok (a : A)
| Err (e : E).
Arguments Ok {E A} a.
Arguments Err {E A} e.

#[global] Instance result_eq_dec {E A} `{EqDecision E, EqDecision A} :
  EqDecision (result E A).
Proof. solve_decision. Defined.

(** The monad of code that raises built-in exceptions only. *)
Abbreviation py := (result exn).

Definition rbind {E A B} (m : result E A) (k : A -> result E B) : result E B :=
  match m with Ok a => k a | Err e => Err e end.

Definition rmap {E A B} (f : A -> B) (m : result E A) : result E B :=
  match m with Ok a => Ok (f a) | Err e => Err e end.

(** Re-raising an error as a value of a larger exception type. *)
Definition rlift {E F A} (f : E -> F) (m : result E A) : result F A :=
  match m with Ok a => Ok a | Err e => Err (f e) end.

Definition is_ok {E A} (m : result E A) : bool :=
  match m with Ok _ => true | Err _ => false end.

Declare Scope py_scope.
Delimit Scope py_scope with py.
Notation "'let?' x ':=' m 'in' k" := (rbind m (fun x => k))
  (at level 10, x pattern, m at level 100, k at level 200) : py_scope.
#[global] Open Scope py_scope.

(** [for x in l: ...] building a list, stopping at the first exception. *)
Fixpoint mapR {E A B} (f : A -> result E B) (l : list A) : result E (list B) :=
  match l with
  | [] => Ok []
  | x :: l' => let? y := f x in let? ys := mapR f l' in Ok (y :: ys)
  end.

(** [for x in l: acc = f(acc, x)], stopping at the first exception. *)
Fixpoint foldR {E A B} (f : B -> A -> result E B) (acc : B) (l : list A)
  : result E B :=
  match l with
  | [] => Ok acc
  | x :: l' => let? acc' := f acc x in foldR f acc' l'
  end.

(** [for x in l: if f(x): break], the [any]/[all] shape with exceptions. *)
Fixpoint existsR {E A} (f : A -> result E bool) (l : list A) : result E bool :=
  match l with
  | [] => Ok false
  | x :: l' => let? b := f x in if b then Ok true else existsR f l'
  end.

Lemma rbind_Ok {E A B} (m : result E A) (k : A -> result E B) b :
  rbind m k = Ok b <-> exists a, m = Ok a /\ k a = Ok b.
Proof.
  destruct m as [a|e]; simpl; [|split; [done|by intros (?&?&?)]].
  split; [by eauto|by intros (?&[= <-]&?)].
Qed.

Lemma rbind_Err {E A B} (m : result E A) (k : A -> result E B) e :
  rbind m k = Err e <-> m = Err e \/ exists a, m = Ok a /\ k a = Err e.
Proof.
  destruct m as [a|e']; simpl.
  - split; [by eauto|]. by intros [?|(?&[= <-]&?)].
  - split; [by intros [= ->]; left|]. by intros [[= ->]|(?&?&?)].
Qed.

Lemma rmap_Ok {E A B} (f : A -> B) (m : result E A) b :
  rmap f m = Ok b <-> exists a, m = Ok a /\ b = f a.
Proof.
  destruct m; simpl; [|split; [done|by intros (?&?&?)]].
  split; [intros [= <-]; by eauto|by intros (?&[= <-]&->)].
Qed.

Lemma rlift_Ok {E F A} (f : E -> F) (m : result E A) a :
  rlift f m = Ok a <-> m = Ok a.
Proof. destruct m; simpl; split; by intros [= ->]. Qed.

Lemma mapR_Ok {E A B} (f : A -> result E B) l ys :
  mapR f l = Ok ys <-> Forall2 (fun x y => f x = Ok y) l ys.
Proof.
  revert ys; induction l as [|x l IH]; intros ys; simpl.
  - split; [intros [= <-]; constructor | inversion 1; done].
  - rewrite rbind_Ok. setoid_rewrite rbind_Ok. split.
    + intros (y & Hy & ys' & Hys & [= <-]). constructor; [done|by apply IH].
    + inversion 1; subst. eexists; split; [done|]. eexists; split; [by apply IH|done].
Qed.

Lemma mapR_length {E A B} (f : A -> result E B) l ys :
  mapR f l = Ok ys -> length ys = length l.
Proof. intros H%mapR_Ok. by apply Forall2_length in H. Qed.

Lemma mapR_map {E A B} (f : A -> B) (l : list A) :
  mapR (E:=E) (fun x => Ok (f x)) l = Ok (f <$> l).
Proof. induction l as [|x l IH]; simpl; [done|]. by rewrite IH. Qed.

Lemma foldR_app {E A B} (f : B -> A -> result E B) l1 l2 acc :
  foldR f acc (l1 ++ l2) = rbind (foldR f acc l1) (fun a => foldR f a l2).
Proof. revert acc; induction l1 as [|x l IH]; intros acc; simpl; [done|].
  destruct (f acc x); simpl; [apply IH|done]. Qed.

(** An invariant of the accumulator is an invariant of the loop. *)
Lemma foldR_inv {E A B} (f : B -> A -> result E B) (P : B -> Prop) l acc acc' :
  P acc ->
  (forall b x b', x ∈ l -> P b -> f b x = Ok b' -> P b') ->
  foldR f acc l = Ok acc' -> P acc'.
Proof.
  revert acc; induction l as [|x l IH]; intros acc H0 Hstep; simpl.
  - by intros [= <-].
  - intros (b & Hb & Hf)%rbind_Ok. eapply (IH b); [| |done].
    + eapply Hstep; [|done..]. constructor.
    + intros ????; eapply Hstep. by constructor.
Qed.

(** Take apart every [rbind]/[rmap] that returned [Ok] in the context. *)
Ltac inv_ok :=
  repeat match goal with
  | H : rbind _ _ = Ok _ |- _ => apply rbind_Ok in H as (? & ? & H)
  | H : rmap _ _ = Ok _ |- _ => apply rmap_Ok in H as (? & ? & H)
  | H : rlift _ _ = Ok _ |- _ => apply rlift_Ok in H
  | H : Ok _ = Ok _ |- _ => injection H as H; try subst
  | H : Err _ = Ok _ |- _ => discriminate H
  | H : Ok _ = Err _ |- _ => discriminate H
  | H : (if ?b then Err _ else _) = Ok _ |- _ =>
      let E := fresh "Hg" in destruct b eqn:E; [discriminate H|]
  end.

(** Turn boolean tests into propositions, in hypotheses and goal. *)
Ltac boolify :=
  repeat match goal with
  | H : (_ && _)%bool = true |- _ => apply andb_true_iff in H as [? ?]
  | H : (_ || _)%bool = false |- _ => apply orb_false_iff in H as [? ?]
  | H : negb _ = true |- _ => apply negb_true_iff in H
  | H : negb _ = false |- _ => apply negb_false_iff in H
  | H : Z.leb _ _ = true |- _ => apply Z.leb_le in H
  | H : Z.leb _ _ = false |- _ => apply Z.leb_gt in H
  | H : Z.ltb _ _ = true |- _ => apply Z.ltb_lt in H
  | H : Z.ltb _ _ = false |- _ => apply Z.ltb_ge in H
  | H : Z.eqb _ _ = true |- _ => apply Z.eqb_eq in H
  | H : Z.eqb _ _ = false |- _ => apply Z.eqb_neq in H
  | H : String.eqb _ _ = true |- _ => apply String.eqb_eq in H
  | H : String.eqb _ _ = false |- _ => apply String.eqb_neq in H
  | H : bool_decide _ = true |- _ => apply bool_decide_eq_true in H
  | H : bool_decide _ = false |- _ => apply bool_decide_eq_false in H
  end.

(** Case analysis on the next test or match of the goal or a hypothesis. *)
Ltac step_case :=
  match goal with
  | |- context [if ?b then _ else _] => destruct b eqn:?
  | |- context [match ?x with _ => _ end] => destruct x eqn:?
  end.

(** ** [sorted(items, key=...)]

    Python's [sorted] is stable and only asks [<].  For keys whose [<] is a
    strict weak order every stable sort returns the same list, so the model
    is an insertion sort: an element is placed before the first element that
    is not smaller than it. *)
Section Sort.
Context {A : Type} (ltb : A -> A -> bool).

Fixpoint insert_by (x : A) (l : list A) : list A :=
  match l with
  | [] => [x]
  | y :: l' => if ltb y x then y :: insert_by x l' else x :: y :: l'
  end.

Fixpoint sort_by (l : list A) : list A :=
  match l with
  | [] => []
  | x :: l' => insert_by x (sort_by l')
  end.

(** [not (b < a)], the order in which [sorted] leaves its result. *)
Definition le_by (a b : A) : Prop := ltb b a = false.

Lemma insert_by_perm x l : insert_by x l ≡ₚ x :: l.
Proof.
  induction l as [|y l IH]; simpl; [done|].
  destruct (ltb y x); [|done]. rewrite IH. constructor.
Qed.

Lemma sort_by_perm l : sort_by l ≡ₚ l.
Proof. induction l as [|x l IH]; simpl; [done|]. by rewrite insert_by_perm, IH. Qed.

Lemma elem_of_sort_by x l : x ∈ sort_by l <-> x ∈ l.
Proof. by rewrite sort_by_perm. Qed.

Lemma sort_by_length l : length (sort_by l) = length l.
Proof. by rewrite sort_by_perm. Qed.

(** Only transitivity of [not (b < a)] and asymmetry of [<] are needed. *)
Context (asym : forall a b, ltb a b = true -> ltb b a = false)
        (trans : forall a b c, le_by a b -> le_by b c -> le_by a c).

Lemma insert_by_sorted x l :
  StronglySorted le_by l -> StronglySorted le_by (insert_by x l).
Proof.
  induction 1 as [|y l Hl IH Hy]; simpl; [repeat constructor|].
  destruct (ltb y x) eqn:E.
  - constructor; [done|]. rewrite insert_by_perm. constructor; [|done].
    by apply asym.
  - constructor; [by constructor|]. constructor; [done|].
    eapply Forall_impl; [done|]. intros z Hz. by eapply trans.
Qed.

Lemma sort_by_sorted l : StronglySorted le_by (sort_by l).
Proof. induction l; simpl; [constructor|]. by apply insert_by_sorted. Qed.

(** A list already in order is left alone: the sort is stable. *)
Lemma sort_by_id l : StronglySorted le_by l -> sort_by l = l.
Proof.
  induction 1 as [|x l Hl IH Hx]; simpl; [done|]. rewrite IH.
  destruct l as [|y l']; simpl; [done|].
  inversion Hx as [|?? Hy]; subst. by rewrite Hy.
Qed.
End Sort.

(** [sorted(l, key=f)] where computing a key may raise: every key is
    computed first, in list order. *)
Definition sort_on {E A K} (f : A -> result E K) (ltb : K -> K -> bool)
    (l : list A) : result E (list A) :=
  let? keyed := mapR (fun x => let? k := f x in Ok (k, x)) l in
  Ok (snd <$> sort_by (fun a b => ltb a.1 b.1) keyed).

Lemma sort_on_perm {E A K} (f : A -> result E K) ltb l l' :
  sort_on f ltb l = Ok l' -> l' ≡ₚ l.
Proof.
  unfold sort_on. intros (keyed & Hk & [= <-])%rbind_Ok.
  rewrite sort_by_perm. apply mapR_Ok in Hk.
  induction Hk as [|x [k y] l ks Hx _ IH]; [done|].
  apply rbind_Ok in Hx as (k' & _ & [= <- <-]). csimpl. by rewrite IH.
Qed.

(** On keys satisfying [P], a sort leaves its result ordered by every
    transitive relation that [<] refines. *)
Section SortRel.
Context {A : Type} (ltb : A -> A -> bool) (P : A -> Prop) (R : A -> A -> Prop).
Context (Hlt : forall a b, P a -> P b -> ltb a b = true -> R a b)
        (Hge : forall a b, P a -> P b -> ltb a b = false -> R b a)
        (Htrans : forall a b c, P a -> P b -> P c -> R a b -> R b c -> R a c).

Lemma insert_by_sorted_rel x l :
  P x -> Forall P l -> StronglySorted R l -> StronglySorted R (insert_by ltb x l).
Proof.
  intros Hx HP Hs. induction Hs as [|y l Hs IH Hy]; simpl; [repeat constructor|].
  apply Forall_cons in HP as [HPy HP]. destruct (ltb y x) eqn:E.
  - constructor; [by apply IH|]. rewrite insert_by_perm. constructor; [by apply Hlt|done].
  - constructor; [by constructor|]. constructor; [by apply Hge|].
    rewrite Forall_forall in *. intros z Hz. eapply (Htrans _ y); eauto.
Qed.

Lemma sort_by_sorted_rel l : Forall P l -> StronglySorted R (sort_by ltb l).
Proof.
  induction 1 as [|x l Hx HP IH]; simpl; [constructor|].
  apply insert_by_sorted_rel; [done| |done]. by rewrite sort_by_perm.
Qed.
End SortRel.

Lemma sort_on_sorted {E A K} (f : A -> result E K) ltb (P : K -> Prop) (R : K -> K -> Prop) l l' :
  (forall a b, P a -> P b -> ltb a b = true -> R a b) ->
  (forall a b, P a -> P b -> ltb a b = false -> R b a) ->
  (forall a b c, P a -> P b -> P c -> R a b -> R b c -> R a c) ->
  (forall x k, x ∈ l -> f x = Ok k -> P k) ->
  sort_on f ltb l = Ok l' ->
  StronglySorted (fun a b => exists ka kb, f a = Ok ka /\ f b = Ok kb /\ R ka kb) l'.
Proof.
  intros Hlt Hge Htr HP. unfold sort_on. intros (keyed & Hk & [= <-])%rbind_Ok.
  apply mapR_Ok in Hk.
  assert (Forall (fun kx => f kx.2 = Ok kx.1 /\ P kx.1) keyed) as HF.
  { clear -Hk HP. induction Hk as [|x [k y] l ks Hx _ IH]; constructor.
    - apply rbind_Ok in Hx as (k' & Hf & [= <- <-]). split; [done|]. eapply HP; [constructor|done].
    - apply IH. intros z k' Hz. apply HP. by constructor. }
  assert (StronglySorted (fun a b => R a.1 b.1) (sort_by (fun a b => ltb a.1 b.1) keyed)) as Hs.
  { eapply (sort_by_sorted_rel _ (fun kx => f kx.2 = Ok kx.1 /\ P kx.1)); [..|done].
    - intros ? ? [_ ?] [_ ?]. by apply Hlt.
    - intros ? ? [_ ?] [_ ?]. by apply Hge.
    - intros ? ? ? [_ ?] [_ ?] [_ ?]. by apply Htr. }
  assert (Forall (fun kx => f kx.2 = Ok kx.1 /\ P kx.1) (sort_by (fun a b => ltb a.1 b.1) keyed)) as HF'
    by (by rewrite sort_by_perm).
  clear -Hs HF'. induction Hs as [|x l Hs IH Hx]; csimpl; [constructor|].
  apply Forall_cons in HF' as [[Hfx _] HF]. constructor; [by apply IH|].
  apply Forall_fmap. rewrite Forall_forall in *. intros y Hy.
  exists x.1, y.1. split; [done|]. split; [by apply HF|by apply Hx].
Qed.

(** ** Duplicates: [dict.fromkeys] and seen-set loops *)
Section Dedup.
Context {A : Type} `{EqDecision A}.

(** [tuple(dict.fromkeys(l))]: first occurrences, in order. *)
Fixpoint dedup_from (seen : list A) (l : list A) : list A :=
  match l with
  | [] => []
  | x :: l' =>
      if decide (x ∈ seen) then dedup_from seen l'
      else x :: dedup_from (x :: seen) l'
  end.
Definition dedup (l : list A) : list A := dedup_from [] l.

Lemma elem_of_dedup_from x seen l :
  x ∈ dedup_from seen l <-> x ∈ l /\ x ∉ seen.
Proof.
  revert seen; induction l as [|y l IH]; intros seen; simpl.
  { split; [by intros ?%elem_of_nil|by intros [?%elem_of_nil _]]. }
  case_decide as Hy; rewrite ?elem_of_cons, IH, ?elem_of_cons.
  - split; [intros [? ?]; split; [by right|done]|].
    intros [[->|?] ?]; [done|by split].
  - split.
    + intros [->|[? Hn]]; [split; [by left|done]|].
      split; [by right|]. intros ?. apply Hn. by right.
    + intros [[->|?] ?]; [by left|].
      destruct (decide (x = y)) as [->|]; [by left|]. right.
      split; [done|]. by intros [?|?].
Qed.

Lemma NoDup_dedup_from seen l : NoDup (dedup_from seen l).
Proof.
  revert seen; induction l as [|y l IH]; intros seen; simpl; [constructor|].
  case_decide as Hy; [done|]. constructor; [|done].
  rewrite elem_of_dedup_from, elem_of_cons. intros [_ Hn]. apply Hn. by left.
Qed.

Lemma elem_of_dedup x l : x ∈ dedup l <-> x ∈ l.
Proof.
  unfold dedup. rewrite elem_of_dedup_from.
  split; [by intros [? _]|]. intros ?. split; [done|apply not_elem_of_nil].
Qed.

Lemma NoDup_dedup l : NoDup (dedup l).
Proof. apply NoDup_dedup_from. Qed.
End Dedup.

(** ** [dict]: bindings in insertion order

    Assigning to a present key keeps its place; a new key goes to the end. *)
Section Dict.
Context {K V : Type} `{EqDecision K}.

Fixpoint al_get (k : K) (m : list (K * V)) : option V :=
  match m with
  | [] => None
  | (k', v) :: m' => if decide (k = k') then Some v else al_get k m'
  end.

Fixpoint al_set (k : K) (v : V) (m : list (K * V)) : list (K * V) :=
  match m with
  | [] => [(k, v)]
  | (k', v') :: m' => if decide (k = k') then (k', v) :: m' else (k', v') :: al_set k v m'
  end.

Definition al_del (k : K) (m : list (K * V)) : list (K * V) :=
  filter (fun kv => kv.1 <> k) m.

(** Keys are unique. *)
Definition al_wf (m : list (K * V)) : Prop := NoDup m.*1.

Lemma al_get_set k v m : al_get k (al_set k v m) = Some v.
Proof.
  induction m as [|[k' v'] m IH]; simpl; [by rewrite decide_True|].
  case_decide as E; simpl; [by rewrite decide_True|by rewrite decide_False].
Qed.

Lemma al_get_set_ne k k' v m : k <> k' -> al_get k (al_set k' v m) = al_get k m.
Proof.
  intros Hne. induction m as [|[k2 v2] m IH]; simpl; [by rewrite decide_False|].
  destruct (decide (k' = k2)) as [->|]; simpl; [by rewrite !(decide_False (P:=k = k2))|].
  by rewrite IH.
Qed.

Lemma al_get_del k m : al_get k (al_del k m) = None.
Proof.
  unfold al_del. induction m as [|[k' v'] m IH]; [done|]. rewrite filter_cons. simpl.
  case_decide as E; simpl; [|done]. by rewrite decide_False.
Qed.

Lemma al_get_del_ne k k' m : k <> k' -> al_get k (al_del k' m) = al_get k m.
Proof.
  intros Hne. unfold al_del. induction m as [|[k2 v2] m IH]; [done|].
  rewrite filter_cons. simpl. case_decide as E; simpl; rewrite IH; [done|].
  rewrite decide_False; [done|]. congruence.
Qed.

Lemma al_get_Some_elem k v m : al_get k m = Some v -> (k, v) ∈ m.
Proof.
  induction m as [|[k' v'] m IH]; simpl; [done|].
  case_decide as E; [intros [= <-]; subst; constructor|]. intros ?. constructor. by apply IH.
Qed.

Lemma al_get_elem k v m : al_wf m -> (k, v) ∈ m -> al_get k m = Some v.
Proof.
  unfold al_wf. induction m as [|[k' v'] m IH]; csimpl; [by intros _ ?%elem_of_nil|].
  rewrite NoDup_cons. intros [Hn Hd] [[= -> ->]|Hin]%elem_of_cons; [by rewrite decide_True|].
  rewrite decide_False; [by apply IH|]. intros ->. apply Hn.
  by apply (list_elem_of_fmap_2 fst) in Hin.
Qed.

Lemma al_get_None k m : al_get k m = None <-> k ∉ m.*1.
Proof.
  induction m as [|[k' v'] m IH]; csimpl; [split; [by intros _ ?%elem_of_nil|done]|].
  rewrite elem_of_cons. case_decide as E; [|rewrite IH]; [split; [done|]; intros H; exfalso; auto|].
  split; [intros H [?|?]; done|]. intros H ?. apply H. by right.
Qed.

Lemma al_set_keys k v m x : x ∈ (al_set k v m).*1 <-> x = k \/ x ∈ m.*1.
Proof.
  induction m as [|[k' v'] m IH]; csimpl; [by rewrite elem_of_cons|].
  case_decide as E; csimpl; rewrite !elem_of_cons; [subst; tauto|]. rewrite IH. tauto.
Qed.

Lemma al_set_wf k v m : al_wf m -> al_wf (al_set k v m).
Proof.
  unfold al_wf. induction m as [|[k' v'] m IH]; csimpl.
  { intros _. apply NoDup_singleton. }
  rewrite NoDup_cons. intros [Hn Hd]. case_decide as E; csimpl; rewrite NoDup_cons; [done|].
  split; [|by apply IH]. rewrite al_set_keys. by intros [->|?].
Qed.

Lemma al_filter_wf (P : K * V -> Prop) `{forall x, Decision (P x)} m :
  al_wf m -> al_wf (filter P m).
Proof.
  unfold al_wf. induction m as [|[k v] m IH]; csimpl; [done|].
  rewrite NoDup_cons. intros [Hn Hd]. rewrite filter_cons. case_decide; [|by apply IH].
  csimpl. rewrite NoDup_cons. split; [|by apply IH].
  intros ([k2 v2] & -> & Hin)%list_elem_of_fmap. apply list_elem_of_filter in Hin as [_ Hin].
  apply Hn, list_elem_of_fmap. by exists (k2, v2).
Qed.

Lemma al_del_wf k m : al_wf m -> al_wf (al_del k m).
Proof. apply al_filter_wf. Qed.
End Dict.

(** [next(x for x in l if f(x))], [None] when there is none. *)
Fixpoint find_first {A} (f : A -> bool) (l : list A) : option A :=
  match l with
  | [] => None
  | x :: l' => if f x then Some x else find_first f l'
  end.

Lemma find_first_Some {A} (f : A -> bool) l x :
  find_first f l = Some x -> x ∈ l /\ f x = true.
Proof.
  induction l as [|y l IH]; simpl; [done|].
  destruct (f y) eqn:E; [intros [= ->]; by split; [constructor|]|].
  intros [? ?]%IH. by split; [constructor|].
Qed.

Lemma find_first_None {A} (f : A -> bool) l :
  find_first f l = None <-> Forall (fun x => f x = false) l.
Proof.
  induction l as [|y l IH]; simpl; [by split; [constructor|]|].
  rewrite Forall_cons. destruct (f y) eqn:E; [|rewrite IH].
  - split; [done|]. by intros [? _].
  - split; [done|]. by intros [_ ?].
Qed.

(** ** Tokens of time

    A [datetime] is its UTC instant in microseconds since the epoch together
    with whether it carries a zone; a [timedelta] is its exact number of
    microseconds, which is what Python's [timedelta] stores. *)
Record datetime : Type := Datetime { dt_us : Z; dt_aware : bool }.
Abbreviation timedelta := Z (only parsing).

#[global] Instance datetime_eq_dec : EqDecision datetime.
Proof. solve_decision. Defined.

Definition utc (us : Z) : datetime := Datetime us true.
Definition td_seconds (s : Z) : timedelta := s * 1000000.
Definition td_minutes (m : Z) : timedelta := m * 60000000.

Create HintDb pitwall.
#[export] Hint Resolve al_set_wf al_del_wf al_filter_wf : pitwall.
#[export] Hint Rewrite @al_get_set @al_get_del : pitwall.
