(* ===== verification/PyDecimal.v ===== *)
(** * [decimal.Decimal] under the default context

    Python's default context has 28 digits of precision, rounds half to
    even, has exponent limits of 999999 either side, and traps
    [InvalidOperation], [DivisionByZero] and [Overflow].  Every amount of
    money in the program is such a number, so the arithmetic below is the
    whole of that context: the exact result of an operation is rounded by
    [dfix], and the trapped signals are errors.

    A finite decimal is [dcoef * 10 ^ dexp].  The sign of a zero is not kept
    (no modelled code tells [-0] from [0]). *)

From S2P Require Import Prelude.
From Stdlib Require Import QArith Qpower Qabs Lqa.
#[local] Open Scope Z_scope.

Create HintDb pydec.

Record dec : Type := Dec { dcoef : Z; dexp : Z }.

#[global] Instance dec_eq_dec : EqDecision dec.
Proof. solve_decision. Defined.

Definition dprec : Z := 28.
Definition emax : Z := 999999.
Definition emin : Z := -999999.
Definition etiny : Z := emin - dprec + 1.
Definition etop : Z := emax - dprec + 1.

Inductive rounding : Type := ROUND_HALF_EVEN | ROUND_HALF_UP | ROUND_CEILING.

(** Number of decimal digits, [len(str(abs(z)))]. *)
Fixpoint ndigits_fuel (fuel : nat) (z : Z) : Z :=
  match fuel with
  | O => 1
  | S fuel' => if z <? 10 then 1 else 1 + ndigits_fuel fuel' (z / 10)
  end.
Definition ndigits (z : Z) : Z :=
  ndigits_fuel (Z.to_nat (Z.log2 (Z.abs z)) + 1)%nat (Z.abs z).

(** [c / p] rounded to an integer. *)
Definition rdiv (m : rounding) (c p : Z) : Z :=
  let q := Z.abs c / p in
  let r := Z.abs c mod p in
  let up := match m with
            | ROUND_HALF_EVEN => (p <? 2 * r) || ((2 * r =? p) && Z.odd q)
            | ROUND_HALF_UP => p <=? 2 * r
            | ROUND_CEILING => (0 <? c) && (0 <? r)
            end in
  Z.sgn c * (if up then q + 1 else q).

(** The coefficient of [d] at exponent [e]. *)
Definition rescale (m : rounding) (d : dec) (e : Z) : Z :=
  if dcoef d =? 0 then 0
  else if e <=? dexp d then dcoef d * 10 ^ (dexp d - e)
  else rdiv m (dcoef d) (10 ^ (e - dexp d)).

Definition adjusted (d : dec) : Z := ndigits (dcoef d) + dexp d - 1.

(** The exponent at which [d] is rounded. *)
Definition fix_exp (d : dec) : Z := Z.max (ndigits (dcoef d) + dexp d - dprec) etiny.

(** Rounding an exact result to the context. *)
Definition dfix (d : dec) : py dec :=
  if dcoef d =? 0 then Ok (Dec 0 (Z.min (Z.max (dexp d) etiny) emax))
  else if etop <? ndigits (dcoef d) + dexp d - dprec then Err DecimalOverflow
  else if fix_exp d <=? dexp d then Ok d
  else
    let c := rescale ROUND_HALF_EVEN d (fix_exp d) in
    if dprec <? ndigits c then
      if etop <? fix_exp d + 1 then Err DecimalOverflow
      else Ok (Dec (c / 10) (fix_exp d + 1))
    else Ok (Dec c (fix_exp d)).

Definition of_int (z : Z) : dec := Dec z 0.
Definition dzero : dec := Dec 0 0.

Definition dneg (d : dec) : dec := Dec (- dcoef d) (dexp d).

Definition dadd_exact (a b : dec) : dec :=
  let e := Z.min (dexp a) (dexp b) in
  Dec (dcoef a * 10 ^ (dexp a - e) + dcoef b * 10 ^ (dexp b - e)) e.

Definition dmul_exact (a b : dec) : dec :=
  Dec (dcoef a * dcoef b) (dexp a + dexp b).

Definition dadd (a b : dec) : py dec := dfix (dadd_exact a b).
Definition dsub (a b : dec) : py dec := dfix (dadd_exact a (dneg b)).
Definition dmul (a b : dec) : py dec := dfix (dmul_exact a b).

(** Trailing zeros are dropped from an exact quotient down to the ideal
    exponent. *)
Fixpoint strip_zeros (fuel : nat) (c e ideal : Z) : dec :=
  match fuel with
  | O => Dec c e
  | S fuel' =>
      if (e <? ideal) && (c mod 10 =? 0) then strip_zeros fuel' (c / 10) (e + 1) ideal
      else Dec c e
  end.

(** Division: enough digits for the precision plus one, with the last digit
    made sticky when the quotient is inexact. *)
Definition ddiv (a b : dec) : py dec :=
  if dcoef b =? 0 then
    if dcoef a =? 0 then Err DecimalInvalidOperation else Err DecimalDivisionByZero
  else if dcoef a =? 0 then dfix (Dec 0 (dexp a - dexp b))
  else
    let ca := Z.abs (dcoef a) in
    let cb := Z.abs (dcoef b) in
    let shift := ndigits cb - ndigits ca + dprec + 1 in
    let e := dexp a - dexp b - shift in
    let num := if 0 <=? shift then ca * 10 ^ shift else ca in
    let den := if 0 <=? shift then cb else cb * 10 ^ (- shift) in
    let q := num / den in
    let r := num mod den in
    let s := Z.sgn (dcoef a) * Z.sgn (dcoef b) in
    let d := if r =? 0
             then strip_zeros (Z.to_nat (Z.max 0 shift)) q e (dexp a - dexp b)
             else Dec (if q mod 5 =? 0 then q + 1 else q) e in
    dfix (Dec (s * dcoef d) (dexp d)).

(** [value.quantize(Decimal((0, (1,), e)), rounding=m)]. *)
Definition quantize (m : rounding) (d : dec) (e : Z) : py dec :=
  if (e <? etiny) || (emax <? e) then Err DecimalInvalidOperation
  else if dcoef d =? 0 then dfix (Dec 0 e)
  else if emax <? adjusted d then Err DecimalInvalidOperation
  else if dprec <? adjusted d - e + 1 then Err DecimalInvalidOperation
  else
    let r := Dec (rescale m d e) e in
    if (emax <? adjusted r) || (dprec <? ndigits (dcoef r))
    then Err DecimalInvalidOperation
    else dfix r.

(** [value.to_integral_value(rounding=m)]. *)
Definition to_integral (m : rounding) (d : dec) : dec :=
  if 0 <=? dexp d then d else Dec (rescale m d 0) 0.

(** [int(value)]: truncation toward zero. *)
Definition dint (d : dec) : Z :=
  if 0 <=? dexp d then dcoef d * 10 ^ dexp d
  else Z.quot (dcoef d) (10 ^ (- dexp d)).

(** Comparisons are exact. *)
Definition dcompare (a b : dec) : comparison :=
  let e := Z.min (dexp a) (dexp b) in
  (dcoef a * 10 ^ (dexp a - e) ?= dcoef b * 10 ^ (dexp b - e)).
Definition dleb (a b : dec) : bool := match dcompare a b with Gt => false | _ => true end.
Definition dltb (a b : dec) : bool := match dcompare a b with Lt => true | _ => false end.
Definition deqb (a b : dec) : bool := match dcompare a b with Eq => true | _ => false end.

(** The built-ins [max] and [min] keep the first of equal arguments. *)
Definition dmax (a b : dec) : dec := if dltb a b then b else a.
Definition dmin (a b : dec) : dec := if dltb b a then b else a.

(** [sum(items, start)]. *)
Definition dsum (start : dec) (l : list dec) : py dec := foldR dadd start l.

Example dadd_ex : dadd (Dec 15 (-1)) (Dec 25 (-2)) = Ok (Dec 175 (-2)).
Proof. reflexivity. Qed.
Example ddiv_third : ddiv (of_int 1) (of_int 3)
  = Ok (Dec 3333333333333333333333333333 (-28)).
Proof. vm_compute. reflexivity. Qed.
Example ddiv_exact : ddiv (of_int 10) (of_int 4) = Ok (Dec 25 (-1)).
Proof. vm_compute. reflexivity. Qed.
Example ddiv_ideal : ddiv (of_int 600000) (of_int 1000) = Ok (Dec 600 0).
Proof. vm_compute. reflexivity. Qed.
Example quantize_up : quantize ROUND_HALF_UP (Dec 12345675 (-7)) (-6) = Ok (Dec 1234568 (-6)).
Proof. vm_compute. reflexivity. Qed.
Example quantize_big : quantize ROUND_HALF_UP (Dec 1 23) (-6) = Err DecimalInvalidOperation.
Proof. vm_compute. reflexivity. Qed.
Example dmul_overflow : dmul (Dec 9 999999) (of_int 60) = Err DecimalOverflow.
Proof. vm_compute. reflexivity. Qed.

(** ** Digits *)

Lemma pow10_pos e : 0 <= e -> 0 < 10 ^ e.
Proof. intros. apply Z.pow_pos_nonneg; lia. Qed.

Lemma pow10_add a b : 0 <= a -> 0 <= b -> 10 ^ (a + b) = 10 ^ a * 10 ^ b.
Proof. intros. by apply Z.pow_add_r. Qed.

Lemma pow10_split a b : 0 <= a <= b -> 10 ^ b = 10 ^ a * 10 ^ (b - a).
Proof. intros. rewrite <- pow10_add by lia. f_equal. lia. Qed.

Lemma pow10_succ n : 0 <= n -> 10 ^ (1 + n) = 10 * 10 ^ n.
Proof. intros. rewrite pow10_add by lia. lia. Qed.

Lemma ndigits_fuel_spec fuel z :
  0 < z < 2 ^ Z.of_nat fuel ->
  1 <= ndigits_fuel fuel z /\
  10 ^ (ndigits_fuel fuel z - 1) <= z < 10 ^ (ndigits_fuel fuel z).
Proof.
  revert z; induction fuel as [|fuel IH]; intros z Hz; simpl ndigits_fuel.
  { simpl in Hz. lia. }
  rewrite Nat2Z.inj_succ, Z.pow_succ_r in Hz by lia.
  destruct (z <? 10) eqn:E; boolify; [split; [lia|]; simpl; lia|].
  assert (0 < z / 10 < 2 ^ Z.of_nat fuel) as H.
  { split; [apply Z.div_str_pos; lia|]. apply Z.div_lt_upper_bound; lia. }
  destruct (IH _ H) as (Hn & Hlo & Hhi).
  set (n := ndigits_fuel fuel (z / 10)) in *. split; [lia|].
  replace (1 + n - 1) with (1 + (n - 1)) by lia.
  rewrite !pow10_succ by lia.
  pose proof (Z.mul_div_le z 10). pose proof (Z.mul_succ_div_gt z 10). lia.
Qed.

Lemma ndigits_spec z :
  z <> 0 -> 1 <= ndigits z /\ 10 ^ (ndigits z - 1) <= Z.abs z < 10 ^ ndigits z.
Proof.
  intros Hz. apply ndigits_fuel_spec.
  rewrite Nat2Z.inj_add, Z2Nat.id by apply Z.log2_nonneg.
  pose proof (Z.log2_spec (Z.abs z)). rewrite Z.add_1_r. lia.
Qed.

Lemma ndigits_le z n : 0 <= n -> z <> 0 -> Z.abs z < 10 ^ n -> ndigits z <= n.
Proof.
  intros Hn Hz Hlt. destruct (ndigits_spec z Hz) as (H1 & Hlo & _).
  destruct (Z.le_gt_cases (ndigits z) n); [done|exfalso].
  assert (10 ^ n <= 10 ^ (ndigits z - 1)) by (apply Z.pow_le_mono_r; lia). lia.
Qed.

Lemma ndigits_gt z n : z <> 0 -> n < ndigits z -> 10 ^ n <= Z.abs z.
Proof.
  intros Hz Hlt. destruct (ndigits_spec z Hz) as (H1 & Hlo & _).
  assert (10 ^ n <= 10 ^ (ndigits z - 1)) by (apply Z.pow_le_mono_r; lia). lia.
Qed.

(** ** Integer rounding *)

Section Rdiv.
Context (p : Z) (Hp : 0 < p).

Lemma rdiv_0 m : rdiv m 0 p = 0.
Proof. by destruct m. Qed.

Lemma rdiv_opp m c : m <> ROUND_CEILING -> rdiv m (- c) p = - rdiv m c p.
Proof. intros ?. unfold rdiv. rewrite Z.abs_opp, Z.sgn_opp. destruct m; [by rewrite Z.mul_opp_l..|done]. Qed.

Lemma rdiv_nonneg m c : 0 <= c -> 0 <= rdiv m c p.
Proof.
  intros. unfold rdiv. pose proof (Z.div_pos (Z.abs c) p ltac:(lia) Hp) as Hq.
  apply Z.mul_nonneg_nonneg; [by apply Z.sgn_nonneg|].
  destruct m; step_case; lia.
Qed.

(** Rounding to nearest is within half a unit. *)
Lemma rdiv_error m c : m <> ROUND_CEILING -> 2 * Z.abs (rdiv m c p * p - c) <= p.
Proof.
  intros Hm. unfold rdiv.
  pose proof (Z.div_mod (Z.abs c) p ltac:(lia)) as Hdm.
  pose proof (Z.mod_pos_bound (Z.abs c) p Hp) as Hr.
  set (q := Z.abs c / p) in *. set (r := Z.abs c mod p) in *.
  assert (c = Z.sgn c * (p * q + r)) as Hc by (rewrite <- Hdm; rewrite Z.mul_comm; symmetry; apply Z.abs_sgn).
  destruct m; [| |done].
  - destruct ((p <? 2 * r) || ((2 * r =? p) && Z.odd q)) eqn:E.
    + apply orb_true_iff in E as [E|[E _]%andb_true_iff]; boolify;
        destruct (Z.sgn_spec c) as [[? ->]|[[? ->]|[? ->]]]; nia.
    + boolify. destruct (Z.sgn_spec c) as [[? ->]|[[? ->]|[? ->]]]; nia.
  - destruct (p <=? 2 * r) eqn:E; boolify;
      destruct (Z.sgn_spec c) as [[? ->]|[[? ->]|[? ->]]]; nia.
Qed.

(** Rounding to nearest is monotone. *)
Lemma rdiv_mono m a b :
  m <> ROUND_CEILING -> 0 <= a <= b -> rdiv m a p <= rdiv m b p.
Proof.
  intros Hm Hab.
  destruct (Z.le_gt_cases (rdiv m a p) (rdiv m b p)) as [|Hgt]; [done|exfalso].
  pose proof (rdiv_error m a Hm) as Ha. pose proof (rdiv_error m b Hm) as Hb.
  assert (a = b) as -> by nia. lia.
Qed.

(** Scaling numerator and denominator changes nothing. *)
Lemma rdiv_scale m c k : 0 < k -> rdiv m (c * k) (p * k) = rdiv m c p.
Proof.
  intros Hk. unfold rdiv.
  rewrite Z.abs_mul, (Z.abs_eq k) by lia.
  rewrite Z.div_mul_cancel_r, Zmult_mod_distr_r by lia.
  rewrite Z.sgn_mul, (Z.sgn_pos k), Z.mul_1_r by lia.
  set (q := Z.abs c / p). set (r := Z.abs c mod p).
  replace (p * k <? 2 * (r * k)) with (p <? 2 * r)
    by (destruct (p <? 2*r) eqn:?, (p * k <? 2 * (r * k)) eqn:?; boolify; done || nia).
  replace (2 * (r * k) =? p * k) with (2 * r =? p)
    by (destruct (2*r =? p) eqn:?, (2 * (r * k) =? p * k) eqn:?; boolify; done || nia).
  replace (p * k <=? 2 * (r * k)) with (p <=? 2 * r)
    by (destruct (p <=? 2*r) eqn:?, (p * k <=? 2 * (r * k)) eqn:?; boolify; done || nia).
  replace (0 <? c * k) with (0 <? c)
    by (destruct (0 <? c) eqn:?, (0 <? c*k) eqn:?; boolify; done || nia).
  replace (0 <? r * k) with (0 <? r)
    by (destruct (0 <? r) eqn:?, (0 <? r*k) eqn:?; boolify; done || nia).
  done.
Qed.

Lemma rdiv_exact m c : rdiv m (c * p) p = c.
Proof.
  unfold rdiv. rewrite Z.abs_mul, (Z.abs_eq p) by lia.
  rewrite Z.div_mul, Z.mod_mul by lia.
  rewrite Z.sgn_mul, (Z.sgn_pos p), Z.mul_1_r by lia.
  replace (match m with _ => _ end) with false; [lia|].
  destruct m; symmetry; rewrite ?Z.mul_0_r.
  - apply orb_false_iff; split; [apply Z.ltb_ge; lia|].
    apply andb_false_iff; left. apply Z.eqb_neq. lia.
  - apply Z.leb_gt. lia.
  - by rewrite andb_false_r.
Qed.
End Rdiv.


(** ** Values

    [dval d] is the rational a decimal denotes. *)
#[local] Open Scope Q_scope.

Definition ten (e : Z) : Q := Qpower (10 # 1) e.
Definition dval (d : dec) : Q := inject_Z (dcoef d) * ten (dexp d).

Lemma ten_pos e : 0 < ten e.
Proof. apply Qpower_0_lt. reflexivity. Qed.

Lemma ten_add a b : ten (a + b) == ten a * ten b.
Proof. apply Qpower_plus. discriminate. Qed.

Lemma ten_nonneg_exp e : (0 <= e)%Z -> ten e == inject_Z (10 ^ e).
Proof.
  intros He. unfold ten. rewrite Zpower_Qpower by done. reflexivity.
Qed.

Lemma ten_split a b : (a <= b)%Z -> ten b == inject_Z (10 ^ (b - a)) * ten a.
Proof.
  intros. rewrite <- ten_nonneg_exp by lia. rewrite <- ten_add.
  by replace (b - a + a)%Z with b by lia.
Qed.

(** A decimal read at any exponent below its own. *)
Lemma dval_at d s :
  (s <= dexp d)%Z -> dval d == inject_Z (dcoef d * 10 ^ (dexp d - s)) * ten s.
Proof.
  intros. unfold dval. rewrite (ten_split s (dexp d)) by done.
  rewrite inject_Z_mult. ring.
Qed.

Lemma inject_ten_le a b s : inject_Z a * ten s <= inject_Z b * ten s <-> (a <= b)%Z.
Proof.
  rewrite Qmult_le_r by apply ten_pos. by rewrite <- Zle_Qle.
Qed.

Lemma inject_ten_lt a b s : inject_Z a * ten s < inject_Z b * ten s <-> (a < b)%Z.
Proof.
  rewrite Qmult_lt_r by apply ten_pos. by rewrite <- Zlt_Qlt.
Qed.

Section Compare.
Context (a b : dec).
Let s := Z.min (dexp a) (dexp b).

Lemma dleb_spec : dleb a b = true <-> dval a <= dval b.
Proof.
  rewrite (dval_at a s), (dval_at b s) by lia. rewrite inject_ten_le.
  unfold dleb, dcompare. fold s.
  destruct (Z.compare_spec (dcoef a * 10 ^ (dexp a - s)) (dcoef b * 10 ^ (dexp b - s)));
    split; intros; done || lia.
Qed.

Lemma dltb_spec : dltb a b = true <-> dval a < dval b.
Proof.
  rewrite (dval_at a s), (dval_at b s) by lia. rewrite inject_ten_lt.
  unfold dltb, dcompare. fold s.
  destruct (Z.compare_spec (dcoef a * 10 ^ (dexp a - s)) (dcoef b * 10 ^ (dexp b - s)));
    split; intros; done || lia.
Qed.
End Compare.

Lemma dleb_false a b : dleb a b = false <-> dval b < dval a.
Proof.
  destruct (dleb a b) eqn:E.
  - apply dleb_spec in E. split; [done|]. intros H. by apply Qle_not_lt in E.
  - split; [|done]. intros _. apply Qnot_le_lt. intros H%dleb_spec. congruence.
Qed.

Lemma dltb_false a b : dltb a b = false <-> dval b <= dval a.
Proof.
  destruct (dltb a b) eqn:E.
  - apply dltb_spec in E. split; [done|]. intros H. by apply Qlt_not_le in E.
  - split; [|done]. intros _. apply Qnot_lt_le. intros H%dltb_spec. congruence.
Qed.

Lemma deqb_spec a b : deqb a b = true <-> dval a == dval b.
Proof.
  transitivity (dleb a b = true /\ dltb a b = false).
  - unfold deqb, dleb, dltb. destruct (dcompare a b); naive_solver.
  - rewrite dleb_spec, dltb_false. split.
    + intros [? ?]. by apply Qle_antisym.
    + intros ->. split; apply Qle_refl.
Qed.

Lemma dcoef_nonneg d : (0 <= dcoef d)%Z <-> 0 <= dval d.
Proof.
  unfold dval. rewrite <- (inject_ten_le 0 _ (dexp d)).
  assert (inject_Z 0 * ten (dexp d) == 0) as -> by ring. reflexivity.
Qed.

Lemma dadd_exact_val a b : dval (dadd_exact a b) == dval a + dval b.
Proof.
  unfold dadd_exact. set (e := Z.min (dexp a) (dexp b)).
  rewrite (dval_at a e), (dval_at b e) by lia. unfold dval; cbn [dcoef dexp].
  rewrite inject_Z_plus. ring.
Qed.

Lemma dneg_val a : dval (dneg a) == - dval a.
Proof. unfold dval, dneg; cbn [dcoef dexp]. rewrite inject_Z_opp. ring. Qed.

Lemma dmul_exact_val a b : dval (dmul_exact a b) == dval a * dval b.
Proof.
  unfold dval, dmul_exact; cbn [dcoef dexp]. rewrite inject_Z_mult, ten_add. ring.
Qed.

Lemma dval_of_int z : dval (of_int z) == inject_Z z.
Proof. unfold dval, of_int, ten; cbn [dcoef dexp]. rewrite Qpower_0_r. ring. Qed.

(** ** Rounding to the context *)
#[local] Open Scope Z_scope.

Lemma rescale_common m d e s :
  s <= e -> s <= dexp d ->
  rescale m d e = rdiv m (dcoef d * 10 ^ (dexp d - s)) (10 ^ (e - s)).
Proof.
  intros. unfold rescale. destruct (dcoef d =? 0) eqn:E0; boolify.
  { rewrite E0, Z.mul_0_l. symmetry. apply rdiv_0. }
  destruct (e <=? dexp d) eqn:E; boolify.
  - rewrite (pow10_split (e - s) (dexp d - s)) by lia.
    replace (dexp d - s - (e - s)) with (dexp d - e) by lia.
    rewrite (Z.mul_comm (10 ^ (e - s))), Z.mul_assoc. symmetry.
    apply rdiv_exact, pow10_pos. lia.
  - rewrite (pow10_split (dexp d - s) (e - s)) by lia.
    replace (e - s - (dexp d - s)) with (e - dexp d) by lia.
    rewrite (Z.mul_comm (10 ^ (dexp d - s)) (10 ^ (e - dexp d))).
    symmetry. apply rdiv_scale; apply pow10_pos; lia.
Qed.

Lemma rescale_nonneg m d e : 0 <= dcoef d -> 0 <= rescale m d e.
Proof.
  intros. set (s := Z.min e (dexp d)). rewrite (rescale_common m d e s) by lia.
  apply rdiv_nonneg; [apply pow10_pos; lia|].
  apply Z.mul_nonneg_nonneg; [done|]. apply Z.lt_le_incl, pow10_pos; lia.
Qed.

Lemma rescale_mono m a b e :
  m <> ROUND_CEILING -> 0 <= dcoef a -> (dval a <= dval b)%Q ->
  rescale m a e <= rescale m b e.
Proof.
  intros Hm Ha Hab. set (s := Z.min e (Z.min (dexp a) (dexp b))).
  rewrite (rescale_common m a e s), (rescale_common m b e s) by lia.
  apply rdiv_mono; [apply pow10_pos; lia|done|split].
  - apply Z.mul_nonneg_nonneg; [done|]. apply Z.lt_le_incl, pow10_pos; lia.
  - rewrite (dval_at a s), (dval_at b s) in Hab by lia. by apply inject_ten_le in Hab.
Qed.

Lemma rescale_error m d e :
  m <> ROUND_CEILING ->
  (Qabs (inject_Z (rescale m d e) * ten e - dval d) <= (1 # 2) * ten e)%Q.
Proof.
  intros Hm. set (s := Z.min e (dexp d)).
  assert (0 < 10 ^ (e - s)) as Hp by (apply pow10_pos; lia).
  pose proof (rdiv_error _ Hp m (dcoef d * 10 ^ (dexp d - s)) Hm) as Herr.
  rewrite (dval_at d s) by lia. rewrite (ten_split s e) by lia.
  rewrite (rescale_common m d e s) by lia.
  set (r := rdiv _ _ _) in *. set (c := dcoef d * _) in *. set (p := 10 ^ (e - s)) in *.
  assert (inject_Z r * (inject_Z p * ten s) - inject_Z c * ten s
          == inject_Z (r * p - c) * ten s)%Q as ->.
  { unfold Z.sub. rewrite inject_Z_plus, inject_Z_mult, inject_Z_opp. ring. }
  rewrite Qabs_Qmult, (Qabs_pos (ten s)) by apply Qlt_le_weak, ten_pos.
  assert (Qabs (inject_Z (r * p - c)) == inject_Z (Z.abs (r * p - c)))%Q as -> by done.
  rewrite Qmult_assoc. apply Qmult_le_compat_r; [|apply Qlt_le_weak, ten_pos].
  unfold Qle, inject_Z; simpl. lia.
Qed.

Lemma fix_exp_ge d : ndigits (dcoef d) + dexp d - dprec <= fix_exp d.
Proof. unfold fix_exp. lia. Qed.

(** A coefficient rounded at [fix_exp] has at most 28 digits, or is [10^28]. *)
Lemma rescale_fix_bound d :
  dcoef d <> 0 -> Z.abs (rescale ROUND_HALF_EVEN d (fix_exp d)) <= 10 ^ 28.
Proof.
  intros Hz. pose proof (fix_exp_ge d) as He. unfold dprec in He.
  destruct (ndigits_spec _ Hz) as (Hn & _ & Hhi).
  unfold rescale. destruct (dcoef d =? 0) eqn:E0; boolify; [done|].
  set (n := ndigits (dcoef d)) in *.
  destruct (fix_exp d <=? dexp d) eqn:E; boolify.
  - rewrite Z.abs_mul, (Z.abs_eq (10 ^ _)) by (apply Z.lt_le_incl, pow10_pos; lia).
    apply Z.le_trans with (10 ^ n * 10 ^ (dexp d - fix_exp d)).
    + apply Z.mul_le_mono_nonneg_r; [apply Z.lt_le_incl, pow10_pos; lia|lia].
    + rewrite <- pow10_add by lia. apply Z.pow_le_mono_r; lia.
  - set (k := fix_exp d - dexp d). assert (0 < 10 ^ k) as Hp by (apply pow10_pos; lia).
    assert (Z.abs (dcoef d) / 10 ^ k < 10 ^ 28) as Hq.
    { apply Z.div_lt_upper_bound; [done|]. rewrite <- pow10_add by lia.
      eapply Z.lt_le_trans; [apply Hhi|]. apply Z.pow_le_mono_r; lia. }
    pose proof (Z.div_pos (Z.abs (dcoef d)) (10 ^ k) ltac:(lia) Hp).
    unfold rdiv. fold k. rewrite Z.abs_mul.
    assert (Z.abs (Z.sgn (dcoef d)) = 1) as -> by lia.
    step_case; lia.
Qed.

Lemma dfix_zero d : dcoef d = 0 ->
  dfix d = Ok (Dec 0 (Z.min (Z.max (dexp d) etiny) emax)).
Proof. intros H. unfold dfix. by rewrite H. Qed.

(** The value of a rounded decimal. *)
Lemma dfix_val d d' :
  dfix d = Ok d' ->
  (dval d' == inject_Z (rescale ROUND_HALF_EVEN d (fix_exp d)) * ten (fix_exp d))%Q.
Proof.
  unfold dfix. destruct (dcoef d =? 0) eqn:E0; boolify.
  { intros [= <-]. unfold rescale. rewrite E0. unfold dval; simpl. ring. }
  destruct (etop <? _) eqn:E1; [done|]. destruct (fix_exp d <=? dexp d) eqn:E2; boolify.
  { intros [= <-]. rewrite (dval_at d (fix_exp d)) by done. unfold rescale.
    replace (dcoef d =? 0) with false by (symmetry; by apply Z.eqb_neq).
    by replace (fix_exp d <=? dexp d) with true by (symmetry; by apply Z.leb_le). }
  pose proof (rescale_fix_bound d E0) as Hb.
  set (c := rescale ROUND_HALF_EVEN d (fix_exp d)) in *.
  destruct (dprec <? ndigits c) eqn:E3; boolify.
  2: { by intros [= <-]. }
  destruct (etop <? _); [done|]. intros [= <-].
  assert (c <> 0) as Hc by (intros Hc; by rewrite Hc in E3).
  apply (ndigits_gt c dprec Hc) in E3. unfold dprec in E3.
  assert (c = 10 * (c / 10)) as Hc10.
  { destruct (Z.abs_spec c) as [[? Hac]|[? Hac]].
    - assert (c = 10 ^ 28) as -> by lia. done.
    - assert (c = - 10 ^ 28) as -> by lia. done. }
  unfold dval; cbn [dcoef dexp]. rewrite Hc10 at 2.
  rewrite inject_Z_mult, ten_add.
  assert (ten 1 == inject_Z 10)%Q as -> by reflexivity. ring.
Qed.

(** Rounding to the context is within half a unit of the last digit kept. *)
Lemma dfix_error d d' :
  dfix d = Ok d' -> (Qabs (dval d' - dval d) <= (1 # 2) * ten (fix_exp d))%Q.
Proof. intros H. rewrite (dfix_val d d' H). by apply rescale_error. Qed.

Lemma dfix_nonneg d d' : dfix d = Ok d' -> (0 <= dval d -> 0 <= dval d')%Q.
Proof.
  intros H Hd. rewrite (dfix_val d d' H).
  apply Qmult_le_0_compat; [|apply Qlt_le_weak, ten_pos].
  change 0%Q with (inject_Z 0). rewrite <- Zle_Qle.
  apply rescale_nonneg. by apply dcoef_nonneg.
Qed.

(** Rounding keeps the sign. *)
Lemma rescale_nonpos d e : dcoef d <= 0 -> rescale ROUND_HALF_EVEN d e <= 0.
Proof.
  intros Hd. set (s := Z.min e (dexp d)).
  rewrite (rescale_common ROUND_HALF_EVEN d e s) by lia.
  pose proof (pow10_pos (dexp d - s) ltac:(lia)) as Hp.
  set (c := dcoef d * _). assert (c <= 0) by (unfold c; nia).
  rewrite <- (Z.opp_involutive c), rdiv_opp by done.
  pose proof (rdiv_nonneg (10 ^ (e - s)) (pow10_pos (e - s) ltac:(lia)) ROUND_HALF_EVEN (- c)
                ltac:(lia)). lia.
Qed.

Lemma dval_zero e : (dval (Dec 0 e) == 0)%Q.
Proof. unfold dval; cbn [dcoef dexp]. ring. Qed.

Lemma dcoef_pos d : 0 < dcoef d <-> (0 < dval d)%Q.
Proof.
  unfold dval. rewrite <- (inject_ten_lt 0 _ (dexp d)).
  assert (inject_Z 0 * ten (dexp d) == 0)%Q as -> by ring. reflexivity.
Qed.

Lemma dval_bounds d :
  0 < dcoef d ->
  (ten (ndigits (dcoef d) + dexp d - 1) <= dval d < ten (ndigits (dcoef d) + dexp d))%Q.
Proof.
  intros Hd. destruct (ndigits_spec (dcoef d)) as (Hn & Hlo & Hhi); [lia|].
  rewrite Z.abs_eq in Hlo, Hhi by lia. unfold dval.
  rewrite (ten_split (dexp d) (_ - 1)), (ten_split (dexp d) (_ + _)) by lia.
  rewrite inject_ten_le, inject_ten_lt.
  replace (ndigits (dcoef d) + dexp d - 1 - dexp d) with (ndigits (dcoef d) - 1) by lia.
  replace (ndigits (dcoef d) + dexp d - dexp d) with (ndigits (dcoef d)) by lia.
  lia.
Qed.

Lemma ten_le_mono a b : a <= b -> (ten a <= ten b)%Q.
Proof.
  intros. rewrite (ten_split a b) by done.
  rewrite <- (Qmult_1_l (ten a)) at 1. apply Qmult_le_compat_r; [|apply Qlt_le_weak, ten_pos].
  change 1%Q with (inject_Z 1). rewrite <- Zle_Qle.
  pose proof (pow10_pos (b - a)). lia.
Qed.

Lemma fix_exp_mono a b :
  0 < dcoef a -> (dval a <= dval b)%Q -> fix_exp a <= fix_exp b.
Proof.
  intros Ha Hab.
  assert (0 < dcoef b) as Hb by (apply dcoef_pos in Ha; apply dcoef_pos; lra).
  destruct (Z.le_gt_cases (fix_exp a) (fix_exp b)) as [|Hlt]; [done|exfalso].
  destruct (dval_bounds a Ha) as [Hlo _]. destruct (dval_bounds b Hb) as [_ Hhi].
  assert (ndigits (dcoef b) + dexp b <= ndigits (dcoef a) + dexp a - 1) as Hd
    by (unfold fix_exp in *; lia).
  apply ten_le_mono in Hd. lra.
Qed.

Lemma rescale_fix_low d :
  0 < dcoef d -> fix_exp d = ndigits (dcoef d) + dexp d - dprec ->
  10 ^ 27 <= rescale ROUND_HALF_EVEN d (fix_exp d).
Proof.
  intros Hd He. set (p := Dec (10 ^ 27) (fix_exp d)).
  assert (rescale ROUND_HALF_EVEN p (fix_exp d) = 10 ^ 27) as <-.
  { unfold rescale, p; cbn [dcoef dexp]. rewrite Z.leb_refl, Z.sub_diag. done. }
  apply rescale_mono; [done|simpl; lia|].
  destruct (dval_bounds d Hd) as [Hlo _]. eapply Qle_trans; [|exact Hlo].
  unfold dval, p; cbn [dcoef dexp]. rewrite <- ten_nonneg_exp by lia.
  rewrite <- ten_add. apply ten_le_mono. rewrite He. unfold dprec. lia.
Qed.

Lemma dfix_nonpos d d' : dfix d = Ok d' -> (dval d <= 0)%Q -> dcoef d' <= 0.
Proof.
  intros H Hd. assert (dcoef d <= 0) as Hc.
  { destruct (Z.le_gt_cases (dcoef d) 0) as [|Hpos]; [done|].
    apply dcoef_pos in Hpos. lra. }
  apply (rescale_nonpos d (fix_exp d)) in Hc.
  destruct (Z.le_gt_cases (dcoef d') 0) as [|Hpos]; [done|exfalso].
  apply dcoef_pos in Hpos. rewrite (dfix_val d d' H) in Hpos.
  assert (inject_Z (rescale ROUND_HALF_EVEN d (fix_exp d)) * ten (fix_exp d)
          <= inject_Z 0 * ten (fix_exp d))%Q as Hle by (by apply inject_ten_le).
  assert (inject_Z 0 * ten (fix_exp d) == 0)%Q as Hz by ring. lra.
Qed.

(** Rounding to the context is monotone. *)
Lemma dfix_mono a b a' b' :
  (0 <= dval a)%Q -> (dval a <= dval b)%Q -> dfix a = Ok a' -> dfix b = Ok b' ->
  (dval a' <= dval b')%Q.
Proof.
  intros Ha Hab Hfa Hfb. apply dcoef_nonneg in Ha as Hca.
  destruct (Z.eq_dec (dcoef a) 0) as [Hz|Hz].
  { rewrite dfix_zero in Hfa by done. injection Hfa as <-.
    rewrite dval_zero.
    eapply dfix_nonneg; [done|]. lra. }
  assert (0 < dcoef a) as Hpa by lia.
  pose proof (fix_exp_mono a b Hpa Hab) as He.
  rewrite (dfix_val a a' Hfa), (dfix_val b b' Hfb).
  destruct (Z.eq_dec (fix_exp a) (fix_exp b)) as [Heq|Hne].
  { rewrite <- Heq. apply inject_ten_le. by apply rescale_mono. }
  apply Qle_trans with (ten (28 + fix_exp a)).
  - rewrite ten_add, (ten_nonneg_exp 28) by lia. apply inject_ten_le.
    pose proof (rescale_fix_bound a Hz). lia.
  - apply Qle_trans with (ten (27 + fix_exp b)); [apply ten_le_mono; lia|].
    rewrite ten_add, (ten_nonneg_exp 27) by lia. apply inject_ten_le.
    assert (0 < dcoef b) as Hpb by (apply dcoef_pos in Hpa; apply dcoef_pos; lra).
    apply rescale_fix_low; [done|]. unfold fix_exp in *. lia.
Qed.

(** ** Exact cases *)

Lemma ndigits_small z n : 1 <= n -> Z.abs z < 10 ^ n -> ndigits z <= n.
Proof.
  intros. destruct (decide (z = 0)) as [->|]; [change (ndigits 0) with 1; lia|].
  apply ndigits_le; lia.
Qed.

(** A coefficient of at most 28 digits in the exponent range is unchanged. *)
Lemma dfix_small d :
  Z.abs (dcoef d) < 10 ^ 28 -> etiny <= dexp d <= etop -> dfix d = Ok d.
Proof.
  intros Hc He. pose proof (ndigits_small (dcoef d) 28 ltac:(lia) Hc) as Hn.
  unfold dfix, fix_exp, etiny, etop, emin, emax, dprec in *.
  destruct (dcoef d =? 0) eqn:E; boolify.
  - destruct d as [c e]; simpl in *; subst. do 2 f_equal. lia.
  - destruct (999999 - 28 + 1 <? _) eqn:E1; boolify; [lia|].
    destruct (_ <=? dexp d) eqn:E2; boolify; [done|lia].
Qed.

(** Micro-dollar amounts: the scale of every [USD] column and quantum. *)
Definition micro (z : Z) : dec := Dec z (-6).
Definition micro_limit : Z := 10 ^ 28.

Lemma dval_micro z : (dval (micro z) == inject_Z z * ten (-6))%Q.
Proof. reflexivity. Qed.

Lemma dadd_micro a b :
  Z.abs (a + b) < micro_limit -> dadd (micro a) (micro b) = Ok (micro (a + b)).
Proof.
  intros H. unfold dadd, dadd_exact, micro; cbn [dcoef dexp].
  rewrite Z.min_id, Z.sub_diag, !Z.pow_0_r, !Z.mul_1_r.
  apply dfix_small; [exact H|]. by unfold etiny, etop; simpl.
Qed.

Lemma dsub_micro a b :
  Z.abs (a - b) < micro_limit -> dsub (micro a) (micro b) = Ok (micro (a - b)).
Proof. intros H. change (dsub (micro a) (micro b)) with (dadd (micro a) (micro (- b))).
  rewrite dadd_micro; done. Qed.

Lemma dltb_micro a b : dltb (micro a) (micro b) = (a <? b).
Proof.
  unfold dltb, dcompare, micro; cbn [dcoef dexp].
  rewrite Z.min_id, Z.sub_diag, !Z.pow_0_r, !Z.mul_1_r. reflexivity.
Qed.

Lemma dleb_micro a b : dleb (micro a) (micro b) = (a <=? b).
Proof.
  unfold dleb, dcompare, micro; cbn [dcoef dexp].
  rewrite Z.min_id, Z.sub_diag, !Z.pow_0_r, !Z.mul_1_r. reflexivity.
Qed.

(** ** Operations on non-negative amounts *)

Lemma dadd_nonneg a b r :
  (0 <= dval a)%Q -> (0 <= dval b)%Q -> dadd a b = Ok r -> (0 <= dval r)%Q.
Proof.
  intros Ha Hb H. eapply dfix_nonneg; [done|]. rewrite dadd_exact_val. lra.
Qed.

Lemma dmul_nonneg a b r :
  (0 <= dval a)%Q -> (0 <= dval b)%Q -> dmul a b = Ok r -> (0 <= dval r)%Q.
Proof.
  intros Ha Hb H. eapply dfix_nonneg; [done|]. rewrite dmul_exact_val.
  by apply Qmult_le_0_compat.
Qed.

Lemma dadd_mono a b a' b' r r' :
  (0 <= dval a)%Q -> (0 <= dval b)%Q -> (dval a <= dval a')%Q -> (dval b <= dval b')%Q ->
  dadd a b = Ok r -> dadd a' b' = Ok r' -> (dval r <= dval r')%Q.
Proof.
  intros ???? H H'. eapply dfix_mono; [..|done|done]; rewrite !dadd_exact_val; lra.
Qed.

Lemma dmul_mono a b a' b' r r' :
  (0 <= dval a)%Q -> (0 <= dval b)%Q -> (dval a <= dval a')%Q -> (dval b <= dval b')%Q ->
  dmul a b = Ok r -> dmul a' b' = Ok r' -> (dval r <= dval r')%Q.
Proof.
  intros ???? H H'. eapply dfix_mono; [..|done|done]; rewrite !dmul_exact_val; nra.
Qed.

(** ** [quantize] *)

Lemma quantize_Ok m d e q :
  quantize m d e = Ok q ->
  q = Dec (rescale m d e) e /\ ndigits (dcoef q) <= dprec /\ etiny <= e <= emax.
Proof.
  unfold quantize. intros H. inv_ok. apply orb_false_iff in Hg as [Hg1 Hg2]. boolify.
  destruct (dcoef d =? 0) eqn:E0; boolify.
  - rewrite dfix_zero in H by done. injection H as <-. cbn [dexp].
    unfold rescale. rewrite E0; simpl. split_and!; [f_equal; lia|done|lia|lia].
  - inv_ok. set (r := Dec (rescale m d e) e) in *.
    apply orb_false_iff in Hg3 as [Hr1 Hr2]. boolify.
    assert (dfix r = Ok r) as Hr.
    { unfold dfix, fix_exp. unfold adjusted in Hr1.
      unfold etop, emax, dprec in *. subst r; cbn [dcoef dexp] in *.
      destruct (rescale m d e =? 0) eqn:E1; boolify.
      - rewrite E1. do 2 f_equal. lia.
      - destruct (_ <? _) eqn:E2; boolify; [lia|].
        destruct (_ <=? _) eqn:E3; boolify; [done|lia]. }
    rewrite Hr in H. injection H as <-. unfold r in *; simpl in *. split_and!; [done|lia|lia|lia].
Qed.

(** [quantize] to nearest moves a value by at most half a quantum. *)
Lemma quantize_error m d e q :
  m <> ROUND_CEILING -> quantize m d e = Ok q ->
  (Qabs (dval q - dval d) <= (1 # 2) * ten e)%Q.
Proof.
  intros Hm (-> & _)%quantize_Ok. unfold dval at 1; cbn [dcoef dexp].
  by apply rescale_error.
Qed.

Lemma quantize_mono m a b e qa qb :
  m <> ROUND_CEILING -> (0 <= dval a)%Q -> (dval a <= dval b)%Q ->
  quantize m a e = Ok qa -> quantize m b e = Ok qb -> (dval qa <= dval qb)%Q.
Proof.
  intros Hm Ha Hab (-> & _)%quantize_Ok (-> & _)%quantize_Ok.
  apply inject_ten_le. apply rescale_mono; [done|by apply dcoef_nonneg|done].
Qed.

Lemma quantize_nonneg m d e q :
  (0 <= dval d)%Q -> quantize m d e = Ok q -> (0 <= dval q)%Q.
Proof.
  intros Hd (-> & _)%quantize_Ok. apply dcoef_nonneg. cbn [dcoef].
  apply rescale_nonneg. by apply dcoef_nonneg.
Qed.

(** The USD quantum is [0.000001]: quantized amounts are micro-dollars. *)
Definition quantize_usd (d : dec) : py dec := quantize ROUND_HALF_UP d (-6).

Lemma quantize_usd_micro d q :
  quantize_usd d = Ok q -> q = micro (dcoef q) /\ Z.abs (dcoef q) < micro_limit.
Proof.
  intros (-> & Hn & _)%quantize_Ok. split; [done|]. cbn [dcoef] in *.
  set (c := rescale _ _ _) in *. destruct (decide (c = 0)) as [->|Hc]; [done|].
  destruct (ndigits_spec c Hc) as (_ & _ & Hhi). unfold dprec in Hn.
  eapply Z.lt_le_trans; [done|]. apply Z.pow_le_mono_r; lia.
Qed.

(** A micro-dollar amount is its own quantization. *)
Lemma quantize_usd_id z : Z.abs z < micro_limit -> quantize_usd (micro z) = Ok (micro z).
Proof.
  intros Hz. pose proof (ndigits_small z 28 ltac:(lia) Hz) as Hn.
  unfold quantize_usd, quantize. replace ((-6 <? etiny) || (emax <? -6)) with false by done.
  destruct (dcoef (micro z) =? 0) eqn:E0; boolify.
  { cbn [micro dcoef] in E0. subst. done. }
  assert (rescale ROUND_HALF_UP (micro z) (-6) = z) as Hr.
  { unfold rescale. replace (dcoef (micro z) =? 0) with false by (symmetry; by apply Z.eqb_neq).
    cbn [micro dcoef dexp]. rewrite Z.leb_refl, Z.sub_diag. lia. }
  rewrite Hr. change (Dec z (-6)) with (micro z).
  assert (adjusted (micro z) = ndigits z - 7) as Ha by (unfold adjusted; simpl; lia).
  rewrite Ha. unfold emax, dprec.
  destruct (999999 <? _) eqn:E1; boolify; [lia|].
  destruct (28 <? _) eqn:E2; boolify; [lia|]. cbn [orb micro dcoef].
  destruct (28 <? ndigits z) eqn:E3; boolify; [lia|].
  apply dfix_small; [done|]. by unfold etiny, etop; simpl.
Qed.

(** An accumulator of micro-dollar amounts: it starts as [Decimal("0")],
    whose exponent differs. *)
Definition is_micro (d : dec) (z : Z) : Prop := d = micro z \/ (d = dzero /\ z = 0).

Lemma is_micro_val d z : is_micro d z -> (dval d == dval (micro z))%Q.
Proof.
  intros [->|[-> ->]]; [reflexivity|]. unfold dzero, micro. by rewrite !dval_zero.
Qed.

Lemma is_micro_add d e a b :
  is_micro d a -> is_micro e b -> Z.abs (a + b) < micro_limit ->
  exists s, dadd d e = Ok s /\ is_micro s (a + b).
Proof.
  intros [->|[-> ->]] [->|[-> ->]] H.
  - exists (micro (a + b)). split; [by apply dadd_micro|by left].
  - exists (micro (a + 0)). split; [rewrite <- (dadd_micro a 0) by done; reflexivity|by left].
  - exists (micro (0 + b)). split; [rewrite <- (dadd_micro 0 b) by done; reflexivity|by left].
  - exists dzero. split; [reflexivity|by right].
Qed.

Lemma is_micro_quantize d z :
  is_micro d z -> Z.abs z < micro_limit -> quantize_usd d = Ok (micro z).
Proof. intros [->|[-> ->]] H; [by apply quantize_usd_id|reflexivity]. Qed.

(** ** Amounts of money

    A quantized non-negative amount, and sums of such amounts. *)

Definition usd_is (d : dec) (z : Z) : Prop := d = micro z /\ 0 <= z < micro_limit.
Definition amounts_are (ds : list dec) (zs : list Z) : Prop := Forall2 usd_is ds zs.
Definition zsum (zs : list Z) : Z := foldr Z.add 0 zs.

Lemma micro_nonneg z : 0 <= z -> (0 <= dval (micro z))%Q.
Proof. intros H. by apply dcoef_nonneg. Qed.

Lemma zsum_app l k : zsum (l ++ k) = zsum l + zsum k.
Proof. unfold zsum. induction l as [|z l IH]; simpl; lia. Qed.

Lemma zsum_perm l k : l ≡ₚ k -> zsum l = zsum k.
Proof. unfold zsum. induction 1; simpl in *; lia. Qed.

Lemma amounts_nonneg ds zs : amounts_are ds zs -> 0 <= zsum zs.
Proof. unfold amounts_are, zsum. induction 1 as [|d z ds zs [_ Hz] _ IH]; simpl; lia. Qed.

(** The first amount that has no quantization, as the sum that reaches it is
    written. *)
Definition micro_top : dec := Dec (10 ^ 27) (-5).

Lemma quantize_below_top s q : quantize_usd s = Ok q -> ~ (dval micro_top <= dval s)%Q.
Proof.
  intros Hq Hle. pose proof (quantize_usd_micro _ _ Hq) as [_ Hlim]. apply quantize_Ok in Hq as (Hq & _ & _).
  apply (rescale_mono ROUND_HALF_UP _ _ (-6)) in Hle; [|done|vm_compute; discriminate].
  rewrite Hq in Hlim. cbn [dcoef] in Hlim.
  change (rescale ROUND_HALF_UP micro_top (-6)) with micro_limit in Hle. lia.
Qed.
Lemma dadd_reaches_top a b s :
  0 <= a < micro_limit -> 0 <= b < micro_limit -> micro_limit <= a + b -> dadd (micro a) (micro b) = Ok s ->
  (dval micro_top <= dval s)%Q.
Proof.
  intros Ha Hb Hge Hs.
  assert (dadd (micro (micro_limit - b)) (micro b) = Ok micro_top) as Hr.
  { unfold dadd, dadd_exact, micro. cbn [dcoef dexp].
    rewrite Z.min_id, Z.sub_diag, !Z.pow_0_r, !Z.mul_1_r, Z.sub_add. vm_compute. reflexivity. }
  eapply (dadd_mono _ _ (micro a) (micro b) _ _); [..|exact Hr|exact Hs];
    rewrite ?dval_micro; try apply Qle_refl; try (apply inject_ten_le; lia);
    rewrite <-dval_micro; apply micro_nonneg; lia.
Qed.
Lemma dsum_stays_up ds zs d s :
  amounts_are ds zs -> (dval micro_top <= dval d)%Q -> dsum d ds = Ok s -> (dval micro_top <= dval s)%Q.
Proof.
  unfold amounts_are, dsum. intros H. revert d. induction H as [|x z ds zs [-> Hz] _ IH]; intros d Hd; csimpl; [by intros [= <-]|].
  intros (e & He & H)%rbind_Ok. apply (IH e); [|done].
  assert (dadd micro_top (micro 0) = Ok micro_top) as H0 by (vm_compute; reflexivity).
  eapply (dadd_mono micro_top (micro 0) d (micro z)); [vm_compute; discriminate|vm_compute; discriminate|done| |exact H0|exact He].
  rewrite !dval_micro. apply inject_ten_le. lia.
Qed.

Lemma is_micro_dadd d e a b s : is_micro d a -> usd_is e b -> dadd d e = Ok s -> dadd (micro a) (micro b) = Ok s.
Proof. intros [->|[-> ->]] [-> Hb] Hs; [done|by rewrite <- Hs]. Qed.

(** A sum that can be quantized was not rounded. *)
Lemma quantized_sum d e a b s q :
  is_micro d a -> 0 <= a < micro_limit -> usd_is e b -> dadd d e = Ok s -> quantize_usd s = Ok q ->
  a + b < micro_limit /\ q = micro (a + b).
Proof.
  intros Hd Ha Hb Hs Hq. pose proof (is_micro_dadd _ _ _ _ _ Hd Hb Hs) as Hs'. destruct Hb as [-> Hb].
  assert (a + b < micro_limit) as Hlt.
  { apply Z.nle_gt. intros Hge. eapply quantize_below_top; [exact Hq|]. by apply (dadd_reaches_top a b). }
  split; [done|]. rewrite dadd_micro in Hs' by lia. injection Hs' as <-.
  rewrite quantize_usd_id in Hq by lia. by injection Hq.
Qed.
Lemma quantized_dsum ds zs d a s q :
  amounts_are ds zs -> is_micro d a -> 0 <= a < micro_limit -> dsum d ds = Ok s -> quantize_usd s = Ok q ->
  a + zsum zs < micro_limit /\ q = micro (a + zsum zs).
Proof.
  unfold amounts_are. intros H. revert d a. induction H as [|x z ds zs Hx Hl IH]; intros d a Hd Ha; unfold dsum, zsum; csimpl.
  - intros [= <-] Hq. rewrite Z.add_0_r. rewrite (is_micro_quantize _ _ Hd) in Hq by lia. injection Hq as <-. split; [lia|done].
  - intros (e & He & Hs)%rbind_Ok Hq. fold (zsum zs). pose proof (is_micro_dadd _ _ _ _ _ Hd Hx He) as He'.
    destruct Hx as [-> Hz]. destruct (decide (a + z < micro_limit)) as [Hlt|Hge].
    + rewrite dadd_micro in He' by lia. injection He' as <-. rewrite Z.add_assoc. apply (IH (micro (a + z))); [by left|lia|done..].
    + exfalso. eapply quantize_below_top; [exact Hq|]. eapply dsum_stays_up; [exact Hl| |exact Hs].
      eapply dadd_reaches_top; [exact Ha|exact Hz|lia|exact He'].
Qed.

Lemma dsum_amounts ds zs d z0 :
  amounts_are ds zs -> is_micro d z0 -> 0 <= z0 -> z0 + zsum zs < micro_limit ->
  exists s, dsum d ds = Ok s /\ is_micro s (z0 + zsum zs).
Proof.
  unfold amounts_are, dsum. intros H. revert d z0. induction H as [|x z ds zs [Hx Hz] Hl IH]; intros d z0 Hd H0 Hlt.
  { exists d. split; [done|]. unfold zsum. simpl. by rewrite Z.add_0_r. }
  csimpl. pose proof (amounts_nonneg _ _ Hl) as Hn. unfold zsum in Hlt; simpl in Hlt; fold (zsum zs) in Hlt.
  destruct (is_micro_add d x z0 z) as (s & -> & Hs); [done|by left|lia|]. cbn [rbind].
  destruct (IH s (z0 + z)) as (r & Hr & Hm); [done|lia|lia|]. exists r. split; [done|].
  unfold zsum; simpl; fold (zsum zs). by rewrite Z.add_assoc.
Qed.

(** ** Division of non-negative amounts *)

Lemma strip_zeros_nonneg fuel c e ideal : 0 <= c -> 0 <= dcoef (strip_zeros fuel c e ideal).
Proof.
  revert c e. induction fuel as [|fuel IH]; intros c e Hc; simpl; [done|].
  destruct (_ && _); [|done]. apply IH. by apply Z.div_pos.
Qed.

Lemma ddiv_nonneg a b r :
  (0 <= dval a)%Q -> (0 <= dval b)%Q -> ddiv a b = Ok r -> (0 <= dval r)%Q.
Proof.
  intros Ha%dcoef_nonneg Hb%dcoef_nonneg. unfold ddiv.
  destruct (dcoef b =? 0) eqn:Eb; [by destruct (dcoef a =? 0)|].
  destruct (dcoef a =? 0) eqn:Ea; intros H; (eapply dfix_nonneg; [exact H|]); apply dcoef_nonneg.
  { done. }
  cbn [dcoef]. boolify. rewrite !Z.sgn_pos, Z.mul_1_l by lia.
  set (q := _ / _) in *. assert (0 <= q) as Hq.
  { unfold q. set (shift := _ + dprec + 1). destruct (0 <=? shift) eqn:E; boolify.
    - apply Z.div_pos; [|lia]. apply Z.mul_nonneg_nonneg; [lia|]. by apply Z.pow_nonneg.
    - apply Z.div_pos; [lia|]. apply Z.mul_pos_pos; [lia|]. apply Z.pow_pos_nonneg; lia. }
  destruct (_ mod _ =? 0); [by apply strip_zeros_nonneg|]. cbn [dcoef]. destruct (_ =? 0); lia.
Qed.

#[export] Hint Resolve dadd_nonneg dmul_nonneg quantize_nonneg ddiv_nonneg : pydec.
