(* ===== verification/PyFloat.v ===== *)
(** * Python floats: IEEE 754 binary64

    [float] is the Standard Library's executable specification of IEEE
    floating point at precision 53 and maximal exponent 1024, round to nearest
    even, which is what CPython computes with.  The operations below add what
    Python adds: the exceptions of division and of conversions, correctly
    rounded conversion of integers, decimals and quotients of integers, and
    the shortest decimal that reads back as the same float ([repr]). *)

From S2P Require Import Prelude PyDecimal.
From Stdlib Require Import SpecFloat.

Abbreviation float := spec_float.

#[global] Instance float_eq_dec : EqDecision float.
Proof. solve_decision. Defined.

Abbreviation fprec := 53.
Abbreviation femax := 1024.

Definition fadd (a b : float) : float := SFadd fprec femax a b.
Definition fsub (a b : float) : float := SFsub fprec femax a b.
Definition fmul (a b : float) : float := SFmul fprec femax a b.
Definition fltb (a b : float) : bool := SFltb a b.
Definition fleb (a b : float) : bool := SFleb a b.
Definition feqb (a b : float) : bool := SFeqb a b.
Definition fneg (a : float) : float := SFopp a.

Definition fzero : float := S754_zero false.
Definition finf : float := S754_infinity false.

Definition is_zero_float (a : float) : bool :=
  match a with S754_zero _ => true | _ => false end.

(** [a / b] *)
Definition fdiv (a b : float) : py float :=
  if is_zero_float b then Err ZeroDivisionError else Ok (SFdiv fprec femax a b).

(** [math.isfinite] *)
Definition fisfinite (a : float) : bool :=
  match a with S754_zero _ | S754_finite _ _ _ => true | _ => false end.

(** The built-ins [min(a, b)] and [max(a, b)]. *)
Definition fmin (a b : float) : float := if fltb b a then b else a.
Definition fmax (a b : float) : float := if fltb a b then b else a.

(** [n / d] correctly rounded, for positive [n] and [d]. *)
Definition of_ratio (sign : bool) (n d : positive) : float :=
  let '(m, e, l) := SFdiv_core_binary fprec femax (Zpos n) 0 (Zpos d) 0 in
  binary_round_aux fprec femax sign m e l.

(** [float(n)] for an integer. *)
Definition of_Z (z : Z) : float := binary_normalize fprec femax z 0 false.
Definition float_of_int (z : Z) : py float :=
  if fisfinite (of_Z z) then Ok (of_Z z) else Err OverflowError.

(** [a / b] for two integers: one correct rounding. *)
Definition int_truediv (a b : Z) : py float :=
  match b with
  | 0 => Err ZeroDivisionError
  | _ =>
    match a with
    | 0 => Ok (S754_zero (b <? 0))
    | _ => let r := of_ratio (xorb (a <? 0) (b <? 0)) (Z.to_pos (Z.abs a)) (Z.to_pos (Z.abs b)) in
           if fisfinite r then Ok r else Err OverflowError
    end
  end.

(** [float(d)] for a decimal [c * 10 ^ e]. *)
Definition of_dec (d : dec) : float :=
  match dcoef d with
  | 0 => fzero
  | c => let s := c <? 0 in
         if 0 <=? dexp d
         then of_ratio s (Z.to_pos (Z.abs c * 10 ^ dexp d)) 1
         else of_ratio s (Z.to_pos (Z.abs c)) (Z.to_pos (10 ^ (- dexp d)))
  end.

(** [timedelta.total_seconds()] *)
Definition total_seconds (us : timedelta) : py float := int_truediv us 1000000.

(** The exact value [m * 2 ^ e] as a quotient of integers. *)
Definition float_num (m : positive) (e : Z) : Z := if 0 <=? e then Zpos m * 2 ^ e else Zpos m.
Definition float_den (e : Z) : Z := if 0 <=? e then 1 else 2 ^ (- e).

(** [math.floor] and [math.ceil] *)
Definition ffloor (a : float) : py Z :=
  match a with
  | S754_zero _ => Ok 0
  | S754_finite s m e =>
      let n := float_num m e in
      Ok ((if s then - n else n) / float_den e)
  | S754_infinity _ => Err OverflowError
  | S754_nan => Err (ValueError "cannot convert float NaN to integer")
  end.
Definition fceil (a : float) : py Z := rmap Z.opp (ffloor (fneg a)).

(** [timedelta(unit=x)] for a finite [x], with the unit in microseconds:
    whole units, and the rest rounded to even. *)
Definition round_half_even (x : float) : Z :=
  match x with S754_finite s m e => rdiv ROUND_HALF_EVEN ((if s then -1 else 1) * float_num m e) (float_den e) | _ => 0 end.
Definition us_per_day : Z := 86400000000.
Definition timedelta_checked (us : Z) : py timedelta :=
  if (us <? -999999999 * us_per_day) || (1000000000 * us_per_day <=? us) then Err OverflowError else Ok us.
Definition timedelta_of (unit : Z) (x : float) : py timedelta :=
  let? whole := match x with S754_finite true _ _ => fceil x | _ => ffloor x end in
  let rest := fsub x (of_Z whole) in
  timedelta_checked (whole * unit + round_half_even (fmul (of_Z unit) rest)).

(** ** [repr]: the shortest decimal that reads back as the float

    [digits_at n num den k] is the [n]-digit decimal nearest to [num / den]
    among those that read back as the float, where
    [10 ^ (k - 1) <= num / den < 10 ^ k]. *)
Definition digits_at (target : float) (num den k n : Z) : option dec :=
  let e := k - n in
  let sn := if 0 <=? e then num else num * 10 ^ (- e) in
  let sd := if 0 <=? e then den * 10 ^ e else den in
  let lo := sn / sd in
  let r := sn mod sd in
  let ok c := feqb (of_dec (Dec c e)) target in
  let near_lo := (2 * r <? sd) || ((2 * r =? sd) && Z.even lo) in
  if near_lo then
    if ok lo then Some (Dec lo e) else if ok (lo + 1) then Some (Dec (lo + 1) e) else None
  else
    if ok (lo + 1) then Some (Dec (lo + 1) e) else if ok lo then Some (Dec lo e) else None.

Fixpoint shortest (fuel : nat) (target : float) (num den k n : Z) : dec :=
  match fuel with
  | O => Dec 0 0
  | S fuel' =>
      match digits_at target num den k n with
      | Some d => d
      | None => shortest fuel' target num den k (n + 1)
      end
  end.

(** The decimal point position: [10 ^ (k - 1) <= num / den < 10 ^ k]. *)
Definition dec_point (num den : Z) : Z :=
  if den <=? num then ndigits (num / den)
  else
    let k := ndigits num - ndigits den in
    if num * 10 ^ (- k) <? den then k else k + 1.

(** The decimal written by [repr(x)], as [Decimal(str(x))] reads it: values
    of moderate size are written with at least one fractional digit. *)
Definition repr_dec (a : float) : option dec :=
  match a with
  | S754_zero _ => Some (Dec 0 (-1))
  | S754_finite s m e =>
      let num := float_num m e in
      let den := float_den e in
      let k := dec_point num den in
      let d := shortest 17 (S754_finite false m e) num den k 1 in
      let d := strip_zeros 20 (dcoef d) (dexp d) 400 in
      let d := if (-4 <? k) && (k <=? 16) && (-1 <? dexp d)
               then Dec (dcoef d * 10 ^ (dexp d + 1)) (-1) else d in
      Some (Dec (if s then - dcoef d else dcoef d) (dexp d))
  | _ => None
  end.

(** [sum] of floats: CPython adds with a compensation. *)
Definition fabs (f : float) : float := SFabs f.
Definition sum_step (acc : float * float) (x : float) : float * float :=
  let '(s, c) := acc in
  let t := fadd s x in
  (t, if fleb (fabs x) (fabs s) then fadd c (fadd (fsub s t) x) else fadd c (fadd (fsub x t) s)).
Definition fsum (l : list float) : float :=
  let '(s, c) := foldl sum_step (fzero, fzero) l in
  if negb (is_zero_float c) && fisfinite c then fadd s c else s.

(** ** The order of floats

    Away from NaN the comparison is the lexicographic order of a triple of
    integers, hence a strict weak order. *)
Definition fkey (a : float) : Z * Z * Z :=
  match a with
  | S754_nan => (0, 0, 0)
  | S754_zero _ => (0, 0, 0)
  | S754_infinity s => (if s then -2 else 2, 0, 0)
  | S754_finite s m e => if s then (-1, - e, - Z.pos m) else (1, e, Z.pos m)
  end.
Definition fnan (a : float) : bool := match a with S754_nan => true | _ => false end.

Definition key_lt (a b : Z * Z * Z) : Prop :=
  a.1.1 < b.1.1 \/ (a.1.1 = b.1.1 /\ (a.1.2 < b.1.2 \/ (a.1.2 = b.1.2 /\ a.2 < b.2))).

Lemma fltb_key a b : fnan a = false -> fnan b = false -> fltb a b = true <-> key_lt (fkey a) (fkey b).
Proof.
  unfold fltb, SFltb, SFcompare, key_lt.
  destruct a as [sa|sa| |sa ma ea], b as [sb|sb| |sb mb eb]; simpl; try done; intros _ _;
    try destruct sa; try destruct sb; simpl;
    try (destruct (Z.compare_spec ea eb); try (change (Pos.compare_cont Eq ma mb) with (ma ?= mb)%positive;
           destruct (Pos.compare_spec ma mb)));
    simpl; split; intros H'; try discriminate; try reflexivity; try lia; subst; lia.
Qed.

Lemma key_lt_trans a b c : key_lt a b -> key_lt b c -> key_lt a c.
Proof. unfold key_lt. lia. Qed.

(** [b <= a] as the negation of [a < b] is transitive and total. *)
Definition fge (a b : float) : Prop := fltb a b = false.

Lemma fge_key a b : fnan a = false -> fnan b = false -> fge a b <-> ~ key_lt (fkey a) (fkey b).
Proof.
  intros Ha Hb. unfold fge. rewrite <- fltb_key by done. by destruct (fltb a b).
Qed.

Lemma fge_trans a b c :
  fnan a = false -> fnan b = false -> fnan c = false -> fge a b -> fge b c -> fge a c.
Proof. intros Ha Hb Hc. rewrite !fge_key by done. unfold key_lt. lia. Qed.

Lemma fltb_fge a b : fnan a = false -> fnan b = false -> fltb a b = true -> fge b a.
Proof. intros Ha Hb. rewrite fltb_key, fge_key by done. unfold key_lt. lia. Qed.

Lemma feqb_key a b : fnan a = false -> fnan b = false -> feqb a b = true <-> fkey a = fkey b.
Proof.
  unfold feqb, SFeqb, SFcompare.
  destruct a as [sa|sa| |sa ma ea], b as [sb|sb| |sb mb eb]; simpl; try done; intros _ _;
    try destruct sa; try destruct sb; simpl;
    try (destruct (Z.compare_spec ea eb); try (change (Pos.compare_cont Eq ma mb) with (ma ?= mb)%positive;
           destruct (Pos.compare_spec ma mb)));
    simpl; split; intros H'; try discriminate; try reflexivity; try (injection H'; intros; lia);
    subst; try reflexivity; lia.
Qed.

Lemma fkey_neg a : fkey (fneg a) = (- (fkey a).1.1, - (fkey a).1.2, - (fkey a).2).
Proof. by destruct a as [[]|[]| |[] ? ?]; simpl; rewrite ?Z.opp_involutive. Qed.

Lemma fnan_neg a : fnan (fneg a) = fnan a.
Proof. by destruct a. Qed.
