(* ===== verification/PyValue.v ===== *)
(** * Python values and strings

    Provider records, cost maps and request payloads reach the program as
    JSON-like objects whose shape the code inspects at run time.  [pyval] is
    the type of those objects, with the classes the code tells apart by
    [isinstance].

    Strings are ASCII: [strip], [split], [upper], [lower] and [isdigit] are
    the methods restricted to code points below 128. *)

From Stdlib Require Import Ascii.
From S2P Require Import Prelude PyDecimal PyFloat.
From Stdlib Require Import SpecFloat.

(** A [Decimal] object, special values included. *)
Inductive pydec : Type :=
| DFin (d : dec)
| DInf (negative : bool)
| DNaN.

#[global] Instance pydec_eq_dec : EqDecision pydec.
Proof. solve_decision. Defined.

(** [VEnum s] is a member of one of the program's [StrEnum]s with value [s]. *)
Inductive pyval : Type :=
| VNone
| VBool (b : bool)
| VInt (z : Z)
| VFloat (f : float)
| VDec (d : pydec)
| VStr (s : string)
| VEnum (s : string)
| VTime (t : datetime)
| VList (l : list pyval)
| VTuple (l : list pyval)
| VDict (kvs : list (string * pyval)).

Abbreviation dict := (list (string * pyval)).

(** Induction with hypotheses for the elements of containers. *)
Lemma pyval_nested_ind (P : pyval -> Prop) :
  P VNone -> (forall b, P (VBool b)) -> (forall z, P (VInt z)) -> (forall f, P (VFloat f)) ->
  (forall d, P (VDec d)) -> (forall s, P (VStr s)) -> (forall s, P (VEnum s)) ->
  (forall t, P (VTime t)) ->
  (forall l, Forall P l -> P (VList l)) -> (forall l, Forall P l -> P (VTuple l)) ->
  (forall m, Forall (fun kv => P kv.2) m -> P (VDict m)) ->
  forall v, P v.
Proof.
  intros HN HB HI HF HD HS HE HT HL HU HM. fix IH 1.
  intros [|b|z|f|d|s|s|t|l|l|m]; [done|done|done|done|done|done|done|done| | | ].
  - apply HL. induction l; constructor; [apply IH|done].
  - apply HU. induction l; constructor; [apply IH|done].
  - apply HM. induction m as [|[k v] m IHm]; constructor; [apply IH|done].
Qed.

(** ** [str] methods *)

Definition is_space (c : Ascii.ascii) : bool :=
  let n := Ascii.nat_of_ascii c in
  ((9 <=? n) && (n <=? 13))%nat || ((28 <=? n) && (n <=? 32))%nat.

Fixpoint lstrip (s : string) : string :=
  match s with
  | EmptyString => EmptyString
  | String c s' => if is_space c then lstrip s' else s
  end.

Fixpoint rstrip (s : string) : string :=
  match s with
  | EmptyString => EmptyString
  | String c s' =>
      match rstrip s' with
      | EmptyString => if is_space c then EmptyString else String c EmptyString
      | r => String c r
      end
  end.

Definition strip (s : string) : string := rstrip (lstrip s).

Fixpoint map_string (f : Ascii.ascii -> Ascii.ascii) (s : string) : string :=
  match s with
  | EmptyString => EmptyString
  | String c s' => String (f c) (map_string f s')
  end.

Definition upper_char (c : Ascii.ascii) : Ascii.ascii :=
  let n := Ascii.nat_of_ascii c in
  if ((97 <=? n) && (n <=? 122))%nat then Ascii.ascii_of_nat (n - 32) else c.
Definition lower_char (c : Ascii.ascii) : Ascii.ascii :=
  let n := Ascii.nat_of_ascii c in
  if ((65 <=? n) && (n <=? 90))%nat then Ascii.ascii_of_nat (n + 32) else c.
Definition upper (s : string) : string := map_string upper_char s.
Definition lower (s : string) : string := map_string lower_char s.

(** [s.replace(a, b)] for one-character strings. *)
Definition replace_char (a b : Ascii.ascii) (s : string) : string :=
  map_string (fun c => if Ascii.eqb c a then b else c) s.

Fixpoint filter_string (f : Ascii.ascii -> bool) (s : string) : string :=
  match s with
  | EmptyString => EmptyString
  | String c s' => if f c then String c (filter_string f s') else filter_string f s'
  end.

Definition digit_val (c : Ascii.ascii) : option Z :=
  let n := Ascii.nat_of_ascii c in
  if ((48 <=? n) && (n <=? 57))%nat then Some (Z.of_nat n - 48) else None.
Definition is_digit (c : Ascii.ascii) : bool :=
  match digit_val c with Some _ => true | None => false end.

(** [s.split(sep)] for a one-character separator: never empty. *)
Fixpoint split_on (sep : Ascii.ascii) (s : string) : list string :=
  match s with
  | EmptyString => [EmptyString]
  | String c s' =>
      if Ascii.eqb c sep then EmptyString :: split_on sep s'
      else match split_on sep s' with
           | w :: ws => String c w :: ws
           | [] => [String c EmptyString]
           end
  end.

(** [s.split()]: maximal runs of non-space characters. *)
Fixpoint split_ws_from (cur : string) (s : string) : list string :=
  match s with
  | EmptyString => match cur with EmptyString => [] | _ => [cur] end
  | String c s' =>
      if is_space c
      then match cur with
           | EmptyString => split_ws_from EmptyString s'
           | _ => cur :: split_ws_from EmptyString s'
           end
      else split_ws_from (cur ++ String c EmptyString) s'
  end.
Definition split_ws (s : string) : list string := split_ws_from EmptyString s.

Definition startswith (p s : string) : bool := String.prefix p s.

Fixpoint str_contains (p s : string) : bool :=
  startswith p s ||
  match s with EmptyString => false | String _ s' => str_contains p s' end.

(** [s.endswith(p)] *)
Fixpoint endswith (p s : string) : bool :=
  String.eqb p s ||
  match s with EmptyString => false | String _ s' => endswith p s' end.

(** [",".join] without separator. *)
Definition join (ws : list string) : string := foldr String.append EmptyString ws.

Definition nonempty (s : string) : bool := negb (String.eqb s EmptyString).

(** [int(s)] for a string of ASCII digits. *)
Fixpoint parse_nat_from (acc : Z) (s : string) : option Z :=
  match s with
  | EmptyString => Some acc
  | String c s' =>
      match digit_val c with
      | Some d => parse_nat_from (acc * 10 + d) s'
      | None => None
      end
  end.
Definition parse_nat (s : string) : option Z :=
  match s with EmptyString => None | _ => parse_nat_from 0 s end.

(** A sign and the rest. *)
Definition parse_sign (s : string) : bool * string :=
  match s with
  | String "-"%char s' => (true, s')
  | String "+"%char s' => (false, s')
  | _ => (false, s)
  end.

(** [int(s)]: surrounding space, a sign, digits with single underscores
    between them. *)
Fixpoint drop_underscores (prev_digit : bool) (s : string) : option string :=
  match s with
  | EmptyString => if prev_digit then Some EmptyString else None
  | String c s' =>
      if Ascii.eqb c "_"%char then if prev_digit then drop_underscores false s' else None
      else if is_digit c then option_map (String c) (drop_underscores true s') else None
  end.
Definition parse_int (s : string) : option Z :=
  let '(neg, body) := parse_sign (strip s) in
  match drop_underscores false body with
  | Some digits => option_map (fun z => if neg then - z else z) (parse_nat digits)
  | None => None
  end.

(** ** [Decimal(s)]

    Space around the number and every underscore are ignored; then an
    optional sign and either digits with an optional point and exponent or
    one of the special names. *)
Fixpoint span_digits (s : string) : string * string :=
  match s with
  | EmptyString => (EmptyString, EmptyString)
  | String c s' =>
      if is_digit c then let '(d, r) := span_digits s' in (String c d, r)
      else (EmptyString, s)
  end.

Definition parse_exponent (s : string) : option Z :=
  match s with
  | EmptyString => Some 0
  | String c s' =>
      if Ascii.eqb (lower_char c) "e"%char then
        let '(neg, digits) := parse_sign s' in
        option_map (fun z => if neg : bool then - z else z) (parse_nat digits)
      else None
  end.

Definition parse_special (neg : bool) (s : string) : option pydec :=
  let s := lower s in
  if String.eqb s "inf" || String.eqb s "infinity" then Some (DInf neg)
  else
    let payload := if startswith "snan" s then Some (String.substring 4 (String.length s) s)
                   else if startswith "nan" s then Some (String.substring 3 (String.length s) s)
                   else None in
    match payload with
    | Some p => if String.eqb (filter_string is_digit p) p then Some DNaN else None
    | None => None
    end.

Definition parse_decimal (s : string) : option pydec :=
  let s := filter_string (fun c => negb (Ascii.eqb c "_"%char)) (strip s) in
  let '(neg, body) := parse_sign s in
  let '(int_part, rest) := span_digits body in
  let '(frac_part, rest) :=
    match rest with
    | String "."%char rest' => span_digits rest'
    | _ => (EmptyString, rest)
    end in
  match parse_nat (int_part ++ frac_part), parse_exponent rest with
  | Some c, Some e =>
      Some (DFin (Dec (if neg then - c else c) (e - Z.of_nat (String.length frac_part))))
  | _, _ => parse_special neg body
  end.

(** [Decimal(str(v))].  Every class whose text is not a number is an invalid
    operation, as are integers too long for [str]. *)
Definition decimal_of_str (v : pyval) : py pydec :=
  match v with
  | VInt z => if 10 ^ 4300 <=? Z.abs z then Err (ValueError "int too large for str")
              else Ok (DFin (of_int z))
  | VFloat f => match f with
                | S754_nan => Ok DNaN
                | S754_infinity s => Ok (DInf s)
                | _ => match repr_dec f with
                       | Some d => Ok (DFin d)
                       | None => Err DecimalInvalidOperation
                       end
                end
  | VDec d => Ok d
  | VStr s | VEnum s => match parse_decimal s with
                        | Some d => Ok d
                        | None => Err DecimalInvalidOperation
                        end
  | _ => Err DecimalInvalidOperation
  end.

(** The shape shared by the program's decimal validators: [bool]s are
    refused, everything that does not parse and every special value is a
    [ValueError]. *)
Definition finite_decimal (v : pyval) (name : string) : py dec :=
  match v with
  | VBool _ => Err (ValueError (name ++ " must be a decimal value"))
  | _ =>
    match decimal_of_str v with
    | Err _ => Err (ValueError (name ++ " must be a decimal value"))
    | Ok (DFin d) => Ok d
    | Ok _ => Err (ValueError (name ++ " must be finite"))
    end
  end.

(** Arithmetic with special values: a NaN is quiet in arithmetic and an
    invalid operation in an ordering comparison. *)
Definition pd_add (a b : pydec) : py pydec :=
  match a, b with
  | DNaN, _ | _, DNaN => Ok DNaN
  | DInf s, DInf t => if Bool.eqb s t then Ok (DInf s) else Err DecimalInvalidOperation
  | DInf s, DFin _ | DFin _, DInf s => Ok (DInf s)
  | DFin x, DFin y => rmap DFin (dadd x y)
  end.
Definition pd_neg (a : pydec) : pydec :=
  match a with DFin d => DFin (dneg d) | DInf s => DInf (negb s) | DNaN => DNaN end.
Definition pd_sub (a b : pydec) : py pydec := pd_add a (pd_neg b).
Definition pd_negative (a : pydec) : py bool :=
  match a with
  | DFin d => Ok (dltb d dzero)
  | DInf s => Ok s
  | DNaN => Err DecimalInvalidOperation
  end.
Definition pd_sum (l : list pydec) : py pydec := foldR pd_add (DFin dzero) l.

(** ** Dictionaries *)

Fixpoint dict_get (k : string) (m : dict) : option pyval :=
  match m with
  | [] => None
  | (k', v) :: m' => if String.eqb k k' then Some v else dict_get k m'
  end.

(** [m.get(k)] *)
Definition dict_get_none (k : string) (m : dict) : pyval :=
  match dict_get k m with Some v => v | None => VNone end.

Definition is_none (v : pyval) : bool := match v with VNone => true | _ => false end.

(** [isinstance(v, Mapping)] *)
Definition as_dict (v : pyval) : option dict :=
  match v with VDict m => Some m | _ => None end.

(** [isinstance(v, str)]: members of a [StrEnum] are strings too. *)
Definition as_str (v : pyval) : option string :=
  match v with VStr s | VEnum s => Some s | _ => None end.

(** [isinstance(v, Sequence)] and not a string. *)
Definition as_seq (v : pyval) : option (list pyval) :=
  match v with VList l | VTuple l => Some l | _ => None end.

(** [bool(v)] *)
Definition truthy (v : pyval) : bool :=
  match v with
  | VNone => false
  | VBool b => b
  | VInt z => negb (z =? 0)
  | VFloat f => negb (is_zero_float f)
  | VDec d => match d with DFin d => negb (dcoef d =? 0) | _ => true end
  | VStr s | VEnum s => nonempty s
  | VTime _ => true
  | VList l | VTuple l => match l with [] => false | _ => true end
  | VDict m => match m with [] => false | _ => true end
  end.

Example parse_decimal_ex1 : parse_decimal " -12.50e3 " = Some (DFin (Dec (-1250) 1)).
Proof. reflexivity. Qed.
Example parse_decimal_ex2 : parse_decimal "1_000" = Some (DFin (Dec 1000 0)).
Proof. reflexivity. Qed.
Example parse_decimal_ex3 : parse_decimal "abc" = None.
Proof. reflexivity. Qed.
Example parse_decimal_ex4 : parse_decimal ".5" = Some (DFin (Dec 5 (-1))).
Proof. reflexivity. Qed.
Example parse_decimal_ex5 : parse_decimal "" = None.
Proof. reflexivity. Qed.
Example parse_decimal_ex6 : parse_decimal "-Infinity" = Some (DInf true).
Proof. reflexivity. Qed.
Example split_ws_ex : split_ws "  NVIDIA RTX  4090 " = ["NVIDIA"; "RTX"; "4090"].
Proof. reflexivity. Qed.
Example split_on_ex : split_on "."%char "12..4" = ["12"; ""; "4"].
Proof. reflexivity. Qed.
Example strip_ex : strip "  a b " = "a b".
Proof. reflexivity. Qed.

(** ** [int(v)] and [float(v)] *)

Definition py_int (v : pyval) : py Z :=
  match v with
  | VBool b => Ok (Z.b2z b)
  | VInt z => Ok z
  | VFloat f =>
      match f with
      | S754_nan => Err (ValueError "cannot convert float NaN to integer")
      | S754_infinity _ => Err OverflowError
      | S754_finite true _ _ => fceil f
      | _ => ffloor f
      end
  | VDec (DFin d) => Ok (dint d)
  | VDec (DInf _) => Err OverflowError
  | VDec DNaN => Err (ValueError "cannot convert NaN to integer")
  | VStr s | VEnum s =>
      match parse_int s with
      | Some z => Ok z
      | None => Err (ValueError "invalid literal for int() with base 10")
      end
  | _ => Err (TypeError "int() argument must be a string or a real number")
  end.

(** [float(d)] for a decimal object. *)
Definition float_of_pydec (d : pydec) : float :=
  match d with
  | DFin d => of_dec d
  | DInf s => S754_infinity s
  | DNaN => S754_nan
  end.

(** [float(s)] reads what [Decimal(s)] reads, except that underscores must
    stand between digits and [nan] takes no payload. *)
Fixpoint underscores_ok (prev_digit : bool) (s : string) : bool :=
  match s with
  | EmptyString => true
  | String c s' =>
      if Ascii.eqb c "_"%char then
        prev_digit && match s' with String c' _ => is_digit c' | EmptyString => false end
        && underscores_ok false s'
      else underscores_ok (is_digit c) s'
  end.
Definition float_text (s : string) : option float :=
  let t := strip s in
  if negb (underscores_ok false t) then None
  else match parse_decimal t with
       | Some DNaN => if String.eqb (lower (parse_sign t).2) "nan" then Some S754_nan else None
       | o => option_map float_of_pydec o
       end.

(** [float(v)] *)
Definition py_float (v : pyval) : py float :=
  match v with
  | VBool b => Ok (of_Z (Z.b2z b))
  | VInt z => float_of_int z
  | VFloat f => Ok f
  | VDec d => Ok (float_of_pydec d)
  | VStr s | VEnum s =>
      match float_text s with
      | Some f => Ok f
      | None => Err (ValueError "could not convert string to float")
      end
  | _ => Err (TypeError "float() argument must be a string or a real number")
  end.

Example py_int_ex1 : py_int (VFloat (of_dec (Dec (-27) (-1)))) = Ok (-2).
Proof. vm_compute. reflexivity. Qed.
Example py_int_ex2 : py_int (VStr " 4_2 ") = Ok 42.
Proof. reflexivity. Qed.
Example py_int_ex3 : py_int (VDec (DFin (Dec (-15) (-1)))) = Ok (-1).
Proof. reflexivity. Qed.

(** Lemmas *)

(** Stripping twice is stripping once. *)
Lemma lstrip_lstrip s : lstrip (lstrip s) = lstrip s.
Proof. induction s as [|c s IH]; simpl; [done|]. destruct (is_space c) eqn:E; simpl; [done|]. by rewrite E. Qed.
Lemma rstrip_rstrip s : rstrip (rstrip s) = rstrip s.
Proof.
  induction s as [|c s IH]; simpl; [done|]. destruct (rstrip s) as [|c' s'] eqn:E.
  - destruct (is_space c) eqn:Ec; simpl; [done|]. by rewrite Ec.
  - cbn [rstrip] in *. by rewrite IH.
Qed.
Lemma lstrip_rstrip s : lstrip s = s -> lstrip (rstrip s) = rstrip s.
Proof.
  destruct s as [|c s]; simpl; [done|]. destruct (is_space c) eqn:Ec.
  - intros H. exfalso. assert (String.length (lstrip s) <= String.length s)%nat as Hl.
    { clear. induction s as [|c s IH]; simpl; [lia|]. destruct (is_space c); simpl; lia. }
    rewrite H in Hl. simpl in Hl. lia.
  - intros _. destruct (rstrip s) eqn:E; simpl; by rewrite Ec.
Qed.
Lemma strip_strip s : strip (strip s) = strip s.
Proof. unfold strip. rewrite lstrip_rstrip by apply lstrip_lstrip. by rewrite rstrip_rstrip. Qed.
