(* ===== verification/PyEq.v ===== *)
(** * Equality of Python data, and JSON columns

    [py_eqb] is [==] on JSON-like values: numbers of different classes
    compare by value, members of a [StrEnum] compare as strings, and mappings
    ignore the order of their keys.  [jsonb] is what reading a [jsonb] column
    returns after a value was written to it (the codec of [db/__init__.py]). *)

From Stdlib Require Import SpecFloat.
From S2P Require Import Prelude PyDecimal PyFloat PyValue.

(** ** Python's [==] on data *)

(** The exact value of a float as a decimal. *)
Definition float_exact (f : float) : pydec :=
  match f with
  | S754_nan => DNaN
  | S754_infinity s => DInf s
  | S754_zero _ => DFin dzero
  | S754_finite s m e =>
      let c := if s then - Z.pos m else Z.pos m in
      DFin (if 0 <=? e then Dec (c * 2 ^ e) 0 else Dec (c * 5 ^ (- e)) e)
  end.

Definition as_number (v : pyval) : option pydec :=
  match v with
  | VBool b => Some (DFin (of_int (Z.b2z b)))
  | VInt z => Some (DFin (of_int z))
  | VFloat f => Some (float_exact f)
  | VDec d => Some d
  | _ => None
  end.

Definition number_eqb (a b : pydec) : bool :=
  match a, b with
  | DFin x, DFin y => deqb x y
  | DInf s, DInf t => Bool.eqb s t
  | _, _ => false
  end.

Fixpoint py_eqb (a b : pyval) {struct a} : bool :=
  match a, b with
  | VNone, VNone => true
  | (VStr s | VEnum s), (VStr t | VEnum t) => String.eqb s t
  | VTime s, VTime t => Bool.eqb (dt_aware s) (dt_aware t) && (dt_us s =? dt_us t)
  | VList l, VList k | VTuple l, VTuple k =>
      (fix go (l k : list pyval) : bool :=
         match l, k with
         | [], [] => true
         | x :: l', y :: k' => py_eqb x y && go l' k'
         | _, _ => false
         end) l k
  | VDict m, VDict n =>
      Nat.eqb (List.length m) (List.length n) &&
      (fix go (m : dict) : bool :=
         match m with
         | [] => true
         | (k, v) :: m' =>
             match dict_get k n with Some w => py_eqb v w | None => false end && go m'
         end) m
  | _, _ =>
      match as_number a, as_number b with
      | Some x, Some y => number_eqb x y
      | _, _ => false
      end
  end.

(** [v in members] *)
Definition py_in (v : pyval) (l : list pyval) : bool := existsb (py_eqb v) l.

(** [bool(v)] *)
Definition py_bool (v : pyval) : bool :=
  match v with
  | VNone => false
  | VBool b => b
  | VInt z => negb (z =? 0)
  | VFloat f => negb (is_zero_float f)
  | VDec (DFin d) => negb (dcoef d =? 0)
  | VStr s | VEnum s => nonempty s
  | VList [] | VTuple [] | VDict [] => false
  | _ => true
  end.

(** ** [jsonb] columns

    The encoder is [json.dumps] and the decoder [json.loads].  Members of an
    enumeration become strings and tuples lists.  A float is written as
    [repr] writes it; PostgreSQL keeps a number as a decimal, so a float that
    [repr] writes with a positive exponent is read back as an integer.
    Values [json.dumps] refuses, or writes as text PostgreSQL rejects, are
    [None]. *)
Definition jsonb_float (f : float) : option pyval :=
  match f with
  | S754_zero _ => Some (VFloat fzero)
  | S754_finite _ _ _ =>
      match repr_dec f with
      | Some d => Some (if 17 <=? adjusted d + 1 then VInt (dint d) else VFloat f)
      | None => None
      end
  | _ => None
  end.

Fixpoint jsonb (v : pyval) : option pyval :=
  match v with
  | VNone | VBool _ | VInt _ | VStr _ => Some v
  | VEnum s => Some (VStr s)
  | VFloat f => jsonb_float f
  | VDec _ | VTime _ => None
  | VList l | VTuple l =>
      VList <$> (fix go (l : list pyval) : option (list pyval) :=
                   match l with
                   | [] => Some []
                   | x :: l' => y ← jsonb x; k ← go l'; Some (y :: k)
                   end) l
  | VDict m =>
      VDict <$> (fix go (m : dict) : option dict :=
                   match m with
                   | [] => Some []
                   | (k, x) :: m' => y ← jsonb x; n ← go m'; Some ((k, y) :: n)
                   end) m
  end.

Definition jsonb_dict (m : dict) : option dict :=
  match jsonb (VDict m) with Some (VDict n) => Some n | _ => None end.

Example jsonb_ex1 :
  jsonb (VDict [("a", VTuple [VEnum "x"; VFloat (of_dec (Dec 15 (-1)))]); ("b", VNone)])
  = Some (VDict [("a", VList [VStr "x"; VFloat (of_dec (Dec 15 (-1)))]); ("b", VNone)]).
Proof. reflexivity. Qed.
Example jsonb_ex2 : jsonb (VFloat (of_dec (Dec 1 23))) = Some (VInt (10 ^ 23)).
Proof. vm_compute. reflexivity. Qed.

(** A float that was read back as another number is not equal to it. *)
Example jsonb_ex3 : py_eqb (VInt (10 ^ 23)) (VFloat (of_dec (Dec 1 23))) = false.
Proof. vm_compute. reflexivity. Qed.
