(* ===== verification/PyTime.v ===== *)
(** * [datetime]

    Instants are microseconds since the Unix epoch.  Arithmetic raises
    [OverflowError] outside the years 1 to 9999, as [datetime] does.
    [fromisoformat] reads the extended calendar form
    [YYYY-MM-DD?HH[:MM[:SS[.ffffff]]][+HH:MM]]; the basic and week-date forms
    are read as errors. *)

From Stdlib Require Import Ascii.
From S2P Require Import Prelude PyValue.

Definition dt_min : Z := -62135596800000000.
Definition dt_max : Z := 253402300799999999.

(** [t + delta] *)
Definition dt_add (t : datetime) (delta : timedelta) : py datetime :=
  let us := dt_us t + delta in
  if (us <? dt_min) || (dt_max <? us) then Err OverflowError
  else Ok (Datetime us (dt_aware t)).

(** [a - b] for two aware datetimes. *)
Definition dt_sub (a b : datetime) : timedelta := dt_us a - dt_us b.

Definition dt_ltb (a b : datetime) : bool := dt_us a <? dt_us b.
Definition dt_leb (a b : datetime) : bool := dt_us a <=? dt_us b.

(** The guard every component repeats: a timestamp without a zone is refused
    and an aware one is converted to UTC. *)
Definition require_utc (t : datetime) (field_name : string) : py datetime :=
  if dt_aware t then Ok t
  else Err (ValueError (field_name ++ " must include timezone information")).

(** Days since the epoch of a proleptic Gregorian date. *)
Definition days_from_civil (y m d : Z) : Z :=
  let y := if m <=? 2 then y - 1 else y in
  let era := y / 400 in
  let yoe := y - era * 400 in
  let mp := (m + 9) mod 12 in
  let doy := (153 * mp + 2) / 5 + d - 1 in
  let doe := yoe * 365 + yoe / 4 - yoe / 100 + doy in
  era * 146097 + doe - 719468.

Definition is_leap (y : Z) : bool :=
  (y mod 4 =? 0) && (negb (y mod 100 =? 0) || (y mod 400 =? 0)).
Definition days_in_month (y m : Z) : Z :=
  if m =? 2 then if is_leap y then 29 else 28
  else if (m =? 4) || (m =? 6) || (m =? 9) || (m =? 11) then 30 else 31.

(** [n] digits read as a number. *)
Fixpoint take_digits (n : nat) (acc : Z) (s : string) : option (Z * string) :=
  match n, s with
  | O, _ => Some (acc, s)
  | S n', String c s' =>
      match digit_val c with
      | Some d => take_digits n' (acc * 10 + d) s'
      | None => None
      end
  | S _, EmptyString => None
  end.

Definition take_char (c : ascii) (s : string) : option string :=
  match s with
  | String c' s' => if Ascii.eqb c c' then Some s' else None
  | EmptyString => None
  end.

(** Fraction of a second: digits after the sixth are dropped. *)
Fixpoint take_fraction (scale acc : Z) (seen : bool) (s : string) : option (Z * string) :=
  match s with
  | String c s' =>
      match digit_val c with
      | Some d => take_fraction (scale / 10) (acc + d * scale) true s'
      | None => if seen then Some (acc, s) else None
      end
  | EmptyString => if seen then Some (acc, s) else None
  end.

(** [HH[:MM[:SS[.f]]]] in microseconds. *)
Definition take_time (s : string) : option (Z * string) :=
  match take_digits 2 0 s with
  | None => None
  | Some (hh, s) =>
    if 23 <? hh then None else
    match take_char ":"%char s with
    | None => Some (hh * 3600000000, s)
    | Some s =>
      match take_digits 2 0 s with
      | None => None
      | Some (mm, s) =>
        if 59 <? mm then None else
        match take_char ":"%char s with
        | None => Some (hh * 3600000000 + mm * 60000000, s)
        | Some s =>
          match take_digits 2 0 s with
          | None => None
          | Some (ss, s) =>
            if 59 <? ss then None else
            let base := hh * 3600000000 + mm * 60000000 + ss * 1000000 in
            match s with
            | String c s' =>
                if Ascii.eqb c "."%char || Ascii.eqb c ","%char
                then match take_fraction 100000 0 false s' with
                     | Some (us, r) => Some (base + us, r)
                     | None => None
                     end
                else Some (base, s)
            | EmptyString => Some (base, s)
            end
          end
        end
      end
    end
  end.

Definition take_date (s : string) : option (Z * string) :=
  match take_digits 4 0 s with
  | None => None
  | Some (y, s) =>
    match take_char "-"%char s with
    | None => None
    | Some s =>
      match take_digits 2 0 s with
      | None => None
      | Some (m, s) =>
        match take_char "-"%char s with
        | None => None
        | Some s =>
          match take_digits 2 0 s with
          | None => None
          | Some (d, s) =>
              if (1 <=? y) && (1 <=? m) && (m <=? 12) && (1 <=? d) && (d <=? days_in_month y m)
              then Some (days_from_civil y m d * 86400000000, s) else None
          end
        end
      end
    end
  end.

Definition fromisoformat (s : string) : option datetime :=
  match take_date s with
  | None => None
  | Some (day, EmptyString) => Some (Datetime day false)
  | Some (day, String _ s) =>
    match take_time s with
    | None => None
    | Some (t, EmptyString) => Some (Datetime (day + t) false)
    | Some (t, String c s) =>
        if Ascii.eqb c "Z"%char
        then match s with EmptyString => Some (Datetime (day + t) true) | _ => None end
        else if Ascii.eqb c "+"%char || Ascii.eqb c "-"%char
        then match take_time s with
             | Some (off, EmptyString) =>
                 Some (Datetime (day + t - (if Ascii.eqb c "-"%char then - off else off)) true)
             | _ => None
             end
        else None
    end
  end.

(** [s.replace("Z", "+00:00")] *)
Fixpoint replace_z (s : string) : string :=
  match s with
  | EmptyString => EmptyString
  | String c s' =>
      if Ascii.eqb c "Z"%char then "+00:00" ++ replace_z s' else String c (replace_z s')
  end.

Example fromisoformat_ex :
  fromisoformat (replace_z "2026-03-01T12:30:00.250Z") = Some (utc 1772368200250000).
Proof. reflexivity. Qed.
Example fromisoformat_off :
  fromisoformat "2024-02-29 00:00+02:00" = Some (utc 1709157600000000).
Proof. reflexivity. Qed.
Example fromisoformat_naive : fromisoformat "2024-02-29" = Some (Datetime 1709164800000000 false).
Proof. reflexivity. Qed.
Example fromisoformat_bad : fromisoformat "2023-02-29" = None.
Proof. reflexivity. Qed.

Lemma require_utc_Ok t f t' : require_utc t f = Ok t' -> t' = t /\ dt_aware t = true.
Proof. unfold require_utc. destruct (dt_aware t) eqn:E; [|done]. by intros [= <-]. Qed.

Lemma require_utc_ok t f : dt_aware t = true -> require_utc t f = Ok t.
Proof. unfold require_utc. by intros ->. Qed.

Lemma dt_add_Ok t d t' :
  dt_add t d = Ok t' -> dt_us t' = dt_us t + d /\ dt_aware t' = dt_aware t.
Proof. unfold dt_add. step_case; [done|]. by intros [= <-]. Qed.
