(* ===== verification/PyFormat.v ===== *)
(** * Formatting

    [str(int)], the fixed-point format [f"{d:.nf}"] of a decimal (which
    rounds half to even), [isoformat], and [str] of a JSON-like value.

    Inside a container [str] writes the [repr] of the items.  The [repr] of a
    datetime or of an enum member names classes the model does not carry; such
    values do not occur inside the JSON containers the program formats, and
    their text is [<object>]. *)

From Stdlib Require Import Ascii.
From stdpp Require Import pretty.
From S2P Require Import Prelude PyDecimal PyFloat PyValue PyTime.
From Stdlib Require Import SpecFloat.

(** [str(z)] *)
Definition str_int (z : Z) : string := pretty z.

(** [s.zfill]-style padding on the left. *)
Fixpoint pad_left (n : nat) (s : string) : string :=
  if (n <=? String.length s)%nat then s
  else match n with O => s | S n' => "0" +:+ pad_left n' s end.

(** Zeros on the right. *)
Fixpoint pad_right (n : nat) (s : string) : string :=
  if (n <=? String.length s)%nat then s
  else match n with O => s | S n' => pad_right n' s +:+ "0" end.

(** [format(d, ".nf")]. *)
Definition fmt_fixed (n : nat) (d : dec) : string :=
  let c := rescale ROUND_HALF_EVEN d (- Z.of_nat n) in
  let digits := pad_left (S n) (str_int (Z.abs c)) in
  let k := (String.length digits - n)%nat in
  (if c <? 0 then "-" else "") +:+ String.substring 0 k digits +:+
  (if (n =? 0)%nat then "" else "." +:+ String.substring k n digits).

(** [format(d, "f")]: every digit of the coefficient, no exponent. *)
Definition fmt_f (d : dec) : string :=
  fmt_fixed (Z.to_nat (- Z.min 0 (dexp d))) d.

Example fmt_ex1 : fmt_fixed 2 (Dec 1234567 (-6)) = "1.23".
Proof. vm_compute. reflexivity. Qed.
Example fmt_ex2 : fmt_fixed 2 (Dec 5 (-3)) = "0.00".
Proof. vm_compute. reflexivity. Qed.
Example fmt_ex3 : fmt_f (Dec (-50) (-3)) = "-0.050".
Proof. vm_compute. reflexivity. Qed.
Example fmt_ex4 : fmt_f (Dec 12 2) = "1200".
Proof. vm_compute. reflexivity. Qed.

(** ** [str(Decimal)] *)

(** Scientific notation is used when the exponent is positive or the value is
    below [1e-6]. *)
Definition str_dec_fin (d : dec) : string :=
  let digits := str_int (Z.abs (dcoef d)) in
  let n := Z.of_nat (String.length digits) in
  let left := dexp d + n in
  let point := if (dexp d <=? 0) && (-6 <? left) then left else 1 in
  let body :=
    if point <=? 0 then "0." +:+ pad_left (Z.to_nat (n - point)) digits
    else if n <=? point then pad_right (Z.to_nat point) digits
    else String.substring 0 (Z.to_nat point) digits +:+ "." +:+
         String.substring (Z.to_nat point) (String.length digits) digits in
  (if dcoef d <? 0 then "-" else "") +:+ body +:+
  (if left =? point then ""
   else "E" +:+ (if left - point <? 0 then "-" else "+") +:+ str_int (Z.abs (left - point))).

Definition str_dec (d : pydec) : string :=
  match d with
  | DFin d => str_dec_fin d
  | DInf s => if s then "-Infinity" else "Infinity"
  | DNaN => "NaN"
  end.

(** ** [repr(float)]: the shortest digits, in fixed notation for exponents
    from -4 to 15. *)
Definition float_repr (f : float) : string :=
  match f with
  | S754_nan => "nan"
  | S754_infinity s => if s then "-inf" else "inf"
  | S754_zero s => if s then "-0.0" else "0.0"
  | S754_finite s _ _ =>
      match repr_dec f with
      | None => ""
      | Some d =>
          let d := strip_zeros 400 (Z.abs (dcoef d)) (dexp d) 400 in
          let digits := str_int (dcoef d) in
          let n := Z.of_nat (String.length digits) in
          let point := n + dexp d in
          let body :=
            if (-4 <? point) && (point <=? 16) then
              if point <=? 0 then "0." +:+ pad_left (Z.to_nat (n - point)) digits
              else if n <=? point then pad_right (Z.to_nat point) digits +:+ ".0"
              else String.substring 0 (Z.to_nat point) digits +:+ "." +:+
                   String.substring (Z.to_nat point) (String.length digits) digits
            else
              let e := point - 1 in
              String.substring 0 1 digits +:+
              (if n =? 1 then "" else "." +:+ String.substring 1 (String.length digits) digits) +:+
              "e" +:+ (if e <? 0 then "-" else "+") +:+ pad_left 2 (str_int (Z.abs e)) in
          (if s then "-" else "") +:+ body
      end
  end.

(** ** [datetime.isoformat(sep)] *)
Definition civil_from_days (z : Z) : Z * Z * Z :=
  let z := z + 719468 in
  let era := z / 146097 in
  let doe := z - era * 146097 in
  let yoe := (doe - doe / 1460 + doe / 36524 - doe / 146096) / 365 in
  let doy := doe - (365 * yoe + yoe / 4 - yoe / 100) in
  let mp := (5 * doy + 2) / 153 in
  let d := doy - (153 * mp + 2) / 5 + 1 in
  let m := if mp <? 10 then mp + 3 else mp - 9 in
  (yoe + era * 400 + (if m <=? 2 then 1 else 0), m, d).

Definition isoformat_sep (sep : string) (t : datetime) : string :=
  let days := dt_us t / 86400000000 in
  let us := dt_us t mod 86400000000 in
  let '(y, m, d) := civil_from_days days in
  let secs := us / 1000000 in
  let frac := us mod 1000000 in
  pad_left 4 (str_int y) +:+ "-" +:+ pad_left 2 (str_int m) +:+ "-" +:+ pad_left 2 (str_int d) +:+
  sep +:+ pad_left 2 (str_int (secs / 3600)) +:+ ":" +:+ pad_left 2 (str_int (secs / 60 mod 60)) +:+
  ":" +:+ pad_left 2 (str_int (secs mod 60)) +:+
  (if frac =? 0 then "" else "." +:+ pad_left 6 (str_int frac)) +:+
  (if dt_aware t then "+00:00" else "").
Definition isoformat (t : datetime) : string := isoformat_sep "T" t.

(** ** [repr(str)] for ASCII *)
Definition hex_digit (n : nat) : Ascii.ascii :=
  Ascii.ascii_of_nat (if (n <? 10)%nat then 48 + n else 87 + n).
Definition repr_char (quote c : Ascii.ascii) : string :=
  let n := Ascii.nat_of_ascii c in
  if Ascii.eqb c quote || Ascii.eqb c "\"%char then String "\" (String c EmptyString)
  else if (n =? 10)%nat then "\n" else if (n =? 13)%nat then "\r" else if (n =? 9)%nat then "\t"
  else if ((n <? 32) || (126 <? n))%nat
  then "\x" +:+ String (hex_digit (n / 16)) (String (hex_digit (n mod 16)) EmptyString)
  else String c EmptyString.
Fixpoint repr_chars (quote : Ascii.ascii) (s : string) : string :=
  match s with
  | EmptyString => EmptyString
  | String c s' => repr_char quote c +:+ repr_chars quote s'
  end.
Definition repr_str (s : string) : string :=
  let single := Ascii.ascii_of_nat 39 in
  let double := Ascii.ascii_of_nat 34 in
  let has c := nonempty (filter_string (Ascii.eqb c) s) in
  let q := if has single && negb (has double) then double else single in
  String q (repr_chars q s) +:+ String q EmptyString.

Definition bracket (l r : string) (items : list string) : string :=
  l +:+ String.concat ", " items +:+ r.

Fixpoint py_repr (v : pyval) : string :=
  match v with
  | VNone => "None"
  | VBool b => if b then "True" else "False"
  | VInt z => str_int z
  | VFloat f => float_repr f
  | VDec d => "Decimal('" +:+ str_dec d +:+ "')"
  | VStr s => repr_str s
  | VEnum _ | VTime _ => "<object>"
  | VList l => bracket "[" "]" (map py_repr l)
  | VTuple l =>
      match l with
      | [x] => "(" +:+ py_repr x +:+ ",)"
      | _ => bracket "(" ")" (map py_repr l)
      end
  | VDict kvs =>
      bracket "{" "}" (map (fun kv => repr_str (fst kv) +:+ ": " +:+ py_repr (snd kv)) kvs)
  end.

(** [str(v)] *)
Definition py_str (v : pyval) : string :=
  match v with
  | VStr s | VEnum s => s
  | VDec d => str_dec d
  | VTime t => isoformat_sep " " t
  | _ => py_repr v
  end.

Example py_str_ex1 : map py_str [VInt (-5); VBool true; VNone; VFloat (of_dec (Dec 124 (-1)))]
  = ["-5"; "True"; "None"; "12.4"].
Proof. vm_compute. reflexivity. Qed.
Example py_str_ex2 : py_str (VList [VStr "a"; VDict [("k", VDec (DFin (Dec 15 (-1))))]])
  = "['a', {'k': Decimal('1.5')}]".
Proof. vm_compute. reflexivity. Qed.
Example py_str_ex3 : map float_repr [of_Z 100; of_dec (Dec 1 (-7)); of_dec (Dec 15 20)]
  = ["100.0"; "1e-07"; "1.5e+21"].
Proof. vm_compute. reflexivity. Qed.
Example str_dec_ex : map str_dec_fin [Dec 1 (-7); Dec 1 2; Dec 0 (-6); Dec (-12345) (-2)]
  = ["1E-7"; "1E+2"; "0.000000"; "-123.45"].
Proof. vm_compute. reflexivity. Qed.
Example isoformat_ex : map isoformat [utc 1700000000000000; Datetime 951782400000001 false]
  = ["2023-11-14T22:13:20+00:00"; "2000-02-29T00:00:00.000001"].
Proof. vm_compute. reflexivity. Qed.
