(* ===== verification/PyJson.v ===== *)
(** * [json.dumps]

    The compact, key-sorted text the program hashes, signs and measures.  A
    Python object is first read as a JSON value ([to_json]: members of an
    enumeration and strings are strings, tuples are lists, keys are sorted)
    and then written ([render]).  [default] is [default=str], [allow_nan] the
    argument of that name.  Text is ASCII, where [ensure_ascii] only decides
    how DEL is written.

    The text determines the value ([render_inj]): what is hashed under two
    texts that are equal is the same JSON value. *)

From Stdlib Require Import Ascii SpecFloat OrderedTypeEx.
From stdpp Require Import pretty sorting.
From S2P Require Import Prelude PyDecimal PyFloat PyValue PyEq PyTime PyFormat.

(** Definitions *)

(** A number is the text [json] writes for it. *)
Inductive json : Type :=
| JNull
| JBool (b : bool)
| JNum (text : string)
| JStr (s : string)
| JList (l : list json)
| JDict (m : list (string * json)).

(** [float.__repr__], and the names [json] has for what is not finite. *)
Definition json_float (f : float) : string :=
  match f with
  | S754_nan => "NaN"
  | S754_infinity s => if s then "-Infinity" else "Infinity"
  | _ => float_repr f
  end.

Section ToJson.
Context (default allow_nan : bool).

Definition refuse : py json := Err (TypeError "Object is not JSON serializable").

Fixpoint to_json (v : pyval) : py json :=
  match v with
  | VNone => Ok JNull
  | VBool b => Ok (JBool b)
  | VInt z => Ok (JNum (str_int z))
  | VFloat f =>
      if allow_nan || fisfinite f then Ok (JNum (json_float f))
      else Err (ValueError "Out of range float values are not JSON compliant")
  | VStr s | VEnum s => Ok (JStr s)
  | VDec _ | VTime _ => if default then Ok (JStr (py_str v)) else refuse
  | VList l | VTuple l =>
      rmap JList ((fix go (l : list pyval) : py (list json) :=
                     match l with
                     | [] => Ok []
                     | x :: l' => let? y := to_json x in let? k := go l' in Ok (y :: k)
                     end) l)
  | VDict m =>
      rmap (fun kvs => JDict (sort_by (fun a b => String.ltb a.1 b.1) kvs))
        ((fix go (m : dict) : py (list (string * json)) :=
            match m with
            | [] => Ok []
            | (k, x) :: m' => let? y := to_json x in let? n := go m' in Ok ((k, y) :: n)
            end) m)
  end.
End ToJson.

Definition dquote : ascii := ascii_of_nat 34.

(** The text of a character inside quotes. *)
Definition json_char (ensure_ascii : bool) (c : ascii) : string :=
  let n := nat_of_ascii c in
  if Ascii.eqb c dquote then String "\" (String dquote EmptyString)
  else if Ascii.eqb c "\"%char then "\\"
  else if (n =? 10)%nat then "\n" else if (n =? 13)%nat then "\r" else if (n =? 9)%nat then "\t"
  else if (n =? 8)%nat then "\b" else if (n =? 12)%nat then "\f"
  else if (n <? 32)%nat || (ensure_ascii && (n =? 127)%nat)
  then "\u00" +:+ String (hex_digit (n / 16)) (String (hex_digit (n mod 16)) EmptyString)
  else String c EmptyString.

Fixpoint json_chars (ensure_ascii : bool) (s : string) : string :=
  match s with
  | EmptyString => EmptyString
  | String c s' => json_char ensure_ascii c +:+ json_chars ensure_ascii s'
  end.
Definition json_str (ensure_ascii : bool) (s : string) : string :=
  String dquote (json_chars ensure_ascii s +:+ String dquote EmptyString).

Fixpoint render (ensure_ascii : bool) (j : json) : string :=
  match j with
  | JNull => "null"
  | JBool b => if b then "true" else "false"
  | JNum t => t
  | JStr s => json_str ensure_ascii s
  | JList l => "[" +:+ String.concat "," (map (render ensure_ascii) l) +:+ "]"
  | JDict m =>
      "{" +:+ String.concat ","
        (map (fun kv => json_str ensure_ascii kv.1 +:+ ":" +:+ render ensure_ascii kv.2) m) +:+ "}"
  end.

(** [json.dumps(v, sort_keys=True, separators=(",", ":"), ...)] *)
Definition dumps (ensure_ascii default allow_nan : bool) (v : pyval) : py string :=
  rmap (render ensure_ascii) (to_json default allow_nan v).

(** What [to_json] builds: the text of a number starts like one and stops
    before whatever ends a value. *)
Fixpoint all_chars (p : ascii -> bool) (s : string) : bool :=
  match s with EmptyString => true | String c s' => p c && all_chars p s' end.
Definition num_start (c : ascii) : bool :=
  is_digit c || Ascii.eqb c "-"%char || Ascii.eqb c "N"%char || Ascii.eqb c "I"%char.
Definition num_char (c : ascii) : bool :=
  negb (Ascii.eqb c ","%char || Ascii.eqb c "]"%char || Ascii.eqb c "}"%char).
Definition num_text (t : string) : bool :=
  match t with EmptyString => false | String c _ => num_start c && all_chars num_char t end.
Fixpoint json_ok (j : json) : Prop :=
  match j with
  | JNum t => num_text t = true
  | JList l => (fix go l := match l with [] => True | x :: l' => json_ok x /\ go l' end) l
  | JDict m => (fix go (m : list (string * json)) :=
                  match m with [] => True | kv :: m' => json_ok kv.2 /\ go m' end) m
  | _ => True
  end.

(** Lemmas *)

Lemma app_cons_s c (a b : string) : String c a +:+ b = String c (a +:+ b).
Proof. reflexivity. Qed.
Lemma app_nil_s (b : string) : EmptyString +:+ b = b.
Proof. reflexivity. Qed.
Lemma app_assoc_s (a b c : string) : (a +:+ b) +:+ c = a +:+ b +:+ c.
Proof. induction a as [|x a IH]; [done|]. by rewrite !app_cons_s, IH. Qed.

Lemma json_nested_ind (P : json -> Prop) :
  P JNull -> (forall b, P (JBool b)) -> (forall t, P (JNum t)) -> (forall s, P (JStr s)) ->
  (forall l, Forall P l -> P (JList l)) -> (forall m, Forall (fun kv => P kv.2) m -> P (JDict m)) ->
  forall j, P j.
Proof.
  intros HN HB HU HS HL HD. fix IH 1. intros [|b|t|s|l|m]; [done|done|done|done| | ].
  - apply HL. induction l; constructor; [apply IH|done].
  - apply HD. induction m as [|[k v] m IHm]; constructor; [apply IH|done].
Qed.

(** ** Strings

    One character can be read back from the front of a text. *)
Definition unhex (c : ascii) : nat :=
  let n := nat_of_ascii c in if (n <? 58)%nat then (n - 48)%nat else (n - 87)%nat.
Definition unchar (s : string) : option (ascii * string) :=
  match s with
  | String c r =>
      if Ascii.eqb c dquote then None
      else if Ascii.eqb c "\"%char then
        match r with
        | String "n" r' => Some (ascii_of_nat 10, r')
        | String "r" r' => Some (ascii_of_nat 13, r')
        | String "t" r' => Some (ascii_of_nat 9, r')
        | String "b" r' => Some (ascii_of_nat 8, r')
        | String "f" r' => Some (ascii_of_nat 12, r')
        | String "u" (String _ (String _ (String h (String l r')))) =>
            Some (ascii_of_nat (16 * unhex h + unhex l), r')
        | String c' r' => Some (c', r')
        | EmptyString => None
        end
      else Some (c, r)
  | EmptyString => None
  end.

Lemma unchar_json a c r : unchar (json_char a c +:+ r) = Some (c, r).
Proof. by destruct a, c as [[] [] [] [] [] [] [] []]. Qed.

Lemma json_chars_inj a s t r r' :
  json_chars a s +:+ String dquote r = json_chars a t +:+ String dquote r' -> s = t /\ r = r'.
Proof.
  revert t. induction s as [|c s IH]; intros [|c' t] H; simpl in H;
    rewrite ?app_nil_s, ?app_assoc_s in H; apply (f_equal unchar) in H as Hu; rewrite ?unchar_json in Hu.
  - by injection H.
  - by simpl in Hu.
  - by simpl in Hu.
  - injection Hu as <- Hu. apply IH in Hu as [<- <-]. done.
Qed.

Lemma json_str_inj a s t r r' : json_str a s +:+ r = json_str a t +:+ r' -> s = t /\ r = r'.
Proof.
  unfold json_str. rewrite !app_cons_s, !app_assoc_s, !app_cons_s, !app_nil_s.
  intros [= H]. by apply json_chars_inj in H.
Qed.

(** ** Numbers *)

Definition delimited (r : string) : Prop :=
  match r with EmptyString => True | String c _ => num_char c = false end.

Lemma num_split t u r r' :
  all_chars num_char t = true -> all_chars num_char u = true -> delimited r -> delimited r' ->
  t +:+ r = u +:+ r' -> t = u /\ r = r'.
Proof.
  revert u. induction t as [|c t IH]; intros [|c' u] Ht Hu Hr Hr' H;
    rewrite ?app_nil_s, ?app_cons_s in H; simpl in *.
  - done.
  - subst r. simpl in Hr. by rewrite Hr in Hu.
  - subst r'. simpl in Hr'. by rewrite Hr' in Ht.
  - injection H as <- H. apply andb_true_iff in Ht as [_ Ht], Hu as [_ Hu].
    by apply IH in H as [<- <-].
Qed.

Lemma all_chars_app p a b : all_chars p (a +:+ b) = all_chars p a && all_chars p b.
Proof. induction a as [|c a IH]; [done|]. rewrite app_cons_s. simpl. by rewrite IH, andb_assoc. Qed.

Lemma all_chars_substring p n m s : all_chars p s = true -> all_chars p (String.substring n m s) = true.
Proof.
  revert n m. induction s as [|c s IH]; intros n m H; [by destruct n, m|]. simpl in H.
  apply andb_true_iff in H as [Hc Hs]. destruct n as [|n], m as [|m]; simpl; rewrite ?Hc; [done|by apply IH..].
Qed.

Lemma all_chars_pad_left p n s :
  p "0"%char = true -> all_chars p s = true -> all_chars p (pad_left n s) = true.
Proof.
  intros H0 Hs. induction n as [|n IH]; cbn [pad_left]; destruct (_ <=? _)%nat; [done..|].
  rewrite all_chars_app. cbn [all_chars]. by rewrite H0, IH.
Qed.

Lemma all_chars_pad_right p n s :
  p "0"%char = true -> all_chars p s = true -> all_chars p (pad_right n s) = true.
Proof.
  intros H0 Hs. induction n as [|n IH]; cbn [pad_right]; destruct (_ <=? _)%nat; [done..|].
  rewrite all_chars_app. cbn [all_chars]. by rewrite H0, IH.
Qed.

Lemma pretty_N_digits x s :
  all_chars is_digit s = true -> all_chars is_digit (pretty_N_go x s) = true.
Proof.
  revert s. induction (N.lt_wf_0 x) as [x _ IH]; intros s Hs.
  destruct (decide (x = 0)%N) as [->|Hx]; [by rewrite pretty_N_go_0|].
  rewrite pretty_N_go_step by lia. apply IH; [by apply N.div_lt; lia|]. cbn [all_chars]. rewrite Hs.
  unfold pretty_N_char. by repeat case_match.
Qed.

Lemma str_pos_digits p : all_chars is_digit (str_int (Z.pos p)) = true.
Proof.
  unfold str_int, pretty, pretty_Z, pretty, pretty_positive, pretty, pretty_N.
  case_decide; [done|]. by apply pretty_N_digits.
Qed.

Lemma str_pos_nonempty p : str_int (Z.pos p) <> EmptyString.
Proof.
  unfold str_int, pretty, pretty_Z, pretty, pretty_positive, pretty, pretty_N. case_decide; [done|].
  assert (forall x s, s <> EmptyString -> pretty_N_go x s <> EmptyString) as Hne.
  { intros x. induction (N.lt_wf_0 x) as [x _ IH]; intros s Hs.
    destruct (decide (x = 0)%N) as [->|Hx]; [by rewrite pretty_N_go_0|].
    rewrite pretty_N_go_step by lia. by apply IH; [apply N.div_lt; lia|]. }
  rewrite pretty_N_go_step by lia. by apply Hne.
Qed.

Lemma all_chars_impl (p q : ascii -> bool) s :
  (forall c, p c = true -> q c = true) -> all_chars p s = true -> all_chars q s = true.
Proof.
  intros Hpq. induction s as [|c s IH]; simpl; [done|]. intros [Hc Hs]%andb_true_iff.
  by rewrite (Hpq _ Hc), IH.
Qed.

Lemma digit_num c : is_digit c = true -> num_char c = true.
Proof. by destruct c as [[] [] [] [] [] [] [] []]. Qed.

(** Digits, then anything a number may contain. *)
Lemma num_text_app s r :
  num_text s = true -> all_chars num_char r = true -> num_text (s +:+ r) = true.
Proof.
  destruct s as [|c s]; [done|]. rewrite app_cons_s. simpl. intros [H1 [H2 H3]%andb_true_iff]%andb_true_iff Hr.
  by rewrite H1, H2, all_chars_app, H3, Hr.
Qed.

Lemma num_text_chars s : num_text s = true -> all_chars num_char s = true.
Proof. destruct s; [done|]. simpl. by intros [_ H]%andb_true_iff. Qed.

Lemma digits_num_text s : s <> EmptyString -> all_chars is_digit s = true -> num_text s = true.
Proof.
  destruct s as [|c s]; [done|]. intros _ H. pose proof (all_chars_impl _ _ _ digit_num H) as Hn. simpl in *.
  apply andb_true_iff in H as [Hc _]. unfold num_start. by rewrite Hc, Hn.
Qed.

Lemma str_int_num z : num_text (str_int z) = true.
Proof.
  destruct z as [|p|p]; [done| |].
  - apply digits_num_text; [apply str_pos_nonempty|apply str_pos_digits].
  - change (str_int (Z.neg p)) with ("-" +:+ str_int (Z.pos p)). apply num_text_app; [done|].
    apply (all_chars_impl is_digit); [apply digit_num|apply str_pos_digits].
Qed.

(** The leading characters of a number are one. *)
Lemma num_text_prefix n s : (0 < n)%nat -> num_text s = true -> num_text (String.substring 0 n s) = true.
Proof.
  destruct s as [|c s], n as [|n]; try lia; [done|]. intros _ H. pose proof (num_text_chars _ H) as Hc.
  apply (all_chars_substring _ 0 (S n)) in Hc. simpl in *. apply andb_true_iff in H as [H _]. by rewrite H.
Qed.

Lemma pad_right_num n s : num_text s = true -> num_text (pad_right n s) = true.
Proof.
  intros H. induction n as [|n IH]; cbn [pad_right]; destruct (_ <=? _)%nat; [done..|].
  by apply num_text_app.
Qed.

#[local] Hint Resolve str_int_num num_text_chars all_chars_substring all_chars_pad_left : num.

Lemma float_repr_num f : fisfinite f = true -> num_text (float_repr f) = true.
Proof.
  destruct f as [s|s| |s m e]; [by destruct s|done|done|]. intros _. cbn [float_repr].
  destruct (repr_dec _) as [d|] eqn:Ed; [|by unfold repr_dec in Ed].
  set (d' := strip_zeros _ _ _ _). cbv zeta. set (digits := str_int (dcoef d')).
  set (n := Z.of_nat (String.length digits)). set (point := n + dexp d').
  assert (num_text digits = true) as Hd by apply str_int_num.
  assert (forall b, num_text b = true -> num_text ((if s then "-" else "") +:+ b) = true) as Hsign.
  { intros b Hb. destruct s; [|done]. apply num_text_app; [done|by apply num_text_chars]. }
  apply Hsign. destruct (_ && _)%bool eqn:Ep.
  - apply andb_true_iff in Ep as [Ep1 Ep2]. boolify. destruct (point <=? 0) eqn:E0.
    { apply num_text_app; [done|]. apply all_chars_pad_left; [done|by apply num_text_chars]. }
    apply Z.leb_gt in E0. destruct (n <=? point).
    + apply num_text_app; [by apply pad_right_num|done].
    + apply num_text_app; [apply num_text_prefix; [lia|done]|]. rewrite all_chars_app.
      rewrite all_chars_substring by auto with num. done.
  - apply num_text_app; [by apply num_text_prefix; [lia|]|]. rewrite !all_chars_app.
    rewrite all_chars_pad_left by auto with num.
    destruct (n =? 1), (point - 1 <? 0); rewrite ?all_chars_app; rewrite ?all_chars_substring by auto with num; done.
Qed.

Lemma json_float_num f : num_text (json_float f) = true.
Proof. destruct f as [s|s| |s m e]; [by destruct s|by destruct s|done|by apply float_repr_num]. Qed.

Lemma json_ok_list l : json_ok (JList l) <-> Forall json_ok l.
Proof.
  induction l as [|x l IH]; [by split|]. rewrite Forall_cons, <- IH. done.
Qed.
Lemma json_ok_dict m : json_ok (JDict m) <-> Forall (fun kv => json_ok kv.2) m.
Proof.
  induction m as [|x m IH]; [by split|]. rewrite Forall_cons, <- IH. done.
Qed.

(** What [to_json] builds can be written and told apart. *)
Lemma to_json_ok d n v j : to_json d n v = Ok j -> json_ok j.
Proof.
  revert j. induction v as [|b|z|f|x|s|s|t|l IH|l IH|m IH] using pyval_nested_ind; intros j; cbn [to_json];
    try (by intros [= <-]).
  - intros [= <-]. apply str_int_num.
  - destruct (_ || _); [|done]. intros [= <-]. apply json_float_num.
  - by destruct d; [intros [= <-]|].
  - by destruct d; [intros [= <-]|].
  - intros (k & Hk & ->)%rmap_Ok. apply json_ok_list. revert k Hk.
    induction IH as [|x l Hx _ IHl]; intros k; [by intros [= <-]|].
    intros (y & Hy & (k' & Hk & [= <-])%rbind_Ok)%rbind_Ok. constructor; [by apply Hx|by apply IHl].
  - intros (k & Hk & ->)%rmap_Ok. apply json_ok_list. revert k Hk.
    induction IH as [|x l Hx _ IHl]; intros k; [by intros [= <-]|].
    intros (y & Hy & (k' & Hk & [= <-])%rbind_Ok)%rbind_Ok. constructor; [by apply Hx|by apply IHl].
  - intros (k & Hk & ->)%rmap_Ok. apply json_ok_dict. rewrite sort_by_perm. revert k Hk.
    induction IH as [|[key x] m Hx _ IHm]; intros k; [by intros [= <-]|].
    intros (y & Hy & (k' & Hk & [= <-])%rbind_Ok)%rbind_Ok. constructor; [by apply Hx|by apply IHm].
Qed.

(** ** The text determines the value *)

(** Which kind of value a text starts; 6 ends or separates items. *)
Definition start_kind (c : ascii) : nat :=
  if Ascii.eqb c "n"%char then 0 else if Ascii.eqb c "t"%char || Ascii.eqb c "f"%char then 1
  else if num_start c then 2 else if Ascii.eqb c dquote then 3 else if Ascii.eqb c "["%char then 4
  else if Ascii.eqb c "{"%char then 5 else 6.
Definition kind (j : json) : nat :=
  match j with JNull => 0 | JBool _ => 1 | JNum _ => 2 | JStr _ => 3 | JList _ => 4 | JDict _ => 5 end.

Lemma render_head a j : json_ok j -> exists c s, render a j = String c s /\ start_kind c = kind j.
Proof.
  destruct j as [|[]|t|s|l|m]; intros H; simpl.
  - by eexists _, _.
  - by eexists _, _.
  - by eexists _, _.
  - destruct t as [|c t]; [done|]. eexists _, _. split; [done|]. simpl in H.
    apply andb_true_iff in H as [H _]. clear t. revert H. by destruct c as [[] [] [] [] [] [] [] []].
  - by eexists _, _.
  - by eexists _, _.
  - by eexists _, _.
Qed.

(** Texts of items, separated by commas and closed by [cl]. *)
Fixpoint tail_text (l : list string) (cl : string) : string :=
  match l with [] => cl | x :: l' => "," +:+ x +:+ tail_text l' cl end.
Definition items_text (l : list string) (cl : string) : string :=
  match l with [] => cl | x :: l' => x +:+ tail_text l' cl end.

Lemma concat_items l cl : String.concat "," l +:+ cl = items_text l cl.
Proof.
  destruct l as [|x l]; [done|]. revert x. induction l as [|y l IH]; intros x; [done|].
  change (String.concat "," (x :: y :: l)) with (x +:+ "," +:+ String.concat "," (y :: l)).
  rewrite !app_assoc_s, IH. done.
Qed.

Section Items.
Context {X : Type} (f : X -> string) (ok : X -> Prop) (cl : ascii).
Context (Hcl : num_char cl = false /\ start_kind cl = 6%nat /\ cl <> ","%char).
Context (Hhead : forall x, ok x -> exists c s, f x = String c s /\ start_kind c <> 6%nat).

Definition reads (x : X) : Prop :=
  forall y r r', ok x -> ok y -> delimited r -> delimited r' -> f x +:+ r = f y +:+ r' -> x = y /\ r = r'.

Lemma tail_delimited l r : delimited (tail_text (map f l) (String cl r)).
Proof. destruct l; simpl; [apply Hcl|done]. Qed.

Lemma tail_inj l : Forall reads l -> forall l' r r', Forall ok l -> Forall ok l' ->
  tail_text (map f l) (String cl r) = tail_text (map f l') (String cl r') -> l = l' /\ r = r'.
Proof.
  destruct Hcl as (_ & _ & Hne). induction 1 as [|x l Hx _ IH]; intros [|y l'] r r' Ho Ho' H; simpl in H;
    rewrite ?app_cons_s, ?app_nil_s in H.
  - by injection H.
  - by injection H.
  - injection H as H. congruence.
  - apply Forall_cons in Ho as [Hox Ho], Ho' as [Hoy Ho']. injection H as H.
    apply Hx in H as [<- H]; [|done|done|apply tail_delimited|apply tail_delimited].
    by apply IH in H as [<- <-].
Qed.

Lemma items_inj l : Forall reads l -> forall l' r r', Forall ok l -> Forall ok l' ->
  items_text (map f l) (String cl r) = items_text (map f l') (String cl r') -> l = l' /\ r = r'.
Proof.
  intros Hl l' r r' Ho Ho' H. destruct Hcl as (_ & Hk & _).
  destruct l as [|x l], l' as [|y l']; simpl in H.
  - by injection H.
  - apply Forall_cons in Ho' as [Hy _]. destruct (Hhead y Hy) as (c & s & Hc & Hs).
    rewrite Hc, app_cons_s in H. injection H as -> _. congruence.
  - apply Forall_cons in Ho as [Hx _]. destruct (Hhead x Hx) as (c & s & Hc & Hs).
    rewrite Hc, app_cons_s in H. injection H as <- _. congruence.
  - apply Forall_cons in Hl as [Hx Hl], Ho as [Hox Ho], Ho' as [Hoy Ho'].
    apply Hx in H as [<- H]; [|done|done|apply tail_delimited|apply tail_delimited].
    by apply tail_inj in H as [<- <-].
Qed.
End Items.

(** A member of an object. *)
Definition member_text (a : bool) (kv : string * json) : string :=
  json_str a kv.1 +:+ ":" +:+ render a kv.2.

Lemma render_kind a j y r r' :
  json_ok j -> json_ok y -> render a j +:+ r = render a y +:+ r' -> kind y = kind j.
Proof.
  intros Ho Ho' H. destruct (render_head a _ Ho) as (c & u & E & <-), (render_head a _ Ho') as (c' & u' & E' & <-).
  rewrite E, E', !app_cons_s in H. by injection H as <- _.
Qed.

Lemma render_reads a j : reads (render a) json_ok j.
Proof.
  unfold reads.
  induction j as [|b|t|s|l IH|m IH] using json_nested_ind; intros y r r' Ho Ho' Hr Hr' H;
    pose proof (render_kind _ _ _ _ _ Ho Ho' H) as Hk;
    destruct y as [|b'|t'|s'|l'|m']; try discriminate Hk; simpl in H.
  - by rewrite !app_cons_s in H; injection H.
  - destruct b, b'; rewrite !app_cons_s in H; injection H; try done; intros; subst; done.
  - simpl in Ho, Ho'. apply num_split in H as [<- <-]; [done|by apply num_text_chars..|done|done].
  - by apply json_str_inj in H as [<- <-].
  - rewrite !app_cons_s, !app_nil_s, !app_assoc_s, !concat_items in H. injection H as H.
    apply (items_inj (render a) json_ok "]"%char) in H as [<- <-]; [done|done| |done| |].
    + intros x Hx. destruct (render_head a x Hx) as (c & u & E & Hc). exists c, u. split; [done|].
      rewrite Hc. by destruct x.
    + by apply json_ok_list.
    + by apply json_ok_list.
  - rewrite !app_cons_s, !app_nil_s, !app_assoc_s, !concat_items in H. injection H as H.
    apply (items_inj (member_text a) (fun kv => json_ok kv.2) "}"%char) in H as [<- <-];
      [done|done| | | |].
    + intros [k x] _. eexists _, _. split; [done|]. done.
    + eapply Forall_impl; [exact IH|]. intros [k x] Hx [k' y] q q' Hox Hoy Hq Hq' E.
      unfold member_text in E. simpl in *. rewrite !app_assoc_s in E.
      apply json_str_inj in E as [<- E]. rewrite !app_cons_s, !app_nil_s in E. injection E as E.
      by apply Hx in E as [<- <-].
    + by apply json_ok_dict.
    + by apply json_ok_dict.
Qed.

Lemma app_nil_r_s (s : string) : s +:+ EmptyString = s.
Proof. induction s as [|c s IH]; [done|]. by rewrite app_cons_s, IH. Qed.

Lemma render_inj a j k : json_ok j -> json_ok k -> render a j = render a k -> j = k.
Proof.
  intros Hj Hk H. apply (render_reads a j k EmptyString EmptyString); [done..|]. by rewrite H.
Qed.

(** The canonical text of two objects is the same exactly when they are the
    same JSON value. *)
Lemma dumps_inj a d n v w s :
  dumps a d n v = Ok s -> dumps a d n w = Ok s <-> to_json d n w = to_json d n v.
Proof.
  intros (j & Hj & ->)%rmap_Ok. rewrite Hj. split.
  - intros (k & Hk & E)%rmap_Ok. rewrite Hk. f_equal. symmetry.
    apply (render_inj a); [by eapply to_json_ok|by eapply to_json_ok|done].
  - unfold dumps. by intros ->.
Qed.

(** ** The order of strings *)

Lemma str_ltb_lt a b : String.ltb a b = true <-> String_as_OT.lt a b.
Proof.
  rewrite <- String_as_OT.cmp_lt. unfold String.ltb, String_as_OT.cmp. by destruct (String.compare a b).
Qed.
Lemma str_ltb_trans a b c : String.ltb a b = true -> String.ltb b c = true -> String.ltb a c = true.
Proof. rewrite !str_ltb_lt. apply String_as_OT.lt_trans. Qed.
Lemma str_ltb_asym a b : String.ltb a b = true -> String.ltb b a = false.
Proof. unfold String.ltb. rewrite String.compare_antisym. by destruct (String.compare b a). Qed.
Lemma str_ltb_total a b : String.ltb a b = false -> String.ltb b a = false -> a = b.
Proof.
  unfold String.ltb. rewrite (String.compare_antisym b a).
  destruct (String.compare a b) eqn:E; try done. by apply String.compare_eq_iff in E.
Qed.
Lemma str_le_trans a b c :
  String.ltb b a = false -> String.ltb c b = false -> String.ltb c a = false.
Proof.
  intros Hba Hcb. destruct (String.ltb c a) eqn:E; [|done].
  destruct (String.ltb a b) eqn:Eab; [by rewrite (str_ltb_trans _ _ _ E Eab) in Hcb|].
  rewrite (str_ltb_total _ _ Eab Hba) in E. congruence.
Qed.

(** Sorting by distinct keys does not depend on the order of the input. *)
Section ByKey.
Context {A : Type} (key : A -> string).
Abbreviation lt_key := (fun a b => String.ltb (key a) (key b)).

Lemma sort_by_key_sorted l : StronglySorted (le_by lt_key) (sort_by lt_key l).
Proof.
  apply sort_by_sorted; [intros a b; apply str_ltb_asym|]. unfold le_by. intros a b c.
  intros H1 H2. by eapply str_le_trans.
Qed.

Lemma sort_by_key_perm l l' :
  NoDup (key <$> l) -> l ≡ₚ l' -> sort_by lt_key l = sort_by lt_key l'.
Proof.
  intros Hnd Hp. apply (StronglySorted_unique_strong (le_by lt_key)).
  - intros a b Ha Hb Hab Hba. rewrite elem_of_sort_by in Ha, Hb. unfold le_by in *. simpl in *.
    rewrite <- Hp in Hb. pose proof (str_ltb_total _ _ Hba Hab) as E.
    apply list_elem_of_lookup in Ha as [i Hi], Hb as [j Hj].
    assert (i = j) as ->; [|congruence].
    eapply (NoDup_lookup (key <$> l)); [done|by rewrite list_lookup_fmap, Hi|].
    by rewrite list_lookup_fmap, Hj; simpl; rewrite E.
  - apply sort_by_key_sorted.
  - apply sort_by_key_sorted.
  - by rewrite !sort_by_perm.
Qed.
End ByKey.

(** The members of an object, before they are sorted. *)
Definition members_json (d n : bool) (m : dict) : py (list (string * json)) :=
  mapR (fun kv => rmap (pair kv.1) (to_json d n kv.2)) m.

Lemma to_json_dict d n m :
  to_json d n (VDict m) = rmap (fun kvs => JDict (sort_by (fun a b => String.ltb a.1 b.1) kvs)) (members_json d n m).
Proof.
  cbn [to_json]. f_equal. unfold members_json. induction m as [|[k x] m IH]; [done|]. simpl.
  destruct (to_json d n x); simpl; [|done]. rewrite IH. by destruct (mapR _ m).
Qed.

Lemma members_json_keys d n m kvs : members_json d n m = Ok kvs -> kvs.*1 = m.*1.
Proof.
  intros H%mapR_Ok. induction H as [|kv x m l Hx _ IH]; [done|].
  apply rmap_Ok in Hx as (j & _ & ->). csimpl. by rewrite IH.
Qed.

Lemma members_json_perm d n m m' kvs :
  m ≡ₚ m' -> members_json d n m = Ok kvs -> exists kvs', members_json d n m' = Ok kvs' /\ kvs ≡ₚ kvs'.
Proof.
  intros Hp. unfold members_json. revert kvs. induction Hp as [|x m m' _ IH|x y m|m m' m'' _ IH1 _ IH2]; intros kvs.
  - intros [= <-]. by exists [].
  - simpl. intros (y & Hy & (l & Hl & [= <-])%rbind_Ok)%rbind_Ok. destruct (IH _ Hl) as (l' & Hl' & Hp).
    exists (y :: l'). rewrite Hy. simpl. rewrite Hl'. simpl. split; [done|by constructor].
  - simpl. intros (a & Ha & (l & (b & Hb & (l' & Hl & [= <-])%rbind_Ok)%rbind_Ok & [= <-])%rbind_Ok)%rbind_Ok.
    exists (b :: a :: l'). rewrite Hb. simpl. rewrite Ha. simpl. rewrite Hl. simpl. split; [done|constructor].
  - intros H. destruct (IH1 _ H) as (l & Hl & H1), (IH2 _ Hl) as (l' & Hl' & H2). exists l'. split; [done|].
    by etrans.
Qed.

(** The order in which an object lists its members does not matter. *)
Lemma to_json_perm d n m m' j :
  NoDup m.*1 -> m ≡ₚ m' -> to_json d n (VDict m) = Ok j -> to_json d n (VDict m') = Ok j.
Proof.
  intros Hnd Hp. rewrite !to_json_dict. intros (kvs & Hk & ->)%rmap_Ok.
  destruct (members_json_perm _ _ _ _ _ Hp Hk) as (kvs' & Hk' & Hp'). rewrite Hk'. simpl. do 2 f_equal.
  symmetry. apply (sort_by_key_perm fst); [|done]. by rewrite (members_json_keys _ _ _ _ Hk).
Qed.
