(* ===== verification/PyJsonRead.v ===== *)
(** * [json.loads]

    The reader of JSON texts the program receives.  Text is UTF-8: an escape
    above ASCII becomes the bytes of its character (a surrogate pair one
    character, a lone surrogate the three bytes of its code).  As in Python,
    [NaN] and the infinities are numbers, the last of two equal keys wins and
    control characters inside quotes are refused.  The nesting limit of the
    interpreter is not modelled.

    [loads_fuel_enough]: the fuel [loads] gives, the length of the text, is
    enough for every text.

    What [dumps] writes of JSON data - no floats, decimals or times, distinct
    keys - [loads] reads back with its keys sorted ([loads_dumps]). *)

From Stdlib Require Import Ascii SpecFloat.
From stdpp Require Import pretty.
From S2P Require Import Prelude PyDecimal PyFloat PyValue PyEq PyTime PyFormat PyJson.

(** Definitions *)

(** [IntTooLong]: [int] of more than 4300 digits, a plain [ValueError]. *)
Inductive json_error := JSONDecodeError | IntTooLong.

Definition is_ws (c : ascii) : bool :=
  let n := nat_of_ascii c in (n =? 32)%nat || (n =? 9)%nat || (n =? 10)%nat || (n =? 13)%nat.
Fixpoint skip_ws (s : string) : string :=
  match s with String c r => if is_ws c then skip_ws r else s | EmptyString => s end.

(** ** Strings *)

Definition quote : ascii := ascii_of_nat 34.

Definition hex_val (c : ascii) : option N :=
  let n := nat_of_ascii c in
  if ((48 <=? n) && (n <=? 57))%nat then Some (N.of_nat (n - 48))
  else if ((97 <=? n) && (n <=? 102))%nat then Some (N.of_nat (n - 87))
  else if ((65 <=? n) && (n <=? 70))%nat then Some (N.of_nat (n - 55))
  else None.

Definition hex4 (s : string) : option (N * string) :=
  match s with
  | String a (String b (String c (String d r))) =>
      match hex_val a, hex_val b, hex_val c, hex_val d with
      | Some a, Some b, Some c, Some d => Some (a * 4096 + b * 256 + c * 16 + d, r)%N
      | _, _, _, _ => None
      end
  | _ => None
  end.

Definition byte (n : N) (s : string) : string := String (ascii_of_N n) s.
Definition utf8 (u : N) (s : string) : string :=
  (if u <? 128 then byte u s
   else if u <? 2048 then byte (192 + u / 64) (byte (128 + u mod 64) s)
   else if u <? 65536 then byte (224 + u / 4096) (byte (128 + u / 64 mod 64) (byte (128 + u mod 64) s))
   else byte (240 + u / 262144)
          (byte (128 + u / 4096 mod 64) (byte (128 + u / 64 mod 64) (byte (128 + u mod 64) s))))%N.

(** The code of a [\u] escape, with the low half of a surrogate pair. *)
Definition unicode_escape (s : string) : option (N * string) :=
  match hex4 s with
  | Some (u, r) =>
      if ((55296 <=? u) && (u <=? 56319))%N then
        match r with
        | String "\" (String "u" r') =>
            match hex4 r' with
            | Some (v, r'') => if ((56320 <=? v) && (v <=? 57343))%N
                               then Some (65536 + (u - 55296) * 1024 + (v - 56320), r'')%N else Some (u, r)
            | None => Some (u, r)
            end
        | _ => Some (u, r)
        end
      else Some (u, r)
  | None => None
  end.

Definition escape (s : string) : option (N * string) :=
  match s with
  | String c r =>
      if Ascii.eqb c quote then Some (34%N, r)
      else match c with
           | "\"%char => Some (92%N, r)
           | "/"%char => Some (47%N, r)
           | "b"%char => Some (8%N, r)
           | "f"%char => Some (12%N, r)
           | "n"%char => Some (10%N, r)
           | "r"%char => Some (13%N, r)
           | "t"%char => Some (9%N, r)
           | "u"%char => unicode_escape r
           | _ => None
           end
  | EmptyString => None
  end.

(** What follows an opening quote. *)
Fixpoint read_string (fuel : nat) (s : string) : option (string * string) :=
  match fuel, s with
  | S n, String c r =>
      if Ascii.eqb c quote then Some (EmptyString, r)
      else if Ascii.eqb c "\"%char then
        match escape r with
        | Some (u, r') => match read_string n r' with
                          | Some (t, rest) => Some (utf8 u t, rest)
                          | None => None
                          end
        | None => None
        end
      else if (nat_of_ascii c <? 32)%nat then None
      else match read_string n r with Some (t, rest) => Some (String c t, rest) | None => None end
  | _, _ => None
  end.

(** ** Numbers *)

(** A zero alone, or digits that start with no zero. *)
Definition read_int_part (s : string) : option (string * string) :=
  match s with
  | String c r =>
      if Ascii.eqb c "0"%char then Some ("0", r)
      else match span_digits s with (EmptyString, _) => None | p => Some p end
  | EmptyString => None
  end.
(** A point and digits, if both are there. *)
Definition read_frac (s : string) : string * string :=
  match s with
  | String "." r => match span_digits r with
                    | (EmptyString, _) => (EmptyString, s)
                    | (d, r') => (String "." d, r')
                    end
  | _ => (EmptyString, s)
  end.
(** An exponent, if its digits are there. *)
Definition read_exp (s : string) : string * string :=
  match s with
  | String c r =>
      if Ascii.eqb (lower_char c) "e"%char then
        let '(neg, r1) := parse_sign r in
        match span_digits r1 with
        | (EmptyString, _) => (EmptyString, s)
        | (d, r') => (String "e" (if neg : bool then String "-" d else d), r')
        end
      else (EmptyString, s)
  | EmptyString => (EmptyString, s)
  end.
Definition read_number (s : string) : option (result json_error pyval * string) :=
  let '(neg, body) := match s with String "-" r => (true, r) | _ => (false, s) end in
  let sign t := if neg : bool then String "-" t else t in
  match read_int_part body with
  | None => None
  | Some (i, r) =>
      let '(f, r1) := read_frac r in
      let '(e, r2) := read_exp r1 in
      match f, e with
      | EmptyString, EmptyString =>
          Some (if (4300 <? String.length i)%nat then Err IntTooLong
                else match parse_int (sign i) with Some z => Ok (VInt z) | None => Err JSONDecodeError end, r2)
      | _, _ =>
          Some (match float_text (sign i +:+ f +:+ e) with
                | Some x => Ok (VFloat x)
                | None => Err JSONDecodeError
                end, r2)
      end
  end.

(** ** Values *)

(** The rest after a literal. *)
Fixpoint drop_prefix (p s : string) : option string :=
  match p, s with
  | EmptyString, _ => Some s
  | String a p', String b s' => if Ascii.eqb a b then drop_prefix p' s' else None
  | _, EmptyString => None
  end.
Definition literals : list (string * pyval) :=
  [("null", VNone); ("true", VBool true); ("false", VBool false); ("NaN", VFloat S754_nan);
   ("Infinity", VFloat (S754_infinity false)); ("-Infinity", VFloat (S754_infinity true))].
Fixpoint read_literal (l : list (string * pyval)) (s : string) : option (pyval * string) :=
  match l with
  | [] => None
  | (t, v) :: l' => match drop_prefix t s with Some r => Some (v, r) | None => read_literal l' s end
  end.

Definition reading (A : Type) : Type := result json_error (A * string).

Definition read_scalar (s : string) : reading pyval :=
  match read_literal literals s with
  | Some (v, r) => Ok (v, r)
  | None => match read_number s with
            | Some (Ok v, r) => Ok (v, r)
            | Some (Err e, _) => Err e
            | None => Err JSONDecodeError
            end
  end.

(** Two units of fuel per character: an item is read before its comma. *)
Fixpoint read_value (fuel : nat) (s : string) : reading pyval :=
  match fuel with
  | O => Err JSONDecodeError
  | S n =>
      match s with
      | String c r =>
          if Ascii.eqb c quote then
            match read_string n r with Some (t, r') => Ok (VStr t, r') | None => Err JSONDecodeError end
          else if Ascii.eqb c "["%char then
            match skip_ws r with
            | String "]" r' => Ok (VList [], r')
            | r' => read_items n r' []
            end
          else if Ascii.eqb c "{"%char then
            match skip_ws r with
            | String "}" r' => Ok (VDict [], r')
            | r' => read_members n r' []
            end
          else read_scalar s
      | EmptyString => Err JSONDecodeError
      end
  end
with read_items (fuel : nat) (s : string) (acc : list pyval) : reading pyval :=
  match fuel with
  | O => Err JSONDecodeError
  | S n =>
      let? vr := read_value n s in let '(v, r) := vr in
      match skip_ws r with
      | String "]" r' => Ok (VList (acc ++ [v]), r')
      | String "," r' => read_items n (skip_ws r') (acc ++ [v])
      | _ => Err JSONDecodeError
      end
  end
with read_members (fuel : nat) (s : string) (acc : dict) : reading pyval :=
  match fuel with
  | O => Err JSONDecodeError
  | S n =>
      match s with
      | String c r =>
          if Ascii.eqb c quote then
            match read_string n r with
            | Some (k, r1) =>
                match skip_ws r1 with
                | String ":" r2 =>
                    let? vr := read_value n (skip_ws r2) in let '(v, r3) := vr in
                    match skip_ws r3 with
                    | String "}" r' => Ok (VDict (al_set k v acc), r')
                    | String "," r' => read_members n (skip_ws r') (al_set k v acc)
                    | _ => Err JSONDecodeError
                    end
                | _ => Err JSONDecodeError
                end
            | None => Err JSONDecodeError
            end
          else Err JSONDecodeError
      | EmptyString => Err JSONDecodeError
      end
  end.

(** [json.loads(s)] *)
Definition loads (s : string) : result json_error pyval :=
  let? vr := read_value (2 * S (String.length s)) (skip_ws s) in let '(v, r) := vr in
  match skip_ws r with EmptyString => Ok v | _ => Err JSONDecodeError end.

Definition q (s : string) : string := map_string (fun c => if Ascii.eqb c "'"%char then quote else c) s.

Example loads_ex1 :
  loads (q " {'id': 'job-1', 'status':'COMPLETED', 'output': {'a': [1, -2.5e1, true, null]}, 'id': 'x'} ")
  = Ok (VDict [("id", VStr "x"); ("status", VStr "COMPLETED");
               ("output", VDict [("a", VList [VInt 1; VFloat (of_dec (Dec (-25) 0)); VBool true; VNone])])]).
Proof. vm_compute. reflexivity. Qed.
Example loads_ex2 : loads (q "'\u00e9\n\ud83d\ude00'")
  = Ok (VStr (utf8 233 (String (ascii_of_nat 10) (utf8 128512 EmptyString)))).
Proof. vm_compute. reflexivity. Qed.
Example loads_ex3 : map loads ["[1,]"; "01"; "1 2"; "{"; "[1"; ""; "nul"] = repeat (Err JSONDecodeError) 7.
Proof. vm_compute. reflexivity. Qed.
Example loads_ex4 : loads "[[],[[]],-0]" = Ok (VList [VList []; VList [VList []]; VInt 0]).
Proof. vm_compute. reflexivity. Qed.

(** Lemmas *)

Lemma skip_ws_length s : (String.length (skip_ws s) <= String.length s)%nat.
Proof. induction s as [|c s IH]; simpl; [lia|]. destruct (is_ws c); simpl; lia. Qed.

Lemma skip_ws_shrinks s r : skip_ws s = r -> (String.length r <= String.length s)%nat.
Proof. intros <-. apply skip_ws_length. Qed.

Lemma span_digits_length s d r : span_digits s = (d, r) -> (String.length d + String.length r = String.length s)%nat.
Proof.
  revert d r. induction s as [|c s IH]; intros d r; simpl; [by intros [= <- <-]|].
  destruct (is_digit c); [|by intros [= <- <-]]. destruct (span_digits s) as [d' r'].
  intros [= <- <-]. simpl. by rewrite (IH _ _ eq_refl).
Qed.

Lemma hex4_shrinks s u r : hex4 s = Some (u, r) -> (String.length r < String.length s)%nat.
Proof. unfold hex4. repeat case_match; try done. intros [= _ <-]. simpl. lia. Qed.

Lemma unicode_escape_shrinks s u r : unicode_escape s = Some (u, r) -> (String.length r < String.length s)%nat.
Proof.
  unfold unicode_escape. destruct (hex4 s) as [[v r1]|] eqn:E; [|done]. apply hex4_shrinks in E.
  destruct (_ && _)%N; [|by intros [= _ <-]].
  repeat (case_match; try (by intros [= _ <-])). intros [= _ <-]. subst.
  match goal with H : hex4 _ = Some _ |- _ => apply hex4_shrinks in H; simpl in *; lia end.
Qed.

Lemma escape_shrinks s u r : escape s = Some (u, r) -> (String.length r < String.length s)%nat.
Proof.
  destruct s as [|c s]; [done|]. simpl. destruct (Ascii.eqb c quote); [intros [= _ <-]; simpl; lia|].
  destruct c as [[] [] [] [] [] [] [] []]; try done; try (intros [= _ <-]; simpl; lia).
  intros H%unicode_escape_shrinks. lia.
Qed.

Lemma read_string_shrinks n s t r : read_string n s = Some (t, r) -> (String.length r < String.length s)%nat.
Proof.
  revert s t r. induction n as [|n IH]; intros [|c s] t r H; try done. simpl in H |- *.
  destruct (Ascii.eqb c quote); [injection H as _ <-; lia|]. destruct (Ascii.eqb c "\"%char).
  - destruct (escape s) as [[u r1]|] eqn:E; [|done]. apply escape_shrinks in E.
    destruct (read_string n r1) as [[t' r']|] eqn:E'; [|done]. injection H as _ <-. apply IH in E'. lia.
  - destruct (_ <? _)%nat; [done|].
    destruct (read_string n s) as [[t' r']|] eqn:E'; [|done]. injection H as _ <-. apply IH in E'. lia.
Qed.

Lemma drop_prefix_length p s r : drop_prefix p s = Some r -> (String.length p + String.length r = String.length s)%nat.
Proof.
  revert s. induction p as [|a p IH]; intros [|b s]; simpl; try (by intros [= <-]); try done.
  destruct (Ascii.eqb a b); [|done]. intros H%IH. lia.
Qed.

Lemma read_number_shrinks s v r : read_number s = Some (v, r) -> (String.length r < String.length s)%nat.
Proof.
  unfold read_number. destruct (match s with String "-" r => (true, r) | _ => (false, s) end) as [neg body] eqn:Es.
  assert (String.length body <= String.length s)%nat as Hb.
  { destruct s as [|c s]; [by injection Es as _ <-|].
    destruct c as [[] [] [] [] [] [] [] []]; injection Es as _ <-; simpl; lia. }
  clear Es. destruct (read_int_part body) as [[i r1]|] eqn:Ei; [|done].
  assert (String.length r1 < String.length body)%nat as H1.
  { destruct body as [|c body]; [done|]. unfold read_int_part in Ei.
    destruct (Ascii.eqb c "0"%char); [injection Ei as _ <-; simpl; lia|].
    destruct (span_digits (String c body)) as [d r0] eqn:Ed. apply span_digits_length in Ed.
    destruct d as [|x d]; [done|]. injection Ei as _ <-. simpl in *. lia. }
  destruct (read_frac r1) as [f r2] eqn:Ef.
  assert (String.length r2 <= String.length r1)%nat as H2.
  { unfold read_frac in Ef. destruct r1 as [|c r0]; [by injection Ef as _ <-|].
    destruct (span_digits r0) as [d r'] eqn:Ed. apply span_digits_length in Ed.
    destruct c as [[] [] [] [] [] [] [] []]; try (by injection Ef as _ <-).
    destruct d; injection Ef as _ <-; simpl in *; lia. }
  destruct (read_exp r2) as [e r3] eqn:Ee.
  assert (String.length r3 <= String.length r2)%nat as H3.
  { unfold read_exp in Ee. destruct r2 as [|c r0]; [by injection Ee as _ <-|].
    destruct (Ascii.eqb _ _); [|by injection Ee as _ <-].
    destruct (parse_sign r0) as [s1 r4] eqn:Ep.
    assert (String.length r4 <= String.length r0)%nat.
    { unfold parse_sign in Ep. destruct r0 as [|c' r0]; [by injection Ep as _ <-|].
      destruct c' as [[] [] [] [] [] [] [] []]; injection Ep as _ <-; simpl; lia. }
    destruct (span_digits r4) as [d r'] eqn:Ed. apply span_digits_length in Ed.
    destruct d; injection Ee as _ <-; simpl in *; lia. }
  intros H. assert (r = r3) as -> by (destruct f, e; by injection H as _ <-). lia.
Qed.

Lemma read_literal_shrinks l s v r :
  Forall (fun tv => (0 < String.length tv.1)%nat) l -> read_literal l s = Some (v, r) ->
  (String.length r < String.length s)%nat.
Proof.
  induction 1 as [|[t w] l Ht _ IH]; simpl; [done|].
  destruct (drop_prefix t s) as [r'|] eqn:E; [|done]. intros [= _ <-]. apply drop_prefix_length in E. simpl in Ht. lia.
Qed.

Lemma read_scalar_shrinks s v r : read_scalar s = Ok (v, r) -> (String.length r < String.length s)%nat.
Proof.
  unfold read_scalar. destruct (read_literal literals s) as [[w r1]|] eqn:E.
  - intros [= <- <-]. apply read_literal_shrinks in E; [done|]. unfold literals. repeat constructor; simpl; lia.
  - clear E. destruct (read_number s) as [[[w|] r1]|] eqn:E; try done. intros [= <- <-]. by apply read_number_shrinks in E.
Qed.

(** A reader leaves less than it was given. *)
Lemma read_shrinks n :
  (forall s v r, read_value n s = Ok (v, r) -> (String.length r < String.length s)%nat) /\
  (forall s acc v r, read_items n s acc = Ok (v, r) -> (String.length r < String.length s)%nat) /\
  (forall s acc v r, read_members n s acc = Ok (v, r) -> (String.length r < String.length s)%nat).
Proof.
  induction n as [|n (IV & II & IM)]; [done|].
  assert (forall s r, skip_ws s = r -> (String.length r <= String.length s)%nat) as Hws by apply skip_ws_shrinks.
  split; [|split].
  - intros [|c s] v r H; simpl in H |- *; [done|].
    destruct (Ascii.eqb c quote).
    { destruct (read_string n s) as [[t r1]|] eqn:E; [|done]. injection H as _ <-. apply read_string_shrinks in E. lia. }
    destruct (Ascii.eqb c "["%char).
    { destruct (skip_ws s) as [|d s1] eqn:E; pose proof (Hws _ _ E); [apply II in H; simpl in H; lia|].
      destruct (ascii_dec d "]"%char) as [->|Hd]; [injection H as _ <-; simpl in *; lia|].
      assert (read_items n (String d s1) [] = Ok (v, r)) as H'
        by (by destruct d as [[] [] [] [] [] [] [] []]).
      apply II in H'. lia. }
    destruct (Ascii.eqb c "{"%char).
    { destruct (skip_ws s) as [|d s1] eqn:E; pose proof (Hws _ _ E); [apply IM in H; simpl in H; lia|].
      destruct (ascii_dec d "}"%char) as [->|Hd]; [injection H as _ <-; simpl in *; lia|].
      assert (read_members n (String d s1) [] = Ok (v, r)) as H'
        by (by destruct d as [[] [] [] [] [] [] [] []]).
      apply IM in H'. lia. }
    by apply read_scalar_shrinks in H.
  - intros s acc v r H. simpl in H. apply rbind_Ok in H as ([w r1] & E & H). apply IV in E.
    destruct (skip_ws r1) as [|c r2] eqn:E2; [done|]. apply Hws in E2. simpl in E2.
    destruct c as [[] [] [] [] [] [] [] []]; try done.
    + injection H as _ <-. lia.
    + apply II in H. pose proof (skip_ws_length r2). lia.
  - intros [|c s] acc v r H; simpl in H |- *; [done|]. destruct (Ascii.eqb c quote); [|done].
    destruct (read_string n s) as [[k r1]|] eqn:E; [|done]. apply read_string_shrinks in E.
    destruct (skip_ws r1) as [|c2 r2] eqn:E2; [done|]. apply Hws in E2. simpl in E2.
    destruct c2 as [[] [] [] [] [] [] [] []]; try done.
    apply rbind_Ok in H as ([w r3] & E3 & H). apply IV in E3. pose proof (skip_ws_length r2).
    destruct (skip_ws r3) as [|c4 r4] eqn:E4; [done|]. apply Hws in E4. simpl in E4.
    destruct c4 as [[] [] [] [] [] [] [] []]; try done.
    + injection H as _ <-. lia.
    + apply IM in H. pose proof (skip_ws_length r4). lia.
Qed.

Lemma read_string_fuel n m s :
  (String.length s < n)%nat -> (n <= m)%nat -> read_string m s = read_string n s.
Proof.
  revert m s. induction n as [|n IH]; intros [|m] [|c s] Hn Hm; try done; simpl in Hn; try lia.
  simpl. destruct (Ascii.eqb c quote); [done|]. destruct (Ascii.eqb c "\"%char).
  - destruct (escape s) as [[u r]|] eqn:E; [|done]. apply escape_shrinks in E.
    rewrite (IH m); [done|lia|lia].
  - rewrite (IH m); [done|lia|lia].
Qed.

(** More fuel changes nothing. *)
Lemma read_more_fuel n :
  (forall s, (2 * String.length s < n)%nat -> read_value (S n) s = read_value n s) /\
  (forall s acc, (2 * String.length s + 1 < n)%nat -> read_items (S n) s acc = read_items n s acc) /\
  (forall s acc, (2 * String.length s < n)%nat -> read_members (S n) s acc = read_members n s acc).
Proof.
  induction n as [|n (IV & II & IM)]; [split; [|split]; intros; lia|].
  assert (forall s r, skip_ws s = r -> (String.length r <= String.length s)%nat) as Hws by apply skip_ws_shrinks.
  split; [|split].
  - intros [|c s] Hn; [done|]. simpl in Hn.
    cbn [read_value]. destruct (Ascii.eqb c quote); [by rewrite (read_string_fuel n (S n)) by lia|].
    destruct (Ascii.eqb c "["%char).
    { destruct (skip_ws s) as [|d r] eqn:E; pose proof (Hws _ _ E) as Hl; simpl in Hl; [apply II; simpl; lia|].
      destruct d as [[] [] [] [] [] [] [] []]; try done; apply II; simpl; lia. }
    destruct (Ascii.eqb c "{"%char); [|done].
    destruct (skip_ws s) as [|d r] eqn:E; pose proof (Hws _ _ E) as Hl; simpl in Hl; [apply IM; simpl; lia|].
    destruct d as [[] [] [] [] [] [] [] []]; try done; apply IM; simpl; lia.
  - intros s acc Hn. cbn [read_items]. rewrite IV by lia.
    destruct (read_value n s) as [[v r]|e] eqn:E; simpl; [|done].
    apply (proj1 (read_shrinks n)) in E. destruct (skip_ws r) as [|c r1] eqn:E1; [done|]. apply Hws in E1. simpl in E1.
    destruct c as [[] [] [] [] [] [] [] []]; try done. apply II. pose proof (skip_ws_length r1). lia.
  - intros [|c s] acc Hn; [done|]. simpl in Hn. cbn [read_members]. destruct (Ascii.eqb c quote); [|done].
    rewrite (read_string_fuel n (S n)) by lia.
    destruct (read_string n s) as [[k r1]|] eqn:E; [|done]. apply read_string_shrinks in E.
    destruct (skip_ws r1) as [|c2 r2] eqn:E2; [done|]. apply Hws in E2. simpl in E2. pose proof (skip_ws_length r2).
    destruct c2 as [[] [] [] [] [] [] [] []]; try done. rewrite IV by lia.
    destruct (read_value n (skip_ws r2)) as [[v r3]|e] eqn:E3; simpl; [|done]. apply (proj1 (read_shrinks n)) in E3.
    destruct (skip_ws r3) as [|c4 r4] eqn:E4; [done|]. apply Hws in E4. simpl in E4. pose proof (skip_ws_length r4).
    destruct c4 as [[] [] [] [] [] [] [] []]; try done. apply IM. lia.
Qed.

(** The fuel of [loads] is enough: with any more the text reads the same. *)
Lemma loads_fuel_enough s n :
  (2 * S (String.length s) <= n)%nat ->
  read_value n (skip_ws s) = read_value (2 * S (String.length s)) (skip_ws s).
Proof.
  pose proof (skip_ws_length s). induction 1 as [|m Hm IH]; [done|].
  rewrite (proj1 (read_more_fuel m)); [done|lia].
Qed.

(** * [json.loads] after [json.dumps] *)

(** Definitions *)

(** JSON data, and how it is read back. *)
Fixpoint native (v : pyval) : Prop :=
  match v with
  | VNone | VBool _ | VStr _ => True
  | VInt z => (String.length (str_int (Z.abs z)) <= 4300)%nat
  | VList l => (fix go (l : list pyval) : Prop := match l with [] => True | x :: l' => native x /\ go l' end) l
  | VDict m => NoDup m.*1 /\
      (fix go (m : dict) : Prop := match m with [] => True | kv :: m' => native kv.2 /\ go m' end) m
  | _ => False
  end.

Fixpoint canonical (v : pyval) : pyval :=
  match v with
  | VList l => VList (map canonical l)
  | VDict m => VDict (sort_by (fun a b => String.ltb a.1 b.1) (map (fun kv => (kv.1, canonical kv.2)) m))
  | _ => v
  end.

(** The value of a text written by [render]. *)
Fixpoint value_of (j : json) : pyval :=
  match j with
  | JNull => VNone
  | JBool b => VBool b
  | JNum t => match parse_int t with Some z => VInt z | None => VNone end
  | JStr s => VStr s
  | JList l => VList (map value_of l)
  | JDict m => VDict (map (fun kv => (kv.1, value_of kv.2)) m)
  end.
Fixpoint plain (j : json) : Prop :=
  match j with
  | JNum t => exists z, t = str_int z /\ (String.length (str_int (Z.abs z)) <= 4300)%nat
  | JList l => (fix go (l : list json) : Prop := match l with [] => True | x :: l' => plain x /\ go l' end) l
  | JDict m => NoDup m.*1 /\
      (fix go (m : list (string * json)) : Prop := match m with [] => True | kv :: m' => plain kv.2 /\ go m' end) m
  | _ => True
  end.

(** Lemmas *)

Lemma plain_list l : plain (JList l) <-> Forall plain l.
Proof. simpl. induction l; [done|]. by rewrite Forall_cons, IHl. Qed.
Lemma plain_dict m : plain (JDict m) <-> NoDup m.*1 /\ Forall (fun kv => plain kv.2) m.
Proof. simpl. f_equiv. induction m; [done|]. by rewrite Forall_cons, IHm. Qed.
Lemma native_list l : native (VList l) <-> Forall native l.
Proof. simpl. induction l; [done|]. by rewrite Forall_cons, IHl. Qed.
Lemma native_dict m : native (VDict m) <-> NoDup m.*1 /\ Forall (fun kv => native kv.2) m.
Proof. simpl. f_equiv. induction m; [done|]. by rewrite Forall_cons, IHm. Qed.

(** ** Strings *)

Lemma app_length_s (a b : string) : String.length (a +:+ b) = (String.length a + String.length b)%nat.
Proof. induction a as [|c a IH]; [done|]. rewrite app_cons_s. simpl. by rewrite IH. Qed.

Lemma read_char a c n X :
  read_string (S n) (json_char a c +:+ X) =
  match read_string n X with Some (t, r) => Some (String c t, r) | None => None end.
Proof. destruct a, c as [[] [] [] [] [] [] [] []]; reflexivity. Qed.

Lemma json_char_length a c : (1 <= String.length (json_char a c))%nat.
Proof. destruct a, c as [[] [] [] [] [] [] [] []]; simpl; lia. Qed.

Lemma read_json_chars a s n r :
  (String.length s < n)%nat -> read_string n (json_chars a s +:+ String dquote r) = Some (s, r).
Proof.
  revert n. induction s as [|c s IH]; intros [|n] Hn; simpl in Hn; try lia; [done|].
  cbn [json_chars]. rewrite app_assoc_s, read_char, IH by lia. done.
Qed.

Lemma json_chars_length a s : (String.length s <= String.length (json_chars a s))%nat.
Proof.
  induction s as [|c s IH]; simpl; [lia|]. rewrite app_length_s. pose proof (json_char_length a c). lia.
Qed.

(** ** Integers *)

Lemma span_digits_app d r :
  all_chars is_digit d = true -> match r with String c _ => is_digit c = false | _ => True end ->
  span_digits (d +:+ r) = (d, r).
Proof.
  induction d as [|c d IH]; intros Hd Hr; simpl in *.
  - destruct r as [|c r]; [done|]. simpl. by rewrite Hr.
  - apply andb_true_iff in Hd as [Hc Hd]. by rewrite Hc, IH.
Qed.

Lemma parse_go x s : parse_nat_from 0 (pretty_N_go x s) = parse_nat_from (Z.of_N x) s.
Proof.
  revert s. induction (N.lt_wf_0 x) as [x _ IH]; intros s.
  destruct (decide (x = 0)%N) as [->|Hx]; [by rewrite pretty_N_go_0|].
  rewrite pretty_N_go_step by lia. rewrite IH by (apply N.div_lt; lia). simpl.
  assert (digit_val (pretty_N_char (x mod 10)) = Some (Z.of_N (x mod 10))) as ->.
  { assert (x mod 10 < 10)%N as Hm by (apply N.mod_lt; lia). generalize dependent (x mod 10)%N. intros y Hy.
    assert (y = 0 \/ y = 1 \/ y = 2 \/ y = 3 \/ y = 4 \/ y = 5 \/ y = 6 \/ y = 7 \/ y = 8 \/ y = 9)%N as Hc by lia.
    repeat destruct Hc as [->|Hc]; subst; reflexivity. }
  f_equal. rewrite (N.div_mod x 10) at 3 by lia. lia.
Qed.

Lemma str_pos_go p : str_int (Z.pos p) = pretty_N_go (N.pos p) EmptyString.
Proof. reflexivity. Qed.

Lemma parse_nat_str_int z : 0 <= z -> parse_nat (str_int z) = Some z.
Proof.
  intros Hz. destruct z as [|p|p]; [done| |lia]. unfold parse_nat.
  pose proof (str_pos_nonempty p). destruct (str_int (Z.pos p)) eqn:E; [done|]. rewrite <- E, str_pos_go, parse_go.
  done.
Qed.

Lemma str_int_digits z : 0 <= z -> all_chars is_digit (str_int z) = true.
Proof. intros. destruct z as [|p|p]; [done|apply str_pos_digits|lia]. Qed.
Lemma str_int_nonempty z : 0 <= z -> exists c s, str_int z = String c s.
Proof.
  intros. destruct z as [|p|p]; [by eexists _, _| |lia]. pose proof (str_pos_nonempty p).
  destruct (str_int (Z.pos p)); [done|]. by eexists _, _.
Qed.
Lemma str_int_neg p : str_int (Z.neg p) = String "-" (str_int (Z.pos p)).
Proof. reflexivity. Qed.

(** No zero in front. *)
Lemma go_head x s c t :
  (0 < x)%N -> pretty_N_go x s = String c t -> c <> "0"%char.
Proof.
  revert s. induction (N.lt_wf_0 x) as [x _ IH]; intros s Hx. rewrite pretty_N_go_step by lia.
  destruct (decide (x / 10 = 0)%N) as [E|Hd]; [|apply IH; [apply N.div_lt; lia|by apply N.neq_0_lt_0]].
  rewrite E, pretty_N_go_0. intros [= <- _]. apply N.div_small_iff in E; [|lia]. rewrite N.mod_small by lia.
  assert (x = 1 \/ x = 2 \/ x = 3 \/ x = 4 \/ x = 5 \/ x = 6 \/ x = 7 \/ x = 8 \/ x = 9)%N as Hc by lia.
  repeat destruct Hc as [->|Hc]; subst; done.
Qed.
Lemma str_pos_head p c t : str_int (Z.pos p) = String c t -> c <> "0"%char.
Proof. rewrite str_pos_go. by apply go_head. Qed.

Lemma drop_underscores_digits b d :
  all_chars is_digit d = true -> d <> EmptyString \/ b = true -> drop_underscores b d = Some d.
Proof.
  revert b. induction d as [|c d IH]; intros b Hd Hb; simpl in *; [by destruct Hb as [?| ->]|].
  apply andb_true_iff in Hd as [Hc Hd].
  assert (Ascii.eqb c "_"%char = false) as -> by (by destruct c as [[] [] [] [] [] [] [] []]).
  rewrite Hc, IH by (auto). done.
Qed.

Lemma lstrip_id c s : is_space c = false -> lstrip (String c s) = String c s.
Proof. simpl. by intros ->. Qed.
Lemma rstrip_id s : all_chars (fun c => negb (is_space c)) s = true -> rstrip s = s.
Proof.
  induction s as [|c s IH]; [done|]. simpl. intros [Hc Hs]%andb_true_iff. rewrite IH by done.
  destruct s; [|done]. by destruct (is_space c).
Qed.
Lemma digits_no_space d : all_chars is_digit d = true -> all_chars (fun c => negb (is_space c)) d = true.
Proof. apply all_chars_impl. intros c. by destruct c as [[] [] [] [] [] [] [] []]. Qed.

Lemma parse_int_str_int z : parse_int (str_int z) = Some z.
Proof.
  assert (forall p, parse_sign (str_int (Z.pos p)) = (false, str_int (Z.pos p))) as Hs.
  { intros p. pose proof (str_pos_digits p) as Hd. destruct (str_int (Z.pos p)) as [|c s]; [done|]. simpl in Hd.
    apply andb_true_iff in Hd as [Hd _]. by destruct c as [[] [] [] [] [] [] [] []]. }
  assert (forall p, strip (str_int (Z.pos p)) = str_int (Z.pos p)) as Hp.
  { intros p. pose proof (digits_no_space _ (str_pos_digits p)) as Hd. unfold strip.
    destruct (str_int (Z.pos p)) as [|c s]; [done|]. rewrite lstrip_id; [by apply rstrip_id|].
    simpl in Hd. by destruct (is_space c). }
  unfold parse_int. destruct z as [|p|p]; [done| |].
  - rewrite Hp, Hs, drop_underscores_digits, parse_nat_str_int;
      [done|lia|apply str_pos_digits|left; apply str_pos_nonempty].
  - rewrite str_int_neg. unfold strip. rewrite lstrip_id by done.
    rewrite rstrip_id; [|simpl; apply digits_no_space, str_pos_digits].
    cbn [parse_sign]. rewrite drop_underscores_digits, parse_nat_str_int;
      [done|lia|apply str_pos_digits|left; apply str_pos_nonempty].
Qed.

Lemma read_int_digits d r :
  all_chars is_digit d = true -> (exists c s, d = String c s /\ (c = "0"%char -> s = EmptyString)) ->
  match r with String c _ => is_digit c = false | _ => True end -> read_int_part (d +:+ r) = Some (d, r).
Proof.
  intros Hd (c & s & -> & Hc) Hr. cbn [read_int_part String.append]. rewrite app_cons_s.
  unfold read_int_part. destruct (Ascii.eqb_spec c "0"%char) as [->|Hne]; [by rewrite Hc|].
  rewrite <- app_cons_s, span_digits_app by done. done.
Qed.

Lemma read_number_int z r :
  (String.length (str_int (Z.abs z)) <= 4300)%nat -> delimited r ->
  read_number (str_int z +:+ r) = Some (Ok (VInt z), r).
Proof.
  intros Hlen Hr.
  assert (match r with String c _ => is_digit c = false | _ => True end) as Hd.
  { destruct r as [|c r]; [done|]. simpl in Hr. by destruct c as [[] [] [] [] [] [] [] []]. }
  assert (read_frac r = (EmptyString, r) /\ read_exp r = (EmptyString, r)) as [Hf He].
  { destruct r as [|c r]; [done|]. simpl in Hr. destruct c as [[] [] [] [] [] [] [] []]; try discriminate Hr; by split. }
  assert (read_int_part (str_int (Z.abs z) +:+ r) = Some (str_int (Z.abs z), r)) as Hi.
  { apply read_int_digits; [apply str_int_digits; lia| |done].
    destruct (Z.abs z) as [|p|p] eqn:E; [by exists "0"%char, EmptyString| |lia].
    destruct (str_int_nonempty (Z.pos p)) as (c & s & E'); [lia|]. exists c, s. split; [done|].
    intros ->. by apply str_pos_head in E'. }
  unfold read_number. destruct z as [|p|p].
  - change (str_int 0 +:+ r) with (String "0" r). cbn [read_int_part]. simpl. rewrite Hf, He. done.
  - change (Z.abs (Z.pos p)) with (Z.pos p) in *.
    assert (match str_int (Z.pos p) +:+ r with String "-" r0 => (true, r0) | _ => (false, str_int (Z.pos p) +:+ r) end
            = (false, str_int (Z.pos p) +:+ r)) as ->.
    { pose proof (str_pos_digits p) as Hp. destruct (str_int (Z.pos p)) as [|c s] eqn:E; [by apply str_pos_nonempty in E|].
      simpl in Hp. apply andb_true_iff in Hp as [Hp _]. rewrite app_cons_s.
      by destruct c as [[] [] [] [] [] [] [] []]. }
    rewrite Hi, Hf, He. rewrite (proj2 (Nat.ltb_ge _ _)) by lia. by rewrite parse_int_str_int.
  - rewrite str_int_neg, app_cons_s. change (Z.abs (Z.neg p)) with (Z.pos p) in *. rewrite Hi, Hf, He.
    rewrite (proj2 (Nat.ltb_ge _ _)) by lia. by rewrite <- str_int_neg, parse_int_str_int.
Qed.

Lemma num_no_literal z r : read_literal literals (str_int z +:+ r) = None.
Proof.
  assert (forall c s, is_digit c = true -> read_literal literals (String c s) = None /\
            drop_prefix "Infinity" (String c s) = None) as Hl.
  { intros c s. by destruct c as [[] [] [] [] [] [] [] []]. }
  destruct z as [|p|p]; [by apply Hl| |]; [|rewrite str_int_neg, app_cons_s];
    pose proof (str_pos_digits p) as Hp;
    (destruct (str_int (Z.pos p)) as [|c s] eqn:E; [by apply str_pos_nonempty in E|]);
    simpl in Hp; apply andb_true_iff in Hp as [Hp _]; rewrite app_cons_s.
  - by apply Hl.
  - destruct (Hl c (s +:+ r) Hp) as [_ H]. cbn -[String.append] in H |- *. by rewrite H.
Qed.

Lemma plain_ok j : plain j -> json_ok j.
Proof.
  induction j as [| | | |l IH|m IH] using json_nested_ind; try done.
  - intros (z & -> & _). apply str_int_num.
  - rewrite plain_list, json_ok_list. intros H. eapply Forall_impl; [|exact (fun x h => h)].
    apply Forall_forall. intros x Hx. rewrite Forall_forall in H, IH. auto.
  - rewrite plain_dict, json_ok_dict. intros [_ H]. apply Forall_forall. intros x Hx.
    rewrite Forall_forall in H, IH. by apply IH, H.
Qed.

(** A value starts with neither a space nor a closing bracket. *)
Lemma value_head a j r : plain j -> exists c s, render a j +:+ r = String c s /\ is_ws c = false /\
  c <> "]"%char /\ c <> "}"%char /\ (kind j <> 3%nat -> c <> quote) /\ (kind j <> 4%nat -> c <> "["%char) /\
  (kind j <> 5%nat -> c <> "{"%char).
Proof.
  intros H%plain_ok. destruct (render_head a j H) as (c & s & -> & Hk). exists c, (s +:+ r). split; [done|].
  assert (start_kind c <> 6%nat) as Hn by (rewrite Hk; by destruct j). rewrite <- Hk. clear -Hn.
  destruct c as [[] [] [] [] [] [] [] []]; try done; by repeat split.
Qed.

Lemma skip_value a j r : plain j -> skip_ws (render a j +:+ r) = render a j +:+ r.
Proof. intros (c & s & -> & Hw & _)%(value_head a j r). simpl. by rewrite Hw. Qed.

Lemma al_set_new (k : string) (v : pyval) m : k ∉ m.*1 -> al_set k v m = m ++ [(k, v)].
Proof.
  induction m as [|[k' v'] m IH]; [done|]. intros Hk. csimpl in Hk. simpl.
  rewrite decide_False, IH by set_solver. done.
Qed.

Section Reads.
Context (a : bool).
Definition read_back (j : json) : Prop := forall n r,
  plain j -> delimited r -> (2 * String.length (render a j +:+ r) < n)%nat ->
  read_value n (render a j +:+ r) = Ok (value_of j, r).

Lemma skip_tail l cl r : is_ws cl = false -> skip_ws (tail_text l (String cl r)) = tail_text l (String cl r).
Proof. intros H. destruct l; [|done]. simpl. by rewrite H. Qed.

Lemma items_back l : forall x n acc r,
  Forall plain (x :: l) -> Forall read_back (x :: l) ->
  (2 * String.length (render a x +:+ tail_text (map (render a) l) (String "]" r)) + 1 < n)%nat ->
  read_items n (render a x +:+ tail_text (map (render a) l) (String "]" r)) acc
  = Ok (VList (acc ++ map value_of (x :: l)), r).
Proof.
  induction l as [|y l IH]; intros x [|n] acc r Hp Hb Hn; try lia;
    apply Forall_cons in Hp as [Hx Hp], Hb as [Hbx Hb]; cbn [read_items].
  - rewrite Hbx; [done|done|done|lia].
  - rewrite Hbx; [|done|done|lia]. cbn [rbind]. rewrite skip_tail by done. cbn [tail_text map].
    rewrite app_cons_s, app_nil_s. pose proof (proj1 (proj1 (Forall_cons _ _ _) Hp)) as Hy.
    rewrite skip_value by done. rewrite IH; [by rewrite <- app_assoc|done|done|].
    cbn [tail_text map] in Hn. rewrite !app_length_s in *. simpl in Hn |- *. rewrite ?app_length_s in Hn. lia.
Qed.

Lemma members_back l : forall k x n acc r,
  NoDup (acc.*1 ++ k :: l.*1) -> Forall (fun kv => plain kv.2) ((k, x) :: l) ->
  Forall (fun kv => read_back kv.2) ((k, x) :: l) ->
  (2 * String.length (member_text a (k, x) +:+ tail_text (map (member_text a) l) (String "}" r)) < n)%nat ->
  read_members n (member_text a (k, x) +:+ tail_text (map (member_text a) l) (String "}" r)) acc
  = Ok (VDict (acc ++ map (fun kv => (kv.1, value_of kv.2)) ((k, x) :: l)), r).
Proof.
  induction l as [|[k' y] l IH]; intros k x [|n] acc r Hnd Hp Hb Hn; try lia;
    apply Forall_cons in Hp as [Hx Hp], Hb as [Hbx Hb]; simpl in Hx, Hbx;
    (assert (k ∉ acc.*1) as Hk by (apply NoDup_app in Hnd as (_ & Hd & _); intros Hin; apply (Hd _ Hin); left));
    unfold member_text at 1 in Hn; unfold member_text at 1; cbn [fst snd] in Hn |- *;
    unfold json_str in Hn |- *; rewrite !app_cons_s, !app_assoc_s, !app_cons_s, !app_nil_s in Hn |- *;
    simpl String.length in Hn; rewrite !app_length_s in Hn; simpl String.length in Hn;
    pose proof (json_chars_length a k); cbn [read_members]; rewrite read_json_chars by lia;
    change (Ascii.eqb dquote quote) with true; 
    cbn [skip_ws]; change (is_ws ":") with false; cbn iota; rewrite skip_value by done.
  - rewrite Hbx; [|done|done|cbn [map tail_text] in *; lia]. cbn [rbind map tail_text].
    by rewrite al_set_new.
  - rewrite Hbx; [|done|done|cbn [map tail_text] in *; lia]. cbn [rbind map].
    rewrite skip_tail by done. cbn [tail_text]. rewrite app_cons_s, app_nil_s.
    cbn [map tail_text] in Hn. rewrite al_set_new by done.
    assert (forall X, skip_ws (member_text a (k', y) +:+ X) = member_text a (k', y) +:+ X) as -> by done.
    rewrite IH; [by rewrite <- app_assoc|by rewrite fmap_app, <- app_assoc|done|done|].
    set (u := member_text a (k', y)) in *. clearbody u.
    rewrite !app_length_s in Hn |- *. simpl in Hn. rewrite ?app_length_s in Hn. lia.
Qed.

Lemma all_read_back j : read_back j.
Proof.
  induction j as [|b|t|s|l IH|m IH] using json_nested_ind; intros [|n] r Hp Hr Hn; try lia.
  - reflexivity.
  - by destruct b.
  - destruct Hp as (z & -> & Hz). cbn [render] in Hn |- *.
    assert (read_value (S n) (str_int z +:+ r) = read_scalar (str_int z +:+ r)) as ->.
    { destruct (value_head a (JNum (str_int z)) r) as (c & s & E & _ & _ & _ & H1 & H2 & H3); [by exists z|].
      cbn [render] in E. rewrite E. cbn [read_value].
      destruct (Ascii.eqb_spec c quote); [by destruct H1|]. destruct (Ascii.eqb_spec c "["%char); [by destruct H2|].
      destruct (Ascii.eqb_spec c "{"%char); [by destruct H3|]. done. }
    unfold read_scalar. rewrite num_no_literal, read_number_int by done.
    cbn [value_of]. by rewrite parse_int_str_int.
  - cbn [render] in Hn |- *. unfold json_str in Hn |- *. rewrite app_cons_s, app_assoc_s, app_cons_s, app_nil_s in Hn |- *.
    simpl in Hn. rewrite app_length_s in Hn. pose proof (json_chars_length a s).
    cbn [read_value]. rewrite read_json_chars by lia. done.
  - apply plain_list in Hp. cbn [render] in Hn |- *. rewrite !app_cons_s, !app_nil_s, !app_assoc_s, !concat_items in Hn |- *.
    destruct l as [|x l]; [done|]. cbn [map items_text] in Hn |- *.
    change ("]" +:+ r) with (String "]" r) in Hn |- *.
    pose proof (proj1 (proj1 (Forall_cons _ _ _) Hp)) as Hx.
    cbn [read_value]. change (Ascii.eqb "[" quote) with false. cbn iota. rewrite skip_value by done.
    destruct (value_head a x (tail_text (map (render a) l) (String "]" r)) Hx) as (c & s & E & _ & Hc & _).
    pose proof (items_back l x n [] r Hp IH) as H. 
    rewrite E in H, Hn |- *. change (Ascii.eqb "[" "[") with true. cbn iota.
    transitivity (read_items n (String c s) []); [by destruct c as [[] [] [] [] [] [] [] []]|].
    apply H. simpl in Hn |- *. lia.
  - apply plain_dict in Hp as [Hnd Hp]. cbn [render] in Hn |- *.
    rewrite !app_cons_s, !app_nil_s, !app_assoc_s, !concat_items in Hn |- *.
    change (map (fun kv => json_str a kv.1 +:+ ":" +:+ render a kv.2) m) with (map (member_text a) m) in Hn |- *.
    destruct m as [|[k x] m]; [done|]. cbn [map items_text] in Hn |- *.
    change ("}" +:+ r) with (String "}" r) in Hn |- *.
    cbn [read_value].
    pose proof (members_back m k x n [] r Hnd Hp IH) as H.
    transitivity (read_members n (member_text a (k, x) +:+ tail_text (map (member_text a) m) (String "}" r)) []);
      [reflexivity|]. apply H. cbn [String.length] in Hn. lia.
Qed.
End Reads.

(** ** [to_json] *)

Lemma to_json_list d n l : to_json d n (VList l) = rmap JList (mapR (to_json d n) l).
Proof.
  cbn [to_json]. f_equal. induction l as [|x l IH]; [done|]. simpl.
  destruct (to_json d n x); simpl; [|done]. by rewrite IH.
Qed.

Lemma sort_by_fmap {A B} (f : A -> B) (lt : A -> A -> bool) (lt' : B -> B -> bool) l :
  (forall x y, lt' (f x) (f y) = lt x y) -> sort_by lt' (map f l) = map f (sort_by lt l).
Proof.
  intros H. induction l as [|x l IH]; [done|]. simpl. rewrite IH. generalize (sort_by lt l). intros k.
  induction k as [|y k IHk]; [done|]. simpl. rewrite H. destruct (lt y x); [|done]. simpl. by rewrite IHk.
Qed.

Lemma to_json_plain d n v j : native v -> to_json d n v = Ok j -> plain j /\ value_of j = canonical v.
Proof.
  revert j. induction v as [|b|z|f|x|s|s|t|l IH|l IH|m IH] using pyval_nested_ind; intros j Hv Hj;
    try contradiction; try (injection Hj as <-; done).
  - injection Hj as <-. split; [by exists z|]. cbn [value_of]. by rewrite parse_int_str_int.
  - rewrite to_json_list in Hj. apply rmap_Ok in Hj as (js & Hj & ->). apply mapR_Ok in Hj.
    apply native_list in Hv. rewrite plain_list. cbn [value_of canonical].
    assert (Forall plain js /\ map value_of js = map canonical l) as [? ->]; [|done].
    revert Hv. induction Hj as [|x j l js Hx _ IHl]; intros Hv; [done|].
    apply Forall_cons in IH as [IHx IH], Hv as [Hvx Hv].
    destruct (IHx _ Hvx Hx) as [Hp Hc], (IHl IH Hv) as [Hps Hcs].
    split; [by constructor|]. simpl. by rewrite Hc, Hcs.
  - rewrite to_json_dict in Hj. apply rmap_Ok in Hj as (kvs & Hj & ->). apply native_dict in Hv as [Hnd Hv].
    pose proof (members_json_keys _ _ _ _ Hj) as Hkeys. apply mapR_Ok in Hj.
    rewrite plain_dict. cbn [value_of canonical].
    assert (Forall (fun kv => plain kv.2) kvs /\
      map (fun kv => (kv.1, value_of kv.2)) kvs = map (fun kv => (kv.1, canonical kv.2)) m) as [Hp Hm].
    { clear Hnd Hkeys. revert Hv. induction Hj as [|[k x] kj m kvs Hx _ IHl]; intros Hv; [done|].
      apply Forall_cons in IH as [IHx IH], Hv as [Hvx Hv]. apply rmap_Ok in Hx as (j & Hx & ->).
      destruct (IHx _ Hvx Hx) as [Hp Hc], (IHl IH Hv) as [Hps Hcs].
      split; [by constructor|]. simpl in *. by rewrite Hc, Hcs. }
    rewrite <- Hm. split.
    + rewrite sort_by_perm. by rewrite Hkeys.
    + f_equal. symmetry. by apply (sort_by_fmap (fun kv => (kv.1, value_of kv.2))).
Qed.

(** JSON data survives [dumps] and [loads]. *)
Lemma loads_dumps a d n v s : native v -> dumps a d n v = Ok s -> loads s = Ok (canonical v).
Proof.
  intros Hv (j & Hj & ->)%rmap_Ok. destruct (to_json_plain _ _ _ _ Hv Hj) as [Hp Hc].
  unfold loads. pose proof (skip_value a j EmptyString Hp) as Hs. rewrite app_nil_r_s in Hs. rewrite Hs.
  pose proof (all_read_back a j (2 * S (String.length (render a j)))%nat EmptyString Hp I) as H.
  rewrite app_nil_r_s in H. rewrite H by lia. simpl. by rewrite Hc.
Qed.
