(* ===== verification/Effects.v ===== *)
(** * Stateful operations that may fail

    An operation over a store [S] returns the new store together with a value
    or an error.  The store survives an error: statements that committed
    before an exception stay committed. *)

From S2P Require Import Prelude.

(** Definitions *)

Definition eff (S E A : Type) : Type := S -> S * result E A.

Definition ret {S E A} (a : A) : eff S E A := fun s => (s, Ok a).
Definition fail {S E A} (e : E) : eff S E A := fun s => (s, Err e).
Definition bind {S E A B} (m : eff S E A) (k : A -> eff S E B) : eff S E B :=
  fun s => match m s with
           | (s', Ok a) => k a s'
           | (s', Err e) => (s', Err e)
           end.

(** A computation without effects. *)
Definition lift {S E A} (r : result E A) : eff S E A := fun s => (s, r).
Definition get {S E} : eff S E S := fun s => (s, Ok s).
Definition put {S E} (s : S) : eff S E unit := fun _ => (s, Ok tt).

Notation "'do!' x ':=' m 'in' k" := (bind m (fun x => k))
  (at level 200, x name, m at level 100, k at level 200, right associativity) : py_scope.
Notation "m ';!' k" := (bind m (fun _ => k)) (at level 199, right associativity) : py_scope.

(** [for x in l: await f(x)], collecting the values. *)
Fixpoint traverse {S E A B} (f : A -> eff S E B) (l : list A) : eff S E (list B) :=
  match l with
  | [] => ret []
  | x :: l' => do! y := f x in do! ys := traverse f l' in ret (y :: ys)
  end.

(** [keeps R m]: wherever [m] starts and however it ends, its store is in
    relation [R] to the one it started from. *)
Definition keeps {S E A} (R : S -> S -> Prop) (m : eff S E A) : Prop := forall s, R s (m s).1.

(** Lemmas *)

Lemma bind_Ok {S E A B} (m : eff S E A) (k : A -> eff S E B) s s' b :
  bind m k s = (s', Ok b) <-> exists a s1, m s = (s1, Ok a) /\ k a s1 = (s', Ok b).
Proof.
  unfold bind. destruct (m s) as [s1 [a|e]]; split; [|..|done|].
  - intros H. by exists a, s1.
  - by intros (? & ? & [= <- <-] & ?).
  - by intros (? & ? & ? & ?).
Qed.

(** Every way a sequence can end. *)
Lemma bind_cases {S E A B} (m : eff S E A) (k : A -> eff S E B) s s' r :
  bind m k s = (s', r) ->
  (exists e, m s = (s', Err e) /\ r = Err e) \/ (exists a s1, m s = (s1, Ok a) /\ k a s1 = (s', r)).
Proof.
  unfold bind. destruct (m s) as [s1 [a|e]]; [by right; exists a, s1|].
  intros [= <- <-]. left. by exists e.
Qed.

Lemma bind_run {S E A B} (m : eff S E A) (k : A -> eff S E B) s s1 a :
  m s = (s1, Ok a) -> bind m k s = k a s1.
Proof. unfold bind. by intros ->. Qed.

(** A property of the store that every step keeps is kept by the loop, also
    when it stops at an error. *)
Lemma traverse_inv {S E A B} (P : S -> Prop) (f : A -> eff S E B) l :
  (forall x s, x ∈ l -> P s -> P (f x s).1) -> forall s, P s -> P (traverse f l s).1.
Proof.
  induction l as [|x l IH]; intros Hf s Hs; simpl; [done|].
  unfold bind. destruct (f x s) as [s1 r] eqn:Ef.
  assert (P s1) as H1.
  { pose proof (Hf x s ltac:(constructor) Hs) as H. by rewrite Ef in H. }
  destruct r as [y|e]; [|done]. destruct (traverse f l s1) as [s2 r2] eqn:E2.
  assert (P s2) as H2.
  { assert (forall x0 s0, x0 ∈ l -> P s0 -> P (f x0 s0).1) as Hl.
    { intros z u Hz. apply Hf. by constructor. }
    pose proof (IH Hl s1 H1) as H. by rewrite E2 in H. }
  by destruct r2.
Qed.

(** A loop whose steps all succeed from stores satisfying an invariant that
    depends on what remains to do. *)
Lemma traverse_Ok {S E A B} (P : list A -> S -> Prop) (f : A -> eff S E B) l :
  (forall x l' s, P (x :: l') s -> exists s' y, f x s = (s', Ok y) /\ P l' s') ->
  forall s, P l s -> exists s' ys, traverse f l s = (s', Ok ys) /\ P [] s'.
Proof.
  intros Hf. induction l as [|x l IH]; intros s Hs; simpl; [by eexists _, _|].
  destruct (Hf x l s Hs) as (s1 & y & E1 & H1).
  destruct (IH s1 H1) as (s2 & ys & E2 & H2).
  exists s2, (y :: ys). unfold bind. by rewrite E1, E2.
Qed.

(** ** Runs that keep a relation *)

Section Keeps.
Context {S E : Type} {R : S -> S -> Prop} `{!PreOrder R}.

Lemma keeps_ret {A} (a : A) : keeps (E:=E) R (ret a).
Proof. intros s. reflexivity. Qed.
Lemma keeps_fail {A} (e : E) : keeps R (fail (A:=A) e).
Proof. intros s. reflexivity. Qed.
Lemma keeps_lift {A} (r : result E A) : keeps R (lift r).
Proof. intros s. reflexivity. Qed.
Lemma keeps_get_store : keeps (E:=E) R get.
Proof. intros s. reflexivity. Qed.
Lemma keeps_bind {A B} (m : eff S E A) (k : A -> eff S E B) :
  keeps R m -> (forall a, keeps R (k a)) -> keeps R (bind m k).
Proof.
  intros Hm Hk s. unfold bind. specialize (Hm s).
  destruct (m s) as [s1 [a|e]]; simpl in *; [|done]. etrans; [done|apply Hk].
Qed.
Lemma keeps_traverse {A B} (f : A -> eff S E B) l : (forall x, keeps R (f x)) -> keeps R (traverse f l).
Proof.
  intros Hf s. apply (traverse_inv (R s) f l); [|reflexivity]. intros x s' _ Hs. etrans; [done|apply Hf].
Qed.

(** After a run that led from [s0] to [s]. *)
Lemma keeps_then {A B} (m : eff S E A) (k : eff S E B) s0 s :
  R s0 s -> keeps R m -> keeps R k -> R s0 ((m ;! k) s).1.
Proof. intros Hs Hm Hk. etrans; [done|]. by apply (keeps_bind m (fun _ => k)). Qed.
End Keeps.

Create HintDb keeps discriminated.
Ltac keep :=
  repeat match goal with
  | |- forall _, _ => intro
  | |- keeps _ (ret _) => apply keeps_ret
  | |- keeps _ (fail _) => apply keeps_fail
  | |- keeps _ (lift _) => apply keeps_lift
  | |- keeps _ get => apply keeps_get_store
  | |- keeps _ (bind _ _) => apply keeps_bind
  | |- keeps _ (traverse _ _) => apply keeps_traverse
  | H : forall _, keeps _ _ |- keeps _ _ => apply H
  | |- keeps _ _ => solve [auto with keeps nocore]
  | |- keeps _ (if ?b then _ else _) => destruct b
  | |- keeps _ (match ?x with _ => _ end) => destruct x
  end.
