(* ===== verification/Enums.v ===== *)
(** * Registry enumerations ([core/enums.py])

    Each [StrEnum] is an inductive type with its members, its [.value] and
    the constructor call [Cls(value)], which finds the member with that value
    or raises [ValueError]. *)

From S2P Require Import Prelude PyValue.

(** A [StrEnum] class: its members in declaration order and their values. *)
Class StrEnum (T : Type) := {
  members : list T;
  enum_value : T -> string;
}.

(** [Cls(s)] *)
Definition enum_of_value {T} `{StrEnum T} (s : string) : option T :=
  find_first (fun m => String.eqb (enum_value m) s) members.

(** What makes a [StrEnum] usable as the type of a text column. *)
Class LawfulStrEnum (T : Type) `{StrEnum T} := {
  members_complete : forall m : T, m ∈ members;
  enum_value_inj : forall m n : T, enum_value m = enum_value n -> m = n;
}.

Section EnumLaws.
Context {T} `{LawfulStrEnum T}.

Lemma enum_of_value_value m : enum_of_value (enum_value m) = Some m.
Proof.
  unfold enum_of_value. destruct (find_first _ _) as [n|] eqn:E.
  - apply find_first_Some in E as [_ E]. boolify. f_equal. by apply enum_value_inj.
  - apply find_first_None in E. rewrite Forall_forall in E.
    specialize (E m (members_complete m)). cbv beta in E. by rewrite String.eqb_refl in E.
Qed.

Lemma enum_of_value_Some s m : enum_of_value s = Some m <-> enum_value m = s.
Proof.
  split; [|intros <-; apply enum_of_value_value].
  unfold enum_of_value. intros [_ E]%find_first_Some. by boolify.
Qed.
End EnumLaws.

(** Every member is listed and no two share a value. *)
Ltac solve_lawful :=
  split; [intros []; cbn; rewrite !elem_of_cons; tauto|intros [] []; simpl; congruence].

Inductive CapabilityClass := EMBEDDING | RERANK | LLM | VISION | TRANSCRIBE | GPU_LEASE | CUSTOM.
#[global] Instance CapabilityClass_enum : StrEnum CapabilityClass := {
  members := [EMBEDDING; RERANK; LLM; VISION; TRANSCRIBE; GPU_LEASE; CUSTOM];
  enum_value m := match m with
    | EMBEDDING => "embedding" | RERANK => "rerank" | LLM => "llm" | VISION => "vision"
    | TRANSCRIBE => "transcribe" | GPU_LEASE => "gpu_lease" | CUSTOM => "custom" end }.

Inductive CostMode := PER_SECOND | PER_REQUEST | PER_TOKEN.
#[global] Instance CostMode_enum : StrEnum CostMode := {
  members := [PER_SECOND; PER_REQUEST; PER_TOKEN];
  enum_value m := match m with
    | PER_SECOND => "per_second" | PER_REQUEST => "per_request"
    | PER_TOKEN => "per_token" end }.

Inductive CapabilitySource := API | MCP | YAML.
#[global] Instance CapabilitySource_enum : StrEnum CapabilitySource := {
  members := [API; MCP; YAML];
  enum_value m := match m with API => "api" | MCP => "mcp" | YAML => "yaml" end }.

Inductive ResultDelivery := SYNC | ASYNC.
#[global] Instance ResultDelivery_enum : StrEnum ResultDelivery := {
  members := [SYNC; ASYNC];
  enum_value m := match m with SYNC => "sync" | ASYNC => "async" end }.

Inductive CapabilityHint := LATENCY_SENSITIVE | COST_SENSITIVE | REGION_PREFERENCE.
#[global] Instance CapabilityHint_enum : StrEnum CapabilityHint := {
  members := [LATENCY_SENSITIVE; COST_SENSITIVE; REGION_PREFERENCE];
  enum_value m := match m with
    | LATENCY_SENSITIVE => "latency_sensitive" | COST_SENSITIVE => "cost_sensitive"
    | REGION_PREFERENCE => "region_preference" end }.

Inductive LeaseRenewalPolicy := MANUAL.
#[global] Instance LeaseRenewalPolicy_enum : StrEnum LeaseRenewalPolicy := {
  members := [MANUAL];
  enum_value m := match m with MANUAL => "manual" end }.

Inductive WorkloadState := QUEUED | RUNNING | COMPLETED | WFAILED | CANCELLED | TIMED_OUT.
#[global] Instance WorkloadState_enum : StrEnum WorkloadState := {
  members := [QUEUED; RUNNING; COMPLETED; WFAILED; CANCELLED; TIMED_OUT];
  enum_value m := match m with
    | QUEUED => "queued" | RUNNING => "running" | COMPLETED => "completed"
    | WFAILED => "failed" | CANCELLED => "cancelled" | TIMED_OUT => "timed_out" end }.

Inductive ProviderType := SERVERLESS_QUEUE | SERVERLESS_LB | PUBLIC_ENDPOINT | POD_LEASE.
#[global] Instance ProviderType_enum : StrEnum ProviderType := {
  members := [SERVERLESS_QUEUE; SERVERLESS_LB; PUBLIC_ENDPOINT; POD_LEASE];
  enum_value m := match m with
    | SERVERLESS_QUEUE => "serverless_queue" | SERVERLESS_LB => "serverless_lb"
    | PUBLIC_ENDPOINT => "public_endpoint" | POD_LEASE => "pod_lease" end }.

Inductive LeaseState :=
  CREATING | WAITING_RUNTIME | WAITING_PROBE | ACTIVE | STOPPING | STOPPED | FAILED | EXPIRED.
#[global] Instance LeaseState_enum : StrEnum LeaseState := {
  members := [CREATING; WAITING_RUNTIME; WAITING_PROBE; ACTIVE; STOPPING; STOPPED; FAILED; EXPIRED];
  enum_value m := match m with
    | CREATING => "creating" | WAITING_RUNTIME => "waiting_runtime"
    | WAITING_PROBE => "waiting_probe" | ACTIVE => "active" | STOPPING => "stopping"
    | STOPPED => "stopped" | FAILED => "failed" | EXPIRED => "expired" end }.

Inductive RegistryPrefix := GHCR_IO | GITLAB_REGISTRY | DOCKER_HUB | DOCKER_HUB_ALT.
#[global] Instance RegistryPrefix_enum : StrEnum RegistryPrefix := {
  members := [GHCR_IO; GITLAB_REGISTRY; DOCKER_HUB; DOCKER_HUB_ALT];
  enum_value m := match m with
    | GHCR_IO => "ghcr.io" | GITLAB_REGISTRY => "gitlab-registry."
    | DOCKER_HUB => "registry.hub.docker.com" | DOCKER_HUB_ALT => "index.docker.io" end }.

(** [RegistryPrefix.from_image_ref] *)
Definition from_image_ref (image_ref : string) : option RegistryPrefix :=
  if startswith (enum_value GHCR_IO) image_ref then Some GHCR_IO
  else if str_contains (enum_value GITLAB_REGISTRY) image_ref then Some GITLAB_REGISTRY
  else if startswith (enum_value DOCKER_HUB) image_ref then Some DOCKER_HUB
  else if startswith (enum_value DOCKER_HUB_ALT) image_ref then Some DOCKER_HUB_ALT
  else None.

#[global] Instance CostMode_eq_dec : EqDecision CostMode.
Proof. solve_decision. Defined.
#[global] Instance WorkloadState_eq_dec : EqDecision WorkloadState.
Proof. solve_decision. Defined.
#[global] Instance ProviderType_eq_dec : EqDecision ProviderType.
Proof. solve_decision. Defined.
#[global] Instance LeaseState_eq_dec : EqDecision LeaseState.
Proof. solve_decision. Defined.

#[global] Instance CapabilityClass_lawful : LawfulStrEnum CapabilityClass.
Proof. solve_lawful. Qed.
#[global] Instance CostMode_lawful : LawfulStrEnum CostMode.
Proof. solve_lawful. Qed.
#[global] Instance WorkloadState_lawful : LawfulStrEnum WorkloadState.
Proof. solve_lawful. Qed.
#[global] Instance ProviderType_lawful : LawfulStrEnum ProviderType.
Proof. solve_lawful. Qed.
#[global] Instance LeaseState_lawful : LawfulStrEnum LeaseState.
Proof. solve_lawful. Qed.
#[global] Instance RegistryPrefix_lawful : LawfulStrEnum RegistryPrefix.
Proof. solve_lawful. Qed.

#[global] Instance CapabilitySource_lawful : LawfulStrEnum CapabilitySource.
Proof. solve_lawful. Qed.
#[global] Instance ResultDelivery_lawful : LawfulStrEnum ResultDelivery.
Proof. solve_lawful. Qed.
#[global] Instance CapabilityHint_lawful : LawfulStrEnum CapabilityHint.
Proof. solve_lawful. Qed.
#[global] Instance LeaseRenewalPolicy_lawful : LawfulStrEnum LeaseRenewalPolicy.
Proof. solve_lawful. Qed.

(** A registry recognised by prefix is one whose prefix the reference has. *)
Lemma from_image_ref_sound r p :
  from_image_ref r = Some p ->
  startswith (enum_value p) r = true \/ (p = GITLAB_REGISTRY /\ str_contains "gitlab-registry." r = true).
Proof.
  unfold from_image_ref. repeat step_case; intros [= <-]; auto.
Qed.
