(* ===== verification/LeaseState.v ===== *)
(** * Lease lifecycle ([leases/state.py])

    The transition table, the guard every persisted change goes through, and
    the lifecycle the table allows: how a lease becomes active, that terminal
    states are final and that no execution is longer than five steps. *)

From S2P Require Import Prelude PyValue Enums.

(** Definitions *)

(** The table [LEASE_STATE_TRANSITIONS]. *)
Definition LEASE_STATE_TRANSITIONS (s : LeaseState) : list LeaseState :=
  match s with
  | CREATING => [WAITING_RUNTIME; FAILED]
  | WAITING_RUNTIME => [WAITING_PROBE; FAILED]
  | WAITING_PROBE => [ACTIVE; FAILED]
  | ACTIVE => [STOPPING; EXPIRED; FAILED]
  | STOPPING => [STOPPED; EXPIRED; FAILED]
  | STOPPED => []
  | FAILED => []
  | EXPIRED => []
  end.

Definition TERMINAL_LEASE_STATES : list LeaseState := [STOPPED; FAILED; EXPIRED].
Definition ACTIVE_LEASE_STATES : list LeaseState :=
  [CREATING; WAITING_RUNTIME; WAITING_PROBE; ACTIVE; STOPPING].

(** [LeaseState | str], and any other object a caller may pass. *)
Inductive LeaseStateInput :=
| InState (s : LeaseState)
| InText (s : string)
| InOther.

(** What the guard raises. *)
Inductive lease_error :=
| IllegalLeaseTransitionError (from_state to_state : LeaseState)
| LeaseExn (e : exn).

#[global] Instance lease_error_eq_dec : EqDecision lease_error.
Proof. solve_decision. Defined.

(** [IllegalLeaseTransitionError.to_dict] *)
Definition illegal_transition_dict (from_state to_state : LeaseState) : list (string * string) :=
  [("error", "illegal_lease_transition");
   ("from_state", enum_value from_state);
   ("to_state", enum_value to_state)].

(** [_coerce_lease_state] *)
Definition coerce_lease_state (value : LeaseStateInput) (field_name : string) : py LeaseState :=
  match value with
  | InState s => Ok s
  | InText s =>
      match enum_of_value s with
      | Some m => Ok m
      | None => Err (ValueError (field_name ++ " is not a valid lease state"))
      end
  | InOther => Err (TypeError (field_name ++ " must be a LeaseState or string"))
  end.

Definition lease_target_in (target : LeaseState) (l : list LeaseState) : bool :=
  bool_decide (target ∈ l).

Definition transition_lease_state (from_state to_state : LeaseStateInput)
  : result lease_error LeaseState :=
  let? current := rlift LeaseExn (coerce_lease_state from_state "from_state") in
  let? target := rlift LeaseExn (coerce_lease_state to_state "to_state") in
  if negb (lease_target_in target (LEASE_STATE_TRANSITIONS current))
  then Err (IllegalLeaseTransitionError current target)
  else Ok target.

Definition can_transition_lease (from_state to_state : LeaseStateInput) : py bool :=
  let? current := coerce_lease_state from_state "from_state" in
  let? target := coerce_lease_state to_state "to_state" in
  Ok (lease_target_in target (LEASE_STATE_TRANSITIONS current)).

(** The lifecycle as a transition system over guarded updates. *)
Inductive lease_step : LeaseState -> LeaseState -> Prop :=
| LeaseStep s t : transition_lease_state (InState s) (InState t) = Ok t -> lease_step s t.

(** How far a lease has progressed. *)
Definition lease_rank (s : LeaseState) : nat :=
  match s with
  | CREATING => 0 | WAITING_RUNTIME => 1 | WAITING_PROBE => 2 | ACTIVE => 3
  | STOPPING => 4 | STOPPED | FAILED | EXPIRED => 5
  end.

(** A trace of guarded updates from [s]. *)
Inductive lease_trace : LeaseState -> list LeaseState -> Prop :=
| TraceNil s : lease_trace s []
| TraceCons s t l : lease_step s t -> lease_trace t l -> lease_trace s (t :: l).

(** Helper lemmas *)

Lemma lease_step_table s t : lease_step s t <-> t ∈ LEASE_STATE_TRANSITIONS s.
Proof.
  split.
  - intros [s' t' H]. unfold transition_lease_state, lease_target_in in H. simpl in H.
    case_bool_decide; done.
  - intros H. constructor. unfold transition_lease_state, lease_target_in. simpl.
    by rewrite bool_decide_true.
Qed.

Lemma lease_step_rank s t : lease_step s t -> (lease_rank s < lease_rank t)%nat.
Proof.
  rewrite lease_step_table. intros H.
  destruct s; simpl in H; rewrite ?elem_of_cons, ?elem_of_nil in H;
    destruct_or?; subst; simpl; lia || done.
Qed.

Lemma lease_trace_rank s l t :
  lease_trace s (l ++ [t]) -> (lease_rank s + length l < lease_rank t)%nat.
Proof.
  revert s; induction l as [|u l IH]; intros s; simpl.
  - inversion 1 as [|??? Hs]; subst. apply lease_step_rank in Hs. lia.
  - inversion 1 as [|??? Hs Ht]; subst. apply lease_step_rank in Hs.
    apply IH in Ht. lia.
Qed.

Lemma lease_rank_bound s : (lease_rank s <= 5)%nat.
Proof. destruct s; simpl; lia. Qed.

(** The only way into a state of rank one to four. *)
Lemma lease_step_into t s :
  lease_step s t ->
  match t with
  | CREATING => False
  | WAITING_RUNTIME => s = CREATING
  | WAITING_PROBE => s = WAITING_RUNTIME
  | ACTIVE => s = WAITING_PROBE
  | STOPPING => s = ACTIVE
  | STOPPED => s = STOPPING
  | FAILED => s ∈ ACTIVE_LEASE_STATES
  | EXPIRED => s = ACTIVE \/ s = STOPPING
  end.
Proof.
  rewrite lease_step_table. intros H.
  destruct s; simpl in H; rewrite ?elem_of_cons, ?elem_of_nil in H;
    destruct_or?; subst; simpl; auto; try done;
    unfold ACTIVE_LEASE_STATES; rewrite !elem_of_cons; tauto.
Qed.

(** The state a trace from [s] ends in. *)
Definition last_state (s : LeaseState) (l : list LeaseState) : LeaseState :=
  foldl (fun _ t => t) s l.

Lemma last_state_snoc s l t : last_state s (l ++ [t]) = t.
Proof. unfold last_state. by rewrite foldl_app. Qed.

Lemma lease_trace_snoc s l t :
  lease_trace s (l ++ [t]) -> lease_trace s l /\ lease_step (last_state s l) t.
Proof.
  revert s; induction l as [|u l IH]; intros s; simpl.
  - inversion 1; subst. split; [constructor|done].
  - inversion 1 as [|??? Hs Ht]; subst. apply IH in Ht as [Ht Hl].
    split; [by constructor|done].
Qed.

(** Theorems *)

(** The guard on every branch: it returns the target exactly when the table
    has the edge, reports the edge otherwise, and a [from_state] that is not
    a lease state is reported before [to_state] is looked at. *)
Theorem transition_lease_state_spec (f t : LeaseStateInput) :
  match coerce_lease_state f "from_state", coerce_lease_state t "to_state" with
  | Err e, _ => transition_lease_state f t = Err (LeaseExn e)
  | Ok _, Err e => transition_lease_state f t = Err (LeaseExn e)
  | Ok a, Ok b =>
      if decide (b ∈ LEASE_STATE_TRANSITIONS a)
      then transition_lease_state f t = Ok b
      else transition_lease_state f t = Err (IllegalLeaseTransitionError a b)
  end.
Proof.
  unfold transition_lease_state.
  destruct (coerce_lease_state f _) as [a|]; simpl; [|done].
  destruct (coerce_lease_state t _) as [b|]; simpl; [|done].
  unfold lease_target_in. case_decide; [by rewrite bool_decide_true|by rewrite bool_decide_false].
Qed.

(** [can_transition_lease] is the guard's verdict, on member and text inputs
    alike: the two functions agree, errors included. *)
Theorem can_transition_agrees (f t : LeaseStateInput) :
  can_transition_lease f t =
  match transition_lease_state f t with
  | Ok _ => Ok true
  | Err (IllegalLeaseTransitionError _ _) => Ok false
  | Err (LeaseExn e) => Err e
  end.
Proof.
  unfold can_transition_lease, transition_lease_state.
  destruct (coerce_lease_state f _) as [a|]; simpl; [|done].
  destruct (coerce_lease_state t _) as [b|]; simpl; [|done].
  by destruct (lease_target_in _ _).
Qed.

(** Terminal states are exactly the states without a successor, and exactly
    the states that are not active. *)
Theorem terminal_iff_final (s : LeaseState) :
  (s ∈ TERMINAL_LEASE_STATES <-> forall t, ~ lease_step s t) /\
  (s ∈ TERMINAL_LEASE_STATES <-> s ∉ ACTIVE_LEASE_STATES).
Proof.
  assert (s ∈ TERMINAL_LEASE_STATES <-> LEASE_STATE_TRANSITIONS s = []) as H1.
  { unfold TERMINAL_LEASE_STATES. rewrite !elem_of_cons, elem_of_nil.
    destruct s; simpl; naive_solver. }
  assert (s ∈ TERMINAL_LEASE_STATES <-> s ∉ ACTIVE_LEASE_STATES) as H2.
  { unfold TERMINAL_LEASE_STATES, ACTIVE_LEASE_STATES. rewrite !elem_of_cons, !elem_of_nil.
    destruct s; naive_solver. }
  split; [|done]. rewrite H1. setoid_rewrite lease_step_table.
  split; [intros -> t; apply not_elem_of_nil|].
  destruct (LEASE_STATE_TRANSITIONS s) as [|t l]; [done|].
  intros H. destruct (H t). by left.
Qed.

(** Every lifecycle terminates: from any state at most five guarded updates
    are possible, whatever their order. *)
Theorem lease_lifecycle_bounded (s : LeaseState) (l : list LeaseState)
    (Htrace : lease_trace s l) : (length l <= 5)%nat.
Proof.
  destruct l as [|x l _] using rev_ind; [simpl; lia|].
  apply lease_trace_rank in Htrace. pose proof (lease_rank_bound x).
  rewrite length_app; simpl. lia.
Qed.

Lemma lease_lifecycle_bounded_witness :
  lease_trace CREATING [WAITING_RUNTIME; WAITING_PROBE; ACTIVE; STOPPING; STOPPED] /\
  (length [WAITING_RUNTIME; WAITING_PROBE; ACTIVE; STOPPING; STOPPED] <= 5)%nat.
Proof.
  assert (lease_trace CREATING [WAITING_RUNTIME; WAITING_PROBE; ACTIVE; STOPPING; STOPPED]) as H
    by (repeat constructor; vm_compute; reflexivity).
  split; [exact H|]. exact (lease_lifecycle_bounded _ _ H).
Defined.

(** A lease that reaches [ACTIVE] from [CREATING] went through exactly
    [WAITING_RUNTIME] and [WAITING_PROBE]: no shortcut makes a lease active
    before its runtime and its probe. *)
Theorem active_only_through_readiness (l : list LeaseState)
    (Htrace : lease_trace CREATING (l ++ [ACTIVE])) :
  l = [WAITING_RUNTIME; WAITING_PROBE].
Proof.
  apply lease_trace_snoc in Htrace as [Htrace H1%lease_step_into].
  destruct l as [|x l _] using rev_ind; [done|]. rewrite last_state_snoc in H1; subst x.
  apply lease_trace_snoc in Htrace as [Htrace H2%lease_step_into].
  destruct l as [|x l _] using rev_ind; [done|]. rewrite last_state_snoc in H2; subst x.
  apply lease_trace_snoc in Htrace as [Htrace H3%lease_step_into].
  destruct l as [|x l _] using rev_ind; [done|]. rewrite last_state_snoc in H3; subst x.
  by apply lease_trace_snoc in Htrace as [_ ?%lease_step_into].
Qed.

Lemma active_only_through_readiness_witness :
  lease_trace CREATING ([WAITING_RUNTIME; WAITING_PROBE] ++ [ACTIVE]) /\
  [WAITING_RUNTIME; WAITING_PROBE] = [WAITING_RUNTIME; WAITING_PROBE].
Proof.
  assert (lease_trace CREATING ([WAITING_RUNTIME; WAITING_PROBE] ++ [ACTIVE])) as H
    by (simpl; repeat constructor; vm_compute; reflexivity).
  split; [exact H|]. exact (active_only_through_readiness _ H).
Defined.
