(* ===== verification/Provider.v ===== *)
(** * Provider records ([core/models.py], and the accessors of the routing
    modules)

    A provider reaches the routing code either as the [Provider] model or as
    a mapping of the same shape.  [attr] is attribute access on the model;
    [field] is the accessor [_field] of the planner, cooldown and prewarm
    modules, which reads a key of a mapping or an attribute of an object and
    defaults to [None]. *)

From S2P Require Import Prelude PyValue Enums.

(** The [Provider] model.  Its field constraints (non-empty strings,
    non-negative integers, an error rate in [0, 1]) are checked by pydantic
    before the routing code sees a record and are not repeated here. *)
Record Provider : Type := MkProvider {
  p_id : string;
  p_capability_id : string;
  p_name : string;
  p_provider_type : ProviderType;
  p_runpod_endpoint_id : option string;
  p_runpod_template_id : option string;
  p_region : option string;
  p_cloud_type : option string;
  p_config : dict;
  p_priority : Z;
  p_enabled : bool;
  p_health_status : string;
  p_consecutive_failures : Z;
  p_cooldown_trips : Z;
  p_cold_start_p50_ms : option Z;
  p_cold_start_p95_ms : option Z;
  p_recent_error_rate : PyFloat.float;
  p_cooldown_until : option datetime;
  p_source : string;
  p_last_applied_yaml_hash : option string;
  p_updated_at : datetime;
}.

Definition opt_str (o : option string) : pyval :=
  match o with Some s => VStr s | None => VNone end.
Definition opt_int (o : option Z) : pyval :=
  match o with Some z => VInt z | None => VNone end.
Definition opt_time (o : option datetime) : pyval :=
  match o with Some t => VTime t | None => VNone end.

(** [getattr(provider, key)] on the model; [None] is [AttributeError]. *)
Definition attr (p : Provider) (key : string) : option pyval :=
  if String.eqb key "id" then Some (VStr (p_id p))
  else if String.eqb key "capability_id" then Some (VStr (p_capability_id p))
  else if String.eqb key "name" then Some (VStr (p_name p))
  else if String.eqb key "provider_type" then Some (VEnum (enum_value (p_provider_type p)))
  else if String.eqb key "runpod_endpoint_id" then Some (opt_str (p_runpod_endpoint_id p))
  else if String.eqb key "runpod_template_id" then Some (opt_str (p_runpod_template_id p))
  else if String.eqb key "region" then Some (opt_str (p_region p))
  else if String.eqb key "cloud_type" then Some (opt_str (p_cloud_type p))
  else if String.eqb key "config" then Some (VDict (p_config p))
  else if String.eqb key "priority" then Some (VInt (p_priority p))
  else if String.eqb key "enabled" then Some (VBool (p_enabled p))
  else if String.eqb key "health_status" then Some (VStr (p_health_status p))
  else if String.eqb key "consecutive_failures" then Some (VInt (p_consecutive_failures p))
  else if String.eqb key "cooldown_trips" then Some (VInt (p_cooldown_trips p))
  else if String.eqb key "cold_start_p50_ms" then Some (opt_int (p_cold_start_p50_ms p))
  else if String.eqb key "cold_start_p95_ms" then Some (opt_int (p_cold_start_p95_ms p))
  else if String.eqb key "recent_error_rate" then Some (VFloat (p_recent_error_rate p))
  else if String.eqb key "cooldown_until" then Some (opt_time (p_cooldown_until p))
  else if String.eqb key "source" then Some (VEnum (p_source p))
  else if String.eqb key "last_applied_yaml_hash" then Some (opt_str (p_last_applied_yaml_hash p))
  else if String.eqb key "updated_at" then Some (VTime (p_updated_at p))
  else None.

(** [Provider | Mapping[str, Any]] *)
Inductive ProviderLike :=
| PModel (p : Provider)
| PMap (m : dict).

(** The planner's [_field]. *)
Definition field (p : ProviderLike) (key : string) : pyval :=
  match p with
  | PMap m => dict_get_none key m
  | PModel p => match attr p key with Some v => v | None => VNone end
  end.

(** [_config]: a config that is not a mapping counts as empty. *)
Definition config (p : ProviderLike) : dict :=
  match field p "config" with VDict m => m | _ => [] end.

(** [_config_value] of the planner and of the constraint filter: the key
    itself, else the key under [constraints]. *)
Definition config_value (p : ProviderLike) (key : string) : pyval :=
  match dict_get key (config p) with
  | Some v => v
  | None =>
      match dict_get "constraints" (config p) with
      | Some (VDict c) => dict_get_none key c
      | _ => VNone
      end
  end.

(** [_string_field] *)
Definition string_field (p : ProviderLike) (key : string) : option string :=
  match as_str (field p key) with
  | Some s => if nonempty s then Some s else None
  | None => None
  end.

(** [_provider_id] *)
Definition provider_id (p : ProviderLike) : py string :=
  match string_field p "id" with
  | Some s => Ok s
  | None => Err (ValueError "provider must include a non-empty id")
  end.

(** [_first_present] of the planner: the first value that is not [None]. *)
Fixpoint first_present (vs : list pyval) : pyval :=
  match vs with
  | [] => VNone
  | v :: vs' => if is_none v then first_present vs' else v
  end.

(** [_non_empty_string] *)
Definition non_empty_string (v : pyval) : option string :=
  match as_str v with
  | Some s => let t := strip s in if nonempty t then Some t else None
  | None => None
  end.

(** [_priority] *)
Definition priority (p : ProviderLike) : py Z :=
  match field p "priority" with
  | VNone => Ok 0
  | VBool _ => Err (ValueError "priority must be an integer")
  | v => py_int v
  end.

(** [_name] *)
Definition name (p : ProviderLike) : string :=
  match string_field p "name" with Some s => s | None => EmptyString end.

Lemma provider_id_nonempty p i : provider_id p = Ok i -> nonempty i = true.
Proof.
  unfold provider_id, string_field. destruct (as_str _) as [s|]; [|done].
  destruct (nonempty s) eqn:E; [|done]. by intros [= <-].
Qed.
