(* ===== verification/Cooldown.v ===== *)
(** * Provider health cooldown ([routing/cooldown.py])

    The pure state machine that turns probe results into cooldown windows:
    its state, the transitions, the policy, and the theorems that fix its
    behaviour: the invariant of every reachable state, the first trip after
    exactly [failure_threshold] failures, and the bound on every window.

    [clock] is the value [datetime.now(UTC)] returns where the code asks for
    it. *)

From S2P Require Import Prelude PyValue PyTime Enums Provider.

(** Definitions *)

Definition DEFAULT_FAILURE_THRESHOLD : Z := 3.
Definition DEFAULT_INITIAL_COOLDOWN : timedelta := td_minutes 5.
Definition DEFAULT_ESCALATED_COOLDOWN : timedelta := td_minutes 15.
Definition UNHEALTHY_STATUS : string := "unhealthy".
Definition HEALTHY_STATUS : string := "healthy".
Definition UNKNOWN_STATUS : string := "unknown".

Record ProviderCooldownState : Type := MkCooldown {
  consecutive_failures : Z;
  cooldown_trips : Z;
  cooldown_until : option datetime;
  health_status : string;
}.

#[global] Instance ProviderCooldownState_eq_dec : EqDecision ProviderCooldownState.
Proof. solve_decision. Defined.

Definition normalize_opt (t : option datetime) (field_name : string) : py (option datetime) :=
  match t with
  | None => Ok None
  | Some t => let? t := require_utc t field_name in Ok (Some t)
  end.

(** The constructor, with the checks of [__post_init__]. *)
Definition new_state (failures trips : Z) (until : option datetime) (status : string)
  : py ProviderCooldownState :=
  if failures <? 0 then Err (ValueError "consecutive_failures must be >= 0")
  else if trips <? 0 then Err (ValueError "cooldown_trips must be >= 0")
  else
    let? until := normalize_opt until "cooldown_until" in
    if negb (nonempty status) then Err (ValueError "health_status must be non-empty")
    else Ok (MkCooldown failures trips until status).

Definition normalize_now (clock : datetime) (now : option datetime) : py datetime :=
  match now with
  | None => Ok clock
  | Some t => require_utc t "now"
  end.

(** [_int_field], [_str_field] and [_datetime_field] *)
Definition int_field (p : ProviderLike) (key : string) (default : Z) : py Z :=
  match field p key with
  | VNone => Ok default
  | VBool _ => Err (ValueError (key ++ " must be an integer"))
  | v => py_int v
  end.

Definition str_field (p : ProviderLike) (key : string) (default : string) : py string :=
  match field p key with
  | VNone => Ok default
  | VStr s | VEnum s => Ok s
  | _ => Err (ValueError (key ++ " must be a string"))
  end.

Definition datetime_field (p : ProviderLike) (key : string) : py (option datetime) :=
  match field p key with
  | VNone => Ok None
  | VTime t => rmap Some (require_utc t key)
  | VStr s | VEnum s =>
      match fromisoformat (replace_z s) with
      | Some t => rmap Some (require_utc t key)
      | None => Err (ValueError "Invalid isoformat string")
      end
  | _ => Err (ValueError (key ++ " must be a datetime or ISO-8601 string"))
  end.

Definition state_from_provider (p : ProviderLike) : py ProviderCooldownState :=
  let? until := datetime_field p "cooldown_until" in
  let? failures := int_field p "consecutive_failures" 0 in
  let? trips := int_field p "cooldown_trips" 0 in
  let? status := str_field p "health_status" UNKNOWN_STATUS in
  new_state failures trips until status.

(** [ProviderCooldownState | _ProviderLike] *)
Inductive StateLike :=
| InCooldownState (s : ProviderCooldownState)
| InProvider (p : ProviderLike).

Definition coerce_state (s : StateLike) : py ProviderCooldownState :=
  match s with
  | InCooldownState s => Ok s
  | InProvider p => state_from_provider p
  end.

Definition cooldown_duration_for_trip (trip : Z) (initial escalated : timedelta) : py timedelta :=
  if trip <? 1 then Err (ValueError "cooldown_trip must be >= 1")
  else if initial <=? 0 then Err (ValueError "initial_cooldown must be positive")
  else if escalated <? initial
       then Err (ValueError "escalated_cooldown must be >= initial_cooldown")
  else if trip =? 1 then Ok initial
  else Ok escalated.

(** [CooldownPolicy] and [_validate_policy] *)
Record CooldownPolicy : Type := MkPolicy {
  failure_threshold : Z;
  initial_cooldown : timedelta;
  escalated_cooldown : timedelta;
}.

Definition validate_policy (pol : CooldownPolicy) : py unit :=
  if failure_threshold pol <? 1 then Err (ValueError "failure_threshold must be >= 1")
  else rmap (fun _ => tt)
         (cooldown_duration_for_trip 1 (initial_cooldown pol) (escalated_cooldown pol)).

Definition DEFAULT_COOLDOWN_POLICY : CooldownPolicy :=
  MkPolicy DEFAULT_FAILURE_THRESHOLD DEFAULT_INITIAL_COOLDOWN DEFAULT_ESCALATED_COOLDOWN.

Definition is_in_cooldown (clock : datetime) (state : StateLike) (now : option datetime) : py bool :=
  let? current := coerce_state state in
  let? observed_at := normalize_now clock now in
  Ok (match cooldown_until current with
      | Some u => dt_ltb observed_at u
      | None => false
      end).

Definition record_provider_success (clock : datetime) (state : StateLike) (now : option datetime)
  : py ProviderCooldownState :=
  let? _ := normalize_now clock now in
  new_state 0 0 None HEALTHY_STATUS.

Definition record_provider_failure (clock : datetime) (pol : CooldownPolicy)
    (state : StateLike) (now : option datetime) : py ProviderCooldownState :=
  let? current := coerce_state state in
  let? observed_at := normalize_now clock now in
  let? _ := validate_policy pol in
  let? cooling := is_in_cooldown clock (InCooldownState current) (Some observed_at) in
  if cooling then Ok current
  else
    let until := match cooldown_until current with
                 | Some u => if dt_leb u observed_at then None else Some u
                 | None => None
                 end in
    let failures := consecutive_failures current + 1 in
    let next_trip := failures / failure_threshold pol in
    if cooldown_trips current <? next_trip then
      let? duration := cooldown_duration_for_trip next_trip
                         (initial_cooldown pol) (escalated_cooldown pol) in
      let? until := dt_add observed_at duration in
      new_state failures next_trip (Some until) UNHEALTHY_STATUS
    else new_state failures (cooldown_trips current) until (health_status current).

Definition apply_probe_result (clock : datetime) (pol : CooldownPolicy)
    (state : StateLike) (passed : bool) (now : option datetime) : py ProviderCooldownState :=
  if passed then record_provider_success clock state now
  else record_provider_failure clock pol state now.

(** [to_provider_patch] *)
Definition to_provider_patch (state : StateLike) : py dict :=
  let? current := coerce_state state in
  Ok [("consecutive_failures", VInt (consecutive_failures current));
      ("cooldown_trips", VInt (cooldown_trips current));
      ("cooldown_until", opt_time (cooldown_until current));
      ("health_status", VStr (health_status current))].

(** A run of the machine: probe results with their timestamps. *)
Definition run_probes (clock : datetime) (pol : CooldownPolicy)
    (s : ProviderCooldownState) (probes : list (bool * datetime)) : py ProviderCooldownState :=
  foldR (fun s '(passed, t) => apply_probe_result clock pol (InCooldownState s) passed (Some t))
    s probes.

(** The state of a provider that was never probed. *)
Definition fresh_state : ProviderCooldownState := MkCooldown 0 0 None UNKNOWN_STATUS.

Definition policy_ok (pol : CooldownPolicy) : Prop :=
  1 <= failure_threshold pol /\ 0 < initial_cooldown pol <= escalated_cooldown pol.

(** What every state produced by the machine satisfies. *)
Definition cooldown_inv (pol : CooldownPolicy) (s : ProviderCooldownState) : Prop :=
  0 <= consecutive_failures s /\
  cooldown_trips s = consecutive_failures s / failure_threshold pol /\
  nonempty (health_status s) = true /\
  match cooldown_until s with
  | None => True
  | Some u => dt_aware u = true /\ 1 <= cooldown_trips s /\ health_status s = UNHEALTHY_STATUS
  end.

(** Helper lemmas *)

Lemma new_state_Ok f t u st s :
  new_state f t u st = Ok s ->
  s = MkCooldown f t u st /\ 0 <= f /\ 0 <= t /\ nonempty st = true /\
  match u with Some u => dt_aware u = true | None => True end.
Proof.
  unfold new_state, normalize_opt. intros H. destruct u as [u|]; inv_ok; boolify.
  - match goal with H : require_utc _ _ = Ok _ |- _ => apply require_utc_Ok in H as [-> ?] end.
    auto.
  - auto.
Qed.

Lemma new_state_ok f t u st :
  0 <= f -> 0 <= t -> nonempty st = true ->
  match u with Some u => dt_aware u = true | None => True end ->
  new_state f t u st = Ok (MkCooldown f t u st).
Proof.
  intros ?? Hst Hu. unfold new_state, normalize_opt.
  destruct (f <? 0) eqn:?; boolify; [lia|]. destruct (t <? 0) eqn:?; boolify; [lia|].
  destruct u as [u|]; simpl; [unfold require_utc; rewrite Hu; simpl|]; by rewrite Hst.
Qed.

Lemma validate_policy_ok pol : validate_policy pol = Ok tt <-> policy_ok pol.
Proof.
  unfold validate_policy, cooldown_duration_for_trip, policy_ok.
  destruct (failure_threshold pol <? 1) eqn:E1; boolify; [split; [done|lia]|].
  replace (1 <? 1) with false by done.
  destruct (initial_cooldown pol <=? 0) eqn:E2; boolify; simpl; [split; [done|lia]|].
  destruct (escalated_cooldown pol <? initial_cooldown pol) eqn:E3; boolify; simpl;
    split; done || lia.
Qed.

Lemma duration_Ok trip i e d :
  cooldown_duration_for_trip trip i e = Ok d ->
  1 <= trip /\ 0 < i <= e /\ d = if trip =? 1 then i else e.
Proof.
  unfold cooldown_duration_for_trip. intros H. inv_ok. boolify.
  destruct (trip =? 1); injection H as <-; split_and!; lia || done.
Qed.

Lemma is_in_cooldown_aware clock s now :
  dt_aware now = true ->
  is_in_cooldown clock (InCooldownState s) (Some now)
  = Ok (match cooldown_until s with Some u => dt_ltb now u | None => false end).
Proof. intros H. unfold is_in_cooldown, normalize_now. by rewrite require_utc_ok. Qed.

(** A failed probe with a valid policy and timestamp, up to the test of the
    open window. *)
Lemma record_failure_unfold clock pol cur now :
  policy_ok pol -> dt_aware now = true ->
  record_provider_failure clock pol (InCooldownState cur) (Some now) =
  if match cooldown_until cur with Some u => dt_ltb now u | None => false end then Ok cur
  else
    let failures := consecutive_failures cur + 1 in
    let trip := failures / failure_threshold pol in
    if cooldown_trips cur <? trip then
      let? duration := cooldown_duration_for_trip trip (initial_cooldown pol)
                         (escalated_cooldown pol) in
      let? until := dt_add now duration in
      new_state failures trip (Some until) UNHEALTHY_STATUS
    else new_state failures (cooldown_trips cur) None (health_status cur).
Proof.
  intros Hpol Hnow. unfold record_provider_failure, normalize_now. simpl.
  rewrite require_utc_ok by done. simpl. apply validate_policy_ok in Hpol as ->. simpl.
  rewrite is_in_cooldown_aware by done. simpl.
  destruct (cooldown_until cur) as [u|]; [|done]. unfold dt_ltb, dt_leb.
  destruct (_ <? _) eqn:E; boolify; [done|]. apply Z.leb_le in E. by rewrite E.
Qed.

(** The transition of a failed probe, as one case analysis. *)
Lemma record_failure_inv clock pol cur now s :
  record_provider_failure clock pol (InCooldownState cur) (Some now) = Ok s ->
  dt_aware now = true /\ policy_ok pol /\
  ((exists u, cooldown_until cur = Some u /\ dt_us now < dt_us u /\ s = cur) \/
   (match cooldown_until cur with Some u => dt_us u <= dt_us now | None => True end /\
    let failures := consecutive_failures cur + 1 in
    let trip := failures / failure_threshold pol in
    if cooldown_trips cur <? trip
    then exists u, dt_us u = dt_us now + (if trip =? 1 then initial_cooldown pol else escalated_cooldown pol) /\
           dt_aware u = true /\ s = MkCooldown failures trip (Some u) UNHEALTHY_STATUS
    else s = MkCooldown failures (cooldown_trips cur) None (health_status cur))).
Proof.
  intros H. assert (dt_aware now = true /\ policy_ok pol) as [Hnow Hpol].
  { unfold record_provider_failure, normalize_now in H. simpl in H.
    apply rbind_Ok in H as (x & Hx & H). apply require_utc_Ok in Hx as [-> Hnow].
    apply rbind_Ok in H as ([] & Hv & _). by apply validate_policy_ok in Hv. }
  split_and!; [done..|]. rewrite record_failure_unfold in H by done. cbv zeta in *.
  destruct (cooldown_until cur) as [u|] eqn:Hu; [destruct (dt_ltb now u) eqn:Hlt|].
  { unfold dt_ltb in Hlt. boolify. injection H as <-. left; eauto. }
  all: right; split; [try (unfold dt_ltb in Hlt; by boolify)|]; try done.
  all: destruct (_ <? _) eqn:Etrip; inv_ok; [|by apply new_state_Ok in H as (-> & _)].
  all: match goal with H : cooldown_duration_for_trip _ _ _ = Ok _ |- _ =>
         apply duration_Ok in H as (_ & _ & ->) end.
  all: match goal with H : dt_add _ _ = Ok _ |- _ => apply dt_add_Ok in H as [Hus Haw] end.
  all: apply new_state_Ok in H as (-> & _); eexists; split_and!; [done|congruence|done].
Qed.

Lemma record_success_inv clock st now s :
  record_provider_success clock st now = Ok s ->
  s = MkCooldown 0 0 None HEALTHY_STATUS.
Proof. unfold record_provider_success. intros H. inv_ok. by apply new_state_Ok in H as (-> & _). Qed.

(** Theorems *)

(** Every probe result preserves the invariant: the trip counter is the
    number of whole thresholds of consecutive failures, and a state carries a
    cooldown deadline only after a trip and only while unhealthy. *)
Theorem probe_preserves_invariant (clock now : datetime) (pol : CooldownPolicy)
    (s s' : ProviderCooldownState) (passed : bool)
    (Hpol : policy_ok pol) (Hinv : cooldown_inv pol s)
    (Hrun : apply_probe_result clock pol (InCooldownState s) passed (Some now) = Ok s') :
  cooldown_inv pol s'.
Proof.
  unfold apply_probe_result in Hrun. destruct passed.
  { apply record_success_inv in Hrun as ->. unfold cooldown_inv; simpl.
    rewrite Z.div_0_l by (unfold policy_ok in Hpol; lia). done. }
  apply record_failure_inv in Hrun as (_ & _ & [(u & _ & _ & ->)|(Hu & H)]); [done|].
  destruct Hinv as (Hf & Ht & Hne & _). cbv zeta in H.
  set (th := failure_threshold pol) in *. assert (0 < th) by (unfold policy_ok in Hpol; lia).
  assert (consecutive_failures s / th <= (consecutive_failures s + 1) / th)
    by (apply Z.div_le_mono; lia).
  assert (0 <= consecutive_failures s / th) by (apply Z.div_pos; lia).
  destruct (_ <? _) eqn:E; boolify.
  - destruct H as (u & _ & Haw & ->). unfold cooldown_inv; simpl. fold th.
    split_and!; [lia|done|done|done|lia|done].
  - subst s'. unfold cooldown_inv; simpl. fold th. split_and!; [lia|lia|done|done].
Qed.

Lemma probe_preserves_invariant_witness :
  exists s', apply_probe_result (utc 0) DEFAULT_COOLDOWN_POLICY
               (InCooldownState (MkCooldown 2 0 None UNKNOWN_STATUS)) false (Some (utc 7)) = Ok s' /\
  cooldown_inv DEFAULT_COOLDOWN_POLICY s'.
Proof.
  eexists. split; [vm_compute; reflexivity|].
  apply (probe_preserves_invariant (utc 0) (utc 7) DEFAULT_COOLDOWN_POLICY
           (MkCooldown 2 0 None UNKNOWN_STATUS) _ false).
  - by vm_compute.
  - by vm_compute.
  - vm_compute. reflexivity.
Defined.

(** While a cooldown window is open, further failures change nothing: a
    burst of failures cannot lengthen the window or add trips. *)
Theorem failure_during_cooldown_is_noop (clock now u : datetime) (pol : CooldownPolicy)
    (s : ProviderCooldownState)
    (Hpol : policy_ok pol) (Hnow : dt_aware now = true)
    (Hu : cooldown_until s = Some u) (Hopen : dt_us now < dt_us u) :
  record_provider_failure clock pol (InCooldownState s) (Some now) = Ok s.
Proof.
  rewrite record_failure_unfold by done. rewrite Hu.
  unfold dt_ltb. apply Z.ltb_lt in Hopen as ->. done.
Qed.

Lemma failure_during_cooldown_is_noop_witness :
  let s := MkCooldown 3 1 (Some (utc 100)) UNHEALTHY_STATUS in
  record_provider_failure (utc 0) DEFAULT_COOLDOWN_POLICY (InCooldownState s) (Some (utc 99)) = Ok s.
Proof.
  apply (failure_during_cooldown_is_noop _ _ (utc 100)); [by vm_compute|done|done|simpl; lia].
Defined.

(** A window set by a failed probe ends at most [escalated_cooldown] after
    the probe, and is the initial duration exactly on the first trip. *)
Theorem cooldown_window_bounded (clock now : datetime) (pol : CooldownPolicy)
    (s s' : ProviderCooldownState) (u : datetime)
    (Hrun : record_provider_failure clock pol (InCooldownState s) (Some now) = Ok s')
    (Hnew : s' <> s) (Hu : cooldown_until s' = Some u) :
  dt_us u = dt_us now + (if cooldown_trips s' =? 1 then initial_cooldown pol
                         else escalated_cooldown pol) /\
  dt_us now < dt_us u <= dt_us now + escalated_cooldown pol /\
  cooldown_trips s < cooldown_trips s' /\ health_status s' = UNHEALTHY_STATUS.
Proof.
  apply record_failure_inv in Hrun as (_ & Hpol & [(v & _ & _ & ->)|(_ & H)]); [done|].
  cbv zeta in H. destruct (_ <? _) eqn:E; boolify; [|by subst s'].
  destruct H as (w & Hw & _ & ->). simpl in *. injection Hu as ->.
  unfold policy_ok in Hpol. rewrite Hw. split_and!; try done; destruct (_ =? 1); lia.
Qed.

Lemma cooldown_window_bounded_witness :
  let s := MkCooldown 2 0 None UNKNOWN_STATUS in
  let s' := MkCooldown 3 1 (Some (utc 300000007)) UNHEALTHY_STATUS in
  record_provider_failure (utc 0) DEFAULT_COOLDOWN_POLICY (InCooldownState s) (Some (utc 7)) = Ok s' /\
  dt_us (utc 7) < dt_us (utc 300000007) <= dt_us (utc 7) + escalated_cooldown DEFAULT_COOLDOWN_POLICY.
Proof.
  intros s s'.
  assert (record_provider_failure (utc 0) DEFAULT_COOLDOWN_POLICY (InCooldownState s) (Some (utc 7)) = Ok s')
    as H by (vm_compute; reflexivity).
  split; [exact H|].
  exact (proj1 (proj2 (cooldown_window_bounded _ _ _ _ _ (utc 300000007) H ltac:(done) eq_refl))).
Defined.

Lemma run_failures_below clock pol (ts : list datetime) k :
  policy_ok pol -> 0 <= k -> k + Z.of_nat (length ts) < failure_threshold pol ->
  Forall (fun t => dt_aware t = true) ts ->
  run_probes clock pol (MkCooldown k 0 None UNKNOWN_STATUS) ((fun t => (false, t)) <$> ts)
  = Ok (MkCooldown (k + Z.of_nat (length ts)) 0 None UNKNOWN_STATUS).
Proof.
  intros Hpol Hk Hlen Hts. revert k Hk Hlen. unfold run_probes.
  induction Hts as [|t ts Ht Hts IH]; intros k Hk Hlen; csimpl.
  { by rewrite Z.add_0_r. }
  rewrite record_failure_unfold by done. simpl.
  simpl length in Hlen. rewrite Nat2Z.inj_succ in Hlen |- *.
  rewrite Z.div_small by lia. simpl. rewrite new_state_ok by (lia || done). simpl.
  rewrite IH by lia. do 2 f_equal. lia.
Qed.

(** Liveness: from a provider never probed, exactly [failure_threshold]
    failures open the first window, at the time of the last one, and no
    smaller number does. *)
Theorem threshold_failures_trip (clock : datetime) (pol : CooldownPolicy)
    (ts : list datetime) (t : datetime)
    (Hpol : policy_ok pol)
    (Hts : Forall (fun t => dt_aware t = true) (ts ++ [t]))
    (Hlen : Z.of_nat (length (ts ++ [t])) = failure_threshold pol)
    (Hrange : dt_min <= dt_us t + initial_cooldown pol <= dt_max) :
  run_probes clock pol fresh_state ((fun t => (false, t)) <$> (ts ++ [t]))
  = Ok (MkCooldown (failure_threshold pol) 1
          (Some (Datetime (dt_us t + initial_cooldown pol) true)) UNHEALTHY_STATUS) /\
  (forall k, (k <= length ts)%nat ->
     run_probes clock pol fresh_state ((fun t => (false, t)) <$> take k ts)
     = Ok (MkCooldown (Z.of_nat k) 0 None UNKNOWN_STATUS)).
Proof.
  rewrite length_app, Nat2Z.inj_add in Hlen. simpl in Hlen.
  apply Forall_app in Hts as [Hts Ht]. apply Forall_cons in Ht as [Ht _]. split.
  - unfold run_probes. rewrite fmap_app, foldR_app.
    fold (run_probes clock pol fresh_state ((fun t => (false, t)) <$> ts)).
    unfold fresh_state. rewrite run_failures_below by (done || lia). csimpl.
    rewrite record_failure_unfold by done. simpl.
    replace (0 + Z.of_nat (length ts) + 1) with (failure_threshold pol) by lia.
    unfold policy_ok in Hpol. rewrite Z.div_same by lia. simpl.
    unfold cooldown_duration_for_trip. simpl.
    destruct (initial_cooldown pol <=? 0) eqn:?; boolify; [lia|].
    destruct (escalated_cooldown pol <? initial_cooldown pol) eqn:?; boolify; [lia|]. simpl.
    unfold dt_add. rewrite Ht.
    destruct ((_ <? dt_min) || (dt_max <? _)) eqn:E.
    { apply orb_true_iff in E as [E|E]; boolify; lia. }
    simpl. by rewrite new_state_ok by (lia || done).
  - intros k Hk. unfold fresh_state.
    rewrite run_failures_below; [|done|lia| |by apply Forall_take].
    + rewrite length_take, Nat.min_l by done. by rewrite Z.add_0_l.
    + rewrite length_take. lia.
Qed.

Lemma threshold_failures_trip_witness :
  run_probes (utc 0) DEFAULT_COOLDOWN_POLICY fresh_state
    ((fun t => (false, t)) <$> ([utc 1; utc 2] ++ [utc 3]))
  = Ok (MkCooldown 3 1 (Some (utc 300000003)) UNHEALTHY_STATUS).
Proof.
  apply (threshold_failures_trip (utc 0) DEFAULT_COOLDOWN_POLICY [utc 1; utc 2] (utc 3));
    [by vm_compute|by repeat constructor|done|by vm_compute].
Defined.
