(* ===== verification/CircuitBreaker.v ===== *)
(** * Budget circuit breaker ([cost/circuit_breaker.py])

    The breaker's thresholds and its mutable state are one record; [evaluate]
    returns the updated record with the decision.  Amounts are decimals under
    the default context, elapsed time is the float [total_seconds] gives. *)

From S2P Require Import Prelude PyDecimal PyFloat PyValue PyTime.
From Stdlib Require Import QArith Lqa.
#[local] Open Scope Z_scope.

(** Definitions *)

Inductive CircuitBreakerState := closed | open | half_open.
Inductive BreakerAction := allow | downgrade | block.

#[global] Instance CircuitBreakerState_eq_dec : EqDecision CircuitBreakerState.
Proof. solve_decision. Defined.
#[global] Instance BreakerAction_eq_dec : EqDecision BreakerAction.
Proof. solve_decision. Defined.

Record CircuitBreakerDecision : Type := MkDecision {
  action : BreakerAction;
  reason : string;
  state : CircuitBreakerState;
  headroom_usd : dec;
  headroom_pct : dec;
  runway_hours : option dec;
}.

Record BudgetCircuitBreaker : Type := MkBreaker {
  headroom_trip_pct : dec;
  runway_trip_hours : dec;
  recovery_headroom_pct : dec;
  recovery_runway_hours : dec;
  downgrade_headroom_pct : dec;
  cooldown_seconds : float;
  b_state : CircuitBreakerState;
  last_trip_at : option datetime;
}.

(** The dataclass defaults. *)
Definition default_breaker : BudgetCircuitBreaker :=
  MkBreaker (Dec 100 (-1)) (Dec 240 (-1)) (Dec 200 (-1)) (Dec 720 (-1)) (Dec 50 (-1))
    (of_Z 300) closed None.

Definition set_breaker (b : BudgetCircuitBreaker) (s : CircuitBreakerState) (t : option datetime)
  : BudgetCircuitBreaker :=
  MkBreaker (headroom_trip_pct b) (runway_trip_hours b) (recovery_headroom_pct b)
    (recovery_runway_hours b) (downgrade_headroom_pct b) (cooldown_seconds b) s t.

Definition should_trip (b : BudgetCircuitBreaker) (pct : dec) (runway : option dec) : bool :=
  dleb pct (headroom_trip_pct b) ||
  match runway with Some r => dleb r (runway_trip_hours b) | None => false end.

Definition should_recover (b : BudgetCircuitBreaker) (pct : dec) (runway : option dec) : bool :=
  dleb (recovery_headroom_pct b) pct &&
  match runway with Some r => dleb (recovery_runway_hours b) r | None => true end.

Definition action_for_stress (b : BudgetCircuitBreaker) (pct : dec) (runway : option dec)
  : BreakerAction * string :=
  if dleb pct (downgrade_headroom_pct b) then (block, "budget exhausted")
  else if match runway with Some r => dleb r (runway_trip_hours b) | None => false end
  then (downgrade, "burn rate critical")
  else (downgrade, "headroom low").

(** [_transition] *)
Definition transition (b : BudgetCircuitBreaker) (pct : dec) (runway : option dec)
    (now_utc : datetime) : py (CircuitBreakerState * (BreakerAction * string)) :=
  match b_state b with
  | closed =>
      if should_trip b pct runway then Ok (open, action_for_stress b pct runway)
      else Ok (closed, (allow, "budget healthy"))
  | open =>
      match last_trip_at b with
      | None => Ok (open, action_for_stress b pct runway)
      | Some t =>
          let? elapsed := total_seconds (dt_sub now_utc t) in
          if fleb (cooldown_seconds b) elapsed then
            if should_recover b pct runway then Ok (closed, (allow, "budget recovered"))
            else Ok (half_open, action_for_stress b pct runway)
          else Ok (open, action_for_stress b pct runway)
      end
  | half_open =>
      if should_recover b pct runway then Ok (closed, (allow, "budget recovered"))
      else Ok (open, action_for_stress b pct runway)
  end.

(** The headroom and its percentage of the budget. *)
Definition headroom (budget spend : dec) : py (dec * dec) :=
  let? h := dsub budget spend in
  let h := if dltb h dzero then dzero else h in
  let? pct := if dltb dzero budget
              then let? q := ddiv h budget in dmul q (of_int 100)
              else Ok dzero in
  Ok (h, pct).

Definition runway (h : dec) (burn_rate : option dec) : py (option dec) :=
  match burn_rate with
  | Some r => if dltb dzero r then rmap Some (ddiv h r) else Ok None
  | None => Ok None
  end.

(** [evaluate]: the decision and the breaker after it. *)
Definition evaluate (b : BudgetCircuitBreaker) (budget_usd mtd_spend_usd : dec) (now : datetime)
    (burn_rate : option dec) : py (BudgetCircuitBreaker * CircuitBreakerDecision) :=
  let? now_utc := require_utc now "now" in
  let? (h, pct) := headroom budget_usd mtd_spend_usd in
  let? rw := runway h burn_rate in
  let? (new_state, (act, why)) := transition b pct rw now_utc in
  let trip_at :=
    match new_state with
    | open => match last_trip_at b, b_state b with
              | None, _ => Some now_utc
              | _, half_open => Some now_utc
              | t, _ => t
              end
    | closed => None
    | half_open => last_trip_at b
    end in
  Ok (set_breaker b new_state trip_at, MkDecision act why new_state h pct rw).

(** [reset] *)
Definition reset (b : BudgetCircuitBreaker) : BudgetCircuitBreaker := set_breaker b closed None.

(** One evaluation's inputs, and a run of the breaker. *)
Record eval_input : Type := MkInput {
  in_budget : dec; in_spend : dec; in_now : datetime; in_burn : option dec }.

Definition eval_step (b : BudgetCircuitBreaker) (i : eval_input)
  : py (BudgetCircuitBreaker * CircuitBreakerDecision) :=
  evaluate b (in_budget i) (in_spend i) (in_now i) (in_burn i).

(** A trip time is recorded exactly while the breaker is not closed. *)
Definition breaker_wf (b : BudgetCircuitBreaker) : Prop :=
  b_state b = closed <-> last_trip_at b = None.

(** The thresholds are never written. *)
Definition same_thresholds (b b' : BudgetCircuitBreaker) : Prop :=
  b' = set_breaker b (b_state b') (last_trip_at b').

(** Breakers reachable from [b0] by evaluations. *)
Inductive breaker_reach (b0 : BudgetCircuitBreaker) : BudgetCircuitBreaker -> Prop :=
| ReachInit : breaker_reach b0 b0
| ReachEval b i b' d :
    breaker_reach b0 b -> eval_step b i = Ok (b', d) -> breaker_reach b0 b'
| ReachReset b : breaker_reach b0 b -> breaker_reach b0 (reset b).

(** Concrete inputs used by the witnesses. *)
Definition breaker_now : datetime := utc 1700000000000000.
Definition breaker_later : datetime := utc 1700000400000000.
Definition tripped_breaker : BudgetCircuitBreaker :=
  set_breaker default_breaker open (Some breaker_now).

(** Helper lemmas *)

(** What one evaluation did. *)
Lemma evaluate_inv b budget spend now burn b' d :
  evaluate b budget spend now burn = Ok (b', d) ->
  exists h pct rw act why,
    dt_aware now = true /\ headroom budget spend = Ok (h, pct) /\ runway h burn = Ok rw /\
    transition b pct rw now = Ok (b_state b', (act, why)) /\
    d = MkDecision act why (b_state b') h pct rw /\
    same_thresholds b b' /\
    last_trip_at b' =
      match b_state b' with
      | open => match last_trip_at b, b_state b with
                | None, _ => Some now | _, half_open => Some now | t, _ => t end
      | closed => None
      | half_open => last_trip_at b
      end.
Proof.
  unfold evaluate. intros H.
  apply rbind_Ok in H as (nu & Hn & H). apply require_utc_Ok in Hn as [-> Hn].
  apply rbind_Ok in H as ([h pct] & Hh & H).
  apply rbind_Ok in H as (rw & Hr & H).
  apply rbind_Ok in H as ([ns [act why]] & Ht & H). injection H as <- <-.
  exists h, pct, rw, act, why. done.
Qed.

(** The three ways a transition can go. *)
Lemma transition_inv b pct rw now s a w :
  transition b pct rw now = Ok (s, (a, w)) ->
  (s = closed /\ a = allow /\
     match b_state b with
     | closed => should_trip b pct rw = false
     | _ => should_recover b pct rw = true
     end) \/
  (s <> closed /\ (a, w) = action_for_stress b pct rw /\
     match b_state b with
     | closed => s = open /\ should_trip b pct rw = true
     | open => True
     | half_open => s = open /\ should_recover b pct rw = false
     end).
Proof.
  unfold transition. destruct (b_state b) eqn:Es.
  - destruct (should_trip b pct rw) eqn:E; intros [= <- H]; [right; by rewrite H|by left].
  - destruct (last_trip_at b) as [t|]; [|intros [= <- H]; right; by rewrite H].
    intros H. apply rbind_Ok in H as (el & _ & H). destruct (fleb _ _).
    + destruct (should_recover b pct rw) eqn:E; injection H as <- H; [by left|].
      right. by rewrite H.
    + injection H as <- H. right. by rewrite H.
  - destruct (should_recover b pct rw) eqn:E; intros [= <- H]; [by left|].
    right. by rewrite H.
Qed.

Lemma action_for_stress_not_allow b pct rw : (action_for_stress b pct rw).1 <> allow.
Proof. unfold action_for_stress. by repeat step_case. Qed.

(** With the budget spent the headroom is zero, whatever the amounts. *)
Lemma headroom_exhausted budget spend h pct :
  (dval budget <= dval spend)%Q -> headroom budget spend = Ok (h, pct) ->
  (dval h == 0 /\ dval pct == 0)%Q.
Proof.
  intros Hle H. unfold headroom in H.
  apply rbind_Ok in H as (x & Hx & H). apply rbind_Ok in H as (p & Hp & [= <- <-]).
  set (h' := if dltb x dzero then dzero else x) in *.
  assert (dcoef h' = 0) as Hz.
  { unfold h'. destruct (dltb x dzero) eqn:E; [done|]. apply dltb_false in E.
    unfold dzero in E. rewrite dval_zero in E. apply dcoef_nonneg in E.
    assert (dcoef x <= 0) as Hx0; [|lia].
    apply (dfix_nonpos _ _ Hx). rewrite dadd_exact_val, dneg_val. lra. }
  assert (dval h' == 0)%Q as Hh.
  { destruct h' as [c e]; simpl in Hz; subst. apply dval_zero. }
  split; [done|]. destruct (dltb dzero budget).
  - apply rbind_Ok in Hp as (q & Hq & Hp).
    assert (dcoef q = 0) as Hq0.
    { unfold ddiv in Hq. rewrite Hz in Hq. simpl in Hq. destruct (dcoef budget =? 0); [done|].
      rewrite dfix_zero in Hq by done. by injection Hq as <-. }
    unfold dmul in Hp. rewrite dfix_zero in Hp by (unfold dmul_exact; simpl; lia).
    injection Hp as <-. apply dval_zero.
  - injection Hp as <-. apply dval_zero.
Qed.

Lemma evaluate_wf b budget spend now burn b' d :
  evaluate b budget spend now burn = Ok (b', d) -> breaker_wf b -> breaker_wf b'.
Proof.
  intros (h & pct & rw & act & why & _ & _ & _ & Ht & _ & _ & Hl)%evaluate_inv Hwf.
  apply transition_inv in Ht. unfold breaker_wf in *. rewrite Hl.
  destruct (b_state b') eqn:Es, (b_state b) eqn:Eb, (last_trip_at b) eqn:El; split;
    try done; destruct Hwf as [Hw1 Hw2]; try (by discriminate Hw1); try (by specialize (Hw2 eq_refl));
    try (by specialize (Hw1 eq_refl)).
  all: destruct Ht as [(? & _)|(_ & _ & ?)]; try done; by destruct_and?.
Qed.

Lemma same_thresholds_trans a b c :
  same_thresholds a b -> same_thresholds b c -> same_thresholds a c.
Proof. unfold same_thresholds. intros -> ->. done. Qed.

(** Without headroom every transition blocks. *)
Lemma transition_exhausted b pct rw now s a w :
  transition b pct rw now = Ok (s, (a, w)) -> (dval pct == 0)%Q ->
  (0 <= dval (headroom_trip_pct b))%Q -> (0 <= dval (downgrade_headroom_pct b))%Q ->
  (0 < dval (recovery_headroom_pct b))%Q -> a = block.
Proof.
  intros Ht Hp Htrip Hdown Hrec. apply transition_inv in Ht as [(_ & _ & Hg)|(_ & Ha & _)].
  - exfalso. unfold should_trip, should_recover in Hg.
    destruct (b_state b); boolify; [apply dleb_false in H; lra|apply dleb_spec in H; lra..].
  - unfold action_for_stress in Ha. rewrite (proj2 (dleb_spec pct (downgrade_headroom_pct b))) in Ha by lra. by injection Ha.
Qed.

(** Theorems *)

(** Every breaker reachable from a well-formed one by evaluations and resets
    records a trip time exactly while it is not closed, and its six
    thresholds are those it was built with. *)
Theorem breaker_reach_invariant b0 b :
  breaker_wf b0 -> breaker_reach b0 b -> breaker_wf b /\ same_thresholds b0 b.
Proof.
  intros H0. induction 1 as [|b i b' d _ [IHw IHt] He|b _ [IHw IHt]].
  - split; [done|]. by destruct b0.
  - split; [by eapply evaluate_wf|]. eapply same_thresholds_trans; [done|].
    apply evaluate_inv in He as (?&?&?&?&?&_&_&_&_&_&?&_). done.
  - split; [done|]. eapply same_thresholds_trans; [done|]. done.
Qed.

(** A request is allowed exactly when the evaluation leaves the breaker
    closed; an open or half-open breaker always downgrades or blocks. *)
Theorem allow_iff_closed b budget spend now burn b' d :
  evaluate b budget spend now burn = Ok (b', d) ->
  (action d = allow <-> b_state b' = closed) /\ state d = b_state b'.
Proof.
  intros (h & pct & rw & act & why & _ & _ & _ & Ht & -> & _)%evaluate_inv. simpl.
  apply transition_inv in Ht as [(-> & -> & _)|(Hs & Ha & _)]; [done|].
  split; [|done]. split; [|done]. intros ->.
  by destruct (action_for_stress_not_allow b pct rw); rewrite <- Ha.
Qed.

(** Hysteresis: an open breaker closes only when the cooldown has elapsed
    since the recorded trip and the headroom and the runway have both reached
    the recovery thresholds. *)
Theorem open_closes_only_after_recovery b budget spend now burn b' d :
  evaluate b budget spend now burn = Ok (b', d) -> b_state b = open -> b_state b' = closed ->
  exists t elapsed, last_trip_at b = Some t /\ total_seconds (dt_sub now t) = Ok elapsed /\
    fleb (cooldown_seconds b) elapsed = true /\
    dleb (recovery_headroom_pct b) (headroom_pct d) = true /\
    match runway_hours d with Some r => dleb (recovery_runway_hours b) r = true | None => True end.
Proof.
  intros (h & pct & rw & act & why & _ & _ & _ & Ht & -> & _)%evaluate_inv Ho Hc. simpl.
  unfold transition in Ht. rewrite Ho, Hc in Ht.
  destruct (last_trip_at b) as [t|]; [|done].
  apply rbind_Ok in Ht as (el & Hel & Ht). exists t, el.
  destruct (fleb (cooldown_seconds b) el); [|done].
  destruct (should_recover b pct rw) eqn:E; [|done].
  unfold should_recover in E. apply andb_true_iff in E as [E1 E2]. by destruct rw.
Qed.

(** A spent budget is never let through: with the trip and downgrade
    thresholds at or above zero and the recovery threshold positive, the
    breaker blocks every request whose month-to-date spend has reached the
    budget, whatever its state and the burn rate. *)
Theorem exhausted_budget_blocks b budget spend now burn b' d :
  evaluate b budget spend now burn = Ok (b', d) ->
  (dval budget <= dval spend)%Q ->
  (0 <= dval (headroom_trip_pct b))%Q -> (0 <= dval (downgrade_headroom_pct b))%Q ->
  (0 < dval (recovery_headroom_pct b))%Q ->
  action d = block.
Proof.
  intros (h & pct & rw & act & why & _ & Hh & _ & Ht & -> & _)%evaluate_inv Hle Htrip Hdown Hrec.
  destruct (headroom_exhausted _ _ _ _ Hle Hh) as [_ Hp]. by eapply transition_exhausted.
Qed.

(** Witnesses *)

Lemma breaker_reach_invariant_witness :
  breaker_wf tripped_breaker /\ same_thresholds default_breaker tripped_breaker.
Proof.
  apply (breaker_reach_invariant default_breaker); [done|].
  apply (ReachEval default_breaker default_breaker
    (MkInput (of_int 100) (of_int 100) breaker_now (Some (of_int 1))) tripped_breaker
    (MkDecision block "budget exhausted" open (Dec 0 0) (Dec 0 0) (Some (Dec 0 0))));
    [constructor|vm_compute; reflexivity].
Defined.

Lemma allow_iff_closed_witness :
  (allow = allow <-> b_state default_breaker = closed) /\ closed = b_state default_breaker.
Proof.
  apply (allow_iff_closed tripped_breaker (of_int 100) (of_int 10) breaker_later None
    default_breaker (MkDecision allow "budget recovered" closed (of_int 90) (Dec 900 (-1)) None)).
  vm_compute. reflexivity.
Defined.

Lemma open_closes_only_after_recovery_witness :
  exists t elapsed, Some breaker_now = Some t /\
    total_seconds (dt_sub breaker_later t) = Ok elapsed /\
    fleb (of_Z 300) elapsed = true /\ dleb (Dec 200 (-1)) (Dec 900 (-1)) = true /\ True.
Proof.
  apply (open_closes_only_after_recovery tripped_breaker (of_int 100) (of_int 10) breaker_later
    None default_breaker (MkDecision allow "budget recovered" closed (of_int 90) (Dec 900 (-1)) None));
    vm_compute; reflexivity.
Defined.

Lemma exhausted_budget_blocks_witness : block = block.
Proof.
  apply (exhausted_budget_blocks default_breaker (of_int 100) (of_int 100) breaker_now
    (Some (of_int 1)) tripped_breaker
    (MkDecision block "budget exhausted" open (Dec 0 0) (Dec 0 0) (Some (Dec 0 0))));
    first [vm_compute; reflexivity | apply Qle_bool_iff; vm_compute; reflexivity].
Defined.
