(* ===== verification/SloGovernor.v ===== *)
(** * Cost SLO governor ([cost/slo_governor.py])

    Three signals pace admission: the spend velocity against the daily
    target, the nearest-rank 95th percentile of recent request costs against
    the per-request target, and the circuit breaker's action. *)

From S2P Require Import Prelude PyDecimal PyFormat PyTime CircuitBreaker.
From Stdlib Require Import QArith Lqa.
#[local] Open Scope Z_scope.

(** Definitions *)

Inductive PacingAction := Allow | Throttle | Defer.

#[global] Instance PacingAction_eq_dec : EqDecision PacingAction.
Proof. solve_decision. Defined.

Record CostSLO : Type := MkSLO {
  per_day_target_usd : dec;
  per_request_p95_usd : option dec;
  throttle_threshold : dec;
  defer_threshold : dec;
}.

(** [CostSLO._validate] *)
Definition validate_slo (s : CostSLO) : py CostSLO :=
  if dleb (per_day_target_usd s) dzero
  then Err (ValueError "per_day_target_usd must be positive")
  else if match per_request_p95_usd s with Some p => dleb p dzero | None => false end
  then Err (ValueError "per_request_p95_usd must be positive")
  else if dleb (defer_threshold s) (throttle_threshold s)
  then Err (ValueError "throttle_threshold must be strictly less than defer_threshold")
  else if dltb (throttle_threshold s) dzero
  then Err (ValueError "throttle_threshold must be non-negative")
  else if dltb (defer_threshold s) dzero
  then Err (ValueError "defer_threshold must be non-negative")
  else Ok s.

Record GovernorDecision : Type := MkGovernor {
  g_action : PacingAction;
  g_reason : string;
  velocity_ratio : dec;
  request_p95_ratio : option dec;
  g_slo : CostSLO;
  breaker_action : option BreakerAction;
}.

(** [_ratio] *)
Definition ratio (numerator denominator : dec) : py dec :=
  if dleb denominator dzero then Ok dzero
  else let? q := ddiv numerator denominator in quantize_usd q.

(** [_percentile]; the list is sorted. *)
Definition percentile (sorted_values : list dec) (pct : Z) : py dec :=
  match sorted_values with
  | [] => Ok dzero
  | [x] => Ok x
  | _ =>
      let n := Z.of_nat (length sorted_values) in
      let? p := dmul (of_int pct) (of_int n) in
      let? r := ddiv p (of_int 100) in
      let idx := dint (to_integral ROUND_CEILING r) - 1 in
      let idx := if idx <? 0 then 0 else idx in
      let idx := if n <=? idx then n - 1 else idx in
      match sorted_values !! Z.to_nat idx with
      | Some x => Ok x
      | None => Err (RuntimeError "list index out of range")
      end
  end.

(** [CostGovernor._decide] *)
Definition decide_pacing (slo : CostSLO) (velocity : dec) (p95 : option dec)
    (breaker : option BreakerAction) : PacingAction * string :=
  let baseline :=
    if dleb (defer_threshold slo) velocity
    then (Defer, "burn rate " +:+ fmt_fixed 2 velocity +:+ "x daily SLO target")
    else if dleb (throttle_threshold slo) velocity
    then (Throttle, "burn rate " +:+ fmt_fixed 2 velocity +:+ "x approaching daily SLO target")
    else (Allow, "burn rate within daily SLO target") in
  let with_p95 :=
    match p95 with
    | None => baseline
    | Some r =>
        if dleb (defer_threshold slo) r
        then (Defer, "request p95 " +:+ fmt_fixed 2 r +:+ "x SLO target")
        else if dleb (throttle_threshold slo) r && bool_decide (baseline.1 = Allow)
        then (Throttle, "request p95 " +:+ fmt_fixed 2 r +:+ "x approaching SLO target")
        else baseline
    end in
  match breaker with
  | Some block => (Defer, "breaker: budget exhausted")
  | Some downgrade =>
      if bool_decide (with_p95.1 = Allow) then (Throttle, "breaker: budget stressed")
      else with_p95
  | _ => with_p95
  end.

(** [CostGovernor.evaluate] *)
Definition govern (slo : CostSLO) (burn_rate_usd_per_day : dec) (now : datetime)
    (breaker_decision : option CircuitBreakerDecision) (recent : list dec)
  : py GovernorDecision :=
  let? _ := require_utc now "now" in
  let? velocity := ratio burn_rate_usd_per_day (per_day_target_usd slo) in
  let? p95 :=
    match recent, per_request_p95_usd slo with
    | _ :: _, Some target =>
        let? p := percentile (sort_by dltb recent) 95 in
        rmap Some (ratio p target)
    | _, _ => Ok None
    end in
  let act := option_map action breaker_decision in
  let '(a, why) := decide_pacing slo velocity p95 act in
  Ok (MkGovernor a why velocity p95 slo act).

(** The specification: every signal asks for a severity and the governor
    answers with the greatest of them. *)
Definition severity (a : PacingAction) : Z :=
  match a with Allow => 0 | Throttle => 1 | Defer => 2 end.

Definition ratio_severity (slo : CostSLO) (r : dec) : Z :=
  if dleb (defer_threshold slo) r then 2
  else if dleb (throttle_threshold slo) r then 1 else 0.

Definition breaker_severity (b : option BreakerAction) : Z :=
  match b with Some block => 2 | Some downgrade => 1 | _ => 0 end.

(** How many costs are at most [x]. *)
Definition count_le (l : list dec) (x : dec) : Z :=
  Z.of_nat (length (filter (fun y => dleb y x = true) l)).

Definition example_slo : CostSLO := MkSLO (of_int 100) (Some (of_int 1)) (Dec 80 (-2)) (of_int 1).

(** Helper lemmas *)

Lemma dleb_refl x : dleb x x = true.
Proof. apply dleb_spec. apply Qle_refl. Qed.

Lemma dltb_asym a b : dltb a b = true -> dltb b a = false.
Proof. rewrite dltb_spec, dltb_false. apply Qlt_le_weak. Qed.

Lemma dltb_le_trans a b c : le_by dltb a b -> le_by dltb b c -> le_by dltb a c.
Proof. unfold le_by. rewrite !dltb_false. intros; eapply Qle_trans; eauto. Qed.

Lemma sorted_costs l : StronglySorted (le_by dltb) (sort_by dltb l).
Proof. apply sort_by_sorted; [apply dltb_asym|apply dltb_le_trans]. Qed.

Lemma count_le_perm l l' x : l ≡ₚ l' -> count_le l x = count_le l' x.
Proof. intros Hp. unfold count_le. by rewrite Hp. Qed.

(** In a sorted list the first [i + 1] elements are at most the [i]-th. *)
Lemma count_le_sorted l i x :
  StronglySorted (le_by dltb) l -> l !! i = Some x -> Z.of_nat i + 1 <= count_le l x.
Proof.
  unfold count_le. intros Hs. revert i. induction Hs as [|y l Hs IH Hy]; intros i Hi; [done|].
  rewrite filter_cons. destruct i as [|i]; simpl in Hi.
  - injection Hi as ->. rewrite decide_True by apply dleb_refl. simpl. lia.
  - assert (dleb y x = true) as E.
    { rewrite Forall_forall in Hy. apply dleb_spec, dltb_false.
      apply Hy. by eapply list_elem_of_lookup_2. }
    rewrite decide_True by done. apply IH in Hi. simpl. lia.
Qed.

(** Fewer elements than its index are below the [i]-th. *)
Lemma count_lt_sorted l i x :
  StronglySorted (le_by dltb) l -> l !! i = Some x ->
  Z.of_nat (length (filter (fun y => dltb y x = true) l)) <= Z.of_nat i.
Proof.
  intros Hs. revert i. induction Hs as [|y l Hs IH Hy]; intros i Hi; [done|].
  rewrite filter_cons. destruct i as [|i]; simpl in Hi.
  - injection Hi as ->. rewrite decide_False.
    2: { pose proof (dleb_refl x) as E. apply dleb_spec in E.
         rewrite (proj2 (dltb_false x x)); [done|]. done. }
    enough (filter (fun y => dltb y x = true) l = []) as -> by (simpl; lia).
    clear IH Hs. induction Hy as [|z l Hz _ IH]; [done|].
    rewrite filter_cons_False; [done|]. unfold le_by in Hz. by rewrite Hz.
  - apply IH in Hi. case_decide; simpl; lia.
Qed.

Lemma strip_zeros_val fuel c e ideal : (dval (strip_zeros fuel c e ideal) == dval (Dec c e))%Q.
Proof.
  revert c e. induction fuel as [|fuel IH]; intros c e; simpl; [reflexivity|].
  destruct ((e <? ideal) && (c mod 10 =? 0)) eqn:E; [|reflexivity]. boolify.
  rewrite IH. unfold dval; cbn [dcoef dexp]. rewrite (ten_add e 1).
  rewrite (Z_div_mod_eq_full c 10) at 2. rewrite H0, Z.add_0_r, inject_Z_mult.
  change (ten 1) with (10 # 1)%Q. change (inject_Z 10) with (10 # 1)%Q. ring.
Qed.

(** Zeros are stripped as far as the coefficient and the ideal allow. *)
Lemma strip_zeros_exp fuel k j e ideal :
  0 <= j <= Z.of_nat fuel -> e + j <= ideal ->
  e + j <= dexp (strip_zeros fuel (k * 10 ^ j) e ideal) <= Z.max e ideal.
Proof.
  revert j e k. induction fuel as [|fuel IH]; intros j e k Hj He.
  { simpl. lia. }
  cbn [strip_zeros]. destruct (e <? ideal) eqn:Hlt; boolify; simpl; [|lia].
  destruct (decide (j = 0)) as [->|Hj0].
  - destruct (k * 10 ^ 0 mod 10 =? 0) eqn:Hm; simpl; [|lia]. boolify.
    specialize (IH 0 (e + 1) (k * 10 ^ 0 / 10)).
    rewrite Z.pow_0_r, Z.mul_1_r in IH. rewrite Z.pow_0_r in *. lia.
  - replace (k * 10 ^ j) with ((k * 10 ^ (j - 1)) * 10)
      by (replace j with (1 + (j - 1)) at 2 by lia; rewrite pow10_succ by lia; ring).
    rewrite Z.mod_mul by lia. simpl. rewrite Z.div_mul by lia.
    specialize (IH (j - 1) (e + 1) k). lia.
Qed.

(** Dividing a small count by 100 is exact. *)
Lemma ddiv_100 c :
  0 < c < 10 ^ 26 -> exists d, ddiv (of_int c) (of_int 100) = Ok d /\
    (dval d == inject_Z c * ten (-2))%Q /\ -2 <= dexp d <= 0.
Proof.
  intros Hc. unfold ddiv. cbn [dcoef dexp of_int].
  change (100 =? 0) with false. cbv iota. change (ndigits (Z.abs 100)) with 3.
  assert (1 <= ndigits c <= 26) as Hn.
  { split; [|apply ndigits_small; lia]. destruct (Z.le_gt_cases 1 (ndigits c)); [done|].
    pose proof (ndigits_spec c). lia. }
  destruct (c =? 0) eqn:E; boolify; [lia|]. rewrite Z.abs_eq by lia.
  set (sh := 3 - ndigits c + dprec + 1). assert (6 <= sh <= 31) by (unfold sh, dprec; lia).
  replace (0 <=? sh) with true by (symmetry; apply Z.leb_le; lia).
  rewrite (pow10_split 2 sh) by lia. change (Z.abs 100) with (10 ^ 2).
  replace (c * (10 ^ 2 * 10 ^ (sh - 2))) with (c * 10 ^ (sh - 2) * 10 ^ 2) by ring.
  rewrite Z.mod_mul, Z.div_mul by lia. change (0 =? 0) with true. cbv iota.
  replace (Z.max 0 sh) with sh by lia. replace (0 - 0 - sh) with (- sh) by lia.
  change (0 - 0) with 0. set (d := strip_zeros _ _ _ _).
  assert (-2 <= dexp d <= 0) as Hexp.
  { pose proof (strip_zeros_exp (Z.to_nat sh) c (sh - 2) (- sh) 0) as Hz.
    fold d in Hz. lia. }
  assert (dval d == inject_Z c * ten (-2))%Q as Hval.
  { unfold d. rewrite strip_zeros_val. unfold dval; cbn [dcoef dexp].
    rewrite inject_Z_mult, <- ten_nonneg_exp by lia. rewrite <- Qmult_assoc, <- ten_add.
    by replace (sh - 2 + - sh) with (-2) by lia. }
  rewrite !Z.sgn_pos by lia. rewrite Z.mul_1_l.
  exists d. replace (Dec (dcoef d) (dexp d)) with d by (by destruct d).
  split; [|done]. apply dfix_small; [|unfold etiny, etop, emin, emax, dprec; lia].
  unfold dval in Hval. rewrite (ten_split (-2) (dexp d)) in Hval by lia.
  rewrite Qmult_assoc, <- inject_Z_mult in Hval.
  assert (dcoef d * 10 ^ (dexp d - -2) = c) as Heq.
  { apply Z.le_antisymm; apply (inject_ten_le _ _ (-2)); rewrite Hval; apply Qle_refl. }
  assert (1 <= 10 ^ (dexp d - -2)) by (pose proof (pow10_pos (dexp d - -2)); lia). nia.
Qed.

(** [int(d.to_integral_value(ROUND_CEILING))] is the ceiling. *)
Lemma ceiling_spec d : -2 <= dexp d <= 0 ->
  let z := dint (to_integral ROUND_CEILING d) in
  (inject_Z z - 1 < dval d)%Q /\ (dval d <= inject_Z z)%Q.
Proof.
  intros He z. set (p := 10 ^ (- dexp d)).
  assert (0 < p) as Hp by (apply pow10_pos; lia).
  assert (z * p - p < dcoef d <= z * p) as Hz.
  { unfold z, to_integral, dint. destruct (0 <=? dexp d) eqn:E'; pose proof E' as E; boolify.
    - assert (dexp d = 0) as H0 by lia. unfold p. rewrite H0. simpl. lia.
    - cbn [dexp dcoef]. change (0 <=? 0) with true. cbv iota. rewrite Z.mul_1_r.
      unfold rescale. destruct (dcoef d =? 0) eqn:E0; boolify; [lia|].
      replace (0 <=? dexp d) with false by (symmetry; apply Z.leb_gt; lia).
      replace (0 - dexp d) with (- dexp d) by lia. fold p. unfold rdiv.
      pose proof (Z.div_mod (Z.abs (dcoef d)) p). pose proof (Z.mod_pos_bound (Z.abs (dcoef d)) p).
      set (q := Z.abs (dcoef d) / p) in *. set (r := Z.abs (dcoef d) mod p) in *.
      destruct (Z.lt_trichotomy (dcoef d) 0) as [Hn|[?|Hn]]; [|lia|].
      + rewrite Z.sgn_neg by lia. replace (0 <? dcoef d) with false by (symmetry; apply Z.ltb_ge; lia).
        simpl. nia.
      + rewrite Z.sgn_pos by lia. replace (0 <? dcoef d) with true by (symmetry; apply Z.ltb_lt; lia).
        simpl. destruct (0 <? r) eqn:Er; boolify; nia. }
  assert (dval d == inject_Z (dcoef d) * ten (dexp d))%Q as Hv by reflexivity.
  assert (forall y, inject_Z y == inject_Z (y * p) * ten (dexp d))%Q as Hs.
  { intros y. unfold p. rewrite inject_Z_mult, <- ten_nonneg_exp by lia.
    rewrite <- Qmult_assoc, <- ten_add. replace (- dexp d + dexp d) with 0 by lia.
    change (ten 0) with 1%Q. ring. }
  split.
  - change 1%Q with (inject_Z 1). unfold Qminus. rewrite <- inject_Z_opp, <- inject_Z_plus.
    rewrite Hs, Hv. apply inject_ten_lt. lia.
  - rewrite Hs, Hv. apply inject_ten_le. lia.
Qed.

Lemma percentile_sorted s :
  StronglySorted (le_by dltb) s -> s <> [] -> Z.of_nat (length s) < 10 ^ 24 ->
  exists x, percentile s 95 = Ok x /\ x ∈ s /\
    95 * Z.of_nat (length s) <= 100 * count_le s x /\
    100 * Z.of_nat (length (filter (fun y => dltb y x = true) s)) < 95 * Z.of_nat (length s).
Proof.
  intros Hs Hne Hlen. unfold percentile.
  destruct s as [|a [|b s]]; [done| |].
  { exists a. split; [done|]. split; [constructor|]. unfold count_le.
    rewrite !filter_cons. rewrite decide_True by apply dleb_refl. rewrite decide_False.
    - rewrite filter_nil. simpl. lia.
    - pose proof (dleb_refl a) as E. apply dleb_spec, dltb_false in E. by rewrite E. }
  set (l := a :: b :: s) in *. set (n := Z.of_nat (length l)) in *.
  assert (2 <= n) by (unfold n; simpl; lia). cbv zeta.
  assert (dmul (of_int 95) (of_int n) = Ok (of_int (95 * n))) as ->.
  { apply dfix_small; [cbn [dcoef of_int dmul_exact]; lia|].
    cbn. unfold etiny, etop, emin, emax, dprec. lia. }
  cbn [rbind]. destruct (ddiv_100 (95 * n)) as (d & -> & Hd & He); [lia|]. cbn [rbind].
  destruct (ceiling_spec d He) as [Hlo Hhi]. set (k := dint _) in *.
  assert (100 * k - 100 < 95 * n <= 100 * k) as Hk.
  { rewrite Hd in Hlo, Hhi. change (ten (-2)) with (1 # 100)%Q in *.
    unfold Qle, Qlt, inject_Z in *. simpl in *. lia. }
  replace (k - 1 <? 0) with false by (symmetry; apply Z.ltb_ge; lia).
  replace (n <=? k - 1) with false by (symmetry; apply Z.leb_gt; lia).
  destruct (lookup_lt_is_Some_2 l (Z.to_nat (k - 1))) as [x Hx]; [unfold n in *; lia|].
  rewrite Hx. exists x. split; [done|]. split; [by eapply list_elem_of_lookup_2|].
  pose proof (count_le_sorted l _ x Hs Hx). pose proof (count_lt_sorted l _ x Hs Hx). lia.
Qed.

(** Theorems *)

(** The pacing decision is the strongest of the three signals: no signal is
    dropped and none is weakened by another. *)
Theorem decide_pacing_max slo velocity p95 breaker :
  severity (decide_pacing slo velocity p95 breaker).1 =
  Z.max (ratio_severity slo velocity)
    (Z.max (match p95 with Some r => ratio_severity slo r | None => 0 end)
           (breaker_severity breaker)).
Proof.
  unfold decide_pacing, ratio_severity, breaker_severity.
  destruct breaker as [[]|], p95 as [r|];
    destruct (dleb (defer_threshold slo) velocity), (dleb (throttle_threshold slo) velocity);
    try destruct (dleb (defer_threshold slo) r); try destruct (dleb (throttle_threshold slo) r);
    reflexivity.
Qed.

(** The nearest-rank percentile: on any non-empty list of fewer than 10^24
    costs [_percentile] returns one of them, at least 95% of the costs are at
    most it, and fewer than 95% are below it. *)
Theorem percentile_nearest_rank l :
  l <> [] -> Z.of_nat (length l) < 10 ^ 24 ->
  exists x, percentile (sort_by dltb l) 95 = Ok x /\ x ∈ l /\
    95 * Z.of_nat (length l) <= 100 * count_le l x /\
    100 * Z.of_nat (length (filter (fun y => dltb y x = true) l)) < 95 * Z.of_nat (length l).
Proof.
  intros Hne Hlen. pose proof (sort_by_perm dltb l) as Hp.
  destruct (percentile_sorted (sort_by dltb l)) as (x & Hx & Hin & Hle & Hlt).
  - apply sorted_costs.
  - intros E. rewrite E in Hp. by apply Permutation_nil in Hp.
  - by rewrite sort_by_length.
  - exists x. split; [done|]. rewrite elem_of_sort_by in Hin.
    rewrite sort_by_length in Hle, Hlt. rewrite (count_le_perm _ _ _ Hp) in Hle.
    by rewrite Hp in Hlt.
Qed.

Lemma percentile_nearest_rank_witness :
  exists x, percentile (sort_by dltb [of_int 3; of_int 1; of_int 2]) 95 = Ok x /\
    x ∈ [of_int 3; of_int 1; of_int 2] /\ 95 * 3 <= 100 * count_le [of_int 3; of_int 1; of_int 2] x /\
    100 * Z.of_nat (length (filter (fun y => dltb y x = true) [of_int 3; of_int 1; of_int 2])) < 95 * 3.
Proof. apply (percentile_nearest_rank [of_int 3; of_int 1; of_int 2]); [done|reflexivity]. Defined.

(** A blocking breaker defers whatever the velocity and the costs are. *)
Theorem breaker_block_defers slo burn now d recent g :
  govern slo burn now (Some d) recent = Ok g -> action d = block ->
  g_action g = Defer /\ g_reason g = "breaker: budget exhausted".
Proof.
  unfold govern. intros H Hb. inv_ok. destruct (decide_pacing _ _ _ _) as [a w] eqn:E.
  injection H as <-. simpl. unfold decide_pacing in E. simpl in E. rewrite Hb in E.
  by injection E as <- <-.
Qed.

Lemma breaker_block_defers_witness :
  exists g, govern example_slo (of_int 10) breaker_now
    (Some (MkDecision block "budget exhausted" open dzero dzero None)) [of_int 1] = Ok g /\
  g_action g = Defer /\ g_reason g = "breaker: budget exhausted".
Proof.
  eexists. split; [vm_compute; reflexivity|].
  apply (breaker_block_defers example_slo (of_int 10) breaker_now
    (MkDecision block "budget exhausted" open dzero dzero None) [of_int 1]);
    vm_compute; reflexivity.
Defined.
