(* ===== verification/RoutingTypes.v ===== *)
(** * Routing types ([routing/types.py])

    The records that flow through the four planning stages, with the
    normalisation their [__post_init__] hooks do. *)

From Stdlib Require Import Ascii.
From S2P Require Import Prelude PyFloat PyValue Enums Provider.

(** Definitions *)

Inductive EliminationReason :=
| CAPABILITY_MISMATCH | REGION_MISMATCH | CUDA_MISMATCH | GPU_CLASS_MISMATCH | PAYLOAD_TOO_LARGE.

#[global] Instance EliminationReason_enum : StrEnum EliminationReason := {
  members := [CAPABILITY_MISMATCH; REGION_MISMATCH; CUDA_MISMATCH; GPU_CLASS_MISMATCH;
              PAYLOAD_TOO_LARGE];
  enum_value m := match m with
    | CAPABILITY_MISMATCH => "capability_mismatch" | REGION_MISMATCH => "region_mismatch"
    | CUDA_MISMATCH => "cuda_mismatch" | GPU_CLASS_MISMATCH => "gpu_class_mismatch"
    | PAYLOAD_TOO_LARGE => "payload_too_large" end }.

Inductive ProviderEliminated :=
| PE_CAPABILITY_MISMATCH | PE_REGION_MISMATCH | PE_CUDA_MISMATCH | PE_GPU_CLASS_MISMATCH
| PE_PAYLOAD_TOO_LARGE | DISABLED | HEALTH_UNHEALTHY | HEALTH_COOLDOWN | CAPACITY_UNAVAILABLE.

#[global] Instance ProviderEliminated_enum : StrEnum ProviderEliminated := {
  members := [PE_CAPABILITY_MISMATCH; PE_REGION_MISMATCH; PE_CUDA_MISMATCH;
              PE_GPU_CLASS_MISMATCH; PE_PAYLOAD_TOO_LARGE; DISABLED; HEALTH_UNHEALTHY;
              HEALTH_COOLDOWN; CAPACITY_UNAVAILABLE];
  enum_value m := match m with
    | PE_CAPABILITY_MISMATCH => "capability_mismatch" | PE_REGION_MISMATCH => "region_mismatch"
    | PE_CUDA_MISMATCH => "cuda_mismatch" | PE_GPU_CLASS_MISMATCH => "gpu_class_mismatch"
    | PE_PAYLOAD_TOO_LARGE => "payload_too_large" | DISABLED => "disabled"
    | HEALTH_UNHEALTHY => "health_unhealthy" | HEALTH_COOLDOWN => "health_cooldown"
    | CAPACITY_UNAVAILABLE => "capacity_unavailable" end }.

#[global] Instance EliminationReason_eq_dec : EqDecision EliminationReason.
Proof. solve_decision. Defined.
#[global] Instance ProviderEliminated_eq_dec : EqDecision ProviderEliminated.
Proof. solve_decision. Defined.
#[global] Instance EliminationReason_lawful : LawfulStrEnum EliminationReason.
Proof. solve_lawful. Qed.
#[global] Instance ProviderEliminated_lawful : LawfulStrEnum ProviderEliminated.
Proof. solve_lawful. Qed.

(** The two fields of the [Capability] model that routing reads. *)
Record Capability : Type := MkCapability { capability_model_id : string; capability_model_name : string }.

Record CapacityProbeKey : Type := MkProbeKey {
  datacenter : string;
  gpu_name : string;
  cloud_type : string;
  gpu_count : Z;
}.

#[global] Instance CapacityProbeKey_eq_dec : EqDecision CapacityProbeKey.
Proof. solve_decision. Defined.

Record CapacityDecision : Type := MkCapacityDecision {
  cd_provider_id : string;
  cd_available : option bool;
  cd_reason : string;
  cd_keys : list CapacityProbeKey;
  cd_selected_key : option CapacityProbeKey;
}.

Record Hints : Type := MkHints {
  latency_sensitive : bool;
  cost_sensitive : bool;
  region_preference : option string;
}.
Definition default_hints : Hints := MkHints false false None.

Record ObservedMetrics : Type := MkObserved { recent_error_rate : float }.
Definition default_observed : ObservedMetrics := MkObserved (of_Z 0).

Record ScoreExplanation : Type := MkScore {
  se_provider_id : string;
  base_score : float;
  latency_penalty : float;
  warm_worker_bonus : float;
  cost_penalty : float;
  region_bonus : float;
  recent_error_penalty : float;
  priority_multiplier : float;
  score_before_multiplier : float;
  final_score : float;
}.

Record RoutingRequest : Type := MkRequest {
  capability_name : string;
  payload_bytes : option Z;
  required_gpu_class : option string;
  required_region : option string;
  required_volume_id : option string;
  req_hints : option Hints;
  req_capability_id : option string;
  required_cuda_min : option string;
  required_cuda_version : option string;
  req_stream : bool;
}.

(** [RoutingRequest.payload_mb] *)
Definition payload_mb (r : RoutingRequest) : py (option float) :=
  match payload_bytes r with
  | None => Ok None
  | Some b => rmap Some (int_truediv b (1024 * 1024))
  end.

Record ConstraintResult : Type := MkConstraintResult {
  cr_provider_id : string;
  passed : bool;
  cr_reason : option EliminationReason;
  cr_reasons : list EliminationReason;
}.

(** [ConstraintResult(...)], through [__post_init__]. *)
Definition constraint_result (provider_id : string) (passed : bool)
    (reason : option EliminationReason) (reasons : list EliminationReason) : ConstraintResult :=
  if passed then MkConstraintResult provider_id passed None []
  else match reason, reasons with
       | None, r :: _ => MkConstraintResult provider_id passed (Some r) reasons
       | Some r, [] => MkConstraintResult provider_id passed reason [r]
       | _, _ => MkConstraintResult provider_id passed reason reasons
       end.

Record RouteElimination : Type := MkRouteElimination {
  re_provider_id : string;
  re_stage : Z;
  re_reason : ProviderEliminated;
  re_reasons : list ProviderEliminated;
}.

(** [RouteElimination(...)], through [__post_init__]. *)
Definition route_elimination (provider_id : string) (stage : Z) (reason : ProviderEliminated)
    (reasons : list ProviderEliminated) : RouteElimination :=
  match reasons with
  | [] => MkRouteElimination provider_id stage reason [reason]
  | r :: _ => MkRouteElimination provider_id stage r reasons
  end.

Record RouteCandidate : Type := MkCandidate {
  rc_provider_id : string;
  rc_provider : ProviderLike;
  rc_rank : Z;
  rc_score : float;
  rc_explanation : ScoreExplanation;
  fallback_for : list string;
  explicit_fallback_chain : list string;
}.

Record RouteAttempt : Type := MkAttempt {
  ra_provider_id : string;
  ra_provider : ProviderLike;
  ra_attempt : Z;
  ra_score : float;
  ra_explanation : ScoreExplanation;
  backoff_before_attempt_s : float;
}.

Record RoutePlan : Type := MkPlan {
  rp_request : RoutingRequest;
  attempts : list RouteAttempt;
  ranked_candidates : list RouteCandidate;
  eliminated : list RouteElimination;
  capacity_decisions : list CapacityDecision;
  rp_max_attempts : Z;
}.

(** The properties of a plan. *)
Definition selected_provider_id (p : RoutePlan) : option string :=
  match attempts p with [] => None | a :: _ => Some (ra_provider_id a) end.
Definition selected_provider (p : RoutePlan) : option ProviderLike :=
  match attempts p with [] => None | a :: _ => Some (ra_provider a) end.
Definition fallback_chain (p : RoutePlan) : list string := ra_provider_id <$> attempts p.
Definition fallback_provider_ids (p : RoutePlan) : list string := drop 1 (fallback_chain p).
Definition fallback_providers (p : RoutePlan) : list ProviderLike :=
  ra_provider <$> drop 1 (attempts p).

(** A dict comprehension: a later binding of a key replaces the earlier one. *)
Definition dropped_provider_reasons (p : RoutePlan) : gmap string (list string) :=
  foldl (fun m e => <[re_provider_id e := enum_value <$> re_reasons e]> m) ∅ (eliminated p).
Definition capacity_decisions_by_provider (p : RoutePlan) : gmap string CapacityDecision :=
  foldl (fun m d => <[cd_provider_id d := d]> m) ∅ (capacity_decisions p).

(** [parse_stream_from_bytes], from the value the JSON parser returns
    ([None]: the body is empty or is not JSON). *)
Definition parse_stream (data : option pyval) : bool :=
  match data with
  | Some (VDict kvs) =>
      match dict_get_none "stream" kvs with
      | VBool b => b
      | VStr s => String.eqb (lower s) "true"
      | _ => false
      end
  | _ => false
  end.

Lemma constraint_result_passed i p r rs : passed (constraint_result i p r rs) = p.
Proof. unfold constraint_result. by repeat step_case. Qed.

Lemma route_elimination_reasons i s r rs :
  rs <> [] -> re_reasons (route_elimination i s r rs) = rs.
Proof. by destruct rs. Qed.
