(* ===== verification/Constraints.v ===== *)
(** * Stage 1: hard constraints ([routing/constraints.py])

    A provider survives when none of five predicates eliminates it.  The
    filter keeps the input order and reports every reason. *)

From Stdlib Require Import Ascii.
From S2P Require Import Prelude PyDecimal PyValue PyFormat Enums Provider RoutingTypes.

(** Definitions *)

Definition DEFAULT_LB_MAX_PAYLOAD_MB : dec := of_int 30.
Definition BYTES_PER_MB : dec := of_int (1024 * 1024).

Definition capability_id_for (request : RoutingRequest) (capability : option Capability)
    (capability_id : option string) : option string :=
  match capability_id with
  | Some i => Some i
  | None => match capability with
            | Some c => Some (capability_model_id c)
            | None => req_capability_id request
            end
  end.

(** [_first_config_string] *)
Fixpoint first_config_string (p : ProviderLike) (keys : list string) : option string :=
  match keys with
  | [] => None
  | k :: keys' =>
      match non_empty_string (config_value p k) with
      | Some s => Some s
      | None => first_config_string p keys'
      end
  end.

Definition capability_mismatch (request : RoutingRequest) (p : ProviderLike)
    (capability : option Capability) (capability_id : option string) : bool :=
  if match capability with
     | Some c => negb (String.eqb (capability_name request) (capability_model_name c))
     | None => false
     end then true
  else
    let provider_capability_id := string_field p "capability_id" in
    match capability_id_for request capability capability_id with
    | Some expected => bool_decide (provider_capability_id <> Some expected)
    | None =>
        match first_config_string p ["capability_name"; "capability"] with
        | Some n => negb (String.eqb n (capability_name request))
        | None =>
            match provider_capability_id with
            | Some i => negb (String.eqb i (capability_name request))
            | None => true
            end
        end
    end.

Definition provider_volume_id (p : ProviderLike) : option string :=
  first_config_string p ["volume_id"; "networkVolumeId"; "network_volume_id"; "required_volume"].

Definition region_mismatch (request : RoutingRequest) (p : ProviderLike) : bool :=
  let provider_region := string_field p "region" in
  if match required_region request with
     | Some r => bool_decide (provider_region <> Some r)
     | None => false
     end then true
  else match required_volume_id request with
       | None => false
       | Some v => bool_decide (provider_volume_id p <> Some v)
       end.

(** The strings a list-valued config key contributes. *)
Definition config_strings (p : ProviderLike) (key : string) : list string :=
  match config_value p key with
  | VStr s | VEnum s => [s]
  | VList l | VTuple l => py_str <$> filter (fun v => is_none v = false) l
  | _ => []
  end.

Definition opt_list {A} (o : option A) : list A :=
  match o with Some x => [x] | None => [] end.

Definition provider_cuda_versions (p : ProviderLike) : list string :=
  dedup (mjoin (config_strings p <$> ["allowed_cuda_versions"; "allowedCudaVersions"]) ++
         mjoin ((fun k => opt_list (first_config_string p [k])) <$>
                  ["cuda_min"; "cuda_version"; "cuda"])).

Definition provider_gpu_classes (p : ProviderLike) : list string :=
  dedup (mjoin ((fun k => opt_list (first_config_string p [k])) <$>
                  ["gpu_class"; "gpu_type"; "gpu_type_id"]) ++
         mjoin (config_strings p <$> ["gpu_classes"; "gpu_types"; "gpu_type_priority"])).

(** [int(digits)]: strings of more than 4300 digits are refused. *)
Definition int_of_digits (digits : string) : py Z :=
  if (4300 <? String.length digits)%nat
  then Err (ValueError "Exceeds the limit (4300 digits) for integer string conversion")
  else match parse_nat digits with
       | Some z => Ok z
       | None => Err (ValueError "invalid literal for int() with base 10")
       end.

(** [_version_tuple]; the empty list stands for [None]. *)
Fixpoint version_parts (parts : list string) : py (list Z) :=
  match parts with
  | [] => Ok []
  | part :: parts' =>
      let digits := filter_string is_digit part in
      if nonempty digits then
        let? n := int_of_digits digits in
        let? ns := version_parts parts' in
        Ok (n :: ns)
      else version_parts parts'
  end.
Definition version_tuple (v : string) : py (list Z) :=
  version_parts (split_on "."%char (replace_char "_"%char "."%char (strip v))).

(** Lexicographic [>=] of tuples. *)
Fixpoint tuple_geb (a b : list Z) : bool :=
  match a, b with
  | _, [] => true
  | [], _ :: _ => false
  | x :: a', y :: b' => if x =? y then tuple_geb a' b' else y <? x
  end.

Definition version_at_least (candidate required : string) : py bool :=
  let? c := version_tuple candidate in
  let? r := version_tuple required in
  match c, r with
  | [], _ | _, [] => Ok (String.eqb candidate required)
  | _, _ => Ok (tuple_geb c r)
  end.

(** [a or b] on optional strings. *)
Definition str_or (a b : option string) : option string :=
  match a with
  | Some s => if nonempty s then a else b
  | None => b
  end.

Definition cuda_mismatch (request : RoutingRequest) (p : ProviderLike) : py bool :=
  match str_or (required_cuda_min request) (required_cuda_version request) with
  | None => Ok false
  | Some required =>
      match provider_cuda_versions p with
      | [] => Ok true
      | candidates => rmap negb (existsR (fun c => version_at_least c required) candidates)
      end
  end.

Definition gpu_pieces (v : string) : list string :=
  filter (fun w => w <> "NVIDIA" /\ w <> "GEFORCE" /\ w <> "GENERATION")
    (split_ws (upper (replace_char "-"%char " "%char (replace_char "_"%char " "%char v)))).

Definition normalize_gpu_token (v : string) : string := join (gpu_pieces v).

Definition gpu_tokens_overlap (candidate required : string) : bool :=
  let candidate_token := normalize_gpu_token candidate in
  let required_token := normalize_gpu_token required in
  let required_pieces := gpu_pieces required in
  let candidate_pieces := gpu_pieces candidate in
  let pieces_match := negb (bool_decide (required_pieces = [])) &&
                      bool_decide (Forall (fun w => w ∈ candidate_pieces) required_pieces) in
  let suffix_match := (4 <=? String.length required_token)%nat &&
                      endswith required_token candidate_token in
  pieces_match || suffix_match.

Definition gpu_class_matches (required candidate : string) : bool :=
  String.eqb candidate required ||
  String.eqb (normalize_gpu_token candidate) (normalize_gpu_token required) ||
  gpu_tokens_overlap candidate required.

Definition gpu_class_mismatch (request : RoutingRequest) (p : ProviderLike) : bool :=
  match required_gpu_class request with
  | None => false
  | Some required =>
      match provider_gpu_classes p with
      | [] => true
      | candidates => negb (existsb (gpu_class_matches required) candidates)
      end
  end.

(** [_decimal_or_none]: special values survive. *)
Definition decimal_or_none (v : pyval) : option pydec :=
  match decimal_of_str v with Ok d => Some d | Err _ => None end.

Definition provider_payload_limit_mb (p : ProviderLike) : option pydec :=
  let by_type := if bool_decide (string_field p "provider_type" = Some (enum_value SERVERLESS_LB))
                 then Some (DFin DEFAULT_LB_MAX_PAYLOAD_MB) else None in
  match config_value p "max_payload_mb" with
  | VNone => by_type
  | explicit => match decimal_or_none explicit with Some d => Some d | None => by_type end
  end.

(** The ordering comparison with a NaN is an invalid operation. *)
Definition payload_too_large (request : RoutingRequest) (p : ProviderLike) : py bool :=
  match payload_bytes request with
  | None => Ok false
  | Some bytes =>
      match provider_payload_limit_mb p with
      | None => Ok false
      | Some (DFin limit) =>
          let? limit_bytes := dmul limit BYTES_PER_MB in
          Ok (dltb limit_bytes (of_int bytes))
      | Some (DInf negative) => Ok negative
      | Some DNaN => Err DecimalInvalidOperation
      end
  end.

(** [_hard_constraint_reasons] *)
Definition hard_constraint_reasons (request : RoutingRequest) (p : ProviderLike)
    (capability : option Capability) (capability_id : option string)
  : py (list EliminationReason) :=
  let add (b : bool) r rs := if b then rs ++ [r] else rs in
  let rs := add (capability_mismatch request p capability capability_id) CAPABILITY_MISMATCH [] in
  let rs := add (region_mismatch request p) REGION_MISMATCH rs in
  let? cuda := cuda_mismatch request p in
  let rs := add cuda CUDA_MISMATCH rs in
  let rs := add (gpu_class_mismatch request p) GPU_CLASS_MISMATCH rs in
  let? payload := payload_too_large request p in
  Ok (add payload PAYLOAD_TOO_LARGE rs).

(** [evaluate_hard_constraints] *)
Definition evaluate_hard_constraints (request : RoutingRequest) (capability : option Capability)
    (capability_id : option string) (p : ProviderLike) : py ConstraintResult :=
  let? reasons := hard_constraint_reasons request p capability capability_id in
  let? i := provider_id p in
  Ok (constraint_result i (bool_decide (reasons = [])) (head reasons) reasons).

Record HardConstraintFilterResult : Type := MkFilterResult {
  f_passed : list ProviderLike;
  f_eliminated : list ConstraintResult;
  f_results : list ConstraintResult;
}.

(** One round of the filter's loop. *)
Definition filter_round (acc : HardConstraintFilterResult) (p : ProviderLike)
    (result : ConstraintResult) : HardConstraintFilterResult :=
  if passed result
  then MkFilterResult (f_passed acc ++ [p]) (f_eliminated acc) (f_results acc ++ [result])
  else MkFilterResult (f_passed acc) (f_eliminated acc ++ [result]) (f_results acc ++ [result]).

(** [filter_hard_constraints]: the loop over the providers. *)
Definition filter_hard_constraints (request : RoutingRequest) (providers : list ProviderLike)
    (capability : option Capability) (capability_id : option string)
  : py HardConstraintFilterResult :=
  let resolved := capability_id_for request capability capability_id in
  foldR (fun acc p =>
    let? result := evaluate_hard_constraints request capability resolved p in
    Ok (filter_round acc p result))
    (MkFilterResult [] [] []) providers.

(** The constraint behind each reason. *)
Definition violates (request : RoutingRequest) (capability : option Capability)
    (capability_id : option string) (p : ProviderLike) (r : EliminationReason) : py bool :=
  match r with
  | CAPABILITY_MISMATCH => Ok (capability_mismatch request p capability capability_id)
  | REGION_MISMATCH => Ok (region_mismatch request p)
  | CUDA_MISMATCH => cuda_mismatch request p
  | GPU_CLASS_MISMATCH => Ok (gpu_class_mismatch request p)
  | PAYLOAD_TOO_LARGE => payload_too_large request p
  end.

(** Concrete inputs used by the witnesses. *)
Definition example_request : RoutingRequest :=
  MkRequest "chat" (Some 1048576) (Some "RTX 4090") None None None None (Some "12.1") None false.
Definition example_provider (i : string) : ProviderLike :=
  PMap [("id", VStr i); ("capability_id", VStr "chat"); ("provider_type", VStr "serverless_lb");
        ("config", VDict [("cuda", VStr "12.4"); ("gpu_type", VStr "NVIDIA GeForce RTX 4090")])].

(** Helper lemmas *)

Lemma tuple_geb_refl a : tuple_geb a a = true.
Proof. induction a as [|x a IH]; simpl; [done|]. by rewrite Z.eqb_refl. Qed.

Lemma tuple_geb_trans a b c : tuple_geb a b = true -> tuple_geb b c = true -> tuple_geb a c = true.
Proof.
  revert b c. induction a as [|x a IH]; intros [|y b] [|z c]; simpl; try done.
  destruct (x =? y) eqn:Exy, (y =? z) eqn:Eyz; boolify; subst; intros H1 H2; boolify.
  - rewrite Z.eqb_refl. by eapply IH.
  - replace (y =? z) with false by (symmetry; by apply Z.eqb_neq). by apply Z.ltb_lt.
  - replace (x =? z) with false by (symmetry; by apply Z.eqb_neq). by apply Z.ltb_lt.
  - replace (x =? z) with false by (symmetry; apply Z.eqb_neq; lia). apply Z.ltb_lt. lia.
Qed.

Lemma version_at_least_inv a b :
  version_at_least a b = Ok true ->
  exists c r, version_tuple a = Ok c /\ version_tuple b = Ok r /\
    (a = b \/ (c <> [] /\ r <> [] /\ tuple_geb c r = true)).
Proof.
  unfold version_at_least. intros (c & Hc & H)%rbind_Ok. apply rbind_Ok in H as (r & Hr & H).
  exists c, r. split; [done|]. split; [done|].
  destruct c, r; injection H as H; boolify; auto.
Qed.

(** Membership in the reasons is the disjunction the code accumulates. *)
Lemma hard_constraint_reasons_spec request p capability cid rs r :
  hard_constraint_reasons request p capability cid = Ok rs ->
  r ∈ rs <-> violates request capability cid p r = Ok true.
Proof.
  unfold hard_constraint_reasons. intros (cuda & Hcuda & H)%rbind_Ok.
  apply rbind_Ok in H as (pay & Hpay & [= <-]). unfold violates. rewrite Hcuda, Hpay.
  destruct (capability_mismatch _ _ _ _), (region_mismatch _ _), cuda,
    (gpu_class_mismatch _ _), pay, r; simpl; rewrite ?elem_of_cons, ?elem_of_nil;
    split; (tauto || (intros; congruence) || (intros; exfalso; intuition congruence)).
Qed.

Lemma hard_constraint_reasons_NoDup request p capability cid rs :
  hard_constraint_reasons request p capability cid = Ok rs -> NoDup rs.
Proof.
  unfold hard_constraint_reasons. intros (cuda & Hcuda & H)%rbind_Ok.
  apply rbind_Ok in H as (pay & Hpay & [= <-]). apply (bool_decide_unpack _).
  destruct (capability_mismatch _ _ _ _), (region_mismatch _ _), cuda,
    (gpu_class_mismatch _ _), pay; reflexivity.
Qed.

Lemma filter_loop eval ps acc r :
  foldR (E:=exn) (fun acc p => let? result := eval p in Ok (filter_round acc p result)) acc ps = Ok r ->
  exists rs, mapR eval ps = Ok rs /\ f_results r = f_results acc ++ rs /\
    f_passed r = f_passed acc ++ (fst <$> filter (fun pr => passed pr.2 = true) (zip ps rs)) /\
    f_eliminated r = f_eliminated acc ++ filter (fun c => passed c = false) rs.
Proof.
  revert acc. induction ps as [|p ps IH]; intros acc; simpl.
  - intros [= <-]. exists []. by rewrite !app_nil_r.
  - intros (acc' & Hstep & Hrest)%rbind_Ok. apply rbind_Ok in Hstep as (c & Hc & [= <-]).
    rewrite Hc. simpl. destruct (IH _ Hrest) as (rs & -> & Hres & Hp & He).
    exists (c :: rs). split; [done|]. unfold filter_round in *.
    csimpl. rewrite !filter_cons. cbn [snd].
    destruct (passed c) eqn:Ec; simpl in Hres, Hp, He;
      (rewrite Hres, Hp, He, <- !app_assoc; split; [done|]; split;
       repeat case_decide; congruence || done).
Qed.

Lemma filter_hard_constraints_inv request ps capability cid r :
  filter_hard_constraints request ps capability cid = Ok r ->
  mapR (evaluate_hard_constraints request capability (capability_id_for request capability cid)) ps
    = Ok (f_results r) /\
  f_passed r = (fst <$> filter (fun pr => passed pr.2 = true) (zip ps (f_results r))) /\
  f_eliminated r = filter (fun c => passed c = false) (f_results r).
Proof.
  unfold filter_hard_constraints. intros H.
  apply (filter_loop (evaluate_hard_constraints request capability
           (capability_id_for request capability cid))) in H as (rs & Hm & Hr & Hp & He).
  simpl in Hr, Hp, He. by subst.
Qed.

(** Every provider is kept or eliminated. *)
Lemma filter_hard_constraints_count request ps capability cid r :
  filter_hard_constraints request ps capability cid = Ok r ->
  (length (f_passed r) + length (f_eliminated r) = length ps)%nat.
Proof.
  intros (Hm & -> & ->)%filter_hard_constraints_inv.
  apply mapR_length in Hm. revert Hm. generalize (f_results r) as rs.
  intros rs Hm. revert ps Hm. induction rs as [|c rs IH]; intros [|p ps] Hm; try done.
  simpl in Hm. injection Hm as Hm. specialize (IH ps Hm). simpl. rewrite !filter_cons. simpl.
  destruct (passed c) eqn:Ec; repeat case_decide; csimpl in *; try congruence;
    rewrite ?length_fmap in *; simpl; lia.
Qed.

Lemma filter_hard_constraints_survivor request ps capability cid r p :
  filter_hard_constraints request ps capability cid = Ok r -> p ∈ f_passed r ->
  p ∈ ps /\ exists res, evaluate_hard_constraints request capability
    (capability_id_for request capability cid) p = Ok res /\ passed res = true.
Proof.
  intros (Hm & -> & _)%filter_hard_constraints_inv ([q res] & -> & Hin)%list_elem_of_fmap.
  apply list_elem_of_filter in Hin as [Hp Hin].
  apply list_elem_of_lookup in Hin as (i & Hi). apply lookup_zip_Some in Hi as [Hq Hres].
  split; [by eapply list_elem_of_lookup_2|]. exists res. split; [|done].
  apply mapR_Ok in Hm. by eapply Forall2_lookup_lr in Hm.
Qed.

(** Theorems *)

(** Stage 1 eliminates a provider exactly for the constraints it violates:
    the result passes when no constraint is violated, lists every violated
    one once, and reports the first as its reason. *)
Theorem evaluate_hard_constraints_spec request capability cid p res :
  evaluate_hard_constraints request capability cid p = Ok res ->
  (passed res = true <-> forall r, violates request capability cid p r <> Ok true) /\
  (forall r, r ∈ cr_reasons res <-> violates request capability cid p r = Ok true) /\
  NoDup (cr_reasons res) /\ cr_reason res = head (cr_reasons res).
Proof.
  unfold evaluate_hard_constraints. intros (rs & Hrs & H)%rbind_Ok.
  apply rbind_Ok in H as (i & Hi & [= <-]).
  assert (forall r, r ∈ rs <-> violates request capability cid p r = Ok true) as Hspec
    by (intros; by apply hard_constraint_reasons_spec).
  apply hard_constraint_reasons_NoDup in Hrs.
  rewrite constraint_result_passed, bool_decide_eq_true.
  assert (cr_reasons (constraint_result i (bool_decide (rs = [])) (head rs) rs) = rs /\
          cr_reason (constraint_result i (bool_decide (rs = [])) (head rs) rs) = head rs) as [-> ->].
  { destruct rs; done. }
  split; [|done]. split.
  - intros -> r Hv. apply Hspec in Hv. by apply elem_of_nil in Hv.
  - intros Hall. destruct rs as [|r rs]; [done|]. destruct (Hall r). apply Hspec. constructor.
Qed.

Lemma evaluate_hard_constraints_spec_witness :
  exists res, evaluate_hard_constraints example_request None None (example_provider "a") = Ok res /\
  (passed res = true <-> forall r, violates example_request None None (example_provider "a") r <> Ok true).
Proof.
  eexists. split; [vm_compute; reflexivity|].
  apply (evaluate_hard_constraints_spec example_request None None (example_provider "a")).
  vm_compute. reflexivity.
Defined.

(** The filter evaluates every provider once, in input order; the survivors
    are the providers whose result passed and the eliminated the other
    results, both in input order, so every provider ends in exactly one of
    the two lists. *)
Theorem filter_hard_constraints_partition request ps capability cid r :
  filter_hard_constraints request ps capability cid = Ok r ->
  Forall2 (fun p res => evaluate_hard_constraints request capability
             (capability_id_for request capability cid) p = Ok res) ps (f_results r) /\
  f_passed r = (fst <$> filter (fun pr => passed pr.2 = true) (zip ps (f_results r))) /\
  f_eliminated r = filter (fun c => passed c = false) (f_results r) /\
  (length (f_passed r) + length (f_eliminated r) = length ps)%nat.
Proof.
  intros H. pose proof (filter_hard_constraints_count _ _ _ _ _ H) as Hc.
  apply filter_hard_constraints_inv in H as (Hm & Hp & He). by apply mapR_Ok in Hm.
Qed.

Lemma filter_hard_constraints_partition_witness :
  exists r, filter_hard_constraints example_request [example_provider "a"; example_provider "b"]
    None None = Ok r /\ (length (f_passed r) + length (f_eliminated r) = 2)%nat.
Proof.
  eexists. split; [vm_compute; reflexivity|].
  apply (filter_hard_constraints_partition example_request
    [example_provider "a"; example_provider "b"] None None).
  vm_compute. reflexivity.
Defined.

(** Version comparison is transitive, whether the versions parse or not: a
    provider that offers more than a sufficient version is sufficient. *)
Theorem version_at_least_trans a b c :
  version_at_least a b = Ok true -> version_at_least b c = Ok true ->
  version_at_least a c = Ok true.
Proof.
  intros (ta & tb & Ha & Hb & Hab)%version_at_least_inv
         (tb' & tc & Hb' & Hc & Hbc)%version_at_least_inv.
  rewrite Hb in Hb'. injection Hb' as <-.
  unfold version_at_least. rewrite Ha, Hc. simpl.
  destruct Hab as [->|(Hna & Hnb & Hab)]; destruct Hbc as [->|(_ & Hnc & Hbc)].
  - rewrite Ha in Hc. injection Hc as <-. rewrite String.eqb_refl, tuple_geb_refl.
    by destruct ta.
  - rewrite Ha in Hb. injection Hb as <-. rewrite Hbc. by destruct ta, tc.
  - rewrite Hb in Hc. injection Hc as <-. rewrite Hab. by destruct ta, tb.
  - rewrite (tuple_geb_trans _ _ _ Hab Hbc). by destruct ta, tc.
Qed.

Lemma version_at_least_trans_witness : version_at_least "12.4.1" "12.1" = Ok true.
Proof. apply (version_at_least_trans "12.4.1" "12.4" "12.1"); vm_compute; reflexivity. Defined.

(** A load-balanced provider with no limit of its own takes payloads up to
    30 MB, exactly. *)
Theorem lb_payload_bound request p bytes :
  string_field p "provider_type" = Some (enum_value SERVERLESS_LB) ->
  config_value p "max_payload_mb" = VNone -> payload_bytes request = Some bytes ->
  payload_too_large request p = Ok (30 * 1024 * 1024 <? bytes).
Proof.
  intros Ht Hc Hb. unfold payload_too_large, provider_payload_limit_mb.
  rewrite Hb, Hc, Ht. rewrite bool_decide_true by done. unfold dltb, dcompare.
  change (dmul DEFAULT_LB_MAX_PAYLOAD_MB BYTES_PER_MB) with (Ok (E:=exn) (of_int 31457280)).
  cbn [rbind dexp dcoef of_int]. change (Z.min 0 0) with 0.
  rewrite !Z.mul_1_r. unfold Z.ltb. by destruct (_ ?= _).
Qed.

Lemma lb_payload_bound_witness :
  payload_too_large example_request (example_provider "a") = Ok (30 * 1024 * 1024 <? 1048576).
Proof. apply (lb_payload_bound example_request (example_provider "a")); reflexivity. Defined.
