(* ===== verification/Scoring.v ===== *)
(** * Stage 3: scoring ([routing/scoring.py])

    The score formula in binary64, term by term.  A term that is absent is
    neutral; a term that is not a finite non-negative number is an error. *)

From S2P Require Import Prelude PyDecimal PyFloat PyValue PyFormat Enums Provider RoutingTypes.
From Stdlib Require Import SpecFloat.

(** Definitions *)

(** This module's [_field] tells an absent key or attribute from [None]; both
    count as absent in [_first_present], so [VNone] stands for both. *)
Definition score_config_value (p : ProviderLike) (key : string) : pyval :=
  dict_get_none key (config p).

(** [_cost_value] *)
Definition cost_value (p : ProviderLike) (key : string) : pyval :=
  let from (v : pyval) := match v with VDict m => dict_get key m | _ => None end in
  match from (field p "cost") with
  | Some v => v
  | None => match from (dict_get_none "cost" (config p)) with Some v => v | None => VNone end
  end.

(** [_non_negative_number]; the overflow of [float(Decimal)] gives an
    infinity, which is refused like the special values. *)
Definition non_negative_number (v : pyval) (name : string) (default : float) : py float :=
  match v with
  | VNone => Ok default
  | VBool _ => Err (ValueError (name +:+ " must be numeric"))
  | _ =>
      match decimal_of_str v with
      | Err _ => Err (ValueError (name +:+ " must be numeric"))
      | Ok d =>
          let parsed := float_of_pydec d in
          if negb (fisfinite parsed) then Err (ValueError (name +:+ " must be finite"))
          else if fltb parsed (of_Z 0) then Err (ValueError (name +:+ " must be non-negative"))
          else Ok parsed
      end
  end.

Definition cold_start_p50_ms (p : ProviderLike) : py float :=
  non_negative_number
    (first_present [field p "cold_start_p50_ms"; score_config_value p "cold_start_p50_ms"])
    "cold_start_p50_ms" (of_Z 0).

Definition warm_workers (p : ProviderLike) : py float :=
  non_negative_number
    (first_present
      [field p "warm_workers"; field p "warmWorkers"; field p "workers"; field p "workers_min";
       field p "workersMin"; score_config_value p "warm_workers"; score_config_value p "warmWorkers";
       score_config_value p "workers"; score_config_value p "workers_min";
       score_config_value p "workersMin"])
    "warm_workers" (of_Z 0).

Definition cost_per_second_active (p : ProviderLike) : py float :=
  non_negative_number
    (first_present
      [field p "cost_per_second_active"; field p "per_second_active";
       cost_value p "cost_per_second_active"; cost_value p "per_second_active";
       score_config_value p "cost_per_second_active"; score_config_value p "per_second_active"])
    "cost_per_second_active" (of_Z 0).

Definition recent_error_rate_of (p : ProviderLike) (observed : ObservedMetrics) : py float :=
  let? rate := non_negative_number
    (first_present [field p "recent_error_rate"; score_config_value p "recent_error_rate";
                    VFloat (recent_error_rate observed)])
    "recent_error_rate" (of_Z 0) in
  if fltb (of_Z 1) rate then Err (ValueError "recent_error_rate must be <= 1") else Ok rate.

Definition priority_multiplier_of (p : ProviderLike) : py float :=
  non_negative_number
    (first_present [field p "priority_multiplier"; field p "priorityMultiplier";
                    score_config_value p "priority_multiplier";
                    score_config_value p "priorityMultiplier"])
    "priority_multiplier" (of_Z 1).

(** The formula, once its terms are known: Python adds from left to right. *)
Definition score_formula (latency warm cost region err multiplier : float) : float * float :=
  let before := fsub (fadd (fsub (fadd (fsub (of_Z 100) latency) warm) cost) region) err in
  (before, fmul before multiplier).

(** [explain_score] *)
Definition explain_score (p : ProviderLike) (hints : option Hints)
    (observed : option ObservedMetrics) : py ScoreExplanation :=
  let h := default default_hints hints in
  let o := default default_observed observed in
  let? (latency, warm) :=
    if latency_sensitive h then
      let? cold := cold_start_p50_ms p in
      let? penalty := fdiv cold (of_Z 100) in
      let? workers := warm_workers p in
      Ok (penalty, if fleb (of_Z 1) workers then of_Z 20 else of_Z 0)
    else Ok (of_Z 0, of_Z 0) in
  let? cost :=
    if cost_sensitive h then
      let? c := cost_per_second_active p in Ok (fmul c (of_Z 10000))
    else Ok (of_Z 0) in
  let region :=
    match region_preference h with
    | Some r => if bool_decide (string_field p "region" = Some r) then of_Z 15 else of_Z 0
    | None => of_Z 0
    end in
  let? rate := recent_error_rate_of p o in
  let err := fmul rate (of_Z 50) in
  let? multiplier := priority_multiplier_of p in
  let '(before, final) := score_formula latency warm cost region err multiplier in
  Ok (MkScore (default EmptyString (string_field p "id")) (of_Z 100) latency warm cost region err
        multiplier before final).

(** [score_provider] *)
Definition score_provider (p : ProviderLike) (hints : option Hints)
    (observed : option ObservedMetrics) : py float :=
  rmap final_score (explain_score p hints observed).

(** Concrete inputs used by the witnesses. *)
Definition scored_provider : ProviderLike :=
  PMap [("id", VStr "a"); ("region", VStr "EU"); ("cold_start_p50_ms", VInt 1500);
        ("workers", VInt 2); ("recent_error_rate", VFloat (of_dec (Dec 1 (-1))));
        ("priority_multiplier", VInt 2)].
Definition all_hints : Hints := MkHints true true (Some "EU").

(** A provider whose cost per second is representable but whose cost penalty
    is not. *)
Definition costly_provider : ProviderLike :=
  PMap [("id", VStr "a"); ("cost_per_second_active", VDec (DFin (Dec 1 308)));
        ("priority_multiplier", VInt 0)].

Example score_ex :
  rmap final_score (explain_score scored_provider (Some all_hints) None) = Ok (of_Z 230).
Proof. vm_compute. reflexivity. Qed.

(** Helper lemmas *)

(** What every term has been checked for. *)
Definition finite_non_negative (f : float) : Prop :=
  fisfinite f = true /\ fltb f (of_Z 0) = false.

Lemma non_negative_number_Ok v name d f :
  non_negative_number v name d = Ok f -> finite_non_negative d -> finite_non_negative f.
Proof.
  unfold non_negative_number, finite_non_negative. intros H Hd.
  destruct v; try done; try (by injection H as <-);
    (destruct (decimal_of_str _) as [x|]; [|done];
     destruct (fisfinite (float_of_pydec x)) eqn:E1; [|done]; simpl in H;
     destruct (fltb (float_of_pydec x) _) eqn:E2; [done|]; by injection H as <-).
Qed.

(** Theorems *)

(** Every score is the formula applied to checked terms: the cold-start and
    error terms come from finite non-negative inputs, the error rate is at
    most one, the bonuses are 0/20 and 0/15, and the multiplier is finite and
    non-negative.  Without hints only the error rate and the multiplier
    count. *)
Theorem explain_score_terms p hints observed e :
  explain_score p hints observed = Ok e ->
  (score_before_multiplier e, final_score e) =
    score_formula (latency_penalty e) (warm_worker_bonus e) (cost_penalty e) (region_bonus e)
      (recent_error_penalty e) (priority_multiplier e) /\
  finite_non_negative (priority_multiplier e) /\
  (exists rate, recent_error_penalty e = fmul rate (of_Z 50) /\ finite_non_negative rate /\
     fltb (of_Z 1) rate = false) /\
  (warm_worker_bonus e = of_Z 0 \/ warm_worker_bonus e = of_Z 20) /\
  (region_bonus e = of_Z 0 \/ region_bonus e = of_Z 15) /\
  (hints = None -> latency_penalty e = of_Z 0 /\ cost_penalty e = of_Z 0 /\
     warm_worker_bonus e = of_Z 0 /\ region_bonus e = of_Z 0).
Proof.
  unfold explain_score. intros ([lat warm] & Hlat & H)%rbind_Ok.
  apply rbind_Ok in H as (cost & Hcost & H). apply rbind_Ok in H as (rate & Hrate & H).
  apply rbind_Ok in H as (mult & Hmult & H).
  apply non_negative_number_Ok in Hmult; [|by split].
  unfold recent_error_rate_of in Hrate. apply rbind_Ok in Hrate as (r & Hr & Hrate).
  apply non_negative_number_Ok in Hr; [|by split].
  destruct (fltb (of_Z 1) r) eqn:Hle; [done|]. injection Hrate as <-.
  destruct (score_formula _ _ _ _ _ _) as [before final] eqn:Ef. injection H as <-. simpl.
  split; [done|]. split; [done|]. split; [by exists r|]. split.
  { destruct (latency_sensitive _); [|injection Hlat as <- <-; by left].
    apply rbind_Ok in Hlat as (c & _ & Hlat). apply rbind_Ok in Hlat as (d & _ & Hlat).
    apply rbind_Ok in Hlat as (w & _ & [= <- <-]). destruct (fleb _ _); auto. }
  split; [destruct (region_preference _); [case_bool_decide|]; auto|].
  intros ->. simpl in *. injection Hlat as <- <-. by injection Hcost as <-.
Qed.

Lemma explain_score_terms_witness :
  exists e, explain_score scored_provider (Some all_hints) None = Ok e /\
    (warm_worker_bonus e = of_Z 0 \/ warm_worker_bonus e = of_Z 20).
Proof.
  eexists. split; [vm_compute; reflexivity|].
  apply (explain_score_terms scored_provider (Some all_hints) None).
  vm_compute. reflexivity.
Defined.

(** The terms are finite, but their product with 10,000 need not be: a
    provider with an enormous cost and a zero multiplier gets the score NaN,
    which no later comparison orders. *)
Theorem score_can_be_nan :
  score_provider costly_provider (Some (MkHints false true None)) None = Ok S754_nan.
Proof. vm_compute. reflexivity. Qed.
