(* ===== verification/Availability.v ===== *)
(** * GPU availability and planning contexts
    ([runpod_client/availability.py], [routing/context.py])

    The TTL cache of availability probes, the frozen snapshot of it a planning
    context carries, and the freezing of provider records.  [mono] is the
    reading of [time.monotonic()]; the several readings of one locked section
    are one value. *)

From S2P Require Import Prelude PyFloat PyValue PyTime Enums Provider RoutingTypes.

(** Definitions *)

Record AvailabilityKey : Type := MkKey {
  ak_datacenter : string;
  ak_gpu_name : string;
  ak_cloud_type : string;
  ak_gpu_count : Z;
}.

#[global] Instance AvailabilityKey_eq_dec : EqDecision AvailabilityKey.
Proof. solve_decision. Defined.

(** [AvailabilityKey(...)], with the checks of [__post_init__]; every caller
    upper-cases the cloud type first. *)
Definition availability_key (datacenter gpu_name cloud_type : string) (gpu_count : Z)
  : py AvailabilityKey :=
  let cloud_type := upper cloud_type in
  if negb (nonempty datacenter) then Err (ValueError "datacenter must be non-empty")
  else if negb (nonempty gpu_name) then Err (ValueError "gpu_name must be non-empty")
  else if negb (nonempty cloud_type) then Err (ValueError "cloud_type must be non-empty")
  else if gpu_count <? 1 then Err (ValueError "gpu_count must be >= 1")
  else Ok (MkKey datacenter gpu_name cloud_type gpu_count).

Record AvailabilityValue : Type := MkValue { av_available : bool; checked_at : float }.

Record AvailabilityCache : Type := MkCache {
  cache_entries : list (AvailabilityKey * AvailabilityValue);
  ttl_s : float;
}.

Definition DEFAULT_TTL_S : float := of_Z 300.
Definition new_cache : AvailabilityCache := MkCache [] DEFAULT_TTL_S.

Definition is_expired (c : AvailabilityCache) (mono checked_at : float) : bool :=
  fltb (ttl_s c) (fsub mono checked_at).

(** [is_available]: an expired entry is deleted and reads as missing. *)
Definition cache_is_available (c : AvailabilityCache) (mono : float)
    (datacenter gpu_name cloud_type : string) (gpu_count : Z)
  : py (AvailabilityCache * option bool) :=
  let? key := availability_key datacenter gpu_name cloud_type gpu_count in
  match al_get key (cache_entries c) with
  | None => Ok (c, None)
  | Some entry =>
      if is_expired c mono (checked_at entry)
      then Ok (MkCache (al_del key (cache_entries c)) (ttl_s c), None)
      else Ok (c, Some (av_available entry))
  end.

Definition set_available (c : AvailabilityCache) (mono : float)
    (e : string * string * string * Z * bool) : py AvailabilityCache :=
  let '(datacenter, gpu_name, cloud_type, gpu_count, available) := e in
  let? key := availability_key datacenter gpu_name cloud_type gpu_count in
  Ok (MkCache (al_set key (MkValue available mono) (cache_entries c)) (ttl_s c)).

(** [bulk_set_available]: the cache after an invalid entry keeps the entries
    before it, so the state is returned with the error. *)
Fixpoint bulk_set_available (c : AvailabilityCache) (mono : float)
    (es : list (string * string * string * Z * bool)) : AvailabilityCache * option exn :=
  match es with
  | [] => (c, None)
  | e :: es' =>
      match set_available c mono e with
      | Ok c' => bulk_set_available c' mono es'
      | Err x => (c, Some x)
      end
  end.

Definition invalidate (c : AvailabilityCache) : AvailabilityCache := MkCache [] (ttl_s c).

Definition invalidate_key (c : AvailabilityCache)
    (datacenter gpu_name cloud_type : string) (gpu_count : Z) : py (AvailabilityCache * bool) :=
  let? key := availability_key datacenter gpu_name cloud_type gpu_count in
  match al_get key (cache_entries c) with
  | Some _ => Ok (MkCache (al_del key (cache_entries c)) (ttl_s c), true)
  | None => Ok (c, false)
  end.

Definition cache_size (c : AvailabilityCache) : Z := Z.of_nat (length (cache_entries c)).

Definition expired_count (c : AvailabilityCache) (mono : float) : Z :=
  Z.of_nat (length (filter (fun kv => is_expired c mono (checked_at kv.2) = true) (cache_entries c))).

Definition sweep_expired (c : AvailabilityCache) (mono : float) : AvailabilityCache * Z :=
  (MkCache (filter (fun kv => is_expired c mono (checked_at kv.2) = false) (cache_entries c)) (ttl_s c),
   expired_count c mono).

(** ** Snapshots *)

Record AvailabilitySnapshot : Type := MkSnapshot { entries : list (AvailabilityKey * bool) }.

Definition from_entries (es : list (string * string * string * Z * bool))
  : py AvailabilitySnapshot :=
  rmap MkSnapshot
    (mapR (fun '(datacenter, gpu_name, cloud_type, gpu_count, available) =>
             let? key := availability_key datacenter gpu_name cloud_type gpu_count in
             Ok (key, available)) es).

Definition from_cache (c : AvailabilityCache) (mono : float) : AvailabilitySnapshot :=
  MkSnapshot ((fun kv => (kv.1, av_available kv.2)) <$>
    filter (fun kv => is_expired c mono (checked_at kv.2) = false) (cache_entries c)).

(** [AvailabilitySnapshot.is_available]: the last entry for the key wins. *)
Definition snapshot_is_available (s : AvailabilitySnapshot)
    (datacenter gpu_name cloud_type : string) (gpu_count : Z) : py (option bool) :=
  let? key := availability_key datacenter gpu_name cloud_type gpu_count in
  Ok (al_get key (reverse (entries s))).

(** ** Freezing *)

Fixpoint freeze_value (v : pyval) : pyval :=
  match v with
  | VDict kvs => VDict (map (fun kv => (fst kv, freeze_value (snd kv))) kvs)
  | VList l | VTuple l => VTuple (map freeze_value l)
  | _ => v
  end.

Definition freeze_mapping (m : dict) : dict := map (fun kv => (fst kv, freeze_value (snd kv))) m.

(** [Provider.model_dump(mode="python")] *)
Definition provider_fields : list string :=
  ["id"; "capability_id"; "name"; "provider_type"; "runpod_endpoint_id"; "runpod_template_id";
   "region"; "cloud_type"; "config"; "priority"; "enabled"; "health_status";
   "consecutive_failures"; "cooldown_trips"; "cold_start_p50_ms"; "cold_start_p95_ms";
   "recent_error_rate"; "cooldown_until"; "source"; "last_applied_yaml_hash"; "updated_at"].
Definition model_dump (p : Provider) : dict :=
  omap (fun k => (fun v => (k, v)) <$> attr p k) provider_fields.

Definition freeze_provider (p : ProviderLike) : dict :=
  match p with
  | PModel m => freeze_mapping (model_dump m)
  | PMap m => freeze_mapping m
  end.

Definition freeze_provider_snapshot (ps : list ProviderLike) : list ProviderLike :=
  PMap ∘ freeze_provider <$> ps.

(** ** Planning contexts *)

Record PlanningContext : Type := MkContext {
  ctx_now : datetime;
  availability_snapshot : AvailabilitySnapshot;
  ctx_providers : list ProviderLike;
  ctx_capability : option Capability;
}.

(** [PlanningContext(...)], with [__post_init__]. *)
Definition planning_context (now : datetime) (s : AvailabilitySnapshot) (ps : list ProviderLike)
    (cap : option Capability) : py PlanningContext :=
  let? n := require_utc now "now" in Ok (MkContext n s ps cap).

(** [PlanningContext.live]: [clock] is [datetime.now(UTC)] and [global] the
    process-wide cache. *)
Definition live (clock : datetime) (mono : float) (global : AvailabilityCache)
    (now : option datetime) (cache : option AvailabilityCache) (ps : list ProviderLike)
    (cap : option Capability) : py PlanningContext :=
  planning_context (default clock now) (from_cache (default global cache) mono)
    (freeze_provider_snapshot ps) cap.

(** [PlanningContext.replay] *)
Definition replay (now : datetime) (s : option AvailabilitySnapshot)
    (es : list (string * string * string * Z * bool)) (ps : list ProviderLike)
    (cap : option Capability) : py PlanningContext :=
  match s, es with
  | Some _, _ :: _ =>
      Err (ValueError "availability_snapshot and availability_entries are mutually exclusive")
  | Some s, [] => planning_context now s (freeze_provider_snapshot ps) cap
  | None, _ =>
      let? s := from_entries es in planning_context now s (freeze_provider_snapshot ps) cap
  end.

(** The cache's dict has one binding per key. *)
Definition cache_wf (c : AvailabilityCache) : Prop := al_wf (cache_entries c).

(** Caches reachable from a new one. *)
Inductive cache_reach : AvailabilityCache -> Prop :=
| CReachNew ttl : cache_reach (MkCache [] ttl)
| CReachRead c mono d g t n c' o :
    cache_reach c -> cache_is_available c mono d g t n = Ok (c', o) -> cache_reach c'
| CReachBulk c mono es : cache_reach c -> cache_reach (bulk_set_available c mono es).1
| CReachInvalidate c : cache_reach c -> cache_reach (invalidate c)
| CReachDel c d g t n c' b :
    cache_reach c -> invalidate_key c d g t n = Ok (c', b) -> cache_reach c'
| CReachSweep c mono : cache_reach c -> cache_reach (sweep_expired c mono).1.

(** Helper lemmas *)

Lemma set_available_wf c mono e c' :
  set_available c mono e = Ok c' -> cache_wf c -> cache_wf c'.
Proof.
  destruct e as [[[[d g] t] n] b]. unfold set_available, cache_wf. intros H Hwf. inv_ok.
  simpl. auto with pitwall.
Qed.

Lemma bulk_set_available_wf c mono es : cache_wf c -> cache_wf (bulk_set_available c mono es).1.
Proof.
  revert c. induction es as [|e es IH]; intros c Hwf; simpl; [done|].
  destruct (set_available c mono e) eqn:E; [|done]. apply IH. by eapply set_available_wf.
Qed.

Lemma cache_reach_wf c : cache_reach c -> cache_wf c.
Proof.
  induction 1 as [ttl|c mono d g t n c' o _ IH H|c mono es _ IH|c _ IH|c d g t n c' b _ IH H|c mono _ IH];
    unfold cache_wf in *; simpl; auto with pitwall.
  - constructor.
  - unfold cache_is_available in H. apply rbind_Ok in H as (k & _ & H).
    destruct (al_get k _) as [e|]; [|by injection H as <- <-].
    destruct (is_expired _ _ _); injection H as <- <-; simpl; auto with pitwall.
  - by apply bulk_set_available_wf.
  - constructor.
  - unfold invalidate_key in H. apply rbind_Ok in H as (k & _ & H).
    destruct (al_get k _) as [e|]; injection H as <- <-; simpl; auto with pitwall.
Qed.

Lemma al_get_app {K V} `{EqDecision K} (k : K) (m1 m2 : list (K * V)) :
  al_get k (m1 ++ m2) = match al_get k m1 with Some v => Some v | None => al_get k m2 end.
Proof. induction m1 as [|[k' v] m1 IH]; simpl; [done|]. by case_decide. Qed.

(** With unique keys the direction of the search does not matter. *)
Lemma al_get_reverse {K V} `{EqDecision K} (k : K) (m : list (K * V)) :
  al_wf m -> al_get k (reverse m) = al_get k m.
Proof.
  unfold al_wf. induction m as [|[k' v] m IH]; csimpl; [done|].
  rewrite NoDup_cons. intros [Hn Hd]. rewrite reverse_cons, al_get_app, IH by done. simpl.
  case_decide as E; [|by destruct (al_get k m)]. subst.
  by apply al_get_None in Hn as ->.
Qed.

Lemma al_get_filter_map {K V W} `{EqDecision K} (f : V -> W) (P : V -> bool) (k : K)
    (m : list (K * V)) :
  al_wf m ->
  al_get k ((fun kv => (kv.1, f kv.2)) <$> filter (fun kv => P kv.2 = false) m) =
  match al_get k m with Some v => if P v then None else Some (f v) | None => None end.
Proof.
  unfold al_wf. induction m as [|[k' v] m IH]; csimpl; [done|].
  rewrite NoDup_cons. intros [Hn Hd]. rewrite filter_cons. simpl.
  destruct (P v) eqn:E; case_decide as E'; try done; simpl.
  - rewrite IH by done. case_decide; [|done]. subst k'. apply al_get_None in Hn. by rewrite Hn, E.
  - case_decide; [by rewrite E|]. by apply IH.
Qed.

Lemma al_wf_fmap_snd {K V W} (f : V -> W) (m : list (K * V)) :
  al_wf m -> al_wf ((fun kv => (kv.1, f kv.2)) <$> m).
Proof. unfold al_wf. rewrite <- list_fmap_compose. done. Qed.

(** Theorems *)

(** The planner may read a frozen snapshot in place of the live cache: for
    every cache the operations can produce, at the instant of the snapshot,
    the snapshot answers each availability question, and raises each error,
    as the cache itself would, expired entries included. *)
Theorem snapshot_agrees_with_cache c mono d g t n :
  cache_reach c ->
  snapshot_is_available (from_cache c mono) d g t n =
  rmap snd (cache_is_available c mono d g t n).
Proof.
  intros Hwf%cache_reach_wf. unfold snapshot_is_available, cache_is_available.
  destruct (availability_key d g t n) as [key|]; [|done]. simpl. f_equal.
  unfold cache_wf in Hwf. rewrite al_get_reverse by (apply al_wf_fmap_snd; auto with pitwall).
  rewrite (al_get_filter_map av_available (fun v => is_expired c mono (checked_at v))) by done.
  destruct (al_get key (cache_entries c)) as [v|]; [|done]. by destruct (is_expired _ _ _).
Qed.

Definition example_cache : AvailabilityCache :=
  (bulk_set_available new_cache (of_Z 10) [("US-1", "H100", "secure", 1, true)]).1.

Lemma snapshot_agrees_with_cache_witness :
  snapshot_is_available (from_cache example_cache (of_Z 100)) "US-1" "H100" "Secure" 1 =
  rmap snd (cache_is_available example_cache (of_Z 100) "US-1" "H100" "Secure" 1).
Proof.
  apply (snapshot_agrees_with_cache example_cache). apply CReachBulk, CReachNew.
Defined.

(** An answer is never older than the TTL, and an expired entry is gone after
    it was asked for. *)
Theorem availability_answers_are_fresh c mono d g t n c' b :
  cache_is_available c mono d g t n = Ok (c', b) ->
  match b with
  | Some a => exists key v, availability_key d g t n = Ok key /\
      al_get key (cache_entries c) = Some v /\ av_available v = a /\
      fltb (ttl_s c) (fsub mono (checked_at v)) = false /\ c' = c
  | None => exists key, availability_key d g t n = Ok key /\ al_get key (cache_entries c') = None
  end.
Proof.
  unfold cache_is_available. intros (key & Hk & H)%rbind_Ok.
  destruct (al_get key (cache_entries c)) as [v|] eqn:Hget; [|injection H as <- <-; by exists key].
  destruct (is_expired c mono (checked_at v)) eqn:E; injection H as <- <-.
  - exists key. split; [done|]. apply al_get_del.
  - by exists key, v.
Qed.

Lemma availability_answers_are_fresh_witness :
  exists key, availability_key "US-1" "H100" "Secure" 1 = Ok key /\
    al_get key (cache_entries (MkCache [] DEFAULT_TTL_S)) = None.
Proof.
  apply (availability_answers_are_fresh example_cache (of_Z 1000) "US-1" "H100" "Secure" 1
           (MkCache [] DEFAULT_TTL_S) None).
  vm_compute. reflexivity.
Defined.
