(* ===== verification/Planner.v ===== *)
(** * The route planner ([routing/planner.py])

    [plan_route] composes the stages: hard constraints, health and cooldown,
    scoring and ranking, cached capacity for pod leases, and the fallback
    chain.  Availability readers are functions of the probe key; a reader
    passed by the caller may raise. *)

From S2P Require Import Prelude PyFloat PyValue PyTime PyFormat Enums Provider Cooldown RoutingTypes Constraints Scoring Availability.
From Stdlib Require Import SpecFloat.

(** Definitions *)

Definition DEFAULT_MAX_ATTEMPTS : Z := 3.
Definition DEFAULT_BACKOFF_BASE_S : float := of_Z 1.

(** [_AvailabilityCacheLike]: an object (its identity is [reader_id]) that is
    either an [AvailabilityCache] or something else with [is_available]. *)
Definition reader : Type := string -> string -> string -> Z -> py (option bool).
Record CapacityReader : Type := MkReader {
  reader_id : nat;
  reader_impl : AvailabilityCache + reader;
}.

Inductive Observed :=
| OMetrics (m : ObservedMetrics)
| OMap (m : list (string * (pyval + ObservedMetrics))).

Definition validate_plan_options (max_attempts : Z) (backoff_base_s : float) : py unit :=
  if max_attempts <? 1 then Err (ValueError "max_attempts must be >= 1")
  else if negb (fisfinite backoff_base_s) || fltb backoff_base_s (of_Z 0)
  then Err (ValueError "backoff_base_s must be a finite non-negative number")
  else Ok tt.

(** [_resolve_explicit_capacity_cache] *)
Definition resolve_explicit_capacity_cache (availability_cache capacity_cache : option CapacityReader)
  : py (option CapacityReader) :=
  match availability_cache, capacity_cache with
  | Some a, Some c =>
      if (reader_id a =? reader_id c)%nat then Ok (Some a)
      else Err (ValueError "availability_cache and capacity_cache must not differ")
  | Some a, None => Ok (Some a)
  | None, o => Ok o
  end.

(** [_resolve_planning_inputs]: the context, the reader Stage 4 uses and
    whether the caller supplied the context.  [clock], [mono] and [global] are
    the wall clock, the monotonic clock and the process-wide cache. *)
Definition resolve_planning_inputs (clock : datetime) (mono : float) (global : AvailabilityCache)
    (context : option PlanningContext) (now : option datetime)
    (availability_cache capacity_cache : option CapacityReader)
  : py (PlanningContext * reader * bool) :=
  let? explicit := resolve_explicit_capacity_cache availability_cache capacity_cache in
  match context with
  | Some ctx =>
      if bool_decide (is_Some now) then Err (ValueError "context and now are mutually exclusive")
      else if bool_decide (is_Some explicit)
      then Err (ValueError "context and availability_cache/capacity_cache are mutually exclusive")
      else Ok (ctx, snapshot_is_available (availability_snapshot ctx), true)
  | None =>
      let of_cache c :=
        let? ctx := live clock mono global now c [] None in
        Ok (ctx, snapshot_is_available (availability_snapshot ctx), false) in
      match explicit with
      | Some (MkReader _ (inl cache)) => of_cache (Some cache)
      | Some (MkReader _ (inr r)) =>
          let? ctx := live clock mono global now None [] None in Ok (ctx, r, false)
      | None => of_cache None
      end
  end.

Definition providers_for_plan (providers : option (list ProviderLike)) (ctx : PlanningContext)
    (freeze_explicit : bool) : py (list ProviderLike) :=
  match providers with
  | Some ps => Ok (if freeze_explicit then freeze_provider_snapshot ps else ps)
  | None =>
      match ctx_providers ctx with
      | [] => Err (ValueError "providers must be supplied directly or through PlanningContext")
      | ps => Ok ps
      end
  end.

(** [ProviderEliminated(reason.value)] *)
Definition provider_eliminated_from_stage1 (r : EliminationReason) : py ProviderEliminated :=
  match enum_of_value (enum_value r) with
  | Some e => Ok e
  | None => Err (ValueError (enum_value r +:+ " is not a valid ProviderEliminated"))
  end.

Definition stage1_elimination (result : ConstraintResult) : py RouteElimination :=
  let? reasons := mapR provider_eliminated_from_stage1 (cr_reasons result) in
  if negb (nonempty (cr_provider_id result))
  then Err (ValueError "constraint result must include provider_id")
  else match reasons with
       | [] => Err (ValueError "failed constraint result must include reasons")
       | r :: _ => Ok (route_elimination (cr_provider_id result) 1 r reasons)
       end.

Definition planner_health_status (p : ProviderLike) : string :=
  lower (default "unknown" (string_field p "health_status")).

Definition stage2_elimination_reasons (clock : datetime) (p : ProviderLike) (now : datetime)
  : py (list ProviderEliminated) :=
  let rs := match field p "enabled" with VBool false => [DISABLED] | _ => [] end in
  let rs := if String.eqb (planner_health_status p) "unhealthy" then rs ++ [HEALTH_UNHEALTHY] else rs in
  let? cooling := is_in_cooldown clock (InProvider p) (Some now) in
  Ok (if cooling then rs ++ [HEALTH_COOLDOWN] else rs).

(** [_string_tuple] *)
Definition string_tuple (v : pyval) : py (list string) :=
  match v with
  | VNone => Ok []
  | VStr s | VEnum s => Ok (if nonempty s then [s] else [])
  | VList l | VTuple l =>
      foldR (fun acc item =>
        match as_str item with
        | Some s =>
            if nonempty s then Ok (if bool_decide (s ∈ acc) then acc else acc ++ [s])
            else Err (ValueError "fallback provider ids must be non-empty strings")
        | None => Err (ValueError "fallback provider ids must be non-empty strings")
        end) [] l
  | _ => Err (ValueError "fallback provider ids must be strings or sequences of strings")
  end.

Definition fallback_for_of (p : ProviderLike) : py (list string) :=
  string_tuple (first_present [field p "fallback_for"; config_value p "fallback_for"]).

Definition explicit_fallback_chain_of (p : ProviderLike) : py (list string) :=
  string_tuple (first_present
    [field p "fallback_chain"; config_value p "fallback_chain";
     config_value p "fallback_provider_ids"; config_value p "fallbacks"]).

Definition candidate_for_provider (p : ProviderLike) (hints : Hints) (observed : ObservedMetrics)
  : py RouteCandidate :=
  let? i := provider_id p in
  let? e := explain_score p (Some hints) (Some observed) in
  let? ff := fallback_for_of p in
  let? chain := explicit_fallback_chain_of p in
  Ok (MkCandidate i p 0 (final_score e) e ff chain).

(** [_coerce_observed_metrics] *)
Definition coerce_observed_metrics (v : option (pyval + ObservedMetrics)) : py ObservedMetrics :=
  match v with
  | None | Some (inl VNone) => Ok default_observed
  | Some (inr m) => Ok m
  | Some (inl (VDict m)) =>
      rmap MkObserved
        (match dict_get "recent_error_rate" m with
         | Some x => py_float x
         | None => Ok (of_Z 0)
         end)
  | Some (inl (VBool _)) => Err (ValueError "observed recent_error_rate must be numeric")
  | Some (inl x) => rmap MkObserved (py_float x)
  end.

Definition observed_for_provider (i : string) (observed : option Observed) : py ObservedMetrics :=
  match observed with
  | None => Ok default_observed
  | Some (OMetrics m) => Ok m
  | Some (OMap m) =>
      match al_get "recent_error_rate" m with
      | Some (inl x) => coerce_observed_metrics (Some (inl (VDict [("recent_error_rate", x)])))
      | Some (inr _) => Err (TypeError "float() argument must be a string or a real number")
      | None => coerce_observed_metrics (al_get i m)
      end
  end.

(** Python compares tuples by the first position where they differ. *)
Definition float_key_ltb (a b : float) (rest : bool) : bool := if feqb a b then rest else fltb a b.
Definition int_key_ltb (a b : Z) (rest : bool) : bool := if a =? b then rest else a <? b.
Definition str_key_ltb (a b : string) (rest : bool) : bool :=
  if String.eqb a b then rest else String.ltb a b.

Record sort_key : Type := MkSortKey { k_score : float; k_priority : Z; k_name : string; k_id : string }.

Definition sort_key_of (c : RouteCandidate) : py sort_key :=
  let? pr := priority (rc_provider c) in
  Ok (MkSortKey (fneg (rc_score c)) pr (name (rc_provider c)) (rc_provider_id c)).

(** [_candidate_sort_key]: score, priority, name, id. *)
Definition candidate_key_ltb (a b : sort_key) : bool :=
  float_key_ltb (k_score a) (k_score b)
    (int_key_ltb (k_priority a) (k_priority b)
      (str_key_ltb (k_name a) (k_name b) (String.ltb (k_id a) (k_id b)))).

(** [_fallback_sort_key]: priority, score, name, id. *)
Definition fallback_key_ltb (a b : sort_key) : bool :=
  int_key_ltb (k_priority a) (k_priority b)
    (float_key_ltb (k_score a) (k_score b)
      (str_key_ltb (k_name a) (k_name b) (String.ltb (k_id a) (k_id b)))).

Definition set_rank (c : RouteCandidate) (r : Z) : RouteCandidate :=
  MkCandidate (rc_provider_id c) (rc_provider c) r (rc_score c) (rc_explanation c)
    (fallback_for c) (explicit_fallback_chain c).

(** [enumerate(l, start=1)] *)
Definition enumerate1 {A} (l : list A) : list (Z * A) := imap (fun i x => (Z.of_nat i + 1, x)) l.

Definition rank_candidates (cs : list RouteCandidate) : py (list RouteCandidate) :=
  let? sorted := sort_on sort_key_of candidate_key_ltb cs in
  Ok ((fun ic => set_rank ic.2 ic.1) <$> enumerate1 sorted).

(** ** Stage 4 *)

Definition is_pod_lease_provider (p : ProviderLike) : bool :=
  bool_decide (string_field p "provider_type" = Some (enum_value POD_LEASE)).

Fixpoint first_config_or_field_string (p : ProviderLike) (keys : list string) : option string :=
  match keys with
  | [] => None
  | k :: keys' =>
      match non_empty_string (field p k) with
      | Some s => Some s
      | None =>
          match non_empty_string (config_value p k) with
          | Some s => Some s
          | None => first_config_or_field_string p keys'
          end
      end
  end.

Definition capacity_volume_id (p : ProviderLike) : option string :=
  first_config_or_field_string p
    ["volume_id"; "networkVolumeId"; "network_volume_id"; "required_volume"].

Definition first_non_empty (l : list pyval) : option string := head (omap non_empty_string l).

Definition capacity_datacenter (p : ProviderLike) : option string :=
  let fallback := first_config_or_field_string p
    ["data_center_id"; "dataCenterId"; "datacenter"; "data_center"; "region"] in
  match first_present [config_value p "dataCenterIds"; config_value p "data_center_ids"] with
  | (VStr _ | VEnum _) as v => non_empty_string v
  | VList l | VTuple l =>
      match first_non_empty l with Some s => Some s | None => fallback end
  | _ => fallback
  end.

Definition capacity_cloud_type (p : ProviderLike) : string :=
  let normalized := upper (default "SECURE" (first_config_or_field_string p ["cloud_type"; "cloudType"])) in
  if String.eqb normalized "ALL" && bool_decide (is_Some (capacity_volume_id p))
  then "SECURE" else normalized.

(** Only [TypeError] and [ValueError] are caught: an infinite float raises. *)
Definition capacity_gpu_count (p : ProviderLike) : py (option Z) :=
  match first_present [field p "gpu_count"; field p "gpuCount";
                       config_value p "gpu_count"; config_value p "gpuCount"] with
  | VNone => Ok (Some 1)
  | VBool _ => Ok None
  | v =>
      match py_int v with
      | Ok n => Ok (if n <? 1 then None else Some n)
      | Err (ValueError _) | Err (TypeError _) => Ok None
      | Err e => Err e
      end
  end.

Definition listed_gpu_names (p : ProviderLike) (key : string) : list string :=
  match config_value p key with
  | VStr s | VEnum s => if String.eqb s "availability" then [] else [s]
  | VList l | VTuple l =>
      filter (fun s => nonempty s = true)
        ((fun v => strip (py_str v)) <$> filter (fun v => is_none v = false) l)
  | _ => []
  end.

Definition provider_gpu_names (p : ProviderLike) : list string :=
  dedup (mjoin ((fun k => opt_list (first_config_or_field_string p [k])) <$>
                  ["gpu_name"; "gpu_type"; "gpu_type_id"; "gpu_class"]) ++
         mjoin (listed_gpu_names p <$>
                  ["gpu_names"; "gpu_types"; "gpuTypeIds"; "gpu_classes"; "gpu_type_priority"])).

Definition capacity_gpu_names (request : RoutingRequest) (p : ProviderLike) : list string :=
  match required_gpu_class request with
  | Some s => if nonempty s then [s] else provider_gpu_names p
  | None => provider_gpu_names p
  end.

Definition capacity_keys_for_provider (request : RoutingRequest) (p : ProviderLike)
  : py (list CapacityProbeKey) :=
  let dc := capacity_datacenter p in
  let ct := capacity_cloud_type p in
  let? count := capacity_gpu_count p in
  let names := capacity_gpu_names request p in
  match dc, count with
  | Some dc, Some n => Ok ((fun g => MkProbeKey dc g ct n) <$> names)
  | _, _ => Ok []
  end.

(** The loop of [_capacity_decision_for_candidate]. *)
Fixpoint probe_keys (cache : reader) (i : string) (all keys : list CapacityProbeKey)
    (saw_unknown : bool) : py CapacityDecision :=
  match keys with
  | [] => Ok (MkCapacityDecision i (if saw_unknown then None else Some false)
               (if saw_unknown then "capacity_unknown" else "capacity_unavailable") all None)
  | k :: keys' =>
      let? available := cache (datacenter k) (gpu_name k) (cloud_type k) (gpu_count k) in
      match available with
      | Some true => Ok (MkCapacityDecision i (Some true) "available" all (Some k))
      | Some false => probe_keys cache i all keys' saw_unknown
      | None => probe_keys cache i all keys' true
      end
  end.

Definition capacity_decision_for_candidate (request : RoutingRequest) (cache : reader)
    (c : RouteCandidate) : py CapacityDecision :=
  let? keys := capacity_keys_for_provider request (rc_provider c) in
  match keys with
  | [] => Ok (MkCapacityDecision (rc_provider_id c) None "missing_capacity_key" [] None)
  | _ => probe_keys cache (rc_provider_id c) keys keys false
  end.

(** One round of [_apply_stage4_capacity]: the available candidates, the
    decisions and the eliminations so far. *)
Definition stage4_state : Type :=
  list RouteCandidate * list CapacityDecision * list RouteElimination.
Definition stage4_step (request : RoutingRequest) (cache : reader) (acc : stage4_state)
    (c : RouteCandidate) : py stage4_state :=
  let '(available, decisions, elim) := acc in
  if negb (is_pod_lease_provider (rc_provider c)) then Ok (available ++ [c], decisions, elim)
  else
    let? d := capacity_decision_for_candidate request cache c in
    if bool_decide (cd_available d = Some true)
    then Ok (available ++ [c], decisions ++ [d], elim)
    else Ok (available, decisions ++ [d],
             elim ++ [route_elimination (rc_provider_id c) 4 CAPACITY_UNAVAILABLE []]).

Definition apply_stage4_capacity (request : RoutingRequest) (cache : reader)
    (ranked : list RouteCandidate) : py stage4_state :=
  foldR (stage4_step request cache) ([], [], []) ranked.

(** ** Attempts *)

(** [_select_primary_candidate]: the best candidate that is nobody's
    fallback, else the best one. *)
Definition is_fallback (all : list RouteCandidate) (c : RouteCandidate) : bool :=
  negb (bool_decide (fallback_for c = [])) ||
  bool_decide (Exists (fun c' => rc_provider_id c ∈ explicit_fallback_chain c') all).
Definition select_primary_candidate (first : RouteCandidate) (all : list RouteCandidate)
  : RouteCandidate :=
  match find_first (fun c => negb (is_fallback all c)) all with
  | Some c => c
  | None => first
  end.

(** [{c.provider_id: c for c in ranked}]: the last candidate of an id. *)
Definition candidate_by_id (ranked : list RouteCandidate) (i : string) : option RouteCandidate :=
  find_first (fun c => String.eqb (rc_provider_id c) i) (reverse ranked).

Fixpoint explicit_fallbacks (ranked : list RouteCandidate) (seen chain : list string)
  : list RouteCandidate :=
  match chain with
  | [] => []
  | i :: chain' =>
      match candidate_by_id ranked i with
      | Some c =>
          if bool_decide (rc_provider_id c ∈ seen) then explicit_fallbacks ranked seen chain'
          else c :: explicit_fallbacks ranked (rc_provider_id c :: seen) chain'
      | None => explicit_fallbacks ranked seen chain'
      end
  end.

Definition fallback_candidates (selected : RouteCandidate) (ranked : list RouteCandidate)
  : py (list RouteCandidate) :=
  match explicit_fallback_chain selected with
  | _ :: _ =>
      Ok (explicit_fallbacks ranked [rc_provider_id selected] (explicit_fallback_chain selected))
  | [] =>
      sort_on sort_key_of fallback_key_ltb
        (filter (fun c => rc_provider_id selected ∈ fallback_for c /\
                          rc_provider_id c <> rc_provider_id selected) ranked)
  end.

(** [backoff_base_s * 2 ** (attempt - 2)]: the power is an integer, and
    converting it to a float may overflow. *)
Definition backoff_before_attempt (attempt : Z) (backoff_base_s : float) : py float :=
  if attempt =? 1 then Ok (of_Z 0)
  else let? p := float_of_int (2 ^ (attempt - 2)) in Ok (fmul backoff_base_s p).

Definition route_attempts (ranked : list RouteCandidate) (max_attempts : Z) (backoff_base_s : float)
  : py (list RouteAttempt) :=
  match ranked with
  | [] => Ok []
  | first :: _ =>
      let selected := select_primary_candidate first ranked in
      let? fallbacks := fallback_candidates selected ranked in
      let chain := take (Z.to_nat max_attempts) (selected :: fallbacks) in
      mapR (fun ic =>
        let? backoff := backoff_before_attempt ic.1 backoff_base_s in
        Ok (MkAttempt (rc_provider_id ic.2) (rc_provider ic.2) ic.1 (rc_score ic.2)
              (rc_explanation ic.2) backoff)) (enumerate1 chain)
  end.

(** ** The plan *)

Record plan_options : Type := MkOptions {
  po_capability : option Capability;
  po_capability_id : option string;
  po_hints : option Hints;
  po_observed : option Observed;
  po_observed_metrics : option Observed;
  po_context : option PlanningContext;
  po_now : option datetime;
  po_max_attempts : Z;
  po_backoff_base_s : float;
  po_availability_cache : option CapacityReader;
  po_capacity_cache : option CapacityReader;
}.
Definition default_options : plan_options :=
  MkOptions None None None None None None None DEFAULT_MAX_ATTEMPTS DEFAULT_BACKOFF_BASE_S None None.

(** Stage 2: the survivors and the eliminations so far. *)
Definition stage2_step (clock now : datetime) (acc : list ProviderLike * list RouteElimination)
    (p : ProviderLike) : py (list ProviderLike * list RouteElimination) :=
  let? i := provider_id p in
  let? reasons := stage2_elimination_reasons clock p now in
  Ok (match reasons with
      | [] => (acc.1 ++ [p], acc.2)
      | r :: _ => (acc.1, acc.2 ++ [route_elimination i 2 r reasons])
      end).

(** [opt_or a b c]: [a or b or c] on optional records. *)
Definition active_hints (hints : option Hints) (request : RoutingRequest) : Hints :=
  match hints with Some h => h | None => default default_hints (req_hints request) end.

Definition score_stage (hints : Hints) (observed : option Observed) (p : ProviderLike)
  : py RouteCandidate :=
  let? i := provider_id p in
  let? o := observed_for_provider i observed in
  candidate_for_provider p hints o.

(** [plan_route] *)
Definition plan_route (clock : datetime) (mono : float) (global : AvailabilityCache)
    (request : RoutingRequest) (providers : option (list ProviderLike)) (o : plan_options)
  : py RoutePlan :=
  let? _ := validate_plan_options (po_max_attempts o) (po_backoff_base_s o) in
  let? (ctx, capacity_reader, supplied) :=
    resolve_planning_inputs clock mono global (po_context o) (po_now o)
      (po_availability_cache o) (po_capacity_cache o) in
  let hints := active_hints (po_hints o) request in
  let observed := match po_observed o with Some x => Some x | None => po_observed_metrics o end in
  let? ps := providers_for_plan providers ctx supplied in
  let capability := match po_capability o with Some c => Some c | None => ctx_capability ctx end in
  let? stage1 := filter_hard_constraints request ps capability (po_capability_id o) in
  let? elim1 := mapR stage1_elimination (f_eliminated stage1) in
  let? (eligible, elim2) := foldR (stage2_step clock (ctx_now ctx)) ([], []) (f_passed stage1) in
  let? candidates := mapR (score_stage hints observed) eligible in
  let? ranked := rank_candidates candidates in
  let? (available, decisions, elim4) := apply_stage4_capacity request capacity_reader ranked in
  let? atts := route_attempts available (po_max_attempts o) (po_backoff_base_s o) in
  Ok (MkPlan request atts ranked (elim1 ++ elim2 ++ elim4) decisions (po_max_attempts o)).

(** What stages 1, 2 and 4 promise about a provider the planner attempts. *)
Definition passes_constraints (request : RoutingRequest) (capability : option Capability)
    (cid : option string) (p : ProviderLike) : Prop :=
  exists res, evaluate_hard_constraints request capability
    (capability_id_for request capability cid) p = Ok res /\ passed res = true.

Definition has_capacity (request : RoutingRequest) (cache : reader) (p : ProviderLike) : Prop :=
  is_pod_lease_provider p = true ->
  exists keys k, capacity_keys_for_provider request p = Ok keys /\ k ∈ keys /\
    cache (datacenter k) (gpu_name k) (cloud_type k) (gpu_count k) = Ok (Some true).

Definition healthy (clock now : datetime) (p : ProviderLike) : Prop :=
  field p "enabled" <> VBool false /\ planner_health_status p <> "unhealthy" /\
  is_in_cooldown clock (InProvider p) (Some now) = Ok false.

(** Concrete inputs used by the witnesses. *)
Definition plan_clock : datetime := utc 1700000000000000.
Definition routed_provider (i : string) (config : dict) : ProviderLike :=
  PMap [("id", VStr i); ("capability_id", VStr "chat"); ("name", VStr i);
        ("provider_type", VStr "serverless_queue"); ("config", VDict config)].
Definition pod_provider (config : dict) : ProviderLike :=
  PMap [("id", VStr "pod"); ("capability_id", VStr "chat"); ("name", VStr "pod");
        ("provider_type", VStr "pod_lease"); ("region", VStr "US-1"); ("config", VDict config)].
Definition plain_request : RoutingRequest :=
  MkRequest "chat" None None None None None None None None false.
Definition example_plan : py RoutePlan :=
  plan_route plan_clock (of_Z 0) new_cache plain_request
    (Some [routed_provider "b" [("fallback_for", VStr "a")]; routed_provider "a" [];
           routed_provider "c" [("priority_multiplier", VInt 0); ("fallback_for", VStr "a")]])
    default_options.

Example plan_ex : rmap fallback_chain example_plan = Ok ["a"; "b"; "c"].
Proof. vm_compute. reflexivity. Qed.

(** Helper lemmas *)

(** A plan that was returned, stage by stage. *)
Record plan_run (clock : datetime) (mono : float) (global : AvailabilityCache)
    (request : RoutingRequest) (providers : option (list ProviderLike)) (o : plan_options)
    (plan : RoutePlan) : Type := MkRun {
  run_ctx : PlanningContext;
  run_reader : reader;
  run_supplied : bool;
  run_providers : list ProviderLike;
  run_capability : option Capability;
  run_stage1 : HardConstraintFilterResult;
  run_elim1 : list RouteElimination;
  run_eligible : list ProviderLike;
  run_elim2 : list RouteElimination;
  run_candidates : list RouteCandidate;
  run_available : list RouteCandidate;
  run_elim4 : list RouteElimination;
  run_resolve : resolve_planning_inputs clock mono global (po_context o) (po_now o)
      (po_availability_cache o) (po_capacity_cache o) = Ok (run_ctx, run_reader, run_supplied);
  run_inputs : providers_for_plan providers run_ctx run_supplied = Ok run_providers;
  run_capability_eq : run_capability =
    match po_capability o with Some c => Some c | None => ctx_capability run_ctx end;
  run_filter : filter_hard_constraints request run_providers run_capability (po_capability_id o)
               = Ok run_stage1;
  run_elim1_eq : mapR stage1_elimination (f_eliminated run_stage1) = Ok run_elim1;
  run_stage2 : foldR (stage2_step clock (ctx_now run_ctx)) ([], []) (f_passed run_stage1)
               = Ok (run_eligible, run_elim2);
  run_score : exists hints observed, mapR (score_stage hints observed) run_eligible = Ok run_candidates;
  run_rank : rank_candidates run_candidates = Ok (ranked_candidates plan);
  run_stage4 : apply_stage4_capacity request run_reader (ranked_candidates plan)
               = Ok (run_available, capacity_decisions plan, run_elim4);
  run_attempts : route_attempts run_available (po_max_attempts o) (po_backoff_base_s o)
                 = Ok (attempts plan);
  run_eliminated : eliminated plan = run_elim1 ++ run_elim2 ++ run_elim4;
  run_max : 1 <= po_max_attempts o;
}.

Lemma stage2_loop clock now ps acc r :
  foldR (stage2_step clock now) acc ps = Ok r ->
  exists el elim, r = (acc.1 ++ el, acc.2 ++ elim) /\
    Forall (fun p => p ∈ ps /\ stage2_elimination_reasons clock p now = Ok []) el /\
    (length el + length elim = length ps)%nat.
Proof.
  revert acc. induction ps as [|p ps IH]; intros acc; simpl.
  - intros [= <-]. exists [], []. rewrite !app_nil_r. split; [by destruct acc|].
    split; [constructor|done].
  - intros (acc' & Hstep & Hrest)%rbind_Ok. unfold stage2_step in Hstep.
    apply rbind_Ok in Hstep as (i & _ & Hstep). apply rbind_Ok in Hstep as (rs & Hrs & [= <-]).
    destruct (IH _ Hrest) as (el & elim & -> & Hel & Hlen).
    assert (Forall (fun q => q ∈ p :: ps /\ stage2_elimination_reasons clock q now = Ok []) el) as Hel'.
    { eapply Forall_impl; [done|]. intros q [? ?]. split; [by constructor|done]. }
    destruct rs as [|r rs]; simpl.
    + exists (p :: el), elim. rewrite <- app_assoc. split; [done|]. split; [|simpl; lia].
      constructor; [split; [constructor|done]|done].
    + exists el, (route_elimination i 2 r (r :: rs) :: elim). rewrite <- app_assoc.
      split; [done|]. split; [done|]. simpl. lia.
Qed.

Lemma stage2_healthy clock p now :
  stage2_elimination_reasons clock p now = Ok [] -> healthy clock now p.
Proof.
  unfold stage2_elimination_reasons, healthy. intros (cooling & Hc & H)%rbind_Ok.
  rewrite Hc. destruct cooling; [injection H as H; by destruct (_ ++ _ : list _) eqn:E;
    [apply app_eq_nil in E as [_ ?]|]|].
  injection H as H. destruct (String.eqb _ "unhealthy") eqn:E.
  - by apply app_eq_nil in H as [_ ?].
  - boolify. split; [|by split]. intros Hf. by rewrite Hf in H.
Qed.

Lemma probe_keys_available cache i all keys u d :
  probe_keys cache i all keys u = Ok d -> cd_available d = Some true ->
  exists k, k ∈ keys /\ cache (datacenter k) (gpu_name k) (cloud_type k) (gpu_count k) = Ok (Some true).
Proof.
  revert u. induction keys as [|k keys IH]; intros u; simpl.
  - intros [= <-]. by destruct u.
  - intros (a & Ha & H)%rbind_Ok Hd. destruct a as [[]|].
    + exists k. split; [constructor|done].
    + destruct (IH _ H Hd) as (k' & ? & ?). exists k'. split; [by constructor|done].
    + destruct (IH _ H Hd) as (k' & ? & ?). exists k'. split; [by constructor|done].
Qed.

Lemma capacity_decision_available request cache c d :
  capacity_decision_for_candidate request cache c = Ok d -> cd_available d = Some true ->
  exists keys k, capacity_keys_for_provider request (rc_provider c) = Ok keys /\ k ∈ keys /\
    cache (datacenter k) (gpu_name k) (cloud_type k) (gpu_count k) = Ok (Some true).
Proof.
  unfold capacity_decision_for_candidate. intros (keys & Hk & H)%rbind_Ok Hd.
  destruct keys as [|k keys]; [by injection H as <-|].
  destruct (probe_keys_available _ _ _ _ _ _ H Hd) as (k' & ? & ?). by exists (k :: keys), k'.
Qed.

Lemma stage4_loop request cache cs acc r :
  foldR (stage4_step request cache) acc cs = Ok r ->
  exists av ds elim, r = (acc.1.1 ++ av, acc.1.2 ++ ds, acc.2 ++ elim) /\
    sublist av cs /\ Forall (fun c => has_capacity request cache (rc_provider c)) av /\
    (length av + length elim = length cs)%nat.
Proof.
  revert acc. induction cs as [|c cs IH]; intros [[a d] e]; simpl.
  - intros [= <-]. exists [], [], []. rewrite !app_nil_r. by repeat constructor.
  - intros (acc' & Hstep & Hrest)%rbind_Ok.
    destruct (IH _ Hrest) as (av & ds & elim & -> & Hs & Hf & Hl).
    destruct (is_pod_lease_provider (rc_provider c)) eqn:Hpod; simpl in Hstep.
    + apply rbind_Ok in Hstep as (d' & Hd & Hstep).
      case_bool_decide as Hav; injection Hstep as <-; simpl.
      * exists (c :: av), (d' :: ds), elim. rewrite <- !app_assoc. split; [done|].
        split; [by constructor|]. split; [|simpl; lia]. constructor; [|done].
        intros _. by eapply capacity_decision_available.
      * exists av, (d' :: ds), (route_elimination (rc_provider_id c) 4 CAPACITY_UNAVAILABLE [] :: elim).
        rewrite <- !app_assoc. split; [done|]. split; [by constructor|]. split; [done|]. simpl. lia.
    + injection Hstep as <-. simpl. exists (c :: av), ds, elim. rewrite <- !app_assoc.
      split; [done|]. split; [by constructor|]. split; [|simpl; lia]. constructor; [|done].
      intros Ht. by rewrite Hpod in Ht.
Qed.

Lemma rank_candidates_inv cs ranked :
  rank_candidates cs = Ok ranked ->
  exists sorted, sort_on sort_key_of candidate_key_ltb cs = Ok sorted /\ sorted ≡ₚ cs /\
    ranked = imap (fun i c => set_rank c (Z.of_nat i + 1)) sorted.
Proof.
  unfold rank_candidates. intros (s & Hs & [= <-])%rbind_Ok. exists s.
  split; [done|]. split; [by eapply sort_on_perm|].
  unfold enumerate1. rewrite fmap_imap. done.
Qed.

(** Ranking keeps every candidate, its provider and its id. *)
Lemma rank_candidates_providers cs ranked :
  rank_candidates cs = Ok ranked ->
  (fun c => (rc_provider_id c, rc_provider c)) <$> ranked ≡ₚ
  (fun c => (rc_provider_id c, rc_provider c)) <$> cs.
Proof.
  intros (s & _ & Hp & ->)%rank_candidates_inv. rewrite fmap_imap, <- Hp.
  apply reflexive_eq. clear. rewrite <- (imap_const (fun c => (rc_provider_id c, rc_provider c)) s).
  by apply imap_ext.
Qed.

Lemma candidate_by_id_Some ranked i c :
  candidate_by_id ranked i = Some c -> c ∈ ranked /\ rc_provider_id c = i.
Proof.
  unfold candidate_by_id. intros [Hin H]%find_first_Some. boolify.
  split; [by apply elem_of_reverse|done].
Qed.

Lemma explicit_fallbacks_spec ranked seen chain c :
  c ∈ explicit_fallbacks ranked seen chain -> c ∈ ranked /\ rc_provider_id c ∉ seen.
Proof.
  revert seen. induction chain as [|i chain IH]; intros seen; simpl.
  - by intros ?%elem_of_nil.
  - destruct (candidate_by_id ranked i) as [d|] eqn:E; [|apply IH].
    case_bool_decide as Hs; [apply IH|].
    intros [->|Hin]%elem_of_cons; [by apply candidate_by_id_Some in E as [? _]|].
    apply IH in Hin as [? Hn]. split; [done|]. intros ?. apply Hn. by right.
Qed.

Lemma explicit_fallbacks_NoDup ranked seen chain :
  NoDup (rc_provider_id <$> explicit_fallbacks ranked seen chain).
Proof.
  revert seen. induction chain as [|i chain IH]; intros seen; simpl; [constructor|].
  destruct (candidate_by_id ranked i) as [d|]; [|apply IH].
  case_bool_decide; [apply IH|]. csimpl. constructor; [|apply IH].
  intros (c & Heq & Hin)%list_elem_of_fmap. apply explicit_fallbacks_spec in Hin as [_ Hn].
  apply Hn. rewrite <- Heq. constructor.
Qed.

(** The fallbacks of a candidate are other candidates. *)
Lemma fallback_candidates_spec selected ranked fs :
  fallback_candidates selected ranked = Ok fs ->
  Forall (fun c => c ∈ ranked /\ rc_provider_id c <> rc_provider_id selected) fs.
Proof.
  unfold fallback_candidates. rewrite Forall_forall.
  destruct (explicit_fallback_chain selected) as [|i chain].
  - intros Hs%sort_on_perm c. rewrite Hs, list_elem_of_filter. by intros [[? ?] ?].
  - intros [= <-] c Hin.
    apply (explicit_fallbacks_spec ranked _ (i :: chain)) in Hin as [? Hn]. split; [done|].
    intros E. apply Hn. rewrite E. constructor.
Qed.

Lemma fallback_candidates_NoDup selected ranked fs :
  NoDup (rc_provider_id <$> ranked) -> fallback_candidates selected ranked = Ok fs ->
  NoDup (rc_provider_id <$> fs).
Proof.
  intros Hnd. unfold fallback_candidates.
  destruct (explicit_fallback_chain selected) as [|i chain].
  - intros Hs%sort_on_perm. rewrite Hs. clear Hs fs.
    induction ranked as [|c ranked IH]; [done|]. csimpl in Hnd. apply NoDup_cons in Hnd as [Hn Hnd].
    rewrite filter_cons. case_decide; [|by apply IH]. csimpl. constructor; [|by apply IH].
    intros (d & Heq & Hin)%list_elem_of_fmap. apply list_elem_of_filter in Hin as [_ Hin].
    apply Hn. rewrite Heq. by apply list_elem_of_fmap_2.
  - intros [= <-]. apply (explicit_fallbacks_NoDup ranked _ (i :: chain)).
Qed.

Lemma select_primary_elem first ranked :
  first ∈ ranked -> select_primary_candidate first ranked ∈ ranked.
Proof.
  unfold select_primary_candidate. intros ?. destruct (find_first _ ranked) eqn:E; [|done].
  by apply find_first_Some in E as [? _].
Qed.

(** The attempts and the chain of candidates they come from. *)
Lemma route_attempts_inv ranked n base atts :
  route_attempts ranked n base = Ok atts ->
  (ranked = [] /\ atts = []) \/
  exists first rest fs, ranked = first :: rest /\
    fallback_candidates (select_primary_candidate first ranked) ranked = Ok fs /\
    let chain := take (Z.to_nat n) (select_primary_candidate first ranked :: fs) in
    Forall2 (fun ic a => ra_provider_id a = rc_provider_id ic.2 /\ ra_provider a = rc_provider ic.2 /\
               ra_attempt a = ic.1 /\ ra_score a = rc_score ic.2 /\
               backoff_before_attempt ic.1 base = Ok (backoff_before_attempt_s a))
      (enumerate1 chain) atts.
Proof.
  unfold route_attempts. destruct ranked as [|first rest]; [intros [= <-]; by left|].
  intros (fs & Hf & H)%rbind_Ok. right. exists first, rest, fs. split; [done|]. split; [done|].
  apply mapR_Ok in H. eapply Forall2_impl; [done|].
  intros [i c] a (b & Hb & [= <-])%rbind_Ok. done.
Qed.

Lemma enumerate1_length {A} (l : list A) : length (enumerate1 l) = length l.
Proof. apply length_imap. Qed.

Lemma enumerate1_snd {A} (l : list A) : (snd <$> enumerate1 l) = l.
Proof.
  unfold enumerate1. rewrite fmap_imap. rewrite <- (list_fmap_id l) at 2.
  rewrite <- imap_const. by apply imap_ext.
Qed.

Lemma Forall2_fmap_eq {A B C} (R : A -> B -> Prop) (f : A -> C) (g : B -> C) l k :
  Forall2 R l k -> (forall x y, R x y -> g y = f x) -> g <$> k = f <$> l.
Proof. intros H HR. induction H as [|x y l k Hxy _ IH]; [done|]. csimpl. by rewrite IH, (HR x y). Qed.

(** The chain consists of candidates, with distinct ids when theirs are. *)
Lemma chain_elem first rest fs n c :
  let ranked := first :: rest in
  fallback_candidates (select_primary_candidate first ranked) ranked = Ok fs ->
  c ∈ take n (select_primary_candidate first ranked :: fs) -> c ∈ ranked.
Proof.
  intros ranked Hf Hin. apply elem_of_take in Hin as (i & Hi & _).
  apply list_elem_of_lookup_2 in Hi. apply elem_of_cons in Hi as [->|Hi].
  - apply select_primary_elem. constructor.
  - apply fallback_candidates_spec in Hf. rewrite Forall_forall in Hf. by apply Hf in Hi as [? _].
Qed.

Lemma chain_NoDup first rest fs n :
  let ranked := first :: rest in
  NoDup (rc_provider_id <$> ranked) ->
  fallback_candidates (select_primary_candidate first ranked) ranked = Ok fs ->
  NoDup (rc_provider_id <$> take n (select_primary_candidate first ranked :: fs)).
Proof.
  intros ranked Hnd Hf. rewrite fmap_take. eapply sublist_NoDup; [|apply sublist_take].
  csimpl. constructor; [|by eapply fallback_candidates_NoDup].
  intros (c & Heq & Hin)%list_elem_of_fmap. apply fallback_candidates_spec in Hf.
  rewrite Forall_forall in Hf. apply Hf in Hin as [_ Hne]. by apply Hne.
Qed.

Lemma plan_route_run clock mono global request providers o plan :
  plan_route clock mono global request providers o = Ok plan ->
  exists r : plan_run clock mono global request providers o plan, True.
Proof.
  unfold plan_route. intros H. apply rbind_Ok in H as ([] & Hv & H).
  apply rbind_Ok in H as ([[ctx rd] sup] & Hr & H). apply rbind_Ok in H as (ps & Hps & H).
  apply rbind_Ok in H as (s1 & Hs1 & H). apply rbind_Ok in H as (e1 & He1 & H).
  apply rbind_Ok in H as ([el e2] & Hs2 & H). apply rbind_Ok in H as (cs & Hcs & H).
  apply rbind_Ok in H as (rk & Hrk & H). apply rbind_Ok in H as ([[av ds] e4] & Hs4 & H).
  apply rbind_Ok in H as (atts & Hat & H). injection H as <-.
  unfold validate_plan_options in Hv. destruct (_ <? 1) eqn:E; [done|]. boolify.
  unshelve eexists; [|done]. by econstructor; eauto.
Qed.

Lemma run_stages clock mono global request providers o plan
    (r : plan_run clock mono global request providers o plan) :
  Forall (fun c => has_capacity request (run_reader _ _ _ _ _ _ _ r) (rc_provider c) /\
            healthy clock (ctx_now (run_ctx _ _ _ _ _ _ _ r)) (rc_provider c) /\
            passes_constraints request (run_capability _ _ _ _ _ _ _ r) (po_capability_id o)
              (rc_provider c))
    (run_available _ _ _ _ _ _ _ r).
Proof.
  destruct r as [ctx rd sup ps cap s1 e1 el e2 cs av e4 Hr Hps Hcap Hf He1 Hs2 (h & ob & Hcs) Hrk Hs4 Hat Hel Hmax].
  simpl. apply Forall_forall. intros c Hin.
  apply stage4_loop in Hs4 as (av' & ds' & el' & [= -> _ _] & Hsub & Hcap4 & _).
  split; [rewrite Forall_forall in Hcap4; by apply Hcap4|].
  assert (rc_provider c ∈ el) as Hin'.
  { apply (elem_of_sublist _ _ _ Hin) in Hsub.
    apply (list_elem_of_fmap_2 (fun c => (rc_provider_id c, rc_provider c))) in Hsub.
    rewrite (rank_candidates_providers _ _ Hrk) in Hsub.
    apply list_elem_of_fmap in Hsub as (c0 & [= _ ->] & Hc0). apply mapR_Ok in Hcs.
    apply list_elem_of_lookup in Hc0 as (i & Hi).
    destruct (Forall2_lookup_r _ _ _ _ _ Hcs Hi) as (p & Hp & Hscore).
    unfold score_stage, candidate_for_provider in Hscore. inv_ok. simpl.
    by eapply list_elem_of_lookup_2. }
  apply stage2_loop in Hs2 as (el2 & em & [= -> _] & Hel2 & _).
  rewrite Forall_forall in Hel2. destruct (Hel2 _ Hin') as [Hpass Hrs].
  split; [by apply stage2_healthy|].
  by apply (filter_hard_constraints_survivor _ _ _ _ _ _ Hf).
Qed.

(** The order the ranking leaves: higher score first, then lower priority. *)
Definition ranks_before (a b : sort_key) : Prop :=
  key_lt (fkey (k_score a)) (fkey (k_score b)) \/
  (fkey (k_score a) = fkey (k_score b) /\ k_priority a <= k_priority b).

Lemma candidate_key_total a b :
  fnan (k_score a) = false -> fnan (k_score b) = false ->
  if candidate_key_ltb a b then ranks_before a b else ranks_before b a.
Proof.
  intros Ha Hb. unfold candidate_key_ltb, float_key_ltb, int_key_ltb, ranks_before.
  destruct (feqb (k_score a) (k_score b)) eqn:Es.
  - apply feqb_key in Es; [|done..]. rewrite Es.
    destruct (k_priority a =? k_priority b) eqn:Ep; boolify.
    + destruct (str_key_ltb _ _ _); right; split; (done || lia).
    + destruct (k_priority a <? k_priority b) eqn:El; boolify; right; split; (done || lia).
  - destruct (fltb (k_score a) (k_score b)) eqn:El.
    + left. by apply fltb_key.
    + apply fge_key in El; [|done..]. left.
      assert (fkey (k_score a) <> fkey (k_score b)) as Hne.
      { intros E. apply (feqb_key _ _ Ha Hb) in E. by rewrite E in Es. }
      destruct (fkey (k_score a)) as [[? ?] ?], (fkey (k_score b)) as [[? ?] ?].
      unfold key_lt in *. simpl in *.
      assert (~ (z = z2 /\ z0 = z3 /\ z1 = z4)) by (intros (-> & -> & ->); done). lia.
Qed.

Lemma ranks_before_trans a b c : ranks_before a b -> ranks_before b c -> ranks_before a c.
Proof.
  unfold ranks_before. intros [H1|[H1 ?]] [H2|[H2 ?]].
  - left. by eapply key_lt_trans.
  - left. by rewrite <- H2.
  - left. by rewrite H1.
  - right. split; [by rewrite H1|lia].
Qed.

Lemma StronglySorted_imap {A B} (R : A -> A -> Prop) (S : B -> B -> Prop) (f : nat -> A -> B) l :
  (forall i j a b, R a b -> S (f i a) (f j b)) -> StronglySorted R l -> StronglySorted S (imap f l).
Proof.
  intros HS Hs. revert f HS. induction Hs as [|x l Hs IH Hx]; intros f HS; [constructor|].
  rewrite imap_cons. constructor; [apply IH; intros; by apply HS|].
  rewrite Forall_forall in Hx. apply Forall_forall. intros y (i & z & -> & Hz)%elem_of_lookup_imap_1.
  apply HS, Hx. by eapply list_elem_of_lookup_2.
Qed.

Lemma rank_candidates_sorted cs ranked :
  Forall (fun c => fnan (rc_score c) = false) cs -> rank_candidates cs = Ok ranked ->
  StronglySorted (fun a b => exists ka kb, sort_key_of a = Ok ka /\ sort_key_of b = Ok kb /\
                    ranks_before ka kb) ranked.
Proof.
  intros HF (s & Hs & _ & ->)%rank_candidates_inv.
  apply (sort_on_sorted _ _ (fun k => fnan (k_score k) = false) ranks_before) in Hs.
  - eapply StronglySorted_imap; [|exact Hs]. done.
  - intros a b Ha Hb E. pose proof (candidate_key_total a b Ha Hb) as H. by rewrite E in H.
  - intros a b Ha Hb E. pose proof (candidate_key_total a b Ha Hb) as H. by rewrite E in H.
  - intros a b c _ _ _. apply ranks_before_trans.
  - intros c k Hc Hk. unfold sort_key_of in Hk. inv_ok. simpl. rewrite fnan_neg.
    rewrite Forall_forall in HF. by apply HF.
Qed.

Lemma attempts_from_available clock mono global request providers o plan
    (r : plan_run clock mono global request providers o plan) a :
  a ∈ attempts plan ->
  exists c, c ∈ run_available _ _ _ _ _ _ _ r /\ rc_provider c = ra_provider a.
Proof.
  intros Ha. pose proof (run_attempts _ _ _ _ _ _ _ r) as Hat.
  apply route_attempts_inv in Hat as [[_ E]|(f & rest & fs & Hav & Hf & HF)].
  { rewrite E in Ha. by apply elem_of_nil in Ha. }
  apply list_elem_of_lookup in Ha as (i & Hi).
  destruct (Forall2_lookup_r _ _ _ _ _ HF Hi) as ([n c] & Hc & _ & Hp & _).
  exists c. split; [|done]. rewrite Hav in Hf |- *. eapply chain_elem; [exact Hf|].
  apply list_elem_of_lookup_2, (list_elem_of_fmap_2 snd) in Hc.
  rewrite enumerate1_snd, Hav in Hc. exact Hc.
Qed.

(** Theorems *)

(** C1: Every provider a plan would attempt satisfied every gate: the stage 1
    constraints, enabled, healthy and out of cooldown at the planning
    instant, and for pod leases a capacity probe answered that one of its
    configurations is available. *)
Theorem plan_attempts_eligible clock mono global request providers o plan :
  plan_route clock mono global request providers o = Ok plan ->
  exists ctx rd supplied,
    resolve_planning_inputs clock mono global (po_context o) (po_now o)
      (po_availability_cache o) (po_capacity_cache o) = Ok (ctx, rd, supplied) /\
    Forall (fun a =>
      passes_constraints request
        (match po_capability o with Some c => Some c | None => ctx_capability ctx end)
        (po_capability_id o) (ra_provider a) /\
      healthy clock (ctx_now ctx) (ra_provider a) /\
      has_capacity request rd (ra_provider a)) (attempts plan).
Proof.
  intros [r _]%plan_route_run. pose proof (run_stages _ _ _ _ _ _ _ r) as Hst.
  exists (run_ctx _ _ _ _ _ _ _ r), (run_reader _ _ _ _ _ _ _ r), (run_supplied _ _ _ _ _ _ _ r).
  split; [apply run_resolve|]. rewrite <- run_capability_eq.
  rewrite Forall_forall in Hst. apply Forall_forall. intros a (c & Hc & <-)%(attempts_from_available _ _ _ _ _ _ _ r).
  by destruct (Hst c Hc) as (? & ? & ?).
Qed.

Lemma plan_attempts_eligible_witness :
  exists plan, example_plan = Ok plan /\ exists ctx rd supplied,
    resolve_planning_inputs plan_clock (of_Z 0) new_cache None None None None = Ok (ctx, rd, supplied) /\
    Forall (fun a => passes_constraints plain_request (ctx_capability ctx) None (ra_provider a) /\
      healthy plan_clock (ctx_now ctx) (ra_provider a) /\
      has_capacity plain_request rd (ra_provider a)) (attempts plan).
Proof.
  eexists. split; [vm_compute; reflexivity|].
  apply (plan_attempts_eligible plan_clock (of_Z 0) new_cache plain_request
    (Some [routed_provider "b" [("fallback_for", VStr "a")]; routed_provider "a" [];
           routed_provider "c" [("priority_multiplier", VInt 0); ("fallback_for", VStr "a")]])
    default_options).
  vm_compute. reflexivity.
Defined.

(** Attempts are bounded, numbered from 1 and backed off exponentially: there
    are at most [max_attempts], the first has no delay and the n-th waits
    [backoff_base_s * 2 ** (n - 2)]; with distinct provider ids no provider
    is attempted twice. *)
Theorem plan_attempts_bounded clock mono global request providers o plan :
  plan_route clock mono global request providers o = Ok plan ->
  Z.of_nat (length (attempts plan)) <= po_max_attempts o /\
  (forall i a, attempts plan !! i = Some a ->
     ra_attempt a = Z.of_nat i + 1 /\
     backoff_before_attempt (Z.of_nat i + 1) (po_backoff_base_s o) = Ok (backoff_before_attempt_s a)) /\
  (NoDup (rc_provider_id <$> ranked_candidates plan) -> NoDup (fallback_chain plan)).
Proof.
  intros [r _]%plan_route_run. pose proof (run_max _ _ _ _ _ _ _ r) as Hmax.
  pose proof (run_stage4 _ _ _ _ _ _ _ r) as H4.
  apply stage4_loop in H4 as (av & ds & el & [= Hav _ _] & Hsub & _ & _).
  pose proof (run_attempts _ _ _ _ _ _ _ r) as Hat. rewrite Hav in Hat.
  unfold fallback_chain.
  apply route_attempts_inv in Hat as [[_ ->]|(f & rest & fs & -> & Hf & HF)].
  { split; [simpl; lia|]. split; [done|]. intros _. constructor. }
  split; [|split].
  - rewrite <- (Forall2_length _ _ _ HF), enumerate1_length, length_take. lia.
  - intros i a Ha. destruct (Forall2_lookup_r _ _ _ _ _ HF Ha) as ([n c] & Hc & _ & _ & Hn & _ & Hb).
    unfold enumerate1 in Hc. rewrite list_lookup_imap in Hc.
    destruct (_ !! i) in Hc; [|done]. injection Hc as <- <-. done.
  - intros Hnd.
    rewrite (Forall2_fmap_eq _ (rc_provider_id ∘ snd) ra_provider_id _ _ HF) by (by intros ? ? (-> & _)).
    rewrite list_fmap_compose, enumerate1_snd.
    apply chain_NoDup; [|done]. eapply sublist_NoDup; [exact Hnd|]. by apply fmap_sublist.
Qed.

Lemma plan_attempts_bounded_witness :
  exists plan, example_plan = Ok plan /\ Z.of_nat (length (attempts plan)) <= 3.
Proof.
  eexists. split; [vm_compute; reflexivity|].
  apply (plan_attempts_bounded plan_clock (of_Z 0) new_cache plain_request
    (Some [routed_provider "b" [("fallback_for", VStr "a")]; routed_provider "a" [];
           routed_provider "c" [("priority_multiplier", VInt 0); ("fallback_for", VStr "a")]])
    default_options).
  vm_compute. reflexivity.
Defined.

(** No provider is lost: each one given to the planner is eliminated once,
    with a reason, or stays available, so the plan has no attempt only when
    every provider was eliminated. *)
Theorem plan_accounts_for_every_provider clock mono global request ps o plan :
  po_context o = None ->
  plan_route clock mono global request (Some ps) o = Ok plan ->
  (length (eliminated plan) <= length ps)%nat /\
  (attempts plan = [] <-> length (eliminated plan) = length ps) /\
  (length (ranked_candidates plan) <= length ps)%nat.
Proof.
  intros Hctx [r _]%plan_route_run.
  destruct r as [ctx rd sup ps' cap s1 e1 el e2 cs av e4 Hr Hps _ Hf He1 Hs2 (h & ob & Hcs) Hrk Hs4 Hat Hel Hmax].
  rewrite Hctx in Hr. assert (sup = false) as ->.
  { unfold resolve_planning_inputs in Hr. apply rbind_Ok in Hr as (ex & _ & Hr).
    destruct ex as [[? []]|]; apply rbind_Ok in Hr as (? & _ & [= _ _ <-]); done. }
  injection Hps as <-. rewrite Hel, !length_app.
  apply filter_hard_constraints_count in Hf. apply mapR_length in He1.
  apply stage2_loop in Hs2 as (el' & em & [= -> ->] & _ & Hl2). apply mapR_length in Hcs.
  pose proof (Permutation_length (rank_candidates_providers _ _ Hrk)) as Hlr.
  rewrite !length_fmap in Hlr.
  apply stage4_loop in Hs4 as (av' & ds & el4 & [= -> _ ->] & _ & _ & Hl4).
  split; [lia|]. split; [|lia].
  apply route_attempts_inv in Hat as [[-> ->]|(f & rest & fs & -> & _ & HF)].
  - split; [simpl in *; lia|done].
  - split; [|simpl in *; lia]. intros E. rewrite E in HF.
    apply Forall2_length in HF. rewrite enumerate1_length, length_take in HF.
    simpl in HF. lia.
Qed.

Lemma plan_accounts_for_every_provider_witness :
  exists plan, plan_route plan_clock (of_Z 0) new_cache plain_request
    (Some [pod_provider []; routed_provider "a" []]) default_options = Ok plan /\
  (attempts plan = [] <-> length (eliminated plan) = 2%nat).
Proof.
  eexists. split; [vm_compute; reflexivity|].
  apply (plan_accounts_for_every_provider plan_clock (of_Z 0) new_cache plain_request
           [pod_provider []; routed_provider "a" []] default_options); [reflexivity|].
  vm_compute. reflexivity.
Defined.

(** The ranked candidates are in order: a candidate never follows one with a
    lower score, nor one with the same score and a larger priority number. *)
Theorem ranking_sorted cs ranked :
  Forall (fun c => fnan (rc_score c) = false) cs -> rank_candidates cs = Ok ranked ->
  StronglySorted (fun a b => fge (rc_score a) (rc_score b) /\
    (feqb (rc_score a) (rc_score b) = true -> exists pa pb,
       priority (rc_provider a) = Ok pa /\ priority (rc_provider b) = Ok pb /\ pa <= pb)) ranked.
Proof.
  intros HF Hr. pose proof (rank_candidates_sorted _ _ HF Hr) as Hs.
  assert (Forall (fun c => fnan (rc_score c) = false) ranked) as HF'.
  { apply rank_candidates_inv in Hr as (s & _ & Hp & ->). rewrite <- Hp in HF.
    rewrite Forall_forall in HF. apply Forall_forall.
    intros c (i & x & -> & Hx)%elem_of_lookup_imap_1. apply (HF x). by eapply list_elem_of_lookup_2. }
  clear Hr HF. induction Hs as [|a l Hs IH Ha]; [constructor|].
  apply Forall_cons in HF' as [Hna HF]. constructor; [by apply IH|].
  rewrite Forall_forall in Ha, HF. apply Forall_forall. intros b Hb.
  destruct (Ha b Hb) as (ka & kb & Hka & Hkb & Hrel). specialize (HF b Hb). cbv beta in HF.
  unfold sort_key_of in Hka, Hkb. apply rbind_Ok in Hka as (pa & Hpa & [= <-]).
  apply rbind_Ok in Hkb as (pb & Hpb & [= <-]). unfold ranks_before in Hrel. simpl in Hrel.
  rewrite !fkey_neg in Hrel. rewrite fge_key, feqb_key by done.
  destruct (fkey (rc_score a)) as [[? ?] ?], (fkey (rc_score b)) as [[? ?] ?].
  unfold key_lt in *. simpl in *. split.
  - destruct Hrel as [?|[[= ? ?] _]]; lia.
  - intros [= -> -> ->]. exists pa, pb. split; [done|]. split; [done|].
    destruct Hrel as [?|[_ ?]]; lia.
Qed.

Definition example_candidate (i : string) (score pr : Z) : RouteCandidate :=
  MkCandidate i (PMap [("id", VStr i); ("priority", VInt pr)]) 0 (of_Z score)
    (MkScore i (of_Z 100) (of_Z 0) (of_Z 0) (of_Z 0) (of_Z 0) (of_Z 0) (of_Z 1) (of_Z score) (of_Z score))
    [] [].

Lemma ranking_sorted_witness :
  exists ranked, rank_candidates [example_candidate "a" 10 1; example_candidate "b" 10 0;
                                  example_candidate "c" 90 5] = Ok ranked /\
  StronglySorted (fun a b => fge (rc_score a) (rc_score b) /\
    (feqb (rc_score a) (rc_score b) = true -> exists pa pb,
       priority (rc_provider a) = Ok pa /\ priority (rc_provider b) = Ok pb /\ pa <= pb)) ranked.
Proof.
  eexists. split; [vm_compute; reflexivity|].
  apply (ranking_sorted [example_candidate "a" 10 1; example_candidate "b" 10 0;
                         example_candidate "c" 90 5]); [by repeat constructor|].
  vm_compute. reflexivity.
Defined.

(** An empty GPU name in a provider's config is passed on to the availability
    probe, whose key refuses it: planning fails for the whole fleet instead
    of eliminating that provider. *)
Theorem empty_gpu_type_breaks_planning :
  plan_route plan_clock (of_Z 0) new_cache plain_request
    (Some [routed_provider "a" []; pod_provider [("gpu_types", VStr "")]]) default_options
  = Err (ValueError "gpu_name must be non-empty").
Proof. vm_compute. reflexivity. Qed.
