(* ===== verification/BudgetGate.v ===== *)
(** * Budget admission ([cost/budget_gate.py])

    [try_launch_admission] runs a transaction under a PostgreSQL advisory
    lock.  The rows of [pitwall.workloads] hold money as NUMERIC(12,6): an
    integer number of micro-dollars, rounded half away from zero on insert.
    The transaction is modelled twice: as one function on the table, and as
    the steps of any number of concurrent calls over the shared table and
    lock, interleaved with the settlement of actual costs, the clock, and
    failures at any point.

    [month_start] is the database's [date_trunc('month', now() AT TIME ZONE
    'UTC')]; all that is used of it is that it does not go back. *)

From S2P Require Import Prelude PyDecimal PyValue PyTime PyFormat Enums.
From Stdlib Require Import QArith Lqa.
#[local] Open Scope Z_scope.

(** Definitions *)

Inductive BudgetRejectionReason := monthly_budget | per_request_cap.

Record BudgetSnapshot : Type := MkBudgetSnapshot {
  s_monthly_budget_usd : dec;
  s_per_request_max_usd : dec;
  s_mtd_spend_usd : dec;
  s_estimate_usd : dec;
  s_budget_remaining_usd : dec;
}.

(** What [try_launch_admission] raises: a rejection, a built-in exception, an
    error of the database, or an error of the caller's [before_new_admission]
    hook. *)
Inductive gate_error (E : Type) : Type :=
| BudgetRejected (reason : BudgetRejectionReason) (snapshot : BudgetSnapshot)
| Raised (e : exn)
| DatabaseError
| HookError (e : E).
Arguments BudgetRejected {E}. Arguments Raised {E}. Arguments DatabaseError {E}.
Arguments HookError {E}.

Record BudgetAdmission : Type := MkAdmission { workload_id : string; is_new : bool }.

(** [BudgetEstimateInput]: a value, or an object with [upper_bound()]. *)
Inductive EstimateInput := EValue (v : pyval) | EBound (upper_bound : pyval).

(** [_positive_decimal] and [_positive_estimate] *)
Definition positive_decimal (v : pyval) (name : string) : py dec :=
  let? d := finite_decimal v name in
  if dleb d dzero then Err (ValueError (name +:+ " must be positive")) else Ok d.
Definition positive_estimate (e : EstimateInput) : py dec :=
  match e with EValue v | EBound v => positive_decimal v "estimate_usd" end.

Record BudgetGate : Type := MkGate { monthly_budget_usd : dec; per_request_max_usd : dec }.

(** [BudgetGate.__init__]; [env] reads the environment, [None] is unset. *)
Definition required_env (env : string -> option string) (name : string) : py pyval :=
  match env name with
  | Some v => if nonempty (strip v) then Ok (VStr v) else Err (ValueError (name +:+ " must be set"))
  | None => Err (ValueError (name +:+ " must be set"))
  end.
Definition new_gate (env : string -> option string) (monthly per_request : pyval) : py BudgetGate :=
  let? m := if is_none monthly then required_env env "PITWALL_MONTHLY_BUDGET_USD" else Ok monthly in
  let? b := positive_decimal m "monthly_budget_usd" in
  let? p := if is_none per_request then required_env env "PITWALL_PER_REQUEST_MAX_USD"
            else Ok per_request in
  let? c := positive_decimal p "per_request_max_usd" in
  Ok (MkGate b c).

Definition budget_snapshot (g : BudgetGate) (mtd estimate : dec) : py BudgetSnapshot :=
  let? remaining := dsub (monthly_budget_usd g) mtd in
  Ok (MkBudgetSnapshot (monthly_budget_usd g) (per_request_max_usd g) mtd estimate
        (if dltb dzero remaining then remaining else dzero)).

Definition reject {E A} (g : BudgetGate) (reason : BudgetRejectionReason) (mtd estimate : dec)
  : result (gate_error E) A :=
  match budget_snapshot g mtd estimate with
  | Ok s => Err (BudgetRejected reason s)
  | Err e => Err (Raised e)
  end.

(** ** The table *)

Record workload_row : Type := MkRow {
  w_id : string;
  w_capability_id : string;
  w_provider_id : string;
  w_type : string;
  w_state : WorkloadState;
  w_cost_estimate : option Z;
  w_cost_actual : option Z;
  w_submitted_at : Z;
  w_idempotency_key : option string;
}.

(** A value stored in a NUMERIC(12,6) column; [None] is a field overflow. *)
Definition to_numeric_12_6 (d : dec) : option Z :=
  let z := rescale ROUND_HALF_UP d (-6) in
  if 10 ^ 12 <=? Z.abs z then None else Some z.

(** [COALESCE(cost_actual_usd, cost_estimate_usd)], null counting as zero in
    the sum. *)
Definition row_cost (r : workload_row) : Z :=
  match w_cost_actual r with Some a => a | None => default 0 (w_cost_estimate r) end.

Definition sum_costs (rows : list workload_row) : Z := foldr (fun r s => row_cost r + s) 0 rows.

(** One call's arguments, after the estimate was read. *)
Record launch : Type := MkLaunch {
  l_capability_id : string;
  l_provider_id : string;
  l_estimate : dec;
  l_workload_type : string;
  l_submitted_at : datetime;
  l_idempotency_key : option string;
}.

Definition has_key (k : string) (r : workload_row) : bool :=
  bool_decide (w_idempotency_key r = Some k).

(** [SELECT id ... WHERE idempotency_key = $1] *)
Definition find_by_key (rows : list workload_row) (key : option string) : option string :=
  match key with
  | Some k => w_id <$> find_first (has_key k) rows
  | None => None
  end.

(** The INSERT: the id must be new, the amount must fit the column, and the
    table's other constraints must hold. *)
Definition insert_row (constraints_ok : workload_row -> bool) (rows : list workload_row)
    (l : launch) (new_id : string) : option workload_row :=
  match to_numeric_12_6 (l_estimate l) with
  | None => None
  | Some z =>
      let r := MkRow new_id (l_capability_id l) (l_provider_id l) (l_workload_type l) QUEUED
                 (Some z) None (dt_us (l_submitted_at l)) (l_idempotency_key l) in
      if existsb (fun r' => String.eqb (w_id r') new_id) rows || negb (constraints_ok r)
      then None else Some r
  end.

Section Gate.
Context (month_start : Z -> Z).

(** The rows of the current month and the spend the SELECT returns. *)
Definition current_month (now : Z) (rows : list workload_row) : list workload_row :=
  filter (fun r => month_start now <= w_submitted_at r) rows.
Definition month_spend (now : Z) (rows : list workload_row) : Z := sum_costs (current_month now rows).
Definition mtd_spend (now : Z) (rows : list workload_row) : dec :=
  match current_month now rows with [] => dzero | rs => micro (sum_costs rs) end.

(** [current_mtd_spend] *)
Definition current_mtd_spend (now : Z) (rows : list workload_row) : py dec :=
  finite_decimal (VDec (DFin (mtd_spend now rows))) "s".

(** The check before the transaction. *)
Definition precheck {E} (g : BudgetGate) (clock : datetime) (capability_id provider_id : string)
    (estimate_usd : EstimateInput) (workload_type : string) (submitted_at : option datetime)
    (idempotency_key : option string) : result (gate_error E) launch :=
  let? estimate := rlift Raised (positive_estimate estimate_usd) in
  let l := MkLaunch capability_id provider_id estimate workload_type (default clock submitted_at)
             idempotency_key in
  match idempotency_key with
  | None => if dltb (per_request_max_usd g) estimate then reject g per_request_cap dzero estimate
            else Ok l
  | Some _ => Ok l
  end.

(** The check of the month's spend, under the lock. *)
Definition budget_check {E} (g : BudgetGate) (l : launch) (spend : dec)
  : result (gate_error E) unit :=
  let? total := rlift Raised (dadd spend (l_estimate l)) in
  if dltb (monthly_budget_usd g) total then reject g monthly_budget spend (l_estimate l) else Ok tt.

(** The transaction, run alone: the table after it, the admission, and what
    the hook returned when it ran. *)
Definition admit_launch {E A} (constraints_ok : workload_row -> bool) (g : BudgetGate) (now : Z)
    (rows : list workload_row) (l : launch) (new_id : string) (hook : option (result E A))
  : result (gate_error E) (list workload_row * BudgetAdmission * option A) :=
  match find_by_key rows (l_idempotency_key l) with
  | Some i => Ok (rows, MkAdmission i false, None)
  | None =>
      let? hooked := match hook with
                     | Some h => rlift HookError (rmap Some h)
                     | None => Ok None
                     end in
      if dltb (per_request_max_usd g) (l_estimate l)
      then reject g per_request_cap dzero (l_estimate l)
      else
        let? spend := rlift Raised (current_mtd_spend now rows) in
        let? _ := budget_check g l spend in
        match insert_row constraints_ok rows l new_id with
        | Some r => Ok (rows ++ [r], MkAdmission (w_id r) true, hooked)
        | None => Err DatabaseError
        end
  end.

(** [try_launch_admission] *)
Definition try_launch_admission {E A} (constraints_ok : workload_row -> bool) (g : BudgetGate)
    (clock : datetime) (now : Z) (rows : list workload_row) (capability_id provider_id : string)
    (estimate_usd : EstimateInput) (workload_type : string) (submitted_at : option datetime)
    (idempotency_key : option string) (new_id : string) (hook : option (result E A))
  : result (gate_error E) (list workload_row * BudgetAdmission * option A) :=
  let? l := precheck g clock capability_id provider_id estimate_usd workload_type submitted_at
              idempotency_key in
  admit_launch constraints_ok g now rows l new_id hook.

(** [try_launch] *)
Definition try_launch (constraints_ok : workload_row -> bool) (g : BudgetGate) (clock : datetime)
    (now : Z) (rows : list workload_row) (capability_id provider_id : string)
    (estimate_usd : EstimateInput) (workload_type : string) (submitted_at : option datetime)
    (idempotency_key : option string) (new_id : string)
  : result (gate_error unit) (list workload_row * string) :=
  let? (rows', adm, _) :=
    try_launch_admission (A:=unit) constraints_ok g clock now rows capability_id provider_id
      estimate_usd workload_type submitted_at idempotency_key new_id None in
  Ok (rows', workload_id adm).

(** ** Concurrent calls *)

(** Where a call is: waiting for the lock; holding it; past the idempotency
    lookup, the hook and the cap; past the SELECT; past the INSERT, which
    others see only after the commit. *)
Inductive phase :=
| Waiting (l : launch)
| Locked (l : launch)
| Admitting (l : launch)
| Summed (l : launch) (spend : dec)
| Inserted (r : workload_row).

Definition holds_lock (p : phase) : bool := match p with Waiting _ => false | _ => true end.

Record gate_state : Type := MkGateState {
  gs_rows : list workload_row;
  gs_lock : option nat;
  gs_calls : gmap nat phase;
  gs_now : Z;
}.

Definition with_call (s : gate_state) (pid : nat) (p : phase) : gate_state :=
  MkGateState (gs_rows s) (gs_lock s) (<[pid := p]> (gs_calls s)) (gs_now s).

(** Writing the actual cost of a workload. *)
Definition settle_row (i : string) (a : Z) (r : workload_row) : workload_row :=
  if String.eqb (w_id r) i
  then MkRow (w_id r) (w_capability_id r) (w_provider_id r) (w_type r) (w_state r)
         (w_cost_estimate r) (Some a) (w_submitted_at r) (w_idempotency_key r)
  else r.

(** The steps of the concurrent system.  Amounts are whole micro-dollars, as
    the estimator returns them, and a settled cost does not exceed the cost
    it replaces: the estimate is an upper bound. *)
Inductive gate_step (g : BudgetGate) (ok : workload_row -> bool) : gate_state -> gate_state -> Prop :=
| StepCall s pid clock cap prov est typ sub key l z :
    gs_calls s !! pid = None ->
    precheck (E:=unit) g clock cap prov est typ sub key = Ok l -> l_estimate l = micro z ->
    gate_step g ok s (with_call s pid (Waiting l))
| StepLock s pid l :
    gs_lock s = None -> gs_calls s !! pid = Some (Waiting l) ->
    gate_step g ok s (MkGateState (gs_rows s) (Some pid) (<[pid := Locked l]> (gs_calls s)) (gs_now s))
| StepHit s pid l i :
    gs_calls s !! pid = Some (Locked l) -> find_by_key (gs_rows s) (l_idempotency_key l) = Some i ->
    gate_step g ok s (MkGateState (gs_rows s) None (delete pid (gs_calls s)) (gs_now s))
| StepMiss s pid l :
    gs_calls s !! pid = Some (Locked l) -> find_by_key (gs_rows s) (l_idempotency_key l) = None ->
    dltb (per_request_max_usd g) (l_estimate l) = false ->
    gate_step g ok s (with_call s pid (Admitting l))
| StepSum s pid l spend :
    gs_calls s !! pid = Some (Admitting l) -> current_mtd_spend (gs_now s) (gs_rows s) = Ok spend ->
    gate_step g ok s (with_call s pid (Summed l spend))
| StepInsert s pid l spend new_id r :
    gs_calls s !! pid = Some (Summed l spend) -> budget_check (E:=unit) g l spend = Ok tt ->
    insert_row ok (gs_rows s) l new_id = Some r ->
    gate_step g ok s (with_call s pid (Inserted r))
| StepCommit s pid r :
    gs_calls s !! pid = Some (Inserted r) ->
    gate_step g ok s (MkGateState (gs_rows s ++ [r]) None (delete pid (gs_calls s)) (gs_now s))
| StepFail s pid p :
    gs_calls s !! pid = Some p ->
    gate_step g ok s
      (MkGateState (gs_rows s) (if holds_lock p then None else gs_lock s) (delete pid (gs_calls s)) (gs_now s))
| StepSettle s i a :
    (forall r, r ∈ gs_rows s -> w_id r = i -> 0 <= a <= row_cost r) ->
    gate_step g ok s (MkGateState (settle_row i a <$> gs_rows s) (gs_lock s) (gs_calls s) (gs_now s))
| StepTick s now :
    gs_now s <= now -> gate_step g ok s (MkGateState (gs_rows s) (gs_lock s) (gs_calls s) now).

(** An idle system over a table. *)
Definition idle (rows : list workload_row) (now : Z) : gate_state := MkGateState rows None ∅ now.

Inductive gate_reach (g : BudgetGate) (ok : workload_row -> bool) (s0 : gate_state) : gate_state -> Prop :=
| GReachInit : gate_reach g ok s0 s0
| GReachStep s s' : gate_reach g ok s0 s -> gate_step g ok s s' -> gate_reach g ok s0 s'.

(** The month's spend is within the budget. *)
Definition within_budget (g : BudgetGate) (now : Z) (rows : list workload_row) : Prop :=
  dleb (micro (month_spend now rows)) (monthly_budget_usd g) = true.

(** The table: no negative cost, no idempotency key twice, no id twice. *)
Definition table_wf (rows : list workload_row) : Prop :=
  Forall (fun r => 0 <= row_cost r) rows /\
  NoDup (omap w_idempotency_key rows) /\ NoDup (w_id <$> rows).

(** What a phase of a call has established about the shared table. *)
Definition phase_ok (g : BudgetGate) (now : Z) (rows : list workload_row) (p : phase) : Prop :=
  match p with
  | Waiting l | Locked l => exists z, l_estimate l = micro z /\ 0 < z
  | Admitting l =>
      (exists z, l_estimate l = micro z /\ 0 < z) /\ find_by_key rows (l_idempotency_key l) = None
  | Summed l spend =>
      (exists z, l_estimate l = micro z /\ 0 < z) /\ find_by_key rows (l_idempotency_key l) = None /\
      exists m, (spend = micro m \/ (spend = dzero /\ m = 0)) /\ 0 <= m < 10 ^ 27 /\
        month_spend now rows <= m
  | Inserted r =>
      find_by_key rows (w_idempotency_key r) = None /\ w_id r ∉ (w_id <$> rows) /\ 0 <= row_cost r /\
      dleb (micro (month_spend now rows + row_cost r)) (monthly_budget_usd g) = true
  end.

Definition gate_inv (g : BudgetGate) (s : gate_state) : Prop :=
  table_wf (gs_rows s) /\ within_budget g (gs_now s) (gs_rows s) /\
  forall pid p, gs_calls s !! pid = Some p ->
    (holds_lock p = true -> gs_lock s = Some pid) /\ phase_ok g (gs_now s) (gs_rows s) p.

End Gate.

(** Concrete inputs used by the witnesses: the window starts at zero. *)
Definition flat_month (now : Z) : Z := 0.
Definition example_gate : BudgetGate := MkGate (of_int 10) (of_int 5).
Definition example_launch (key : option string) : launch :=
  MkLaunch "cap" "prov" (micro 2000000) "inference" (utc 5) key.
Definition any_row (r : workload_row) : bool := true.
Definition example_row (i : string) (key : option string) : workload_row :=
  MkRow i "cap" "prov" "inference" QUEUED (Some 2000000) None 5 key.

(** Helper lemmas *)

Lemma sum_costs_nonneg rows : Forall (fun r => 0 <= row_cost r) rows -> 0 <= sum_costs rows.
Proof. induction 1; simpl; lia. Qed.

Lemma sum_costs_app a b : sum_costs (a ++ b) = sum_costs a + sum_costs b.
Proof. induction a as [|r a IH]; simpl; [done|]. lia. Qed.

Section GateLemmas.
Context (month_start : Z -> Z).
Context (month_start_mono : forall a b, a <= b -> month_start a <= month_start b).
Context (g : BudgetGate).
Context (budget_sane : dleb (monthly_budget_usd g) (micro (10 ^ 26)) = true).

Notation spend := (month_spend month_start).

Lemma month_spend_nonneg now rows : Forall (fun r => 0 <= row_cost r) rows -> 0 <= spend now rows.
Proof.
  intros H. apply sum_costs_nonneg. unfold current_month.
  rewrite Forall_forall in *. intros r [_ Hin]%list_elem_of_filter. by apply H.
Qed.

Lemma month_spend_app now rows r :
  0 <= row_cost r -> spend now (rows ++ [r]) <= spend now rows + row_cost r.
Proof.
  intros. unfold month_spend, current_month. rewrite filter_app, sum_costs_app, filter_cons.
  case_decide; rewrite filter_nil; simpl; lia.
Qed.

(** Time only drops rows from the window. *)
Lemma month_spend_later now now' rows :
  now <= now' -> Forall (fun r => 0 <= row_cost r) rows -> spend now' rows <= spend now rows.
Proof.
  intros Hn%month_start_mono HF. unfold month_spend, current_month.
  induction HF as [|r rows Hr HF IH]; [done|]. rewrite !filter_cons.
  repeat case_decide; simpl; lia.
Qed.

(** Settling does not raise the spend and changes no id and no key. *)
Lemma settle_rows now rows i a :
  (forall r, r ∈ rows -> w_id r = i -> 0 <= a <= row_cost r) ->
  Forall (fun r => 0 <= row_cost r) rows ->
  spend now (settle_row i a <$> rows) <= spend now rows /\
  Forall (fun r => 0 <= row_cost r) (settle_row i a <$> rows) /\
  omap w_idempotency_key (settle_row i a <$> rows) = omap w_idempotency_key rows /\
  w_id <$> (settle_row i a <$> rows) = w_id <$> rows /\
  (forall k, find_by_key (settle_row i a <$> rows) k = find_by_key rows k).
Proof.
  intros Ha HF. unfold month_spend, current_month.
  induction HF as [|r rows Hr HF IH].
  { split; [done|]. split; [constructor|]. split; [done|]. split; [done|]. by intros []. }
  destruct IH as (IH1 & IH2 & IH3 & IH4 & IH5).
  { intros r' Hr'. apply Ha. by right. }
  specialize (Ha r ltac:(constructor)).
  assert (row_cost (settle_row i a r) <= row_cost r /\ 0 <= row_cost (settle_row i a r) /\
          w_submitted_at (settle_row i a r) = w_submitted_at r /\
          w_id (settle_row i a r) = w_id r /\
          w_idempotency_key (settle_row i a r) = w_idempotency_key r) as (H1 & H2 & H3 & H4 & H5).
  { unfold settle_row. destruct (String.eqb (w_id r) i) eqn:E; [|by repeat split].
    boolify. specialize (Ha E). simpl. unfold row_cost at 1 3. simpl. split; [lia|]. split; [lia|done]. }
  csimpl. rewrite !filter_cons, H3, H4, H5. split; [case_decide; simpl; lia|].
  split; [by constructor|]. split; [by rewrite IH3|]. split; [by rewrite IH4|].
  intros [k|]; [|done]. specialize (IH5 (Some k)). simpl in *. unfold has_key at 1 3. rewrite H5.
  destruct (bool_decide (w_idempotency_key r = Some k)); simpl; [by rewrite H4|done].
Qed.

Lemma find_by_key_None_iff rows k :
  find_by_key rows (Some k) = None <-> k ∉ omap w_idempotency_key rows.
Proof.
  simpl. destruct (find_first (has_key k) rows) as [r|] eqn:E.
  - apply find_first_Some in E as [Hin Hk]. unfold has_key in Hk. boolify. split; [done|].
    intros Hn. destruct Hn. apply list_elem_of_omap. by exists r.
  - split; [|done]. intros _ (r & Hin & Hk)%list_elem_of_omap.
    apply find_first_None in E. rewrite Forall_forall in E. specialize (E r Hin).
    unfold has_key in E. cbv beta in E. boolify. done.
Qed.

Lemma table_wf_snoc rows r :
  table_wf rows -> find_by_key rows (w_idempotency_key r) = None -> w_id r ∉ (w_id <$> rows) ->
  0 <= row_cost r -> table_wf (rows ++ [r]).
Proof.
  intros (HF & Hk & Hi) Hfind Hid Hc. split; [by apply Forall_app; split; [|constructor]|].
  split.
  - rewrite omap_app. apply NoDup_app. split; [done|]. simpl.
    destruct (w_idempotency_key r) as [k|]; [|by split; [intros ? ? ?%elem_of_nil|constructor]].
    split; [|apply NoDup_singleton]. apply find_by_key_None_iff in Hfind.
    intros k' Hk' ->%list_elem_of_singleton. done.
  - rewrite fmap_app. apply NoDup_app. split; [done|]. split; [|apply NoDup_singleton].
    intros i Hin ->%list_elem_of_singleton. done.
Qed.

(** A whole micro-dollar amount is stored as it is. *)
Lemma insert_row_micro ok rows l i r z :
  insert_row ok rows l i = Some r -> l_estimate l = micro z ->
  row_cost r = z /\ Z.abs z < 10 ^ 12 /\ w_idempotency_key r = l_idempotency_key l /\
  w_id r = i /\ i ∉ (w_id <$> rows).
Proof.
  unfold insert_row. intros H Hz. rewrite Hz in H.
  assert (to_numeric_12_6 (micro z) = if 10 ^ 12 <=? Z.abs z then None else Some z) as E.
  { unfold to_numeric_12_6. replace (rescale ROUND_HALF_UP (micro z) (-6)) with z; [done|].
    unfold rescale, micro; cbn [dcoef dexp]. destruct (z =? 0) eqn:E0; boolify; [done|].
    rewrite Z.leb_refl, Z.sub_diag. simpl. lia. }
  rewrite E in H. destruct (10 ^ 12 <=? Z.abs z) eqn:El; [done|]. boolify.
  destruct (existsb _ rows) eqn:Ex; [done|]. simpl in H.
  destruct (ok _); [|done]. injection H as <-. simpl. repeat (split; [done|]).
  intros (r & -> & Hin)%list_elem_of_fmap.
  assert (existsb (fun r' => String.eqb (w_id r') (w_id r)) rows = true) as Hex; [|congruence].
  apply existsb_exists. exists r. split; [by apply list_elem_of_In|apply String.eqb_refl].
Qed.

(** The budget check is exact on whole micro-dollars. *)
Lemma budget_check_micro l m z sp :
  budget_check (E:=unit) g l sp = Ok tt -> l_estimate l = micro z ->
  sp = micro m \/ (sp = dzero /\ m = 0) -> Z.abs (m + z) < micro_limit ->
  dleb (micro (m + z)) (monthly_budget_usd g) = true.
Proof.
  unfold budget_check. intros H Hz Hsp Hlim. rewrite Hz in H.
  assert (dadd sp (micro z) = Ok (micro (m + z))) as E.
  { destruct Hsp as [->|[-> ->]]; [by apply dadd_micro|].
    rewrite <- (dadd_micro 0 z) by done. reflexivity. }
  rewrite E in H. simpl in H. destruct (dltb _ _) eqn:El.
  - unfold reject in H. by destruct (budget_snapshot _ _ _).
  - apply dltb_false in El. by apply dleb_spec.
Qed.

Notation inv := (gate_inv month_start g).
Notation ok_in := (phase_ok month_start g).

(** A smaller spend over the same keys and ids keeps what a call knows. *)
Lemma phase_ok_weaken now rows now' rows' p :
  ok_in now rows p -> spend now' rows' <= spend now rows ->
  (forall k, find_by_key rows' k = find_by_key rows k) -> w_id <$> rows' = w_id <$> rows ->
  ok_in now' rows' p.
Proof.
  intros Hp Hs Hk Hi. destruct p as [l|l|l|l sp|r]; simpl in *; rewrite ?Hk, ?Hi; try done.
  - destruct Hp as (? & ? & m & ? & ? & ?). split; [done|]. split; [done|].
    exists m. split; [done|]. split; [done|]. lia.
  - destruct Hp as (? & ? & ? & Hb). split; [done|]. split; [done|]. split; [done|].
    apply dleb_spec in Hb. apply dleb_spec. eapply Qle_trans; [|exact Hb].
    rewrite !dval_micro. apply inject_ten_le. lia.
Qed.

Lemma within_budget_weaken now rows now' rows' :
  within_budget month_start g now rows -> spend now' rows' <= spend now rows ->
  within_budget month_start g now' rows'.
Proof.
  unfold within_budget. rewrite !dleb_spec, !dval_micro. intros H Hle.
  eapply Qle_trans; [|exact H]. by apply inject_ten_le.
Qed.

(** A call that holds the lock moves to its next phase. *)
Lemma inv_with_call s pid p0 p :
  inv s -> gs_calls s !! pid = Some p0 -> holds_lock p0 = true ->
  ok_in (gs_now s) (gs_rows s) p -> inv (with_call s pid p).
Proof.
  intros (Hwf & Hb & Hc) Hp0 Hh Hp. split; [done|]. split; [done|]. simpl.
  intros pid' p' [[<- <-]|[Hne Hp']]%lookup_insert_Some; [|by apply Hc].
  split; [|done]. intros _. by apply (Hc pid p0 Hp0).
Qed.

(** The holder leaves: nobody else was in the critical section. *)
Lemma inv_release s pid p0 rows :
  inv s -> gs_calls s !! pid = Some p0 -> holds_lock p0 = true ->
  table_wf rows -> within_budget month_start g (gs_now s) rows ->
  inv (MkGateState rows None (delete pid (gs_calls s)) (gs_now s)).
Proof.
  intros (_ & _ & Hc) Hp0 Hh Hwf Hb. split; [done|]. split; [done|]. simpl.
  intros pid' p' [Hne Hp']%lookup_delete_Some. destruct (Hc _ _ Hp') as [Hl Hok].
  destruct (Hc _ _ Hp0) as [Hl0 _]. specialize (Hl0 Hh).
  destruct p' as [l|l|l|l sp|r]; simpl in Hl;
    try (specialize (Hl eq_refl); rewrite Hl0 in Hl; by injection Hl).
  by split.
Qed.

Lemma month_spend_lt now rows :
  within_budget month_start g now rows -> spend now rows < 10 ^ 27.
Proof.
  unfold within_budget. rewrite dleb_spec. intros H. apply dleb_spec in budget_sane.
  assert (spend now rows <= 10 ^ 26); [|lia].
  apply (inject_ten_le _ _ (-6)). rewrite <- !dval_micro. by eapply Qle_trans.
Qed.

Lemma precheck_estimate clock cap prov est typ sub key l z :
  precheck (E:=unit) g clock cap prov est typ sub key = Ok l -> l_estimate l = micro z -> 0 < z.
Proof.
  unfold precheck. intros (e & He & H)%rbind_Ok Hz. apply rlift_Ok in He.
  assert (l_estimate l = e) as El.
  { destruct key; [by injection H as <-|]. destruct (dltb _ _).
    - unfold reject in H. by destruct (budget_snapshot _ _ _).
    - by injection H as <-. }
  rewrite El in Hz. subst e.
  assert (forall v n, positive_decimal v n = Ok (micro z) -> 0 < z) as Hpos.
  { unfold positive_decimal. intros v n (d & _ & Hd)%rbind_Ok.
    destruct (dleb d dzero) eqn:E; [done|]. injection Hd as ->.
    apply dleb_false in E. unfold dzero in E. rewrite dval_zero in E. by apply dcoef_pos in E. }
  by destruct est; apply Hpos in He.
Qed.

Lemma inv_sum s pid l sp :
  inv s -> gs_calls s !! pid = Some (Admitting l) ->
  current_mtd_spend month_start (gs_now s) (gs_rows s) = Ok sp -> inv (with_call s pid (Summed l sp)).
Proof.
  intros Hinv Hp Hs. apply (inv_with_call _ _ _ _ Hinv Hp); [done|].
  destruct Hinv as ((HF & Hwf) & Hb & Hc). destruct (Hc _ _ Hp) as [_ [? ?]].
  split; [done|]. split; [done|].
  exists (spend (gs_now s) (gs_rows s)). injection Hs as <-. unfold mtd_spend.
  split; [|by split; [split; [by apply month_spend_nonneg|by apply month_spend_lt]|]].
  unfold month_spend. destruct (current_month _ _ _); [right|left]; done.
Qed.

Lemma inv_insert ok s pid l sp i r :
  inv s -> gs_calls s !! pid = Some (Summed l sp) -> budget_check (E:=unit) g l sp = Ok tt ->
  insert_row ok (gs_rows s) l i = Some r -> inv (with_call s pid (Inserted r)).
Proof.
  intros Hinv Hp Hbc Hi. apply (inv_with_call _ _ _ _ Hinv Hp); [done|].
  destruct Hinv as (_ & _ & Hc). destruct (Hc _ _ Hp) as [_ ((z & Hz & Hpos) & Hk & m & Hm & Hlim & Hle)].
  destruct (insert_row_micro _ _ _ _ _ _ Hi Hz) as (Hcost & Hz12 & Hkey & Hid & Hnew).
  simpl. rewrite Hkey, Hid, Hcost. split; [done|]. split; [done|]. split; [lia|].
  assert (dleb (micro (m + z)) (monthly_budget_usd g) = true) as Hmz.
  { apply (budget_check_micro _ _ _ _ Hbc Hz Hm). unfold micro_limit. lia. }
  rewrite dleb_spec in *. eapply Qle_trans; [|exact Hmz].
  rewrite !dval_micro. apply inject_ten_le. lia.
Qed.

(** Every step keeps the invariant. *)
Lemma gate_step_inv ok s s' : inv s -> gate_step month_start g ok s s' -> inv s'.
Proof.
  intros Hinv Hstep. pose proof Hinv as (Hwf & Hb & Hc).
  destruct Hstep as [s pid clock cap prov est typ sub key l z Hn Hpre Hz|s pid l Hl Hp|s pid l i Hp Hk
    |s pid l Hp Hk Hcap|s pid l sp Hp Hs|s pid l sp i r Hp Hbc Hi|s pid r Hp|s pid p Hp
    |s i a Ha|s now Hn].
  - split; [done|]. split; [done|]. simpl.
    intros pid' p' [[<- <-]|[Hne Hp']]%lookup_insert_Some; [|by apply Hc].
    split; [done|]. exists z. split; [done|]. by eapply precheck_estimate.
  - split; [done|]. split; [done|]. simpl.
    intros pid' p' [[<- <-]|[Hne Hp']]%lookup_insert_Some; [by split; [|apply (Hc _ _ Hp)]|].
    destruct (Hc _ _ Hp') as [Hl' Hok]. split; [|done]. intros Hh. by rewrite (Hl' Hh) in Hl.
  - by apply (inv_release _ _ _ _ Hinv Hp).
  - apply (inv_with_call _ _ _ _ Hinv Hp); [done|]. split; [apply (Hc _ _ Hp)|done].
  - by apply inv_sum.
  - by eapply inv_insert.
  - destruct (Hc _ _ Hp) as [_ (Hk & Hid & Hcost & Hbud)].
    apply (inv_release _ _ _ _ Hinv Hp); [done|by apply table_wf_snoc|].
    unfold within_budget. rewrite dleb_spec in *. eapply Qle_trans; [|exact Hbud].
    rewrite !dval_micro. apply inject_ten_le. by apply month_spend_app.
  - destruct (holds_lock p) eqn:Hh; [by apply (inv_release _ _ _ _ Hinv Hp)|].
    split; [done|]. split; [done|]. simpl. intros pid' p' [_ Hp']%lookup_delete_Some. by apply Hc.
  - destruct Hwf as (HF & Hks & His).
    destruct (settle_rows (gs_now s) _ _ _ Ha HF) as (H1 & H2 & H3 & H4 & H5).
    split; [cbn [gs_rows]; split; [done|by rewrite H3, H4]|]. split; [by eapply within_budget_weaken|].
    simpl. intros pid p Hp. destruct (Hc _ _ Hp) as [? Hok]. split; [done|].
    by eapply phase_ok_weaken.
  - destruct Hwf as (HF & Hwf). pose proof (month_spend_later _ _ _ Hn HF) as Hle.
    split; [done|]. split; [by eapply within_budget_weaken|].
    simpl. intros pid p Hp. destruct (Hc _ _ Hp) as [? Hok]. split; [done|].
    by eapply phase_ok_weaken.
Qed.

Lemma gate_reach_inv ok s0 s : inv s0 -> gate_reach month_start g ok s0 s -> inv s.
Proof. intros H0. induction 1; [done|]. by eapply gate_step_inv. Qed.

Lemma idle_inv rows now :
  table_wf rows -> within_budget month_start g now rows -> inv (idle rows now).
Proof. intros. split; [done|]. split; [done|]. intros pid p Hp. simpl in Hp. by rewrite lookup_empty in Hp. Qed.

End GateLemmas.

(** Theorems *)

(** C7: Whatever the interleaving of concurrent admissions, settlements, clock
    ticks and failures, the spend of the current month stays within the
    monthly budget, and the table keeps unique ids and idempotency keys and
    non-negative costs. *)
Theorem concurrent_admissions_within_budget month_start g ok rows now s :
  (forall a b, a <= b -> month_start a <= month_start b) ->
  dleb (monthly_budget_usd g) (micro (10 ^ 26)) = true ->
  table_wf rows -> within_budget month_start g now rows ->
  gate_reach month_start g ok (idle rows now) s ->
  within_budget month_start g (gs_now s) (gs_rows s) /\ table_wf (gs_rows s).
Proof.
  intros Hm Hg Hwf Hb Hr.
  destruct (gate_reach_inv month_start Hm g Hg ok _ _ (idle_inv _ _ _ _ Hwf Hb) Hr) as (? & ? & _).
  done.
Qed.

Lemma concurrent_admissions_within_budget_witness :
  exists s, gate_reach flat_month example_gate any_row (idle [] 7) s /\
    gs_rows s = [example_row "w1" (Some "k")] /\
    within_budget flat_month example_gate (gs_now s) (gs_rows s) /\ table_wf (gs_rows s).
Proof.
  assert (exists s, gate_reach flat_month example_gate any_row (idle [] 7) s /\
    gs_rows s = [example_row "w1" (Some "k")]) as (s & Hr & Hs).
  { eexists. split.
    { eapply GReachStep; [eapply GReachStep; [eapply GReachStep; [eapply GReachStep;
        [eapply GReachStep; [eapply GReachStep; [apply GReachInit|]|]|]|]|]|].
      - apply (StepCall _ _ _ _ 0%nat (utc 5) "cap" "prov" (EValue (VDec (DFin (micro 2000000))))
          "inference" None (Some "k") (example_launch (Some "k")) 2000000); vm_compute; reflexivity.
      - apply (StepLock _ _ _ _ 0%nat (example_launch (Some "k"))); vm_compute; reflexivity.
      - apply (StepMiss _ _ _ _ 0%nat (example_launch (Some "k"))); vm_compute; reflexivity.
      - apply (StepSum _ _ _ _ 0%nat (example_launch (Some "k")) dzero); vm_compute; reflexivity.
      - apply (StepInsert _ _ _ _ 0%nat (example_launch (Some "k")) dzero "w1"
                 (example_row "w1" (Some "k"))); vm_compute; reflexivity.
      - apply (StepCommit _ _ _ _ 0%nat (example_row "w1" (Some "k"))). vm_compute. reflexivity. }
    reflexivity. }
  exists s. split; [done|]. split; [done|].
  apply (concurrent_admissions_within_budget flat_month example_gate any_row [] 7).
  - done.
  - vm_compute. reflexivity.
  - repeat constructor.
  - vm_compute. reflexivity.
  - exact Hr.
Defined.

(** The budget lock is exclusive: two calls are never both past it. *)
Theorem gate_mutual_exclusion month_start g ok rows now s p q cp cq :
  (forall a b, a <= b -> month_start a <= month_start b) ->
  dleb (monthly_budget_usd g) (micro (10 ^ 26)) = true ->
  table_wf rows -> within_budget month_start g now rows ->
  gate_reach month_start g ok (idle rows now) s ->
  gs_calls s !! p = Some cp -> gs_calls s !! q = Some cq ->
  holds_lock cp = true -> holds_lock cq = true -> p = q.
Proof.
  intros Hm Hg Hwf Hb Hr Hp Hq Hlp Hlq.
  destruct (gate_reach_inv month_start Hm g Hg ok _ _ (idle_inv _ _ _ _ Hwf Hb) Hr) as (_ & _ & Hc).
  destruct (Hc _ _ Hp) as [H1 _]. destruct (Hc _ _ Hq) as [H2 _].
  specialize (H1 Hlp). specialize (H2 Hlq). rewrite H1 in H2. by injection H2.
Qed.

Lemma gate_mutual_exclusion_witness : 0%nat = 0%nat.
Proof.
  apply (gate_mutual_exclusion flat_month example_gate any_row [] 7
    (MkGateState [] (Some 0%nat)
       (<[0%nat := Locked (example_launch None)]> (<[0%nat := Waiting (example_launch None)]> ∅)) 7)
    0%nat 0%nat (Locked (example_launch None)) (Locked (example_launch None))).
  - done.
  - vm_compute. reflexivity.
  - repeat constructor.
  - vm_compute. reflexivity.
  - eapply GReachStep; [eapply GReachStep; [apply GReachInit|]|].
    + apply (StepCall _ _ _ _ 0%nat (utc 5) "cap" "prov" (EValue (VDec (DFin (micro 2000000))))
        "inference" None None (example_launch None) 2000000); vm_compute; reflexivity.
    + apply (StepLock _ _ _ (with_call (idle [] 7) 0%nat (Waiting (example_launch None))) 0%nat
               (example_launch None)); vm_compute; reflexivity.
  - reflexivity.
  - reflexivity.
  - reflexivity.
  - reflexivity.
Defined.



(** The estimate is rounded to a micro-dollar only when it is stored: the
    check sees four tenths of a micro-dollar, the table records nothing, and
    the month's spend never grows. *)
Theorem sub_micro_estimate_is_free :
  try_launch flat_month any_row example_gate (utc 5) 7 [] "cap" "prov"
    (EValue (VStr "0.0000004")) "inference" None None "w1"
  = Ok ([MkRow "w1" "cap" "prov" "inference" QUEUED (Some 0) None 5 None], "w1").
Proof. vm_compute. reflexivity. Qed.

(** A rejection tells the truth: the reason it gives is the check that
    failed, and its snapshot carries the spend and the estimate that were
    compared and a remaining budget that is not negative. *)
Theorem rejection_is_justified {E A} month_start ok g now rows l i (hook : option (result E A)) reason snap :
  admit_launch month_start ok g now rows l i hook = Err (BudgetRejected reason snap) ->
  s_estimate_usd snap = l_estimate l /\ (0 <= dval (s_budget_remaining_usd snap))%Q /\
  match reason with
  | per_request_cap => dltb (per_request_max_usd g) (l_estimate l) = true
  | monthly_budget =>
      s_mtd_spend_usd snap = mtd_spend month_start now rows /\
      exists total, dadd (mtd_spend month_start now rows) (l_estimate l) = Ok total /\
                    dltb (monthly_budget_usd g) total = true
  end.
Proof.
  assert (forall (B : Type) why m, reject (E:=E) (A:=B) g why m (l_estimate l) = Err (BudgetRejected reason snap) ->
    why = reason /\ s_estimate_usd snap = l_estimate l /\ s_mtd_spend_usd snap = m /\
    (0 <= dval (s_budget_remaining_usd snap))%Q) as Hrej.
  { unfold reject, budget_snapshot. intros B why m H.
    destruct (dsub _ m) as [rem|]; [|done]. simpl in H. injection H as <- <-. simpl.
    repeat (split; [done|]). destruct (dltb dzero rem) eqn:Er.
    - apply dltb_spec in Er. unfold dzero in Er. rewrite dval_zero in Er. lra.
    - unfold dzero. rewrite dval_zero. lra. }
  unfold admit_launch. destruct (find_by_key _ _); [done|].
  intros [H|(hk & _ & H)]%rbind_Err.
  { destruct hook as [[?|?]|]; done. }
  destruct (dltb (per_request_max_usd g) _) eqn:Hcap.
  { by apply Hrej in H as (<- & ? & _ & ?). }
  simpl in H. apply rbind_Err in H as [H|([] & _ & H)].
  - unfold budget_check in H. apply rbind_Err in H as [H|(total & Ht & H)].
    { by destruct (dadd _ _). }
    apply rlift_Ok in Ht. destruct (dltb (monthly_budget_usd g) total) eqn:Hb; [|done].
    apply Hrej in H as (<- & ? & ? & ?). split; [done|]. split; [done|]. split; [done|].
    by exists total.
  - by destruct (insert_row _ _ _ _).
Qed.

Lemma rejection_is_justified_witness :
  exists snap, admit_launch (E:=unit) (A:=unit) flat_month any_row (MkGate (of_int 3) (of_int 5)) 7
    [example_row "w1" None] (example_launch None) "w2" None = Err (BudgetRejected monthly_budget snap) /\
  s_estimate_usd snap = micro 2000000 /\ (0 <= dval (s_budget_remaining_usd snap))%Q /\
  s_mtd_spend_usd snap = mtd_spend flat_month 7 [example_row "w1" None] /\
  exists total, dadd (mtd_spend flat_month 7 [example_row "w1" None]) (micro 2000000) = Ok total /\
    dltb (of_int 3) total = true.
Proof.
  eexists. split; [vm_compute; reflexivity|].
  apply (rejection_is_justified (E:=unit) (A:=unit) flat_month any_row (MkGate (of_int 3) (of_int 5)) 7
    [example_row "w1" None] (example_launch None) "w2" None monthly_budget).
  vm_compute. reflexivity.
Defined.
