(* ===== verification/SubBudget.v ===== *)
(** * Sub-budgets and chargeback ([cost/sub_budgets.py])

    [SubBudgetGate] checks a tag's allocation before it delegates to the
    budget gate, and keeps the tag's spend in a dict of the process.  The
    check reads that dict, the admission awaits the database, and the dict is
    written afterwards; the calls are modelled both run alone and
    interleaved at those three points. *)

From S2P Require Import Prelude PyDecimal PyValue PyTime PyFormat Enums BudgetGate.
From Stdlib Require Import QArith Lqa.
#[local] Open Scope Z_scope.

(** Definitions *)

Record SubBudget : Type := MkSubBudget {
  sb_tag : string;
  allocation_usd : dec;
  sb_description : option string;
}.

Definition non_negative_decimal (v : pyval) (name : string) : py dec :=
  let? d := finite_decimal v name in
  if dltb d dzero then Err (ValueError (name +:+ " must be non-negative")) else Ok d.

(** [SubBudget(...)], with its validators. *)
Definition new_sub_budget (tag : string) (allocation : pyval) (description : option string)
  : py SubBudget :=
  if negb (nonempty tag) then Err (ValueError "String should have at least 1 character")
  else let? a := non_negative_decimal allocation "allocation_usd" in
       Ok (MkSubBudget tag a description).

Record SubBudgetConfig : Type := MkConfig { total_budget_usd : dec; budgets : list SubBudget }.

(** The duplicates of [_validate_budgets_sum]: each repeated tag once. *)
Fixpoint duplicate_tags (seen dups : list string) (tags : list string) : list string :=
  match tags with
  | [] => dups
  | t :: tags' =>
      duplicate_tags (t :: seen)
        (if bool_decide (t ∈ seen /\ t ∉ dups) then dups ++ [t] else dups) tags'
  end.

Definition config_tags (c : SubBudgetConfig) : list string := sb_tag <$> budgets c.

(** [SubBudgetConfig(...)], with its validators. *)
Definition new_config (total : pyval) (bs : list SubBudget) : py SubBudgetConfig :=
  let? t := positive_decimal total "total_budget_usd" in
  match duplicate_tags [] [] (sb_tag <$> bs) with
  | (_ :: _) as dups =>
      Err (ValueError ("duplicate sub-budget tag(s): " +:+ String.concat ", " dups))
  | [] =>
      let? sum := dsum dzero (allocation_usd <$> bs) in
      if dltb t sum
      then Err (ValueError ("sub-budget allocations sum " +:+ str_dec_fin sum +:+
                            " exceeds total " +:+ str_dec_fin t))
      else Ok (MkConfig t bs)
  end.

Definition allocation_for (c : SubBudgetConfig) (tag : string) : dec :=
  match find_first (fun b => String.eqb (sb_tag b) tag) (budgets c) with
  | Some b => allocation_usd b
  | None => dzero
  end.

Record SubBudgetSnapshot : Type := MkSubSnapshot {
  ss_tag : string;
  tag_allocation_usd : dec;
  tag_mtd_spend_usd : dec;
  tag_estimate_usd : dec;
  tag_remaining_usd : dec;
}.

Inductive sub_error :=
| SubBudgetRejected (reason : string) (snapshot : SubBudgetSnapshot)
| SubRaised (e : exn).

(** [_quantize_usd] *)
Definition sub_quantize_usd (d : dec) : py dec :=
  match quantize_usd d with
  | Ok q => Ok q
  | Err DecimalInvalidOperation =>
      Err (ValueError ("USD value is out of representable range: " +:+ str_dec_fin d))
  | Err e => Err e
  end.

Abbreviation spend_dict := (list (string * dec)).

(** [_current_tag_spend]: from the resolver, or from the process's dict. *)
Definition current_tag_spend (resolver : option (string -> py pyval)) (memory : spend_dict)
    (tag : string) : py dec :=
  match resolver with
  | Some r =>
      let? raw := r tag in
      let? d := finite_decimal raw "tag_mtd_spend" in sub_quantize_usd d
  | None => Ok (default dzero (al_get tag memory))
  end.

(** [_validate_new_tag_admission]: the tag's spend when the estimate fits. *)
Definition validate_new_tag_admission (cfg : SubBudgetConfig)
    (resolver : option (string -> py pyval)) (memory : spend_dict) (tag : string) (estimate : dec)
  : result sub_error dec :=
  let allocation := allocation_for cfg tag in
  if dleb allocation dzero
  then Err (SubBudgetRejected "unknown_tag" (MkSubSnapshot tag allocation dzero estimate dzero))
  else
    let? mtd := rlift SubRaised (current_tag_spend resolver memory tag) in
    let? total := rlift SubRaised (dadd mtd estimate) in
    if dltb allocation total then
      let? remaining := rlift SubRaised (dsub allocation mtd) in
      Err (SubBudgetRejected "sub_budget"
             (MkSubSnapshot tag allocation mtd estimate
                (if dltb dzero remaining then remaining else dzero)))
    else Ok mtd.

Section SubGate.
Context (month_start : Z -> Z) (ok : workload_row -> bool).
Context (g : BudgetGate) (cfg : SubBudgetConfig) (resolver : option (string -> py pyval)).

(** One call's arguments. *)
Record sub_call : Type := MkSubCall {
  c_tag : string;
  c_capability_id : string;
  c_provider_id : string;
  c_estimate : EstimateInput;
  c_type : string;
  c_submitted : option datetime;
  c_key : option string;
  c_new_id : string;
}.

(** [self._memory_spend[tag] = mtd + estimate], for a new admission. *)
Definition record_spend (memory : spend_dict) (tag : string) (mtd estimate : dec)
  : py spend_dict :=
  let? total := dadd mtd estimate in Ok (al_set tag total memory).

(** The call up to the admission: its estimate and, without an idempotency
    key, the spend the check read. *)
Definition sub_validate (memory : spend_dict) (c : sub_call)
  : result (gate_error sub_error) (dec * option dec) :=
  let? estimate := rlift Raised (positive_estimate (c_estimate c)) in
  match c_key c with
  | None =>
      let? mtd := rlift HookError
        (validate_new_tag_admission cfg resolver memory (c_tag c) estimate) in
      Ok (estimate, Some mtd)
  | Some _ => Ok (estimate, None)
  end.

(** The admission; with a key the check is the gate's hook. *)
Definition sub_admit (clock : datetime) (now : Z) (memory : spend_dict) (rows : list workload_row)
    (c : sub_call) (estimate : dec)
  : result (gate_error sub_error) (list workload_row * BudgetAdmission * option dec) :=
  try_launch_admission month_start ok g clock now rows (c_capability_id c) (c_provider_id c)
    (EValue (VDec (DFin estimate))) (c_type c) (c_submitted c) (c_key c) (c_new_id c)
    (match c_key c with
     | Some _ => Some (validate_new_tag_admission cfg resolver memory (c_tag c) estimate)
     | None => None
     end).

(** What follows a new admission. *)
Definition sub_record (memory : spend_dict) (c : sub_call) (estimate : dec) (mtd : option dec)
  : result (gate_error sub_error) spend_dict :=
  let? mtd := match mtd with
              | Some m => Ok m
              | None => rlift HookError
                          (validate_new_tag_admission cfg resolver memory (c_tag c) estimate)
              end in
  rlift Raised (record_spend memory (c_tag c) mtd estimate).

(** [try_launch], run alone: the rows and the dict after it, and the id or
    the exception.  An exception after the admission leaves its row. *)
Definition sub_try_launch (clock : datetime) (now : Z) (memory : spend_dict)
    (rows : list workload_row) (c : sub_call)
  : list workload_row * spend_dict * result (gate_error sub_error) string :=
  match sub_validate memory c with
  | Err e => (rows, memory, Err e)
  | Ok (estimate, mtd) =>
      match sub_admit clock now memory rows c estimate with
      | Err e => (rows, memory, Err e)
      | Ok (rows', adm, hooked) =>
          if is_new adm then
            match sub_record memory c estimate (match mtd with Some m => Some m | None => hooked end) with
            | Ok memory' => (rows', memory', Ok (workload_id adm))
            | Err e => (rows', memory, Err e)
            end
          else (rows', memory, Ok (workload_id adm))
      end
  end.

(** ** Interleaved calls without a key *)

Inductive sub_phase :=
| Validated (c : sub_call) (estimate : dec) (mtd : option dec)
| GateAdmitted (c : sub_call) (estimate : dec) (mtd : option dec).

Record sub_state : Type := MkSubState {
  sub_rows : list workload_row;
  sub_memory : spend_dict;
  sub_calls : gmap nat sub_phase;
}.

(** The three points at which the event loop may switch between calls. *)
Inductive sub_step : sub_state -> sub_state -> Prop :=
| SubValidate s pid c estimate mtd :
    sub_calls s !! pid = None -> sub_validate (sub_memory s) c = Ok (estimate, mtd) ->
    sub_step s (MkSubState (sub_rows s) (sub_memory s) (<[pid := Validated c estimate mtd]> (sub_calls s)))
| SubAdmit s pid c estimate mtd clock now rows' adm hooked :
    sub_calls s !! pid = Some (Validated c estimate mtd) ->
    sub_admit clock now (sub_memory s) (sub_rows s) c estimate = Ok (rows', adm, hooked) ->
    sub_step s (MkSubState rows' (sub_memory s)
      (if is_new adm
       then <[pid := GateAdmitted c estimate (match mtd with Some m => Some m | None => hooked end)]> (sub_calls s)
       else delete pid (sub_calls s)))
| SubRecord s pid c estimate mtd memory' :
    sub_calls s !! pid = Some (GateAdmitted c estimate mtd) ->
    sub_record (sub_memory s) c estimate mtd = Ok memory' ->
    sub_step s (MkSubState (sub_rows s) memory' (delete pid (sub_calls s))).

Inductive sub_reach (s0 : sub_state) : sub_state -> Prop :=
| SubReachInit : sub_reach s0 s0
| SubReachStep s s' : sub_reach s0 s -> sub_step s s' -> sub_reach s0 s'.

(** Every tag's recorded spend is within its allocation. *)
Definition memory_within (memory : spend_dict) : Prop :=
  forall tag spend, al_get tag memory = Some spend -> dleb spend (allocation_for cfg tag) = true.

(** A sequence of calls, one after the other. *)
Definition sub_run (calls : list (datetime * Z * sub_call)) (s : list workload_row * spend_dict)
  : list workload_row * spend_dict :=
  foldl (fun s c => (sub_try_launch c.1.1 c.1.2 s.2 s.1 c.2).1) s calls.

End SubGate.

(** ** Chargeback *)

Record ChargebackLineItem : Type := MkLineItem {
  li_tag : string;
  li_allocation_usd : dec;
  li_spend_usd : pydec;
  li_remaining_usd : pydec;
}.

Record ChargebackReport : Type := MkReport {
  total_spend_usd : pydec;
  line_items : list ChargebackLineItem;
  unallocated_spend_usd : pydec;
}.

(** [_quantize_usd] with special values: a NaN passes, an infinity does not. *)
Definition pd_quantize_usd (d : pydec) : py pydec :=
  match d with
  | DFin d => rmap DFin (sub_quantize_usd d)
  | DNaN => Ok DNaN
  | DInf _ => Err (ValueError "USD value is out of representable range")
  end.

(** [_decimal_from_mapping]: what is not an amount reads as absent. *)
Definition decimal_from_mapping (m : dict) (key : string) : option pydec :=
  match dict_get_none key m with
  | VNone => None
  | v => match (let? d := decimal_of_str v in pd_quantize_usd d) with
         | Ok q => Some q
         | Err _ => None
         end
  end.

Definition workload_cost (w : dict) : option pydec :=
  match decimal_from_mapping w "cost_actual_usd" with
  | Some c => Some c
  | None => decimal_from_mapping w "cost_estimate_usd"
  end.

Abbreviation tag_dict := (list (string * pydec)).

Section Chargeback.
Context (tag_resolver : option (dict -> option string)).

Definition resolve_tag (w : dict) : option string :=
  match tag_resolver with Some f => f w | None => None end.

(** One round of the loop: the spend per tag and the unallocated spend. *)
Definition chargeback_step (acc : tag_dict * pydec) (w : dict) : py (tag_dict * pydec) :=
  match workload_cost w with
  | None => Ok acc
  | Some cost =>
      match resolve_tag w with
      | Some tag =>
          let? total := pd_add (default (DFin dzero) (al_get tag acc.1)) cost in
          Ok (al_set tag total acc.1, acc.2)
      | None => let? total := pd_add acc.2 cost in Ok (acc.1, total)
      end
  end.

Definition line_item (tag_spend : tag_dict) (b : SubBudget) : py ChargebackLineItem :=
  let spend := default (DFin dzero) (al_get (sb_tag b) tag_spend) in
  let? remaining := pd_sub (DFin (allocation_usd b)) spend in
  let? negative := pd_negative remaining in
  Ok (MkLineItem (sb_tag b) (allocation_usd b) spend (if negative then DFin dzero else remaining)).

(** [generate_chargeback_report] *)
Definition generate_chargeback_report (cfg : SubBudgetConfig) (workloads : list dict)
  : py ChargebackReport :=
  let? (tag_spend, unallocated) := foldR chargeback_step ([], DFin dzero) workloads in
  let? tagged := pd_sum (snd <$> tag_spend) in
  let? total := pd_add tagged unallocated in
  let? items := mapR (line_item tag_spend) (budgets cfg) in
  let? t := pd_quantize_usd total in
  let? u := pd_quantize_usd unallocated in
  Ok (MkReport t items u).

(** The workloads' costs as micro-dollars, with their tags. *)
Definition costs_are (ws : list dict) (cs : list (option string * Z)) : Prop :=
  Forall2 (fun w c => resolve_tag w = c.1 /\ workload_cost w = Some (DFin (micro c.2))) ws cs.

End Chargeback.

Definition spend_where (P : option string -> bool) (cs : list (option string * Z)) : Z :=
  foldr (fun c s => (if P c.1 then c.2 else 0) + s) 0 cs.
Definition spend_total (cs : list (option string * Z)) : Z := spend_where (fun _ => true) cs.
Definition spend_of_tag (t : string) (cs : list (option string * Z)) : Z :=
  spend_where (fun o => bool_decide (o = Some t)) cs.
Definition spend_untagged (cs : list (option string * Z)) : Z :=
  spend_where (fun o => bool_decide (o = None)) cs.

(** Concrete inputs used by the witnesses. *)
Definition example_config : SubBudgetConfig :=
  MkConfig (of_int 100) [MkSubBudget "ml" (of_int 10) None; MkSubBudget "web" (of_int 5) None].
Definition example_sub_gate : BudgetGate := MkGate (of_int 100) (of_int 50).
Definition ml_call (i : string) (amount : Z) : sub_call :=
  MkSubCall "ml" "cap" "prov" (EValue (VInt amount)) "inference" None None i.
Definition ml_row (i : string) : workload_row :=
  MkRow i "cap" "prov" "inference" QUEUED (Some 6000000) None 5 None.
Definition cost_row (tag : string) (z : Z) : dict :=
  [("tag", VStr tag); ("cost_actual_usd", VDec (DFin (micro z)))].
Definition by_tag (w : dict) : option string := as_str (dict_get_none "tag" w).

(** Helper lemmas *)

Lemma validate_inv cfg resolver memory tag est mtd :
  validate_new_tag_admission cfg resolver memory tag est = Ok mtd ->
  current_tag_spend resolver memory tag = Ok mtd /\
  exists total, dadd mtd est = Ok total /\ dleb total (allocation_for cfg tag) = true.
Proof.
  unfold validate_new_tag_admission. destruct (dleb _ dzero); [done|].
  intros (m & Hm & H)%rbind_Ok. apply rlift_Ok in Hm.
  apply rbind_Ok in H as (t & Ht & H). apply rlift_Ok in Ht.
  destruct (dltb _ t) eqn:E.
  - apply rbind_Ok in H as (r & _ & H). done.
  - injection H as <-. split; [done|]. exists t. split; [done|].
    apply dltb_false in E. by apply dleb_spec.
Qed.

Lemma admit_hook {E A} ms ok g now rows l i (h : option (result E A)) rows' adm o :
  admit_launch ms ok g now rows l i h = Ok (rows', adm, o) -> is_new adm = true ->
  match h with Some r => exists a, r = Ok a /\ o = Some a | None => o = None end.
Proof.
  unfold admit_launch. destruct (find_by_key _ _); [by intros [= <- <- <-]|].
  intros (hk & Hh & H)%rbind_Ok Hn. destruct (dltb _ _).
  { unfold reject in H. by destruct (budget_snapshot _ _ _). }
  apply rbind_Ok in H as (sp & _ & H). apply rbind_Ok in H as ([] & _ & H).
  destruct (insert_row _ _ _ _); [|done]. injection H as _ _ <-.
  destruct h as [r|]; [|by injection Hh as <-]. apply rlift_Ok, rmap_Ok in Hh as (a & -> & ->).
  by exists a.
Qed.

(** A new admission, run alone, adds its checked total to its own tag. *)
Lemma sub_try_launch_memory ms ok g cfg clock now memory rows c rows' memory' r :
  sub_try_launch ms ok g cfg None clock now memory rows c = (rows', memory', r) ->
  memory' = memory \/
  exists total, memory' = al_set (c_tag c) total memory /\
    dleb total (allocation_for cfg (c_tag c)) = true.
Proof.
  unfold sub_try_launch. destruct (sub_validate _ _ _ _) as [[est mtd]|e] eqn:Hv;
    [|intros [= <- <- <-]; by left].
  destruct (sub_admit _ _ _ _ _ _ _ _ _ _ _) as [[[rs adm] hk]|e] eqn:Ha;
    [|intros [= <- <- <-]; by left].
  destruct (is_new adm) eqn:Hn; [|intros [= <- <- <-]; by left].
  destruct (sub_record _ _ _ _ _ _) as [m'|e] eqn:Hr; [|intros [= <- <- <-]; by left].
  intros [= <- <- <-]. right.
  assert (exists m, (match mtd with Some m => Some m | None => hk end) = Some m /\
    validate_new_tag_admission cfg None memory (c_tag c) est = Ok m) as (m & Em & Hval).
  { unfold sub_validate in Hv. apply rbind_Ok in Hv as (e & He & Hv).
    destruct (c_key c) as [k|] eqn:Hk.
    - injection Hv as <- <-. unfold sub_admit, try_launch_admission in Ha. rewrite Hk in Ha.
      apply rbind_Ok in Ha as (l & _ & Ha). apply admit_hook in Ha; [|done].
      destruct Ha as (m & Hm & ->). by exists m.
    - apply rbind_Ok in Hv as (m & Hm & [= <- <-]). apply rlift_Ok in Hm. by exists m. }
  rewrite Em in Hr. unfold sub_record, record_spend in Hr. simpl in Hr.
  apply rlift_Ok, rbind_Ok in Hr as (t & Ht & [= <-]).
  apply validate_inv in Hval as (_ & t' & Ht' & Hle). rewrite Ht in Ht'. injection Ht' as <-.
  by exists t.
Qed.

Lemma memory_within_set cfg memory tag total :
  memory_within cfg memory -> dleb total (allocation_for cfg tag) = true ->
  memory_within cfg (al_set tag total memory).
Proof.
  intros Hm Ht t s. destruct (decide (t = tag)) as [->|Hne].
  - rewrite al_get_set. by intros [= <-].
  - rewrite al_get_set_ne by done. apply Hm.
Qed.

Lemma pd_add_micro a b x y :
  is_micro a x -> is_micro b y -> Z.abs (x + y) < micro_limit ->
  exists s, pd_add (DFin a) (DFin b) = Ok (DFin s) /\ is_micro s (x + y).
Proof.
  intros Ha Hb H. destruct (is_micro_add _ _ _ _ Ha Hb H) as (s & Hs & Hm).
  exists s. split; [|done]. simpl. by rewrite Hs.
Qed.

Lemma spend_where_abs P cs : Z.abs (spend_where P cs) <= spend_where (fun _ => true) ((fun c => (c.1, Z.abs c.2)) <$> cs).
Proof. induction cs as [|c cs IH]; csimpl; [done|]. destruct (P c.1); lia. Qed.

Lemma spend_where_app P a b : spend_where P (a ++ b) = spend_where P a + spend_where P b.
Proof. induction a as [|c a IH]; simpl; [done|]. lia. Qed.

(** The accumulators of the loop, as micro-dollar sums of what was read. *)
Definition acc_is (acc : tag_dict * pydec) (cs : list (option string * Z)) : Prop :=
  al_wf acc.1 /\
  (forall t, exists d, default (DFin dzero) (al_get t acc.1) = DFin d /\ is_micro d (spend_of_tag t cs)) /\
  (exists d, acc.2 = DFin d /\ is_micro d (spend_untagged cs)) /\
  (forall t, t ∉ acc.1.*1 -> spend_of_tag t cs = 0) /\
  spend_where (fun o => bool_decide (is_Some o)) cs =
    foldr (fun t s => spend_of_tag t cs + s) 0 acc.1.*1.

(** Writing one tag's total changes the sum over the tags by the cost. *)
Lemma sum_over_set (f f' : string -> Z) (tag : string) (v : pydec) (m : tag_dict) (z : Z) :
  al_wf m -> (tag ∉ m.*1 -> f tag = 0) -> f' tag = f tag + z -> (forall t, t <> tag -> f' t = f t) ->
  foldr (fun t s => f' t + s) 0 (al_set tag v m).*1 = foldr (fun t s => f t + s) 0 m.*1 + z.
Proof.
  intros Hwf Hnew Htag Hne.
  assert (forall l : list string, tag ∉ l -> foldr (fun t s => f' t + s) 0 l = foldr (fun t s => f t + s) 0 l) as Hsame.
  { induction l as [|t l IH]; [done|]. simpl. rewrite elem_of_cons. intros Hn.
    rewrite IH, Hne; [done| |]; intros ?; apply Hn; auto. }
  unfold al_wf in Hwf. revert Hwf Hnew. induction m as [|[k v'] m IH]; csimpl.
  - intros _ Hnew. rewrite Htag, Hnew; [lia|]. apply not_elem_of_nil.
  - rewrite NoDup_cons. intros [Hn Hd] Hnew. case_decide as E; csimpl.
    + subst k. rewrite Hsame by done. lia.
    + rewrite IH; [rewrite Hne by congruence; lia|done|].
      intros Hm. apply Hnew. rewrite elem_of_cons. by intros [?|?].
Qed.

Lemma chargeback_loop f ws cs acc pre r :
  costs_are f ws cs -> acc_is acc pre ->
  spend_where (fun _ => true) ((fun c => (c.1, Z.abs c.2)) <$> (pre ++ cs)) < micro_limit ->
  foldR (chargeback_step f) acc ws = Ok r -> acc_is r (pre ++ cs).
Proof.
  intros Hcs. revert acc pre. induction Hcs as [|w [o z] ws cs [Ho Hc] _ IH]; intros acc pre Hacc Hlim; simpl.
  { intros [= <-]. by rewrite app_nil_r. }
  intros (acc' & Hstep & Hrest)%rbind_Ok.
  rewrite (cons_middle (o, z) pre cs), app_assoc in Hlim |- *.
  apply (IH acc' (pre ++ [(o, z)])); [|done|done]. clear IH Hrest.
  destruct Hacc as (Hwf & Ht & (u & Hu & Hum) & Hnew & Hsum).
  assert (forall P, Z.abs (spend_where P (pre ++ [(o, z)])) < micro_limit) as Hb.
  { intros P. eapply Z.le_lt_trans; [apply spend_where_abs|]. eapply Z.le_lt_trans; [|exact Hlim].
    rewrite !fmap_app, !spend_where_app.
    pose proof (spend_where_abs (fun _ => true) ((fun c => (c.1, Z.abs c.2)) <$> cs)).
    assert (0 <= spend_where (fun _ => true) ((fun c => (c.1, Z.abs c.2)) <$> cs)); [|lia].
    clear. induction cs as [|c cs IH]; csimpl; [done|]. lia. }
  unfold chargeback_step in Hstep. simpl in Ho, Hc. rewrite Ho, Hc in Hstep.
  unfold spend_of_tag, spend_untagged in *. destruct o as [tag|].
  - destruct (Ht tag) as (d & Hd & Hdm). rewrite Hd in Hstep.
    assert (spend_where (fun o => bool_decide (o = Some tag)) (pre ++ [(Some tag, z)]) =
            spend_where (fun o => bool_decide (o = Some tag)) pre + z) as Etag.
    { rewrite spend_where_app. simpl. rewrite bool_decide_true by done. lia. }
    destruct (pd_add_micro d (micro z) _ z Hdm ltac:(by left)) as (s & Hs & Hsm).
    { rewrite <- Etag. apply Hb. }
    rewrite Hs in Hstep. injection Hstep as <-. unfold acc_is. cbn [fst snd].
    unfold spend_of_tag, spend_untagged.
    assert (forall t, t <> tag -> spend_where (fun o => bool_decide (o = Some t)) (pre ++ [(Some tag, z)]) =
            spend_where (fun o => bool_decide (o = Some t)) pre) as Eother.
    { intros t Hne. rewrite spend_where_app. simpl. rewrite bool_decide_false by congruence. lia. }
    split; [by apply al_set_wf|]. split; [|split; [|split]].
    + intros t. destruct (decide (t = tag)) as [->|Hne].
      * exists s. rewrite al_get_set, Etag. done.
      * rewrite al_get_set_ne, Eother by done. apply Ht.
    + exists u. split; [done|]. rewrite spend_where_app. simpl. by rewrite !Z.add_0_r.
    + intros t. rewrite al_set_keys. intros Hn. rewrite Eother; [apply Hnew|]; intros ?; apply Hn; auto.
    + rewrite spend_where_app, Hsum. simpl.
      rewrite (sum_over_set (fun t => spend_where (fun o => bool_decide (o = Some t)) pre) _ tag _ _ z);
        [lia|done|apply Hnew|done|done].
  - destruct (pd_add_micro u (micro z) _ z Hum ltac:(by left)) as (s & Hs & Hsm).
    { specialize (Hb (fun o => bool_decide (o = None))). rewrite spend_where_app in Hb. simpl in Hb.
      by rewrite Z.add_0_r in Hb. }
    rewrite Hu, Hs in Hstep. injection Hstep as <-. unfold acc_is. cbn [fst snd].
    unfold spend_of_tag, spend_untagged.
    assert (forall t, spend_where (fun o => bool_decide (o = Some t)) (pre ++ [(None, z)]) =
            spend_where (fun o => bool_decide (o = Some t)) pre) as Eall.
    { intros t. rewrite spend_where_app. simpl. lia. }
    split; [done|]. split; [|split; [|split]].
    + intros t. rewrite Eall. apply Ht.
    + exists s. split; [done|]. rewrite spend_where_app. simpl. by rewrite Z.add_0_r.
    + intros t. rewrite Eall. apply Hnew.
    + rewrite spend_where_app, Hsum. simpl. rewrite Z.add_0_r.
      apply foldr_ext; [|done|done]. intros t s'. by rewrite Eall.
Qed.

Definition sum_Z (l : list Z) : Z := foldr Z.add 0 l.

Lemma pd_sum_micro ds zs acc a :
  Forall2 (fun d z => exists x, d = DFin x /\ is_micro x z) ds zs -> is_micro acc a ->
  (forall n, Z.abs (a + sum_Z (take n zs)) < micro_limit) ->
  exists s, foldR pd_add (DFin acc) ds = Ok (DFin s) /\ is_micro s (a + sum_Z zs).
Proof.
  intros HF. revert acc a. induction HF as [|d z ds zs (x & -> & Hx) _ IH]; intros acc a Ha Hlim; simpl.
  { exists acc. by rewrite Z.add_0_r. }
  destruct (pd_add_micro _ _ _ _ Ha Hx) as (s & Hs & Hm).
  { specialize (Hlim 1%nat). simpl in Hlim. rewrite Z.add_0_r in Hlim. exact Hlim. }
  simpl in Hs. rewrite Hs. cbn [rbind].
  destruct (IH s (a + z) Hm) as (s' & Hs' & Hm').
  { intros n. specialize (Hlim (S n)). simpl in Hlim. by rewrite <- Z.add_assoc. }
  exists s'. split; [done|]. by rewrite Z.add_assoc.
Qed.

(** The tags' sums together are the sum over the workloads of those tags. *)
Definition tag_in (l : list string) (o : option string) : bool :=
  match o with Some t => bool_decide (t ∈ l) | None => false end.

Lemma sum_over_tags (l : list string) cs :
  NoDup l -> sum_Z ((fun t => spend_of_tag t cs) <$> l) = spend_where (tag_in l) cs.
Proof.
  induction 1 as [|t l Hn Hd IH]; csimpl.
  - induction cs as [|[[t|] z] cs IHc]; simpl; [done| |]; by rewrite <- IHc.
  - rewrite IH. unfold spend_of_tag. clear IH Hd. induction cs as [|[o z] cs IHc]; simpl; [done|].
    rewrite <- IHc. destruct o as [t'|]; simpl; [|done || lia].
    destruct (decide (t' = t)) as [->|Hne].
    + rewrite (bool_decide_true (Some t = Some t)) by done.
      rewrite (bool_decide_false (t ∈ l)) by done.
      rewrite bool_decide_true by constructor. lia.
    + rewrite (bool_decide_false (Some t' = Some t)) by congruence.
      rewrite (bool_decide_ext (t' ∈ t :: l) (t' ∈ l)); [lia|].
      rewrite elem_of_cons. by split; [intros [?|?]|auto].
Qed.

Lemma spend_where_split cs :
  spend_total cs = spend_where (fun o => bool_decide (is_Some o)) cs + spend_untagged cs.
Proof.
  unfold spend_total, spend_untagged. induction cs as [|[[t|] z] cs IH]; simpl; [done| |]; lia.
Qed.

Lemma tag_spend_sum m un cs :
  acc_is (m, un) cs ->
  spend_where (fun _ => true) ((fun c => (c.1, Z.abs c.2)) <$> cs) < micro_limit ->
  exists s u t, pd_sum (snd <$> m) = Ok (DFin s) /\ un = DFin u /\
    pd_add (DFin s) un = Ok (DFin t) /\ is_micro t (spend_total cs) /\
    is_micro u (spend_untagged cs).
Proof.
  intros (Hwf & Ht & (u & Hu & Hum) & _ & Hsum) Hlim. cbn [fst snd] in *.
  assert (spend_where (fun o => bool_decide (is_Some o)) cs =
          sum_Z ((fun t => spend_of_tag t cs) <$> m.*1)) as Hsum'.
  { rewrite Hsum. generalize m.*1 as l. induction l as [|t l IH]; csimpl; [done|]. by rewrite IH. }
  destruct (pd_sum_micro (snd <$> m) ((fun t => spend_of_tag t cs) <$> m.*1) dzero 0) as (s & Hs & Hsm).
  - rewrite <- list_fmap_compose. apply Forall2_fmap, Forall_Forall2_diag, Forall_forall.
    intros [k v] Hin. apply al_get_elem in Hin; [|done].
    destruct (Ht k) as (d & Hd & Hm). rewrite Hin in Hd. simpl in *. subst v. by exists d.
  - by right.
  - intros n. rewrite Z.add_0_l, <- fmap_take, sum_over_tags.
    + eapply Z.le_lt_trans; [apply spend_where_abs|done].
    + eapply sublist_NoDup; [exact Hwf|apply sublist_take].
  - rewrite Z.add_0_l, <- Hsum' in Hsm.
    destruct (pd_add_micro _ _ _ _ Hsm Hum) as (t & Hadd & Hm).
    { rewrite <- spend_where_split. eapply Z.le_lt_trans; [apply spend_where_abs|done]. }
    rewrite <- spend_where_split in Hm. exists s, u, t. by rewrite Hu.
Qed.

(** Theorems *)

(** Calls made one after the other never spend more of a tag than its
    allocation: the gate's dict stays within every allocation. *)
Theorem sequential_sub_budgets_hold ms ok g cfg calls rows memory rows' memory' :
  memory_within cfg memory -> sub_run ms ok g cfg None calls (rows, memory) = (rows', memory') ->
  memory_within cfg memory'.
Proof.
  unfold sub_run. revert rows memory. induction calls as [|[[clock now] c] calls IH]; intros rows memory Hm.
  - by intros [= <- <-].
  - simpl. destruct (sub_try_launch _ _ _ _ _ _ _ _ _ _) as [[rs m] r] eqn:E. simpl.
    apply IH. apply sub_try_launch_memory in E as [->|(total & -> & Ht)]; [done|].
    by apply memory_within_set.
Qed.

Lemma sequential_sub_budgets_hold_witness :
  exists rows' memory',
    sub_run flat_month any_row example_sub_gate example_config None
      [((utc 5, 7), ml_call "w1" 6); ((utc 5, 7), ml_call "w2" 6)] ([], []) = (rows', memory') /\
    memory_within example_config memory'.
Proof.
  eexists _, _. split; [vm_compute; reflexivity|].
  eapply (sequential_sub_budgets_hold flat_month any_row example_sub_gate example_config
    [((utc 5, 7), ml_call "w1" 6); ((utc 5, 7), ml_call "w2" 6)] [] []).
  - by intros tag spend H.
  - vm_compute. reflexivity.
Defined.

(** Calls that interleave do: the check reads the dict, the admission awaits
    the database, and the dict is written from the value read before.  Two
    calls of 6 USD on a tag with 10 USD are both admitted, and the dict then
    says 6. *)
Theorem interleaved_launches_overspend :
  exists s, sub_reach flat_month any_row example_sub_gate example_config None
              (MkSubState [] [] ∅) s /\
    sub_calls s = ∅ /\ al_get "ml" (sub_memory s) = Some (of_int 6) /\
    sum_costs (sub_rows s) = 12000000 /\
    dltb (allocation_for example_config "ml") (micro (sum_costs (sub_rows s))) = true.
Proof.
  eexists. split.
  { eapply SubReachStep; [eapply SubReachStep; [eapply SubReachStep; [eapply SubReachStep;
      [eapply SubReachStep; [eapply SubReachStep; [apply SubReachInit|]|]|]|]|]|].
    - apply (SubValidate _ _ _ _ _ _ 0%nat (ml_call "w1" 6) (of_int 6) (Some dzero)); vm_compute; reflexivity.
    - apply (SubValidate _ _ _ _ _ _ 1%nat (ml_call "w2" 6) (of_int 6) (Some dzero)); vm_compute; reflexivity.
    - apply (SubAdmit _ _ _ _ _ _ 0%nat (ml_call "w1" 6) (of_int 6) (Some dzero) (utc 5) 7
               [ml_row "w1"] (MkAdmission "w1" true) None); vm_compute; reflexivity.
    - apply (SubAdmit _ _ _ _ _ _ 1%nat (ml_call "w2" 6) (of_int 6) (Some dzero) (utc 5) 7
               [ml_row "w1"; ml_row "w2"] (MkAdmission "w2" true) None); vm_compute; reflexivity.
    - apply (SubRecord _ _ _ _ _ _ 0%nat (ml_call "w1" 6) (of_int 6) (Some dzero) [("ml", of_int 6)]);
        vm_compute; reflexivity.
    - apply (SubRecord _ _ _ _ _ _ 1%nat (ml_call "w2" 6) (of_int 6) (Some dzero) [("ml", of_int 6)]);
        vm_compute; reflexivity. }
  vm_compute. done.
Qed.

(** Chargeback conserves money: over workloads whose costs are micro-dollar
    amounts the report's total is their sum, the unallocated part is the sum
    of the workloads without a tag, and each line has its tag's sum and the
    allocation less that sum, floored at zero. *)
Theorem chargeback_conserves f cfg ws cs rep :
  costs_are f ws cs ->
  spend_where (fun _ => true) ((fun c => (c.1, Z.abs c.2)) <$> cs) < micro_limit ->
  generate_chargeback_report f cfg ws = Ok rep ->
  total_spend_usd rep = DFin (micro (spend_total cs)) /\
  unallocated_spend_usd rep = DFin (micro (spend_untagged cs)) /\
  Forall2 (fun b li => li_tag li = sb_tag b /\ li_allocation_usd li = allocation_usd b /\
    exists d r, li_spend_usd li = DFin d /\ is_micro d (spend_of_tag (sb_tag b) cs) /\
      dsub (allocation_usd b) d = Ok r /\
      li_remaining_usd li = DFin (if dltb r dzero then dzero else r))
    (budgets cfg) (line_items rep).
Proof.
  intros Hcs Hlim H. unfold generate_chargeback_report in H.
  apply rbind_Ok in H as ([m un] & Hloop & H).
  apply (chargeback_loop f ws cs _ [] _ Hcs) in Hloop; [|split; [constructor|]; split;
    [intros t; exists dzero; split; [done|by right]|]; split; [exists dzero; split; [done|by right]|done]|done].
  simpl in Hloop. pose proof (tag_spend_sum _ _ _ Hloop Hlim) as (s & u & t & Hs & -> & Ht & Htm & Hum).
  rewrite Hs in H. cbn [rbind] in H. rewrite Ht in H. cbn [rbind] in H.
  apply rbind_Ok in H as (items & Hitems & H).
  assert (forall P, Z.abs (spend_where P cs) < micro_limit) as Hb.
  { intros P. eapply Z.le_lt_trans; [apply spend_where_abs|done]. }
  simpl in H. unfold sub_quantize_usd in H.
  rewrite (is_micro_quantize _ _ Htm), (is_micro_quantize _ _ Hum) in H by apply Hb.
  injection H as <-. cbn. split; [done|]. split; [done|].
  apply mapR_Ok in Hitems. eapply Forall2_impl; [exact Hitems|].
  intros b li Hli. unfold line_item in Hli. destruct Hloop as (_ & Htag & _).
  destruct (Htag (sb_tag b)) as (d & Hd & Hdm). simpl in Hd. rewrite Hd in Hli.
  apply rbind_Ok in Hli as (r & Hr & Hli). unfold pd_sub, pd_add, pd_neg in Hr.
  apply rmap_Ok in Hr as (r' & Hr & ->). simpl in Hli. injection Hli as <-. simpl.
  split; [done|]. split; [done|]. exists d, r'. split; [done|]. split; [done|].
  split; [exact Hr|]. by destruct (dltb r' dzero).
Qed.

Lemma chargeback_conserves_witness :
  exists rep, generate_chargeback_report (Some by_tag) example_config
    [cost_row "ml" 3000000; cost_row "web" 7000000; cost_row "ml" 1] = Ok rep /\
  total_spend_usd rep = DFin (micro (spend_total
    [(Some "ml", 3000000); (Some "web", 7000000); (Some "ml", 1)])).
Proof.
  eexists. split; [vm_compute; reflexivity|].
  apply (chargeback_conserves (Some by_tag) example_config
    [cost_row "ml" 3000000; cost_row "web" 7000000; cost_row "ml" 1]
    [(Some "ml", 3000000); (Some "web", 7000000); (Some "ml", 1)]).
  - repeat constructor; vm_compute; reflexivity.
  - vm_compute. reflexivity.
  - vm_compute. reflexivity.
Defined.
