(* ===== verification/LeaseStore.v ===== *)
(** * The lease table ([db/repository.py], [leases/mutations.py])

    [LeaseRepository] over [pitwall.leases], [lease_mutation_idempotency] and
    [config_audit].  Every mutation runs in one transaction that holds the
    lease's row lock ([SELECT ... FOR UPDATE]) from its first statement, and
    an exception rolls the transaction back: a mutation is a function of the
    three tables whose error leaves them as they were, and concurrent
    mutations of a lease take effect in the order in which they get its lock.
    Instants are microseconds.

    [request_hash] is the SHA-256 of the payload's canonical JSON. *)

From S2P Require Import Prelude PyValue PyTime PyFormat Enums LeaseState.

(** Definitions *)

Record LeaseReadiness : Type := MkReadiness {
  runtime_seen_at : option Z;
  port_mappings_seen_at : option Z;
  probe_passed_at : option Z;
  probe_method : option string;
}.

(** [LeaseReadiness.has_active_signals] *)
Definition has_active_signals (r : LeaseReadiness) : bool :=
  bool_decide (is_Some (runtime_seen_at r)) && bool_decide (is_Some (port_mappings_seen_at r)) &&
  bool_decide (is_Some (probe_passed_at r)).

(** [LeaseEndpoints], with [LeaseTcpEndpoint]s as (host, port). *)
Record LeaseEndpoints : Type := MkEndpoints {
  le_http : list (string * string);
  le_tcp : list (string * (string * Z));
}.

(** A row of [pitwall.leases]; the cost is in micro-USD, as [NUMERIC(12,6)]. *)
Record lease_row : Type := MkLease {
  ls_provider_id : string;
  ls_runpod_pod_id : string;
  ls_state : LeaseState;
  ls_created_at : Z;
  ls_expires_at : Z;
  ls_renewal_policy : string;
  ls_auto_teardown : bool;
  ls_endpoints : option LeaseEndpoints;
  ls_readiness : option LeaseReadiness;
  ls_cost_accrued : option Z;
  ls_last_health_at : option Z;
  ls_terminated_at : option Z;
  ls_terminated_reason : option string;
}.

Record idem_entry : Type := MkIdem {
  ie_lease_id : string;
  ie_operation : string;
  ie_request_hash : string;
  ie_actor : string;
}.

Record audit_entry : Type := MkAudit {
  au_actor : string;
  au_action : string;
  au_entity_id : string;
  au_old_value : dict;
  au_new_value : dict;
  au_change_reason : option string;
}.

Record lease_db : Type := MkLeaseDb {
  leases : gmap string lease_row;
  idempotency : gmap string idem_entry;
  audit : list audit_entry;
}.

Inductive lease_db_error :=
| StateError (state operation : string)
| ExpiryLimitError (lease_id : string)
| IdempotencyError (idempotency_key : string)
| ConstraintViolation
| DataError
| ModelValidationError.

Record LeaseMutationResult : Type := MkMutationResult { mr_lease : lease_row; mr_replayed : bool }.

(** The CHECK constraints of [pitwall.leases]. *)
Definition lease_active_ready (r : lease_row) : bool :=
  match ls_state r with
  | ACTIVE =>
      bool_decide (is_Some (ls_endpoints r)) &&
      match ls_readiness r with Some s => has_active_signals s | None => false end
  | _ => true
  end.
Definition lease_checks (r : lease_row) : bool :=
  (ls_created_at r <? ls_expires_at r) && lease_active_ready r.

(** The models strip their strings. *)
Definition strip_endpoints (e : LeaseEndpoints) : LeaseEndpoints :=
  MkEndpoints
    (foldl (fun d '(k, v) => al_set (strip k) (strip v) d) [] (le_http e))
    (foldl (fun d '(k, (h, p)) => al_set (strip k) (strip h, p) d) [] (le_tcp e)).
Definition strip_readiness (r : LeaseReadiness) : LeaseReadiness :=
  MkReadiness (runtime_seen_at r) (port_mappings_seen_at r) (probe_passed_at r)
    (strip <$> probe_method r).
Definition valid_endpoints (e : LeaseEndpoints) : bool :=
  forallb (fun kv => nonempty kv.2) (le_http e) &&
  forallb (fun kv => nonempty kv.2.1 && (1 <=? kv.2.2) && (kv.2.2 <=? 65535)) (le_tcp e).

(** The constraints of [Lease]'s fields and [_validate_lifecycle]. *)
Definition valid_lease (r : lease_row) : bool :=
  nonempty (ls_provider_id r) && nonempty (ls_runpod_pod_id r) &&
  bool_decide (is_Some (enum_of_value (T:=LeaseRenewalPolicy) (ls_renewal_policy r))) &&
  match ls_endpoints r with Some e => valid_endpoints e | None => true end &&
  match ls_cost_accrued r with Some c => (0 <=? c) && (c <? 10 ^ 12) | None => true end &&
  (ls_created_at r <? ls_expires_at r) && lease_active_ready r.

Definition strip_lease (r : lease_row) : lease_row :=
  MkLease (strip (ls_provider_id r)) (strip (ls_runpod_pod_id r)) (ls_state r) (ls_created_at r)
    (ls_expires_at r) (ls_renewal_policy r) (ls_auto_teardown r)
    (strip_endpoints <$> ls_endpoints r) (strip_readiness <$> ls_readiness r)
    (ls_cost_accrued r) (ls_last_health_at r) (ls_terminated_at r)
    (strip <$> ls_terminated_reason r).

(** [_lease_from_row]: the [Lease] model of a row. *)
Definition lease_from_row (r : lease_row) : result lease_db_error lease_row :=
  if valid_lease (strip_lease r) then Ok (strip_lease r) else Err ModelValidationError.

(** One [UPDATE ... WHERE id RETURNING *] outside a mutation.  It commits on
    its own: a stored row that the model refuses raises after the write. *)
Definition update_lease (db : lease_db) (lease_id : string) (f : lease_row -> lease_row)
  : lease_db * result lease_db_error (option lease_row) :=
  match leases db !! lease_id with
  | None => (db, Ok None)
  | Some row =>
      let row' := f row in
      if negb (lease_checks row') then (db, Err ConstraintViolation)
      else (MkLeaseDb (<[lease_id := row']> (leases db)) (idempotency db) (audit db),
            rmap Some (lease_from_row row'))
  end.

Definition set_state (s : LeaseState) (r : lease_row) : lease_row :=
  MkLease (ls_provider_id r) (ls_runpod_pod_id r) s (ls_created_at r) (ls_expires_at r)
    (ls_renewal_policy r) (ls_auto_teardown r) (ls_endpoints r) (ls_readiness r)
    (ls_cost_accrued r) (ls_last_health_at r) (ls_terminated_at r) (ls_terminated_reason r).
Definition set_expires (t : Z) (r : lease_row) : lease_row :=
  MkLease (ls_provider_id r) (ls_runpod_pod_id r) (ls_state r) (ls_created_at r) t
    (ls_renewal_policy r) (ls_auto_teardown r) (ls_endpoints r) (ls_readiness r)
    (ls_cost_accrued r) (ls_last_health_at r) (ls_terminated_at r) (ls_terminated_reason r).
Definition set_settings (policy : string) (teardown : bool) (r : lease_row) : lease_row :=
  MkLease (ls_provider_id r) (ls_runpod_pod_id r) (ls_state r) (ls_created_at r) (ls_expires_at r)
    policy teardown (ls_endpoints r) (ls_readiness r)
    (ls_cost_accrued r) (ls_last_health_at r) (ls_terminated_at r) (ls_terminated_reason r).

(** [create] *)
Definition create_lease (db : lease_db) (lease_id : string) (row : lease_row)
  : lease_db * result lease_db_error lease_row :=
  if bool_decide (is_Some (leases db !! lease_id)) || negb (lease_checks row)
  then (db, Err ConstraintViolation)
  else (MkLeaseDb (<[lease_id := row]> (leases db)) (idempotency db) (audit db), lease_from_row row).

(** [get] *)
Definition get_lease (db : lease_db) (lease_id : string) : result lease_db_error (option lease_row) :=
  match leases db !! lease_id with
  | None => Ok None
  | Some row => rmap Some (lease_from_row row)
  end.

(** [update_state], [update_expires_at], [update_endpoints],
    [update_readiness] and [close_teardown] *)
Definition update_state (db : lease_db) (i : string) (s : LeaseState) := update_lease db i (set_state s).
Definition update_expires_at (db : lease_db) (i : string) (t : Z) := update_lease db i (set_expires t).
Definition update_endpoints (db : lease_db) (i : string) (e : LeaseEndpoints) :=
  update_lease db i (fun r =>
    MkLease (ls_provider_id r) (ls_runpod_pod_id r) (ls_state r) (ls_created_at r) (ls_expires_at r)
      (ls_renewal_policy r) (ls_auto_teardown r) (Some e) (ls_readiness r)
      (ls_cost_accrued r) (ls_last_health_at r) (ls_terminated_at r) (ls_terminated_reason r)).
Definition update_readiness (db : lease_db) (i : string) (rd : LeaseReadiness) :=
  update_lease db i (fun r =>
    MkLease (ls_provider_id r) (ls_runpod_pod_id r) (ls_state r) (ls_created_at r) (ls_expires_at r)
      (ls_renewal_policy r) (ls_auto_teardown r) (ls_endpoints r) (Some rd)
      (ls_cost_accrued r) (ls_last_health_at r) (ls_terminated_at r) (ls_terminated_reason r)).
Definition close_teardown (db : lease_db) (i : string) (s : LeaseState) (cost : option Z)
    (terminated_at : Z) (terminated_reason : string) :=
  update_lease db i (fun r =>
    MkLease (ls_provider_id r) (ls_runpod_pod_id r) s (ls_created_at r) (ls_expires_at r)
      (ls_renewal_policy r) (ls_auto_teardown r) (ls_endpoints r) (ls_readiness r)
      cost (ls_last_health_at r) (Some terminated_at) (Some terminated_reason)).

(** ** Mutations *)

Definition MUTABLE_LEASE_STATES : list LeaseState :=
  [CREATING; WAITING_RUNTIME; WAITING_PROBE; ACTIVE].

(** [_reserve_lease_mutation]: whether the request is a replay. *)
Definition reserve_lease_mutation (db : lease_db) (key : option string)
    (lease_id operation hash actor : string) : result lease_db_error (lease_db * bool) :=
  match key with
  | None => Ok (db, false)
  | Some k =>
      match idempotency db !! k with
      | None =>
          Ok (MkLeaseDb (leases db) (<[k := MkIdem lease_id operation hash actor]> (idempotency db))
                (audit db), false)
      | Some e =>
          if String.eqb (ie_lease_id e) lease_id && String.eqb (ie_operation e) operation &&
             String.eqb (ie_request_hash e) hash
          then Ok (db, true) else Err (IdempotencyError k)
      end
  end.

(** The CHECK on the audit's actor; the other audit columns are constants the
    table allows. *)
Definition audit_actors : list string :=
  ["rest:admin"; "mcp:session-id"; "mcp:admin"; "rest:lease"; "mcp"; "system"].

(** [_insert_lease_mutation_audit] *)
Definition insert_mutation_audit (db : lease_db) (actor action lease_id : string)
    (old_value new_value : dict) (key : option string) : result lease_db_error lease_db :=
  if bool_decide (actor ∈ audit_actors) then
    let reason := match key with
                  | Some k => if nonempty k then Some ("idempotency_key=" +:+ k) else None
                  | None => None
                  end in
    Ok (MkLeaseDb (leases db) (idempotency db)
          (audit db ++ [MkAudit actor action lease_id old_value new_value reason]))
  else Err ConstraintViolation.

Definition put_lease (db : lease_db) (i : string) (r : lease_row) : lease_db :=
  MkLeaseDb (<[i := r]> (leases db)) (idempotency db) (audit db).

(** [patch_settings]; [None] is the [_UNSET] of the Python signature. *)
Definition patch_settings (db : lease_db) (lease_id : string) (renewal_policy : option string)
    (auto_teardown : option bool) (actor : string) (key : option string) (hash : string)
  : result lease_db_error (lease_db * option LeaseMutationResult) :=
  match leases db !! lease_id with
  | None => Ok (db, None)
  | Some row =>
      let? (db, replayed) := reserve_lease_mutation db key lease_id "patch" hash actor in
      if replayed : bool then let? l := lease_from_row row in Ok (db, Some (MkMutationResult l true))
      else if bool_decide (ls_state row ∉ MUTABLE_LEASE_STATES)
      then Err (StateError (enum_value (ls_state row)) "patch")
      else
        let field {A} (o : option A) (k : string) (v : A -> pyval) : dict :=
          match o with Some x => [(k, v x)] | None => [] end in
        match renewal_policy, auto_teardown with
        | None, None => let? l := lease_from_row row in Ok (db, Some (MkMutationResult l false))
        | _, _ =>
            let row' := set_settings (default (ls_renewal_policy row) renewal_policy)
                          (default (ls_auto_teardown row) auto_teardown) row in
            let? db := insert_mutation_audit (put_lease db lease_id row') actor "patch" lease_id
              (field renewal_policy "renewal_policy" (fun _ => VStr (ls_renewal_policy row)) ++
               field auto_teardown "auto_teardown_on_expiry" (fun _ => VBool (ls_auto_teardown row)))
              (field renewal_policy "renewal_policy" VStr ++
               field auto_teardown "auto_teardown_on_expiry" VBool) key in
            let? l := lease_from_row row' in
            Ok (db, Some (MkMutationResult l false))
        end
  end.

(** The UPDATE of [renew]: the new expiry when it is within the horizon. *)
Definition renewed_expiry (now : Z) (row : lease_row) (minutes horizon : Z) : option Z :=
  let t := ls_expires_at row + td_minutes minutes in
  if t <=? now + td_minutes horizon then Some t else None.

Definition int32 (z : Z) : bool := (- 2 ^ 31 <=? z) && (z <? 2 ^ 31).

(** [renew]; [now] is the transaction's [now()]. *)
Definition renew (db : lease_db) (now : Z) (lease_id : string) (extends_minutes : Z) (actor : string)
    (key : option string) (hash : string) (max_horizon_minutes : Z)
  : result lease_db_error (lease_db * option LeaseMutationResult) :=
  match leases db !! lease_id with
  | None => Ok (db, None)
  | Some row =>
      let? (db, replayed) := reserve_lease_mutation db key lease_id "renew" hash actor in
      if replayed : bool then let? l := lease_from_row row in Ok (db, Some (MkMutationResult l true))
      else if bool_decide (ls_state row ∉ MUTABLE_LEASE_STATES)
      then Err (StateError (enum_value (ls_state row)) "renew")
      else if negb (int32 extends_minutes && int32 max_horizon_minutes) then Err DataError
      else
        match renewed_expiry now row extends_minutes max_horizon_minutes with
        | None => Err (ExpiryLimitError lease_id)
        | Some t =>
            let row' := set_expires t row in
            if negb (lease_checks row') then Err ConstraintViolation
            else
              let? db := insert_mutation_audit (put_lease db lease_id row') actor "renew" lease_id
                [("expires_at", VStr (isoformat (utc (ls_expires_at row))))]
                [("expires_at", VStr (isoformat (utc t))); ("extends_minutes", VInt extends_minutes)]
                key in
              let? l := lease_from_row row' in
              Ok (db, Some (MkMutationResult l false))
        end
  end.

(** ** The service layer ([leases/mutations.py]) *)

Definition MAX_LEASE_EXTENSION_MINUTES : Z := 43200.
Definition MAX_LEASE_EXPIRY_HORIZON_MINUTES : Z := 43200.

Inductive mutation_error :=
| LeaseMutationNotFound (lease_id : string)
| LeaseMutationConflict (state operation : string)
| LeaseMutationExpiryLimitExceeded (lease_id : string)
| LeaseMutationIdempotencyConflict (idempotency_key : string)
| MutationRaised (e : exn)
| MutationDatabase (e : lease_db_error).

(** The [except] clauses: the expiry limit is one only [renew_lease] has, and
    the repository raises it only there. *)
Definition map_mutation_error (lease_id : string) (e : lease_db_error) : mutation_error :=
  match e with
  | StateError s o => LeaseMutationConflict s o
  | IdempotencyError k => LeaseMutationIdempotencyConflict k
  | ExpiryLimitError _ => LeaseMutationExpiryLimitExceeded lease_id
  | _ => MutationDatabase e
  end.

Definition finish_mutation (lease_id : string)
    (r : result lease_db_error (lease_db * option LeaseMutationResult))
  : result mutation_error (lease_db * lease_row) :=
  match r with
  | Err e => Err (map_mutation_error lease_id e)
  | Ok (_, None) => Err (LeaseMutationNotFound lease_id)
  | Ok (db, Some m) => Ok (db, mr_lease m)
  end.

Section Mutations.
Context (request_hash : dict -> string).

Definition patch_payload (lease_id : string) (policy : option string) (teardown : option bool) : dict :=
  [("lease_id", VStr lease_id);
   ("renewal_policy", match policy with Some s => VStr s | None => VNone end);
   ("auto_teardown_on_expiry", match teardown with Some b => VBool b | None => VNone end)].
Definition renew_payload (lease_id : string) (minutes : Z) : dict :=
  [("lease_id", VStr lease_id); ("extends_minutes", VInt minutes)].

Definition patch_lease_settings (db : lease_db) (lease_id : string) (policy : option string)
    (teardown : option bool) (actor : string) (key : option string)
  : result mutation_error (lease_db * lease_row) :=
  finish_mutation lease_id
    (patch_settings db lease_id policy teardown actor key
       (request_hash (patch_payload lease_id policy teardown))).

Definition renew_lease (db : lease_db) (now : Z) (lease_id : string) (minutes : Z) (actor : string)
    (key : option string) : result mutation_error (lease_db * lease_row) :=
  if negb ((1 <=? minutes) && (minutes <=? MAX_LEASE_EXTENSION_MINUTES))
  then Err (MutationRaised (ValueError "extends_minutes must be between 1 and 43200"))
  else finish_mutation lease_id
         (renew db now lease_id minutes actor key (request_hash (renew_payload lease_id minutes))
            MAX_LEASE_EXPIRY_HORIZON_MINUTES).

(** ** Histories of mutations *)

Inductive mutation :=
| MPatch (lease_id : string) (policy : option string) (teardown : option bool) (actor : string)
         (key : option string)
| MRenew (now : Z) (lease_id : string) (minutes : Z) (actor : string) (key : option string).

Definition mutation_key (m : mutation) : option string :=
  match m with MPatch _ _ _ _ k | MRenew _ _ _ _ k => k end.

(** One mutation at the repository: the tables after it, and whether it took
    effect (it was neither refused, nor a replay, nor about a missing lease). *)
Definition run_mutation (db : lease_db) (m : mutation) : lease_db * bool :=
  let r := match m with
           | MPatch i p t a k => patch_settings db i p t a k (request_hash (patch_payload i p t))
           | MRenew now i n a k =>
               renew db now i n a k (request_hash (renew_payload i n)) MAX_LEASE_EXPIRY_HORIZON_MINUTES
           end in
  match r with
  | Err _ => (db, false)
  | Ok (db', Some m) => (db', negb (mr_replayed m))
  | Ok (db', None) => (db', false)
  end.

(** A history, with the mutations that took effect. *)
Fixpoint run_history (db : lease_db) (ms : list mutation) : lease_db * list mutation :=
  match ms with
  | [] => (db, [])
  | m :: ms' =>
      let '(db1, took) := run_mutation db m in
      let '(db2, done) := run_history db1 ms' in
      (db2, if took then m :: done else done)
  end.

(** The minutes a list of mutations adds to a lease. *)
Definition minutes_added (lease_id : string) (m : mutation) : Z :=
  match m with
  | MRenew _ i n _ _ => if String.eqb i lease_id then n else 0
  | MPatch _ _ _ _ _ => 0
  end.
Definition total_minutes (lease_id : string) (ms : list mutation) : Z :=
  foldr (fun m s => minutes_added lease_id m + s) 0 ms.
End Mutations.

Definition expiry_of (db : lease_db) (lease_id : string) : option Z :=
  ls_expires_at <$> leases db !! lease_id.

(** The lease a mutation is about. *)
Definition mutation_lease (m : mutation) : string :=
  match m with MPatch i _ _ _ _ | MRenew _ i _ _ _ => i end.

(** ** Helper lemmas *)

Lemma reserve_fresh db key i op h a db' :
  reserve_lease_mutation db key i op h a = Ok (db', false) ->
  leases db' = leases db /\ audit db' = audit db /\
  match key with
  | None => idempotency db' = idempotency db
  | Some k => idempotency db !! k = None /\
              idempotency db' = <[k := MkIdem i op h a]> (idempotency db)
  end.
Proof.
  unfold reserve_lease_mutation. destruct key as [k|]; [|by intros [= <-]].
  destruct (idempotency db !! k) eqn:E; [destruct (_ && _); [done|done]|]. by intros [= <-].
Qed.

Lemma reserve_replay db key i op h a db' :
  reserve_lease_mutation db key i op h a = Ok (db', true) -> db' = db.
Proof.
  unfold reserve_lease_mutation. destruct key as [k|]; [|done].
  destruct (idempotency db !! k) eqn:E; [destruct (_ && _); [by intros [= <-]|done]|done].
Qed.

Lemma insert_audit_inv db a act i o n k db' :
  insert_mutation_audit db a act i o n k = Ok db' ->
  leases db' = leases db /\ idempotency db' = idempotency db /\
  exists e, audit db' = audit db ++ [e] /\ au_entity_id e = i /\ au_action e = act.
Proof.
  unfold insert_mutation_audit. destruct (bool_decide _); [|done]. intros [= <-].
  repeat split. by eexists.
Qed.

Lemma lease_from_row_ok r l : lease_from_row r = Ok l -> is_ok (lease_from_row r) = true.
Proof. by intros ->. Qed.

Lemma lease_from_row_checks r l : lease_from_row r = Ok l -> lease_checks r = true.
Proof.
  unfold lease_from_row, valid_lease. destruct (_ && _) eqn:E; [|done]. intros _.
  apply andb_true_iff in E as [E E2]. apply andb_true_iff in E as [_ E1].
  unfold lease_checks. apply andb_true_iff. split; [exact E1|].
  unfold lease_active_ready in *. simpl in E2. destruct (ls_state r); try done.
  destruct (ls_endpoints r), (ls_readiness r); simpl in *; done.
Qed.

Lemma lease_from_row_renewed r l t :
  lease_from_row r = Ok l -> ls_created_at r < t ->
  lease_from_row (set_expires t r) = Ok (set_expires t l).
Proof.
  unfold lease_from_row. destruct (valid_lease _) eqn:E; [|done]. intros [= <-] Ht.
  replace (valid_lease (strip_lease (set_expires t r))) with true; [done|]. symmetry.
  unfold valid_lease in *. simpl in *.
  apply andb_true_iff in E as [E E2]. apply andb_true_iff in E as [E _].
  apply andb_true_iff. split; [|exact E2]. apply andb_true_iff. split; [exact E|].
  by apply Z.ltb_lt.
Qed.

(** Whether an effective mutation leaves an audit record: a patch without
    fields does not. *)
Definition audited (m : mutation) : bool :=
  match m with MPatch _ None None _ _ => false | _ => true end.

(** The change an effective mutation makes. *)
Inductive took_effect (db : lease_db) (m : mutation) (db' : lease_db) : Prop :=
| TookEffect (row row' : lease_row) (new : list audit_entry) :
    leases db !! mutation_lease m = Some row ->
    ls_state row ∈ MUTABLE_LEASE_STATES ->
    leases db' = <[mutation_lease m := row']> (leases db) ->
    ls_expires_at row' = ls_expires_at row + td_minutes (minutes_added (mutation_lease m) m) ->
    match m with
    | MRenew now _ _ _ _ =>
        ls_expires_at row' <= now + td_minutes MAX_LEASE_EXPIRY_HORIZON_MINUTES
    | MPatch _ _ _ _ _ => True
    end ->
    match mutation_key m with
    | None => idempotency db' = idempotency db
    | Some k => idempotency db !! k = None /\
                exists e, idempotency db' = <[k := e]> (idempotency db)
    end ->
    audit db' = audit db ++ new ->
    (au_entity_id <$> new) = (if audited m then [mutation_lease m] else []) ->
    is_ok (lease_from_row row') = true ->
    took_effect db m db'.

Lemma mutable_state row :
  bool_decide (ls_state row ∉ MUTABLE_LEASE_STATES) = false -> ls_state row ∈ MUTABLE_LEASE_STATES.
Proof. intros H%bool_decide_eq_false. destruct (decide (ls_state row ∈ MUTABLE_LEASE_STATES)); done. Qed.

Lemma patch_inv H db i p t a k db' r :
  patch_settings db i p t a k H = Ok (db', Some r) ->
  if mr_replayed r then db' = db else took_effect db (MPatch i p t a k) db'.
Proof.
  unfold patch_settings. destruct (leases db !! i) as [row|] eqn:Hrow; [|done].
  intros ([db1 rep] & Hres & Hk)%rbind_Ok. destruct rep.
  { apply rbind_Ok in Hk as (l & _ & [= <- <-]). by apply reserve_replay in Hres. }
  apply reserve_fresh in Hres as (Hl & Ha & Hi).
  destruct (bool_decide _) eqn:Hmut; [done|]. apply mutable_state in Hmut.
  assert (Hkey : match k with
                 | None => idempotency db1 = idempotency db
                 | Some k => idempotency db !! k = None /\
                             exists e, idempotency db1 = <[k := e]> (idempotency db)
                 end) by (destruct k; naive_solver).
  clear Hi. destruct p as [p|], t as [t|];
    [ | | |apply rbind_Ok in Hk as (l & Hrow' & [= <- <-]);
           apply (TookEffect _ _ _ row row []); simpl; rewrite ?Hl, ?insert_id, ?app_nil_r, ?String.eqb_refl;
           [done..|unfold td_minutes; lia|done|done|done|done|by eapply lease_from_row_ok]];
    apply rbind_Ok in Hk as (db2 & Hau & Hk); apply rbind_Ok in Hk as (l & Hrow' & [= <- <-]);
    apply insert_audit_inv in Hau as (Hl2 & Hi2 & e & Ha2 & He & _);
    (eapply (TookEffect _ _ _ row _ [e]);
       [done|done|by rewrite Hl2; simpl; rewrite Hl|unfold td_minutes; simpl; lia|done|simpl; rewrite Hi2; done
       |rewrite Ha2; simpl; by rewrite Ha|simpl; by rewrite He
       |by eapply lease_from_row_ok]).
Qed.

Lemma renew_inv H db now i n a k db' r :
  renew db now i n a k H MAX_LEASE_EXPIRY_HORIZON_MINUTES = Ok (db', Some r) ->
  if mr_replayed r then db' = db else took_effect db (MRenew now i n a k) db'.
Proof.
  unfold renew. destruct (leases db !! i) as [row|] eqn:Hrow; [|done].
  intros ([db1 rep] & Hres & Hk)%rbind_Ok. destruct rep.
  { apply rbind_Ok in Hk as (l & _ & [= <- <-]). by apply reserve_replay in Hres. }
  apply reserve_fresh in Hres as (Hl & Ha & Hi).
  destruct (bool_decide _) eqn:Hmut; [done|]. apply mutable_state in Hmut.
  destruct (negb _); [done|]. unfold renewed_expiry in Hk.
  destruct (_ <=? _) eqn:Ht; [|done]. destruct (negb _); [done|].
  apply rbind_Ok in Hk as (db2 & Hau & Hk); apply rbind_Ok in Hk as (l & Hrow' & [= <- <-]).
  apply insert_audit_inv in Hau as (Hl2 & Hi2 & e & Ha2 & He & _). boolify.
  apply (TookEffect _ _ _ row (set_expires (ls_expires_at row + td_minutes n) row) [e]); simpl in *;
    rewrite ?String.eqb_refl, ?Hl2, ?Hi2, ?Ha2, ?Hl, ?Ha, ?He; try done;
    [|by eapply lease_from_row_ok].
  destruct k; naive_solver.
Qed.

Lemma patch_missing H db i p t a k db' :
  patch_settings db i p t a k H = Ok (db', None) -> db' = db.
Proof.
  unfold patch_settings. destruct (leases db !! i) as [row|]; [|by intros [= <-]].
  intros ([db1 []] & _ & Hk)%rbind_Ok; [by inv_ok|]. destruct (bool_decide _); [done|].
  by destruct p, t; inv_ok.
Qed.

Lemma renew_missing H db now i n a k h db' :
  renew db now i n a k H h = Ok (db', None) -> db' = db.
Proof.
  unfold renew. destruct (leases db !! i) as [row|]; [|by intros [= <-]].
  intros ([db1 []] & _ & Hk)%rbind_Ok; [by inv_ok|]. inv_ok.
  destruct (renewed_expiry _ _ _ _); [|done]. by inv_ok.
Qed.

Lemma run_mutation_inv H db m db' (b : bool) :
  run_mutation H db m = (db', b) -> if b then took_effect db m db' else db' = db.
Proof.
  unfold run_mutation. destruct m as [i p t a k|now i n a k].
  - destruct (patch_settings db i p t a k _) as [[d [r|]]|e] eqn:E; intros [= <- <-]; [| |done].
    + apply patch_inv in E. by destruct (mr_replayed r).
    + by apply patch_missing in E.
  - destruct (renew db now i n a k _ _) as [[d [r|]]|e] eqn:E; intros [= <- <-]; [| |done].
    + apply renew_inv in E. by destruct (mr_replayed r).
    + by apply renew_missing in E.
Qed.

(** Induction over a history: only effective mutations count. *)
Lemma run_history_ind H (P : lease_db -> list mutation -> lease_db -> Prop) :
  (forall db, P db [] db) ->
  (forall db m db1 done db2, took_effect db m db1 -> P db1 done db2 -> P db (m :: done) db2) ->
  forall ms db db' done, run_history H db ms = (db', done) -> P db done db'.
Proof.
  intros H0 Hs ms. induction ms as [|m ms IH]; intros db db' done; simpl; [by intros [= <- <-]|].
  destruct (run_mutation H db m) as [db1 b] eqn:Hm. apply run_mutation_inv in Hm.
  destruct (run_history H db1 ms) as [db2 d] eqn:Hr. apply IH in Hr. intros [= <- <-].
  destruct b; [by eapply Hs|by subst].
Qed.

Lemma expiry_effect db m db' i :
  took_effect db m db' ->
  expiry_of db' i = (fun t => t + td_minutes (minutes_added i m)) <$> expiry_of db i.
Proof.
  intros [row row' new Hf _ Hl He _ _ _ _ _]. unfold expiry_of. rewrite Hl.
  destruct (decide (mutation_lease m = i)) as [<-|Hne].
  - rewrite lookup_insert_eq, Hf. simpl. by rewrite He.
  - rewrite lookup_insert_ne by done.
    assert (minutes_added i m = 0) as ->.
    { destruct m; simpl in *; [done|]. by apply String.eqb_neq in Hne as ->. }
    unfold td_minutes. destruct (leases db !! i); simpl; [|done]. f_equal. lia.
Qed.

Lemma run_history_valid H ms db db' done i :
  run_history H db ms = (db', done) ->
  (exists row, leases db !! i = Some row /\ is_ok (lease_from_row row) = true) ->
  exists row, leases db' !! i = Some row /\ is_ok (lease_from_row row) = true.
Proof.
  intros Hr. pattern db, done, db'. eapply run_history_ind; [done| |done]; clear.
  intros db m db1 done db2 [row row' new Hf _ Hl _ _ _ _ _ Hv] IH (r & Hr & Hrv).
  apply IH. rewrite Hl. destruct (decide (mutation_lease m = i)) as [<-|Hne].
  - exists row'. by rewrite lookup_insert_eq.
  - exists r. by rewrite lookup_insert_ne.
Qed.

Lemma run_history_keys H ms db db' done k e :
  run_history H db ms = (db', done) ->
  idempotency db !! k = Some e -> idempotency db' !! k = Some e.
Proof.
  intros Hr. pattern db, done, db'. eapply run_history_ind; [done| |done]; clear.
  intros db m db1 done db2 [row row' new _ _ _ _ _ Hk _ _ _] IH He. apply IH.
  destruct (mutation_key m) as [k'|]; [|by rewrite Hk].
  destruct Hk as (Hn & e' & ->). by rewrite lookup_insert_ne by congruence.
Qed.

Lemma renew_reserves H db now i n a k h db' r :
  renew db now i n a (Some k) H h = Ok (db', Some r) -> 
  exists e, idempotency db' !! k = Some e /\ ie_lease_id e = i /\ ie_operation e = "renew" /\
            ie_request_hash e = H.
Proof.
  unfold renew. destruct (leases db !! i) as [row|]; [|done].
  intros ([db1 rep] & Hres & Hk)%rbind_Ok.
  assert (exists e, idempotency db1 !! k = Some e /\ ie_lease_id e = i /\ ie_operation e = "renew" /\
            ie_request_hash e = H) as Hx.
  { clear Hk. unfold reserve_lease_mutation in Hres. destruct (idempotency db !! k) as [e|] eqn:E.
    - destruct (_ && _) eqn:Et; [|done]. injection Hres as <- <-. boolify. by exists e.
    - injection Hres as <- <-. eexists. simpl. by rewrite lookup_insert_eq. }
  destruct rep; [by inv_ok|]. inv_ok. destruct (renewed_expiry _ _ _ _); [|done]. inv_ok.
  match goal with H : insert_mutation_audit _ _ _ _ _ _ _ = _ |- _ =>
    apply insert_audit_inv in H as (_ & Hi & _) end.
  simpl in Hi. by rewrite Hi.
Qed.

(** ** Theorems *)

(** C18: Extensions of a lease are never lost: after any history of patches and
    renewals, in the order in which they took the row's lock, a lease expires
    exactly the minutes of the renewals that took effect later than it did at
    the start. *)
Theorem renewals_are_not_lost H db ms db' done i :
  run_history H db ms = (db', done) ->
  expiry_of db' i = (fun t => t + td_minutes (total_minutes i done)) <$> expiry_of db i.
Proof.
  intros Hr. pattern db, done, db'. eapply run_history_ind; [| |done]; clear.
  - intros db. unfold td_minutes. simpl. destruct (expiry_of db i); simpl; [|done]. f_equal. lia.
  - intros db m db1 done db2 He%(expiry_effect _ _ _ i) ->. rewrite He.
    unfold td_minutes. simpl. destruct (expiry_of db i); simpl; [|done]. f_equal. lia.
Qed.

(** No history of renewals takes a lease further than thirty days past the
    latest clock a renewal ran at, unless it already expired later. *)
Theorem renewals_stay_within_horizon H db ms db' done i t0 now :
  run_history H db ms = (db', done) ->
  Forall (fun m => match m with MRenew n _ _ _ _ => n <= now | MPatch _ _ _ _ _ => True end) ms ->
  expiry_of db i = Some t0 ->
  exists t, expiry_of db' i = Some t /\
            t <= Z.max t0 (now + td_minutes MAX_LEASE_EXPIRY_HORIZON_MINUTES).
Proof.
  revert db done t0. induction ms as [|m ms IH]; intros db done t0; simpl.
  { intros [= <- <-] _ ->. eexists; split; [done|]. lia. }
  destruct (run_mutation H db m) as [db1 b] eqn:Hm. apply run_mutation_inv in Hm.
  destruct (run_history H db1 ms) as [db2 d] eqn:Hr. intros [= <- _] [Hn Hns]%Forall_cons Ht.
  destruct b; [|subst; by eapply IH].
  pose proof (expiry_effect _ _ _ i Hm) as He. rewrite Ht in He. simpl in He.
  destruct (IH _ _ _ Hr Hns He) as (t & -> & Hle). eexists; split; [done|].
  destruct Hm as [row row' new Hf _ Hl _ Hh _ _ _ _].
  destruct m as [j p a ac k|n j mins ac k]; simpl in *; [unfold td_minutes in *; lia|].
  destruct (String.eqb_spec j i) as [->|]; [|unfold td_minutes in *; lia].
  unfold expiry_of in He. rewrite Hl, lookup_insert_eq in He. simpl in He.
  injection He as He. lia.
Qed.

(** C20: A key acts once: in any history the mutations that took effect carry
    different idempotency keys, none of them reserved before; and the audit
    log gains one record per effective mutation with fields, in order. *)
Theorem mutations_take_effect_once H db ms db' done :
  run_history H db ms = (db', done) ->
  NoDup (omap mutation_key done) /\
  Forall (fun k => idempotency db !! k = None) (omap mutation_key done) /\
  au_entity_id <$> audit db' =
  (au_entity_id <$> audit db) ++ (mutation_lease <$> filter (fun m => audited m) done).
Proof.
  intros Hr. pattern db, done, db'. eapply run_history_ind; [| |done]; clear.
  - intros db. split; [constructor|]. split; [constructor|]. by rewrite app_nil_r.
  - intros db m db1 done db2 [row row' new _ _ _ _ _ Hk Ha Hn _] (Hnd & Hf & Hau).
    rewrite Hau, Ha, fmap_app, <-app_assoc, Hn, filter_cons. simpl.
    assert (Hau' : (if audited m then [mutation_lease m] else []) ++ (mutation_lease <$> filter (fun m => audited m) done)
      = mutation_lease <$> (if decide (audited m) then m :: filter (fun m => audited m) done
                            else filter (fun m => audited m) done)) by (by destruct (audited m)).
    rewrite Hau'. destruct (mutation_key m) as [k|]; [|by rewrite Hk in Hf].
    destruct Hk as (Hk & e & Hi). rewrite Hi in Hf. rewrite Forall_forall in Hf.
    split; [constructor; [|done]|split; [|done]].
    + intros Hin. specialize (Hf _ Hin). by rewrite lookup_insert_eq in Hf.
    + constructor; [done|]. apply Forall_forall. intros k' Hin. specialize (Hf _ Hin).
      destruct (decide (k = k')) as [->|Hne]; [by rewrite lookup_insert_eq in Hf|].
      by rewrite lookup_insert_ne in Hf.
Qed.

(** A lease that is stopping or closed is out of reach of mutations: no
    history changes its row or takes effect on it. *)
Theorem closed_leases_are_frozen H db ms db' done i row :
  run_history H db ms = (db', done) ->
  leases db !! i = Some row -> ls_state row ∉ MUTABLE_LEASE_STATES ->
  leases db' !! i = Some row /\ Forall (fun m => mutation_lease m <> i) done.
Proof.
  intros Hr. pattern db, done, db'. eapply run_history_ind; [| |done]; clear -row.
  - intros db Hrow _. by split; [|constructor].
  - intros db m db1 done db2 [row0 row' new Hf Hmut Hl _ _ _ _ _ _] IH Hrow Hst.
    assert (mutation_lease m <> i) as Hne by (intros <-; congruence).
    rewrite Hl, lookup_insert_ne in IH by done. destruct (IH Hrow Hst) as [? ?].
    split; [done|by constructor].
Qed.

(** A renewal that the service accepted can be retried at any later time with
    its key, whatever mutations ran in between: the retry returns the lease as
    it then is and writes nothing. *)
Theorem renewal_retry_is_safe H db now i n a k db1 l ms db2 done now' a' :
  renew_lease H db now i n a (Some k) = Ok (db1, l) ->
  run_history H db1 ms = (db2, done) ->
  exists row l', leases db2 !! i = Some row /\ lease_from_row row = Ok l' /\
                 renew_lease H db2 now' i n a' (Some k) = Ok (db2, l').
Proof.
  unfold renew_lease. destruct (negb _); [done|]. unfold finish_mutation.
  destruct (renew db _ _ _ _ _ _ _) as [[d [r|]]|e] eqn:E; [|done|done].
  intros [= -> _] Hh.
  destruct (renew_reserves _ _ _ _ _ _ _ _ _ _ E) as (en & He & Hl & Ho & Hq).
  pose proof (run_history_keys _ _ _ _ _ _ _ Hh He) as Hk2.
  assert (exists row, leases db1 !! i = Some row /\ is_ok (lease_from_row row) = true) as Hv.
  { unfold renew in E. destruct (leases db !! i) as [row|] eqn:Hrow; [|done].
    apply rbind_Ok in E as ([dr rep] & Hres & Hc). destruct rep.
    - apply rbind_Ok in Hc as (l0 & Hm & [= -> _]). apply reserve_replay in Hres as ->.
      exists row. split; [done|]. by eapply lease_from_row_ok.
    - inv_ok. destruct (renewed_expiry _ _ _ _); [|done]. inv_ok.
      match goal with H : insert_mutation_audit _ _ _ _ _ _ _ = _ |- _ =>
        apply insert_audit_inv in H as (Hl2 & _) end.
      eexists. rewrite Hl2. simpl. rewrite lookup_insert_eq. split; [done|].
      by eapply lease_from_row_ok. }
  destruct (run_history_valid _ _ _ _ _ _ Hh Hv) as (row & Hrow & Hrv).
  destruct (lease_from_row row) as [l'|] eqn:Hl'; [|done].
  exists row, l'. split; [done|]. split; [done|]. unfold renew. rewrite Hrow. simpl.
  rewrite Hk2, Hl, Ho, Hq. rewrite !String.eqb_refl. simpl. by rewrite Hl'.
Qed.

(** [renew_lease] on a mutable, well-formed lease with a fresh key, every
    branch: minutes outside 1..43200 are refused before the database is read,
    an expiry more than thirty days ahead is refused, and otherwise the expiry
    moves by exactly the minutes, nothing else of any lease changes, the key
    is reserved and one audit record is appended. *)
Theorem renew_lease_spec H db now i n a key row l :
  leases db !! i = Some row ->
  ls_state row ∈ MUTABLE_LEASE_STATES ->
  lease_from_row row = Ok l ->
  a ∈ audit_actors ->
  match key with None => True | Some k => idempotency db !! k = None end ->
  let t := ls_expires_at row + td_minutes n in
  renew_lease H db now i n a key =
  if negb ((1 <=? n) && (n <=? MAX_LEASE_EXTENSION_MINUTES))
  then Err (MutationRaised (ValueError "extends_minutes must be between 1 and 43200"))
  else if t <=? now + td_minutes MAX_LEASE_EXPIRY_HORIZON_MINUTES then
    Ok (MkLeaseDb (<[i := set_expires t row]> (leases db))
          (match key with
           | None => idempotency db
           | Some k => <[k := MkIdem i "renew" (H (renew_payload i n)) a]> (idempotency db)
           end)
          (audit db ++
           [MkAudit a "renew" i
              [("expires_at", VStr (isoformat (utc (ls_expires_at row))))]
              [("expires_at", VStr (isoformat (utc t))); ("extends_minutes", VInt n)]
              (match key with
               | Some k => if nonempty k then Some ("idempotency_key=" +:+ k) else None
               | None => None
               end)]), set_expires t l)
  else Err (LeaseMutationExpiryLimitExceeded i).
Proof.
  intros Hrow Hmut Hval Hact Hkey t. unfold renew_lease.
  destruct (negb _) eqn:Hn; [done|]. apply negb_false_iff, andb_true_iff in Hn as [Hn1 Hn2].
  apply Z.leb_le in Hn1, Hn2. unfold renew. rewrite Hrow.
  assert (exists d, reserve_lease_mutation db key i "renew" (H (renew_payload i n)) a = Ok (d, false) /\
          leases d = leases db /\ audit d = audit db /\ idempotency d =
          match key with None => idempotency db
          | Some k => <[k := MkIdem i "renew" (H (renew_payload i n)) a]> (idempotency db) end)
    as (d & -> & Hl & Ha & Hi).
  { unfold reserve_lease_mutation. destruct key as [k|]; [rewrite Hkey|]; by eexists. }
  cbn [rbind]. rewrite bool_decide_false by (by intros ?).
  assert (int32 n && int32 MAX_LEASE_EXPIRY_HORIZON_MINUTES = true) as ->.
  { unfold int32, MAX_LEASE_EXPIRY_HORIZON_MINUTES, MAX_LEASE_EXTENSION_MINUTES in *. lia. }
  cbn [negb]. unfold renewed_expiry. fold t. destruct (t <=? _) eqn:Ht; [|done].
  assert (ls_created_at row < t) as Hlt.
  { pose proof (lease_from_row_checks _ _ Hval) as Hc. unfold lease_checks in Hc. boolify.
    unfold t, td_minutes. lia. }
  pose proof (lease_from_row_renewed _ _ t Hval Hlt) as Hv.
  rewrite (lease_from_row_checks _ _ Hv).
  cbn [negb]. unfold insert_mutation_audit. rewrite bool_decide_true by done. cbn [rbind].
  rewrite Hv. simpl. unfold put_lease. simpl. by rewrite Hl, Ha, Hi.
Qed.

(** ** A concrete table *)

Definition example_hash (d : dict) : string :=
  match al_get "extends_minutes" d with Some (VInt n) => str_int n | _ => "patch" end.

Definition example_lease (s : LeaseState) : lease_row :=
  MkLease "p1" "pod1" s 0 (td_minutes 60) "manual" true (Some (MkEndpoints [("8000", "https://h")] []))
    (Some (MkReadiness (Some 1) (Some 2) (Some 3) None)) None None None None.

Definition example_leases : lease_db :=
  MkLeaseDb (<["l1" := example_lease ACTIVE]> {[ "l2" := example_lease STOPPED ]}) ∅ [].

(** An extension, its retry, the key reused for another request, a patch, an
    extension without a key, one beyond the horizon and one of a closed lease. *)
Definition example_history : list mutation :=
  [MRenew 0 "l1" 60 "system" (Some "k1"); MRenew 5 "l1" 60 "mcp" (Some "k1");
   MRenew 6 "l1" 30 "system" (Some "k1"); MPatch "l1" None (Some false) "mcp" (Some "k2");
   MRenew 7 "l1" 15 "rest:lease" None; MRenew 8 "l1" 43200 "rest:lease" None;
   MRenew 9 "l2" 10 "system" (Some "k3")].

Example example_history_runs :
  (run_history example_hash example_leases example_history).2 =
  [MRenew 0 "l1" 60 "system" (Some "k1"); MPatch "l1" None (Some false) "mcp" (Some "k2");
   MRenew 7 "l1" 15 "rest:lease" None].
Proof. vm_compute. reflexivity. Qed.

Lemma renewals_are_not_lost_witness :
  expiry_of (run_history example_hash example_leases example_history).1 "l1" = Some (td_minutes 135).
Proof.
  rewrite (renewals_are_not_lost example_hash example_leases example_history _ _ "l1"
             (surjective_pairing _)).
  vm_compute. reflexivity.
Defined.

Lemma renewals_stay_within_horizon_witness :
  exists t, expiry_of (run_history example_hash example_leases example_history).1 "l1" = Some t /\
            t <= Z.max (td_minutes 60) (9 + td_minutes MAX_LEASE_EXPIRY_HORIZON_MINUTES).
Proof.
  apply (renewals_stay_within_horizon example_hash example_leases example_history _ _ "l1" _ 9
             (surjective_pairing _)).
  - repeat constructor; vm_compute; discriminate.
  - vm_compute. reflexivity.
Defined.

Lemma mutations_take_effect_once_witness :
  NoDup (omap mutation_key (run_history example_hash example_leases example_history).2) /\
  length (audit (run_history example_hash example_leases example_history).1) = 3%nat.
Proof.
  destruct (mutations_take_effect_once example_hash example_leases example_history _ _
              (surjective_pairing _)) as (H & _ & _).
  split; [exact H|]. vm_compute. reflexivity.
Defined.

Lemma closed_leases_are_frozen_witness :
  leases (run_history example_hash example_leases example_history).1 !! "l2" =
  Some (example_lease STOPPED).
Proof.
  apply (closed_leases_are_frozen example_hash example_leases example_history _ _ "l2" _
             (surjective_pairing _)).
  - vm_compute. reflexivity.
  - apply (bool_decide_unpack _). vm_compute. exact I.
Defined.

Lemma renewal_retry_is_safe_witness :
  exists db1 l db2 done row l',
    renew_lease example_hash example_leases 0 "l1" 60 "system" (Some "k1") = Ok (db1, l) /\
    run_history example_hash db1 [MRenew 7 "l1" 15 "rest:lease" None] = (db2, done) /\
    leases db2 !! "l1" = Some row /\ lease_from_row row = Ok l' /\
    renew_lease example_hash db2 9 "l1" 60 "mcp" (Some "k1") = Ok (db2, l').
Proof.
  eexists _, _, _, _.
  destruct (renewal_retry_is_safe example_hash example_leases 0 "l1" 60 "system" "k1" _ _
              [MRenew 7 "l1" 15 "rest:lease" None] _ _ 9 "mcp" eq_refl eq_refl) as (row & l' & H).
  exists row, l'. split; [reflexivity|]. split; [reflexivity|]. exact H.
Defined.

Lemma renew_lease_spec_witness :
  rmap snd (renew_lease example_hash example_leases 0 "l1" 60 "system" (Some "k1")) =
  Ok (set_expires (td_minutes 120) (example_lease ACTIVE)).
Proof.
  rewrite (renew_lease_spec example_hash example_leases 0 "l1" 60 "system" (Some "k1")
             (example_lease ACTIVE) (example_lease ACTIVE)).
  - vm_compute. reflexivity.
  - vm_compute. reflexivity.
  - apply (bool_decide_unpack _). vm_compute. exact I.
  - vm_compute. reflexivity.
  - apply (bool_decide_unpack _). vm_compute. exact I.
  - vm_compute. reflexivity.
Defined.
