(* ===== verification/Policy.v ===== *)
(** * Policy-as-Code evaluator ([policy/schema.py], [policy/engine.py])

    Policies are evaluated against a configuration read as JSON-like data: a
    pydantic model stands for its [model_dump].  Attributes of values that
    are not mappings ([getattr] on a string, say) and [re.search] are
    parameters.  The pydantic parsing of policy documents is not repeated:
    a [Policy] is one that the schema accepted. *)

From Stdlib Require Import Ascii SpecFloat.
From S2P Require Import Prelude PyDecimal PyFloat PyValue PyEq PyFormat Enums.

(** Definitions *)

Inductive PolicyTarget := CAPABILITY | PROVIDER | WORKLOAD.
#[global] Instance PolicyTarget_enum : StrEnum PolicyTarget := {
  members := [CAPABILITY; PROVIDER; WORKLOAD];
  enum_value m := match m with
    | CAPABILITY => "capability" | PROVIDER => "provider" | WORKLOAD => "workload" end }.

Inductive PolicyOperator :=
| EXISTS | NOT_EXISTS | EQUALS | NOT_EQUALS | IN | NOT_IN | CONTAINS | NOT_CONTAINS
| CONTAINS_ALL | CONTAINS_NONE | GTE | LTE | MATCHES.
#[global] Instance PolicyOperator_enum : StrEnum PolicyOperator := {
  members := [EXISTS; NOT_EXISTS; EQUALS; NOT_EQUALS; IN; NOT_IN; CONTAINS; NOT_CONTAINS;
              CONTAINS_ALL; CONTAINS_NONE; GTE; LTE; MATCHES];
  enum_value m := match m with
    | EXISTS => "exists" | NOT_EXISTS => "not_exists" | EQUALS => "equals"
    | NOT_EQUALS => "not_equals" | IN => "in" | NOT_IN => "not_in" | CONTAINS => "contains"
    | NOT_CONTAINS => "not_contains" | CONTAINS_ALL => "contains_all"
    | CONTAINS_NONE => "contains_none" | GTE => "gte" | LTE => "lte" | MATCHES => "matches" end }.

#[global] Instance PolicyTarget_lawful : LawfulStrEnum PolicyTarget.
Proof. solve_lawful. Qed.
#[global] Instance PolicyOperator_lawful : LawfulStrEnum PolicyOperator.
Proof. solve_lawful. Qed.

Record PolicyCondition : Type := MkCondition {
  c_path : string;
  c_operator : PolicyOperator;
  c_value : pyval;
}.

Record PolicyRule : Type := MkRule { r_condition : PolicyCondition; r_message : option string }.

Record Policy : Type := MkPolicy {
  p_id : string;
  p_target : PolicyTarget;
  p_when : list PolicyCondition;
  p_rules : list PolicyRule;
}.

Record PolicyViolation : Type := MkViolation {
  v_policy_id : string;
  v_target : PolicyTarget;
  v_target_id : string;
  v_path : string;
  v_operator : PolicyOperator;
  v_expected : pyval;
  v_actual : pyval;
  v_message : string;
}.

Record PolicyEvaluationResult : Type := MkEvaluation {
  allowed : bool;
  decision : string;
  violations : list PolicyViolation;
}.

(** [from_violations] *)
Definition from_violations (vs : list PolicyViolation) : PolicyEvaluationResult :=
  match vs with
  | [] => MkEvaluation true "allow" vs
  | _ => MkEvaluation false "deny" vs
  end.

(** ** Normalisation *)

Definition normalize_scalar (v : pyval) : pyval := match v with VEnum s => VStr s | _ => v end.

(** [_normalize_for_compare] *)
Fixpoint normalize_for_compare (v : pyval) : pyval :=
  match v with
  | VDict m => VDict (map (fun kv => (fst kv, normalize_for_compare (snd kv))) m)
  | VList l | VTuple l => VList (map normalize_for_compare l)
  | _ => normalize_scalar v
  end.

(** [_expected_members] *)
Definition expected_members (v : pyval) : list pyval :=
  match v with
  | VDict m => map (fun kv => VStr (fst kv)) m
  | VList l | VTuple l => map normalize_scalar l
  | VNone => []
  | _ => [normalize_scalar v]
  end.

(** [_collection_members]; the missing value has no members. *)
Definition collection_members (v : pyval) : list pyval := expected_members v.

(** [_to_decimal]: [None] where it raises [ValueError]. *)
Definition to_decimal (v : pyval) : option dec :=
  match normalize_scalar v with
  | VBool _ | VNone => None
  | v => match decimal_of_str v with Ok (DFin d) => Some d | _ => None end
  end.

(** [_decimal_compare] *)
Definition decimal_compare (actual expected : pyval) (greater_or_equal : bool) : bool :=
  match to_decimal actual, to_decimal expected with
  | Some a, Some e => if greater_or_equal then dleb e a else dleb a e
  | _, _ => false
  end.

(** ** Redaction *)

Definition SENSITIVE_KEY_FRAGMENTS : list string :=
  ["access_key"; "api_key"; "authorization"; "bearer"; "credential"; "password"; "secret";
   "session_token"; "token"].

(** [_is_sensitive_key] *)
Definition is_sensitive_key (key : string) : bool :=
  let normalized := replace_char "-"%char "_"%char (lower (strip key)) in
  existsb (fun fragment => str_contains fragment normalized) SENSITIVE_KEY_FRAGMENTS.

(** [_preview] *)
Definition preview (s : string) : string :=
  if (String.length s <=? 128)%nat then s else String.substring 0 125 s +:+ "...".

(** [_safe_value] of a value that is there. *)
Fixpoint safe_value (field_name : option string) (v : pyval) : pyval :=
  match v with
  | VDict m =>
      VDict (sort_by (fun a b => String.ltb a.1 b.1)
        (map (fun kv =>
                (fst kv, if is_sensitive_key (fst kv) then VStr "[REDACTED]"
                         else safe_value (Some (fst kv)) (snd kv))) m))
  | VList l | VTuple l => VList (map (safe_value None) l)
  | VEnum s => VStr s
  | VDec d => VStr (str_dec d)
  | VStr s =>
      match field_name with
      | Some f => if is_sensitive_key f then VStr "[REDACTED]" else VStr (preview s)
      | None => VStr (preview s)
      end
  | _ => v
  end.

(** [None] is [_MISSING]. *)
Definition safe_actual (field_name : string) (v : option pyval) : pyval :=
  match v with Some v => safe_value (Some field_name) v | None => VStr "<missing>" end.

Section Engine.
Context (getattr : pyval -> string -> option pyval) (re_search : string -> string -> py bool).

(** ** Reading the configuration; [None] is [_MISSING] *)

Fixpoint read_segments (current : pyval) (segments : list string) : option pyval :=
  match segments with
  | [] => Some current
  | s :: rest =>
      match current with
      | VDict m => match dict_get s m with Some v => read_segments v rest | None => None end
      | _ => match getattr current s with Some v => read_segments v rest | None => None end
      end
  end.

(** [_read_path] *)
Definition read_path (source : pyval) (path : string) : option pyval :=
  read_segments source (split_on "."%char path).

(** [_sequence_from_config] *)
Definition sequence_from_config (config : pyval) (primary secondary : string) : list pyval :=
  match (match read_path config primary with
         | Some v => Some v
         | None => read_path config secondary
         end) with
  | None | Some VNone => []
  | Some (VDict m) => map snd m
  | Some (VList l | VTuple l) => l
  | Some v => [v]
  end.

(** [_target_id] *)
Fixpoint target_id (target : pyval) (fallback : string) (field_names : list string) : string :=
  match field_names with
  | [] => fallback
  | f :: fs =>
      match read_path target f with
      | None | Some VNone => target_id target fallback fs
      | Some v => if nonempty (py_str v) then py_str (normalize_scalar v)
                  else target_id target fallback fs
      end
  end.

Definition index_name (kind : string) (i : nat) : string :=
  kind +:+ "[" +:+ str_int (Z.of_nat i) +:+ "]".

(** [_targets_for_policy] *)
Definition targets_for_policy (config : pyval) (p : Policy)
  : list (PolicyTarget * string * pyval) :=
  match p_target p with
  | CAPABILITY =>
      match read_path config "capability" with
      | None | Some VNone => []
      | Some c => [(CAPABILITY, target_id c "capability" ["id"; "name"; "capability_id"], c)]
      end
  | PROVIDER =>
      imap (fun i v => (PROVIDER, target_id v (index_name "provider" i)
                                    ["id"; "provider_id"; "name"; "capability_id"], v))
        (sequence_from_config config "provider_fixtures" "providers")
  | WORKLOAD =>
      imap (fun i v => (WORKLOAD, target_id v (index_name "workload" i) ["id"], v))
        (sequence_from_config config "workloads" "workload_fixtures")
  end.

(** [_condition_passes] *)
Definition condition_passes (c : PolicyCondition) (data : pyval) : py bool :=
  let expected := c_value c in
  match c_operator c, read_path data (c_path c) with
  | EXISTS, a => Ok (match a with None | Some VNone => false | _ => true end)
  | NOT_EXISTS, a => Ok (match a with None | Some VNone => true | _ => false end)
  | op, None => Ok (match op with CONTAINS_NONE => true | _ => false end)
  | EQUALS, Some a => Ok (py_eqb (normalize_for_compare a) (normalize_for_compare expected))
  | NOT_EQUALS, Some a =>
      Ok (negb (py_eqb (normalize_for_compare a) (normalize_for_compare expected)))
  | IN, Some a => Ok (py_in (normalize_scalar a) (expected_members expected))
  | NOT_IN, Some a => Ok (negb (py_in (normalize_scalar a) (expected_members expected)))
  | CONTAINS, Some a => Ok (py_in (normalize_scalar expected) (collection_members a))
  | NOT_CONTAINS, Some a => Ok (negb (py_in (normalize_scalar expected) (collection_members a)))
  | CONTAINS_ALL, Some a =>
      Ok (forallb (fun m => py_in m (collection_members a)) (expected_members expected))
  | CONTAINS_NONE, Some a =>
      Ok (negb (existsb (fun m => py_in m (collection_members a)) (expected_members expected)))
  | GTE, Some a => Ok (decimal_compare a expected true)
  | LTE, Some a => Ok (decimal_compare a expected false)
  | MATCHES, Some a => re_search (py_str expected) (py_str (normalize_scalar a))
  end.

(** [_conditions_match] *)
Fixpoint conditions_match (cs : list PolicyCondition) (data : pyval) : py bool :=
  match cs with
  | [] => Ok true
  | c :: cs' => let? b := condition_passes c data in
                if b : bool then conditions_match cs' data else Ok false
  end.

(** [_default_violation_message] *)
Definition default_violation_message (p : Policy) (r : PolicyRule) (tid : string) : string :=
  p_id p +:+ " failed for " +:+ enum_value (p_target p) +:+ " " +:+ tid +:+ ": " +:+
  c_path (r_condition r) +:+ " must satisfy " +:+ enum_value (c_operator (r_condition r)).

(** The violation of a failed rule; the model strips its text fields. *)
Definition violation (p : Policy) (r : PolicyRule) (t : PolicyTarget * string * pyval)
  : PolicyViolation :=
  let '(target, tid, data) := t in
  let c := r_condition r in
  MkViolation (strip (p_id p)) target (strip tid) (strip (c_path c)) (c_operator c)
    (safe_value None (c_value c))
    (safe_actual (default EmptyString (last (split_on "."%char (c_path c))))
       (read_path data (c_path c)))
    (strip (match r_message r with
            | Some m => if nonempty m then m else default_violation_message p r tid
            | None => default_violation_message p r tid
            end)).

(** The violations of one target, and of one policy. *)
Definition rule_violations (p : Policy) (t : PolicyTarget * string * pyval)
  : py (list PolicyViolation) :=
  foldR (fun acc r => let? b := condition_passes (r_condition r) t.2 in
                      Ok (if b : bool then acc else acc ++ [violation p r t])) [] (p_rules p).
Definition target_violations (p : Policy) (t : PolicyTarget * string * pyval)
  : py (list PolicyViolation) :=
  let? m := conditions_match (p_when p) t.2 in
  if m : bool then rule_violations p t else Ok [].
Definition policy_violations (config : pyval) (p : Policy) : py (list PolicyViolation) :=
  rmap (@concat _) (mapR (target_violations p) (targets_for_policy config p)).

(** [evaluate_policies] *)
Definition evaluate_policies (policies : list Policy) (config : pyval) : py PolicyEvaluationResult :=
  rmap (fun vs => from_violations (concat vs)) (mapR (policy_violations config) policies).
End Engine.

(** What a redacted text may reveal: two values that differ only in strings
    stored under a sensitive name. *)
Inductive same_public : option string -> pyval -> pyval -> Prop :=
| SameRefl f v : same_public f v v
| SameSecret f s t : is_sensitive_key f = true -> same_public (Some f) (VStr s) (VStr t)
| SameList f l k : Forall2 (same_public None) l k -> same_public f (VList l) (VList k)
| SameDict f m n : Forall2 same_entry m n -> same_public f (VDict m) (VDict n)
with same_entry : string * pyval -> string * pyval -> Prop :=
| EntrySecret k v w : is_sensitive_key k = true -> same_entry (k, v) (k, w)
| EntryPublic k v w : same_public (Some k) v w -> same_entry (k, v) (k, w).

(** ** Theorems *)

Section EngineFacts.
Context (getattr : pyval -> string -> option pyval) (re_search : string -> string -> py bool).

(** A rule that fails on a target its policy applies to. *)
Definition fails (config : pyval) (p : Policy) (r : PolicyRule)
    (t : PolicyTarget * string * pyval) : Prop :=
  t ∈ targets_for_policy getattr config p /\ r ∈ p_rules p /\
  conditions_match getattr re_search (p_when p) t.2 = Ok true /\
  condition_passes getattr re_search (r_condition r) t.2 = Ok false.

Lemma rule_violations_elem p t vs v rules acc :
  foldR (fun acc r => let? b := condition_passes getattr re_search (r_condition r) t.2 in
                      Ok (if b : bool then acc else acc ++ [violation getattr p r t])) acc rules = Ok vs ->
  v ∈ vs <-> v ∈ acc \/ exists r, r ∈ rules /\
    condition_passes getattr re_search (r_condition r) t.2 = Ok false /\ v = violation getattr p r t.
Proof.
  revert acc. induction rules as [|r rules IH]; intros acc; simpl.
  { intros [= <-]. split; [by left|]. intros [?|(r & Hr & _)]; [done|by apply elem_of_nil in Hr]. }
  intros (acc' & (b & Hb & [= <-])%rbind_Ok & Hf)%rbind_Ok. rewrite (IH _ Hf).
  setoid_rewrite elem_of_cons. destruct b.
  - split; [naive_solver|]. intros [?|(r' & [->|?] & Hc & ->)]; [by left|congruence|naive_solver].
  - rewrite elem_of_app, list_elem_of_singleton. naive_solver.
Qed.

Lemma target_violations_elem p t vs v :
  target_violations getattr re_search p t = Ok vs ->
  v ∈ vs <-> conditions_match getattr re_search (p_when p) t.2 = Ok true /\
    exists r, r ∈ p_rules p /\
      condition_passes getattr re_search (r_condition r) t.2 = Ok false /\ v = violation getattr p r t.
Proof.
  unfold target_violations. intros (m & Hm & H)%rbind_Ok. rewrite Hm. destruct m.
  - unfold rule_violations in H. rewrite (rule_violations_elem _ _ _ _ _ _ H), elem_of_nil.
    naive_solver.
  - injection H as <-. rewrite elem_of_nil. naive_solver.
Qed.

(** Membership in the concatenation of a loop's results. *)
Lemma concat_mapR_elem {A B} (f : A -> py (list B)) l ys v (P : A -> Prop) :
  mapR f l = Ok ys ->
  (forall x zs, f x = Ok zs -> v ∈ zs <-> P x) ->
  v ∈ concat ys <-> exists x, x ∈ l /\ P x.
Proof.
  intros H%mapR_Ok HP. induction H as [|x y l ys Hx _ IH]; simpl.
  { split; [by intros ?%elem_of_nil|]. intros (x & Hx & _). by apply elem_of_nil in Hx. }
  rewrite elem_of_app, (HP x y Hx), IH. setoid_rewrite elem_of_cons. naive_solver.
Qed.

Lemma evaluate_elem ps config r v :
  evaluate_policies getattr re_search ps config = Ok r ->
  v ∈ violations r <-> exists p rule t, p ∈ ps /\ fails config p rule t /\ v = violation getattr p rule t.
Proof.
  unfold evaluate_policies. intros (vs & Hvs & ->)%rmap_Ok.
  replace (violations (from_violations (concat vs))) with (concat vs) by (by destruct (concat vs)).
  rewrite (concat_mapR_elem _ _ _ v (fun p => exists rule t, fails config p rule t /\ v = violation getattr p rule t) Hvs).
  - naive_solver.
  - intros p zs (ws & Hws & ->)%rmap_Ok. unfold fails.
    rewrite (concat_mapR_elem _ _ _ v _ Hws (fun t zs => target_violations_elem p t zs v)).
    naive_solver.
Qed.

(** The evaluator is exact: it reports one violation for every rule that
    fails on a target whose [when] conditions hold, and nothing else; it
    allows a configuration exactly when no such rule fails. *)
Theorem policy_decision_exact ps config r :
  evaluate_policies getattr re_search ps config = Ok r ->
  (forall v, v ∈ violations r <->
     exists p rule t, p ∈ ps /\ fails config p rule t /\ v = violation getattr p rule t) /\
  (allowed r = true <-> forall p rule t, p ∈ ps -> ~ fails config p rule t) /\
  decision r = (if allowed r then "allow" else "deny").
Proof.
  intros H. pose proof (fun v => evaluate_elem _ _ _ v H) as Hv. split; [exact Hv|].
  unfold evaluate_policies in H. apply rmap_Ok in H as (vs & _ & ->).
  destruct (concat vs) as [|v0 vs0]; simpl in *; (split; [|done]).
  - split; [|done]. intros _ p rule t Hp Hf.
    assert (violation getattr p rule t ∈ @nil PolicyViolation) as Hn by (apply Hv; by exists p, rule, t).
    by apply elem_of_nil in Hn.
  - split; [done|]. intros Hall. destruct (proj1 (Hv v0)) as (p & rule & t & Hp & Hf & _);
      [constructor|]. by destruct (Hall p rule t Hp).
Qed.
End EngineFacts.

(** Redaction is independent of the secrets: two values that differ only in
    what is stored under sensitive keys of their mappings, or as a string
    under a sensitive field name, are reported identically. *)
Theorem redaction_hides_secrets f v w :
  same_public f v w -> safe_value f v = safe_value f w.
Proof.
  revert f w. induction v using pyval_nested_ind; intros f0 w Hs; inversion Hs; subst; try done.
  - simpl. by match goal with H : is_sensitive_key _ = true |- _ => rewrite H end.
  - simpl. f_equal. match goal with H : Forall2 _ _ _ |- _ => rename H into H2 end. clear Hs.
    induction H2 as [|x y l k Hxy _ IHl]; [done|].
    match goal with H : Forall _ (_ :: _) |- _ => apply Forall_cons in H as [Hx Hl] end.
    simpl. rewrite (Hx _ _ Hxy). f_equal. by apply IHl.
  - simpl. f_equal. f_equal. match goal with H : Forall2 _ _ _ |- _ => rename H into H2 end. clear Hs.
    induction H2 as [|x y m n Hxy _ IHm]; [done|].
    match goal with H : Forall _ (_ :: _) |- _ => apply Forall_cons in H as [Hx Hl] end.
    simpl. destruct Hxy as [k u u' Hk|k u u' Hu]; simpl in *.
    + rewrite Hk. f_equal. by apply IHm.
    + rewrite (Hx _ _ Hu). f_equal. by apply IHm.
Qed.

(** ** Witnesses *)

Definition no_attributes (v : pyval) (name : string) : option pyval := None.
Definition no_regex (pattern s : string) : py bool := Ok (str_contains pattern s).

Definition example_policy : Policy :=
  MkPolicy "gpu-cap" PROVIDER [MkCondition "enabled" EQUALS (VBool true)]
    [MkRule (MkCondition "config.gpus" LTE (VInt 8)) None;
     MkRule (MkCondition "config.api_token" NOT_EXISTS VNone) (Some "no inline tokens")].
Definition example_config : pyval :=
  VDict [("providers", VList
    [VDict [("id", VStr "p1"); ("enabled", VBool true);
            ("config", VDict [("gpus", VInt 16); ("api_token", VStr "hunter2")])];
     VDict [("id", VStr "p2"); ("enabled", VBool false); ("config", VDict [("gpus", VInt 99)])]])].

Lemma policy_decision_exact_witness :
  exists r, evaluate_policies no_attributes no_regex [example_policy] example_config = Ok r /\
    decision r = "deny" /\ List.length (violations r) = 2%nat /\
    ~ (forall p rule t, p ∈ [example_policy] -> ~ fails no_attributes no_regex example_config p rule t).
Proof.
  eexists. split; [vm_compute; reflexivity|].
  split; [reflexivity|]. split; [reflexivity|]. intros H.
  assert (Hr : evaluate_policies no_attributes no_regex [example_policy] example_config = Ok _)
    by (vm_compute; reflexivity).
  destruct (policy_decision_exact no_attributes no_regex _ _ _ Hr) as (_ & Ha & _).
  apply Ha in H. discriminate H.
Defined.

Lemma redaction_hides_secrets_witness :
  safe_value None (VDict [("id", VStr "p1"); ("api-token", VStr "hunter2")]) =
  safe_value None (VDict [("id", VStr "p1"); ("api-token", VStr "swordfish")]).
Proof.
  apply (redaction_hides_secrets None).
  apply SameDict. constructor; [apply EntryPublic; constructor|].
  constructor; [apply EntrySecret; vm_compute; reflexivity|constructor].
Defined.

(** A list under a sensitive name is not redacted: only strings are. *)
Example sensitive_list_is_shown :
  safe_actual "api_tokens" (Some (VList [VStr "hunter2"])) = VList [VStr "hunter2"].
Proof. vm_compute. reflexivity. Qed.
