(* ===== verification/Bidding.v ===== *)
(** * Spot-market bidding ([finops/bidding.py])

    Prices, the bidding policy with its budget and policy rails, and the
    evaluator that turns one snapshot into a plan.  Provider adapters (the
    price feeds and the bid placer) are parameters; the [to_dict] views are
    not modelled. *)

From S2P Require Import Prelude PyDecimal PyValue PyTime Policy CircuitBreaker.
From Stdlib Require Import QArith Lqa.
#[local] Open Scope Z_scope.

(** Definitions *)

(** [_usd] *)
Definition bid_usd (v : pyval) (name : string) : py dec :=
  match decimal_of_str v with
  | Err _ => Err (ValueError (name +:+ " must be decimal-compatible"))
  | Ok (DFin d) =>
      if dltb d dzero then Err (ValueError (name +:+ " must be non-negative")) else quantize_usd d
  | Ok _ => Err (ValueError (name +:+ " must be finite"))
  end.

(** [_optional_usd] *)
Definition optional_usd (v : pyval) (name : string) : py (option dec) :=
  match v with VNone => Ok None | _ => rmap Some (bid_usd v name) end.

Definition dec_usd (d : dec) (name : string) : py dec := bid_usd (VDec (DFin d)) name.
Definition optional_dec_usd (o : option dec) (name : string) : py (option dec) :=
  optional_usd (match o with Some d => VDec (DFin d) | None => VNone end) name.

Definition require_text (s name : string) : py unit :=
  if nonempty (strip s) then Ok tt else Err (ValueError (name +:+ " must be non-empty")).
Definition require_positive (n : Z) (name : string) : py unit :=
  if n <? 1 then Err (ValueError (name +:+ " must be >= 1")) else Ok tt.

Record SpotPrice : Type := MkPrice {
  sp_provider_id : string;
  sp_resource_id : string;
  sp_gpu : string;
  sp_minimum : dec;
  sp_current : option dec;
  sp_uninterruptible : option dec;
  sp_gpu_count : Z;
  sp_available : bool;
  sp_metadata : dict;
}.

(** [SpotPrice(...)] *)
Definition new_spot_price (provider_id resource_id gpu : string) (minimum current uninterruptible : pyval)
    (gpu_count : Z) (available : bool) (metadata : dict) : py SpotPrice :=
  let? _ := require_text provider_id "provider_id" in
  let? _ := require_text resource_id "resource_id" in
  let? _ := require_text gpu "gpu" in
  let? _ := require_positive gpu_count "gpu_count" in
  let? mn := bid_usd minimum "minimum_bid_usd_per_hour" in
  let? cur := optional_usd current "current_bid_usd_per_hour" in
  let? un := optional_usd uninterruptible "uninterruptible_usd_per_hour" in
  Ok (MkPrice provider_id resource_id gpu mn cur un gpu_count available
        (sort_by (fun a b => String.ltb a.1 b.1) metadata)).

Record SpotPriceSnapshot : Type := MkSnapshot { observed_at : datetime; prices : list SpotPrice }.

(** [SpotPriceSnapshot(...)] *)
Definition new_snapshot (at_ : datetime) (ps : list SpotPrice) : py SpotPriceSnapshot :=
  let? t := require_utc at_ "observed_at" in Ok (MkSnapshot t ps).

Record BiddingPolicy : Type := MkBidPolicy {
  bp_target : dec;
  bp_max : dec;
  bp_capacity_units : Z;
  bp_parallel : Z;
  bp_increment : dec;
  bp_min_adjustment : dec;
  bp_max_total : option dec;
  bp_allow_decrease : bool;
  bp_dry_run : bool;
  bp_evaluation : option PolicyEvaluationResult;
  bp_budget : option CircuitBreakerDecision;
}.

(** [BiddingPolicy(...)] *)
Definition new_bidding_policy (target max : pyval) (units parallel : Z)
    (increment min_adjustment max_total : pyval) (allow_decrease dry_run : bool)
    (evaluation : option PolicyEvaluationResult) (budget : option CircuitBreakerDecision)
  : py BiddingPolicy :=
  let? t := bid_usd target "target_price_usd_per_hour" in
  let? m := bid_usd max "max_price_usd_per_hour" in
  if dltb m t
  then Err (ValueError "max_price_usd_per_hour must be >= target_price_usd_per_hour")
  else
    let? _ := require_positive units "target_capacity_units" in
    let? _ := require_positive parallel "max_parallel_bids" in
    let? i := bid_usd increment "bid_increment_usd_per_hour" in
    let? a := bid_usd min_adjustment "min_adjustment_usd_per_hour" in
    let? c := optional_usd max_total "max_total_bid_usd_per_hour" in
    Ok (MkBidPolicy t m units parallel i a c allow_decrease dry_run evaluation budget).

Definition selection_limit (p : BiddingPolicy) : Z := Z.min (bp_capacity_units p) (bp_parallel p).

Definition budget_action (p : BiddingPolicy) : option BreakerAction := action <$> bp_budget p.

(** [effective_max_price] *)
Definition effective_max_price (p : BiddingPolicy) : dec :=
  match budget_action p with
  | Some downgrade => dmin (bp_max p) (bp_target p)
  | _ => bp_max p
  end.

Inductive BidActionKind := Place | Raise | Lower | Hold | Block.

#[global] Instance BidActionKind_eq_dec : EqDecision BidActionKind.
Proof. solve_decision. Defined.

Record BidAction : Type := MkBidAction {
  ba_provider_id : string;
  ba_resource_id : string;
  ba_gpu : string;
  ba_action : BidActionKind;
  ba_bid : dec;
  ba_minimum : dec;
  ba_previous : option dec;
  ba_gpu_count : Z;
  ba_selected : bool;
  ba_rank : option Z;
  ba_dry_run : bool;
  ba_reason : string;
}.

(** [BidAction(...)] *)
Definition new_action (a : BidAction) : py BidAction :=
  let? _ := require_text (ba_provider_id a) "provider_id" in
  let? _ := require_text (ba_resource_id a) "resource_id" in
  let? _ := require_text (ba_gpu a) "gpu" in
  let? _ := require_positive (ba_gpu_count a) "gpu_count" in
  let? _ := match ba_rank a with Some r => require_positive r "rank" | None => Ok tt end in
  let? bid := dec_usd (ba_bid a) "bid_usd" in
  let? mn := dec_usd (ba_minimum a) "minimum_bid_usd_per_hour" in
  let? prev := optional_dec_usd (ba_previous a) "previous_bid_usd_per_hour" in
  Ok (MkBidAction (ba_provider_id a) (ba_resource_id a) (ba_gpu a) (ba_action a) bid mn prev
        (ba_gpu_count a) (ba_selected a) (ba_rank a) (ba_dry_run a) (ba_reason a)).

(** A copy with another kind, mark and reason. *)
Definition copy_action (a : BidAction) (kind : BidActionKind) (selected : bool) (rank : option Z)
    (dry_run : bool) (reason : string) : py BidAction :=
  new_action (MkBidAction (ba_provider_id a) (ba_resource_id a) (ba_gpu a) kind (ba_bid a)
    (ba_minimum a) (ba_previous a) (ba_gpu_count a) selected rank dry_run reason).

Definition selected_copy (a : BidAction) (rank : Z) (dry_run : bool) : py BidAction :=
  copy_action a (ba_action a) true (Some rank) dry_run (ba_reason a).
Definition hold_copy (a : BidAction) (reason : string) (dry_run : bool) : py BidAction :=
  copy_action a Hold false None dry_run reason.
Definition block_copy (a : BidAction) (reason : string) (dry_run : bool) : py BidAction :=
  copy_action a Block false None dry_run reason.

(** [BidAction.executable] *)
Definition executable (a : BidAction) : bool :=
  ba_selected a && match ba_action a with Place | Raise | Lower => true | _ => false end.

Record BiddingPlan : Type := MkPlan {
  pl_observed_at : datetime;
  pl_effective_max : dec;
  pl_actions : list BidAction;
  pl_dry_run : bool;
  pl_budget_action : option BreakerAction;
  pl_policy_allowed : bool;
}.

(** [BiddingPlan(...)] *)
Definition new_plan (t : datetime) (effective_max : dec) (actions : list BidAction) (dry_run : bool)
    (ba : option BreakerAction) (policy_allowed : bool) : py BiddingPlan :=
  let? t := require_utc t "observed_at" in
  let? m := dec_usd effective_max "effective_max_price_usd_per_hour" in
  Ok (MkPlan t m actions dry_run ba policy_allowed).

Definition selected_actions (p : BiddingPlan) : list BidAction :=
  filter (fun a => ba_selected a) (pl_actions p).
Definition executable_actions (p : BiddingPlan) : list BidAction :=
  filter (fun a => executable a) (selected_actions p).
Definition plan_blocked (p : BiddingPlan) : bool :=
  match selected_actions p with [] => true | _ => false end.

(** [total_selected_bid_usd_per_hour] *)
Definition total_selected (p : BiddingPlan) : py dec :=
  let? s := dsum dzero (ba_bid <$> selected_actions p) in
  dec_usd s "total_selected_bid_usd_per_hour".

(** [_desired_bid] *)
Definition desired_bid (price : SpotPrice) (p : BiddingPolicy) : py dec :=
  if dleb (sp_minimum price) (bp_target p) then Ok (bp_target p)
  else let? s := dadd (sp_minimum price) (bp_increment p) in
       dec_usd s "desired_bid_usd_per_hour".

(** [_action_for_bid] *)
Definition action_for_bid (price : SpotPrice) (p : BiddingPolicy) (desired : dec)
  : py (BidActionKind * string) :=
  match sp_current price with
  | None => Ok (Place, if deqb desired (bp_target p) then "place bid at target"
                       else "place bid to clear current market")
  | Some current =>
      let? up := dsub desired current in
      if dltb (bp_min_adjustment p) up then Ok (Raise, "raise bid to clear current market")
      else
        let? down := dsub current desired in
        if dltb (bp_min_adjustment p) down then
          if bp_allow_decrease p
          then Ok (Lower, if deqb desired (bp_target p) then "lower bid to target"
                          else "lower bid to current market")
          else Ok (Hold, "current bid above desired; decrease disabled")
        else Ok (Hold, "current bid already within adjustment band")
  end.

(** [_blocked_action]: a zero bid is falsy. *)
Definition blocked_action (price : SpotPrice) (reason : string) (dry_run : bool) (bid : option dec)
  : py BidAction :=
  let b := match bid with
           | Some d => if deqb d dzero then sp_minimum price else d
           | None => sp_minimum price
           end in
  new_action (MkBidAction (sp_provider_id price) (sp_resource_id price) (sp_gpu price) Block b
    (sp_minimum price) (sp_current price) (sp_gpu_count price) false None dry_run reason).

(** [_candidate_action] *)
Definition candidate_action (price : SpotPrice) (p : BiddingPolicy) (effective_max : dec)
  : py BidAction :=
  if negb (sp_available price)
  then blocked_action price "capacity unavailable" (bp_dry_run p) None
  else
    let? desired := desired_bid price p in
    if dltb effective_max desired
    then blocked_action price "minimum bid exceeds max price" (bp_dry_run p) (Some effective_max)
    else
      let? (kind, reason) := action_for_bid price p desired in
      new_action (MkBidAction (sp_provider_id price) (sp_resource_id price) (sp_gpu price) kind
        desired (sp_minimum price) (sp_current price) (sp_gpu_count price) false None
        (bp_dry_run p) reason).

(** [_hard_block_reason] *)
Definition hard_block_reason (p : BiddingPolicy) : option string :=
  let by_budget := match bp_budget p with
                   | Some d => match action d with block => Some (reason d) | _ => None end
                   | None => None
                   end in
  match bp_evaluation p with
  | Some e =>
      if allowed e then by_budget
      else Some (match violations e with
                 | v :: _ => "policy denied: " +:+ v_policy_id v
                 | [] => "policy denied"
                 end)
  | None => by_budget
  end.

(** [_sorted_prices] *)
Definition price_ltb (a b : SpotPrice) : bool :=
  if deqb (sp_minimum a) (sp_minimum b) then
    if String.eqb (sp_provider_id a) (sp_provider_id b) then
      if String.eqb (sp_resource_id a) (sp_resource_id b) then String.ltb (sp_gpu a) (sp_gpu b)
      else String.ltb (sp_resource_id a) (sp_resource_id b)
    else String.ltb (sp_provider_id a) (sp_provider_id b)
  else dltb (sp_minimum a) (sp_minimum b).
Definition sorted_prices (ps : list SpotPrice) : list SpotPrice := sort_by price_ltb ps.

(** The selection loop: how many are selected, their total and the final
    actions so far. *)
Record selection : Type := MkSel { s_count : Z; s_total : dec; s_final : list BidAction }.

Definition select_step (p : BiddingPolicy) (s : selection) (a : BidAction) : py selection :=
  if bool_decide (ba_action a = Block) then Ok (MkSel (s_count s) (s_total s) (s_final s ++ [a]))
  else if selection_limit p <=? s_count s then
    let? h := hold_copy a "not selected" (bp_dry_run p) in
    Ok (MkSel (s_count s) (s_total s) (s_final s ++ [h]))
  else
    let? sum := dadd (s_total s) (ba_bid a) in
    let? next := dec_usd sum "next_total_bid_usd_per_hour" in
    if match bp_max_total p with Some cap => dltb cap next | None => false end then
      let? b := block_copy a "budget bid cap exceeded" (bp_dry_run p) in
      Ok (MkSel (s_count s) (s_total s) (s_final s ++ [b]))
    else
      let? sel := selected_copy a (s_count s + 1) (bp_dry_run p) in
      Ok (MkSel (s_count s + 1) next (s_final s ++ [sel])).

(** [BiddingEngine.evaluate] *)
Definition evaluate_bids (snapshot : SpotPriceSnapshot) (p : BiddingPolicy) : py BiddingPlan :=
  let effective_max := effective_max_price p in
  let policy_allowed := match bp_evaluation p with Some e => allowed e | None => true end in
  match hard_block_reason p with
  | Some why =>
      let? actions := mapR (fun price => blocked_action price why (bp_dry_run p) None)
                        (sorted_prices (prices snapshot)) in
      new_plan (observed_at snapshot) effective_max actions (bp_dry_run p) (budget_action p)
        policy_allowed
  | None =>
      let? candidates := mapR (fun price => candidate_action price p effective_max)
                           (sorted_prices (prices snapshot)) in
      let? s := foldR (select_step p) (MkSel 0 dzero []) candidates in
      new_plan (observed_at snapshot) effective_max (s_final s) (bp_dry_run p) (budget_action p)
        policy_allowed
  end.

Section Adapters.
Context {Receipt : Type} (place_bid : BidAction -> py Receipt).

(** [collect_spot_price_snapshot] over the prices the feeds returned. *)
Definition collect_spot_price_snapshot (feeds : list (py (list SpotPrice))) (at_ : datetime)
  : py SpotPriceSnapshot :=
  let? ps := foldR (fun acc f => let? l := f in Ok (acc ++ l)) [] feeds in new_snapshot at_ ps.

(** [execute_bidding_plan]: the receipts, and the bids sent before an
    exception. *)
Fixpoint place_all (actions : list BidAction) : list BidAction * py (list Receipt) :=
  match actions with
  | [] => ([], Ok [])
  | a :: actions' =>
      match place_bid a with
      | Err e => ([a], Err e)
      | Ok r => let '(sent, rs) := place_all actions' in (a :: sent, let? rs := rs in Ok (r :: rs))
      end
  end.
Definition execute_bidding_plan (plan : BiddingPlan) (apply : bool)
  : list BidAction * py (list Receipt) :=
  if apply then place_all (executable_actions plan) else ([], Ok []).
End Adapters.

(** Objects that the constructors returned. *)
Definition valid_price (pr : SpotPrice) : Prop :=
  exists provider resource gpu mn cur un n available metadata,
    new_spot_price provider resource gpu mn cur un n available metadata = Ok pr.
Definition valid_policy (p : BiddingPolicy) : Prop :=
  exists t m units parallel i a c dec dry e b,
    new_bidding_policy t m units parallel i a c dec dry e b = Ok p.

(** ** Amounts *)

Definition usd_ok (d : dec) : Prop := exists z, usd_is d z.

Lemma bid_usd_ok v name d : bid_usd v name = Ok d -> usd_ok d.
Proof.
  unfold bid_usd. destruct (decimal_of_str v) as [[x|?|]|]; try done.
  destruct (dltb x dzero) eqn:Hx; [done|]. intros Hq. apply dltb_false in Hx.
  pose proof (quantize_usd_micro _ _ Hq) as [Hm Hl]. exists (dcoef d). split; [done|].
  assert (0 <= dcoef d); [|lia]. apply dcoef_nonneg. eapply quantize_nonneg; [|exact Hq].
  unfold dzero in Hx. by rewrite dval_zero in Hx.
Qed.

Lemma dec_usd_id d z name : usd_is d z -> dec_usd d name = Ok d.
Proof.
  intros [-> Hz]. unfold dec_usd, bid_usd. simpl.
  assert (dltb (micro z) dzero = false) as ->.
  { apply dltb_false. unfold dzero. rewrite dval_zero. apply dcoef_nonneg. simpl. lia. }
  apply quantize_usd_id. lia.
Qed.

Lemma optional_usd_ok v name o : optional_usd v name = Ok o -> forall d, o = Some d -> usd_ok d.
Proof.
  unfold optional_usd. destruct v; try (intros [= <-]; done);
    intros (x & Hx & ->)%rmap_Ok ? [= <-]; by eapply bid_usd_ok.
Qed.

Lemma optional_dec_usd_id o name :
  (forall d, o = Some d -> usd_ok d) -> optional_dec_usd o name = Ok o.
Proof.
  intros H. destruct o as [d|]; [|done]. destruct (H d eq_refl) as [z Hz].
  unfold optional_dec_usd, optional_usd. change (bid_usd (VDec (DFin d)) name) with (dec_usd d name).
  by rewrite (dec_usd_id d z).
Qed.

(** ** Actions *)

(** An action that its constructor returned. *)
Definition action_ok (a : BidAction) : Prop :=
  nonempty (strip (ba_provider_id a)) = true /\ nonempty (strip (ba_resource_id a)) = true /\
  nonempty (strip (ba_gpu a)) = true /\ 1 <= ba_gpu_count a /\
  usd_ok (ba_bid a) /\ usd_ok (ba_minimum a) /\ (forall d, ba_previous a = Some d -> usd_ok d).

Lemma new_action_id a :
  action_ok a -> (forall r, ba_rank a = Some r -> 1 <= r) -> new_action a = Ok a.
Proof.
  intros (H1 & H2 & H3 & H4 & [zb Hb] & [zm Hm] & Hp) Hr. unfold new_action, require_text.
  rewrite H1, H2, H3. unfold require_positive at 1.
  replace (ba_gpu_count a <? 1) with false by (symmetry; by apply Z.ltb_ge). cbn [rbind].
  rewrite (dec_usd_id _ _ _ Hb), (dec_usd_id _ _ _ Hm), (optional_dec_usd_id _ _ Hp). 
  destruct a as [? ? ? ? ? ? ? ? ? [r|] ? ?]; cbn -[require_positive] in *; [|done].
  unfold require_positive. by replace (r <? 1) with false by (symmetry; apply Z.ltb_ge; auto).
Qed.

Lemma new_action_same a b : action_ok a -> new_action a = Ok b -> b = a.
Proof.
  intros Ha Hn. pose proof Hn as H. unfold new_action in H. inv_ok.
  rewrite new_action_id in Hn; [by injection Hn|done|].
  intros r Hr. rewrite Hr in *.
  match goal with H : require_positive r _ = Ok _ |- _ => unfold require_positive in H end.
  destruct (r <? 1) eqn:E; [done|]. by boolify.
Qed.

Lemma valid_price_ok pr :
  valid_price pr ->
  nonempty (strip (sp_provider_id pr)) = true /\ nonempty (strip (sp_resource_id pr)) = true /\
  nonempty (strip (sp_gpu pr)) = true /\ 1 <= sp_gpu_count pr /\
  usd_ok (sp_minimum pr) /\ (forall d, sp_current pr = Some d -> usd_ok d).
Proof.
  intros (pid & rid & g & mn & cur & un & n & av & md & H). unfold new_spot_price in H.
  inv_ok. unfold require_text, require_positive in *.
  repeat match goal with
  | H : (if ?b then Ok _ else Err _) = Ok _ |- _ => destruct b eqn:?; [|discriminate H]
  | H : (if ?b then Err _ else Ok _) = Ok _ |- _ => destruct b eqn:?; [discriminate H|]
  end. boolify. simpl. repeat split; try done.
  - by eapply bid_usd_ok.
  - by eapply optional_usd_ok.
Qed.

Lemma valid_policy_ok p :
  valid_policy p ->
  usd_ok (bp_target p) /\ usd_ok (bp_max p) /\ dltb (bp_max p) (bp_target p) = false /\
  1 <= selection_limit p /\ usd_ok (bp_increment p) /\ (forall d, bp_max_total p = Some d -> usd_ok d).
Proof.
  intros (t & m & u & pa & i & a & c & dec & dry & e & b & H). unfold new_bidding_policy in H.
  inv_ok. unfold require_positive in *.
  repeat match goal with
  | H : (if ?b then Err _ else Ok _) = Ok _ |- _ => destruct b eqn:?; [discriminate H|]
  end. boolify. unfold selection_limit. simpl.
  repeat split; try done; try (by eapply bid_usd_ok); [lia|by eapply optional_usd_ok].
Qed.

(** The action of a price with some bid. *)
Definition price_action (pr : SpotPrice) (k : BidActionKind) (bid : dec) (dry : bool) (why : string)
  : BidAction :=
  MkBidAction (sp_provider_id pr) (sp_resource_id pr) (sp_gpu pr) k bid (sp_minimum pr)
    (sp_current pr) (sp_gpu_count pr) false None dry why.

Lemma price_action_ok pr k bid dry why :
  valid_price pr -> usd_ok bid -> action_ok (price_action pr k bid dry why).
Proof.
  intros (? & ? & ? & ? & ? & ?)%valid_price_ok ?. by repeat split.
Qed.

Lemma blocked_action_ok pr why dry bid :
  valid_price pr -> (forall d, bid = Some d -> usd_ok d) ->
  exists b, blocked_action pr why dry bid = Ok (price_action pr Block b dry why) /\ usd_ok b.
Proof.
  intros Hp Hb. unfold blocked_action. pose proof (valid_price_ok _ Hp) as (_ & _ & _ & _ & Hm & _).
  set (b := match bid with Some d => _ | None => _ end).
  assert (usd_ok b) as Hok by (unfold b; destruct bid; [destruct (deqb _ _)|]; auto).
  exists b. split; [|done]. apply new_action_id; [|done].
  by apply (price_action_ok pr Block b dry why).
Qed.

Lemma effective_max_ok p : valid_policy p -> usd_ok (effective_max_price p).
Proof.
  intros (Ht & Hm & _)%valid_policy_ok. unfold effective_max_price, dmin.
  destruct (budget_action p) as [[]|]; try done. by destruct (dltb _ _).
Qed.

Lemma desired_bid_ok pr p d :
  valid_price pr -> valid_policy p -> desired_bid pr p = Ok d ->
  usd_ok d /\ dleb (sp_minimum pr) d = true.
Proof.
  intros (_ & _ & _ & _ & [zm Hm] & _)%valid_price_ok (Ht & _ & _ & _ & [zi Hi] & _)%valid_policy_ok.
  unfold desired_bid. destruct (dleb _ _) eqn:E; [by intros [= <-]|].
  intros (s & Hs & Hd)%rbind_Ok. split; [by eapply bid_usd_ok|].
  unfold dec_usd, bid_usd in Hd. simpl in Hd. destruct (dltb s dzero) eqn:Hneg; [done|].
  destruct Hm as [Hm Hzm], Hi as [Hi Hzi]. rewrite Hm, Hi in *.
  apply dleb_spec.
  apply (quantize_mono ROUND_HALF_UP (micro zm) s (-6)); [done|apply micro_nonneg; lia| | |exact Hd].
  - eapply (dadd_mono (micro zm) (micro 0) (micro zm) (micro zi)); [..|exact Hs];
      [apply micro_nonneg; lia|apply micro_nonneg; lia|apply Qle_refl| |].
    + rewrite !dval_micro. apply inject_ten_le. lia.
    + rewrite dadd_micro by lia. by rewrite Z.add_0_r.
  - apply quantize_usd_id. lia.
Qed.

Lemma candidate_ok pr p a :
  valid_price pr -> valid_policy p -> candidate_action pr p (effective_max_price p) = Ok a ->
  exists k bid why, a = price_action pr k bid (bp_dry_run p) why /\ usd_ok bid /\
    (k <> Block -> sp_available pr = true /\ dleb (sp_minimum pr) bid = true /\
                   dleb bid (effective_max_price p) = true).
Proof.
  intros Hp Hv. unfold candidate_action. destruct (sp_available pr) eqn:Hav; simpl.
  - intros (d & Hd & H)%rbind_Ok. destruct (desired_bid_ok _ _ _ Hp Hv Hd) as [Hok Hmin].
    destruct (dltb _ d) eqn:Hmax.
    + destruct (blocked_action_ok pr "minimum bid exceeds max price" (bp_dry_run p)
                  (Some (effective_max_price p))) as (b & Hb & Hbok); [done| |].
      { intros ? [= <-]. by apply effective_max_ok. }
      rewrite Hb in H. injection H as <-. by exists Block, b, "minimum bid exceeds max price".
    + apply rbind_Ok in H as ([k why] & Hk & H).
      apply (new_action_same (price_action pr k d (bp_dry_run p) why)) in H;
        [|by apply price_action_ok].
      exists k, d, why. split; [done|]. split; [done|]. intros _. split; [done|]. split; [done|].
      apply dltb_false in Hmax. by apply dleb_spec.
  - destruct (blocked_action_ok pr "capacity unavailable" (bp_dry_run p) None) as (b & Hb & Hbok);
      [done|done|]. intros H. rewrite Hb in H. injection H as <-.
    by exists Block, b, "capacity unavailable".
Qed.

(** ** The selection loop *)

Definition within_rails (p : BiddingPolicy) (ps : list SpotPrice) (a : BidAction) : Prop :=
  exists pr, pr ∈ ps /\ sp_available pr = true /\
    ba_provider_id a = sp_provider_id pr /\ ba_resource_id a = sp_resource_id pr /\
    dleb (sp_minimum pr) (ba_bid a) = true /\ dleb (ba_bid a) (effective_max_price p) = true.

(** The sum of the selected bids in micro-dollars. *)
Definition bids_are (l : list BidAction) (zs : list Z) : Prop :=
  Forall2 (fun a z => usd_is (ba_bid a) z) l zs.

Record sel_inv (p : BiddingPolicy) (ps : list SpotPrice) (s : selection) : Prop := MkSelInv {
  si_count : s_count s = Z.of_nat (List.length (filter (fun a => ba_selected a) (s_final s)));
  si_limit : s_count s <= selection_limit p;
  si_rails : Forall (within_rails p ps) (filter (fun a => ba_selected a) (s_final s));
  si_sum : exists zs, bids_are (filter (fun a => ba_selected a) (s_final s)) zs /\
             is_micro (s_total s) (zsum zs) /\ zsum zs < micro_limit /\
             match bp_max_total p with Some cap => dltb cap (micro (zsum zs)) = false | None => True end;
}.

Lemma sel_inv_same p ps s a a' :
  sel_inv p ps s -> new_action a = Ok a' -> action_ok a -> ba_selected a = false ->
  sel_inv p ps (MkSel (s_count s) (s_total s) (s_final s ++ [a'])).
Proof.
  intros [Hc Hl Hr Hs] Hn Ha Hsel. apply new_action_same in Hn as ->; [|done].
  assert (filter (fun a => ba_selected a) (s_final s ++ [a]) = filter (fun a => ba_selected a) (s_final s)) as Hf.
  { rewrite filter_app, filter_cons, Hsel. simpl. by rewrite app_nil_r. }
  constructor; simpl; rewrite ?Hf; done.
Qed.

(** Adding two amounts and quantizing: exact, or an error. *)
Lemma usd_sum t b zt zb s q name :
  is_micro t zt -> 0 <= zt < micro_limit -> usd_is b zb ->
  dadd t b = Ok s -> dec_usd s name = Ok q ->
  zt + zb < micro_limit /\ q = micro (zt + zb).
Proof.
  intros Ht Hzt Hb Hs Hq. apply (quantized_sum t b zt zb s q); [done..|].
  unfold dec_usd, bid_usd in Hq. simpl in Hq. by destruct (dltb s dzero).
Qed.

Lemma bids_amounts l zs : bids_are l zs -> amounts_are (ba_bid <$> l) zs.
Proof. unfold bids_are, amounts_are. by rewrite Forall2_fmap_l. Qed.
Lemma bids_nonneg l zs : bids_are l zs -> 0 <= zsum zs.
Proof. intros H%bids_amounts. by eapply amounts_nonneg. Qed.

Lemma copy_ok a k sel r dry why :
  action_ok a -> (forall n, r = Some n -> 1 <= n) ->
  copy_action a k sel r dry why =
  Ok (MkBidAction (ba_provider_id a) (ba_resource_id a) (ba_gpu a) k (ba_bid a) (ba_minimum a)
        (ba_previous a) (ba_gpu_count a) sel r dry why).
Proof. intros Ha Hr. unfold copy_action. by apply new_action_id. Qed.

Lemma select_step_inv p ps pr s a s' :
  valid_price pr -> pr ∈ ps -> valid_policy p ->
  candidate_action pr p (effective_max_price p) = Ok a ->
  sel_inv p ps s -> select_step p s a = Ok s' -> sel_inv p ps s'.
Proof.
  intros Hpr Hin Hp Hc Hs. destruct (candidate_ok _ _ _ Hpr Hp Hc) as (k & bid & why & -> & Hbid & Hrails).
  pose proof (price_action_ok pr k bid (bp_dry_run p) why Hpr Hbid) as Ha.
  unfold select_step. destruct (bool_decide _) eqn:Hk.
  { intros [= <-]. eapply sel_inv_same; [done|by apply new_action_id|done|done]. }
  boolify. destruct (selection_limit p <=? s_count s) eqn:Hlim.
  { intros (h & Hh & [= <-])%rbind_Ok. unfold hold_copy, copy_action in Hh.
    eapply sel_inv_same; [done|exact Hh|exact Ha|done]. }
  intros (sum & Hsum & H)%rbind_Ok. apply rbind_Ok in H as (next & Hnext & H).
  destruct Hbid as [z Hz]. pose proof Hs as [Hcount Hlimit Hrail (zs & Hzs & Ht & Hlt & Hcap)].
  destruct (usd_sum _ _ _ _ _ _ _ Ht (conj (bids_nonneg _ _ Hzs) Hlt) Hz Hsum Hnext) as [Hlt' ->].
  destruct (match bp_max_total p with Some cap => _ | None => _ end) eqn:Hover.
  { apply rbind_Ok in H as (b & Hb & [= <-]). unfold block_copy, copy_action in Hb.
    eapply sel_inv_same; [done|exact Hb|exact Ha|done]. }
  apply rbind_Ok in H as (sel & Hsel & [= <-]). unfold selected_copy in Hsel.
  rewrite copy_ok in Hsel; [injection Hsel as <-|done|intros ? [= <-]; lia].
  destruct (Hrails Hk) as (Hav & Hmin & Hmax).
  constructor; cbn [s_count s_total s_final]; rewrite ?filter_app, ?filter_cons; simpl.
  - rewrite length_app. simpl. lia.
  - boolify. lia.
  - apply Forall_app. split; [done|]. constructor; [|done]. by exists pr.
  - exists (zs ++ [z]). rewrite zsum_app. simpl. rewrite Z.add_0_r.
    split; [apply Forall2_app; [done|by constructor]|]. split; [by left|]. split; [done|].
    by destruct (bp_max_total p).
Qed.

Lemma select_loop_inv p ps cands prs s s' :
  valid_policy p -> Forall valid_price prs -> (forall pr, pr ∈ prs -> pr ∈ ps) ->
  Forall2 (fun pr a => candidate_action pr p (effective_max_price p) = Ok a) prs cands ->
  sel_inv p ps s -> foldR (select_step p) s cands = Ok s' -> sel_inv p ps s'.
Proof.
  intros Hp Hv Hin H2. revert s. induction H2 as [|pr a prs cands Hc _ IH]; intros s Hs; simpl.
  { by intros [= <-]. }
  apply Forall_cons in Hv as [Hpr Hv]. intros (s1 & H1 & H)%rbind_Ok.
  eapply IH; [done|by intros ? ?; apply Hin; right| |exact H].
  eapply (select_step_inv p ps pr); [done|apply Hin; left|done|done|done|done].
Qed.

(** ** Theorems *)

(** C36: A plan stays within every rail: it selects at most
    [min(target_capacity_units, max_parallel_bids)] lanes, each one an
    available lane of the snapshot bid between the lane's minimum and the
    effective maximum price, and the selected bids add up, exactly, to no more
    than the total cap. *)
Theorem bidding_within_rails snapshot p plan :
  Forall valid_price (prices snapshot) -> valid_policy p ->
  evaluate_bids snapshot p = Ok plan ->
  Z.of_nat (List.length (selected_actions plan)) <= selection_limit p /\
  Forall (within_rails p (prices snapshot)) (selected_actions plan) /\
  exists total, total_selected plan = Ok total /\
    match bp_max_total p with Some cap => dleb total cap = true | None => True end.
Proof.
  intros Hprices Hp. unfold evaluate_bids.
  assert (forall pr, pr ∈ sorted_prices (prices snapshot) -> pr ∈ prices snapshot) as Hin.
  { intros pr. by rewrite (elem_of_sort_by price_ltb). }
  assert (Forall valid_price (sorted_prices (prices snapshot))) as Hsorted.
  { apply Forall_forall. intros pr Hpr. rewrite Forall_forall in Hprices. auto. }
  assert (forall s, sel_inv p (prices snapshot) s -> forall pl, pl_actions pl = s_final s ->
    Z.of_nat (List.length (selected_actions pl)) <= selection_limit p /\
    Forall (within_rails p (prices snapshot)) (selected_actions pl) /\
    exists total, total_selected pl = Ok total /\
      match bp_max_total p with Some cap => dleb total cap = true | None => True end) as Hdone.
  { intros s [Hc Hl Hr (zs & Hzs & Ht & Hlt & Hcap)] pl Hpl. unfold total_selected, selected_actions.
    rewrite Hpl. split; [lia|]. split; [done|].
    destruct (dsum_amounts _ zs dzero 0 (bids_amounts _ _ Hzs)) as (sm & -> & Hsm); [by right|lia|lia|].
    exists (micro (zsum zs)). simpl. pose proof (bids_nonneg _ _ Hzs). split.
    - unfold dec_usd, bid_usd. simpl. replace (dltb sm dzero) with false.
      + apply is_micro_quantize; [done|lia].
      + symmetry. apply dltb_false. rewrite (is_micro_val _ _ Hsm). unfold dzero. rewrite dval_zero.
        apply micro_nonneg. lia.
    - destruct (bp_max_total p) as [cap|]; [|done]. apply dltb_false in Hcap. by apply dleb_spec. }
  pose proof (valid_policy_ok p Hp) as (_ & _ & _ & Hlim & _).
  assert (sel_inv p (prices snapshot) (MkSel 0 dzero [])) as H0.
  { constructor; simpl; [done|lia|done|]. exists []. split; [constructor|]. split; [by right|].
    split; [done|]. destruct (bp_max_total p) as [cap|] eqn:Hcap; [|done].
    destruct (valid_policy_ok p Hp) as (_ & _ & _ & _ & _ & Hc). destruct (Hc _ Hcap) as (z & -> & Hz).
    change (zsum []) with 0. rewrite dltb_micro. apply Z.ltb_ge. lia. }
  destruct (hard_block_reason p) as [why|].
  - intros (acts & Hacts & H)%rbind_Ok.
    unfold new_plan in H. inv_ok. apply (Hdone (MkSel 0 dzero acts)); [|done].
    apply mapR_Ok in Hacts. assert (filter (fun a => ba_selected a) acts = []) as Hf.
    { clear -Hacts Hsorted. induction Hacts as [|pr a prs acts Ha _ IH]; [done|].
      apply Forall_cons in Hsorted as [Hpr Hs]. rewrite filter_cons.
      destruct (blocked_action_ok pr why (bp_dry_run p) None Hpr) as (b & Hb & _); [done|].
      rewrite Hb in Ha. injection Ha as <-. by rewrite IH. }
    destruct H0 as [? ? ? (zs & ? & ? & ? & ?)]. simpl in *. constructor; simpl; rewrite ?Hf; try done.
    by exists zs.
  - intros (cands & Hc & H)%rbind_Ok. apply rbind_Ok in H as (s & Hs & H).
    unfold new_plan in H. inv_ok. apply (Hdone s); [|done].
    eapply (select_loop_inv p _ cands); [done|exact Hsorted|exact Hin| |exact H0|exact Hs].
    by apply mapR_Ok.
Qed.

(** A policy denial or a tripped budget breaker stops all bidding: evaluation
    succeeds, recommends [block] with the reason for every lane of the
    snapshot, in price order, selects nothing, and executing the plan sends no
    bid even with [apply]. *)
Theorem hard_rails_block {Receipt} (place_bid : BidAction -> py Receipt) snapshot p apply :
  dt_aware (observed_at snapshot) = true ->
  Forall valid_price (prices snapshot) -> valid_policy p ->
  ((exists e, bp_evaluation p = Some e /\ allowed e = false) \/
   (exists d, bp_budget p = Some d /\ action d = block)) ->
  exists plan why, evaluate_bids snapshot p = Ok plan /\
    Forall2 (fun pr a => ba_action a = Block /\ ba_selected a = false /\ ba_reason a = why /\
                         ba_provider_id a = sp_provider_id pr /\ ba_resource_id a = sp_resource_id pr)
      (sorted_prices (prices snapshot)) (pl_actions plan) /\
    execute_bidding_plan place_bid plan apply = ([], Ok []).
Proof.
  intros Ht Hprices Hp Hblock. unfold evaluate_bids.
  assert (exists why, hard_block_reason p = Some why) as [why ->].
  { unfold hard_block_reason. destruct Hblock as [(e & -> & ->)|(d & -> & Hd)]; [by eexists|].
    rewrite Hd. destruct (bp_evaluation p) as [e|]; [destruct (allowed e)|]; by eexists. }
  assert (Forall valid_price (sorted_prices (prices snapshot))) as Hsorted.
  { apply Forall_forall. intros pr. unfold sorted_prices. rewrite (elem_of_sort_by price_ltb).
    rewrite Forall_forall in Hprices. auto. }
  assert (exists acts,
    mapR (fun price => blocked_action price why (bp_dry_run p) None) (sorted_prices (prices snapshot)) = Ok acts /\
    Forall2 (fun pr a => ba_action a = Block /\ ba_selected a = false /\ ba_reason a = why /\
               ba_provider_id a = sp_provider_id pr /\ ba_resource_id a = sp_resource_id pr)
      (sorted_prices (prices snapshot)) acts) as (acts & Hacts & H2).
  { clear -Hsorted. induction Hsorted as [|pr prs Hpr _ (acts & Hm & H2)]; [by exists []|].
    destruct (blocked_action_ok pr why (bp_dry_run p) None Hpr) as (b & Hb & _); [done|].
    exists (price_action pr Block b (bp_dry_run p) why :: acts). simpl. rewrite Hb. simpl.
    rewrite Hm. split; [done|]. by constructor. }
  rewrite Hacts. cbn [rbind]. unfold new_plan, require_utc. rewrite Ht. cbn [rbind].
  destruct (effective_max_ok p Hp) as [z Hz]. rewrite (dec_usd_id _ _ _ Hz). cbn [rbind].
  eexists _, why. split; [done|]. split; [exact H2|].
  unfold execute_bidding_plan, executable_actions, selected_actions. simpl.
  assert (filter (fun a => ba_selected a) acts = []) as ->; [|by destruct apply].
  clear -H2. induction H2 as [|pr a prs acts (_ & Hs & _) _ IH]; [done|].
  by rewrite filter_cons, Hs.
Qed.

(** ** Witnesses *)

Definition spot (id : string) (mn cur : pyval) : py SpotPrice :=
  new_spot_price "vast" id "4090" mn cur VNone 1 true [].
Definition ok_or {A} (r : py A) (d : A) : A := match r with Ok a => a | Err _ => d end.
Definition no_price : SpotPrice := MkPrice "" "" "" dzero None None 0 false [].
Definition example_prices : list SpotPrice :=
  (fun r => ok_or r no_price) <$>
  [spot "a" (VStr "0.30") VNone; spot "b" (VStr "0.20") (VStr "0.50"); spot "c" (VStr "0.90") VNone;
   spot "d" (VStr "0.25") VNone].
Definition example_bid_policy_of (e : option PolicyEvaluationResult) : py BiddingPolicy :=
  new_bidding_policy (VStr "0.28") (VStr "0.40") 3 2 (VStr "0.01") (VStr "0.000001") (VStr "0.60")
    false true e None.
Definition no_policy : BiddingPolicy :=
  MkBidPolicy dzero dzero 0 0 dzero dzero None false true None None.
Definition example_bid_policy (e : option PolicyEvaluationResult) : BiddingPolicy :=
  ok_or (example_bid_policy_of e) no_policy.

Lemma spot_valid id mn cur : is_ok (spot id mn cur) = true -> valid_price (ok_or (spot id mn cur) no_price).
Proof.
  destruct (spot id mn cur) as [pr|] eqn:E; [|done]. intros _. simpl.
  by exists "vast", id, "4090", mn, cur, VNone, 1, true, [].
Qed.

Lemma example_prices_valid : Forall valid_price example_prices.
Proof.
  unfold example_prices. repeat (apply Forall_cons_2; [by apply spot_valid|]). constructor.
Qed.

Lemma example_bid_policy_valid e :
  is_ok (example_bid_policy_of e) = true -> valid_policy (example_bid_policy e).
Proof.
  unfold example_bid_policy. destruct (example_bid_policy_of e) as [p|] eqn:E; [|done].
  intros _. simpl. by exists (VStr "0.28"), (VStr "0.40"), 3, 2, (VStr "0.01"), (VStr "0.000001"),
    (VStr "0.60"), false, true, e, None.
Qed.

Lemma bidding_within_rails_witness :
  exists plan, evaluate_bids (MkSnapshot (utc 0) example_prices) (example_bid_policy None) = Ok plan /\
    ba_resource_id <$> selected_actions plan = ["b"; "d"] /\
    Z.of_nat (List.length (selected_actions plan)) <= 2 /\
    exists total, total_selected plan = Ok total /\ dleb total (micro 600000) = true.
Proof.
  eexists. split; [vm_compute; reflexivity|]. split; [reflexivity|].
  destruct (bidding_within_rails (MkSnapshot (utc 0) example_prices) (example_bid_policy None)
              _ example_prices_valid
              (example_bid_policy_valid None eq_refl) ltac:(vm_compute; reflexivity))
    as (H1 & _ & H3).
  split; [exact H1|exact H3].
Defined.

Lemma hard_rails_block_witness :
  exists plan why, evaluate_bids (MkSnapshot (utc 0) example_prices)
      (example_bid_policy (Some (MkEvaluation false "deny" []))) = Ok plan /\
    why = "policy denied" /\ ba_action <$> pl_actions plan = [Block; Block; Block; Block] /\
    execute_bidding_plan (fun _ => @Ok exn _ tt) plan true = ([], Ok []).
Proof.
  destruct (hard_rails_block (fun _ => @Ok exn _ tt) (MkSnapshot (utc 0) example_prices)
              (example_bid_policy (Some (MkEvaluation false "deny" []))) true eq_refl
              example_prices_valid (example_bid_policy_valid _ eq_refl)
              ltac:(left; eexists; split; reflexivity)) as (plan & why & Hp & _ & Hx).
  exists plan, "policy denied". split; [exact Hp|]. split; [reflexivity|]. split; [|exact Hx].
  vm_compute in Hp. injection Hp as <-. reflexivity.
Defined.

(** A held bid above the desired price counts at the desired price: lane [b]
    already pays 0.50, and the plan's total says 0.28. *)
Example hold_counts_desired :
  exists plan, evaluate_bids (MkSnapshot (utc 0) (take 1 (drop 1 example_prices)))
      (example_bid_policy None) = Ok plan /\
    (fun a => (ba_action a, ba_previous a)) <$> selected_actions plan = [(Hold, Some (micro 500000))] /\
    total_selected plan = Ok (micro 280000).
Proof. eexists. split; [vm_compute; reflexivity|]. split; vm_compute; reflexivity. Qed.
