(* ===== verification/Estimator.v ===== *)
(** * Cost estimation ([cost/estimator.py])

    The tagged pricing models, the parser that also reads legacy provider
    cost maps, and the estimates with their upper bounds.  The three
    compatibility estimators are [estimate_for] and [upper_bound_for] at a
    fixed cost mode.  A pydantic validation failure is a [ValueError] whose
    text is not modelled. *)

From Stdlib Require Import QArith Lqa.
From S2P Require Import Prelude PyDecimal PyValue PyFormat Enums Provider.
#[local] Open Scope Z_scope.

(** Definitions *)

Inductive PricingModel :=
| GpuHourPricing (per_second_active : dec)
| PerRequestPricing (per_request : dec)
| PerSecondPricing (rate_per_second : dec) (bid_rate_per_second : option dec)
| PerTokenPricing (per_million_input_tokens per_million_output_tokens : dec)
| PerVmSecondPricing (rate_per_second : dec).

(** What estimation reads of a [Capability]. *)
Record CapabilityCost : Type := MkCapabilityCost { cc_mode : CostMode; execution_timeout_ms : Z }.

(** [_non_negative_decimal] *)
Definition cost_decimal (v : pyval) (name : string) : py dec :=
  let? d := finite_decimal v name in
  if dltb d dzero then Err (ValueError (name +:+ " must be non-negative")) else Ok d.

(** [_optional_non_negative_decimal] *)
Definition optional_cost_decimal (v : pyval) (name : string) : py (option dec) :=
  match v with VNone => Ok None | _ => rmap Some (cost_decimal v name) end.

(** [_usd] *)
Definition estimate_usd (d : dec) : py dec :=
  match quantize_usd d with
  | Err DecimalInvalidOperation =>
      Err (ValueError ("cost estimate is out of representable USD range: " +:+ str_dec_fin d))
  | r => r
  end.

(** [_worst_case_seconds] *)
Definition worst_case_seconds (c : CapabilityCost) : py dec :=
  ddiv (of_int (execution_timeout_ms c)) (of_int 1000).

(** ** Tokens *)

(** [_first_present]: [None] is [_MISSING]. *)
Fixpoint first_present_of (payload : dict) (keys : list string) : option pyval :=
  match keys with
  | [] => None
  | k :: ks =>
      match dict_get_none k payload with VNone => first_present_of payload ks | v => Some v end
  end.

(** [_token_count] *)
Definition token_count (payload : dict) (keys : list string) : option pyval :=
  match first_present_of payload keys with
  | Some v => Some v
  | None => match as_dict (dict_get_none "usage" payload) with
            | Some usage => first_present_of usage keys
            | None => None
            end
  end.

(** [_text_length] *)
Definition text_keys : list string := ["content"; "text"; "prompt"; "input"].
Fixpoint text_length (v : pyval) : Z :=
  match v with
  | VStr s | VEnum s => Z.of_nat (String.length s)
  | VDict m =>
      foldr (fun kv acc => (if bool_decide (fst kv ∈ text_keys) then text_length (snd kv) else 0) + acc)
        0 m
  | VList l => foldr (fun x acc => text_length x + acc) 0 l
  | _ => 0
  end.

(** [_estimate_input_tokens] *)
Definition estimate_input_tokens (payload : dict) : py dec :=
  match first_present_of payload ["input_bytes"] with
  | Some v => let? d := cost_decimal v "input_bytes" in ddiv d (of_int 4)
  | None =>
      let total := foldr (fun k acc => text_length (dict_get_none k payload) + acc) 0
                     ["system"; "messages"; "prompt"; "input"] in
      ddiv (of_int total) (of_int 4)
  end.

(** [_estimate_input_token_count] *)
Definition input_token_count (payload : dict) : py dec :=
  match token_count payload ["input_tokens"; "prompt_tokens"] with
  | None => estimate_input_tokens payload
  | Some v => cost_decimal v "input_tokens"
  end.

Definition max_output_keys : list string :=
  ["max_tokens"; "max_output_tokens"; "max_completion_tokens"; "max_new_tokens"].
Definition output_keys : list string := ["output_tokens"; "completion_tokens"].

(** [_estimate_output_token_count] *)
Definition output_token_count (payload : dict) : py dec :=
  match token_count payload output_keys with
  | Some v => cost_decimal v "output_tokens"
  | None =>
      match first_present_of payload max_output_keys with
      | None => Ok (of_int 256)
      | Some v => cost_decimal v "max_output_tokens"
      end
  end.

(** [_estimate_output_token_upper_bound] *)
Definition output_token_upper_bound (payload : dict) : py dec :=
  match first_present_of payload max_output_keys with
  | None => Err (ValueError "max_output_tokens is required for per-token upper_bound")
  | Some v => cost_decimal v "max_output_tokens"
  end.

(** [PerTokenPricing._tokens_to_usd] *)
Definition tokens_to_usd (rate_in rate_out input_tokens output_tokens : dec) : py dec :=
  let? i := dmul rate_in input_tokens in
  let? o := dmul rate_out output_tokens in
  let? s := dadd i o in
  let? q := ddiv s (of_int 1000000) in
  estimate_usd q.

(** A rate for the worst-case run time. *)
Definition rate_for_seconds (rate : dec) (c : CapabilityCost) : py dec :=
  let? secs := worst_case_seconds c in
  let? x := dmul rate secs in
  estimate_usd x.

(** The [estimate] methods. *)
Definition estimate (p : PricingModel) (c : CapabilityCost) (payload : dict) : py dec :=
  match p with
  | GpuHourPricing r | PerVmSecondPricing r | PerSecondPricing r _ => rate_for_seconds r c
  | PerRequestPricing r => estimate_usd r
  | PerTokenPricing ri ro =>
      let? i := input_token_count payload in
      let? o := output_token_count payload in
      tokens_to_usd ri ro i o
  end.

(** The [upper_bound] methods. *)
Definition upper_bound (p : PricingModel) (c : CapabilityCost) (payload : dict) : py dec :=
  match p with
  | PerSecondPricing r bid =>
      rate_for_seconds (match bid with Some b => dmax r b | None => r end) c
  | PerTokenPricing ri ro =>
      let? i := input_token_count payload in
      let? o := output_token_upper_bound payload in
      tokens_to_usd ri ro i o
  | _ => estimate p c payload
  end.

(** ** Parsing *)

(** A pricing model, a provider record or a cost map. *)
Inductive CostInput := InPricing (p : PricingModel) | InLike (p : ProviderLike).

Definition nested_cost (config : pyval) : option dict :=
  match as_dict config with Some m => as_dict (dict_get_none "cost" m) | None => None end.

(** [_cost_mapping] *)
Definition cost_mapping (p : ProviderLike) : py dict :=
  match p with
  | PMap m =>
      match as_dict (dict_get_none "cost" m) with
      | Some c => Ok c
      | None => match nested_cost (dict_get_none "config" m) with Some c => Ok c | None => Ok m end
      end
  | PModel r =>
      match nested_cost (VDict (p_config r)) with
      | Some c => Ok c
      | None => Err (ValueError "provider cost must be a mapping or expose a mapping 'cost'")
      end
  end.

Definition validation_error {A} : py A := Err (ValueError "validation error").

(** A required field of a tagged model. *)
Definition tagged_field (data : dict) (key : string) : py dec :=
  match dict_get key data with Some v => cost_decimal v key | None => validation_error end.

Definition only_keys (data : dict) (keys : list string) : bool :=
  forallb (fun kv => bool_decide (fst kv ∈ "kind" :: keys)) data.

(** [_tagged_pricing_model]: the discriminated union, without extra keys. *)
Definition tagged_pricing_model (cost : dict) : py PricingModel :=
  let data := al_del "model" cost in
  let data := match dict_get "kind" data, dict_get_none "model" cost with
              | None, VNone => data
              | None, m => data ++ [("kind", m)]
              | Some _, _ => data
              end in
  match as_str (dict_get_none "kind" data) with
  | None => validation_error
  | Some kind =>
      let guard keys (k : py PricingModel) := if only_keys data keys then k else validation_error in
      if String.eqb kind "gpu_hour" then
        guard ["per_second_active"] (rmap GpuHourPricing (tagged_field data "per_second_active"))
      else if String.eqb kind "per_request" then
        guard ["per_request"] (rmap PerRequestPricing (tagged_field data "per_request"))
      else if String.eqb kind "per_second" then
        guard ["rate_per_second"; "bid_rate_per_second"]
          (let? r := tagged_field data "rate_per_second" in
           let? b := optional_cost_decimal (dict_get_none "bid_rate_per_second" data)
                       "bid_rate_per_second" in
           Ok (PerSecondPricing r b))
      else if String.eqb kind "per_token" then
        guard ["per_million_input_tokens"; "per_million_output_tokens"]
          (let? i := tagged_field data "per_million_input_tokens" in
           let? o := tagged_field data "per_million_output_tokens" in
           Ok (PerTokenPricing i o))
      else if String.eqb kind "per_vm_second" then
        guard ["rate_per_second"] (rmap PerVmSecondPricing (tagged_field data "rate_per_second"))
      else validation_error
  end.

(** [_required_cost_mode] *)
Definition required_cost_mode (mode : option string) : py CostMode :=
  match mode with
  | None => Err (ValueError "legacy provider cost requires cost_mode or tagged pricing kind")
  | Some s => match enum_of_value s with
              | Some m => Ok m
              | None => Err (ValueError ("unsupported cost_mode: " +:+ repr_str s))
              end
  end.

(** [_required_non_negative_decimal]: the key is looked up in the cost map of
    the map it is given, which is that map unless it has a nested one. *)
Definition required_decimal (cost : dict) (key : string) : py dec :=
  let? c := cost_mapping (PMap cost) in
  match dict_get key c with
  | None => Err (ValueError ("provider cost missing required key " +:+ repr_str key))
  | Some v => cost_decimal v ("provider cost " +:+ repr_str key)
  end.

(** [parse_pricing_model] *)
Definition parse_pricing_model (provider_cost : CostInput) (cost_mode : option string)
  : py PricingModel :=
  match provider_cost with
  | InPricing p => Ok p
  | InLike pl =>
      let? cost := cost_mapping pl in
      if bool_decide (is_Some (dict_get "kind" cost)) || bool_decide (is_Some (dict_get "model" cost))
      then tagged_pricing_model cost
      else
        let? mode := required_cost_mode cost_mode in
        match mode with
        | PER_SECOND => rmap GpuHourPricing (required_decimal cost "per_second_active")
        | PER_REQUEST => rmap PerRequestPricing (required_decimal cost "per_request")
        | PER_TOKEN =>
            let? i := required_decimal cost "per_million_input_tokens" in
            let? o := required_decimal cost "per_million_output_tokens" in
            Ok (PerTokenPricing i o)
        end
  end.

Record CostQuote : Type := MkQuote {
  q_pricing : PricingModel; q_capability : CapabilityCost; q_payload : dict }.

(** [quote_cost], [CostQuote.estimate] and [CostQuote.upper_bound] *)
Definition quote_cost (c : CapabilityCost) (provider_cost : CostInput) (payload : dict) : py CostQuote :=
  let? p := parse_pricing_model provider_cost (Some (enum_value (cc_mode c))) in
  Ok (MkQuote p c payload).
Definition quote_estimate (q : CostQuote) : py dec := estimate (q_pricing q) (q_capability q) (q_payload q).
Definition quote_upper_bound (q : CostQuote) : py dec :=
  upper_bound (q_pricing q) (q_capability q) (q_payload q).

(** [get_estimator(mode)] and its two methods. *)
Definition get_estimator (mode : string) : py CostMode := required_cost_mode (Some mode).
Definition estimate_for (mode : CostMode) (c : CapabilityCost) (provider_cost : CostInput) (payload : dict)
  : py dec :=
  let? p := parse_pricing_model provider_cost (Some (enum_value mode)) in estimate p c payload.
Definition upper_bound_for (mode : CostMode) (c : CapabilityCost) (provider_cost : CostInput)
    (payload : dict) : py dec :=
  let? p := parse_pricing_model provider_cost (Some (enum_value mode)) in upper_bound p c payload.

(** ** Helper lemmas *)

(** The rates of a model are non-negative. *)
Definition rates_ok (p : PricingModel) : Prop :=
  match p with
  | GpuHourPricing r | PerRequestPricing r | PerVmSecondPricing r => 0 <= dcoef r
  | PerSecondPricing r bid => 0 <= dcoef r /\ match bid with Some b => 0 <= dcoef b | None => True end
  | PerTokenPricing i o => 0 <= dcoef i /\ 0 <= dcoef o
  end.

Lemma cost_decimal_nonneg v name d : cost_decimal v name = Ok d -> 0 <= dcoef d.
Proof.
  unfold cost_decimal. intros (x & _ & H)%rbind_Ok. destruct (dltb x dzero) eqn:E; [done|].
  injection H as <-. apply dltb_false in E. unfold dzero in E. rewrite dval_zero in E.
  by apply dcoef_nonneg.
Qed.

Lemma optional_cost_nonneg v name o :
  optional_cost_decimal v name = Ok o -> match o with Some d => 0 <= dcoef d | None => True end.
Proof.
  unfold optional_cost_decimal. destruct v; try (by intros [= <-]);
    intros (d' & Hd & ->)%rmap_Ok; by eapply cost_decimal_nonneg.
Qed.

Lemma tagged_field_nonneg data k d : tagged_field data k = Ok d -> 0 <= dcoef d.
Proof. unfold tagged_field. destruct (dict_get k data); [apply cost_decimal_nonneg|done]. Qed.

Lemma required_decimal_nonneg c k d : required_decimal c k = Ok d -> 0 <= dcoef d.
Proof.
  unfold required_decimal. intros (m & _ & H)%rbind_Ok.
  destruct (dict_get k m); [by eapply cost_decimal_nonneg|done].
Qed.

#[local] Hint Resolve cost_decimal_nonneg tagged_field_nonneg required_decimal_nonneg : core.

Lemma tagged_rates_ok cost p : tagged_pricing_model cost = Ok p -> rates_ok p.
Proof.
  unfold tagged_pricing_model. destruct (as_str _) as [kind|]; [|done].
  repeat (destruct (String.eqb kind _); [destruct (only_keys _ _); [|done]; intros H; inv_ok; subst; simpl|]);
    [..|done]; eauto.
  split; [eauto|]. eapply optional_cost_nonneg; eassumption.
Qed.

Lemma parse_rates_ok l mode p : parse_pricing_model (InLike l) mode = Ok p -> rates_ok p.
Proof.
  unfold parse_pricing_model. intros (cost & _ & H)%rbind_Ok.
  destruct (_ || _); [by eapply tagged_rates_ok|].
  apply rbind_Ok in H as (md & _ & H). destruct md; inv_ok; subst; simpl; eauto.
Qed.

Lemma estimate_usd_quantize d q : estimate_usd d = Ok q -> quantize_usd d = Ok q.
Proof. unfold estimate_usd. by destruct (quantize_usd d) as [|[]]. Qed.

Lemma rate_for_seconds_mono c r r' e u :
  0 <= execution_timeout_ms c -> 0 <= dcoef r -> (dval r <= dval r')%Q ->
  rate_for_seconds r c = Ok e -> rate_for_seconds r' c = Ok u ->
  (0 <= dval e)%Q /\ (dval e <= dval u)%Q.
Proof.
  intros Ht Hr Hle. unfold rate_for_seconds.
  destruct (worst_case_seconds c) as [s|] eqn:Hs; [|done]. cbn [rbind].
  assert (0 <= dval s)%Q as Hs0.
  { eapply ddiv_nonneg; [| |exact Hs]; apply dcoef_nonneg; simpl; lia. }
  apply dcoef_nonneg in Hr as Hr0.
  intros (x & Hx & He%estimate_usd_quantize)%rbind_Ok (y & Hy & Hu%estimate_usd_quantize)%rbind_Ok.
  assert (0 <= dval x)%Q by (eapply dmul_nonneg; [exact Hr0|exact Hs0|done]).
  assert (dval x <= dval y)%Q.
  { eapply (dmul_mono r s r' s); [exact Hr0|exact Hs0|exact Hle|apply Qle_refl|done|done]. }
  split; [by eapply quantize_nonneg|]. by eapply (quantize_mono ROUND_HALF_UP x y).
Qed.

Lemma text_length_nonneg v : 0 <= text_length v.
Proof.
  induction v using pyval_nested_ind; simpl; try lia.
  - induction l as [|x l IH]; simpl; [done|].
    match goal with H : Forall _ (_ :: _) |- _ => apply Forall_cons in H as [Hx Hl] end.
    specialize (IH Hl). lia.
  - induction m as [|[k x] m IH]; simpl; [done|].
    match goal with H : Forall _ (_ :: _) |- _ => apply Forall_cons in H as [Hx Hl] end.
    specialize (IH Hl). simpl in Hx. destruct (bool_decide _); lia.
Qed.

Lemma input_token_nonneg payload i : input_token_count payload = Ok i -> 0 <= dcoef i.
Proof.
  unfold input_token_count, estimate_input_tokens. destruct (token_count _ _); [eauto|].
  destruct (first_present_of _ _).
  - intros (d & Hd & Hi)%rbind_Ok. apply dcoef_nonneg.
    eapply ddiv_nonneg; [..|exact Hi]; apply dcoef_nonneg; [eauto|done].
  - intros Hi. apply dcoef_nonneg. eapply ddiv_nonneg; [..|exact Hi]; apply dcoef_nonneg; [|done].
    cbn [of_int dcoef foldr]. repeat (apply Z.add_nonneg_nonneg; [apply text_length_nonneg|]). done.
Qed.

Lemma output_token_nonneg payload o : output_token_count payload = Ok o -> 0 <= dcoef o.
Proof.
  unfold output_token_count. destruct (token_count _ _); [eauto|].
  destruct (first_present_of _ _); [eauto|]. by intros [= <-].
Qed.

Lemma tokens_to_usd_nonneg ri ro i o e :
  0 <= dcoef ri -> 0 <= dcoef ro -> 0 <= dcoef i -> 0 <= dcoef o ->
  tokens_to_usd ri ro i o = Ok e -> (0 <= dval e)%Q.
Proof.
  unfold tokens_to_usd. rewrite !dcoef_nonneg. intros ???? (x & Hx & H)%rbind_Ok.
  apply rbind_Ok in H as (y & Hy & H). apply rbind_Ok in H as (s & Hs & H).
  apply rbind_Ok in H as (q & Hq & H%estimate_usd_quantize).
  eapply quantize_nonneg; [|exact H]. eapply ddiv_nonneg; [| |exact Hq]; [|by apply dcoef_nonneg].
  eapply dadd_nonneg; [..|exact Hs]; eapply dmul_nonneg; [..|exact Hx|idtac|idtac|exact Hy]; done.
Qed.

Lemma estimate_nonneg p c payload e :
  rates_ok p -> 0 <= execution_timeout_ms c -> estimate p c payload = Ok e -> (0 <= dval e)%Q.
Proof.
  intros Hp Ht H.
  assert (forall r, 0 <= dcoef r -> rate_for_seconds r c = Ok e -> (0 <= dval e)%Q) as Hrate.
  { intros r Hr He. by destruct (rate_for_seconds_mono c r r e e Ht Hr (Qle_refl _) He He). }
  destruct p as [r|r|r b|ri ro|r]; simpl in *; try (eapply Hrate; [|eassumption]; tauto).
  - eapply quantize_nonneg; [|apply estimate_usd_quantize; exact H]. by apply dcoef_nonneg.
  - apply rbind_Ok in H as (i & Hi & H). apply rbind_Ok in H as (o & Ho & H).
    destruct Hp as [Hri Hro]. eapply tokens_to_usd_nonneg; [exact Hri|exact Hro|..|exact H].
    + by eapply input_token_nonneg.
    + by eapply output_token_nonneg.
Qed.

(** ** Theorems *)

(** An upper bound is one: a quote for a provider's cost map never estimates
    more than its upper bound, and never less than zero, unless the payload of
    a per-token request states its own output token count. *)
Theorem estimate_within_upper_bound c cost payload q e u :
  0 <= execution_timeout_ms c ->
  quote_cost c (InLike cost) payload = Ok q ->
  (forall i o, q_pricing q = PerTokenPricing i o -> token_count payload output_keys = None) ->
  quote_estimate q = Ok e -> quote_upper_bound q = Ok u ->
  dleb dzero e = true /\ dleb e u = true.
Proof.
  unfold quote_cost, quote_estimate, quote_upper_bound. intros Ht (p & Hp & [= <-])%rbind_Ok. simpl.
  intros Hout He Hu. apply parse_rates_ok in Hp.
  pose proof (estimate_nonneg _ _ _ _ Hp Ht He) as Hn.
  split; [apply dleb_spec; unfold dzero; by rewrite dval_zero|]. apply dleb_spec.
  destruct p as [r|r|r [b|]|ri ro|r]; simpl in *;
    try (rewrite He in Hu; injection Hu as <-; apply Qle_refl).
  - eapply (rate_for_seconds_mono c r (dmax r b)); [done|tauto| |done|done].
    unfold dmax. destruct (dltb r b) eqn:E; [apply dltb_spec in E; lra|apply Qle_refl].
  - apply rbind_Ok in He as (i & Hi & He). apply rbind_Ok in He as (o & Ho & He).
    apply rbind_Ok in Hu as (i' & Hi' & Hu). apply rbind_Ok in Hu as (o' & Ho' & Hu).
    unfold output_token_count in Ho. rewrite (Hout ri ro eq_refl) in Ho.
    unfold output_token_upper_bound in Ho'. destruct (first_present_of _ _); [|done].
    rewrite Ho in Ho'. rewrite Hi in Hi'. injection Ho' as <-. injection Hi' as <-.
    rewrite He in Hu. injection Hu as <-. apply Qle_refl.
Qed.

(** A legacy cost map means the tagged one: the two parse to the same model,
    for every cost mode, and are refused together. *)
Theorem legacy_cost_is_tagged_cost v w p mode :
  (parse_pricing_model (InLike (PMap [("per_second_active", v)])) (Some "per_second") = Ok p <->
   parse_pricing_model (InLike (PMap [("kind", VStr "gpu_hour"); ("per_second_active", v)])) mode = Ok p) /\
  (parse_pricing_model (InLike (PMap [("per_request", v)])) (Some "per_request") = Ok p <->
   parse_pricing_model (InLike (PMap [("model", VStr "per_request"); ("per_request", v)])) mode = Ok p) /\
  (parse_pricing_model (InLike (PMap [("per_million_input_tokens", v); ("per_million_output_tokens", w)]))
     (Some "per_token") = Ok p <->
   parse_pricing_model (InLike (PMap [("kind", VStr "per_token"); ("per_million_input_tokens", v);
                                      ("per_million_output_tokens", w)])) mode = Ok p).
Proof.
  assert (forall v n n' d, cost_decimal v n = Ok d -> cost_decimal v n' = Ok d) as Hn.
  { intros v0 n n' d. unfold cost_decimal, finite_decimal.
    destruct v0; simpl; try done; repeat (case_match; simpl); congruence. }
  repeat split; unfold parse_pricing_model, tagged_pricing_model, required_decimal, tagged_field;
    simpl; intros H; inv_ok; subst; simpl in *;
    repeat match goal with H : cost_decimal ?x _ = Ok _ |- context [cost_decimal ?x ?m] =>
      rewrite (Hn _ _ m _ H); simpl end; done.
Qed.

(** ** Witnesses *)

Definition example_payload : dict :=
  [("messages", VList [VDict [("role", VStr "user"); ("content", VStr "hello world!")]]);
   ("max_tokens", VInt 1000)].
Definition example_token_cost : ProviderLike :=
  PMap [("kind", VStr "per_token"); ("per_million_input_tokens", VStr "0.5");
        ("per_million_output_tokens", VStr "1.5")].
Definition example_capability : CapabilityCost := MkCapabilityCost PER_TOKEN 60000.

Lemma estimate_within_upper_bound_witness :
  exists q e u, quote_cost example_capability (InLike example_token_cost) example_payload = Ok q /\
    quote_estimate q = Ok e /\ quote_upper_bound q = Ok u /\ e = micro 1502 /\
    dleb dzero e = true /\ dleb e u = true.
Proof.
  eexists _, _, _. split; [vm_compute; reflexivity|]. split; [vm_compute; reflexivity|].
  split; [vm_compute; reflexivity|]. split; [reflexivity|].
  apply (estimate_within_upper_bound example_capability example_token_cost example_payload
           (MkQuote (PerTokenPricing (Dec 5 (-1)) (Dec 15 (-1))) example_capability example_payload)).
  - vm_compute. discriminate.
  - vm_compute. reflexivity.
  - intros i o _. vm_compute. reflexivity.
  - vm_compute. reflexivity.
  - vm_compute. reflexivity.
Defined.

(** Stated output tokens are not bounded by [max_tokens]. *)
Example stated_tokens_exceed_upper_bound :
  let q := MkQuote (PerTokenPricing (of_int 1) (of_int 1)) example_capability
             [("input_tokens", VInt 0); ("output_tokens", VInt 5000); ("max_tokens", VInt 10)] in
  quote_estimate q = Ok (micro 5000) /\ quote_upper_bound q = Ok (micro 10).
Proof. vm_compute. done. Qed.

(** A rate the validator accepts can overflow the product, whose exception is
    not the [ValueError] that [_usd] promises. *)
Example estimate_overflow_escapes :
  estimate (GpuHourPricing (Dec 1 999999)) (MkCapabilityCost PER_SECOND 60000) [] = Err DecimalOverflow.
Proof. vm_compute. reflexivity. Qed.
