(* ===== verification/WorkloadStore.v ===== *)
(** * The workload table ([db/repository.py], [workload_lifecycle.py],
    [core/idempotency.py])

    A row is what asyncpg returns: a mapping from column names to values.
    Every operation is one statement, or a transaction that locks the row, so
    concurrent calls take effect one after the other; an exception inside a
    transaction rolls it back, an exception after an autocommitted statement
    does not.  [hash_input] is the SHA-256 of the canonical JSON. *)

From S2P Require Import Prelude PyDecimal PyValue Enums.

(** Definitions *)

(** ** The schema *)

Inductive column_type := CText | CJson | CTextArray | CTime | CInt | CNumeric.

(** Type and whether NULL is allowed. *)
Definition workload_columns : list (string * (column_type * bool)) :=
  [("id", (CText, false)); ("capability_id", (CText, false)); ("provider_id", (CText, false));
   ("type", (CText, false)); ("state", (CText, false)); ("runpod_job_id", (CText, true));
   ("idempotency_key", (CText, true)); ("input", (CJson, true)); ("result", (CJson, true));
   ("fallback_chain", (CTextArray, true)); ("error", (CJson, true)); ("submitted_at", (CTime, false));
   ("started_at", (CTime, true)); ("completed_at", (CTime, true)); ("execution_ms", (CInt, true));
   ("queue_ms", (CInt, true)); ("cold_start_ms", (CInt, true)); ("input_bytes", (CInt, true));
   ("output_bytes", (CInt, true)); ("cost_estimate_usd", (CNumeric, true));
   ("cost_actual_usd", (CNumeric, true)); ("langfuse_trace_id", (CText, true))].

Definition is_text (v : pyval) : bool := match v with VStr _ | VEnum _ => true | _ => false end.

(** What the driver can encode for a column; NULL always. *)
Definition encodes (t : column_type) (v : pyval) : bool :=
  match v, t with
  | VNone, _ => true
  | _, CText => is_text v
  | (VDict _ | VList _), CJson => true
  | VList l, CTextArray => forallb is_text l
  | VTime _, CTime => true
  | VInt z, CInt => (- 2 ^ 31 <=? z) && (z <? 2 ^ 31)
  | VDec (DFin _), CNumeric => true
  | _, _ => false
  end.

Definition column_accepts (kv : string * pyval) : bool :=
  match al_get (fst kv) workload_columns with
  | Some (t, _) => encodes t (snd kv)
  | None => false
  end.

Definition workload_states : list string := enum_value <$> members (T:=WorkloadState).
Definition state_of (row : dict) : string :=
  match as_str (dict_get_none "state" row) with Some s => s | None => EmptyString end.

(** The constraints of the table on a stored row. *)
Definition non_negative_usd (v : pyval) : bool :=
  match v with VDec (DFin d) => negb (dltb d dzero) | _ => true end.
Definition row_constraints (row : dict) : bool :=
  forallb (fun c => (snd (snd c) : bool) || negb (is_none (dict_get_none (fst c) row))) workload_columns &&
  bool_decide (state_of row ∈ workload_states) &&
  non_negative_usd (dict_get_none "cost_estimate_usd" row) &&
  non_negative_usd (dict_get_none "cost_actual_usd" row).

Inductive store_error := ConstraintViolation | DataError | SyntaxError | ModelValidationError
| UniqueViolation | IdempotencyMismatch (original_workload_id : string) | LookupAssertion.

Record workload_db : Type := MkWorkloadDb {
  workloads : gmap string dict;
  idempotency_keys : gmap string string;
}.

Definition set_workload (db : workload_db) (i : string) (row : dict) : workload_db :=
  MkWorkloadDb (<[i := row]> (workloads db)) (idempotency_keys db).

(** ** Reading *)

Definition text_field_ok (row : dict) (k : string) : bool :=
  match as_str (dict_get_none k row) with Some s => nonempty (strip s) | None => false end.
Definition count_field_ok (row : dict) (k : string) : bool :=
  match dict_get_none k row with VInt z => 0 <=? z | VNone => true | _ => false end.

(** [_workload_from_row]: the row when the [Workload] model accepts it.  JSON
    columns that are not objects read as NULL, as does an empty chain. *)
Definition workload_valid (row : dict) : bool :=
  forallb (text_field_ok row) ["id"; "capability_id"; "provider_id"; "type"] &&
  forallb (count_field_ok row)
    ["execution_ms"; "queue_ms"; "cold_start_ms"; "input_bytes"; "output_bytes"] &&
  match dict_get_none "fallback_chain" row with
  | VList l => forallb (fun v => match as_str v with Some s => nonempty (strip s) | None => false end) l
  | _ => true
  end.
Definition workload_from_row (row : dict) : result store_error dict :=
  if workload_valid row then Ok row else Err ModelValidationError.

(** [get] *)
Definition get_workload (db : workload_db) (i : string) : result store_error (option dict) :=
  match workloads db !! i with
  | None => Ok None
  | Some row => rmap Some (workload_from_row row)
  end.

(** ** Writing *)

(** The unique index on [idempotency_key]. *)
Definition key_taken (db : workload_db) (key : pyval) : bool :=
  match as_str key with
  | Some k => existsb (fun kv => match as_str (dict_get_none "idempotency_key" (snd kv)) with
                                 | Some k' => String.eqb k k' | None => false end)
                (map_to_list (workloads db))
  | None => false
  end.

(** [insert] *)
Definition insert_workload (db : workload_db) (i : string) (row : dict)
  : workload_db * result store_error dict :=
  if negb (forallb column_accepts row) then (db, Err DataError)
  else if bool_decide (is_Some (workloads db !! i)) || key_taken db (dict_get_none "idempotency_key" row)
  then (db, Err UniqueViolation)
  else if negb (row_constraints row) then (db, Err ConstraintViolation)
  else (set_workload db i row, workload_from_row row).

(** [SET col = $n, ...] *)
Definition assign (row : dict) (sets : dict) : dict :=
  foldl (fun r kv => al_set (fst kv) (snd kv) r) row sets.

(** The assignments of [update_state]: the state and each argument given. *)
Definition given (k : string) (o : option pyval) : dict :=
  match o with Some v => [(k, v)] | None => [] end.
Record state_update : Type := MkUpdate {
  u_started_at : option pyval; u_completed_at : option pyval; u_execution_ms : option pyval;
  u_queue_ms : option pyval; u_result : option pyval; u_error : option pyval;
  u_output_bytes : option pyval; u_fallback_chain : option (list pyval);
  u_langfuse_trace_id : option pyval;
}.
Definition chain_value (l : list pyval) : pyval := match l with [] => VNone | _ => VList l end.
Definition update_sets (state : string) (u : state_update) : dict :=
  ("state", VStr state) :: given "started_at" (u_started_at u) ++
  given "completed_at" (u_completed_at u) ++ given "execution_ms" (u_execution_ms u) ++
  given "queue_ms" (u_queue_ms u) ++ given "result" (u_result u) ++ given "error" (u_error u) ++
  given "output_bytes" (u_output_bytes u) ++
  given "fallback_chain" (chain_value <$> u_fallback_chain u) ++
  given "langfuse_trace_id" (u_langfuse_trace_id u).

(** [update_state]: an autocommitted UPDATE. *)
Definition update_state (db : workload_db) (i : string) (state : string) (u : state_update)
  : workload_db * result store_error (option dict) :=
  let sets := update_sets state u in
  if negb (forallb column_accepts sets) then (db, Err DataError)
  else match workloads db !! i with
       | None => (db, Ok None)
       | Some row =>
           let row' := assign row sets in
           if negb (row_constraints row') then (db, Err ConstraintViolation)
           else (set_workload db i row', rmap Some (workload_from_row row'))
       end.

(** [guarded_transition]: a transaction.  Naming the state column in the patch
    assigns it twice, and an empty set of states is no [IN] list. *)
Definition guarded_transition (db : workload_db) (i : string) (from_states : list string)
    (to_state : string) (patch : dict) : result store_error (workload_db * option dict) :=
  let sets := ("state", VStr to_state) :: patch in
  if bool_decide ("state" ∈ patch.*1) || bool_decide (from_states = []) then Err SyntaxError
  else if negb (forallb column_accepts sets) then Err DataError
  else match workloads db !! i with
       | None => Ok (db, None)
       | Some row =>
           if bool_decide (state_of row ∈ from_states) then
             let row' := assign row sets in
             if negb (row_constraints row') then Err ConstraintViolation
             else let? w := workload_from_row row' in Ok (set_workload db i row', Some w)
           else Ok (db, None)
       end.

(** ** Lifecycle ([workload_lifecycle.py]) *)

Definition opt_val {A} (f : A -> pyval) (o : option A) : pyval :=
  match o with Some x => f x | None => VNone end.
Definition opt_chain (o : option (list pyval)) : pyval :=
  match o with Some l => chain_value l | None => VNone end.

(** [insert_passthrough_workload] *)
Definition insert_passthrough_workload (db : workload_db) (now : datetime)
    (workload_id capability_id provider_id : string) (key : option string) (input : option dict)
    (input_bytes : option Z) : workload_db * result store_error dict :=
  insert_workload db workload_id
    [("id", VStr workload_id); ("capability_id", VStr capability_id);
     ("provider_id", VStr provider_id); ("type", VStr "openai_passthrough");
     ("state", VStr (enum_value QUEUED)); ("idempotency_key", opt_val VStr key);
     ("input", opt_val VDict input); ("input_bytes", opt_val VInt input_bytes);
     ("submitted_at", VTime now)].

(** [transition_to_running]; the [provider_id] argument is not used. *)
Definition transition_to_running (db : workload_db) (now : datetime) (i : string)
    (fallback_chain : option (list pyval)) :=
  guarded_transition db i [enum_value QUEUED] (enum_value RUNNING)
    (("started_at", VTime now) :: given "fallback_chain" (chain_value <$> fallback_chain)).

(** [transition_to_completed] *)
Definition transition_to_completed (db : workload_db) (now : datetime) (i : string)
    (execution_ms output_bytes : option Z) (res : option dict) (fallback_chain : option (list pyval))
    (trace : option string) :=
  guarded_transition db i [enum_value RUNNING] (enum_value COMPLETED)
    [("completed_at", VTime now); ("execution_ms", opt_val VInt execution_ms);
     ("output_bytes", opt_val VInt output_bytes); ("result", opt_val VDict res);
     ("fallback_chain", opt_chain fallback_chain); ("langfuse_trace_id", opt_val VStr trace)].

(** [transition_to_failed] *)
Definition transition_to_failed (db : workload_db) (now : datetime) (i : string)
    (execution_ms : option Z) (error : option dict) (fallback_chain : option (list pyval))
    (trace : option string) :=
  guarded_transition db i [enum_value RUNNING] (enum_value WFAILED)
    [("completed_at", VTime now); ("execution_ms", opt_val VInt execution_ms);
     ("error", opt_val VDict error); ("fallback_chain", opt_chain fallback_chain);
     ("langfuse_trace_id", opt_val VStr trace)].

Inductive lifecycle_call :=
| ToRunning (now : datetime) (i : string) (chain : option (list pyval))
| ToCompleted (now : datetime) (i : string) (execution_ms output_bytes : option Z)
    (res : option dict) (chain : option (list pyval)) (trace : option string)
| ToFailed (now : datetime) (i : string) (execution_ms : option Z) (error : option dict)
    (chain : option (list pyval)) (trace : option string).

Definition call_id (c : lifecycle_call) : string :=
  match c with ToRunning _ i _ | ToCompleted _ i _ _ _ _ _ | ToFailed _ i _ _ _ _ => i end.
Definition call_target (c : lifecycle_call) : WorkloadState :=
  match c with ToRunning _ _ _ => RUNNING | ToCompleted _ _ _ _ _ _ _ => COMPLETED
             | ToFailed _ _ _ _ _ _ => WFAILED end.
Definition run_call (db : workload_db) (c : lifecycle_call) : result store_error (workload_db * option dict) :=
  match c with
  | ToRunning now i ch => transition_to_running db now i ch
  | ToCompleted now i ms ob r ch tr => transition_to_completed db now i ms ob r ch tr
  | ToFailed now i ms e ch tr => transition_to_failed db now i ms e ch tr
  end.

(** A history of calls, with those that succeeded. *)
Fixpoint run_calls (db : workload_db) (cs : list lifecycle_call) : workload_db * list lifecycle_call :=
  match cs with
  | [] => (db, [])
  | c :: cs' =>
      let '(db1, took) := match run_call db c with
                          | Ok (db1, Some _) => (db1, [c])
                          | Ok (db1, None) => (db1, [])
                          | Err _ => (db, [])
                          end in
      let '(db2, done) := run_calls db1 cs' in (db2, took ++ done)
  end.

(** ** Idempotency keys ([core/idempotency.py]) *)

Record IdempotencyReservation : Type := MkReservation { is_new : bool; r_workload_id : string }.

Section Idempotency.
Context (hash_input : pyval -> string).

(** [reserve_idempotency_key] *)
Definition reserve_idempotency_key (db : workload_db) (key body_hash workload_id : string)
  : result store_error (workload_db * IdempotencyReservation) :=
  match idempotency_keys db !! key with
  | None => Ok (MkWorkloadDb (workloads db) (<[key := workload_id]> (idempotency_keys db)),
                MkReservation true workload_id)
  | Some existing =>
      let replay := Ok (db, MkReservation false existing) in
      match workloads db !! existing with
      | None => replay
      | Some row =>
          match dict_get_none "input" row with
          | VNone => replay
          | v => if String.eqb (hash_input v) body_hash then replay
                 else Err (IdempotencyMismatch existing)
          end
      end
  end.

(** What happens to the two tables between and at reservations. *)
Inductive store_event :=
| Reserve (key body_hash workload_id : string)
| WriteWorkload (i : string) (row : dict).

Fixpoint run_events (db : workload_db) (es : list store_event)
  : workload_db * list (string * IdempotencyReservation) :=
  match es with
  | [] => (db, [])
  | Reserve k h w :: es' =>
      match reserve_idempotency_key db k h w with
      | Ok (db1, r) => let '(db2, rs) := run_events db1 es' in (db2, (k, r) :: rs)
      | Err _ => run_events db es'
      end
  | WriteWorkload i row :: es' => run_events (set_workload db i row) es'
  end.
End Idempotency.

(** ** Helper lemmas *)

Lemma dict_get_al k (m : dict) : dict_get k m = al_get k m.
Proof.
  induction m as [|[k' v] m IH]; simpl; [done|].
  destruct (String.eqb_spec k k'); [by rewrite decide_True|by rewrite decide_False].
Qed.

Lemma assign_other k sets row : k ∉ sets.*1 -> dict_get k (assign row sets) = dict_get k row.
Proof.
  unfold assign. revert row. induction sets as [|[k' v] sets IH]; intros row; csimpl; [done|].
  rewrite not_elem_of_cons. intros [Hne Hn]. rewrite IH by done.
  by rewrite !dict_get_al, al_get_set_ne.
Qed.

Lemma assign_state row s patch :
  "state" ∉ patch.*1 -> state_of (assign row (("state", VStr s) :: patch)) = s.
Proof.
  intros Hn. unfold state_of, dict_get_none.
  change (assign row (("state", VStr s) :: patch)) with (assign (al_set "state" (VStr s) row) patch).
  by rewrite assign_other, dict_get_al, al_get_set.
Qed.

(** The state a call requires. *)
Definition call_source (c : lifecycle_call) : WorkloadState :=
  match c with ToRunning _ _ _ => QUEUED | _ => RUNNING end.

Lemma guarded_transition_Ok db i from to patch db' o :
  guarded_transition db i from to patch = Ok (db', o) ->
  match o with
  | None => db' = db /\ forall row, workloads db !! i = Some row -> state_of row ∉ from
  | Some w => exists row, workloads db !! i = Some row /\ state_of row ∈ from /\
                db' = set_workload db i w /\ state_of w = to
  end.
Proof.
  unfold guarded_transition. destruct (_ || _) eqn:Hs; [done|]. apply orb_false_iff in Hs as [Hs _].
  boolify. destruct (negb _); [done|].
  destruct (workloads db !! i) as [row|] eqn:Hrow; [|by intros [= <- <-]].
  destruct (bool_decide _) eqn:Hf; boolify.
  - destruct (negb _); [done|]. intros (w & Hw & [= <- <-])%rbind_Ok.
    unfold workload_from_row in Hw. destruct (workload_valid _); [|done]. injection Hw as <-.
    exists row. split; [done|]. split; [done|]. split; [done|]. by apply assign_state.
  - intros [= <- <-]. split; [done|]. by intros r [= <-].
Qed.

Lemma run_call_Ok db c db' o :
  run_call db c = Ok (db', o) ->
  match o with
  | None => db' = db
  | Some w => exists row, workloads db !! call_id c = Some row /\
                state_of row = enum_value (call_source c) /\
                db' = set_workload db (call_id c) w /\ state_of w = enum_value (call_target c)
  end.
Proof.
  destruct c; simpl; unfold transition_to_running, transition_to_completed, transition_to_failed;
    intros H%guarded_transition_Ok; destruct o as [w|]; try (by destruct H);
    destruct H as (row & ? & Hf & -> & ?); exists row; apply list_elem_of_singleton in Hf; done.
Qed.

(** The runs of one workload. *)
Inductive lifecycle_trace : WorkloadState -> list WorkloadState -> WorkloadState -> Prop :=
| TraceDone s : lifecycle_trace s [] s
| TraceStart l u : lifecycle_trace RUNNING l u -> lifecycle_trace QUEUED (RUNNING :: l) u
| TraceEnd t l u : t = COMPLETED \/ t = WFAILED -> lifecycle_trace t l u ->
    lifecycle_trace RUNNING (t :: l) u.

Lemma call_step_trace c s l u :
  enum_value s = enum_value (call_source c) -> lifecycle_trace (call_target c) l u ->
  lifecycle_trace s (call_target c :: l) u.
Proof.
  intros Hs%(enum_value_inj (T:=WorkloadState)) Ht. subst s.
  destruct c; simpl in *; [by constructor|by constructor; [left|]|by constructor; [right|]].
Qed.

Lemma run_calls_trace cs db db' done i s row :
  run_calls db cs = (db', done) -> workloads db !! i = Some row -> state_of row = enum_value s ->
  exists row' u, workloads db' !! i = Some row' /\ state_of row' = enum_value u /\
    lifecycle_trace s (call_target <$> filter (fun c => call_id c = i) done) u.
Proof.
  revert db s row done. induction cs as [|c cs IH]; intros db s row done; simpl.
  { intros [= <- <-] ??. exists row, s. split; [done|]. split; [done|]. constructor. }
  destruct (run_call db c) as [[db1 [w|]]|e] eqn:Hc.
  - destruct (run_calls db1 cs) as [db2 d] eqn:Hr. intros [= <- <-] Hrow Hs.
    destruct (run_call_Ok _ _ _ _ Hc) as (r & Hr1 & Hs1 & -> & Hw). cbn [app].
    rewrite filter_cons. destruct (decide (call_id c = i)) as [<-|Hne].
    + assert (r = row) as -> by congruence.
      destruct (IH _ (call_target c) w _ Hr) as (row' & u & ? & ? & Ht);
        [by simpl; rewrite lookup_insert_eq|done|].
      exists row', u. split; [done|]. split; [done|]. csimpl. apply call_step_trace; [|done].
      rewrite Hs in Hs1. exact Hs1.
    + eapply IH; [exact Hr| |done]. simpl. by rewrite lookup_insert_ne.
  - apply run_call_Ok in Hc as ->. destruct (run_calls db cs) as [db2 d] eqn:Hr.
    intros [= <- <-]. by apply IH.
  - destruct (run_calls db cs) as [db2 d] eqn:Hr. intros [= <- <-]. by apply IH.
Qed.

(** ** Theorems *)

(** C16: A queued workload is started at most once and finished at most once,
    after it was started, however many concurrent workers call the
    transitions; its stored state is the last transition that succeeded. *)
Theorem workload_runs_once cs db db' done i row :
  run_calls db cs = (db', done) ->
  workloads db !! i = Some row -> state_of row = enum_value QUEUED ->
  exists row', workloads db' !! i = Some row' /\
    (call_target <$> filter (fun c => call_id c = i) done, state_of row') ∈
      [([], "queued"); ([RUNNING], "running"); ([RUNNING; COMPLETED], "completed");
       ([RUNNING; WFAILED], "failed")].
Proof.
  intros Hr Hrow Hs. destruct (run_calls_trace _ _ _ _ _ QUEUED _ Hr Hrow Hs) as (row' & u & Hrow' & Hu & Ht).
  exists row'. split; [done|]. rewrite Hu.
  assert (forall t l v, t = COMPLETED \/ t = WFAILED -> lifecycle_trace t l v -> l = [] /\ v = t) as Hend.
  { intros t l v [-> | ->]; by inversion 1. }
  inversion Ht as [|l v Hl|]; subst; [by constructor|].
  inversion Hl as [|?|t k v Ht' Hk]; subst; [do 2 constructor|].
  apply Hend in Hk as [-> ->]; [|done]. destruct Ht' as [-> | ->]; repeat constructor.
Qed.

Section IdempotencyFacts.
Context (hash_input : pyval -> string).

Lemma reserve_Ok db k h w db' r :
  reserve_idempotency_key hash_input db k h w = Ok (db', r) ->
  idempotency_keys db' !! k = Some (r_workload_id r) /\
  workloads db' = workloads db /\
  (is_new r = true -> idempotency_keys db !! k = None) /\
  forall k' w', idempotency_keys db !! k' = Some w' -> idempotency_keys db' !! k' = Some w'.
Proof.
  unfold reserve_idempotency_key. destruct (idempotency_keys db !! k) as [e|] eqn:Hk.
  - intros H. assert (db' = db /\ r = MkReservation false e) as [-> ->].
    { destruct (workloads db !! e) as [row|]; [|by injection H].
      destruct (dict_get_none "input" row); try (by injection H);
        (destruct (String.eqb _ _); [by injection H|done]). }
    split; [done|]. split; [done|]. split; [done|auto].
  - intros [= <- <-]. simpl. rewrite lookup_insert_eq. split; [done|]. split; [done|].
    split; [done|].
    intros k' w' Hk'. rewrite lookup_insert_ne; [done|]. congruence.
Qed.

Lemma run_events_keys es db db' rs k w :
  run_events hash_input db es = (db', rs) -> idempotency_keys db !! k = Some w ->
  Forall (fun p => p.1 = k -> r_workload_id p.2 = w /\ is_new p.2 = false) rs.
Proof.
  revert db rs. induction es as [|[k0 h w0|i row] es IH]; intros db rs; simpl.
  - by intros [= <- <-].
  - destruct (reserve_idempotency_key _ _ _ _ _) as [[db1 r]|e] eqn:Hr; [|by apply IH].
    destruct (run_events _ db1 es) as [db2 l] eqn:He. intros [= <- <-] Hk.
    destruct (reserve_Ok _ _ _ _ _ _ Hr) as (H1 & _ & Hn & Hmono).
    constructor; [|by eapply IH; [exact He|apply Hmono]]. simpl. intros ->.
    apply Hmono in Hk as Hk1. split; [congruence|].
    destruct (is_new r); [|done]. specialize (Hn eq_refl). congruence.
  - intros He Hk. by eapply IH.
Qed.

(** A key names one workload for ever: over any history of reservations and
    of writes to the workload table, a reservation that succeeds after a first
    one with the same key returns the first one's workload and is a replay,
    and a key that was never reserved is reserved as new. *)
Theorem idempotency_key_names_one_workload es db db' rs a k r mid r' b :
  run_events hash_input db es = (db', rs) ->
  rs = a ++ (k, r) :: mid ++ (k, r') :: b ->
  r_workload_id r' = r_workload_id r /\ is_new r' = false.
Proof.
  revert db rs a. induction es as [|[k0 h w0|i row] es IH]; intros db rs a; simpl.
  - intros [= <- <-] H. by destruct a.
  - destruct (reserve_idempotency_key _ _ _ _ _) as [[db1 q]|e] eqn:Hr; [|by apply IH].
    destruct (run_events _ db1 es) as [db2 l] eqn:He. intros [= <- <-] H.
    destruct a as [|x a]; simpl in H.
    + simplify_eq. destruct (reserve_Ok _ _ _ _ _ _ Hr) as (H1 & _).
      pose proof (run_events_keys _ _ _ _ _ _ He H1) as Hf.
      rewrite Forall_app, Forall_cons in Hf. destruct Hf as (_ & Hf & _). by apply Hf.
    + simplify_eq. by eapply IH.
  - apply IH.
Qed.
End IdempotencyFacts.

(** ** Witnesses *)

Definition example_row : dict :=
  [("id", VStr "w1"); ("capability_id", VStr "cap"); ("provider_id", VStr "p1");
   ("type", VStr "openai_passthrough"); ("state", VStr "queued"); ("submitted_at", VTime (utc 0));
   ("input", VDict [("q", VStr "hi")])].
Definition example_store : workload_db := MkWorkloadDb {[ "w1" := example_row ]} ∅.

(** Two workers start the workload; one completes it and one fails it. *)
Definition example_calls : list lifecycle_call :=
  [ToCompleted (utc 1) "w1" None None None None None; ToRunning (utc 2) "w1" (Some [VStr "p2"]);
   ToRunning (utc 3) "w1" None; ToFailed (utc 4) "w1" (Some 5) None None None;
   ToCompleted (utc 5) "w1" (Some 7) None None None None].

Lemma workload_runs_once_witness :
  exists row', workloads (run_calls example_store example_calls).1 !! "w1" = Some row' /\
    (call_target <$> filter (fun c => call_id c = "w1") (run_calls example_store example_calls).2,
     state_of row') ∈
      [([], "queued"); ([RUNNING], "running"); ([RUNNING; COMPLETED], "completed");
       ([RUNNING; WFAILED], "failed")].
Proof.
  apply (workload_runs_once example_calls example_store _ _ "w1" example_row).
  - apply surjective_pairing.
  - vm_compute. reflexivity.
  - vm_compute. reflexivity.
Defined.

Example example_calls_run :
  (run_calls example_store example_calls).2 =
  [ToRunning (utc 2) "w1" (Some [VStr "p2"]); ToFailed (utc 4) "w1" (Some 5) None None None].
Proof. vm_compute. reflexivity. Qed.

(** A transition to a final state without a chain erases the one that
    [transition_to_running] recorded. *)
Example completion_erases_chain :
  dict_get_none "fallback_chain"
    (default [] (workloads (run_calls example_store (take 2 example_calls)).1 !! "w1")) = VList [VStr "p2"] /\
  dict_get_none "fallback_chain"
    (default [] (workloads (run_calls example_store example_calls).1 !! "w1")) = VNone.
Proof. vm_compute. done. Qed.

Definition example_hash (v : pyval) : string := match v with VDict _ => "h" | _ => "other" end.
Definition example_events : list store_event :=
  [Reserve "k" "h" "w1"; WriteWorkload "w1" example_row; Reserve "k" "h" "w2"; Reserve "k" "x" "w3"].

Lemma idempotency_key_names_one_workload_witness :
  exists r r', (run_events example_hash (MkWorkloadDb ∅ ∅) example_events).2 = [("k", r); ("k", r')] /\
    r = MkReservation true "w1" /\ r_workload_id r' = r_workload_id r /\ is_new r' = false.
Proof.
  exists (MkReservation true "w1"), (MkReservation false "w1").
  split; [vm_compute; reflexivity|]. split; [reflexivity|].
  apply (idempotency_key_names_one_workload example_hash example_events (MkWorkloadDb ∅ ∅) _ _ []
           "k" (MkReservation true "w1") [] (MkReservation false "w1") [] (surjective_pairing _)).
  vm_compute. reflexivity.
Defined.

(** A stored input of NULL accepts every body under the key. *)
Example null_input_replays_anything :
  reserve_idempotency_key example_hash
    (MkWorkloadDb {[ "w1" := al_set "input" VNone example_row ]} {[ "k" := "w1" ]}) "k" "x" "w2"
  = Ok (MkWorkloadDb {[ "w1" := al_set "input" VNone example_row ]} {[ "k" := "w1" ]},
        MkReservation false "w1").
Proof. vm_compute. reflexivity. Qed.
