(* ===== verification/GateTable.v ===== *)
(** * The workload table under the budget gate

    [BudgetGate] works on the columns of [pitwall.workloads] that admission
    reads and writes, [WorkloadStore] on whole rows.  Here the gate runs on
    the whole table: it sees every row through [view_row] and its INSERT adds
    a full row.  Statements of the sync gate and of the job service that the
    repositories do not have are unguarded UPDATEs by id. *)

From S2P Require Import Prelude PyDecimal PyFloat PyValue PyEq PyTime Effects Enums WorkloadStore BudgetGate.

(** Definitions *)

(** A NUMERIC(12,6) cell in micro-dollars. *)
Definition numeric_cell (v : pyval) : option Z :=
  match v with VDec (DFin d) => Some (rescale ROUND_HALF_UP d (-6)) | _ => None end.
Definition text_cell (v : pyval) : string := match as_str v with Some s => s | None => EmptyString end.
Definition time_cell (v : pyval) : Z := match v with VTime t => dt_us t | _ => 0 end.

Definition view_row (row : dict) : workload_row :=
  let get k := dict_get_none k row in
  MkRow (text_cell (get "id")) (text_cell (get "capability_id")) (text_cell (get "provider_id"))
    (text_cell (get "type")) (default QUEUED (enum_of_value (state_of row)))
    (numeric_cell (get "cost_estimate_usd")) (numeric_cell (get "cost_actual_usd"))
    (time_cell (get "submitted_at")) (as_str (get "idempotency_key")).

Definition gate_view (db : workload_db) : list workload_row :=
  (fun kv => view_row kv.2) <$> map_to_list (workloads db).

(** The row the gate's INSERT leaves; columns it does not name are NULL. *)
Definition admitted_dict (r : workload_row) : dict :=
  [("id", VStr (w_id r)); ("capability_id", VStr (w_capability_id r));
   ("provider_id", VStr (w_provider_id r)); ("type", VStr (w_type r)); ("state", VStr "queued");
   ("cost_estimate_usd", match w_cost_estimate r with Some z => VDec (DFin (micro z)) | None => VNone end);
   ("submitted_at", VTime (utc (w_submitted_at r)))] ++
  match w_idempotency_key r with Some k => [("idempotency_key", VStr k)] | None => [] end.

Section Admit.
Context (month_start : Z -> Z) (constraints_ok : workload_row -> bool).

(** [try_launch_admission], without a hook, on the whole table. *)
Definition admit_row (g : BudgetGate) (clock : datetime) (capability_id provider_id : string)
    (estimate : EstimateInput) (workload_type : string) (submitted_at : option datetime)
    (key : option string) (new_id : string) (db : workload_db)
  : workload_db * result (gate_error unit) BudgetAdmission :=
  match try_launch_admission (A:=unit) month_start constraints_ok g clock (dt_us clock) (gate_view db)
          capability_id provider_id estimate workload_type submitted_at key new_id None with
  | Ok (rows, adm, _) =>
      (match is_new adm, last rows with
       | true, Some r => set_workload db (w_id r) (admitted_dict r)
       | _, _ => db
       end, Ok adm)
  | Err e => (db, Err e)
  end.
End Admit.

(** An autocommitted [UPDATE ... WHERE id = $1]: what the driver cannot encode
    is refused before, what violates a constraint after the row is found. *)
Definition unguarded_update (i : string) (params : dict) (sets : dict -> result store_error dict)
    (db : workload_db) : workload_db * result store_error unit :=
  if negb (forallb column_accepts params) then (db, Err DataError)
  else match workloads db !! i with
       | None => (db, Ok tt)
       | Some row =>
           match sets row with
           | Err e => (db, Err e)
           | Ok sets =>
               let row' := assign row sets in
               if row_constraints row' then (set_workload db i row', Ok tt) else (db, Err ConstraintViolation)
           end
       end.

(** An object stored in a [jsonb] column. *)
Definition jsonb_cell (m : dict) : result store_error pyval :=
  match jsonb_dict m with Some n => Ok (VDict n) | None => Err DataError end.

(** A table and the world outside it. *)
Record table_world (F : Type) : Type := MkTableWorld { tw_db : workload_db; tw_outside : F }.
Arguments MkTableWorld {F}.
Arguments tw_db {F}.
Arguments tw_outside {F}.

Definition on_db {F E A} (raised : store_error -> E) (f : workload_db -> workload_db * result store_error A)
  : eff (table_world F) E A :=
  fun w => let '(db, r) := f (tw_db w) in (MkTableWorld db (tw_outside w), rlift raised r).
Definition from_outside {F E A} (f : F -> F * A) : eff (table_world F) E A :=
  fun w => let '(o, a) := f (tw_outside w) in (MkTableWorld (tw_db w) o, Ok a).

(** Nothing but workload [i] changed. *)
Definition only_workload (i : string) (db db' : workload_db) : Prop :=
  (forall j, j <> i -> workloads db' !! j = workloads db !! j) /\
  idempotency_keys db' = idempotency_keys db.


(** A statement on row [i]: no other row changes, and a row that was there
    becomes one in relation [P] to it, or the statement is refused. *)
Definition writes {A} (i : string) (f : workload_db -> workload_db * result store_error A)
    (P : A -> dict -> dict -> Prop) : Prop :=
  forall db, only_workload i db (f db).1 /\
    forall row, workloads db !! i = Some row ->
      exists row', workloads (f db).1 !! i = Some row' /\
        match (f db).2 with Ok a => P a row row' | Err _ => True end.

(** Lemmas *)

Lemma rescale_micro z : rescale ROUND_HALF_UP (micro z) (-6) = z.
Proof.
  unfold rescale, micro. cbn [dcoef dexp]. change (-6 <=? -6) with true. cbn iota.
  change (10 ^ (-6 - -6)) with 1. destruct (z =? 0) eqn:E; boolify; lia.
Qed.

Lemma view_admitted r :
  w_state r = QUEUED -> w_cost_actual r = None -> view_row (admitted_dict r) = r.
Proof.
  destruct r as [i c p t st ce ca sub key]. simpl. intros -> ->.
  unfold view_row, admitted_dict, numeric_cell.
  destruct ce as [z|], key as [k|]; cbn -[rescale micro]; rewrite ?rescale_micro; reflexivity.
Qed.

Section Facts.
Context (month_start : Z -> Z) (constraints_ok : workload_row -> bool).

(** What an admission did to the table. *)
Lemma try_launch_rows {E A} g clock now rows cap prov est typ sub key i (hook : option (result E A)) rows' adm h :
  try_launch_admission month_start constraints_ok g clock now rows cap prov est typ sub key i hook = Ok (rows', adm, h) ->
  if is_new adm
  then exists r, rows' = rows ++ [r] /\ workload_id adm = w_id r /\ w_id r = i /\ w_state r = QUEUED /\
         w_cost_actual r = None /\ w_idempotency_key r = key /\ find_by_key rows key = None
  else rows' = rows /\ find_by_key rows key = Some (workload_id adm).
Proof.
  unfold try_launch_admission. intros (l & Hl & H)%rbind_Ok.
  assert (l_idempotency_key l = key) as Hk.
  { unfold precheck in Hl. apply rbind_Ok in Hl as (e & _ & Hl). destruct key; [by injection Hl as <-|].
    destruct (dltb _ _); [unfold reject in Hl; by destruct (budget_snapshot _ _ _)|by injection Hl as <-]. }
  unfold admit_launch in H. rewrite Hk in H. destruct (find_by_key rows key) as [j|] eqn:Hf.
  { by injection H as <- <- _. }
  apply rbind_Ok in H as (hk & _ & H). destruct (dltb _ _).
  { unfold reject in H. by destruct (budget_snapshot _ _ _). }
  apply rbind_Ok in H as (sp & _ & H). apply rbind_Ok in H as ([] & _ & H).
  destruct (insert_row constraints_ok rows l i) as [r|] eqn:Hi; [|done]. injection H as <- <- _. simpl.
  exists r. unfold insert_row in Hi. destruct (to_numeric_12_6 _); [|done].
  destruct (_ || _); [done|]. by injection Hi as <-.
Qed.

(** The row an admission adds passed the constraints. *)
Lemma admitted_row {E A} g clock now rows cap prov est typ sub key i (hook : option (result E A)) r adm h :
  try_launch_admission month_start constraints_ok g clock now rows cap prov est typ sub key i hook
    = Ok (rows ++ [r], adm, h) ->
  constraints_ok r = true /\
  exists z, r = MkRow i cap prov typ QUEUED (Some z) None (dt_us (default clock sub)) key.
Proof.
  unfold try_launch_admission. intros (l & Hl & H)%rbind_Ok.
  assert (exists e, l = MkLaunch cap prov e typ (default clock sub) key) as [e ->].
  { unfold precheck in Hl. apply rbind_Ok in Hl as (e & _ & Hl). exists e. destruct key; [by injection Hl as <-|].
    destruct (dltb _ _); [unfold reject in Hl; by destruct (budget_snapshot _ _ _)|by injection Hl as <-]. }
  unfold admit_launch in H. destruct (find_by_key _ _).
  { injection H as H _ _. apply (f_equal length) in H. rewrite length_app in H. simpl in H. lia. }
  apply rbind_Ok in H as (hk & _ & H). destruct (dltb _ _); [unfold reject in H; by destruct (budget_snapshot _ _ _)|].
  apply rbind_Ok in H as (sp & _ & H). apply rbind_Ok in H as ([] & _ & H).
  destruct (insert_row _ _ _ _) as [r'|] eqn:Hi; [|done]. injection H as Hr _ _. apply app_inv_head in Hr.
  injection Hr as ->. unfold insert_row in Hi. destruct (to_numeric_12_6 _) as [z|]; [|done].
  destruct (existsb _ _); [done|]. destruct (constraints_ok _) eqn:Hok; [|done]. injection Hi as <-.
  split; [done|by exists z].
Qed.

Lemma admit_cases g clock cap prov est typ sub key i db db' o :
  admit_row month_start constraints_ok g clock cap prov est typ sub key i db = (db', o) ->
  match o with
  | Ok adm =>
      if is_new adm
      then workload_id adm = i /\ find_by_key (gate_view db) key = None /\
           exists r, db' = set_workload db i (admitted_dict r) /\ w_id r = i /\ w_idempotency_key r = key /\
             try_launch_admission (E:=unit) (A:=unit) month_start constraints_ok g clock (dt_us clock) (gate_view db)
               cap prov est typ sub key i None = Ok (gate_view db ++ [r], adm, None)
      else db' = db /\ find_by_key (gate_view db) key = Some (workload_id adm)
  | Err _ => db' = db
  end.
Proof.
  unfold admit_row. destruct (try_launch_admission _ _ _ _ _ _ _ _ _ _ _ _ _) as [[[rows adm] h]|e] eqn:Et.
  2: { by intros [= <- <-]. }
  pose proof (try_launch_rows _ _ _ _ _ _ _ _ _ _ _ _ _ _ _ Et) as H. intros [= <- <-].
  destruct (is_new adm) eqn:En.
  - destruct H as (r & -> & Hw & Hi & Hs & Ha & Hk & Hf). rewrite last_snoc. split; [congruence|].
    split; [done|]. exists r. rewrite Hi. do 3 (split; [done|]).
    assert (h = None) as ->; [|done].
    unfold try_launch_admission in Et. apply rbind_Ok in Et as (l & _ & Et). unfold admit_launch in Et.
    destruct (find_by_key _ _); [by injection Et|]. simpl in Et. destruct (dltb _ _).
    { unfold reject in Et. by destruct (budget_snapshot _ _ _). }
    apply rbind_Ok in Et as ([] & _ & Et).
    destruct (insert_row _ _ _ _); [|done]. by injection Et.
  - destruct H as [-> Hf]. done.
Qed.

Lemma unguarded_update_cases i params sets db db' o :
  unguarded_update i params sets db = (db', o) ->
  match o with
  | Ok _ => (workloads db !! i = None /\ db' = db) \/
            (exists row s, workloads db !! i = Some row /\ sets row = Ok s /\ db' = set_workload db i (assign row s))
  | Err _ => db' = db
  end.
Proof.
  unfold unguarded_update. destruct (negb _); [by intros [= <- <-]|].
  destruct (workloads db !! i) as [row|] eqn:Er; [|by intros [= <- <-]; left].
  destruct (sets row) as [s|e] eqn:Es; [|by intros [= <- <-]].
  destruct (row_constraints _); intros [= <- <-]; [|done]. right. by exists row, s.
Qed.
End Facts.

#[export] Instance only_workload_preorder i : PreOrder (only_workload i).
Proof.
  split; [done|]. intros a b c [H1 K1] [H2 K2]. split; [|congruence].
  intros j Hj. by rewrite H2, H1.
Qed.

Lemma only_set_workload i db row : only_workload i db (set_workload db i row).
Proof. split; [|done]. intros j Hj. by apply lookup_insert_ne. Qed.

Lemma unguarded_update_only i params sets db :
  only_workload i db (unguarded_update i params sets db).1.
Proof.
  destruct (unguarded_update _ _ _ _) as [db' o] eqn:E. pose proof (unguarded_update_cases _ _ _ _ _ _ E) as Hc.
  destruct o; [|by rewrite Hc]. destruct Hc as [[_ ->]|(row & s & _ & _ & ->)]; [done|]. apply only_set_workload.
Qed.

Lemma unguarded_update_row i params sets db db' row u :
  workloads db !! i = Some row -> unguarded_update i params sets db = (db', Ok u) ->
  exists s, sets row = Ok s /\ workloads db' !! i = Some (assign row s).
Proof.
  intros Hrow E. pose proof (unguarded_update_cases _ _ _ _ _ _ E) as [[Hn _]|(row' & s & Hr & Hs & ->)].
  - by rewrite Hn in Hrow.
  - rewrite Hr in Hrow. injection Hrow as <-. exists s. split; [done|]. apply lookup_insert_eq.
Qed.

Lemma unguarded_update_present i params sets db row :
  workloads db !! i = Some row -> is_Some (workloads (unguarded_update i params sets db).1 !! i).
Proof.
  intros Hrow. destruct (unguarded_update _ _ _ _) as [db' o] eqn:E.
  pose proof (unguarded_update_cases _ _ _ _ _ _ E) as Hc. destruct o; [|by rewrite Hc].
  destruct Hc as [[_ ->]|(row' & s & _ & _ & ->)]; [done|]. simpl. rewrite lookup_insert_eq. done.
Qed.

Lemma unguarded_writes i params sets (P : dict -> dict -> Prop) :
  (forall row s, sets row = Ok s -> P row (assign row s)) -> writes i (unguarded_update i params sets) (fun _ => P).
Proof.
  intros HP db. split; [apply unguarded_update_only|]. intros row Hrow.
  destruct (unguarded_update i params sets db) as [db' [u|e]] eqn:E; simpl.
  - destruct (unguarded_update_row _ _ _ _ _ _ _ Hrow E) as (s & Hs & Hr). exists (assign row s).
    split; [done|by apply HP].
  - pose proof (unguarded_update_present i params sets _ _ Hrow) as [row' Hr]. rewrite E in Hr. by exists row'.
Qed.

Lemma refused_writes {A} i (e : store_error) (P : A -> dict -> dict -> Prop) :
  writes i (fun db => (db, Err e)) P.
Proof. intros db. split; [done|]. intros row Hrow. by exists row. Qed.

Lemma assign_get k v sets row : k ∉ sets.*1 -> dict_get_none k (assign row ((k, v) :: sets)) = v.
Proof.
  intros Hn. unfold dict_get_none.
  change (assign row ((k, v) :: sets)) with (assign (al_set k v row) sets).
  by rewrite assign_other, dict_get_al, al_get_set.
Qed.

Lemma assign_get_other k sets row : k ∉ sets.*1 -> dict_get_none k (assign row sets) = dict_get_none k row.
Proof. intros Hn. unfold dict_get_none. by rewrite assign_other. Qed.

Ltac split_bind H :=
  apply bind_cases in H as [(? & H & ->)|(? & ? & H & ?Hk)].

Section World.
Context {F E : Type} (raised : store_error -> E).

Lemma on_db_step {A} (f : workload_db -> workload_db * result store_error A) (w w' : table_world F) r :
  on_db raised f w = (w', r) -> tw_outside w' = tw_outside w /\ tw_db w' = (f (tw_db w)).1 /\
    r = rlift raised (f (tw_db w)).2.
Proof. unfold on_db. destruct (f (tw_db w)) as [db o] eqn:Ef. by intros [= <- <-]. Qed.

Lemma outside_step {A} (f : F -> F * A) (w w' : table_world F) (r : result E A) :
  from_outside f w = (w', r) ->
  tw_db w' = tw_db w /\ tw_outside w' = (f (tw_outside w)).1 /\ r = Ok (f (tw_outside w)).2.
Proof. unfold from_outside. destruct (f (tw_outside w)) as [o a] eqn:Ef. by intros [= <- <-]. Qed.

Lemma from_outside_run {A} (f : F -> F * A) (w : table_world F) :
  from_outside (E:=E) f w = (MkTableWorld (tw_db w) (f (tw_outside w)).1, Ok (f (tw_outside w)).2).
Proof. unfold from_outside. by destruct (f (tw_outside w)). Qed.

(** A statement on the row of the workload, in the world. *)
Lemma write_step {A} i f (P : A -> dict -> dict -> Prop) (w w' : table_world F) r row :
  writes i f P -> workloads (tw_db w) !! i = Some row -> on_db raised f w = (w', r) ->
  tw_outside w' = tw_outside w /\ only_workload i (tw_db w) (tw_db w') /\
  exists row', workloads (tw_db w') !! i = Some row' /\
    match r with Ok a => P a row row' | Err e => exists s, e = raised s end.
Proof.
  intros Hf Hrow (Ho & Hdb & ->)%on_db_step. destruct (Hf (tw_db w)) as [Honly Hw].
  destruct (Hw _ Hrow) as (row' & Hr & HP). split; [done|]. rewrite Hdb. split; [done|].
  exists row'. split; [done|]. destruct (f (tw_db w)).2; simpl; [done|by eexists].
Qed.
End World.

Lemma gate_view_ext db db' : workloads db' = workloads db -> gate_view db' = gate_view db.
Proof. unfold gate_view. by intros ->. Qed.
