(* ===== verification/RequestKeys.v ===== *)
(** * Keys of requests ([routing/coalescing.py], [routing/semantic_cache.py],
    [core/idempotency.py], [cost/sync_gate.py])

    Requests are recognised by hashes of canonical JSON: the body hash of an
    idempotency key, the key of the coalescer, the key of the semantic cache.
    [sha256] is the hex digest of a text.  What the keys tell apart is stated
    up to collisions among the very texts the two requests hash. *)

From Stdlib Require Import Ascii.
From S2P Require Import Prelude PyDecimal PyFloat PyValue PyEq PyTime PyFormat PyJson.

(** Definitions *)

Section Keys.
Context (sha256 : string -> string).

(** [_hash_input] and [_idempotency_body_hash]; [None] is hashed as [null],
    the text [json.dumps] gives it. *)
Definition hash_input (v : pyval) : py string := rmap sha256 (dumps true false true v).

(** [_canonical_payload_digest] and [_sha256_json] *)
Definition canonical_payload_digest (v : pyval) : py string := rmap sha256 (dumps false true true v).

(** [build_inference_coalescing_key] *)
Definition coalescing_content (capability_id provider_id : string) (params : pyval) : pyval :=
  VDict [("capability_id", VStr capability_id); ("provider_id", VStr provider_id);
         ("capability_params", params)].
Definition build_inference_coalescing_key (idempotency_key : option string)
    (capability_id provider_id : string) (params : pyval) : py string :=
  let? digest := canonical_payload_digest (coalescing_content capability_id provider_id params) in
  match idempotency_key with
  | None => Ok ("content:" +:+ digest)
  | Some k => Ok ("idempotency:" +:+ sha256 k +:+ ":" +:+ digest)
  end.

(** [_normalize_semantic_value]: runs of whitespace become one space. *)
Fixpoint normalize_semantic_value (v : pyval) : pyval :=
  match v with
  | VStr s | VEnum s => VStr (String.concat " " (split_ws s))
  | VDict m =>
      VDict (sort_by (fun a b => String.ltb a.1 b.1)
               (map (fun kv => (kv.1, normalize_semantic_value kv.2)) m))
  | VList l | VTuple l => VList (map normalize_semantic_value l)
  | _ => v
  end.

(** [CanonicalSemanticHasher.signature] *)
Definition signature (params : pyval) : py string :=
  canonical_payload_digest (normalize_semantic_value params).

(** [build_semantic_cache_key] with a hasher *)
Definition blank (s : string) : bool := negb (nonempty (strip s)).
Definition namespace (capability_id provider_id : string) : pyval :=
  VDict [("capability_id", VStr capability_id); ("provider_id", VStr provider_id)].
Definition build_semantic_cache_key (hasher : string -> string -> pyval -> py string)
    (capability_id provider_id : string) (params : pyval) : py string :=
  if blank capability_id then Err (ValueError "capability_id must be non-empty")
  else if blank provider_id then Err (ValueError "provider_id must be non-empty")
  else
    let? signature := hasher capability_id provider_id params in
    if blank signature then Err (ValueError "semantic signature must be non-empty")
    else
      let? ns := canonical_payload_digest (namespace capability_id provider_id) in
      Ok ("semantic:v1:" +:+ ns +:+ ":" +:+ sha256 signature).

Definition canonical_hasher (capability_id provider_id : string) (params : pyval) : py string :=
  signature params.

(** The texts a request hashes, for the statements about collisions. *)
Definition text_of (v : pyval) : string :=
  match dumps false true true v with Ok s => s | Err _ => EmptyString end.
Definition coalescing_texts (idempotency_key : option string) (capability_id provider_id : string)
    (params : pyval) : list string :=
  text_of (coalescing_content capability_id provider_id params) ::
  match idempotency_key with Some k => [k] | None => [] end.
Definition semantic_texts (capability_id provider_id : string) (params : pyval) : list string :=
  let t := text_of (normalize_semantic_value params) in
  [text_of (namespace capability_id provider_id); t; sha256 t].
Definition collision_free (texts : list string) : Prop :=
  forall x y, x ∈ texts -> y ∈ texts -> sha256 x = sha256 y -> x = y.
End Keys.

(** The JSON value a payload is hashed as. *)
Definition json_value (v : pyval) : py json := to_json true true v.

(** ** Lemmas *)

Section Facts.
Context (sha256 : string -> string) (Hlen : forall s, String.length (sha256 s) = 64%nat).

Lemma digest_text v h :
  canonical_payload_digest sha256 v = Ok h -> dumps false true true v = Ok (text_of v) /\ h = sha256 (text_of v).
Proof. unfold canonical_payload_digest, text_of. by intros (s & -> & ->)%rmap_Ok. Qed.

Lemma text_of_inj v w h h' :
  canonical_payload_digest sha256 v = Ok h -> canonical_payload_digest sha256 w = Ok h' ->
  text_of v = text_of w -> json_value w = json_value v.
Proof.
  intros [Hv _]%digest_text [Hw _]%digest_text E. apply (dumps_inj false true true v w (text_of v)); [done|].
  by rewrite E.
Qed.

Lemma digest_split a b c d :
  String.length a = String.length b -> a +:+ c = b +:+ d -> a = b /\ c = d.
Proof.
  revert b. induction a as [|x a IH]; intros [|y b] Hl H; try discriminate Hl; [done|].
  rewrite !app_cons_s in H. injection H as <- H. injection Hl as Hl. by destruct (IH b Hl H) as [<- <-].
Qed.

Lemma prefix_inj p a b : p +:+ a = p +:+ b -> a = b.
Proof. apply (inj (String.append p)). Qed.

Lemma content_json capability_id provider_id params j :
  json_value (coalescing_content capability_id provider_id params) = Ok j ->
  exists q, json_value params = Ok q /\
    j = JDict [("capability_id", JStr capability_id); ("capability_params", q); ("provider_id", JStr provider_id)].
Proof.
  unfold json_value, coalescing_content. cbn [to_json].
  destruct (to_json true true params) as [q|e]; [|done]. intros [= <-]. by exists q.
Qed.

Lemma json_value_dict_perm m m' :
  NoDup m.*1 -> m ≡ₚ m' -> is_ok (json_value (VDict m)) = true ->
  json_value (VDict m') = json_value (VDict m).
Proof.
  intros Hnd Hp. unfold json_value. destruct (to_json _ _ (VDict m)) as [j|] eqn:E; [|done]. intros _.
  by apply (to_json_perm _ _ m).
Qed.

Lemma namespace_json c p :
  json_value (namespace c p) = Ok (JDict [("capability_id", JStr c); ("provider_id", JStr p)]).
Proof. reflexivity. Qed.

Lemma coalescing_key_inv k c p m key :
  build_inference_coalescing_key sha256 k c p m = Ok key ->
  exists j, json_value (coalescing_content c p m) = Ok j /\
  canonical_payload_digest sha256 (coalescing_content c p m) = Ok (sha256 (text_of (coalescing_content c p m))) /\
  key = match k with
        | None => "content:" +:+ sha256 (text_of (coalescing_content c p m))
        | Some k => "idempotency:" +:+ sha256 k +:+ ":" +:+ sha256 (text_of (coalescing_content c p m))
        end.
Proof.
  unfold build_inference_coalescing_key. intros (h & Hh & H)%rbind_Ok. pose proof Hh as Hd.
  apply digest_text in Hd as [Ht ->]. unfold dumps in Ht. apply rmap_Ok in Ht as (j & Hj & _).
  exists j. split; [done|]. split; [done|]. destruct k; by injection H.
Qed.
End Facts.

(** ** Theorems *)

(** C21: Coalesced requests are the same request: two sync inferences get one
    coalescing key exactly when they carry the same idempotency key (or both
    none), the same capability and provider, and parameters that are the same
    JSON value; [json_value] ignores the order of object members. *)
Theorem coalescing_key_exact sha256 k c p m k' c' p' m' key key' :
  (forall s, String.length (sha256 s) = 64%nat) ->
  collision_free sha256 (coalescing_texts k c p m ++ coalescing_texts k' c' p' m') ->
  build_inference_coalescing_key sha256 k c p m = Ok key ->
  build_inference_coalescing_key sha256 k' c' p' m' = Ok key' ->
  key = key' <-> k = k' /\ c = c' /\ p = p' /\ json_value m = json_value m'.
Proof.
  intros Hlen Hcf H H'. destruct (coalescing_key_inv _ _ _ _ _ _ H) as (j & Hj & Hd & ->).
  destruct (coalescing_key_inv _ _ _ _ _ _ H') as (j' & Hj' & Hd' & ->).
  destruct (content_json _ _ _ _ Hj) as (q & Hq & Ej), (content_json _ _ _ _ Hj') as (q' & Hq' & Ej').
  assert (sha256 (text_of (coalescing_content c p m)) = sha256 (text_of (coalescing_content c' p' m')) ->
          c = c' /\ p = p' /\ json_value m = json_value m') as Hsame.
  { intros E. apply Hcf in E; [|unfold coalescing_texts; set_solver..].
    pose proof (text_of_inj _ _ _ _ _ Hd Hd' E) as Ejs. rewrite Hj, Hj' in Ejs. injection Ejs as Ejs.
    rewrite Ej, Ej' in Ejs. injection Ejs as -> -> ->. by rewrite Hq, Hq'. }
  split.
  - destruct k as [k|], k' as [k'|]; intros E; try discriminate E.
    + apply prefix_inj, digest_split in E as [Ek E]; [|by rewrite !Hlen]. apply (prefix_inj ":") in E.
      apply Hcf in Ek; [|unfold coalescing_texts; set_solver..]. subst. by split; [|apply Hsame].
    + apply prefix_inj in E. by split; [|apply Hsame].
  - intros (<- & <- & <- & Em). rewrite Hq, Hq' in Em. injection Em as <-. subst j'. subst j.
    assert (text_of (coalescing_content c p m) = text_of (coalescing_content c p m')) as ->; [|done].
    unfold text_of, dumps, json_value in *. by rewrite Hj, Hj'.
Qed.

(** A digest for examples: it tells ["k"] from the other texts. *)
Fixpoint repeat_char (n : nat) (c : ascii) : string :=
  match n with O => EmptyString | S n' => String c (repeat_char n' c) end.
Definition toy_sha (s : string) : string := repeat_char 64 (if String.eqb s "k" then "0"%char else "1"%char).
Lemma toy_sha_length s : String.length (toy_sha s) = 64%nat.
Proof. unfold toy_sha. by destruct (String.eqb s "k"). Qed.

Lemma collision_free_list sha256 texts :
  forallb (fun x => forallb (fun y => String.eqb x y || negb (String.eqb (sha256 x) (sha256 y))) texts) texts = true ->
  collision_free sha256 texts.
Proof.
  intros H x y Hx Hy E. rewrite forallb_forall in H. apply list_elem_of_In in Hx, Hy. specialize (H x Hx).
  rewrite forallb_forall in H. specialize (H y Hy). rewrite E, String.eqb_refl, orb_false_r in H.
  by apply String.eqb_eq.
Qed.

Definition example_params : pyval := VDict [("prompt", VStr "hi"); ("top", VList [VInt 1; VNone])].
Definition reordered_params : pyval := VDict [("top", VTuple [VInt 1; VNone]); ("prompt", VStr "hi")].

Definition coalescing_key_or (params : pyval) : string :=
  match build_inference_coalescing_key toy_sha (Some "k") "cap" "prov" params with
  | Ok s => s | Err _ => EmptyString end.

Lemma coalescing_key_exact_witness : coalescing_key_or example_params = coalescing_key_or reordered_params.
Proof.
  apply (coalescing_key_exact toy_sha (Some "k") "cap" "prov" example_params
           (Some "k") "cap" "prov" reordered_params).
  - apply toy_sha_length.
  - apply collision_free_list. vm_compute. reflexivity.
  - vm_compute. reflexivity.
  - vm_compute. reflexivity.
  - vm_compute. repeat split.
Defined.

(** A semantic cache entry answers for one capability, one provider and one
    prompt up to whitespace: two requests share a key exactly when these agree
    and their parameters, with every run of whitespace collapsed and the ends
    stripped, are the same JSON value. *)
Theorem semantic_key_exact sha256 c p m c' p' m' key key' :
  (forall s, String.length (sha256 s) = 64%nat) ->
  collision_free sha256 (semantic_texts sha256 c p m ++ semantic_texts sha256 c' p' m') ->
  build_semantic_cache_key sha256 (canonical_hasher sha256) c p m = Ok key ->
  build_semantic_cache_key sha256 (canonical_hasher sha256) c' p' m' = Ok key' ->
  key = key' <->
  c = c' /\ p = p' /\ json_value (normalize_semantic_value m) = json_value (normalize_semantic_value m').
Proof.
  intros Hlen Hcf.
  assert (forall c p m key, build_semantic_cache_key sha256 (canonical_hasher sha256) c p m = Ok key ->
    canonical_payload_digest sha256 (normalize_semantic_value m) = Ok (sha256 (text_of (normalize_semantic_value m))) /\
    key = "semantic:v1:" +:+ sha256 (text_of (namespace c p)) +:+ ":" +:+
          sha256 (sha256 (text_of (normalize_semantic_value m)))) as Hinv.
  { clear. intros c p m key. unfold build_semantic_cache_key, canonical_hasher, signature.
    destruct (blank c); [done|]. destruct (blank p); [done|]. intros (h & Hh & H)%rbind_Ok.
    destruct (blank h); [done|]. apply rbind_Ok in H as (ns & Hns & [= <-]).
    apply digest_text in Hns as [_ ->]. pose proof Hh as Hd. apply digest_text in Hd as [_ ->]. done. }
  intros [Hd ->]%Hinv [Hd' ->]%Hinv. split.
  - intros E. apply prefix_inj, digest_split in E as [En Es]; [|by rewrite !Hlen].
    apply (prefix_inj ":") in Es.
    apply Hcf in En, Es; [|unfold semantic_texts; set_solver..].
    apply Hcf in Es; [|unfold semantic_texts; set_solver..].
    assert (canonical_payload_digest sha256 (namespace c p) = Ok (sha256 (text_of (namespace c p)))) as Hn by done.
    pose proof (text_of_inj _ _ (namespace c' p') _ _ Hn eq_refl En) as Ens. injection Ens as <- <-.
    pose proof (text_of_inj _ _ _ _ _ Hd Hd' Es) as Em. done.
  - intros (<- & <- & Em).
    assert (text_of (normalize_semantic_value m) = text_of (normalize_semantic_value m')) as ->; [|done].
    unfold text_of, dumps, json_value in *. by rewrite Em.
Qed.

Definition spaced_params : pyval :=
  VDict [("top", VList [VInt 1; VNone]); ("prompt", VStr (" h" +:+ String (ascii_of_nat 10) "  i "))].
Definition tight_params : pyval :=
  VDict [("prompt", VStr "h i"); ("top", VList [VInt 1; VNone])].

(** A digest that tells the texts of the example apart. *)
Definition toy_digest (s : string) : string :=
  repeat_char 64 (if startswith "1" s then "2"%char else if str_contains "prompt" s then "1"%char else "0"%char).
Lemma toy_digest_length s : String.length (toy_digest s) = 64%nat.
Proof. unfold toy_digest. by destruct (startswith "1" s), (str_contains "prompt" s). Qed.
Definition semantic_key_or (params : pyval) : string :=
  match build_semantic_cache_key toy_digest (canonical_hasher toy_digest) "cap" "prov" params with
  | Ok s => s | Err _ => EmptyString end.

Lemma semantic_key_exact_witness :
  json_value (normalize_semantic_value spaced_params) = json_value (normalize_semantic_value tight_params).
Proof.
  apply (semantic_key_exact toy_digest "cap" "prov" spaced_params "cap" "prov" tight_params
           (semantic_key_or spaced_params) (semantic_key_or tight_params)).
  - apply toy_digest_length.
  - apply collision_free_list. vm_compute. reflexivity.
  - vm_compute. reflexivity.
  - vm_compute. reflexivity.
  - vm_compute. reflexivity.
Defined.
