(* ===== verification/SyncGate.v ===== *)
(** * The synchronous inference gate ([cost/sync_gate.py])

    Estimate, reserve the idempotency key, admit against the budget, mark the
    workload running, call RunPod, and record how the call ended.  Every
    statement commits on its own.  The table is the whole of [WorkloadStore],
    under the budget gate through [GateTable].  [SyncDeps] is the caller's
    [runpod_caller] and the clock; the call may return, raise an [Exception],
    or be cancelled, which no handler of the module catches. *)

From S2P Require Import Prelude PyDecimal PyFloat PyValue PyEq PyTime PyFormat PyJson RequestKeys.
From S2P Require Import Effects Enums Estimator WorkloadStore BudgetGate GateTable.

(** Definitions *)

(** ** JSON views of what callers pass and RunPod returns *)

(** [_json_safe] *)
Fixpoint json_safe (v : pyval) : pyval :=
  match v with
  | VFloat f => if fisfinite f then v else VStr (float_repr f)
  | VDec d => VStr (str_dec d)
  | VTime t => VStr (isoformat t)
  | VDict m => VDict (map (fun kv => (kv.1, json_safe kv.2)) m)
  | VList l | VTuple l => VList (map json_safe l)
  | _ => v
  end.

(** [_json_object] *)
Definition json_object (v : pyval) (wrapper_key : string) : dict :=
  match json_safe v with VDict m => m | s => [(wrapper_key, s)] end.

(** [_json_bytes]; ASCII text is one byte a character. *)
Definition json_bytes (v : pyval) : py Z :=
  rmap (fun s => Z.of_nat (String.length s)) (dumps false false true (json_safe v)).

(** [_elapsed_ms] *)
Definition elapsed_ms (started completed : datetime) : py Z :=
  let? s := total_seconds (dt_sub completed started) in
  let? ms := py_int (VFloat (fmul s (of_Z 1000))) in
  Ok (Z.max 0 ms).

(** [_extract_runpod_job_id] *)
Definition job_id_keys : list string := ["id"; "job_id"; "jobId"; "runpod_job_id"].
Fixpoint first_value (m : dict) (keys : list string) : option pyval :=
  match keys with
  | [] => None
  | k :: keys' => match dict_get_none k m with VNone => first_value m keys' | v => Some v end
  end.
Definition extract_runpod_job_id (m : dict) : option string :=
  match first_value m job_id_keys with
  | Some v => Some (py_str v)
  | None => match dict_get_none "raw" m with VDict raw => py_str <$> first_value raw job_id_keys | _ => None end
  end.

Definition str_eq (v : pyval) (s : string) : bool :=
  match as_str v with Some t => String.eqb t s | None => false end.

(** [_active_state_from_runpod_result] *)
Definition active_state (m : dict) : option string :=
  let status := dict_get_none "status" m in
  if str_eq status "IN_QUEUE" then Some "queued" else if str_eq status "IN_PROGRESS" then Some "running" else None.

(** [_terminal_state_from_runpod_result]: an unhashable status raises. *)
Definition terminal_state (m : dict) : py string :=
  let status := dict_get_none "status" m in
  if str_eq status "FAILED" then Ok "failed"
  else if str_eq status "CANCELLED" then Ok "cancelled"
  else match status with
       | VList _ | VDict _ => Err (TypeError "unhashable type")
       | _ => Ok (if existsb (str_eq status) ["TIMED_OUT"; "TIMEOUT"; "TIME_OUT"] then "timed_out" else "completed")
       end.

(** [_result_error_payload] *)
Definition result_error_payload (m : dict) : dict :=
  match dict_get_none "error" m with
  | VDict e => e
  | VNone => [("status", VStr (match dict_get "status" m with Some v => py_str v | None => "unknown" end))]
  | e => [("message", VStr (py_str e))]
  end.

(** ** Statements *)

(** [queue_ms]: milliseconds between submission and start, rounded down, cast
    to [integer] before the maximum is taken. *)
Definition int4 (z : Z) : bool := (- 2 ^ 31 <=? z) && (z <? 2 ^ 31).
Definition queue_ms (row : dict) (started_at : datetime) : result store_error Z :=
  let ms := (dt_us started_at - time_cell (dict_get_none "submitted_at" row)) / 1000 in
  if int4 ms then Ok (Z.max 0 ms) else Err DataError.

Definition chain_cell (l : list string) : pyval := VList (VStr <$> l).

(** [_MARK_WORKLOAD_RUNNING_SQL] *)
Definition mark_workload_running (i : string) (started_at : datetime) (input_bytes : Z) (input : dict)
    (fallback_chain : list string) (db : workload_db) : workload_db * result store_error unit :=
  match jsonb_cell input with
  | Err e => (db, Err e)
  | Ok cell =>
      let given := [("started_at", VTime started_at); ("input_bytes", VInt input_bytes); ("input", cell);
                    ("fallback_chain", chain_cell fallback_chain)] in
      unguarded_update i given
        (fun row => let? q := queue_ms row started_at in
                    Ok ([("state", VStr "running"); ("queue_ms", VInt q)] ++ given)) db
  end.

(** [COALESCE($n::text, runpod_job_id)] *)
Definition coalesce_job (job : option string) : dict :=
  match job with Some j => [("runpod_job_id", VStr j)] | None => [] end.

(** [_MARK_WORKLOAD_TERMINAL_SQL] *)
Definition mark_workload_terminal (i state : string) (completed_at : datetime) (execution_ms output_bytes : Z)
    (res : dict) (job : option string) (error : option dict) (db : workload_db)
  : workload_db * result store_error unit :=
  match jsonb_cell res, match error with Some e => jsonb_cell e | None => Ok VNone end with
  | Ok r, Ok e =>
      let sets := [("state", VStr state); ("completed_at", VTime completed_at);
                   ("execution_ms", VInt execution_ms); ("output_bytes", VInt output_bytes);
                   ("result", r); ("error", e)] ++ coalesce_job job in
      unguarded_update i sets (fun _ => Ok sets) db
  | _, _ => (db, Err DataError)
  end.

(** [_MARK_WORKLOAD_ACTIVE_AFTER_CALL_SQL] *)
Definition mark_workload_active_after_call (i state : string) (job : option string) (output_bytes : Z)
    (res : dict) (db : workload_db) : workload_db * result store_error unit :=
  match jsonb_cell res with
  | Err e => (db, Err e)
  | Ok r =>
      let sets := [("state", VStr state); ("output_bytes", VInt output_bytes); ("result", r)] ++ coalesce_job job in
      unguarded_update i sets (fun _ => Ok sets) db
  end.

(** [_MARK_WORKLOAD_FAILED_SQL] *)
Definition mark_workload_failed (i : string) (completed_at : datetime) (execution_ms : Z) (error : dict)
    (db : workload_db) : workload_db * result store_error unit :=
  match jsonb_cell error with
  | Err e => (db, Err e)
  | Ok e =>
      let sets := [("state", VStr "failed"); ("completed_at", VTime completed_at);
                   ("execution_ms", VInt execution_ms); ("error", e)] in
      unguarded_update i sets (fun _ => Ok sets) db
  end.

(** [update_workload_fallback_chain] *)
Definition update_workload_fallback_chain (i : string) (chain : list string) (db : workload_db)
  : workload_db * result store_error unit :=
  let sets := [("fallback_chain", chain_cell chain)] in unguarded_update i sets (fun _ => Ok sets) db.

(** [_load_workload_replay_result] *)
Definition replay_value (row : dict) : pyval :=
  match dict_get_none "result" row with
  | VDict m => VDict m
  | VNone => VDict [("status", VStr (state_of row))]
  | r => VDict [("result", r)]
  end.

(** ** The gate *)

Inductive call_outcome :=
| Returned (v : pyval)
| CallRaised (type_name message : string)
| CallCancelled.

Class SyncDeps (F : Type) := {
  runpod_call : F -> F * call_outcome;
  clock_now : F -> F * datetime;
}.

Inductive sync_error :=
| SyncExn (e : exn)
| SyncStore (e : store_error)
| SyncBudget (e : gate_error unit)
| SyncCall (type_name message : string)
| SyncCancelled.

(** The arguments of one request. *)
Record sync_request : Type := MkSyncRequest {
  sr_capability : CapabilityCost;
  sr_capability_id : string;
  sr_provider_id : string;
  sr_provider_cost : CostInput;
  sr_payload : dict;
  sr_idempotency_key : option string;
  sr_submitted_at : option datetime;
  sr_input_bytes : option Z;
  sr_fallback_chain : option (list string);
}.

Record SyncInferenceResult : Type := MkSyncResult { sync_workload_id : string; sync_runpod_result : pyval }.

Section Gate.
Context {F : Type} `{SyncDeps F}.
Context (sha256 : string -> string) (month_start : Z -> Z) (constraints_ok : workload_row -> bool).
Abbreviation op := (eff (table_world F) sync_error).
Abbreviation on_db := (on_db SyncStore).

Definition raises {A} (r : py A) : op A := lift (rlift SyncExn r).

(** The hash stored inputs are compared by. *)
Definition stored_hash (v : pyval) : string := match hash_input sha256 v with Ok h => h | Err _ => EmptyString end.

(** The reservation of the key, in a transaction of its own. *)
Definition pending_id (key : string) : string := "wkl_pending_" +:+ String.substring 0 16 key.
Definition reserve (rq : sync_request) : op unit :=
  match sr_idempotency_key rq with
  | None => ret tt
  | Some key =>
      do! body_hash := raises (hash_input sha256 (VDict (sr_payload rq))) in
      on_db (fun db => match reserve_idempotency_key stored_hash db key body_hash (pending_id key) with
                       | Ok (db', _) => (db', Ok tt)
                       | Err e => (db, Err e)
                       end)
  end.

Definition try_admission (g : BudgetGate) (rq : sync_request) (upper : dec) (new_id : string) : op BudgetAdmission :=
  do! clock := from_outside clock_now in
  fun w =>
    let '(db, r) := admit_row month_start constraints_ok g clock (sr_capability_id rq) (sr_provider_id rq)
                      (EBound (VDec (DFin upper))) "inference" (sr_submitted_at rq) (sr_idempotency_key rq)
                      new_id (tw_db w) in
    (MkTableWorld db (tw_outside w), rlift SyncBudget r).

(** [_load_workload_replay_result] *)
Definition load_replay (i : string) : op pyval :=
  do! w := get in
  match workloads (tw_db w) !! i with
  | None => fail (SyncExn (RuntimeError "idempotency replay workload was not found"))
  | Some row => ret (replay_value row)
  end.

(** The exception handler around the call. *)
Definition record_failure (i : string) (started_at : datetime) (type_name message : string)
  : op SyncInferenceResult :=
  do! completed_at := from_outside clock_now in
  do! ms := raises (elapsed_ms started_at completed_at) in
  do! _ := on_db (mark_workload_failed i completed_at ms
                    [("type", VStr type_name); ("message", VStr message)]) in
  fail (SyncCall type_name message).

(** After the call returned: the terminal or the active state is stored. *)
Definition store_result (i : string) (started_at completed_at : datetime) (payload : dict) (output_bytes : Z)
  : op unit :=
  let job := extract_runpod_job_id payload in
  match active_state payload with
  | None =>
      do! state := raises (terminal_state payload) in
      do! ms := raises (elapsed_ms started_at completed_at) in
      on_db (mark_workload_terminal i state completed_at ms output_bytes payload job
               (if String.eqb state "completed" then None else Some (result_error_payload payload)))
  | Some state => on_db (mark_workload_active_after_call i state job output_bytes payload)
  end.
Definition record_result (i : string) (started_at : datetime) (v : pyval) : op SyncInferenceResult :=
  do! completed_at := from_outside clock_now in
  let payload := json_object v "result" in
  do! output_bytes := raises (json_bytes (VDict payload)) in
  do! _ := store_result i started_at completed_at payload output_bytes in
  ret (MkSyncResult i v).

(** From the admission of a new workload on. *)
Definition run_admitted (rq : sync_request) (i : string) : op SyncInferenceResult :=
  do! started_at := from_outside clock_now in
  let input := json_object (VDict (sr_payload rq)) "payload" in
  do! input_bytes := match sr_input_bytes rq with
                     | Some n => ret n
                     | None => raises (json_bytes (VDict input))
                     end in
  let chain := match sr_fallback_chain rq with Some ((_ :: _) as c) => c | _ => [sr_provider_id rq] end in
  do! _ := on_db (mark_workload_running i started_at input_bytes input chain) in
  do! outcome := from_outside runpod_call in
  match outcome with
  | Returned v => record_result i started_at v
  | CallRaised t m => record_failure i started_at t m
  | CallCancelled => fail SyncCancelled
  end.

(** [gate_sync_inference]; [new_id] is the id the gate generates. *)
Definition gate_sync_inference (g : BudgetGate) (rq : sync_request) (new_id : string) : op SyncInferenceResult :=
  do! upper := raises (let? q := quote_cost (sr_capability rq) (sr_provider_cost rq) (sr_payload rq) in
                       quote_upper_bound q) in
  reserve rq ;!
  do! adm := try_admission g rq upper new_id in
  if is_new adm then run_admitted rq (workload_id adm)
  else
    do! result := load_replay (workload_id adm) in
    ret (MkSyncResult (workload_id adm) result).

(** [estimate_cost] *)
Definition estimate_cost (c : CapabilityCost) (provider_cost : CostInput) (payload : dict) : py dec :=
  let? q := quote_cost c provider_cost payload in quote_estimate q.
End Gate.

(** ** What a call leaves in the table *)

(** The state recorded for what RunPod returned. *)
Definition recorded_state (v : pyval) : string :=
  let payload := json_object v "result" in
  match active_state payload with
  | Some s => s
  | None => match terminal_state payload with Ok s => s | Err _ => EmptyString end
  end.
Definition local_error (e : sync_error) : Prop := (exists x, e = SyncExn x) \/ (exists s, e = SyncStore s).

(** How the row of workload [i] and the answer of the gate fit together. *)
Definition call_recorded (i : string) (db : workload_db) (r : result sync_error SyncInferenceResult) : Prop :=
  match r with
  | Ok res =>
      sync_workload_id res = i /\
      exists row, workloads db !! i = Some row /\ state_of row = recorded_state (sync_runpod_result res)
  | Err (SyncCall t m) =>
      exists row, workloads db !! i = Some row /\ state_of row = "failed" /\
        dict_get_none "error" row = VDict [("type", VStr t); ("message", VStr m)]
  | Err SyncCancelled =>
      exists row, workloads db !! i = Some row /\ state_of row = "running" /\
        dict_get_none "runpod_job_id" row = VNone
  | Err _ => exists row, workloads db !! i = Some row
  end.

(** Lemmas *)

Lemma running_writes i t n input chain :
  writes i (mark_workload_running i t n input chain)
    (fun _ row row' => state_of row' = "running" /\ dict_get_none "runpod_job_id" row' = dict_get_none "runpod_job_id" row).
Proof.
  unfold mark_workload_running. destruct (jsonb_cell input) as [cell|e]; [|apply refused_writes].
  apply unguarded_writes. intros row s (q & _ & [= <-])%rbind_Ok. split.
  - apply assign_state. simpl. set_solver.
  - apply assign_get_other. simpl. set_solver.
Qed.

Lemma terminal_writes i state t ms n res job error :
  writes i (mark_workload_terminal i state t ms n res job error) (fun _ _ row' => state_of row' = state).
Proof.
  unfold mark_workload_terminal.
  destruct (jsonb_cell res) as [r|e], (match error with Some e => jsonb_cell e | None => Ok VNone end) as [x|e'];
    try apply refused_writes.
  apply unguarded_writes. intros row s [= <-]. apply assign_state. destruct job; simpl; set_solver.
Qed.

Lemma active_writes i state job n res :
  writes i (mark_workload_active_after_call i state job n res) (fun _ _ row' => state_of row' = state).
Proof.
  unfold mark_workload_active_after_call. destruct (jsonb_cell res) as [r|e]; [|apply refused_writes].
  apply unguarded_writes. intros row s [= <-]. apply assign_state. destruct job; simpl; set_solver.
Qed.

Lemma failed_writes i t ms ty m :
  writes i (mark_workload_failed i t ms [("type", VStr ty); ("message", VStr m)])
    (fun _ _ row' => state_of row' = "failed" /\
       dict_get_none "error" row' = VDict [("type", VStr ty); ("message", VStr m)]).
Proof.
  unfold mark_workload_failed, jsonb_cell, jsonb_dict. simpl.
  apply unguarded_writes. intros row s [= <-]. split.
  - apply assign_state. simpl. set_solver.
  - unfold assign. cbn [foldl fst snd]. unfold dict_get_none. by rewrite dict_get_al, al_get_set.
Qed.

Section Steps.
Context {F : Type} `{SyncDeps F} (R : F -> F -> Prop) `{!PreOrder R}.
Context (Hclock : forall o, R o (clock_now o).1).
Context (sha256 : string -> string) (month_start : Z -> Z) (constraints_ok : workload_row -> bool).
Abbreviation op := (eff (table_world F) sync_error).
Abbreviation on_db := (on_db SyncStore).

(** RunPod is asked at most once; all else reads the clock. *)
Definition asks_once (o o' : F) : Prop := R o o' \/ exists o1, R o o1 /\ R (runpod_call o1).1 o'.

Lemma raises_step {A} (m : py A) (w w' : table_world F) (r : result sync_error A) : raises m w = (w', r) -> w' = w /\ r = rlift SyncExn m.
Proof. unfold raises, lift. by intros [= <- <-]. Qed.

Lemma exn_step {A} (m : py A) (w w' : table_world F) (e : sync_error) : raises m w = (w', Err e) -> w' = w /\ exists x, e = SyncExn x.
Proof. intros [-> Hr]%raises_step. split; [done|]. destruct m; simpl in Hr; [done|]. injection Hr as ->. by eexists. Qed.

Lemma exn_recorded i db e row : workloads db !! i = Some row -> local_error e ->
  call_recorded i db (Err e).
Proof. intros Hr [[x ->]|[s ->]]; by exists row. Qed.

Lemma record_failure_ok i t ty m (w w' : table_world F) r row :
  workloads (tw_db w) !! i = Some row -> record_failure i t ty m w = (w', r) ->
  only_workload i (tw_db w) (tw_db w') /\ call_recorded i (tw_db w') r /\ R (tw_outside w) (tw_outside w').
Proof.
  intros Hrow E. unfold record_failure in E. split_bind E.
  { apply outside_step in E as (_ & _ & [=]). }
  apply outside_step in E as (Hdb & Ho & [= ->]).
  assert (R (tw_outside w) (tw_outside x0)) as HR by (rewrite Ho; apply Hclock).
  rewrite <- Hdb in Hrow |- *. clear Hdb Ho. rename Hk into E. split_bind E.
  { apply exn_step in E as [-> Hx]. split; [done|]. split; [|done]. eapply exn_recorded; [done|by left]. }
  apply raises_step in E as [-> _]. rename Hk into E. split_bind E.
  - apply (write_step SyncStore i _ _ _ _ _ _ (failed_writes _ _ _ _ _) Hrow) in E as (Ho & Hon & row' & Hr & Hs).
    split; [done|]. rewrite Ho. split; [|done]. eapply exn_recorded; [done|by right].
  - apply (write_step SyncStore i _ _ _ _ _ _ (failed_writes _ _ _ _ _) Hrow) in E as (Ho & Hon & row' & Hr & Hs & He).
    injection Hk as <- <-. split; [done|]. rewrite Ho. split; [|done]. by exists row'.
Qed.

Lemma store_result_ok i t t' v n (w w' : table_world F) r row :
  workloads (tw_db w) !! i = Some row -> store_result i t t' (json_object v "result") n w = (w', r) ->
  only_workload i (tw_db w) (tw_db w') /\ tw_outside w' = tw_outside w /\
  exists row', workloads (tw_db w') !! i = Some row' /\
    match r with Ok _ => state_of row' = recorded_state v | Err e => local_error e end.
Proof.
  intros Hrow E. unfold store_result, recorded_state in *.
  destruct (active_state (json_object v "result")) as [s|].
  - apply (write_step SyncStore i _ _ _ _ _ _ (active_writes _ _ _ _ _) Hrow) in E as (Ho & Hon & row' & Hr & Hs).
    split; [done|]. split; [done|]. exists row'. split; [done|]. destruct r; [done|by right].
  - split_bind E.
    { apply exn_step in E as [-> Hx]. do 2 (split; [done|]). exists row. by split; [|left]. }
    apply raises_step in E as [-> Hs]. destruct (terminal_state _) as [s|]; [|done]. injection Hs as ->.
    rename Hk into E. split_bind E.
    { apply exn_step in E as [-> Hx]. do 2 (split; [done|]). exists row. by split; [|left]. }
    apply raises_step in E as [-> _].
    apply (write_step SyncStore i _ _ _ _ _ _ (terminal_writes _ _ _ _ _ _ _ _) Hrow) in Hk as (Ho & Hon & row' & Hr & Hs).
    split; [done|]. split; [done|]. exists row'. split; [done|]. destruct r; [done|by right].
Qed.

Lemma record_result_ok i t v (w w' : table_world F) r row :
  workloads (tw_db w) !! i = Some row -> record_result i t v w = (w', r) ->
  only_workload i (tw_db w) (tw_db w') /\ call_recorded i (tw_db w') r /\ R (tw_outside w) (tw_outside w').
Proof.
  intros Hrow E. unfold record_result in E. split_bind E.
  { apply outside_step in E as (_ & _ & [=]). }
  apply outside_step in E as (Hdb & Ho & [= ->]).
  assert (R (tw_outside w) (tw_outside x0)) as HR by (rewrite Ho; apply Hclock).
  rewrite <- Hdb in Hrow |- *. clear Hdb Ho. rename Hk into E. split_bind E.
  { apply exn_step in E as [-> Hx]. split; [done|]. split; [|done]. eapply exn_recorded; [done|by left]. }
  apply raises_step in E as [-> _]. rename Hk into E. split_bind E.
  - destruct (store_result_ok _ _ _ _ _ _ _ _ _ Hrow E) as (Hon & Ho & row' & Hr & Hx).
    split; [done|]. rewrite Ho. split; [|done]. by eapply exn_recorded.
  - destruct (store_result_ok _ _ _ _ _ _ _ _ _ Hrow E) as (Hon & Ho & row' & Hr & Hx).
    injection Hk as <- <-. split; [done|]. rewrite Ho. split; [|done]. split; [done|]. by exists row'.
Qed.

Lemma run_admitted_ok rq i (w w' : table_world F) r row :
  workloads (tw_db w) !! i = Some row -> dict_get_none "runpod_job_id" row = VNone ->
  run_admitted rq i w = (w', r) ->
  only_workload i (tw_db w) (tw_db w') /\ call_recorded i (tw_db w') r /\
  asks_once (tw_outside w) (tw_outside w').
Proof.
  intros Hrow Hjob E. unfold run_admitted in E. apply bind_cases in E as [(e & E & ->)|(t & w1 & E & Hk)].
  { apply outside_step in E as (_ & _ & [=]). }
  apply outside_step in E as (Hdb & Ho & [= ->]).
  assert (R (tw_outside w) (tw_outside w1)) as HR by (rewrite Ho; apply Hclock).
  rewrite <- Hdb in Hrow |- *. clear Hdb. apply bind_cases in Hk as [(e & E & ->)|(n & w2 & E & Hk)].
  { destruct (sr_input_bytes rq); [done|]. apply exn_step in E as [-> Hx]. split; [done|].
    split; [eapply exn_recorded; [done|by left]|by left]. }
  assert (w2 = w1) as ->.
  { destruct (sr_input_bytes rq); [by injection E|by apply raises_step in E as [-> _]]. }
  clear E. apply bind_cases in Hk as [(e & E & ->)|([] & w3 & E & Hk)].
  { apply (write_step SyncStore i _ _ _ _ _ _ (running_writes _ _ _ _ _) Hrow) in E as (Ho' & Hon & row' & Hr & Hs).
    split; [done|]. rewrite Ho'. split; [eapply exn_recorded; [done|by right]|by left]. }
  apply (write_step SyncStore i _ _ _ _ _ _ (running_writes _ _ _ _ _) Hrow) in E as (Ho' & Hon & row' & Hr & Hs & Hj).
  rewrite Hjob in Hj. apply bind_cases in Hk as [(e & E & ->)|(out & w4 & E & Hk)].
  { apply outside_step in E as (_ & _ & [=]). }
  apply outside_step in E as (Hdb & Hoo & [= ->]). rewrite <- Hdb in Hr, Hon.
  assert (forall o', R (tw_outside w4) o' -> asks_once (tw_outside w) o') as Honce.
  { intros o' Ho2. right. exists (tw_outside w1). split; [done|]. by rewrite <- Ho', <- Hoo. }
  destruct (runpod_call _).2 as [v|ty m|].
  - destruct (record_result_ok _ _ _ _ _ _ _ Hr Hk) as (Hon' & Hc & Hq).
    split; [by etrans|]. split; [done|by apply Honce].
  - destruct (record_failure_ok _ _ _ _ _ _ _ _ Hr Hk) as (Hon' & Hc & Hq).
    split; [by etrans|]. split; [done|by apply Honce].
  - injection Hk as <- <-. split; [done|]. split; [by exists row'|by apply Honce].
Qed.

(** The reservation leaves the workloads alone. *)
Lemma reserve_step rq (w w' : table_world F) r :
  reserve sha256 rq w = (w', r) ->
  tw_outside w' = tw_outside w /\ workloads (tw_db w') = workloads (tw_db w) /\
  match r with Ok _ => True | Err e => local_error e end.
Proof.
  unfold reserve. destruct (sr_idempotency_key rq) as [k|]; [|by intros [= <- <-]].
  intros E. split_bind E.
  { apply exn_step in E as [-> Hx]. do 2 (split; [done|]). by left. }
  apply raises_step in E as [-> _]. apply on_db_step in Hk as (Ho & Hdb & ->). split; [done|]. rewrite Hdb.
  destruct (reserve_idempotency_key _ _ _ _ _) as [[db' rv]|e] eqn:Er; simpl.
  - split; [|done]. by apply reserve_Ok in Er as (_ & ? & _).
  - split; [done|]. right. by eexists.
Qed.
End Steps.

(** ** Theorems *)


(** The body hash of a reused idempotency key is never compared.  The gate
    reserves the key for [wkl_pending_<key>], an id no workload has, so the
    stored input is not found and the reservation always looks like a replay:
    whatever the new payload, and whatever it may cost, the first request's
    workload and result come back and nothing changes. *)
Theorem reused_key_is_replayed {F} `{SyncDeps F} sha256 month_start constraints_ok g rq new_id key i row upper h
    (w : table_world F) :
  sr_idempotency_key rq = Some key ->
  find_by_key (gate_view (tw_db w)) (Some key) = Some i -> workloads (tw_db w) !! i = Some row ->
  workloads (tw_db w) !! pending_id key = None ->
  idempotency_keys (tw_db w) !! key = Some (pending_id key) ->
  (let? q := quote_cost (sr_capability rq) (sr_provider_cost rq) (sr_payload rq) in quote_upper_bound q) = Ok upper ->
  dleb upper dzero = false -> hash_input sha256 (VDict (sr_payload rq)) = Ok h ->
  gate_sync_inference sha256 month_start constraints_ok g rq new_id w
  = (MkTableWorld (tw_db w) (clock_now (tw_outside w)).1, Ok (MkSyncResult i (replay_value row))).
Proof.
  intros Hkey Hf Hrow Hpend Hres Hq Hpos Hh. unfold gate_sync_inference.
  erewrite bind_run; [|unfold raises, lift; by rewrite Hq].
  erewrite bind_run.
  2: { unfold reserve. rewrite Hkey. erewrite bind_run; [|unfold raises, lift; by rewrite Hh].
       unfold on_db, reserve_idempotency_key. rewrite Hres, Hpend. done. }
  erewrite bind_run.
  2: { unfold try_admission. erewrite bind_run; [|apply from_outside_run].
       cbn [tw_db tw_outside]. unfold admit_row, try_launch_admission, precheck, positive_estimate, positive_decimal.
       cbn [finite_decimal decimal_of_str rbind]. rewrite Hpos, Hkey. cbn [rlift rbind].
       unfold admit_launch. cbn [l_idempotency_key]. rewrite Hf. reflexivity. }
  cbn. unfold load_replay, bind, get. cbn. by rewrite Hrow.
Qed.

(** ** A scripted world *)
Module SyncSim.
Record outside : Type := MkOutside { answer : call_outcome; clock_us : Z; calls : nat }.
Definition deps : SyncDeps outside := {|
  runpod_call o := (MkOutside (answer o) (clock_us o) (S (calls o)), answer o);
  clock_now o := (MkOutside (answer o) (clock_us o + 1500000) (calls o), utc (clock_us o));
|}.
#[local] Existing Instance deps.
Definition same_calls (o o' : outside) : Prop := calls o' = calls o /\ answer o' = answer o.
#[global] Instance same_calls_preorder : PreOrder same_calls.
Proof. unfold same_calls. split; [done|]. intros a b c [? ?] [? ?]. split; congruence. Qed.

Definition request (key : option string) (payload : dict) : sync_request :=
  MkSyncRequest example_capability "cap" "prov" (InLike example_token_cost) payload key None None None.
Definition empty_db : workload_db := MkWorkloadDb ∅ ∅.
Definition world_of (answer : call_outcome) : table_world outside := MkTableWorld empty_db (MkOutside answer 0 0).
Definition gate (rq : sync_request) (new_id : string) (w : table_world outside)
  : table_world outside * result sync_error SyncInferenceResult :=
  gate_sync_inference toy_sha flat_month any_row example_gate rq new_id w.

Definition column (k i : string) (w : table_world outside) : option pyval :=
  dict_get_none k <$> workloads (tw_db w) !! i.
Definition good : pyval := VDict [("id", VStr "job-1"); ("status", VStr "COMPLETED"); ("output", VInt 7)].

Example completed_ex :
  let '(w, r) := gate (request None example_payload) "w1" (world_of (Returned good)) in
  (r, calls (tw_outside w), column "state" "w1" w, column "runpod_job_id" "w1" w, column "execution_ms" "w1" w)
  = (Ok (MkSyncResult "w1" good), 1%nat, Some (VStr "completed"), Some (VStr "job-1"), Some (VInt 1500)).
Proof. vm_compute. reflexivity. Qed.

(** A failing call is recorded and raised again. *)
Example failed_ex :
  let '(w, r) := gate (request None example_payload) "w1" (world_of (CallRaised "HTTPError" "boom")) in
  (r, column "state" "w1" w, column "error" "w1" w)
  = (Err (SyncCall "HTTPError" "boom"), Some (VStr "failed"),
     Some (VDict [("type", VStr "HTTPError"); ("message", VStr "boom")])).
Proof. vm_compute. reflexivity. Qed.

(** A cancelled request leaves its workload running without a job id: the
    budget keeps counting it and no job of the reconciler looks at it. *)
Example cancelled_is_stuck :
  let '(w, r) := gate (request None example_payload) "w1" (world_of CallCancelled) in
  (r, column "state" "w1" w, column "runpod_job_id" "w1" w)
  = (Err SyncCancelled, Some (VStr "running"), Some VNone).
Proof. vm_compute. reflexivity. Qed.

(** A status that is an object cannot be looked up in a set: the answer of a
    call that was paid for is lost and the row stays running. *)
Example unhashable_status_loses_result :
  let '(w, r) := gate (request None example_payload) "w1"
                   (world_of (Returned (VDict [("status", VDict [("code", VInt 200)])]))) in
  (r, column "state" "w1" w, column "result" "w1" w)
  = (Err (SyncExn (TypeError "unhashable type")), Some (VStr "running"), Some VNone).
Proof. vm_compute. reflexivity. Qed.

(** A request with a used key and another payload gets the first result. *)
Definition first_run : table_world outside := (gate (request (Some "k") example_payload) "w1" (world_of (Returned good))).1.
Definition other_payload : dict := [("prompt", VStr "something else"); ("max_tokens", VInt 5)].
End SyncSim.


Lemma reused_key_is_replayed_witness :
  SyncSim.gate (SyncSim.request (Some "k") SyncSim.other_payload) "w2" SyncSim.first_run
  = (MkTableWorld (tw_db SyncSim.first_run) (clock_now (SyncDeps:=SyncSim.deps) (tw_outside SyncSim.first_run)).1,
     Ok (MkSyncResult "w1" SyncSim.good)).
Proof.
  destruct (workloads (tw_db SyncSim.first_run) !! "w1") as [row|] eqn:Hrow; [|vm_compute in Hrow; discriminate Hrow].
  assert (replay_value row = SyncSim.good) as Hv.
  { vm_compute in Hrow. injection Hrow as <-. reflexivity. }
  pose proof (reused_key_is_replayed (H:=SyncSim.deps) toy_sha flat_month any_row example_gate
    (SyncSim.request (Some "k") SyncSim.other_payload) "w2" "k" "w1" row (micro 9)
    (match hash_input toy_sha (VDict SyncSim.other_payload) with Ok h => h | Err _ => "" end) SyncSim.first_run) as T.
  rewrite Hv in T. apply T.
  - reflexivity.
  - vm_compute. reflexivity.
  - exact Hrow.
  - vm_compute. reflexivity.
  - vm_compute. reflexivity.
  - vm_compute. reflexivity.
  - vm_compute. reflexivity.
  - vm_compute. reflexivity.
Defined.
