(* ===== verification/Hedging.v ===== *)
(** * Hedged provider racing ([routing/hedging.py])

    The race as a state machine over the events its loop waits for: the hedge
    delay expiring, and attempts completing.  Providers are identified by
    their position in the selected chain; [outcome] is how the provider call
    ended.  The elapsed time in the result is not modelled. *)

From S2P Require Import Prelude PyFloat PyValue PyFormat.

(** Definitions *)

(** [_validate_provider_ids] *)
Fixpoint validate_provider_ids (seen : list string) (ids : list string) : py unit :=
  match ids with
  | [] => Ok tt
  | i :: ids' =>
      if negb (nonempty i) then Err (ValueError "provider ids must be non-empty strings")
      else if bool_decide (i ∈ seen)
      then Err (ValueError ("provider id " +:+ repr_str i +:+ " is duplicated"))
      else validate_provider_ids (i :: seen) ids'
  end.

Section Race.
Context {Provider Result : Type} (provider_id : Provider -> py string).

Record HedgedProviderRequest : Type := MkHedgeRequest {
  hr_providers : list Provider;
  hr_delay_s : float;
  hr_max_attempts : Z;
  hr_max_concurrency : Z;
}.

(** What [_validate_request] returns: the selected chain, its ids and the
    concurrency. *)
Record race_config : Type := MkRace {
  rc_selected : list Provider;
  rc_ids : list string;
  rc_concurrency : Z;
}.

Definition validate_request (r : HedgedProviderRequest) : py race_config :=
  match hr_providers r with
  | [] => Err (ValueError "providers must contain at least one provider")
  | _ =>
      if negb (fisfinite (hr_delay_s r)) || fltb (hr_delay_s r) fzero
      then Err (ValueError "hedge_delay_s must be a finite non-negative number")
      else if hr_max_attempts r <? 1
      then Err (ValueError "max_attempts must be a positive integer")
      else if hr_max_concurrency r <? 1
      then Err (ValueError "max_concurrency must be a positive integer")
      else
        let attempts := Z.min (hr_max_attempts r) (Z.of_nat (List.length (hr_providers r))) in
        let selected := take (Z.to_nat attempts) (hr_providers r) in
        let? ids := mapR provider_id selected in
        let? _ := validate_provider_ids [] ids in
        Ok (MkRace selected ids (Z.min (hr_max_concurrency r) attempts))
  end.

(** How a provider call ended. *)
Inductive outcome := Success (value : Result) | Failure (message : string) | Cancelled.

(** The loop's variables; [active] and [attempted] hold positions. *)
Record race_state : Type := MkRaceState {
  active : list nat;
  next_index : nat;
  hedge_open : bool;
  attempted : list nat;
  attempted_errors : list (nat * string);
}.

Inductive race_result :=
| Running (s : race_state)
| Won (value : Result) (winner : nat) (cancelled : list nat) (attempted_ids : list nat)
| Lost (s : race_state).

Definition race_initial : race_state := MkRaceState [] 0 false [] [].

(** [start_next] *)
Definition start_next (c : race_config) (s : race_state) : race_state :=
  if (List.length (rc_selected c) <=? next_index s)%nat then s
  else MkRaceState (active s ++ [next_index s]) (S (next_index s)) (hedge_open s)
         (attempted s ++ [next_index s]) (attempted_errors s).

(** [fill_open_slots]: each pass starts one attempt. *)
Fixpoint fill_slots (fuel : nat) (c : race_config) (s : race_state) : race_state :=
  match fuel with
  | O => s
  | S fuel' =>
      if (Z.of_nat (List.length (active s)) <? rc_concurrency c) &&
         (next_index s <? List.length (rc_selected c))%nat
      then fill_slots fuel' c (start_next c s) else s
  end.
Definition fill_open_slots (c : race_config) (s : race_state) : race_state :=
  fill_slots (List.length (rc_selected c)) c s.

Definition race_start (c : race_config) : race_state := start_next c race_initial.

(** Whether [asyncio.wait] has a timeout. *)
Definition has_timeout (c : race_config) (s : race_state) : bool :=
  negb (hedge_open s) && (next_index s <? List.length (rc_selected c))%nat.

(** The [for] loop over the attempts that completed, in completion order. *)
Fixpoint settle (c : race_config) (s : race_state) (done : list (nat * outcome))
  : race_state * option (Result * nat) :=
  match done with
  | [] => (s, None)
  | (i, o) :: done' =>
      let s := MkRaceState (filter (fun j => j <> i) (active s)) (next_index s) (hedge_open s)
                 (attempted s) (attempted_errors s) in
      let fail msg := MkRaceState (active s) (next_index s) (hedge_open s) (attempted s)
                        (al_set i msg (attempted_errors s)) in
      match o with
      | Success v => (s, Some (v, i))
      | Failure msg => settle c (fail msg) done'
      | Cancelled =>
          settle c (fail ("provider " +:+ default EmptyString (rc_ids c !! i) +:+
                          " attempt was cancelled")) done'
      end
  end.

Inductive race_event := Timeout | Completed (done : list (nat * outcome)).

(** One turn of the loop; the race is lost when nothing is active. *)
Definition race_turn (c : race_config) (s : race_state) (e : race_event) : race_result :=
  match e with
  | Timeout =>
      Running (fill_open_slots c
        (MkRaceState (active s) (next_index s) true (attempted s) (attempted_errors s)))
  | Completed done =>
      match settle c s done with
      | (s', Some (v, i)) => Won v i (active s') (attempted s')
      | (s', None) =>
          let more := (next_index s' <? List.length (rc_selected c))%nat in
          let s' := match active s' with
                    | [] => if more then start_next c s' else s'
                    | _ => if hedge_open s' && more then fill_open_slots c s' else s'
                    end in
          match active s' with [] => Lost s' | _ => Running s' end
      end
  end.

(** The events [asyncio.wait] can report: a timeout when one is set, or a
    non-empty set of active attempts. *)
Definition possible (c : race_config) (s : race_state) (e : race_event) : Prop :=
  match e with
  | Timeout => has_timeout c s = true
  | Completed done => done <> [] /\ NoDup done.*1 /\ forall i, i ∈ done.*1 -> i ∈ active s
  end.

(** A race: the turns of one run. *)
Inductive race_run (c : race_config) : race_result -> list race_event -> Prop :=
| RaceStart : race_run c (Running (race_start c)) []
| RaceTurn s es e : race_run c (Running s) es -> possible c s e ->
    race_run c (race_turn c s e) (es ++ [e]).

(** The outcome reported for an attempt in a run. *)
Definition reported (es : list race_event) (i : nat) (o : outcome) : Prop :=
  exists done, Completed done ∈ es /\ (i, o) ∈ done.

(** The invariant of a running race, by the attempts that failed so far. *)
Record race_inv (c : race_config) (failed : list nat) (s : race_state) : Prop := MkRaceInv {
  ri_attempted : attempted s = seq 0 (next_index s);
  ri_next : (next_index s <= List.length (rc_selected c))%nat;
  ri_nodup : NoDup (active s);
  ri_failed : NoDup failed;
  ri_slots : Z.of_nat (List.length (active s)) <= rc_concurrency c;
  ri_disjoint : forall i, i ∈ active s -> i ∉ failed;
  ri_settled : forall i, (i < next_index s)%nat <-> i ∈ active s \/ i ∈ failed;
  ri_errors : forall i, i ∈ (attempted_errors s).*1 <-> i ∈ failed;
}.

(** ** Helper lemmas *)

Lemma filter_ne_length (l : list nat) i :
  NoDup l -> i ∈ l -> List.length l = S (List.length (filter (fun j => j <> i) l)).
Proof.
  induction 1 as [|x l Hx Hl IH]; [by intros ?%elem_of_nil|].
  rewrite elem_of_cons, filter_cons. intros [->|Hi].
  - rewrite decide_False by auto. f_equal. simpl. f_equal.
    clear -Hx. induction l as [|y l IH]; [done|]. rewrite filter_cons.
    apply not_elem_of_cons in Hx as [Hne Hx]. rewrite decide_True by done. simpl. f_equal. auto.
  - rewrite decide_True by (intros ->; done). simpl. by rewrite <-IH.
Qed.

Lemma start_next_inv c failed s :
  race_inv c failed s -> Z.of_nat (List.length (active s)) < rc_concurrency c ->
  (next_index s < List.length (rc_selected c))%nat ->
  race_inv c failed (start_next c s) /\ active (start_next c s) = active s ++ [next_index s] /\
  next_index (start_next c s) = S (next_index s).
Proof.
  intros [Ha Hn Hd Hfd Hs Hj Ht He] Hc Hlt. unfold start_next.
  replace (_ <=? _)%nat with false by (symmetry; by apply Nat.leb_gt). simpl.
  assert (next_index s ∉ active s /\ next_index s ∉ failed) as [Hna Hnf].
  { split; intros Hin; assert (next_index s < next_index s)%nat by (apply Ht; auto); lia. }
  split; [|done]. constructor; simpl.
  - rewrite Ha. exact (eq_sym (seq_S _ 0)).
  - lia.
  - apply NoDup_app. split; [done|]. split; [|apply NoDup_singleton].
    intros x Hx ->%list_elem_of_singleton. done.
  - done.
  - rewrite length_app. simpl. lia.
  - intros i [Hi| ->%list_elem_of_singleton]%elem_of_app; [by apply Hj|done].
  - intros i. rewrite elem_of_app, list_elem_of_singleton.
    specialize (Ht i). destruct (decide (i = next_index s)) as [->|]; [naive_solver lia|].
    split; [intros Hi; assert (i < next_index s)%nat as Hi' by lia; tauto|].
    intros [[Hi|Hi]|Hi]; [assert (i < next_index s)%nat by tauto; lia|done|].
    assert (i < next_index s)%nat by tauto. lia.
  - done.
Qed.

Lemma fill_slots_inv fuel c failed s :
  race_inv c failed s ->
  race_inv c failed (fill_slots fuel c s) /\
  (forall i, i ∈ active s -> i ∈ active (fill_slots fuel c s)) /\
  hedge_open (fill_slots fuel c s) = hedge_open s.
Proof.
  revert s. induction fuel as [|fuel IH]; intros s Hs; simpl; [done|].
  destruct (_ && _) eqn:Hc; [|done]. apply andb_true_iff in Hc as [Hc1 Hc2].
  apply Z.ltb_lt in Hc1. apply Nat.ltb_lt in Hc2.
  destruct (start_next_inv c failed s Hs Hc1 Hc2) as (Hs' & Ha & _).
  destruct (IH _ Hs') as (? & Hin & Hh). split; [done|]. split.
  - intros i Hi. apply Hin. rewrite Ha. apply elem_of_app. by left.
  - rewrite Hh. unfold start_next. by destruct (_ <=? _)%nat.
Qed.

Lemma fill_hedge_open fuel c s : hedge_open (fill_slots fuel c s) = hedge_open s.
Proof.
  revert s. induction fuel as [|fuel IH]; intros s; simpl; [done|].
  destruct (_ && _); [|done]. rewrite IH. unfold start_next. by destruct (_ <=? _)%nat.
Qed.

Lemma settle_none c s done s' failed :
  race_inv c failed s -> NoDup done.*1 -> (forall i, i ∈ done.*1 -> i ∈ active s) ->
  settle c s done = (s', None) ->
  race_inv c (failed ++ done.*1) s' /\ hedge_open s' = hedge_open s /\
  List.length (active s) = (List.length (active s') + List.length done)%nat /\
  forall i v, (i, Success v) ∉ done.
Proof.
  revert s failed. induction done as [|[i o] done IH]; intros s failed Hs Hnd Hin; csimpl.
  { intros [= <-]. rewrite app_nil_r. split; [done|]. split; [done|]. split; [lia|].
    intros i v. apply not_elem_of_nil. }
  apply NoDup_cons in Hnd as [Hni Hnd]. intros H.
  assert (exists msg, settle c (MkRaceState (filter (fun j => j <> i) (active s)) (next_index s)
    (hedge_open s) (attempted s) (al_set i msg (attempted_errors s))) done = (s', None) /\
    forall v, o <> Success v) as (msg & Hset & Ho) by (destruct o; [done|by eexists|by eexists]).
  pose proof Hs as [Ha Hn Hd Hfd Hsl Hj Ht He].
  assert (i ∈ active s) as Hia by (apply Hin; left).
  assert (race_inv c (failed ++ [i]) (MkRaceState (filter (fun j => j <> i) (active s)) (next_index s)
    (hedge_open s) (attempted s) (al_set i msg (attempted_errors s)))) as Hs1.
  { constructor; simpl; try done.
    - by apply NoDup_filter.
    - apply NoDup_app. split; [done|]. split; [|apply NoDup_singleton].
      intros x Hx ->%list_elem_of_singleton. by eapply Hj.
    - etransitivity; [|exact Hsl]. apply inj_le. apply length_filter.
    - intros j [Hji Hja]%list_elem_of_filter. rewrite elem_of_app, list_elem_of_singleton.
      intros [?|?]; [by eapply Hj|done].
    - intros j. rewrite Ht, list_elem_of_filter, elem_of_app, list_elem_of_singleton.
      destruct (decide (j = i)) as [->|]; [tauto|]. tauto.
    - intros j. rewrite al_set_keys, elem_of_app, list_elem_of_singleton, He. tauto. }
  destruct (IH _ _ Hs1 Hnd) with (2 := Hset) as (Hinv & Hh & Hlen & Hno).
  { intros j Hj'. simpl. apply list_elem_of_filter. split; [intros ->; done|]. apply Hin. by right. }
  rewrite <-app_assoc in Hinv. split; [done|]. split; [done|]. split.
  - simpl in Hlen. rewrite (filter_ne_length _ i Hd Hia). lia.
  - intros j v [[= -> <-]|?]%elem_of_cons; [by eapply Ho|by eapply Hno].
Qed.

Lemma settle_some c s done s' v i :
  settle c s done = (s', Some (v, i)) ->
  exists pre post, done = pre ++ (i, Success v) :: post /\ (forall j w, (j, Success w) ∉ pre) /\
    attempted s' = attempted s /\
    forall j, j ∈ active s' <-> j ∈ active s /\ j ∉ pre.*1 /\ j <> i.
Proof.
  revert s. induction done as [|[k o] done IH]; intros s; simpl; [done|]. intros H.
  destruct o as [w|msg|].
  - injection H as <- <- <-. exists [], done. split; [done|]. split; [intros ??; apply not_elem_of_nil|].
    split; [done|]. intros j. simpl. rewrite list_elem_of_filter. split; [intros [? ?]|tauto].
    split; [done|]. split; [apply not_elem_of_nil|done].
  - destruct (IH _ H) as (pre & post & -> & Hno & Ha & Hj). exists ((k, Failure msg) :: pre), post.
    split; [done|]. split; [intros j w [?|?]%elem_of_cons; [done|by eapply Hno]|].
    split; [done|]. intros j. rewrite Hj. csimpl. rewrite list_elem_of_filter, not_elem_of_cons. tauto.
  - destruct (IH _ H) as (pre & post & -> & Hno & Ha & Hj). exists ((k, Cancelled) :: pre), post.
    split; [done|]. split; [intros j w [?|?]%elem_of_cons; [done|by eapply Hno]|].
    split; [done|]. intros j. rewrite Hj. csimpl. rewrite list_elem_of_filter, not_elem_of_cons. tauto.
Qed.

(** ** Runs *)

Definition config_ok (c : race_config) : Prop := 1 <= rc_concurrency c /\ rc_selected c <> [].

Lemma validate_request_ok r c :
  validate_request r = Ok c ->
  config_ok c /\ rc_concurrency c <= hr_max_concurrency r /\
  Z.of_nat (List.length (rc_selected c)) <= hr_max_attempts r /\ NoDup (rc_ids c) /\
  (exists k, rc_selected c = take k (hr_providers r)).
Proof.
  unfold validate_request. destruct (hr_providers r) as [|p ps] eqn:Hp; [done|]. rewrite <-Hp.
  destruct (negb _ || _); [done|]. destruct (hr_max_attempts r <? 1) eqn:H1; [done|].
  destruct (hr_max_concurrency r <? 1) eqn:H2; [done|].
  boolify. intros (ids & Hids & H)%rbind_Ok. apply rbind_Ok in H as ([] & Hv & [= <-]).
  assert (0 < Z.of_nat (List.length (hr_providers r))) as Hlen by (rewrite Hp; simpl; lia).
  split; [|split; [simpl; lia|split; [|split; [|by eexists]]]].
  - split; simpl; [lia|]. intros Hnil%(f_equal List.length). rewrite length_take in Hnil.
    simpl in Hnil. lia.
  - simpl. rewrite length_take. lia.
  - clear -Hv. simpl. assert (forall seen, validate_provider_ids seen ids = Ok tt ->
      NoDup ids /\ forall i, i ∈ ids -> i ∉ seen) as Hg.
    { clear. induction ids as [|i ids IH]; intros seen; simpl.
      { intros _. split; [constructor|]. intros i Hi. by apply elem_of_nil in Hi. }
      destruct (negb _); [done|]. destruct (bool_decide _) eqn:E; [done|]. boolify.
      intros [Hn Hs]%IH. split.
      - constructor; [|done]. intros Hi. apply Hs in Hi. apply Hi. left.
      - intros j [->|Hj]%elem_of_cons; [done|]. intros Hin. apply (Hs j Hj). by right. }
    by apply (Hg []).
Qed.

(** What holds while a race runs. *)
Record run_inv (c : race_config) (s : race_state) (es : list race_event) (failed : list nat) : Prop :=
  MkRunInv {
  rn_inv : race_inv c failed s;
  rn_active : active s <> [];
  rn_failed : forall i, i ∈ failed <-> exists o, reported es i o;
  rn_no_success : forall i v, ~ reported es i (Success v);
  rn_length : (List.length es <= List.length failed + (if hedge_open s then 1 else 0))%nat;
}.

Lemma race_inv_count c failed s :
  race_inv c failed s -> (List.length (active s) + List.length failed <= List.length (rc_selected c))%nat.
Proof.
  intros [_ Hn Hd Hf _ Hj Ht _]. etransitivity; [|exact Hn].
  rewrite <-length_app, <-(length_seq (next_index s) 0). apply submseteq_length, NoDup_submseteq.
  - apply NoDup_app. split; [done|]. split; [apply Hj|done].
  - intros i Hi%elem_of_app. apply Ht in Hi. apply elem_of_seq. lia.
Qed.

Lemma reported_snoc es e i o :
  reported (es ++ [e]) i o <-> reported es i o \/ exists done, e = Completed done /\ (i, o) ∈ done.
Proof.
  unfold reported. setoid_rewrite elem_of_app. setoid_rewrite list_elem_of_singleton. naive_solver.
Qed.

Lemma fill_open_inv c failed s b :
  race_inv c failed s ->
  race_inv c failed (fill_open_slots c
    (MkRaceState (active s) (next_index s) b (attempted s) (attempted_errors s))) /\
  (active s <> [] -> active (fill_open_slots c
    (MkRaceState (active s) (next_index s) b (attempted s) (attempted_errors s))) <> []).
Proof.
  intros [Ha Hn Hd Hf Hs Hj Ht He]. unfold fill_open_slots.
  destruct (fill_slots_inv (List.length (rc_selected c)) c failed
    (MkRaceState (active s) (next_index s) b (attempted s) (attempted_errors s))) as (Hi & Hin & _);
    [by constructor|]. split; [done|]. intros Hne Hempty. simpl in Hin. rewrite Hempty in Hin.
  destruct (active s) as [|x l]; [done|]. specialize (Hin x (list_elem_of_here _ _)).
  by apply elem_of_nil in Hin.
Qed.

Lemma start_next_attempted c failed s :
  race_inv c failed s -> active s = [] -> (next_index s < List.length (rc_selected c))%nat ->
  1 <= rc_concurrency c ->
  race_inv c failed (start_next c s) /\ active (start_next c s) <> [].
Proof.
  intros Hs Ha Hlt Hc. destruct (start_next_inv c failed s Hs) as (Hi & He & _); [rewrite Ha; simpl; lia|done|].
  split; [done|]. rewrite He, Ha. done.
Qed.

Lemma turn_timeout c s es failed :
  run_inv c s es failed -> possible c s Timeout ->
  exists s', race_turn c s Timeout = Running s' /\ run_inv c s' (es ++ [Timeout]) failed.
Proof.
  intros [Hi Ha Hf Hn Hl] Hp. simpl in *. eexists. split; [done|].
  destruct (fill_open_inv c failed s true Hi) as [Hi' Hne]. constructor.
  - done.
  - auto.
  - intros i. rewrite Hf. setoid_rewrite reported_snoc. naive_solver.
  - intros i v [?|(? & ? & _)]%reported_snoc; [by eapply Hn|done].
  - unfold fill_open_slots. rewrite fill_hedge_open, length_app. simpl.
    unfold has_timeout in Hp. destruct (hedge_open s); [done|]. lia.
Qed.

Lemma turn_completed c s es failed done s1 :
  config_ok c -> run_inv c s es failed -> possible c s (Completed done) ->
  settle c s done = (s1, None) ->
  (exists s', race_turn c s (Completed done) = Running s' /\
     run_inv c s' (es ++ [Completed done]) (failed ++ done.*1)) \/
  (race_turn c s (Completed done) = Lost s1 /\ active s1 = [] /\
     next_index s1 = List.length (rc_selected c) /\ race_inv c (failed ++ done.*1) s1).
Proof.
  intros [Hc _] [Hi Ha Hf Hn Hl] (Hdn & Hnd & Hin) Hs.
  destruct (settle_none _ _ _ _ _ Hi Hnd Hin Hs) as (Hi1 & Hh & Hlen & Hno).
  assert (forall s', race_inv c (failed ++ done.*1) s' -> active s' <> [] -> hedge_open s' = hedge_open s ->
    run_inv c s' (es ++ [Completed done]) (failed ++ done.*1)) as Hnext.
  { intros s' Hs' Hne Hh'. constructor; [done|done| | |].
    - intros i. rewrite elem_of_app, Hf. setoid_rewrite reported_snoc. split.
      + intros [(o & Ho)|([k o] & -> & Ho)%list_elem_of_fmap]; exists o; [by left|].
        right. by exists done.
      + intros (o & [Ho|(d & [= <-] & Ho)]); [left; by exists o|right].
        apply list_elem_of_fmap. by exists (i, o).
    - intros i v [?|(d & [= <-] & Hd)]%reported_snoc; [by eapply Hn|by eapply Hno].
    - rewrite !length_app, length_fmap, Hh'. simpl. destruct done; [done|]. simpl. lia. }
  simpl. rewrite Hs. destruct (active s1) as [|x l] eqn:Ha1.
  - destruct (next_index s1 <? List.length (rc_selected c))%nat eqn:Hm.
    + apply Nat.ltb_lt in Hm. destruct (start_next_attempted c _ s1 Hi1 Ha1 Hm Hc) as [Hi2 Hne].
      left. destruct (active (start_next c s1)) eqn:E; [done|]. eexists. split; [done|].
      apply Hnext; [done|by rewrite E|]. rewrite <-Hh. unfold start_next. by destruct (_ <=? _)%nat.
    + right. rewrite Ha1. apply Nat.ltb_ge in Hm. split; [done|]. split; [done|]. split; [|done].
      pose proof (ri_next _ _ _ Hi1). lia.
  - left. destruct (hedge_open s1 && _) eqn:Hm.
    + destruct (fill_open_inv c _ s1 (hedge_open s1) Hi1) as [Hi2 Hne].
      assert (MkRaceState (active s1) (next_index s1) (hedge_open s1) (attempted s1) (attempted_errors s1) = s1)
        as Hsame by (by destruct s1). rewrite Hsame in *. specialize (Hne ltac:(by rewrite Ha1)).
      destruct (active (fill_open_slots c s1)) eqn:E; [done|]. eexists. split; [done|].
      apply Hnext; [done|by rewrite E|]. rewrite <-Hh. unfold fill_open_slots. apply fill_hedge_open.
    + rewrite Ha1. eexists. split; [done|]. apply Hnext; [done|by rewrite Ha1|done].
Qed.

Lemma race_run_inv c res es :
  config_ok c -> race_run c res es ->
  match res with
  | Running s => exists failed, run_inv c s es failed
  | _ => exists s es' e failed, es = es' ++ [e] /\ race_turn c s e = res /\ run_inv c s es' failed /\ possible c s e
  end.
Proof.
  intros Hc. induction 1 as [|s es e Hr IH Hp].
  - exists []. destruct Hc as [Hc Hsel].
    assert (race_inv c [] race_initial) as H0.
    { constructor; simpl; [done|lia|constructor|constructor|lia| | |done].
      - by intros i ?%elem_of_nil.
      - intros i. split; [lia|]. by intros [?%elem_of_nil|?%elem_of_nil]. }
    destruct (start_next_attempted c [] race_initial H0) as [H1 H2]; [done| |done|].
    { simpl. destruct (rc_selected c); [done|]. simpl. lia. }
    constructor; [exact H1|exact H2| | |simpl; lia].
    + intros i. split; [by intros ?%elem_of_nil|]. by intros (o & d & ?%elem_of_nil & _).
    + by intros i v (d & ?%elem_of_nil & _).
  - destruct IH as [failed Hi]. destruct e as [|done].
    + destruct (turn_timeout c s es failed Hi Hp) as (s' & -> & Hi'). by exists failed.
    + destruct (settle c s done) as [s1 [[v i]|]] eqn:Hs.
      * assert (race_turn c s (Completed done) = Won v i (active s1) (attempted s1)) as Ht
          by (simpl; by rewrite Hs).
        rewrite Ht. by exists s, es, (Completed done), failed.
      * destruct (turn_completed c s es failed done s1 Hc Hi Hp Hs) as [(s' & -> & Hi')|(Hl & _)].
        -- by exists (failed ++ done.*1).
        -- rewrite Hl. by exists s, es, (Completed done), failed.
Qed.
End Race.

Section RaceTheorems.
Context {Provider Result : Type} (provider_id : Provider -> py string).

(** A race stays within its bounds: providers are attempted in chain order,
    each at most once and at most [max_attempts] of them; at most
    [max_concurrency] calls are active at a time; and the loop turns at most
    once more than there are providers. *)
Theorem hedged_race_bounded r c (res : race_result) es :
  validate_request provider_id r = Ok c ->
  race_run (Result:=Result) c res es ->
  (List.length es <= S (List.length (rc_selected c)))%nat /\
  match res with
  | Running s => Z.of_nat (List.length (active s)) <= hr_max_concurrency r
  | _ => True
  end /\
  exists n, Z.of_nat n <= hr_max_attempts r /\
    match res with Running s | Lost s => attempted s | Won _ _ _ a => a end = seq 0 n.
Proof.
  intros Hv Hr. destruct (validate_request_ok _ _ _ Hv) as (Hc & Hconc & Hatt & _).
  pose proof (race_run_inv c res es Hc Hr) as H.
  assert (forall s es failed, run_inv (Result:=Result) c s es failed -> (List.length es <= List.length (rc_selected c))%nat) as Hlen.
  { intros s0 es0 failed [Hi Ha _ _ Hl]. pose proof (race_inv_count c failed s0 Hi).
    destruct (active s0); [done|]. simpl in *. destruct (hedge_open s0); lia. }
  destruct res as [s|v i ca at_|s].
  - destruct H as (failed & Hi). pose proof (Hlen _ _ _ Hi). destruct Hi as [Hi _ _ _ _].
    split; [lia|]. split; [etransitivity; [apply (ri_slots _ _ _ Hi)|done]|].
    exists (next_index s). split; [pose proof (ri_next _ _ _ Hi); lia|apply (ri_attempted _ _ _ Hi)].
  - destruct H as (s & es' & e & failed & -> & Ht & Hi & Hp). pose proof (Hlen _ _ _ Hi).
    split; [rewrite length_app; simpl; lia|]. split; [done|]. exists (next_index s).
    destruct Hi as [Hi _ _ _ _]. split; [pose proof (ri_next _ _ _ Hi); lia|].
    destruct e as [|dn]; [done|]. simpl in Ht. destruct (settle c s dn) as [s1 [[w k]|]] eqn:Hs.
    + injection Ht as <- <- <- <-. destruct (settle_some _ _ _ _ _ _ Hs) as (_ & _ & _ & _ & -> & _).
      apply (ri_attempted _ _ _ Hi).
    + by destruct (active _).
  - destruct H as (s0 & es' & e & failed & -> & Ht & Hi & Hp). pose proof (Hlen _ _ _ Hi).
    split; [rewrite length_app; simpl; lia|]. split; [done|].
    destruct e as [|dn]; [done|]. destruct (settle c s0 dn) as [s1 [[w k]|]] eqn:Hs.
    { simpl in Ht. by rewrite Hs in Ht. }
    destruct (turn_completed c s0 es' failed dn s1 Hc Hi Hp Hs) as [(s' & Hl & _)|(Hl & _ & Hn & Hi1)];
      rewrite Hl in Ht; [done|]. injection Ht as <-. exists (next_index s1).
    split; [lia|apply (ri_attempted _ _ _ Hi1)].
Qed.

(** The outcome is right: a won race returns a success that some attempt
    reported, every attempt reported before it failed, and every attempt still
    running is cancelled; a race is lost only after every one of the selected
    providers was attempted and reported a failure. *)
Theorem hedged_race_outcome r c (res : race_result) es :
  validate_request provider_id r = Ok c ->
  race_run (Result:=Result) c res es ->
  match res with
  | Running _ => True
  | Won v i cancelled attempted_ids =>
      exists es' pre post, es = es' ++ [Completed (pre ++ (i, Success v) :: post)] /\
        (forall j w, ~ reported (es' ++ [Completed pre]) j (Success w)) /\
        (forall j, j ∈ cancelled <-> j ∈ attempted_ids /\ j <> i /\
                                     ~ exists o, reported (es' ++ [Completed pre]) j o)
  | Lost s =>
      (forall j v, ~ reported es j (Success v)) /\
      forall j, (j < List.length (rc_selected c))%nat ->
        j ∈ attempted s /\ j ∈ (attempted_errors s).*1 /\ exists o, reported es j o
  end.
Proof.
  intros Hv Hr. destruct (validate_request_ok _ _ _ Hv) as (Hc & _).
  pose proof (race_run_inv c res es Hc Hr) as H.
  destruct res as [s|v i ca at_|s]; [done| |].
  - destruct H as (s & es' & e & failed & -> & Ht & Hi & Hp).
    destruct e as [|dn]; [done|]. simpl in Ht. destruct (settle c s dn) as [s1 [[w k]|]] eqn:Hs;
      [|by destruct (active _)].
    injection Ht as <- <- <- <-. destruct (settle_some _ _ _ _ _ _ Hs) as (pre & post & -> & Hno & Ha & Hact).
    destruct Hi as [Hi _ Hf Hn _]. exists es', pre, post. split; [done|]. split.
    + intros j u [?|(d & [= <-] & Hd)]%reported_snoc; [by eapply Hn|by eapply Hno].
    + intros j. rewrite Hact, Ha, (ri_attempted _ _ _ Hi), elem_of_seq.
      pose proof (ri_settled _ _ _ Hi j) as Hset. pose proof (ri_disjoint _ _ _ Hi j) as Hdis.
      setoid_rewrite reported_snoc. specialize (Hf j). split.
      * intros (Hj & Hjp & Hji). split; [assert (j < next_index s)%nat by tauto; lia|]. split; [done|].
        intros (o & [Ho|(d & [= <-] & Ho)]); [apply Hdis; [done|]; apply Hf; by exists o|].
        apply Hjp, list_elem_of_fmap. by exists (j, o).
      * intros (Hj & Hji & Hrep). assert (j ∈ active s \/ j ∈ failed) as [?|Hjf] by (apply Hset; lia).
        -- split; [done|]. split; [|done]. intros ([k' o] & -> & Ho)%list_elem_of_fmap. apply Hrep.
           exists o. right. by exists pre.
        -- exfalso. apply Hrep. apply Hf in Hjf as (o & Ho). exists o. by left.
  - destruct H as (s0 & es' & e & failed & -> & Ht & Hi & Hp).
    destruct e as [|dn]; [done|]. destruct (settle c s0 dn) as [s1 [[w k]|]] eqn:Hs.
    { simpl in Ht. by rewrite Hs in Ht. }
    destruct (turn_completed c s0 es' failed dn s1 Hc Hi Hp Hs) as [(s' & Hl & _)|(Hl & Ha1 & Hn1 & Hi1)];
      rewrite Hl in Ht; [done|]. injection Ht as <-.
    destruct Hp as (_ & Hnd & Hin). destruct Hi as [Hi _ Hf Hn _].
    destruct (settle_none _ _ _ _ _ Hi Hnd Hin Hs) as (_ & _ & _ & Hno). split.
    + intros j v [?|(d & [= <-] & Hd)]%reported_snoc; [by eapply Hn|by eapply Hno].
    + intros j Hj. rewrite (ri_attempted _ _ _ Hi1), elem_of_seq, (ri_errors _ _ _ Hi1).
      assert (j ∈ active s1 \/ j ∈ failed ++ dn.*1) as [Hja|Hjf] by (apply (ri_settled _ _ _ Hi1); lia).
      { rewrite Ha1 in Hja. by apply elem_of_nil in Hja. }
      split; [lia|]. split; [done|]. setoid_rewrite reported_snoc.
      apply elem_of_app in Hjf as [Hjf|([k' o] & -> & Ho)%list_elem_of_fmap].
      * apply Hf in Hjf as (o & Ho). exists o. by left.
      * exists o. right. by exists dn.
Qed.
End RaceTheorems.

(** ** Witnesses *)

Definition example_race : race_config (Provider:=string) := MkRace ["a"; "b"; "c"] ["a"; "b"; "c"] 2.
Definition example_request : HedgedProviderRequest (Provider:=string) :=
  MkHedgeRequest ["a"; "b"; "c"; "d"] fzero 3 2.

(** The delay expires, the primary fails, the second hedge wins. *)
Definition example_events : list (race_event (Result:=Z)) :=
  [Timeout; Completed [(0%nat, Failure "boom")]; Completed [(2%nat, Success 7)]].

Lemma example_race_runs : race_run example_race (Won 7 2%nat [1%nat] [0; 1; 2]%nat) example_events.
Proof.
  pose proof (RaceStart (Result:=Z) example_race) as H.
  eapply (RaceTurn example_race _ [] Timeout) in H; [|reflexivity].
  eapply (RaceTurn example_race _ [Timeout] (Completed [(0%nat, Failure "boom")])) in H.
  2:{ split; [done|]. split; [apply NoDup_singleton|].
      intros i ->%list_elem_of_singleton. apply (bool_decide_unpack _). vm_compute. exact I. }
  eapply (RaceTurn example_race _ [Timeout; Completed [(0%nat, Failure "boom")]]
            (Completed [(2%nat, Success 7)])) in H; [exact H|].
  split; [done|]. split; [apply NoDup_singleton|].
  intros i ->%list_elem_of_singleton. apply (bool_decide_unpack _). vm_compute. exact I.
Qed.

Lemma hedged_race_bounded_witness :
  (List.length example_events <= 4)%nat /\
  exists n, Z.of_nat n <= 3 /\ [0; 1; 2]%nat = seq 0 n.
Proof.
  destruct (hedged_race_bounded (fun p => Ok p) example_request example_race
              (Won 7 2%nat [1%nat] [0; 1; 2]%nat) example_events eq_refl example_race_runs)
    as (H1 & _ & H2).
  split; [exact H1|exact H2].
Defined.

Lemma hedged_race_outcome_witness :
  exists es' pre post, example_events = es' ++ [Completed (pre ++ (2%nat, Success 7) :: post)] /\
    (forall j w, ~ reported (es' ++ [Completed pre]) j (Success w)).
Proof.
  destruct (hedged_race_outcome (fun p => Ok p) example_request example_race
              (Won 7 2%nat [1%nat] [0; 1; 2]%nat) example_events eq_refl example_race_runs)
    as (es' & pre & post & H1 & H2 & _).
  exists es', pre, post. split; [exact H1|exact H2].
Defined.
