(* ===== verification/Coalescing.v ===== *)
(** * Request coalescing ([routing/coalescing.py])

    The coalescer's dict of in-flight executions, shared by its callers.  No
    code between taking and releasing the lock awaits, so each locked section
    is one atomic step; a caller is suspended only while it awaits its
    execution.  Executions are numbered in the order in which they were
    started, which models the identity of [_InflightExecution] objects. *)

From S2P Require Import Prelude PyValue.

(** Definitions *)

Section Coalescer.
Context {Outcome : Type}.

Record execution : Type := MkExecution {
  x_waiters : Z;
  x_outcome : option Outcome;
  x_cancelled : bool;
}.

(** [_inflight], the executions started so far, the (key, execution) of every
    suspended caller, and the outcomes handed to callers. *)
Record coalescer : Type := MkCoalescer {
  inflight : gmap string nat;
  executions : gmap nat execution;
  started : nat;
  waiting : list (string * nat);
  returned : list (nat * Outcome);
}.

Definition new_coalescer : coalescer := MkCoalescer ∅ ∅ 0 [] [].

Definition inflight_count (s : coalescer) : nat := size (inflight s).

Definition is_done (s : coalescer) (e : nat) : bool :=
  match executions s !! e with Some x => bool_decide (is_Some (x_outcome x)) | None => false end.

(** The first section of [run]: the execution the caller joins. *)
Definition join_call (s : coalescer) (key : string) : py coalescer :=
  if String.eqb key "" then Err (ValueError "coalescing key must be non-empty")
  else
    match inflight s !! key with
    | Some e =>
        match executions s !! e with
        | Some x =>
            Ok (MkCoalescer (inflight s)
                  (<[e := MkExecution (x_waiters x + 1) (x_outcome x) (x_cancelled x)]> (executions s))
                  (started s) (waiting s ++ [(key, e)]) (returned s))
        | None => Err (AttributeError "waiters")
        end
    | None =>
        let e := started s in
        Ok (MkCoalescer (<[key := e]> (inflight s)) (<[e := MkExecution 1 None false]> (executions s))
              (S e) (waiting s ++ [(key, e)]) (returned s))
    end.

(** [_release_waiter] *)
Definition release_waiter (s : coalescer) (key : string) (e : nat) : coalescer :=
  if bool_decide (inflight s !! key = Some e) then
    match executions s !! e with
    | None => s
    | Some x =>
        let w := x_waiters x - 1 in
        let set x' := <[e := x']> (executions s) in
        match x_outcome x with
        | Some _ =>
            MkCoalescer (delete key (inflight s)) (set (MkExecution w (x_outcome x) (x_cancelled x)))
              (started s) (waiting s) (returned s)
        | None =>
            if w =? 0 then
              MkCoalescer (delete key (inflight s)) (set (MkExecution w None true))
                (started s) (waiting s) (returned s)
            else
              MkCoalescer (inflight s) (set (MkExecution w None (x_cancelled x)))
                (started s) (waiting s) (returned s)
        end
    end
  else s.

Definition set_waiting (s : coalescer) (l : list (string * nat)) (r : list (nat * Outcome)) : coalescer :=
  MkCoalescer (inflight s) (executions s) (started s) l r.

(** The interleavings of callers and executions. *)
Inductive co_step : coalescer -> coalescer -> Prop :=
| CoJoin s s' key : join_call s key = Ok s' -> co_step s s'
| CoFinish s e x o : executions s !! e = Some x -> x_outcome x = None ->
    co_step s (MkCoalescer (inflight s)
                 (<[e := MkExecution (x_waiters x) (Some o) (x_cancelled x)]> (executions s))
                 (started s) (waiting s) (returned s))
| CoReturn s key e x o l1 l2 : waiting s = l1 ++ (key, e) :: l2 ->
    executions s !! e = Some x -> x_outcome x = Some o ->
    co_step s (release_waiter (set_waiting s (l1 ++ l2) (returned s ++ [(e, o)])) key e)
| CoCallerCancelled s key e l1 l2 : waiting s = l1 ++ (key, e) :: l2 ->
    co_step s (release_waiter (set_waiting s (l1 ++ l2) (returned s)) key e).

Inductive co_reach : coalescer -> Prop :=
| CoInit : co_reach new_coalescer
| CoStep s s' : co_reach s -> co_step s s' -> co_reach s'.

(** Callers suspended on an execution. *)
Definition waiters_on (l : list (string * nat)) (e : nat) : nat :=
  List.length (filter (fun c => c.2 = e) l).

Record co_inv (s : coalescer) : Prop := MkCoInv {
  ci_tracked : forall k e, inflight s !! k = Some e ->
    exists x, executions s !! e = Some x /\ x_cancelled x = false /\
      x_waiters x = Z.of_nat (waiters_on (waiting s) e) /\ (0 < waiters_on (waiting s) e)%nat;
  ci_waiting : forall k e, (k, e) ∈ waiting s ->
    exists x, executions s !! e = Some x /\ x_cancelled x = false /\
      (x_outcome x = None -> inflight s !! k = Some e) /\
      (forall k', inflight s !! k' = Some e -> k' = k);
  ci_fresh : forall e, is_Some (executions s !! e) -> (e < started s)%nat;
  ci_key : forall k k' e, inflight s !! k = Some e -> inflight s !! k' = Some e -> k = k';
  ci_returned : forall e o, (e, o) ∈ returned s ->
    exists x, executions s !! e = Some x /\ x_outcome x = Some o;
}.

(** ** Helper lemmas *)

Lemma waiters_on_app l1 l2 e : waiters_on (l1 ++ l2) e = (waiters_on l1 e + waiters_on l2 e)%nat.
Proof. unfold waiters_on. by rewrite filter_app, length_app. Qed.

Lemma waiters_on_cons k e' l e :
  waiters_on ((k, e') :: l) e = ((if decide (e' = e) then 1 else 0) + waiters_on l e)%nat.
Proof. unfold waiters_on. rewrite filter_cons. simpl. by case_decide. Qed.

Lemma waiters_on_pos k e l : (k, e) ∈ l -> (0 < waiters_on l e)%nat.
Proof.
  intros (l1 & l2 & ->)%list_elem_of_split. rewrite waiters_on_app, waiters_on_cons, decide_True by done. lia.
Qed.

Lemma join_inv s key s' : co_inv s -> join_call s key = Ok s' -> co_inv s'.
Proof.
  intros [Ht Hw Hf Hk Hr]. unfold join_call. destruct (String.eqb key ""); [done|].
  destruct (inflight s !! key) as [e|] eqn:Hi.
  - destruct (Ht _ _ Hi) as (x & Hx & Hc & Hwx & Hpos). rewrite Hx. intros [= <-]. constructor; simpl.
    + intros k e' He'. destruct (Ht _ _ He') as (x' & Hx' & Hc' & Hw' & Hp').
      rewrite waiters_on_app, waiters_on_cons. destruct (decide (e = e')) as [<-|Hne].
      * rewrite lookup_insert_eq. eexists. split; [done|]. simpl. split; [done|].
        unfold waiters_on at 2 4. simpl. split; lia.
      * rewrite lookup_insert_ne by done. exists x'. split; [done|]. split; [done|].
        unfold waiters_on at 2 4. simpl. split; lia.
    + intros k e' Hin. assert (exists x0, executions s !! e' = Some x0 /\ x_cancelled x0 = false /\
        (x_outcome x0 = None -> inflight s !! k = Some e') /\
        (forall k', inflight s !! k' = Some e' -> k' = k)) as (x0 & Hx0 & Hc0 & Ho0 & Hk0).
      { apply elem_of_app in Hin as [Hin|[= -> ->]%list_elem_of_singleton]; [by apply Hw|].
        exists x. split; [done|]. split; [done|]. split; [done|]. intros k' Hk'. by eapply Hk. }
      destruct (decide (e = e')) as [<-|Hne].
      * rewrite lookup_insert_eq. eexists. split; [done|]. simpl.
        assert (x0 = x) as -> by congruence. done.
      * rewrite lookup_insert_ne by done. by exists x0.
    + intros e' He'. apply Hf. destruct (decide (e = e')) as [<-|Hne]; [by eexists|].
      by rewrite lookup_insert_ne in He'.
    + done.
    + intros e' o Ho. destruct (Hr _ _ Ho) as (x' & Hx' & Ho').
      destruct (decide (e = e')) as [<-|Hne].
      * rewrite lookup_insert_eq. eexists. split; [done|]. simpl. congruence.
      * rewrite lookup_insert_ne by done. by exists x'.
  - intros [= <-]. set (e := started s).
    assert (executions s !! e = None) as Hnone.
    { destruct (executions s !! e) eqn:E; [|done]. specialize (Hf e ltac:(by eexists)). unfold e in Hf. lia. }
    assert (waiters_on (waiting s) e = 0%nat) as Hzero.
    { destruct (waiters_on (waiting s) e) eqn:E; [done|]. exfalso. unfold waiters_on in E.
      destruct (filter _ (waiting s)) as [|[k e'] l] eqn:El; [done|].
      assert ((k, e') ∈ filter (fun c => c.2 = e) (waiting s)) as [Heq Hin]%list_elem_of_filter
        by (rewrite El; left). simpl in Heq. subst e'. destruct (Hw _ _ Hin) as (x & Hx & _). congruence. }
    assert (forall k e', inflight s !! k = Some e' -> e <> e') as Hne.
    { intros k e' Hin ->. destruct (Ht _ _ Hin) as (x & Hx & _). congruence. }
    constructor; simpl.
    + intros k e' He'. rewrite waiters_on_app, waiters_on_cons. destruct (decide (e = e')) as [<-|Hd].
      * rewrite lookup_insert_eq, Hzero. eexists. split; [done|]. split; [done|].
        unfold waiters_on. simpl. split; lia.
      * rewrite lookup_insert_ne by done. unfold waiters_on at 2 4. simpl.
        rewrite Nat.add_0_r. apply (Ht k). destruct (decide (key = k)) as [<-|]; [|by rewrite lookup_insert_ne in He'].
        rewrite lookup_insert_eq in He'. congruence.
    + intros k e' [Hin|[= -> ->]%list_elem_of_singleton]%elem_of_app.
      * destruct (Hw _ _ Hin) as (x & Hx & Hc & Ho & Hk'). exists x.
        assert (e <> e') as Hd by congruence. rewrite lookup_insert_ne by done.
        split; [done|]. split; [done|]. split.
        -- intros Hx0. destruct (decide (key = k)) as [<-|]; [|rewrite lookup_insert_ne; auto].
           specialize (Ho Hx0). congruence.
        -- intros k' He'. destruct (decide (key = k')) as [<-|]; [rewrite lookup_insert_eq in He'; congruence|].
           rewrite lookup_insert_ne in He' by done. auto.
      * rewrite lookup_insert_eq. eexists. split; [done|]. split; [done|].
        rewrite lookup_insert_eq. split; [done|]. intros k' He'.
        destruct (decide (key = k')) as [<-|]; [done|]. rewrite lookup_insert_ne in He' by done.
        by apply Hne in He'.
    + intros e' [x Hx]. destruct (decide (e = e')) as [<-|Hd]; [unfold e; lia|].
      rewrite lookup_insert_ne in Hx by done. specialize (Hf e' ltac:(by eexists)). unfold e. lia.
    + intros k k' e' H1 H2. destruct (decide (key = k)) as [<-|], (decide (key = k')) as [<-|]; [done|..].
      * rewrite lookup_insert_eq in H1. injection H1 as <-. rewrite lookup_insert_ne in H2 by done.
        by apply Hne in H2.
      * rewrite lookup_insert_eq in H2. injection H2 as <-. rewrite lookup_insert_ne in H1 by done.
        by apply Hne in H1.
      * rewrite lookup_insert_ne in H1, H2 by done. by eapply Hk.
    + intros e' o Ho. destruct (Hr _ _ Ho) as (x & Hx & Ho'). exists x.
      rewrite lookup_insert_ne by congruence. done.
Qed.

Lemma finish_inv s e x o :
  co_inv s -> executions s !! e = Some x -> x_outcome x = None ->
  co_inv (MkCoalescer (inflight s)
            (<[e := MkExecution (x_waiters x) (Some o) (x_cancelled x)]> (executions s))
            (started s) (waiting s) (returned s)).
Proof.
  intros [Ht Hw Hf Hk Hr] Hx Ho. constructor; simpl.
  - intros k e' He'. destruct (Ht _ _ He') as (x' & Hx' & Hc & Hwx & Hp).
    destruct (decide (e = e')) as [<-|Hne].
    + rewrite lookup_insert_eq. assert (x' = x) as -> by congruence. by eexists.
    + rewrite lookup_insert_ne by done. by exists x'.
  - intros k e' Hin. destruct (Hw _ _ Hin) as (x' & Hx' & Hc & Hi & Hk').
    destruct (decide (e = e')) as [<-|Hne].
    + rewrite lookup_insert_eq. assert (x' = x) as -> by congruence. eexists. split; [done|]. simpl. done.
    + rewrite lookup_insert_ne by done. by exists x'.
  - intros e' [x' Hx']. destruct (decide (e = e')) as [<-|Hne]; [apply Hf; by eexists|].
    rewrite lookup_insert_ne in Hx' by done. apply Hf. by eexists.
  - done.
  - intros e' o' Ho'. destruct (Hr _ _ Ho') as (x' & Hx' & Hox').
    destruct (decide (e = e')) as [<-|Hne]; [congruence|].
    rewrite lookup_insert_ne by done. by exists x'.
Qed.

(** Removing a caller that is not counted by a tracked execution. *)
Lemma detach_waiters s key e l1 l2 e' :
  waiting s = l1 ++ (key, e) :: l2 -> e <> e' ->
  waiters_on (l1 ++ l2) e' = waiters_on (waiting s) e'.
Proof.
  intros -> Hne. by rewrite !waiters_on_app, waiters_on_cons, decide_False.
Qed.

Lemma release_inv s key e l1 l2 r :
  co_inv s -> waiting s = l1 ++ (key, e) :: l2 ->
  (forall e' o, (e', o) ∈ r -> exists x, executions s !! e' = Some x /\ x_outcome x = Some o) ->
  co_inv (release_waiter (set_waiting s (l1 ++ l2) r) key e).
Proof.
  intros [Ht Hw Hf Hk _] Hl Hr.
  assert (forall c, c ∈ l1 ++ l2 -> c ∈ waiting s) as Hsub.
  { intros c. rewrite Hl, !elem_of_app, elem_of_cons. tauto. }
  destruct (Hw key e) as (x0 & Hx0 & Hc0 & _ & Hu0); [rewrite Hl; apply elem_of_app; right; left|].
  unfold release_waiter. simpl. destruct (bool_decide _) eqn:Hi; boolify.
  - destruct (Ht _ _ Hi) as (x & Hx & Hc & Hwx & _). rewrite Hx.
    assert (x_waiters x - 1 = Z.of_nat (waiters_on (l1 ++ l2) e)) as Hcount.
    { rewrite Hwx, Hl, !waiters_on_app, waiters_on_cons, decide_True by done. lia. }
    assert (forall y e', is_Some (<[e:=y]> (executions s) !! e') -> (e' < started s)%nat) as Hfresh.
    { intros y e' [z Hz]. apply Hf. destruct (decide (e = e')) as [<-|]; [by eexists|].
      rewrite lookup_insert_ne in Hz by done. by eexists. }
    assert (forall y, x_outcome y = x_outcome x -> forall e' o, (e', o) ∈ r ->
              exists z, <[e:=y]> (executions s) !! e' = Some z /\ x_outcome z = Some o) as Hret.
    { intros y Hy e' o Ho. destruct (Hr _ _ Ho) as (z & Hz & Hzo). destruct (decide (e = e')) as [<-|].
      - exists y. rewrite lookup_insert_eq. split; [done|]. congruence.
      - exists z. by rewrite lookup_insert_ne. }
    assert (forall y, x_outcome y = x_outcome x ->
              (x_outcome x <> None \/ waiters_on (l1 ++ l2) e = 0%nat) ->
              (x_outcome x <> None -> x_cancelled y = x_cancelled x) ->
              co_inv (MkCoalescer (delete key (inflight s)) (<[e:=y]> (executions s)) (started s)
                        (l1 ++ l2) r)) as Hdel.
    { intros y Hy Hcase Hcan. constructor; simpl.
      - intros k e' He'. destruct (decide (key = k)) as [<-|Hd]; [by rewrite lookup_delete_eq in He'|].
        rewrite lookup_delete_ne in He' by done.
        assert (e <> e') as Hee by (intros <-; apply Hd; by eapply Hk).
        destruct (Ht _ _ He') as (z & Hz & ? & ? & ?). exists z. rewrite lookup_insert_ne by done.
        by rewrite (detach_waiters s key e l1 l2 e' Hl Hee).
      - intros k e' Hin. destruct (decide (e = e')) as [<-|Hd].
        + destruct Hcase as [Hdone|Hz0]; [|apply waiters_on_pos in Hin; lia].
          exists y. rewrite lookup_insert_eq. split; [done|]. split; [rewrite Hcan; done|].
          split; [congruence|]. intros k' Hk'. destruct (decide (key = k')) as [<-|].
          * by rewrite lookup_delete_eq in Hk'.
          * rewrite lookup_delete_ne in Hk' by done. exfalso. apply n. by eapply Hk.
        + destruct (Hw k e' (Hsub _ Hin)) as (z & Hz & ? & Hi' & Hu). exists z.
          rewrite lookup_insert_ne by done. split; [done|]. split; [done|]. split.
          * intros Hzo. specialize (Hi' Hzo). rewrite lookup_delete_ne; [done|]. intros <-. congruence.
          * intros k' Hk'. apply Hu. by apply lookup_delete_Some in Hk' as [_ ?].
      - apply Hfresh.
      - intros k k' e' H1%lookup_delete_Some H2%lookup_delete_Some. by eapply Hk; [apply H1|apply H2].
      - by apply Hret. }
    destruct (x_outcome x) as [o|] eqn:Ho.
    + apply Hdel; simpl; [done|by left|done].
    + destruct (_ =? 0) eqn:Hz; boolify.
      * apply Hdel; simpl; [done|right; lia|done].
      * constructor; simpl.
        -- intros k e' He'. destruct (decide (e = e')) as [<-|Hd].
           ++ eexists. rewrite lookup_insert_eq. split; [done|]. simpl. split; [done|].
              rewrite <-Hcount. split; [done|]. lia.
           ++ destruct (Ht _ _ He') as (z & Hz' & ? & ? & ?). exists z. rewrite lookup_insert_ne by done.
              by rewrite (detach_waiters s key e l1 l2 e' Hl Hd).
        -- intros k e' Hin. destruct (Hw k e' (Hsub _ Hin)) as (z & Hz' & ? & Hi' & Hu).
           destruct (decide (e = e')) as [<-|Hd].
           ++ eexists. rewrite lookup_insert_eq. split; [done|]. simpl. split; [done|].
              assert (z = x) as -> by congruence. split; [auto|done].
           ++ exists z. by rewrite lookup_insert_ne.
        -- apply Hfresh.
        -- done.
        -- by apply Hret.
  - assert (forall k e', inflight s !! k = Some e' -> e <> e') as Hne.
    { intros k e' He' <-. specialize (Hu0 _ He'). congruence. }
    constructor; simpl; [| |done|done|done].
    + intros k e' He'. rewrite (detach_waiters s key e l1 l2 e' Hl (Hne _ _ He')). by apply (Ht k).
    + intros k e' Hin. apply Hw. by apply Hsub.
Qed.

Lemma co_reach_inv s : co_reach s -> co_inv s.
Proof.
  induction 1 as [|s s' _ IH Hs].
  { constructor; simpl.
    - done.
    - by intros k e ?%elem_of_nil.
    - intros e [x Hx]. done.
    - done.
    - by intros e o ?%elem_of_nil. }
  destruct Hs as [s s' key Hj|s e x o Hx Ho|s key e x o l1 l2 Hl Hx Ho|s key e l1 l2 Hl].
  - by eapply join_inv.
  - by apply finish_inv.
  - apply release_inv; [done|done|]. intros e' o' [Hin|[= -> ->]%list_elem_of_singleton]%elem_of_app.
    + by apply (ci_returned _ IH).
    + by exists x.
  - apply release_inv; [done|done|]. apply (ci_returned _ IH).
Qed.

(** ** Theorems *)

(** C30: Coalescing is sound under every interleaving of callers joining,
    returning and being cancelled, and of executions finishing: two callers
    that wait on unfinished work for one key wait on the same execution, which
    is the tracked one; no execution that a caller waits on is ever cancelled;
    a caller is handed the outcome of an execution that finished with it; and
    a key is tracked only while some caller waits on its execution. *)
Theorem coalescing_is_sound s :
  co_reach s ->
  (forall k e e', (k, e) ∈ waiting s -> (k, e') ∈ waiting s ->
     is_done s e = false -> is_done s e' = false -> e = e' /\ inflight s !! k = Some e) /\
  (forall k e x, (k, e) ∈ waiting s -> executions s !! e = Some x -> x_cancelled x = false) /\
  (forall e o, (e, o) ∈ returned s -> exists x, executions s !! e = Some x /\ x_outcome x = Some o) /\
  (forall k e, inflight s !! k = Some e -> exists k', (k', e) ∈ waiting s).
Proof.
  intros [Ht Hw _ _ Hr]%co_reach_inv. split; [|split; [|split; [exact Hr|]]].
  - intros k e e' H1 H2 D1 D2. destruct (Hw _ _ H1) as (x & Hx & _ & Hi & _).
    destruct (Hw _ _ H2) as (x' & Hx' & _ & Hi' & _). unfold is_done in D1, D2.
    rewrite Hx in D1. rewrite Hx' in D2. boolify.
    assert (x_outcome x = None) as Ho by (destruct (x_outcome x); [exfalso; apply D1; by eexists|done]).
    assert (x_outcome x' = None) as Ho' by (destruct (x_outcome x'); [exfalso; apply D2; by eexists|done]).
    specialize (Hi Ho). specialize (Hi' Ho'). split; congruence.
  - intros k e x Hin Hx. destruct (Hw _ _ Hin) as (x' & Hx' & Hc & _). congruence.
  - intros k e He. destruct (Ht _ _ He) as (x & _ & _ & _ & Hpos). unfold waiters_on in Hpos.
    destruct (filter _ (waiting s)) as [|[k' e'] l] eqn:El; [simpl in Hpos; lia|].
    assert ((k', e') ∈ filter (fun c => c.2 = e) (waiting s)) as [Heq Hin]%list_elem_of_filter
      by (rewrite El; left). simpl in Heq. subst e'. by exists k'.
Qed.
End Coalescer.

(** ** Witness: two callers share one execution; one is cancelled, the other
    is handed the outcome. *)

Definition no_waiters : coalescer (Outcome:=Z) := new_coalescer.
Definition join_or (s : coalescer (Outcome:=Z)) (k : string) : coalescer :=
  match join_call s k with Ok s' => s' | Err _ => s end.
Definition two_callers : coalescer (Outcome:=Z) := join_or (join_or no_waiters "k") "k".

Lemma two_callers_reached : co_reach two_callers.
Proof.
  eapply CoStep; [eapply CoStep; [apply CoInit|]|]; eapply (CoJoin _ _ "k"); vm_compute; reflexivity.
Qed.

Lemma coalescing_is_sound_witness :
  waiting two_callers = [("k", 0%nat); ("k", 0%nat)] /\ started two_callers = 1%nat /\
  inflight two_callers !! "k" = Some 0%nat /\
  forall k e x, (k, e) ∈ waiting two_callers -> executions two_callers !! e = Some x -> x_cancelled x = false.
Proof.
  split; [vm_compute; reflexivity|]. split; [vm_compute; reflexivity|].
  split; [vm_compute; reflexivity|]. apply (coalescing_is_sound two_callers two_callers_reached).
Defined.

(** The last caller's cancellation cancels the execution and untracks it. *)
Example last_cancellation_cancels :
  let s := release_waiter (set_waiting two_callers [("k", 0%nat)] []) "k" 0 in
  let s := release_waiter (set_waiting s [] []) "k" 0 in
  inflight_count s = 0%nat /\ x_cancelled <$> executions s !! 0%nat = Some true.
Proof. vm_compute. done. Qed.
