(* ===== verification/SemanticCache.v ===== *)
(** * The semantic result cache ([routing/semantic_cache.py])

    A process-local cache of inference results that keeps the expensive ones
    longest.  The sections under the lock await nothing, so each is one
    atomic step.  [run] is the path of one caller; concurrent callers of one
    key share it through the coalescer ([Coalescing]).  Keys are those of
    [RequestKeys]. *)

From S2P Require Import Prelude PyDecimal PyFloat PyValue PyTime Effects PyJson RequestKeys.
From Stdlib Require Import QArith Lqa.
#[local] Open Scope Z_scope.

(** Definitions *)

(** [_ensure_utc] *)
Definition ensure_utc (t : datetime) (name : string) : py datetime :=
  if dt_aware t then Ok t else Err (ValueError (name +:+ " must be timezone-aware")).

(** [_non_negative_decimal] *)
Definition non_negative_decimal (v : pyval) (name : string) : py dec :=
  let? d := finite_decimal v name in
  if dltb d dzero then Err (ValueError (name +:+ " must be non-negative")) else Ok d.

(** [delta * k]: a [timedelta] spans at most 999999999 days either way. *)
Definition td_mul (delta : timedelta) (k : Z) : py Z :=
  let us := delta * k in
  if (us <? -999999999 * 86400000000) || (1000000000 * 86400000000 <=? us) then Err OverflowError else Ok us.

Record SemanticCachePolicy : Type := MkPolicy {
  default_ttl : timedelta;
  max_entries : Z;
  min_cache_estimate_usd : dec;
  high_value_estimate_usd : dec;
  high_value_ttl_multiplier : Z;
}.

(** [SemanticCachePolicy.__init__] *)
Definition new_policy (ttl : timedelta) (max_entries : Z) (min_cache high_value : pyval) (multiplier : Z)
  : py SemanticCachePolicy :=
  if ttl <=? 0 then Err (ValueError "default_ttl must be positive")
  else if max_entries <? 1 then Err (ValueError "max_entries must be at least 1")
  else if multiplier <? 1 then Err (ValueError "high_value_ttl_multiplier must be at least 1")
  else
    let? min_estimate := non_negative_decimal min_cache "min_cache_estimate_usd" in
    let? high_estimate := non_negative_decimal high_value "high_value_estimate_usd" in
    Ok (MkPolicy ttl max_entries min_estimate high_estimate multiplier).

Definition default_policy : SemanticCachePolicy :=
  MkPolicy (td_minutes 30) 1024 (Dec 1000 (-6)) (Dec 100000 (-6)) 4.

Definition should_cache (p : SemanticCachePolicy) (estimate : dec) : bool :=
  dleb (min_cache_estimate_usd p) estimate.
Definition ttl_for (p : SemanticCachePolicy) (estimate : dec) : py Z :=
  if dleb (high_value_estimate_usd p) estimate then td_mul (default_ttl p) (high_value_ttl_multiplier p)
  else Ok (default_ttl p).

Section Cache.
Context {V : Type}.

Record cache_entry : Type := MkEntry {
  e_value : V;
  e_estimated_cost_usd : dec;
  e_expires_at : datetime;
  e_created_at : datetime;
  e_last_accessed_at : datetime;
  e_sequence : Z;
}.

Record semantic_cache : Type := MkCache { entries : list (string * cache_entry); sequence : Z }.
Definition new_cache : semantic_cache := MkCache [] 0.

Definition entry_count (c : semantic_cache) : nat := length (entries c).

(** [_purge_expired_locked] *)
Definition alive (now : datetime) (e : cache_entry) : bool := negb (dt_leb (e_expires_at e) now).
Definition purge_expired (now : datetime) (es : list (string * cache_entry)) : list (string * cache_entry) :=
  filter (fun kv => alive now kv.2 = true) es.

(** The order of victims: cheapest, then least recently read, then oldest. *)
Definition victim_ltb (a b : string * cache_entry) : bool :=
  let '(ka, x) := a in
  let '(kb, y) := b in
  if negb (deqb (e_estimated_cost_usd x) (e_estimated_cost_usd y))
  then dltb (e_estimated_cost_usd x) (e_estimated_cost_usd y)
  else if negb (dt_us (e_last_accessed_at x) =? dt_us (e_last_accessed_at y))
  then dt_ltb (e_last_accessed_at x) (e_last_accessed_at y)
  else if negb (dt_us (e_created_at x) =? dt_us (e_created_at y))
  then dt_ltb (e_created_at x) (e_created_at y)
  else if negb (e_sequence x =? e_sequence y) then e_sequence x <? e_sequence y
  else String.ltb ka kb.

(** [min(entries, key=...)]: the first of the smallest. *)
Fixpoint min_victim (best : string * cache_entry) (es : list (string * cache_entry)) : string * cache_entry :=
  match es with
  | [] => best
  | e :: es' => min_victim (if victim_ltb e best then e else best) es'
  end.

(** [_evict_to_size_locked]; every turn removes one entry. *)
Fixpoint evict_to_size (fuel : nat) (max : Z) (es : list (string * cache_entry)) : list (string * cache_entry) :=
  match fuel, es with
  | S fuel', e :: es' =>
      if max <? Z.of_nat (length es)
      then evict_to_size fuel' max (al_del (min_victim e es').1 es)
      else es
  | _, _ => es
  end.

(** The entry a store would keep; [None] when it is not worth keeping. *)
Definition admitted_entry (p : SemanticCachePolicy) (value : V) (estimate : pyval) (clock : datetime) (seq : Z)
  : py (option cache_entry) :=
  let? est := non_negative_decimal estimate "estimated_cost_usd" in
  if negb (should_cache p est) then Ok None
  else
    let? now := ensure_utc clock "now" in
    let? ttl := ttl_for p est in
    let? expires := dt_add now ttl in
    Ok (Some (MkEntry value est expires now now seq)).

(** [store] *)
Definition store (p : SemanticCachePolicy) (key : string) (value : V) (estimate : pyval) (clock : datetime)
    (c : semantic_cache) : semantic_cache * py unit :=
  if String.eqb key "" then (c, Err (ValueError "semantic cache key must be non-empty"))
  else
    match admitted_entry p value estimate clock (sequence c + 1) with
    | Err e => (c, Err e)
    | Ok None => (c, Ok tt)
    | Ok (Some e) =>
        let es := al_set key e (purge_expired clock (entries c)) in
        (MkCache (evict_to_size (length es) (max_entries p) es) (sequence c + 1), Ok tt)
    end.

(** [_lookup]: reading refreshes the entry in place. *)
Definition touch (now : datetime) (e : cache_entry) : cache_entry :=
  MkEntry (e_value e) (e_estimated_cost_usd e) (e_expires_at e) (e_created_at e) now (e_sequence e).
Definition lookup_key (key : string) (clock : datetime) (c : semantic_cache) : semantic_cache * py (option V) :=
  match ensure_utc clock "now" with
  | Err e => (c, Err e)
  | Ok now =>
      let es := purge_expired now (entries c) in
      match al_get key es with
      | None => (MkCache es (sequence c), Ok None)
      | Some e => (MkCache (al_set key (touch now e) es) (sequence c), Ok (Some (e_value e)))
      end
  end.

(** ** One caller

    [clock] is the injected [now] and [execute] the caller's function, which
    admits against the budget and calls the provider. *)
Section Run.
Context {F E : Type} (clock : F -> F * datetime) (execute : F -> F * result E V).

Inductive run_error := CacheRaised (e : exn) | ExecuteRaised (e : E).
Record run_result : Type := MkRunResult { rr_value : V; rr_hit : bool; rr_key : string }.
Abbreviation op := (eff (semantic_cache * F) run_error).

Definition look (key : string) : op (option V) :=
  fun '(c, o) => let '(o, t) := clock o in
                 let '(c, r) := lookup_key key t c in ((c, o), rlift CacheRaised r).
Definition call_execute : op V :=
  fun '(c, o) => let '(o, r) := execute o in ((c, o), rlift ExecuteRaised r).
(** The clock is read only for a value that is kept. *)
Definition keep_value (p : SemanticCachePolicy) (key : string) (value : V) (estimate : pyval) : op unit :=
  fun '(c, o) =>
    match non_negative_decimal estimate "estimated_cost_usd" with
    | Ok est =>
        if should_cache p est && negb (String.eqb key "") then
          let '(o, t) := clock o in
          let '(c, r) := store p key value estimate t c in ((c, o), rlift CacheRaised r)
        else let '(c, r) := store p key value estimate (utc 0) c in ((c, o), rlift CacheRaised r)
    | Err _ => let '(c, r) := store p key value estimate (utc 0) c in ((c, o), rlift CacheRaised r)
    end.

(** [_execute_and_store] *)
Definition execute_and_store (p : SemanticCachePolicy) (key : string) (estimate : pyval) : op run_result :=
  do! cached := look key in
  match cached with
  | Some v => ret (MkRunResult v true key)
  | None =>
      do! v := call_execute in
      do! _ := keep_value p key v estimate in
      ret (MkRunResult v false key)
  end.

(** [run], for a caller that finds no execution to join *)
Definition run (p : SemanticCachePolicy) (key : py string) (estimate : pyval) : op run_result :=
  do! key := lift (rlift CacheRaised key) in
  do! cached := look key in
  match cached with
  | Some v => ret (MkRunResult v true key)
  | None => execute_and_store p key estimate
  end.
End Run.

(** ** Histories *)
Inductive cache_op :=
| CStore (key : string) (value : V) (estimate : pyval) (clock : datetime)
| CLookup (key : string) (clock : datetime).

Definition run_op (p : SemanticCachePolicy) (c : semantic_cache) (o : cache_op) : semantic_cache :=
  match o with
  | CStore k v est t => (store p k v est t c).1
  | CLookup k t => (lookup_key k t c).1
  end.
Definition run_ops (p : SemanticCachePolicy) (os : list cache_op) : semantic_cache :=
  foldl (run_op p) new_cache os.

(** A store of [key] that left an entry. *)
Definition stores (p : SemanticCachePolicy) (key : string) (o : cache_op) : bool :=
  match o with
  | CStore k v est t =>
      String.eqb k key && negb (String.eqb k "") &&
      match admitted_entry p v est t 0 with Ok (Some _) => true | _ => false end
  | CLookup _ _ => false
  end.
End Cache.
Arguments semantic_cache : clear implicits.
Arguments cache_entry : clear implicits.
Arguments cache_op : clear implicits.

(** ** Lemmas *)

Section Facts.
Context {V : Type}.
Implicit Types (es : list (string * cache_entry V)) (c : semantic_cache V).

Lemma min_victim_elem best es : min_victim best es ∈ best :: es.
Proof.
  revert best. induction es as [|e es IH]; intros best; simpl; [constructor|].
  specialize (IH (if victim_ltb e best then e else best)). apply elem_of_cons in IH as [IH|IH].
  - rewrite IH. destruct (victim_ltb e best); [by do 2 constructor|by constructor].
  - by do 2 constructor.
Qed.

Lemma evict_elem fuel max es x : x ∈ evict_to_size fuel max es -> x ∈ es.
Proof.
  revert es. induction fuel as [|fuel IH]; intros [|e es]; cbn [evict_to_size]; [done..|].
  destruct (max <? _); [|done]. intros H%IH. by apply list_elem_of_filter in H as [_ H].
Qed.

Lemma evict_wf fuel max es : al_wf es -> al_wf (evict_to_size fuel max es).
Proof.
  revert es. induction fuel as [|fuel IH]; intros [|e es]; cbn [evict_to_size]; [done..|].
  destruct (max <? _); [|done]. intros H. apply IH. by apply al_del_wf.
Qed.

Lemma evict_bound fuel max es :
  (length es <= fuel)%nat -> 0 <= max -> Z.of_nat (length (evict_to_size fuel max es)) <= max.
Proof.
  revert es. induction fuel as [|fuel IH]; intros [|e es] Hf Hm; cbn [evict_to_size]; simpl in Hf; try (simpl; lia).
  destruct (max <? _) eqn:E; [|boolify; lia]. apply IH; [|done].
  assert (length (al_del (min_victim e es).1 (e :: es)) < length (e :: es))%nat; [|simpl in *; lia].
  apply (length_filter_lt _ _ (min_victim e es)); [apply min_victim_elem|by intros []].
Qed.

Lemma purge_elem now es x : x ∈ purge_expired now es <-> alive now x.2 = true /\ x ∈ es.
Proof. unfold purge_expired. by rewrite list_elem_of_filter. Qed.

Lemma al_set_elem {A} (k : string) (v : A) m x : al_wf m -> x ∈ al_set k v m -> x = (k, v) \/ (x.1 <> k /\ x ∈ m).
Proof.
  unfold al_wf. induction m as [|[k' v'] m IH]; csimpl.
  - intros _ [->|H%elem_of_nil]%elem_of_cons; [by left|done].
  - rewrite NoDup_cons. intros [Hn Hd]. case_decide as E.
    + subst. intros [->|H]%elem_of_cons; [by left|]. right. split; [|by constructor].
      intros <-. apply Hn. by apply list_elem_of_fmap_2.
    + intros [->|H]%elem_of_cons; [right; split; [by simpl|constructor]|].
      destruct (IH Hd H) as [->|[? ?]]; [by left|right; split; [done|by constructor]].
Qed.

Lemma al_set_length {A} (k : string) (v : A) m : k ∈ m.*1 -> length (al_set k v m) = length m.
Proof.
  induction m as [|[k' v'] m IH]; csimpl; [by intros ?%elem_of_nil|].
  case_decide as E; [done|]. intros [->|H]%elem_of_cons; [done|]. simpl. by rewrite IH.
Qed.

(** What an entry of the cache after a history remembers of it. *)
Definition from_history (p : SemanticCachePolicy) (os : list (cache_op V)) (k : string) (e : cache_entry V) : Prop :=
  exists pre v est t post seq e0,
    os = pre ++ CStore k v est t :: post /\ Forall (fun o => stores p k o = false) post /\
    k <> EmptyString /\ admitted_entry p v est t seq = Ok (Some e0) /\
    e_value e = v /\ e_expires_at e = e_expires_at e0.

Record cache_inv (p : SemanticCachePolicy) (os : list (cache_op V)) (c : semantic_cache V) : Prop := {
  ci_wf : al_wf (entries c);
  ci_size : Z.of_nat (length (entries c)) <= max_entries p;
  ci_from : forall k e, (k, e) ∈ entries c -> from_history p os k e;
}.

Lemma from_history_snoc p os o k e :
  from_history p os k e -> stores p k o = false -> from_history p (os ++ [o]) k e.
Proof.
  intros (pre & v & est & t & post & seq & e0 & -> & Hp & H) Ho. exists pre, v, est, t, (post ++ [o]), seq, e0.
  split; [by rewrite <- app_assoc|]. split; [|done]. apply Forall_app. by split; [|repeat constructor].
Qed.

Lemma admitted_seq p (v : V) est t s s' e :
  admitted_entry p v est t s = Ok (Some e) -> exists e', admitted_entry p v est t s' = Ok (Some e').
Proof.
  unfold admitted_entry. destruct (non_negative_decimal _ _) as [d|]; simpl; [|done].
  destruct (negb _); [done|]. destruct (ensure_utc _ _); simpl; [|done].
  destruct (ttl_for p d); simpl; [|done]. destruct (dt_add _ _); simpl; [|done]. by eexists.
Qed.

Lemma stores_entry p k v est t s :
  stores p k (CStore k v est t) = false -> k <> EmptyString ->
  forall e, admitted_entry (V:=V) p v est t s <> Ok (Some e).
Proof.
  simpl. rewrite String.eqb_refl. intros H Hk e He. destruct (admitted_seq _ _ _ _ _ 0 _ He) as [e' He'].
  rewrite He' in H. apply String.eqb_neq in Hk. by rewrite Hk in H.
Qed.

Lemma store_inv p os k v est t c :
  0 <= max_entries p -> cache_inv p os c ->
  cache_inv p (os ++ [CStore k v est t]) (store p k v est t c).1.
Proof.
  intros Hmax [Hwf Hsize Hfrom]. unfold store. destruct (String.eqb_spec k "") as [->|Hk].
  { split; [done..|]. intros k' e Hin. apply from_history_snoc; [by apply Hfrom|].
    unfold stores. by rewrite andb_false_r. }
  destruct (admitted_entry p v est t _) as [[e|]|x] eqn:Ea; simpl.
  - assert (al_wf (purge_expired t (entries c))) as Hwp by by apply al_filter_wf.
    split; simpl.
    + by apply evict_wf, al_set_wf.
    + by apply evict_bound.
    + intros k' e' Hin%evict_elem. apply al_set_elem in Hin as [[= -> ->]|[Hne Hin]]; [| |done].
      * exists os, v, est, t, [], (sequence c + 1), e. split; [done|]. split; [constructor|].
        split; [done|]. split; [done|]. split; [|done]. unfold admitted_entry in Ea.
        apply rbind_Ok in Ea as (d & _ & Ea). destruct (negb _); [done|].
        apply rbind_Ok in Ea as (n & _ & (l & _ & (x & _ & [= <-])%rbind_Ok)%rbind_Ok). done.
      * apply purge_elem in Hin as [_ Hin]. apply from_history_snoc; [by apply Hfrom|].
        simpl. simpl in Hne. destruct (String.eqb_spec k k'); [congruence|done].
  - split; [done..|]. intros k' e Hin. apply from_history_snoc; [by apply Hfrom|].
    simpl. destruct (String.eqb_spec k k') as [->|]; [|done]. destruct (String.eqb_spec k' ""); [done|].
    simpl. destruct (admitted_entry p v est t 0) as [[e'|]|] eqn:E0; [|done..].
    destruct (admitted_seq _ _ _ _ _ (sequence c + 1) _ E0) as [e2 E2]. congruence.
  - split; [done..|]. intros k' e Hin. apply from_history_snoc; [by apply Hfrom|].
    simpl. destruct (String.eqb_spec k k') as [->|]; [|done]. destruct (String.eqb_spec k' ""); [done|].
    simpl. destruct (admitted_entry p v est t 0) as [[e'|]|] eqn:E0; [|done..].
    destruct (admitted_seq _ _ _ _ _ (sequence c + 1) _ E0) as [e2 E2]. congruence.
Qed.

Lemma purge_length now es : (length (purge_expired now es) <= length es)%nat.
Proof. apply length_filter. Qed.

Lemma lookup_inv p os k t c : cache_inv p os c -> cache_inv p (os ++ [CLookup k t]) (lookup_key k t c).1.
Proof.
  intros [Hwf Hsize Hfrom]. unfold lookup_key.
  assert (forall k e, (k, e) ∈ entries c -> from_history p (os ++ [CLookup k t]) k e) as Hf.
  { intros k' e Hin. by apply from_history_snoc; [apply Hfrom|]. }
  assert (forall k' e, (k', e) ∈ entries c -> from_history p (os ++ [CLookup k t]) k' e) as Hf'.
  { intros k' e Hin. by apply from_history_snoc; [apply Hfrom|]. }
  destruct (ensure_utc t "now") as [now|x] eqn:En; [|by split].
  assert (al_wf (purge_expired now (entries c))) as Hwp by by apply al_filter_wf.
  pose proof (purge_length now (entries c)) as Hl.
  destruct (al_get k _) as [e|] eqn:Eg; simpl.
  - pose proof (al_get_Some_elem _ _ _ Eg) as He. split; simpl.
    + by apply al_set_wf.
    + rewrite al_set_length; [lia|]. by apply (list_elem_of_fmap_2 fst) in He.
    + intros k' e' Hin. apply al_set_elem in Hin as [[= -> ->]|[Hne Hin]]; [| |done].
      * apply purge_elem in He as [_ He]. destruct (Hf' _ _ He) as (pre & v & est & t' & post & seq & e0 & H).
        by exists pre, v, est, t', post, seq, e0.
      * apply purge_elem in Hin as [_ Hin]. by apply Hf'.
  - split; simpl; [done|lia|]. intros k' e' [_ Hin]%purge_elem. by apply Hf'.
Qed.

Lemma run_ops_inv p os : 0 <= max_entries p -> cache_inv p os (run_ops p os).
Proof.
  intros Hmax. induction os as [|o os IH] using rev_ind.
  { split; [constructor|simpl; lia|]. intros k e H. by apply elem_of_nil in H. }
  unfold run_ops in *. rewrite foldl_snoc. destruct o; [by apply store_inv|by apply lookup_inv].
Qed.

(** The victim costs least. *)
Lemma victim_cost a b :
  (if victim_ltb a b : bool then dval (e_estimated_cost_usd a.2) <= dval (e_estimated_cost_usd b.2)
   else dval (e_estimated_cost_usd (V:=V) b.2) <= dval (e_estimated_cost_usd a.2))%Q.
Proof.
  destruct a as [ka x], b as [kb y]. cbn [victim_ltb snd].
  destruct (deqb _ _) eqn:Eq; simpl.
  - apply deqb_spec in Eq. destruct (if negb _ then _ else _); rewrite Eq; apply Qle_refl.
  - destruct (dltb _ _) eqn:El; [apply dltb_spec in El; by apply Qlt_le_weak|by apply dltb_false in El].
Qed.

Lemma min_victim_least best es x :
  x ∈ best :: es ->
  (dval (e_estimated_cost_usd (min_victim best es).2) <= dval (e_estimated_cost_usd x.2))%Q.
Proof.
  revert best x. induction es as [|e es IH]; intros best x Hx; simpl.
  { apply list_elem_of_singleton in Hx as ->. apply Qle_refl. }
  pose proof (victim_cost e best) as Hc.
  set (b := if victim_ltb e best then e else best).
  assert (dval (e_estimated_cost_usd b.2) <= dval (e_estimated_cost_usd e.2) /\
          dval (e_estimated_cost_usd b.2) <= dval (e_estimated_cost_usd best.2))%Q as [H1 H2].
  { unfold b. destruct (victim_ltb e best); split; (done || apply Qle_refl). }
  assert (dval (e_estimated_cost_usd (min_victim b es).2) <= dval (e_estimated_cost_usd b.2))%Q as Hb.
  { apply (IH b b). constructor. }
  apply elem_of_cons in Hx as [->|Hx]; [by eapply Qle_trans|].
  apply elem_of_cons in Hx as [->|Hx]; [by eapply Qle_trans|]. apply (IH b x). by constructor.
Qed.
End Facts.

(** ** Theorems *)

(** A hit returns the value of the last store of its key that was kept: its
    estimate reached the policy's minimum, its time to live has not passed,
    and no later store of the key was kept.  Eviction, purges, and hits on
    this and other keys in between change nothing of that. *)
Theorem cache_hit_is_last_store {V} p (os : list (cache_op V)) key clock v :
  0 <= max_entries p ->
  (lookup_key key clock (run_ops p os)).2 = Ok (Some v) ->
  exists pre est t post seq e,
    os = pre ++ CStore key v est t :: post /\ Forall (fun o => stores p key o = false) post /\
    admitted_entry p v est t seq = Ok (Some e) /\ dt_us clock < dt_us (e_expires_at e).
Proof.
  intros Hmax H. destruct (run_ops_inv p os Hmax) as [Hwf _ Hfrom].
  unfold lookup_key in H. destruct (ensure_utc clock "now") as [now|x] eqn:En; [|done].
  assert (now = clock) as -> by (unfold ensure_utc in En; destruct (dt_aware clock); congruence).
  destruct (al_get key _) as [e|] eqn:Eg; [|done]. simpl in H. injection H as <-.
  apply al_get_Some_elem, purge_elem in Eg as [Ha Hin].
  destruct (Hfrom _ _ Hin) as (pre & v & est & t & post & seq & e0 & -> & Hp & _ & He & Hv & Hx). subst v.
  exists pre, est, t, post, seq, e0. split; [done|]. split; [done|]. split; [done|].
  rewrite <- Hx. unfold alive, dt_leb in Ha. simpl in Ha. by boolify.
Qed.

Module CacheSim.
Definition cost (z : Z) : pyval := VDec (DFin (micro z)).
Definition history : list (cache_op Z) :=
  [CStore "a" 1 (cost 200000) (utc 0); CStore "b" 2 (cost 10) (utc 1); CStore "a" 3 (cost 5000) (utc 2);
   CLookup "c" (utc 3)].

(** The caller computed and paid for a value, but the estimate is no number:
    [store] raises after the call, and the value is lost. *)
Example paid_result_lost :
  run (F:=nat) (E:=unit) (fun n => (n, utc 0)) (fun n => (S n, Ok 42)) default_policy (Ok "key")
    (VStr "abc") (new_cache, 0%nat)
  = ((new_cache, 1%nat), Err (CacheRaised (ValueError "estimated_cost_usd must be a decimal value"))).
Proof. vm_compute. reflexivity. Qed.

(** A second caller is served without a second execution. *)
Example served_twice :
  let '(s, _) := run (F:=nat) (E:=unit) (fun n => (n, utc 0)) (fun n => (S n, Ok 42)) default_policy (Ok "key")
                   (cost 5000) (new_cache, 0%nat) in
  let '(s', r) := run (F:=nat) (E:=unit) (fun n => (n, utc 1)) (fun n => (S n, Ok 43)) default_policy (Ok "key")
                    (cost 5000) s in
  (s'.2, r) = (1%nat, Ok (MkRunResult 42 true "key")).
Proof. vm_compute. reflexivity. Qed.
End CacheSim.

Lemma cache_hit_is_last_store_witness :
  exists pre est t post seq e,
    CacheSim.history = pre ++ CStore "a" 3 est t :: post /\
    Forall (fun o => stores default_policy "a" o = false) post /\
    admitted_entry default_policy 3 est t seq = Ok (Some e) /\ 4 < dt_us (e_expires_at e).
Proof.
  apply (cache_hit_is_last_store default_policy CacheSim.history "a" (utc 4) 3); [done|].
  vm_compute. reflexivity.
Defined.

(** After any history the cache holds at most [max_entries] entries, one per
    key, and every entry that was evicted cost no more than each that stayed. *)
Theorem cache_bounded {V} p (os : list (cache_op V)) (es : list (string * cache_entry V)) :
  0 <= max_entries p -> al_wf es ->
  let c := run_ops p os in
  let kept := evict_to_size (length es) (max_entries p) es in
  Z.of_nat (entry_count c) <= max_entries p /\ NoDup (entries c).*1 /\
  (forall x y, x ∈ es -> x ∉ kept -> y ∈ kept ->
     dval (e_estimated_cost_usd x.2) <= dval (e_estimated_cost_usd y.2))%Q.
Proof.
  intros Hmax Hwf. destruct (run_ops_inv p os Hmax) as [Hw Hs _]. split; [done|]. split; [done|].
  cbv zeta. generalize (length es) as fuel. clear -Hwf. intros fuel. revert es Hwf.
  induction fuel as [|fuel IH]; intros [|e es] Hwf x y Hx Hn Hy; cbn [evict_to_size] in *; try done.
  destruct (max_entries p <? _); [|done].
  set (m := min_victim e es) in *.
  assert (y ∈ e :: es) as Hy' by (apply evict_elem, list_elem_of_filter in Hy; tauto).
  destruct (decide (x.1 = m.1)) as [E|E].
  - assert (x = m) as ->; [|by apply min_victim_least].
    pose proof (min_victim_elem e es) as Hm. fold m in Hm. destruct x as [k x], m as [k' m']. simpl in E. subst k'.
    apply (al_get_elem _ _ _ Hwf) in Hx, Hm. congruence.
  - eapply IH; [by apply al_del_wf| |done|done]. by apply list_elem_of_filter.
Qed.

Lemma cache_bounded_witness :
  let p := MkPolicy 1 1 dzero dzero 1 in
  let es := [("a", MkEntry 1 (micro 1) (utc 0) (utc 0) (utc 0) 1); ("b", MkEntry 2 (micro 2) (utc 0) (utc 0) (utc 0) 2)] in
  evict_to_size 2 1 es = drop 1 es /\ Z.of_nat (entry_count (run_ops p CacheSim.history)) <= 1.
Proof.
  split; [vm_compute; reflexivity|].
  apply (cache_bounded (MkPolicy 1 1 dzero dzero 1) CacheSim.history []); [done|constructor].
Defined.
