(* ===== verification/Cascade.v ===== *)
(** * Cascade routing ([routing/cascade.py])

    Tiers are tried from cheap to expensive until the quality gate passes.
    The provider call, the gate and the cost reader are parameters that may
    raise; a raised exception leaves the cascade. *)

From S2P Require Import Prelude PyDecimal PyFloat PyValue Hedging.

(** Definitions *)

Record CascadeGateDecision : Type := MkGateDecision {
  passed : bool; confidence : option float; gate_reason : option string }.

(** [CascadeGateDecision(...)] *)
Definition new_gate_decision (p : bool) (c : option float) (why : option string)
  : py CascadeGateDecision :=
  match c with
  | Some x => if fleb fzero x && fleb x (of_Z 1) then Ok (MkGateDecision p c why)
              else Err (ValueError "confidence must be between 0 and 1")
  | None => Ok (MkGateDecision p c why)
  end.

(** [_decimal_usd] *)
Definition cascade_usd (v : pyval) (name : string) : py dec :=
  match v with
  | VDec (DFin d) =>
      if dltb d dzero then Err (ValueError (name +:+ " must be a finite non-negative USD amount"))
      else Ok d
  | VDec _ => Err (ValueError (name +:+ " must be a finite non-negative USD amount"))
  | _ => Err (ValueError (name +:+ " must be a Decimal"))
  end.

Section Cascade.
Context {Provider Result : Type}.

Record CascadeTier : Type := MkTier { t_provider : Provider; t_estimated_cost : dec }.

(** [CascadeTier(...)] *)
Definition new_tier (p : Provider) (cost : pyval) : py CascadeTier :=
  rmap (MkTier p) (cascade_usd cost "estimated_cost_usd").

Record CascadeAttempt : Type := MkAttempt {
  a_provider_id : string;
  a_provider : Provider;
  a_attempt : Z;
  a_value : Result;
  a_gate : CascadeGateDecision;
  a_cost : dec;
}.

Record CascadeProviderRequest : Type := MkCascadeRequest {
  cr_tiers : list CascadeTier;
  cr_call : Provider -> py Result;
  cr_gate : Provider -> Result -> py CascadeGateDecision;
  cr_max_attempts : option Z;
  cr_provider_id : Provider -> py string;
  cr_cost_of_result : option (Provider -> Result -> pyval);
}.

Record CascadeProviderResult : Type := MkCascadeResult {
  res_value : Result;
  res_provider : Provider;
  res_provider_id : string;
  res_attempts : list CascadeAttempt;
  res_total_cost : dec;
}.

Inductive cascade_error :=
| CascadeRoutingError (attempts : list CascadeAttempt) (total : dec)
| CascadeRaised (e : exn).

(** [_validate_tier_order] *)
Fixpoint validate_tier_order (previous : option dec) (tiers : list CascadeTier) : py unit :=
  match tiers with
  | [] => Ok tt
  | t :: ts =>
      if match previous with Some p => dltb (t_estimated_cost t) p | None => false end
      then Err (ValueError "tiers must be ordered by non-decreasing estimated_cost_usd")
      else validate_tier_order (Some (t_estimated_cost t)) ts
  end.

(** [_max_attempts] *)
Definition max_attempts_of (value : option Z) (tier_count : Z) : py Z :=
  match value with
  | None => Ok tier_count
  | Some v => if v <? 1 then Err (ValueError "max_attempts must be a positive integer")
              else Ok (Z.min v tier_count)
  end.

(** [_validate_request] *)
Definition validate_cascade (r : CascadeProviderRequest) : py (list (CascadeTier * string)) :=
  match cr_tiers r with
  | [] => Err (ValueError "tiers must contain at least one tier")
  | _ =>
      let? _ := validate_tier_order None (cr_tiers r) in
      let? n := max_attempts_of (cr_max_attempts r) (Z.of_nat (List.length (cr_tiers r))) in
      let? ids := mapR (fun t => cr_provider_id r (t_provider t)) (cr_tiers r) in
      let? _ := validate_provider_ids [] ids in
      Ok (take (Z.to_nat n) (zip (cr_tiers r) ids))
  end.

(** [_attempt_cost] *)
Definition attempt_cost (r : CascadeProviderRequest) (t : CascadeTier) (value : Result) : py dec :=
  match cr_cost_of_result r with
  | None => Ok (t_estimated_cost t)
  | Some f => cascade_usd (f (t_provider t) value) "cost_of_result"
  end.

(** [CascadeAttempt(...)] *)
Definition new_attempt (pid : string) (p : Provider) (n : Z) (value : Result)
    (g : CascadeGateDecision) (cost : dec) : py CascadeAttempt :=
  if negb (nonempty pid) then Err (ValueError "provider_id must be non-empty")
  else if n <? 1 then Err (ValueError "attempt must be a positive integer")
  else let? c := cascade_usd (VDec (DFin cost)) "cost_usd" in Ok (MkAttempt pid p n value g c).

(** [_total_cost] *)
Definition total_cost (attempts : list CascadeAttempt) : py dec := dsum dzero (a_cost <$> attempts).

(** One tier: the call, the gate and the cost. *)
Definition attempt_tier (r : CascadeProviderRequest) (n : Z) (tier : CascadeTier * string)
  : py CascadeAttempt :=
  let '(t, pid) := tier in
  let? value := cr_call r (t_provider t) in
  let? g := cr_gate r (t_provider t) value in
  let? cost := attempt_cost r t value in
  new_attempt pid (t_provider t) n value g cost.

(** The loop of [route_with_cascade]. *)
Fixpoint cascade_loop (r : CascadeProviderRequest) (n : Z) (attempts : list CascadeAttempt)
    (tiers : list (CascadeTier * string)) : result cascade_error CascadeProviderResult :=
  match tiers with
  | [] =>
      let? total := rlift CascadeRaised (total_cost attempts) in
      Err (CascadeRoutingError attempts total)
  | tier :: tiers' =>
      let? a := rlift CascadeRaised (attempt_tier r n tier) in
      if passed (a_gate a) then
        let? total := rlift CascadeRaised (total_cost (attempts ++ [a])) in
        Ok (MkCascadeResult (a_value a) (a_provider a) (a_provider_id a) (attempts ++ [a]) total)
      else cascade_loop r (n + 1) (attempts ++ [a]) tiers'
  end.

Definition route_with_cascade (r : CascadeProviderRequest) : result cascade_error CascadeProviderResult :=
  let? tiers := rlift CascadeRaised (validate_cascade r) in
  cascade_loop r 1 [] tiers.

(** ** Helper lemmas *)

(** Attempts that follow the tiers, numbered from [n]. *)
Definition follow (r : CascadeProviderRequest) (n : Z) (tiers : list (CascadeTier * string))
    (l : list CascadeAttempt) : Prop :=
  forall k a, l !! k = Some a -> exists tier, tiers !! k = Some tier /\
    attempt_tier r (n + Z.of_nat k) tier = Ok a.

Lemma follow_snoc r n done tier tiers l a :
  List.length done = List.length l -> follow r n (done ++ tier :: tiers) l ->
  attempt_tier r (n + Z.of_nat (List.length l)) tier = Ok a ->
  follow r n (done ++ tier :: tiers) (l ++ [a]).
Proof.
  intros Hlen Hf Ha k b. rewrite lookup_app_Some. intros [Hk|[Hge Hk]]; [by apply Hf|].
  destruct (k - List.length l)%nat eqn:E; [|done]. injection Hk as <-.
  assert (k = List.length l) as -> by lia. exists tier. split; [|done].
  rewrite <-Hlen. by apply list_lookup_middle.
Qed.

(** What an execution of the loop did. *)
Definition outcome_ok (r : CascadeProviderRequest) (tiers : list (CascadeTier * string))
    (attempts : list CascadeAttempt) (won : bool) (total : dec) : Prop :=
  follow r 1 tiers attempts /\ total_cost attempts = Ok total /\
  (List.length attempts <= List.length tiers)%nat /\
  if won then exists pre a, attempts = pre ++ [a] /\ passed (a_gate a) = true /\
                            Forall (fun b => passed (a_gate b) = false) pre
  else List.length attempts = List.length tiers /\ Forall (fun b => passed (a_gate b) = false) attempts.

Lemma cascade_loop_spec r done tiers attempts :
  List.length done = List.length attempts ->
  follow r 1 (done ++ tiers) attempts -> Forall (fun b => passed (a_gate b) = false) attempts ->
  match cascade_loop r (1 + Z.of_nat (List.length attempts)) attempts tiers with
  | Ok res => outcome_ok r (done ++ tiers) (res_attempts res) true (res_total_cost res) /\
              exists a, last (res_attempts res) = Some a /\ a_value a = res_value res /\
                        a_provider_id a = res_provider_id res /\ a_provider a = res_provider res
  | Err (CascadeRoutingError l total) => outcome_ok r (done ++ tiers) l false total
  | Err (CascadeRaised _) => True
  end.
Proof.
  revert done attempts. induction tiers as [|tier tiers IH]; intros done attempts Hlen Hf Hall; simpl.
  - destruct (total_cost attempts) as [total|] eqn:Ht; [|done]. simpl. rewrite app_nil_r in *.
    split; [done|]. split; [done|]. split; [lia|]. by rewrite Hlen.
  - destruct (attempt_tier _ _ tier) as [a|] eqn:Ha; [|done]. simpl.
    pose proof (follow_snoc r 1 done tier tiers attempts a Hlen Hf Ha) as Hf'.
    destruct (passed (a_gate a)) eqn:Hp.
    + destruct (total_cost (attempts ++ [a])) as [total|] eqn:Ht; [|done]. simpl. split.
      * split; [done|]. split; [done|]. split; [rewrite !length_app; simpl; lia|]. by exists attempts, a.
      * exists a. by rewrite last_snoc.
    + specialize (IH (done ++ [tier]) (attempts ++ [a])). rewrite !length_app, <-app_assoc in IH. simpl in IH.
      replace (1 + Z.of_nat (List.length attempts) + 1) with (1 + Z.of_nat (List.length attempts + 1)) by lia.
      apply IH; [lia|done|]. apply Forall_app. split; [done|by constructor].
Qed.

(** ** Theorems *)

(** A cascade stops at the first tier that passes: the attempts are the tiers
    in order from the first, within [max_attempts], each called once and every
    one before the winner refused by the gate; without a winner all of them
    were refused.  The total is the sum of the costs of exactly these
    attempts. *)
Theorem cascade_stops_at_first_pass r tiers :
  validate_cascade r = Ok tiers ->
  (forall m, cr_max_attempts r = Some m -> Z.of_nat (List.length tiers) <= m) /\
  tiers.*1 = take (List.length tiers) (cr_tiers r) /\
  match route_with_cascade r with
  | Ok res => outcome_ok r tiers (res_attempts res) true (res_total_cost res) /\
              exists a, last (res_attempts res) = Some a /\ a_value a = res_value res /\
                        a_provider_id a = res_provider_id res /\ a_provider a = res_provider res
  | Err (CascadeRoutingError l total) => outcome_ok r tiers l false total
  | Err (CascadeRaised _) => True
  end.
Proof.
  intros Hv. unfold route_with_cascade. rewrite Hv. cbn [rlift rbind]. split; [|split].
  - intros m Hm. unfold validate_cascade in Hv. destruct (cr_tiers r) as [|t ts] eqn:E; [done|].
    rewrite <-E in *. apply rbind_Ok in Hv as ([] & _ & Hv). apply rbind_Ok in Hv as (n & Hn & Hv).
    apply rbind_Ok in Hv as (ids & _ & Hv). apply rbind_Ok in Hv as ([] & _ & [= <-]).
    unfold max_attempts_of in Hn. rewrite Hm in Hn. destruct (m <? 1) eqn:H1; [done|].
    injection Hn as <-. boolify. rewrite length_take. lia.
  - unfold validate_cascade in Hv. destruct (cr_tiers r) as [|t ts] eqn:E; [done|].
    rewrite <-E in *. apply rbind_Ok in Hv as ([] & _ & Hv). apply rbind_Ok in Hv as (n & Hn & Hv).
    apply rbind_Ok in Hv as (ids & Hids & Hv). apply rbind_Ok in Hv as ([] & _ & [= <-]).
    apply mapR_length in Hids. rewrite fmap_take, fst_zip by lia.
    rewrite length_take, length_zip_with. rewrite Hids, Nat.min_id.
    destruct (le_ge_dec (Z.to_nat n) (List.length (cr_tiers r))).
    + by rewrite Nat.min_l by lia.
    + rewrite Nat.min_r by lia. by rewrite !take_ge by lia.
  - apply (cascade_loop_spec r [] tiers []); [done| |constructor]. intros k a Hk. done.
Qed.
End Cascade.

(** ** Witness: the cheap tier is refused and the second one passes. *)

Definition example_cascade : CascadeProviderRequest (Provider:=string) (Result:=Z) :=
  MkCascadeRequest [MkTier "small" (micro 100); MkTier "medium" (micro 300); MkTier "large" (micro 900)]
    (fun p => Ok (Z.of_nat (String.length p)))
    (fun _ v => new_gate_decision (6 <=? v) None None) (Some 2) (fun p => Ok p) None.

Lemma cascade_stops_at_first_pass_witness :
  exists res, route_with_cascade example_cascade = Ok res /\ res_provider res = "medium" /\
    res_total_cost res = micro 400 /\
    outcome_ok example_cascade [(MkTier "small" (micro 100), "small"); (MkTier "medium" (micro 300), "medium")]
      (res_attempts res) true (res_total_cost res).
Proof.
  eexists. split; [vm_compute; reflexivity|]. split; [reflexivity|]. split; [reflexivity|].
  destruct (cascade_stops_at_first_pass example_cascade
    [(MkTier "small" (micro 100), "small"); (MkTier "medium" (micro 300), "medium")] eq_refl)
    as (_ & _ & H).
  apply H.
Defined.
