(* ===== verification/Registry.v ===== *)
(** * The registry tables ([db/repository.py], [core/models.py])

    Capabilities, providers and the audit log as the repositories read and
    write them.  A row is kept as the model [_capability_from_row] and
    [_provider_from_row] decode it to; what storing changes is written out:
    [jsonb] columns ([PyEq.jsonb]), [REAL] columns, the columns an upsert does
    not touch, and the constraints of the migrations.  Each statement commits
    on its own. *)

From Stdlib Require Import Ascii SpecFloat.
From S2P Require Import Prelude PyFloat PyValue PyEq Effects Enums Provider.

(** Definitions *)

(** ** Models *)

Record CapabilityDefaults : Type := MkDefaults {
  cd_execution_timeout_ms : Z;
  cd_ttl_ms : Z;
  cd_result_delivery : ResultDelivery;
}.

Record Capability : Type := MkCapability {
  c_id : string;
  c_name : string;
  c_version : string;
  c_class : CapabilityClass;
  c_description : option string;
  c_input_schema : dict;
  c_output_schema : dict;
  c_defaults : CapabilityDefaults;
  c_cost_mode : CostMode;
  c_hints_supported : list CapabilityHint;
  c_source : CapabilitySource;
  c_last_applied_yaml_hash : option string;
  c_enabled : bool;
  c_created_at : datetime;
  c_updated_at : datetime;
}.

Record audit_row : Type := MkAudit {
  au_actor : string;
  au_action : string;
  au_entity_type : string;
  au_entity_id : string;
  au_old_value : option dict;
  au_new_value : option dict;
  au_change_reason : option string;
}.

(** The three tables; the audit log is newest first. *)
Record registry : Type := MkRegistry {
  capabilities : gmap string Capability;
  providers : gmap string Provider;
  config_audit : list audit_row;
}.

Inductive registry_error :=
| UniqueViolation (column : string)
| ForeignKeyViolation
| CheckViolation (constraint : string)
| DataError.

(** ** Column encodings *)

Definition int4 (z : Z) : bool := (- 2 ^ 31 <=? z) && (z <? 2 ^ 31).
Definition int4_opt (o : option Z) : bool := match o with Some z => int4 z | None => true end.

(** A [REAL] column keeps single precision; a value beyond its range is
    refused by the driver. *)
Definition real4 (f : float) : option float :=
  match f with
  | S754_finite s m e =>
      match binary_normalize 24 128 (if s then Zneg m else Zpos m) e s with
      | S754_infinity _ => None
      | S754_finite s' m' e' =>
          Some (binary_normalize fprec femax (if s' then Zneg m' else Zpos m') e' s')
      | r => Some r
      end
  | _ => Some f
  end.

(** ** Constraints of [providers] *)

(** [NULLIF(BTRIM(config ->> key), '') IS NULL] *)
Fixpoint all_blank (s : string) : bool :=
  match s with
  | EmptyString => true
  | String c s' => Ascii.eqb c " " && all_blank s'
  end.
Definition blank_text (config : dict) (key : string) : bool :=
  match dict_get_none key config with
  | VNone => true
  | VStr s => all_blank s
  | _ => false
  end.

Definition CANONICAL_GPU_TYPES : list string :=
  ["NVIDIA H100 80GB HBM3"; "NVIDIA H100 NVL"; "NVIDIA H200"; "NVIDIA H200 NVL"; "NVIDIA B200";
   "NVIDIA A100 80GB"; "NVIDIA A100 80GB PCIe"; "NVIDIA A100 40GB"; "NVIDIA A6000";
   "NVIDIA RTX A6000"; "NVIDIA A40"; "NVIDIA L40"; "NVIDIA L40S"; "NVIDIA L4";
   "NVIDIA RTX 6000 Ada"; "NVIDIA RTX 4090"; "NVIDIA GeForce RTX 4090"; "NVIDIA RTX A5000";
   "NVIDIA RTX A4500"; "NVIDIA RTX A4000"; "NVIDIA RTX 5000 Ada Generation";
   "NVIDIA RTX 4000 Ada Generation"].

Definition gpu_types_canonical (config : dict) : bool :=
  match dict_get "gpu_type_priority" config with
  | None => true
  | Some (VList l) =>
      forallb (fun v => match v with VStr s => bool_decide (s ∈ CANONICAL_GPU_TYPES) | _ => false end) l
  | Some _ => false
  end.

Definition cloud_type_known (o : option string) : bool :=
  match o with
  | None => true
  | Some s => String.eqb s "SECURE" || String.eqb s "COMMUNITY"
  end.

Definition volume_is_secure (p : Provider) : bool :=
  (blank_text (p_config p) "volume_id" && blank_text (p_config p) "networkVolumeId") ||
  bool_decide (p_cloud_type p = Some "SECURE").

Definition provider_checks (p : Provider) : bool :=
  cloud_type_known (p_cloud_type p) && volume_is_secure p && gpu_types_canonical (p_config p) &&
  (0 <=? p_consecutive_failures p) && (0 <=? p_cooldown_trips p).

Definition provider_ints (p : Provider) : bool :=
  int4 (p_priority p) && int4 (p_consecutive_failures p) && int4 (p_cooldown_trips p) &&
  int4_opt (p_cold_start_p50_ms p) && int4_opt (p_cold_start_p95_ms p).

(** ** [CapabilityRepository] *)

Definition set_capability (db : registry) (c : Capability) : registry :=
  MkRegistry (<[c_id c := c]> (capabilities db)) (providers db) (config_audit db).

(** The unique constraint on [capabilities.name]. *)
Definition name_taken (db : registry) (c : Capability) : bool :=
  existsb (fun kv => negb (String.eqb (fst kv) (c_id c)) && String.eqb (c_name (snd kv)) (c_name c))
    (map_to_list (capabilities db)).

(** The row as stored: the JSON objects of the [config] column. *)
Definition stored_capability (c : Capability) : option Capability :=
  i ← jsonb_dict (c_input_schema c);
  o ← jsonb_dict (c_output_schema c);
  Some (MkCapability (c_id c) (c_name c) (c_version c) (c_class c) (c_description c) i o
          (c_defaults c) (c_cost_mode c) (c_hints_supported c) (c_source c)
          (c_last_applied_yaml_hash c) (c_enabled c) (c_created_at c) (c_updated_at c)).

Definition with_enabled_at (c : Capability) (enabled : bool) (created : datetime) : Capability :=
  MkCapability (c_id c) (c_name c) (c_version c) (c_class c) (c_description c) (c_input_schema c)
    (c_output_schema c) (c_defaults c) (c_cost_mode c) (c_hints_supported c) (c_source c)
    (c_last_applied_yaml_hash c) enabled created (c_updated_at c).

(** [create]: an insert is enabled; on conflict [enabled] and [created_at]
    keep their values. *)
Definition create_capability (c : Capability) : eff registry registry_error Capability :=
  fun db =>
    match stored_capability c with
    | None => (db, Err DataError)
    | Some c =>
        if name_taken db c then (db, Err (UniqueViolation "name"))
        else
          let row := match capabilities db !! c_id c with
                     | Some old => with_enabled_at c (c_enabled old) (c_created_at old)
                     | None => with_enabled_at c true (c_created_at c)
                     end in
          (set_capability db row, Ok row)
    end.

(** [get] *)
Definition get_capability (i : string) : eff registry registry_error (option Capability) :=
  fun db => (db, Ok (capabilities db !! i)).

Definition touch_capability (enabled : bool) (now : datetime) (c : Capability) : Capability :=
  MkCapability (c_id c) (c_name c) (c_version c) (c_class c) (c_description c) (c_input_schema c)
    (c_output_schema c) (c_defaults c) (c_cost_mode c) (c_hints_supported c) (c_source c)
    (c_last_applied_yaml_hash c) enabled (c_created_at c) now.

(** [enable] and [disable] *)
Definition switch_capability (enabled : bool) (now : datetime) (i : string)
  : eff registry registry_error (option Capability) :=
  fun db =>
    match capabilities db !! i with
    | None => (db, Ok None)
    | Some c => let c' := touch_capability enabled now c in (set_capability db c', Ok (Some c'))
    end.

(** ** [ProviderRepository] *)

Definition set_provider (db : registry) (p : Provider) : registry :=
  MkRegistry (capabilities db) (<[p_id p := p]> (providers db)) (config_audit db).

(** The row as stored. *)
Definition stored_provider (p : Provider) : option Provider :=
  config ← jsonb_dict (p_config p);
  rate ← real4 (p_recent_error_rate p);
  if provider_ints p then
    Some (MkProvider (p_id p) (p_capability_id p) (p_name p) (p_provider_type p)
            (p_runpod_endpoint_id p) (p_runpod_template_id p) (p_region p) (p_cloud_type p) config
            (p_priority p) (p_enabled p) (p_health_status p) (p_consecutive_failures p)
            (p_cooldown_trips p) (p_cold_start_p50_ms p) (p_cold_start_p95_ms p) rate
            (p_cooldown_until p) (p_source p) (p_last_applied_yaml_hash p) (p_updated_at p))
  else None.

Definition with_owner (p : Provider) (capability_id : string) (enabled : bool) : Provider :=
  MkProvider (p_id p) capability_id (p_name p) (p_provider_type p) (p_runpod_endpoint_id p)
    (p_runpod_template_id p) (p_region p) (p_cloud_type p) (p_config p) (p_priority p) enabled
    (p_health_status p) (p_consecutive_failures p) (p_cooldown_trips p) (p_cold_start_p50_ms p)
    (p_cold_start_p95_ms p) (p_recent_error_rate p) (p_cooldown_until p) (p_source p)
    (p_last_applied_yaml_hash p) (p_updated_at p).

(** [create]: on conflict [capability_id] and [enabled] keep their values.
    The checks see the proposed row; the reference is checked on insert. *)
Definition create_provider (p : Provider) : eff registry registry_error Provider :=
  fun db =>
    match stored_provider p with
    | None => (db, Err DataError)
    | Some p =>
        if negb (provider_checks p) then (db, Err (CheckViolation "providers"))
        else
          match providers db !! p_id p with
          | Some old =>
              let row := with_owner p (p_capability_id old) (p_enabled old) in
              (set_provider db row, Ok row)
          | None =>
              if bool_decide (is_Some (capabilities db !! p_capability_id p))
              then (set_provider db p, Ok p) else (db, Err ForeignKeyViolation)
          end
    end.

(** [get] *)
Definition get_provider (i : string) : eff registry registry_error (option Provider) :=
  fun db => (db, Ok (providers db !! i)).

Definition touch_provider (enabled : bool) (now : datetime) (p : Provider) : Provider :=
  MkProvider (p_id p) (p_capability_id p) (p_name p) (p_provider_type p) (p_runpod_endpoint_id p)
    (p_runpod_template_id p) (p_region p) (p_cloud_type p) (p_config p) (p_priority p) enabled
    (p_health_status p) (p_consecutive_failures p) (p_cooldown_trips p) (p_cold_start_p50_ms p)
    (p_cold_start_p95_ms p) (p_recent_error_rate p) (p_cooldown_until p) (p_source p)
    (p_last_applied_yaml_hash p) now.

(** [enable] and [disable] *)
Definition switch_provider (enabled : bool) (now : datetime) (i : string)
  : eff registry registry_error (option Provider) :=
  fun db =>
    match providers db !! i with
    | None => (db, Ok None)
    | Some p => let p' := touch_provider enabled now p in (set_provider db p', Ok (Some p'))
    end.

(** ** The audit log: [insert_audit] and the constraints on its columns *)

Definition AUDIT_ACTORS : list string :=
  ["rest:admin"; "mcp:session-id"; "mcp:admin"; "rest:lease"; "rest:webhook"; "mcp"; "system"].
Definition AUDIT_ACTIONS : list string :=
  ["create"; "update"; "delete"; "enable"; "disable"; "hibernate"; "patch"; "renew"; "rotate";
   "deactivate"; "activate"; "archive"; "purge"].
Definition AUDIT_ENTITY_TYPES : list string :=
  ["capability"; "provider"; "volume"; "template"; "drill"; "lease"; "webhook_subscription";
   "retention_run"].

Definition jsonb_opt (o : option dict) : option (option dict) :=
  match o with Some m => Some <$> jsonb_dict m | None => Some None end.

Definition insert_audit (a : audit_row) : eff registry registry_error audit_row :=
  fun db =>
    match jsonb_opt (au_old_value a), jsonb_opt (au_new_value a) with
    | Some old, Some new =>
        if negb (bool_decide (au_actor a ∈ AUDIT_ACTORS)) then (db, Err (CheckViolation "actor"))
        else if negb (bool_decide (au_action a ∈ AUDIT_ACTIONS))
        then (db, Err (CheckViolation "action"))
        else if negb (bool_decide (au_entity_type a ∈ AUDIT_ENTITY_TYPES))
        then (db, Err (CheckViolation "entity_type"))
        else
          let row := MkAudit (au_actor a) (au_action a) (au_entity_type a) (au_entity_id a) old new
                       (au_change_reason a) in
          (MkRegistry (capabilities db) (providers db) (row :: config_audit db), Ok row)
    | _, _ => (db, Err DataError)
    end.

(** ** Well-formed tables: a row is stored under its id, capability names are
    unique, and every provider refers to a capability. *)
Record registry_wf (db : registry) : Prop := {
  capability_keys : forall i c, capabilities db !! i = Some c -> c_id c = i;
  provider_keys : forall i p, providers db !! i = Some p -> p_id p = i;
  capability_names : forall i j c d,
    capabilities db !! i = Some c -> capabilities db !! j = Some d -> c_name c = c_name d -> i = j;
  provider_owner : forall i p,
    providers db !! i = Some p -> is_Some (capabilities db !! p_capability_id p);
}.
