(* ===== verification/Jobs.v ===== *)
(** * Asynchronous jobs ([core/inference.py], [core/jobs.py])

    A job is admitted against the budget, its input is stored, it is sent to
    RunPod's queue, and the job id is stored; a queued or running job can be
    cancelled.  Every statement commits on its own, so a cancellation can run
    between any two steps of a dispatch: [dispatch_job] is what remains of
    [create_and_dispatch_job] after the input was stored.  [QueueDeps] is the
    queue client, the check of webhook targets and the clock. *)

From S2P Require Import Registry.
From S2P Require Import Prelude PyDecimal PyFloat PyValue PyEq PyTime PyFormat PyJson RequestKeys.
From S2P Require Import Effects Enums Provider Estimator WorkloadStore BudgetGate GateTable.

(** Definitions *)

(** ** Guarded transitions ([core/jobs.py]) *)

(** [transition_workload]: whether one row was updated. *)
Definition transition_workload (i : string) (from_states : list string) (to_state : string) (patch : dict)
    (db : workload_db) : workload_db * result store_error bool :=
  let sets := ("state", VStr to_state) :: patch in
  if bool_decide ("state" ∈ patch.*1) || bool_decide (from_states = []) then (db, Err SyntaxError)
  else if negb (forallb column_accepts sets) then (db, Err DataError)
  else match workloads db !! i with
       | None => (db, Ok false)
       | Some row =>
           if bool_decide (state_of row ∈ from_states) then
             let row' := assign row sets in
             if row_constraints row' then (set_workload db i row', Ok true) else (db, Err ConstraintViolation)
           else (db, Ok false)
       end.

(** ** Jobs ([core/inference.py]) *)

(** How [queue_client.run] ends: with a job, with one of the exceptions the
    dispatch handles, or with any other one. *)
Inductive queue_outcome :=
| QueueAccepted (job_id : string)
| QueueRaised (type_name message : string)
| QueueEscaped (type_name message : string).

Class QueueDeps (F : Type) := {
  resolve_target : string -> F -> F * py string;
  queue_run : string -> dict -> option string -> F -> F * queue_outcome;
  queue_cancel : string -> string -> F -> F;           (* an exception is logged *)
  job_clock : F -> F * datetime;
}.

Inductive job_error :=
| JobExn (e : exn)
| JobStore (e : store_error)
| JobBudget (e : gate_error unit)
| JobProviderNotFound (provider_id : string)
| JobDispatch (type_name message : string).

Record job_request : Type := MkJobRequest {
  jr_capability : CapabilityCost;
  jr_capability_id : string;
  jr_provider_id : string;
  jr_endpoint_id : option string;
  jr_provider_cost : CostInput;
  jr_params : dict;
  jr_idempotency_key : option string;
  jr_webhook_url : option string;
}.

Record CancelOutcome : Type := MkCancelOutcome { co_workload : option dict; co_cancelled : bool }.

Section Jobs.
Context {F : Type} `{QueueDeps F} (month_start : Z -> Z) (constraints_ok : workload_row -> bool).
Context (registry : registry).
Abbreviation op := (eff (table_world F) job_error).
Abbreviation on_db := (on_db JobStore).

Definition job_raises {A} (r : py A) : op A := lift (rlift JobExn r).

(** [workload_repo.get] and [_load_admitted_workload] *)
Definition get_row (i : string) : op (option dict) := on_db (fun db => (db, get_workload db i)).
Definition load_admitted_workload (i : string) : op dict :=
  do! w := get_row i in
  match w with
  | None => fail (JobExn (RuntimeError "admitted workload was not found"))
  | Some row => ret row
  end.

(** [_update_async_workload_input] *)
Definition update_async_workload_input (i : string) (params : dict) : op unit :=
  on_db (fun db => match jsonb_cell params with
                   | Err e => (db, Err e)
                   | Ok cell => unguarded_update i [("input", cell)] (fun _ => Ok [("input", cell)]) db
                   end).

(** [_mark_async_dispatch_failed]; whether the row was still queued is only
    logged. *)
Definition failure_patch (now : datetime) (type_name message : string) : dict :=
  [("completed_at", VTime now); ("cost_actual_usd", VDec (DFin dzero));
   ("error", VDict [("type", VStr type_name); ("message", VStr message)])].
Definition mark_async_dispatch_failed (i : string) (type_name message : string) : op bool :=
  do! now := from_outside job_clock in
  on_db (transition_workload i ["queued"] "failed" (failure_patch now type_name message)).

(** [_UPDATE_RUNPOD_JOB_ID_SQL] *)
Definition store_job_id (i job : string) : op unit :=
  on_db (unguarded_update i [("runpod_job_id", VStr job)] (fun _ => Ok [("runpod_job_id", VStr job)])).

(** From the call of the queue on. *)
Definition dispatch_job (endpoint_id : string) (params : dict) (webhook : option string) (i : string) : op dict :=
  do! outcome := from_outside (queue_run endpoint_id params webhook) in
  match outcome with
  | QueueAccepted job => store_job_id i job ;! load_admitted_workload i
  | QueueRaised t m => do! _ := mark_async_dispatch_failed i t m in fail (JobDispatch t m)
  | QueueEscaped t m => fail (JobDispatch t m)
  end.

(** The admission of [create_and_dispatch_job]. *)
Definition admit_job (g : BudgetGate) (rq : job_request) (new_id : string) : op BudgetAdmission :=
  do! upper := job_raises (let? q := quote_cost (jr_capability rq) (jr_provider_cost rq) (jr_params rq) in
                           quote_upper_bound q) in
  do! submitted_at := from_outside job_clock in
  do! clock := from_outside job_clock in
  fun w =>
    let '(db, r) := admit_row month_start constraints_ok g clock (jr_capability_id rq) (jr_provider_id rq)
                      (EBound (VDec (DFin upper))) "async_job" (Some submitted_at) (jr_idempotency_key rq)
                      new_id (tw_db w) in
    (MkTableWorld db (tw_outside w), rlift JobBudget r).

(** [create_and_dispatch_job] *)
Definition normalized_webhook (rq : job_request) : op (option string) :=
  match jr_webhook_url rq with
  | None => ret None
  | Some url => do! r := from_outside (resolve_target url) in do! u := job_raises r in ret (Some u)
  end.
Definition create_and_dispatch_job (g : BudgetGate) (rq : job_request) (new_id : string) : op dict :=
  match jr_endpoint_id rq with
  | None | Some EmptyString => fail (JobProviderNotFound (jr_provider_id rq))
  | Some endpoint_id =>
      do! webhook := normalized_webhook rq in
      do! adm := admit_job g rq new_id in
      if negb (is_new adm) then load_admitted_workload (workload_id adm)
      else
        update_async_workload_input (workload_id adm) (jr_params rq) ;!
        dispatch_job endpoint_id (jr_params rq) webhook (workload_id adm)
  end.

(** [cancel_job]: RunPod is told with the job id read before the transition. *)
Definition cancel_at_runpod (workload : dict) : op unit :=
  match as_str (dict_get_none "runpod_job_id" workload), as_str (dict_get_none "provider_id" workload) with
  | Some (String _ _ as job), Some (String _ _ as pid) =>
      match providers registry !! pid with
      | Some p =>
          match p_runpod_endpoint_id p with
          | Some (String _ _ as endpoint) =>
              fun w => (MkTableWorld (tw_db w) (queue_cancel endpoint job (tw_outside w)), Ok tt)
          | _ => ret tt
          end
      | None => ret tt
      end
  | _, _ => ret tt
  end.

Definition cancel_job (i : string) : op CancelOutcome :=
  do! found := get_row i in
  match found with
  | None => ret (MkCancelOutcome None false)
  | Some workload =>
      do! transitioned := on_db (transition_workload i ["queued"; "running"] "cancelled" []) in
      if negb transitioned then ret (MkCancelOutcome (Some workload) false)
      else
        cancel_at_runpod workload ;!
        do! refreshed := get_row i in
        ret (MkCancelOutcome (Some (default workload refreshed)) true)
  end.

(** How an admitted job ends: its row tells the caller's answer. *)
Definition dispatch_recorded (i : string) (outcome : queue_outcome) (db : workload_db) (r : result job_error dict)
  : Prop :=
  exists row, workloads db !! i = Some row /\
    match r with
    | Ok d => exists job, outcome = QueueAccepted job /\ workload_from_row row = Ok d /\
                state_of row = "queued" /\ dict_get_none "runpod_job_id" row = VStr job
    | Err (JobDispatch t m) =>
        (outcome = QueueRaised t m /\ state_of row = "failed" /\
         dict_get_none "error" row = VDict [("type", VStr t); ("message", VStr m)] /\
         dict_get_none "cost_actual_usd" row = VDec (DFin dzero)) \/
        (outcome = QueueEscaped t m /\ state_of row = "queued" /\ dict_get_none "runpod_job_id" row = VNone)
    | Err (JobStore _) => True
    | Err _ => False
    end.
End Jobs.

(** Lemmas *)

Lemma transition_writes i from to patch :
  writes i (transition_workload i from to patch)
    (fun b row row' => if b : bool then state_of row ∈ from /\ row' = assign row (("state", VStr to) :: patch)
                       else row' = row /\ state_of row ∉ from).
Proof.
  intros db. unfold transition_workload.
  destruct (_ || _); [by apply (refused_writes i SyntaxError)|].
  destruct (negb _); [by apply (refused_writes i DataError)|].
  destruct (workloads db !! i) as [row|] eqn:Hrow; [|done].
  destruct (bool_decide_reflect (state_of row ∈ from)) as [Hin|Hin].
  - destruct (row_constraints _).
    + split; [apply only_set_workload|]. intros r [= <-]. eexists. split; [apply lookup_insert_eq|]. done.
    + split; [done|]. intros r [= <-]. by exists row.
  - split; [done|]. intros r [= <-]. by exists row.
Qed.

Lemma failed_patch_row row now t m :
  let row' := assign row (("state", VStr "failed") :: failure_patch now t m) in
  state_of row' = "failed" /\ dict_get_none "error" row' = VDict [("type", VStr t); ("message", VStr m)] /\
  dict_get_none "cost_actual_usd" row' = VDec (DFin dzero).
Proof.
  split; [apply assign_state; simpl; set_solver|].
  change (("state", VStr "failed") :: failure_patch now t m) with
    ([("state", VStr "failed"); ("completed_at", VTime now)] ++
     [("cost_actual_usd", VDec (DFin dzero)); ("error", VDict [("type", VStr t); ("message", VStr m)])]).
  unfold assign. rewrite foldl_app. split.
  - simpl. unfold dict_get_none. by rewrite dict_get_al, al_get_set.
  - apply (assign_get "cost_actual_usd" (VDec (DFin dzero)) [("error", _)]). simpl. set_solver.
Qed.

Lemma input_writes {F} i params (w w' : table_world F) r row :
  workloads (tw_db w) !! i = Some row -> update_async_workload_input i params w = (w', r) ->
  tw_outside w' = tw_outside w /\ only_workload i (tw_db w) (tw_db w') /\
  exists row', workloads (tw_db w') !! i = Some row' /\
    match r with
    | Ok _ => state_of row' = state_of row /\ dict_get_none "runpod_job_id" row' = dict_get_none "runpod_job_id" row
    | Err e => exists s, e = JobStore s
    end.
Proof.
  intros Hrow E. unfold update_async_workload_input in E. eapply (write_step JobStore i _ (fun (_ : unit) row row' =>
    state_of row' = state_of row /\ dict_get_none "runpod_job_id" row' = dict_get_none "runpod_job_id" row)) in E;
    [exact E| |exact Hrow].
  intros db. destruct (jsonb_cell params) as [cell|e].
  - apply unguarded_writes. intros r0 s [= <-]. unfold state_of.
    rewrite !assign_get_other by (simpl; set_solver). done.
  - apply (refused_writes i e).
Qed.

Lemma job_id_writes i job :
  writes i (unguarded_update i [("runpod_job_id", VStr job)] (fun _ => Ok [("runpod_job_id", VStr job)]))
    (fun _ row row' => row' = assign row [("runpod_job_id", VStr job)]).
Proof. apply unguarded_writes. by intros row s [= <-]. Qed.

Lemma job_id_row row job :
  let row' := assign row [("runpod_job_id", VStr job)] in
  state_of row' = state_of row /\ dict_get_none "runpod_job_id" row' = VStr job.
Proof.
  split; [unfold state_of; by rewrite assign_get_other by (simpl; set_solver)|].
  apply (assign_get _ _ []). simpl. set_solver.
Qed.

Section Steps.
Context {F : Type} `{QueueDeps F}.
Context (R : F -> F -> Prop) `{!PreOrder R} (Hclock : forall o, R o (job_clock o).1).

Lemma get_row_step i (w w' : table_world F) r :
  get_row i w = (w', r) -> w' = w /\ r = rlift JobStore (get_workload (tw_db w) i).
Proof. unfold get_row, on_db. intros [= <- <-]. by destruct w. Qed.

Lemma load_step i (w w' : table_world F) r row :
  workloads (tw_db w) !! i = Some row -> load_admitted_workload i w = (w', r) ->
  w' = w /\ match r with Ok d => workload_from_row row = Ok d | Err e => exists s, e = JobStore s end.
Proof.
  intros Hrow E. unfold load_admitted_workload in E.
  apply bind_cases in E as [(e & E & ->)|(o & w1 & E & Hk)]; apply get_row_step in E as [-> E];
    unfold get_workload in E; rewrite Hrow in E; destruct (workload_from_row row) eqn:Ed; simpl in E; try done.
  - injection E as ->. split; [done|]. by eexists.
  - injection E as ->. by injection Hk as <- <-.
Qed.

Lemma mark_failed_step i t m (w w' : table_world F) r row :
  workloads (tw_db w) !! i = Some row -> state_of row = "queued" ->
  mark_async_dispatch_failed i t m w = (w', r) ->
  only_workload i (tw_db w) (tw_db w') /\ R (tw_outside w) (tw_outside w') /\
  exists row', workloads (tw_db w') !! i = Some row' /\
    match r with
    | Ok _ => state_of row' = "failed" /\ dict_get_none "error" row' = VDict [("type", VStr t); ("message", VStr m)] /\
              dict_get_none "cost_actual_usd" row' = VDec (DFin dzero)
    | Err e => exists s, e = JobStore s
    end.
Proof.
  intros Hrow Hst E. unfold mark_async_dispatch_failed in E.
  apply bind_cases in E as [(e & E & ->)|(now & w1 & E & Hk)].
  { by apply outside_step in E as (_ & _ & [=]). }
  apply outside_step in E as (Hdb & Ho & [= ->]). rewrite <- Hdb in Hrow |- *.
  apply (write_step JobStore i _ _ _ _ _ _ (transition_writes _ _ _ _) Hrow) in Hk as (Ho' & Hon & row' & Hr & Hp).
  split; [done|]. rewrite Ho', Ho. split; [apply Hclock|]. exists row'. split; [done|].
  destruct r as [[]|e]; [| |done].
  - destruct Hp as [_ ->]. apply failed_patch_row.
  - destruct Hp as [_ Hn]. rewrite Hst in Hn. set_solver.
Qed.

Lemma dispatch_step endpoint params webhook i (w w' : table_world F) r row :
  workloads (tw_db w) !! i = Some row -> state_of row = "queued" -> dict_get_none "runpod_job_id" row = VNone ->
  dispatch_job endpoint params webhook i w = (w', r) ->
  only_workload i (tw_db w) (tw_db w') /\
  R (queue_run endpoint params webhook (tw_outside w)).1 (tw_outside w') /\
  dispatch_recorded i (queue_run endpoint params webhook (tw_outside w)).2 (tw_db w') r.
Proof.
  intros Hrow Hst Hj E. unfold dispatch_job in E.
  apply bind_cases in E as [(e & E & ->)|(out & w1 & E & Hk)].
  { by apply outside_step in E as (_ & _ & [=]). }
  apply outside_step in E as (Hdb & Ho & [= ->]). rewrite <- Hdb in Hrow |- *. rewrite <- Ho.
  destruct (queue_run _ _ _ _).2 as [job|t m|t m].
  - apply bind_cases in Hk as [(e & E & ->)|([] & w2 & E & Hk)];
      apply (write_step JobStore i _ _ _ _ _ _ (job_id_writes _ _) Hrow) in E as (Ho' & Hon & row' & Hr & Hp).
    + destruct Hp as [s ->]. rewrite Ho'. split; [done|]. split; [done|]. by exists row'.
    + subst row'. destruct (job_id_row row job) as [Hs Hjob].
      destruct (load_step _ _ _ _ _ Hr Hk) as [-> Hd]. rewrite Ho'. split; [done|]. split; [done|].
      eexists. split; [exact Hr|]. destruct r as [d|e].
      * exists job. by rewrite Hs.
      * by destruct Hd as [s ->].
  - apply bind_cases in Hk as [(e & E & ->)|(b & w2 & E & Hk)];
      destruct (mark_failed_step _ _ _ _ _ _ _ Hrow Hst E) as (Hon & HR & row' & Hr & Hp).
    + destruct Hp as [s ->]. do 2 (split; [done|]). by exists row'.
    + injection Hk as <- <-. do 2 (split; [done|]). exists row'. split; [done|]. by left.
  - injection Hk as <- <-. do 2 (split; [done|]). exists row. split; [done|]. by right.
Qed.

Lemma webhook_step (Hres : forall url o, R o (resolve_target url o).1) rq (w w' : table_world F) r :
  normalized_webhook rq w = (w', r) -> tw_db w' = tw_db w /\ R (tw_outside w) (tw_outside w').
Proof.
  unfold normalized_webhook. destruct (jr_webhook_url rq) as [url|]; [|by intros [= <- _]].
  intros E. apply bind_cases in E as [(e & E & _)|(x & w1 & E & Hk)]; apply outside_step in E as (Hdb & Ho & _).
  - rewrite Hdb, Ho. split; [done|apply Hres].
  - assert (w' = w1) as ->.
    { by apply bind_cases in Hk as [(e & [= <- _] & _)|(u & w2 & [= <- _] & [= <- _])]. }
    rewrite Hdb, Ho. split; [done|apply Hres].
Qed.

(** The row an admission leaves is queued and has no job id. *)
Lemma admit_job_step month_start constraints_ok g rq new_id (w w' : table_world F) r :
  admit_job month_start constraints_ok g rq new_id w = (w', r) ->
  match r with
  | Err _ => tw_db w' = tw_db w /\ R (tw_outside w) (tw_outside w')
  | Ok adm =>
      R (tw_outside w) (tw_outside w') /\
      if is_new adm
      then exists upper clock sub rec, adm = MkAdmission new_id true /\
        try_launch_admission (E:=unit) (A:=unit) month_start constraints_ok g clock (dt_us clock)
          (gate_view (tw_db w)) (jr_capability_id rq) (jr_provider_id rq) (EBound (VDec (DFin upper))) "async_job"
          (Some sub) (jr_idempotency_key rq) new_id None
        = Ok (gate_view (tw_db w) ++ [rec], MkAdmission new_id true, None) /\
        workloads (tw_db w') !! new_id = Some (admitted_dict rec) /\
        state_of (admitted_dict rec) = "queued" /\ dict_get_none "runpod_job_id" (admitted_dict rec) = VNone /\
        (forall j, j <> new_id -> workloads (tw_db w') !! j = workloads (tw_db w) !! j)
      else tw_db w' = tw_db w /\ find_by_key (gate_view (tw_db w)) (jr_idempotency_key rq) = Some (workload_id adm)
  end.
Proof.
  intros E. unfold admit_job in E. apply bind_cases in E as [(e & [= <- _] & ->)|(upper & w1 & [= <- _] & E)]; [done|].
  apply bind_cases in E as [(e & E & ->)|(sub & w1 & E & Hk)]; apply outside_step in E as (Hdb1 & Ho1 & [= ->]).
  apply bind_cases in Hk as [(e & E & ->)|(clock & w2 & E & Ha)]; apply outside_step in E as (Hdb2 & Ho2 & [= ->]).
  assert (R (tw_outside w) (tw_outside w2)) as HR.
  { etrans; [apply (Hclock (tw_outside w))|]. rewrite <- Ho1, Ho2. apply Hclock. }
  destruct (admit_row _ _ _ _ _ _ _ _ _ _ _ _) as [db o] eqn:Ea. apply admit_cases in Ea.
  injection Ha as <- <-. rewrite Hdb2, Hdb1 in Ea. destruct o as [adm|e]; simpl; [|by split].
  split; [done|]. destruct (is_new adm) eqn:En; [|by destruct Ea as [-> ?]].
  destruct Ea as (Hi & Hf & rec & -> & Hid & Hkey & Ht). eexists upper, _, _, rec.
  assert (adm = MkAdmission new_id true) as -> by (destruct adm; simpl in *; congruence).
  split; [done|]. split; [exact Ht|]. simpl. split; [apply lookup_insert_eq|].
  unfold admitted_dict. split; [by destruct (w_idempotency_key rec)|].
  split; [by destruct (w_idempotency_key rec)|]. intros j Hne. by apply lookup_insert_ne.
Qed.
End Steps.

Lemma transition_step {F} i from to patch (w w' : table_world F) r row :
  workloads (tw_db w) !! i = Some row -> on_db JobStore (transition_workload i from to patch) w = (w', r) ->
  tw_outside w' = tw_outside w /\
  match r with
  | Ok true => state_of row ∈ from /\ workloads (tw_db w') !! i = Some (assign row (("state", VStr to) :: patch))
  | Ok false => workloads (tw_db w') !! i = Some row /\ state_of row ∉ from
  | Err _ => True
  end.
Proof.
  intros Hrow E. apply (write_step JobStore i _ _ _ _ _ _ (transition_writes _ _ _ _) Hrow) in E
    as (Ho & _ & row' & Hr & Hp). split; [done|].
  destruct r as [[]|e]; [|by destruct Hp as [-> ?]|done]. by destruct Hp as [? ->].
Qed.

(** A cancellation that ends with the row cancelled told RunPod of the job id
    it had read. *)
Lemma cancel_step {F} `{QueueDeps F} reg i (w w' : table_world F) r row :
  workloads (tw_db w) !! i = Some row -> dict_get_none "runpod_job_id" row = VNone ->
  cancel_job reg i w = (w', r) ->
  tw_outside w' = tw_outside w /\
  match r with
  | Ok o => if co_cancelled o
            then workloads (tw_db w') !! i = Some (assign row [("state", VStr "cancelled")])
            else w' = w \/ workloads (tw_db w') !! i = Some row
  | Err _ => True
  end.
Proof.
  intros Hrow Hj E. unfold cancel_job in E.
  apply bind_cases in E as [(e & E & ->)|(found & w1 & E & Hk)]; apply get_row_step in E as [-> E]; [done|].
  unfold get_workload in E. rewrite Hrow in E.
  destruct (workload_from_row row) as [d|] eqn:Hd; simpl in E; [|done]. injection E as ->.
  assert (dict_get_none "runpod_job_id" d = VNone) as Hjd.
  { unfold workload_from_row in Hd. destruct (workload_valid row); [|done]. by injection Hd as <-. }
  apply bind_cases in Hk as [(e & E & ->)|(b & w1 & E & Hk)];
    destruct (transition_step _ _ _ _ _ _ _ _ Hrow E) as [Ho Hp]; [by rewrite Ho|].
  destruct b; simpl in Hk.
  2: { injection Hk as <- <-. split; [done|]. simpl. destruct Hp. by right. }
  assert (cancel_at_runpod reg d w1 = (w1, Ok tt)) as Hc by (unfold cancel_at_runpod; by rewrite Hjd).
  apply bind_cases in Hk as [(e & E' & ->)|([] & w2 & E' & Hk)]; rewrite Hc in E'; [done|].
  injection E' as <-.
  apply bind_cases in Hk as [(e & E' & ->)|(f & w2 & E' & Hk)]; apply get_row_step in E' as [-> E'].
  - by rewrite Ho.
  - injection Hk as <- <-. simpl. by destruct Hp.
Qed.

(** ** Theorems *)

(** C10: A job is sent to RunPod at most once, and only for a workload this very
    request was admitted with.  Otherwise - no endpoint, a refused webhook, a
    budget that is spent, a key already used - no workload changes and the
    queue is not asked.  When it was asked, its row tells the answer: queued
    with the job id, failed at no cost with the error, or, when the exception
    is none the service handles, still queued without a job id. *)
Theorem job_dispatched_once {F} `{QueueDeps F} (R : F -> F -> Prop) `{!PreOrder R}
    month_start constraints_ok g rq new_id (w w' : table_world F) r :
  (forall o, R o (job_clock o).1) -> (forall url o, R o (resolve_target url o).1) ->
  create_and_dispatch_job month_start constraints_ok g rq new_id w = (w', r) ->
  (R (tw_outside w) (tw_outside w') /\ tw_db w' = tw_db w /\
   forall d, r = Ok d -> exists i row, find_by_key (gate_view (tw_db w)) (jr_idempotency_key rq) = Some i /\
     workloads (tw_db w) !! i = Some row /\ workload_from_row row = Ok d) \/
  (exists upper clock sub rec,
     try_launch_admission (E:=unit) (A:=unit) month_start constraints_ok g clock (dt_us clock) (gate_view (tw_db w))
       (jr_capability_id rq) (jr_provider_id rq) (EBound (VDec (DFin upper))) "async_job" (Some sub)
       (jr_idempotency_key rq) new_id None
     = Ok (gate_view (tw_db w) ++ [rec], MkAdmission new_id true, None) /\
   (forall j, j <> new_id -> workloads (tw_db w') !! j = workloads (tw_db w) !! j) /\
   ((R (tw_outside w) (tw_outside w') /\ exists s, r = Err (JobStore s)) \/
    exists endpoint webhook o, R (tw_outside w) o /\ jr_endpoint_id rq = Some endpoint /\
      R (queue_run endpoint (jr_params rq) webhook o).1 (tw_outside w') /\
      dispatch_recorded new_id (queue_run endpoint (jr_params rq) webhook o).2 (tw_db w') r)).
Proof.
  intros Hclock Hres E. unfold create_and_dispatch_job in E.
  assert (R (tw_outside w) (tw_outside w)) as Hrefl by done.
  destruct (jr_endpoint_id rq) as [[|a endpoint]|] eqn:Hep; try (injection E as <- <-; by left).
  apply bind_cases in E as [(e & E & ->)|(webhook & w1 & E & Hk)];
    destruct (webhook_step R Hres rq _ _ _ E) as [Hdb1 HR1]; [by left; rewrite Hdb1|].
  clear E. apply bind_cases in Hk as [(e & E & ->)|(adm & w2 & E & Hk)].
  { destruct (admit_job_step R Hclock _ _ _ _ _ _ _ _ E) as [Hdb2 HR2]. left. rewrite Hdb2.
    split; [by etrans|]. by split. }
  destruct (admit_job_step R Hclock _ _ _ _ _ _ _ _ E) as [HR2 Ha]. clear E. rewrite Hdb1 in Ha.
  destruct (is_new adm) eqn:En; simpl in Hk.
  2: { destruct Ha as [Hdb2 Hf]. left.
       assert (w' = w2) as ->.
       { unfold load_admitted_workload in Hk. by apply bind_cases in Hk as [(e & [-> _]%get_row_step & _)|
           ([d|] & w3 & [-> _]%get_row_step & [= <- _])]. }
       split; [by etrans|]. split; [done|]. intros d ->.
       destruct (workloads (tw_db w) !! workload_id adm) as [row|] eqn:Hrow.
       - rewrite <- Hdb2 in Hrow. destruct (load_step _ _ _ _ _ Hrow Hk) as [_ Hd]. rewrite Hdb2 in Hrow.
         by exists (workload_id adm), row.
       - apply bind_cases in Hk as [(e & _ & [=])|(o & w3 & Hg & Hk)]. apply get_row_step in Hg as [-> Hg].
         unfold get_workload in Hg. rewrite Hdb2, Hrow in Hg. injection Hg as ->. done. }
  destruct Ha as (upper & clock & sub & rec & -> & Ht & Hrow & Hq & Hj & Hother). right.
  exists upper, clock, sub, rec. split; [exact Ht|]. simpl in Hk.
  apply bind_cases in Hk as [(e & E & ->)|([] & w3 & E & Hk)];
    destruct (input_writes _ _ _ _ _ _ Hrow E) as (Ho3 & Hon3 & row3 & Hr3 & Hp3).
  { split; [intros j Hne; by rewrite (proj1 Hon3), Hother by done|]. left. rewrite Ho3.
    split; [by etrans|]. destruct Hp3 as [s ->]. by eexists. }
  destruct Hp3 as [Hs3 Hj3]. rewrite Hq in Hs3. rewrite Hj in Hj3.
  destruct (dispatch_step R Hclock _ _ _ _ _ _ _ _ Hr3 Hs3 Hj3 Hk) as (Hon4 & HR4 & Hd).
  split; [intros j Hne; by rewrite (proj1 Hon4), (proj1 Hon3), Hother by done|].
  right. exists (String a endpoint), webhook, (tw_outside w3). rewrite Ho3 in *. by split; [etrans|].
Qed.

(** A job cancelled between its admission and its dispatch runs all the same.
    The cancellation finds no job id and sends nothing; the dispatch does not
    look at the state again, starts the job and stores its id on the cancelled
    row.  From then on no cancellation reaches RunPod: [cancel_job] answers
    [cancelled = False] and leaves the world as it is. *)
Theorem early_cancel_never_reaches_runpod {F} `{QueueDeps F} reg endpoint params webhook i (w w1 w2 : table_world F) row o d :
  workloads (tw_db w) !! i = Some row -> dict_get_none "runpod_job_id" row = VNone ->
  cancel_job reg i w = (w1, Ok o) -> co_cancelled o = true ->
  dispatch_job endpoint params webhook i w1 = (w2, Ok d) ->
  tw_outside w2 = (queue_run endpoint params webhook (tw_outside w)).1 /\
  exists row2 job, (queue_run endpoint params webhook (tw_outside w)).2 = QueueAccepted job /\
    workloads (tw_db w2) !! i = Some row2 /\ state_of row2 = "cancelled" /\
    dict_get_none "runpod_job_id" row2 = VStr job /\
    forall reg', cancel_job reg' i w2 = (w2, Ok (MkCancelOutcome (Some d) false)).
Proof.
  intros Hrow Hj Hc Hb Hd. destruct (cancel_step _ _ _ _ _ _ Hrow Hj Hc) as [Ho Hr1]. rewrite Hb in Hr1.
  unfold dispatch_job in Hd. apply bind_cases in Hd as [(e & _ & [=])|(out & w3 & E & Hk)].
  apply outside_step in E as (Hdb & Ho3 & [= ->]). rewrite Ho in *. rewrite <- Hdb in Hr1.
  destruct (queue_run _ _ _ _).2 as [job|t m|t m].
  2: { by apply bind_cases in Hk as [(e & _ & [=])|(x & w4 & _ & [=])]. }
  2: { done. }
  apply bind_cases in Hk as [(e & _ & [=])|([] & w4 & E & Hk)].
  apply (write_step JobStore i _ _ _ _ _ _ (job_id_writes _ _) Hr1) in E as (Ho4 & _ & row2 & Hr2 & ->).
  destruct (load_step _ _ _ _ _ Hr2 Hk) as [-> Hd]. rewrite Ho4. split; [done|].
  destruct (job_id_row (assign row [("state", VStr "cancelled")]) job) as [Hs Hjob].
  rewrite (assign_state row "cancelled" []) in Hs by set_solver.
  eexists _, job. do 4 (split; [done|]). intros reg'. unfold cancel_job.
  erewrite bind_run; [|unfold get_row, on_db, get_workload; by rewrite Hr2, Hd].
  simpl. destruct w4 as [db out]. simpl in *.
  erewrite bind_run.
  2: { unfold on_db, transition_workload. simpl. rewrite Hr2, Hs. reflexivity. }
  reflexivity.
Qed.

(** ** A scripted queue *)
Module JobsSim.
Record queue : Type := MkQueue { next : queue_outcome; sent : list string; cancels : list string }.
#[global] Instance deps : QueueDeps queue := {|
  resolve_target url q := (q, if String.prefix "https://" url then Ok url else Err (ValueError "webhook_url is not valid"));
  queue_run endpoint _ _ q := (MkQueue (next q) (endpoint :: sent q) (cancels q), next q);
  queue_cancel _ job q := MkQueue (next q) (sent q) (job :: cancels q);
  job_clock q := (q, utc 5000000);
|}.
Definition start (o : queue_outcome) : table_world queue := MkTableWorld (MkWorkloadDb ∅ ∅) (MkQueue o [] []).
Definition request (webhook : option string) : job_request :=
  MkJobRequest example_capability "cap" "prov" (Some "ep") (InLike example_token_cost) example_payload (Some "k") webhook.
Definition submit (o : queue_outcome) (webhook : option string) :=
  create_and_dispatch_job flat_month any_row example_gate (request webhook) "w1" (start o).
Definition no_providers : registry := MkRegistry ∅ ∅ [].

Definition cells (w : table_world queue) (r : result job_error dict) :=
  ((fun row => (state_of row, dict_get_none "runpod_job_id" row, dict_get_none "cost_actual_usd" row))
     <$> workloads (tw_db w) !! "w1", sent (tw_outside w), match r with Ok _ => None | Err e => Some e end).

Example accepted_ex :
  (let '(w, r) := submit (QueueAccepted "job-1") None in cells w r)
  = (Some ("queued", VStr "job-1", VNone), ["ep"], None).
Proof. vm_compute. reflexivity. Qed.
Example failed_job_ex :
  (let '(w, r) := submit (QueueRaised "HTTPStatusError" "500") (Some "https://example.com") in cells w r)
  = (Some ("failed", VNone, VDec (DFin dzero)), ["ep"], Some (JobDispatch "HTTPStatusError" "500")).
Proof. vm_compute. reflexivity. Qed.
Example refused_webhook_ex :
  (let '(w, r) := submit (QueueAccepted "job-1") (Some "ftp://example.com") in cells w r)
  = (None, [], Some (JobExn (ValueError "webhook_url is not valid"))).
Proof. vm_compute. reflexivity. Qed.

(** An exception the dispatch does not handle, and a process that dies during
    the call, leave the row queued without a job id: its estimate stays in the
    month's spend. *)
Example escaped_is_stuck :
  (let '(w, r) := submit (QueueEscaped "KeyError" "id") None in cells w r)
  = (Some ("queued", VNone, VNone), ["ep"], Some (JobDispatch "KeyError" "id")).
Proof. vm_compute. reflexivity. Qed.

(** A cancellation leaves no actual cost, so the gate still counts the
    estimate. *)
Example cancelled_still_counts :
  (let '(w, _) := submit (QueueAccepted "job-1") None in
   let '(w', r) := cancel_job no_providers "w1" w in
   ((fun o => co_cancelled o) <$> (match r with Ok o => Some o | Err _ => None end),
    (fun row => (state_of row, dict_get_none "cost_actual_usd" row)) <$> workloads (tw_db w') !! "w1",
    month_spend flat_month 5000000 (gate_view (tw_db w')) =? month_spend flat_month 5000000 (gate_view (tw_db w))))
  = (Some true, Some ("cancelled", VNone), true).
Proof. vm_compute. reflexivity. Qed.
End JobsSim.

Lemma job_dispatched_once_witness :
  let '(w', r) := JobsSim.submit (QueueAccepted "job-1") None in
  let w := JobsSim.start (QueueAccepted "job-1") in
  (eq (tw_outside w) (tw_outside w') /\ tw_db w' = tw_db w /\
   forall d, r = Ok d -> exists i row, find_by_key [] (Some "k") = Some i /\
     workloads (tw_db w) !! i = Some row /\ workload_from_row row = Ok d) \/
  (exists upper clock sub rec,
     try_launch_admission (E:=unit) (A:=unit) flat_month any_row example_gate clock (dt_us clock) [] "cap" "prov"
       (EBound (VDec (DFin upper))) "async_job" (Some sub) (Some "k") "w1" None
     = Ok ([rec], MkAdmission "w1" true, None) /\
   (forall j, j <> "w1" -> workloads (tw_db w') !! j = (∅ : gmap string dict) !! j) /\
   ((eq (tw_outside w) (tw_outside w') /\ exists s, r = Err (JobStore s)) \/
    exists endpoint webhook o, eq (tw_outside w) o /\ Some "ep" = Some endpoint /\
      eq (queue_run (QueueDeps:=JobsSim.deps) endpoint example_payload webhook o).1 (tw_outside w') /\
      dispatch_recorded "w1" (queue_run (QueueDeps:=JobsSim.deps) endpoint example_payload webhook o).2 (tw_db w') r)).
Proof.
  destruct (JobsSim.submit _ _) as [w' r] eqn:E.
  exact (job_dispatched_once (H:=JobsSim.deps) eq flat_month any_row example_gate (JobsSim.request None) "w1"
    (JobsSim.start (QueueAccepted "job-1")) w' r (fun _ => eq_refl) (fun _ _ => eq_refl) E).
Defined.

(** A workload whose input is stored, cancelled before its dispatch. *)
Lemma early_cancel_never_reaches_runpod_witness :
  let row := [("id", VStr "w1"); ("capability_id", VStr "cap"); ("provider_id", VStr "prov");
              ("type", VStr "async_job"); ("state", VStr "queued"); ("submitted_at", VTime (utc 0))] in
  let w : table_world JobsSim.queue :=
    MkTableWorld (MkWorkloadDb {["w1" := row]} ∅) (JobsSim.MkQueue (QueueAccepted "job-1") [] []) in
  let '(w1, c) := cancel_job JobsSim.no_providers "w1" w in
  let '(w2, r) := dispatch_job "ep" example_payload None "w1" w1 in
  match c, r with
  | Ok o, Ok d =>
      tw_outside w2 = JobsSim.MkQueue (QueueAccepted "job-1") ["ep"] [] /\
      exists row2 job, QueueAccepted "job-1" = QueueAccepted job /\ workloads (tw_db w2) !! "w1" = Some row2 /\
        state_of row2 = "cancelled" /\ dict_get_none "runpod_job_id" row2 = VStr job /\
        forall reg', cancel_job reg' "w1" w2 = (w2, Ok (MkCancelOutcome (Some d) false))
  | _, _ => False
  end.
Proof.
  intros row w. destruct (cancel_job _ _ _) as [w1 [o|e]] eqn:Ec; [|vm_compute in Ec; discriminate Ec].
  destruct (dispatch_job _ _ _ _ _) as [w2 [d|e]] eqn:Ed.
  - apply (early_cancel_never_reaches_runpod (H:=JobsSim.deps) JobsSim.no_providers "ep" example_payload None "w1"
      w w1 w2 row o d); [reflexivity|reflexivity|exact Ec| |exact Ed].
    vm_compute in Ec. injection Ec as <- <-. reflexivity.
  - exfalso. vm_compute in Ec. injection Ec as <- <-. vm_compute in Ed. discriminate Ed.
Defined.
