(* ===== verification/GitOpsPlan.v ===== *)
(** * GitOps: desired state and reconcile plans ([gitops/schema.py],
    [gitops/differ.py])

    A desired state is the list of declarations the YAML documents contain
    once pydantic accepted them; loading the documents is not modelled.  The
    plan is the list of operations that [build_reconcile_plan] derives from a
    desired state and the lists of current capabilities and providers.
    Snapshots are mappings, compared field by field with Python's [==]. *)

From Stdlib Require Import Ascii.
From S2P Require Import Prelude PyValue PyEq PyFormat Enums Provider Registry.

(** Definitions *)

Inductive gitops_error :=
| GitOpsConfigError (msg : string)
| GitOpsDestructiveChangeError (msg : string)
| Refused (e : registry_error)
| ModelInvalid (field : string).

Definition gitops (A : Type) : Type := result gitops_error A.

(** ** [gitops/schema.py] *)

Record DesiredCapabilitySpec : Type := MkDesiredCapability {
  dc_id : option string;
  dc_name : string;
  dc_version : string;
  dc_class : CapabilityClass;
  dc_description : option string;
  dc_input_schema : dict;
  dc_output_schema : dict;
  dc_defaults : CapabilityDefaults;
  dc_cost_mode : CostMode;
  dc_hints_supported : list CapabilityHint;
  dc_enabled : bool;
  dc_yaml_hash : string;
}.

Record DesiredProviderSpec : Type := MkDesiredProvider {
  dp_id : option string;
  dp_capability : option string;
  dp_capability_id : option string;
  dp_capability_name : option string;
  dp_name : string;
  dp_provider_type : ProviderType;
  dp_runpod_endpoint_id : option string;
  dp_runpod_template_id : option string;
  dp_region : option string;
  dp_cloud_type : option string;
  dp_config : dict;
  dp_priority : Z;
  dp_enabled : bool;
  dp_yaml_hash : string;
}.

Record DesiredState : Type := MkDesiredState {
  d_capabilities : list DesiredCapabilitySpec;
  d_providers : list DesiredProviderSpec;
}.

(** [_require_single_capability_reference] *)
Definition require_single_capability_reference (p : DesiredProviderSpec) : gitops unit :=
  match omap id [dp_capability p; dp_capability_id p; dp_capability_name p] with
  | [] => Err (GitOpsConfigError "provider must include capability, capability_id, or capability_name")
  | [_] => Ok tt
  | _ => Err (GitOpsConfigError
       "provider must include exactly one of capability, capability_id, or capability_name")
  end.

Definition truthy_str (o : option string) : option string :=
  match o with Some s => if nonempty s then Some s else None | None => None end.

(** [capability_ref]: [a or b or c], which skips empty strings; only the last
    operand is returned whatever it is. *)
Definition capability_ref (p : DesiredProviderSpec) : gitops string :=
  match truthy_str (dp_capability p), truthy_str (dp_capability_id p) with
  | Some r, _ | None, Some r => Ok r
  | None, None =>
      match dp_capability_name p with
      | Some r => Ok r
      | None => Err (GitOpsConfigError
                       "provider must include capability, capability_id, or capability_name")
      end
  end.

Fixpoint repeated (seen values : list string) : list string :=
  match values with
  | [] => []
  | v :: vs => if decide (v ∈ seen) then v :: repeated seen vs else repeated (v :: seen) vs
  end.

(** [_reject_duplicates] *)
Definition reject_duplicates (label : string) (values : list string) : gitops unit :=
  match dedup (repeated [] values) with
  | [] => Ok tt
  | ds => Err (GitOpsConfigError
                 ("duplicate " +:+ label +:+ ": " +:+ String.concat ", " (sort_by String.ltb ds)))
  end.

(** [DesiredState(...)], with its validator. *)
Definition desired_state (cs : list DesiredCapabilitySpec) (ps : list DesiredProviderSpec)
  : gitops DesiredState :=
  let? _ := reject_duplicates "capability name" (dc_name <$> cs) in
  let? _ := reject_duplicates "provider name" (dp_name <$> ps) in
  let? _ := reject_duplicates "capability id" (omap dc_id cs) in
  let? _ := reject_duplicates "provider id" (omap dp_id ps) in
  Ok (MkDesiredState cs ps).

(** ** Plans *)

Inductive PlanAction := CREATE | UPDATE | DELETE.
#[global] Instance PlanAction_enum : StrEnum PlanAction := {
  members := [CREATE; UPDATE; DELETE];
  enum_value m := match m with CREATE => "create" | UPDATE => "update" | DELETE => "delete" end }.
#[global] Instance PlanAction_lawful : LawfulStrEnum PlanAction.
Proof. solve_lawful. Qed.
#[global] Instance PlanAction_eq_dec : EqDecision PlanAction.
Proof. solve_decision. Defined.

Inductive PlanEntityType := CAPABILITY | PROVIDER.
#[global] Instance PlanEntityType_enum : StrEnum PlanEntityType := {
  members := [CAPABILITY; PROVIDER];
  enum_value m := match m with CAPABILITY => "capability" | PROVIDER => "provider" end }.
#[global] Instance PlanEntityType_lawful : LawfulStrEnum PlanEntityType.
Proof. solve_lawful. Qed.

Record FieldChange : Type := MkChange { fc_current : pyval; fc_desired : pyval }.

Record PlanOperation : Type := MkOperation {
  op_action : PlanAction;
  op_entity_type : PlanEntityType;
  op_entity_id : string;
  op_name : string;
  op_current : option dict;
  op_desired : option dict;
  op_changes : list (string * FieldChange);
  op_destructive : bool;
}.

(** [has_destructive_changes] *)
Definition has_destructive_changes (ops : list PlanOperation) : bool :=
  existsb (fun o => bool_decide (op_action o = DELETE) || op_destructive o) ops.

(** [counts] *)
Definition counts (ops : list PlanOperation) : list (string * Z) :=
  (fun a => (enum_value a,
             Z.of_nat (List.length (filter (fun o => op_action o = a) ops)))) <$> members (T:=PlanAction).

(** ** Snapshots *)

Definition CAPABILITY_FIELDS : list string :=
  ["id"; "name"; "version"; "class"; "description"; "input_schema"; "output_schema"; "defaults";
   "cost_mode"; "hints_supported"; "enabled"; "source"; "last_applied_yaml_hash"].
Definition PROVIDER_FIELDS : list string :=
  ["id"; "capability_id"; "name"; "provider_type"; "runpod_endpoint_id"; "runpod_template_id";
   "region"; "cloud_type"; "config"; "priority"; "enabled"; "source"; "last_applied_yaml_hash"].

(** [defaults.model_dump(mode="json")] *)
Definition dump_defaults (d : CapabilityDefaults) : pyval :=
  VDict [("execution_timeout_ms", VInt (cd_execution_timeout_ms d)); ("ttl_ms", VInt (cd_ttl_ms d));
         ("result_delivery", VStr (enum_value (cd_result_delivery d)))].

Definition hint_values (hs : list CapabilityHint) : pyval := VList (VStr ∘ enum_value <$> hs).

(** [_capability_snapshot] *)
Definition capability_snapshot (c : Capability) : dict :=
  [("id", VStr (c_id c)); ("name", VStr (c_name c)); ("version", VStr (c_version c));
   ("class", VStr (enum_value (c_class c))); ("description", opt_str (c_description c));
   ("input_schema", VDict (c_input_schema c)); ("output_schema", VDict (c_output_schema c));
   ("defaults", dump_defaults (c_defaults c)); ("cost_mode", VStr (enum_value (c_cost_mode c)));
   ("hints_supported", hint_values (c_hints_supported c)); ("enabled", VBool (c_enabled c));
   ("source", VStr (enum_value (c_source c)));
   ("last_applied_yaml_hash", opt_str (c_last_applied_yaml_hash c))].

(** [_provider_snapshot] *)
Definition provider_snapshot (p : Provider) : dict :=
  [("id", VStr (p_id p)); ("capability_id", VStr (p_capability_id p)); ("name", VStr (p_name p));
   ("provider_type", VStr (enum_value (p_provider_type p)));
   ("runpod_endpoint_id", opt_str (p_runpod_endpoint_id p));
   ("runpod_template_id", opt_str (p_runpod_template_id p)); ("region", opt_str (p_region p));
   ("cloud_type", opt_str (p_cloud_type p)); ("config", VDict (p_config p));
   ("priority", VInt (p_priority p)); ("enabled", VBool (p_enabled p));
   ("source", VStr (p_source p));
   ("last_applied_yaml_hash", opt_str (p_last_applied_yaml_hash p))].

(** The snapshot of a declaration, once its id is known. *)
Definition desired_capability_snapshot (i : string) (c : DesiredCapabilitySpec) : dict :=
  [("id", VStr i); ("name", VStr (dc_name c)); ("version", VStr (dc_version c));
   ("class", VStr (enum_value (dc_class c))); ("description", opt_str (dc_description c));
   ("input_schema", VDict (dc_input_schema c)); ("output_schema", VDict (dc_output_schema c));
   ("defaults", dump_defaults (dc_defaults c)); ("cost_mode", VStr (enum_value (dc_cost_mode c)));
   ("hints_supported", hint_values (dc_hints_supported c)); ("enabled", VBool (dc_enabled c));
   ("source", VStr (enum_value YAML)); ("last_applied_yaml_hash", VStr (dc_yaml_hash c))].

Definition desired_provider_snapshot (i owner : string) (p : DesiredProviderSpec) : dict :=
  [("id", VStr i); ("capability_id", VStr owner); ("name", VStr (dp_name p));
   ("provider_type", VStr (enum_value (dp_provider_type p)));
   ("runpod_endpoint_id", opt_str (dp_runpod_endpoint_id p));
   ("runpod_template_id", opt_str (dp_runpod_template_id p)); ("region", opt_str (dp_region p));
   ("cloud_type", opt_str (dp_cloud_type p)); ("config", VDict (dp_config p));
   ("priority", VInt (dp_priority p)); ("enabled", VBool (dp_enabled p));
   ("source", VStr (enum_value YAML)); ("last_applied_yaml_hash", VStr (dp_yaml_hash p))].

(** [{x.key: x for x in l}] *)
Definition index_by {A} (key : A -> string) (l : list A) : list (string * A) :=
  foldl (fun m x => al_set (key x) x m) [] l.

(** ** Ids *)

Definition is_slug_char (c : ascii) : bool :=
  let n := nat_of_ascii c in ((97 <=? n) && (n <=? 122))%nat || is_digit c.

(** [re.sub("[^a-z0-9]+", "_", s)]; [gap] is whether the last character
    belonged to a run already replaced. *)
Fixpoint slug_sub (gap : bool) (s : string) : string :=
  match s with
  | EmptyString => EmptyString
  | String c s' =>
      if is_slug_char c then String c (slug_sub false s')
      else if gap then slug_sub true s' else String "_" (slug_sub true s')
  end.
(** [s.strip("_")] of such a string, which has no two underscores in a row. *)
Fixpoint drop_last_underscore (s : string) : string :=
  match s with
  | EmptyString => EmptyString
  | String c s' =>
      if Ascii.eqb c "_" && String.eqb s' EmptyString then EmptyString
      else String c (drop_last_underscore s')
  end.
Definition strip_underscores (s : string) : string :=
  drop_last_underscore
    (match s with String c s' => if Ascii.eqb c "_" then s' else s | EmptyString => s end).

(** [_id_from_name] *)
Definition id_from_name (prefix nm : string) : gitops string :=
  let slug := strip_underscores (slug_sub false (lower nm)) in
  if nonempty slug then Ok (prefix +:+ "_" +:+ slug)
  else Err (GitOpsConfigError (prefix +:+ " id cannot be generated from an empty name")).

(** The id of a declaration: declared, else that of the current entity with
    its name, else generated. *)
Definition declared_id (label prefix : string) (declared : option string) (nm : string)
    (current : option string) : gitops string :=
  match declared, current with
  | Some i, Some j =>
      if String.eqb j i then match truthy_str declared with Some i => Ok i | None => Ok j end
      else Err (GitOpsConfigError (label +:+ " " +:+ repr_str nm +:+ " already exists as " +:+ j +:+
                                   "; cannot reconcile declared id " +:+ i))
  | _, _ =>
      match truthy_str declared, current with
      | Some i, _ => Ok i
      | None, Some j => Ok j
      | None, None => id_from_name prefix nm
      end
  end.

(** [_add_snapshot] *)
Definition add_snapshot (etype : PlanEntityType) (i nm : string) (snap : dict)
    (acc : list (string * dict) * list (string * string))
  : gitops (list (string * dict) * list (string * string)) :=
  let '(snapshots, names) := acc in
  match al_get i snapshots with
  | Some _ => Err (GitOpsConfigError ("duplicate " +:+ enum_value etype +:+ " id: " +:+ i))
  | None =>
      match al_get nm names with
      | Some j => Err (GitOpsConfigError ("duplicate " +:+ enum_value etype +:+ " name: " +:+ nm +:+
                                          " (" +:+ j +:+ ", " +:+ i +:+ ")"))
      | None => Ok (al_set i snap snapshots, al_set nm i names)
      end
  end.

(** [_desired_capability_snapshots] *)
Definition desired_capability_snapshots (by_name : list (string * Capability))
    (cs : list DesiredCapabilitySpec) : gitops (list (string * dict)) :=
  rmap fst (foldR (fun acc c =>
    let? i := declared_id "capability" "cap" (dc_id c) (dc_name c)
                (c_id <$> al_get (dc_name c) by_name) in
    add_snapshot CAPABILITY i (dc_name c) (desired_capability_snapshot i c) acc) ([], []) cs).

(** [_resolve_capability_id]; snapshots hold their own id. *)
Definition resolve_capability_id (ref : string) (desired : list (string * dict))
    (desired_by_name : list (string * string))
    (current_by_id current_by_name : list (string * Capability)) : gitops string :=
  match al_get ref desired with
  | Some s => Ok (py_str (dict_get_none "id" s))
  | None =>
      match al_get ref current_by_id with
      | Some c => Ok (c_id c)
      | None =>
          match al_get ref desired_by_name with
          | Some i => Ok i
          | None =>
              match al_get ref current_by_name with
              | Some c => Ok (c_id c)
              | None => Err (GitOpsConfigError ("provider references unknown capability: " +:+ ref))
              end
          end
      end
  end.

(** [{snapshot["name"]: snapshot}], of which only the id is used. *)
Definition names_of (snaps : list (string * dict)) : list (string * string) :=
  foldl (fun m s => al_set (py_str (dict_get_none "name" s.2)) (py_str (dict_get_none "id" s.2)) m)
    [] snaps.

(** [_desired_provider_snapshots] *)
Definition desired_provider_snapshots (desired : list (string * dict))
    (cap_by_id cap_by_name : list (string * Capability)) (by_name : list (string * Provider))
    (ps : list DesiredProviderSpec) : gitops (list (string * dict)) :=
  rmap fst (foldR (fun acc p =>
    let? i := declared_id "provider" "prov" (dp_id p) (dp_name p)
                (p_id <$> al_get (dp_name p) by_name) in
    let? ref := capability_ref p in
    let? owner := resolve_capability_id ref desired (names_of desired) cap_by_id cap_by_name in
    add_snapshot PROVIDER i (dp_name p) (desired_provider_snapshot i owner p) acc) ([], []) ps).

(** ** The diff *)

(** [_changes] *)
Definition changes (current desired : dict) (fields : list string) : list (string * FieldChange) :=
  omap (fun f =>
    let c := dict_get_none f current in
    let d := dict_get_none f desired in
    if py_eqb c d then None else Some (f, MkChange c d)) fields.

(** [_operation] *)
Definition operation (action : PlanAction) (etype : PlanEntityType) (snapshot : dict)
    (current desired : option dict) (chs : list (string * FieldChange)) (destructive : bool)
  : PlanOperation :=
  MkOperation action etype (py_str (dict_get_none "id" snapshot))
    (py_str (dict_get_none "name" snapshot)) current desired chs destructive.

(** One desired snapshot against the current ones. *)
Definition upsert_operation (etype : PlanEntityType) (fields : list string)
    (current : list (string * dict)) (s : string * dict) : option PlanOperation :=
  match al_get s.1 current with
  | None => Some (operation CREATE etype s.2 None (Some s.2) [] false)
  | Some cur =>
      match changes cur s.2 fields with
      | [] => None
      | chs => Some (operation UPDATE etype s.2 (Some cur) (Some s.2) chs false)
      end
  end.

(** [for i in sorted(desired): ...] *)
Definition upsert_operations (etype : PlanEntityType) (fields : list string)
    (desired current : list (string * dict)) : list PlanOperation :=
  omap (upsert_operation etype fields current) (sort_by (fun a b => String.ltb a.1 b.1) desired).

(** [for x in sorted(current, key=id): ...]: the owned entities that are no
    longer declared.  An entity comes with its id and whether it is owned. *)
Definition delete_operations (etype : PlanEntityType) (desired current : list (string * dict))
    (entities : list (string * bool)) : list PlanOperation :=
  omap (fun e : string * bool =>
    match al_get e.1 desired with
    | Some _ => None
    | None =>
        if e.2 then
          match al_get e.1 current with
          | Some cur => Some (operation DELETE etype cur (Some cur) None [] true)
          | None => None
          end
        else None
    end) (sort_by (fun a b => String.ltb a.1 b.1) entities).

(** [_is_yaml_owned] *)
Definition capability_yaml_owned (c : Capability) : bool :=
  match c_source c, c_last_applied_yaml_hash c with YAML, _ | _, Some _ => true | _, None => false end.
Definition provider_yaml_owned (p : Provider) : bool :=
  String.eqb (p_source p) (enum_value YAML) ||
  match p_last_applied_yaml_hash p with Some _ => true | None => false end.

(** What the plan is computed from. *)
Definition desired_snapshots (d : DesiredState) (cs : list Capability) (ps : list Provider)
  : gitops (list (string * dict) * list (string * dict)) :=
  let? dcs := desired_capability_snapshots (index_by c_name cs) (d_capabilities d) in
  let? dps := desired_provider_snapshots dcs (index_by c_id cs) (index_by c_name cs)
                (index_by p_name ps) (d_providers d) in
  Ok (dcs, dps).

(** [build_reconcile_plan] *)
Definition build_reconcile_plan (d : DesiredState) (cs : list Capability) (ps : list Provider)
  : gitops (list PlanOperation) :=
  let? ds := desired_snapshots d cs ps in
  let ccs := prod_map id capability_snapshot <$> index_by c_id cs in
  let cps := prod_map id provider_snapshot <$> index_by p_id ps in
  Ok (upsert_operations CAPABILITY CAPABILITY_FIELDS ds.1 ccs ++
      upsert_operations PROVIDER PROVIDER_FIELDS ds.2 cps ++
      delete_operations PROVIDER ds.2 cps ((fun p => (p_id p, provider_yaml_owned p)) <$> ps) ++
      delete_operations CAPABILITY ds.1 ccs ((fun c => (c_id c, capability_yaml_owned c)) <$> cs)).

Example slug_ex : id_from_name "cap" "--LLM.Qwen3  32b!" = Ok "cap_llm_qwen3_32b".
Proof. reflexivity. Qed.
Example slug_ex2 : id_from_name "prov" "???" =
  Err (GitOpsConfigError "prov id cannot be generated from an empty name").
Proof. reflexivity. Qed.
Example reject_duplicates_ex : reject_duplicates "provider name" ["b"; "a"; "b"; "c"; "a"] =
  Err (GitOpsConfigError "duplicate provider name: a, b").
Proof. reflexivity. Qed.
