(* ===== verification/GitOps.v ===== *)
(** * GitOps: applying a plan ([gitops/reconcile.py])

    The repositories are reached through an interface, the [Repository]
    record, whose laws the tables of [Registry] satisfy.  [apply_plan] runs
    the operations one after the other; each is several statements that
    commit on their own, and an error leaves the earlier ones applied. *)

From S2P Require Import Prelude PyFloat PyValue PyEq PyFormat Effects Enums Provider Registry GitOpsPlan.

(** Definitions *)

(** A statement of the registry as a step of the reconciler. *)
Definition stmt {A} (m : eff registry registry_error A) : eff registry gitops_error A :=
  fun db => match m db with
            | (db', Ok a) => (db', Ok a)
            | (db', Err e) => (db', Err (Refused e))
            end.

(** ** [CapabilityRepositoryLike] and [ProviderRepositoryLike] *)
Record Repository (T : Type) : Type := MkRepository {
  label : PlanEntityType;
  repo_get : string -> eff registry gitops_error (option T);
  repo_create : T -> eff registry gitops_error T;
  repo_switch : bool -> datetime -> string -> eff registry gitops_error (option T);
  repo_enabled : T -> bool;
  from_snapshot : dict -> datetime -> option T -> gitops T;
}.
Arguments MkRepository {T}.
Arguments label {T}.
Arguments repo_get {T}.
Arguments repo_create {T}.
Arguments repo_switch {T}.
Arguments repo_enabled {T}.
Arguments from_snapshot {T}.

(** ** Building models from snapshots *)

(** A [str] field: pydantic strips it. *)
Definition text_field (s : dict) (k : string) : gitops string :=
  let t := strip (py_str (dict_get_none k s)) in
  if nonempty t then Ok t else Err (ModelInvalid k).

(** [_optional_string] *)
Definition optional_string (v : pyval) : option string :=
  match v with
  | VNone => None
  | _ => truthy_str (Some (strip (py_str v)))
  end.

(** [_json_object] *)
Definition json_object (v : pyval) (field_name : string) : gitops dict :=
  match as_dict v with
  | Some m => Ok m
  | None => Err (GitOpsConfigError (field_name +:+ " must be an object"))
  end.

(** [_list_value] *)
Definition list_value (v : pyval) : gitops (list pyval) :=
  match v with
  | VList l => Ok l
  | _ => Err (GitOpsConfigError "expected a list value in GitOps snapshot")
  end.

(** [Cls(str(value))] *)
Definition enum_field {T} `{StrEnum T} (v : pyval) (k : string) : gitops T :=
  match enum_of_value (py_str v) with Some m => Ok m | None => Err (ModelInvalid k) end.

(** A [NonNegativeInt] field holding an integer. *)
Definition count_value (v : pyval) (k : string) : gitops Z :=
  match v with
  | VInt z => if 0 <=? z then Ok z else Err (ModelInvalid k)
  | _ => Err (ModelInvalid k)
  end.

(** [CapabilityDefaults.model_validate], on the fields [model_dump] writes. *)
Definition load_defaults (v : pyval) : gitops CapabilityDefaults :=
  match as_dict v with
  | None => Err (ModelInvalid "defaults")
  | Some m =>
      let? e := count_value (dict_get_none "execution_timeout_ms" m) "execution_timeout_ms" in
      let? t := count_value (dict_get_none "ttl_ms" m) "ttl_ms" in
      let? r := enum_field (dict_get_none "result_delivery" m) "result_delivery" in
      Ok (MkDefaults e t r)
  end.

(** [_capability_from_snapshot] *)
Definition capability_from_snapshot (s : dict) (now : datetime) (existing : option Capability)
  : gitops Capability :=
  let? i := text_field s "id" in
  let? nm := text_field s "name" in
  let? version := text_field s "version" in
  let? cls := enum_field (dict_get_none "class" s) "class" in
  let? input := json_object (dict_get_none "input_schema" s) "capability.input_schema" in
  let? output := json_object (dict_get_none "output_schema" s) "capability.output_schema" in
  let? defaults := load_defaults (dict_get_none "defaults" s) in
  let? mode := enum_field (dict_get_none "cost_mode" s) "cost_mode" in
  let? hints := list_value (dict_get_none "hints_supported" s) in
  let? hints := mapR (fun h => enum_field h "hints_supported") hints in
  let? source := enum_field (dict_get_none "source" s) "source" in
  Ok (MkCapability i nm version cls (optional_string (dict_get_none "description" s)) input output
        defaults mode hints source (optional_string (dict_get_none "last_applied_yaml_hash" s))
        (py_bool (dict_get_none "enabled" s))
        match existing with Some c => c_created_at c | None => now end now).

(** [_provider_from_snapshot] *)
Definition provider_from_snapshot (s : dict) (now : datetime) (existing : option Provider)
  : gitops Provider :=
  let? i := text_field s "id" in
  let? owner := text_field s "capability_id" in
  let? nm := text_field s "name" in
  let? ptype := enum_field (dict_get_none "provider_type" s) "provider_type" in
  let? config := json_object (dict_get_none "config" s) "provider.config" in
  let? prio := match py_int (dict_get_none "priority" s) with
               | Ok z => count_value (VInt z) "priority"
               | Err _ => Err (ModelInvalid "priority")
               end in
  let? source := enum_field (T:=CapabilitySource) (dict_get_none "source" s) "source" in
  let keep {A} (f : Provider -> A) (d : A) := match existing with Some p => f p | None => d end in
  Ok (MkProvider i owner nm ptype
        (optional_string (dict_get_none "runpod_endpoint_id" s))
        (optional_string (dict_get_none "runpod_template_id" s))
        (optional_string (dict_get_none "region" s)) (optional_string (dict_get_none "cloud_type" s))
        config prio (py_bool (dict_get_none "enabled" s))
        (keep p_health_status "unknown") (keep p_consecutive_failures 0) (keep p_cooldown_trips 0)
        (keep p_cold_start_p50_ms None) (keep p_cold_start_p95_ms None)
        (keep p_recent_error_rate fzero) (keep p_cooldown_until None) (enum_value source)
        (optional_string (dict_get_none "last_applied_yaml_hash" s)) now).

Definition capability_repo : Repository Capability :=
  MkRepository CAPABILITY (fun i => stmt (get_capability i)) (fun c => stmt (create_capability c))
    (fun b now i => stmt (switch_capability b now i)) c_enabled capability_from_snapshot.

Definition provider_repo : Repository Provider :=
  MkRepository PROVIDER (fun i => stmt (get_provider i)) (fun p => stmt (create_provider p))
    (fun b now i => stmt (switch_provider b now i)) p_enabled provider_from_snapshot.

(** ** One operation *)

(** [_require_desired] *)
Definition require_desired (o : PlanOperation) : gitops dict :=
  match op_desired o with
  | Some s => Ok s
  | None => Err (GitOpsConfigError (enum_value (op_action o) +:+ " " +:+ enum_value (op_entity_type o)
                                    +:+ " " +:+ op_entity_id o +:+ " has no desired snapshot"))
  end.

(** [_has_non_enabled_change] *)
Definition has_non_enabled_change (o : PlanOperation) : bool :=
  existsb (fun c => negb (String.eqb c.1 "enabled")) (op_changes o).

(** [_enable_*] and [_disable_*] *)
Definition switch {T} (r : Repository T) (enabled : bool) (now : datetime) (i : string)
  : eff registry gitops_error unit :=
  do! x := repo_switch r enabled now i in
  match x with
  | Some _ => ret tt
  | None => fail (GitOpsConfigError ("cannot " +:+ (if enabled then "enable" else "disable") +:+
                                     " missing " +:+ enum_value (label r) +:+ ": " +:+ i))
  end.

(** [_apply_capability_operation] and [_apply_provider_operation] *)
Definition apply_entity_operation {T} (r : Repository T) (now : datetime) (o : PlanOperation)
  : eff registry gitops_error unit :=
  if bool_decide (op_action o = DELETE) then switch r false now (op_entity_id o)
  else
    do! desired := lift (require_desired o) in
    do! existing := repo_get r (op_entity_id o) in
    if bool_decide (op_action o = UPDATE) && negb (bool_decide (is_Some existing))
    then fail (GitOpsConfigError ("cannot update missing " +:+ enum_value (label r) +:+ ": " +:+
                                  op_entity_id o))
    else
      do! _ := if bool_decide (op_action o = CREATE) || has_non_enabled_change o then
                 do! x := lift (from_snapshot r desired now existing) in
                 do! _ := repo_create r x in ret tt
               else ret tt in
      let desired_enabled := py_bool (dict_get_none "enabled" desired) in
      let current_enabled := match existing with Some x => repo_enabled r x | None => true end in
      if Bool.eqb desired_enabled current_enabled then ret tt
      else switch r desired_enabled now (op_entity_id o).

(** [_apply_operation] *)
Definition apply_operation (now : datetime) (o : PlanOperation) : eff registry gitops_error unit :=
  match op_entity_type o with
  | CAPABILITY => apply_entity_operation capability_repo now o
  | PROVIDER => apply_entity_operation provider_repo now o
  end.

(** ** [apply_plan] *)

Record GitOpsApplyResult : Type := MkApplied {
  ga_dry_run : bool;
  ga_applied : bool;
  ga_applied_operations : list string;
}.

(** The record handed to the audit writer. *)
Definition gitops_audit (actor : string) (reason : option string) (o : PlanOperation) : audit_row :=
  MkAudit actor ("gitops:" +:+ enum_value (op_action o)) (enum_value (op_entity_type o))
    (op_entity_id o) (op_current o) (op_desired o) reason.

Section Apply.
(** The audit writer is an argument; its default is [Registry.insert_audit]. *)
Variable audit_writer : audit_row -> eff registry gitops_error audit_row.
Variable now : datetime.

Definition apply_and_audit (actor : string) (reason : option string) (o : PlanOperation)
  : eff registry gitops_error string :=
  do! _ := apply_operation now o in
  do! _ := audit_writer (gitops_audit actor reason o) in
  ret (enum_value (op_action o) +:+ ":" +:+ enum_value (op_entity_type o) +:+ ":" +:+ op_entity_id o).

Definition apply_plan (ops : list PlanOperation) (has_pool dry_run allow_delete : bool)
    (actor : string) (reason : option string) : eff registry gitops_error GitOpsApplyResult :=
  if dry_run then ret (MkApplied true false [])
  else if has_destructive_changes ops && negb allow_delete
  then fail (GitOpsDestructiveChangeError
               "plan contains delete operations; pass allow_delete=True to apply")
  else if negb has_pool then fail (GitOpsConfigError "pool is required when applying a GitOps plan")
  else
    do! applied := traverse (apply_and_audit actor reason) ops in
    ret (MkApplied false true applied).
End Apply.

(** The default audit writer, on the registry's own audit table. *)
Definition registry_audit (a : audit_row) : eff registry gitops_error audit_row :=
  stmt (insert_audit a).
