(* ===== verification/GitOpsProofs.v ===== *)
(** * GitOps: what a plan and its application guarantee

    The laws of the repositories, then the theorems: nothing is deleted
    without approval, applying a plan reaches the desired state and planning
    again finds nothing to create or update, and what the audit table does to
    the default writer. *)

From Stdlib Require Import Ascii.
From S2P Require Import Prelude PyFloat PyValue PyEq PyJson PyFormat Effects Enums Provider Registry.
From S2P Require Import GitOpsPlan GitOps.

(** Definitions *)

(** The current lists a plan is made from hold every row once, in any
    order. *)
Definition lists_all {T} (table : gmap string T) (l : list T) : Prop :=
  l ≡ₚ (map_to_list table).*2.

(** Fields other than [ks] are equal. *)
Definition agree_except (ks fields : list string) (cur des : dict) : Prop :=
  forall f, f ∈ fields -> f ∉ ks -> py_eqb (dict_get_none f cur) (dict_get_none f des) = true.

(** Text pydantic leaves alone in a non-empty field. *)
Definition clean (s : string) : Prop := strip s = s /\ nonempty s = true.
Definition clean_opt (o : option string) : Prop := match o with Some s => clean s | None => True end.

(** A JSON object that reading back leaves equal. *)
Definition json_stable (m : dict) : Prop :=
  exists n, jsonb_dict m = Some n /\ py_eqb (VDict n) (VDict m) = true.

(** Declarations whose fields survive being stored: no empty or unstripped
    text, objects that PostgreSQL returns unchanged, counts in range. *)
Record capability_storable (c : DesiredCapabilitySpec) : Prop := {
  dc_id_clean : clean_opt (dc_id c);
  dc_name_clean : clean (dc_name c);
  dc_version_clean : clean (dc_version c);
  dc_description_clean : clean_opt (dc_description c);
  dc_hash_clean : clean (dc_yaml_hash c);
  dc_input_stable : json_stable (dc_input_schema c);
  dc_output_stable : json_stable (dc_output_schema c);
  dc_timeout_nonneg : 0 <= cd_execution_timeout_ms (dc_defaults c);
  dc_ttl_nonneg : 0 <= cd_ttl_ms (dc_defaults c);
}.

Record provider_storable (p : DesiredProviderSpec) : Prop := {
  dp_id_clean : clean_opt (dp_id p);
  dp_name_clean : clean (dp_name p);
  dp_endpoint_clean : clean_opt (dp_runpod_endpoint_id p);
  dp_template_clean : clean_opt (dp_runpod_template_id p);
  dp_region_clean : clean_opt (dp_region p);
  dp_cloud_clean : clean_opt (dp_cloud_type p);
  dp_hash_clean : clean (dp_yaml_hash p);
  dp_priority_range : 0 <= dp_priority p < 2 ^ 31;
  dp_cloud_known : cloud_type_known (dp_cloud_type p) = true;
  dp_config_stored : exists n,
    jsonb_dict (dp_config p) = Some n /\ py_eqb (VDict n) (VDict (dp_config p)) = true /\
    gpu_types_canonical n = true /\
    (blank_text n "volume_id" && blank_text n "networkVolumeId") ||
      bool_decide (dp_cloud_type p = Some "SECURE") = true;
}.

(** Rows as the tables hold them. *)
Record rows_sound (db : registry) : Prop := {
  rows_wf : registry_wf db;
  capability_ids_clean : forall i, is_Some (capabilities db !! i) -> clean i;
  provider_ids_clean : forall i, is_Some (providers db !! i) -> clean i;
  provider_rows : forall i p, providers db !! i = Some p ->
    provider_ints p = true /\ is_Some (real4 (p_recent_error_rate p)) /\
    0 <= p_consecutive_failures p /\ 0 <= p_cooldown_trips p;
}.

(** ** [==] on the values of snapshots *)

Lemma py_eqb_str s : py_eqb (VStr s) (VStr s) = true.
Proof. apply String.eqb_refl. Qed.
Lemma deqb_refl d : PyDecimal.deqb d d = true.
Proof. by apply PyDecimal.deqb_spec. Qed.
Lemma py_eqb_int z : py_eqb (VInt z) (VInt z) = true.
Proof. apply deqb_refl. Qed.
Lemma py_eqb_bool b : py_eqb (VBool b) (VBool b) = true.
Proof. apply deqb_refl. Qed.
Lemma py_eqb_bool_inv b c : py_eqb (VBool b) (VBool c) = true -> b = c.
Proof. by destruct b, c. Qed.
Lemma py_eqb_opt o : py_eqb (opt_str o) (opt_str o) = true.
Proof. destruct o; [apply py_eqb_str|done]. Qed.
Lemma py_eqb_hints hs : py_eqb (hint_values hs) (hint_values hs) = true.
Proof. unfold hint_values. induction hs as [|h hs IH]; [done|]. destruct h; exact IH. Qed.
Lemma py_eqb_defaults d : py_eqb (dump_defaults d) (dump_defaults d) = true.
Proof.
  destruct d as [e t r]. cbn -[PyDecimal.deqb]. rewrite !deqb_refl. by destruct r.
Qed.
#[local] Hint Resolve py_eqb_str py_eqb_int py_eqb_bool py_eqb_opt py_eqb_hints py_eqb_defaults : gitops.

(** ** [_changes] *)

Lemma changes_nil cur des fields : changes cur des fields = [] <-> agree_except [] fields cur des.
Proof.
  unfold changes, agree_except. induction fields as [|f fs IH]; cbn.
  { split; [intros _ f Hf; by apply elem_of_nil in Hf|done]. }
  destruct (py_eqb (dict_get_none f cur) (dict_get_none f des)) eqn:E; cbn.
  - rewrite IH. split; intros H g Hg Hn.
    + apply elem_of_cons in Hg as [->|Hg]; [done|]. by apply H.
    + apply H; [by constructor|done].
  - split; [done|]. intros H. by rewrite H in E; [|constructor|apply not_elem_of_nil].
Qed.

Lemma changes_names cur des fields f ch :
  (f, ch) ∈ changes cur des fields -> f ∈ fields /\ py_eqb (dict_get_none f cur) (dict_get_none f des) = false.
Proof.
  unfold changes. intros (g & Hg & H)%list_elem_of_omap.
  destruct (py_eqb (dict_get_none g cur) _) eqn:E; [done|]. injection H as <- <-. done.
Qed.

Lemma changes_complete cur des fields f :
  f ∈ fields -> py_eqb (dict_get_none f cur) (dict_get_none f des) = false ->
  exists ch, (f, ch) ∈ changes cur des fields.
Proof.
  intros Hf E. eexists. apply list_elem_of_omap. exists f. split; [done|]. cbv zeta. by rewrite E.
Qed.

(** An update that changes nothing but [enabled]. *)
Lemma only_enabled cur des fields action etype snap c d :
  has_non_enabled_change (operation action etype snap c d (changes cur des fields) false) = false ->
  agree_except ["enabled"] fields cur des.
Proof.
  unfold has_non_enabled_change. cbn [op_changes operation]. intros H f Hf Hn.
  destruct (py_eqb (dict_get_none f cur) (dict_get_none f des)) eqn:E; [done|]. exfalso.
  destruct (changes_complete _ _ _ _ Hf E) as [ch Hc].
  assert (existsb (fun c0 : string * FieldChange => negb (String.eqb c0.1 "enabled"))
            (changes cur des fields) = true) as Ht; [|congruence].
  apply existsb_exists. exists (f, ch). split; [by apply list_elem_of_In|]. cbn.
  apply negb_true_iff, String.eqb_neq. intros ->. apply Hn. constructor.
Qed.

Lemma agree_none fields cur des :
  agree_except ["enabled"] fields cur des ->
  py_eqb (dict_get_none "enabled" cur) (dict_get_none "enabled" des) = true ->
  changes cur des fields = [].
Proof.
  intros H He. apply changes_nil. intros f Hf _. destruct (decide (f = "enabled")) as [->|Hne]; [done|].
  apply H; [done|]. by intros ->%list_elem_of_singleton.
Qed.

(** ** Indexes and declared snapshots *)

Section Index.
Context {A : Type} (key : A -> string).

Lemma index_by_snoc l x : index_by key (l ++ [x]) = al_set (key x) x (index_by key l).
Proof. unfold index_by. by rewrite foldl_app. Qed.

Lemma index_by_Some l k x : al_get k (index_by key l) = Some x -> x ∈ l /\ key x = k.
Proof.
  induction l as [|y l IH] using rev_ind; [done|]. rewrite index_by_snoc.
  destruct (decide (k = key y)) as [->|Hne].
  - rewrite al_get_set. intros [= ->]. split; [set_solver|done].
  - rewrite al_get_set_ne by done. intros [? ?]%IH. split; [set_solver|done].
Qed.

Lemma index_by_elem l x :
  (forall y z, y ∈ l -> z ∈ l -> key y = key z -> y = z) -> x ∈ l ->
  al_get (key x) (index_by key l) = Some x.
Proof.
  induction l as [|y l IH] using rev_ind; intros Hu Hx; [by apply elem_of_nil in Hx|].
  rewrite index_by_snoc. destruct (decide (key x = key y)) as [E|Hne].
  - rewrite E, al_get_set. f_equal. apply Hu; [set_solver|done|done].
  - rewrite al_get_set_ne by done. apply IH.
    + intros ? ? ? ?. apply Hu; set_solver.
    + apply elem_of_app in Hx as [?|Hx]; [done|]. by apply list_elem_of_singleton in Hx as ->.
Qed.
End Index.

Lemma foldR_ext {E A B} (f g : B -> A -> result E B) l acc :
  (forall b x, x ∈ l -> f b x = g b x) -> foldR f acc l = foldR g acc l.
Proof.
  revert acc. induction l as [|x l IH]; intros acc H; cbn; [done|].
  rewrite H by constructor. destruct (g acc x); cbn; [|done]. apply IH. intros. apply H. by constructor.
Qed.

Definition name_in (s : dict) : string := py_str (dict_get_none "name" s).

(** Both loops over declarations add one snapshot per declaration, under the
    id the declaration gets. *)
Section Declared.
Context {A : Type} (etype : PlanEntityType) (decl : A -> string -> dict -> Prop) (nm : A -> string)
  (step : list (string * dict) * list (string * string) -> A ->
          gitops (list (string * dict) * list (string * string))).
Hypothesis step_spec : forall acc x acc', step acc x = Ok acc' ->
  exists i s, decl x i s /\ add_snapshot etype i (nm x) s acc = Ok acc'.
Hypothesis decl_name : forall x i s, decl x i s -> name_in s = nm x.

Lemma add_snapshot_Ok i n snap acc acc' :
  add_snapshot etype i n snap acc = Ok acc' ->
  al_get i acc.1 = None /\ al_get n acc.2 = None /\ acc' = (al_set i snap acc.1, al_set n i acc.2).
Proof.
  destruct acc as [ss ns]. cbn. destruct (al_get i ss) eqn:E1; [done|].
  destruct (al_get n ns) eqn:E2; [done|]. by intros [= <-].
Qed.

(** Ids are keys, and no two of them share a name. *)
Definition named (acc : list (string * dict) * list (string * string)) : Prop :=
  al_wf acc.1 /\ forall i s, al_get i acc.1 = Some s -> al_get (name_in s) acc.2 = Some i.

Lemma step_named acc x acc' : named acc -> step acc x = Ok acc' -> named acc'.
Proof.
  intros [Hw Hn] (i & s & Hd & (E1 & E2 & ->)%add_snapshot_Ok)%step_spec. split; cbn; [by apply al_set_wf|].
  intros j t. destruct (decide (j = i)) as [->|Hne].
  - rewrite al_get_set. intros [= <-]. by rewrite (decl_name _ _ _ Hd), al_get_set.
  - rewrite al_get_set_ne by done. intros Hj%Hn.
    rewrite al_get_set_ne; [done|]. intros E. rewrite E in Hj. congruence.
Qed.

Lemma declared_all l acc acc' :
  named acc -> foldR step acc l = Ok acc' ->
  named acc' /\
  (forall i s, al_get i acc.1 = Some s -> al_get i acc'.1 = Some s) /\
  (forall x, x ∈ l -> exists i s, decl x i s /\ al_get i acc'.1 = Some s) /\
  (forall i s, al_get i acc'.1 = Some s -> al_get i acc.1 = Some s \/ exists x, x ∈ l /\ decl x i s).
Proof.
  revert acc. induction l as [|x l IH]; intros acc Hn; cbn.
  { intros [= <-]. split; [done|]. split; [done|]. split; [by intros ? ?%elem_of_nil|auto]. }
  intros (acc1 & H1 & H2)%rbind_Ok. pose proof (step_named _ _ _ Hn H1) as Hn1.
  destruct (IH _ Hn1 H2) as (Hn' & Hk & Hd & Hi).
  apply step_spec in H1 as (i & s & Hx & (E1 & E2 & ->)%add_snapshot_Ok). cbn in *.
  split; [done|]. split.
  { intros j t Hj. apply Hk. rewrite al_get_set_ne; [done|]. intros ->. congruence. }
  split.
  - intros y [->|Hy]%elem_of_cons; [|by apply Hd]. exists i, s. split; [done|].
    apply Hk, al_get_set.
  - intros j t Hj. destruct (Hi j t Hj) as [Hj'|(y & Hy & ?)].
    + destruct (decide (j = i)) as [->|Hne].
      * rewrite al_get_set in Hj'. injection Hj' as <-. right. exists x. split; [constructor|done].
      * rewrite al_get_set_ne in Hj' by done. by left.
    + right. exists y. split; [by constructor|done].
Qed.

Lemma declared_from_nil l acc' :
  foldR step ([], []) l = Ok acc' ->
  named acc' /\
  (forall x, x ∈ l -> exists i s, decl x i s /\ al_get i acc'.1 = Some s) /\
  (forall i s, al_get i acc'.1 = Some s -> exists x, x ∈ l /\ decl x i s).
Proof.
  intros H. apply declared_all in H as (Hn & _ & Hd & Hi); [|by split; [constructor|]].
  split; [done|]. split; [done|]. intros i s [?|?]%Hi; done.
Qed.
End Declared.

(** ** What the reconciler relies on of a repository

    [view] is the table behind it, [frame] says that the other table is
    untouched, and switching changes nothing but [enabled] of a snapshot. *)
Class LawfulRepository {T} (r : Repository T) := {
  view : registry -> gmap string T;
  frame : registry -> registry -> Prop;
  snapshot_of : T -> dict;
  frame_refl s : frame s s;
  frame_trans s t u : frame s t -> frame t u -> frame s u;
  get_law i s : repo_get r i s = (s, Ok (view s !! i));
  enabled_law x : dict_get_none "enabled" (snapshot_of x) = VBool (repo_enabled r x);
  switch_law b now i s x :
    view s !! i = Some x -> dict_get_none "id" (snapshot_of x) = VStr i ->
    exists s' x', repo_switch r b now i s = (s', Ok (Some x')) /\ view s' = <[i := x']> (view s) /\
      frame s s' /\ repo_enabled r x' = b /\
      forall f, f <> "enabled" -> dict_get_none f (snapshot_of x') = dict_get_none f (snapshot_of x);
}.

Definition other_than_capabilities (s t : registry) : Prop :=
  providers s = providers t.
Definition other_than_providers (s t : registry) : Prop :=
  capabilities s = capabilities t.

Lemma neq_field f k : f <> k -> String.eqb f k = false.
Proof. apply String.eqb_neq. Qed.

#[global] Program Instance capability_repo_lawful : LawfulRepository capability_repo := {
  view := capabilities; frame := other_than_capabilities; snapshot_of := capability_snapshot;
}.
Next Obligation. done. Qed.
Next Obligation. intros s t u H1 H2. exact (eq_trans H1 H2). Qed.
Next Obligation. done. Qed.
Next Obligation. done. Qed.
Next Obligation.
  intros b now i s x Hx [= Hid]. cbn [repo_switch capability_repo]. unfold stmt, switch_capability.
  rewrite Hx. cbv zeta. eexists _, _. split; [done|]. cbn.
  split; [by rewrite Hid|]. split; [done|]. split; [done|].
  intros f Hf. unfold dict_get_none, capability_snapshot. cbn. by rewrite (neq_field _ _ Hf).
Qed.

#[global] Program Instance provider_repo_lawful : LawfulRepository provider_repo := {
  view := providers; frame := other_than_providers; snapshot_of := provider_snapshot;
}.
Next Obligation. done. Qed.
Next Obligation. intros s t u H1 H2. exact (eq_trans H1 H2). Qed.
Next Obligation. done. Qed.
Next Obligation. done. Qed.
Next Obligation.
  intros b now i s x Hx [= Hid]. cbn [repo_switch provider_repo]. unfold stmt, switch_provider.
  rewrite Hx. cbv zeta. eexists _, _. split; [done|]. cbn.
  split; [by rewrite Hid|]. split; [done|]. split; [done|].
  intros f Hf. unfold dict_get_none, provider_snapshot. cbn. by rewrite (neq_field _ _ Hf).
Qed.

(** ** One operation brings its row to the declaration *)
Section Settle.
Context {T : Type} (r : Repository T) `{!LawfulRepository r}.

(** A successful upsert of the desired snapshot [d] at [i]. *)
Definition upserts (now : datetime) (fields : list string) (i : string) (d : dict) (s : registry) : Prop :=
  exists x x' s1,
    from_snapshot r d now (view s !! i) = Ok x /\ repo_create r x s = (s1, Ok x') /\
    view s1 = <[i := x']> (view s) /\ frame s s1 /\
    agree_except ["enabled"] fields (snapshot_of x') d /\
    dict_get_none "id" (snapshot_of x') = VStr i /\
    match view s !! i with
    | Some old => repo_enabled r x' = repo_enabled r old
    | None => repo_enabled r x' = true \/ VBool (repo_enabled r x') = dict_get_none "enabled" d
    end.

Lemma switch_run b now i s x :
  view s !! i = Some x -> dict_get_none "id" (snapshot_of x) = VStr i ->
  exists s' x', switch r b now i s = (s', Ok tt) /\ view s' = <[i := x']> (view s) /\ frame s s' /\
    repo_enabled r x' = b /\
    forall f, f <> "enabled" -> dict_get_none f (snapshot_of x') = dict_get_none f (snapshot_of x).
Proof.
  intros Hx Hid. destruct (switch_law b now i s x Hx Hid) as (s' & x' & E & ? & ? & ? & ?).
  exists s', x'. unfold switch. by rewrite (bind_run _ _ _ _ _ E).
Qed.

Lemma agree_except_ext ks fields a b d :
  (forall f, f ∉ ks -> dict_get_none f a = dict_get_none f b) ->
  agree_except ks fields b d -> agree_except ks fields a d.
Proof. intros He H f Hf Hn. rewrite He by done. by apply H. Qed.

(** Settling [enabled] after the row agrees with [d] elsewhere. *)
Lemma settle_enabled now fields i d s x b :
  view s !! i = Some x -> dict_get_none "id" (snapshot_of x) = VStr i ->
  agree_except ["enabled"] fields (snapshot_of x) d ->
  dict_get_none "enabled" d = VBool b ->
  forall cur, (cur = repo_enabled r x \/ b = cur /\ repo_enabled r x = b \/ cur <> b) ->
  exists s' x', (if Bool.eqb b cur then ret tt else switch r b now i) s = (s', Ok tt) /\
    view s' = <[i := x']> (view s) /\ frame s s' /\ changes (snapshot_of x') d fields = [] /\
    dict_get_none "id" (snapshot_of x') = VStr i.
Proof.
  intros Hx Hid Ha Hb cur Hc. destruct (Bool.eqb b cur) eqn:E.
  - apply Bool.eqb_prop in E as ->. exists s, x. split; [done|].
    rewrite (insert_id _ _ _ Hx). split; [done|]. split; [apply frame_refl|]. split; [|done].
    apply agree_none; [done|]. rewrite enabled_law, Hb.
    assert (repo_enabled r x = cur) as -> by (destruct Hc as [?|[[_ ?]|?]]; congruence).
    apply py_eqb_bool.
  - destruct (switch_run b now i s x Hx Hid) as (s' & x' & Er & Hv & Hf & He & Hs).
    exists s', x'. split; [done|]. split; [done|]. split; [done|]. split.
    + apply agree_none; [|rewrite enabled_law, Hb, He; apply py_eqb_bool].
      eapply agree_except_ext; [|exact Ha]. intros f Hn. apply Hs. intros ->. apply Hn. constructor.
    + by rewrite Hs.
Qed.

Lemma settle now fields i d b s cur o :
  upsert_operation (label r) fields cur (i, d) = Some o ->
  al_get i cur = snapshot_of <$> view s !! i ->
  dict_get_none "id" d = VStr i -> dict_get_none "enabled" d = VBool b ->
  (forall x, view s !! i = Some x -> dict_get_none "id" (snapshot_of x) = VStr i) ->
  upserts now fields i d s ->
  exists s' x', apply_entity_operation r now o s = (s', Ok tt) /\ view s' = <[i := x']> (view s) /\
    frame s s' /\ changes (snapshot_of x') d fields = [] /\
    dict_get_none "id" (snapshot_of x') = VStr i.
Proof.
  unfold upsert_operation. cbn [fst snd]. intros Ho Hcur Hid Hb Hids Hup.
  rewrite Hcur in Ho. unfold apply_entity_operation. unfold bind, lift.
  destruct (view s !! i) as [old|] eqn:Ev; cbn [fmap option_fmap option_map] in Ho.
  - destruct (changes (snapshot_of old) d fields) as [|ch chs] eqn:Ec; [done|].
    rewrite <- Ec in Ho. injection Ho as <-. cbn [op_action op_entity_id operation op_desired require_desired].
    rewrite Hid. cbn [py_str]. rewrite bool_decide_false by done. unfold require_desired.
    cbn [op_desired operation]. rewrite get_law, Ev. cbn -[has_non_enabled_change operation].
    rewrite Hb. cbn [py_bool].
    destruct (has_non_enabled_change _) eqn:En; cbn [orb].
    + destruct Hup as (x & x' & s1 & Ex & Ecr & Hv & Hf & Ha & Hxi & He). rewrite Ev in Ex, He.
      rewrite andb_false_r, orb_true_r. cbv beta iota. rewrite Ex, Ecr. unfold ret.
      destruct (settle_enabled now fields i d s1 x' b) with (cur := repo_enabled r old)
        as (s' & y & Er & Hv' & Hf' & Hc & Hi); [by rewrite Hv, lookup_insert_eq|done|done|done|by left|].
      exists s', y. unfold ret in Er. rewrite Er. split; [done|].
      rewrite Hv', Hv, insert_insert_eq. split; [done|]. split; [by eapply frame_trans|]. done.
    + destruct (settle_enabled now fields i d s old b) with (cur := repo_enabled r old)
        as (s' & y & Er & Hv' & Hf' & Hc & Hi); [done|by apply Hids|by eapply only_enabled|done|by left|].
      exists s', y. rewrite andb_false_r, (bool_decide_false (UPDATE = CREATE)) by done.
      cbn -[Bool.eqb]. unfold ret in *. by rewrite Er.
  - injection Ho as <-. cbn [op_action op_entity_id operation].
    rewrite Hid. cbn [py_str]. rewrite bool_decide_false by done. unfold require_desired.
    cbn [op_desired operation]. rewrite get_law, Ev. cbn -[has_non_enabled_change operation].
    rewrite Hb. cbn [py_bool].
    destruct Hup as (x & x' & s1 & Ex & Ecr & Hv & Hf & Ha & Hxi & He). rewrite Ev in Ex, He.
    rewrite (bool_decide_false (CREATE = UPDATE)), (bool_decide_true (CREATE = CREATE)) by done.
    cbn -[Bool.eqb]. rewrite Ex, Ecr. unfold ret.
    destruct (settle_enabled now fields i d s1 x' b) with (cur := true)
      as (s' & y & Er & Hv' & Hf' & Hc & Hi); [by rewrite Hv, lookup_insert_eq|done|done|done| |].
    { rewrite Hb in He. destruct He as [He|He]; [by left|]. injection He as He. rewrite He.
      destruct b; [right; left; done|by right; right]. }
    exists s', y. unfold ret in Er. rewrite Er. split; [done|].
    rewrite Hv', Hv, insert_insert_eq. split; [done|]. split; [by eapply frame_trans|]. done.
Qed.
End Settle.

(** ** A storable declaration can be written *)

Lemma text_field_clean s k t : dict_get_none k s = VStr t -> clean t -> text_field s k = Ok t.
Proof. unfold text_field. intros -> [E Hn]. cbn [py_str]. by rewrite E, Hn. Qed.

Lemma optional_string_clean o : clean_opt o -> optional_string (opt_str o) = o.
Proof.
  destruct o as [t|]; [|done]. intros [E Hn]. unfold optional_string. cbn [opt_str py_str].
  rewrite E. unfold truthy_str. by rewrite Hn.
Qed.

Lemma optional_string_str t : clean t -> optional_string (VStr t) = Some t.
Proof. apply (optional_string_clean (Some t)). Qed.

Lemma enum_field_value {T} `{LawfulStrEnum T} (m : T) k : enum_field (VStr (enum_value m)) k = Ok m.
Proof. unfold enum_field. cbn [py_str]. by rewrite enum_of_value_value. Qed.

Lemma load_dumped_defaults d :
  0 <= cd_execution_timeout_ms d -> 0 <= cd_ttl_ms d -> load_defaults (dump_defaults d) = Ok d.
Proof.
  destruct d as [e t r]. intros He Ht. unfold load_defaults, dict_get_none. cbn -[enum_field enum_value] in *.
  rewrite (proj2 (Z.leb_le 0 e) He), (proj2 (Z.leb_le 0 t) Ht).
  cbn -[enum_field enum_value].
  by rewrite (enum_field_value r).
Qed.

Lemma hint_fields (hs : list CapabilityHint) :
  mapR (fun h => enum_field h "hints_supported") (VStr ∘ enum_value <$> hs) = Ok hs.
Proof.
  induction hs as [|h hs IH]; [done|].
  change (VStr ∘ enum_value <$> h :: hs) with (VStr (enum_value h) :: (VStr ∘ enum_value <$> hs)).
  cbn -[enum_field enum_value]. rewrite (enum_field_value h). cbn -[enum_field enum_value].
  by rewrite IH.
Qed.

Lemma name_not_taken s c :
  (forall j x, capabilities s !! j = Some x -> c_name x = c_name c -> j = c_id c) ->
  name_taken s c = false.
Proof.
  intros H. unfold name_taken. apply not_true_iff_false. rewrite existsb_exists.
  intros ([j x] & Hin & Hb). cbn in Hb. apply andb_true_iff in Hb as [H1 H2].
  apply list_elem_of_In, elem_of_map_to_list in Hin. apply String.eqb_eq in H2.
  apply negb_true_iff, String.eqb_neq in H1. apply H1. by eapply H.
Qed.

(** Walks through the fields of a snapshot. *)
Ltac each_field f Hf :=
  repeat (apply elem_of_cons in Hf as [->|Hf]); [..|by apply elem_of_nil in Hf].

Lemma capability_upserts now i c s :
  capability_storable c -> clean i ->
  (forall j x, capabilities s !! j = Some x -> c_name x = dc_name c -> j = i) ->
  upserts capability_repo now CAPABILITY_FIELDS i (desired_capability_snapshot i c) s.
Proof.
  intros [Hid Hn Hv Hd Hh (m & Em & Hm) (n & En & Hn') Ht Htt] Hi Hu. unfold upserts.
  cbn [from_snapshot repo_create repo_enabled capability_repo view frame snapshot_of capability_repo_lawful].
  unfold capability_from_snapshot.
  rewrite (text_field_clean _ "id" i), (text_field_clean _ "name" (dc_name c)),
    (text_field_clean _ "version" (dc_version c)) by done.
  unfold dict_get_none. cbn -[enum_field enum_value mapR clean load_defaults dump_defaults optional_string].
  rewrite (enum_field_value (dc_class c)), (enum_field_value (dc_cost_mode c)), (enum_field_value YAML).
  rewrite load_dumped_defaults, optional_string_clean by done.
  cbn -[enum_field enum_value mapR optional_string]. rewrite hint_fields.
  cbn -[enum_field enum_value optional_string].
  rewrite optional_string_str by done.
  eexists _, _, _. split; [done|]. unfold stmt, create_capability, stored_capability.
  cbn -[jsonb_dict name_taken]. rewrite Em. cbn -[jsonb_dict name_taken]. rewrite En.
  cbn -[jsonb_dict name_taken]. rewrite name_not_taken by done. split; [done|].
  split; [by destruct (capabilities s !! i)|]. split; [done|].
  split; [|split; [by destruct (capabilities s !! i)|by destruct (capabilities s !! i); [|left]]].
  intros f Hf Hne. destruct (capabilities s !! i); each_field f Hf; unfold dict_get_none;
    cbn -[py_eqb hint_values dump_defaults opt_str enum_value]; eauto with gitops.
  all: first [exact (py_eqb_opt (Some _))|exfalso; apply Hne; by constructor].
Qed.

Lemma provider_upserts now i owner p s :
  provider_storable p -> clean i -> clean owner -> is_Some (capabilities s !! owner) ->
  (forall old, providers s !! i = Some old ->
     p_capability_id old = owner /\ provider_ints old = true /\ is_Some (real4 (p_recent_error_rate old)) /\
     0 <= p_consecutive_failures old /\ 0 <= p_cooldown_trips old) ->
  upserts provider_repo now PROVIDER_FIELDS i (desired_provider_snapshot i owner p) s.
Proof.
  intros [Hid Hn He Ht Hr Hc Hh Hp Hk (m & Em & Hm & Hg & Hv)] Hi Ho Hcap Hold. unfold upserts.
  cbn [from_snapshot repo_create repo_enabled provider_repo view frame snapshot_of provider_repo_lawful].
  unfold provider_from_snapshot.
  rewrite (text_field_clean _ "id" i), (text_field_clean _ "capability_id" owner),
    (text_field_clean _ "name" (dp_name p)) by done.
  unfold dict_get_none. cbn -[enum_field enum_value clean optional_string].
  rewrite (enum_field_value (dp_provider_type p)), (enum_field_value YAML).
  rewrite !optional_string_clean, optional_string_str by done.
  rewrite (proj2 (Z.leb_le 0 _) (proj1 Hp)). cbn -[enum_field enum_value].
  assert (int4 (dp_priority p) = true) as Hint by (unfold int4; lia).
  destruct (providers s !! i) as [old|] eqn:Eo.
  - destruct (Hold old eq_refl) as (Hcid & Hints & [rate Hrate] & Hf & Ht0).
    unfold provider_ints in Hints. boolify.
    eexists _, _, _. split; [done|]. unfold stmt, create_provider, stored_provider, provider_ints, provider_checks.
    cbn -[jsonb_dict real4 int4 int4_opt]. rewrite Em. cbn -[real4 int4 int4_opt]. rewrite Hrate.
    cbn -[int4 int4_opt volume_is_secure]. unfold volume_is_secure.
    repeat match goal with H : _ = true |- _ => progress rewrite H end.
    cbn -[cloud_type_known blank_text gpu_types_canonical bool_decide Z.leb].
    repeat match goal with H : _ = true |- _ => progress rewrite H end.
    rewrite (proj2 (Z.leb_le 0 _) Hf), (proj2 (Z.leb_le 0 _) Ht0). cbn. rewrite Eo.
    split; [done|]. split; [done|]. split; [done|].
    split; [|done].
    intros f Hf' Hne. each_field f Hf'; unfold dict_get_none;
      cbn -[py_eqb opt_str enum_value]; rewrite ?Hcid; eauto with gitops.
    all: first [exact (py_eqb_opt (Some _))|exfalso; apply Hne; by constructor].
  - eexists _, _, _. split; [done|]. unfold stmt, create_provider, stored_provider, provider_ints, provider_checks.
    cbn -[jsonb_dict int4]. rewrite Em. cbn -[int4 volume_is_secure]. unfold volume_is_secure.
    rewrite Hint. change (int4 0) with true. cbn -[cloud_type_known blank_text gpu_types_canonical bool_decide].
    repeat match goal with H : _ = true |- _ => progress rewrite H end.
    cbn. rewrite Eo, bool_decide_true by done.
    split; [done|]. split; [done|]. split; [done|]. split; [|split; [done|by right]].
    intros f Hf' Hne. each_field f Hf'; unfold dict_get_none;
      cbn -[py_eqb opt_str enum_value]; eauto with gitops.
    all: first [exact (py_eqb_opt (Some _))|exfalso; apply Hne; by constructor].
Qed.

(** ** Phases of a plan *)

Lemma traverse_app {S E A B} (f : A -> eff S E B) l1 l2 s s1 s2 y1 y2 :
  traverse f l1 s = (s1, Ok y1) -> traverse f l2 s1 = (s2, Ok y2) ->
  traverse f (l1 ++ l2) s = (s2, Ok (y1 ++ y2)).
Proof.
  revert s y1. induction l1 as [|x l1 IH]; intros s y1 H1 H2; [by injection H1 as <- <-|].
  apply bind_Ok in H1 as (y & s0 & Hx & (ys & s3 & Hl & [= <- <-])%bind_Ok). cbn.
  rewrite (bind_run _ _ _ _ _ Hx), (bind_run _ _ _ _ _ (IH _ _ Hl H2)). done.
Qed.

(** A loop over the operations that the elements of a list give rise to. *)
Lemma traverse_omap_Ok {S E A C B} (P : list C -> S -> Prop) (g : C -> option A) (f : A -> eff S E B) l :
  (forall x l' s, P (x :: l') s ->
     match g x with
     | None => P l' s
     | Some o => exists s' y, f o s = (s', Ok y) /\ P l' s'
     end) ->
  forall s, P l s -> exists s' ys, traverse f (omap g l) s = (s', Ok ys) /\ P [] s'.
Proof.
  intros Hf. induction l as [|x l IH]; intros s Hs; [by eexists _, _|].
  specialize (Hf x l s Hs). cbn. destruct (g x) as [o|]; [|by apply IH].
  destruct Hf as (s1 & y & E1 & H1). destruct (IH s1 H1) as (s2 & ys & E2 & H2).
  exists s2, (y :: ys). cbn. rewrite (bind_run _ _ _ _ _ E1), (bind_run _ _ _ _ _ E2). done.
Qed.

(** An audit writer that records everything and touches no registry row. *)
Definition accepts (aw : audit_row -> eff registry gitops_error audit_row) : Prop :=
  forall a s, exists s' a', aw a s = (s', Ok a') /\
    capabilities s' = capabilities s /\ providers s' = providers s.

Section Phase.
Context {T : Type} (r : Repository T) `{!LawfulRepository r}.
Context (aw : audit_row -> eff registry gitops_error audit_row) (now : datetime) (actor : string)
  (reason : option string).
Hypothesis dispatch : forall o, op_entity_type o = label r -> apply_operation now o = apply_entity_operation r now o.
Hypothesis written : forall a s, exists s' a', aw a s = (s', Ok a') /\ view s' = view s /\ frame s s'.

Local Abbreviation run := (apply_and_audit aw now actor reason).

Lemma run_step o s s1 :
  op_entity_type o = label r -> apply_entity_operation r now o s = (s1, Ok tt) ->
  exists s' y, run o s = (s', Ok y) /\ view s' = view s1 /\ frame s1 s'.
Proof.
  intros Ht H. unfold apply_and_audit. rewrite (dispatch _ Ht), (bind_run _ _ _ _ _ H).
  destruct (written (gitops_audit actor reason o) s1) as (s' & a' & Ea & ? & ?).
  rewrite (bind_run _ _ _ _ _ Ea). by eexists _, _.
Qed.

(** The row [i] is what [d] declares. *)
Definition settled (fields : list string) (i : string) (d : dict) (s : registry) : Prop :=
  exists x, view s !! i = Some x /\ changes (snapshot_of x) d fields = [] /\
    dict_get_none "id" (snapshot_of x) = VStr i.

Section Upserts.
Context (fields : list string) (snaps cur : list (string * dict)) (s0 : registry).
Hypothesis snaps_wf : al_wf snaps.
Hypothesis snaps_id : forall i (d : dict), al_get i snaps = Some d ->
  dict_get_none "id" d = VStr i /\ exists b, dict_get_none "enabled" d = VBool b.
Hypothesis cur_view : forall i, al_get i cur = snapshot_of <$> view s0 !! i.
Hypothesis view_id : forall i x, view s0 !! i = Some x -> dict_get_none "id" (snapshot_of x) = VStr i.

(** While the loop runs, a row is either as before or as declared. *)
Definition midway (s : registry) : Prop :=
  frame s0 s /\ forall i, view s !! i = view s0 !! i \/ exists d : dict, al_get i snaps = Some d /\ settled fields i d s.
Hypothesis can_write : forall s i (d : dict), midway s -> al_get i snaps = Some d -> view s !! i = view s0 !! i ->
  upserts r now fields i d s.

Definition upserting (rem : list (string * dict)) (s : registry) : Prop :=
  frame s0 s /\ NoDup rem.*1 /\ (forall i (d : dict), (i, d) ∈ rem -> al_get i snaps = Some d) /\
  (forall i, i ∈ rem.*1 \/ al_get i snaps = None -> view s !! i = view s0 !! i) /\
  (forall i (d : dict), al_get i snaps = Some d -> i ∉ rem.*1 -> settled fields i d s).

Lemma upserting_midway rem s : upserting rem s -> midway s.
Proof.
  intros (Hf & _ & _ & Hu & Hs). split; [done|]. intros i.
  destruct (al_get i snaps) as [d|] eqn:E; [|left; auto].
  destruct (decide (i ∈ rem.*1)); [left; auto|right]. exists d. split; [done|]. auto.
Qed.

Lemma settled_insert i j e s s' (x : T) :
  view s' = <[i := x]> (view s) -> i <> j -> settled fields j e s -> settled fields j e s'.
Proof. intros Hv Hne (y & Hy & ?). exists y. by rewrite Hv, lookup_insert_ne. Qed.

Lemma upsert_step i d rem s :
  upserting ((i, d) :: rem) s ->
  match upsert_operation (label r) fields cur (i, d) with
  | None => upserting rem s
  | Some o => exists s' y, run o s = (s', Ok y) /\ upserting rem s'
  end.
Proof.
  intros Hup. pose proof (upserting_midway _ _ Hup) as Hmid.
  destruct Hup as (Hf & Hnd & Hin & Hu & Hs). cbn [fmap list_fmap fst] in *.
  apply NoDup_cons in Hnd as [Hni Hnd].
  assert (al_get i snaps = Some d) as Hd by (apply Hin; constructor).
  assert (view s !! i = view s0 !! i) as Hvi by (apply Hu; left; constructor).
  destruct (snaps_id _ _ Hd) as [Hid [b Hb]].
  destruct (upsert_operation (label r) fields cur (i, d)) as [o|] eqn:Eo.
  - destruct (settle r now fields i d b s cur o Eo) as (s1 & x & Er & Hv & Hf1 & Hc & Hxi);
      [by rewrite cur_view, Hvi|done|done| |by apply can_write|].
    { intros x. rewrite Hvi. apply view_id. }
    assert (op_entity_type o = label r) as Hl.
    { unfold upsert_operation in Eo. cbn [fst snd] in Eo. destruct (al_get i cur) as [c|];
        [|by injection Eo as <-]. destruct (changes c d fields); [done|]. by injection Eo as <-. }
    destruct (run_step o s s1 Hl Er) as (s' & y & E' & Hv' & Hf').
    exists s', y. split; [done|]. rewrite Hv in Hv'. split; [|split; [done|split; [|split]]].
    + eapply frame_trans; [exact Hf|]. eapply frame_trans; done.
    + intros j e Hj. apply Hin. by constructor.
    + intros j Hj. rewrite Hv'. destruct (decide (i = j)) as [<-|Hne].
      { destruct Hj as [?|?]; [done|congruence]. }
      rewrite lookup_insert_ne by done. apply Hu. destruct Hj; [left; by constructor|by right].
    + intros j e He Hj. destruct (decide (i = j)) as [<-|Hne].
      * exists x. rewrite Hv', lookup_insert_eq. rewrite Hd in He. injection He as <-. done.
      * eapply settled_insert; [done|done|]. apply Hs; [done|]. rewrite elem_of_cons.
        intros [?|?]; congruence.
  - split; [done|]. split; [done|]. split; [intros; apply Hin; by constructor|].
    split; [intros j [?|?]; apply Hu; [left; by constructor|by right]|].
    intros j e He Hj. destruct (decide (i = j)) as [<-|Hne].
    + rewrite Hd in He. injection He as <-. unfold upsert_operation in Eo. cbn [fst snd] in Eo.
      rewrite cur_view, <- Hvi in Eo. destruct (view s !! i) as [x|] eqn:Ex; [|done]. cbn in Eo.
      destruct (changes (snapshot_of x) d fields) eqn:Ec; [|done]. exists x.
      split; [done|]. split; [done|]. apply view_id. by rewrite <- Hvi.
    + apply Hs; [done|]. rewrite elem_of_cons. intros [?|?]; congruence.
Qed.

(** The loop settles every declaration and leaves the other rows alone. *)
Lemma upsert_phase :
  exists s' ys, traverse run (upsert_operations (label r) fields snaps cur) s0 = (s', Ok ys) /\
    frame s0 s' /\ (forall i d, al_get i snaps = Some d -> settled fields i d s') /\
    (forall i, al_get i snaps = None -> view s' !! i = view s0 !! i).
Proof.
  unfold upsert_operations.
  destruct (traverse_omap_Ok upserting (upsert_operation (label r) fields cur) run
              (sort_by (fun a b => String.ltb a.1 b.1) snaps)) with (s := s0)
    as (s' & ys & E & (Hf & _ & _ & Hu & Hs)).
  - intros [i d] rem s. apply upsert_step.
  - split; [apply frame_refl|]. split; [by rewrite sort_by_perm|]. split.
    { intros i d Hi. apply al_get_elem; [done|]. by rewrite sort_by_perm in Hi. }
    split; [done|]. intros i d Hd Hni. exfalso. apply Hni.
    rewrite sort_by_perm. apply list_elem_of_fmap. exists (i, d). split; [done|].
    by apply al_get_Some_elem.
  - exists s', ys. split; [done|]. split; [done|]. split.
    + intros i d Hd. apply Hs; [done|]. cbn. apply not_elem_of_nil.
    + intros i Hi. apply Hu. by right.
Qed.
End Upserts.

Section Deletes.
Context (snaps cur : list (string * dict)) (entities : list (string * bool)) (s0 : registry).
Hypothesis cur_view : forall i, al_get i snaps = None -> al_get i cur = snapshot_of <$> view s0 !! i.
Hypothesis view_id : forall i x, view s0 !! i = Some x -> dict_get_none "id" (snapshot_of x) = VStr i.

Definition same_but_enabled (x y : T) : Prop :=
  forall f, f <> "enabled" -> dict_get_none f (snapshot_of y) = dict_get_none f (snapshot_of x).

Hypothesis entities_view : forall i b, (i, b) ∈ entities -> is_Some (view s0 !! i).

(** Declared rows are as they were and so are those that are not owned; the
    others changed in [enabled] at most, and those the loop is past are
    disabled. *)
Definition pruned (rem : list (string * bool)) (s : registry) : Prop :=
  frame s0 s /\ (forall i, al_get i snaps <> None \/ (i, true) ∉ entities -> view s !! i = view s0 !! i) /\
  (forall i, option_Forall2 same_but_enabled (view s0 !! i) (view s !! i)) /\
  (forall i, (i, true) ∈ entities -> (i, true) ∉ rem -> al_get i snaps = None ->
     exists y, view s !! i = Some y /\ repo_enabled r y = false) /\
  (forall e, e ∈ rem -> e ∈ entities).

(** An entity that needs no operation. *)
Lemma pruned_skip e rem s :
  (al_get e.1 snaps <> None \/ e.2 = false) -> pruned (e :: rem) s -> pruned rem s.
Proof.
  intros He (Hf & Hd & Hs & Hp & Hin). split; [done|]. split; [done|]. split; [done|].
  split; [|intros x Hx; apply Hin; by constructor].
  intros i Hi Hr Hn. apply Hp; [done| |done]. rewrite elem_of_cons. intros [<-|?]; [|done].
  by destruct He.
Qed.

Lemma delete_step e rem s :
  pruned (e :: rem) s ->
  match (match al_get e.1 snaps with
         | Some _ => None
         | None =>
             if e.2 : bool then
               match al_get e.1 cur with
               | Some c => Some (operation DELETE (label r) c (Some c) None [] true)
               | None => None
               end
             else None
         end) with
  | None => pruned rem s
  | Some o => exists s' y, run o s = (s', Ok y) /\ pruned rem s'
  end.
Proof.
  intros Hpr. destruct (al_get e.1 snaps) as [d|] eqn:Ed; [apply (pruned_skip e); [left; congruence|done]|].
  destruct e as [i owned]. cbn [fst snd] in *.
  destruct owned; [|by apply (pruned_skip (i, false)); [right|]]. rewrite cur_view by done.
  destruct Hpr as (Hf & Hd & Hs & Hp & Hin).
  destruct (entities_view i true) as [x Ex]; [apply Hin; constructor|].
  pose proof (Hs i) as Hi. rewrite Ex in Hi |- *. cbn [fmap option_fmap option_map].
  inversion Hi as [? y Hxy E1 E2|]; subst. symmetry in E2.
  assert (dict_get_none "id" (snapshot_of y) = VStr i) as Hyi by (rewrite Hxy by done; by apply view_id).
  destruct (switch_run r false now i s y E2 Hyi) as (s1 & y' & Er & Hv & Hf1 & Hy' & Hy).
  destruct (run_step (operation DELETE (label r) (snapshot_of x) (Some (snapshot_of x)) None [] true) s s1)
    as (s' & z & E' & Hv' & Hf'); [done| |].
  { unfold apply_entity_operation. cbn [op_action op_entity_id operation].
    rewrite (view_id _ _ Ex). by rewrite bool_decide_true. }
  exists s', z. split; [done|]. rewrite Hv in Hv'. split; [|split; [|split; [|split]]].
  - eapply frame_trans; [exact Hf|]. eapply frame_trans; done.
  - intros j Hj. rewrite Hv', lookup_insert_ne; [by apply Hd|]. intros <-.
    destruct Hj as [?|Hj]; [done|]. apply Hj, Hin. constructor.
  - intros j. rewrite Hv'. destruct (decide (i = j)) as [<-|Hne].
    + rewrite lookup_insert_eq, Ex. constructor. intros f Hfe. rewrite Hy by done. by apply Hxy.
    + rewrite lookup_insert_ne by done. apply Hs.
  - intros j Hj Hr Hn. rewrite Hv'. destruct (decide (i = j)) as [<-|Hne].
    + exists y'. by rewrite lookup_insert_eq.
    + rewrite lookup_insert_ne by done. apply Hp; [done| |done]. rewrite elem_of_cons. intros [?|?]; congruence.
  - intros w Hw. apply Hin. by constructor.
Qed.

Lemma delete_phase :
  exists s' ys, traverse run (delete_operations (label r) snaps cur entities) s0 = (s', Ok ys) /\ pruned [] s'.
Proof.
  unfold delete_operations.
  match goal with |- context [omap ?g ?l] =>
    destruct (traverse_omap_Ok pruned g run l) with (s := s0)
      as (s' & ys & E & H); [..|by exists s', ys] end.
  - intros e rem s Hs. exact (delete_step e rem s Hs).
  - split; [apply frame_refl|]. split; [done|]. split; [intros i; destruct (view s0 !! i); by constructor|].
    split; [intros i Hi Hn; exfalso; apply Hn; by rewrite sort_by_perm|].
    intros e. by rewrite sort_by_perm.
Qed.
End Deletes.
End Phase.

(** ** Ids *)

Lemma strip_no_space s : all_chars (negb ∘ is_space) s = true -> strip s = s.
Proof.
  intros H. assert (lstrip s = s) as E.
  { destruct s as [|c s]; [done|]. cbn in *. boolify. by destruct (is_space c). }
  unfold strip. rewrite E. clear E. induction s as [|c s IH]; [done|]. cbn in *. boolify.
  rewrite IH by done. destruct s; [|done]. by destruct (is_space c).
Qed.

Definition is_id_char (c : Ascii.ascii) : bool := is_slug_char c || Ascii.eqb c "_".

Lemma id_char_no_space c : is_id_char c = true -> is_space c = false.
Proof. destruct c as [[] [] [] [] [] [] [] []]; done. Qed.

Lemma slug_sub_chars s gap : all_chars is_id_char (slug_sub gap s) = true.
Proof.
  revert gap. induction s as [|c s IH]; intros gap; [done|]. cbn [slug_sub].
  destruct (is_slug_char c) eqn:E; [|destruct gap; [apply IH|exact (IH true)]].
  cbn [all_chars]. rewrite IH. unfold is_id_char. by rewrite E.
Qed.

Lemma strip_underscores_chars s : all_chars is_id_char s = true -> all_chars is_id_char (strip_underscores s) = true.
Proof.
  assert (forall t, all_chars is_id_char t = true -> all_chars is_id_char (drop_last_underscore t) = true) as Hd.
  { induction t as [|c t IH]; cbn; [done|]. intros H. boolify. step_case; [done|]. cbn. by rewrite IH, H. }
  intros H. unfold strip_underscores. apply Hd. destruct s as [|c s]; [done|]. cbn in H. boolify.
  destruct (Ascii.eqb c "_"); [done|]. cbn. by rewrite H, H0.
Qed.

Lemma id_from_name_clean prefix nm i :
  all_chars is_id_char prefix = true -> id_from_name prefix nm = Ok i -> clean i.
Proof.
  unfold id_from_name. intros Hp. destruct (nonempty (strip_underscores _)) eqn:E; [|done].
  intros [= <-]. split.
  - apply strip_no_space. apply (all_chars_impl is_id_char).
    + intros c Hc. cbn. by rewrite id_char_no_space.
    + rewrite !all_chars_app, Hp. cbn [all_chars]. apply strip_underscores_chars, slug_sub_chars.
  - by destruct prefix.
Qed.

Section DeclaredId.
Context (lbl prefix : string) (declared : option string) (nm : string).
Hypothesis prefix_chars : all_chars is_id_char prefix = true.
Hypothesis declared_clean : clean_opt declared.

Lemma declared_id_current j i : declared_id lbl prefix declared nm (Some j) = Ok i -> j = i.
Proof.
  destruct declared as [k|]; cbn; [|congruence]. destruct (String.eqb_spec j k) as [->|]; [|done].
  destruct (nonempty k); congruence.
Qed.

Lemma declared_id_again cur i :
  declared_id lbl prefix declared nm cur = Ok i -> declared_id lbl prefix declared nm (Some i) = Ok i.
Proof.
  destruct declared as [k|]; [|done]. destruct declared_clean as [_ Hk].
  assert (forall c, declared_id lbl prefix (Some k) nm c = Ok i -> k = i) as Hki.
  { intros [j|]; cbn; rewrite ?Hk; [|congruence]. destruct (String.eqb j k); congruence. }
  intros ->%Hki. cbn. by rewrite String.eqb_refl, Hk.
Qed.

Lemma declared_id_clean cur i :
  (forall j, cur = Some j -> clean j) -> declared_id lbl prefix declared nm cur = Ok i -> clean i.
Proof.
  intros Hc. destruct declared as [k|], cur as [j|]; cbn.
  - destruct declared_clean as [? Hk]. rewrite Hk. destruct (String.eqb j k); [|done]. by intros [= <-].
  - destruct declared_clean as [? Hk]. rewrite Hk. by intros [= <-].
  - intros [= <-]. auto.
  - by apply id_from_name_clean.
Qed.
End DeclaredId.

(** ** Looking declarations up in the tables, before and after *)

Section TableIndex.
Context {T : Type} (idf nmf : T -> string) (table : gmap string T) (l : list T).
Hypothesis keys : forall i x, table !! i = Some x -> idf x = i.
Hypothesis listed : lists_all table l.

Lemma listed_elem x : x ∈ l <-> table !! idf x = Some x.
Proof.
  unfold lists_all in listed. rewrite listed, list_elem_of_fmap. split.
  - intros ([i y] & -> & Hy%elem_of_map_to_list). cbn. by rewrite (keys _ _ Hy).
  - intros H. exists (idf x, x). split; [done|]. by apply elem_of_map_to_list.
Qed.

Lemma index_id i : al_get i (index_by idf l) = table !! i.
Proof.
  assert (forall y z, y ∈ l -> z ∈ l -> idf y = idf z -> y = z) as Hu.
  { intros y z Hy%listed_elem Hz%listed_elem E. rewrite E in Hy. congruence. }
  destruct (table !! i) as [x|] eqn:E.
  - rewrite <- (keys _ _ E) at 1. apply index_by_elem; [done|]. apply listed_elem.
    by rewrite (keys _ _ E).
  - destruct (al_get i (index_by idf l)) as [x|] eqn:Ei; [|done].
    apply index_by_Some in Ei as [Hx%listed_elem <-]. congruence.
Qed.

Lemma index_name_Some n x :
  al_get n (index_by nmf l) = Some x -> table !! idf x = Some x /\ nmf x = n.
Proof. by intros [?%listed_elem ?]%index_by_Some. Qed.

Hypothesis names : forall i j x y,
  table !! i = Some x -> table !! j = Some y -> nmf x = nmf y -> i = j.

Lemma index_name n x : table !! idf x = Some x -> nmf x = n -> al_get n (index_by nmf l) = Some x.
Proof.
  intros Hx <-. apply index_by_elem; [|by apply listed_elem].
  intros y z Hy%listed_elem Hz%listed_elem E. pose proof (names _ _ _ _ Hy Hz E) as Hi.
  rewrite Hi in Hy. congruence.
Qed.
End TableIndex.

Section Again.
Context {T A : Type} (idf nmf : T -> string) (did : A -> option string) (dname : A -> string).
Context (lbl prefix : string) (table table' : gmap string T) (l l' : list T)
  (snaps : list (string * dict)) (specs : list A).
Hypothesis prefix_chars : all_chars is_id_char prefix = true.
Hypothesis keys : forall i x, table !! i = Some x -> idf x = i.
Hypothesis keys' : forall i x, table' !! i = Some x -> idf x = i.
Hypothesis listed : lists_all table l.
Hypothesis listed' : lists_all table' l'.
Hypothesis names : forall i j x y,
  table !! i = Some x -> table !! j = Some y -> nmf x = nmf y -> i = j.
Hypothesis dids : forall a, a ∈ specs -> clean_opt (did a).

Definition id_of (l : list T) (a : A) : gitops string :=
  declared_id lbl prefix (did a) (dname a) (idf <$> al_get (dname a) (index_by nmf l)).

Hypothesis declared : forall i s, al_get i snaps = Some s ->
  exists a, a ∈ specs /\ id_of l a = Ok i /\ name_in s = dname a.
Hypothesis distinct : forall i j s t,
  al_get i snaps = Some s -> al_get j snaps = Some t -> name_in s = name_in t -> i = j.
Hypothesis there : forall i s, al_get i snaps = Some s -> exists x, table' !! i = Some x /\ nmf x = name_in s.
Hypothesis rest : forall i, al_get i snaps = None ->
  option_Forall2 (fun x y => nmf y = nmf x) (table !! i) (table' !! i).

Lemma rest_inv i y : al_get i snaps = None -> table' !! i = Some y ->
  exists x, table !! i = Some x /\ nmf y = nmf x.
Proof.
  intros Hn Hy. pose proof (rest i Hn) as H. rewrite Hy in H.
  inversion H as [x ? Hxy E|]; subst. by exists x.
Qed.

(** A row that holds the name of a declaration is the declared one. *)
Lemma name_holder a i j x :
  id_of l a = Ok i -> a ∈ specs -> table !! j = Some x -> nmf x = dname a -> j = i.
Proof.
  intros Hi Ha Hx Hn. unfold id_of in Hi.
  rewrite (index_name idf nmf table l keys listed names (dname a) x) in Hi;
    [|by rewrite (keys _ _ Hx)|done].
  cbn in Hi. apply declared_id_current in Hi; [|by apply dids]. rewrite (keys _ _ Hx) in Hi. done.
Qed.

Lemma names_after i j x y :
  table' !! i = Some x -> table' !! j = Some y -> nmf x = nmf y -> i = j.
Proof.
  intros Hx Hy E. destruct (al_get i snaps) as [s|] eqn:Ei, (al_get j snaps) as [t|] eqn:Ej.
  - destruct (there _ _ Ei) as (? & ? & ?), (there _ _ Ej) as (? & ? & ?). eapply distinct; [done..|congruence].
  - destruct (rest_inv _ _ Ej Hy) as (y0 & Hy0 & En). destruct (declared _ _ Ei) as (a & Ha & Hia & Hna).
    destruct (there _ _ Ei) as (x1 & Hx1 & Hn1). symmetry.
    eapply name_holder; [done..|]. congruence.
  - destruct (rest_inv _ _ Ei Hx) as (x0 & Hx0 & En). destruct (declared _ _ Ej) as (a & Ha & Hja & Hna).
    destruct (there _ _ Ej) as (y1 & Hy1 & Hn1). eapply name_holder; [done..|]. congruence.
  - destruct (rest_inv _ _ Ei Hx) as (x0 & Hx0 & E0), (rest_inv _ _ Ej Hy) as (y0 & Hy0 & E1).
    eapply names; [done..|congruence].
Qed.

Lemma id_of_again a i s :
  a ∈ specs -> id_of l a = Ok i -> al_get i snaps = Some s -> name_in s = dname a -> id_of l' a = Ok i.
Proof.
  intros Ha Hi Hs Hn. destruct (there _ _ Hs) as (x & Hx & Hxn). unfold id_of.
  rewrite (index_name idf nmf table' l' keys' listed' names_after (dname a) x);
    [|by rewrite (keys' _ _ Hx)|congruence].
  cbn. rewrite (keys' _ _ Hx). unfold id_of in Hi. by eapply declared_id_again; [apply dids|].
Qed.

Lemma id_of_clean a i :
  (forall j, is_Some (table !! j) -> clean j) -> a ∈ specs -> id_of l a = Ok i -> clean i.
Proof.
  intros Hc Ha. apply declared_id_clean; [done|by apply dids|].
  intros j Hj. destruct (al_get (dname a) (index_by nmf l)) as [x|] eqn:Ex; [|done].
  injection Hj as <-. apply Hc.
  destruct (index_name_Some idf nmf table l keys listed _ _ Ex) as [Hx _]. by exists x.
Qed.
End Again.

(** ** The two kinds of declarations *)

Local Abbreviation cap_id := (id_of c_id c_name dc_id dc_name "capability" "cap").
Local Abbreviation prov_id := (id_of p_id p_name dp_id dp_name "provider" "prov").

Lemma named_distinct acc i j s t :
  named acc -> al_get i acc.1 = Some s -> al_get j acc.1 = Some t -> name_in s = name_in t -> i = j.
Proof. intros [_ Hn] Hi%Hn Hj%Hn E. rewrite E in Hi. congruence. Qed.

Lemma capability_declarations cs specs dcs :
  desired_capability_snapshots (index_by c_name cs) specs = Ok dcs ->
  al_wf dcs /\
  (forall i j s t, al_get i dcs = Some s -> al_get j dcs = Some t -> name_in s = name_in t -> i = j) /\
  (forall c, c ∈ specs -> exists i, cap_id cs c = Ok i /\
     al_get i dcs = Some (desired_capability_snapshot i c)) /\
  (forall i s, al_get i dcs = Some s -> exists c, c ∈ specs /\ cap_id cs c = Ok i /\
     s = desired_capability_snapshot i c).
Proof.
  unfold desired_capability_snapshots. intros ([dcs' ns] & H & ->)%rmap_Ok.
  eapply (declared_from_nil CAPABILITY
            (fun c i s => cap_id cs c = Ok i /\ s = desired_capability_snapshot i c) dc_name) in H
    as (Hn & Hd & Hi).
  - cbn [fst] in *. split; [apply Hn|]. split; [intros i j s t; exact (named_distinct (dcs', ns) i j s t Hn)|].
    split; [|exact Hi]. intros c Hc. destruct (Hd c Hc) as (i & s & [? ->] & ?). by exists i.
  - intros acc c acc' (i & Hi & Ha)%rbind_Ok. by exists i, (desired_capability_snapshot i c).
  - by intros c i s [_ ->].
Qed.

Lemma capability_declarations_again cs cs' specs dcs :
  desired_capability_snapshots (index_by c_name cs) specs = Ok dcs ->
  (forall c i, c ∈ specs -> cap_id cs c = Ok i -> cap_id cs' c = Ok i) ->
  desired_capability_snapshots (index_by c_name cs') specs = Ok dcs.
Proof.
  intros H He. destruct (capability_declarations _ _ _ H) as (_ & _ & Hd & _).
  rewrite <- H. unfold desired_capability_snapshots. f_equal. apply foldR_ext.
  intros acc c Hc. destruct (Hd c Hc) as (i & Hi & _). pose proof (He _ _ Hc Hi) as Hi'.
  unfold id_of in Hi, Hi'. by rewrite Hi, Hi'.
Qed.

(** The owner of a declared provider. *)
Definition owner_of (dcs : list (string * dict)) (cs : list Capability) (p : DesiredProviderSpec)
  : gitops string :=
  let? ref := capability_ref p in
  resolve_capability_id ref dcs (names_of dcs) (index_by c_id cs) (index_by c_name cs).

Lemma provider_declarations dcs cs ps specs dps :
  desired_provider_snapshots dcs (index_by c_id cs) (index_by c_name cs) (index_by p_name ps) specs = Ok dps ->
  al_wf dps /\
  (forall i j s t, al_get i dps = Some s -> al_get j dps = Some t -> name_in s = name_in t -> i = j) /\
  (forall p, p ∈ specs -> exists i w, prov_id ps p = Ok i /\ owner_of dcs cs p = Ok w /\
     al_get i dps = Some (desired_provider_snapshot i w p)) /\
  (forall i s, al_get i dps = Some s -> exists p w, p ∈ specs /\ prov_id ps p = Ok i /\
     owner_of dcs cs p = Ok w /\ s = desired_provider_snapshot i w p).
Proof.
  unfold desired_provider_snapshots. intros ([dps' ns] & H & ->)%rmap_Ok.
  eapply (declared_from_nil PROVIDER
            (fun p i s => prov_id ps p = Ok i /\ exists w, owner_of dcs cs p = Ok w /\
                          s = desired_provider_snapshot i w p) dp_name) in H
    as (Hn & Hd & Hi).
  - cbn [fst] in *. split; [apply Hn|]. split; [intros i j s t; exact (named_distinct (dps', ns) i j s t Hn)|].
    split.
    + intros p Hp. destruct (Hd p Hp) as (i & s & (? & w & ? & ->) & ?). by exists i, w.
    + intros i s (p & ? & ? & w & ? & ?)%Hi. by exists p, w.
  - intros acc p acc' (i & Hi & (ref & Hr & (w & Hw & Ha)%rbind_Ok)%rbind_Ok)%rbind_Ok.
    exists i, (desired_provider_snapshot i w p). split; [|done]. split; [done|]. exists w.
    split; [|done]. unfold owner_of. rewrite Hr. exact Hw.
  - by intros p i s (_ & w & _ & ->).
Qed.

Lemma provider_declarations_again dcs cs cs' ps ps' specs dps :
  desired_provider_snapshots dcs (index_by c_id cs) (index_by c_name cs) (index_by p_name ps) specs = Ok dps ->
  (forall p i, p ∈ specs -> prov_id ps p = Ok i -> prov_id ps' p = Ok i) ->
  (forall p w, p ∈ specs -> owner_of dcs cs p = Ok w -> owner_of dcs cs' p = Ok w) ->
  desired_provider_snapshots dcs (index_by c_id cs') (index_by c_name cs') (index_by p_name ps') specs = Ok dps.
Proof.
  intros H He Hw. destruct (provider_declarations _ _ _ _ _ H) as (_ & _ & Hd & _).
  rewrite <- H. unfold desired_provider_snapshots. f_equal. apply foldR_ext.
  intros acc p Hp. destruct (Hd p Hp) as (i & w & Hi & Ho & _).
  pose proof (He _ _ Hp Hi) as Hi'. pose proof (Hw _ _ Hp Ho) as Ho'.
  unfold id_of in Hi, Hi'. unfold owner_of in Ho, Ho'. rewrite Hi, Hi'. cbn [rbind].
  destruct (capability_ref p) as [ref|]; [|done]. cbn [rbind] in *. by rewrite Ho, Ho'.
Qed.

Lemma names_of_spec snaps n i :
  al_get n (names_of snaps) = Some i ->
  exists k s, (k, s) ∈ snaps /\ name_in s = n /\ py_str (dict_get_none "id" s) = i.
Proof.
  unfold names_of. induction snaps as [|[k s] snaps IH] using rev_ind; [done|].
  rewrite foldl_app. cbn. destruct (decide (n = py_str (dict_get_none "name" s))) as [->|Hne].
  - rewrite al_get_set. intros [= <-]. exists k, s. split; [set_solver|done].
  - rewrite al_get_set_ne by done. intros (k' & s' & ? & ?)%IH. exists k', s'. split; [set_solver|done].
Qed.

Lemma names_of_complete snaps k s : (k, s) ∈ snaps -> is_Some (al_get (name_in s) (names_of snaps)).
Proof.
  unfold names_of. induction snaps as [|[k' s'] snaps IH] using rev_ind; [by intros ?%elem_of_nil|].
  rewrite foldl_app. cbn. intros [Hin|[= -> ->]%list_elem_of_singleton]%elem_of_app.
  - destruct (decide (name_in s = py_str (dict_get_none "name" s'))) as [->|Hne];
      [by rewrite al_get_set|]. rewrite al_get_set_ne by done. auto.
  - unfold name_in. by rewrite al_get_set.
Qed.

(** ** Reaching the desired state *)

(** The plan of [d] at [db] moves no provider to another capability, and no
    declaration renames a capability that a provider still refers to by its
    old name.  [dcs] and [dps] are the desired snapshots. *)
Record reconcilable (d : DesiredState) (db : registry) (cs : list Capability) (ps : list Provider)
    (dcs dps : list (string * dict)) : Prop := {
  rc_rows : rows_sound db;
  rc_provider_names : forall i j x y, providers db !! i = Some x -> providers db !! j = Some y ->
    p_name x = p_name y -> i = j;
  rc_cs : lists_all (capabilities db) cs;
  rc_ps : lists_all (providers db) ps;
  rc_caps : Forall capability_storable (d_capabilities d);
  rc_provs : Forall provider_storable (d_providers d);
  rc_snaps : desired_snapshots d cs ps = Ok (dcs, dps);
  rc_no_moves : forall i s p, al_get i dps = Some s -> providers db !! i = Some p ->
    dict_get_none "capability_id" s = VStr (p_capability_id p);
  rc_no_stale_refs : forall p ref i c s, p ∈ d_providers d -> capability_ref p = Ok ref ->
    capabilities db !! i = Some c -> c_name c = ref -> al_get i dcs = Some s -> name_in s = ref;
}.

(** [db'] is [db] with the declarations in force: declared rows are as
    declared, rows under GitOps that are no longer declared are disabled and
    otherwise as they were, and all other rows are untouched. *)
Record in_force (dcs dps : list (string * dict)) (db db' : registry) : Prop := {
  if_caps : forall i s, al_get i dcs = Some s -> settled capability_repo CAPABILITY_FIELDS i s db';
  if_provs : forall i s, al_get i dps = Some s -> settled provider_repo PROVIDER_FIELDS i s db';
  if_caps_rest : forall i, al_get i dcs = None ->
    option_Forall2 (same_but_enabled capability_repo) (capabilities db !! i) (capabilities db' !! i);
  if_provs_rest : forall i, al_get i dps = None ->
    option_Forall2 (same_but_enabled provider_repo) (providers db !! i) (providers db' !! i);
  if_caps_frame : forall i c, al_get i dcs = None -> capabilities db !! i = Some c ->
    if capability_yaml_owned c
    then exists c', capabilities db' !! i = Some c' /\ c_enabled c' = false
    else capabilities db' !! i = Some c;
  if_provs_frame : forall i p, al_get i dps = None -> providers db !! i = Some p ->
    if provider_yaml_owned p
    then exists p', providers db' !! i = Some p' /\ p_enabled p' = false
    else providers db' !! i = Some p;
}.

Lemma changes_field cur des fields f :
  changes cur des fields = [] -> f ∈ fields -> py_eqb (dict_get_none f cur) (dict_get_none f des) = true.
Proof. intros H%changes_nil Hf. apply H; [done|apply not_elem_of_nil]. Qed.

Lemma same_but_enabled_cap x y :
  same_but_enabled capability_repo x y -> c_name y = c_name x /\ c_id y = c_id x.
Proof.
  intros H. pose proof (H "name" ltac:(done)) as Hn. pose proof (H "id" ltac:(done)) as Hi.
  cbn in Hn, Hi. split; congruence.
Qed.

Lemma same_but_enabled_prov x y :
  same_but_enabled provider_repo x y -> p_name y = p_name x /\ p_id y = p_id x.
Proof.
  intros H. pose proof (H "name" ltac:(done)) as Hn. pose proof (H "id" ltac:(done)) as Hi.
  cbn in Hn, Hi. split; congruence.
Qed.

Section Converge.
Context (d : DesiredState) (db : registry) (cs : list Capability) (ps : list Provider)
  (dcs dps : list (string * dict)).
Hypothesis rc : reconcilable d db cs ps dcs dps.

Lemma rc_capability_snapshots : desired_capability_snapshots (index_by c_name cs) (d_capabilities d) = Ok dcs.
Proof.
  pose proof (rc_snaps _ _ _ _ _ _ rc) as H. unfold desired_snapshots in H.
  apply rbind_Ok in H as (x & Hx & (y & Hy & [= <- <-])%rbind_Ok). done.
Qed.

Lemma rc_provider_snapshots :
  desired_provider_snapshots dcs (index_by c_id cs) (index_by c_name cs) (index_by p_name ps)
    (d_providers d) = Ok dps.
Proof.
  pose proof (rc_snaps _ _ _ _ _ _ rc) as H. unfold desired_snapshots in H.
  apply rbind_Ok in H as (x & Hx & (y & Hy & [= <- <-])%rbind_Ok). done.
Qed.

Definition rc_wf : registry_wf db := rows_wf _ (rc_rows _ _ _ _ _ _ rc).

Lemma dids_caps a : a ∈ d_capabilities d -> clean_opt (dc_id a).
Proof.
  intros Ha. pose proof (rc_caps _ _ _ _ _ _ rc) as H. rewrite Forall_forall in H.
  apply (dc_id_clean _ (H _ Ha)).
Qed.
Lemma dids_provs a : a ∈ d_providers d -> clean_opt (dp_id a).
Proof.
  intros Ha. pose proof (rc_provs _ _ _ _ _ _ rc) as H. rewrite Forall_forall in H.
  apply (dp_id_clean _ (H _ Ha)).
Qed.

Lemma caps_snapshots :
  al_wf dcs /\
  (forall i j s t, al_get i dcs = Some s -> al_get j dcs = Some t -> name_in s = name_in t -> i = j) /\
  (forall c, c ∈ d_capabilities d -> exists i, cap_id cs c = Ok i /\
     al_get i dcs = Some (desired_capability_snapshot i c)) /\
  (forall i s, al_get i dcs = Some s -> exists c, c ∈ d_capabilities d /\ cap_id cs c = Ok i /\
     s = desired_capability_snapshot i c).
Proof. apply capability_declarations, rc_capability_snapshots. Qed.

Lemma provs_snapshots :
  al_wf dps /\
  (forall i j s t, al_get i dps = Some s -> al_get j dps = Some t -> name_in s = name_in t -> i = j) /\
  (forall p, p ∈ d_providers d -> exists i w, prov_id ps p = Ok i /\ owner_of dcs cs p = Ok w /\
     al_get i dps = Some (desired_provider_snapshot i w p)) /\
  (forall i s, al_get i dps = Some s -> exists p w, p ∈ d_providers d /\ prov_id ps p = Ok i /\
     owner_of dcs cs p = Ok w /\ s = desired_provider_snapshot i w p).
Proof. apply provider_declarations, rc_provider_snapshots. Qed.

Lemma dcs_id i s : al_get i dcs = Some s ->
  dict_get_none "id" s = VStr i /\ exists b, dict_get_none "enabled" s = VBool b.
Proof.
  destruct caps_snapshots as (_ & _ & _ & H). intros (c & _ & _ & ->)%H. split; [done|]. by eexists.
Qed.
Lemma dps_id i s : al_get i dps = Some s ->
  dict_get_none "id" s = VStr i /\ exists b, dict_get_none "enabled" s = VBool b.
Proof.
  destruct provs_snapshots as (_ & _ & _ & H). intros (c & w & _ & _ & _ & ->)%H.
  split; [done|]. by eexists.
Qed.

Lemma dcs_clean i s : al_get i dcs = Some s -> clean i.
Proof.
  destruct caps_snapshots as (_ & _ & _ & H). intros (c & Hc & Hi & ->)%H.
  eapply (id_of_clean c_id c_name dc_id dc_name "capability" "cap" (capabilities db) cs (d_capabilities d));
    [done|apply (capability_keys _ rc_wf)|apply (rc_cs _ _ _ _ _ _ rc)|apply dids_caps| |done|exact Hi].
  apply (capability_ids_clean _ (rc_rows _ _ _ _ _ _ rc)).
Qed.

Lemma dps_clean i s : al_get i dps = Some s -> clean i.
Proof.
  destruct provs_snapshots as (_ & _ & _ & H). intros (p & w & Hp & Hi & _ & ->)%H.
  eapply (id_of_clean p_id p_name dp_id dp_name "provider" "prov" (providers db) ps (d_providers d));
    [done|apply (provider_keys _ rc_wf)|apply (rc_ps _ _ _ _ _ _ rc)|apply dids_provs| |done|exact Hi].
  apply (provider_ids_clean _ (rc_rows _ _ _ _ _ _ rc)).
Qed.

(** An owner is a declared or a current capability. *)
Lemma owner_exists p w :
  owner_of dcs cs p = Ok w -> is_Some (al_get w dcs) \/ is_Some (capabilities db !! w).
Proof.
  unfold owner_of, resolve_capability_id. intros (ref & _ & H)%rbind_Ok.
  destruct (al_get ref dcs) as [s|] eqn:E1.
  { destruct (dcs_id _ _ E1) as [Hid _]. rewrite Hid in H. injection H as <-. left. by exists s. }
  pose proof (index_id c_id (capabilities db) cs (capability_keys _ rc_wf) (rc_cs _ _ _ _ _ _ rc)) as Hix.
  rewrite Hix in H. destruct (capabilities db !! ref) as [c|] eqn:E2.
  { injection H as <-. right. by rewrite (capability_keys _ rc_wf _ _ E2), E2. }
  destruct (al_get ref (names_of dcs)) as [i|] eqn:E3.
  { injection H as <-. left. destruct (names_of_spec _ _ _ E3) as (k & s & Hin & _ & Hi).
    apply al_get_elem in Hin; [|apply caps_snapshots]. destruct (dcs_id _ _ Hin) as [Hid _].
    rewrite Hid in Hi. cbn in Hi. subst. by exists s. }
  destruct (al_get ref (index_by c_name cs)) as [c|] eqn:E4; [|done]. injection H as <-. right.
  destruct (index_name_Some c_id c_name _ _ (capability_keys _ rc_wf) (rc_cs _ _ _ _ _ _ rc) _ _ E4)
    as [Hc _]. by exists c.
Qed.

(** *** Applying the plan *)

Lemma settled_name {T} (r : Repository T) `{!LawfulRepository r} fields i e s x :
  "name" ∈ fields -> settled r fields i e s -> view s !! i = Some x ->
  py_eqb (dict_get_none "name" (snapshot_of x)) (dict_get_none "name" e) = true.
Proof. intros Hf (y & Hy & Hc & _) Hx. rewrite Hy in Hx. injection Hx as <-. by eapply changes_field. Qed.

Lemma settled_cap_name i e s x b :
  settled capability_repo CAPABILITY_FIELDS i e s -> capabilities s !! i = Some x ->
  dict_get_none "name" e = VStr b -> c_name x = name_in e.
Proof.
  intros Hs Hx Hb. eapply (settled_name capability_repo) in Hs; [|do 2 constructor|exact Hx].
  unfold name_in. rewrite Hb in *. by apply String.eqb_eq in Hs.
Qed.

Lemma settled_prov_name i e s x b :
  settled provider_repo PROVIDER_FIELDS i e s -> providers s !! i = Some x ->
  dict_get_none "name" e = VStr b -> p_name x = name_in e.
Proof.
  intros Hs Hx Hb. eapply (settled_name provider_repo) in Hs; [|do 3 constructor|exact Hx].
  unfold name_in. rewrite Hb in *. by apply String.eqb_eq in Hs.
Qed.

Lemma dcs_name i s : al_get i dcs = Some s -> dict_get_none "name" s = VStr (name_in s).
Proof. destruct caps_snapshots as (_ & _ & _ & H). by intros (c & _ & _ & ->)%H. Qed.
Lemma dps_name i s : al_get i dps = Some s -> dict_get_none "name" s = VStr (name_in s).
Proof. destruct provs_snapshots as (_ & _ & _ & H). by intros (p & w & _ & _ & _ & ->)%H. Qed.

Lemma capability_can_write now s i e :
  midway capability_repo CAPABILITY_FIELDS dcs db s -> al_get i dcs = Some e ->
  upserts capability_repo now CAPABILITY_FIELDS i e s.
Proof.
  intros [Hf Hm] He. pose proof (dcs_clean _ _ He) as Hcl.
  destruct caps_snapshots as (_ & Hdist & _ & H). destruct (H _ _ He) as (c & Hc & Hi & ->).
  pose proof (rc_caps _ _ _ _ _ _ rc) as Hall. rewrite Forall_forall in Hall.
  apply capability_upserts; [by apply Hall|done|]. intros j x Hx Hn.
  destruct (Hm j) as [Hj|(t & Ht & Hs)].
  - cbn in Hj. rewrite Hj in Hx.
    eapply (name_holder c_id c_name dc_id dc_name "capability" "cap" (capabilities db) cs (d_capabilities d));
      [apply (capability_keys _ rc_wf)|apply (rc_cs _ _ _ _ _ _ rc)|apply (capability_names _ rc_wf)
      |apply dids_caps|exact Hi|done|exact Hx|done].
  - eapply Hdist; [exact Ht|exact He|]. by rewrite <- (settled_cap_name _ _ _ _ _ Hs Hx (dcs_name _ _ Ht)).
Qed.

Lemma provider_can_write now s0 s i e :
  (forall w, is_Some (al_get w dcs) \/ is_Some (capabilities db !! w) -> is_Some (capabilities s0 !! w)) ->
  providers s0 = providers db ->
  midway provider_repo PROVIDER_FIELDS dps s0 s -> al_get i dps = Some e ->
  providers s !! i = providers s0 !! i ->
  upserts provider_repo now PROVIDER_FIELDS i e s.
Proof.
  intros Hown Hp [Hf _] He Hsame. pose proof (dps_clean _ _ He) as Hcl.
  destruct provs_snapshots as (_ & _ & _ & H). destruct (H _ _ He) as (p & w & Hp' & Hi & Hw & E).
  pose proof (rc_provs _ _ _ _ _ _ rc) as Hall. rewrite Forall_forall in Hall.
  pose proof (owner_exists _ _ Hw) as Ho. rewrite E.
  apply provider_upserts; [by apply Hall|done| | |].
  - destruct Ho as [[t Ht]|Hd]; [by eapply dcs_clean|].
    by apply (capability_ids_clean _ (rc_rows _ _ _ _ _ _ rc)).
  - cbn in Hf. unfold other_than_providers in Hf. rewrite <- Hf. by apply Hown.
  - intros old Hold. rewrite Hsame, Hp in Hold. split.
    + pose proof (rc_no_moves _ _ _ _ _ _ rc _ _ _ He Hold) as Hmv. rewrite E in Hmv.
      injection Hmv as ->. done.
    + by apply (provider_rows _ (rc_rows _ _ _ _ _ _ rc) _ _ Hold).
Qed.

Lemma al_get_snapshots {T} (f : T -> dict) (l : list (string * T)) i :
  al_get i (prod_map id f <$> l) = f <$> al_get i l.
Proof. induction l as [|[k x] l IH]; [done|]. cbn. by destruct (decide (i = k)). Qed.

Definition plan_of : list PlanOperation :=
  let ccs := prod_map id capability_snapshot <$> index_by c_id cs in
  let cps := prod_map id provider_snapshot <$> index_by p_id ps in
  upsert_operations CAPABILITY CAPABILITY_FIELDS dcs ccs ++
  upsert_operations PROVIDER PROVIDER_FIELDS dps cps ++
  delete_operations PROVIDER dps cps ((fun p => (p_id p, provider_yaml_owned p)) <$> ps) ++
  delete_operations CAPABILITY dcs ccs ((fun c => (c_id c, capability_yaml_owned c)) <$> cs).

Lemma build_is_plan_of : build_reconcile_plan d cs ps = Ok plan_of.
Proof. unfold build_reconcile_plan. by rewrite (rc_snaps _ _ _ _ _ _ rc). Qed.

Lemma capability_view i : al_get i (prod_map id capability_snapshot <$> index_by c_id cs)
  = capability_snapshot <$> capabilities db !! i.
Proof.
  rewrite al_get_snapshots. f_equal.
  apply index_id; [apply (capability_keys _ rc_wf)|apply (rc_cs _ _ _ _ _ _ rc)].
Qed.
Lemma provider_view i : al_get i (prod_map id provider_snapshot <$> index_by p_id ps)
  = provider_snapshot <$> providers db !! i.
Proof.
  rewrite al_get_snapshots. f_equal.
  apply index_id; [apply (provider_keys _ rc_wf)|apply (rc_ps _ _ _ _ _ _ rc)].
Qed.

Section Run.
Context (aw : audit_row -> eff registry gitops_error audit_row) (now : datetime) (actor : string)
  (reason : option string).
Hypothesis aw_accepts : accepts aw.

Local Abbreviation run := (apply_and_audit aw now actor reason).

Lemma written_caps a s : exists s' a', aw a s = (s', Ok a') /\
  view (r:=capability_repo) s' = view (r:=capability_repo) s /\ frame (r:=capability_repo) s s'.
Proof. destruct (aw_accepts a s) as (s' & a' & ? & ? & ?). by exists s', a'. Qed.
Lemma written_provs a s : exists s' a', aw a s = (s', Ok a') /\
  view (r:=provider_repo) s' = view (r:=provider_repo) s /\ frame (r:=provider_repo) s s'.
Proof. destruct (aw_accepts a s) as (s' & a' & ? & ? & ?). by exists s', a'. Qed.
Lemma dispatch_caps o : op_entity_type o = label capability_repo ->
  apply_operation now o = apply_entity_operation capability_repo now o.
Proof. unfold apply_operation. by intros ->. Qed.
Lemma dispatch_provs o : op_entity_type o = label provider_repo ->
  apply_operation now o = apply_entity_operation provider_repo now o.
Proof. unfold apply_operation. by intros ->. Qed.

Lemma run_capability_upserts :
  exists s1 ys, traverse run (upsert_operations CAPABILITY CAPABILITY_FIELDS dcs
                                (prod_map id capability_snapshot <$> index_by c_id cs)) db = (s1, Ok ys) /\
    providers s1 = providers db /\
    (forall i s, al_get i dcs = Some s -> settled capability_repo CAPABILITY_FIELDS i s s1) /\
    (forall i, al_get i dcs = None -> capabilities s1 !! i = capabilities db !! i).
Proof.
  destruct (upsert_phase capability_repo aw now actor reason dispatch_caps written_caps
              CAPABILITY_FIELDS dcs (prod_map id capability_snapshot <$> index_by c_id cs) db)
    as (s1 & ys & E & Hf & Hs & Hu).
  - apply caps_snapshots.
  - apply dcs_id.
  - apply capability_view.
  - intros i x Hx. cbn. by rewrite (capability_keys _ rc_wf _ _ Hx).
  - intros s i e Hm He _. by apply capability_can_write.
  - by exists s1, ys.
Qed.

Lemma run_provider_upserts s1 :
  providers s1 = providers db ->
  (forall i s, al_get i dcs = Some s -> settled capability_repo CAPABILITY_FIELDS i s s1) ->
  (forall i, al_get i dcs = None -> capabilities s1 !! i = capabilities db !! i) ->
  exists s2 ys, traverse run (upsert_operations PROVIDER PROVIDER_FIELDS dps
                                (prod_map id provider_snapshot <$> index_by p_id ps)) s1 = (s2, Ok ys) /\
    capabilities s2 = capabilities s1 /\
    (forall i s, al_get i dps = Some s -> settled provider_repo PROVIDER_FIELDS i s s2) /\
    (forall i, al_get i dps = None -> providers s2 !! i = providers db !! i).
Proof.
  intros Hp Hset Hrest.
  destruct (upsert_phase provider_repo aw now actor reason dispatch_provs written_provs
              PROVIDER_FIELDS dps (prod_map id provider_snapshot <$> index_by p_id ps) s1)
    as (s2 & ys & E & Hf & Hs & Hu).
  - apply provs_snapshots.
  - apply dps_id.
  - intros i. cbn. rewrite Hp. apply provider_view.
  - intros i x Hx. cbn in *. rewrite Hp in Hx. by rewrite (provider_keys _ rc_wf _ _ Hx).
  - intros s i e Hm He Hsame. eapply provider_can_write; [|done|done|done|done].
    intros w Hw. destruct (al_get w dcs) as [t|] eqn:Et.
    + destruct (Hset _ _ Et) as (x & Hx & _). by exists x.
    + rewrite Hrest by done. by destruct Hw as [[? ?]|?].
  - exists s2, ys. split; [done|]. split; [by symmetry|]. split; [done|].
    intros i Hi. rewrite <- Hp. by apply Hu.
Qed.

Lemma settled_stays {T} (r : Repository T) `{!LawfulRepository r} fields i e s s' :
  view s' !! i = view s !! i -> settled r fields i e s -> settled r fields i e s'.
Proof. unfold settled. by intros ->. Qed.

Lemma listed_capabilities c : c ∈ cs <-> capabilities db !! c_id c = Some c.
Proof. apply listed_elem; [apply (capability_keys _ rc_wf)|apply (rc_cs _ _ _ _ _ _ rc)]. Qed.
Lemma listed_providers p : p ∈ ps <-> providers db !! p_id p = Some p.
Proof. apply listed_elem; [apply (provider_keys _ rc_wf)|apply (rc_ps _ _ _ _ _ _ rc)]. Qed.

(** Applying the plan puts every declaration in force. *)
Lemma apply_in_force :
  exists db' names, apply_plan aw now plan_of true false true actor reason db
                    = (db', Ok (MkApplied false true names)) /\ in_force dcs dps db db'.
Proof.
  destruct run_capability_upserts as (s1 & y1 & E1 & Hp1 & Hc1 & Hr1).
  destruct (run_provider_upserts s1 Hp1 Hc1 Hr1) as (s2 & y2 & E2 & Hc2 & Hs2 & Hr2).
  destruct (delete_phase provider_repo aw now actor reason dispatch_provs written_provs dps
              (prod_map id provider_snapshot <$> index_by p_id ps)
              ((fun p => (p_id p, provider_yaml_owned p)) <$> ps) s2) as (s3 & y3 & E3 & Hf3 & Hd3 & Hr3 & Hx3 & _).
  { intros i Hi. rewrite provider_view. cbn. by rewrite Hr2. }
  { intros i x Hx. cbn in *. destruct (al_get i dps) as [e|] eqn:Ee.
    - destruct (Hs2 _ _ Ee) as (y & Hy & _ & Hid). cbn in Hy, Hid. congruence.
    - rewrite Hr2 in Hx by done. by rewrite (provider_keys _ rc_wf _ _ Hx). }
  { intros i b (p & [= -> _] & Hp%listed_providers)%list_elem_of_fmap. cbn.
    destruct (al_get (p_id p) dps) as [e|] eqn:Ee.
    - destruct (Hs2 _ _ Ee) as (y & Hy & _). by exists y.
    - rewrite Hr2 by done. by exists p. }
  cbn in Hf3. unfold other_than_providers in Hf3.
  destruct (delete_phase capability_repo aw now actor reason dispatch_caps written_caps dcs
              (prod_map id capability_snapshot <$> index_by c_id cs)
              ((fun c => (c_id c, capability_yaml_owned c)) <$> cs) s3) as (s4 & y4 & E4 & Hf4 & Hd4 & Hr4 & Hx4 & _).
  { intros i Hi. rewrite capability_view. cbn. by rewrite <- Hf3, Hc2, Hr1. }
  { intros i x Hx. cbn in *. rewrite <- Hf3, Hc2 in Hx. destruct (al_get i dcs) as [e|] eqn:Ee.
    - destruct (Hc1 _ _ Ee) as (y & Hy & _ & Hid). cbn in Hy, Hid. congruence.
    - rewrite Hr1 in Hx by done. by rewrite (capability_keys _ rc_wf _ _ Hx). }
  { intros i b (c & [= -> _] & Hc%listed_capabilities)%list_elem_of_fmap. cbn. rewrite <- Hf3, Hc2.
    destruct (al_get (c_id c) dcs) as [e|] eqn:Ee.
    - destruct (Hc1 _ _ Ee) as (y & Hy & _). by exists y.
    - rewrite Hr1 by done. by exists c. }
  cbn in Hf4. unfold other_than_capabilities in Hf4.
  eexists s4, _. split.
  { unfold apply_plan. rewrite andb_false_r. cbn [negb].
    rewrite (bind_run _ _ _ _ _ (traverse_app _ _ _ _ _ _ _ _ E1
              (traverse_app _ _ _ _ _ _ _ _ E2 (traverse_app _ _ _ _ _ _ _ _ E3 E4)))).
    reflexivity. }
  split.
  - intros i s Hs. apply (settled_stays capability_repo CAPABILITY_FIELDS i s s1); [|by apply Hc1].
    rewrite Hd4 by (left; congruence). cbn. by rewrite <- Hf3, Hc2.
  - intros i s Hs. apply (settled_stays provider_repo PROVIDER_FIELDS i s s2); [|by apply Hs2].
    cbn. rewrite <- Hf4. apply Hd3. left. congruence.
  - intros i Hi. pose proof (Hr4 i) as H. cbn in H. by rewrite <- Hf3, Hc2, Hr1 in H.
  - intros i Hi. pose proof (Hr3 i) as H. cbn in H. by rewrite Hr2, Hf4 in H.
  - intros i c Hi Hc. destruct (capability_yaml_owned c) eqn:Ey.
    + apply Hx4; [|apply not_elem_of_nil|done]. apply list_elem_of_fmap. exists c.
      rewrite Ey, (capability_keys _ rc_wf _ _ Hc). split; [done|]. apply listed_capabilities.
      by rewrite (capability_keys _ rc_wf _ _ Hc).
    + assert (capabilities s4 !! i = capabilities s3 !! i) as ->; [|by rewrite <- Hf3, Hc2, Hr1].
      apply (Hd4 i). right. intros (c2 & [= E Ec] & Hc2'%listed_capabilities)%list_elem_of_fmap. congruence.
  - intros i p Hi Hp. destruct (provider_yaml_owned p) eqn:Ey.
    + destruct (Hx3 i) as (p' & Hp' & ?); [|apply not_elem_of_nil|done|].
      * apply list_elem_of_fmap. exists p. rewrite Ey, (provider_keys _ rc_wf _ _ Hp). split; [done|].
        apply listed_providers. by rewrite (provider_keys _ rc_wf _ _ Hp).
      * exists p'. by rewrite <- Hf4.
    + rewrite <- Hf4. assert (providers s3 !! i = providers s2 !! i) as ->; [|by rewrite Hr2].
      apply (Hd3 i). right. intros (p2 & [= E Ep] & Hp2%listed_providers)%list_elem_of_fmap. congruence.
Qed.
End Run.

(** *** Planning again *)
Section Replan.
Context (db' : registry) (cs' : list Capability) (ps' : list Provider).
Hypothesis force : in_force dcs dps db db'.
Hypothesis listed_cs : lists_all (capabilities db') cs'.
Hypothesis listed_ps : lists_all (providers db') ps'.

Lemma cap_keys_after i x : capabilities db' !! i = Some x -> c_id x = i.
Proof.
  intros Hx. destruct (al_get i dcs) as [e|] eqn:Ee.
  - destruct (if_caps _ _ _ _ force _ _ Ee) as (y & Hy & _ & Hid). cbn in Hy, Hid. congruence.
  - pose proof (if_caps_rest _ _ _ _ force _ Ee) as H. rewrite Hx in H.
    inversion H as [y ? Hs E|]; subst. symmetry in E. destruct (same_but_enabled_cap _ _ Hs) as [_ ->].
    by apply (capability_keys _ rc_wf).
Qed.

Lemma prov_keys_after i x : providers db' !! i = Some x -> p_id x = i.
Proof.
  intros Hx. destruct (al_get i dps) as [e|] eqn:Ee.
  - destruct (if_provs _ _ _ _ force _ _ Ee) as (y & Hy & _ & Hid). cbn in Hy, Hid. congruence.
  - pose proof (if_provs_rest _ _ _ _ force _ Ee) as H. rewrite Hx in H.
    inversion H as [y ? Hs E|]; subst. symmetry in E. destruct (same_but_enabled_prov _ _ Hs) as [_ ->].
    by apply (provider_keys _ rc_wf).
Qed.

Lemma cap_there i s : al_get i dcs = Some s -> exists x, capabilities db' !! i = Some x /\ c_name x = name_in s.
Proof.
  intros Hs. pose proof (if_caps _ _ _ _ force _ _ Hs) as Hset. destruct Hset as (x & Hx & Hc & Hid).
  exists x. split; [done|]. eapply settled_cap_name; [by exists x|exact Hx|by eapply dcs_name].
Qed.

Lemma prov_there i s : al_get i dps = Some s -> exists x, providers db' !! i = Some x /\ p_name x = name_in s.
Proof.
  intros Hs. pose proof (if_provs _ _ _ _ force _ _ Hs) as Hset. destruct Hset as (x & Hx & Hc & Hid).
  exists x. split; [done|]. eapply settled_prov_name; [by exists x|exact Hx|by eapply dps_name].
Qed.

Lemma cap_rest i : al_get i dcs = None ->
  option_Forall2 (fun x y => c_name y = c_name x) (capabilities db !! i) (capabilities db' !! i).
Proof.
  intros Hi. destruct (if_caps_rest _ _ _ _ force _ Hi) as [x y H|]; constructor.
  apply (same_but_enabled_cap _ _ H).
Qed.

Lemma prov_rest i : al_get i dps = None ->
  option_Forall2 (fun x y => p_name y = p_name x) (providers db !! i) (providers db' !! i).
Proof.
  intros Hi. destruct (if_provs_rest _ _ _ _ force _ Hi) as [x y H|]; constructor.
  apply (same_but_enabled_prov _ _ H).
Qed.

Lemma dcs_declared i s : al_get i dcs = Some s ->
  exists a, a ∈ d_capabilities d /\ cap_id cs a = Ok i /\ name_in s = dc_name a.
Proof. destruct caps_snapshots as (_ & _ & _ & H). intros (c & ? & ? & ->)%H. by exists c. Qed.
Lemma dps_declared i s : al_get i dps = Some s ->
  exists a, a ∈ d_providers d /\ prov_id ps a = Ok i /\ name_in s = dp_name a.
Proof. destruct provs_snapshots as (_ & _ & _ & H). intros (c & w & ? & ? & _ & ->)%H. by exists c. Qed.

Lemma cap_names_after i j x y :
  capabilities db' !! i = Some x -> capabilities db' !! j = Some y -> c_name x = c_name y -> i = j.
Proof.
  apply (names_after c_id c_name dc_id dc_name "capability" "cap" (capabilities db) (capabilities db') cs
           dcs (d_capabilities d) (capability_keys _ rc_wf) (rc_cs _ _ _ _ _ _ rc)
           (capability_names _ rc_wf) dids_caps dcs_declared (proj1 (proj2 caps_snapshots)) cap_there cap_rest).
Qed.

Lemma cap_id_again c i : c ∈ d_capabilities d -> cap_id cs c = Ok i -> cap_id cs' c = Ok i.
Proof.
  intros Hc Hi. destruct caps_snapshots as (_ & Hdist & H & _). destruct (H _ Hc) as (j & Hj & Hg).
  assert (j = i) as -> by (rewrite Hi in Hj; congruence).
  refine (id_of_again c_id c_name dc_id dc_name "capability" "cap" (capabilities db) (capabilities db') cs cs'
           dcs (d_capabilities d) (capability_keys _ rc_wf) cap_keys_after (rc_cs _ _ _ _ _ _ rc) listed_cs
           (capability_names _ rc_wf) dids_caps dcs_declared Hdist cap_there cap_rest c i _ Hc Hi Hg _). done.
Qed.

Lemma prov_id_again p i : p ∈ d_providers d -> prov_id ps p = Ok i -> prov_id ps' p = Ok i.
Proof.
  intros Hp Hi. destruct provs_snapshots as (_ & Hdist & H & _). destruct (H _ Hp) as (j & w & Hj & _ & Hg).
  assert (j = i) as -> by (rewrite Hi in Hj; congruence).
  refine (id_of_again p_id p_name dp_id dp_name "provider" "prov" (providers db) (providers db') ps ps'
           dps (d_providers d) (provider_keys _ rc_wf) prov_keys_after (rc_ps _ _ _ _ _ _ rc) listed_ps
           (rc_provider_names _ _ _ _ _ _ rc) dids_provs dps_declared Hdist prov_there prov_rest p i _ Hp Hi Hg _).
  done.
Qed.

Lemma owner_again p w : p ∈ d_providers d -> owner_of dcs cs p = Ok w -> owner_of dcs cs' p = Ok w.
Proof.
  intros Hp. unfold owner_of, resolve_capability_id.
  destruct (capability_ref p) as [ref|] eqn:Er; [|done]. cbn [rbind].
  destruct (al_get ref dcs) as [s|] eqn:E1; [done|].
  rewrite (index_id c_id _ cs (capability_keys _ rc_wf) (rc_cs _ _ _ _ _ _ rc)),
    (index_id c_id _ cs' cap_keys_after listed_cs).
  pose proof (if_caps_rest _ _ _ _ force _ E1) as H1.
  destruct (capabilities db !! ref) as [c|] eqn:E2; inversion H1 as [? y Hs Ea Eb|Ea Eb]; subst.
  { intros [= <-]. f_equal. apply (same_but_enabled_cap _ _ Hs). }
  destruct (al_get ref (names_of dcs)) as [i|] eqn:E3; [done|].
  destruct (al_get ref (index_by c_name cs)) as [c|] eqn:E4; [|done]. intros [= <-].
  destruct (index_name_Some c_id c_name _ _ (capability_keys _ rc_wf) (rc_cs _ _ _ _ _ _ rc) _ _ E4)
    as [Hc Hn].
  destruct (al_get (c_id c) dcs) as [t|] eqn:Et.
  { exfalso. pose proof (rc_no_stale_refs _ _ _ _ _ _ rc p ref _ _ _ Hp Er Hc Hn Et) as Ht.
    destruct (names_of_complete dcs (c_id c) t) as [? H]; [by apply al_get_Some_elem|].
    rewrite Ht in H. congruence. }
  pose proof (if_caps_rest _ _ _ _ force _ Et) as Hr. rewrite Hc in Hr.
  inversion Hr as [? y Hs Ea' Eb'|]; subst. symmetry in Eb'.
  destruct (same_but_enabled_cap _ _ Hs) as [Hny Hiy].
  rewrite (index_name c_id c_name _ cs' cap_keys_after listed_cs cap_names_after (c_name c) y);
    [by rewrite Hiy|by rewrite Hiy|done].
Qed.

Lemma desired_again : desired_snapshots d cs' ps' = Ok (dcs, dps).
Proof.
  unfold desired_snapshots.
  rewrite (capability_declarations_again cs cs' _ _ rc_capability_snapshots cap_id_again). cbn [rbind].
  by rewrite (provider_declarations_again dcs cs cs' ps ps' _ _ rc_provider_snapshots prov_id_again owner_again).
Qed.

(** Declarations in force need no operation. *)
Lemma upserts_done {T} (r : Repository T) `{!LawfulRepository r} etype fields snaps cur :
  (forall i s, al_get i snaps = Some s -> settled r fields i s db') -> al_wf snaps ->
  (forall i, al_get i cur = snapshot_of <$> view db' !! i) ->
  upsert_operations etype fields snaps cur = [].
Proof.
  intros Hs Hw Hc. unfold upsert_operations.
  assert (forall l, (forall i s, (i, s) ∈ l -> al_get i snaps = Some s) ->
            omap (upsert_operation etype fields cur) l = []) as Hl.
  { induction l as [|[i s] l IH]; intros Hin; [done|]. cbn.
    destruct (Hs i s) as (x & Hx & Hch & _); [apply Hin; constructor|].
    unfold upsert_operation. cbn. rewrite Hc, Hx. cbn. rewrite Hch. apply IH.
    intros j t Hj. apply Hin. by constructor. }
  apply Hl. intros i s Hi. apply al_get_elem; [done|]. by rewrite sort_by_perm in Hi.
Qed.

Lemma deletes_only etype snaps cur entities :
  Forall (fun o => op_action o = DELETE) (delete_operations etype snaps cur entities).
Proof.
  apply Forall_forall. intros o (e & _ & H)%list_elem_of_omap.
  destruct (al_get e.1 snaps); [done|]. destruct e.2; [|done].
  destruct (al_get e.1 cur); [|done]. by injection H as <-.
Qed.

Lemma replan_deletes_only :
  exists ops, build_reconcile_plan d cs' ps' = Ok ops /\ Forall (fun o => op_action o = DELETE) ops.
Proof.
  unfold build_reconcile_plan. rewrite desired_again. cbn [rbind fst snd]. eexists. split; [reflexivity|].
  rewrite (upserts_done capability_repo), (upserts_done provider_repo).
  - cbn [app]. apply Forall_app. split; apply deletes_only.
  - apply (if_provs _ _ _ _ force).
  - apply provs_snapshots.
  - intros i. rewrite al_get_snapshots. by rewrite (index_id p_id _ ps' prov_keys_after listed_ps).
  - apply (if_caps _ _ _ _ force).
  - apply caps_snapshots.
  - intros i. rewrite al_get_snapshots. by rewrite (index_id c_id _ cs' cap_keys_after listed_cs).
Qed.
End Replan.
End Converge.

(** ** Properties *)


(** A plan with deletions changes nothing and is refused unless deletion
    was allowed; a dry run never changes anything. *)
Theorem deletions_need_approval aw now ops pool dry_run actor reason db
    (Hdel : exists o, o ∈ ops /\ op_action o = DELETE) :
  (apply_plan aw now ops pool dry_run false actor reason db).1 = db /\
  (dry_run = false -> exists msg, (apply_plan aw now ops pool dry_run false actor reason db).2 =
     Err (GitOpsDestructiveChangeError msg)).
Proof.
  assert (has_destructive_changes ops = true) as H.
  { destruct Hdel as (o & Ho & Ha). apply existsb_exists. exists o. split; [by apply list_elem_of_In|].
    by rewrite bool_decide_true. }
  unfold apply_plan. rewrite H. destruct dry_run; cbn; [done|]. split; [done|]. by eexists.
Qed.

(** C25: With the default audit writer no plan that has an operation can be
    applied: the first operation takes effect and is never recorded, because
    the audit table admits no action of the form the reconciler writes; the
    rest of the plan is not applied. *)
Theorem default_audit_stops_every_plan now o ops allow_delete actor reason db
    (Hallow : has_destructive_changes (o :: ops) = false \/ allow_delete = true) :
  exists e, apply_plan registry_audit now (o :: ops) true false allow_delete actor reason db =
    ((apply_operation now o db).1, Err e).
Proof.
  unfold apply_plan. assert (has_destructive_changes (o :: ops) && negb allow_delete = false) as ->.
  { destruct Hallow as [-> | ->]; [done|apply andb_false_r]. }
  cbn [negb]. unfold bind at 1. cbn [traverse]. unfold bind at 1, apply_and_audit at 1, bind at 1.
  destruct (apply_operation now o db) as [s1 [[]|e]]; [|by exists e]. unfold bind at 1.
  assert (exists e, registry_audit (gitops_audit actor reason o) s1 = (s1, Err e)) as [e ->]; [|by exists e].
  unfold registry_audit, stmt, insert_audit. cbn -[jsonb_opt String.append].
  destruct (jsonb_opt (op_current o)); [|by eexists]. destruct (jsonb_opt (op_desired o)); [|by eexists].
  destruct (negb (bool_decide (actor ∈ AUDIT_ACTORS))); [by eexists|].
  rewrite bool_decide_false; [by eexists|]. by destruct (op_action o); vm_compute; set_solver.
Qed.

(** Statements that may touch providers never change their capability. *)
Definition owners_kept (db s : registry) : Prop :=
  forall i p, providers db !! i = Some p ->
    exists p', providers s !! i = Some p' /\ p_capability_id p' = p_capability_id p.

Lemma owners_kept_set db s p old :
  owners_kept db s -> providers s !! p_id p = Some old -> p_capability_id p = p_capability_id old ->
  owners_kept db (set_provider s p).
Proof.
  intros Hk Ho Hp i q Hq. destruct (Hk i q Hq) as (q' & Hq' & E). cbn.
  destruct (decide (p_id p = i)) as [<-|Hne].
  - exists p. rewrite lookup_insert_eq. split; [done|]. congruence.
  - exists q'. by rewrite lookup_insert_ne.
Qed.

Lemma owners_kept_new db s p :
  owners_kept db s -> providers s !! p_id p = None -> owners_kept db (set_provider s p).
Proof.
  intros Hk Ho i q Hq. destruct (Hk i q Hq) as (q' & Hq' & E). cbn.
  exists q'. rewrite lookup_insert_ne; [done|]. intros E'. rewrite E' in Ho. congruence.
Qed.

Definition owners_inv (db s : registry) : Prop :=
  owners_kept db s /\ forall i p, providers s !! i = Some p -> p_id p = i.

Lemma owners_inv_set db s p :
  owners_inv db s ->
  (forall old, providers s !! p_id p = Some old -> p_capability_id p = p_capability_id old) ->
  owners_inv db (set_provider s p).
Proof.
  intros [Hk Hi] Ho. split.
  - destruct (providers s !! p_id p) as [old|] eqn:E; [by eapply owners_kept_set; auto|].
    by apply owners_kept_new.
  - intros i q. cbn. destruct (decide (p_id p = i)) as [<-|Hne].
    + rewrite lookup_insert_eq. by intros [= <-].
    + rewrite lookup_insert_ne by done. apply Hi.
Qed.

Lemma create_provider_keeps_owners db s p :
  owners_inv db s -> owners_inv db (stmt (create_provider p) s).1.
Proof.
  intros Hi. unfold stmt, create_provider. destruct (stored_provider p) as [q|]; [|done].
  destruct (negb (provider_checks q)); [done|].
  destruct (providers s !! p_id q) as [old|] eqn:E.
  - cbn. apply owners_inv_set; [done|]. intros o Ho. cbn in *. congruence.
  - case_bool_decide; [|done]. cbn. apply owners_inv_set; [done|]. congruence.
Qed.

Lemma switch_provider_keeps_owners db s b now i :
  owners_inv db s -> owners_inv db (stmt (switch_provider b now i) s).1.
Proof.
  intros Hi. unfold stmt, switch_provider. destruct (providers s !! i) as [p|] eqn:E; [|done].
  cbn. apply owners_inv_set; [done|]. intros old Ho. cbn in *.
  rewrite (proj2 Hi _ _ E) in Ho. congruence.
Qed.

Lemma bind_keeps {S E A B} (P : S -> Prop) (m : eff S E A) (k : A -> eff S E B) s :
  P (m s).1 -> (forall a s1, P s1 -> P (k a s1).1) -> P (bind m k s).1.
Proof. unfold bind. destruct (m s) as [s1 [a|e]]; cbn; auto. Qed.

Lemma stmt_providers {A} (m : eff registry registry_error A) s :
  providers (m s).1 = providers s -> providers (stmt m s).1 = providers s.
Proof. unfold stmt. by destruct (m s) as [s1 [a|e]]. Qed.

Lemma owners_inv_providers db s t : providers t = providers s -> owners_inv db s -> owners_inv db t.
Proof. unfold owners_inv, owners_kept. by intros ->. Qed.

Lemma provider_operation_keeps_owners db now o s :
  owners_inv db s -> owners_inv db (apply_entity_operation provider_repo now o s).1.
Proof.
  assert (forall b i t, owners_inv db t -> owners_inv db (switch provider_repo b now i t).1) as Hsw.
  { intros b i t Ht. apply (bind_keeps (owners_inv db)); [by apply switch_provider_keeps_owners|].
    intros [p|] s1 H1; done. }
  intros Hi. unfold apply_entity_operation. step_case; [by apply Hsw|].
  apply (bind_keeps (owners_inv db)); [done|]. intros desired s1 H1. apply (bind_keeps (owners_inv db)); [done|]. intros ex s2 H2.
  step_case; [done|]. apply (bind_keeps (owners_inv db)); [|intros; step_case; [done|by apply Hsw]].
  step_case; [|done]. apply (bind_keeps (owners_inv db)); [done|]. intros p s3 H3.
  apply (bind_keeps (owners_inv db)); [by apply create_provider_keeps_owners|done].
Qed.

Lemma capability_operation_providers now o s :
  providers (apply_entity_operation capability_repo now o s).1 = providers s.
Proof.
  assert (forall b i t, providers t = providers s -> providers (switch capability_repo b now i t).1 = providers s) as Hsw.
  { intros b i t Ht. apply (bind_keeps (fun u => providers u = providers s)); [|by intros [?|]]. cbn. rewrite stmt_providers; [done|].
    unfold switch_capability. by destruct (capabilities t !! i). }
  unfold apply_entity_operation. step_case; [by apply Hsw|].
  apply (bind_keeps (fun t => providers t = providers s)); [done|]. intros desired s1 H1.
  apply (bind_keeps (fun t => providers t = providers s)); [done|]. intros ex s2 H2.
  step_case; [done|].
  apply (bind_keeps (fun t => providers t = providers s)); [|intros; step_case; [done|by apply Hsw]].
  step_case; [|done]. apply (bind_keeps (fun t => providers t = providers s)); [done|]. intros c s3 H3.
  apply (bind_keeps (fun t => providers t = providers s)); [|done]. cbn. rewrite stmt_providers; [done|].
  unfold create_capability. destruct (stored_capability c) as [c'|]; [|done].
  by destruct (name_taken s3 c').
Qed.

(** No plan moves a provider to another capability: whatever operations
    are applied, and however far the application gets, every provider keeps
    the capability it had. *)
Theorem provider_moves_are_lost ops aw now pool dry_run allow_delete actor reason db db' r
    (Hwf : registry_wf db)
    (Haw : forall a s, providers (aw a s).1 = providers s)
    (Hrun : apply_plan aw now ops pool dry_run allow_delete actor reason db = (db', r)) :
  forall i p, providers db !! i = Some p ->
    exists p', providers db' !! i = Some p' /\ p_capability_id p' = p_capability_id p.
Proof.
  assert (owners_inv db db) as H0.
  { split; [intros i p Hp; by exists p|apply (provider_keys _ Hwf)]. }
  assert (owners_inv db db') as [H _]; [|exact H].
  replace db' with (apply_plan aw now ops pool dry_run allow_delete actor reason db).1 by (by rewrite Hrun).
  unfold apply_plan. repeat (step_case; [done|]). apply (bind_keeps (owners_inv db)); [|done].
  apply traverse_inv; [|done]. intros o s _ Hs. unfold apply_and_audit.
  apply bind_keeps.
  - unfold apply_operation. destruct (op_entity_type o).
    + eapply owners_inv_providers; [apply capability_operation_providers|done].
    + by apply provider_operation_keeps_owners.
  - intros _ s1 H1. apply (bind_keeps (owners_inv db)); [|done]. by eapply owners_inv_providers; [apply Haw|].
Qed.

(** Entities a snapshot can stand for: every text is stripped and not empty,
    and counts are not negative. *)
Definition capability_clean (c : Capability) : Prop :=
  clean (c_id c) /\ clean (c_name c) /\ clean (c_version c) /\ clean_opt (c_description c) /\
  clean_opt (c_last_applied_yaml_hash c) /\
  0 <= cd_execution_timeout_ms (c_defaults c) /\ 0 <= cd_ttl_ms (c_defaults c).
Definition provider_clean (p : Provider) : Prop :=
  clean (p_id p) /\ clean (p_capability_id p) /\ clean (p_name p) /\ clean_opt (p_runpod_endpoint_id p) /\
  clean_opt (p_runpod_template_id p) /\ clean_opt (p_region p) /\ clean_opt (p_cloud_type p) /\
  clean_opt (p_last_applied_yaml_hash p) /\ 0 <= p_priority p /\
  exists s : CapabilitySource, p_source p = enum_value s.

(** Snapshots lose nothing.  A plan carries entities as JSON snapshots;
    the capability or provider read back out of the snapshot of a live one is
    that entity, every field of it, with the instant of the update. *)
Theorem snapshot_roundtrip (c : Capability) (p : Provider) (now : datetime)
    (Hc : capability_clean c) (Hp : provider_clean p) :
  capability_from_snapshot (capability_snapshot c) now (Some c) = Ok (touch_capability (c_enabled c) now c) /\
  provider_from_snapshot (provider_snapshot p) now (Some p) = Ok (touch_provider (p_enabled p) now p).
Proof.
  destruct Hc as (Hi & Hn & Hv & Hd & Hh & He & Ht), Hp as (Pi & Pc & Pn & Pe & Pt & Pr & Pk & Ph & Pp & src & Ps).
  split.
  - unfold capability_from_snapshot.
    rewrite (text_field_clean _ "id" (c_id c)), (text_field_clean _ "name" (c_name c)),
      (text_field_clean _ "version" (c_version c)) by done.
    unfold dict_get_none. cbn -[enum_field enum_value mapR load_defaults dump_defaults optional_string].
    rewrite (enum_field_value (c_class c)), (enum_field_value (c_cost_mode c)), (enum_field_value (c_source c)).
    rewrite load_dumped_defaults, !optional_string_clean by done.
    cbn -[enum_field enum_value mapR]. rewrite hint_fields. by destruct c.
  - unfold provider_from_snapshot.
    rewrite (text_field_clean _ "id" (p_id p)), (text_field_clean _ "capability_id" (p_capability_id p)),
      (text_field_clean _ "name" (p_name p)) by done.
    unfold dict_get_none. cbn -[enum_field enum_value optional_string].
    rewrite Ps, (enum_field_value (p_provider_type p)), (enum_field_value src), !optional_string_clean by done.
    rewrite (proj2 (Z.leb_le 0 _) Pp). cbn -[enum_value]. destruct p; simpl in *. by subst.
Qed.

(** ** A registry and a desired state *)

Definition ex_time : datetime := utc 1700000000000000.
Definition ex_defaults : CapabilityDefaults := MkDefaults 60000 300000 SYNC.
Definition ex_capability : Capability :=
  MkCapability "cap_llm" "llm" "1.0.0" LLM None [] [] ex_defaults PER_SECOND [] YAML (Some "h0") true
    ex_time ex_time.
Definition ex_provider : Provider :=
  MkProvider "prov_old" "cap_llm" "old" SERVERLESS_LB (Some "ep") None None (Some "SECURE")
    [("volume_id", VStr "v")] 1 true "healthy" 0 0 None None fzero None "yaml" (Some "h0") ex_time.
Definition ex_registry : registry :=
  MkRegistry {["cap_llm" := ex_capability]} {["prov_old" := ex_provider]} [].
Definition ex_desired : DesiredState :=
  MkDesiredState
    [MkDesiredCapability None "llm" "2.0.0" LLM (Some "text") [("type", VStr "object")] [] ex_defaults
       PER_TOKEN [COST_SENSITIVE] true "h1"]
    [MkDesiredProvider None (Some "llm") None None "New GPU" SERVERLESS_QUEUE (Some "ep2") None
       (Some "EU") None [("workers", VInt 2)] 5 false "h1"].
Definition ex_snapshots : list (string * dict) * list (string * dict) :=
  match desired_snapshots ex_desired [ex_capability] [ex_provider] with Ok ds => ds | Err _ => ([], []) end.
Definition ex_plan : list PlanOperation :=
  match build_reconcile_plan ex_desired [ex_capability] [ex_provider] with Ok ops => ops | Err _ => [] end.
Definition accept_all (a : audit_row) : eff registry gitops_error audit_row := fun s => (s, Ok a).

Example ex_plan_shape : (fun o => (op_action o, op_entity_id o, (op_changes o).*1)) <$> ex_plan =
  [(UPDATE, "cap_llm", ["version"; "description"; "input_schema"; "cost_mode"; "hints_supported";
                        "last_applied_yaml_hash"]);
   (CREATE, "prov_new_gpu", []); (DELETE, "prov_old", [])].
Proof. vm_compute. reflexivity. Qed.

Lemma ex_rows : rows_sound ex_registry.
Proof.
  split; [split|..]; cbn.
  - by intros i c [<- <-]%lookup_singleton_Some.
  - by intros i c [<- <-]%lookup_singleton_Some.
  - by intros i j c e [<- <-]%lookup_singleton_Some [<- <-]%lookup_singleton_Some.
  - intros i p [<- <-]%lookup_singleton_Some. by exists ex_capability.
  - intros i [c [<- <-]%lookup_singleton_Some]. by split.
  - intros i [c [<- <-]%lookup_singleton_Some]. by split.
  - intros i p [<- <-]%lookup_singleton_Some. split; [done|]. split; [by eexists|done].
Qed.

Lemma ex_reconcilable :
  reconcilable ex_desired ex_registry [ex_capability] [ex_provider] ex_snapshots.1 ex_snapshots.2.
Proof.
  split.
  - apply ex_rows.
  - intros i j x y. cbn. by intros [<- <-]%lookup_singleton_Some [<- <-]%lookup_singleton_Some.
  - unfold lists_all. cbn. by rewrite map_to_list_singleton.
  - unfold lists_all. cbn. by rewrite map_to_list_singleton.
  - repeat constructor; try done; by eexists.
  - repeat constructor; try done. by eexists.
  - vm_compute. reflexivity.
  - intros i s p Hs. cbn. intros [<- <-]%lookup_singleton_Some. by vm_compute in Hs.
  - intros p ref i c s Hp Hr. cbn. intros [<- <-]%lookup_singleton_Some Hn Hs. subst ref.
    vm_compute in Hs. by injection Hs as <-.
Qed.


Lemma deletions_need_approval_witness :
  (apply_plan accept_all ex_time ex_plan true false false "system" None ex_registry).1 = ex_registry.
Proof.
  apply deletions_need_approval. exists (operation DELETE PROVIDER (provider_snapshot ex_provider)
    (Some (provider_snapshot ex_provider)) None [] true).
  split; [|reflexivity]. vm_compute. apply elem_of_cons. right. apply elem_of_cons. right. constructor.
Defined.

Lemma default_audit_stops_every_plan_witness :
  exists e, apply_plan registry_audit ex_time (take 1 ex_plan) true false false "gitops:admin" None ex_registry
    = ((apply_operation ex_time (hd (operation CREATE CAPABILITY [] None None [] false) ex_plan) ex_registry).1, Err e).
Proof.
  change (take 1 ex_plan) with [hd (operation CREATE CAPABILITY [] None None [] false) ex_plan].
  apply default_audit_stops_every_plan. left. vm_compute. reflexivity.
Defined.

Lemma provider_moves_are_lost_witness :
  exists p', providers (apply_plan accept_all ex_time ex_plan true false true "system" None ex_registry).1 !! "prov_old"
    = Some p' /\ p_capability_id p' = "cap_llm".
Proof.
  apply (provider_moves_are_lost ex_plan accept_all ex_time true false true "system" None ex_registry _ _
           (rows_wf _ ex_rows) (fun a s => eq_refl)
           (surjective_pairing _) "prov_old" ex_provider). reflexivity.
Defined.

Lemma snapshot_roundtrip_witness :
  capability_from_snapshot (capability_snapshot ex_capability) ex_time (Some ex_capability) =
    Ok (touch_capability true ex_time ex_capability) /\
  provider_from_snapshot (provider_snapshot ex_provider) ex_time (Some ex_provider) =
    Ok (touch_provider true ex_time ex_provider).
Proof.
  apply (snapshot_roundtrip ex_capability ex_provider ex_time).
  - by repeat split.
  - unfold provider_clean. split_and!; try done. by exists YAML.
Defined.
