(* ===== verification/RateLimit.v ===== *)
(** * Token-bucket rate limiting ([rate_limits/algorithm.py],
    [rate_limits/store.py], [rate_limits/retry_after.py])

    The arithmetic of capacities and refills, the in-memory bucket, the
    store over [pitwall.rate_buckets] and one turn of the limiter's waiting
    loop.  Token counts are floats; the column keeps them in single
    precision.  Every store operation is a transaction on one locked row, so
    concurrent calls take effect one after the other; [now] is the reading of
    the clock it takes.  [parsedate] stands for
    [email.utils.parsedate_to_datetime]. *)

From Stdlib Require Import SpecFloat.
From S2P Require Import Prelude PyDecimal PyFloat PyValue PyEq PyTime Effects Registry.

(** Definitions *)

Definition REFILL_WINDOW_S : float := of_Z 10.
Definition LOCAL_WAIT_LIMIT_S : float := of_Z 30.
Definition CAPACITY_REFRESH_INTERVAL_S : float := of_Z 30.
Definition CAPACITY_REBUILD_WINDOW_S : float := of_Z 60.
Definition DEFAULT_MAX_RETRY_AFTER_DELAY_S : float := of_Z 60.

Definition value_error {A} (msg : string) : py A := Err (ValueError msg).
Notation "'guard' c msg ;; k" := (if c then value_error msg else k)
  (at level 200, c at level 9, msg at level 9, k at level 200, right associativity) : py_scope.

(** ** [RateLimitConfig] *)
Record RateLimitConfig : Type := MkConfig {
  base_limit : Z;
  per_worker_limit : Z;
  refill_window_s : float;
  max_local_wait_s : float;
  capacity_refresh_interval_s : float;
  capacity_rebuild_window_s : float;
}.

Definition new_config (c : RateLimitConfig) : py RateLimitConfig :=
  guard (base_limit c <=? 0) "base_limit must be > 0";;
  guard (per_worker_limit c <? 0) "per_worker_limit must be >= 0";;
  guard (fleb (refill_window_s c) fzero) "refill_window_s must be > 0";;
  guard (fltb (max_local_wait_s c) fzero) "max_local_wait_s must be >= 0";;
  guard (fleb (capacity_refresh_interval_s c) fzero) "capacity_refresh_interval_s must be > 0";;
  guard (fleb (capacity_rebuild_window_s c) fzero) "capacity_rebuild_window_s must be > 0";;
  Ok c.

(** ** Capacities *)

Definition dynamic_capacity (base worker_count per_worker : Z) : py Z :=
  guard (base <=? 0) "base_limit must be > 0";;
  guard (worker_count <? 0) "worker_count must be >= 0";;
  guard (per_worker <? 0) "per_worker_limit must be >= 0";;
  Ok (Z.max base (worker_count * per_worker)).

Definition halved_capacity (capacity : Z) : py Z :=
  guard (capacity <=? 0) "capacity must be > 0";;
  Ok (Z.max 1 (capacity / 2)).

Definition capacity_after_429 (target_capacity : Z) (recent_429_at : option datetime) (now : datetime)
    (rebuild_window_s : float) : py Z :=
  guard (target_capacity <=? 0) "target_capacity must be > 0";;
  guard (fleb rebuild_window_s fzero) "rebuild_window_s must be > 0";;
  match recent_429_at with
  | None => Ok target_capacity
  | Some at_ =>
      let? elapsed_s := total_seconds (dt_sub now at_) in
      if fleb rebuild_window_s elapsed_s then Ok target_capacity
      else
        let? reduced := halved_capacity target_capacity in
        if fleb elapsed_s fzero then Ok reduced
        else
          let? span := float_of_int (target_capacity - reduced) in
          let? share := fdiv elapsed_s rebuild_window_s in
          let? base := float_of_int reduced in
          let? recovered := ffloor (fadd base (fmul span share)) in
          Ok (Z.min target_capacity (Z.max reduced recovered))
  end.

(** ** Refills *)

Definition refill_tokens (tokens : float) (capacity : Z) (elapsed_s window_s : float) : py float :=
  guard (capacity <=? 0) "capacity must be > 0";;
  guard (fltb tokens fzero) "tokens must be >= 0";;
  guard (fltb elapsed_s fzero) "elapsed_s must be >= 0";;
  guard (fleb window_s fzero) "refill_window_s must be > 0";;
  let? cap := float_of_int capacity in
  let? rate := fdiv cap window_s in
  Ok (fmin cap (fadd tokens (fmul elapsed_s rate))).

(** [f > z]: a float and an integer compare exactly. *)
Definition float_gt_int (f : float) (z : Z) : bool :=
  match float_exact f with
  | DFin d => dltb (of_int z) d
  | DInf s => negb s
  | DNaN => false
  end.

Definition seconds_until_available (tokens : float) (capacity : Z) (tokens_needed window_s : float)
  : py float :=
  guard (capacity <=? 0) "capacity must be > 0";;
  guard (fltb tokens fzero) "tokens must be >= 0";;
  guard (fleb tokens_needed fzero) "tokens_needed must be > 0";;
  guard (fleb window_s fzero) "refill_window_s must be > 0";;
  if fleb tokens_needed tokens then Ok fzero
  else if float_gt_int tokens_needed capacity then Ok finf
  else
    let? cap := float_of_int capacity in
    let? rate := fdiv cap window_s in
    fdiv (fsub tokens_needed tokens) rate.

(** ** [TokenBucket] *)
Module TokenBucket.
Record t : Type := Mk { capacity : Z; tokens : float; last_refilled_at_s : float; window_s : float }.

(** The constructor; [now_s] is the reading of the monotonic clock. *)
Definition create (cap : Z) (tokens last : option float) (window_s now_s : float) : py t :=
  guard (cap <=? 0) "capacity must be > 0";;
  guard (fleb window_s fzero) "refill_window_s must be > 0";;
  let? full := float_of_int cap in
  let tok := match tokens with Some x => x | None => full end in
  guard (fltb tok fzero) "tokens must be >= 0";;
  Ok (Mk cap (fmin full tok) (match last with Some l => l | None => now_s end) window_s).

Definition refill (b : t) (now_s : float) : py t :=
  let elapsed := fmax fzero (fsub now_s (last_refilled_at_s b)) in
  let? tok := refill_tokens (tokens b) (capacity b) elapsed (window_s b) in
  Ok (Mk (capacity b) tok now_s (window_s b)).

Definition resize (b : t) (cap : Z) (now_s : float) : py t :=
  guard (cap <=? 0) "capacity must be > 0";;
  let? b := refill b now_s in
  let? full := float_of_int cap in
  Ok (Mk cap (fmin full (tokens b)) (last_refilled_at_s b) (window_s b)).

Definition try_consume (b : t) (n now_s : float) : py (t * bool) :=
  guard (fleb n fzero) "tokens must be > 0";;
  let? b := refill b now_s in
  if fltb (tokens b) n then Ok (b, false)
  else Ok (Mk (capacity b) (fsub (tokens b) n) (last_refilled_at_s b) (window_s b), true).

Definition retry_after_s (b : t) (n : float) : py float :=
  seconds_until_available (tokens b) (capacity b) n (window_s b).
End TokenBucket.

(** ** [RateBucketStore] *)

Record RateBucket : Type := MkBucket {
  b_capacity : Z;
  b_tokens : float;
  b_last_refilled_at : datetime;
  b_recent_429_at : option datetime;
}.

Inductive store_error :=
| NoBucket
| BucketExists
| InvalidCapacity
| DatabaseRefused (e : registry_error)
| BucketModelInvalid
| StoreRaised (e : exn).

Abbreviation bucket_db := (gmap (string * string) RateBucket).
Definition store (A : Type) : Type := bucket_db -> bucket_db * result store_error A.

(** What the table stores of a row, and its constraints. *)
Definition stored_bucket (b : RateBucket) : result store_error RateBucket :=
  if negb (int4 (b_capacity b)) then Err (DatabaseRefused DataError)
  else
    match real4 (b_tokens b) with
    | None => Err (DatabaseRefused DataError)
    | Some t =>
        if (b_capacity b <=? 0) then Err (DatabaseRefused (CheckViolation "capacity"))
        else if fltb t fzero then Err (DatabaseRefused (CheckViolation "tokens"))
        else Ok (MkBucket (b_capacity b) t (b_last_refilled_at b) (b_recent_429_at b))
    end.

(** [_bucket_from_row]: the model wants text in both keys and [tokens >= 0],
    which a NaN is not. *)
Definition bucket_from_row (k : string * string) (b : RateBucket) : result store_error RateBucket :=
  if nonempty (strip k.1) && nonempty (strip k.2) && (0 <? b_capacity b) && fleb fzero (b_tokens b)
  then Ok b else Err BucketModelInvalid.

Definition raised {A} (r : py A) : result store_error A := rlift StoreRaised r.

(** [load] *)
Definition load (k : string * string) : store (option RateBucket) := fun db =>
  match db !! k with
  | None => (db, Ok None)
  | Some b => (db, rmap Some (bucket_from_row k b))
  end.

(** [create] *)
Definition create (k : string * string) (capacity : Z) (tokens : option float)
    (last recent : option datetime) (now : datetime) : store RateBucket := fun db =>
  match
    (let? full := raised (float_of_int capacity) in
     stored_bucket (MkBucket capacity (match tokens with Some t => t | None => full end)
                      (match last with Some l => l | None => now end) recent))
  with
  | Err e => (db, Err e)
  | Ok b =>
      match db !! k with
      | Some _ => (db, Err BucketExists)
      | None => (<[k := b]> db, bucket_from_row k b)
      end
  end.

(** [load_or_create] *)
Definition load_or_create (k : string * string) (capacity : Z) (now : datetime) : store RateBucket :=
  fun db =>
    match (let? full := raised (float_of_int capacity) in stored_bucket (MkBucket capacity full now None)) with
    | Err e => (db, Err e)
    | Ok b =>
        match db !! k with
        | Some old => (db, bucket_from_row k old)
        | None => (<[k := b]> db, bucket_from_row k b)
        end
    end.

(** A transaction on the row: any error inside it rolls back. *)
Definition transaction {A} (k : string * string)
    (f : RateBucket -> result store_error (RateBucket * A)) : store (RateBucket * A) := fun db =>
  match db !! k with
  | None => (db, Err NoBucket)
  | Some row =>
      match (let? ra := f row in let? b := stored_bucket ra.1 in Ok (b, ra.2)) with
      | Ok ba => (<[k := ba.1]> db, Ok ba)
      | Err e => (db, Err e)
      end
  end.

Definition REFILL_RATE_DIVISOR : float := of_Z 10.

(** Tokens of a row at [now], refilled over ten seconds at its capacity. *)
Definition refilled (row : RateBucket) (elapsed_s : float) : py float :=
  let? cap := float_of_int (b_capacity row) in
  let? rate := fdiv cap REFILL_RATE_DIVISOR in
  Ok (fmin cap (fadd (b_tokens row) (fmul elapsed_s rate))).

(** [atomic_refill_consume]; the row is read back inside the transaction. *)
Definition atomic_refill_consume (k : string * string) (tokens_to_consume : float) (now : datetime)
  : store (RateBucket * bool) :=
  transaction k (fun row =>
    let? elapsed := raised (total_seconds (dt_sub now (b_last_refilled_at row))) in
    let? new_tokens := raised (refilled row elapsed) in
    let allowed := fleb tokens_to_consume new_tokens in
    let final := if allowed then fsub new_tokens tokens_to_consume else new_tokens in
    let row := MkBucket (b_capacity row) final now (b_recent_429_at row) in
    let? b := stored_bucket row in
    let? _ := bucket_from_row k b in
    Ok (row, allowed)).

(** The model is built from the returned row after the transaction. *)
Definition after_commit (k : string * string) (m : store (RateBucket * unit)) : store RateBucket :=
  fun db => match m db with
            | (db', Ok (b, _)) => (db', bucket_from_row k b)
            | (db', Err e) => (db', Err e)
            end.

(** [record_429] *)
Definition record_429 (k : string * string) (new_capacity : option Z) (now : datetime) : store RateBucket :=
  fun db =>
    if match new_capacity with Some n => n <=? 0 | None => false end then (db, Err InvalidCapacity)
    else
      after_commit k (transaction k (fun row =>
        let? half := raised (halved_capacity (b_capacity row)) in
        let reduced := match new_capacity with Some n => Z.min half n | None => half end in
        let? elapsed := raised (total_seconds (dt_sub now (b_last_refilled_at row))) in
        let? full := raised (refilled row (fmax fzero elapsed)) in
        let? cap := raised (float_of_int reduced) in
        Ok (MkBucket reduced (fmin cap full) now (Some now), tt))) db.

(** [update_capacity] *)
Definition update_capacity (k : string * string) (new_capacity : Z) (now : datetime) : store RateBucket :=
  fun db =>
    if new_capacity <=? 0 then (db, Err InvalidCapacity)
    else
      after_commit k (transaction k (fun row =>
        let? elapsed := raised (total_seconds (dt_sub now (b_last_refilled_at row))) in
        let? full := raised (refilled row elapsed) in
        let? cap := raised (float_of_int new_capacity) in
        Ok (MkBucket new_capacity (fmin cap full) now (b_recent_429_at row), tt))) db.

(** [persist] *)
Definition persist (k : string * string) (b : RateBucket) : store RateBucket := fun db =>
  match stored_bucket b with
  | Err e => (db, Err e)
  | Ok b =>
      match db !! k with
      | None => (db, Err NoBucket)
      | Some _ => (<[k := b]> db, bucket_from_row k b)
      end
  end.

(** ** [TokenBucketRateLimiter] *)

Section Limiter.
Variable cfg : RateLimitConfig.

Definition capacity_for_workers (worker_count : Z) : py Z :=
  dynamic_capacity (base_limit cfg) worker_count (per_worker_limit cfg).

(** [_ensure_bucket_capacity]; the store's clock and the limiter's own are
    read separately. *)
Definition ensure_bucket_capacity (k : string * string) (capacity : Z) (load_at wall update_at : datetime)
  : eff bucket_db store_error unit :=
  do! bucket := load_or_create k capacity load_at in
  do! effective := lift (raised (capacity_after_429 capacity (b_recent_429_at bucket) wall
                                   (capacity_rebuild_window_s cfg))) in
  if b_capacity bucket =? effective then ret tt
  else do! _ := update_capacity k effective update_at in ret tt.

(** [record_429] of the limiter *)
Definition limiter_record_429 (k : string * string) (worker_count : Z)
    (load_at wall update_at now : datetime) : eff bucket_db store_error RateBucket :=
  do! target := lift (raised (capacity_for_workers worker_count)) in
  do! _ := ensure_bucket_capacity k target load_at wall update_at in
  do! half := lift (raised (halved_capacity target)) in
  record_429 k (Some half) now.

(** One turn of the loop of [acquire] once the store answered: admitted,
    refused, or a wait. *)
Inductive turn := Granted (b : RateBucket) | RateLimited (retry_after_s : float) | Wait (seconds : float).

Definition acquire_turn (deadline tokens monotonic : float) (bucket : RateBucket) (allowed : bool) : py turn :=
  if allowed then Ok (Granted bucket)
  else
    let? retry := seconds_until_available (b_tokens bucket) (b_capacity bucket) tokens (refill_window_s cfg) in
    let remaining := fsub deadline monotonic in
    if negb (fisfinite retry) || fltb remaining retry then Ok (RateLimited retry)
    else Ok (Wait (fmax fzero retry)).

(** The loop: turn [n] finds the store as the other clients left it and reads
    the clocks [now n] and [mono n].  It ends when a turn admits or refuses;
    [fuel] turns are enough when one of them does. *)
Fixpoint acquire_loop (fuel : nat) (n : nat) (k : string * string) (tokens deadline : float)
    (others : nat -> bucket_db -> bucket_db) (now : nat -> datetime) (mono : nat -> float)
  : eff bucket_db store_error (option turn) :=
  match fuel with
  | O => ret None
  | S fuel' => fun db =>
      (do! ba := atomic_refill_consume k tokens (now n) in
       do! t := lift (raised (acquire_turn deadline tokens (mono n) ba.1 ba.2)) in
       match t with
       | Wait _ => acquire_loop fuel' (S n) k tokens deadline others now mono
       | _ => ret (Some t)
       end) (others n db)
  end.
End Limiter.

(** ** [parse_retry_after] *)
Section RetryAfter.
Variable parsedate : string -> option datetime.

Definition parse_retry_after (value : option string) (now : datetime) (max_delay_s : float)
  : py (option float) :=
  guard (fltb max_delay_s fzero) "max_delay_s must be >= 0";;
  match value with
  | None => Ok None
  | Some v =>
      let raw := strip v in
      if negb (nonempty raw) then Ok None
      else
        let? delay := match py_float (VStr raw) with
                      | Ok f => Ok (Some f)
                      | Err _ =>
                          match parsedate raw with
                          | None => Ok None
                          | Some at_ => rmap Some (total_seconds (dt_sub at_ now))
                          end
                      end in
        match delay with
        | None => Ok None
        | Some d => if fisfinite d then Ok (Some (fmin (fmax fzero d) max_delay_s)) else Ok None
        end
  end.
End RetryAfter.

(** ** Lemmas *)

(** Whole token counts up to [drain_limit] are exact: in single precision
    too, subtracting one gives the next smaller count, and the order is that
    of the integers. *)
Definition drain_limit : nat := 4096.

Definition exact_count (n : nat) : bool :=
  let j := Z.of_nat n in
  bool_decide (real4 (of_Z j) = Some (of_Z j)) &&
  bool_decide (float_of_int j = Ok (of_Z j)) &&
  fleb fzero (of_Z j) && negb (fltb (of_Z j) fzero) && negb (fnan (of_Z j)) &&
  bool_decide (fadd (of_Z j) fzero = of_Z j) &&
  fltb (of_Z j) (of_Z (j + 1)) &&
  Bool.eqb (fleb (of_Z 1) (of_Z j)) (1 <=? j) &&
  bool_decide (j = 0 \/ fsub (of_Z j) (of_Z 1) = of_Z (j - 1)) &&
  bool_decide (j = 0 \/ rmap (fmul fzero) (fdiv (of_Z j) REFILL_RATE_DIVISOR) = Ok fzero).

Lemma exact_counts : forallb exact_count (seq 0 (S drain_limit)) = true.
Proof. vm_compute. reflexivity. Qed.

Lemma exact_count_at j : 0 <= j <= Z.of_nat drain_limit ->
  real4 (of_Z j) = Some (of_Z j) /\ float_of_int j = Ok (of_Z j) /\ fleb fzero (of_Z j) = true /\
  fltb (of_Z j) fzero = false /\ fnan (of_Z j) = false /\ fadd (of_Z j) fzero = of_Z j /\
  fltb (of_Z j) (of_Z (j + 1)) = true /\ fleb (of_Z 1) (of_Z j) = (1 <=? j) /\
  (j = 0 \/ fsub (of_Z j) (of_Z 1) = of_Z (j - 1)) /\
  (j = 0 \/ rmap (fmul fzero) (fdiv (of_Z j) REFILL_RATE_DIVISOR) = Ok fzero).
Proof.
  intros Hj. pose proof exact_counts as H. rewrite forallb_forall in H.
  specialize (H (Z.to_nat j)). rewrite in_seq in H. specialize (H ltac:(lia)).
  unfold exact_count in H. rewrite Z2Nat.id in H by lia.
  rewrite !andb_true_iff, !bool_decide_eq_true, !negb_true_iff, Bool.eqb_true_iff in H. tauto.
Qed.

(** [of_Z] is increasing on this range. *)
Lemma of_Z_lt i j : 0 <= i -> i < j -> j <= Z.of_nat drain_limit -> fltb (of_Z i) (of_Z j) = true.
Proof.
  intros Hi Hij Hj. assert (exists n, j = i + 1 + Z.of_nat n) as [n ->] by (exists (Z.to_nat (j - i - 1)); lia).
  clear Hij. induction n as [|n IH].
  - rewrite Z.add_0_r. apply exact_count_at. lia.
  - specialize (IH ltac:(lia)).
    pose proof (exact_count_at i ltac:(lia)) as (_ & _ & _ & _ & Na & _).
    pose proof (exact_count_at (i + 1 + Z.of_nat n) ltac:(lia)) as (_ & _ & _ & _ & Nb & _ & Hstep & _).
    pose proof (exact_count_at (i + 1 + Z.of_nat (S n)) ltac:(lia)) as (_ & _ & _ & _ & Nc & _).
    replace (i + 1 + Z.of_nat n + 1) with (i + 1 + Z.of_nat (S n)) in Hstep by lia.
    apply fltb_key in IH, Hstep; [|done..]. apply fltb_key; [done..|]. by eapply key_lt_trans.
Qed.

Lemma fmin_counts c j : 0 <= j <= c -> c <= Z.of_nat drain_limit -> fmin (of_Z c) (of_Z j) = of_Z j.
Proof.
  intros Hj Hc. unfold fmin. destruct (decide (j = c)) as [->|Hne]; [by destruct (fltb _ _)|].
  rewrite of_Z_lt by lia. done.
Qed.

(** No time passes, nothing is refilled. *)
Lemma refilled_now c j now r :
  1 <= c <= Z.of_nat drain_limit -> 0 <= j <= c ->
  (let? elapsed := total_seconds (dt_sub now now) in refilled (MkBucket c (of_Z j) now r) elapsed)
  = Ok (of_Z j).
Proof.
  intros Hc Hj. unfold dt_sub. rewrite Z.sub_diag. change (total_seconds 0) with (Ok (E:=exn) fzero).
  cbn [rbind]. unfold refilled. cbn [b_capacity b_tokens].
  destruct (exact_count_at c ltac:(lia)) as (_ & -> & _ & _ & _ & _ & _ & _ & _ & Hr). cbn [rbind].
  destruct Hr as [?|Hr]; [lia|]. destruct (fdiv (of_Z c) REFILL_RATE_DIVISOR) as [rate|]; [|done].
  unfold rmap in Hr. assert (fmul fzero rate = fzero) as Hz by congruence. cbn [rbind]. rewrite Hz.
  destruct (exact_count_at j ltac:(lia)) as (_ & _ & _ & _ & _ & -> & _).
  by rewrite fmin_counts by lia.
Qed.

Lemma stored_count c j now r :
  1 <= c <= Z.of_nat drain_limit -> 0 <= j <= c ->
  stored_bucket (MkBucket c (of_Z j) now r) = Ok (MkBucket c (of_Z j) now r).
Proof.
  intros Hc Hj. unfold stored_bucket. cbn [b_capacity b_tokens b_last_refilled_at b_recent_429_at].
  assert (int4 c = true) as -> by (unfold int4, drain_limit in *; lia). cbn [negb].
  destruct (exact_count_at j ltac:(lia)) as (-> & _ & _ & -> & _).
  assert (c <=? 0 = false) as -> by lia. done.
Qed.

Definition key_text (k : string * string) : Prop := nonempty (strip k.1) && nonempty (strip k.2) = true.

Lemma bucket_count k c j now r :
  key_text k -> 1 <= c <= Z.of_nat drain_limit -> 0 <= j <= c ->
  bucket_from_row k (MkBucket c (of_Z j) now r) = Ok (MkBucket c (of_Z j) now r).
Proof.
  unfold key_text. intros Hk Hc Hj. unfold bucket_from_row. cbn [b_capacity b_tokens]. rewrite Hk.
  destruct (exact_count_at j ltac:(lia)) as (_ & _ & -> & _). by assert (0 <? c = true) as -> by lia.
Qed.

(** One request for one token at the instant of the last refill. *)
Lemma consume_one k db c j now r :
  key_text k -> 1 <= c <= Z.of_nat drain_limit -> 0 <= j <= c ->
  db !! k = Some (MkBucket c (of_Z j) now r) ->
  let b := MkBucket c (of_Z (if 1 <=? j then j - 1 else 0)) now r in
  atomic_refill_consume k (of_Z 1) now db = (<[k := b]> db, Ok (b, 1 <=? j)).
Proof.
  intros Hk Hc Hj Hdb b. unfold atomic_refill_consume, transaction. rewrite Hdb.
  cbn [b_last_refilled_at b_capacity b_recent_429_at].
  pose proof (refilled_now c j now r Hc Hj) as Hr.
  destruct (total_seconds (dt_sub now now)) as [el|]; [|done]. cbn [rbind raised rlift] in *.
  rewrite Hr. cbn [rbind raised rlift].
  destruct (exact_count_at j ltac:(lia)) as (_ & _ & _ & _ & _ & _ & _ & Hle & Hsub & _). rewrite Hle.
  assert ((if 1 <=? j then fsub (of_Z j) (of_Z 1) else of_Z j) = of_Z (if 1 <=? j then j - 1 else 0)) as ->.
  { destruct (Z.leb_spec 1 j) as [H1|H1]; [by destruct Hsub as [?| ->]; [lia|]|]. f_equal. lia. }
  set (j' := if 1 <=? j then j - 1 else 0) in *.
  assert (0 <= j' <= c) as Hj' by (unfold j'; destruct (Z.leb_spec 1 j); lia).
  rewrite stored_count by done. cbn [rbind]. rewrite bucket_count by done. cbn [rbind fst snd].
  rewrite stored_count by done. done.
Qed.

(** ** Properties *)

(** A full bucket of capacity [c] admits exactly [c] single-token
    requests that arrive at the same instant, in whatever number they come:
    the first [c] are admitted, every later one is refused, and the count
    left is exactly what remains.  Single precision does not matter below
    [drain_limit]. *)
Theorem burst_admits_exactly_capacity k db c now r n
    (Hkey : key_text k) (Hc : 1 <= c <= Z.of_nat drain_limit)
    (Hfull : db !! k = Some (MkBucket c (of_Z c) now r)) :
  exists db' ys,
    traverse (fun _ => atomic_refill_consume k (of_Z 1) now) (seq 0 n) db = (db', Ok ys) /\
    snd <$> ys = replicate (Nat.min n (Z.to_nat c)) true ++ replicate (n - Z.to_nat c) false /\
    db' !! k = Some (MkBucket c (of_Z (Z.max 0 (c - Z.of_nat n))) now r).
Proof.
  assert (forall m l j db, length l = m -> 0 <= j <= c -> db !! k = Some (MkBucket c (of_Z j) now r) ->
    exists db' ys, traverse (fun _ : nat => atomic_refill_consume k (of_Z 1) now) l db = (db', Ok ys) /\
      snd <$> ys = replicate (Nat.min m (Z.to_nat j)) true ++ replicate (m - Z.to_nat j) false /\
      db' !! k = Some (MkBucket c (of_Z (Z.max 0 (j - Z.of_nat m))) now r)) as H.
  { clear Hfull db n. induction m as [|m IH]; intros [|x l] j db Hl Hj Hdb; try done.
    - exists db, []. split; [done|]. split; [done|]. rewrite Hdb. do 3 f_equal. lia.
    - injection Hl as Hl. pose proof (consume_one k db c j now r Hkey Hc Hj Hdb) as E. cbv zeta in E.
      set (j' := if 1 <=? j then j - 1 else 0) in *.
      assert (0 <= j' <= c) as Hj' by (unfold j'; destruct (Z.leb_spec 1 j); lia).
      destruct (IH l j' _ Hl Hj' (lookup_insert_eq db k _)) as (db' & ys & E2 & Hy & Hd).
      eexists db', _. split; [cbn [traverse]; rewrite (bind_run _ _ _ _ _ E), (bind_run _ _ _ _ _ E2); reflexivity|].
      cbn [fmap list_fmap snd]. rewrite Hy, Hd. unfold j'. destruct (Z.leb_spec 1 j).
      + replace (Z.to_nat j) with (S (Z.to_nat (j - 1))) by lia. split; [done|]. do 3 f_equal. lia.
      + assert (j = 0) as -> by lia. rewrite Nat.min_0_r. split; [|do 3 f_equal; lia].
        rewrite Nat.min_0_r, !Nat.sub_0_r. done. }
  apply (H n (seq 0 n) c db); [by rewrite length_seq|lia|done].
Qed.

Lemma halved_capacity_Ok c h : halved_capacity c = Ok h -> 0 < c /\ h = Z.max 1 (c / 2).
Proof. unfold halved_capacity. destruct (Z.leb_spec c 0); [done|]. intros [= <-]. done. Qed.

(** After a 429 the effective capacity lies between half of the target
    and the target: it is the target when no 429 was recorded or the rebuild
    window has passed, and exactly half while no time has passed. *)
Theorem capacity_rebuild_bounds target recent now window c
    (Hrun : capacity_after_429 target recent now window = Ok c) :
  Z.max 1 (target / 2) <= c <= target /\
  match recent with
  | None => c = target
  | Some t =>
      forall elapsed, total_seconds (dt_sub now t) = Ok elapsed ->
        (fleb window elapsed = true -> c = target) /\
        (fleb window elapsed = false -> fleb elapsed fzero = true -> c = Z.max 1 (target / 2))
  end.
Proof.
  unfold capacity_after_429 in Hrun. destruct (Z.leb_spec target 0) as [|Ht]; [done|].
  assert (Z.max 1 (target / 2) <= target) as Hhalf by (pose proof (Z.div_le_upper_bound target 2 target); lia).
  destruct (fleb window fzero) eqn:Ew; [done|]. destruct recent as [t|].
  2: { injection Hrun as <-. split; [lia|done]. }
  apply rbind_Ok in Hrun as (el & Hel & Hrun).
  destruct (fleb window el) eqn:E1.
  { injection Hrun as <-. split; [lia|]. intros e He. rewrite Hel in He. injection He as <-.
    split; [done|congruence]. }
  apply rbind_Ok in Hrun as (red & [_ ->]%halved_capacity_Ok & Hrun).
  destruct (fleb el fzero) eqn:E2.
  { injection Hrun as <-. split; [lia|]. intros e He. rewrite Hel in He. injection He as <-.
    split; [congruence|done]. }
  apply rbind_Ok in Hrun as (sp & _ & Hrun). apply rbind_Ok in Hrun as (sh & _ & Hrun).
  apply rbind_Ok in Hrun as (ba & _ & Hrun). apply rbind_Ok in Hrun as (rec & _ & [= <-]).
  split; [lia|]. intros e He. rewrite Hel in He. injection He as <-. split; congruence.
Qed.

Lemma transaction_Ok {A} k (f : RateBucket -> result store_error (RateBucket * A)) db db' b a :
  transaction k f db = (db', Ok (b, a)) ->
  exists row row', db !! k = Some row /\ f row = Ok (row', a) /\ stored_bucket row' = Ok b /\ db' = <[k := b]> db.
Proof.
  unfold transaction. destruct (db !! k) as [row|]; [|done]. intros H. exists row.
  destruct (f row) as [[row' a']|]; [|done]. cbn in H. destruct (stored_bucket row') as [b'|] eqn:E; [|done].
  cbn in H. injection H as <- <- <-. by exists row'.
Qed.

Lemma stored_bucket_capacity b c : stored_bucket b = Ok c -> b_capacity c = b_capacity b /\ 0 < b_capacity b.
Proof.
  unfold stored_bucket. destruct (negb _); [done|]. destruct (real4 _); [|done].
  destruct (Z.leb_spec (b_capacity b) 0); [done|]. destruct (fltb _ _); [done|]. by intros [= <-].
Qed.

Lemma record_429_capacity k n now db db' b :
  record_429 k n now db = (db', Ok b) ->
  exists row, db !! k = Some row /\ db' !! k = Some b /\
    b_capacity b <= Z.max 1 (b_capacity row / 2) /\ 1 <= b_capacity b /\ b_recent_429_at b = Some now.
Proof.
  unfold record_429. destruct (match n with Some _ => _ | None => _ end) eqn:En; [done|].
  unfold after_commit. destruct (transaction _ _ db) as [db1 [[b1 []]|]] eqn:Et; [|done].
  intros [= Edb Hb]. subst db1. apply transaction_Ok in Et as (row & row' & Hrow & Hf & Hst & ->).
  assert (b1 = b) as -> by (unfold bucket_from_row in Hb; destruct (_ && _); congruence).
  exists row. split; [done|]. rewrite lookup_insert_eq. split; [done|].
  apply rbind_Ok in Hf as (half & Hh & Hf). unfold raised in Hh. apply rlift_Ok in Hh.
  apply halved_capacity_Ok in Hh as [Hpos ->].
  apply rbind_Ok in Hf as (el & _ & Hf). apply rbind_Ok in Hf as (full & _ & Hf).
  apply rbind_Ok in Hf as (cap & _ & [= <-]).
  pose proof (stored_bucket_capacity _ _ Hst) as [Ec Hc]. cbn in Ec, Hc. rewrite Ec.
  assert (b_recent_429_at b = Some now) as ->.
  { unfold stored_bucket in Hst. destruct (negb _); [done|]. destruct (real4 _); [|done].
    destruct (_ <=? 0); [done|]. destruct (fltb _ _); [done|]. by injection Hst as <-. }
  destruct n as [n|]; split_and!; try done; lia.
Qed.

(** Every recorded 429 at least halves the capacity of the bucket, down
    to one: after [n] of them, whenever they came and whatever capacity was
    asked for, it is at most [c / 2 ^ n] (or one). *)
Theorem repeated_429s_back_off k db db' row (calls : list (option Z * datetime)) ys
    (Hrow : db !! k = Some row)
    (Hrun : traverse (fun c => record_429 k c.1 c.2) calls db = (db', Ok ys)) :
  exists row', db' !! k = Some row' /\
    b_capacity row' <= Z.max 1 (b_capacity row / 2 ^ Z.of_nat (length calls)).
Proof.
  revert db row ys Hrow Hrun. induction calls as [|c calls IH]; intros db row ys Hrow Hrun.
  { injection Hrun as <- <-. exists row. split; [done|]. cbn. rewrite Z.div_1_r. lia. }
  apply bind_Ok in Hrun as (b & db1 & Hc & Hrun). apply bind_Ok in Hrun as (bs & db2 & Hcs & Hret).
  injection Hret as <- <-.
  apply record_429_capacity in Hc as (row0 & Hrow0 & Hb & Hle & Hge & _).
  rewrite Hrow in Hrow0. injection Hrow0 as <-.
  destruct (IH _ _ _ Hb Hcs) as (row' & Hr' & Hle'). exists row'. split; [done|].
  replace (Z.of_nat (length (c :: calls))) with (1 + Z.of_nat (length calls)) by (cbn; lia).
  rewrite Z.pow_add_r, <- Z.div_div by lia. change (2 ^ 1) with 2.
  destruct (Z.le_gt_cases (b_capacity row / 2) 1).
  - assert (b_capacity b / 2 ^ Z.of_nat (length calls) <= 1); [|lia].
    apply Z.div_le_upper_bound; [lia|]. pose proof (Z.pow_pos_nonneg 2 (Z.of_nat (length calls))). nia.
  - assert (b_capacity b / 2 ^ Z.of_nat (length calls) <= b_capacity row / 2 / 2 ^ Z.of_nat (length calls));
      [|lia]. apply Z.div_le_mono; lia.
Qed.

(** ** Witnesses *)

Definition ex_key : string * string := ("ep", "run").
Definition ex_full : bucket_db := {[ex_key := MkBucket 3 (of_Z 3) (utc 0) None]}.

Lemma burst_admits_exactly_capacity_witness :
  exists db' ys, traverse (fun _ => atomic_refill_consume ex_key (of_Z 1) (utc 0)) (seq 0 5) ex_full = (db', Ok ys) /\
    snd <$> ys = [true; true; true; false; false] /\
    db' !! ex_key = Some (MkBucket 3 (of_Z 0) (utc 0) None).
Proof.
  apply (burst_admits_exactly_capacity ex_key ex_full 3 (utc 0) None 5);
    [reflexivity|unfold drain_limit; lia|reflexivity].
Defined.

Lemma capacity_rebuild_bounds_witness :
  Z.max 1 (100 / 2) <= 75 <= 100.
Proof.
  apply (capacity_rebuild_bounds 100 (Some (utc 0)) (utc 30000000) CAPACITY_REBUILD_WINDOW_S).
  vm_compute. reflexivity.
Defined.

Lemma repeated_429s_back_off_witness :
  exists row', (traverse (fun c : option Z * datetime => record_429 ex_key c.1 c.2)
                  [(None, utc 1000000); (Some 5, utc 2000000)]
                  {[ex_key := MkBucket 100 (of_Z 100) (utc 0) None]}).1 !! ex_key = Some row' /\
    b_capacity row' <= Z.max 1 (100 / 2 ^ 2).
Proof.
  apply (repeated_429s_back_off ex_key {[ex_key := MkBucket 100 (of_Z 100) (utc 0) None]} _
           (MkBucket 100 (of_Z 100) (utc 0) None)
           [(None, utc 1000000); (Some 5, utc 2000000)]
           [MkBucket 50 (of_Z 50) (utc 1000000) (Some (utc 1000000));
            MkBucket 5 (of_Z 5) (utc 2000000) (Some (utc 2000000))]); vm_compute; reflexivity.
Defined.

(** A clock that steps back makes a refill negative; the row cannot be
    written and the request fails instead of being refused. *)
Example clock_step_back_fails :
  (atomic_refill_consume ex_key (of_Z 1) (utc 0)
     {[ex_key := MkBucket 10 (of_Z 0) (utc 1000000) None]}).2
  = Err (DatabaseRefused (CheckViolation "tokens")).
Proof. vm_compute. reflexivity. Qed.

Example wait_ex :
  acquire_turn (MkConfig 10 0 REFILL_WINDOW_S LOCAL_WAIT_LIMIT_S LOCAL_WAIT_LIMIT_S LOCAL_WAIT_LIMIT_S)
    (of_Z 30) (of_Z 1) (of_Z 0) (MkBucket 10 fzero (utc 0) None) false = Ok (Wait (of_Z 1)).
Proof. vm_compute. reflexivity. Qed.

Example retry_after_ex :
  (fun v => parse_retry_after (fun _ => None) (Some v) (utc 0) DEFAULT_MAX_RETRY_AFTER_DELAY_S)
    <$> [" 5 "; "-1"; "900"; "nan"; "soon"; ""]
  = [Ok (Some (of_Z 5)); Ok (Some fzero); Ok (Some (of_Z 60)); Ok None; Ok None; Ok None].
Proof. vm_compute. reflexivity. Qed.
