(* ===== verification/Pods.v ===== *)
(** * RunPod pods ([runpod_client/pods.py], [runpod_client/registry.py])

    What Pitwall reads out of a pod (price, allocation, runtime, readiness
    signals), the REST requests it makes, and the operations on existing pods:
    fetch, list, terminate, and the kill switch's sweep.

    RunPod, its SDK, the pod's HTTP proxy and the clock are outside the
    program: [RunPodApi] lists what the code asks of them, over a state [F]
    of everything outside.  JSON numbers, strings and objects are [pyval]s.
    A probe's latency is not kept. *)

From Stdlib Require Import Ascii SpecFloat.
From S2P Require Import Prelude PyDecimal PyFloat PyValue PyEq PyTime PyFormat Effects.

(** Definitions *)

(** The exception classes, with the fields the program reads.  [ClientError]
    is what the HTTP client or the JSON decoder raises. *)
Inductive pod_error :=
| RunPodError
| RunPodRestError (method path : string) (status_code : Z) (body : string)
| NoCapacityError
| ProviderFallbackRequested
| ProviderAttachHangRecoveryRequested (pod_id : string) (attach_timeout_s : float)
| PodStartupTimeout
| PodVolumeAttachTimeout (pod_id : string) (attach_timeout_s : float)
| PodStartupFailed
| ClientError (text : string)
| Raised (e : exn)
| CallbackError.

(** ** The outside world *)

Inductive http_reply :=
| Reply (status : Z) (text : string) (json : result string pyval)
| TransportError (text : string).

(** The answer of a pod's HTTP proxy. *)
Inductive probe_reply :=
| ProbeStatus (status : Z)
| ProbeTimeout
| ProbeHttpError.

Class RunPodApi (F : Type) := {
  send : string -> string -> option pyval -> F -> F * http_reply;
  sdk_get_pod : string -> F -> F * option pyval;
  http_get : string -> F -> F * probe_reply;
  monotonic : F -> F * float;
  sleep : float -> F -> F;
  utc_now : F -> F * datetime;
}.

(** A result read off the world. *)
Definition ask {F E A} (f : F -> F * A) : eff F E A := fun w => let '(w', a) := f w in (w', Ok a).

(** ** Dictionaries *)

Definition dict_setdefault (k : string) (v : pyval) (m : dict) : dict :=
  match dict_get k m with Some _ => m | None => al_set k v m end.
Definition dict_has (k : string) (m : dict) : bool := bool_decide (is_Some (dict_get k m)).

(** [a or b] *)
Definition py_or (a b : pyval) : pyval := if py_bool a then a else b.

(** [for x in v] *)
Fixpoint chars (s : string) : list pyval :=
  match s with EmptyString => [] | String c s' => VStr (String c EmptyString) :: chars s' end.
Definition py_iter (v : pyval) : py (list pyval) :=
  match v with
  | VList l | VTuple l => Ok l
  | VDict m => Ok (VStr <$> m.*1)
  | VStr s | VEnum s => Ok (chars s)
  | _ => Err (TypeError "object is not iterable")
  end.

(** ** Registry credentials *)

Definition head_of (sep : Ascii.ascii) (s : string) : string :=
  match split_on sep s with x :: _ => x | [] => EmptyString end.

Definition image_registry_prefix (image_ref : option string) : option string :=
  match image_ref with
  | None | Some EmptyString => None
  | Some r =>
      let first := lower (head_of "/"%char r) in
      if String.eqb first "ghcr.io" then Some "ghcr.io"
      else if String.eqb first "registry.gitlab.com" || startswith "gitlab-registry." first
      then Some "registry.gitlab.com"
      else if String.eqb first "docker.io" || String.eqb first "registry.hub.docker.com"
      then Some "docker.io"
      else if negb (str_contains "." first) && negb (str_contains ":" first) &&
              negb (String.eqb first "localhost")
      then Some "docker.io"
      else Some first
  end.

Definition registry_auth_env_names_for_image_ref (image_ref : option string) : list string :=
  match image_registry_prefix image_ref with
  | Some "ghcr.io" => ["RUNPOD_REGISTRY_AUTH_ID_GHCR"; "RUNPOD_REGISTRY_AUTH_ID"]
  | Some "registry.gitlab.com" => ["RUNPOD_REGISTRY_AUTH_ID_GITLAB"; "RUNPOD_REGISTRY_AUTH_ID"]
  | Some "docker.io" => ["RUNPOD_REGISTRY_AUTH_ID_DOCKER_HUB"]
  | _ => ["RUNPOD_REGISTRY_AUTH_ID"]
  end.

(** [env.get(name)], when it is not empty *)
Definition env_text (environ : string -> option string) (name : string) : option string :=
  match environ name with Some EmptyString | None => None | o => o end.

Fixpoint first_set (environ : string -> option string) (names : list string) : option string :=
  match names with
  | [] => None
  | n :: names' => match env_text environ n with
                   | Some v => Some v
                   | None => first_set environ names'
                   end
  end.

Definition registry_auth_id_from_env (environ : string -> option string) (image_ref : option string)
  : option string :=
  match image_ref with
  | None => first_set environ ["RUNPOD_REGISTRY_AUTH_ID"; "RUNPOD_REGISTRY_AUTH_ID_GHCR"]
  | Some _ => first_set environ (registry_auth_env_names_for_image_ref image_ref)
  end.

(** ** Requests *)

(** [_rest_request], after the reply arrived *)
Definition decode_reply (method path : string) (r : http_reply) : result pod_error pyval :=
  match r with
  | TransportError text => Err (ClientError text)
  | Reply status text json =>
      if status =? 204 then Ok (VDict [])
      else if 400 <=? status then Err (RunPodRestError method path status text)
      else if String.eqb text EmptyString then Ok (VDict [])
      else rlift ClientError json
  end.

Section Requests.
Context {F : Type} `{RunPodApi F} (environ : string -> option string).

(** [_require_api_key]; the key of the request or the environment's. *)
Definition require_api_key (api_key : option string) : result pod_error string :=
  match api_key with
  | Some EmptyString => Err RunPodError
  | Some k => Ok k
  | None => match env_text environ "RUNPOD_API_KEY" with
            | Some k => Ok k
            | None => Err RunPodError
            end
  end.

Definition rest_request (api_key : option string) (method path : string) (body : option pyval)
  : eff F pod_error pyval :=
  do! _ := lift (require_api_key api_key) in
  do! r := ask (send method path body) in
  lift (decode_reply method path r).

(** [_utc_now_iso] *)
Definition utc_now_iso : eff F pod_error string :=
  do! t := ask utc_now in
  ret (isoformat (Datetime (dt_us t) false) +:+ "Z").

(** ** Reading a pod *)

Definition normalize_dict (pod : dict) : dict :=
  let pod := if negb (dict_has "imageName" pod) && dict_has "image" pod
             then al_set "imageName" (dict_get_none "image" pod) pod else pod in
  let gpu := dict_get_none "gpu" pod in
  let machine := dict_get_none "machine" pod in
  let '(pod, machine) :=
    match gpu with
    | VDict g =>
        let pod := dict_setdefault "gpuTypeId" (dict_get_none "id" g) pod in
        let m := match machine with VDict m => m | _ => [] end in
        let m := dict_setdefault "gpuDisplayName"
                   (py_or (dict_get_none "displayName" g) (dict_get_none "id" g)) m in
        (al_set "machine" (VDict m) pod, VDict m)
    | _ => (pod, machine)
    end in
  match machine with
  | VDict m => dict_setdefault "gpuTypeId" (dict_get_none "gpuTypeId" m) pod
  | _ => pod
  end.

(** [_normalize_pod] *)
Definition normalize_pod (v : pyval) : result pod_error dict :=
  match v with
  | VDict m => Ok (normalize_dict m)
  | VStr _ | VEnum _ => Err (Raised (AttributeError "'str' object has no attribute 'get'"))
  | VList _ | VTuple _ => Err (Raised (AttributeError "'list' object has no attribute 'get'"))
  | VNone => Err (Raised (TypeError "argument of type 'NoneType' is not iterable"))
  | VBool _ => Err (Raised (TypeError "argument of type 'bool' is not iterable"))
  | VInt _ => Err (Raised (TypeError "argument of type 'int' is not iterable"))
  | _ => Err (Raised (TypeError "argument of type 'float' is not iterable"))
  end.

Definition money_decimal (v : pyval) : result pod_error dec :=
  match v with
  | VBool _ => Err RunPodError
  | _ => match decimal_of_str v with
         | Ok (DFin d) => if dltb d dzero then Err RunPodError else Ok d
         | _ => Err RunPodError
         end
  end.

Definition pod_cost_per_hr (pod : dict) : result pod_error dec :=
  match dict_get_none "costPerHr" pod with
  | VNone => match dict_get_none "cost_per_hr" pod with
             | VNone => Ok dzero
             | v => money_decimal v
             end
  | v => money_decimal v
  end.

Definition max_cost_per_hr_decimal (f : float) : result pod_error dec := money_decimal (VFloat f).

Definition pod_has_cost (pod : dict) : bool :=
  negb (is_none (dict_get_none "costPerHr" pod)) || negb (is_none (dict_get_none "cost_per_hr" pod)).

(** [value.is_integer()] of a finite float *)
Definition fis_integer (f : float) : bool :=
  match f with
  | S754_zero _ => true
  | S754_finite _ m e => float_num m e mod float_den e =? 0
  | _ => false
  end.
Definition whole_float (f : float) : option Z :=
  if fisfinite f && negb (fltb f fzero) && fis_integer f
  then match ffloor f with Ok z => Some z | Err _ => None end else None.

Definition coerce_non_negative_int (v : pyval) : option Z :=
  match v with
  | VInt z => if 0 <=? z then Some z else None
  | VFloat f => whole_float f
  | VStr s | VEnum s =>
      if nonempty (strip s) then f ← float_text (strip s); whole_float f else None
  | _ => None
  end.

Fixpoint first_some {A} (f : string -> option A) (keys : list string) : option A :=
  match keys with
  | [] => None
  | k :: keys' => match f k with Some a => Some a | None => first_some f keys' end
  end.

Definition sub_dict (k : string) (pod : dict) : dict :=
  match dict_get_none k pod with VDict m => m | _ => [] end.

(** A missing machine has none of the keys. *)
Definition pod_gpu_count (pod : dict) : option Z :=
  match first_some (fun k => coerce_non_negative_int (dict_get_none k pod)) ["gpuCount"; "gpu_count"] with
  | Some n => Some n
  | None =>
      let machine := sub_dict "machine" pod in
      match first_some (fun k => coerce_non_negative_int (dict_get_none k machine))
              ["gpuCount"; "gpu_count"; "gpu_count_allocated"] with
      | Some n => Some n
      | None =>
          first_some (fun k => match dict_get_none k pod with
                               | VList l | VTuple l => Some (Z.of_nat (length l))
                               | _ => None
                               end) ["gpus"; "gpuIds"; "gpu_ids"]
      end
  end.

Definition non_empty_string_or_none (v : pyval) : option string :=
  match v with VStr s | VEnum s => if nonempty s then Some s else None | _ => None end.

Definition pod_allocated_gpu_type_id (pod : dict) : option string :=
  let text (m : dict) (k : string) := non_empty_string_or_none (dict_get_none k m) in
  match first_some (text pod) ["gpuTypeId"; "gpu_type_id"] with
  | Some s => Some s
  | None =>
      match first_some (text (sub_dict "machine" pod)) ["gpuTypeId"; "gpu_type_id"] with
      | Some s => Some s
      | None => first_some (text (sub_dict "gpu" pod)) ["id"; "gpuTypeId"; "gpu_type_id"]
      end
  end.

Definition has_explicit_empty_gpu_type_id (pod : dict) : bool :=
  match pod_allocated_gpu_type_id pod with
  | Some _ => false
  | None =>
      let any (m : dict) (ks : list string) := existsb (fun k => dict_has k m) ks in
      any pod ["gpuTypeId"; "gpu_type_id"] || any (sub_dict "machine" pod) ["gpuTypeId"; "gpu_type_id"] ||
      any (sub_dict "gpu" pod) ["id"; "gpuTypeId"; "gpu_type_id"]
  end.

Definition pod_allocation_refresh_needed (pod : dict) : bool :=
  if bool_decide (is_Some (pod_gpu_count pod)) || bool_decide (is_Some (pod_allocated_gpu_type_id pod))
  then false
  else existsb (fun k => dict_has k pod) ["gpu"; "machine"; "gpuCount"; "gpu_count"].

(** [_gate_pod_allocation_before_readiness]: whether it asks for the fallback *)
Definition allocation_refused (pod : dict) (requested : list string) : bool :=
  match pod_gpu_count pod with
  | Some 0 => true
  | n =>
      if bool_decide (n = None) && has_explicit_empty_gpu_type_id pod then true
      else match pod_allocated_gpu_type_id pod with
           | Some g => negb (bool_decide (requested = [])) && negb (bool_decide (g ∈ requested))
           | None => false
           end
  end.

Definition copy_initial_runtime_fields (initial refreshed : dict) : dict :=
  let copy (k : string) (m : dict) :=
    if py_bool (dict_get_none k initial) && negb (py_bool (dict_get_none k m))
    then al_set k (dict_get_none k initial) m else m in
  copy "networkVolumeId" (copy "ports" refreshed).

(** [_has_mapping_value] *)
Definition has_mapping_value (v : pyval) : bool :=
  match v with
  | VDict _ | VList _ | VTuple _ | VStr _ | VEnum _ => py_bool v
  | _ => negb (is_none v)
  end.
Definition pod_has_runtime_signal (pod : dict) : bool :=
  match dict_get_none "runtime" pod with VDict (_ :: _) => true | _ => false end.
Definition pod_has_port_mappings_signal (pod : dict) : bool :=
  has_mapping_value (dict_get_none "portMappings" pod) ||
  match dict_get_none "runtime" pod with
  | VDict m => has_mapping_value (dict_get_none "portMappings" m) ||
               has_mapping_value (dict_get_none "ports" m)
  | _ => false
  end.

(** [_pod_value_missing] *)
Definition pod_value_missing (v : pyval) : bool :=
  match v with
  | VNone => true
  | VDict _ | VList _ | VTuple _ | VStr _ | VEnum _ => negb (py_bool v)
  | _ => false
  end.

(** [_pod_runtime_state] *)
Definition pod_runtime_state (pod : dict) : result pod_error string :=
  let desired := match dict_get_none "desiredStatus" pod with
                 | v => if py_bool v then py_str v else "unknown"
                 end in
  let runtime := dict_get_none "runtime" pod in
  if negb (py_bool runtime) then Ok desired
  else match runtime with
       | VDict m =>
           Ok (match first_some (fun k => let v := dict_get_none k m in
                                          if py_bool v then Some (py_str v) else None)
                     ["podStatus"; "containerStatus"; "status"] with
               | Some s => s
               | None => desired
               end)
       | _ => Err (Raised (AttributeError "get"))
       end.

Definition pod_failed_startup (pod : dict) : result pod_error bool :=
  rmap (fun s => bool_decide (lower s ∈ ["cancelled"; "canceled"; "dead"; "exited"; "failed";
                                          "stopped"; "terminated"]))
    (pod_runtime_state pod).

(** [if isinstance(value, str): value.strip()  else: value] as a condition *)
Definition stripped_truth (v : pyval) : bool :=
  match v with VStr s | VEnum s => nonempty (strip s) | _ => py_bool v end.

Definition pod_has_network_volume (pod : dict) : bool :=
  if existsb (fun k => stripped_truth (dict_get_none k pod))
       ["networkVolumeId"; "network_volume_id"; "volumeId"; "volume_id"] then true
  else
    match py_or (dict_get_none "networkVolume" pod) (dict_get_none "network_volume" pod) with
    | VDict m => existsb (fun k => stripped_truth (dict_get_none k m)) ["id"; "networkVolumeId"; "volumeId"]
                 || py_bool (VDict m)
    | v => stripped_truth v
    end.

(** [_coerce_uptime_seconds]: an integer too large for a float raises. *)
Definition coerce_uptime_seconds (v : pyval) : py (option float) :=
  match v with
  | VInt z => rmap Some (float_of_int z)
  | VFloat f => Ok (Some f)
  | VStr s | VEnum s => Ok (if nonempty (strip s) then float_text (strip s) else None)
  | _ => Ok None
  end.

Fixpoint first_uptime (m : dict) (keys : list string) : py (option float) :=
  match keys with
  | [] => Ok None
  | k :: keys' =>
      let? o := coerce_uptime_seconds (dict_get_none k m) in
      match o with Some f => Ok (Some f) | None => first_uptime m keys' end
  end.

Definition pod_uptime_seconds (pod : dict) : py (option float) :=
  let? o := first_uptime (sub_dict "runtime" pod) ["uptimeInSeconds"; "uptimeSeconds"; "uptime"] in
  match o with
  | Some f => Ok (Some f)
  | None => first_uptime pod ["uptimeSeconds"; "uptimeInSeconds"; "uptime"]
  end.

Definition pod_has_zero_uptime (pod : dict) : py bool :=
  rmap (fun o => match o with Some f => fleb f fzero | None => false end) (pod_uptime_seconds pod).

(** ** Probing a pod *)

(** [add_port]: duplicates and texts that are no port are dropped. *)
Definition add_port (ports : list Z) (v : pyval) : list Z :=
  match parse_int (head_of "/"%char (py_str v)) with
  | Some p => if (p <? 1) || (65535 <? p) || bool_decide (p ∈ ports) then ports else ports ++ [p]
  | None => ports
  end.

(** The part after the first slash. *)
Fixpoint split_slash (s : string) : option (string * string) :=
  match s with
  | EmptyString => None
  | String c s' =>
      if Ascii.eqb c "/"%char then Some (EmptyString, s')
      else match split_slash s' with Some (a, b) => Some (String c a, b) | None => None end
  end.

Definition add_declared (ports : list Z) (v : pyval) : list Z :=
  match split_slash (py_str v) with
  | Some (raw, protocol) => if String.eqb (lower protocol) "http" then add_port ports (VStr raw) else ports
  | None => ports
  end.

Definition add_runtime_port (ports : list Z) (v : pyval) : list Z :=
  match v with
  | VDict m =>
      let protocol := py_or (py_or (dict_get_none "type" m) (dict_get_none "protocol" m))
                        (dict_get_none "privatePortType" m) in
      if negb (is_none protocol) && negb (String.eqb (lower (py_str protocol)) "http") then ports
      else add_port ports (py_or (py_or (dict_get_none "privatePort" m) (dict_get_none "containerPort" m))
                             (dict_get_none "port" m))
  | _ => add_port ports v
  end.

Definition add_mapping (ports : list Z) (v : pyval) : list Z :=
  match v with
  | VDict m => add_port ports (py_or (py_or (dict_get_none "privatePort" m) (dict_get_none "containerPort" m))
                                 (dict_get_none "port" m))
  | _ => add_port ports v
  end.

Definition append_port_mapping_ports (ports : list Z) (mappings : pyval) : list Z :=
  match mappings with
  | VDict m => foldl add_port ports (VStr <$> m.*1)
  | VList l | VTuple l => foldl add_mapping ports l
  | _ => ports
  end.

Definition pod_http_probe_ports (pod : dict) : py (list Z) :=
  let? declared := py_iter (py_or (dict_get_none "ports" pod) (VList [])) in
  let ports := foldl add_declared [] declared in
  let ports :=
    match dict_get_none "runtime" pod with
    | VDict m =>
        let ports := match dict_get_none "ports" m with
                     | VList l | VTuple l => foldl add_runtime_port ports l
                     | _ => ports
                     end in
        append_port_mapping_ports ports (dict_get_none "portMappings" m)
    | _ => ports
    end in
  Ok (append_port_mapping_ports ports (dict_get_none "portMappings" pod)).

Record PodProbeResult : Type := MkProbe {
  healthy : bool;
  pr_method : string;
  pr_status_code : option Z;
  pr_error : option string;
}.

Definition PROXY_PROBE_METHOD : string := "runpod_proxy".
Definition SSH_LOCALHOST_PROBE_METHOD : string := "ssh_localhost".
Definition proxy_unhealthy (code : option Z) (error : string) : PodProbeResult :=
  MkProbe false PROXY_PROBE_METHOD code (Some error).

(** The loop over ports and paths: any answer that is neither a success nor
    a 524 goes on to the next URL. *)
Fixpoint probe_urls (pod : dict) (urls : list (string * string)) : eff F pod_error (dict * PodProbeResult) :=
  match urls with
  | [] => ret (pod, proxy_unhealthy None "no_port")
  | (base, path) :: urls' =>
      do! r := ask (http_get (base +:+ path)) in
      match r with
      | ProbeStatus s =>
          if (200 <=? s) && (s <? 300)
          then ret (dict_setdefault "proxyUrl" (VStr base) pod,
                    MkProbe true PROXY_PROBE_METHOD (Some s) None)
          else if s =? 524 then ret (pod, proxy_unhealthy (Some 524) "524")
          else probe_urls pod urls'
      | ProbeTimeout => ret (pod, proxy_unhealthy None "timeout")
      | ProbeHttpError => ret (pod, proxy_unhealthy None "connection_error")
      end
  end.

Definition probe_paths : list string := ["/health"; "/status.json"; "/"].

Definition pod_http_proxy_probe (pod : dict) : eff F pod_error (dict * PodProbeResult) :=
  let pod_id := dict_get_none "id" pod in
  if negb (py_bool pod_id) then ret (pod, proxy_unhealthy None "no_pod_id")
  else
    do! ports := lift (rlift Raised (pod_http_probe_ports pod)) in
    let base (p : Z) := "https://" +:+ py_str pod_id +:+ "-" +:+ str_int p +:+ ".proxy.runpod.net" in
    probe_urls pod (p ← ports; path ← probe_paths; [(base p, path)]).

Definition pod_ssh_localhost_probe (pod : dict) : PodProbeResult :=
  MkProbe false SSH_LOCALHOST_PROBE_METHOD None
    (Some (if py_bool (dict_get_none "id" pod) then "not_configured" else "no_pod_id")).

(** [_pod_readiness_probe] over [POD_READINESS_PROBE_ORDER] *)
Definition POD_READINESS_PROBE_ORDER : list string := [SSH_LOCALHOST_PROBE_METHOD; PROXY_PROBE_METHOD].
Fixpoint readiness_probe_from (methods : list string) (last : option PodProbeResult) (pod : dict)
  : eff F pod_error (dict * PodProbeResult) :=
  match methods with
  | [] => ret (pod, default (MkProbe false "none" None (Some "no_probe_methods")) last)
  | m :: methods' =>
      do! pr := (if String.eqb m SSH_LOCALHOST_PROBE_METHOD then ret (pod, pod_ssh_localhost_probe pod)
                 else if String.eqb m PROXY_PROBE_METHOD then pod_http_proxy_probe pod
                 else ret (pod, MkProbe false m None (Some "unknown_method"))) in
      if healthy pr.2 then ret pr else readiness_probe_from methods' (Some pr.2) pr.1
  end.
Definition pod_readiness_probe (pod : dict) : eff F pod_error (dict * PodProbeResult) :=
  readiness_probe_from POD_READINESS_PROBE_ORDER None pod.

(** ** Readiness signals *)

Record ReadinessSignals : Type := MkSignals {
  runtime_seen : option string;
  port_mappings_seen : option string;
  probe_passed : option string;
  probe_by : option string;
}.

Definition signals_from_pod (pod : dict) : ReadinessSignals :=
  match dict_get_none "readiness" pod with
  | VDict m =>
      let text (k : string) := non_empty_string_or_none (dict_get_none k m) in
      let method := dict_get_none "probe_method" m in
      MkSignals (text "runtime_seen_at") (text "port_mappings_seen_at") (text "probe_passed_at")
        (if py_bool method then Some (py_str method) else None)
  | _ => MkSignals None None None None
  end.

(** [complete] *)
Definition signals_complete (s : ReadinessSignals) : bool :=
  bool_decide (is_Some (runtime_seen s)) && bool_decide (is_Some (port_mappings_seen s)) &&
  bool_decide (is_Some (probe_passed s)).

(** [as_dict] *)
Definition signals_dict (s : ReadinessSignals) : dict :=
  let item (k : string) (o : option string) : dict := match o with Some t => [(k, VStr t)] | None => [] end in
  item "runtime_seen_at" (runtime_seen s) ++ item "port_mappings_seen_at" (port_mappings_seen s) ++
  item "probe_passed_at" (probe_passed s) ++ item "probe_method" (probe_by s).

(** [_attach_readiness_signals] *)
Definition attach_readiness_signals (pod : dict) (s : ReadinessSignals) : dict :=
  let readiness := sub_dict "readiness" pod in
  al_set "readiness" (VDict (foldl (fun m '(k, v) => al_set k v m) readiness (signals_dict s))) pod.

(** [_observe_readiness_signals] *)
Definition observe_readiness_signals (pod : dict) (s : ReadinessSignals)
  : eff F pod_error (dict * ReadinessSignals) :=
  do! s := (if bool_decide (runtime_seen s = None) && pod_has_runtime_signal pod
            then do! t := utc_now_iso in
                 ret (MkSignals (Some t) (port_mappings_seen s) (probe_passed s) (probe_by s))
            else ret s) in
  do! s := (if bool_decide (port_mappings_seen s = None) && pod_has_port_mappings_signal pod
            then do! t := utc_now_iso in
                 ret (MkSignals (runtime_seen s) (Some t) (probe_passed s) (probe_by s))
            else ret s) in
  if bool_decide (probe_passed s = None) && bool_decide (is_Some (port_mappings_seen s)) then
    do! pr := pod_readiness_probe pod in
    if negb (healthy pr.2) then ret (attach_readiness_signals pr.1 s, s)
    else do! t := utc_now_iso in
         let s := MkSignals (runtime_seen s) (port_mappings_seen s) (Some t) (Some (pr_method pr.2)) in
         ret (attach_readiness_signals pr.1 s, s)
  else ret (attach_readiness_signals pod s, s).

(** ** Operations on existing pods *)

(** The SDK's view, [None] on any failure. *)
Definition sdk_get_pod_sync (api_key : option string) (pod_id : string) : eff F pod_error (option dict) :=
  match require_api_key api_key with
  | Err _ => ret None
  | Ok _ =>
      do! v := ask (sdk_get_pod pod_id) in
      ret (match v with Some (VDict m) => Some (normalize_dict m) | _ => None end)
  end.

Definition merged_keys : list string :=
  ["runtime"; "portMappings"; "dockerId"; "uptimeSeconds"; "uptimeInSeconds"].
Definition merge_sdk (sdk pod : dict) : dict :=
  foldl (fun m k => if pod_value_missing (dict_get_none k m) &&
                       negb (pod_value_missing (dict_get_none k sdk))
                    then al_set k (dict_get_none k sdk) m else m) pod merged_keys.

(** [_get_pod_sync] with [strict_errors=False]: an HTTP error other than 404
    is raised, every other failure reads as a pod that does not exist. *)
Definition get_pod_body (api_key : option string) (pod_id : string) : eff F pod_error (option dict) :=
  do! v := rest_request api_key "GET" ("pods/" +:+ pod_id) None in
  match v with
  | VDict m =>
      let pod := normalize_dict m in
      if negb (py_bool (VDict pod)) || (pod_has_runtime_signal pod && pod_has_port_mappings_signal pod)
      then ret (Some pod)
      else
        do! o := sdk_get_pod_sync api_key pod_id in
        ret (Some (match o with
                   | Some sdk => if py_bool (VDict sdk) then merge_sdk sdk pod else pod
                   | None => pod
                   end))
  | _ => ret None
  end.

Definition get_pod_sync (api_key : option string) (pod_id : string) : eff F pod_error (option dict) :=
  fun w =>
    match get_pod_body api_key pod_id w with
    | (w', Err (RunPodRestError m p s b)) =>
        (w', if s =? 404 then Ok None else Err (RunPodRestError m p s b))
    | (w', Err _) => (w', Ok None)
    | r => r
    end.

(** [_terminate_pod_sync]: a pod RunPod does not know counts as terminated. *)
Definition terminate_pod_sync (api_key : option string) (pod_id : string) : eff F pod_error unit :=
  fun w =>
    match rest_request api_key "DELETE" ("pods/" +:+ pod_id) None w with
    | (w', Ok _) => (w', Ok tt)
    | (w', Err (RunPodRestError _ _ s _)) => (w', if s =? 404 then Ok tt else Err RunPodError)
    | (w', Err _) => (w', Err RunPodError)
    end.

(** [_get_pods_sync] *)
Definition dict_items (l : list pyval) : list dict := omap as_dict l.
Definition get_pods : eff F pod_error (list dict) :=
  do! v := rest_request None "GET" "pods" None in
  ret (match v with
       | VList l | VTuple l => normalize_dict <$> dict_items l
       | VDict m => normalize_dict <$> dict_items m.*2
       | _ => []
       end).

(** The pods of a listing whose name has the prefix: id and name.
    [name.startswith] needs a string. *)
Definition tagged (name_prefix : string) (pod : dict) : result pod_error (option (pyval * string)) :=
  let name := py_or (dict_get_none "name" pod) (VStr EmptyString) in
  let pod_id := dict_get_none "id" pod in
  if negb (py_bool pod_id) then Ok None
  else match as_str name with
       | None => Err (Raised (AttributeError "startswith"))
       | Some n => Ok (if startswith name_prefix n then Some (pod_id, n) else None)
       end.

(** [terminate_all_with_tag]: in the order of the listing, stopping at the
    first failure. *)
Fixpoint terminate_tagged (name_prefix : string) (pods : list dict) (killed : Z) : eff F pod_error Z :=
  match pods with
  | [] => ret killed
  | p :: pods' =>
      do! t := lift (tagged name_prefix p) in
      match t with
      | None => terminate_tagged name_prefix pods' killed
      | Some (pod_id, _) =>
          terminate_pod_sync None (py_str pod_id) ;!
          terminate_tagged name_prefix pods' (killed + 1)
      end
  end.
Definition terminate_all_with_tag (name_prefix : string) : eff F pod_error Z :=
  do! pods := get_pods in terminate_tagged name_prefix pods 0.

Definition get_pods_by_tag_prefix (name_prefix : string) : eff F pod_error (list (pyval * string)) :=
  do! pods := get_pods in
  do! l := lift (mapR (tagged name_prefix) pods) in
  ret (omap id l).
End Requests.
