(* ===== verification/PodCreate.v ===== *)
(** * Creating a pod ([runpod_client/pods.py])

    The readiness wait and the creation loop: GPU types and clouds are tried
    in order, a pod that fails a guard or does not start is deleted before
    the next attempt, and a pod that came up is returned.  Waiting is bounded
    by fuel, one unit per poll: [None] is a wait that used it up, and
    [wait_terminates] says how much is enough. *)

From Stdlib Require Import Ascii SpecFloat.
From S2P Require Import Prelude PyDecimal PyFloat PyValue PyEq PyTime PyFormat Effects Pods.

(** Definitions *)

Record WorkloadConfig : Type := MkWorkload {
  wc_name : string;
  wc_gpu_types : list string;
  wc_gpu_count : Z;
  wc_container_disk_gb : Z;
  wc_min_vcpu : Z;
  wc_min_memory_gb : Z;
  wc_cloud_type : string;
  wc_availability : bool;          (* gpu_type_priority == "availability" *)
  wc_data_center_priority : string;
  wc_allowed_cuda_versions : option (list string);
  wc_ports : option string;
}.

(** The arguments of [create_pod_with_fallback]. *)
Record pod_request : Type := MkRequest {
  rq_name : string;
  rq_template_id : option string;
  rq_image_name : string;
  rq_workload : WorkloadConfig;
  rq_env : list (string * string);
  rq_cloud_type_override : option string;
  rq_network_volume_id : option string;
  rq_data_center_id : option string;
  rq_docker_entrypoint : option (list string);
  rq_docker_start_cmd : option (list string);
  rq_container_registry_auth_id : option string;
  rq_support_public_ip : bool;
  rq_max_cost_per_hr : option float;
  rq_max_pod_attempts : option Z;
  rq_startup_timeout_s : float;
  rq_startup_poll_s : float;
  rq_volume_attach_timeout_s : option float;
  rq_wait_for_readiness : bool;
  rq_api_key : option string;
}.

(** [if s:] for [str | None] *)
Definition set_text (o : option string) : option string :=
  match o with Some EmptyString => None | _ => o end.

Definition cloud_types_for_rest (cloud_type : string) (network_volume_id : option string)
  : result pod_error (list string) :=
  let normalized := upper cloud_type in
  match set_text network_volume_id with
  | Some _ => if String.eqb normalized "COMMUNITY" then Err RunPodError else Ok ["SECURE"]
  | None =>
      if String.eqb normalized "ALL" then Ok ["COMMUNITY"; "SECURE"]
      else if String.eqb normalized "COMMUNITY" || String.eqb normalized "SECURE" then Ok [normalized]
      else Err RunPodError
  end.

Definition stripped_items (sep : ascii) (s : string) : list string :=
  filter (fun t => nonempty t = true) (strip <$> split_on sep s).

Definition ports_for_rest (ports : option string) : option (list string) :=
  match set_text ports with Some s => Some (stripped_items ","%char s) | None => None end.

(** ** Capacity errors *)

Definition DEFAULT_CAPACITY_ERROR_SUBSTRINGS : list string :=
  ["no longer any instances available"; "resourcesunavailable"; "not enough"; "no instances";
   "insufficient"; "unavailable"; "does not have the resources"].

Definition configured_capacity_error_substrings (environ : string -> option string) : list string :=
  match environ "PITWALL_RUNPOD_CAPACITY_ERROR_SUBSTRINGS" with
  | None => DEFAULT_CAPACITY_ERROR_SUBSTRINGS
  | Some raw => stripped_items ","%char (replace_char "010"%char ","%char raw)
  end.

(** [_capacity_error_search_text], for the errors a create request raises *)
Definition capacity_error_search_text (e : pod_error) : string :=
  match e with
  | RunPodRestError method path status body =>
      body +:+ String "010"%char (method +:+ " " +:+ path +:+ " failed with HTTP " +:+ str_int status +:+
                                  ": " +:+ body)
  | ClientError text => text
  | Raised (AttributeError m) | Raised (TypeError m) => m
  | _ => "RUNPOD_API_KEY not set in process env"
  end.

Definition is_capacity_error (environ : string -> option string) (e : pod_error) : bool :=
  existsb (fun sub => str_contains (lower sub) (lower (capacity_error_search_text e)))
    (configured_capacity_error_substrings environ).

(** ** The request *)

Definition texts (l : list string) : pyval := VList (VStr <$> l).
Definition when_some {A} (o : option A) (k : string) (f : A -> pyval) : dict :=
  match o with Some a => [(k, f a)] | None => [] end.

Definition create_payload (environ : string -> option string) (rq : pod_request)
    (gpu_type_ids : list string) (cloud_type : string) : dict :=
  let w := rq_workload rq in
  [("name", VStr (rq_name rq)); ("imageName", VStr (rq_image_name rq)); ("computeType", VStr "GPU");
   ("cloudType", VStr cloud_type); ("gpuCount", VInt (wc_gpu_count w));
   ("gpuTypeIds", texts gpu_type_ids);
   ("gpuTypePriority", VStr (if wc_availability w then "availability" else "custom"));
   ("containerDiskInGb", VInt (wc_container_disk_gb w)); ("minVCPUPerGPU", VInt (wc_min_vcpu w));
   ("minRAMPerGPU", VInt (wc_min_memory_gb w)); ("supportPublicIp", VBool (rq_support_public_ip rq));
   ("env", VDict ((fun kv => (kv.1, VStr kv.2)) <$> rq_env rq));
   ("volumeMountPath", VStr "/workspace")] ++
  match wc_allowed_cuda_versions w with
  | Some (v :: vs) => [("allowedCudaVersions", texts (v :: vs))]
  | _ => []
  end ++
  when_some (match set_text (rq_container_registry_auth_id rq) with
             | Some i => Some i
             | None => registry_auth_id_from_env environ (Some (rq_image_name rq))
             end) "containerRegistryAuthId" VStr ++
  when_some (set_text (rq_template_id rq)) "templateId" VStr ++
  when_some (set_text (rq_network_volume_id rq)) "networkVolumeId" VStr ++
  match set_text (rq_data_center_id rq) with
  | Some dc => [("dataCenterIds", texts [dc]); ("dataCenterPriority", VStr (wc_data_center_priority w))]
  | None => []
  end ++
  match ports_for_rest (wc_ports w) with
  | Some (p :: ps) => [("ports", texts (p :: ps))]
  | _ => []
  end ++
  when_some (rq_docker_entrypoint rq) "dockerEntrypoint" texts ++
  when_some (rq_docker_start_cmd rq) "dockerStartCmd" texts.

Section Create.
Context {F : Type} `{RunPodApi F} (environ : string -> option string).

(** ** The readiness wait *)

Definition coerce_timeout_s (o : option float) : result pod_error float :=
  match o with
  | Some f => if negb (fisfinite f) || fltb f fzero then Err RunPodError else Ok f
  | None => Err RunPodError
  end.

(** [_volume_attach_timeout_s] *)
Definition volume_attach_timeout_s (override_s : option float) : result pod_error float :=
  match override_s with
  | Some f => coerce_timeout_s (Some f)
  | None => match environ "PITWALL_VOLUME_ATTACH_TIMEOUT_S" with
            | Some raw => if nonempty (strip raw) then coerce_timeout_s (float_text raw) else Ok (of_Z 300)
            | None => Ok (of_Z 300)
            end
  end.

(** The attach deadline is fixed the first time the pod shows a volume. *)
Definition attach_deadline (override_s : option float) (started_at : float) (pod : dict)
    (attach : option (float * float)) : result pod_error (option (float * float)) :=
  match attach with
  | Some _ => Ok attach
  | None =>
      if pod_has_network_volume pod
      then rmap (fun t => Some (t, fadd started_at t)) (volume_attach_timeout_s override_s)
      else Ok None
  end.

Definition attach_hung (pod : dict) (now : float) (attach : option (float * float))
  : result pod_error (option float) :=
  match attach with
  | Some (t, deadline) =>
      if fleb deadline now
      then rmap (fun zero : bool => if zero then Some t else None) (rlift Raised (pod_has_zero_uptime pod))
      else Ok None
  | None => Ok None
  end.

Definition poll_delay (poll_s remaining : float) : float :=
  fmin (fmax poll_s (of_dec (Dec 1 (-1)))) remaining.

Fixpoint wait_loop (fuel : nat) (api_key : option string) (pod_id : string) (poll_s : float)
    (override_s : option float) (started_at deadline : float) (attach : option (float * float))
    (latest : dict) (signals : ReadinessSignals) : eff F pod_error (option dict) :=
  match fuel with
  | O => ret None
  | S fuel =>
      do! seen := observe_readiness_signals latest signals in
      let latest := seen.1 in
      let signals := seen.2 in
      if signals_complete signals then ret (Some latest)
      else
        do! failed := lift (pod_failed_startup latest) in
        if failed then fail PodStartupFailed
        else
          do! attach := lift (attach_deadline override_s started_at latest attach) in
          do! now := ask monotonic in
          do! hung := lift (attach_hung latest now attach) in
          match hung with
          | Some t => fail (PodVolumeAttachTimeout pod_id t)
          | None =>
              let remaining := fsub deadline now in
              if fleb remaining fzero then fail PodStartupTimeout
              else
                do! _ := ask (fun w => (sleep (poll_delay poll_s remaining) w, tt)) in
                do! o := get_pod_sync environ api_key pod_id in
                match o with
                | None => fail PodStartupFailed
                | Some refreshed =>
                    let refreshed :=
                      if py_bool (dict_get_none "ports" latest) && negb (py_bool (dict_get_none "ports" refreshed))
                      then al_set "ports" (dict_get_none "ports" latest) refreshed else refreshed in
                    wait_loop fuel api_key pod_id poll_s override_s started_at deadline attach
                      (attach_readiness_signals refreshed signals) signals
                end
          end
  end.

(** [_wait_for_pod_runtime_sync] *)
Definition wait_for_pod_runtime_sync (fuel : nat) (api_key : option string) (pod_id : string)
    (initial : dict) (timeout_s poll_s : float) (override_s : option float)
  : eff F pod_error (option dict) :=
  let latest := if py_bool (VDict initial) then initial else [("id", VStr pod_id)] in
  do! seen := observe_readiness_signals latest (signals_from_pod latest) in
  if fleb timeout_s fzero then ret (Some seen.1)
  else
    do! started_at := ask monotonic in
    wait_loop fuel api_key pod_id poll_s override_s started_at (fadd started_at timeout_s) None seen.1 seen.2.

(** ** The guards *)

Definition refresh_pod_for_pre_readiness_guards (rq : pod_request) (pod_id : string) (pod : dict)
  : eff F pod_error dict :=
  let needs_cost_refresh := bool_decide (is_Some (rq_max_cost_per_hr rq)) && negb (pod_has_cost pod) in
  if negb needs_cost_refresh && negb (pod_allocation_refresh_needed pod) then ret pod
  else
    do! o := get_pod_sync environ (rq_api_key rq) pod_id in
    ret (match o with Some refreshed => copy_initial_runtime_fields pod refreshed | None => pod end).

(** [_gate_pod_cost_before_readiness]: whether the pod was too expensive, and
    is deleted *)
Definition gate_pod_cost_before_readiness (rq : pod_request) (pod_id : string) (pod : dict)
  : eff F pod_error bool :=
  match rq_max_cost_per_hr rq with
  | None => ret false
  | Some cap =>
      match pod_cost_per_hr pod with
      | Err e => terminate_pod_sync environ (rq_api_key rq) pod_id ;! fail e
      | Ok cost =>
          do! max_cost := lift (max_cost_per_hr_decimal cap) in
          if deqb cost dzero || dleb cost max_cost then ret false
          else terminate_pod_sync environ (rq_api_key rq) pod_id ;! ret true
      end
  end.

Definition gate_pod (rq : pod_request) (gpu_type_ids : list string) (pod_id : string) (pod : dict)
  : eff F pod_error bool :=
  if allocation_refused pod gpu_type_ids
  then terminate_pod_sync environ (rq_api_key rq) pod_id ;! ret true
  else gate_pod_cost_before_readiness rq pod_id pod.

(** ** The creation loop *)

(** How one turn of the loop ends when it does not raise: with the pod, or
    with [continue] and, if the turn set it, whether [last_err] asks for the
    provider fallback. *)
Inductive turn :=
| Launched (pod : dict)
| StillWaiting
| NextAttempt (last_err : option bool).

Definition attempt_limit (rq : pod_request) (pod_attempts : Z) (last_err : bool) : eff F pod_error turn :=
  match rq_max_pod_attempts rq with
  | Some limit => if limit <=? pod_attempts then fail RunPodError else ret (NextAttempt (Some last_err))
  | None => ret (NextAttempt (Some last_err))
  end.

(** From the callback to the end of the [try]: a pod that did not come up is
    deleted, once, whatever was raised. *)
Definition start_pod (fuel : nat) (rq : pod_request) (callback : option (dict -> eff F pod_error unit))
    (pod_id : string) (pod : dict) (pod_attempts : Z) : eff F pod_error turn :=
  let delete := terminate_pod_sync environ (rq_api_key rq) pod_id in
  fun w =>
    match (match callback with Some f => f pod | None => ret tt end) w with
    | (w, Err e) => (delete ;! fail e) w
    | (w, Ok _) =>
        if negb (rq_wait_for_readiness rq) then (w, Ok (Launched pod))
        else
          match wait_for_pod_runtime_sync fuel (rq_api_key rq) pod_id pod (rq_startup_timeout_s rq)
                  (rq_startup_poll_s rq) (rq_volume_attach_timeout_s rq) w with
          | (w, Ok (Some ready)) => (w, Ok (Launched ready))
          | (w, Ok None) => (w, Ok StillWaiting)
          | (w, Err (PodVolumeAttachTimeout _ t)) =>
              (delete ;! fail (ProviderAttachHangRecoveryRequested pod_id t)) w
          | (w, Err PodStartupTimeout) => (delete ;! attempt_limit rq pod_attempts false) w
          | (w, Err e) => (delete ;! fail e) w
          end
    end.

(** A turn after the create request returned a pod with an id. *)
Definition handle_created (fuel : nat) (rq : pod_request) (callback : option (dict -> eff F pod_error unit))
    (gpu_type_ids : list string) (pod : dict) (pod_attempts : Z) : eff F pod_error turn :=
  let pod := match set_text (rq_network_volume_id rq) with
             | Some v => dict_setdefault "networkVolumeId" (VStr v) pod
             | None => pod
             end in
  let pod_id := py_str (dict_get_none "id" pod) in
  do! guarded := refresh_pod_for_pre_readiness_guards rq pod_id pod in
  do! refused := gate_pod rq gpu_type_ids pod_id guarded in
  if refused then attempt_limit rq pod_attempts true
  else start_pod fuel rq callback pod_id guarded pod_attempts.

Definition post_pod (rq : pod_request) (gpu_type_ids : list string) (cloud_type : string)
  : eff F pod_error dict :=
  do! v := rest_request environ (rq_api_key rq) "POST" "pods"
             (Some (VDict (create_payload environ rq gpu_type_ids cloud_type))) in
  lift (normalize_pod v).

Definition has_id (pod : dict) : bool := py_bool (dict_get_none "id" pod).

(** One turn: the create request and what follows it.  [attempts] counts the
    pods created so far. *)
Definition create_turn (fuel : nat) (rq : pod_request) (callback : option (dict -> eff F pod_error unit))
    (attempt : list string * string) (pod_attempts : Z) : eff F pod_error (turn * Z) :=
  fun w =>
    match post_pod rq attempt.1 attempt.2 w with
    | (w, Err e) =>
        if is_capacity_error environ e then (w, Ok (NextAttempt (Some false), pod_attempts))
        else (w, Err RunPodError)
    | (w, Ok pod) =>
        if has_id pod
        then (do! t := handle_created fuel rq callback attempt.1 pod (pod_attempts + 1) in
              ret (t, pod_attempts + 1)) w
        else (w, Ok (NextAttempt None, pod_attempts))
    end.

Fixpoint create_loop (fuel : nat) (rq : pod_request) (callback : option (dict -> eff F pod_error unit))
    (attempts : list (list string * string)) (last_err : bool) (pod_attempts : Z)
  : eff F pod_error (option dict) :=
  match attempts with
  | [] => fail (if last_err then ProviderFallbackRequested else NoCapacityError)
  | a :: attempts' =>
      do! r := create_turn fuel rq callback a pod_attempts in
      match r.1 with
      | Launched pod => ret (Some pod)
      | StillWaiting => ret None
      | NextAttempt e => create_loop fuel rq callback attempts' (default last_err e) r.2
      end
  end.

(** [for gpu_type_ids in gpu_type_attempts: for cloud_type in ...] *)
Definition gpu_type_attempts (w : WorkloadConfig) : list (list string) :=
  if wc_availability w then [wc_gpu_types w] else (fun g => [g]) <$> wc_gpu_types w.

Definition create_pod_with_fallback_sync (fuel : nat) (rq : pod_request)
    (callback : option (dict -> eff F pod_error unit)) : eff F pod_error (option dict) :=
  let w := rq_workload rq in
  do! clouds := lift (cloud_types_for_rest
                        (default (wc_cloud_type w) (set_text (rq_cloud_type_override rq)))
                        (rq_network_volume_id rq)) in
  create_loop fuel rq callback (gpus ← gpu_type_attempts w; cloud ← clouds; [(gpus, cloud)]) false 0.
End Create.

(** ** What RunPod promises

    [live] is the set of pods that exist, and are paid for.  A create request
    that is answered with a pod creates that pod and one that is not creates
    nothing; a delete request that is answered with success, or with 404,
    leaves the pod gone.  Pods may disappear at any time. *)
Definition created (r : http_reply) : gset string :=
  match decode_reply "POST" "pods" r with
  | Ok (VDict m) => if has_id m then {[py_str (dict_get_none "id" m)]} else ∅
  | _ => ∅
  end.
Definition deleted (path : string) (r : http_reply) : bool :=
  match decode_reply "DELETE" path r with
  | Ok _ => true
  | Err (RunPodRestError _ _ s _) => s =? 404
  | Err _ => false
  end.
(** The reply is not an HTTP error other than 404. *)
Definition readable (path : string) (r : http_reply) : bool :=
  match decode_reply "GET" path r with
  | Err (RunPodRestError _ _ s _) => s =? 404
  | _ => true
  end.

Class LawfulRunPod (F : Type) `{RunPodApi F} := {
  live : F -> gset string;
  get_live path body w : live (send "GET" path body w).1 ⊆ live w;
  post_live body w : live (send "POST" "pods" body w).1 ⊆ live w ∪ created (send "POST" "pods" body w).2;
  delete_live i w : live (send "DELETE" ("pods/" +:+ i) None w).1 ⊆ live w;
  delete_gone i w :
    deleted ("pods/" +:+ i) (send "DELETE" ("pods/" +:+ i) None w).2 = true ->
    i ∉ live (send "DELETE" ("pods/" +:+ i) None w).1;
  sdk_live i w : live (sdk_get_pod i w).1 ⊆ live w;
  probe_live url w : live (http_get url w).1 ⊆ live w;
  clock_live w : live (monotonic w).1 ⊆ live w;
  sleep_live d w : live (sleep d w) ⊆ live w;
  now_live w : live (utc_now w).1 ⊆ live w;
}.

(** The requests that observe the world do not move against [R]: they only
    lose pods, or do not get further from a deadline. *)

Class QuietApi {F : Type} `{RunPodApi F} (R : F -> F -> Prop) := {
  quiet_order :: PreOrder R;
  get_quiet path body w : R w (send "GET" path body w).1;
  sdk_quiet i w : R w (sdk_get_pod i w).1;
  probe_quiet url w : R w (http_get url w).1;
  clock_quiet w : R w (monotonic w).1;
  now_quiet w : R w (utc_now w).1;
}.

Definition loses_pods {F} `{LawfulRunPod F} (w w' : F) : Prop := live w' ⊆ live w.
Abbreviation calm := (keeps loses_pods).

(** One observation of the world. *)
Inductive observes {F} `{RunPodApi F} (w : F) : F -> Prop :=
| ObservesGet path body : observes w (send "GET" path body w).1
| ObservesSdk i : observes w (sdk_get_pod i w).1
| ObservesProbe url : observes w (http_get url w).1
| ObservesClock : observes w (monotonic w).1
| ObservesNow : observes w (utc_now w).1.

(** [ticks d n w w']: from [w] to [w'] by observing and [n] sleeps, each of
    them begun before the clock read [d]. *)
Inductive ticks {F} `{RunPodApi F} (d : float) : nat -> F -> F -> Prop :=
| TicksStart w : ticks d 0 w w
| TicksObserve n w w' w'' : ticks d n w w' -> observes w' w'' -> ticks d n w w''
| TicksSleep n w w' s :
    ticks d n w w' -> fleb (fsub d (monotonic w').2) fzero = false ->
    ticks d (S n) w (sleep s (monotonic w').1).

(** A wait of [timeout] seconds that starts in [w] sees its deadline pass
    within [N] sleeps. *)
Definition deadline_passes {F} `{RunPodApi F} (timeout : float) (N : nat) (w : F) : Prop :=
  forall n w', ticks (fadd (monotonic w).2 timeout) n (monotonic w).1 w' -> (n <= N)%nat.

(** Lemmas *)

#[export] Instance live_quiet {F} `{LawfulRunPod F} : QuietApi loses_pods.
Proof.
  split; unfold loses_pods; intros;
    [|apply get_live|apply sdk_live|apply probe_live|apply clock_live|apply now_live].
  split; [by intros ?|]. intros w1 w2 w3 ? ?. by etrans.
Qed.

(** ** Runs that keep a relation *)

Section Keeps.
Context {F : Type} `{QuietApi F R}.

Lemma keeps_ask {E A} (f : F -> F * A) : (forall w, R w (f w).1) -> keeps (E:=E) R (ask f).
Proof. intros Hf w. specialize (Hf w). unfold ask. by destruct (f w). Qed.
Lemma keeps_get {E} path body : keeps (E:=E) R (ask (send "GET" path body)).
Proof. apply keeps_ask. intros; apply get_quiet. Qed.
Lemma keeps_sdk {E} i : keeps (E:=E) R (ask (sdk_get_pod i)).
Proof. apply keeps_ask, sdk_quiet. Qed.
Lemma keeps_probe {E} url : keeps (E:=E) R (ask (http_get url)).
Proof. apply keeps_ask, probe_quiet. Qed.
Lemma keeps_clock {E} : keeps (E:=E) R (ask monotonic).
Proof. apply keeps_ask, clock_quiet. Qed.
Lemma keeps_now : keeps R utc_now_iso.
Proof. apply keeps_bind; [apply keeps_ask, now_quiet|intros; apply keeps_ret]. Qed.
End Keeps.

Lemma calm_sleep {F E} `{LawfulRunPod F} d : keeps (E:=E) loses_pods (ask (fun w => (sleep d w, tt))).
Proof. apply keeps_ask. intros w. apply sleep_live. Qed.

#[export] Hint Extern 0 (keeps _ (ask (send _ _ _))) => apply keeps_get : keeps.
#[export] Hint Extern 0 (keeps _ (ask (sdk_get_pod _))) => apply keeps_sdk : keeps.
#[export] Hint Extern 0 (keeps _ (ask (http_get _))) => apply keeps_probe : keeps.
#[export] Hint Extern 0 (keeps _ (ask monotonic)) => apply keeps_clock : keeps.
#[export] Hint Extern 0 (keeps _ utc_now_iso) => apply keeps_now : keeps.
#[export] Hint Resolve calm_sleep : keeps.

Section Observe.
Context {F : Type} `{QuietApi F R} (environ : string -> option string).

Lemma keeps_get_request key path body : keeps R (rest_request environ key "GET" path body).
Proof. unfold rest_request. keep. Qed.

Lemma keeps_probe_urls pod urls : keeps R (probe_urls pod urls).
Proof. induction urls as [|[base path] urls IH]; simpl; keep. Qed.

Lemma keeps_readiness_probe pod : keeps R (pod_readiness_probe pod).
Proof.
  unfold pod_readiness_probe, POD_READINESS_PROBE_ORDER. revert pod.
  assert (forall pod, keeps R (pod_http_proxy_probe pod)) as Hp.
  { intros pod. unfold pod_http_proxy_probe. destruct (negb (py_bool _)); [apply keeps_ret|].
    apply keeps_bind; [apply keeps_lift|intros; apply keeps_probe_urls]. }
  generalize (@None PodProbeResult).
  induction [SSH_LOCALHOST_PROBE_METHOD; PROXY_PROBE_METHOD] as [|x l IH]; intros o pod; simpl;
    [apply keeps_ret|].
  apply keeps_bind; [keep|]. intros pr. destruct (healthy pr.2); [apply keeps_ret|apply IH].
Qed.
#[local] Hint Extern 0 (keeps _ (pod_readiness_probe _)) => apply keeps_readiness_probe : keeps.
#[local] Hint Extern 0 (keeps _ (rest_request _ _ "GET" _ _)) => apply keeps_get_request : keeps.

Lemma keeps_observe pod s : keeps R (observe_readiness_signals pod s).
Proof. unfold observe_readiness_signals. keep. Qed.

Lemma keeps_get_pod key i : keeps R (get_pod_sync environ key i).
Proof.
  assert (keeps R (get_pod_body environ key i)) as Hb.
  { unfold get_pod_body, sdk_get_pod_sync. apply keeps_bind; [keep|].
    intros v. destruct v; [keep..|].
    destruct (negb _ || _); [keep|]. apply keeps_bind; [|keep].
    destruct (require_api_key _ _); keep. }
  intros w. specialize (Hb w). unfold get_pod_sync.
  destruct (get_pod_body environ key i w) as [w' [o|[]]]; done.
Qed.
End Observe.
#[export] Hint Extern 0 (keeps _ (observe_readiness_signals _ _)) => apply keeps_observe : keeps.
#[export] Hint Extern 0 (keeps _ (get_pod_sync _ _ _)) => apply keeps_get_pod : keeps.

(** The readiness wait observes and sleeps, and nothing else. *)
Section Wait.
Context {F : Type} `{QuietApi F R} (Hsleep : forall d w, R w (sleep d w)) (environ : string -> option string).

Lemma keeps_wait_loop fuel key i poll o st d attach latest s :
  keeps R (wait_loop environ fuel key i poll o st d attach latest s).
Proof.
  assert (forall d, keeps (E:=pod_error) R (ask (fun w => (sleep d w, tt)))) by (intros; apply keeps_ask; intros; apply Hsleep).
  revert attach latest s. induction fuel as [|fuel IH]; intros attach latest s; [apply keeps_ret|].
  cbn [wait_loop]. keep.
Qed.

Lemma keeps_wait fuel key i initial t poll o :
  keeps R (wait_for_pod_runtime_sync environ fuel key i initial t poll o).
Proof.
  unfold wait_for_pod_runtime_sync. pose proof keeps_wait_loop. keep.
Qed.
End Wait.

Section Pieces.
Context {F : Type} `{LawfulRunPod F} (environ : string -> option string).

Lemma calm_terminate key i : calm (terminate_pod_sync environ key i).
Proof.
  assert (calm (rest_request environ key "DELETE" ("pods/" +:+ i) None)) as Hc.
  { unfold rest_request. apply keeps_bind; [keep|]. intros _.
    apply keeps_bind; [|keep]. apply keeps_ask. intros w. apply delete_live. }
  intros w. specialize (Hc w). unfold terminate_pod_sync.
  destruct (rest_request environ key "DELETE" ("pods/" +:+ i) None w) as [w' [o|[]]]; done.
Qed.

Lemma calm_wait fuel key i initial t poll o :
  calm (wait_for_pod_runtime_sync environ fuel key i initial t poll o).
Proof. apply keeps_wait. apply sleep_live. Qed.
#[local] Hint Resolve calm_terminate calm_wait : keeps.

Lemma calm_refresh rq i pod : calm (refresh_pod_for_pre_readiness_guards environ rq i pod).
Proof. unfold refresh_pod_for_pre_readiness_guards. keep. Qed.

Lemma calm_gate rq gpus i pod : calm (gate_pod environ rq gpus i pod).
Proof. unfold gate_pod, gate_pod_cost_before_readiness. keep. Qed.

(** ** A request that succeeds creates at most the pod it returns *)

Lemma py_dict_get_set (k k' : string) (v : pyval) (m : dict) :
  k <> k' -> dict_get k (al_set k' v m) = dict_get k m.
Proof.
  intros Hne. induction m as [|[k2 v2] m IH]; simpl.
  - by rewrite (proj2 (String.eqb_neq _ _) Hne).
  - case_decide as E; subst; simpl; [|by rewrite IH].
    by rewrite (proj2 (String.eqb_neq _ _) Hne).
Qed.

Lemma dict_get_setdefault k k' v m : k <> k' -> dict_get k (dict_setdefault k' v m) = dict_get k m.
Proof. intros Hne. unfold dict_setdefault. destruct (dict_get k' m); [done|by apply py_dict_get_set]. Qed.

Lemma normalize_id m : dict_get_none "id" (normalize_dict m) = dict_get_none "id" m.
Proof.
  unfold normalize_dict.
  set (p := if negb (dict_has "imageName" m) && _ then _ else m).
  assert (dict_get "id" p = dict_get "id" m) as Hp.
  { subst p. destruct (negb _ && _); [by apply py_dict_get_set|done]. }
  assert (forall p q : dict, dict_get "id" p = dict_get "id" q -> dict_get_none "id" p = dict_get_none "id" q)
    as Hn by (intros p1 p2 E; unfold dict_get_none; by rewrite E).
  apply Hn. clearbody p. rewrite <- Hp.
  destruct (dict_get_none "gpu" p), (dict_get_none "machine" p); simpl;
    rewrite ?dict_get_setdefault, ?py_dict_get_set, ?dict_get_setdefault by done; done.
Qed.

Lemma post_pod_live rq gpus cloud w w' r :
  post_pod environ rq gpus cloud w = (w', r) ->
  match r with
  | Ok pod => live w' ⊆ live w ∪ (if has_id pod then {[py_str (dict_get_none "id" pod)]} else ∅)
  | Err _ => live w' ⊆ live w
  end.
Proof.
  unfold post_pod, rest_request, bind, lift, ask.
  destruct (require_api_key environ _) as [k|e]; [|by intros [= <- <-]].
  set (body := Some _). pose proof (post_live body w) as Hp.
  destruct (send "POST" "pods" body w) as [w1 rep]. simpl in *. unfold created in Hp.
  destruct (decode_reply "POST" "pods" rep) as [v|e]; [|intros [= <- <-]; set_solver].
  destruct v; simpl; intros [= <- <-]; [set_solver..|].
  unfold has_id in *. by rewrite normalize_id.
Qed.
End Pieces.

(** ** No pod is left behind *)

Section Leaks.
Context {F : Type} `{LawfulRunPod F} (environ : string -> option string).
(** Every delete request is answered with success or 404, and no fetch of a
    pod with an HTTP error other than 404. *)
Definition deletes_answered : Prop :=
  forall i w, deleted ("pods/" +:+ i) (send (F:=F) "DELETE" ("pods/" +:+ i) None w).2 = true.
Definition fetches_readable : Prop :=
  forall i w, readable ("pods/" +:+ i) (send (F:=F) "GET" ("pods/" +:+ i) None w).2 = true.

Lemma terminate_gone key k i L w :
  deletes_answered -> require_api_key environ key = Ok k -> live w ⊆ L ∪ {[i]} ->
  exists w', terminate_pod_sync environ key i w = (w', Ok tt) /\ live w' ⊆ L.
Proof.
  intros Hd Hk Hl. specialize (Hd i w).
  pose proof (delete_gone i w Hd) as Hg. pose proof (delete_live i w) as Hs.
  unfold terminate_pod_sync, rest_request, bind, lift, ask. rewrite Hk. unfold deleted in Hd.
  destruct (send "DELETE" ("pods/" +:+ i) None w) as [w1 r]. simpl in *.
  exists w1. split; [|set_solver].
  destruct (decode_reply "DELETE" ("pods/" +:+ i) r) as [v|e]; [done|].
  destruct e; try done. by rewrite Hd.
Qed.

Lemma require_api_key_Err key e : require_api_key environ key = Err e -> e = RunPodError.
Proof. unfold require_api_key. intros E. repeat case_match; by simplify_eq. Qed.

(** A delete that the program takes for done is done. *)
Lemma terminate_Ok_gone key i w w' :
  terminate_pod_sync environ key i w = (w', Ok tt) -> i ∉ live w'.
Proof.
  pose proof (delete_gone i w) as Hg. unfold terminate_pod_sync, rest_request, bind, lift, ask.
  destruct (require_api_key environ key) eqn:Ek; [|by rewrite (require_api_key_Err _ _ Ek)].
  unfold deleted in Hg. destruct (send "DELETE" ("pods/" +:+ i) None w) as [w1 r]. simpl in *.
  destruct (decode_reply "DELETE" ("pods/" +:+ i) r) as [v|e]; [intros [= <-]; by apply Hg|].
  destruct e; try done. destruct (status_code =? 404); [|done]. intros [= <-]. by apply Hg.
Qed.

Lemma terminate_then {A} key k i L w (m : eff F pod_error A) :
  deletes_answered -> require_api_key environ key = Ok k -> live w ⊆ L ∪ {[i]} -> calm m ->
  live ((terminate_pod_sync environ key i ;! m) w).1 ⊆ L.
Proof.
  intros Hd Hk Hl Hm. destruct (terminate_gone key k i L w Hd Hk Hl) as (w1 & E & H1).
  rewrite (bind_run _ _ _ _ _ E). specialize (Hm w1). set_solver.
Qed.

Lemma get_pod_answers key i w :
  fetches_readable -> exists w' o, get_pod_sync environ key i w = (w', Ok o).
Proof.
  intros Hr. specialize (Hr i w). unfold get_pod_sync, get_pod_body, rest_request, bind, lift, ask.
  destruct (require_api_key environ key) eqn:Ek; [|rewrite (require_api_key_Err _ _ Ek); by eauto].
  unfold readable in Hr.
  destruct (send "GET" ("pods/" +:+ i) None w) as [w1 r]. simpl in *.
  destruct (decode_reply "GET" ("pods/" +:+ i) r) as [v|e].
  - destruct v; try by eauto. destruct (negb _ || _); [by eauto|].
    unfold sdk_get_pod_sync, bind, ask, ret. rewrite Ek.
    destruct (sdk_get_pod i w1) as [w2 o]. by eauto.
  - destruct e; try by eauto. rewrite Hr. by eauto.
Qed.

(** How a turn may end, from a state with at most the pods [L] and [i]. *)
Definition turn_safe (L : gset string) (i : string) (o : F * result pod_error turn) : Prop :=
  match o with
  | (w, Ok (Launched _)) => live w ⊆ L ∪ {[i]}
  | (w, Ok StillWaiting) => True
  | (w, Ok (NextAttempt _)) | (w, Err _) => live w ⊆ L
  end.

(** A computation that ends with at most the pods [L] ends the turn safely. *)
Lemma turn_safe_within L i o : live o.1 ⊆ L -> turn_safe L i o.
Proof. destruct o as [w [[| |]|e]]; simpl; intros Hl; [set_solver|done..]. Qed.

Lemma calm_attempt_limit rq n b : calm (attempt_limit (F:=F) rq n b).
Proof. unfold attempt_limit. keep. Qed.

Lemma start_pod_safe fuel rq callback k i pod n L w :
  deletes_answered -> require_api_key environ (rq_api_key rq) = Ok k ->
  (forall f p, callback = Some f -> calm (f p)) ->
  live w ⊆ L ∪ {[i]} -> turn_safe L i (start_pod environ fuel rq callback i pod n w).
Proof.
  intros Hd Hk Hc Hl. unfold start_pod.
  assert (calm (match callback with Some f => f pod | None => ret tt end)) as Hcb.
  { destruct callback; [by apply Hc|apply keeps_ret]. }
  specialize (Hcb w). destruct (_ w) as [w1 [u|e]]; simpl in Hcb.
  2: { apply turn_safe_within. eapply terminate_then; [done..| |apply keeps_fail]. set_solver. }
  destruct (negb (rq_wait_for_readiness rq)); [simpl; set_solver|].
  match goal with |- context [wait_for_pod_runtime_sync ?a ?b ?c ?d ?e ?f ?g ?h w1] =>
    pose proof (calm_wait a b c d e f g h w1 : live _ ⊆ live _) as Hw;
    destruct (wait_for_pod_runtime_sync a b c d e f g h w1) as [w2 [[p|]|e2]] end; simpl in Hw;
    [simpl; set_solver|done|].
  destruct e2;
    (apply turn_safe_within; eapply terminate_then;
       [done|done| |first [apply keeps_fail|apply calm_attempt_limit]]; set_solver).
Qed.

Definition cap_valid (rq : pod_request) : Prop :=
  forall f, rq_max_cost_per_hr rq = Some f -> is_ok (max_cost_per_hr_decimal f) = true.

Lemma gate_pod_safe rq gpus k i pod L w :
  deletes_answered -> require_api_key environ (rq_api_key rq) = Ok k -> cap_valid rq ->
  live w ⊆ L ∪ {[i]} ->
  match gate_pod environ rq gpus i pod w with
  | (w', Ok false) => live w' ⊆ L ∪ {[i]}
  | (w', _) => live w' ⊆ L
  end.
Proof.
  intros Hd Hk Hcap Hl. unfold gate_pod, gate_pod_cost_before_readiness.
  destruct (terminate_gone _ k i L w Hd Hk Hl) as (w1 & E & H1).
  destruct (allocation_refused pod gpus); [by rewrite (bind_run _ _ _ _ _ E)|].
  unfold cap_valid in Hcap. destruct (rq_max_cost_per_hr rq) as [cap|]; [|done].
  destruct (pod_cost_per_hr pod); [|by rewrite (bind_run _ _ _ _ _ E)].
  specialize (Hcap cap eq_refl). destruct (max_cost_per_hr_decimal cap); [|done].
  unfold bind at 1, lift. destruct (_ || _); [done|]. by rewrite (bind_run _ _ _ _ _ E).
Qed.

Lemma handle_created_safe fuel rq callback k gpus pod n L w :
  deletes_answered -> fetches_readable -> require_api_key environ (rq_api_key rq) = Ok k ->
  cap_valid rq -> (forall f p, callback = Some f -> calm (f p)) ->
  live w ⊆ L ∪ {[py_str (dict_get_none "id" pod)]} ->
  turn_safe L (py_str (dict_get_none "id" pod))
    (handle_created environ fuel rq callback gpus pod n w).
Proof.
  intros Hd Hr Hk Hcap Hc Hl. unfold handle_created.
  set (p := match set_text (rq_network_volume_id rq) with Some v => _ | None => pod end).
  assert (dict_get_none "id" p = dict_get_none "id" pod) as ->.
  { subst p. unfold dict_get_none. destruct (set_text _); [by rewrite dict_get_setdefault|done]. }
  set (i := py_str _) in *.
  assert (exists w1 g, refresh_pod_for_pre_readiness_guards environ rq i p w = (w1, Ok g)) as (w1 & g & E1).
  { unfold refresh_pod_for_pre_readiness_guards. destruct (negb _ && _); [by eauto|].
    destruct (get_pod_answers (rq_api_key rq) i w Hr) as (w' & o & E).
    rewrite (bind_run _ _ _ _ _ E). by eauto. }
  rewrite (bind_run _ _ _ _ _ E1). pose proof (calm_refresh environ rq i p w) as H1.
  rewrite E1 in H1. simpl in H1.
  pose proof (gate_pod_safe rq gpus k i g L w1 Hd Hk Hcap) as Hg.
  specialize (Hg ltac:(set_solver)). unfold bind.
  destruct (gate_pod environ rq gpus i g w1) as [w2 [[|]|e]].
  - apply turn_safe_within. pose proof (calm_attempt_limit rq n true w2). set_solver.
  - by eapply start_pod_safe.
  - done.
Qed.

(** The loop: from at most the pods [L] it ends with at most one more. *)
Definition creation_safe (L : gset string) (o : F * result pod_error (option dict)) : Prop :=
  match o with
  | (w, Ok (Some _)) => exists i, live w ⊆ L ∪ {[i]}
  | (w, Ok None) => True
  | (w, Err _) => live w ⊆ L
  end.

Lemma create_loop_safe fuel rq callback attempts last n L w :
  deletes_answered -> fetches_readable -> cap_valid rq ->
  (forall f p, callback = Some f -> calm (f p)) -> live w ⊆ L ->
  creation_safe L (create_loop environ fuel rq callback attempts last n w).
Proof.
  intros Hd Hr Hcap Hc. revert last n w.
  induction attempts as [|a attempts IH]; intros last n w Hl; [done|].
  cbn [create_loop]. unfold bind at 1, create_turn at 1.
  destruct (post_pod environ rq a.1 a.2 w) as [w1 [pod|e]] eqn:Ep;
    pose proof (post_pod_live environ _ _ _ _ _ _ Ep) as H1; simpl in H1.
  2: { destruct (is_capacity_error environ e); [apply IH; set_solver|simpl; set_solver]. }
  destruct (has_id pod); [|apply IH; set_solver].
  assert (exists k, require_api_key environ (rq_api_key rq) = Ok k) as [k Hk].
  { unfold post_pod, rest_request, bind, lift in Ep.
    destruct (require_api_key environ (rq_api_key rq)); [by eauto|done]. }
  pose proof (handle_created_safe fuel rq callback k a.1 pod (n + 1) L w1 Hd Hr Hk Hcap Hc) as Ht.
  specialize (Ht ltac:(set_solver)). unfold bind.
  destruct (handle_created environ fuel rq callback a.1 pod (n + 1) w1) as [w2 [[p| |o]|e]]; simpl in *.
  - by eexists.
  - done.
  - by apply IH.
  - done.
Qed.

Lemma create_pod_safe fuel rq callback w :
  deletes_answered -> fetches_readable -> cap_valid rq ->
  (forall f p, callback = Some f -> calm (f p)) ->
  creation_safe (live w) (create_pod_with_fallback_sync environ fuel rq callback w).
Proof.
  intros Hd Hr Hcap Hc. unfold create_pod_with_fallback_sync, bind, lift.
  destruct (cloud_types_for_rest _ _); [by apply create_loop_safe|simpl; set_solver].
Qed.
End Leaks.

(** ** Creation only sends requests, reads the clock, sleeps and runs the
    callback *)

Section Requests.
Context {F : Type} `{QuietApi F R}.
Context (Hsleep : forall d w, R w (sleep d w)) (Hsend : forall m p b w, R w (send m p b w).1).
Context (environ : string -> option string).

Lemma keeps_request key m p b : keeps R (rest_request environ key m p b).
Proof.
  unfold rest_request. apply keeps_bind; [keep|]. intros _. apply keeps_bind; [|keep].
  apply keeps_ask. intros w. apply Hsend.
Qed.

Lemma keeps_terminate key i : keeps R (terminate_pod_sync environ key i).
Proof.
  intros w. pose proof (keeps_request key "DELETE" ("pods/" +:+ i) None w) as Hc. unfold terminate_pod_sync.
  destruct (rest_request environ key "DELETE" ("pods/" +:+ i) None w) as [w' [o|[]]]; done.
Qed.
#[local] Hint Resolve keeps_terminate : keeps.

Lemma keeps_limit rq n b : keeps R (attempt_limit (F:=F) rq n b).
Proof. unfold attempt_limit. keep. Qed.

Lemma keeps_start fuel rq callback i pod n :
  (forall f p, callback = Some f -> keeps R (f p)) ->
  keeps R (start_pod environ fuel rq callback i pod n).
Proof.
  intros Hc w. unfold start_pod.
  assert (keeps R (match callback with Some f => f pod | None => ret tt end)) as Hcb.
  { destruct callback; [by apply Hc|apply keeps_ret]. }
  specialize (Hcb w). destruct (_ w) as [w1 [u|e]]; simpl in Hcb.
  2: { apply keeps_then; [done|apply keeps_terminate|apply keeps_fail]. }
  destruct (negb (rq_wait_for_readiness rq)); [done|].
  match goal with |- context [wait_for_pod_runtime_sync ?a ?b ?c ?d ?e ?f ?g ?h w1] =>
    pose proof (keeps_wait Hsleep a b c d e f g h w1) as Hw;
    destruct (wait_for_pod_runtime_sync a b c d e f g h w1) as [w2 [[p|]|e2]] end; simpl in Hw;
    assert (R w w2) by (by etrans); [done|done|].
  destruct e2; (apply keeps_then; [done|apply keeps_terminate|first [apply keeps_fail|apply keeps_limit]]).
Qed.

Lemma keeps_create fuel rq callback :
  (forall f p, callback = Some f -> keeps R (f p)) ->
  keeps R (create_pod_with_fallback_sync environ fuel rq callback).
Proof.
  intros Hc. unfold create_pod_with_fallback_sync. apply keeps_bind; [apply keeps_lift|]. intros clouds.
  generalize (gpus ← gpu_type_attempts (rq_workload rq); cloud ← clouds; [(gpus, cloud)]) false 0.
  assert (forall a n, keeps R (create_turn environ fuel rq callback a n)) as Ht.
  { intros a n w. unfold create_turn.
    assert (keeps R (post_pod environ rq a.1 a.2)) as Hp.
    { unfold post_pod. apply keeps_bind; [apply keeps_request|keep]. }
    specialize (Hp w). destruct (post_pod environ rq a.1 a.2 w) as [w1 [pod|e]]; simpl in Hp;
      [|by destruct (is_capacity_error environ e)].
    destruct (has_id pod); [|done].
    assert (keeps R (do! t := handle_created environ fuel rq callback a.1 pod (n + 1) in ret (t, n + 1))) as Hh;
      [|etrans; [done|apply Hh]].
    apply keeps_bind; [|keep]. unfold handle_created, refresh_pod_for_pre_readiness_guards, gate_pod,
      gate_pod_cost_before_readiness. pose proof keeps_limit. pose proof keeps_start. keep. }
  intros l. induction l as [|a l IH]; intros last n; cbn [create_loop]; keep.
Qed.
End Requests.

(** ** What a creation that returns has done

    It ran the callback on the pod it returns, in a state with no other new
    pod, and only observed the world since. *)

Definition pod_named (i : string) (pod : dict) : Prop :=
  has_id pod = true /\ py_str (dict_get_none "id" pod) = i.

(** A fetched pod carries the id it was asked for under. *)
Definition fetched_named {F} `{RunPodApi F} (environ : string -> option string) : Prop :=
  forall key i (w w' : F) p, get_pod_sync environ key i w = (w', Ok (Some p)) -> pod_named i p.

Section Started.
Context {F : Type} `{LawfulRunPod F} (R : F -> F -> Prop) `{!QuietApi R}.
Context (Hsleep : forall d w, R w (sleep d w)) (environ : string -> option string).
Context (f : dict -> eff F pod_error unit).

Definition started (L : gset string) (w' : F) : Prop :=
  exists i pod w1 w2, live w1 ⊆ L ∪ {[i]} /\ live w2 ⊆ L ∪ {[i]} /\ live w' ⊆ L ∪ {[i]} /\
    pod_named i pod /\ f pod w1 = (w2, Ok tt) /\ R w2 w'.

Lemma copied_named i initial refreshed :
  pod_named i refreshed -> pod_named i (copy_initial_runtime_fields initial refreshed).
Proof.
  unfold pod_named, has_id, copy_initial_runtime_fields.
  assert (dict_get_none "id" (copy_initial_runtime_fields initial refreshed) = dict_get_none "id" refreshed) as E.
  { unfold copy_initial_runtime_fields, dict_get_none.
    destruct (py_bool _ && _); rewrite ?py_dict_get_set by done; destruct (py_bool _ && _);
      by rewrite ?py_dict_get_set. }
  unfold copy_initial_runtime_fields in E. by rewrite E.
Qed.

Lemma refresh_named rq i pod w w' g :
  fetched_named (F:=F) environ -> pod_named i pod ->
  refresh_pod_for_pre_readiness_guards environ rq i pod w = (w', Ok g) -> pod_named i g.
Proof.
  intros Hn Hi. unfold refresh_pod_for_pre_readiness_guards. destruct (negb _ && _); [by intros [= _ <-]|].
  intros (o & w1 & E & [= _ <-])%bind_Ok. destruct o as [p|]; [|done].
  apply copied_named. by eapply Hn.
Qed.

Lemma start_pod_started fuel rq i pod n L w w' t :
  (forall p, calm (f p)) -> live w ⊆ L ∪ {[i]} -> pod_named i pod ->
  start_pod environ fuel rq (Some f) i pod n w = (w', Ok t) ->
  (exists p, t = Launched p) \/ t = StillWaiting -> started L w'.
Proof.
  intros Hc Hl Hi. unfold start_pod. pose proof (Hc pod w) as H1. unfold loses_pods in H1.
  destruct (f pod w) as [w1 [[]|e]] eqn:Ef; [|by intros (? & ? & _ & [=])%bind_Ok]. simpl in H1.
  assert (forall w2, R w1 w2 -> live w2 ⊆ live w1 -> started L w2) as Hdone.
  { intros w2 HR H2. exists i, pod, w, w1. split_and!; try done; set_solver. }
  destruct (negb (rq_wait_for_readiness rq)); [intros [= <- <-] _; by apply Hdone|].
  match goal with |- context [wait_for_pod_runtime_sync ?a ?b ?c ?d ?e ?f ?g ?h w1] =>
    pose proof (calm_wait a b c d e f g h w1 : live _ ⊆ live _) as H2;
    pose proof (keeps_wait Hsleep a b c d e f g h w1 : R _ _) as H3;
    destruct (wait_for_pod_runtime_sync a b c d e f g h w1) as [w2 [[p|]|e2]] end; simpl in *;
    [intros [= <- <-] _; by apply Hdone|intros [= <- <-] _; by apply Hdone|].
  intros E Ht. exfalso.
  destruct e2; apply bind_Ok in E as (? & ? & _ & E); try done.
  unfold attempt_limit in E. destruct Ht as [[q ->]| ->]; by repeat case_match.
Qed.

Lemma create_loop_started fuel rq attempts last n L w w' o :
  deletes_answered (F:=F) -> fetches_readable (F:=F) -> fetched_named (F:=F) environ -> cap_valid rq ->
  (forall p, calm (f p)) -> live w ⊆ L ->
  create_loop environ fuel rq (Some f) attempts last n w = (w', Ok o) -> started L w'.
Proof.
  intros Hd Hr Hn Hcap Hc. revert last n w.
  assert (forall g q, Some f = Some g -> calm (g q)) as Hc' by (intros g q [= <-]; apply Hc).
  induction attempts as [|a attempts IH]; intros last n w Hl; [done|].
  cbn [create_loop]. unfold bind at 1, create_turn at 1.
  destruct (post_pod environ rq a.1 a.2 w) as [w1 [pod|e]] eqn:Ep;
    pose proof (post_pod_live environ _ _ _ _ _ _ Ep) as H1; simpl in H1.
  2: { destruct (is_capacity_error environ e); [apply IH; set_solver|done]. }
  destruct (has_id pod) eqn:Hid; [|apply IH; set_solver].
  assert (exists k, require_api_key environ (rq_api_key rq) = Ok k) as [k Hk].
  { unfold post_pod, rest_request, bind, lift in Ep.
    destruct (require_api_key environ (rq_api_key rq)); [by eauto|done]. }
  pose proof (handle_created_safe environ fuel rq (Some f) k a.1 pod (n + 1) L w1 Hd Hr Hk Hcap Hc') as Ht.
  specialize (Ht ltac:(set_solver)). unfold bind.
  destruct (handle_created environ fuel rq (Some f) a.1 pod (n + 1) w1) as [w2 [t|e]] eqn:Eh; [|done].
  assert ((exists p, t = Launched p) \/ t = StillWaiting -> started L w2) as Hs.
  { intros Hend. unfold handle_created in Eh. revert Eh.
    set (q := match set_text (rq_network_volume_id rq) with Some v => _ | None => pod end).
    assert (dict_get_none "id" q = dict_get_none "id" pod) as Eq.
    { subst q. unfold dict_get_none. destruct (set_text _); [by rewrite dict_get_setdefault|done]. }
    intros (g & w3 & E3 & E)%bind_Ok. apply bind_Ok in E as (refused & w4 & E4 & E).
    assert (pod_named (py_str (dict_get_none "id" q)) g) as Hg.
    { eapply refresh_named; [done| |done]. unfold pod_named, has_id in *. by rewrite Eq. }
    pose proof (calm_refresh environ rq (py_str (dict_get_none "id" q)) q w1) as H3. rewrite E3 in H3.
    pose proof (gate_pod_safe environ rq a.1 k (py_str (dict_get_none "id" q)) g L w3 Hd Hk Hcap) as H4.
    unfold loses_pods in H3. simpl in H3. rewrite Eq in *. specialize (H4 ltac:(set_solver)).
    rewrite E4 in H4. destruct refused.
    - unfold attempt_limit in E. destruct Hend as [[p ->]| ->]; by repeat case_match.
    - by eapply start_pod_started. }
  destruct t as [p| |o']; cbn [fst snd].
  - intros [= <- _]. apply Hs. by eauto.
  - intros [= <- _]. apply Hs. by eauto.
  - by apply IH.
Qed.

(** A creation that returns or is still waiting. *)
Lemma create_pod_started fuel rq w w' o :
  deletes_answered (F:=F) -> fetches_readable (F:=F) -> fetched_named (F:=F) environ -> cap_valid rq ->
  (forall p, calm (f p)) ->
  create_pod_with_fallback_sync environ fuel rq (Some f) w = (w', Ok o) -> started (live w) w'.
Proof.
  intros Hd Hr Hn Hcap Hc. unfold create_pod_with_fallback_sync, bind, lift.
  destruct (cloud_types_for_rest _ _); [|done]. by apply create_loop_started.
Qed.
End Started.

(** ** Waits end *)

Section Ends.
Context {F : Type} `{RunPodApi F} (environ : string -> option string).

Definition keeps_ticks (d : float) (w w' : F) : Prop := forall n w0, ticks d n w0 w -> ticks d n w0 w'.

#[local] Instance ticks_quiet d : QuietApi (keeps_ticks d).
Proof.
  split; unfold keeps_ticks; intros; [|eapply TicksObserve; [done|constructor]..].
  split; [by intros w n w0|]. intros w1 w2 w3 H1 H2 n w0 Ht. by apply H2, H1.
Qed.

#[export] Instance observed_quiet : QuietApi (rtc (observes (F:=F))).
Proof. split; [apply _|intros; apply rtc_once; constructor..]. Qed.

Lemma ticks_run {A} d n w0 (m : eff F pod_error A) w w' r :
  keeps (keeps_ticks d) m -> m w = (w', r) -> ticks d n w0 w -> ticks d n w0 w'.
Proof. intros Hm E Ht. pose proof (Hm w n w0 Ht) as Hk. by rewrite E in Hk. Qed.

Lemma wait_loop_ends fuel key i poll o st d attach latest s w w0 n N :
  (forall k w', ticks d k w0 w' -> (k <= N)%nat) -> ticks d n w0 w -> (N < n + fuel)%nat ->
  (wait_loop environ fuel key i poll o st d attach latest s w).2 <> Ok None.
Proof.
  intros HN. revert attach latest s w n.
  induction fuel as [|fuel IH]; intros attach latest s w n Ht Hf.
  { specialize (HN n w Ht). lia. }
  cbn [wait_loop]. unfold bind at 1.
  destruct (observe_readiness_signals latest s w) as [w1 [[p s1]|e]] eqn:E1; [|done].
  eapply ticks_run in E1; [|keep|done]. cbn [fst snd].
  destruct (signals_complete s1); [done|]. unfold bind at 1, lift at 1.
  destruct (pod_failed_startup p) as [[|]|]; [done| |done].
  unfold bind at 1, lift at 1. destruct (attach_deadline _ _ _ _ _) as [att|]; [|done].
  pose proof (TicksSleep d n w0 w1 (poll_delay poll (fsub d (monotonic w1).2)) E1) as Hs.
  unfold bind at 1, ask at 1. destruct (monotonic w1) as [w2 now]. simpl in Hs.
  unfold bind at 1, lift at 1. destruct (attach_hung p now att) as [[t|]|]; [done| |done].
  destruct (fleb (fsub d now) fzero); [done|]. specialize (Hs eq_refl).
  unfold bind at 1, ask at 1. unfold bind at 1.
  destruct (get_pod_sync environ key i _) as [w3 [[q|]|e]] eqn:E3; [|done..].
  eapply ticks_run in E3; [|keep|done]. eapply IH; [done|lia].
Qed.
End Ends.

(** ** A pod that comes back is ready *)

Section Ready.
Context {F : Type} `{RunPodApi F} (environ : string -> option string).

(** Every signal is a non-empty text. *)
Definition text_ok (o : option string) : Prop :=
  match o with Some t => nonempty t = true | None => True end.
Definition signals_ok (s : ReadinessSignals) : Prop :=
  text_ok (runtime_seen s) /\ text_ok (port_mappings_seen s) /\ text_ok (probe_passed s).

Lemma now_nonempty w : match (utc_now_iso (F:=F) w).2 with Ok t => nonempty t = true | Err _ => True end.
Proof.
  unfold utc_now_iso, bind, ask, ret. destruct (utc_now w) as [w' t]. simpl.
  by destruct (isoformat _).
Qed.

Lemma signals_from_pod_ok pod : signals_ok (signals_from_pod pod).
Proof.
  assert (forall v, text_ok (non_empty_string_or_none v)) as Hv.
  { intros v. destruct v; simpl; try done; by destruct (nonempty s) eqn:E. }
  unfold signals_ok, signals_from_pod. destruct (dict_get_none "readiness" pod); by split_and?; simpl.
Qed.

(** What observing leaves: the signals it returns, attached to the pod. *)
Lemma observe_attaches pod s w w' p s' :
  observe_readiness_signals pod s w = (w', Ok (p, s')) -> signals_ok s ->
  signals_ok s' /\ exists q, p = attach_readiness_signals q s'.
Proof.
  unfold observe_readiness_signals. intros (s1 & w1 & E1 & E)%bind_Ok Hs.
  apply bind_Ok in E as (s2 & w2 & E2 & E).
  assert (signals_ok s1) as H1.
  { destruct (bool_decide (runtime_seen s = None) && _); [|by inversion E1; subst]. apply bind_Ok in E1 as (t & w0 & Et & [= _ <-]).
    pose proof (now_nonempty w) as Hn. rewrite Et in Hn.
    by destruct Hs as (? & ? & ?). }
  assert (signals_ok s2) as H2.
  { destruct (bool_decide (port_mappings_seen s1 = None) && _); [|by inversion E2; subst]. apply bind_Ok in E2 as (t & w0 & Et & [= _ <-]).
    pose proof (now_nonempty w1) as Hn. rewrite Et in Hn.
    by destruct H1 as (? & ? & ?). }
  destruct (_ && _) in E.
  - apply bind_Ok in E as ([q r] & w3 & _ & E). cbn [fst snd] in E.
    destruct (negb (healthy r)); [inversion E; subst; by eauto|].
    apply bind_Ok in E as (t & w4 & Et & [= _ <- <-]).
    pose proof (now_nonempty w3) as Hn. rewrite Et in Hn. split; [|by eauto].
    by destruct H2 as (? & ? & ?).
  - inversion E; subst. by eauto.
Qed.

Lemma py_dict_get_set_eq k v (m : dict) : dict_get k (al_set k v m) = Some v.
Proof.
  induction m as [|[k' v'] m IH]; simpl; [by rewrite String.eqb_refl|].
  case_decide as E; subst; simpl; [by rewrite String.eqb_refl|].
  by rewrite (proj2 (String.eqb_neq _ _) E).
Qed.

(** Attached signals are read back. *)
Lemma attached_complete q s :
  signals_ok s -> signals_complete s = true ->
  signals_complete (signals_from_pod (attach_readiness_signals q s)) = true.
Proof.
  destruct s as [[a|] [b|] [c|] m]; try done. unfold signals_ok. intros (Ha & Hb & Hc') _. simpl in *.
  unfold signals_from_pod, attach_readiness_signals. unfold dict_get_none at 1.
  rewrite py_dict_get_set_eq.
  destruct m as [m|]; unfold signals_dict, dict_get_none; simpl;
    repeat first [rewrite py_dict_get_set_eq | rewrite py_dict_get_set by done]; simpl;
    by rewrite Ha, Hb, Hc'.
Qed.

Lemma wait_loop_ready fuel key i poll o st d attach latest s w w' p :
  signals_ok s ->
  wait_loop environ fuel key i poll o st d attach latest s w = (w', Ok (Some p)) ->
  signals_complete (signals_from_pod p) = true.
Proof.
  revert attach latest s w. induction fuel as [|fuel IH]; intros attach latest s w Hs; [done|].
  cbn [wait_loop]. intros ([q s1] & w1 & E1 & E)%bind_Ok.
  apply observe_attaches in E1 as [H1 [q0 ->]]; [|done]. cbn [fst snd] in E.
  destruct (signals_complete s1) eqn:Ec; [inversion E; subst; by apply attached_complete|].
  apply bind_Ok in E as (failed & w2 & _ & E). destruct failed; [done|].
  apply bind_Ok in E as (att & w3 & _ & E). apply bind_Ok in E as (now & w4 & _ & E).
  apply bind_Ok in E as (hung & w5 & _ & E). destruct hung; [done|].
  destruct (fleb _ fzero); [done|].
  apply bind_Ok in E as (? & w6 & _ & E). apply bind_Ok in E as (r & w7 & _ & E).
  destruct r; [|done]. by eapply IH.
Qed.

Lemma wait_ready fuel key i initial t poll o w w' p :
  fleb t fzero = false ->
  wait_for_pod_runtime_sync environ fuel key i initial t poll o w = (w', Ok (Some p)) ->
  signals_complete (signals_from_pod p) = true.
Proof.
  intros Ht. unfold wait_for_pod_runtime_sync. rewrite Ht.
  intros ([q s1] & w1 & E1 & E)%bind_Ok. apply observe_attaches in E1 as [H1 _];
    [|apply signals_from_pod_ok].
  apply bind_Ok in E as (st & w2 & _ & E). by eapply wait_loop_ready.
Qed.

Lemma create_loop_ready fuel rq callback attempts last n w w' p :
  rq_wait_for_readiness rq = true -> fleb (rq_startup_timeout_s rq) fzero = false ->
  create_loop environ fuel rq callback attempts last n w = (w', Ok (Some p)) ->
  signals_complete (signals_from_pod p) = true.
Proof.
  intros Hw Ht. revert last n w. induction attempts as [|a attempts IH]; intros last n w; [done|].
  cbn [create_loop]. intros ([t k] & w1 & E1 & E)%bind_Ok. cbn [fst snd] in E.
  destruct t as [q| |o]; [|done|by apply IH in E].
  injection E as _ <-. unfold create_turn in E1.
  destruct (post_pod environ rq a.1 a.2 w) as [w2 [pod|e]]; [|by destruct (is_capacity_error environ e)].
  destruct (has_id pod); [|done].
  apply bind_Ok in E1 as (t & w3 & E1 & [= -> -> _]).
  unfold handle_created in E1. apply bind_Ok in E1 as (g & w4 & _ & E1).
  apply bind_Ok in E1 as (refused & w5 & _ & E1).
  destruct refused; [unfold attempt_limit in E1; by repeat case_match|].
  unfold start_pod in E1. destruct (_ w5) as [w6 [u|e]] in E1.
  2: { apply bind_Ok in E1 as (? & ? & _ & [=]). }
  rewrite Hw in E1. cbn [negb] in E1.
  destruct (wait_for_pod_runtime_sync _ _ _ _ _ _ _ _ w6) as [w7 [[r|]|e]] eqn:Ew; [|done|].
  - injection E1 as _ <-. by eapply wait_ready.
  - destruct e; apply bind_Ok in E1 as (? & ? & _ & E1); try done.
    unfold attempt_limit in E1. by repeat case_match.
Qed.
End Ready.

(** Theorems *)



(** A pod that creation returns after waiting has reported a runtime,
    port mappings and a passed probe, and says when. *)
Theorem created_pod_is_ready {F} `{RunPodApi F} (environ : string -> option string)
    (fuel : nat) (rq : pod_request) (callback : option (dict -> eff F pod_error unit)) (w w' : F) (p : dict)
    (Hw : rq_wait_for_readiness rq = true) (Ht : fleb (rq_startup_timeout_s rq) fzero = false)
    (Hrun : create_pod_with_fallback_sync environ fuel rq callback w = (w', Ok (Some p))) :
  signals_complete (signals_from_pod p) = true.
Proof.
  unfold create_pod_with_fallback_sync, bind, lift in Hrun.
  destruct (cloud_types_for_rest _ _); [|done]. by eapply create_loop_ready.
Qed.

(** ** A scripted RunPod *)

Module Sim.
Record world : Type := MkWorld {
  pods : list string;
  posts : list http_reply;      (* the answers to the next create requests *)
  gets : list pyval;            (* and to the next fetches *)
  clock : Z;
}.

Definition drop5 (path : string) : string := String.substring 5 (String.length path - 5) path.
Definition answer (v : pyval) : http_reply := Reply 200 "{..}" (Ok v).
Definition not_found : http_reply := Reply 404 "not found" (Err "no json").
Definition broken : http_reply := Reply 500 "oops" (Err "no json").

(** A fetch after the script ended is answered with [last]. *)
Definition api (last : http_reply) : RunPodApi world := {|
  send method path body w :=
    if String.eqb method "POST" then
      let r := hd broken (posts w) in
      (MkWorld (elements (created r) ++ pods w) (tl (posts w)) (gets w) (clock w), r)
    else if String.eqb method "DELETE" then
      (MkWorld (filter (fun i => i <> drop5 path) (pods w)) (posts w) (gets w) (clock w),
       Reply 204 "" (Err ""))
    else
      (MkWorld (pods w) (posts w) (tl (gets w)) (clock w),
       match gets w with v :: _ => answer v | [] => last end);
  sdk_get_pod i w := (w, None);
  http_get url w := (w, ProbeStatus 200);
  monotonic w := (w, of_Z (clock w));
  sleep s w := MkWorld (pods w) (posts w) (gets w) (clock w + 300);
  utc_now w := (w, utc 1000000);
|}.

Lemma substring_all s : String.substring 0 (String.length s) s = s.
Proof. induction s as [|c s IH]; simpl; [done|by rewrite IH]. Qed.

#[local] Obligation Tactic := idtac.
Program Definition lawful (last : http_reply) : @LawfulRunPod world (api last) := {|
  live w := list_to_set (pods w)
|}.
Next Obligation. done. Qed.
Next Obligation. intros last body w. simpl. set_solver. Qed.
Next Obligation.
  intros last i w. simpl. intros x. rewrite !elem_of_list_to_set, list_elem_of_filter. by intros [_ ?].
Qed.
Next Obligation.
  intros last i w _. simpl. rewrite elem_of_list_to_set, list_elem_of_filter. intros [Hn _]. apply Hn.
  unfold drop5. simpl. rewrite Nat.sub_0_r. by rewrite substring_all.
Qed.
Next Obligation. done. Qed.
Next Obligation. done. Qed.
Next Obligation. done. Qed.
Next Obligation. done. Qed.
Next Obligation. done. Qed.

(** A GPU type tried in both clouds; the cap is a dollar an hour. *)
Definition workload : WorkloadConfig :=
  MkWorkload "w" ["NVIDIA L4"] 1 50 4 16 "ALL" false "custom" None None.
Definition request : pod_request :=
  MkRequest "pitwall-w" None "repo/image:1" workload [] None None None None None None false
    (Some (of_Z 1)) None (of_Z 600) (of_Z 15) None true (Some "key").
Definition pod (i : string) (cost : Z) (runtime : dict) : pyval :=
  VDict [("id", VStr i); ("costPerHr", VInt cost); ("gpuCount", VInt 1); ("runtime", VDict runtime)].
Definition up : dict := [("ports", VList [VDict [("privatePort", VInt 8000); ("type", VStr "http")]])].

(** The first pod is too expensive, the second starts after two polls. *)
Definition start : world :=
  MkWorld ["other"] [answer (pod "a" 2 []); answer (pod "b" 1 [])]
    [pod "b" 1 []; pod "b" 1 up] 0.
Definition no_env (_ : string) : option string := None.

Definition run (last : http_reply) (fuel : nat) (w : world) : world * result pod_error (option dict) :=
  @create_pod_with_fallback_sync world (api last) no_env fuel request None w.

Example run_ex :
  pods (run not_found 4 start).1 = ["b"; "other"] /\ is_ok (run not_found 4 start).2 = true.
Proof. vm_compute. done. Qed.

(** The same, but the create answer carries no price and the refresh is
    answered with an HTTP error: the pod stays. *)
Definition unpriced : world :=
  MkWorld [] [answer (VDict [("id", VStr "a")])] [] 0.
Example refresh_error_leaks :
  pods (run broken 4 unpriced).1 = ["a"] /\
  (run broken 4 unpriced).2 = Err (RunPodRestError "GET" "pods/a" 500 "oops").
Proof. vm_compute. done. Qed.
End Sim.


Lemma created_pod_is_ready_witness :
  match (Sim.run Sim.not_found 4 Sim.start).2 with
  | Ok (Some p) => signals_complete (signals_from_pod p) = true
  | _ => False
  end.
Proof.
  destruct (Sim.run Sim.not_found 4 Sim.start) as [w' r] eqn:E.
  assert (exists p, r = Ok (Some p)) as [p ->].
  { revert E. vm_compute. intros [= <- <-]. eauto. }
  by apply (@created_pod_is_ready Sim.world (Sim.api Sim.not_found) Sim.no_env 4 Sim.request None Sim.start w').
Defined.

