(* ===== verification/KillSwitch.v ===== *)
(** * The emergency kill switch ([api/admin/kill_switch.py])

    Three steps, each of which is taken whatever the ones before it did: deny
    the network tag, revoke its devices, terminate the account's pods.  The
    network severer and the staging store are the program's own protocols,
    implemented by adapters; [KillDeps] states them.  The report's times are
    not kept, and an error of the sweep is reported as the exception's class. *)

From S2P Require Import Prelude PyValue PyFormat Effects Pods PodCreate.

(** Definitions *)

Record CleanupResult : Type := MkCleanup { cr_pod_id : string; cr_errors : list string }.

(** [NetworkSever] and [StagingStore]; an exception is its text. *)
Class KillDeps (F : Type) := {
  deny_all : string -> F -> F * result string bool;
  revoke_devices : string -> F -> F * result string Z;
  cleanup_pod_artifacts : list (pyval * string) -> F -> F * result string (list CleanupResult);
}.

Inductive kill_error :=
| AclFailed (text : string)
| DevicesFailed (text : string)
| ComputeFailed (e : pod_error)
| R2Cleanup (text : string).

Record KillReport : Type := MkReport {
  kr_reason : string;
  tailscale_acl_updated : bool;
  devices_removed : Z;
  pods_terminated : Z;
  kr_errors : list kill_error;
}.

Section KillSwitch.
Context {F : Type} `{RunPodApi F, KillDeps F} (environ : string -> option string).

(** [_cleanup_r2_staging] *)
Definition cleanup_r2_staging (pods : list (pyval * string)) : F -> F * list string :=
  fun w =>
    match cleanup_pod_artifacts pods w with
    | (w, Ok results) =>
        (w, r ← results; err ← cr_errors r; ["pod " +:+ cr_pod_id r +:+ ": " +:+ err])
    | (w, Err text) => (w, ["R2 cleanup failed: " +:+ text])
    end.

(** [try: x = await step  except: errors.append(...)]: the value the step
    leaves and the errors it adds. *)
Definition attempt {E A} (step : F -> F * result E A) (unchanged : A) (report : E -> kill_error)
  : F -> F * (A * list kill_error) :=
  fun w => match step w with
           | (w, Ok a) => (w, (a, []))
           | (w, Err e) => (w, (unchanged, [report e]))
           end.

(** The third step. *)
Definition terminate_compute : F -> F * (Z * list kill_error) :=
  fun w =>
    let '(w, (compute_n, errors)) :=
      attempt (terminate_all_with_tag environ "pitwall-") 0 ComputeFailed w in
    let '(w, pods) :=
      if 0 <? compute_n then
        match get_pods_by_tag_prefix environ "pitwall-" w with
        | (w, Ok pods) => (w, pods)
        | (w, Err _) => (w, [])
        end
      else (w, []) in
    match pods with
    | [] => (w, (compute_n, errors))
    | _ => let '(w, errs) := cleanup_r2_staging pods w in
           (w, (compute_n, errors ++ (R2Cleanup <$> errs)))
    end.

(** [CloudKillSwitch.activate] *)
Definition activate (tag : string) (compute : bool) (reason : string)
  : F -> F * result exn KillReport :=
  fun w =>
    if String.eqb reason EmptyString then (w, Err (ValueError "reason is required (audit trail)"))
    else
      let '(w, (severed, e1)) := attempt (deny_all tag) false AclFailed w in
      let '(w, (devices, e2)) := attempt (revoke_devices tag) 0 DevicesFailed w in
      let '(w, (n, e3)) := if compute then terminate_compute w else (w, (0, [])) in
      (w, Ok (MkReport reason severed devices n (e1 ++ e2 ++ e3))).
End KillSwitch.

(** The network and staging adapters create no pods. *)
Class LawfulDeps (F : Type) `{LawfulRunPod F, KillDeps F} := {
  deny_live tag w : live (deny_all tag w).1 ⊆ live w;
  revoke_live tag w : live (revoke_devices tag w).1 ⊆ live w;
  cleanup_live pods w : live (cleanup_pod_artifacts pods w).1 ⊆ live w;
}.

(** The pods of a listing the sweep is after. *)
Definition targets (name_prefix : string) (pods : list dict) : list string :=
  omap (fun p => match tagged name_prefix p with Ok (Some (i, _)) => Some (py_str i) | _ => None end) pods.

(** Lemmas *)

Section Sweep.
Context {F : Type} `{LawfulRunPod F} (environ : string -> option string).

Lemma calm_get_pods : calm (get_pods environ).
Proof. unfold get_pods. apply keeps_bind; [apply keeps_get_request|intros; apply keeps_ret]. Qed.

Lemma calm_tag_prefix pre : calm (get_pods_by_tag_prefix environ pre).
Proof.
  unfold get_pods_by_tag_prefix. apply keeps_bind; [apply calm_get_pods|intros].
  apply keeps_bind; [apply keeps_lift|intros; apply keeps_ret].
Qed.

(** Every target of the listing is gone when no request fails. *)
Lemma terminate_tagged_all k pre pods n w :
  deletes_answered (F:=F) -> require_api_key environ None = Ok k ->
  Forall (fun p => is_ok (tagged pre p) = true) pods ->
  exists w', terminate_tagged environ pre pods n w = (w', Ok (n + Z.of_nat (length (targets pre pods)))) /\
    live w' ⊆ live w /\ Forall (fun i => i ∉ live w') (targets pre pods).
Proof.
  intros Hd Hk Hok. revert n w. induction Hok as [|p pods Hp _ IH]; intros n w; simpl.
  { exists w. rewrite Z.add_0_r. by split_and!. }
  unfold bind at 1, lift. destruct (tagged pre p) as [[[i nm]|]|]; [| |done].
  - destruct (terminate_gone environ None k (py_str i) (live w ∖ {[py_str i]}) w Hd Hk) as (w1 & E & H1).
    { intros x Hx. destruct (decide (x = py_str i)); set_solver. }
    rewrite (bind_run _ _ _ _ _ E). destruct (IH (n + 1) w1) as (w' & E' & Hl & HF).
    exists w'. rewrite E'. simpl. split_and!; [do 2 f_equal; lia|set_solver|].
    constructor; [set_solver|done].
  - apply IH.
Qed.
End Sweep.

Lemma terminate_tagged_stops {F} `{RunPodApi F} (environ : string -> option string) pre pods1 pods2 n w w' e :
  terminate_tagged environ pre pods1 n w = (w', Err e) ->
  terminate_tagged environ pre (pods1 ++ pods2) n w = (w', Err e).
Proof.
  revert n w. induction pods1 as [|p pods1 IH]; intros n w; [done|]. simpl. unfold bind, lift.
  destruct (tagged pre p) as [[[i nm]|]|]; [|by apply IH|done].
  destruct (terminate_pod_sync environ None (py_str i) w) as [w1 [u|]]; [by apply IH|done].
Qed.

Lemma terminate_compute_clears {F} `{LawfulDeps F} (environ : string -> option string) k pods w :
  deletes_answered (F:=F) -> require_api_key environ None = Ok k ->
  (get_pods environ w).2 = Ok pods -> Forall (fun p => is_ok (tagged "pitwall-" p) = true) pods ->
  exists w' errs,
    terminate_compute environ w = (w', (Z.of_nat (length (targets "pitwall-" pods)), errs)) /\
    live w' ⊆ live w /\ Forall (fun i => i ∉ live w') (targets "pitwall-" pods).
Proof.
  intros Hd Hk Hl Hok. unfold terminate_compute, attempt, terminate_all_with_tag, bind.
  pose proof (calm_get_pods environ w : live _ ⊆ live _) as L3.
  destruct (get_pods environ w) as [w3 r]. simpl in Hl, L3. subst r.
  destruct (terminate_tagged_all environ k "pitwall-" pods 0 w3 Hd Hk Hok) as (w4 & -> & L4 & HF).
  rewrite Z.add_0_l.
  assert (forall w', live w' ⊆ live w4 ->
            live w' ⊆ live w /\ Forall (fun i => i ∉ live w') (targets "pitwall-" pods)) as Hw.
  { intros w' L. split; [set_solver|]. eapply Forall_impl; [exact HF|]. set_solver. }
  destruct (0 <? _); [|by eexists _, _; split; [done|apply Hw]].
  pose proof (calm_tag_prefix environ "pitwall-" w4 : live _ ⊆ live _) as L5.
  destruct (get_pods_by_tag_prefix environ "pitwall-" w4) as [w5 [pp|e]]; simpl in L5;
    [|by eexists _, _; split; [done|apply Hw]].
  destruct pp as [|p pp]; [by eexists _, _; split; [done|apply Hw]|].
  pose proof (cleanup_live (p :: pp) w5) as L6. unfold cleanup_r2_staging.
  destruct (cleanup_pod_artifacts (p :: pp) w5) as [w6 [rs|t]]; simpl in L6;
    (eexists _, _; split; [done|apply Hw; set_solver]).
Qed.

(** Theorems *)

(** C34: The kill switch leaves no tagged pod running.  Whatever the network
    severer and the staging store do, fail or not, when the listing is
    answered and every delete is, each pod of the listing whose name has the
    prefix is gone, and the report counts them all. *)
Theorem kill_switch_clears_pods {F} `{LawfulDeps F} (environ : string -> option string)
    (tag reason k : string) (pods : list dict) (w0 : F)
    (Hr : reason <> EmptyString) (Hk : require_api_key environ None = Ok k)
    (Hd : deletes_answered (F:=F))
    (Hlist : (get_pods environ (revoke_devices tag (deny_all tag w0).1).1).2 = Ok pods)
    (Hok : Forall (fun p => is_ok (tagged "pitwall-" p) = true) pods) :
  exists w' rep, activate environ tag true reason w0 = (w', Ok rep) /\
    pods_terminated rep = Z.of_nat (length (targets "pitwall-" pods)) /\
    live w' ⊆ live w0 /\ Forall (fun i => i ∉ live w') (targets "pitwall-" pods).
Proof.
  unfold activate. rewrite (proj2 (String.eqb_neq _ _) Hr).
  assert (forall (E A : Type) (f : F -> F * result E A) u g w,
            exists x, attempt f u g w = ((f w).1, x)) as Ha.
  { intros E A f u g w. unfold attempt. destruct (f w) as [? []]; by eexists. }
  pose proof (deny_live tag w0) as L1. destruct (Ha _ _ (deny_all tag) false AclFailed w0) as [[severed e1] ->].
  set (w1 := (deny_all tag w0).1) in *. pose proof (revoke_live tag w1) as L2.
  destruct (Ha _ _ (revoke_devices tag) 0 DevicesFailed w1) as [[devices e2] ->].
  set (w2 := (revoke_devices tag w1).1) in *. clearbody w1 w2.
  destruct (terminate_compute_clears environ k pods w2 Hd Hk Hlist Hok) as (w' & errs & -> & L3 & HF).
  eexists w', _. split; [done|]. split; [done|]. split; [set_solver|done].
Qed.

(** One failure ends the sweep.  When a pod of the listing cannot be
    deleted, the pods after it are not asked for, whatever they are, those
    deleted before it are reported as none, and no staged object is cleaned
    up. *)
Theorem sweep_failure_spares_rest {F} `{RunPodApi F, KillDeps F} (environ : string -> option string)
    (pods1 pods2 : list dict) (w w1 w' : F) (e : pod_error)
    (Hlist : get_pods environ w = (w1, Ok (pods1 ++ pods2)))
    (Hfail : terminate_tagged environ "pitwall-" pods1 0 w1 = (w', Err e)) :
  terminate_compute environ w = (w', (0, [ComputeFailed e])).
Proof.
  unfold terminate_compute, attempt, terminate_all_with_tag, bind. rewrite Hlist.
  by rewrite (terminate_tagged_stops environ "pitwall-" pods1 pods2 0 w1 w' e).
Qed.

(** The scripted world, with a network severer that fails. *)
Module KillSim.
Definition deps : KillDeps Sim.world := {|
  deny_all tag w := (w, Err "tailscale is down");
  revoke_devices tag w := (w, Ok 0);
  cleanup_pod_artifacts pods w := (w, Ok ((fun p => MkCleanup p.2 ["kept"]) <$> pods));
|}.
Definition lawful_deps (last : http_reply) : @LawfulDeps Sim.world (Sim.api last) (Sim.lawful last) deps.
Proof. by split. Defined.
Definition named (i n : string) : pyval := VDict [("id", VStr i); ("name", VStr n)].
Definition listing : pyval := VList [named "a" "pitwall-1"; named "b" "mine"; named "c" "pitwall-2"].
Definition start : Sim.world := Sim.MkWorld ["a"; "b"; "c"] [] [listing] 0.
Definition env (name : string) : option string := Some "key".
Definition listed : list dict := omap as_dict [named "a" "pitwall-1"; named "b" "mine"; named "c" "pitwall-2"].

(** The second listing, taken after the pods are gone, is empty: nothing is
    cleaned up. *)
Definition emptied : Sim.world := Sim.MkWorld ["a"; "c"] [] [listing; VList []] 0.
Example staging_survives :
  (@activate Sim.world (Sim.api Sim.not_found) deps env "tag" true "incident" emptied).2 =
  Ok (MkReport "incident" false 0 2 [AclFailed "tailscale is down"]).
Proof. vm_compute. reflexivity. Qed.

(** Every delete is answered with 500. *)
Definition stuck : RunPodApi Sim.world :=
  let api := Sim.api Sim.not_found in {|
  send method path body w :=
    if String.eqb method "DELETE" then (w, Sim.broken) else @send _ api method path body w;
  sdk_get_pod := @sdk_get_pod _ api;
  http_get := @http_get _ api;
  monotonic := @monotonic _ api;
  sleep := @sleep _ api;
  utc_now := @utc_now _ api;
|}.
End KillSim.

Lemma kill_switch_clears_pods_witness :
  exists w' rep,
    @activate Sim.world (Sim.api Sim.not_found) KillSim.deps KillSim.env "tag" true "incident" KillSim.start
      = (w', Ok rep) /\ pods_terminated rep = 2 /\ "c" ∉ Sim.pods w'.
Proof.
  destruct (@kill_switch_clears_pods Sim.world (Sim.api Sim.not_found) (Sim.lawful Sim.not_found) KillSim.deps
              (KillSim.lawful_deps Sim.not_found) KillSim.env "tag" "incident" "key" KillSim.listed
              KillSim.start) as (w' & rep & E & Hn & _ & HF).
  - done.
  - reflexivity.
  - intros i w. reflexivity.
  - vm_compute. reflexivity.
  - repeat constructor.
  - exists w', rep. split; [exact E|]. split; [exact Hn|].
    change (Forall (fun i => i ∉ (list_to_set (Sim.pods w') : gset string)) ["a"; "c"]) in HF.
    rewrite Forall_forall in HF. specialize (HF "c" ltac:(set_solver)).
    by rewrite elem_of_list_to_set in HF.
Defined.

Lemma sweep_failure_spares_rest_witness :
  @terminate_compute Sim.world KillSim.stuck KillSim.deps KillSim.env KillSim.start
    = (Sim.MkWorld ["a"; "b"; "c"] [] [] 0, (0, [ComputeFailed RunPodError])).
Proof.
  apply (@sweep_failure_spares_rest Sim.world KillSim.stuck KillSim.deps KillSim.env
           (take 1 KillSim.listed) (drop 1 KillSim.listed) KillSim.start
           (Sim.MkWorld ["a"; "b"; "c"] [] [] 0)); vm_compute; reflexivity.
Defined.
