(* ===== verification/Teardown.v ===== *)
(** * Lease teardown ([api/leases/teardown.py])

    [run_teardown] takes one lease down: it marks the row stopping, deletes
    the pod, closes the row with the cost of the time since the lease was
    created, and publishes an event.  Each statement commits on its own, so a
    failure leaves what was done before it.

    The world is the two tables with everything outside, [F]: RunPod and the
    Redis channel.  A published message is the event before [json.dumps].
    Instants are UTC microseconds; the log line is not modelled. *)

From S2P Require Import Registry.
From S2P Require Import Prelude PyDecimal PyFloat PyValue PyTime PyFormat Effects Enums LeaseState.
From S2P Require Import Provider LeaseStore Pods PodCreate.

(** Definitions *)

(** [redis_client.publish]: an exception is its text; the reply is an integer
    or something else. *)
Class Channel (F : Type) := {
  redis_publish : string -> list (string * option string) -> F -> F * result string (option Z);
}.

Record world (F : Type) : Type := MkWorld {
  w_leases : lease_db;
  w_registry : Registry.registry;
  w_outside : F;
}.
Arguments MkWorld {F}.
Arguments w_leases {F}.
Arguments w_registry {F}.
Arguments w_outside {F}.

Inductive teardown_error :=
| LeaseNotFound (lease_id : string)
| LeaseStateConflict (lease_id state operation : string)
| IllegalTransition (e : lease_error)
| TeardownExn (e : exn)
| StoreFailed (e : lease_db_error)
| PodNotTerminated (e : pod_error)
| PublishFailed (text : string).

Record LeaseTeardownResult : Type := MkTeardown {
  tr_lease : lease_row;
  tr_event : option (list (string * option string));
  tr_published_subscribers : Z;
}.

(** [_teardown_terminal_state] *)
Definition teardown_terminal_state (state : LeaseStateInput) : result teardown_error LeaseState :=
  let refuse := Err (TeardownExn (ValueError "teardown terminal_state must be one of: expired, stopped")) in
  match state with
  | InState s => if bool_decide (s ∈ [STOPPED; EXPIRED]) then Ok s else refuse
  | InText t =>
      match enum_of_value t with
      | Some s => if bool_decide (s ∈ [STOPPED; EXPIRED]) then Ok s else refuse
      | None => Err (TeardownExn (ValueError "not a valid LeaseState"))
      end
  | InOther => Err (TeardownExn (ValueError "not a valid LeaseState"))
  end.

(** [_normalize_reason] *)
Definition normalize_reason (reason : option string) (terminal_state : LeaseState) : string :=
  let by_default := match terminal_state with EXPIRED => "lease_expired" | _ => "operator_stop" end in
  match reason with
  | None => by_default
  | Some r => if nonempty (strip r) then strip r else by_default
  end.

(** ** The final cost *)

Definition non_negative_decimal (raw_value : pyval) (name : string) : py dec :=
  let? value := finite_decimal raw_value name in
  if dltb value dzero then Err (ValueError (name ++ " must be non-negative")) else Ok value.

Fixpoint first_rate (sources : list dict) : py (option dec) :=
  match sources with
  | [] => Ok None
  | source :: sources' =>
      match dict_get_none "per_second_active" source with
      | VNone => first_rate sources'
      | raw => rmap Some (non_negative_decimal raw "provider cost 'per_second_active'")
      end
  end.

(** [_provider_cost_rate_per_second] *)
Definition provider_cost_rate_per_second (provider : option Provider) : py (option dec) :=
  match provider with
  | None => Ok None
  | Some p =>
      first_rate (match dict_get_none "cost" (p_config p) with
                  | VDict cost => [cost; p_config p]
                  | _ => [p_config p]
                  end)
  end.

(** [Decimal(str(max(elapsed.total_seconds(), 0.0)))] *)
Definition elapsed_seconds (created_at terminated_at : Z) : py dec :=
  let? s := total_seconds (terminated_at - created_at) in
  let? d := decimal_of_str (VFloat (fmax s fzero)) in
  match d with DFin d => Ok d | _ => Err DecimalInvalidOperation end.

Definition close_lease_cost (lease : lease_row) (provider : option Provider) (terminated_at : Z) : py dec :=
  let? rate := provider_cost_rate_per_second provider in
  match rate with
  | None => quantize_usd (match ls_cost_accrued lease with Some c => micro c | None => dzero end)
  | Some rate =>
      let? elapsed := elapsed_seconds (ls_created_at lease) terminated_at in
      let? cost := dmul rate elapsed in
      quantize_usd cost
  end.

(** The cost column, [NUMERIC(12, 6)]. *)
Definition cost_column (cost : dec) : result lease_db_error Z :=
  if Z.abs (dcoef cost) <? 10 ^ 12 then Ok (dcoef cost) else Err DataError.

(** ** The event *)

Definition LEASE_TERMINATED_CHANNEL : string := "pitwall:lease:terminated".

Definition lease_terminated_event (lease_id : string) (lease : lease_row) : list (string * option string) :=
  [("event", Some "lease.terminated"); ("lease_id", Some lease_id);
   ("provider_id", Some (ls_provider_id lease)); ("runpod_pod_id", Some (ls_runpod_pod_id lease));
   ("state", Some (enum_value (ls_state lease)));
   ("terminated_at", (fun t => isoformat (utc t)) <$> ls_terminated_at lease);
   ("terminated_reason", ls_terminated_reason lease);
   ("cost_accrued_usd", (fun c => str_dec (DFin (micro c))) <$> ls_cost_accrued lease)].

Section Teardown.
Context {F : Type} `{RunPodApi F, Channel F} (environ : string -> option string).
Abbreviation op := (eff (world F) teardown_error).

(** One statement on the lease table. *)
Definition on_leases {A} (f : lease_db -> lease_db * result lease_db_error A) : op A :=
  fun w => let '(db, r) := f (w_leases w) in
           (MkWorld db (w_registry w) (w_outside w), rlift StoreFailed r).
(** An operation on the outside world. *)
Definition outside {E A} (raise : E -> teardown_error) (f : F -> F * result E A) : op A :=
  fun w => let '(o, r) := f (w_outside w) in (MkWorld (w_leases w) (w_registry w) o, rlift raise r).
Definition lease_get (lease_id : string) : op (option lease_row) :=
  on_leases (fun db => (db, get_lease db lease_id)).
Definition provider_get (provider_id : string) : op (option Provider) :=
  fun w => (w, Ok (Registry.providers (w_registry w) !! provider_id)).

Definition publish_lease_terminated (redis : bool) (event : list (string * option string)) : op Z :=
  if negb redis then ret 0
  else do! reply := outside PublishFailed (redis_publish LEASE_TERMINATED_CHANNEL event) in
       ret (default 0 reply).

(** [_mark_stopping] *)
Definition mark_stopping (lease_id : string) (lease : lease_row) : op lease_row :=
  match ls_state lease with
  | STOPPING => ret lease
  | ACTIVE =>
      do! stopping := lift (rlift IllegalTransition (transition_lease_state (InState ACTIVE) (InState STOPPING))) in
      do! updated := on_leases (fun db => update_state db lease_id stopping) in
      match updated with Some l => ret l | None => fail (LeaseNotFound lease_id) end
  | s => fail (LeaseStateConflict lease_id (enum_value s) "stop")
  end.

(** From the marked row to the closed one. *)
Definition close_lease (lease_id : string) (stopping : lease_row) (target : LeaseState)
    (reason : option string) (now : option Z) : op lease_row :=
  do! terminated_at := (match now with
                        | Some t => ret t
                        | None => outside TeardownExn (fun o => let '(o, t) := utc_now o in (o, Ok (dt_us t)))
                        end) in
  do! provider := provider_get (ls_provider_id stopping) in
  do! cost := lift (rlift TeardownExn (close_lease_cost stopping provider terminated_at)) in
  do! closed_state := lift (rlift IllegalTransition
                              (transition_lease_state (InState (ls_state stopping)) (InState target))) in
  do! column := lift (rlift StoreFailed (cost_column cost)) in
  do! closed := on_leases (fun db => close_teardown db lease_id closed_state (Some column) terminated_at
                                       (normalize_reason reason target)) in
  match closed with Some l => ret l | None => fail (LeaseNotFound lease_id) end.

Definition run_teardown (lease_id : string) (redis : bool) (reason : option string) (now : option Z)
    (terminal_state : LeaseStateInput) (api_key : option string) : op LeaseTeardownResult :=
  do! target := lift (teardown_terminal_state terminal_state) in
  do! existing := lease_get lease_id in
  match existing with
  | None => fail (LeaseNotFound lease_id)
  | Some existing =>
      if bool_decide (ls_state existing ∈ TERMINAL_LEASE_STATES) then ret (MkTeardown existing None 0)
      else
        do! stopping := mark_stopping lease_id existing in
        outside PodNotTerminated (terminate_pod_sync environ api_key (ls_runpod_pod_id stopping)) ;!
        do! closed := close_lease lease_id stopping target reason now in
        do! subscribers := publish_lease_terminated redis (lease_terminated_event lease_id closed) in
        ret (MkTeardown closed (Some (lease_terminated_event lease_id closed)) subscribers)
  end.
End Teardown.

(** A publish creates no pod. *)
Class QuietChannel (F : Type) `{LawfulRunPod F, Channel F} := {
  publish_live c m o : live (redis_publish c m o).1 ⊆ live o;
}.

(** The row a teardown leaves. *)
Definition closed_row (row : lease_row) (target : LeaseState) (cost terminated_at : Z) (reason : string)
  : lease_row :=
  MkLease (ls_provider_id row) (ls_runpod_pod_id row) target (ls_created_at row) (ls_expires_at row)
    (ls_renewal_policy row) (ls_auto_teardown row) (ls_endpoints row) (ls_readiness row)
    (Some cost) (ls_last_health_at row) (Some terminated_at) (Some reason).

(** Lemmas *)

Lemma non_negative_decimal_Ok v name d : non_negative_decimal v name = Ok d -> 0 <= dcoef d.
Proof.
  unfold non_negative_decimal. intros (x & _ & E)%rbind_Ok. destruct (dltb x dzero) eqn:Ed; [done|].
  injection E as <-. apply dltb_false in Ed. apply dcoef_nonneg. by rewrite (dval_zero 0) in Ed.
Qed.

Lemma rate_nonneg p r : provider_cost_rate_per_second p = Ok (Some r) -> 0 <= dcoef r.
Proof.
  unfold provider_cost_rate_per_second. destruct p as [p|]; [|done].
  match goal with |- first_rate ?l = _ -> _ => generalize l end.
  induction l as [|s l IH]; cbn [first_rate]; [done|].
  assert (forall v, rmap Some (non_negative_decimal v "provider cost 'per_second_active'") = Ok (Some r) ->
                    0 <= dcoef r) as Hv.
  { intros v (x & Hx & [= ->])%rmap_Ok. by eapply non_negative_decimal_Ok. }
  destruct (dict_get_none "per_second_active" s); [done|apply Hv..].
Qed.

Lemma shortest_nonneg fuel target num den k n :
  0 <= num -> 0 <= den -> 0 <= dcoef (shortest fuel target num den k n).
Proof.
  intros Hn Hd. revert n. induction fuel as [|fuel IH]; intros n; simpl; [done|].
  destruct (digits_at target num den k n) as [d|] eqn:E; [|apply IH].
  unfold digits_at in E.
  set (sn := if 0 <=? k - n then num else num * 10 ^ (- (k - n))) in E.
  set (sd := if 0 <=? k - n then den * 10 ^ (k - n) else den) in E.
  assert (0 <= sn) by (subst sn; destruct (0 <=? k - n); [done|apply Z.mul_nonneg_nonneg; [done|apply Z.pow_nonneg; lia]]).
  assert (0 <= sd) by (subst sd; destruct (0 <=? k - n); [apply Z.mul_nonneg_nonneg; [done|apply Z.pow_nonneg; lia]|done]).
  assert (0 <= sn / sd) as Hlo.
  { destruct (decide (sd = 0)) as [->|]; [by rewrite Zdiv_0_r|]. apply Z.div_pos; lia. }
  repeat (case_match; simplify_eq); cbn [dcoef]; lia.
Qed.

(** What [Decimal(str(x))] is for a float that is not negative. *)
Lemma repr_dec_nonneg f d : fltb f fzero = false -> repr_dec f = Some d -> 0 <= dcoef d.
Proof.
  destruct f as [s|s| |s m e]; cbn [repr_dec]; [intros _ Hd; apply (inj Some) in Hd; by subst d|done..|].
  destruct s; [done|]. intros _ Hd. apply (inj Some) in Hd. subst d. cbn [dcoef].
  assert (0 <= float_num m e) by (unfold float_num; destruct (0 <=? e); [apply Z.mul_nonneg_nonneg; [done|apply Z.pow_nonneg; lia]|done]).
  assert (0 <= float_den e) by (unfold float_den; destruct (0 <=? e); [done|apply Z.pow_nonneg; lia]).
  set (sh := shortest 17 _ _ _ _ 1).
  assert (0 <= dcoef sh) as Hsh by (by apply shortest_nonneg).
  pose proof (strip_zeros_nonneg 20 (dcoef sh) (dexp sh) 400 Hsh) as Hst. set (d := strip_zeros _ _ _ _) in *.
  destruct (_ && _ && _); cbn [dcoef]; [|done].
  apply Z.mul_nonneg_nonneg; [done|apply Z.pow_nonneg; lia].
Qed.

Lemma elapsed_nonneg a b e : elapsed_seconds a b = Ok e -> 0 <= dcoef e.
Proof.
  unfold elapsed_seconds. intros (s & Hs & (x & Hx & E)%rbind_Ok)%rbind_Ok.
  assert (fltb (fmax s fzero) fzero = false) as Hz.
  { unfold fmax. destruct (fltb s fzero) eqn:E0; [done|exact E0]. }
  destruct x as [x| |]; [|done..]. injection E as <-.
  destruct (fmax s fzero) as [z|z| |z m e] eqn:Ef; cbn [decimal_of_str] in Hx; try done;
    (destruct (repr_dec _) as [d|] eqn:Er; [|done]; assert (x = d) as -> by congruence;
     eapply repr_dec_nonneg; [|exact Er]; done).
Qed.

(** A lease never closes with a negative cost, and with none when the clock
    is behind its creation. *)
Lemma close_lease_cost_nonneg l p t c :
  (forall a, ls_cost_accrued l = Some a -> 0 <= a) -> close_lease_cost l p t = Ok c ->
  0 <= dcoef c /\ dexp c = -6.
Proof.
  intros Ha. unfold close_lease_cost. intros (rate & Hr & E)%rbind_Ok.
  assert (forall d, 0 <= dcoef d -> quantize_usd d = Ok c -> 0 <= dcoef c /\ dexp c = -6) as Hq.
  { intros d Hd Hc. split; [|by destruct (quantize_usd_micro _ _ Hc) as [-> _]].
    apply dcoef_nonneg. eapply quantize_nonneg; [by apply dcoef_nonneg|exact Hc]. }
  destruct rate as [r|].
  - apply rbind_Ok in E as (e & He & E). apply rbind_Ok in E as (d & Hd & E). eapply Hq; [|done].
    apply dcoef_nonneg. eapply dmul_nonneg; [| |exact Hd]; apply dcoef_nonneg;
      [by eapply rate_nonneg|by eapply elapsed_nonneg].
  - eapply Hq; [|done]. destruct (ls_cost_accrued l); [by apply Ha|done].
Qed.

(** ** Statements on the lease table *)

Lemma update_lease_cases db i f db' r :
  update_lease db i f = (db', r) ->
  (leases db' = leases db /\ forall l, r <> Ok (Some l)) \/
  (exists row, leases db !! i = Some row /\ leases db' = <[i := f row]> (leases db) /\
               forall l, r = Ok (Some l) -> l = strip_lease (f row)).
Proof.
  unfold update_lease, lease_from_row. destruct (leases db !! i) as [row|]; [|by intros [= <- <-]; left].
  destruct (negb (lease_checks (f row))); intros [= <- <-]; [by left|].
  right. exists row. split_and!; [done..|]. destruct (valid_lease _); [|done]. by intros l [= <-].
Qed.

Lemma get_lease_Ok db i l :
  get_lease db i = Ok (Some l) -> exists row, leases db !! i = Some row /\ l = strip_lease row.
Proof.
  unfold get_lease, lease_from_row. destruct (leases db !! i) as [row|]; [|done].
  destruct (valid_lease _); [|done]. intros [= <-]. by exists row.
Qed.

Lemma lease_step_table_ok s t :
  transition_lease_state (InState s) (InState t) = Ok t -> rtc lease_step s t.
Proof. intros E. apply rtc_once. by constructor. Qed.

Section Safety.
Context {F : Type} `{QuietChannel F} (environ : string -> option string).
Abbreviation op := (eff (world F) teardown_error).

(** What one operation may do to the rows of the table: only the row of
    lease [i] moves, along the lifecycle, and it is closed only in a state
    of the world in which its pod [pod] is gone. *)
Definition guarded (i pod : string) (w w' : world F) : Prop :=
  live (w_outside w') ⊆ live (w_outside w) /\
  forall j, leases (w_leases w') !! j = leases (w_leases w) !! j \/
    exists row row', j = i /\ leases (w_leases w) !! i = Some row /\
      leases (w_leases w') !! i = Some row' /\ strip (ls_runpod_pod_id row') = strip (ls_runpod_pod_id row) /\
      rtc lease_step (ls_state row) (ls_state row') /\
      (ls_state row' ∈ TERMINAL_LEASE_STATES ->
       ls_state row ∈ TERMINAL_LEASE_STATES \/ pod ∉ live (w_outside w') /\ pod = strip (ls_runpod_pod_id row)).

Lemma guarded_refl i pod w : guarded i pod w w.
Proof. split; [done|]. by left. Qed.

Lemma guarded_trans i pod w1 w2 w3 : guarded i pod w1 w2 -> guarded i pod w2 w3 -> guarded i pod w1 w3.
Proof.
  intros [L1 G1] [L2 G2]. split; [set_solver|]. intros j.
  destruct (G2 j) as [E2|(r2 & r3 & -> & E2 & E3 & P2 & S2 & T2)].
  - destruct (G1 j) as [E1|(r1 & r2 & -> & E1 & E1' & P1 & S1 & T1)]; [left; congruence|].
    right. exists r1, r2. split_and!; [done..|congruence|done|done|].
    intros Ht. destruct (T1 Ht) as [|[? ?]]; [by left|right; set_solver].
  - destruct (G1 i) as [E1|(r1 & r2' & _ & E1 & E1' & P1 & S1 & T1)].
    + right. exists r2, r3. split_and!; [done|congruence|done..].
    + assert (r2' = r2) as -> by congruence. right. exists r1, r3.
      split_and!; [done..|congruence|by etrans|].
      intros Ht. destruct (T2 Ht) as [Ht2|[? ?]]; [|right; split; [done|congruence]].
      destruct (T1 Ht2) as [|[? ?]]; [by left|right; set_solver].
Qed.

Lemma guarded_bind {A B} i pod (m : op A) (k : A -> op B) w :
  guarded i pod w (m w).1 ->
  (forall a w1, m w = (w1, Ok a) -> guarded i pod w1 (k a w1).1) ->
  guarded i pod w (bind m k w).1.
Proof.
  unfold bind. destruct (m w) as [w1 [a|e]]; simpl; intros Hm Hk; [|done].
  eapply guarded_trans; [exact Hm|by apply Hk].
Qed.

Lemma guarded_outside {E A} i pod (raise : E -> teardown_error) (f : F -> F * result E A) w :
  live (f (w_outside w)).1 ⊆ live (w_outside w) -> guarded i pod w (outside raise f w).1.
Proof. unfold outside. destruct (f (w_outside w)) as [o r]. split; [done|]. by left. Qed.

(** An update that moves the lease along the lifecycle. *)
Lemma guarded_update i pod f row w :
  leases (w_leases w) !! i = Some row ->
  ls_runpod_pod_id (f row) = ls_runpod_pod_id row -> rtc lease_step (ls_state row) (ls_state (f row)) ->
  (ls_state (f row) ∈ TERMINAL_LEASE_STATES ->
   ls_state row ∈ TERMINAL_LEASE_STATES \/
   pod ∉ live (w_outside w) /\ pod = strip (ls_runpod_pod_id row)) ->
  guarded i pod w (on_leases (fun db => update_lease db i f) w).1.
Proof.
  intros Hrow Hp Hs Ht. unfold on_leases. destruct (update_lease (w_leases w) i f) as [db r] eqn:E.
  split; [done|]. simpl. intros j. apply update_lease_cases in E as [[-> _]|(row' & E & -> & _)]; [by left|].
  assert (row' = row) as -> by congruence.
  destruct (decide (j = i)) as [->|]; [right|left; by rewrite lookup_insert_ne].
  exists row, (f row). rewrite lookup_insert_eq. split_and!; [done..|congruence|done|done].
Qed.

Lemma lease_get_guarded i pod j w : guarded i pod w (lease_get (F:=F) j w).1.
Proof.
  unfold lease_get, on_leases. apply (guarded_trans i pod w w); [apply guarded_refl|].
  split; [done|]. by left.
Qed.

Lemma close_lease_guarded i row target reason now w :
  leases (w_leases w) !! i = Some row ->
  strip (ls_runpod_pod_id row) ∉ live (w_outside w) ->
  guarded i (strip (ls_runpod_pod_id row)) w (close_lease i (strip_lease row) target reason now w).1.
Proof.
  intros Hrow Hgone. unfold close_lease.
  apply guarded_bind.
  { destruct now; [apply guarded_refl|]. apply guarded_outside.
    pose proof (now_live (w_outside w)) as Hn. by destruct (utc_now (w_outside w)). }
  intros t w1 E1.
  assert (leases (w_leases w1) !! i = Some row /\ strip (ls_runpod_pod_id row) ∉ live (w_outside w1))
    as [Hrow1 Hgone1].
  { destruct now; [by injection E1 as <- _|]. unfold outside in E1.
    pose proof (now_live (w_outside w)) as Hn. destruct (utc_now (w_outside w)) as [o ti].
    simpl in *. injection E1 as <- _. split; [done|]. simpl. set_solver. }
  apply guarded_bind; [apply guarded_refl|]. intros p ? [= <- _].
  apply guarded_bind; [apply guarded_refl|]. intros c ? [= <- _].
  apply guarded_bind; [apply guarded_refl|]. intros s ? [= <- Es].
  apply guarded_bind; [apply guarded_refl|]. intros col ? [= <- _].
  assert (transition_lease_state (InState (ls_state row)) (InState target) = Ok s) as Hs.
  { revert Es. simpl. destruct (transition_lease_state _ _); [by intros [= <-]|done]. }
  assert (s = target) as ->.
  { revert Hs. unfold transition_lease_state. simpl. destruct (negb _); [done|]. by intros [= <-]. }
  apply guarded_bind.
  - unfold close_teardown. eapply guarded_update; [done|done|by apply lease_step_table_ok|].
    intros _. by right.
  - intros [l|] ? _; apply guarded_refl.
Qed.

Lemma mark_stopping_guarded i row w :
  leases (w_leases w) !! i = Some row ->
  guarded i (strip (ls_runpod_pod_id row)) w (mark_stopping i (strip_lease row) w).1 /\
  forall w1 l, mark_stopping i (strip_lease row) w = (w1, Ok l) ->
    exists row1, leases (w_leases w1) !! i = Some row1 /\ l = strip_lease row1 /\
      ls_runpod_pod_id row1 = ls_runpod_pod_id row.
Proof.
  intros Hrow. unfold mark_stopping. simpl.
  destruct (ls_state row) eqn:Es; try (split; [apply guarded_refl|done]).
  - split.
    + apply guarded_bind; [apply guarded_refl|]. intros ? ? [= <- <-].
      apply guarded_bind; [|intros [|] ? _; apply guarded_refl].
      eapply guarded_update; [done|done|rewrite Es; by apply lease_step_table_ok|].
      intros Ht. exfalso. revert Ht. by apply (bool_decide_eq_false (ls_state (set_state STOPPING row) ∈ TERMINAL_LEASE_STATES)).
    + intros w1 l. unfold bind at 1, lift. simpl. intros (o & w2 & E & El)%bind_Ok.
      destruct o as [l'|]; [|done]. injection El as <- <-.
      unfold on_leases in E. destruct (update_state (w_leases w) i STOPPING) as [db r] eqn:Eu.
      injection E as <- Er. apply rlift_Ok in Er. subst r.
      apply update_lease_cases in Eu as [[_ Hn]|(row' & E & Edb & Hl)]; [by destruct (Hn l')|].
      assert (row' = row) as -> by congruence.
      exists (set_state STOPPING row). simpl. rewrite Edb, lookup_insert_eq. split_and!; [done| |done]. by apply Hl.
  - split; [apply guarded_refl|]. intros w1 l [= <- <-]. by exists row.
Qed.

Lemma run_teardown_guarded i redis reason now target key w :
  exists pod, guarded i pod w (run_teardown environ i redis reason now target key w).1.
Proof.
  destruct (leases (w_leases w) !! i) as [row|] eqn:Hrow.
  2: { exists EmptyString. unfold run_teardown. apply guarded_bind; [apply guarded_refl|].
       intros t ? [= <- _]. apply guarded_bind; [apply lease_get_guarded|].
       intros o w1 E. unfold lease_get, on_leases, get_lease in E. rewrite Hrow in E.
       injection E as <- <-. split; [done|by left]. }
  exists (strip (ls_runpod_pod_id row)). set (pod := strip _). unfold run_teardown.
  apply guarded_bind; [apply guarded_refl|]. intros t ? [= <- _].
  apply guarded_bind; [apply lease_get_guarded|]. intros o w1 E.
  unfold lease_get, on_leases in E. injection E as <- Er. apply rlift_Ok in Er.
  destruct o as [l|]; [|split; [done|by left]].
  apply get_lease_Ok in Er as (row' & E & ->). assert (row' = row) as -> by congruence.
  set (w1 := MkWorld _ _ _). assert (leases (w_leases w1) !! i = Some row) as Hrow1 by done.
  destruct (bool_decide _); [apply guarded_refl|].
  destruct (mark_stopping_guarded i row w1 Hrow1) as [Hm Hml].
  apply guarded_bind; [exact Hm|]. intros l w2 E2. destruct (Hml w2 l E2) as (row1 & Hrow2 & -> & Hid).
  apply guarded_bind; [apply guarded_outside; apply (calm_terminate environ)|].
  intros [] w3 E3. unfold outside in E3. simpl in E3.
  destruct (terminate_pod_sync environ key (strip (ls_runpod_pod_id row1)) (w_outside w2)) as [o3 r3] eqn:Et.
  injection E3 as <- Er3. apply rlift_Ok in Er3. subst r3. apply terminate_Ok_gone in Et.
  apply guarded_bind.
  { subst pod. rewrite <- Hid. by apply close_lease_guarded. }
  intros cl w4 _. apply guarded_bind; [|intros; apply guarded_refl].
  unfold publish_lease_terminated. destruct (negb redis); [apply guarded_refl|].
  apply guarded_bind; [|intros; apply guarded_refl]. apply guarded_outside. apply publish_live.
Qed.
End Safety.

(** ** A run that returns leaves the lease closed *)

Lemma terminal_final s t : s ∈ TERMINAL_LEASE_STATES -> rtc lease_step s t -> t = s.
Proof.
  intros Hs. inversion 1 as [|? u ? Hstep]; [done|subst]. apply lease_step_table in Hstep.
  exfalso. revert Hstep. unfold TERMINAL_LEASE_STATES in Hs. 
  assert (s = STOPPED \/ s = FAILED \/ s = EXPIRED) as [-> |[-> | ->]] by set_solver;
    apply not_elem_of_nil.
Qed.

Lemma run_teardown_Ok_closed {F} `{RunPodApi F, Channel F} (environ : string -> option string)
    i redis reason now target key (w w' : world F) res :
  run_teardown environ i redis reason now target key w = (w', Ok res) ->
  exists row', leases (w_leases w') !! i = Some row' /\ ls_state row' ∈ TERMINAL_LEASE_STATES.
Proof.
  unfold run_teardown. intros (t & w1 & E & Hk)%bind_Ok. injection E as <- Et.
  assert (t ∈ [STOPPED; EXPIRED]) as Ht.
  { destruct target as [s|s|]; simpl in Et; repeat (case_match; simplify_eq/=); try done; by boolify. }
  apply bind_Ok in Hk as (o & w2 & E & Hk). unfold lease_get, on_leases in E. injection E as <- Eg.
  apply rlift_Ok in Eg. destruct o as [l|]; [|done]. apply get_lease_Ok in Eg as (row & Hrow & ->).
  destruct (bool_decide _) eqn:Eb in Hk; boolify.
  { injection Hk as <- _. by exists row. }
  apply bind_Ok in Hk as (st & w3 & _ & Hk). apply bind_Ok in Hk as (? & w4 & _ & Hk).
  apply bind_Ok in Hk as (cl & w5 & Ec & Hk). apply bind_Ok in Hk as (n & w6 & Ep & Hk).
  injection Hk as <- _.
  assert (leases (w_leases w6) = leases (w_leases w5)) as ->.
  { unfold publish_lease_terminated in Ep. destruct (negb redis); [by injection Ep as <- _|].
    apply bind_Ok in Ep as (? & ? & E & [= <- _]). unfold outside in E.
    destruct (redis_publish _ _ _). by injection E as <- _. }
  unfold close_lease in Ec. apply bind_Ok in Ec as (? & ? & _ & Ec). apply bind_Ok in Ec as (? & ? & _ & Ec).
  apply bind_Ok in Ec as (? & ? & _ & Ec). apply bind_Ok in Ec as (cs & ? & Es & Ec).
  apply bind_Ok in Ec as (? & ? & _ & Ec). apply bind_Ok in Ec as (o & w7 & Eu & Ec).
  destruct o as [l|]; [|done]. injection Ec as <- _.
  unfold on_leases in Eu. destruct (close_teardown _ _ _ _ _ _) as [db r] eqn:E in Eu.
  injection Eu as <- Er. apply rlift_Ok in Er. subst r. unfold close_teardown in E.
  apply update_lease_cases in E as [[_ Hn]|(row' & _ & Edb & _)]; [by destruct (Hn l)|].
  simpl. rewrite Edb, lookup_insert_eq. eexists. split; [done|]. simpl.
  assert (cs = t) as ->.
  { injection Es as _ Es. revert Es. destruct (transition_lease_state _ _) eqn:Et'; [|done].
    intros [= <-]. revert Et'. unfold transition_lease_state. simpl. destruct (negb _); [done|]. by intros [= <-]. }
  unfold TERMINAL_LEASE_STATES. set_solver.
Qed.

(** ** A run without failures *)

Lemma update_lease_ok db i f row :
  leases db !! i = Some row -> lease_checks (f row) = true -> valid_lease (strip_lease (f row)) = true ->
  update_lease db i f = (MkLeaseDb (<[i := f row]> (leases db)) (idempotency db) (audit db),
                         Ok (Some (strip_lease (f row)))).
Proof. intros Hr Hc Hv. unfold update_lease, lease_from_row. by rewrite Hr, Hc, Hv. Qed.

Definition stopping_row (row : lease_row) : lease_row :=
  match ls_state row with ACTIVE => set_state STOPPING row | _ => row end.

Lemma mark_stopping_ok {F} i row (w : world F) :
  leases (w_leases w) !! i = Some row ->
  valid_lease (strip_lease row) = true -> lease_checks row = true ->
  ls_state row = ACTIVE \/ ls_state row = STOPPING ->
  exists db, mark_stopping i (strip_lease row) w =
      (MkWorld db (w_registry w) (w_outside w), Ok (strip_lease (stopping_row row))) /\
    leases db !! i = Some (stopping_row row) /\ ls_state (stopping_row row) = STOPPING /\
    (forall r, <[i := r]> (leases db) = <[i := r]> (leases (w_leases w))).
Proof.
  intros Hrow Hv Hc Hs. unfold mark_stopping, stopping_row. simpl.
  destruct (ls_state row) eqn:Es; try (by destruct Hs).
  - unfold bind, lift. simpl. unfold on_leases, update_state.
    rewrite (update_lease_ok _ _ _ row Hrow); cycle 1.
    + unfold lease_checks in *. simpl in *. boolify. unfold lease_active_ready. simpl.
      by rewrite andb_true_r; apply Z.ltb_lt.
    + unfold valid_lease in *. simpl in *. boolify.
      repeat (apply andb_true_iff; split); try done; try by apply Z.ltb_lt. by apply bool_decide_eq_true.
    + eexists. split; [done|]. simpl. rewrite lookup_insert_eq. split_and!; [done..|].
      intros r. by rewrite insert_insert_eq.
  - exists (w_leases w). by destruct w.
Qed.

(** Theorems *)

(** C6: A lease is closed only when its pod is gone.  Whatever a teardown
    does and however it ends, no other lease's row changes; the lease itself
    only moves along the lifecycle; and if its row became terminal, its pod
    exists no more. *)
Theorem closed_only_after_termination {F} `{QuietChannel F} (environ : string -> option string)
    (i : string) (redis : bool) (reason : option string) (now : option Z) (target : LeaseStateInput)
    (key : option string) (w w' : world F) (r : result teardown_error LeaseTeardownResult)
    (j : string) (row row' : lease_row)
    (Hrun : run_teardown environ i redis reason now target key w = (w', r))
    (Hrow : leases (w_leases w) !! j = Some row) (Hrow' : leases (w_leases w') !! j = Some row') :
  row' = row \/
  j = i /\ rtc lease_step (ls_state row) (ls_state row') /\
  (ls_state row' ∈ TERMINAL_LEASE_STATES -> ls_state row ∈ TERMINAL_LEASE_STATES \/
   strip (ls_runpod_pod_id row) ∉ live (w_outside w')).
Proof.
  destruct (run_teardown_guarded environ i redis reason now target key w) as [pod [_ G]].
  rewrite Hrun in G. simpl in G.
  destruct (G j) as [E|(r1 & r2 & -> & E1 & E2 & _ & Hs & Ht)]; [left; congruence|right].
  assert (r1 = row) as -> by congruence. assert (r2 = row') as -> by congruence.
  split_and!; [done|done|]. intros Hterm. destruct (Ht Hterm) as [|[? ->]]; [by left|by right].
Qed.


(** A lease of an hour at a tenth of a cent per second. *)
Module TeardownSim.
#[export] Instance api : RunPodApi Sim.world := Sim.api Sim.not_found.
#[export] Instance lawful : LawfulRunPod Sim.world := Sim.lawful Sim.not_found.
#[export] Instance channel : Channel Sim.world := {| redis_publish c m w := (w, Ok (Some 1)) |}.
#[export] Instance quiet : QuietChannel Sim.world.
Proof. by split. Defined.
Definition lease : lease_row :=
  MkLease "p1" "pod-1" ACTIVE 0 7200000000 "manual" true (Some (MkEndpoints [] []))
    (Some (MkReadiness (Some 1) (Some 2) (Some 3) (Some "runpod_proxy"))) None None None None.
Definition provider : Provider :=
  MkProvider "p1" "c1" "prov" POD_LEASE None None None (Some "SECURE")
    [("cost", VDict [("per_second_active", VStr "0.001")])] 1 true "healthy" 0 0 None None fzero None "api" None
    (utc 0).
Definition key (n : string) : option string := Some "key".
Definition start : world Sim.world :=
  MkWorld (MkLeaseDb {["l1" := lease]} ∅ [])
    (Registry.MkRegistry ∅ {["p1" := provider]} []) (Sim.MkWorld ["pod-1"; "pod-2"] [] [] 0).
End TeardownSim.
#[local] Existing Instances TeardownSim.api TeardownSim.lawful TeardownSim.channel TeardownSim.quiet.


Lemma closed_only_after_termination_witness :
  match leases (w_leases (run_teardown TeardownSim.key "l1" true None (Some 3600000000) (InState STOPPED) None
                            TeardownSim.start).1) !! "l1" with
  | Some row' => ls_state row' = STOPPED /\
      "pod-1" ∉ live (w_outside (run_teardown TeardownSim.key "l1" true None (Some 3600000000) (InState STOPPED)
                                   None TeardownSim.start).1)
  | None => False
  end.
Proof.
  destruct (run_teardown TeardownSim.key "l1" true None (Some 3600000000) (InState STOPPED) None
              TeardownSim.start) as [w' r] eqn:E.
  assert (leases (w_leases w') !! "l1" =
          Some (closed_row TeardownSim.lease STOPPED 3600000 3600000000 "operator_stop")) as Hrow.
  { change w' with (w', r).1. rewrite <- E. vm_compute. reflexivity. }
  cbn [fst]. rewrite Hrow. split; [reflexivity|].
  destruct (closed_only_after_termination TeardownSim.key "l1" true None (Some 3600000000) (InState STOPPED)
              None TeardownSim.start w' r "l1" TeardownSim.lease _ E eq_refl Hrow) as [C|(_ & _ & C)].
  - discriminate C.
  - destruct C as [C|C]; [by left| |exact C].
    exfalso. revert C. by apply (bool_decide_eq_false (ACTIVE ∈ TERMINAL_LEASE_STATES)).
Defined.
