(* ===== verification/Reconciler.v ===== *)
(** * Reconciling workloads with RunPod ([reconciler/__init__.py])

    The jobs that move a workload to a terminal state: the poll every two
    minutes, the job a webhook enqueues, and the cost job.  A job is a run of
    statements, each of which commits on its own; the rows of a poll are read
    once, before the first request, and processed in an order the query does
    not fix.  Several rows may carry one RunPod job id: [fetchrow] returns one
    of them, here the first of the table.

    RunPod's queue API, the webhook dispatcher and the Redis channel are the
    interface [ReconcileDeps]; pods are read through [Pods.get_pod_sync].  A
    published message is the event before [json.dumps]. *)

From S2P Require Import Registry.
From S2P Require Import Prelude PyDecimal PyFloat PyValue PyEq PyTime PyFormat Effects Enums.
From S2P Require Import Provider WorkloadStore Pods PodCreate.

(** Definitions *)

(** ** Job states *)

Definition RUNPOD_TERMINAL_MAP : list (string * WorkloadState) :=
  [("COMPLETED", COMPLETED); ("FAILED", WFAILED); ("CANCELLED", CANCELLED); ("TIMED_OUT", TIMED_OUT);
   ("TIMEOUT", TIMED_OUT); ("TIME_OUT", TIMED_OUT)].

(** A terminal status has its state, cost and completion time; [None] is
    [terminal=False]. *)
Record RunPodJobStatus : Type := MkJobStatus {
  js_state : WorkloadState;
  js_actual_cost : option dec;
  js_completed_at : datetime;
}.

Definition compute_actual_cost (cost_per_hr : option dec) (worker_time_ms : option Z) : py (option dec) :=
  match cost_per_hr, worker_time_ms with
  | Some c, Some ms =>
      if 0 <? ms then
        let? per_ms := ddiv c (of_int 3600000) in
        let? cost := dmul per_ms (of_int ms) in
        rmap Some (quantize ROUND_HALF_EVEN cost (-6))
      else Ok None
  | _, _ => Ok None
  end.

Definition map_runpod_status (clock : datetime) (status : string) (cost_per_hr : option dec)
    (worker_time_ms : option Z) (completed_at : option datetime) : py (option RunPodJobStatus) :=
  match al_get status RUNPOD_TERMINAL_MAP with
  | Some s =>
      let? cost := compute_actual_cost cost_per_hr worker_time_ms in
      Ok (Some (MkJobStatus s cost (default clock completed_at)))
  | None => Ok None
  end.

(** ** Statements *)

Definition terminal_states : list string := ["completed"; "failed"; "cancelled"; "timed_out"].
Definition active_states : list string := ["queued"; "running"].

(** [apply_terminal_state]: the guarded UPDATE; whether a row came back. *)
Definition apply_terminal_state (db : workload_db) (workload_id : string) (s : RunPodJobStatus)
  : workload_db * result store_error bool :=
  let sets := [("state", VStr (enum_value (js_state s)));
               ("cost_actual_usd", match js_actual_cost s with Some d => VDec (DFin d) | None => VNone end);
               ("completed_at", VTime (js_completed_at s))] in
  match workloads db !! workload_id with
  | None => (db, Ok false)
  | Some row =>
      if bool_decide (state_of row ∈ terminal_states) then (db, Ok false)
      else
        let row' := assign row sets in
        if row_constraints row' then (set_workload db workload_id row', Ok true)
        else (db, Err ConstraintViolation)
  end.

Definition has_job_id (job : string) (row : dict) : bool :=
  match as_str (dict_get_none "runpod_job_id" row) with Some j => String.eqb j job | None => false end.

(** [fetch_workload_by_runpod_job_id] *)
Definition fetch_workload_by_runpod_job_id (db : workload_db) (job : string) : option (string * dict) :=
  head (filter (fun kv => has_job_id job kv.2 = true) (map_to_list (workloads db))).

(** [fetch_active_workloads] *)
Definition is_active_job (row : dict) : bool :=
  bool_decide (state_of row ∈ active_states) && negb (is_none (dict_get_none "runpod_job_id" row)).
Definition fetch_active_workloads (db : workload_db) : list (string * dict) :=
  filter (fun kv => is_active_job kv.2 = true) (map_to_list (workloads db)).

(** [build_workload_completed_event] *)
Definition optional_field (k : string) (row : dict) : dict :=
  match dict_get_none k row with VNone => [] | v => [(k, v)] end.
Definition build_workload_completed_event (workload_id : string) (row : dict) : dict :=
  let get k := dict_get_none k row in
  [("event", VStr "workload.completed"); ("workload_id", VStr workload_id);
   ("capability_id", get "capability_id"); ("provider_id", get "provider_id"); ("state", get "state");
   ("completed_at", match get "completed_at" with VTime t => VStr (isoformat t) | _ => VNone end);
   ("execution_ms", get "execution_ms"); ("output_bytes", get "output_bytes");
   ("cost_actual_usd", match get "cost_actual_usd" with VNone => VNone | v => VStr (py_str v) end)] ++
  optional_field "error" row ++ optional_field "result" row ++ optional_field "fallback_chain" row.

(** ** The world *)

Class ReconcileDeps (F : Type) := {
  queue_status : string -> string -> F -> F * option string;      (* [None]: the request raised *)
  publish_message : string -> dict -> F -> F * result string (option Z);
  dispatch_webhooks : dict -> dict -> F -> F * result string unit;
}.

Record world (F : Type) : Type := MkWorld {
  w_workloads : workload_db;
  w_registry : Registry.registry;
  w_outside : F;
}.
Arguments MkWorld {F}.
Arguments w_workloads {F}.
Arguments w_registry {F}.
Arguments w_outside {F}.

Inductive reconcile_error :=
| StoreFailed (e : store_error)
| DispatchFailed (text : string)
| ReconcileExn (e : exn).

Section Jobs.
Context {F : Type} `{RunPodApi F, ReconcileDeps F} (environ : string -> option string).
Abbreviation op := (eff (world F) reconcile_error).

Definition on_workloads {A} (f : workload_db -> workload_db * result store_error A) : op A :=
  fun w => let '(db, r) := f (w_workloads w) in
           (MkWorld db (w_registry w) (w_outside w), rlift StoreFailed r).
Definition outside {A} (f : F -> F * A) : op A :=
  fun w => let '(o, a) := f (w_outside w) in (MkWorld (w_workloads w) (w_registry w) o, Ok a).

(** [publish_workload_completed]: a failing publish counts no subscribers. *)
Definition publish_workload_completed (redis : bool) (event : dict) : op Z :=
  if negb redis then ret 0
  else do! r := outside (publish_message "pitwall:workload:completed" event) in
       ret (match r with Ok (Some n) => n | _ => 0 end).

(** The tail the two polling jobs share: store, then publish what was stored. *)
Definition store_and_publish (redis : bool) (workload_id : string) (status : option RunPodJobStatus) : op unit :=
  match status with
  | None => ret tt
  | Some s =>
      do! updated := on_workloads (fun db => apply_terminal_state db workload_id s) in
      if updated && redis then
        do! w := get in
        match workloads (w_workloads w) !! workload_id with
        | Some row => do! _ := publish_workload_completed redis (build_workload_completed_event workload_id row) in
                      ret tt
        | None => ret tt
        end
      else ret tt
  end.

(** [apply_terminal_status_and_publish] *)
Definition apply_terminal_status_and_publish (redis : bool) (runpod_job_id status : string)
    (completed_at : option datetime) : op bool :=
  do! w := get in
  match fetch_workload_by_runpod_job_id (w_workloads w) runpod_job_id with
  | None => ret false
  | Some (workload_id, _) =>
      do! clock := outside utc_now in
      do! mapped := lift (rlift ReconcileExn (map_runpod_status clock status None None completed_at)) in
      match mapped with
      | None => ret false
      | Some s =>
          do! updated := on_workloads (fun db => apply_terminal_state db workload_id s) in
          if updated : bool then
            do! w := get in
            match workloads (w_workloads w) !! workload_id with
            | None => ret true
            | Some row =>
                let event := build_workload_completed_event workload_id row in
                do! _ := publish_workload_completed redis event in
                do! r := outside (dispatch_webhooks row event) in
                do! _ := lift (rlift DispatchFailed r) in
                ret true
            end
          else ret false
      end
  end.

(** [_cost_reconcile]: the status it maps is a constant. *)
Definition cost_reconcile (redis : bool) : op unit :=
  do! w := get in
  do! _ := traverse (fun '(workload_id, _) =>
             do! clock := outside utc_now in
             do! status := lift (rlift ReconcileExn (map_runpod_status clock "IN_PROGRESS" None None None)) in
             store_and_publish redis workload_id status)
           (fetch_active_workloads (w_workloads w)) in
  ret tt.

(** ** The poll *)

Record poll_row : Type := MkPollRow {
  pw_id : string;
  pw_job_id : string;
  pw_provider_type : ProviderType;
  pw_endpoint_id : option string;
}.

Definition poll_rows (w : world F) : list poll_row :=
  omap (fun kv =>
    match as_str (dict_get_none "runpod_job_id" kv.2), as_str (dict_get_none "provider_id" kv.2) with
    | Some job, Some pid =>
        p ← Registry.providers (w_registry w) !! pid;
        Some (MkPollRow kv.1 job (p_provider_type p) (p_runpod_endpoint_id p))
    | _, _ => None
    end) (fetch_active_workloads (w_workloads w)).

(** The status of a pod: its own or, when it is not found, [TIMED_OUT].  The
    attribute of a runtime that is no object raises and skips the row. *)
Definition pod_status (pod : option dict) : option pyval :=
  match pod with
  | None => Some (VStr "TIMED_OUT")
  | Some p =>
      match py_or (dict_get_none "runtime" p) (VDict []) with
      | VDict runtime => Some (py_or (dict_get_none "podStatus" runtime) (dict_get_none "status" runtime))
      | _ => None
      end
  end.

(** What the [try] leaves in [status_str]; [None] when it raised. *)
Definition read_status (row : poll_row) (endpoint_id : string) : F -> F * option pyval :=
  match pw_provider_type row with
  | SERVERLESS_QUEUE => fun o => let '(o, r) := queue_status endpoint_id (pw_job_id row) o in (o, VStr <$> r)
  | POD_LEASE =>
      fun o => match get_pod_sync environ None (pw_job_id row) o with
               | (o, Ok pod) => (o, pod_status pod)
               | (o, Err _) => (o, None)
               end
  | _ => fun o => (o, Some VNone)
  end.

(** The key of the status map: an unhashable status raises. *)
Definition status_key (v : pyval) : py string :=
  match v with
  | VStr s | VEnum s => Ok s
  | VList _ | VDict _ => Err (TypeError "unhashable type")
  | _ => Ok EmptyString
  end.

Definition poll_one (redis : bool) (row : poll_row) : op unit :=
  match pw_endpoint_id row with
  | None | Some EmptyString => ret tt
  | Some endpoint_id =>
      if negb (nonempty (pw_job_id row)) then ret tt
      else
        do! v := outside (read_status row endpoint_id) in
        match v with
        | None | Some VNone => ret tt
        | Some v =>
            do! status := lift (rlift ReconcileExn (status_key v)) in
            do! clock := outside utc_now in
            do! mapped := lift (rlift ReconcileExn (map_runpod_status clock status None None None)) in
            store_and_publish redis (pw_id row) mapped
        end
  end.

(** [_poll_and_reconcile], with an API key configured *)
Definition poll_and_reconcile (redis : bool) : op unit :=
  match env_text environ "RUNPOD_API_KEY" with
  | None => ret tt
  | Some _ => do! w := get in do! _ := traverse (poll_one redis) (poll_rows w) in ret tt
  end.

(** ** Histories

    The jobs and the request handlers that write workloads, in the order in
    which they run. *)
Inductive job :=
| Poll (redis : bool)
| WebhookStatus (redis : bool) (runpod_job_id status : string)
| CostReconcile (redis : bool)
| Lifecycle (c : lifecycle_call).

Definition run_job (j : job) (w : world F) : world F :=
  match j with
  | Poll redis => (poll_and_reconcile redis w).1
  | WebhookStatus redis id status => (apply_terminal_status_and_publish redis id status None w).1
  | CostReconcile redis => (cost_reconcile redis w).1
  | Lifecycle c => match run_call (w_workloads w) c with
                   | Ok (db, _) => MkWorld db (w_registry w) (w_outside w)
                   | Err _ => w
                   end
  end.
End Jobs.

(** Lemmas *)

(** ** What every step keeps *)

Section Stays.
Context {S E : Type} (P : S -> Prop).
Definition stays {A} (m : eff S E A) : Prop := forall s, P s -> P (m s).1.

Lemma stays_ret {A} (a : A) : stays (ret a).
Proof. by intros s. Qed.
Lemma stays_fail {A} (e : E) : stays (fail (A:=A) e).
Proof. by intros s. Qed.
Lemma stays_lift {A} (r : result E A) : stays (lift r).
Proof. by intros s. Qed.
Lemma stays_get : stays get.
Proof. by intros s. Qed.
Lemma stays_bind {A B} (m : eff S E A) (k : A -> eff S E B) :
  stays m -> (forall a, stays (k a)) -> stays (bind m k).
Proof.
  intros Hm Hk s Hs. unfold bind. specialize (Hm s Hs). destruct (m s) as [s1 [a|e]]; [by apply Hk|done].
Qed.
Lemma stays_traverse {A B} (f : A -> eff S E B) l : (forall x, stays (f x)) -> stays (traverse f l).
Proof. intros Hf s Hs. apply traverse_inv; [|done]. intros x s' _. apply Hf. Qed.
End Stays.

Ltac stay :=
  repeat match goal with
  | |- forall _, _ => intro
  | |- stays _ (ret _) => apply stays_ret
  | |- stays _ (fail _) => apply stays_fail
  | |- stays _ (lift _) => apply stays_lift
  | |- stays _ get => apply stays_get
  | |- stays _ (bind _ _) => apply stays_bind
  | |- stays _ (traverse _ _) => apply stays_traverse
  | H : context [stays _ _] |- stays _ _ => solve [apply H]
  | |- stays _ (if ?b then _ else _) => destruct b
  | |- stays _ (match ?x with _ => _ end) => destruct x
  end.

Lemma source_not_terminal c : enum_value (call_source c) ∉ terminal_states.
Proof. destruct c; simpl; unfold terminal_states; set_solver. Qed.

Section Final.
Context {F : Type} `{RunPodApi F, ReconcileDeps F} (environ : string -> option string).

(** The row of workload [i] is terminal and is [row]. *)
Definition frozen (i : string) (row : dict) (w : world F) : Prop :=
  workloads (w_workloads w) !! i = Some row /\ state_of row ∈ terminal_states.

Lemma apply_terminal_cases db j s db' r :
  apply_terminal_state db j s = (db', r) ->
  (db' = db /\ r <> Ok true) \/
  exists row row', workloads db !! j = Some row /\ state_of row ∉ terminal_states /\
    db' = set_workload db j row' /\ r = Ok true.
Proof.
  unfold apply_terminal_state. destruct (workloads db !! j) as [row|]; [|by intros [= <- <-]; left].
  destruct (bool_decide _) eqn:Es; [by intros [= <- <-]; left|]. boolify.
  destruct (row_constraints _); intros [= <- <-]; [|by left]. right. by eexists _, _.
Qed.

Lemma stays_outside {A} i row (f : F -> F * A) : stays (frozen i row) (outside f).
Proof. intros w Hw. unfold outside. by destruct (f (w_outside w)). Qed.

Lemma stays_apply i row j s :
  stays (frozen i row) (on_workloads (F:=F) (fun db => apply_terminal_state db j s)).
Proof.
  intros w [Hw Ht]. unfold on_workloads. destruct (apply_terminal_state (w_workloads w) j s) as [db r] eqn:E.
  apply apply_terminal_cases in E as [[-> _]|(row1 & row2 & E & Hn & -> & _)]; [done|].
  split; [|done]. simpl. rewrite lookup_insert_ne; [done|]. intros ->. congruence.
Qed.

Lemma stays_publish i row redis ev : stays (frozen i row) (publish_workload_completed redis ev).
Proof. pose proof (@stays_outside). unfold publish_workload_completed. stay. Qed.

Lemma stays_store i row redis j s : stays (frozen i row) (store_and_publish redis j s).
Proof.
  pose proof (@stays_apply i row). pose proof (@stays_publish i row).
  unfold store_and_publish. stay.
Qed.

Lemma stays_poll_one i row redis r : stays (frozen i row) (poll_one environ redis r).
Proof.
  pose proof (@stays_outside). pose proof (stays_store i row). unfold poll_one. stay.
Qed.

Lemma run_job_frozen i row j w : frozen i row w -> frozen i row (run_job environ j w).
Proof.
  pose proof (@stays_outside) as Ho. pose proof (@stays_apply i row). pose proof (@stays_publish i row).
  pose proof (stays_store i row). pose proof (stays_poll_one i row).
  destruct j as [redis|redis id status|redis|c]; simpl.
  - assert (stays (frozen i row) (poll_and_reconcile environ redis)) as Hj; [|apply Hj].
    unfold poll_and_reconcile. stay.
  - assert (stays (frozen i row) (apply_terminal_status_and_publish redis id status None)) as Hj; [|apply Hj].
    unfold apply_terminal_status_and_publish. stay.
  - assert (stays (frozen i row) (cost_reconcile redis)) as Hj; [|apply Hj]. unfold cost_reconcile. stay.
  - intros [Hw Ht]. destruct (run_call (w_workloads w) c) as [[db o]|e] eqn:E; [|done].
    apply run_call_Ok in E. destruct o as [v|]; [|by subst db].
    destruct E as (row1 & E1 & E2 & -> & _). split; [|done]. simpl.
    rewrite lookup_insert_ne; [done|]. intros Hi. assert (row1 = row) as -> by congruence.
    rewrite E2 in Ht. by apply source_not_terminal in Ht.
Qed.
End Final.

(** The row after a terminal status without a cost. *)
Definition stored_row (row : dict) (s : WorkloadState) (completed_at : datetime) : dict :=
  assign row [("state", VStr (enum_value s)); ("cost_actual_usd", VNone);
              ("completed_at", VTime completed_at)].

Lemma stored_state row s t : state_of (stored_row row s t) = enum_value s.
Proof. unfold stored_row. apply assign_state. csimpl. set_solver. Qed.

Lemma terminal_map_states status s :
  al_get status RUNPOD_TERMINAL_MAP = Some s -> enum_value s ∈ terminal_states.
Proof.
  assert (bool_decide (Forall (fun kv => enum_value kv.2 ∈ terminal_states) RUNPOD_TERMINAL_MAP) = true)
    as Hall%bool_decide_eq_true_1 by (vm_compute; reflexivity).
  revert Hall. induction RUNPOD_TERMINAL_MAP as [|[k v] l IH]; simpl; [done|].
  intros [Hv Hl]%Forall_cons. case_decide; [by intros [= <-]|by apply IH].
Qed.

Lemma fetch_only db i row jid :
  workloads db !! i = Some row -> has_job_id jid row = true ->
  (forall j r, workloads db !! j = Some r -> has_job_id jid r = true -> j = i) ->
  fetch_workload_by_runpod_job_id db jid = Some (i, row).
Proof.
  intros Hrow Hjob Honly. unfold fetch_workload_by_runpod_job_id.
  assert (forall x, x ∈ filter (fun kv => has_job_id jid kv.2 = true) (map_to_list (workloads db)) <->
                    has_job_id jid x.2 = true /\ x ∈ map_to_list (workloads db)) as Hl
    by (intros x; by rewrite list_elem_of_filter).
  destruct (filter _ _) as [|[j r] l'].
  { destruct (proj1 (elem_of_nil (i, row))). apply Hl. split; [done|by apply elem_of_map_to_list]. }
  destruct (proj1 (Hl (j, r)) ltac:(constructor)) as [Hj Hr%elem_of_map_to_list]. simpl in *.
  assert (j = i) as -> by (by eapply Honly). congruence.
Qed.

(** The cost job maps a status that is never terminal. *)
Lemma cost_reconcile_noop {F} `{RunPodApi F, ReconcileDeps F} redis (w : world F) :
  w_workloads (cost_reconcile redis w).1 = w_workloads w.
Proof.
  assert (stays (fun w' => w_workloads w' = w_workloads w) (cost_reconcile redis)) as Hs; [|exact (Hs w eq_refl)].
  assert (forall f : F -> F * datetime, stays (fun w' => w_workloads w' = w_workloads w) (outside f)).
  { intros f w1 E. unfold outside. by destruct (f (w_outside w1)). }
  unfold cost_reconcile. apply stays_bind; [stay|]. intros w1. apply stays_bind; [|stay].
  apply stays_traverse. intros [j r]. apply stays_bind; [done|]. by intros clock w2 E.
Qed.

(** Theorems *)


(** C23: A terminal status is applied once and announced once.  The first
    report of a job that reached a terminal state stores the state and the
    completion time, hands the stored row to the channel and the subscribers,
    and answers that it did; every later report, of whatever status, changes
    no row, asks nothing of the world but the time, and answers that it did
    not. *)
Theorem terminal_status_applied_once {F} `{RunPodApi F, ReconcileDeps F} (redis : bool)
    (i jid status : string) (s : WorkloadState) (row : dict) (w : world F) (t : datetime) (o1 o3 : F)
    (Hrow : workloads (w_workloads w) !! i = Some row)
    (Hjob : has_job_id jid row = true)
    (Honly : forall j r, workloads (w_workloads w) !! j = Some r -> has_job_id jid r = true -> j = i)
    (Hactive : state_of row ∉ terminal_states)
    (Hmap : al_get status RUNPOD_TERMINAL_MAP = Some s)
    (Hclock : utc_now (w_outside w) = (o1, t))
    (Hstored : row_constraints (stored_row row s t) = true)
    (Hhooks : let event := build_workload_completed_event i (stored_row row s t) in
              dispatch_webhooks (stored_row row s t) event
                (if redis then (publish_message "pitwall:workload:completed" event o1).1 else o1) = (o3, Ok tt)) :
  let w' := MkWorld (set_workload (w_workloads w) i (stored_row row s t)) (w_registry w) o3 in
  apply_terminal_status_and_publish redis jid status None w = (w', Ok true) /\
  forall redis' status',
    apply_terminal_status_and_publish redis' jid status' None w' =
      (MkWorld (w_workloads w') (w_registry w) (utc_now o3).1, Ok false).
Proof.
  intros w'. split.
  - unfold apply_terminal_status_and_publish. unfold bind at 1, get at 1.
    rewrite (fetch_only _ _ _ _ Hrow Hjob Honly).
    unfold bind at 1, outside at 1. rewrite Hclock. unfold bind at 1, lift, map_runpod_status. rewrite Hmap.
    simpl. unfold bind at 1, on_workloads, apply_terminal_state. simpl. rewrite Hrow.
    rewrite bool_decide_eq_false_2 by done. unfold stored_row in *. simpl in *. rewrite Hstored. simpl.
    unfold bind at 1, get. simpl. rewrite lookup_insert_eq.
    unfold publish_workload_completed, outside. destruct redis; simpl in *.
    + unfold bind, ret. simpl. destruct (publish_message _ _ o1) as [o2 r]. simpl in *. by rewrite Hhooks.
    + unfold bind, ret. simpl. by rewrite Hhooks.
  - intros redis' status'. unfold apply_terminal_status_and_publish. unfold bind at 1, get at 1.
    rewrite (fetch_only _ i (stored_row row s t)); cycle 1.
    + simpl. by rewrite lookup_insert_eq.
    + unfold has_job_id, dict_get_none, stored_row.
      rewrite assign_other; [exact Hjob|]. csimpl. set_solver.
    + intros j r. simpl. destruct (decide (j = i)) as [->|Hne]; [done|]. rewrite lookup_insert_ne by done.
      apply Honly.
    + unfold bind at 1, outside at 1. destruct (utc_now (w_outside w')) as [o4 t'] eqn:Ec.
      change (w_outside w') with o3 in Ec. rewrite Ec. unfold bind at 1, lift.
      assert (exists m, map_runpod_status t' status' None None None = Ok m) as [[m|] ->]; [|simpl|reflexivity].
      { unfold map_runpod_status. destruct (al_get status' _); simpl; by eexists. }
      unfold bind, on_workloads, apply_terminal_state. simpl. rewrite lookup_insert_eq.
      rewrite stored_state. by rewrite bool_decide_eq_true_2 by (by eapply terminal_map_states).
Qed.

(** C26: A network failure is taken for a pod that is gone.  When the request
    for the state of a pod gets no answer at all, the poll marks the pod's
    workload timed out, for good. *)
Theorem unanswered_poll_times_out {F} `{RunPodApi F, ReconcileDeps F} (environ : string -> option string)
    (redis : bool) (r : poll_row) (row : dict) (e k text : string) (w : world F) (o1 o2 : F) (t : datetime)
    (Hrow : workloads (w_workloads w) !! pw_id r = Some row) (Hactive : state_of row ∉ terminal_states)
    (Htype : pw_provider_type r = POD_LEASE) (He : pw_endpoint_id r = Some e)
    (Hne : nonempty e = true) (Hjob : nonempty (pw_job_id r) = true)
    (Hkey : require_api_key environ None = Ok k)
    (Hdown : send "GET" ("pods/" +:+ pw_job_id r) None (w_outside w) = (o1, TransportError text))
    (Hclock : utc_now o1 = (o2, t)) (Hstored : row_constraints (stored_row row TIMED_OUT t) = true) :
  workloads (w_workloads (poll_one environ redis r w).1) !! pw_id r = Some (stored_row row TIMED_OUT t) /\
  state_of (stored_row row TIMED_OUT t) = "timed_out".
Proof.
  split; [|by rewrite stored_state]. unfold poll_one. rewrite He. destruct e as [|c e]; [done|].
  rewrite Hjob. simpl. unfold bind at 1, outside, read_status. rewrite Htype.
  unfold get_pod_sync, get_pod_body, rest_request. unfold bind at 1. unfold bind at 1, lift. rewrite Hkey.
  unfold bind, ask. rewrite Hdown. simpl. rewrite Hclock. simpl.
  unfold bind, on_workloads, apply_terminal_state. simpl. rewrite Hrow.
  rewrite bool_decide_eq_false_2 by done. unfold stored_row in *. simpl in *. rewrite Hstored. simpl.
  destruct redis; simpl; [|by rewrite lookup_insert_eq].
  unfold get. simpl. rewrite lookup_insert_eq. unfold publish_workload_completed, bind, outside. simpl.
  destruct (publish_message _ _ o2) as [o3 r3]. simpl. by rewrite lookup_insert_eq.
Qed.

(** A queued pod workload, in a world whose requests get no answer. *)
Module ReconcileSim.
#[export] Instance api : RunPodApi Sim.world := Sim.api (TransportError "timed out").
#[export] Instance deps : ReconcileDeps Sim.world := {|
  queue_status e j o := (o, Some "COMPLETED");
  publish_message c m o := (o, Ok (Some 1));
  dispatch_webhooks r m o := (o, Ok tt);
|}.
Definition row : dict :=
  [("id", VStr "w1"); ("capability_id", VStr "c1"); ("provider_id", VStr "p1"); ("type", VStr "lease");
   ("state", VStr "running"); ("runpod_job_id", VStr "job-1"); ("submitted_at", VTime (utc 0))].
Definition provider : Provider :=
  MkProvider "p1" "c1" "prov" POD_LEASE (Some "ep") None None (Some "SECURE") [] 1 true "healthy" 0 0 None None
    fzero None "api" None (utc 0).
Definition start : world Sim.world :=
  MkWorld (MkWorkloadDb {["w1" := row]} ∅) (Registry.MkRegistry ∅ {["p1" := provider]} [])
    (Sim.MkWorld ["job-1"] [] [] 0).
Definition env (n : string) : option string := Some "key".
Definition finished : dict := stored_row row COMPLETED (utc 1000000).
Definition after : world Sim.world :=
  MkWorld (MkWorkloadDb {["w1" := finished]} ∅) (Registry.MkRegistry ∅ {["p1" := provider]} [])
    (Sim.MkWorld ["job-1"] [] [] 0).
End ReconcileSim.
#[local] Existing Instances ReconcileSim.api ReconcileSim.deps.


Lemma terminal_status_applied_once_witness :
  (apply_terminal_status_and_publish true "job-1" "COMPLETED" None ReconcileSim.start).2 = Ok true /\
  (apply_terminal_status_and_publish true "job-1" "FAILED" None
    (MkWorld (set_workload (w_workloads ReconcileSim.start) "w1" ReconcileSim.finished)
       (w_registry ReconcileSim.start) (w_outside ReconcileSim.start))).2 = Ok false.
Proof.
  destruct (terminal_status_applied_once true "w1" "job-1" "COMPLETED" COMPLETED ReconcileSim.row
              ReconcileSim.start (utc 1000000) (w_outside ReconcileSim.start) (w_outside ReconcileSim.start))
    as [E1 E2].
  - reflexivity.
  - reflexivity.
  - intros j r Hj _. simpl in Hj. by apply lookup_singleton_Some in Hj as [<- _].
  - apply (bool_decide_eq_false (state_of ReconcileSim.row ∈ terminal_states)). vm_compute. reflexivity.
  - reflexivity.
  - reflexivity.
  - vm_compute. reflexivity.
  - reflexivity.
  - split; [rewrite E1; reflexivity|]. fold ReconcileSim.finished in E2. rewrite (E2 true "FAILED"). reflexivity.
Defined.

Lemma unanswered_poll_times_out_witness :
  poll_rows ReconcileSim.start = [MkPollRow "w1" "job-1" POD_LEASE (Some "ep")] /\
  workloads (w_workloads (poll_one ReconcileSim.env true (MkPollRow "w1" "job-1" POD_LEASE (Some "ep"))
    ReconcileSim.start).1) !! "w1" = Some (stored_row ReconcileSim.row TIMED_OUT (utc 1000000)).
Proof.
  split; [vm_compute; reflexivity|].
  apply (unanswered_poll_times_out ReconcileSim.env true (MkPollRow "w1" "job-1" POD_LEASE (Some "ep"))
           ReconcileSim.row "ep" "key" "timed out" ReconcileSim.start (w_outside ReconcileSim.start)
           (w_outside ReconcileSim.start) (utc 1000000)); try reflexivity.
  - apply (bool_decide_eq_false (state_of ReconcileSim.row ∈ terminal_states)). vm_compute. reflexivity.
Defined.
