(* ===== verification/Sweeps.v ===== *)
(** * Minute jobs: lease expiry and provider health ([reconciler/__init__.py])

    [_lease_expiry_reconcile] warns about leases that are about to expire and
    tears down those that have; [_health_probe] pings the load-balanced
    endpoints and stores what the cooldown machine makes of the answer.  Both
    read their rows once, before the first request, in an order the query
    does not fix.  The database's clock is its own.

    The Redis channel of the warnings and the endpoint client are the
    interfaces [WarningChannel] and [Prober]; a failing warning is ignored by
    the code. *)

From Stdlib Require Import Ascii.
From S2P Require Import Registry.
From S2P Require Import Prelude PyDecimal PyFloat PyValue PyTime PyFormat Effects Enums LeaseState.
From S2P Require Import Provider Cooldown LeaseStore Pods PodCreate Teardown.

(** Definitions *)

Class WarningChannel (F : Type) := { publish_warning : string -> dict -> F -> F }.
Class Prober (F : Type) := { probe : string -> F -> F * result string bool }.

(** ** Lease expiry *)

Fixpoint parse_ints (l : list string) : option (list Z) :=
  match l with
  | [] => Some []
  | s :: l' => z ← parse_int s; zs ← parse_ints l'; Some (z :: zs)
  end.

(** [sorted(warning_minutes)] *)
Definition warning_minutes (environ : string -> option string) : list Z :=
  let raw := default "15,5" (environ "PITWALL_LEASE_ADVANCE_WARNING_MIN") in
  match parse_ints (stripped_items ","%char raw) with
  | Some l => sort_by Z.ltb (dedup l)
  | None => [5; 15]
  end.

(** [_LEASE_EXPIRY_LEASES_SQL] *)
Definition expiry_rows (db : lease_db) (db_now : Z) : list (string * lease_row) :=
  filter (fun kv => bool_decide (ls_state kv.2 = ACTIVE) && ls_auto_teardown kv.2 &&
                    (ls_expires_at kv.2 <=? db_now + 3600000000) = true)
    (map_to_list (leases db)).

(** [time_until_expiry.total_seconds() / 60.0] *)
Definition minutes_until (now expires_at : Z) : py float :=
  let? s := total_seconds (expires_at - now) in fdiv s (of_Z 60).

Definition warning_due (minutes : float) (warn_min : Z) : bool :=
  fltb fzero minutes && fleb minutes (of_Z warn_min).

Definition warning_event (lease_id : string) (row : lease_row) (minutes warn_min : Z) : dict :=
  [("event", VStr "lease.expiring"); ("lease_id", VStr lease_id);
   ("provider_id", VStr (ls_provider_id row)); ("runpod_pod_id", VStr (ls_runpod_pod_id row));
   ("minutes_until_expiry", VInt minutes); ("warning_threshold", VInt warn_min)].

Section Expiry.
Context {F : Type} `{RunPodApi F, Channel F, WarningChannel F} (environ : string -> option string).
Abbreviation op := (eff (world F) teardown_error).

Definition warn (redis : bool) (lease_id : string) (row : lease_row) (minutes : float) : op unit :=
  match find (warning_due minutes) (warning_minutes environ) with
  | None => ret tt
  | Some warn_min =>
      do! m := lift (rlift TeardownExn (ffloor minutes)) in
      if redis then
        fun w => (MkWorld (w_leases w) (w_registry w)
                    (publish_warning "pitwall.leases.events" (warning_event lease_id row m warn_min) (w_outside w)),
                  Ok tt)
      else ret tt
  end.

Definition expire_one (redis : bool) (now : Z) (kv : string * lease_row) : op unit :=
  let '(lease_id, row) := kv in
  do! minutes := lift (rlift TeardownExn (minutes_until now (ls_expires_at row))) in
  warn redis lease_id row minutes ;!
  if fleb minutes fzero then
    do! _ := run_teardown environ lease_id redis (Some "lease_expired") (Some now) (InState EXPIRED) None in
    ret tt
  else ret tt.

(** The loop over the rows of the query. *)
Definition expire_rows (redis : bool) (now : Z) (rows : list (string * lease_row)) : op unit :=
  do! _ := traverse (expire_one redis now) rows in ret tt.

(** [_lease_expiry_reconcile] *)
Definition lease_expiry_reconcile (redis : bool) (db_now : Z) : op unit :=
  do! now := outside TeardownExn (fun o => let '(o, t) := utc_now o in (o, Ok (dt_us t))) in
  do! w := get in
  expire_rows redis now (expiry_rows (w_leases w) db_now).
End Expiry.

(** ** Provider health *)

Inductive probe_error := ProbeRaised (text : string) | ProbeExn (e : exn) | CheckFailed.

Record probe_world (F : Type) : Type := MkProbeWorld {
  pw_registry : Registry.registry;
  pw_outside : F;
}.
Arguments MkProbeWorld {F}.
Arguments pw_registry {F}.
Arguments pw_outside {F}.

(** [_HEALTH_PROBE_PROVIDERS_SQL] *)
Definition probed (p : Provider) : bool :=
  p_enabled p && bool_decide (is_Some (p_runpod_endpoint_id p)) &&
  bool_decide (p_provider_type p = SERVERLESS_LB).

(** The row as [dict(r)] *)
Definition health_row (p : Provider) : ProviderLike :=
  PMap [("id", VStr (p_id p)); ("name", VStr (p_name p));
        ("provider_type", VStr (enum_value (p_provider_type p)));
        ("runpod_endpoint_id", opt_str (p_runpod_endpoint_id p));
        ("health_status", VStr (p_health_status p));
        ("consecutive_failures", VInt (p_consecutive_failures p));
        ("cooldown_trips", VInt (p_cooldown_trips p));
        ("cooldown_until", opt_time (p_cooldown_until p))].

Definition with_health (s : ProviderCooldownState) (db_now : datetime) (p : Provider) : Provider :=
  MkProvider (p_id p) (p_capability_id p) (p_name p) (p_provider_type p) (p_runpod_endpoint_id p)
    (p_runpod_template_id p) (p_region p) (p_cloud_type p) (p_config p) (p_priority p) (p_enabled p)
    (health_status s) (consecutive_failures s) (cooldown_trips s) (p_cold_start_p50_ms p)
    (p_cold_start_p95_ms p) (p_recent_error_rate p) (cooldown_until s) (p_source p)
    (p_last_applied_yaml_hash p) db_now.

Section Health.
Context {F : Type} `{RunPodApi F, Prober F} (environ : string -> option string).
Abbreviation op := (eff (probe_world F) probe_error).

Definition probing {A} (f : F -> F * result probe_error A) : op A :=
  fun w => let '(o, r) := f (pw_outside w) in (MkProbeWorld (pw_registry w) o, r).
Definition clock_now : op datetime := probing (fun o => let '(o, t) := utc_now o in (o, Ok t)).

(** [update_provider_health], with the checks of the table *)
Definition update_provider_health (db_now : datetime) (provider_id : string) (s : ProviderCooldownState)
  : op unit :=
  fun w =>
    let db := pw_registry w in
    match Registry.providers db !! provider_id with
    | None => (w, Ok tt)
    | Some p =>
        let p' := with_health s db_now p in
        if Registry.provider_ints p' && Registry.provider_checks p'
        then (MkProbeWorld (Registry.MkRegistry (Registry.capabilities db)
                              (<[provider_id := p']> (Registry.providers db)) (Registry.config_audit db))
                (pw_outside w), Ok tt)
        else (w, Err CheckFailed)
    end.

Definition probe_one (db_now : datetime) (p : Provider) : op unit :=
  do! now := clock_now in
  do! cooling := lift (rlift ProbeExn (is_in_cooldown now (InProvider (health_row p)) None)) in
  if cooling then ret tt
  else
    do! healthy := probing (fun o => let '(o, r) := probe (default EmptyString (p_runpod_endpoint_id p)) o in
                                     (o, rlift ProbeRaised r)) in
    do! now := clock_now in
    do! next := lift (rlift ProbeExn (apply_probe_result now DEFAULT_COOLDOWN_POLICY (InProvider (health_row p))
                                        healthy None)) in
    update_provider_health db_now (p_id p) next.

(** [_health_probe] *)
Definition health_probe (db_now : datetime) : op unit :=
  match env_text environ "RUNPOD_API_KEY" with
  | None => ret tt
  | Some _ =>
      do! w := get in
      do! _ := traverse (probe_one db_now)
                 (filter (fun p => probed p = true) (map_to_list (Registry.providers (pw_registry w))).*2) in
      ret tt
  end.
End Health.

(** ** Statements *)

(** The code reads the lease as expired. *)
Definition reads_expired (now : Z) (row : lease_row) : bool :=
  match minutes_until now (ls_expires_at row) with Ok m => fleb m fzero | Err _ => false end.

(** Only rows of the leases in [E] moved, along the lifecycle. *)
Definition moved (E : string -> Prop) (db db' : lease_db) : Prop :=
  forall j, leases db' !! j = leases db !! j \/
    E j /\ exists row row', leases db !! j = Some row /\ leases db' !! j = Some row' /\
             rtc lease_step (ls_state row) (ls_state row').

Definition cooldown_of (p : Provider) : ProviderCooldownState :=
  MkCooldown (p_consecutive_failures p) (p_cooldown_trips p) (p_cooldown_until p) (p_health_status p).

(** Every provider's health is a state of the cooldown machine. *)
Definition health_ok (db : Registry.registry) : Prop :=
  forall i p, Registry.providers db !! i = Some p -> cooldown_inv DEFAULT_COOLDOWN_POLICY (cooldown_of p).

(** Lemmas *)

Lemma moved_refl E db : moved E db db.
Proof. by left. Qed.

Lemma moved_trans E db1 db2 db3 : moved E db1 db2 -> moved E db2 db3 -> moved E db1 db3.
Proof.
  intros M1 M2 j. destruct (M2 j) as [E2|(He & r2 & r3 & H2 & H3 & S2)], (M1 j) as [E1|(He1 & r1 & r2' & H1 & H1' & S1)].
  - left. congruence.
  - right. split; [done|]. exists r1, r2'. split_and!; [done|congruence|done].
  - right. split; [done|]. exists r2, r3. split_and!; [congruence|done..].
  - assert (r2' = r2) as -> by congruence. right. split; [done|]. exists r1, r3.
    split_and!; [done..|by etrans].
Qed.

(** A closed lease stays closed. *)
Lemma moved_terminal E db db' j row :
  moved E db db' -> leases db !! j = Some row -> ls_state row ∈ TERMINAL_LEASE_STATES ->
  exists row', leases db' !! j = Some row' /\ ls_state row' ∈ TERMINAL_LEASE_STATES.
Proof.
  intros M Hrow Ht. destruct (M j) as [E1|(_ & r1 & r2 & H1 & H2 & Hs)]; [exists row; by rewrite E1|].
  assert (r1 = row) as -> by congruence. exists r2. split; [done|].
  by rewrite (terminal_final _ _ Ht Hs).
Qed.

Section ExpiryFacts.
Context {F : Type} `{QuietChannel F, WarningChannel F} (environ : string -> option string).

Lemma warn_leases redis i row m (w : world F) : w_leases (warn environ redis i row m w).1 = w_leases w.
Proof.
  unfold warn. destruct (find _ _); [|done]. unfold bind, lift.
  destruct (rlift _ _); [|done]. by destruct redis.
Qed.

Lemma expire_one_moved redis now kv (w : world F) :
  moved (fun j => j = kv.1 /\ reads_expired now kv.2 = true)
    (w_leases w) (w_leases (expire_one environ redis now kv w).1) /\
  ((expire_one environ redis now kv w).2 = Ok tt -> reads_expired now kv.2 = true ->
   exists row', leases (w_leases (expire_one environ redis now kv w).1) !! kv.1 = Some row' /\
                ls_state row' ∈ TERMINAL_LEASE_STATES).
Proof.
  destruct kv as [i row]. destruct (expire_one environ redis now (i, row) w) as [w2 r] eqn:E.
  unfold reads_expired. cbn [fst snd]. unfold expire_one in E. unfold bind at 1, lift in E.
  destruct (minutes_until now (ls_expires_at row)) as [m|e]; simpl in E;
    [|injection E as <- <-; split; [apply moved_refl|done]].
  unfold bind at 1 in E. pose proof (warn_leases redis i row m w) as Hw.
  destruct (warn environ redis i row m w) as [w1 [u|e]]; simpl in Hw;
    [|injection E as <- <-; rewrite <- Hw; split; [apply moved_refl|done]].
  rewrite <- Hw. destruct (fleb m fzero); [|injection E as <- <-; split; [apply moved_refl|done]].
  destruct (run_teardown_guarded environ i redis (Some "lease_expired") (Some now) (InState EXPIRED) None w1)
    as [pod [_ G]].
  unfold bind in E. destruct (run_teardown _ _ _ _ _ _ _ w1) as [w3 [res|e]] eqn:Er;
    injection E as <- <-; simpl in G.
  all: split; [|try done; intros _ _; by eapply run_teardown_Ok_closed].
  all: intros j; destruct (G j) as [Ej|(r1 & r2 & -> & E1 & E2 & _ & Hs & _)]; [by left|right];
    split; [done|]; by exists r1, r2.
Qed.

Lemma expire_rows_moved redis now rows (w : world F) :
  moved (fun j => exists row, (j, row) ∈ rows /\ reads_expired now row = true)
    (w_leases w) (w_leases (traverse (expire_one environ redis now) rows w).1) /\
  (is_ok (traverse (expire_one environ redis now) rows w).2 = true ->
   forall j row, (j, row) ∈ rows -> reads_expired now row = true ->
   exists row', leases (w_leases (traverse (expire_one environ redis now) rows w).1) !! j = Some row' /\
                ls_state row' ∈ TERMINAL_LEASE_STATES).
Proof.
  revert w. induction rows as [|kv rows IH]; intros w.
  { split; [apply moved_refl|]. intros _ j row Hin. by apply elem_of_nil in Hin. }
  assert (forall (P Q : string -> Prop) db db', (forall j, P j -> Q j) -> moved P db db' -> moved Q db db') as Hmono.
  { intros P Q db db' HPQ M j. destruct (M j) as [?|[? ?]]; [by left|right; auto]. }
  destruct (traverse (expire_one environ redis now) (kv :: rows) w) as [w2 r] eqn:E.
  cbn [traverse] in E. unfold bind at 1 in E.
  destruct (expire_one_moved redis now kv w) as [M1 T1].
  assert (moved (fun j => exists row, (j, row) ∈ kv :: rows /\ reads_expired now row = true)
            (w_leases w) (w_leases (expire_one environ redis now kv w).1)) as M1'.
  { eapply Hmono; [|exact M1]. intros j [-> Hx]. exists kv.2. split; [destruct kv; constructor|done]. }
  destruct (expire_one environ redis now kv w) as [w1 [u|e]]; simpl in *;
    [|injection E as <- <-; by split].
  destruct (IH w1) as [M2 T2]. unfold bind in E.
  destruct (traverse (expire_one environ redis now) rows w1) as [w3 r3]. simpl in M2, T2.
  assert (w3 = w2) as -> by (destruct r3; by injection E as <- _).
  assert (moved (fun j => exists row, (j, row) ∈ kv :: rows /\ reads_expired now row = true)
            (w_leases w1) (w_leases w2)) as M2'.
  { eapply Hmono; [|exact M2]. intros j (row & Hin & Hx). exists row. split; [by constructor|done]. }
  split; [by eapply moved_trans|]. destruct r3 as [us|e]; injection E as <-; [|done].
  intros _ j row Hin Hx. apply elem_of_cons in Hin as [<-|Hin]; [|by eapply T2].
  destruct u. destruct (T1 eq_refl Hx) as (row' & Hr & Ht). by eapply moved_terminal.
Qed.
End ExpiryFacts.

Section HealthFacts.
Context {F : Type} `{RunPodApi F, Prober F} (environ : string -> option string).
Context (Haware : forall o : F, dt_aware (utc_now o).2 = true).

Lemma state_from_row p :
  cooldown_inv DEFAULT_COOLDOWN_POLICY (cooldown_of p) -> state_from_provider (health_row p) = Ok (cooldown_of p).
Proof.
  intros (Hf & Ht & Hn & Hu). unfold cooldown_of in *. simpl in *.
  assert (0 <= p_cooldown_trips p) as Htp by (rewrite Ht; apply Z.div_pos; [done|by vm_compute]).
  unfold state_from_provider, datetime_field, int_field, str_field, new_state. simpl.
  destruct (p_cooldown_until p) as [u|]; simpl.
  - destruct Hu as (Hu & _ & _). rewrite !require_utc_ok by done. simpl.
    rewrite !(proj2 (Z.ltb_ge _ _)) by done. rewrite require_utc_ok by done. simpl. by rewrite Hn.
  - rewrite !(proj2 (Z.ltb_ge _ _)) by done. simpl. by rewrite Hn.
Qed.

Lemma probe_result_inv clock p passed s :
  dt_aware clock = true -> cooldown_inv DEFAULT_COOLDOWN_POLICY (cooldown_of p) ->
  apply_probe_result clock DEFAULT_COOLDOWN_POLICY (InProvider (health_row p)) passed None = Ok s ->
  cooldown_inv DEFAULT_COOLDOWN_POLICY s.
Proof.
  intros Hc Hinv E. eapply (probe_preserves_invariant clock clock _ (cooldown_of p) s passed);
    [by vm_compute|done|]. rewrite <- E. unfold apply_probe_result, record_provider_success, record_provider_failure.
  unfold coerce_state. rewrite (state_from_row p Hinv). unfold normalize_now. by rewrite require_utc_ok by done.
Qed.

Lemma probe_one_health db_now p (w : probe_world F) :
  cooldown_inv DEFAULT_COOLDOWN_POLICY (cooldown_of p) -> health_ok (pw_registry w) ->
  health_ok (pw_registry (probe_one db_now p w).1).
Proof.
  intros Hp Hw. unfold probe_one, bind at 1, clock_now at 1, probing at 1.
  destruct (utc_now (pw_outside w)) as [o1 t1]. unfold bind at 1, lift at 1.
  destruct (rlift _ (is_in_cooldown _ _ _)) as [[|]|]; [done| |done].
  unfold bind at 1, probing at 1. simpl. destruct (probe _ o1) as [o2 [h|e]]; simpl; [|done].
  unfold bind at 1, clock_now, probing. simpl. pose proof (Haware o2) as Ha.
  destruct (utc_now o2) as [o3 t3]. simpl in Ha. unfold bind, lift.
  destruct (apply_probe_result t3 _ _ h None) as [s|e] eqn:E; simpl; [|done].
  apply (probe_result_inv t3 p h s Ha Hp) in E. unfold update_provider_health. simpl.
  destruct (Registry.providers (pw_registry w) !! p_id p) as [q|]; [|done].
  destruct (_ && _); [|done]. simpl. intros i p' Hi. simpl in Hi.
  destruct (decide (i = p_id p)) as [->|Hne].
  - rewrite lookup_insert_eq in Hi. injection Hi as <-. by destruct s.
  - rewrite lookup_insert_ne in Hi by done. by apply (Hw i).
Qed.
End HealthFacts.

(** Theorems *)

(** C29: The expiry sweep closes the leases it read as expired and no other.
    Whether or not it fails on the way, a lease that none of its rows shows
    as expired keeps its row; and when it returns, every lease it read as
    expired is closed. *)
Theorem expiry_sweep_exact {F} `{QuietChannel F, WarningChannel F} (environ : string -> option string)
    (redis : bool) (now : Z) (rows : list (string * lease_row)) (w w' : world F)
    (r : result teardown_error unit)
    (Hrun : expire_rows environ redis now rows w = (w', r)) :
  (forall j, (forall row, (j, row) ∈ rows -> reads_expired now row = false) ->
     leases (w_leases w') !! j = leases (w_leases w) !! j) /\
  (r = Ok tt -> forall j row, (j, row) ∈ rows -> reads_expired now row = true ->
     exists row', leases (w_leases w') !! j = Some row' /\ ls_state row' ∈ TERMINAL_LEASE_STATES).
Proof.
  destruct (expire_rows_moved environ redis now rows w) as [M T]. unfold expire_rows, bind in Hrun.
  destruct (traverse (expire_one environ redis now) rows w) as [w1 [us|e]]; injection Hrun as <- <-; simpl in *;
    (split; [|try done]).
  - intros j Hj. destruct (M j) as [?|((row & Hin & Hx) & _)]; [done|]. by rewrite (Hj _ Hin) in Hx.
  - intros _. by apply T.
  - intros j Hj. destruct (M j) as [?|((row & Hin & Hx) & _)]; [done|]. by rewrite (Hj _ Hin) in Hx.
Qed.

(** The health probe keeps every provider's health a state of the
    cooldown machine.  Whatever the endpoints answer and wherever the sweep
    stops, each stored row has counters that are not negative, as many trips
    as whole thresholds of failures, and a deadline only after a trip. *)
Theorem health_probe_keeps_invariant {F} `{RunPodApi F, Prober F} (environ : string -> option string)
    (db_now : datetime) (w : probe_world F)
    (Haware : forall o : F, dt_aware (utc_now o).2 = true) (Hw : health_ok (pw_registry w)) :
  health_ok (pw_registry (health_probe environ db_now w).1).
Proof.
  unfold health_probe. destruct (env_text environ "RUNPOD_API_KEY"); [|done].
  unfold bind at 1, get. unfold bind.
  match goal with |- context [traverse (probe_one db_now) ?l w] => set (rows := l) end.
  assert (Forall (fun p => cooldown_inv DEFAULT_COOLDOWN_POLICY (cooldown_of p)) rows) as Hrows.
  { apply Forall_forall. intros p Hp. subst rows. apply list_elem_of_filter in Hp as [_ Hp].
    apply list_elem_of_fmap in Hp as ([i q] & -> & Hi%elem_of_map_to_list). by apply (Hw i). }
  pose proof (traverse_inv (fun w => health_ok (pw_registry w)) (probe_one db_now) rows) as Ht.
  specialize (Ht (fun p s Hp Hs => probe_one_health Haware db_now p s (proj1 (Forall_forall _ _) Hrows p Hp) Hs) w Hw).
  by destruct (traverse (probe_one db_now) rows w) as [w1 [us|e]].
Qed.

(** Two expired leases and one that is not. *)
Module SweepSim.
#[export] Instance warnings : WarningChannel Sim.world := {| publish_warning c e o := o |}.
#[export] Instance prober : Prober Sim.world := {| probe e o := (o, Ok (String.eqb e "up")) |}.
Definition lease (pod : string) (expires : Z) : lease_row :=
  MkLease "p1" pod ACTIVE 0 expires "manual" true (Some (MkEndpoints [] []))
    (Some (MkReadiness (Some 1) (Some 2) (Some 3) (Some "runpod_proxy"))) None None None None.
Definition table (l2 : Z) : lease_db :=
  MkLeaseDb (<["l1" := lease "pod-1" 3600000000]> {["l2" := lease "pod-2" l2]}) ∅ [].
Definition at_time (l2 : Z) : world Sim.world :=
  MkWorld (table l2) (Registry.MkRegistry ∅ {["p1" := TeardownSim.provider]} [])
    (Sim.MkWorld ["pod-1"; "pod-2"] [] [] 0).
Definition rows (l2 : Z) : list (string * lease_row) := expiry_rows (table l2) 3660000000.
Definition swept (l2 : Z) (snapshot : list (string * lease_row)) :=
  @expire_rows Sim.world TeardownSim.api TeardownSim.channel warnings TeardownSim.key true 3660000000
    snapshot (at_time l2).

(** The rows are read before the first teardown: a lease renewed while the
    sweep runs is torn down by its old expiry. *)
Example renewed_lease_is_torn_down :
  (ls_state <$> leases (w_leases (swept 7200000000 (rows 3600000000)).1) !! "l2") = Some EXPIRED.
Proof. vm_compute. reflexivity. Qed.

(** A teardown that fails ends the sweep: here the first lease's provider
    has a rate that is no number, and the second stays active. *)
Definition bad_rate : Provider :=
  MkProvider "p1" "c1" "prov" POD_LEASE None None None (Some "SECURE") [("per_second_active", VStr "x")]
    1 true "healthy" 0 0 None None fzero None "api" None (utc 0).
Definition broken : world Sim.world :=
  MkWorld (MkLeaseDb (<["l1" := lease "pod-1" 3600000000]>
             {["l2" := MkLease "p2" "pod-2" ACTIVE 0 3600000000 "manual" true (Some (MkEndpoints [] []))
                         (Some (MkReadiness (Some 1) (Some 2) (Some 3) None)) None None None None]}) ∅ [])
    (Registry.MkRegistry ∅ {["p1" := bad_rate]} []) (Sim.MkWorld ["pod-1"; "pod-2"] [] [] 0).
Example one_failure_stops_the_sweep :
  let run := @expire_rows Sim.world TeardownSim.api TeardownSim.channel warnings TeardownSim.key true 3660000000
               (map_to_list (leases (w_leases broken))) broken in
  is_ok run.2 = false /\
  (ls_state <$> leases (w_leases run.1) !! "l2") = Some ACTIVE.
Proof. vm_compute. done. Qed.
End SweepSim.
#[local] Existing Instances TeardownSim.api TeardownSim.lawful TeardownSim.channel TeardownSim.quiet
  SweepSim.warnings SweepSim.prober.

Lemma expiry_sweep_exact_witness :
  match leases (w_leases (SweepSim.swept 7200000000 (SweepSim.rows 7200000000)).1) !! "l2" with
  | Some row => ls_state row = ACTIVE
  | None => False
  end /\
  exists row', leases (w_leases (SweepSim.swept 7200000000 (SweepSim.rows 7200000000)).1) !! "l1" = Some row' /\
    ls_state row' ∈ TERMINAL_LEASE_STATES.
Proof.
  destruct (SweepSim.swept 7200000000 (SweepSim.rows 7200000000)) as [w' r] eqn:E.
  destruct (expiry_sweep_exact TeardownSim.key true 3660000000 (SweepSim.rows 7200000000)
              (SweepSim.at_time 7200000000) w' r E) as [H1 H2].
  assert (SweepSim.rows 7200000000 =
          [("l1", SweepSim.lease "pod-1" 3600000000); ("l2", SweepSim.lease "pod-2" 7200000000)] \/
          SweepSim.rows 7200000000 =
          [("l2", SweepSim.lease "pod-2" 7200000000); ("l1", SweepSim.lease "pod-1" 3600000000)]) as Hr.
  { first [left; vm_compute; reflexivity|right; vm_compute; reflexivity]. }
  split.
  - cbn [fst]. rewrite (H1 "l2"); [vm_compute; reflexivity|]. intros row Hin.
    assert (row = SweepSim.lease "pod-2" 7200000000) as ->; [|vm_compute; reflexivity].
    destruct Hr as [Hr|Hr]; rewrite Hr in Hin; rewrite !elem_of_cons, elem_of_nil in Hin;
      destruct Hin as [Hin|[Hin|[]]]; try discriminate Hin; exact (f_equal snd Hin).
  - apply (H2 (f_equal snd (eq_trans (eq_sym E) ltac:(vm_compute; reflexivity))) "l1"
             (SweepSim.lease "pod-1" 3600000000)); [|vm_compute; reflexivity].
    destruct Hr as [Hr|Hr]; rewrite Hr; [constructor|do 2 constructor].
Defined.

Lemma health_probe_keeps_invariant_witness :
  let p := MkProvider "p1" "c1" "prov" SERVERLESS_LB (Some "down") None None None [] 1 true "healthy" 2 0 None
             None fzero None "api" None (utc 0) in
  let w := MkProbeWorld (Registry.MkRegistry ∅ {["p1" := p]} []) (Sim.MkWorld [] [] [] 0) in
  health_ok (pw_registry (health_probe TeardownSim.key (utc 5) w).1) /\
  (p_cooldown_trips <$> Registry.providers (pw_registry (health_probe TeardownSim.key (utc 5) w).1) !! "p1")
    = Some 1.
Proof.
  intros p w. split; [|vm_compute; reflexivity].
  apply (health_probe_keeps_invariant TeardownSim.key (utc 5) w); [reflexivity|].
  intros i q Hq. change (({["p1" := p]} : gmap string Provider) !! i = Some q) in Hq.
  apply lookup_singleton_Some in Hq as [_ <-]. by vm_compute.
Defined.
