(* ===== verification/LaunchPlan.v ===== *)
(** * What a launch asks for ([api/leases/launch.py], [runpod_client/gpu.py])

    A provider's [config] is free JSON.  This file is the pure part of a
    launch: the readers that turn the configuration of a pod-lease provider
    into the template, the placement, the workload and the limits of a pod,
    and the environment the pod starts with.

    Providers and capabilities are the models of [core/models.py]; a text of
    an exception is kept only where it tells the cases apart. *)

From Stdlib Require Import Ascii SpecFloat.
From S2P Require Import Registry.
From S2P Require Import Prelude PyDecimal PyFloat PyValue PyEq PyTime PyFormat Effects Enums.
From S2P Require Import LeaseState Provider Pods PodCreate LeaseStore.

(** Definitions *)

Inductive plan_error :=
| InvalidProviderConfig (key : string)
| ProviderNotPodLease (provider_type : string)
| TemplateImageNotConfigured
| NonCanonicalGPUName (name : string) (suggestions : list string)
| PlanExn (e : exn).
Abbreviation plan := (result plan_error).

(** ** GPU names *)

Definition CANONICAL_GPU_NAMES : list string :=
  ["NVIDIA H100 80GB HBM3"; "NVIDIA H100 NVL"; "NVIDIA H200"; "NVIDIA H200 NVL"; "NVIDIA B200";
   "NVIDIA A100 80GB"; "NVIDIA A100 80GB PCIe"; "NVIDIA A100 40GB"; "NVIDIA A6000";
   "NVIDIA RTX A6000"; "NVIDIA A40"; "NVIDIA L40"; "NVIDIA L40S"; "NVIDIA L4";
   "NVIDIA RTX 6000 Ada"; "NVIDIA RTX 4090"; "NVIDIA GeForce RTX 4090"; "NVIDIA RTX A5000";
   "NVIDIA RTX A4500"; "NVIDIA RTX A4000"; "NVIDIA RTX 5000 Ada Generation";
   "NVIDIA RTX 4000 Ada Generation"].

Definition is_alnum (c : ascii) : bool :=
  let n := nat_of_ascii c in
  ((48 <=? n) && (n <=? 57) || (65 <=? n) && (n <=? 90) || (97 <=? n) && (n <=? 122))%nat.
Definition lookup_key (value : string) : string := filter_string is_alnum (upper value).

Definition CANONICAL_GPU_NAME_BY_KEY : list (string * string) :=
  (fun n => (lookup_key n, n)) <$> CANONICAL_GPU_NAMES.
Definition SHORTHAND_GPU_SUGGESTIONS : list (string * list string) :=
  [("H100", ["NVIDIA H100 80GB HBM3"; "NVIDIA H100 NVL"]); ("H200", ["NVIDIA H200"; "NVIDIA H200 NVL"]);
   ("B200", ["NVIDIA B200"]); ("A100", ["NVIDIA A100 80GB"; "NVIDIA A100 80GB PCIe"; "NVIDIA A100 40GB"]);
   ("A6000", ["NVIDIA A6000"; "NVIDIA RTX A6000"]); ("A40", ["NVIDIA A40"]);
   ("L40", ["NVIDIA L40"; "NVIDIA L40S"]); ("L40S", ["NVIDIA L40S"]); ("L4", ["NVIDIA L4"]);
   ("RTX6000ADA", ["NVIDIA RTX 6000 Ada"]);
   ("RTX4090", ["NVIDIA GeForce RTX 4090"; "NVIDIA RTX 4090"]);
   ("4090", ["NVIDIA GeForce RTX 4090"; "NVIDIA RTX 4090"]); ("RTXA5000", ["NVIDIA RTX A5000"]);
   ("RTXA4500", ["NVIDIA RTX A4500"]); ("RTXA4000", ["NVIDIA RTX A4000"]);
   ("RTX5000ADA", ["NVIDIA RTX 5000 Ada Generation"]); ("RTX4000ADA", ["NVIDIA RTX 4000 Ada Generation"])].

Definition is_canonical_gpu_name (n : string) : bool := bool_decide (n ∈ CANONICAL_GPU_NAMES).
Definition canonical_gpu_name_suggestions (n : string) : list string :=
  match al_get (lookup_key n) CANONICAL_GPU_NAME_BY_KEY with
  | Some s => [s]
  | None => default [] (al_get (lookup_key n) SHORTHAND_GPU_SUGGESTIONS)
  end.
Definition validate_canonical_gpu_name (n : string) : plan string :=
  if is_canonical_gpu_name n then Ok n
  else Err (NonCanonicalGPUName n (canonical_gpu_name_suggestions n)).
Definition validate_canonical_gpu_names (ns : list string) : plan (list string) :=
  mapR validate_canonical_gpu_name ns.

(** ** Configuration readers *)

Definition optional_str (v : pyval) : option string :=
  match as_str v with
  | Some s => set_text (Some (strip s))
  | None => None
  end.

(** [_required_attr] of a text field *)
Definition required_attr (attr : string) (s : string) : plan string :=
  match set_text (Some (strip s)) with
  | Some t => Ok t
  | None => Err (InvalidProviderConfig attr)
  end.

Fixpoint config_str (config : dict) (keys : list string) : option string :=
  match keys with
  | [] => None
  | k :: keys => match optional_str (dict_get_none k config) with
                 | Some s => Some s
                 | None => config_str config keys
                 end
  end.

Definition config_int (config : dict) (key : string) (dflt : Z) : plan Z :=
  let refuse := Err (InvalidProviderConfig key) in
  let positive z := if z <=? 0 then refuse else Ok z in
  match default (VInt dflt) (dict_get key config) with
  | VBool _ => refuse
  | VInt z => positive z
  | v => match as_str v with
         | Some s => if nonempty (strip s)
                     then match py_int v with Ok z => positive z | Err _ => refuse end
                     else refuse
         | None => refuse
         end
  end.

Definition config_float (config : dict) (key : string) : plan (option float) :=
  let refuse := Err (InvalidProviderConfig key) in
  match dict_get_none key config with
  | VNone => Ok None
  | VBool _ => refuse
  | v => match py_float v with
         | Err (TypeError _) | Err (ValueError _) => refuse
         | Err e => Err (PlanExn e)
         | Ok f => if negb (fisfinite f) || fltb f fzero then refuse else Ok (Some f)
         end
  end.

(** A comma-separated string, or a list of which only the texts count. *)
Fixpoint config_str_list (config : dict) (keys : list string) : plan (option (list string)) :=
  match keys with
  | [] => Ok None
  | k :: keys =>
      let found items := if bool_decide (items = []) then Err (InvalidProviderConfig k) else Ok (Some items) in
      match dict_get_none k config with
      | VNone => config_str_list config keys
      | v => match as_str v, as_seq v with
             | Some s, _ => found (stripped_items ","%char s)
             | None, Some l => found (omap optional_str l)
             | None, None => Err (InvalidProviderConfig k)
             end
      end
  end.

(** [_ensure_pod_lease_provider] *)
Definition ensure_pod_lease_provider (p : Provider) : plan unit :=
  match p_provider_type p with
  | POD_LEASE => Ok tt
  | t => Err (ProviderNotPodLease (enum_value t))
  end.

Section Plan.
Context (environ : string -> option string).

Definition template_name_for_provider (c : Registry.Capability) (p : Provider) : plan string :=
  match config_str (p_config p) ["template_name"] with
  | Some s => Ok s
  | None =>
      let? capability := required_attr "name" (Registry.c_name c) in
      let? provider := required_attr "name" (p_name p) in
      Ok ("pitwall-" +:+ capability +:+ "-" +:+ provider)
  end.

(** [_image_ref_for_provider] with [get_image_ref_from_env] *)
Definition image_ref_for_provider (p : Provider) : plan string :=
  match config_str (p_config p) ["image_ref"; "worker_image"; "image"] with
  | Some s => Ok s
  | None => match set_text (environ "PITWALL_CLOUD_WORKER_IMAGE") with
            | Some s => Ok s
            | None => Err TemplateImageNotConfigured
            end
  end.

Definition volume_mount_path (p : Provider) : string :=
  default "/workspace" (config_str (p_config p) ["volume_mount_path"; "volume_mount"]).
Definition container_disk_gb (p : Provider) : plan Z := config_int (p_config p) "container_disk_gb" 50.

Definition env_str (key : string) : option string := optional_str (opt_str (environ key)).

Definition network_volume_id (p : Provider) : option string :=
  match config_str (p_config p) ["network_volume_id"; "volume_id"] with
  | Some s => Some s
  | None => env_str "RUNPOD_NETWORK_VOLUME_ID"
  end.

Definition data_center_id (p : Provider) : option string :=
  match network_volume_id p with
  | None => None
  | Some _ =>
      match optional_str (opt_str (p_region p)) with
      | Some s => Some s
      | None => match config_str (p_config p) ["data_center_id"; "datacenter_id"] with
                | Some s => Some s
                | None => env_str "RUNPOD_DATA_CENTER_ID"
                end
      end
  end.

Definition cloud_type (p : Provider) : string :=
  match optional_str (opt_str (p_cloud_type p)) with
  | Some s => upper s
  | None => match config_str (p_config p) ["cloud_type"] with
            | Some s => upper s
            | None => "SECURE"
            end
  end.

(** [_gpu_type_priority_mode] and [_data_center_priority_mode]: whether the
    mode is "availability". *)
Definition priority_mode (key : string) (raw : pyval) : plan bool :=
  match as_str raw with
  | None => Err (InvalidProviderConfig key)
  | Some s =>
      let normalized := lower (strip s) in
      if String.eqb normalized "availability" then Ok true
      else if String.eqb normalized "custom" then Ok false
      else Err (InvalidProviderConfig key)
  end.
Definition gpu_type_priority_mode (config : dict) : plan bool :=
  priority_mode "gpu_type_priority_mode"
    (default (default (VStr "custom") (dict_get "gpu_selection_priority" config))
       (dict_get "gpu_type_priority_mode" config)).
Definition data_center_priority_mode (config : dict) : plan bool :=
  priority_mode "data_center_priority" (default (VStr "custom") (dict_get "data_center_priority" config)).

(** [isinstance(v, int)], which a [bool] is *)
Definition is_int (v : pyval) : bool := match v with VInt _ | VBool _ => true | _ => false end.

(** The rendered ports of one protocol. *)
Definition render_ports (protocol : string) (v : pyval) : plan (list string) :=
  let one v := py_str v +:+ "/" +:+ protocol in
  match v with
  | VNone => Ok []
  | _ => if is_int v then Ok [one v]
         else match as_seq v with
              | Some l => if forallb is_int l then Ok (one <$> l) else Err (InvalidProviderConfig "ports")
              | None => Err (InvalidProviderConfig "ports")
              end
  end.
Definition ports_for_workload (p : Provider) : plan (option string) :=
  let ports := dict_get_none "ports" (p_config p) in
  match ports with
  | VNone => Ok None
  | VDict m =>
      let? http := render_ports "http" (dict_get_none "http" m) in
      let? tcp := render_ports "tcp" (dict_get_none "tcp" m) in
      Ok (set_text (Some (String.concat "," (http ++ tcp))))
  | v => match as_str v with
         | Some s => Ok (set_text (Some (strip s)))
         | None => Err (InvalidProviderConfig "ports")
         end
  end.

Definition mode_text (availability : bool) : string := if availability then "availability" else "custom".

(** The field validator of [WorkloadConfig] runs when it is built, last. *)
Definition workload_config_for_provider (c : Registry.Capability) (p : Provider) : plan WorkloadConfig :=
  let config := p_config p in
  let? gpu_types := config_str_list config ["gpu_types"; "gpu_type_priority"] in
  match gpu_types with
  | None => Err (InvalidProviderConfig "gpu_types")
  | Some gpu_types =>
      let? name := required_attr "name" (p_name p) in
      let? _ := required_attr "name" (Registry.c_name c) in
      let? _ := template_name_for_provider c p in
      let? gpu_count := config_int config "gpu_count" 1 in
      let? disk := config_int config "container_disk_gb" 50 in
      let? min_vcpu := config_int config "min_vcpu" 4 in
      let? min_memory := config_int config "min_memory_gb" 16 in
      let? availability := gpu_type_priority_mode config in
      let? data_center := data_center_priority_mode config in
      let? cuda := config_str_list config ["allowed_cuda_versions"; "cuda_versions"] in
      let? ports := ports_for_workload p in
      let? gpu_types := validate_canonical_gpu_names gpu_types in
      Ok (MkWorkload name gpu_types gpu_count disk min_vcpu min_memory (cloud_type p) availability
            (mode_text data_center) cuda ports)
  end.

(** The first of [keys] that the constraints have, then the configuration. *)
Fixpoint first_float (source : dict) (keys : list string) : plan (option float) :=
  match keys with
  | [] => Ok None
  | k :: keys => let? v := config_float source k in
                 match v with Some f => Ok (Some f) | None => first_float source keys end
  end.
Definition constrained_float (p : Provider) (keys : list string) : plan (option float) :=
  let config := p_config p in
  match dict_get_none "constraints" config with
  | VDict constraints =>
      let? v := first_float constraints keys in
      match v with Some f => Ok (Some f) | None => first_float config keys end
  | _ => first_float config keys
  end.
Definition max_cost_per_hr (p : Provider) : plan (option float) :=
  constrained_float p ["max_cost_per_hr"; "max_cost_per_hour"].
Definition provider_attach_timeout_s (p : Provider) : plan (option float) :=
  constrained_float p ["max_attach_hang_s"; "volume_attach_timeout_s"; "attach_timeout_s"].

(** [timedelta(seconds=f)] in microseconds: the whole seconds exactly, the
    rest rounded half to even. *)
Definition float_half_even (a : float) : Z :=
  match a with
  | S754_finite s m e => rdiv ROUND_HALF_EVEN (if s then - float_num m e else float_num m e) (float_den e)
  | _ => 0
  end.
Definition timedelta_of_seconds (f : float) : py timedelta :=
  let? whole := py_int (VFloat f) in
  Ok (td_seconds whole + float_half_even (fmul (of_Z 1000000) (fsub f (of_Z whole)))).

(** [_expiry_for_lease] *)
Definition expiry_for_lease (p : Provider) (created_at : datetime) : plan datetime :=
  let config := p_config p in
  let ttl_ms := py_or (py_or (dict_get_none "lease_ttl_ms" config) (dict_get_none "ttl_ms" config)) (VInt 7200000) in
  rlift PlanExn
    match ttl_ms with
    | VInt _ | VBool _ | VFloat _ =>
        let? ms := py_int ttl_ms in
        let? ttl_s := int_truediv ms 1000 in
        let? ttl := timedelta_of_seconds ttl_s in
        dt_add created_at ttl
    | _ => dt_add created_at (td_seconds 7200)
    end.

(** [_planned_endpoints_for_provider]: ports that are no integers are
    dropped, and the model refuses a TCP port out of range. *)
Definition port_list (v : pyval) : list pyval :=
  if is_int v then [v] else match as_seq v with Some l => filter (fun v => is_int v = true) l | None => [] end.
Definition port_number (v : pyval) : Z := match v with VInt z => z | VBool b => Z.b2z b | _ => 0 end.
Definition planned_endpoints_for_provider (p : Provider) : plan LeaseEndpoints :=
  let endpoints :=
    match dict_get_none "ports" (p_config p) with
    | VDict m =>
        MkEndpoints
          (foldl (fun d v => al_set (py_str v) ("https://{pod_id}-" +:+ py_str v +:+ ".proxy.runpod.net") d)
             [] (port_list (dict_get_none "http" m)))
          (foldl (fun d v => al_set (py_str v) ("{pod_id}.proxy.runpod.net", port_number v) d)
             [] (port_list (dict_get_none "tcp" m)))
    | _ => MkEndpoints [] []
    end in
  if valid_endpoints endpoints then Ok endpoints else Err (PlanExn (ValueError "validation error")).

(** ** The environment of the pod *)

Definition PITWALL_IDENTITY_ENV_KEYS : list string :=
  ["PITWALL_CAPABILITY"; "PITWALL_CAPABILITY_ID"; "PITWALL_CAPABILITY_NAME"; "PITWALL_PROVIDER";
   "PITWALL_PROVIDER_ID"; "PITWALL_PROVIDER_NAME"; "PITWALL_PROVIDER_TYPE"; "PITWALL_REQUEST_ID"].
Definition PITWALL_STORAGE_CREDENTIAL_ENV_KEYS : list string :=
  ["AWS_ACCESS_KEY_ID"; "AWS_SECRET_ACCESS_KEY"; "AWS_SESSION_TOKEN"; "R2_ACCESS_KEY"; "R2_SECRET_KEY";
   "R2_SESSION_TOKEN"; "R2_CREDENTIAL_EXPIRES_AT"; "R2_CREDENTIAL_TTL_SECONDS"].
Definition FORWARDED_PROCESS_ENV_KEYS : list string :=
  ["REDIS_URL"; "LANGFUSE_HOST"; "LANGFUSE_PUBLIC_KEY"; "LANGFUSE_SECRET_KEY"; "R2_ENDPOINT";
   "R2_BUCKET_STAGING"].

(** [_ENV_KEY_RE.fullmatch] *)
Fixpoint all_chars (f : ascii -> bool) (s : string) : bool :=
  match s with EmptyString => true | String c s' => f c && all_chars f s' end.
Definition env_key_ok (s : string) : bool :=
  match s with
  | EmptyString => false
  | String c s' =>
      (is_alnum c && negb (is_digit c) || Ascii.eqb c "_") &&
      all_chars (fun c => is_alnum c || Ascii.eqb c "_") s'
  end.

Abbreviation env_vars := (list (string * string)).

(** One binding of [_coerce_env_mapping]. *)
Definition coerce_env_binding (source : string) (env : env_vars) (kv : string * pyval) : plan env_vars :=
  let refuse := Err (InvalidProviderConfig source) in
  let '(key, value) := kv in
  if negb (env_key_ok key) then refuse
  else if bool_decide (key ∈ PITWALL_IDENTITY_ENV_KEYS) then refuse
  else if bool_decide (key ∈ PITWALL_STORAGE_CREDENTIAL_ENV_KEYS) then refuse
  else match value with
       | VNone => Ok env
       | v => Ok (al_set key (py_str v) env)
       end.
Definition coerce_env_mapping (source : string) (raw_env : pyval) : plan env_vars :=
  match raw_env with
  | VNone => Ok []
  | VDict m => foldR (coerce_env_binding source) [] m
  | _ => Err (InvalidProviderConfig source)
  end.

(** [env.update(other)] *)
Definition env_update (other : env_vars) (env : env_vars) : env_vars :=
  foldl (fun env kv => al_set kv.1 kv.2 env) env other.

Definition forwarded : env_vars :=
  omap (fun k => pair k <$> set_text (environ k)) FORWARDED_PROCESS_ENV_KEYS.

Definition identity_env (c : Registry.Capability) (p : Provider) : plan env_vars :=
  let? capability_id := required_attr "id" (Registry.c_id c) in
  let? capability_name := required_attr "name" (Registry.c_name c) in
  let? provider_name := required_attr "name" (p_name p) in
  let? provider_id := required_attr "id" (p_id p) in
  Ok [("PITWALL_CAPABILITY", enum_value (Registry.c_class c));
      ("PITWALL_CAPABILITY_ID", capability_id); ("PITWALL_CAPABILITY_NAME", capability_name);
      ("PITWALL_PROVIDER", provider_name); ("PITWALL_PROVIDER_ID", provider_id);
      ("PITWALL_PROVIDER_NAME", provider_name);
      ("PITWALL_PROVIDER_TYPE", enum_value (p_provider_type p))].

Definition request_env (request_id : option string) : env_vars :=
  match request_id with
  | Some r => match set_text (Some (strip r)) with Some t => [("PITWALL_REQUEST_ID", t)] | None => [] end
  | None => []
  end.

(** [_env_for_pod], with what the staging store vends. *)
Definition env_for_pod (c : Registry.Capability) (p : Provider) (request_id : option string)
    (extra_env : pyval) (vended : env_vars) : plan env_vars :=
  let? configured := coerce_env_mapping "provider.config['env_vars']" (dict_get_none "env_vars" (p_config p)) in
  let? identity := identity_env c p in
  let? extra := coerce_env_mapping "extra_env" extra_env in
  Ok (env_update extra
        (env_update (request_env request_id)
           (env_update identity (env_update vended (env_update forwarded configured))))).
End Plan.

(** Lemmas *)

Lemma nonblank_text s t : set_text (Some s) = Some t -> t = s /\ s <> EmptyString.
Proof. by destruct s; simpl; intros [= <-]. Qed.

(** The last binding of a key in a dictionary of texts. *)
Lemma env_update_miss other env k : k ∉ other.*1 -> al_get k (env_update other env) = al_get k env.
Proof.
  unfold env_update. revert env. induction other as [|[k' v'] other IH]; intros env; [done|].
  csimpl. rewrite not_elem_of_cons. intros [Hne Hn]. rewrite IH; [|done]. by apply al_get_set_ne.
Qed.

Lemma env_update_hit other env k v :
  al_wf other -> al_get k other = Some v -> al_get k (env_update other env) = Some v.
Proof.
  unfold env_update, al_wf. revert env. induction other as [|[k' v'] other IH]; intros env; [done|].
  csimpl. rewrite NoDup_cons. intros [Hn Hd]. case_decide as E; [|by apply IH].
  intros [= ->]. subst. change (foldl _ ?e ?o) with (env_update o e).
  rewrite env_update_miss; [|done]. by apply al_get_set.
Qed.

Lemma env_update_or other env k :
  al_wf other ->
  al_get k (env_update other env) = match al_get k other with Some v => Some v | None => al_get k env end.
Proof.
  intros Hwf. destruct (al_get k other) as [v|] eqn:E; [by apply env_update_hit|].
  apply env_update_miss. by apply al_get_None.
Qed.

(** What a configured mapping binds is neither an identity nor a credential,
    and every key is a name. *)
Definition unprotected (env : list (string * string)) : Prop :=
  forall k, k ∈ env.*1 ->
    env_key_ok k = true /\ k ∉ PITWALL_IDENTITY_ENV_KEYS /\ k ∉ PITWALL_STORAGE_CREDENTIAL_ENV_KEYS.

Lemma coerce_env_binding_unprotected source env kv env' :
  unprotected env -> coerce_env_binding source env kv = Ok env' -> unprotected env'.
Proof.
  destruct kv as [k v]. unfold coerce_env_binding. intros He E.
  destruct (env_key_ok k) eqn:Ek; [|done]. simpl in E. do 2 (case_bool_decide; [done|]).
  assert (unprotected (al_set k (py_str v) env)) as Hs; [|by destruct v; injection E as <-].
  intros x [->|?]%al_set_keys; [done|by apply He].
Qed.

Lemma coerce_env_mapping_unprotected source raw env :
  coerce_env_mapping source raw = Ok env -> unprotected env /\ al_wf env.
Proof.
  assert (forall m acc, unprotected acc -> al_wf acc ->
            foldR (coerce_env_binding source) acc m = Ok env -> unprotected env /\ al_wf env) as Hf.
  { induction m as [|kv m IH]; intros acc Hu Hw; simpl; [by intros [= <-]|].
    destruct (coerce_env_binding source acc kv) as [acc'|] eqn:E; [|done]. simpl. apply IH.
    - by eapply coerce_env_binding_unprotected.
    - unfold coerce_env_binding in E. destruct kv as [k v]. repeat case_match; simplify_eq; try done;
        by apply al_set_wf. }
  unfold coerce_env_mapping. destruct raw; try done.
  - intros [= <-]. split; [by intros k ?%elem_of_nil|apply NoDup_nil_2].
  - apply Hf; [by intros k ?%elem_of_nil|apply NoDup_nil_2].
Qed.

Lemma forwarded_unprotected environ k :
  k ∈ (forwarded environ).*1 ->
  k ∉ PITWALL_IDENTITY_ENV_KEYS /\ k ∉ PITWALL_STORAGE_CREDENTIAL_ENV_KEYS.
Proof.
  unfold forwarded. intros ([k' v] & -> & Hin)%list_elem_of_fmap. apply list_elem_of_omap in Hin as (x & Hx & E).
  destruct (set_text (environ x)); [|done]. injection E as <- <-. simpl.
  assert (forallb (fun x => negb (bool_decide (x ∈ PITWALL_IDENTITY_ENV_KEYS)) &&
                            negb (bool_decide (x ∈ PITWALL_STORAGE_CREDENTIAL_ENV_KEYS)))
            FORWARDED_PROCESS_ENV_KEYS = true) as Hall by reflexivity.
  rewrite forallb_forall in Hall. specialize (Hall x ltac:(by apply list_elem_of_In)).
  apply andb_true_iff in Hall as [H1 H2]. rewrite !negb_true_iff, !bool_decide_eq_false in H1, H2. done.
Qed.

Lemma required_attr_Ok a s t : required_attr a s = Ok t -> t = strip s /\ t <> EmptyString.
Proof. unfold required_attr. destruct (strip s) eqn:E; simpl; [done|]. by intros [= <-]. Qed.

(** What a key that no configuration may set is bound to. *)
Lemma env_for_pod_protected environ c p request_id extra vended env k :
  env_for_pod environ c p request_id extra vended = Ok env ->
  al_wf vended ->
  k ∈ PITWALL_IDENTITY_ENV_KEYS \/ k ∈ PITWALL_STORAGE_CREDENTIAL_ENV_KEYS ->
  exists identity, identity_env c p = Ok identity /\
  al_get k env = match al_get k (request_env request_id) with
                 | Some v => Some v
                 | None => match al_get k identity with Some v => Some v | None => al_get k vended end
                 end.
Proof.
  intros E Hv Hk. unfold env_for_pod in E.
  destruct (coerce_env_mapping _ (dict_get_none _ _)) as [configured|] eqn:E1; [|done]. simpl in E.
  destruct (identity_env c p) as [identity|] eqn:E2; [|done]. simpl in E.
  destruct (coerce_env_mapping "extra_env" extra) as [ex|] eqn:E3; [|done]. injection E as <-.
  exists identity. split; [done|].
  apply coerce_env_mapping_unprotected in E1 as [U1 W1], E3 as [U3 W3].
  assert (forall env, unprotected env -> al_get k env = None) as Hun.
  { intros e U. apply al_get_None. intros Hin. destruct (U k Hin) as (_ & ? & ?). tauto. }
  rewrite env_update_or, (Hun ex) by done.
  rewrite env_update_or; [|destruct request_id as [r|]; simpl; [destruct (strip r); simpl|]].
  2,4: apply NoDup_nil_2. 2: apply NoDup_singleton.
  destruct (al_get k (request_env request_id)); [done|].
  rewrite env_update_or.
  2: { unfold identity_env in E2. repeat (destruct (required_attr _ _); [|done]; simpl in E2).
       injection E2 as <-. apply (bool_decide_unpack _). reflexivity. }
  destruct (al_get k identity); [done|]. rewrite env_update_or by done.
  destruct (al_get k vended); [done|].
  rewrite env_update_miss; [by apply Hun|]. intros Hin. apply forwarded_unprotected in Hin. tauto.
Qed.

(** Theorems *)

(** C31: A pod cannot be told that it is another, nor be handed credentials
    by its configuration.  Whatever a provider's [env_vars], the caller's
    extra variables, the forwarded process environment and the staging store
    hold, when a launch accepts them the seven identity variables name the
    capability and the provider of the launch, the request id is the
    caller's, and every storage credential is the one that the staging store
    vended, or missing when it vended none. *)
Theorem pod_env_protected (environ : string -> option string) (c : Registry.Capability) (p : Provider)
    (request_id : option string) (extra : pyval) (vended env : list (string * string))
    (Hv : al_wf vended) (Henv : env_for_pod environ c p request_id extra vended = Ok env) :
  al_get "PITWALL_CAPABILITY" env = Some (enum_value (Registry.c_class c)) /\
  al_get "PITWALL_CAPABILITY_ID" env = Some (strip (Registry.c_id c)) /\
  al_get "PITWALL_CAPABILITY_NAME" env = Some (strip (Registry.c_name c)) /\
  al_get "PITWALL_PROVIDER" env = Some (strip (p_name p)) /\
  al_get "PITWALL_PROVIDER_ID" env = Some (strip (p_id p)) /\
  al_get "PITWALL_PROVIDER_NAME" env = Some (strip (p_name p)) /\
  al_get "PITWALL_PROVIDER_TYPE" env = Some (enum_value (p_provider_type p)) /\
  (forall r, request_id = Some r -> strip r <> EmptyString ->
     al_get "PITWALL_REQUEST_ID" env = Some (strip r)) /\
  forall k, k ∈ PITWALL_STORAGE_CREDENTIAL_ENV_KEYS -> al_get k env = al_get k vended.
Proof.
  pose proof (fun k => env_for_pod_protected _ _ _ _ _ _ _ k Henv Hv) as Hk.
  assert (forall k v identity, identity_env c p = Ok identity -> al_get k (request_env request_id) = None ->
            k ∈ PITWALL_IDENTITY_ENV_KEYS -> al_get k identity = Some v -> al_get k env = Some v) as Hid.
  { intros k v identity Ei Er Hin Eg. destruct (Hk k (or_introl Hin)) as (id' & Ei' & ->).
    rewrite Er. rewrite Ei in Ei'. injection Ei' as <-. by rewrite Eg. }
  assert (forall k, k <> "PITWALL_REQUEST_ID" -> al_get k (request_env request_id) = None) as Hreq.
  { intros k Hne. unfold request_env. destruct request_id as [r|]; [|done].
    destruct (strip r); simpl; [done|]. by rewrite decide_False. }
  destruct (Hk "PITWALL_PROVIDER" ltac:(left; by apply (bool_decide_unpack _))) as (identity & Ei & _).
  pose proof Ei as Es. unfold identity_env in Es.
  destruct (required_attr "id" (Registry.c_id c)) as [ci|] eqn:E1; [|done]. simpl in Es.
  destruct (required_attr "name" (Registry.c_name c)) as [cn|] eqn:E2; [|done]. simpl in Es.
  destruct (required_attr "name" (p_name p)) as [pn|] eqn:E3; [|done]. simpl in Es.
  destruct (required_attr "id" (p_id p)) as [pi|] eqn:E4; [|done]. injection Es as <-.
  apply required_attr_Ok in E1 as [-> _], E2 as [-> _], E3 as [-> _], E4 as [-> _].
  do 7 (split; [apply (Hid _ _ _ Ei); [by apply Hreq|by apply (bool_decide_unpack _)|reflexivity]|]).
  split.
  - intros r -> Hr. destruct (Hk "PITWALL_REQUEST_ID" ltac:(left; by apply (bool_decide_unpack _))) as (? & _ & ->).
    simpl. by destruct (strip r).
  - intros k Hin. destruct (Hk k (or_intror Hin)) as (id' & Ei' & ->). rewrite Ei in Ei'. injection Ei' as <-.
    assert (k ∉ PITWALL_IDENTITY_ENV_KEYS) as Hn.
    { intros Hin'. revert k Hin Hin' Hk Hid Hreq.
      assert (forallb (fun k => negb (bool_decide (k ∈ PITWALL_IDENTITY_ENV_KEYS)))
                PITWALL_STORAGE_CREDENTIAL_ENV_KEYS = true) as Hall by reflexivity.
      rewrite forallb_forall in Hall. intros k Hin Hin' _ _ _. specialize (Hall k ltac:(by apply list_elem_of_In)).
      by rewrite bool_decide_eq_true_2 in Hall. }
    rewrite Hreq by (intros ->; apply Hn; by apply (bool_decide_unpack _)).
    match goal with |- context [al_get k ?l] => assert (al_get k l = None) as -> end; [|done].
    apply al_get_None. intros Hin'. apply Hn. revert Hin'. simpl.
    rewrite !elem_of_cons. unfold PITWALL_IDENTITY_ENV_KEYS. rewrite !elem_of_cons. tauto.
Qed.

(** Witnesses *)

Module PlanSim.
Definition capability : Registry.Capability :=
  Registry.MkCapability "cap_llm" "llm" "1.0.0" LLM None [] [] (Registry.MkDefaults 60000 3600000 SYNC) PER_SECOND
    [] API None true (utc 0) (utc 0).
Definition config : dict :=
  [("gpu_types", VStr "NVIDIA L4, NVIDIA A40"); ("image_ref", VStr "ghcr.io/org/worker:v1");
   ("ports", VDict [("http", VInt 8000)]); ("lease_ttl_ms", VInt 3600000);
   ("env_vars", VDict [("MODEL", VStr "m"); ("R2_ENDPOINT", VStr "mine"); ("N", VInt 2)]);
   ("cost", VDict [("per_second_active", VStr "0.001")])].
Definition provider : Provider :=
  MkProvider "prov-1" "cap_llm" " worker " POD_LEASE None None None (Some "SECURE") config 1 true "healthy" 0 0
    None None fzero None "api" None (utc 0).
Definition environ (k : string) : option string :=
  if String.eqb k "R2_ENDPOINT" then Some "https://r2" else None.
Definition vended : list (string * string) :=
  [("AWS_ACCESS_KEY_ID", "temp"); ("PITWALL_PROVIDER", "forged"); ("R2_BUCKET_STAGING", "b")].

Example env_ex :
  env_for_pod environ capability provider (Some " r1 ") (VDict [("MODEL", VStr "mine")]) vended =
  Ok [("MODEL", "mine"); ("R2_ENDPOINT", "https://r2"); ("N", "2"); ("AWS_ACCESS_KEY_ID", "temp");
      ("PITWALL_PROVIDER", "worker"); ("R2_BUCKET_STAGING", "b"); ("PITWALL_CAPABILITY", "llm");
      ("PITWALL_CAPABILITY_ID", "cap_llm"); ("PITWALL_CAPABILITY_NAME", "llm");
      ("PITWALL_PROVIDER_ID", "prov-1"); ("PITWALL_PROVIDER_NAME", "worker");
      ("PITWALL_PROVIDER_TYPE", "pod_lease"); ("PITWALL_REQUEST_ID", "r1")].
Proof. vm_compute. reflexivity. Qed.

Example env_ex_forged :
  env_for_pod environ capability provider None (VDict [("PITWALL_PROVIDER_ID", VStr "other")]) vended =
  Err (InvalidProviderConfig "extra_env").
Proof. vm_compute. reflexivity. Qed.

Example workload_ex :
  workload_config_for_provider capability provider =
  Ok (MkWorkload "worker" ["NVIDIA L4"; "NVIDIA A40"] 1 50 4 16 "SECURE" false "custom" None (Some "8000/http")).
Proof. vm_compute. reflexivity. Qed.

Example expiry_ex : expiry_for_lease provider (utc 5) = Ok (utc 3600000005).
Proof. vm_compute. reflexivity. Qed.
End PlanSim.

Lemma pod_env_protected_witness :
  exists env,
    env_for_pod PlanSim.environ PlanSim.capability PlanSim.provider (Some " r1 ") VNone PlanSim.vended = Ok env /\
    al_get "PITWALL_PROVIDER" env = Some "worker" /\ al_get "AWS_SECRET_ACCESS_KEY" env = None.
Proof.
  eexists. split; [vm_compute; reflexivity|].
  pose proof (pod_env_protected PlanSim.environ PlanSim.capability PlanSim.provider (Some " r1 ") VNone
                PlanSim.vended _ ltac:(by apply (bool_decide_unpack _)) ltac:(vm_compute; reflexivity))
    as (_ & _ & _ & H1 & _ & _ & _ & _ & H2).
  split; [exact H1|]. exact (H2 "AWS_SECRET_ACCESS_KEY" ltac:(by apply (bool_decide_unpack _))).
Defined.
