(* ===== verification/Templates.v ===== *)
(** * RunPod templates ([runpod_client/templates.py])

    A pod is created from a template.  [ensure_template] returns the template
    of an image, creating it once and keeping it in the table
    [runpod_templates] under the template's name and the image's tag.

    RunPod's template calls are outside the program ([TemplateApi]), with the
    text of an exception; SHA-256 is a parameter.  The GraphQL client used
    with a custom endpoint sends the same two requests. *)

From Stdlib Require Import Ascii.
From S2P Require Import Registry.
From S2P Require Import Prelude PyDecimal PyFloat PyValue PyEq Effects Pods PodCreate LaunchPlan.

(** Definitions *)

Definition TEMPLATE_NAME : string := "pitwall-cloud-worker".
Definition TEMPLATE_ENV_KEYS : list string :=
  ["REDIS_URL"; "PITWALL_CAPABILITY"; "PITWALL_CAPABILITY_ID"; "PITWALL_CAPABILITY_NAME"; "PITWALL_PROVIDER";
   "PITWALL_PROVIDER_ID"; "PITWALL_PROVIDER_NAME"; "PITWALL_PROVIDER_TYPE"; "PITWALL_REQUEST_ID";
   "VLLM_MODEL"; "R2_ENDPOINT"; "R2_BUCKET_STAGING"; "AWS_ACCESS_KEY_ID"; "AWS_SECRET_ACCESS_KEY";
   "AWS_SESSION_TOKEN"; "AWS_DEFAULT_REGION"; "R2_SESSION_TOKEN"; "R2_CREDENTIAL_TTL_SECONDS";
   "R2_CREDENTIAL_EXPIRES_AT"].

(** The text after the last occurrence of [sep], when there is one. *)
Fixpoint after_last (sep s : string) : option string :=
  match s with
  | EmptyString => None
  | String _ s' =>
      match after_last sep s' with
      | Some r => Some r
      | None => if startswith sep s
                then Some (String.substring (String.length sep) (String.length s - String.length sep) s)
                else None
      end
  end.

Definition image_sha (image_ref : string) : string :=
  match after_last "@sha256:" image_ref with
  | Some digest => digest
  | None =>
      let last := default image_ref (after_last "/" image_ref) in
      default "latest" (after_last ":" last)
  end.

(** [re.sub(r"[^a-zA-Z0-9_.-]+", "-", s)]: a run of other characters is one
    dash. *)
Definition name_char (c : ascii) : bool :=
  is_alnum c || Ascii.eqb c "_" || Ascii.eqb c "." || Ascii.eqb c "-".
Fixpoint dash_runs (in_run : bool) (s : string) : string :=
  match s with
  | EmptyString => EmptyString
  | String c s' =>
      if name_char c then String c (dash_runs false s')
      else if in_run then dash_runs true s'
      else String "-" (dash_runs true s')
  end.
(** [s.strip("-")] *)
Fixpoint ldash (s : string) : string :=
  match s with String "-" s' => ldash s' | _ => s end.
Fixpoint rdash (s : string) : string :=
  match s with
  | EmptyString => EmptyString
  | String c s' => match rdash s' with
                   | EmptyString => if Ascii.eqb c "-" then EmptyString else String c EmptyString
                   | r => String c r
                   end
  end.
Definition normalize_template_name (name : string) : string :=
  let normalized := rdash (ldash (dash_runs false (strip name))) in
  if nonempty normalized then normalized else TEMPLATE_NAME.

Record template_row : Type := MkTemplateRow {
  tp_id : string;
  tp_name : string;
  tp_image_sha : string;
  tp_image_ref : string;
  tp_registry_auth_id : option string;
  tp_container_disk_gb : Z;
  tp_volume_mount_path : string;
}.

Inductive template_error :=
| TemplateRequestFailed (text : string)
| TemplateShapeUnexpected
| TemplateTableError.

Class TemplateApi (F : Type) := {
  create_template : string -> string -> Z -> string -> list (string * string) -> option string ->
                    F -> F * result string pyval;
  list_my_templates : F -> F * result string (list dict);
}.

Definition is_duplicate_template_name_error (text : string) : bool :=
  let message := lower text in str_contains "unique" message && str_contains "name" message.

(** [entry.get("name") == display_name and entry.get("id")] *)
Fixpoint resolve_existing_template_id (templates : list dict) (display_name : string) : option string :=
  match templates with
  | [] => None
  | entry :: templates =>
      if py_eqb (dict_get_none "name" entry) (VStr display_name) && py_bool (dict_get_none "id" entry)
      then Some (PyFormat.py_str (dict_get_none "id" entry))
      else resolve_existing_template_id templates display_name
  end.

Definition same_key (name sha : string) (r : template_row) : bool :=
  String.eqb (tp_name r) name && String.eqb (tp_image_sha r) sha.

Definition lookup_cached (rows : list template_row) (name sha : string) : option string :=
  tp_id <$> find_first (same_key name sha) rows.

(** [INSERT ... ON CONFLICT (name, image_sha) DO NOTHING]; the id is the
    primary key. *)
Definition insert_cache (rows : list template_row) (r : template_row)
  : list template_row * result template_error unit :=
  if existsb (same_key (tp_name r) (tp_image_sha r)) rows then (rows, Ok tt)
  else if existsb (fun r' => String.eqb (tp_id r') (tp_id r)) rows || negb (Registry.int4 (tp_container_disk_gb r))
  then (rows, Err TemplateTableError)
  else (rows ++ [r], Ok tt).

Section Ensure.
Context {F : Type} `{TemplateApi F} (sha256_hex : string -> string).
Abbreviation op := (eff (list template_row * F) template_error).

Definition template_display_name (template_name image_ref : string) : string :=
  normalize_template_name template_name +:+ "-" +:+ String.substring 0 12 (sha256_hex image_ref).

Definition ask_api {A} (f : F -> F * A) : op A :=
  fun w => let '(o, a) := f w.2 in ((w.1, o), Ok a).
Definition cache (r : template_row) : op unit :=
  fun w => let '(rows, res) := insert_cache w.1 r in ((rows, w.2), res).

(** [result.get("id") or result.get("templateId")] *)
Definition created_id (v : pyval) : option pyval :=
  match v with
  | VDict m => let id := py_or (dict_get_none "id" m) (dict_get_none "templateId" m) in
               if py_bool id then Some id else None
  | _ => None
  end.

Definition ensure_template (image_ref template_name : string) (registry_auth_id : option string)
    (container_disk_gb : Z) (volume_mount_path : string) : op string :=
  let sha := image_sha image_ref in
  let logical_name := normalize_template_name template_name in
  let row i := MkTemplateRow i logical_name sha image_ref registry_auth_id container_disk_gb volume_mount_path in
  do! w := get in
  match set_text (lookup_cached w.1 logical_name sha) with
  | Some cached => ret cached
  | None =>
      let display_name := template_display_name logical_name image_ref in
      do! created := ask_api (create_template display_name image_ref container_disk_gb volume_mount_path
                                ((fun k => (k, "")) <$> TEMPLATE_ENV_KEYS) registry_auth_id) in
      match created with
      | Ok v => match created_id v with
                | Some id => match as_str id with
                             | Some i => cache (row i) ;! ret i
                             | None => fail TemplateTableError
                             end
                | None => fail TemplateShapeUnexpected
                end
      | Err text =>
          if negb (is_duplicate_template_name_error text) then fail (TemplateRequestFailed text)
          else
            do! listed := ask_api list_my_templates in
            match listed with
            | Err text => fail (TemplateRequestFailed text)
            | Ok templates =>
                match resolve_existing_template_id templates display_name with
                | Some i => cache (row i) ;! ret i
                | None => fail (TemplateRequestFailed text)
                end
            end
      end
  end.
End Ensure.

(** Lemmas *)

Definition ids_named (rows : list template_row) : Prop := Forall (fun r => tp_id r <> EmptyString) rows.

Lemma lookup_cached_app rows more name sha i :
  lookup_cached rows name sha = Some i -> lookup_cached (rows ++ more) name sha = Some i.
Proof.
  unfold lookup_cached. induction rows as [|r rows IH]; simpl; [done|]. by destruct (same_key name sha r).
Qed.

Lemma lookup_cached_named rows name sha :
  ids_named rows -> set_text (lookup_cached rows name sha) = lookup_cached rows name sha.
Proof.
  unfold lookup_cached. induction 1 as [|r rows Hr _ IH]; simpl; [done|].
  destruct (same_key name sha r); [|done]. simpl. by destruct (tp_id r).
Qed.

Lemma same_key_absent rows name sha :
  lookup_cached rows name sha = None -> existsb (same_key name sha) rows = false.
Proof.
  unfold lookup_cached. induction rows as [|r rows IH]; simpl; [done|]. by destruct (same_key name sha r).
Qed.

(** A row written for a key that was not there is found under it. *)
Lemma insert_cache_found rows r rows' :
  lookup_cached rows (tp_name r) (tp_image_sha r) = None -> insert_cache rows r = (rows', Ok tt) ->
  rows' = rows ++ [r] /\ lookup_cached rows' (tp_name r) (tp_image_sha r) = Some (tp_id r).
Proof.
  intros Hm. unfold insert_cache. rewrite same_key_absent by done. destruct (_ || _); [done|].
  intros [= <-]. split; [done|]. unfold lookup_cached in *.
  induction rows as [|r' rows IH]; simpl in *; [unfold same_key; by rewrite !String.eqb_refl|].
  destruct (same_key _ _ r'); [done|]. by apply IH.
Qed.

Section EnsureFacts.
Context {F : Type} `{TemplateApi F} (sha256_hex : string -> string).

Lemma cache_then rows (o : F) r w' i j :
  lookup_cached rows (tp_name r) (tp_image_sha r) = None -> tp_id r = i ->
  (cache r ;! ret i) (rows, o) = (w', Ok j) ->
  j = i /\ w'.1 = rows ++ [r] /\ lookup_cached w'.1 (tp_name r) (tp_image_sha r) = Some i.
Proof.
  intros Hm Hi. unfold cache, bind, ret. simpl.
  destruct (insert_cache rows r) as [rows' [[]|]] eqn:E; [|done]. intros [= <- <-].
  apply insert_cache_found in E as [-> El]; [|done]. simpl. rewrite El. by subst.
Qed.

(** A success either found the row or added it. *)
Lemma ensure_template_cached image name reg disk mount w w' i :
  ids_named w.1 -> i <> EmptyString ->
  ensure_template sha256_hex image name reg disk mount w = (w', Ok i) ->
  w.1 `prefix_of` w'.1 /\ ids_named w'.1 /\
  lookup_cached w'.1 (normalize_template_name name) (image_sha image) = Some i.
Proof.
  intros Hn Hi. destruct w as [rows o]. unfold ensure_template. unfold bind at 1, get at 1. simpl.
  rewrite lookup_cached_named by done.
  destruct (lookup_cached rows _ _) as [c|] eqn:El; [by intros [= <- <-]|].
  assert (forall o' id, (cache (MkTemplateRow id (normalize_template_name name) (image_sha image) image reg disk mount)
             ;! ret id) (rows, o') = (w', Ok i) ->
            rows `prefix_of` w'.1 /\ ids_named w'.1 /\
            lookup_cached w'.1 (normalize_template_name name) (image_sha image) = Some i) as Hc.
  { intros o' id E. eapply cache_then in E as (<- & Ew & L); [|done|done]. cbn [tp_name tp_image_sha] in L.
    rewrite Ew in *. split_and!; [by eexists| |done].
    apply Forall_app. split; [done|]. by constructor. }
  unfold bind at 1, ask_api at 1. simpl.
  destruct (create_template _ _ _ _ _ _ o) as [o1 [v|text]].
  - destruct (created_id v) as [id|]; [|done]. destruct (as_str id); [|done]. apply Hc.
  - destruct (negb _); [done|]. unfold bind at 1, ask_api at 1. simpl.
    destruct (list_my_templates o1) as [o2 [templates|text2]]; [|done].
    destruct (resolve_existing_template_id _ _); [|done]. apply Hc.
Qed.
End EnsureFacts.

(** Theorems *)

(** An image's template is made once.  When a launch obtained a template
    for an image under a name, every later launch with that name and image,
    whatever else it asks for and whatever was cached in between, gets the
    same template and sends RunPod nothing. *)
Theorem template_made_once {F} `{TemplateApi F} (sha256_hex : string -> string)
    (image name : string) (reg : option string) (disk : Z) (mount : string)
    (w w' : list template_row * F) (i : string)
    (Hw : ids_named w.1) (Hi : i <> EmptyString)
    (Hrun : ensure_template sha256_hex image name reg disk mount w = (w', Ok i)) :
  ids_named w'.1 /\
  forall later reg' disk' mount', w'.1 `prefix_of` later.1 -> ids_named later.1 ->
    ensure_template sha256_hex image name reg' disk' mount' later = (later, Ok i).
Proof.
  destruct (ensure_template_cached _ _ _ _ _ _ _ _ _ Hw Hi Hrun) as (_ & Hn & El).
  split; [done|]. intros later reg' disk' mount' [more E] Hl. unfold ensure_template, bind at 1, get at 1.
  rewrite lookup_cached_named by done. rewrite E.
  by rewrite (lookup_cached_app _ more _ _ _ El).
Qed.

(** Witnesses *)

Module TemplateSim.
(** RunPod gives the templates consecutive names and refuses a second
    template with a name. *)
#[export] Instance api : TemplateApi (list string) := {|
  create_template display _ _ _ _ _ names :=
    if bool_decide (display ∈ names) then (names, Err "Template name must be unique.")
    else (names ++ [display], Ok (VDict [("id", VStr (display +:+ "-id"))]));
  list_my_templates names :=
    (names, Ok ((fun n => [("id", VStr (n +:+ "-id")); ("name", VStr n)]) <$> names));
|}.
Definition sha (s : string) : string := "0123456789abcdef" +:+ s.
Definition made : (list template_row * list string) * result template_error string :=
  ensure_template sha "ghcr.io/org/worker:v1" "pitwall worker" None 50 "/workspace" ([], []).
Example made_ex : made.2 = Ok "pitwall-worker-0123456789ab-id".
Proof. vm_compute. reflexivity. Qed.
(** A template that exists on RunPod and not in the table is found by name. *)
Example found_ex :
  (ensure_template sha "ghcr.io/org/worker:v1" "pitwall worker" None 50 "/workspace"
     ([], ["pitwall-worker-0123456789ab"])).2 = Ok "pitwall-worker-0123456789ab-id".
Proof. vm_compute. reflexivity. Qed.
Example image_sha_ex :
  image_sha <$> ["ghcr.io/o/w:v1"; "localhost:5000/w"; "w@sha256:abc"; "localhost:5000/w:v2@sha256:ff"] =
  ["v1"; "latest"; "abc"; "ff"].
Proof. vm_compute. reflexivity. Qed.
(** The cache knows an image by its tag only: another repository's image with
    the same tag gets the first one's template. *)
Example tag_collision :
  (ensure_template sha "docker.io/other/image:v1" "pitwall worker" None 50 "/workspace" made.1).2 = made.2.
Proof. vm_compute. reflexivity. Qed.
End TemplateSim.

#[local] Existing Instance TemplateSim.api.
Lemma template_made_once_witness :
  ensure_template TemplateSim.sha "ghcr.io/org/worker:v1" "pitwall worker" (Some "auth") 80 "/data" TemplateSim.made.1 =
  (TemplateSim.made.1, Ok "pitwall-worker-0123456789ab-id").
Proof.
  refine (proj2 (template_made_once TemplateSim.sha "ghcr.io/org/worker:v1" "pitwall worker" None 50 "/workspace"
    ([], []) TemplateSim.made.1 "pitwall-worker-0123456789ab-id" _ _ _) _ _ _ _ _ _).
  - constructor.
  - done.
  - vm_compute. reflexivity.
  - done.
  - unfold ids_named. vm_compute. by repeat constructor.
Defined.
