(* ===== verification/Launch.v ===== *)
(** * Launching a lease ([api/leases/launch.py])

    [run_launch] takes a provider and a capability to a running pod with a
    lease: it admits the cost through the budget gate, obtains the template,
    creates the pod with its fallbacks, writes the lease's row from a callback
    of the creation as soon as the pod exists, and marks the lease active when
    the pod is ready.

    The world is the tables a launch touches with everything outside, [F].
    [RunPodApi] of [F] is one of the whole world, so that pod creation runs
    over it with the callback that writes the row.  Two UUIDs are arguments;
    how pydantic reads an instant out of a JSON value is a parameter. *)

From Stdlib Require Import Ascii.
From S2P Require Import Registry.
From S2P Require Import Prelude PyDecimal PyFloat PyValue PyTime PyFormat Effects Enums LeaseState.
From S2P Require Import Provider LeaseStore BudgetGate Estimator Pods PodCreate LaunchPlan.
From S2P Require Import Templates.

(** Definitions *)

Record world (F : Type) : Type := MkWorld {
  lw_workloads : list workload_row;
  lw_leases : lease_db;
  lw_templates : list template_row;
  lw_registry : Registry.registry;
  lw_outside : F;
}.
Arguments MkWorld {F}.
Arguments lw_workloads {F}.
Arguments lw_leases {F}.
Arguments lw_templates {F}.
Arguments lw_registry {F}.
Arguments lw_outside {F}.

Definition with_outside {F} (w : world F) (o : F) : world F :=
  MkWorld (lw_workloads w) (lw_leases w) (lw_templates w) (lw_registry w) o.
Definition with_leases {F} (w : world F) (db : lease_db) : world F :=
  MkWorld (lw_workloads w) db (lw_templates w) (lw_registry w) (lw_outside w).

(** An operation on the outside, in the whole world. *)
Definition within {F A} (f : F -> F * A) (w : world F) : world F * A :=
  let '(o, a) := f (lw_outside w) in (with_outside w o, a).

#[export] Instance world_runpod {F} `{RunPodApi F} : RunPodApi (world F) := {|
  send method path body := within (send method path body);
  sdk_get_pod i := within (sdk_get_pod i);
  http_get url := within (http_get url);
  monotonic := within monotonic;
  sleep s w := with_outside w (sleep s (lw_outside w));
  utc_now := within utc_now;
|}.

(** [StagingStore.vend_pod_credentials], with the text of an exception. *)
Class StagingVendor (F : Type) := {
  vend_pod_credentials : F -> F * result string (list (string * string));
}.

Inductive launch_error :=
| PlanFailed (e : plan_error)
| LaunchExn (e : exn)
| BudgetFailed (e : gate_error unit)
| TemplateFailed (e : template_error)
| StagingFailed (text : string)
| PodFailed (e : pod_error)
| StoreFailed (e : lease_db_error)
| NotReady
| ReadinessInvalid
| ProviderTableError.

Record LaunchTemplate : Type := MkTemplate {
  lt_template_id : string;
  lt_template_name : string;
  lt_image_ref : string;
  lt_registry_auth_id : option string;
  lt_container_disk_gb : Z;
  lt_volume_mount_path : string;
}.

Record LeaseLaunchPlan : Type := MkPlan {
  lp_template : LaunchTemplate;
  lp_env : list (string * string);
  lp_workload : WorkloadConfig;
  lp_network_volume_id : option string;
  lp_data_center_id : option string;
  lp_volume_attach_timeout_s : option float;
}.

(** How a launch ended: [Fallback] asks for another provider, with the
    cooldown set on this one when its volume did not attach; [Waiting] is a
    launch whose pod has not become ready yet. *)
Inductive launch_outcome :=
| DryRun
| Launched (pod_id : option string) (pod_name : pyval) (lease_id : string)
| Fallback (cooldown_until : option datetime)
| Waiting (lease_id : string).

Record launch_response : Type := MkResponse {
  lr_capability_id : string;
  lr_capability : string;
  lr_provider_id : string;
  lr_provider : string;
  lr_workload_id : option string;
  lr_plan : LeaseLaunchPlan;
  lr_outcome : launch_outcome;
}.

(** The arguments of [run_launch] that are not tables. *)
Record launch_request : Type := MkLaunchRequest {
  lq_capability : Registry.Capability;
  lq_provider : Provider;
  lq_request_id : option string;
  lq_extra_env : pyval;
  lq_payload : dict;
  lq_budget_gate : option BudgetGate;
  lq_idempotency_key : option string;
  lq_dry_run : bool;
  lq_api_key : option string;
}.

Definition ATTACH_HANG_PROVIDER_COOLDOWN : timedelta := td_minutes 15.

(** [_lease_id_for_launch], with the UUID's hexadecimal digits *)
Definition lease_id_for_launch (provider_id uuid_hex : string) : string :=
  "lease_" +:+ replace_char "-"%char "_"%char provider_id +:+ "_" +:+ String.substring 0 12 uuid_hex.

Definition initial_lease (provider_id pod_id : string) (created_at expiry : datetime)
    (endpoints : LeaseEndpoints) : lease_row :=
  MkLease provider_id pod_id CREATING (dt_us created_at) (dt_us expiry) (enum_value MANUAL) true
    (Some endpoints) None None None None None.

(** [_upsert_initial_lease]: every column is written, so that a row that was
    there counts for nothing. *)
Definition upsert_initial_lease (registry : Registry.registry) (db : lease_db) (lease_id : string)
    (row : lease_row) : lease_db * result lease_db_error unit :=
  if lease_checks row && bool_decide (is_Some (Registry.providers registry !! ls_provider_id row))
  then (MkLeaseDb (<[lease_id := row]> (leases db)) (idempotency db) (audit db), Ok tt)
  else (db, Err ConstraintViolation).

Section Launch.
Context {F : Type} `{RunPodApi F, TemplateApi F, StagingVendor F}.
Context (environ : string -> option string) (sha256_hex : string -> string).
Context (month_start : Z -> Z) (constraints_ok : workload_row -> bool).
Context (parse_instant : pyval -> option Z).
Abbreviation op := (eff (world F) launch_error).

Definition planned {A} (r : plan A) : op A := lift (rlift PlanFailed r).
Definition now : op datetime := fun w => let '(w, t) := within utc_now w in (w, Ok t).

(** ** Admission *)

Definition estimate_lease_launch_cost (rq : launch_request) : py dec :=
  let c := lq_capability rq in
  let? q := quote_cost (MkCapabilityCost (Registry.c_cost_mode c)
                          (Registry.cd_execution_timeout_ms (Registry.c_defaults c)))
              (InLike (PMap (p_config (lq_provider rq)))) (lq_payload rq) in
  quote_estimate q.

Definition admit_lease_launch (rq : launch_request) (new_workload_id : string) : op string :=
  planned (ensure_pod_lease_provider (lq_provider rq)) ;!
  do! estimate := lift (rlift LaunchExn (estimate_lease_launch_cost rq)) in
  do! gate := lift (match lq_budget_gate rq with
                    | Some g => Ok g
                    | None => rlift LaunchExn (new_gate environ VNone VNone)
                    end) in
  do! capability_id := planned (required_attr "id" (Registry.c_id (lq_capability rq))) in
  do! provider_id := planned (required_attr "id" (p_id (lq_provider rq))) in
  do! clock := now in
  fun w =>
    match try_launch month_start constraints_ok gate clock (dt_us clock) (lw_workloads w) capability_id
            provider_id (EValue (VDec (DFin estimate))) "inference" None (lq_idempotency_key rq)
            new_workload_id with
    | Ok (rows, i) =>
        (MkWorld rows (lw_leases w) (lw_templates w) (lw_registry w) (lw_outside w), Ok i)
    | Err e => (w, Err (BudgetFailed e))
    end.

(** ** The plan *)

Definition on_templates {A} (f : eff (list template_row * F) template_error A) : op A :=
  fun w => let '((rows, o), r) := f (lw_templates w, lw_outside w) in
           (MkWorld (lw_workloads w) (lw_leases w) rows (lw_registry w) o, rlift TemplateFailed r).

Definition ensure_launch_template (c : Registry.Capability) (p : Provider) : op LaunchTemplate :=
  planned (ensure_pod_lease_provider p) ;!
  do! image_ref := planned (image_ref_for_provider environ p) in
  do! template_name := planned (template_name_for_provider c p) in
  let registry_auth_id := registry_auth_id_from_env environ (Some image_ref) in
  do! disk := planned (container_disk_gb p) in
  let mount := volume_mount_path p in
  do! template_id := on_templates (ensure_template sha256_hex image_ref template_name registry_auth_id disk mount) in
  ret (MkTemplate template_id template_name image_ref registry_auth_id disk mount).

Definition vend : op (list (string * string)) :=
  fun w => let '(w, r) := within vend_pod_credentials w in (w, rlift StagingFailed r).

(** [_env_for_pod] reads the configuration before it asks for credentials. *)
Definition pod_env (rq : launch_request) : op (list (string * string)) :=
  planned (coerce_env_mapping "provider.config['env_vars']"
             (dict_get_none "env_vars" (p_config (lq_provider rq)))) ;!
  do! vended := vend in
  planned (env_for_pod environ (lq_capability rq) (lq_provider rq) (lq_request_id rq) (lq_extra_env rq) vended).

Definition prepare_lease_launch (rq : launch_request) : op LeaseLaunchPlan :=
  let p := lq_provider rq in
  do! template := ensure_launch_template (lq_capability rq) p in
  do! env := pod_env rq in
  do! workload := planned (workload_config_for_provider (lq_capability rq) p) in
  do! attach := planned (provider_attach_timeout_s p) in
  ret (MkPlan template env workload (network_volume_id environ p) (data_center_id environ p) attach).

(** ** The lease row *)

(** [pre_lease_persist_callback]: whatever it raises is the callback's. *)
Definition pre_lease_persist_callback (lease_id provider_id : string) (created_at expiry : datetime)
    (endpoints : LeaseEndpoints) (pod : dict) : eff (world F) pod_error unit :=
  if negb (has_id pod) then ret tt
  else
    let row := strip_lease (initial_lease provider_id (py_str (dict_get_none "id" pod)) created_at expiry
                              endpoints) in
    if negb (valid_lease row) then fail CallbackError
    else fun w =>
      let '(db, r) := upsert_initial_lease (lw_registry w) (lw_leases w) lease_id row in
      (with_leases w db, rlift (fun _ => CallbackError) r).

(** [LeaseReadiness.model_validate]: instants are absent, or read. *)
Definition read_instant (m : dict) (k : string) : option (option Z) :=
  match dict_get_none k m with
  | VNone => Some None
  | v => Some <$> parse_instant v
  end.
Definition validate_readiness (m : dict) : option LeaseReadiness :=
  runtime ← read_instant m "runtime_seen_at";
  ports ← read_instant m "port_mappings_seen_at";
  probe ← read_instant m "probe_passed_at";
  match dict_get_none "probe_method" m with
  | VNone => Some (MkReadiness runtime ports probe None)
  | v => s ← as_str v; Some (MkReadiness runtime ports probe (Some (strip s)))
  end.

Definition lease_readiness_from_ready_pod (pod : dict) : result launch_error LeaseReadiness :=
  match dict_get_none "readiness" pod with
  | VDict m => match validate_readiness m with
               | Some r => if has_active_signals r then Ok r else Err NotReady
               | None => Err ReadinessInvalid
               end
  | _ => Err NotReady
  end.

(** One statement on the lease table. *)
Definition on_leases {A} (f : lease_db -> lease_db * result lease_db_error A) : op A :=
  fun w => let '(db, r) := f (lw_leases w) in (with_leases w db, rlift StoreFailed r).

Definition persist_ready_lease (lease_id : string) (ready_pod : dict) : op unit :=
  do! readiness := lift (lease_readiness_from_ready_pod ready_pod) in
  do! _ := on_leases (fun db => update_state db lease_id WAITING_RUNTIME) in
  do! _ := on_leases (fun db => update_state db lease_id WAITING_PROBE) in
  do! _ := on_leases (fun db => update_readiness db lease_id readiness) in
  do! _ := on_leases (fun db => update_state db lease_id ACTIVE) in
  ret tt.

(** ** The provider's cooldown *)

Definition with_cooldown (until db_now : datetime) (p : Provider) : Provider :=
  MkProvider (p_id p) (p_capability_id p) (p_name p) (p_provider_type p) (p_runpod_endpoint_id p)
    (p_runpod_template_id p) (p_region p) (p_cloud_type p) (p_config p) (p_priority p) (p_enabled p)
    (p_health_status p) (p_consecutive_failures p) (p_cooldown_trips p) (p_cold_start_p50_ms p)
    (p_cold_start_p95_ms p) (p_recent_error_rate p) (Some until) (p_source p)
    (p_last_applied_yaml_hash p) db_now.

(** The UPDATE, with the checks of the table; no row is no error. *)
Definition patch_cooldown (provider_id : string) (until db_now : datetime) : op unit :=
  fun w =>
    let db := lw_registry w in
    match Registry.providers db !! provider_id with
    | None => (w, Ok tt)
    | Some p =>
        let p' := with_cooldown until db_now p in
        if Registry.provider_ints p' && Registry.provider_checks p'
        then (MkWorld (lw_workloads w) (lw_leases w) (lw_templates w)
                (Registry.MkRegistry (Registry.capabilities db) (<[provider_id := p']> (Registry.providers db))
                   (Registry.config_audit db)) (lw_outside w), Ok tt)
        else (w, Err ProviderTableError)
    end.

Definition set_provider_attach_hang_cooldown (provider_id : string) : op datetime :=
  do! t := now in
  do! until := lift (rlift LaunchExn (dt_add t ATTACH_HANG_PROVIDER_COOLDOWN)) in
  do! db_now := now in
  patch_cooldown provider_id until db_now ;! ret until.

(** ** The launch *)

Definition launch_pod_request (rq : launch_request) (plan : LeaseLaunchPlan) (provider_name : string)
    (max_cost : option float) : pod_request :=
  let t := lp_template plan in
  MkRequest ("pitwall-" +:+ provider_name +:+ "-" +:+ String.substring 0 8 (lt_template_id t))
    (Some (lt_template_id t)) (lt_image_ref t) (lp_workload plan) (lp_env plan) None
    (lp_network_volume_id plan) (lp_data_center_id plan) None None None false max_cost None
    (of_Z 600) (of_Z 15) (lp_volume_attach_timeout_s plan) true (lq_api_key rq).

(** From the created pod, or the error of its creation, to the outcome. *)
Definition finish_launch (provider_id lease_id : string) (created : result pod_error (option dict))
  : op launch_outcome :=
  match created with
  | Err (ProviderAttachHangRecoveryRequested _ _) =>
      do! until := set_provider_attach_hang_cooldown provider_id in ret (Fallback (Some until))
  | Err ProviderFallbackRequested => ret (Fallback None)
  | Err e => fail (PodFailed e)
  | Ok None => ret (Waiting lease_id)
  | Ok (Some ready_pod) =>
      persist_ready_lease lease_id ready_pod ;!
      ret (Launched (if has_id ready_pod then Some (py_str (dict_get_none "id" ready_pod)) else None)
             (dict_get_none "name" ready_pod) lease_id)
  end.

(** Create the pod, its row written from the callback. *)
Definition create_and_keep (fuel : nat) (lease_id provider_id : string) (created_at expiry : datetime)
    (endpoints : LeaseEndpoints) (preq : pod_request) : op launch_outcome :=
  fun w =>
    let callback := pre_lease_persist_callback lease_id provider_id created_at expiry endpoints in
    let '(w, created) := create_pod_with_fallback_sync environ fuel preq (Some callback) w in
    finish_launch provider_id lease_id created w.

(** From the plan on. *)
Definition launch_pod (fuel : nat) (rq : launch_request) (provider_id provider_name lease_uuid : string)
    (plan : LeaseLaunchPlan) : op launch_outcome :=
  do! created_at := now in
  let lease_id := lease_id_for_launch provider_id lease_uuid in
  do! expiry := planned (expiry_for_lease (lq_provider rq) created_at) in
  do! endpoints := planned (planned_endpoints_for_provider (lq_provider rq)) in
  do! max_cost := planned (max_cost_per_hr (lq_provider rq)) in
  create_and_keep fuel lease_id provider_id created_at expiry endpoints
    (launch_pod_request rq plan provider_name max_cost).

Definition run_launch (fuel : nat) (rq : launch_request) (new_workload_id lease_uuid : string)
  : op launch_response :=
  let c := lq_capability rq in
  let p := lq_provider rq in
  do! capability := planned (required_attr "name" (Registry.c_name c)) in
  do! provider := planned (required_attr "name" (p_name p)) in
  do! workload_id := (if lq_dry_run rq then ret None
                      else do! i := admit_lease_launch rq new_workload_id in ret (Some i)) in
  do! plan := prepare_lease_launch rq in
  do! capability_id := planned (required_attr "id" (Registry.c_id c)) in
  do! provider_id := planned (required_attr "id" (p_id p)) in
  let response := MkResponse capability_id capability provider_id provider workload_id plan in
  if lq_dry_run rq then ret (response DryRun)
  else
    do! outcome := launch_pod fuel rq provider_id provider lease_uuid plan in
    ret (response outcome).
End Launch.

(** ** What the outside promises

    Templates, credentials and clocks create no pods. *)
Class QuietDeps (F : Type) `{LawfulRunPod F, TemplateApi F, StagingVendor F} := {
  template_live display image disk mount env auth w :
    live (create_template display image disk mount env auth w).1 ⊆ live w;
  listing_live w : live (list_my_templates w).1 ⊆ live w;
  vend_live w : live (vend_pod_credentials w).1 ⊆ live w;
}.

Lemma within_fst {F A} (f : F -> F * A) (w : world F) : lw_outside (within f w).1 = (f (lw_outside w)).1.
Proof. unfold within. by destruct (f (lw_outside w)). Qed.
Lemma within_snd {F A} (f : F -> F * A) (w : world F) : (within f w).2 = (f (lw_outside w)).2.
Proof. unfold within. by destruct (f (lw_outside w)). Qed.

#[export] Program Instance world_lawful {F} `{LawfulRunPod F} : LawfulRunPod (world F) :=
  {| live w := live (lw_outside w) |}.
Next Obligation. intros. cbn [send world_runpod]. rewrite within_fst. apply get_live. Qed.
Next Obligation. intros. cbn [send world_runpod]. rewrite within_fst, within_snd. apply post_live. Qed.
Next Obligation. intros. cbn [send world_runpod]. rewrite within_fst. apply delete_live. Qed.
Next Obligation.
  intros F H HL i w. cbn [send world_runpod]. rewrite within_fst, within_snd. apply delete_gone.
Qed.
Next Obligation. intros. cbn [sdk_get_pod world_runpod]. rewrite within_fst. apply sdk_live. Qed.
Next Obligation. intros. cbn [http_get world_runpod]. rewrite within_fst. apply probe_live. Qed.
Next Obligation. intros. cbn [monotonic world_runpod]. rewrite within_fst. apply clock_live. Qed.
Next Obligation. intros. cbn [sleep world_runpod with_outside lw_outside]. apply sleep_live. Qed.
Next Obligation. intros. cbn [utc_now world_runpod]. rewrite within_fst. apply now_live. Qed.

(** Requests to the outside leave the lease table alone. *)
Definition same_leases {F} (w w' : world F) : Prop := lw_leases w' = lw_leases w.
#[export] Instance leases_quiet {F} `{RunPodApi F} : QuietApi (F:=world F) same_leases.
Proof.
  assert (forall A (f : F -> F * A) w, same_leases w (within f w).1) as Hw.
  { intros A f w. unfold same_leases, within. by destruct (f (lw_outside w)). }
  split; [|intros; apply Hw..].
  split; [by intros w|]. intros w1 w2 w3 E1 E2. unfold same_leases in *. congruence.
Qed.

Lemma sleep_same {F} `{RunPodApi F} (d : float) (w : world F) : same_leases w (sleep d w).
Proof. reflexivity. Qed.

(** ** What the steps of a launch keep

    Either no pod comes to exist, or the workload table stays: [R] is kept by
    observing, by the statements on the other tables, by the template and by
    the credentials. *)

Lemma keeps_instant {F} `{RunPodApi F} (R : world F -> world F -> Prop) `{!QuietApi R} : keeps R now.
Proof. intros w. pose proof (now_quiet (R:=R) w) as Hq. unfold now. cbn in Hq. by destruct (within utc_now w). Qed.

Section Steps.
Context {F : Type} `{RunPodApi F, TemplateApi F, StagingVendor F}.
Context (environ : string -> option string) (sha256_hex : string -> string) (R : world F -> world F -> Prop).
Context `{!QuietApi R} (Hleases : forall w db, R w (with_leases w db)).
Context (Hregistry : forall w db, R w (MkWorld (lw_workloads w) (lw_leases w) (lw_templates w) db (lw_outside w))).
Context (Hensure : forall image name auth disk mount,
           keeps R (on_templates (ensure_template sha256_hex image name auth disk mount))).
Context (Hvend : keeps R vend).

#[local] Hint Resolve keeps_instant : keeps.

Lemma keeps_leases {A} (f : lease_db -> lease_db * result lease_db_error A) : keeps R (on_leases f).
Proof. intros w. unfold on_leases. destruct (f (lw_leases w)). apply Hleases. Qed.
#[local] Hint Resolve keeps_leases Hvend : keeps.

Lemma keeps_prepare rq : keeps R (prepare_lease_launch environ sha256_hex rq).
Proof.
  unfold prepare_lease_launch, ensure_launch_template, pod_env, planned.
  pose proof Hensure. keep.
Qed.

Lemma keeps_finish parse_instant pid i created : keeps R (finish_launch parse_instant pid i created).
Proof.
  unfold finish_launch, persist_ready_lease, set_provider_attach_hang_cooldown, planned.
  assert (forall i t u, keeps R (patch_cooldown i t u)).
  { intros j t u w. unfold patch_cooldown. destruct (Registry.providers _ !! _); [|reflexivity].
    destruct (_ && _); [apply Hregistry|reflexivity]. }
  destruct created as [[p|]|[]]; keep.
Qed.
End Steps.

(** ** Operations that create no pod *)

Section Calm.
Context {F : Type} `{QuietDeps F}.

Lemma calm_ensure sha256_hex image name auth disk mount :
  calm (on_templates (ensure_template (F:=F) sha256_hex image name auth disk mount)).
Proof.
  match goal with |- calm (on_templates ?f) =>
    assert (forall rows o, live (f (rows, o)).1.2 ⊆ live o) as Hf;
      [|intros w; specialize (Hf (lw_templates w) (lw_outside w)); unfold loses_pods, on_templates;
        by destruct (f (lw_templates w, lw_outside w)) as [[rows o] r]] end.
  intros rows o. unfold ensure_template.
  unfold bind at 1, get at 1. cbn [fst]. destruct (set_text _); [done|].
  unfold bind at 1, ask_api at 1. cbn [fst snd].
  match goal with |- context [create_template ?a ?b ?c ?d ?e ?f o] =>
    pose proof (template_live a b c d e f o) as Hl; destruct (create_template a b c d e f o) as [o1 [v|t]] end;
    simpl in Hl.
  - destruct (created_id v) as [id|]; [|done]. destruct (as_str id); [|done].
    unfold cache, bind. simpl. by destruct (insert_cache _ _) as [rows' [|]].
  - destruct (negb _); [done|]. unfold bind at 1, ask_api at 1. cbn [fst snd].
    pose proof (listing_live o1) as Hl2. destruct (list_my_templates o1) as [o2 [ts|t2]]; simpl in Hl2;
      [|simpl; set_solver].
    destruct (resolve_existing_template_id _ _); [|simpl; set_solver].
    unfold cache, bind. simpl. destruct (insert_cache _ _) as [rows' [|]]; simpl; set_solver.
Qed.

Lemma calm_vend : calm (vend (F:=F)).
Proof.
  intros w. unfold vend, loses_pods. pose proof (within_fst vend_pod_credentials w) as E.
  destruct (within vend_pod_credentials w). simpl in *. rewrite E. apply vend_live.
Qed.

Lemma calm_prepare environ sha256_hex rq : calm (prepare_lease_launch (F:=F) environ sha256_hex rq).
Proof. apply keeps_prepare; [apply _|intros; apply calm_ensure|apply calm_vend]. Qed.

Lemma calm_finish parse_instant pid i created : calm (finish_launch (F:=F) parse_instant pid i created).
Proof. by apply keeps_finish; [apply _|intros w db; unfold loses_pods..]. Qed.

Lemma calm_admit environ month_start constraints_ok rq i :
  calm (admit_lease_launch (F:=F) environ month_start constraints_ok rq i).
Proof.
  unfold admit_lease_launch, planned. pose proof (keeps_instant (F:=F) loses_pods).
  do 6 (apply keeps_bind; [by keep|intro]). intros w. unfold loses_pods.
  by destruct (try_launch _ _ _ _ _ _ _ _ _ _ _ _ _) as [[]|].
Qed.
End Calm.

(** ** The row of the lease *)

(** The table has a row under [lease_id] for the pod. *)
Definition names_pod (lease_id pod_id : string) (db : lease_db) : Prop :=
  exists row, leases db !! lease_id = Some row /\ ls_runpod_pod_id row = pod_id.

Lemma update_names lease_id i db j f :
  (forall r, ls_runpod_pod_id (f r) = ls_runpod_pod_id r) ->
  names_pod lease_id i db -> names_pod lease_id i (update_lease db j f).1.
Proof.
  intros Hf (row & E & Ei). unfold update_lease. destruct (leases db !! j) as [r|] eqn:Ej; [|by exists row].
  destruct (negb _); [by exists row|]. unfold names_pod. simpl. destruct (decide (j = lease_id)) as [->|Hne].
  - rewrite lookup_insert_eq. eexists. split; [done|]. rewrite Hf. congruence.
  - rewrite lookup_insert_ne by done. by exists row.
Qed.

Section Rows.
Context {F : Type} `{RunPodApi F} (parse_instant : pyval -> option Z).

Lemma callback_names lease_id provider_id created expiry endpoints pod i (w w' : world F) :
  pre_lease_persist_callback lease_id provider_id created expiry endpoints pod w = (w', Ok tt) ->
  pod_named i pod -> names_pod lease_id (strip i) (lw_leases w').
Proof.
  unfold pre_lease_persist_callback. intros E [Hid Hi]. rewrite Hid, Hi in E. cbn [negb] in E.
  destruct (negb (valid_lease _)); [done|]. unfold upsert_initial_lease in E.
  destruct (_ && _); [|done]. injection E as <-. unfold names_pod. cbn.
  eexists. by rewrite lookup_insert_eq.
Qed.

Lemma persist_names lease_id i pod (w : world F) :
  names_pod lease_id i (lw_leases w) ->
  names_pod lease_id i (lw_leases (persist_ready_lease parse_instant lease_id pod w).1).
Proof.
  intros Hn. unfold persist_ready_lease, bind at 1, lift.
  destruct (lease_readiness_from_ready_pod parse_instant pod) as [rd|]; [|done].
  assert (forall A (f : lease_db -> lease_db * result lease_db_error A) (k : A -> eff (world F) launch_error unit) w,
            (forall db, names_pod lease_id i db -> names_pod lease_id i (f db).1) ->
            (forall a w, names_pod lease_id i (lw_leases w) -> names_pod lease_id i (lw_leases (k a w).1)) ->
            names_pod lease_id i (lw_leases w) -> names_pod lease_id i (lw_leases (bind (on_leases f) k w).1)) as Hb.
  { intros A f k w1 Hf Hk H1. unfold bind, on_leases. specialize (Hf _ H1).
    destruct (f (lw_leases w1)) as [db [a|e]]; simpl in *; [by apply Hk|done]. }
  do 4 (apply Hb; [intros; by apply update_names| |done]; clear w Hn; intros _ w Hn). done.
Qed.

Lemma finish_names pid lease_id i o (w : world F) :
  names_pod lease_id i (lw_leases w) ->
  names_pod lease_id i (lw_leases (finish_launch parse_instant pid lease_id (Ok o) w).1).
Proof.
  intros Hn. destruct o as [p|]; [|done]. unfold finish_launch, bind.
  pose proof (persist_names lease_id i p w Hn) as Hp.
  by destruct (persist_ready_lease parse_instant lease_id p w) as [w1 [[]|e]].
Qed.
End Rows.

(** The row of a lease that was marked active. *)
Definition active_row (rd : LeaseReadiness) (r : lease_row) : lease_row :=
  MkLease (ls_provider_id r) (ls_runpod_pod_id r) ACTIVE (ls_created_at r) (ls_expires_at r)
    (ls_renewal_policy r) (ls_auto_teardown r) (ls_endpoints r) (Some rd) (ls_cost_accrued r)
    (ls_last_health_at r) (ls_terminated_at r) (ls_terminated_reason r).

Lemma on_leases_Ok {F} i row f g (w w' : world F) (a : option lease_row) :
  leases (lw_leases w) !! i = Some row -> (forall db, f db = update_lease db i g) ->
  on_leases f w = (w', Ok a) -> leases (lw_leases w') !! i = Some (g row).
Proof.
  intros Hrow Hf. unfold on_leases. rewrite Hf. unfold update_lease. rewrite Hrow.
  destruct (negb _); [done|]. destruct (rmap _ _); [|done]. intros [= <- _]. simpl. apply lookup_insert_eq.
Qed.

Lemma persist_Ok {F} parse_instant i pod row (w w' : world F) :
  leases (lw_leases w) !! i = Some row ->
  persist_ready_lease parse_instant i pod w = (w', Ok tt) ->
  exists rd, lease_readiness_from_ready_pod parse_instant pod = Ok rd /\
    leases (lw_leases w') !! i = Some (active_row rd row).
Proof.
  intros Hrow (rd & w1 & [= <- Erd] & E)%bind_Ok. exists rd. split; [done|].
  apply bind_Ok in E as (? & w2 & E1 & E). eapply on_leases_Ok in E1; [|done|by intros].
  apply bind_Ok in E as (? & w3 & E2 & E). eapply on_leases_Ok in E2; [|done|by intros].
  apply bind_Ok in E as (? & w4 & E3 & E). eapply on_leases_Ok in E3; [|done|by intros].
  apply bind_Ok in E as (? & w5 & E4 & [= ->]). eapply on_leases_Ok in E4; [|done|by intros].
  by rewrite E4.
Qed.

Section Orphans.
Context {F : Type} `{QuietDeps F}.
Context (environ : string -> option string) (sha256_hex : string -> string).
Context (month_start : Z -> Z) (constraints_ok : workload_row -> bool).
Context (parse_instant : pyval -> option Z).

Lemma calm_callback lease_id provider_id created expiry endpoints pod :
  calm (pre_lease_persist_callback (F:=F) lease_id provider_id created expiry endpoints pod).
Proof.
  intros w. unfold loses_pods, pre_lease_persist_callback. destruct (negb (has_id pod)); [done|].
  destruct (negb (valid_lease _)); [done|]. by destruct (upsert_initial_lease _ _ _ _).
Qed.

Definition cap_readable (p : Provider) : Prop :=
  forall f, max_cost_per_hr p = Ok (Some f) -> is_ok (max_cost_per_hr_decimal f) = true.

(** A run after which every new pod has its row. *)
Definition recorded {A} (lease_id : string) (m : eff (world F) launch_error A) (w : world F) : Prop :=
  forall i, i ∈ live (lw_outside (m w).1) -> i ∉ live (lw_outside w) ->
    names_pod lease_id (strip i) (lw_leases (m w).1).

Lemma recorded_after {A B} lease_id (m : eff (world F) launch_error A) (k : A -> eff (world F) launch_error B) w :
  calm m -> (forall a w1, m w = (w1, Ok a) -> recorded lease_id (k a) w1) -> recorded lease_id (bind m k) w.
Proof.
  intros Hm Hk i. specialize (Hm w). unfold bind. destruct (m w) as [w1 [a|e]]; simpl in *.
  - intros Hi Hn. eapply Hk; [done..|]. intros Hi1. apply Hn. by apply Hm.
  - intros Hi Hn. by apply Hm in Hi.
Qed.

Lemma recorded_calm {A} lease_id (m : eff (world F) launch_error A) w : calm m -> recorded lease_id m w.
Proof. intros Hm i Hi Hn. by apply Hm in Hi. Qed.

Lemma recorded_ret {A B} lease_id (m : eff (world F) launch_error A) (g : A -> B) w :
  recorded lease_id m w -> recorded lease_id (do! a := m in ret (g a)) w.
Proof. unfold recorded, bind, ret. by destruct (m w) as [w1 [a|e]]. Qed.

Context (Hd : deletes_answered (F:=world F)) (Hr : fetches_readable (F:=world F)).
Context (Hnamed : fetched_named (F:=world F) environ).

Lemma create_and_keep_recorded fuel lease_id pid created expiry eps preq w :
  cap_valid preq ->
  recorded lease_id (create_and_keep environ parse_instant fuel lease_id pid created expiry eps preq) w.
Proof.
  intros Hc i. unfold create_and_keep.
  set (f := pre_lease_persist_callback _ _ _ _ _).
  pose proof (create_pod_safe environ fuel preq (Some f) w Hd Hr Hc) as Hs.
  specialize (Hs ltac:(intros g q [= <-]; apply calm_callback)).
  destruct (create_pod_with_fallback_sync environ fuel preq (Some f) w) as [w1 [o|e]] eqn:Ec;
    cbn beta iota; intros Hi Hn.
  - destruct (create_pod_started same_leases sleep_same environ f fuel preq w w1 o Hd Hr Hnamed Hc
                ltac:(intros; apply calm_callback) Ec)
      as (j & pod & wa & wb & _ & _ & Hl & Hj & Ef & HR).
    assert (i = j) as ->.
    { apply (calm_finish parse_instant) in Hi. cbn [live world_lawful] in Hl. set_solver. }
    apply finish_names. unfold same_leases in HR. rewrite HR. by eapply callback_names.
  - exfalso. apply Hn. apply (calm_finish parse_instant) in Hi. simpl in Hs. by apply Hs.
Qed.

(** A creation that succeeded wrote the row its callback made. *)
Lemma create_and_keep_launched fuel lease_id pid created expiry eps preq w w' p n l :
  cap_valid preq ->
  create_and_keep environ parse_instant fuel lease_id pid created expiry eps preq w = (w', Ok (Launched p n l)) ->
  l = lease_id /\ exists i rd,
    leases (lw_leases w') !! lease_id =
      Some (active_row rd (strip_lease (initial_lease pid i created expiry eps))) /\
    has_active_signals rd = true.
Proof.
  intros Hc. unfold create_and_keep. set (f := pre_lease_persist_callback _ _ _ _ _).
  destruct (create_pod_with_fallback_sync environ fuel preq (Some f) w) as [w1 [o|e]] eqn:Ec.
  2: { destruct e; simpl; try done. by intros (? & ? & _ & [=])%bind_Ok. }
  destruct (create_pod_started same_leases sleep_same environ f fuel preq w w1 o Hd Hr Hnamed Hc
              ltac:(intros; apply calm_callback) Ec)
    as (j & pod & wa & wb & _ & _ & _ & [Hj1 Hj2] & Ef & HR).
  destruct o as [q|]; [|done]. cbn [finish_launch]. intros ([] & w2 & Ep & [= <- _ _ <-])%bind_Ok.
  split; [done|]. exists j. unfold f, pre_lease_persist_callback in Ef. rewrite Hj1, Hj2 in Ef. cbn [negb] in Ef.
  destruct (negb (valid_lease _)); [done|]. unfold upsert_initial_lease in Ef.
  destruct (_ && _); [|done]. injection Ef as <-. unfold same_leases in HR.
  eapply persist_Ok in Ep as (rd & Erd & El); [|rewrite HR; apply lookup_insert_eq].
  exists rd. split; [done|]. unfold lease_readiness_from_ready_pod in Erd.
  destruct (dict_get_none "readiness" q); try done. destruct (validate_readiness _ _); [|done].
  by destruct (has_active_signals l) eqn:E; [injection Erd as <-|].
Qed.

Lemma launch_pod_recorded fuel rq pid pname uuid plan w :
  cap_readable (lq_provider rq) ->
  recorded (lease_id_for_launch pid uuid) (launch_pod environ parse_instant fuel rq pid pname uuid plan) w.
Proof.
  intros Hcap. unfold launch_pod, planned. apply recorded_after; [apply keeps_instant, _|]. intros t w9 _; clear w; rename w9 into w.
  do 2 (apply recorded_after; [apply keeps_lift|]; intros ? ? _).
  apply recorded_after; [apply keeps_lift|]. intros cap w9 [= _ Ecap].
  apply create_and_keep_recorded. intros g. simpl. intros ->. apply Hcap.
  by destruct (max_cost_per_hr (lq_provider rq)); simplify_eq/=.
Qed.

Lemma run_launch_recorded fuel rq wid uuid w :
  cap_readable (lq_provider rq) ->
  recorded (lease_id_for_launch (strip (p_id (lq_provider rq))) uuid)
    (run_launch environ sha256_hex month_start constraints_ok parse_instant fuel rq wid uuid) w.
Proof.
  intros Hcap. unfold run_launch, planned.
  do 2 (apply recorded_after; [apply keeps_lift|]; intros ? ? _).
  apply recorded_after; [|intros ? ? _].
  { destruct (lq_dry_run rq); [apply keeps_ret|]. apply keeps_bind; [apply calm_admit|intro; apply keeps_ret]. }
  apply recorded_after; [apply calm_prepare|intros plan ? _].
  apply recorded_after; [apply keeps_lift|]; intros ? ? _.
  apply recorded_after; [apply keeps_lift|]. intros pid w9 [= _ E].
  destruct (required_attr "id" (p_id (lq_provider rq))) as [pid'|] eqn:Ep; [|done].
  apply required_attr_Ok in Ep as [-> _]. injection E as <-.
  destruct (lq_dry_run rq); [apply recorded_calm, keeps_ret|].
  apply recorded_ret. by apply launch_pod_recorded.
Qed.
End Orphans.

(** ** After the admission the workload table stays *)

Definition same_workloads {F} (w w' : world F) : Prop := lw_workloads w' = lw_workloads w.

Lemma within_workloads {F A} (f : F -> F * A) w : same_workloads w (within f w).1.
Proof. unfold same_workloads, within. by destruct (f (lw_outside w)). Qed.
#[export] Instance workloads_quiet {F} `{RunPodApi F} : QuietApi (F:=world F) same_workloads.
Proof.
  split; [|intros; apply within_workloads..].
  split; [by intros w|]. intros w1 w2 w3 E1 E2. unfold same_workloads in *. congruence.
Qed.

Section Admission.
Context {F : Type} `{RunPodApi F, TemplateApi F, StagingVendor F}.
Context (environ : string -> option string) (sha256_hex : string -> string).
Context (month_start : Z -> Z) (constraints_ok : workload_row -> bool).
Context (parse_instant : pyval -> option Z).

Lemma prepare_workloads rq : keeps same_workloads (prepare_lease_launch (F:=F) environ sha256_hex rq).
Proof.
  apply keeps_prepare; [apply _|intros; intros w|intros w].
  - unfold on_templates, same_workloads. by destruct (ensure_template _ _ _ _ _ _ _) as [[rows o] r].
  - unfold vend. pose proof (within_workloads vend_pod_credentials w). by destruct (within vend_pod_credentials w).
Qed.

Lemma create_and_keep_workloads fuel lease_id pid created expiry eps preq :
  keeps same_workloads
    (create_and_keep (F:=F) environ parse_instant fuel lease_id pid created expiry eps preq).
Proof.
  intros w. unfold create_and_keep. set (f := pre_lease_persist_callback _ _ _ _ _).
  assert (keeps same_workloads (create_pod_with_fallback_sync environ fuel preq (Some f))) as Hc.
  { apply keeps_create; [done|intros; apply within_workloads|]. intros g p [= <-]. intros w1. unfold f.
    unfold pre_lease_persist_callback. destruct (negb (has_id p)); [done|]. destruct (negb _); [done|].
    by destruct (upsert_initial_lease _ _ _ _). }
  specialize (Hc w). destruct (create_pod_with_fallback_sync _ _ _ _ w) as [w1 c]. simpl in *.
  etrans; [done|]. apply (keeps_finish same_workloads); done.
Qed.

Lemma launch_pod_workloads fuel rq pid pname uuid plan :
  keeps same_workloads (launch_pod (F:=F) environ parse_instant fuel rq pid pname uuid plan).
Proof.
  unfold launch_pod, planned. pose proof (keeps_instant (F:=F) same_workloads).
  pose proof create_and_keep_workloads. keep.
Qed.

(** What an admission leaves in the table. *)
Definition admitted (rq : launch_request) (new_id : string) (rows rows' : list workload_row) (i : string) : Prop :=
  exists row, row ∈ rows' /\ w_id row = i /\
    ((rows' = rows ++ [row] /\ i = new_id /\ w_provider_id row = strip (p_id (lq_provider rq)) /\
      w_idempotency_key row = lq_idempotency_key rq) \/
     (rows' = rows /\ is_Some (lq_idempotency_key rq) /\ w_idempotency_key row = lq_idempotency_key rq)).

Lemma find_first_elem {A} (g : A -> bool) l x : find_first g l = Some x -> x ∈ l /\ g x = true.
Proof.
  induction l as [|y l IH]; simpl; [done|]. destruct (g y) eqn:E.
  - intros [= <-]. split; [constructor|done].
  - intros Hx. destruct (IH Hx). split; [by constructor|done].
Qed.

Lemma admit_admitted rq new_id w w' i :
  admit_lease_launch environ month_start constraints_ok rq new_id w = (w', Ok i) ->
  admitted rq new_id (lw_workloads (F:=F) w) (lw_workloads w') i.
Proof.
  unfold admit_lease_launch, planned. intros (? & w1 & [= <- _] & E)%bind_Ok.
  apply bind_Ok in E as (est & w2 & [= <- _] & E). apply bind_Ok in E as (gate & w3 & [= <- _] & E).
  apply bind_Ok in E as (cid & w4 & [= <- _] & E). apply bind_Ok in E as (pid & w5 & [= <- Ep] & E).
  destruct (required_attr "id" (p_id (lq_provider rq))) as [t|] eqn:Et; [|done].
  apply required_attr_Ok in Et as [-> _]. injection Ep as <-.
  apply bind_Ok in E as (clock & w6 & En & E).
  pose proof (keeps_instant (F:=F) same_workloads w) as Hw. rewrite En in Hw. unfold same_workloads in Hw.
  simpl in Hw. rewrite Hw in E.
  destruct (try_launch _ _ _ _ _ _ _ _ _ _ _ _ _) as [[rows j]|] eqn:Etry; [|done].
  injection E as <- <-. cbn [lw_workloads]. unfold try_launch in Etry.
  destruct (try_launch_admission _ _ _ _ _ _ _ _ _ _ _ _ _) as [[[rows' adm] u]|] eqn:Ea; [|done].
  injection Etry as <- <-. unfold try_launch_admission in Ea.
  destruct (precheck _ _ _ _ _ _ _ _) as [l|] eqn:El; [|done]. simpl in Ea.
  assert (l_idempotency_key l = lq_idempotency_key rq /\ l_provider_id l = strip (p_id (lq_provider rq))) as [Hk Hp].
  { unfold precheck in El. destruct (rlift _ _); [|done]. simpl in El. unfold reject in El.
    destruct (lq_idempotency_key rq); [by injection El as <-|]. destruct (dltb _ _); [|by injection El as <-].
    by destruct (budget_snapshot _ _ _). }
  unfold admit_launch in Ea. rewrite Hk in Ea. destruct (find_by_key (lw_workloads w) _) as [k|] eqn:Ef.
  - injection Ea as <- <- _. unfold find_by_key in Ef. destruct (lq_idempotency_key rq) as [key|] eqn:Ekey; [|done].
    apply fmap_Some in Ef as (row & Ef & ->). apply find_first_elem in Ef as [Hin Hk'].
    exists row. split_and!; [done|done|]. right. rewrite Ekey. split_and!; [done|by eexists|].
    unfold has_key in Hk'. by apply bool_decide_eq_true in Hk'.
  - simpl in Ea. unfold reject in Ea. destruct (dltb _ _); [by destruct (budget_snapshot _ _ _)|].
    destruct (budget_check _ _ _); [|done]. simpl in Ea.
    destruct (insert_row _ _ _ _) as [row|] eqn:Ei; [|done]. injection Ea as <- <- _.
    unfold insert_row in Ei. destruct (to_numeric_12_6 _); [|done]. destruct (_ || _); [done|].
    injection Ei as <-. eexists. split; [apply elem_of_app; right; by constructor|]. split; [done|].
    left. simpl. by rewrite Hk, Hp.
Qed.
End Admission.

(** Theorems *)


(** C3: No pod without an admission.  If a pod exists after a launch that did
    not exist before, the launch was no dry run, its cost passed the budget
    gate, and the workload table holds the workload that pays for it: the row
    the gate wrote, the only change of the table, or the row that an earlier
    launch left under the same idempotency key. *)
Theorem pods_are_admitted {F} `{QuietDeps F} (environ : string -> option string)
    (sha256_hex : string -> string) (month_start : Z -> Z) (constraints_ok : workload_row -> bool)
    (parse_instant : pyval -> option Z) (fuel : nat) (rq : launch_request) (workload_uuid lease_uuid : string)
    (w w' : world F) (r : result launch_error launch_response) (i : string)
    (Hrun : run_launch environ sha256_hex month_start constraints_ok parse_instant fuel rq workload_uuid
              lease_uuid w = (w', r))
    (Hi : i ∈ live (lw_outside w')) (Hnew : i ∉ live (lw_outside w)) :
  lq_dry_run rq = false /\
  exists j, admitted rq workload_uuid (lw_workloads w) (lw_workloads w') j /\
    match r with Ok resp => lr_workload_id resp = Some j | Err _ => True end.
Proof.
  unfold run_launch, planned, bind at 1, lift at 1 in Hrun.
  destruct (required_attr "name" (Registry.c_name _)); [|by injection Hrun as <- <-].
  unfold bind at 1, lift at 1 in Hrun. destruct (required_attr "name" (p_name _)); [|by injection Hrun as <- <-].
  cbn [rlift] in Hrun. destruct (lq_dry_run rq) eqn:Edry.
  { exfalso. apply Hnew. revert Hi. apply (f_equal (fun o => live (lw_outside o.1))) in Hrun. cbn [fst] in Hrun.
    rewrite <- Hrun. match goal with |- _ ∈ live (lw_outside (?m w).1) -> _ => assert (calm m) as Hm end;
      [|by apply Hm]. pose proof (calm_prepare environ sha256_hex). keep. }
  split; [done|]. unfold bind at 1, bind at 1 in Hrun.
  pose proof (calm_admit environ month_start constraints_ok rq workload_uuid w) as Ha.
  destruct (admit_lease_launch _ _ _ _ _ w) as [w1 [j|e]] eqn:Ej.
  2: { injection Hrun as <- <-. by apply Ha in Hi. }
  apply admit_admitted in Ej. exists j. cbn [ret] in Hrun.
  assert (forall A (m : eff (world F) launch_error A), keeps same_workloads m -> lw_workloads (m w1).1 = lw_workloads w1)
    as Hk by (intros A m Hm; apply Hm).
  match type of Hrun with ?m w1 = _ => assert (keeps same_workloads m) as Hm end.
  { pose proof (prepare_workloads (F:=F) environ sha256_hex).
    pose proof (launch_pod_workloads (F:=F) environ parse_instant). keep. }
  apply Hk in Hm. rewrite Hrun in Hm. simpl in Hm. split; [by rewrite Hm|].
  destruct r as [resp|]; [|done].
  apply bind_Ok in Hrun as (plan & w2 & _ & E). apply bind_Ok in E as (cid & w3 & _ & E).
  apply bind_Ok in E as (pid & w4 & _ & E). by apply bind_Ok in E as (o & w5 & _ & [= _ <-]).
Qed.


(** Witnesses *)

(** A RunPod that answers a fetch with the pod asked for, the next status of
    its script, and a price of a dollar. *)
Module LaunchSim.
Record outside : Type := MkOutside {
  pods : list string;
  posts : list http_reply;
  runtimes : list dict;
  clock : Z;
}.

Definition fetched (i : string) (runtime : dict) : http_reply :=
  if nonempty i
  then Sim.answer (VDict [("id", VStr i); ("costPerHr", VInt 1); ("gpuCount", VInt 1); ("runtime", VDict runtime)])
  else Sim.not_found.

#[export] Instance api : RunPodApi outside := {|
  send method path body w :=
    if String.eqb method "POST" then
      let r := hd Sim.broken (posts w) in
      (MkOutside (elements (created r) ++ pods w) (tl (posts w)) (runtimes w) (clock w), r)
    else if String.eqb method "DELETE" then
      (MkOutside (filter (fun i => i <> Sim.drop5 path) (pods w)) (posts w) (runtimes w) (clock w),
       Reply 204 "" (Err ""))
    else (MkOutside (pods w) (posts w) (tl (runtimes w)) (clock w), fetched (Sim.drop5 path) (hd [] (runtimes w)));
  sdk_get_pod i w := (w, None);
  http_get url w := (w, ProbeStatus 200);
  monotonic w := (w, of_Z (clock w));
  sleep s w := MkOutside (pods w) (posts w) (runtimes w) (clock w + 300);
  utc_now w := (w, utc (1700000000000000 + clock w * 1000000));
|}.

#[local] Obligation Tactic := idtac.
#[export] Program Instance lawful : LawfulRunPod outside := {| live w := list_to_set (pods w) |}.
Next Obligation. done. Qed.
Next Obligation. intros body w. simpl. set_solver. Qed.
Next Obligation. intros i w. simpl. intros x. rewrite !elem_of_list_to_set, list_elem_of_filter. by intros [_ ?]. Qed.
Next Obligation.
  intros i w _. simpl. rewrite elem_of_list_to_set, list_elem_of_filter. intros [Hn _]. apply Hn.
  unfold Sim.drop5. simpl. rewrite Nat.sub_0_r. by rewrite Sim.substring_all.
Qed.
Next Obligation. done. Qed.
Next Obligation. done. Qed.
Next Obligation. done. Qed.
Next Obligation. done. Qed.
Next Obligation. done. Qed.

#[export] Instance templates : TemplateApi outside := {|
  create_template display _ _ _ _ _ w := (w, Ok (VDict [("id", VStr "tmpl-12345678")]));
  list_my_templates w := (w, Ok []);
|}.
#[export] Instance staging : StagingVendor outside := {| vend_pod_credentials w := (w, Ok []) |}.
#[export] Instance quiet : QuietDeps outside.
Proof. by split. Defined.

Lemma answered : deletes_answered (F:=world outside).
Proof. intros i w. reflexivity. Qed.
Lemma fetch_readable i (w : world outside) :
  (send "GET" ("pods/" +:+ i) None w).2 = fetched i (hd [] (runtimes (lw_outside w))).
Proof.
  cbn [send world_runpod]. rewrite within_snd. simpl. unfold Sim.drop5. simpl.
  by rewrite Nat.sub_0_r, Sim.substring_all.
Qed.
Lemma readable_all : fetches_readable (F:=world outside).
Proof. intros i w. rewrite fetch_readable. unfold fetched. by destruct (nonempty i). Qed.
Lemma named environ : fetched_named (F:=world outside) environ.
Proof.
  intros key i w w' p.
  destruct (require_api_key environ key) as [k|] eqn:Ek.
  2: { unfold get_pod_sync, get_pod_body, rest_request, bind, lift. rewrite Ek.
       by rewrite (require_api_key_Err _ _ _ Ek). }
  set (m := [("id", VStr i); ("costPerHr", VInt 1); ("gpuCount", VInt 1);
             ("runtime", VDict (hd [] (runtimes (lw_outside w))))]).
  assert (exists w1, rest_request environ key "GET" ("pods/" +:+ i) None w =
            (w1, if nonempty i then Ok (VDict m) else Err (RunPodRestError "GET" ("pods/" +:+ i) 404 "not found")))
    as [w1 E1].
  { unfold rest_request, bind, lift, ask. rewrite Ek. pose proof (fetch_readable i w) as Ef.
    destruct (send "GET" ("pods/" +:+ i) None w) as [w1 rep]. simpl in Ef. subst rep. exists w1.
    unfold fetched. by destruct (nonempty i). }
  unfold get_pod_sync, get_pod_body. destruct (nonempty i) eqn:Ei.
  2: { unfold bind at 1. by rewrite E1. }
  rewrite (bind_run _ _ _ _ _ E1).
  assert (pod_named i (normalize_dict m)) as Hn.
  { unfold pod_named, has_id. rewrite normalize_id. by split. }
  destruct (negb _ || _); [by intros [= _ <-]|].
  unfold bind, sdk_get_pod_sync. rewrite Ek. unfold bind, ask, ret. cbn. by intros [= _ <-].
Qed.

Definition parse_instant (v : pyval) : option Z :=
  match v with VStr s => dt_us <$> fromisoformat s | _ => None end.

Definition request (provider : Provider) : launch_request :=
  MkLaunchRequest PlanSim.capability provider None VNone [] (Some (MkGate (of_int 100) (of_int 50))) (Some "key-1")
    false (Some "rp-key").
Definition created_pod (i : string) : http_reply :=
  Sim.answer (VDict [("id", VStr i); ("costPerHr", VInt 1); ("gpuCount", VInt 1)]).
Definition start : world outside :=
  MkWorld [] (MkLeaseDb ∅ ∅ []) [] (Registry.MkRegistry ∅ {["prov-1" := PlanSim.provider]} [])
    (MkOutside ["other"] [created_pod "b"; created_pod "c"] [[]; Sim.up; []; Sim.up] 0).
Definition run (fuel : nat) (rq : launch_request) (workload_uuid lease_uuid : string) (w : world outside)
  : world outside * result launch_error launch_response :=
  run_launch PlanSim.environ TemplateSim.sha flat_month any_row parse_instant fuel rq workload_uuid lease_uuid w.
Definition outcome (o : world outside * result launch_error launch_response) : option launch_outcome :=
  match o.2 with Ok r => Some (lr_outcome r) | Err _ => None end.
Definition once : world outside * result launch_error launch_response :=
  run 5 (request PlanSim.provider) "wl-1" "0123456789abcdef" start.
Definition lease_view (w : world outside) : list (string * (string * LeaseState)) :=
  (fun kv => (kv.1, (ls_runpod_pod_id kv.2, ls_state kv.2))) <$> map_to_list (leases (lw_leases w)).

Example once_ex :
  outcome once = Some (Launched (Some "b") VNone "lease_prov_1_0123456789ab") /\
  pods (lw_outside once.1) = ["b"; "other"] /\ length (lw_workloads once.1) = 1%nat /\
  lease_view once.1 = [("lease_prov_1_0123456789ab", ("b", ACTIVE))].
Proof. vm_compute. auto. Qed.

(** Cut in the middle of the wait, the pod has its row. *)
Example waiting_ex :
  let o := run 1 (request PlanSim.provider) "wl-1" "0123456789abcdef" start in
  outcome o = Some (Waiting "lease_prov_1_0123456789ab") /\ pods (lw_outside o.1) = ["b"; "other"] /\
  lease_view o.1 = [("lease_prov_1_0123456789ab", ("b", CREATING))].
Proof. vm_compute. auto. Qed.

(** The retry of a launch with its idempotency key is admitted by the first
    one's workload and creates a second pod with a second lease. *)
Example retry_launches_again :
  let o := run 5 (request PlanSim.provider) "wl-2" "fedcba9876543210" once.1 in
  pods (lw_outside o.1) = ["c"; "b"; "other"] /\ length (lw_workloads o.1) = 1%nat /\
  length (lease_view o.1) = 2%nat.
Proof. vm_compute. auto. Qed.

(** When no pod comes up the launch fails, and its lease stays "creating" for
    a pod that is gone; the workload stays queued. *)
Example failed_launch_ex :
  let w := MkWorld (lw_workloads start) (lw_leases start) (lw_templates start) (lw_registry start)
             (MkOutside ["other"] [created_pod "b"] [] 0) in
  let o := run 9 (request PlanSim.provider) "wl-1" "0123456789abcdef" w in
  outcome o = None /\ pods (lw_outside o.1) = ["other"] /\ length (lw_workloads o.1) = 1%nat /\
  lease_view o.1 = [("lease_prov_1_0123456789ab", ("b", CREATING))].
Proof. vm_compute. auto. Qed.
End LaunchSim.

#[local] Existing Instances LaunchSim.api LaunchSim.lawful LaunchSim.templates LaunchSim.staging LaunchSim.quiet.


Lemma pods_are_admitted_witness :
  exists j, admitted (LaunchSim.request PlanSim.provider) "wl-1" [] (lw_workloads LaunchSim.once.1) j.
Proof.
  destruct (pods_are_admitted PlanSim.environ TemplateSim.sha flat_month any_row LaunchSim.parse_instant 5
           (LaunchSim.request PlanSim.provider) "wl-1" "0123456789abcdef" LaunchSim.start LaunchSim.once.1
           LaunchSim.once.2 "b") as (_ & j & Hj & _).
  - unfold LaunchSim.once, LaunchSim.run. by destruct (run_launch _ _ _ _ _ _ _ _ _ _).
  - apply (bool_decide_unpack _). vm_compute. reflexivity.
  - intros Hin. apply (bool_decide_pack _) in Hin. vm_compute in Hin. destruct Hin.
  - exists j. exact Hj.
Defined.

