(* ===== verification/WebhookSigner.v ===== *)
(** * Webhook signatures ([webhook_dispatcher/signer.py])

    [t=<seconds>,v1=<HMAC of "seconds.body">].  The HMAC is a parameter, which
    a theorem assumes to write hexadecimal digits.  Headers are Latin-1 text. *)

From Stdlib Require Import Ascii.
From S2P Require Import Prelude PyDecimal PyFloat PyValue PyFormat PyJson PyJsonRead.

(** Definitions *)

(** [p.split(sep, 1)] of a text that has the separator. *)
Fixpoint split_once (sep : ascii) (s : string) : option (string * string) :=
  match s with
  | EmptyString => None
  | String c s' =>
      if Ascii.eqb c sep then Some (EmptyString, s')
      else match split_once sep s' with Some (a, b) => Some (String c a, b) | None => None end
  end.

(** The pairs of a header; the last of two equal names wins. *)
Definition header_parts (header : string) : list (string * string) :=
  foldl (fun parts kv => al_set kv.1 kv.2 parts) [] (omap (split_once "="%char) (split_on ","%char header)).

Definition is_ascii (c : ascii) : bool := (nat_of_ascii c <? 128)%nat.

Section Signer.
Context (hmac_sha256 : string -> string -> string).

(** [sign] at a given time. *)
Definition sign (body secret : string) (timestamp : Z) : string :=
  "t=" +:+ str_int timestamp +:+ ",v1=" +:+ hmac_sha256 secret (str_int timestamp +:+ "." +:+ body).

(** [hmac.compare_digest]: text must be ASCII. *)
Definition compare_digest (a b : string) : py bool :=
  if all_chars is_ascii a && all_chars is_ascii b then Ok (String.eqb a b)
  else Err (TypeError "comparing strings with non-ASCII characters is not supported").

(** [verify], [now] being [int(time.time())]. *)
Definition verify (now : Z) (body header secret : string) (max_age : Z) : py bool :=
  if negb (existsb (Ascii.eqb ","%char) (String.list_ascii_of_string header)) then Ok false
  else
    let parts := header_parts header in
    match al_get "t" parts, al_get "v1" parts with
    | Some t, Some _ =>
        match parse_int t with
        | None => Ok false
        | Some timestamp =>
            if max_age <? Z.abs (now - timestamp) then Ok false
            else compare_digest (sign body secret timestamp) header
        end
    | _, _ => Ok false
    end.
End Signer.

(** What [hexdigest] writes. *)
Definition is_hex (c : ascii) : bool :=
  is_digit c || (let n := nat_of_ascii c in ((97 <=? n) && (n <=? 102))%nat).
Definition hexdigest (h : string -> string -> string) : Prop := forall k m, all_chars is_hex (h k m) = true.

(** A function in place of the HMAC: digits that depend on both arguments. *)
Definition toy_hmac (key message : string) : string :=
  str_int (foldl (fun acc c => (acc * 31 + Z.of_nat (nat_of_ascii c)) mod 1000003) 7
             (String.list_ascii_of_string (key +:+ message))).

(** Lemmas *)

Lemma toy_hmac_hex : hexdigest toy_hmac.
Proof.
  intros k m. apply (all_chars_impl is_digit); [intros c Hc; unfold is_hex; by rewrite Hc|].
  apply str_int_digits. unfold toy_hmac. generalize (String.list_ascii_of_string (k +:+ m)). intros l.
  assert (forall acc, 0 <= acc ->
    0 <= foldl (fun acc c => (acc * 31 + Z.of_nat (nat_of_ascii c)) mod 1000003) acc l) as H; [|apply H; lia].
  induction l as [|c l IH]; intros acc Hacc; [done|]. simpl. apply IH. apply Z.mod_pos_bound. lia.
Qed.

Lemma split_on_none sep s : all_chars (fun c => negb (Ascii.eqb c sep)) s = true -> split_on sep s = [s].
Proof.
  induction s as [|c s IH]; [done|]. simpl. intros [Hc Hs]%andb_true_iff.
  rewrite IH by done. by destruct (Ascii.eqb c sep).
Qed.

Lemma split_on_app sep a b :
  all_chars (fun c => negb (Ascii.eqb c sep)) a = true -> split_on sep (a +:+ String sep b) = a :: split_on sep b.
Proof.
  induction a as [|c a IH]; simpl; [by rewrite Ascii.eqb_refl|]. intros [Hc Ha]%andb_true_iff.
  rewrite IH by done. by destruct (Ascii.eqb c sep).
Qed.

Lemma str_int_chars (p : ascii -> bool) z :
  p "-"%char = true -> (forall c, is_digit c = true -> p c = true) -> all_chars p (str_int z) = true.
Proof.
  intros Hm Hd. destruct z as [|q|q].
  - simpl. by rewrite Hd.
  - by apply (all_chars_impl is_digit), str_pos_digits.
  - rewrite str_int_neg. cbn [all_chars]. rewrite Hm. by apply (all_chars_impl is_digit), str_pos_digits.
Qed.

Lemma sign_split h body secret ts : hexdigest h ->
  split_on ","%char (sign h body secret ts)
  = ["t=" +:+ str_int ts; "v1=" +:+ h secret (str_int ts +:+ "." +:+ body)].
Proof.
  intros Hh. unfold sign. rewrite <- app_assoc_s. rewrite (app_cons_s ","%char "v1=").
  rewrite split_on_app; [|simpl; apply str_int_chars; [done|intros c; by destruct c as [[] [] [] [] [] [] [] []]]].
  f_equal. apply split_on_none. simpl. eapply all_chars_impl; [|apply Hh].
  intros c. by destruct c as [[] [] [] [] [] [] [] []].
Qed.

Lemma sign_parts h body secret ts : hexdigest h ->
  header_parts (sign h body secret ts)
  = [("t", str_int ts); ("v1", h secret (str_int ts +:+ "." +:+ body))].
Proof. intros Hh. unfold header_parts. by rewrite sign_split. Qed.

Lemma sign_ascii h body secret ts : hexdigest h -> all_chars is_ascii (sign h body secret ts) = true.
Proof.
  intros Hh. unfold sign. rewrite !all_chars_app. rewrite str_int_chars; [|done|].
  - simpl. eapply all_chars_impl; [|apply Hh]. intros c. by destruct c as [[] [] [] [] [] [] [] []].
  - intros c. by destruct c as [[] [] [] [] [] [] [] []].
Qed.

Lemma has_comma a b :
  existsb (Ascii.eqb ","%char) (String.list_ascii_of_string (a +:+ String ","%char b)) = true.
Proof. induction a as [|c a IH]; [done|]. simpl. by rewrite IH, orb_true_r. Qed.

(** A fresh signature verifies. *)
Lemma verify_sign h now body secret ts max_age :
  hexdigest h -> Z.abs (now - ts) <= max_age ->
  verify h now body (sign h body secret ts) secret max_age = Ok true.
Proof.
  intros Hh Hage. unfold verify.
  assert (sign h body secret ts = ("t=" +:+ str_int ts) +:+ String ","%char ("v1=" +:+ h secret (str_int ts +:+ "." +:+ body)))
    as E by (unfold sign; by rewrite app_assoc_s).
  rewrite E at 1. rewrite has_comma. cbn [negb]. clear E.
  rewrite sign_parts by done.
  lazymatch goal with |- context [al_get "t" ?l] =>
    change (al_get "t" l) with (Some (str_int ts));
    change (al_get "v1" l) with (Some (h secret (str_int ts +:+ "." +:+ body))) end.
  cbn zeta iota. rewrite parse_int_str_int.
  rewrite (proj2 (Z.ltb_ge _ _)) by done. unfold compare_digest. rewrite sign_ascii by done. simpl.
  by rewrite String.eqb_refl.
Qed.

Lemma verify_true h now body header secret max_age :
  verify h now body header secret max_age = Ok true ->
  exists ts, header = sign h body secret ts /\ Z.abs (now - ts) <= max_age.
Proof.
  unfold verify. destruct (negb _); [done|].
  destruct (al_get "t" _) as [t|]; [|done]. destruct (al_get "v1" _); [|done].
  destruct (parse_int t) as [ts|]; [|done]. destruct (Z.ltb_spec max_age (Z.abs (now - ts))); [done|].
  unfold compare_digest. destruct (_ && _); [|done]. intros E. exists ts. split; [|done].
  destruct (String.eqb_spec (sign h body secret ts) header); [done|discriminate E].
Qed.

(** ** Theorems *)

(** [verify] accepts exactly the headers [sign] writes for this body and this
    secret at a time at most [max_age] away, before or after. *)
Theorem verify_exact h now body header secret max_age :
  hexdigest h ->
  verify h now body header secret max_age = Ok true <->
  exists ts, header = sign h body secret ts /\ Z.abs (now - ts) <= max_age.
Proof.
  intros Hh. split; [apply verify_true|]. intros (ts & -> & Hage). by apply verify_sign.
Qed.

(** A header can be replayed for twice [max_age]: when it is first accepted
    its time may lie in the future. *)
Lemma replay_window h now now' body header secret max_age :
  verify h now body header secret max_age = Ok true -> verify h now' body header secret max_age = Ok true ->
  hexdigest h -> Z.abs (now - now') <= 2 * max_age.
Proof.
  intros (ts & E & H1)%verify_true (ts' & E' & H2)%verify_true Hh.
  assert (ts = ts') as <-; [|lia]. rewrite E' in E. apply (f_equal header_parts) in E.
  rewrite !sign_parts in E by done. injection E as E _. apply (f_equal parse_int) in E.
  rewrite !parse_int_str_int in E. by injection E.
Qed.

Example verify_ex1 : verify toy_hmac 1000 "body" (sign toy_hmac "body" "s" 1200) "s" 300 = Ok true.
Proof. vm_compute. reflexivity. Qed.
Example verify_ex2 : verify toy_hmac 1000 "other" (sign toy_hmac "body" "s" 1200) "s" 300 = Ok false.
Proof. vm_compute. reflexivity. Qed.

(** A header outside ASCII with a fresh time raises instead of being refused. *)
Example verify_raises :
  verify toy_hmac 1000 "body" ("t=1000,v1=" +:+ utf8 233 EmptyString) "s" 300
  = Err (TypeError "comparing strings with non-ASCII characters is not supported").
Proof. vm_compute. reflexivity. Qed.

Lemma verify_exact_witness :
  hexdigest toy_hmac /\
  (verify toy_hmac 1000 "body" "t=900,v1=77" "s" 300 = Ok true <->
   exists ts, "t=900,v1=77" = sign toy_hmac "body" "s" ts /\ Z.abs (1000 - ts) <= 300).
Proof. split; [exact toy_hmac_hex|]. exact (verify_exact toy_hmac 1000 "body" "t=900,v1=77" "s" 300 toy_hmac_hex). Defined.
