(* ===== verification/WebhookReceiver.v ===== *)
(** * Webhooks from RunPod ([webhook_receiver/])

    A request passes the ingress guard (media type, size, one token bucket per
    client), then the handler checks its signature, reads its body, stores the
    delivery under (job, attempt) and, when the delivery is new and terminal,
    enqueues the job that reconciles the workload.  [ReceiverDeps] is the
    clock and the queue of background jobs; an uncaught exception is an HTTP
    500.

    Header names are lower case, as Starlette lists them.  Bodies are UTF-8
    without a byte-order mark. *)

From Stdlib Require Import Ascii SpecFloat.
From S2P Require Import Prelude PyDecimal PyFloat PyValue PyEq PyTime PyFormat PyJsonRead.
From S2P Require Import Effects RateLimit RequestKeys WebhookSigner.

(** Definitions *)

(** ** Events ([runpod.py]) *)

Definition ID_FIELD_VARIANTS : list string := ["id"; "job_id"; "jobId"; "runpod_job_id"].
Definition ATTEMPT_HEADER_VARIANTS : list string :=
  ["X-RunPod-Attempt"; "X-Runpod-Attempt"; "RunPod-Attempt"; "Runpod-Attempt"].

Definition headers := list (string * string).

Fixpoint first_some {A B} (f : A -> option B) (l : list A) : option B :=
  match l with [] => None | x :: l' => match f x with Some y => Some y | None => first_some f l' end end.

(** [_extract_id] *)
Definition text_field (payload : dict) (field : string) : option string :=
  match as_str (dict_get_none field payload) with
  | Some s => if nonempty (strip s) then Some (strip s) else None
  | None => None
  end.
Definition extract_id (payload : dict) : option string := first_some (text_field payload) ID_FIELD_VARIANTS.

(** [_extract_attempt]; a boolean is an integer. *)
Definition in_attempts (z : Z) : option Z := if (1 <=? z) && (z <=? 3) then Some z else None.
Definition payload_attempt (payload : dict) : option Z :=
  match dict_get_none "attempt" payload with
  | VInt z => in_attempts z
  | VBool b => in_attempts (Z.b2z b)
  | _ => None
  end.
(** [a or b] of two header values. *)
Definition header_or (a b : option string) : option string :=
  match a with Some s => if nonempty s then a else b | None => b end.
Definition header_attempt (hs : headers) (name : string) : option Z :=
  match header_or (al_get name hs) (al_get (lower name) hs) with
  | Some v => match parse_int (strip v) with Some z => in_attempts z | None => None end
  | None => None
  end.
Definition extract_attempt (payload : dict) (hs : headers) : Z :=
  match payload_attempt payload with
  | Some z => z
  | None => default 1 (first_some (header_attempt hs) ATTEMPT_HEADER_VARIANTS)
  end.

(** [normalize_runpod_webhook]; what the model refuses is a [ValueError]. *)
Record RunPodWebhookEvent : Type := MkEvent {
  e_runpod_job_id : string;
  e_status : string;
  e_attempt : Z;
  e_output : option dict;
  e_error : option string;
}.
Definition optional {A} (f : pyval -> option A) (v : pyval) : option (option A) :=
  match v with VNone => Some None | _ => Some <$> f v end.
Definition normalize_runpod_webhook (payload : dict) (hs : headers) : option RunPodWebhookEvent :=
  i ← extract_id payload;
  status ← as_str (default (VStr EmptyString) (dict_get "status" payload));
  output ← optional as_dict (dict_get_none "output" payload);
  error ← optional as_str (dict_get_none "error" payload);
  Some (MkEvent i status (extract_attempt payload hs) output error).

(** [_fallback_idempotency_key] *)
Definition fallback_idempotency_key (sha256 : string -> string) (payload : dict) (body : string) (hs : headers)
  : string :=
  match extract_id payload with
  | Some i => i
  | None =>
      match header_or (al_get "RunPod-Job-Id" hs) (al_get "X-RunPod-Job-Id" hs) with
      | Some v => if nonempty (strip v) then strip v else sha256 body
      | None => sha256 body
      end
  end.

(** What is stored and whose status is looked at. *)
Record delivery : Type := MkDelivery { d_job : string; d_attempt : Z; d_status : pyval }.
Definition delivery_of (sha256 : string -> string) (payload : dict) (body : string) (hs : headers) : delivery :=
  match normalize_runpod_webhook payload hs with
  | Some e => MkDelivery (e_runpod_job_id e) (e_attempt e) (VStr (e_status e))
  | None => MkDelivery (fallback_idempotency_key sha256 payload body hs) 1
              (default (VStr EmptyString) (dict_get "status" payload))
  end.
Definition d_key (d : delivery) : string * Z := (d_job d, d_attempt d).

(** ** Deliveries ([WebhookDeliveryRepository]) *)

Record delivery_row : Type := MkDeliveryRow { dr_id : Z; dr_payload : dict }.
Record delivery_table : Type := MkDeliveryTable { deliveries : gmap (string * Z) delivery_row; next_id : Z }.

(** PostgreSQL text holds no NUL. *)
Definition text_ok (s : string) : bool := PyJson.all_chars (fun c => negb (nat_of_ascii c =? 0)%nat) s.
Fixpoint texts_ok (v : pyval) : bool :=
  match v with
  | VStr s | VEnum s => text_ok s
  | VList l | VTuple l =>
      (fix go (l : list pyval) : bool := match l with [] => true | x :: l' => texts_ok x && go l' end) l
  | VDict m =>
      (fix go (m : dict) : bool :=
         match m with [] => true | (k, x) :: m' => text_ok k && texts_ok x && go m' end) m
  | _ => true
  end.
Definition stored_payload (payload : dict) : option dict :=
  if texts_ok (VDict payload) then jsonb_dict payload else None.

Record WebhookDeliveryResult : Type := MkDeliveryResult { is_new : bool; delivery_id : option Z }.

(** [insert_or_skip]; the sequence of ids moves on a conflict, too. *)
Definition insert_or_skip (job : string) (attempt : Z) (payload : dict) (t : delivery_table)
  : delivery_table * option WebhookDeliveryResult :=
  match stored_payload payload with
  | Some cell =>
      if text_ok job then
        let i := next_id t in
        match deliveries t !! (job, attempt) with
        | Some _ => (MkDeliveryTable (deliveries t) (i + 1), Some (MkDeliveryResult false None))
        | None => (MkDeliveryTable (<[(job, attempt) := MkDeliveryRow i cell]> (deliveries t)) (i + 1),
                   Some (MkDeliveryResult true (Some i)))
        end
      else (t, None)
  | None => (t, None)
  end.

(** ** The handler ([runpod_webhook]) *)

Definition RUNPOD_TERMINAL_STATUSES : list string :=
  ["COMPLETED"; "FAILED"; "CANCELLED"; "TIMED_OUT"; "TIMEOUT"; "TIME_OUT"].

(** How an attempt to enqueue ends: [arq] cannot be imported, the pool cannot
    be opened, or the job was tried and the pool closed, possibly raising. *)
Inductive enqueue_outcome :=
| ArqMissing
| PoolRaised (msg : string)
| Tried (queued : bool) (close_error : option string).

Class ReceiverDeps (F : Type) := {
  now_seconds : F -> F * Z;
  enqueue_job : string -> string -> F -> F * enqueue_outcome;
}.

Inductive receiver_error :=
| RecvExn (e : exn)
| RecvJson           (* a ValueError of the reader that is no JSONDecodeError *)
| RecvData           (* the driver or the database refuses the row *)
| RecvQueue (msg : string).

Inductive response :=
| Acknowledged (duplicate : bool)
| Unauthorized
| BadRequest (detail : string).

Record request : Type := MkRequest { rq_body : string; rq_headers : headers }.

Record inbox (F : Type) : Type := MkInbox { ib_table : delivery_table; ib_outside : F }.
Arguments MkInbox {F}.
Arguments ib_table {F}.
Arguments ib_outside {F}.

Section Receiver.
Context {F : Type} `{ReceiverDeps F} (hmac_sha256 : string -> string -> string) (sha256 : string -> string).
Context (secrets : list string) (redis_configured : bool).
Abbreviation op := (eff (inbox F) receiver_error).

Definition outside {A} (f : F -> F * A) : op A :=
  fun w => let '(o, a) := f (ib_outside w) in (MkInbox (ib_table w) o, Ok a).

(** Every secret is tried. *)
Fixpoint check_signature (body header : string) (secrets : list string) (valid : bool) : op bool :=
  match secrets with
  | [] => ret valid
  | secret :: rest =>
      do! now := outside now_seconds in
      do! ok := lift (rlift RecvExn (verify hmac_sha256 now body header secret 300)) in
      check_signature body header rest (ok || valid)
  end.
Definition authenticate (rq : request) : op bool :=
  match secrets with
  | [] => ret true
  | _ => check_signature (rq_body rq)
           (default EmptyString (al_get "x-pitwall-webhook-signature" (rq_headers rq))) secrets false
  end.

(** [json.loads(body or b"{}")] *)
Definition read_body (body : string) : op (response + dict) :=
  match loads (if nonempty body then body else "{}") with
  | Err JSONDecodeError => ret (inl (BadRequest "webhook body must be valid JSON"))
  | Err IntTooLong => fail RecvJson
  | Ok (VDict payload) => ret (inr payload)
  | Ok _ => ret (inl (BadRequest "webhook body must be a JSON object"))
  end.

(** [status in _RUNPOD_TERMINAL_STATUSES] *)
Definition is_terminal (status : pyval) : py bool :=
  match status with
  | VList _ | VTuple _ | VDict _ => Err (TypeError "unhashable type")
  | _ => Ok (match as_str status with Some s => bool_decide (s ∈ RUNPOD_TERMINAL_STATUSES) | None => false end)
  end.

(** [_enqueue_terminal_status_job] *)
Definition enqueue_terminal_status_job (job status : string) : op unit :=
  if negb redis_configured then ret tt
  else
    do! o := outside (enqueue_job job status) in
    match o with
    | ArqMissing => ret tt
    | PoolRaised msg => fail (RecvQueue msg)
    | Tried _ None => ret tt
    | Tried _ (Some msg) => fail (RecvQueue msg)
    end.

Definition store_delivery (d : delivery) (payload : dict) : op WebhookDeliveryResult :=
  fun w => let '(t, r) := insert_or_skip (d_job d) (d_attempt d) payload (ib_table w) in
           (MkInbox t (ib_outside w), match r with Some x => Ok x | None => Err RecvData end).

Definition announce (d : delivery) : op unit :=
  do! terminal := lift (rlift RecvExn (is_terminal (d_status d))) in
  if terminal : bool then enqueue_terminal_status_job (d_job d) (default EmptyString (as_str (d_status d)))
  else ret tt.
Definition accept_delivery (d : delivery) (payload : dict) : op response :=
  do! stored := store_delivery d payload in
  (if is_new stored then announce d else ret tt) ;!
  ret (Acknowledged (negb (is_new stored))).

Definition runpod_webhook (rq : request) : op response :=
  do! valid := authenticate rq in
  if negb valid then ret Unauthorized
  else
    do! read := read_body (rq_body rq) in
    match read with
    | inl refusal => ret refusal
    | inr payload => accept_delivery (delivery_of sha256 payload (rq_body rq) (rq_headers rq)) payload
    end.

Fixpoint receive_all (rqs : list request) (w : inbox F) : inbox F :=
  match rqs with [] => w | rq :: rqs' => receive_all rqs' (runpod_webhook rq w).1 end.
End Receiver.

(** ** The ingress guard *)

(** [_parse_rate_limit] *)
Definition drop_last (n : nat) (s : string) : string := String.substring 0 (String.length s - n) s.
Definition parse_rate_limit (raw : string) : py (Z * float) :=
  match split_once "/"%char raw with
  | None => value_error "expected requests/window"
  | Some (requests_raw, window_raw) =>
      let? requests := py_int (VStr requests_raw) in
      let normalized := lower (strip window_raw) in
      let? window_s :=
        (if endswith "ms" normalized then let? f := py_float (VStr (drop_last 2 normalized)) in fdiv f (of_Z 1000)
         else if endswith "s" normalized then py_float (VStr (drop_last 1 normalized))
         else if endswith "m" normalized then
           let? f := py_float (VStr (drop_last 1 normalized)) in Ok (fmul f (of_Z 60))
         else py_float (VStr normalized)) in
      if (requests <=? 0) || fleb window_s fzero then value_error "rate-limit values must be positive"
      else Ok (requests, window_s)
  end.

Record scope : Type := MkScope {
  sc_http : bool; sc_path : string; sc_headers : headers; sc_client : option string;
}.
Inductive guard_answer :=
| Pass                           (* to the application, unwatched *)
| Watch                          (* to the application, its body counted *)
| Refuse (status : Z) (detail : string)
| RateLimited (retry_after : Z).

Definition guarded_path (p : string) : bool := String.eqb p "/webhooks/runpod" || String.eqb p "/runpod".

Section Guard.
Context (max_body_bytes : Z) (rate_limit : Z * float).

(** [_retry_after] *)
Definition retry_after (client : option string) (now_s : float) (buckets : gmap string TokenBucket.t)
  : gmap string TokenBucket.t * py (option Z) :=
  let ip := default "unknown" client in
  match (match buckets !! ip with
         | Some b => Ok b
         | None => TokenBucket.create rate_limit.1 None (Some now_s) rate_limit.2 now_s
         end) with
  | Err e => (buckets, Err e)
  | Ok b =>
      match TokenBucket.try_consume b (of_Z 1) now_s with
      | Err e => (<[ip := b]> buckets, Err e)
      | Ok (b', true) => (<[ip := b']> buckets, Ok None)
      | Ok (b', false) =>
          (<[ip := b']> buckets,
           let? wait := TokenBucket.retry_after_s b' (of_Z 1) in
           let? up := py_int (VFloat (fadd wait (of_dec (Dec 999 (-3))))) in
           Ok (Some (Z.max 1 up)))
      end
  end.

(** [WebhookIngressGuardMiddleware.__call__] up to the application. *)
Definition content_type_of (hs : headers) : string :=
  match split_once ";"%char (default EmptyString (al_get "content-type" hs)) with
  | Some (t, _) => t
  | None => default EmptyString (al_get "content-type" hs)
  end.
Definition ingress_guard (sc : scope) (now_s : float) (buckets : gmap string TokenBucket.t)
  : gmap string TokenBucket.t * py guard_answer :=
  if negb (sc_http sc) || negb (guarded_path (sc_path sc)) then (buckets, Ok Pass)
  else if negb (String.eqb (lower (strip (content_type_of (sc_headers sc)))) "application/json")
  then (buckets, Ok (Refuse 415 "content type must be application/json"))
  else
    let length := match al_get "content-length" (sc_headers sc) with
                  | None => None
                  | Some raw => Some (parse_int raw)
                  end in
    match length with
    | Some None => (buckets, Ok (Refuse 400 "invalid content length"))
    | _ =>
        if match length with Some (Some n) => (n <? 0) || (max_body_bytes <? n) | _ => false end
        then (buckets, Ok (Refuse 413 "webhook body too large"))
        else
          let '(buckets', r) := retry_after (sc_client sc) now_s buckets in
          (buckets', let? wait := r in Ok (match wait with Some n => RateLimited n | None => Watch end))
    end.

(** [limited_receive]: the application sees no more of the body than allowed. *)
Fixpoint limited_receive (received : Z) (chunks : list string) : option string :=
  match chunks with
  | [] => Some EmptyString
  | c :: rest =>
      let received' := received + Z.of_nat (String.length c) in
      if max_body_bytes <? received' then None
      else option_map (String.append c) (limited_receive received' rest)
  end.
End Guard.

(** The delivery a request carries. *)
Definition request_delivery (sha256 : string -> string) (rq : request) : option (delivery * dict) :=
  match loads (if nonempty (rq_body rq) then rq_body rq else "{}") with
  | Ok (VDict payload) => Some (delivery_of sha256 payload (rq_body rq) (rq_headers rq), payload)
  | _ => None
  end.
Definition terminal_status (d : delivery) : option string :=
  match d_status d with
  | VStr s | VEnum s => if bool_decide (s ∈ RUNPOD_TERMINAL_STATUSES) then Some s else None
  | _ => None
  end.

(** Lemmas *)

Section Facts.
Context {F : Type} `{ReceiverDeps F} (R : F -> F -> Prop) `{!PreOrder R} (Hclock : forall o, R o (now_seconds o).1).
Context (hmac : string -> string -> string) (sha : string -> string) (secrets : list string) (redis : bool).

Lemma recv_outside_step {A} (f : F -> F * A) (w w' : inbox F) r :
  outside f w = (w', r) -> ib_table w' = ib_table w /\ ib_outside w' = (f (ib_outside w)).1 /\ r = Ok (f (ib_outside w)).2.
Proof. unfold outside. destruct (f (ib_outside w)) eqn:E. by intros [= <- <-]. Qed.

(** The queue raised. *)
Definition queue_error {A} (r : result receiver_error A) : Prop :=
  match r with Err (RecvQueue _) => True | _ => False end.

Lemma check_signature_step body header l v (w w' : inbox F) r :
  check_signature hmac body header l v w = (w', r) ->
  ib_table w' = ib_table w /\ R (ib_outside w) (ib_outside w') /\ ~ queue_error r.
Proof.
  revert v w. induction l as [|s l IH]; intros v w E; simpl in E; [injection E as <- <-; by repeat split; [|intros []]|].
  apply bind_cases in E as [(e & E & ->)|(now & w1 & E & Hk)]; apply recv_outside_step in E as (Ht & Ho & He); [done|].
  rewrite <- Ht. assert (R (ib_outside w) (ib_outside w1)) as HR by (rewrite Ho; apply Hclock).
  apply bind_cases in Hk as [(e & [= <- Hr] & ->)|(b & w2 & [= <- _] & Hk)].
  { destruct (verify _ _ _ _ _ _); [done|]. injection Hr as <-. by repeat split; [|intros []]. }
  apply IH in Hk as (-> & HR' & Hq). split; [done|]. by split; [etrans|].
Qed.

Lemma authenticate_step rq (w w' : inbox F) r :
  authenticate hmac secrets rq w = (w', r) ->
  ib_table w' = ib_table w /\ R (ib_outside w) (ib_outside w') /\ ~ queue_error r.
Proof.
  unfold authenticate. destruct secrets; [|apply check_signature_step].
  intros [= <- <-]. by repeat split; [|intros []].
Qed.

(** What became of the delivery [d]: it was new, and enqueued when terminal. *)
Definition stored_new (d : delivery) (w w' : inbox F) : Prop :=
  deliveries (ib_table w) !! d_key d = None /\
  (exists row, deliveries (ib_table w') = <[d_key d := row]> (deliveries (ib_table w))) /\
  match terminal_status d with
  | Some s => if redis then ib_outside w' = (enqueue_job (d_job d) s (ib_outside w)).1 else ib_outside w' = ib_outside w
  | None => ib_outside w' = ib_outside w
  end.

Lemma insert_or_skip_cases j a payload t t' r :
  insert_or_skip j a payload t = (t', r) ->
  match r with
  | Some x => if is_new x
              then deliveries t !! (j, a) = None /\ exists row, deliveries t' = <[(j, a) := row]> (deliveries t)
              else deliveries t' = deliveries t /\ is_Some (deliveries t !! (j, a))
  | None => t' = t
  end.
Proof.
  unfold insert_or_skip. destruct (stored_payload payload); [|by intros [= <- <-]].
  destruct (text_ok j); [|by intros [= <- <-]].
  destruct (deliveries t !! (j, a)) eqn:E; intros [= <- <-]; simpl; [by split|]. split; [done|by eexists].
Qed.

Lemma announce_step d (w w' : inbox F) r :
  announce redis d w = (w', r) ->
  ib_table w' = ib_table w /\
  match terminal_status d with
  | Some s => if redis then ib_outside w' = (enqueue_job (d_job d) s (ib_outside w)).1 else ib_outside w' = ib_outside w
  | None => ib_outside w' = ib_outside w
  end.
Proof.
  unfold announce, terminal_status. intros E.
  apply bind_cases in E as [(e & [= <- Hr] & _)|(b & w1 & [= <- Hr] & Hk)].
  { split; [done|]. by destruct (d_status d). }
  assert (match (match d_status d with
     | VStr s | VEnum s => if bool_decide (s ∈ RUNPOD_TERMINAL_STATUSES) then Some s else None | _ => None end) with
     | Some s => b = true /\ default EmptyString (as_str (d_status d)) = s | None => b = false end) as Hb.
  { destruct (d_status d); simpl in Hr; try discriminate Hr; injection Hr as <-; try done;
      by destruct (bool_decide (s ∈ RUNPOD_TERMINAL_STATUSES)). }
  destruct (match d_status d with VStr _ => _ | _ => _ end) as [s|].
  2: { subst b. by injection Hk as <- _. }
  destruct Hb as [-> Hs]. rewrite Hs in Hk. unfold enqueue_terminal_status_job in Hk.
  destruct redis; simpl in Hk; [|by injection Hk as <- _].
  apply bind_cases in Hk as [(e & E & ->)|(o & w2 & E & Hk)]; apply recv_outside_step in E as (Ht & Ho & _); [done|].
  destruct o as [|m|b [m|]]; injection Hk as <- _; done.
Qed.

Lemma accept_delivery_step d payload (w w' : inbox F) r :
  accept_delivery redis d payload w = (w', r) ->
  (deliveries (ib_table w') = deliveries (ib_table w) /\ ib_outside w' = ib_outside w /\
   ~ queue_error r /\
   match r with Ok a => a = Acknowledged true /\ is_Some (deliveries (ib_table w) !! d_key d) | Err _ => True end) \/
  (stored_new d w w' /\ (forall a, r = Ok a -> a = Acknowledged false)).
Proof.
  intros E. unfold accept_delivery in E.
  apply bind_cases in E as [(e & E & ->)|(x & w1 & E & Hk)]; unfold store_delivery in E;
    destruct (insert_or_skip _ _ _ _) as [t o] eqn:Ei; apply insert_or_skip_cases in Ei;
    destruct o as [y|]; try done; injection E as <- Hy.
  - left. subst e t. do 2 (split; [done|]). by split; [intros []|].
  - subst y. destruct (is_new x) eqn:En; cbn [negb] in Hk.
    2: { injection Hk as <- <-. left. destruct Ei. do 2 (split; [done|]). by split; [intros []|]. }
    right. destruct Ei as [Hn (row & Hrow)].
    apply bind_cases in Hk as [(e & Ha & ->)|(u & w2 & Ha & [= <- <-])]; apply announce_step in Ha as [Ht Ho];
      (split; [|by intros a [= <-]]); (split; [done|]); rewrite Ht; (split; [by exists row|done]).
Qed.

(** One request. *)
Lemma runpod_webhook_step rq (w w' : inbox F) r :
  runpod_webhook hmac sha secrets redis rq w = (w', r) ->
  exists o, R (ib_outside w) o /\
  ((deliveries (ib_table w') = deliveries (ib_table w) /\ ib_outside w' = o /\ ~ queue_error r /\
    match r with
    | Ok (Acknowledged dup) => dup = true /\ exists d payload, request_delivery sha rq = Some (d, payload) /\
        is_Some (deliveries (ib_table w) !! d_key d)
    | _ => True
    end) \/
   (exists d payload, request_delivery sha rq = Some (d, payload) /\ stored_new d (MkInbox (ib_table w) o) w' /\
     (forall a, r = Ok a -> a = Acknowledged false))).
Proof.
  intros E. unfold runpod_webhook in E.
  apply bind_cases in E as [(e & E & ->)|(valid & w1 & E & Hk)]; apply authenticate_step in E as (Ht & HR & Hq).
  { eexists. split; [exact HR|]. left. by rewrite Ht. }
  exists (ib_outside w1). split; [done|]. rewrite <- Ht. clear Hq.
  assert (forall a, ~ queue_error (Ok a : result receiver_error response)) as Hq by (intros a []).
  destruct valid; simpl in Hk; [|injection Hk as <- <-; left; by split; [|split; [|split; [apply Hq|]]]].
  unfold request_delivery. unfold read_body in Hk.
  destruct (loads _) as [v|e] eqn:El.
  2: { left. destruct e; injection Hk as <- <-; (split; [done|]); (split; [done|]); (split; [intros []|done]). }
  destruct v; try (left; injection Hk as <- <-; by split; [|split; [|split; [apply Hq|]]]).
  apply bind_cases in Hk as [(e & [=] & _)|(x & w2 & [= <- <-] & Hk)].
  apply accept_delivery_step in Hk as [(Hd & Ho & Hqe & Hr)|(Hs & Hr)].
  - left. split; [done|]. split; [done|]. split; [done|]. destruct r as [[| |]|]; try done. destruct Hr as [[= ->] Hr].
    split; [done|]. by eexists _, _.
  - right. eexists _, _. split; [done|]. split; [|done]. by destruct w1.
Qed.
End Facts.

Lemma extract_attempt_range payload hs : 1 <= extract_attempt payload hs <= 3.
Proof.
  assert (forall z y, in_attempts z = Some y -> 1 <= y <= 3) as Hin.
  { unfold in_attempts. intros z y. destruct (_ && _) eqn:E; [|done]. intros [= <-]. lia. }
  unfold extract_attempt. destruct (payload_attempt payload) as [z|] eqn:E.
  { unfold payload_attempt in E. destruct (dict_get_none _ _); try done; by apply Hin in E. }
  clear E. induction ATTEMPT_HEADER_VARIANTS as [|n l IH]; simpl; [lia|].
  destruct (header_attempt hs n) as [z|] eqn:E; [|done]. simpl. unfold header_attempt in E.
  destruct (header_or _ _) as [v|]; [|done]. destruct (parse_int _); [|done]. by apply Hin in E.
Qed.

Lemma delivery_attempt_range sha payload body hs : 1 <= d_attempt (delivery_of sha payload body hs) <= 3.
Proof.
  unfold delivery_of. destruct (normalize_runpod_webhook payload hs) as [e|] eqn:E; simpl; [|lia].
  unfold normalize_runpod_webhook in E. simplify_option_eq. simpl. apply extract_attempt_range.
Qed.

(** Distinct attempts of one job. *)
Lemma attempts_of_job (ks : list (string * Z)) j :
  NoDup ks -> Forall (fun k => 1 <= k.2 <= 3) ks -> (length (filter (fun i => i = j) ks.*1) <= 3)%nat.
Proof.
  intros Hnd Hr.
  assert (filter (fun i => i = j) ks.*1 = (filter (fun k => k.1 = j) ks).*1) as ->.
  { clear. induction ks as [|[i a] ks IH]; [done|]. csimpl. rewrite !filter_cons. simpl.
    destruct (decide (i = j)); csimpl; by rewrite IH. }
  rewrite length_fmap. change 3%nat with (length [(j, 1); (j, 2); (j, 3)]). apply submseteq_length.
  apply NoDup_submseteq; [by apply NoDup_filter|]. intros [i a] [Hi Hin]%list_elem_of_filter. simpl in Hi. subst i.
  rewrite Forall_forall in Hr. pose proof (Hr _ Hin) as Ha. simpl in Ha.
  assert (a = 1 \/ a = 2 \/ a = 3) as [->|[->| ->]] by lia; set_solver.
Qed.

Lemma terminal_status_in d s : terminal_status d = Some s -> s ∈ RUNPOD_TERMINAL_STATUSES.
Proof.
  unfold terminal_status. destruct (d_status d); try done;
    (case_bool_decide; [|done]); by intros [= <-].
Qed.

(** The calls so far answer to distinct stored deliveries. *)
Definition calls_stored (calls : list (string * string)) (t : delivery_table) : Prop :=
  exists ks, NoDup ks /\ ks.*1 = calls.*1 /\
    Forall (fun k => 1 <= k.2 <= 3 /\ is_Some (deliveries t !! k)) ks /\
    Forall (fun c => c.2 ∈ RUNPOD_TERMINAL_STATUSES) calls.

Lemma calls_stored_grow calls t t' : (forall k, is_Some (deliveries t !! k) -> is_Some (deliveries t' !! k)) ->
  calls_stored calls t -> calls_stored calls t'.
Proof.
  intros Hk (ks & Hn & E & Hf & Hs). exists ks. do 2 (split; [done|]). split; [|done].
  eapply Forall_impl; [exact Hf|]. naive_solver.
Qed.

Section Calls.
Context {F : Type} `{ReceiverDeps F} (calls : F -> list (string * string)).
Context (Hnow : forall o, calls (now_seconds o).1 = calls o).
Context (Henq : forall j s o, calls (enqueue_job j s o).1 = calls o ++ [(j, s)]).

Definition same_calls (o o' : F) : Prop := calls o' = calls o.
#[local] Instance same_calls_preorder : PreOrder same_calls.
Proof. unfold same_calls. split; [done|]. intros a b c. congruence. Qed.

Lemma webhook_calls hmac sha secrets redis rq (w : inbox F) :
  calls_stored (calls (ib_outside w)) (ib_table w) ->
  let w' := (runpod_webhook hmac sha secrets redis rq w).1 in
  calls_stored (calls (ib_outside w')) (ib_table w').
Proof.
  intros Hc. destruct (runpod_webhook _ _ _ _ _ _) as [w' r] eqn:E. simpl.
  apply (runpod_webhook_step same_calls Hnow) in E as (o & Ho & [(Hd & <- & _ & _)|(d & p & Hrq & (Hn & (row & Hrow) & Hq) & _)]).
  - rewrite Ho. eapply calls_stored_grow; [|done]. by rewrite Hd.
  - simpl in Hn, Hrow, Hq. destruct Hc as (ks & Hnd & Ek & Hf & Hs).
    assert (forall k, is_Some (deliveries (ib_table w) !! k) -> is_Some (deliveries (ib_table w') !! k)) as Hgrow.
    { intros k Hk. rewrite Hrow. destruct (decide (k = d_key d)) as [->|Hne].
      - rewrite lookup_insert_eq. done.
      - by rewrite lookup_insert_ne. }
    assert (calls_stored (calls o) (ib_table w')) as Hsame.
    { rewrite Ho. eapply calls_stored_grow; [exact Hgrow|]. by exists ks. }
    destruct (terminal_status d) as [s|] eqn:Et; [|by rewrite Hq]. destruct redis; [|by rewrite Hq].
    rewrite Hq, Henq, Ho. exists (ks ++ [d_key d]). split; [|split; [|split]].
    + apply NoDup_app. split; [done|]. split; [|apply NoDup_singleton].
      intros k Hk ->%list_elem_of_singleton. rewrite Forall_forall in Hf.
      destruct (Hf _ Hk) as [_ [x Hx]]. by rewrite Hn in Hx.
    + by rewrite !fmap_app, Ek.
    + apply Forall_app. split; [eapply Forall_impl; [exact Hf|]; naive_solver|].
      apply Forall_singleton. split.
      * unfold request_delivery in Hrq. destruct (loads _) as [[]|]; try done. injection Hrq as <- <-.
        apply delivery_attempt_range.
      * rewrite Hrow, lookup_insert_eq. done.
    + apply Forall_app. split; [done|]. apply Forall_singleton. by apply terminal_status_in in Et.
Qed.
End Calls.

Lemma final_step {F} `{ReceiverDeps F} (R : F -> F -> Prop) `{!PreOrder R} (Hclock : forall o, R o (now_seconds o).1)
    hmac sha secrets redis k rqs (w : inbox F) :
  is_Some (deliveries (ib_table w) !! k) ->
  (forall rq d p, rq ∈ rqs -> request_delivery sha rq = Some (d, p) -> d_key d = k) ->
  let w' := receive_all hmac sha secrets redis rqs w in
  deliveries (ib_table w') = deliveries (ib_table w) /\ R (ib_outside w) (ib_outside w').
Proof.
  revert w. induction rqs as [|rq rqs IH]; intros w Hk Hrqs; simpl; [done|].
  destruct (runpod_webhook _ _ _ _ rq w) as [w1 r] eqn:E. simpl.
  apply (runpod_webhook_step R Hclock) in E as (o & Ho & [(Hd & <- & _ & _)|(d & p & Hrq & (Hn & _) & _)]).
  - destruct (IH w1) as [Hd' HR]; [by rewrite Hd| |].
    + intros rq' d p Hin. apply Hrqs. by right.
    + rewrite Hd', Hd. split; [done|by etrans].
  - rewrite (Hrqs rq d p) in Hn; [|by left|done]. simpl in Hn. rewrite Hn in Hk. by destruct Hk.
Qed.

(** ** Theorems *)

(** However many webhooks arrive, in whatever order, RunPod's jobs are
    enqueued for reconciliation at most three times each - once per attempt -
    and only with a terminal status and a stored delivery. *)
Theorem enqueued_per_attempt {F} `{ReceiverDeps F} (calls : F -> list (string * string)) hmac sha secrets redis rqs
    (w : inbox F) :
  (forall o, calls (now_seconds o).1 = calls o) ->
  (forall j s o, calls (enqueue_job j s o).1 = calls o ++ [(j, s)]) ->
  calls (ib_outside w) = [] ->
  let w' := receive_all hmac sha secrets redis rqs w in
  (forall j, (length (filter (fun i => i = j) (calls (ib_outside w')).*1) <= 3)%nat) /\
  Forall (fun c => c.2 ∈ RUNPOD_TERMINAL_STATUSES /\ exists a, is_Some (deliveries (ib_table w') !! (c.1, a)))
    (calls (ib_outside w')).
Proof.
  intros Hnow Henq Hnil w'.
  assert (calls_stored (calls (ib_outside w')) (ib_table w')) as (ks & Hnd & E & Hf & Hs).
  { assert (calls_stored (calls (ib_outside w)) (ib_table w)) as Hc by (rewrite Hnil; exists []; by repeat constructor).
    subst w'. clear Hnil. revert w Hc. induction rqs as [|rq rqs IH]; intros w Hc; [done|].
    apply IH. by apply (webhook_calls calls). }
  split.
  - intros j. rewrite <- E. apply attempts_of_job; [done|]. eapply Forall_impl; [exact Hf|]. naive_solver.
  - apply Forall_forall. intros c Hc. rewrite Forall_forall in Hs. split; [by apply Hs|].
    assert (c.1 ∈ ks.*1) as Hin by (rewrite E; by apply list_elem_of_fmap_2).
    apply list_elem_of_fmap in Hin as ([j a] & -> & Hk). exists a. rewrite Forall_forall in Hf. by apply Hf.
Qed.

(** A delivery is settled when its row is stored, before its job is enqueued.
    If enqueueing then raises (the client gets a 500), every later request
    for the same job and attempt - RunPod's retries carry no attempt number -
    is a duplicate: whatever its status, it changes no delivery and enqueues
    nothing. *)
Theorem lost_enqueue_is_final {F} `{ReceiverDeps F} (R : F -> F -> Prop) `{!PreOrder R} hmac sha secrets redis
    rq d p rqs (w w1 : inbox F) e :
  (forall o, R o (now_seconds o).1) -> request_delivery sha rq = Some (d, p) ->
  runpod_webhook hmac sha secrets redis rq w = (w1, Err (RecvQueue e)) ->
  (forall rq' d' p', rq' ∈ rqs -> request_delivery sha rq' = Some (d', p') -> d_key d' = d_key d) ->
  let w' := receive_all hmac sha secrets redis rqs w1 in
  is_Some (deliveries (ib_table w1) !! d_key d) /\
  deliveries (ib_table w') = deliveries (ib_table w1) /\ R (ib_outside w1) (ib_outside w').
Proof.
  intros Hclock Hrq E Hrqs.
  apply (runpod_webhook_step R Hclock) in E as (o & _ & [(_ & _ & Hq & _)|(d' & p' & Hrq' & (_ & (row & Hrow) & _) & _)]).
  { by destruct Hq. }
  rewrite Hrq in Hrq'. injection Hrq' as <- <-.
  assert (is_Some (deliveries (ib_table w1) !! d_key d)) as Hk by (rewrite Hrow; simpl; rewrite lookup_insert_eq; done).
  split; [done|]. by apply (final_step R Hclock _ _ _ _ (d_key d)).
Qed.

(** ** A scripted queue *)
Module ReceiverSim.
Record queue : Type := MkQueue { outcomes : list enqueue_outcome; log : list (string * string) }.
#[global] Instance deps : ReceiverDeps queue := {|
  now_seconds o := (o, 1000);
  enqueue_job j s o :=
    match outcomes o with
    | [] => (MkQueue [] (log o ++ [(j, s)]), Tried true None)
    | x :: l => (MkQueue l (log o ++ [(j, s)]), x)
    end;
|}.
Definition start (outcomes : list enqueue_outcome) : inbox queue :=
  MkInbox (MkDeliveryTable ∅ 1) (MkQueue outcomes []).
Definition post (hs : headers) (body : string) : request := MkRequest (q body) hs.
Definition run := receive_all toy_hmac toy_sha [] true.
Definition answer (rqs : list request) (rq : request) (outcomes : list enqueue_outcome) :=
  let '(w, r) := runpod_webhook toy_hmac toy_sha [] true rq (run rqs (start outcomes)) in
  (r, log (ib_outside w)).

Definition completed : request := post [] "{'id': 'job-1', 'status': 'COMPLETED', 'output': {}}".

Example terminal_ex : answer [] completed [] = (Ok (Acknowledged false), [("job-1", "COMPLETED")]).
Proof. vm_compute. reflexivity. Qed.
Example duplicate_ex : answer [completed] completed [] = (Ok (Acknowledged true), [("job-1", "COMPLETED")]).
Proof. vm_compute. reflexivity. Qed.
Example second_attempt_ex :
  answer [completed] (post [("x-runpod-attempt", "2")] "{'id': 'job-1', 'status': 'COMPLETED'}") []
  = (Ok (Acknowledged false), [("job-1", "COMPLETED"); ("job-1", "COMPLETED")]).
Proof. vm_compute. reflexivity. Qed.

(** A job that reports progress first is never reconciled by its terminal
    webhook: both are attempt 1. *)
Example terminal_after_progress_lost :
  answer [post [] "{'id': 'job-1', 'status': 'IN_PROGRESS'}"] completed [] = (Ok (Acknowledged true), []).
Proof. vm_compute. reflexivity. Qed.

(** When the queue's connection fails the client gets a 500, and its retry is
    a duplicate. *)
Example retry_after_500_lost :
  answer [completed] completed [PoolRaised "connection refused"]
  = (Ok (Acknowledged true), [("job-1", "COMPLETED")]).
Proof. vm_compute. reflexivity. Qed.

(** Output that is no object makes the event invalid: the attempt header is
    then not read. *)
Example text_output_loses_attempt :
  (request_delivery toy_sha (post [("x-runpod-attempt", "2")] "{'id': 'job-1', 'status': 'COMPLETED', 'output': 'text'}"))
  = Some (MkDelivery "job-1" 1 (VStr "COMPLETED"),
          [("id", VStr "job-1"); ("status", VStr "COMPLETED"); ("output", VStr "text")]).
Proof. vm_compute. reflexivity. Qed.

(** The job id header is looked up with capitals, which no header has. *)
Example job_id_header_is_dead :
  fallback_idempotency_key toy_sha [] "{}" [("runpod-job-id", "job-1")] = toy_sha "{}".
Proof. vm_compute. reflexivity. Qed.

(** A status that is an object is stored, then raises. *)
Example object_status_raises :
  answer [] (post [] "{'id': 'job-1', 'status': {}}") [] = (Err (RecvExn (TypeError "unhashable type")), []).
Proof. vm_compute. reflexivity. Qed.

(** ** The guard *)
Example parse_rate_limit_ex : parse_rate_limit "120/60s" = Ok (120, of_Z 60).
Proof. vm_compute. reflexivity. Qed.
Definition json_post (client : string) (length : string) : scope :=
  MkScope true "/webhooks/runpod" [("content-type", "application/json; charset=utf-8"); ("content-length", length)]
    (Some client).
Fixpoint guard_all (scs : list scope) (now : float) (bs : gmap string TokenBucket.t) : list (py guard_answer) :=
  match scs with
  | [] => []
  | sc :: scs' => let '(bs', r) := ingress_guard 1048576 (2, of_Z 60) sc now bs in r :: guard_all scs' now bs'
  end.
Example guard_ex :
  guard_all [json_post "a" "10"; json_post "a" "10"; json_post "a" "10"; json_post "b" "10"; json_post "b" "2000000";
             json_post "b" "x"; MkScope true "/healthz" [] None] (of_Z 0) ∅
  = [Ok Watch; Ok Watch; Ok (RateLimited 30); Ok Watch; Ok (Refuse 413 "webhook body too large");
     Ok (Refuse 400 "invalid content length"); Ok Pass].
Proof. vm_compute. reflexivity. Qed.
End ReceiverSim.

Lemma enqueued_per_attempt_witness :
  let rqs := [ReceiverSim.completed; ReceiverSim.completed] in
  let w' := ReceiverSim.run rqs (ReceiverSim.start []) in
  (forall j, (length (filter (fun i => i = j) (ReceiverSim.log (ib_outside w')).*1) <= 3)%nat) /\
  Forall (fun c => c.2 ∈ RUNPOD_TERMINAL_STATUSES /\ exists a, is_Some (deliveries (ib_table w') !! (c.1, a)))
    (ReceiverSim.log (ib_outside w')).
Proof.
  apply (enqueued_per_attempt (H:=ReceiverSim.deps) ReceiverSim.log toy_hmac toy_sha [] true
    [ReceiverSim.completed; ReceiverSim.completed] (ReceiverSim.start [])).
  - reflexivity.
  - intros j s [[|x l] lg]; reflexivity.
  - reflexivity.
Defined.

Lemma lost_enqueue_is_final_witness :
  let '(w1, r) := runpod_webhook toy_hmac toy_sha [] true ReceiverSim.completed
                    (ReceiverSim.start [PoolRaised "refused"]) in
  let w' := ReceiverSim.run [ReceiverSim.completed; ReceiverSim.completed] w1 in
  is_Some (deliveries (ib_table w1) !! ("job-1", 1)) /\
  deliveries (ib_table w') = deliveries (ib_table w1) /\ ib_outside w1 = ib_outside w'.
Proof.
  destruct (runpod_webhook _ _ _ _ _ _) as [w1 r] eqn:E.
  destruct (request_delivery toy_sha ReceiverSim.completed) as [[d p]|] eqn:Hd; [|vm_compute in Hd; discriminate Hd].
  assert (d_key d = ("job-1", 1)) as Hk by (vm_compute in Hd; injection Hd as <- _; reflexivity).
  assert (r = Err (RecvQueue "refused")) as -> by (vm_compute in E; injection E as _ <-; reflexivity).
  rewrite <- Hk.
  apply (lost_enqueue_is_final (H:=ReceiverSim.deps) eq toy_hmac toy_sha [] true ReceiverSim.completed d p
    [ReceiverSim.completed; ReceiverSim.completed] (ReceiverSim.start [PoolRaised "refused"]) w1 "refused").
  - reflexivity.
  - exact Hd.
  - exact E.
  - intros rq' d' p' Hin Hd'. assert (rq' = ReceiverSim.completed) as -> by set_solver.
    rewrite Hd in Hd'. injection Hd' as <- _. reflexivity.
Defined.
