(* ===== verification/WebhookSubscriptions.v ===== *)
(** * Webhook subscriptions ([WebhookSubscriptionRepository], [secret_store.py])

    The table of webhook targets with their signing secrets encrypted under a
    versioned key, and the audit row of every change.  AES-GCM is a parameter;
    [LawfulAead] is what decryption promises.

    [spec_step] is what the operations promise: a map from ids to targets with
    the last secret they were given. *)

From S2P Require Import Registry.
From S2P Require Import Prelude PyDecimal PyFloat PyValue PyTime PyFormat PyJsonRead.

(** Definitions *)

(** ** Secrets ([WebhookSecretCipher]) *)

Record EncryptedWebhookSecret : Type := MkEncrypted { ciphertext : string; nonce : string; key_version : string }.
Record cipher : Type := MkCipher { keys : gmap string string; current_version : string }.

Definition AAD : string := "pitwall:webhook-signing-secret:v1".
Class Aead := {
  aes_encrypt : string -> string -> string -> string -> string;          (* key, nonce, text, aad *)
  aes_decrypt : string -> string -> string -> string -> option string;
}.
Class LawfulAead `{Aead} : Prop := {
  aes_opens k n s a : aes_decrypt k n (aes_encrypt k n s a) a = Some s;
}.

Inductive subscription_error :=
| CipherError (msg : string)
| NotConfigured
| SubscriptionInvalid
| ActiveWithoutSecret.

Definition new_cipher (ks : gmap string string) (current : string) : result subscription_error cipher :=
  if bool_decide (is_Some (ks !! current)) then
    if forallb (fun kv => nonempty kv.1 && (String.length kv.2 =? 32)%nat) (map_to_list ks)
    then Ok (MkCipher ks current)
    else Err (CipherError "webhook encryption keys must be named 32-byte keys")
  else Err (CipherError "current webhook encryption key version is not configured").

Section Cipher.
Context `{Aead}.
Definition encrypt (c : cipher) (fresh_nonce secret : string) : result subscription_error EncryptedWebhookSecret :=
  match keys c !! current_version c with
  | Some key => Ok (MkEncrypted (aes_encrypt key fresh_nonce secret AAD) fresh_nonce (current_version c))
  | None => Err (CipherError "KeyError")
  end.
Definition decrypt (c : cipher) (e : EncryptedWebhookSecret) : result subscription_error string :=
  match keys c !! key_version e with
  | None => Err (CipherError "webhook secret uses an unavailable encryption key version")
  | Some key => match aes_decrypt key (nonce e) (ciphertext e) AAD with
                | Some s => Ok s
                | None => Err (CipherError "InvalidTag")
                end
  end.
End Cipher.

(** ** The table *)

Record sub_row : Type := MkSubRow {
  sr_consumer : string;
  sr_url : string;
  sr_secret : option EncryptedWebhookSecret;     (* the three columns of a secret *)
  sr_active : bool;
  sr_created_at : datetime;
  sr_updated_at : datetime;
}.
Record sub_db : Type := MkSubDb { subscriptions : gmap Z sub_row; sub_next_id : Z; sub_audit : list audit_row }.

(** A row as the model shows it; text is stripped. *)
Record WebhookSubscription : Type := MkWebhookSubscription {
  ws_id : Z;
  ws_consumer : string;
  ws_url : string;
  ws_hmac_secret : option string;
  ws_active : bool;
  ws_created_at : datetime;
  ws_updated_at : datetime;
}.

Definition audit_entry (actor action : string) (i : Z) (old new : option dict) : audit_row :=
  MkAudit actor action "webhook_subscription" (str_int i) old new None.

Section Repository.
Context `{Aead}.

(** [_webhook_subscription_from_row]; without a cipher no secret is read. *)
Definition webhook_subscription_from_row (c : option cipher) (i : Z) (r : sub_row)
  : result subscription_error WebhookSubscription :=
  let? secret := match c, sr_secret r with
                 | Some c, Some e => if nonempty (key_version e) then rmap Some (decrypt c e) else Ok None
                 | _, _ => Ok None
                 end in
  if nonempty (strip (sr_consumer r)) && nonempty (strip (sr_url r))
  then Ok (MkWebhookSubscription i (strip (sr_consumer r)) (strip (sr_url r)) (strip <$> secret) (sr_active r)
             (sr_created_at r) (sr_updated_at r))
  else Err SubscriptionInvalid.

(** Every change and its audit row commit together; a model error after the
    commit keeps them. *)
Definition write_row (db : sub_db) (i : Z) (r : sub_row) (a : audit_row) : sub_db :=
  MkSubDb (<[i := r]> (subscriptions db)) (sub_next_id db) (a :: sub_audit db).

Definition create (c : option cipher) (fresh_nonce : string) (now : datetime) (consumer url hmac_secret : string)
    (active : bool) (actor : string) (db : sub_db) : sub_db * result subscription_error WebhookSubscription :=
  match c with
  | None => (db, Err NotConfigured)
  | Some ci =>
      match encrypt ci fresh_nonce hmac_secret with
      | Err e => (db, Err e)
      | Ok enc =>
          let i := sub_next_id db in
          let r := MkSubRow consumer url (Some enc) active now now in
          (MkSubDb (<[i := r]> (subscriptions db)) (i + 1)
             (audit_entry actor "create" i None
                (Some [("consumer", VStr consumer); ("active", VBool active)]) :: sub_audit db),
           webhook_subscription_from_row c i r)
      end
  end.

Definition get (i : Z) (db : sub_db) : result subscription_error (option WebhookSubscription) :=
  match subscriptions db !! i with
  | None => Ok None
  | Some r => rmap Some (webhook_subscription_from_row None i r)
  end.

(** [ORDER BY id LIMIT limit OFFSET offset] *)
Definition by_id (l : list (Z * sub_row)) : list (Z * sub_row) := sort_by (fun a b => a.1 <? b.1) l.
Definition select (p : sub_row -> bool) (limit offset : nat) (db : sub_db) : list (Z * sub_row) :=
  take limit (drop offset (by_id (filter (fun ir => p ir.2 = true) (map_to_list (subscriptions db))))).

Definition list_subscriptions (consumer : option string) (active_only : bool) (limit offset : nat) (db : sub_db)
  : result subscription_error (list WebhookSubscription) :=
  mapR (fun ir => webhook_subscription_from_row None ir.1 ir.2)
    (select (fun r => match consumer with Some s => String.eqb (sr_consumer r) s | None => true end &&
                      (negb active_only || sr_active r)) limit offset db).

Definition for_dispatch (consumer : string) (r : sub_row) : bool := String.eqb (sr_consumer r) consumer && sr_active r.
Definition list_for_dispatch (c : option cipher) (consumer : string) (limit : nat) (db : sub_db)
  : result subscription_error (list WebhookSubscription) :=
  match c with
  | None => Err NotConfigured
  | Some _ => mapR (fun ir => webhook_subscription_from_row c ir.1 ir.2)
                (select (for_dispatch consumer) limit 0 db)
  end.

(** An [UPDATE ... WHERE id] with its audit row. *)
Definition update_row (i : Z) (f : sub_row -> option sub_row) (a : audit_row) (c : option cipher) (db : sub_db)
  : sub_db * result subscription_error (option WebhookSubscription) :=
  match subscriptions db !! i with
  | None => (db, Ok None)
  | Some r =>
      match f r with
      | None => (db, Ok None)
      | Some r' =>
          if sr_active r' && bool_decide (sr_secret r' = None) then (db, Err ActiveWithoutSecret)
          else (write_row db i r' a, rmap Some (webhook_subscription_from_row c i r'))
      end
  end.

Definition rotate_secret (c : option cipher) (fresh_nonce : string) (now : datetime) (i : Z) (hmac_secret actor : string)
    (db : sub_db) : sub_db * result subscription_error (option WebhookSubscription) :=
  match c with
  | None => (db, Err NotConfigured)
  | Some ci =>
      match encrypt ci fresh_nonce hmac_secret with
      | Err e => (db, Err e)
      | Ok enc =>
          update_row i
            (fun r => Some (MkSubRow (sr_consumer r) (sr_url r) (Some enc) true (sr_created_at r) now))
            (audit_entry actor "rotate" i None (Some [("secret_rotated", VBool true); ("active", VBool true)])) c db
      end
  end.

Definition set_active (b : bool) (now : datetime) (r : sub_row) : sub_row :=
  MkSubRow (sr_consumer r) (sr_url r) (sr_secret r) b (sr_created_at r) now.
Definition active_entry (actor action : string) (i : Z) (b : bool) : audit_row :=
  audit_entry actor action i (Some [("active", VBool (negb b))]) (Some [("active", VBool b)]).

Definition deactivate (now : datetime) (i : Z) (actor : string) : sub_db -> sub_db * result subscription_error (option WebhookSubscription) :=
  update_row i (fun r => Some (set_active false now r)) (active_entry actor "deactivate" i false) None.
Definition activate (now : datetime) (i : Z) (actor : string) : sub_db -> sub_db * result subscription_error (option WebhookSubscription) :=
  update_row i (fun r => match sr_secret r with Some _ => Some (set_active true now r) | None => None end)
    (active_entry actor "activate" i true) None.

Definition delete (i : Z) (actor : string) (db : sub_db) : sub_db * bool :=
  match subscriptions db !! i with
  | None => (db, false)
  | Some r =>
      (MkSubDb (base.delete i (subscriptions db)) (sub_next_id db)
         (audit_entry actor "delete" i (Some [("consumer", VStr (sr_consumer r))]) None :: sub_audit db), true)
  end.

(** ** Histories *)

Inductive sub_op :=
| Create (fresh_nonce : string) (now : datetime) (consumer url secret : string)
| Rotate (fresh_nonce : string) (now : datetime) (i : Z) (secret : string)
| Deactivate (now : datetime) (i : Z)
| Activate (now : datetime) (i : Z)
| Delete (i : Z).

(** As the routes call them: new subscriptions are active. *)
Definition run_op (c : cipher) (o : sub_op) (db : sub_db) : sub_db :=
  let actor := "rest:webhook" in
  match o with
  | Create n now consumer url secret => (create (Some c) n now consumer url secret true actor db).1
  | Rotate n now i secret => (rotate_secret (Some c) n now i secret actor db).1
  | Deactivate now i => (deactivate now i actor db).1
  | Activate now i => (activate now i actor db).1
  | Delete i => (delete i actor db).1
  end.
Definition run_ops (c : cipher) (os : list sub_op) (db : sub_db) : sub_db := foldl (fun db o => run_op c o db) db os.
End Repository.

(** ** The contract *)

Record spec_sub : Type := MkSpec { sp_consumer : string; sp_url : string; sp_secret : string; sp_active : bool }.
Record spec_db : Type := MkSpecDb { targets : gmap Z spec_sub; spec_next : Z }.

Definition spec_change (i : Z) (f : spec_sub -> spec_sub) (db : spec_db) : spec_db :=
  MkSpecDb (alter f i (targets db)) (spec_next db).
Definition spec_step (o : sub_op) (db : spec_db) : spec_db :=
  match o with
  | Create _ _ consumer url secret =>
      MkSpecDb (<[spec_next db := MkSpec consumer url secret true]> (targets db)) (spec_next db + 1)
  | Rotate _ _ i secret => spec_change i (fun s => MkSpec (sp_consumer s) (sp_url s) secret true) db
  | Deactivate _ i => spec_change i (fun s => MkSpec (sp_consumer s) (sp_url s) (sp_secret s) false) db
  | Activate _ i => spec_change i (fun s => MkSpec (sp_consumer s) (sp_url s) (sp_secret s) true) db
  | Delete i => MkSpecDb (base.delete i (targets db)) (spec_next db)
  end.
Definition spec_run (os : list sub_op) : spec_db := foldl (fun db o => spec_step o db) (MkSpecDb ∅ 1) os.

(** The rows dispatch would send to, by id. *)
Definition spec_targets (consumer : string) (db : spec_db) : list (Z * spec_sub) :=
  sort_by (fun a b => a.1 <? b.1)
    (filter (fun x => (String.eqb (sp_consumer x.2) consumer && sp_active x.2) = true) (map_to_list (targets db))).

(** What dispatch reads of a target. *)
Definition spec_view (x : Z * spec_sub) : result subscription_error (Z * string * option string) :=
  if nonempty (strip (sp_consumer x.2)) && nonempty (strip (sp_url x.2))
  then Ok (x.1, strip (sp_url x.2), Some (strip (sp_secret x.2))) else Err SubscriptionInvalid.
Definition dispatch_view (w : WebhookSubscription) : Z * string * option string :=
  (ws_id w, ws_url w, ws_hmac_secret w).

(** Lemmas *)

Lemma new_cipher_wf ks current c : new_cipher ks current = Ok c ->
  (exists k, keys c !! current_version c = Some k) /\ nonempty (current_version c) = true.
Proof.
  unfold new_cipher. case_bool_decide as Hk; [|done]. destruct (forallb _ _) eqn:E; [|done].
  intros [= <-]. simpl. destruct Hk as [k Hk]. split; [by exists k|].
  rewrite forallb_forall in E. specialize (E (current, k)). simpl in E.
  apply andb_true_iff in E as [E _]; [done|]. apply list_elem_of_In, elem_of_map_to_list. done.
Qed.

Section Refinement.
Context `{LawfulAead} (c : cipher).

Definition secret_of (r : sub_row) : string :=
  match sr_secret r with
  | Some e => match decrypt c e with Ok s => s | Err _ => EmptyString end
  | None => EmptyString
  end.
Definition view (r : sub_row) : spec_sub := MkSpec (sr_consumer r) (sr_url r) (secret_of r) (sr_active r).

(** Every row has a secret that opens. *)
Definition opens (r : sub_row) : Prop :=
  exists e s, sr_secret r = Some e /\ nonempty (key_version e) = true /\ decrypt c e = Ok s.
Definition implements (db : sub_db) (sp : spec_db) : Prop :=
  sub_next_id db = spec_next sp /\ targets sp = view <$> subscriptions db /\
  map_Forall (fun _ r => opens r) (subscriptions db).

Context (Hkeys : exists k, keys c !! current_version c = Some k) (Hname : nonempty (current_version c) = true).

Lemma encrypt_opens n s : exists e, encrypt c n s = Ok e /\ key_version e = current_version c /\ decrypt c e = Ok s.
Proof.
  destruct Hkeys as [k Hk]. unfold encrypt, decrypt. rewrite Hk. eexists. split; [done|]. split; [done|].
  cbn. rewrite Hk. by rewrite aes_opens.
Qed.

(** Replacing a row replaces its target. *)
Lemma implements_update db sp i r r' g a :
  implements db sp -> subscriptions db !! i = Some r -> opens r' -> view r' = g (view r) ->
  implements (write_row db i r' a) (spec_change i g sp).
Proof.
  intros (Hn & Ht & Ho) Hr Ho' Hv. split; [done|]. simpl. split.
  - rewrite Ht, fmap_insert, Hv. apply map_eq. intros j. destruct (decide (i = j)) as [<-|Hne].
    + by rewrite lookup_alter_eq, lookup_fmap, Hr, lookup_insert_eq.
    + by rewrite lookup_alter_ne, lookup_insert_ne.
  - by apply map_Forall_insert_2.
Qed.

Lemma implements_missing db sp i g :
  implements db sp -> subscriptions db !! i = None -> implements db (spec_change i g sp).
Proof.
  intros (Hn & Ht & Ho) Hr. split; [done|]. simpl. split; [|done]. rewrite Ht. apply map_eq. intros j.
  destruct (decide (i = j)) as [<-|Hne]; [by rewrite lookup_alter_eq, lookup_fmap, Hr|by rewrite lookup_alter_ne].
Qed.

Lemma run_op_implements o db sp : implements db sp -> implements (run_op c o db) (spec_step o sp).
Proof.
  intros Hi. pose proof Hi as (Hn & Ht & Ho). destruct o as [n now cons url s|n now i s|now i|now i|i]; simpl.
  - unfold create. destruct (encrypt_opens n s) as (e & -> & Hv & Hd). split; [simpl; by rewrite Hn|]. simpl. split.
    + rewrite fmap_insert, Ht, Hn. unfold view, secret_of. simpl. by rewrite Hd.
    + apply map_Forall_insert_2; [|done]. exists e, s. by rewrite Hv.
  - unfold rotate_secret. destruct (encrypt_opens n s) as (e & -> & Hv & Hd). unfold update_row.
    destruct (subscriptions db !! i) as [r|] eqn:Hr; [|by apply implements_missing].
    simpl. eapply implements_update; [done|done| |].
    + exists e, s. by rewrite Hv.
    + unfold view, secret_of. simpl. by rewrite Hd.
  - unfold deactivate, update_row.
    destruct (subscriptions db !! i) as [r|] eqn:Hr; [|by apply implements_missing].
    simpl. eapply implements_update; [done|done|exact (Ho i r Hr)|done].
  - unfold activate, update_row.
    destruct (subscriptions db !! i) as [r|] eqn:Hr; [|by apply implements_missing].
    destruct (Ho i r Hr) as (e & s & He & Hv & Hd). rewrite He. unfold set_active. simpl. rewrite He. simpl.
    eapply implements_update; [done|done|by exists e, s|]. unfold view, secret_of. simpl. by rewrite He.
  - unfold delete. destruct (subscriptions db !! i) as [r|] eqn:Hr; simpl.
    + split; [done|]. simpl. rewrite Ht, fmap_delete. split; [done|]. by apply map_Forall_delete.
    + split; [done|]. simpl. split; [|done]. by rewrite Ht, <- fmap_delete, delete_id.
Qed.

Lemma run_ops_implements os : implements (run_ops c os (MkSubDb ∅ 1 [])) (spec_run os).
Proof.
  unfold run_ops, spec_run.
  assert (implements (MkSubDb ∅ 1 []) (MkSpecDb ∅ 1)) as Hi by (split; [done|]; split; [simpl; by rewrite fmap_empty|done]).
  revert Hi. generalize (MkSubDb ∅ 1 []), (MkSpecDb ∅ 1). induction os as [|o os IH]; intros db sp Hi; [done|].
  simpl. by apply IH, run_op_implements.
Qed.

Lemma filter_map {A B} (f : A -> B) (p : B -> bool) l :
  filter (fun y => p y = true) (map f l) = map f (filter (fun x => p (f x) = true) l).
Proof.
  induction l as [|x l IH]; [done|]. simpl. rewrite !filter_cons, IH.
  destruct (decide (p (f x) = true)); by repeat case_decide.
Qed.

(** The rows dispatch selects are the targets of the contract. *)
Lemma select_targets consumer limit db sp : implements db sp ->
  take limit (spec_targets consumer sp)
  = map (fun ir => (ir.1, view ir.2)) (select (for_dispatch consumer) limit 0 db).
Proof.
  intros (_ & Ht & _). unfold spec_targets, select. rewrite Ht, drop_0, map_to_list_fmap. unfold by_id.
  set (f := prod_map id view : Z * sub_row -> Z * spec_sub).
  change (f <$> ?l) with (map f l).
  rewrite (filter_map f (fun x => String.eqb (sp_consumer x.2) consumer && sp_active x.2)).
  rewrite (sort_by_fmap f (fun a b : Z * sub_row => a.1 <? b.1)); [|by intros [] []].
  rewrite firstn_map. etrans; [apply map_ext; by intros []|]. by do 3 f_equal.
Qed.

Lemma select_in p limit offset db ir : ir ∈ select p limit offset db -> subscriptions db !! ir.1 = Some ir.2.
Proof.
  unfold select, by_id. intros Hin%subseteq_take%subseteq_drop. rewrite elem_of_sort_by in Hin.
  apply list_elem_of_filter in Hin as [_ Hin]. destruct ir. by apply elem_of_map_to_list in Hin.
Qed.

Lemma dispatch_rows l :
  Forall (fun ir => opens ir.2) l ->
  rmap (map dispatch_view) (mapR (fun ir => webhook_subscription_from_row (Some c) ir.1 ir.2) l)
  = mapR spec_view (map (fun ir => (ir.1, view ir.2)) l).
Proof.
  induction 1 as [|[i r] l (e & s & He & Hv & Hd) _ IH]; [done|]. simpl in He |- *. rewrite <- IH.
  unfold webhook_subscription_from_row, spec_view, view, secret_of. simpl. rewrite He, Hv, Hd. simpl.
  destruct (_ && _); simpl; [|done]. by destruct (mapR _ l).
Qed.
End Refinement.

(** ** Theorems *)


(** A toy cipher: the key, nonce and label in front of the text. *)
Module SubSim.
Fixpoint unprefix (p s : string) : option string :=
  match p, s with
  | EmptyString, _ => Some s
  | String a p', String b s' => if Ascii.eqb a b then unprefix p' s' else None
  | _, EmptyString => None
  end.
#[global] Instance aead : Aead := {|
  aes_encrypt k n s a := k +:+ n +:+ a +:+ s;
  aes_decrypt k n ct a := unprefix (k +:+ n +:+ a) ct;
|}.
Lemma unprefix_app p s : unprefix p (p +:+ s) = Some s.
Proof. induction p as [|c p IH]; [done|]. simpl. by rewrite Ascii.eqb_refl. Qed.
#[global] Instance lawful : LawfulAead.
Proof. split. intros. simpl. rewrite <- !PyJson.app_assoc_s. apply unprefix_app. Qed.

Definition key : string := "0123456789abcdef0123456789abcdef".
Definition the_cipher : cipher := MkCipher {["v1" := key]} "v1".
Definition history : list sub_op :=
  [Create "n1" (utc 0) "cap" "https://a.example" "s1"; Create "n2" (utc 1) "cap" "https://b.example" "s2";
   Create "n3" (utc 2) "other" "https://c.example" "s3"; Rotate "n4" (utc 3) 1 "s4"; Deactivate (utc 4) 2;
   Create "n5" (utc 5) "cap" "https://d.example" "s5"; Delete 3].
Definition db : sub_db := run_ops the_cipher history (MkSubDb ∅ 1 []).

Example targets_ex :
  rmap (map dispatch_view) (list_for_dispatch (Some the_cipher) "cap" 100 db)
  = Ok [(1, "https://a.example", Some "s4"); (4, "https://d.example", Some "s5")].
Proof. vm_compute. reflexivity. Qed.
Example audit_ex :
  map au_action (sub_audit db) = ["delete"; "create"; "deactivate"; "rotate"; "create"; "create"; "create"].
Proof. vm_compute. reflexivity. Qed.

(** The default limit drops the newest targets. *)
Example limit_drops_newest :
  rmap (map dispatch_view) (list_for_dispatch (Some the_cipher) "cap" 1 db) = Ok [(1, "https://a.example", Some "s4")].
Proof. vm_compute. reflexivity. Qed.

(** Deactivating twice is audited as a change from active. *)
Example second_deactivation_audit :
  au_old_value <$> head (sub_audit (deactivate (utc 9) 2 "rest:webhook" db).1) = Some (Some [("active", VBool true)]).
Proof. vm_compute. reflexivity. Qed.
End SubSim.

