(* ===== verification/WebhookDelivery.v ===== *)
(** * Completion webhooks ([webhook_dispatcher/dispatcher.py])

    A completion event is sent to every subscription of its capability: signed,
    with bounded retries, and a row in [webhook_delivery_failures] for each
    subscription that was not reached ([dispatch_workload_completion_webhooks]
    of the reconciler).  [DeliveryDeps] is everything outside: the clock,
    fresh ids, the pause before an attempt, and one attempt - the resolution of
    the target and the POST to its pinned address - which ends with a status,
    a rejected target, a transport failure or another exception. *)

From Stdlib Require Import SpecFloat.
From S2P Require Import Registry.
From S2P Require Import Prelude PyDecimal PyFloat PyValue PyEq PyTime PyFormat PyJson PyJsonRead.
From S2P Require Import Effects WebhookSigner WebhookSubscriptions.

(** Definitions *)

Definition DEFAULT_RETRY_DELAYS : list float := [fzero; of_Z 1; of_Z 3; of_Z 9].
Definition MAX_ATTEMPTS : nat := 4.

(** ** Outcomes ([DeliveryOutcome]) *)

Record DeliveryOutcome : Type := MkOutcome {
  success : bool;
  attempt : nat;
  status_code : option Z;
  error_message : option string;
  next_retry_at : option datetime;
  out_delivery_id : string;
}.

Definition retryable_status (status : Z) : bool :=
  (status =? 408) || (status =? 425) || (status =? 429) || (500 <=? status).

Definition should_retry (o : DeliveryOutcome) : bool :=
  if success o then false
  else if (MAX_ATTEMPTS <=? attempt o)%nat then false
  else match status_code o with None => true | Some s => retryable_status s end.
Definition state (o : DeliveryOutcome) : string :=
  if success o then "delivered" else if should_retry o then "retry_scheduled" else "terminal_failure".

(** ** One delivery ([_send_webhook_with_retry]) *)

Inductive attempt_outcome :=
| Answered (status : Z)
| TargetRejected
| TransportFailure                              (* TimeoutError, OSError *)
| Escaped (type_name message : string).

Class DeliveryDeps (F : Type) := {
  wall_seconds : F -> F * Z;
  wall_clock : F -> F * datetime;
  fresh_id : F -> F * string;
  pause : float -> F -> F;
  post : string -> string -> dict -> F -> F * attempt_outcome;
}.

Inductive delivery_error :=
| DeliveryExn (e : exn)
| DeliveryEscaped (type_name message : string)
| SubscriptionsRefused (e : subscription_error)
| FailureRefused.                               (* a constraint of the failure table *)

Section Delivery.
Context {F : Type} `{DeliveryDeps F} (hmac_sha256 : string -> string -> string).
Abbreviation op := (eff F delivery_error).
Definition from_world {A} (f : F -> F * A) : op A := fun w => let '(w', a) := f w in (w', Ok a).

Definition base_headers (body delivery_id : string) : dict :=
  [("Content-Type", VStr "application/json"); ("Content-Length", VStr (str_int (Z.of_nat (String.length body))));
   ("X-Pitwall-Delivery-ID", VStr delivery_id)].
Definition signed_headers (body delivery_id : string) (secret : option string) : op dict :=
  match secret with
  | Some (String _ _ as s) =>
      do! now := from_world wall_seconds in
      ret (base_headers body delivery_id ++ [("X-Pitwall-Signature", VStr (sign hmac_sha256 body s now))])
  | _ => ret (base_headers body delivery_id)
  end.

(** The loop over the delays; [last] is the last status and error. *)
Fixpoint attempts (url body : string) (headers : dict) (id : string) (n : nat) (delays : list float)
    (last_status : option Z) (last_error : option string) : op DeliveryOutcome :=
  match delays with
  | [] => ret (MkOutcome false n last_status
                 (Some (match last_error with Some (String _ _ as e) => e | _ => "Webhook delivery failed" end)) None id)
  | delay :: rest =>
      (if fltb fzero delay then fun w => (pause delay w, Ok tt) else ret tt) ;!
      do! outcome := from_world (post url body headers) in
      match outcome with
      | Answered status =>
          if (200 <=? status) && (status <? 300) then ret (MkOutcome true (S n) (Some status) None None id)
          else if negb (retryable_status status) then
            ret (MkOutcome false (S n) (Some status) (Some ("Non-retryable HTTP status: " +:+ str_int status)) None id)
          else attempts url body headers id (S n) rest (Some status)
                 (Some ("Retryable HTTP status: " +:+ str_int status))
      | TargetRejected =>
          ret (MkOutcome false (S n) None (Some "Webhook target rejected by egress policy") None id)
      | TransportFailure =>
          attempts url body headers id (S n) rest last_status (Some "Webhook delivery transport failure")
      | Escaped t m => fail (DeliveryEscaped t m)
      end
  end.

Definition send_webhook_with_retry (url : string) (payload : dict) (secret : option string)
    (delays : list float) (id : string) : op DeliveryOutcome :=
  do! body := lift (rlift DeliveryExn (dumps false false false (VDict payload))) in
  do! headers := signed_headers body id secret in
  attempts url body headers id 0 (take MAX_ATTEMPTS delays) None None.

(** ** All subscriptions ([dispatch_completion]) *)

(** [isoformat] of a UTC time, its offset written [Z]. *)
Definition build_completion_event (workload_id consumer : string) (payload : dict) (delivery_id : string)
    (now : datetime) : dict :=
  [("version", VStr "1"); ("event", VStr "workload.completed"); ("delivery_id", VStr delivery_id);
   ("occurred_at", VStr (isoformat (Datetime (dt_us now) false) +:+ "Z")); ("workload_id", VStr workload_id);
   ("consumer", VStr consumer); ("data", VDict payload)].

Definition deliver (workload_id consumer : string) (payload : dict) (delays : list float) (s : Z * string * option string)
  : op (Z * DeliveryOutcome) :=
  do! id := from_world fresh_id in
  do! now := from_world wall_clock in
  let '(sub_id, url, secret) := s in
  do! o := send_webhook_with_retry url (build_completion_event workload_id consumer payload id now)
             secret delays id in
  ret (sub_id, o).

Definition dispatch_completion (workload_id consumer : string) (payload : dict) (subscriptions : list (Z * string * option string))
    (delays : list float) : op (list (Z * DeliveryOutcome)) :=
  traverse (deliver workload_id consumer payload delays) subscriptions.
End Delivery.

(** ** Failures ([WebhookDeliveryFailureRepository.insert]) *)

Record failure_row : Type := MkFailure {
  f_workload_id : string;
  f_subscription_id : Z;
  f_attempt : Z;
  f_payload : dict;
  f_status_code : option Z;
  f_error_message : option string;
}.
Definition f_key (f : failure_row) : string * Z * Z := (f_workload_id f, f_subscription_id f, f_attempt f).

Record delivery_world (F : Type) : Type := MkDeliveryWorld {
  dw_subs : sub_db;
  dw_failures : list failure_row;
  dw_outside : F;
}.
Arguments MkDeliveryWorld {F}.
Arguments dw_subs {F}.
Arguments dw_failures {F}.
Arguments dw_outside {F}.

(** The attempt is checked, the subscription must exist, and a key is used
    once. *)
Definition insert_failure {F} (f : failure_row) : eff (delivery_world F) delivery_error unit :=
  fun w =>
    if (1 <=? f_attempt f) && (f_attempt f <=? 4) &&
       bool_decide (is_Some (subscriptions (dw_subs w) !! f_subscription_id f)) &&
       bool_decide (f_key f ∉ f_key <$> dw_failures w)
    then (MkDeliveryWorld (dw_subs w) (dw_failures w ++ [f]) (dw_outside w), Ok tt)
    else (w, Err FailureRefused).

(** ** [dispatch_workload_completion_webhooks] *)
Section Dispatch.
Context {F : Type} `{DeliveryDeps F, Aead} (hmac_sha256 : string -> string -> string).
Abbreviation op := (eff (delivery_world F) delivery_error).

(** A delivery runs outside the tables. *)
Definition outside_op {A} (m : eff F delivery_error A) : op A :=
  fun w => let '(o, r) := m (dw_outside w) in (MkDeliveryWorld (dw_subs w) (dw_failures w) o, r).

Definition failure_of (workload : dict) (workload_id : string) (r : Z * DeliveryOutcome) : failure_row :=
  MkFailure workload_id r.1 (match attempt r.2 with O => 1 | n => Z.of_nat n end)
    [("event", VStr "workload.completed"); ("workload_id", VStr workload_id);
     ("delivery_id", VStr (out_delivery_id r.2)); ("state", dict_get_none "state" workload)]
    (status_code r.2) (error_message r.2).
Definition record_failure (workload : dict) (workload_id : string) (r : Z * DeliveryOutcome) : op unit :=
  if success r.2 then ret tt else insert_failure (failure_of workload workload_id r).

(** [cipher] is [None] when its keys are not configured. *)
Definition dispatch_workload_completion_webhooks (c : option cipher) (workload event : dict)
  : op (list (Z * DeliveryOutcome)) :=
  match dict_get_none "capability_id" workload, dict_get_none "id" workload, c with
  | VStr capability_id, VStr workload_id, Some _ =>
      do! w := Effects.get in
      match list_for_dispatch c capability_id 100 (dw_subs w) with
      | Err e => fail (SubscriptionsRefused e)
      | Ok subs =>
          do! results := outside_op (dispatch_completion hmac_sha256 workload_id capability_id event
                                       (map dispatch_view subs) DEFAULT_RETRY_DELAYS) in
          do! _ := traverse (record_failure workload workload_id) results in
          ret results
      end
  | _, _, _ => ret []
  end.
End Dispatch.

(** ** What attempts were made *)

(** The attempts of the loop from a world, and where they led. *)
Inductive tried {F} `{DeliveryDeps F} (url body : string) (headers : dict)
  : list float -> F -> list attempt_outcome -> F -> Prop :=
| tried_no_more delays w : tried url body headers delays w [] w
| tried_attempt delay delays w outs w' :
    let w1 := if fltb fzero delay then pause delay w else w in
    tried url body headers delays (post url body headers w1).1 outs w' ->
    tried url body headers (delay :: delays) w ((post url body headers w1).2 :: outs) w'.

Definition may_retry (o : attempt_outcome) : Prop :=
  match o with Answered s => retryable_status s = true | TransportFailure => True | _ => False end.
Definition delivered (o : attempt_outcome) : bool :=
  match o with Answered s => (200 <=? s) && (s <? 300) | _ => false end.

(** What attempts say about the outcome of a loop that had made [n] attempts,
    the last with status [st], and had [left] delays to go. *)
Definition explains (n left : nat) (st : option Z) (outs : list attempt_outcome) (o : DeliveryOutcome) : Prop :=
  (n + length outs)%nat = attempt o /\ next_retry_at o = None /\
  (forall i x, outs !! i = Some x -> (S i < length outs)%nat -> may_retry x) /\
  match last outs with
  | None => left = O /\ success o = false /\ status_code o = st
  | Some x =>
      success o = delivered x /\ (may_retry x -> length outs = left) /\
      match x with Answered s => status_code o = Some s | Escaped _ _ => False | _ => True end
  end.

(** Lemmas *)

Lemma retry_not_delivered x : may_retry x -> delivered x = false.
Proof. destruct x; try done. unfold may_retry, delivered, retryable_status. intros. lia. Qed.

Lemma explains_stop n left st x o :
  attempt o = S n -> next_retry_at o = None -> success o = delivered x -> ~ may_retry x ->
  match x with Answered s => status_code o = Some s | Escaped _ _ => False | _ => True end ->
  explains n (S left) st [x] o.
Proof.
  intros Ha Hn Hs Hm Hx. split; [simpl; lia|]. split; [done|]. split; [intros [|i] y Hi Hlt; simpl in Hlt; lia|].
  simpl. by split; [|split].
Qed.

Lemma explains_more n left st st' x outs o :
  may_retry x -> match x with Answered s => st' = Some s | _ => True end ->
  explains (S n) left st' outs o -> explains n (S left) st (x :: outs) o.
Proof.
  intros Hm Hx (Ha & Hn & Hall & Hlast). split; [simpl; lia|]. split; [done|]. split.
  - intros [|i] y Hy Hlt; simpl in Hlt; [by injection Hy as <-|]. apply (Hall i); [done|lia].
  - destruct outs as [|y outs].
    + simpl in *. destruct Hlast as (-> & Hs & Hst). rewrite (retry_not_delivered x Hm). split; [done|].
      split; [done|]. destruct x; try done. by rewrite Hst, Hx.
    + change (last (x :: y :: outs)) with (last (y :: outs)).
      destruct (last (y :: outs)) as [z|] eqn:El; [|by apply last_None in El].
      destruct Hlast as (Hs & Hle & Hz). split; [done|]. split; [|done]. intros Hmz. simpl. rewrite <- Hle by done. done.
Qed.

Section Attempts.
Context {F : Type} `{DeliveryDeps F}.

Lemma from_world_step {A} (f : F -> F * A) w w' (r : result delivery_error A) :
  from_world f w = (w', r) -> w' = (f w).1 /\ r = Ok (f w).2.
Proof. unfold from_world. destruct (f w) eqn:E. by intros [= <- <-]. Qed.

Lemma attempts_tried url body headers id n delays st er w w' o :
  attempts url body headers id n delays st er w = (w', Ok o) ->
  exists outs, tried url body headers delays w outs w' /\ explains n (length delays) st outs o.
Proof.
  revert n st er w. induction delays as [|d ds IH]; intros n st er w E; simpl in E.
  { injection E as <- <-. exists []. split; [constructor|]. split; [simpl; lia|]. by split; [|split]. }
  apply bind_cases in E as [(e & _ & [=])|([] & w1 & Ep & Hk)].
  assert (w1 = if fltb fzero d then pause d w else w) as -> by (destruct (fltb fzero d); by injection Ep as <-).
  clear Ep. set (w1 := if fltb fzero d then pause d w else w) in *.
  apply bind_cases in Hk as [(e & _ & [=])|(x & w2 & Hp & Hk)]. apply from_world_step in Hp as [-> [= Hx]].
  assert (explains n (S (length ds)) st [x] o -> w' = (post url body headers w1).1 ->
            exists outs, tried url body headers (d :: ds) w outs w' /\ explains n (S (length ds)) st outs o) as Hstop.
  { intros He ->. eexists [_]. rewrite Hx in He. split; [|exact He]. apply tried_attempt. constructor. }
  assert (forall st' er', attempts url body headers id (S n) ds st' er' (post url body headers w1).1 = (w', Ok o) ->
            may_retry x -> match x with Answered s => st' = Some s | _ => True end ->
            exists outs, tried url body headers (d :: ds) w outs w' /\ explains n (S (length ds)) st outs o) as Hgo.
  { intros st' er' Hrun Hm Hst. apply IH in Hrun as (outs & Ht & He). exists (x :: outs). split.
    - rewrite Hx. by apply tried_attempt.
    - by eapply explains_more. }
  clear Hx. destruct x as [s| | |t m]; [| |by eapply Hgo|done].
  - destruct ((200 <=? s) && (s <? 300)) eqn:Ed.
    { injection Hk as <- <-. apply Hstop; [|done]. apply explains_stop; try done.
      intros Hm%retry_not_delivered. simpl in Hm. congruence. }
    destruct (retryable_status s) eqn:Er; cbn [negb] in Hk; [by eapply Hgo|].
    injection Hk as <- <-. apply Hstop; [|done]. apply explains_stop; try done. simpl. congruence.
  - injection Hk as <- <-. apply Hstop; [|done]. apply explains_stop; try done; intros [].
Qed.

(** ** Bodies and signatures *)

Lemma to_json_native d n v : native v -> exists j, to_json d n v = Ok j.
Proof.
  induction v as [|b|z|f|x|s|s|t|l IH|l IH|m IH] using pyval_nested_ind; intros Hv; try contradiction;
    try (by eexists).
  - apply native_list in Hv. rewrite to_json_list.
    assert (exists js, mapR (to_json d n) l = Ok js) as [js ->]; [|by eexists].
    induction IH as [|x l Hx _ IHl]; [by eexists|]. apply Forall_cons in Hv as [Hvx Hv].
    destruct (Hx Hvx) as [j Hj], (IHl Hv) as [js Hjs]. simpl. rewrite Hj. simpl. rewrite Hjs. by eexists.
  - apply native_dict in Hv as [_ Hv]. rewrite to_json_dict.
    assert (exists js, members_json d n m = Ok js) as [js ->]; [|by eexists]. unfold members_json.
    induction IH as [|[k x] m Hx _ IHm]; [by eexists|]. apply Forall_cons in Hv as [Hvx Hv]. simpl in *.
    destruct (Hx Hvx) as [j Hj], (IHm Hv) as [js Hjs]. rewrite Hj. simpl. rewrite Hjs. by eexists.
Qed.

Lemma event_native workload_id consumer payload id now :
  native (VDict payload) -> native (VDict (build_completion_event workload_id consumer payload id now)).
Proof.
  intros Hp. apply native_dict. split.
  - repeat (apply NoDup_cons; split; [set_solver|]). constructor.
  - unfold build_completion_event. repeat (apply Forall_cons; split; [done|]). constructor.
Qed.

(** A delivery that returns: its body, its headers and its attempts. *)
Lemma send_tried hmac url payload secret delays id w w' o :
  send_webhook_with_retry hmac url payload secret delays id w = (w', Ok o) ->
  exists body headers w0 outs, dumps false false false (VDict payload) = Ok body /\
    signed_headers hmac body id secret w = (w0, Ok headers) /\
    tried url body headers (take MAX_ATTEMPTS delays) w0 outs w' /\
    explains 0 (length (take MAX_ATTEMPTS delays)) None outs o.
Proof.
  intros E. unfold send_webhook_with_retry in E.
  apply bind_cases in E as [(e & _ & [=])|(body & w1 & [= -> Hb] & E)].
  apply bind_cases in E as [(e & _ & [=])|(hs & w2 & Hs & E)].
  destruct (dumps _ _ _ _) as [b|] eqn:Ed; [|done]. injection Hb as ->.
  apply attempts_tried in E as (outs & Ht & He). by exists body, hs, w2, outs.
Qed.

Lemma tried_length url body headers delays w outs w' :
  tried url body headers delays w outs w' -> (length outs <= length delays)%nat.
Proof. induction 1; simpl; lia. Qed.

Lemma signed_header hmac body id secret w w0 hs :
  secret <> EmptyString -> signed_headers hmac body id (Some secret) w = (w0, Ok hs) ->
  dict_get "X-Pitwall-Signature" hs = Some (VStr (sign hmac body secret (wall_seconds w).2)).
Proof.
  intros Hs E. destruct secret as [|c s]; [done|]. unfold signed_headers in E.
  apply bind_cases in E as [(e & _ & [=])|(now & w1 & E & [= _ <-])].
  by apply from_world_step in E as [_ [= ->]].
Qed.

Lemma deliver_ids hmac workload_id consumer payload delays l w w' rs :
  dispatch_completion hmac workload_id consumer payload l delays w = (w', Ok rs) -> rs.*1 = map (fun s => s.1.1) l.
Proof.
  unfold dispatch_completion. revert w w' rs. induction l as [|[[i url] secret] l IH]; intros w w' rs E; simpl in E; [by injection E as _ <-|].
  apply bind_cases in E as [(e & _ & [=])|(r & w1 & Hd & E)].
  apply bind_cases in E as [(e & _ & [=])|(rs' & w2 & Hr & [= _ <-])]. apply IH in Hr.
  unfold deliver in Hd. apply bind_cases in Hd as [(e & _ & [=])|(did & w3 & _ & Hd)].
  apply bind_cases in Hd as [(e & _ & [=])|(now & w4 & _ & Hd)].
  apply bind_cases in Hd as [(e & _ & [=])|(o & w5 & _ & [= _ <-])]. csimpl. by rewrite Hr.
Qed.
End Attempts.

Lemma record_failures {F} workload workload_id rs (w w' : delivery_world F) us :
  traverse (record_failure workload workload_id) rs w = (w', Ok us) ->
  dw_subs w' = dw_subs w /\ dw_outside w' = dw_outside w /\
  dw_failures w' = dw_failures w ++ map (failure_of workload workload_id) (filter (fun r => success r.2 = false) rs).
Proof.
  revert w w' us. induction rs as [|r rs IH]; intros w w' us E; simpl in E.
  { injection E as <- _. by rewrite app_nil_r. }
  apply bind_cases in E as [(e & _ & [=])|(u & w1 & Hr & E)].
  apply bind_cases in E as [(e & _ & [=])|(us' & w2 & Hrs & [= <- _])].
  apply IH in Hrs as (Hs & Ho & Hf). rewrite filter_cons. unfold record_failure in Hr.
  destruct (success r.2); [injection Hr as <- _; by rewrite decide_False|]. rewrite decide_True by done.
  unfold insert_failure in Hr. destruct (_ && _); [|done]. injection Hr as <- _. simpl in *.
  rewrite Hf, <- app_assoc. done.
Qed.

(** ** Theorems *)

(** One delivery makes at most four attempts.  It stops at the first answer
    that is 2xx, at the first that no retry can change, and at a rejected
    target; everything before was a retryable status or a transport failure;
    it gives up on a retryable end only when the delays are used up.  The
    outcome counts the attempts and never names a time for another. *)
Theorem delivery_attempts_bounded {F} `{DeliveryDeps F} hmac url payload secret delays id (w w' : F) o :
  send_webhook_with_retry hmac url payload secret delays id w = (w', Ok o) ->
  (attempt o <= MAX_ATTEMPTS)%nat /\
  exists body headers w0 outs, dumps false false false (VDict payload) = Ok body /\
    tried url body headers (take MAX_ATTEMPTS delays) w0 outs w' /\
    explains 0 (length (take MAX_ATTEMPTS delays)) None outs o.
Proof.
  intros (body & hs & w0 & outs & Hb & _ & Ht & He)%send_tried. split; [|by exists body, hs, w0, outs].
  pose proof (tried_length _ _ _ _ _ _ _ Ht) as Hlen. destruct He as [Ha _].
  rewrite length_take in Hlen. unfold MAX_ATTEMPTS in *. lia.
Qed.


(** A dispatch that returns has tried every active subscription of the
    capability, and each one it did not reach has its failure row: none is
    forgotten and nothing else is written. *)
Theorem failures_recorded {F} `{DeliveryDeps F, Aead} hmac ci workload event capability_id workload_id
    (w w' : delivery_world F) results :
  dict_get_none "capability_id" workload = VStr capability_id -> dict_get_none "id" workload = VStr workload_id ->
  dispatch_workload_completion_webhooks hmac (Some ci) workload event w = (w', Ok results) ->
  dw_subs w' = dw_subs w /\
  dw_failures w' = dw_failures w ++
    map (failure_of workload workload_id) (filter (fun r => success r.2 = false) results) /\
  exists subs, list_for_dispatch (Some ci) capability_id 100 (dw_subs w) = Ok subs /\ results.*1 = map ws_id subs.
Proof.
  intros Hc Hi E. unfold dispatch_workload_completion_webhooks in E. rewrite Hc, Hi in E.
  apply bind_cases in E as [(e & _ & [=])|(w0 & w1 & [= <- <-] & E)].
  destruct (list_for_dispatch _ _ _ _) as [subs|e] eqn:Hl; [|done].
  apply bind_cases in E as [(e & _ & [=])|(rs & w2 & Hr & E)].
  apply bind_cases in E as [(e & _ & [=])|(us & w3 & Hf & [= <- <-])].
  unfold outside_op in Hr. destruct (dispatch_completion _ _ _ _ _ _ _) as [o r] eqn:Hd. injection Hr as <- ->.
  apply record_failures in Hf as (Hs & _ & Hf). split; [done|]. split; [done|]. exists subs. split; [done|].
  apply deliver_ids in Hd. rewrite Hd, map_map. done.
Qed.

(** ** A scripted network *)
Module DeliverySim.
Record net : Type := MkNet { answers : list attempt_outcome; posted : list (string * string); ids : Z; seconds : Z }.
#[global] Instance deps : DeliveryDeps net := {|
  wall_seconds n := (n, seconds n);
  wall_clock n := (n, utc (seconds n * 1000000));
  fresh_id n := (MkNet (answers n) (posted n) (ids n + 1) (seconds n), "d" +:+ str_int (ids n));
  pause _ n := MkNet (answers n) (posted n) (ids n) (seconds n + 1);
  post url body _ n :=
    match answers n with
    | [] => (MkNet [] (posted n ++ [(url, body)]) (ids n) (seconds n), Answered 200)
    | x :: l => (MkNet l (posted n ++ [(url, body)]) (ids n) (seconds n), x)
    end;
|}.
Definition payload : dict := [("workload_id", VStr "w1"); ("state", VStr "completed"); ("execution_ms", VInt 12)].
Definition start (l : list attempt_outcome) : net := MkNet l [] 1 1700000000.
Definition send (l : list attempt_outcome) :=
  send_webhook_with_retry toy_hmac "https://a.example" payload (Some "s") DEFAULT_RETRY_DELAYS "d1" (start l).

Definition brief (r : net * result delivery_error DeliveryOutcome) :=
  (match r.2 with Ok o => Some (success o, attempt o, status_code o, state o) | Err _ => None end, length (posted r.1)).

Example first_try_ex : brief (send []) = (Some (true, 1%nat, Some 200, "delivered"), 1%nat).
Proof. vm_compute. reflexivity. Qed.
Example retries_ex :
  brief (send [Answered 503; TransportFailure; Answered 204]) = (Some (true, 3%nat, Some 204, "delivered"), 3%nat).
Proof. vm_compute. reflexivity. Qed.
Example gives_up_ex :
  brief (send (repeat (Answered 500) 9)) = (Some (false, 4%nat, Some 500, "terminal_failure"), 4%nat).
Proof. vm_compute. reflexivity. Qed.
Example client_error_ex :
  brief (send [Answered 404]) = (Some (false, 1%nat, Some 404, "terminal_failure"), 1%nat).
Proof. vm_compute. reflexivity. Qed.

(** A target the egress policy rejects is never tried again, yet its state
    promises a retry. *)
Example rejected_promises_retry :
  brief (send [TargetRejected]) = (Some (false, 1%nat, None, "retry_scheduled"), 1%nat).
Proof. vm_compute. reflexivity. Qed.

(** ** Two subscriptions *)
Definition subs : sub_db := SubSim.db.
Definition workload : dict := [("id", VStr "w1"); ("capability_id", VStr "cap"); ("state", VStr "completed")].
Definition dispatch (l : list attempt_outcome) :=
  dispatch_workload_completion_webhooks toy_hmac (Some SubSim.the_cipher) workload payload
    (MkDeliveryWorld subs [] (start l)).

Example one_failure_ex :
  (let '(w, r) := dispatch (repeat (Answered 500) 4) in
   (map (fun f => (f_subscription_id f, f_attempt f, f_status_code f)) (dw_failures w),
    map fst (posted (dw_outside w)), match r with Ok rs => map (fun x => (x.1, success x.2)) rs | Err _ => [] end))
  = ([(1, 4, Some 500)],
     repeat "https://a.example" 4 ++ ["https://d.example"], [(1, false); (4, true)]).
Proof. vm_compute. reflexivity. Qed.

(** An answer that is no HTTP (an [HTTPException] is no [OSError]) ends the
    whole dispatch: the second subscription is never tried and no failure is
    recorded. *)
Example malformed_answer_skips_the_rest :
  (let '(w, r) := dispatch [Escaped "BadStatusLine" ""] in
   (length (dw_failures w), map fst (posted (dw_outside w)), match r with Ok _ => None | Err e => Some e end))
  = (0%nat, ["https://a.example"], Some (DeliveryEscaped "BadStatusLine" "")).
Proof. vm_compute. reflexivity. Qed.
End DeliverySim.

Lemma delivery_attempts_bounded_witness :
  match DeliverySim.send [Answered 503; Answered 204] with
  | (w', Ok o) =>
      (attempt o <= MAX_ATTEMPTS)%nat /\
      exists body headers w0 outs, dumps false false false (VDict DeliverySim.payload) = Ok body /\
        tried (H:=DeliverySim.deps) "https://a.example" body headers (take MAX_ATTEMPTS DEFAULT_RETRY_DELAYS) w0 outs w' /\
        explains 0 (length (take MAX_ATTEMPTS DEFAULT_RETRY_DELAYS)) None outs o
  | _ => False
  end.
Proof.
  destruct (DeliverySim.send _) as [w' [o|e]] eqn:E; [|vm_compute in E; discriminate E].
  exact (delivery_attempts_bounded (H:=DeliverySim.deps) toy_hmac "https://a.example" DeliverySim.payload (Some "s")
    DEFAULT_RETRY_DELAYS "d1" _ w' o E).
Defined.


Lemma failures_recorded_witness :
  match DeliverySim.dispatch (repeat (Answered 500) 4) with
  | (w', Ok results) =>
      dw_subs w' = DeliverySim.subs /\
      dw_failures w' = [] ++ map (failure_of DeliverySim.workload "w1") (filter (fun r => success r.2 = false) results) /\
      exists subs, list_for_dispatch (Some SubSim.the_cipher) "cap" 100 DeliverySim.subs = Ok subs /\
        results.*1 = map ws_id subs
  | _ => False
  end.
Proof.
  destruct (DeliverySim.dispatch _) as [w' [rs|e]] eqn:E; [|vm_compute in E; discriminate E].
  exact (failures_recorded (H:=DeliverySim.deps) toy_hmac SubSim.the_cipher DeliverySim.workload DeliverySim.payload
    "cap" "w1" (MkDeliveryWorld DeliverySim.subs [] (DeliverySim.start (repeat (Answered 500) 4))) w' rs eq_refl eq_refl E).
Defined.
