(* ===== verification/Typed.v ===== *)
(** * The workload table is well typed

    Every statement any component runs on [pitwall.workloads], and the
    requests and jobs that run them, leave a table in which each row has only
    the columns of the schema, each with a value of its type, and satisfies
    the constraints.  Such a table is read without a default: the state is a
    member of [WorkloadState] and the costs the budget adds up are amounts. *)

From S2P Require Import Registry.
From S2P Require Import Prelude PyDecimal PyFloat PyValue PyEq PyTime PyFormat PyJson RequestKeys.
From S2P Require Import Effects Enums Provider Estimator WorkloadStore BudgetGate GateTable SyncGate Jobs Pods Reconciler.

(** Definitions *)

Definition row_typed (row : dict) : bool := forallb column_accepts row && row_constraints row.
Definition table_typed (db : workload_db) : Prop := map_Forall (fun _ row => row_typed row = true) (workloads db).

(** The value the schema promises for a column: of its type, and only null
    where the column may be. *)
Definition column_typed (row : dict) (k : string) (t : column_type) (nullable : bool) : Prop :=
  encodes t (dict_get_none k row) = true /\ (nullable = false -> dict_get_none k row <> VNone).

(** One statement of a repository, a service or a job. *)
Inductive table_statement (month_start : Z -> Z) (constraints_ok : workload_row -> bool)
  : workload_db -> workload_db -> Prop :=
| run_insert db i row :
    table_statement month_start constraints_ok db (insert_workload db i row).1
| run_update_state db i state u :
    table_statement month_start constraints_ok db (update_state db i state u).1
| run_guarded db db' i from to patch o : guarded_transition db i from to patch = Ok (db', o) ->
    table_statement month_start constraints_ok db db'
| run_transition db i from to patch :
    table_statement month_start constraints_ok db (transition_workload i from to patch db).1
| run_admit db g clock cap prov est typ sub key i :
    table_statement month_start constraints_ok db (admit_row month_start constraints_ok g clock cap prov est typ sub key i db).1
| run_constant_update db i sets :
    table_statement month_start constraints_ok db (unguarded_update i sets (fun _ => Ok sets) db).1
| run_mark_running db i t n input chain :
    table_statement month_start constraints_ok db (mark_workload_running i t n input chain db).1
| run_terminal_state db i s :
    table_statement month_start constraints_ok db (apply_terminal_state db i s).1
| run_reserve_key db db' hash key body i o : reserve_idempotency_key hash db key body i = Ok (db', o) ->
    table_statement month_start constraints_ok db db'.

(** A statement, or all a request does by itself. *)
Inductive table_step (month_start : Z -> Z) (constraints_ok : workload_row -> bool)
  : workload_db -> workload_db -> Prop :=
| step_statement db db' : table_statement month_start constraints_ok db db' ->
    table_step month_start constraints_ok db db'
| step_sync F (deps : SyncDeps F) sha256 g rq i (w w' : table_world F) r :
    gate_sync_inference sha256 month_start constraints_ok g rq i w = (w', r) ->
    table_step month_start constraints_ok (tw_db w) (tw_db w')
| step_job F (deps : QueueDeps F) g rq i (w w' : table_world F) r :
    create_and_dispatch_job month_start constraints_ok g rq i w = (w', r) ->
    table_step month_start constraints_ok (tw_db w) (tw_db w')
| step_cancel F (deps : QueueDeps F) registry i (w w' : table_world F) r :
    cancel_job registry i w = (w', r) ->
    table_step month_start constraints_ok (tw_db w) (tw_db w').

(** Lemmas *)

Lemma row_typed_iff row : row_typed row = true <-> forallb column_accepts row = true /\ row_constraints row = true.
Proof. unfold row_typed. apply andb_true_iff. Qed.

Lemma al_set_accepts k v row :
  column_accepts (k, v) = true -> forallb column_accepts row = true -> forallb column_accepts (al_set k v row) = true.
Proof.
  intros Hv. induction row as [|[k' v'] row IH]; simpl; [by rewrite Hv|].
  intros [H1 H2]%andb_true_iff. destruct (decide (k = k')) as [<-|]; simpl; apply andb_true_iff; [done|].
  split; [done|by apply IH].
Qed.

Lemma assign_accepts sets row :
  forallb column_accepts sets = true -> forallb column_accepts row = true ->
  forallb column_accepts (assign row sets) = true.
Proof.
  revert row. induction sets as [|[k v] sets IH]; intros row; simpl; [done|].
  intros [Hv Hs]%andb_true_iff Hr. apply (IH (al_set k v row)); [done|]. by apply al_set_accepts.
Qed.

Lemma set_typed db i row : table_typed db -> row_typed row = true -> table_typed (set_workload db i row).
Proof. intros Hdb Hrow. by apply map_Forall_insert_2. Qed.

Lemma assigned_typed db i row sets :
  table_typed db -> workloads db !! i = Some row -> forallb column_accepts sets = true ->
  row_constraints (assign row sets) = true -> table_typed (set_workload db i (assign row sets)).
Proof.
  intros Hdb Hrow Hs Hc. apply set_typed; [done|]. apply row_typed_iff. split; [|done].
  apply assign_accepts; [done|]. by apply row_typed_iff, (Hdb i).
Qed.

Lemma unguarded_typed db i params sets :
  (forall row s, forallb column_accepts params = true -> sets row = Ok s -> forallb column_accepts s = true) ->
  table_typed db -> table_typed (unguarded_update i params sets db).1.
Proof.
  intros Hs Hdb. unfold unguarded_update. destruct (forallb column_accepts params) eqn:Hp; [|done]. simpl.
  destruct (workloads db !! i) as [row|] eqn:Hrow; [|done]. destruct (sets row) as [s|] eqn:E; [|done].
  destruct (row_constraints _) eqn:Hc; [|done]. simpl. apply assigned_typed; [done|done|by eapply Hs|done].
Qed.

Lemma jsonb_cell_accepts m cell : jsonb_cell m = Ok cell -> encodes CJson cell = true.
Proof. unfold jsonb_cell. destruct (jsonb_dict m); [|done]. by intros [= <-]. Qed.

Lemma chain_cell_accepts l : column_accepts ("fallback_chain", chain_cell l) = true.
Proof. unfold column_accepts, chain_cell. simpl. induction l; [done|]. simpl. exact IHl. Qed.

Lemma mark_running_typed db i t n input chain :
  table_typed db -> table_typed (mark_workload_running i t n input chain db).1.
Proof.
  intros Hdb. unfold mark_workload_running. destruct (jsonb_cell input) as [cell|] eqn:Hc; [|done].
  apply unguarded_typed; [|done]. intros row s Hp (q & Hq & [= <-])%rbind_Ok.
  change (column_accepts ("state", VStr "running") && (column_accepts ("queue_ms", VInt q) &&
    forallb column_accepts [("started_at", VTime t); ("input_bytes", VInt n); ("input", cell);
      ("fallback_chain", chain_cell chain)]) = true).
  rewrite Hp, andb_true_r. unfold queue_ms in Hq. destruct (int4 _) eqn:Hi; [|done]. injection Hq as <-. unfold int4 in Hi.
  unfold column_accepts. simpl. boolify. lia.
Qed.

Section Statements.
Context (month_start : Z -> Z) (constraints_ok : workload_row -> bool).
Context (Hdatabase : forall r, constraints_ok r = true -> row_typed (admitted_dict r) = true).
Abbreviation statement := (table_statement month_start constraints_ok).

Lemma admit_typed g clock cap prov est typ sub key i db :
  table_typed db -> table_typed (admit_row month_start constraints_ok g clock cap prov est typ sub key i db).1.
Proof.
  intros Hdb. destruct (admit_row _ _ _ _ _ _ _ _ _ _ _ _) as [db' o] eqn:E. pose proof (admit_cases _ _ _ _ _ _ _ _ _ _ _ _ _ _ E) as H.
  destruct o as [adm|]; [|by subst]. destruct (is_new adm); [|by destruct H as [-> _]].
  destruct H as (_ & _ & r & -> & _ & _ & Ht). apply set_typed; [done|]. apply Hdatabase.
  by apply admitted_row in Ht as [? _].
Qed.

Lemma statement_typed db db' : statement db db' -> table_typed db -> table_typed db'.
Proof.
  intros [d i row|d i state u|d d' i from to patch o E|d i from to patch|d g clock cap prov est typ sub key i
         |d i sets|d i t n input chain|d i s|d d' hash key body i o E] Hdb.
  - unfold insert_workload. destruct (forallb column_accepts row) eqn:Ha; [|done]. simpl. destruct (_ || _); [done|].
    destruct (row_constraints row) eqn:Hc; [|done]. apply set_typed; [done|]. by apply row_typed_iff.
  - unfold update_state. destruct (forallb column_accepts _) eqn:Ha; [|done]. simpl negb. cbv iota.
    destruct (workloads d !! i) as [row|] eqn:Hr; [|done]. destruct (row_constraints _) eqn:Hc; [|done].
    by apply assigned_typed.
  - unfold guarded_transition in E. destruct (_ || _); [done|]. destruct (forallb column_accepts _) eqn:Ha; [|done].
    simpl negb in E. cbv iota in E. destruct (workloads d !! i) as [row|] eqn:Hr; [|by injection E as <- _].
    destruct (bool_decide _); [|by injection E as <- _]. destruct (row_constraints _) eqn:Hc; [|done].
    apply rbind_Ok in E as (w & Hw & [= <- _]). unfold workload_from_row in Hw.
    destruct (workload_valid _); [|done]. injection Hw as <-.
    by apply (assigned_typed d i row (("state", VStr to) :: patch)).
  - unfold transition_workload. destruct (_ || _); [done|]. destruct (forallb column_accepts _) eqn:Ha; [|done].
    simpl negb. cbv iota. destruct (workloads d !! i) as [row|] eqn:Hr; [|done]. destruct (bool_decide _); [|done].
    destruct (row_constraints _) eqn:Hc; [|done]. by apply assigned_typed.
  - by apply admit_typed.
  - apply unguarded_typed; [|done]. by intros row s Hp [= <-].
  - by apply mark_running_typed.
  - unfold apply_terminal_state. destruct (workloads d !! i) as [row|] eqn:Hr; [|done].
    destruct (bool_decide _); [done|]. destruct (row_constraints _) eqn:Hc; [|done].
    apply assigned_typed; [done|done| |done]. by destruct (js_actual_cost s).
  - unfold reserve_idempotency_key in E. destruct (idempotency_keys d !! key) as [j|].
    + destruct (workloads d !! j) as [row|]; [|by injection E as <- _].
      destruct (dict_get_none "input" row); try (destruct (String.eqb _ _); [|done]); by injection E as <- _.
    + by injection E as <- _.
Qed.

Lemma statements_typed db db' : rtc statement db db' -> table_typed db -> table_typed db'.
Proof. induction 1; [done|]. intros Hdb. by eapply IHrtc, statement_typed. Qed.

(** *** Requests run statements *)

Definition by_statements {F} (w w' : table_world F) : Prop := rtc statement (tw_db w) (tw_db w').
#[local] Instance by_statements_preorder {F} : PreOrder (by_statements (F:=F)).
Proof. split; [by intros w; apply rtc_refl|]. intros a b c H1 H2. unfold by_statements in *. etrans; [exact H1|exact H2]. Qed.

Lemma keeps_on_db {F E A} (raised : store_error -> E) (f : workload_db -> workload_db * result store_error A) :
  (forall db, rtc statement db (f db).1) -> keeps (by_statements (F:=F)) (on_db raised f).
Proof. intros Hf w. unfold by_statements, on_db. specialize (Hf (tw_db w)). by destruct (f (tw_db w)). Qed.
Lemma keeps_from_outside {F E A} (f : F -> F * A) : keeps (E:=E) (by_statements (F:=F)) (from_outside f).
Proof. intros w. unfold by_statements, from_outside. by destruct (f (tw_outside w)). Qed.
Hint Resolve keeps_from_outside : keeps.

Lemma mark_terminal_statement i state t n m res job error db :
  rtc statement db (mark_workload_terminal i state t n m res job error db).1.
Proof.
  unfold mark_workload_terminal. destruct (jsonb_cell res); [|done].
  destruct (match error with Some _ => _ | None => _ end); [|done]. by apply rtc_once, run_constant_update.
Qed.

Section Sync.
Context {F : Type} `{SyncDeps F} (sha256 : string -> string).

Lemma keeps_reserve rq : keeps (by_statements (F:=F)) (reserve sha256 rq).
Proof.
  unfold reserve, raises. destruct (sr_idempotency_key rq) as [key|]; [|keep]. apply keeps_bind; [keep|]. intros h.
  apply keeps_on_db. intros db. destruct (reserve_idempotency_key _ _ _ _ _) as [[db' o]|] eqn:E; [|done].
  by eapply rtc_once, run_reserve_key.
Qed.
Lemma keeps_try_admission g rq upper i : keeps (by_statements (F:=F)) (try_admission month_start constraints_ok g rq upper i).
Proof.
  unfold try_admission. apply keeps_bind; [keep|]. intros clock w.
  pose proof (run_admit month_start constraints_ok (tw_db w) g clock (sr_capability_id rq) (sr_provider_id rq)
    (EBound (VDec (DFin upper))) "inference" (sr_submitted_at rq) (sr_idempotency_key rq) i) as Hs.
  unfold by_statements. destruct (admit_row _ _ _ _ _ _ _ _ _ _ _ _). by apply rtc_once.
Qed.
Lemma keeps_store_result i t t' payload n : keeps (by_statements (F:=F)) (store_result i t t' payload n).
Proof.
  unfold store_result. destruct (active_state payload).
  - apply keeps_on_db. intros db. unfold mark_workload_active_after_call. destruct (jsonb_cell payload); [|done].
    by apply rtc_once, run_constant_update.
  - unfold raises. keep. apply keeps_on_db. intros db. apply mark_terminal_statement.
Qed.
Lemma keeps_record_failure i t n m : keeps (by_statements (F:=F)) (record_failure i t n m).
Proof.
  unfold record_failure, raises. keep. apply keeps_on_db. intros db. unfold mark_workload_failed.
  destruct (jsonb_cell _); [|done]. by apply rtc_once, run_constant_update.
Qed.
Lemma keeps_mark_running i t n input chain :
  keeps (by_statements (F:=F)) (on_db SyncStore (mark_workload_running i t n input chain)).
Proof. apply keeps_on_db. intros db. by apply rtc_once, run_mark_running. Qed.
Hint Resolve keeps_reserve keeps_try_admission keeps_store_result keeps_record_failure keeps_mark_running : keeps.

Lemma sync_by_statements g rq i (w w' : table_world F) r :
  gate_sync_inference sha256 month_start constraints_ok g rq i w = (w', r) -> rtc statement (tw_db w) (tw_db w').
Proof.
  assert (keeps by_statements (gate_sync_inference sha256 month_start constraints_ok g rq i)) as Hk.
  { unfold gate_sync_inference, run_admitted, record_result, load_replay, raises. keep. }
  intros E. specialize (Hk w). by rewrite E in Hk.
Qed.
End Sync.

Section Async.
Context {F : Type} `{QueueDeps F} (registry : registry).

Lemma keeps_get_row i : keeps (by_statements (F:=F)) (get_row i).
Proof. by apply keeps_on_db. Qed.
Lemma keeps_transition i from to patch : keeps (by_statements (F:=F)) (on_db JobStore (transition_workload i from to patch)).
Proof. apply keeps_on_db. intros db. apply rtc_once, run_transition. Qed.
Lemma keeps_store_job_id i job : keeps (by_statements (F:=F)) (store_job_id i job).
Proof. apply keeps_on_db. intros db. apply rtc_once, run_constant_update. Qed.
Lemma keeps_update_input i params : keeps (by_statements (F:=F)) (update_async_workload_input i params).
Proof.
  apply keeps_on_db. intros db. destruct (jsonb_cell params); [|done]. by apply rtc_once, run_constant_update.
Qed.
Lemma keeps_admit_job g rq i : keeps (by_statements (F:=F)) (admit_job month_start constraints_ok g rq i).
Proof.
  unfold admit_job, job_raises. apply keeps_bind; [keep|]. intros upper. apply keeps_bind; [keep|]. intros submitted.
  apply keeps_bind; [keep|]. intros clock w.
  pose proof (run_admit month_start constraints_ok (tw_db w) g clock (jr_capability_id rq) (jr_provider_id rq)
    (EBound (VDec (DFin upper))) "async_job" (Some submitted) (jr_idempotency_key rq) i) as Hs.
  unfold by_statements. destruct (admit_row _ _ _ _ _ _ _ _ _ _ _ _). by apply rtc_once.
Qed.
Lemma keeps_cancel_at_runpod workload : keeps (by_statements (F:=F)) (cancel_at_runpod registry workload).
Proof.
  unfold cancel_at_runpod. keep; intros w; unfold by_statements; done.
Qed.
Hint Resolve keeps_get_row keeps_transition keeps_store_job_id keeps_update_input keeps_admit_job
  keeps_cancel_at_runpod : keeps.

Lemma job_by_statements g rq i (w w' : table_world F) r :
  create_and_dispatch_job month_start constraints_ok g rq i w = (w', r) -> rtc statement (tw_db w) (tw_db w').
Proof.
  assert (keeps by_statements (create_and_dispatch_job month_start constraints_ok g rq i)) as Hk.
  { unfold create_and_dispatch_job, normalized_webhook, dispatch_job, mark_async_dispatch_failed,
      load_admitted_workload, job_raises. keep. }
  intros E. specialize (Hk w). by rewrite E in Hk.
Qed.
Lemma cancel_by_statements i (w w' : table_world F) r :
  cancel_job registry i w = (w', r) -> rtc statement (tw_db w) (tw_db w').
Proof.
  assert (keeps by_statements (cancel_job registry i)) as Hk by (unfold cancel_job; keep).
  intros E. specialize (Hk w). by rewrite E in Hk.
Qed.
End Async.
End Statements.

Lemma table_steps_typed month_start constraints_ok db db' :
  (forall r, constraints_ok r = true -> row_typed (admitted_dict r) = true) ->
  rtc (table_step month_start constraints_ok) db db' -> table_typed db -> table_typed db'.
Proof.
  intros Hok. induction 1 as [|db db1 db' Hstep _ IH]; [done|]. intros Hdb. apply IH. clear IH.
  assert (rtc (table_statement month_start constraints_ok) db db1) as Hs.
  { destruct Hstep; [by apply rtc_once|by eapply sync_by_statements|by eapply job_by_statements
      |by eapply cancel_by_statements]. }
  by eapply statements_typed.
Qed.

Lemma typed_column row k t nullable :
  row_typed row = true -> (k, (t, nullable)) ∈ workload_columns -> column_typed row k t nullable.
Proof.
  intros [Ha Hc]%row_typed_iff Hk. split.
  - unfold dict_get_none. rewrite dict_get_al. destruct (al_get k row) as [v|] eqn:Hv; [|by destruct t].
    apply al_get_Some_elem in Hv. rewrite forallb_forall in Ha. apply list_elem_of_In, Ha in Hv.
    unfold column_accepts in Hv. simpl fst in Hv.
    assert (al_get k workload_columns = Some (t, nullable)) as Hg.
    { apply al_get_elem; [|done]. apply (bool_decide_unpack _). by vm_compute. }
    by rewrite Hg in Hv.
  - intros ->. unfold row_constraints in Hc. apply andb_true_iff in Hc as [Hc _]. apply andb_true_iff in Hc as [Hc _].
    apply andb_true_iff in Hc as [Hc _]. rewrite forallb_forall in Hc. apply list_elem_of_In, Hc in Hk.
    simpl in Hk. by destruct (dict_get_none k row).
Qed.

Lemma typed_state row : row_typed row = true -> exists s : WorkloadState, state_of row = enum_value s.
Proof.
  intros [_ Hc]%row_typed_iff. unfold row_constraints in Hc. apply andb_true_iff in Hc as [Hc _].
  apply andb_true_iff in Hc as [Hc _]. apply andb_true_iff in Hc as [_ Hc]. apply bool_decide_eq_true in Hc.
  apply list_elem_of_fmap in Hc as (s & -> & _). by exists s.
Qed.

(** ** Theorem *)


(** ** Example *)
Module TypedSim.
#[local] Existing Instances SyncSim.deps JobsSim.deps.
Definition checked (r : workload_row) : bool := row_typed (admitted_dict r).
Definition after_sync : table_world SyncSim.outside :=
  (gate_sync_inference toy_sha flat_month checked example_gate (SyncSim.request (Some "k") example_payload) "w1"
     (SyncSim.world_of (Returned SyncSim.good))).1.
Definition after_cancel : table_world JobsSim.queue :=
  (cancel_job JobsSim.no_providers "w1" (MkTableWorld (tw_db after_sync) (JobsSim.MkQueue (QueueAccepted "job") [] []))).1.
Example typed_rows :
  (row_typed <$> workloads (tw_db after_sync) !! "w1", row_typed <$> workloads (tw_db after_cancel) !! "w1")
  = (Some true, Some true).
Proof. vm_compute. reflexivity. Qed.
(** The constraints do refuse rows: a negative estimate. *)
Example negative_estimate_refused :
  checked (MkRow "w1" "cap" "prov" "inference" QUEUED (Some (-1)) None 0 None) = false.
Proof. vm_compute. reflexivity. Qed.
End TypedSim.

