(* ===== verification/Canary.v ===== *)
(** * Shadow and canary routing ([routing/canary.py])

    A share of the traffic goes to a candidate provider: mirrored behind the
    baseline's answer ([SHADOW]) or served in its place ([CANARY]).  The
    observations are folded into metrics and the candidate is promoted, held
    or rolled back.  Calls of providers and of the observer are parameters;
    the shadow call is a task that starts after the answer is known, given as
    the operation it runs.  SHA-256 is a parameter.  Messages of validation
    errors do not name the field. *)

From Stdlib Require Import Ascii SpecFloat.
From S2P Require Import Prelude PyDecimal PyFloat PyValue PyEq PyFormat Effects Enums.

(** Definitions *)

(** ** Validation *)

Definition refuse_if (b : bool) (msg : string) : py unit := if b then Err (ValueError msg) else Ok tt.
Definition out_of_unit (f : float) : bool := negb (fisfinite f) || fltb f fzero || fltb (of_Z 1) f.
Definition validate_bucket (f : float) : py unit :=
  refuse_if (negb (fisfinite f) || fltb f fzero || fleb (of_Z 1) f) "traffic_bucket must be a finite number in [0, 1)".
Definition validate_fraction (f : float) : py unit :=
  refuse_if (out_of_unit f) "candidate_fraction must be a finite number between 0 and 1".
Definition decimal_non_negative (v : pydec) : py dec :=
  match v with
  | DFin d => if dltb d dzero then Err (ValueError "must be a finite non-negative decimal") else Ok d
  | _ => Err (ValueError "must be a finite non-negative decimal")
  end.

(** ** Observations *)

Record CanaryObservation : Type := MkObservation {
  o_provider_id : string;
  o_success : bool;
  o_latency_ms : option dec;
  o_cost_usd : option dec;
  o_quality_score : option float;
}.
Definition opt_check {A B} (f : A -> py B) (o : option A) : py (option B) :=
  match o with None => Ok None | Some x => rmap Some (f x) end.
Definition new_observation (provider_id : string) (success : bool) (latency cost : option pydec)
    (quality : option float) : py CanaryObservation :=
  let? _ := refuse_if (negb (nonempty provider_id)) "provider_id must be non-empty" in
  let? l := opt_check decimal_non_negative latency in
  let? c := opt_check decimal_non_negative cost in
  let? _ := opt_check (fun f => refuse_if (out_of_unit f) "quality_score must be a finite number between 0 and 1") quality in
  Ok (MkObservation provider_id success l c quality).

(** ** Metrics *)

Record ProviderMetrics : Type := MkMetrics {
  m_provider_id : string;
  request_count : Z;
  success_count : Z;
  latency_ms_total : dec;
  latency_sample_count : Z;
  cost_usd_total : dec;
  cost_sample_count : Z;
  quality_score_total : float;
  quality_sample_count : Z;
}.

(** The checks of [ProviderMetrics]. *)
Definition new_metrics (m : ProviderMetrics) : py ProviderMetrics :=
  let? _ := refuse_if (negb (nonempty (m_provider_id m))) "provider_id must be non-empty" in
  let counts := [request_count m; success_count m; latency_sample_count m; cost_sample_count m; quality_sample_count m] in
  let? _ := refuse_if (existsb (fun n => n <? 0) counts) "must be a non-negative integer" in
  let? _ := refuse_if (existsb (fun n => request_count m <? n) counts) "must not exceed request_count" in
  let? _ := decimal_non_negative (DFin (latency_ms_total m)) in
  let? _ := decimal_non_negative (DFin (cost_usd_total m)) in
  let? _ := refuse_if (negb (fisfinite (quality_score_total m)) || fltb (quality_score_total m) fzero)
              "quality_score_total must be a finite non-negative number" in
  Ok m.

Definition from_observations (provider_id : string) (l : list CanaryObservation) : py ProviderMetrics :=
  let latencies := omap o_latency_ms l in
  let costs := omap o_cost_usd l in
  let qualities := omap o_quality_score l in
  let? _ := refuse_if (negb (forallb (fun o => String.eqb (o_provider_id o) provider_id) l))
              "observations must match provider_id" in
  let? latency_total := dsum dzero latencies in
  let? cost_total := dsum dzero costs in
  new_metrics
    (MkMetrics provider_id (Z.of_nat (length l)) (Z.of_nat (length (filter (fun o => o_success o = true) l)))
       latency_total (Z.of_nat (length latencies)) cost_total (Z.of_nat (length costs))
       (fsum qualities) (Z.of_nat (length qualities))).

Definition failure_count (m : ProviderMetrics) : Z := request_count m - success_count m.
Definition success_rate (m : ProviderMetrics) : py float :=
  if request_count m =? 0 then Ok fzero else int_truediv (success_count m) (request_count m).
Definition error_rate (m : ProviderMetrics) : py float := rmap (fsub (of_Z 1)) (success_rate m).
Definition average (total : dec) (n : Z) : py (option dec) :=
  if n =? 0 then Ok None else rmap Some (ddiv total (of_int n)).
Definition average_latency_ms (m : ProviderMetrics) : py (option dec) :=
  average (latency_ms_total m) (latency_sample_count m).
Definition average_cost_usd (m : ProviderMetrics) : py (option dec) :=
  average (cost_usd_total m) (cost_sample_count m).
Definition average_quality_score (m : ProviderMetrics) : py (option float) :=
  if quality_sample_count m =? 0 then Ok None
  else let? n := float_of_int (quality_sample_count m) in rmap Some (fdiv (quality_score_total m) n).

(** ** Promotion *)

Inductive CanaryDecisionAction := PROMOTE | HOLD | ROLLBACK.
#[global] Instance CanaryDecisionAction_enum : StrEnum CanaryDecisionAction := {
  members := [PROMOTE; HOLD; ROLLBACK];
  enum_value a := match a with PROMOTE => "promote" | HOLD => "hold" | ROLLBACK => "rollback" end }.

Record CanaryComparison : Type := MkComparison { baseline : ProviderMetrics; candidate : ProviderMetrics }.
Definition new_comparison (b c : ProviderMetrics) : py CanaryComparison :=
  let? _ := refuse_if (String.eqb (m_provider_id b) (m_provider_id c)) "baseline and candidate provider ids must differ" in
  Ok (MkComparison b c).

Record CanaryPromotionPolicy : Type := MkPromotionPolicy {
  min_baseline_samples : Z;
  min_candidate_samples : Z;
  min_success_rate_delta : float;
  min_quality_delta : float;
  max_latency_ratio : float;
  max_cost_ratio : float;
  rollback_success_rate_delta : float;
  rollback_quality_delta : float;
  rollback_latency_ratio : float;
  rollback_cost_ratio : float;
}.
Definition default_promotion_policy : CanaryPromotionPolicy :=
  MkPromotionPolicy 1 1 fzero fzero (of_Z 1) (of_Z 1) (of_dec (Dec (-5) (-2))) (of_dec (Dec (-5) (-2)))
    (of_dec (Dec 125 (-2))) (of_dec (Dec 125 (-2))).

Definition validate_promotion_policy (p : CanaryPromotionPolicy) : py unit :=
  let? _ := refuse_if ((min_baseline_samples p <? 1) || (min_candidate_samples p <? 1)) "must be a positive integer" in
  let? _ := refuse_if (negb (fisfinite (min_success_rate_delta p) && fisfinite (min_quality_delta p))) "must be finite" in
  let bad f := negb (fisfinite f) || fltb f fzero in
  let? _ := refuse_if (bad (max_latency_ratio p) || bad (max_cost_ratio p)) "must be finite and non-negative" in
  let? _ := refuse_if (negb (fisfinite (rollback_success_rate_delta p) && fisfinite (rollback_quality_delta p)))
              "must be finite" in
  refuse_if (bad (rollback_latency_ratio p) || bad (rollback_cost_ratio p)) "must be finite and non-negative".

Record CanaryPromotionDecision : Type := MkDecision {
  action : CanaryDecisionAction;
  reason : string;
  decided_baseline : ProviderMetrics;
  decided_candidate : ProviderMetrics;
  signals : list string;
}.

(** [_optional_delta], [_optional_ratio] *)
Definition optional_delta (c b : option float) : option float :=
  match c, b with Some x, Some y => Some (fsub x y) | _, _ => None end.
Definition optional_ratio (c b : option dec) : py (option float) :=
  match c, b with
  | Some x, Some y =>
      if deqb y dzero then Ok (Some (if deqb x dzero then fzero else finf))
      else rmap (fun d => Some (of_dec d)) (ddiv x y)
  | _, _ => Ok None
  end.

(** [format(f, ".6f")]: the exact value, rounded half to even. *)
Definition float_sign (f : float) : bool :=
  match f with S754_zero s | S754_infinity s | S754_finite s _ _ => s | S754_nan => false end.
Definition float_fixed (n : nat) (f : float) : string :=
  match float_exact f with
  | DFin d => (if float_sign f then "-" else "") +:+ fmt_fixed n (Dec (Z.abs (dcoef d)) (dexp d))
  | DInf s => if s then "-inf" else "inf"
  | DNaN => "nan"
  end.
Definition format_signed (f : float) : string :=
  (if float_sign f then "" else "+") +:+ float_fixed 6 f.

(** What the two windows say of each other. *)
Record comparison_figures : Type := MkFigures {
  success_delta : float;
  quality_delta : option float;
  latency_ratio : option float;
  cost_ratio : option float;
}.
Definition figures (b c : ProviderMetrics) : py comparison_figures :=
  let? sc := success_rate c in
  let? sb := success_rate b in
  let? qc := average_quality_score c in
  let? qb := average_quality_score b in
  let? lc := average_latency_ms c in
  let? lb := average_latency_ms b in
  let? l := optional_ratio lc lb in
  let? cc := average_cost_usd c in
  let? cb := average_cost_usd b in
  let? k := optional_ratio cc cb in
  Ok (MkFigures (fsub sc sb) (optional_delta qc qb) l k).

Definition comparison_signals (f : comparison_figures) : list string :=
  ["success_rate_delta:" +:+ format_signed (success_delta f)] ++
  match quality_delta f with Some q => ["quality_delta:" +:+ format_signed q] | None => [] end ++
  match latency_ratio f with Some r => ["latency_ratio:" +:+ float_fixed 6 r] | None => [] end ++
  match cost_ratio f with Some r => ["cost_ratio:" +:+ float_fixed 6 r] | None => [] end.

Definition below (limit : float) (o : option float) : bool := match o with Some x => fltb x limit | None => false end.
Definition above (limit : float) (o : option float) : bool := match o with Some x => fltb limit x | None => false end.

(** [x is None or x >= limit], and the like. *)
Definition at_least (limit : float) (o : option float) : bool := match o with Some x => fleb limit x | None => true end.
Definition at_most (limit : float) (o : option float) : bool := match o with Some x => fleb x limit | None => true end.

(** [evaluate_canary] *)
Definition evaluate_canary (cmp : CanaryComparison) (p : CanaryPromotionPolicy) : py CanaryPromotionDecision :=
  let? _ := validate_promotion_policy p in
  let b := baseline cmp in
  let c := candidate cmp in
  let? f := figures b c in
  let decide a why := Ok (MkDecision a why b c (comparison_signals f)) in
  if request_count b <? min_baseline_samples p then decide HOLD "insufficient_baseline_samples"
  else if request_count c <? min_candidate_samples p then decide HOLD "insufficient_candidate_samples"
  else if fltb (success_delta f) (rollback_success_rate_delta p) then decide ROLLBACK "success_rate_regression"
  else if below (rollback_quality_delta p) (quality_delta f) then decide ROLLBACK "quality_regression"
  else if above (rollback_latency_ratio p) (latency_ratio f) then decide ROLLBACK "latency_regression"
  else if above (rollback_cost_ratio p) (cost_ratio f) then decide ROLLBACK "cost_regression"
  else
    let checks := fleb (min_success_rate_delta p) (success_delta f) &&
                  at_least (min_quality_delta p) (quality_delta f) &&
                  at_most (max_latency_ratio p) (latency_ratio f) && at_most (max_cost_ratio p) (cost_ratio f) in
    let wins := fltb fzero (success_delta f) || above fzero (quality_delta f) ||
                below (of_Z 1) (latency_ratio f) || below (of_Z 1) (cost_ratio f) in
    if checks && wins then decide PROMOTE "candidate_beats_baseline"
    else decide HOLD "candidate_does_not_beat_baseline".

(** ** Traffic *)

Inductive CanaryMode := SHADOW | CANARY.
#[global] Instance CanaryMode_enum : StrEnum CanaryMode := {
  members := [SHADOW; CANARY];
  enum_value m := match m with SHADOW => "shadow" | CANARY => "canary" end }.
#[global] Instance CanaryMode_eq_dec : EqDecision CanaryMode.
Proof. solve_decision. Defined.

Record CanaryRoutingPolicy : Type := MkRoutingPolicy {
  mode : CanaryMode;
  candidate_fraction : float;
  experiment_id : string;
}.
Definition validate_routing_policy (p : CanaryRoutingPolicy) : py unit :=
  let? _ := validate_fraction (candidate_fraction p) in
  refuse_if (negb (nonempty (experiment_id p))) "experiment_id must be non-empty".

Record CanaryTrafficDecision : Type := MkTraffic {
  t_mode : CanaryMode;
  t_bucket : float;
  t_candidate_fraction : float;
  t_candidate_selected : bool;
}.

(** [int.from_bytes(digest[:8], "big")] *)
Fixpoint from_bytes (acc : Z) (n : nat) (s : string) : Z :=
  match n, s with
  | S n', String c s' => from_bytes (acc * 256 + Z.of_nat (nat_of_ascii c)) n' s'
  | _, _ => acc
  end.
Definition NUL : string := String (ascii_of_nat 0) EmptyString.

Section Traffic.
Context (sha256_digest : string -> string).

(** The quotient of an integer by [float(1 << 64)]. *)
Definition stable_traffic_bucket (traffic_key experiment : string) : py float :=
  let? n := float_of_int (from_bytes 0 8 (sha256_digest (experiment +:+ NUL +:+ traffic_key))) in
  fdiv n (of_Z (2 ^ 64)).

Definition select_canary_traffic (p : CanaryRoutingPolicy) (traffic_key : string) (bucket : option float)
  : py CanaryTrafficDecision :=
  let? _ := validate_routing_policy p in
  let? b := match bucket with None => stable_traffic_bucket traffic_key (experiment_id p) | Some b => Ok b end in
  let? _ := validate_bucket b in
  Ok (MkTraffic (mode p) b (candidate_fraction p) (fltb b (candidate_fraction p))).
End Traffic.

(** ** Routing *)

Inductive canary_error :=
| CanaryExn (e : exn)
| CallRaised (type_name message : string)     (* an [Exception] of a call *)
| CallCancelled.

Section Routing.
Context {F P V : Type} (sha256_digest : string -> string).
Abbreviation op := (eff F canary_error).

(** The call of a provider and the observer of its value; [None] in place of
    an observation is a value of another class. *)
Record CanaryProviderRequest : Type := MkCanaryRequest {
  cr_baseline : P;
  cr_candidate : P;
  cr_call : P -> op V;
  cr_policy : CanaryRoutingPolicy;
  cr_traffic_key : string;
  cr_traffic_bucket : option float;
  cr_observe : option (P -> V -> op (option CanaryObservation));
  cr_provider_id : P -> py string;
}.

Record CanaryRoutingResult : Type := MkRoutingResult {
  value : V;
  served_provider : P;
  served_provider_id : string;
  baseline_provider_id : string;
  candidate_provider_id : string;
  res_mode : CanaryMode;
  candidate_selected : bool;
  shadowed : bool;
  traffic_bucket : float;
  observations : list CanaryObservation;
  baseline_observation : option CanaryObservation;
  candidate_observation : option CanaryObservation;
  shadow_observation_task : option (op CanaryObservation);
}.

Definition canary_raises {A} (r : py A) : op A := lift (rlift CanaryExn r).

(** [_observation_for_success] *)
Definition observation_for_success (rq : CanaryProviderRequest) (p : P) (v : V) (pid : string) : op CanaryObservation :=
  match cr_observe rq with
  | None => canary_raises (new_observation pid true None None None)
  | Some observe =>
      do! o := observe p v in
      match o with
      | None => fail (CanaryExn (ValueError "observe_result must return CanaryObservation"))
      | Some o => if String.eqb (o_provider_id o) pid then ret o
                  else fail (CanaryExn (ValueError "observation provider_id must match provider"))
      end
  end.

(** [_call_and_observe] *)
Definition call_and_observe (rq : CanaryProviderRequest) (p : P) (pid : string) : op (V * CanaryObservation) :=
  do! v := cr_call rq p in
  do! o := observation_for_success rq p v pid in
  ret (v, o).

(** [_call_shadow_candidate]: every [Exception] becomes a failed observation. *)
Definition call_shadow_candidate (rq : CanaryProviderRequest) (p : P) (pid : string) : op CanaryObservation :=
  fun w =>
    match (do! r := call_and_observe rq p pid in ret r.2) w with
    | (w', Ok o) => (w', Ok o)
    | (w', Err CallCancelled) => (w', Err CallCancelled)
    | (w', Err _) => (w', rlift CanaryExn (new_observation pid false None None None))
    end.

Definition route_shadow (rq : CanaryProviderRequest) (bid cid : string) (t : CanaryTrafficDecision)
  : op CanaryRoutingResult :=
  do! r := call_and_observe rq (cr_baseline rq) bid in
  ret (MkRoutingResult r.1 (cr_baseline rq) bid bid cid (t_mode t) (t_candidate_selected t) (t_candidate_selected t)
         (t_bucket t) [r.2] (Some r.2) None
         (if t_candidate_selected t then Some (call_shadow_candidate rq (cr_candidate rq) cid) else None)).

Definition route_canary (rq : CanaryProviderRequest) (bid cid : string) (t : CanaryTrafficDecision)
  : op CanaryRoutingResult :=
  let served := if t_candidate_selected t then cr_candidate rq else cr_baseline rq in
  let sid := if t_candidate_selected t then cid else bid in
  do! r := call_and_observe rq served sid in
  ret (MkRoutingResult r.1 served sid bid cid (t_mode t) (t_candidate_selected t) false (t_bucket t) [r.2]
         (if String.eqb sid bid then Some r.2 else None) (if String.eqb sid cid then Some r.2 else None) None).

(** [route_with_canary] *)
Definition route_with_canary (rq : CanaryProviderRequest) : op CanaryRoutingResult :=
  do! bid := canary_raises (cr_provider_id rq (cr_baseline rq)) in
  do! cid := canary_raises (cr_provider_id rq (cr_candidate rq)) in
  if String.eqb bid cid
  then fail (CanaryExn (ValueError "baseline and candidate provider ids must differ"))
  else
    do! t := canary_raises (select_canary_traffic sha256_digest (cr_policy rq) (cr_traffic_key rq) (cr_traffic_bucket rq)) in
    match t_mode t with
    | SHADOW => route_shadow rq bid cid t
    | CANARY => route_canary rq bid cid t
    end.
End Routing.

(** Lemmas *)

Section Facts.
Context {F P V : Type} (sha256_digest : string -> string).
Abbreviation request := (CanaryProviderRequest (F:=F) (P:=P) (V:=V)).

Lemma canary_raises_step {A} (r : py A) (w w' : F) o :
  canary_raises r w = (w', o) -> w' = w /\ o = rlift CanaryExn r.
Proof. unfold canary_raises, lift. by intros [= <- <-]. Qed.

(** A route that returns made one call. *)
Lemma route_Ok (rq : request) (w w' : F) res :
  route_with_canary sha256_digest rq w = (w', Ok res) ->
  exists bid cid t, cr_provider_id rq (cr_baseline rq) = Ok bid /\ cr_provider_id rq (cr_candidate rq) = Ok cid /\
    bid <> cid /\
    select_canary_traffic sha256_digest (cr_policy rq) (cr_traffic_key rq) (cr_traffic_bucket rq) = Ok t /\
    match t_mode t with
    | SHADOW => route_shadow rq bid cid t w = (w', Ok res)
    | CANARY => route_canary rq bid cid t w = (w', Ok res)
    end.
Proof.
  intros E. unfold route_with_canary in E.
  apply bind_cases in E as [(e & _ & [=])|(bid & w1 & [-> Hb]%canary_raises_step & E)].
  apply bind_cases in E as [(e & _ & [=])|(cid & w2 & [-> Hc]%canary_raises_step & E)].
  destruct (String.eqb_spec bid cid) as [|Hne]; [done|].
  apply bind_cases in E as [(e & _ & [=])|(t & w3 & [-> Ht]%canary_raises_step & E)].
  exists bid, cid, t. destruct (cr_provider_id rq (cr_baseline rq)); [injection Hb as ->|done].
  destruct (cr_provider_id rq (cr_candidate rq)); [injection Hc as ->|done].
  destruct (select_canary_traffic _ _ _ _); [injection Ht as <-|done]. by destruct (t_mode t).
Qed.

Lemma shadow_task_errors (rq : request) p pid w w' e :
  nonempty pid = true -> call_shadow_candidate rq p pid w = (w', Err e) -> e = CallCancelled.
Proof.
  intros Hp. unfold call_shadow_candidate. destruct (bind _ _ w) as [w1 [o|x]]; [done|].
  unfold new_observation. rewrite Hp. simpl. destruct x; try done. by intros [= _ <-].
Qed.

Lemma observed_success (rq : request) p v pid (w w' : F) o :
  cr_observe rq = None -> observation_for_success rq p v pid w = (w', Ok o) ->
  o_success o = true /\ o_provider_id o = pid.
Proof.
  intros Hn. unfold observation_for_success. rewrite Hn. intros [_ E]%canary_raises_step.
  unfold new_observation in E. destruct (refuse_if _ _); simpl in E; [|done]. by injection E as ->.
Qed.

Lemma call_and_observe_Ok (rq : request) p pid (w w' : F) r :
  call_and_observe rq p pid w = (w', Ok r) ->
  exists w1, cr_call rq p w = (w1, Ok r.1) /\ observation_for_success rq p r.1 pid w1 = (w', Ok r.2).
Proof.
  unfold call_and_observe. intros (v & w1 & Hv & E)%bind_Ok. apply bind_Ok in E as (o & w2 & Ho & [= -> <-]).
  by exists w1.
Qed.
End Facts.

Lemma new_metrics_Ok m m' : new_metrics m = Ok m' -> m' = m.
Proof. unfold new_metrics. intros H. repeat (apply rbind_Ok in H as (? & _ & H)). by injection H. Qed.

Lemma from_observations_counts pid l m : from_observations pid l = Ok m ->
  request_count m = Z.of_nat (length l) /\
  success_count m = Z.of_nat (length (filter (fun o => o_success o = true) l)) /\
  Forall (fun o => o_provider_id o = pid) l.
Proof.
  unfold from_observations. intros (? & Hp & (lt & _ & (ct & _ & ->%new_metrics_Ok)%rbind_Ok)%rbind_Ok)%rbind_Ok.
  simpl. do 2 (split; [done|]). unfold refuse_if in Hp.
  destruct (forallb _ l) eqn:E; [|done]. rewrite forallb_forall in E. apply Forall_forall. intros o Ho.
  apply String.eqb_eq, E. by apply list_elem_of_In.
Qed.

Lemma filter_all {A} (P : A -> Prop) `{forall x, Decision (P x)} l : Forall P l -> filter P l = l.
Proof. induction 1 as [|x l Hx _ IH]; [done|]. by rewrite filter_cons_True, IH. Qed.

Lemma fltb_fleb_trans a b c : fnan a = false -> fnan b = false -> fnan c = false ->
  fltb a b = true -> fltb c b = false -> fltb a c = true.
Proof.
  intros Ha Hb Hc. rewrite fltb_key by done. intros H1 H2.
  apply (fltb_key a c Ha Hc). change (fge c b) in H2. rewrite fge_key in H2 by done. unfold key_lt in *. lia.
Qed.

Lemma finite_not_nan f : fisfinite f = true -> fnan f = false.
Proof. by destruct f. Qed.

Lemma select_Ok sha p key b t : select_canary_traffic sha p key b = Ok t ->
  fnan (candidate_fraction p) = false /\ fnan (t_bucket t) = false /\
  match b with None => stable_traffic_bucket sha key (experiment_id p) = Ok (t_bucket t) | Some x => t_bucket t = x end /\
  t_mode t = mode p /\ t_candidate_selected t = fltb (t_bucket t) (candidate_fraction p).
Proof.
  unfold select_canary_traffic. intros (? & Hv & (x & Hx & (? & Hb & [= <-])%rbind_Ok)%rbind_Ok)%rbind_Ok. simpl.
  split; [|split; [|split; [|done]]].
  - unfold validate_routing_policy, validate_fraction, out_of_unit, refuse_if in Hv.
    destruct (fisfinite (candidate_fraction p)) eqn:E; [by apply finite_not_nan|done].
  - unfold validate_bucket, refuse_if in Hb. destruct (fisfinite x) eqn:E; [by apply finite_not_nan|done].
  - destruct b; [by injection Hx as ->|done].
Qed.

(** ** Theorems *)

(** In shadow mode the answer is the baseline's: the world, the value and the
    observation are those of the baseline's call alone, and the candidate has
    not been called when the answer is returned.  The mirrored call is a task
    that never raises an exception: whatever the candidate does becomes an
    observation. *)
Theorem shadow_serves_baseline {F P V} sha (rq : CanaryProviderRequest (F:=F) (P:=P) (V:=V)) (w w' : F) res :
  mode (cr_policy rq) = SHADOW -> (forall p i, cr_provider_id rq p = Ok i -> nonempty i = true) ->
  route_with_canary sha rq w = (w', Ok res) ->
  exists bid o, cr_provider_id rq (cr_baseline rq) = Ok bid /\
    call_and_observe rq (cr_baseline rq) bid w = (w', Ok (value res, o)) /\
    served_provider res = cr_baseline rq /\ observations res = [o] /\
    (is_Some (shadow_observation_task res) <-> candidate_selected res = true) /\
    forall task w1 w2 e, shadow_observation_task res = Some task -> task w1 = (w2, Err e) -> e = CallCancelled.
Proof.
  intros Hm Hid (bid & cid & t & Hb & Hc & _ & Ht & E)%route_Ok. apply select_Ok in Ht as (_ & _ & _ & Htm & _).
  rewrite Htm, Hm in E. unfold route_shadow in E. apply bind_Ok in E as ([v o] & w1 & E & [= -> <-]). simpl.
  exists bid, o. split; [done|]. split; [done|]. split; [done|]. split; [done|].
  destruct (t_candidate_selected t).
  - split; [by split; [|eexists]|]. intros task w1 w2 e [= <-] He. eapply shadow_task_errors; [by eapply Hid|done].
  - split; [by split; [intros []|]|done].
Qed.

(** Raising the share of an experiment only moves traffic towards the
    candidate: a key it already had it keeps. *)
Theorem ramp_up_keeps_traffic sha p p' key t t' :
  experiment_id p' = experiment_id p -> fleb (candidate_fraction p) (candidate_fraction p') = true ->
  select_canary_traffic sha p key None = Ok t -> select_canary_traffic sha p' key None = Ok t' ->
  t_bucket t' = t_bucket t /\ (t_candidate_selected t = true -> t_candidate_selected t' = true).
Proof.
  intros He Hf (Hp & Hb & Hs & _ & ->)%select_Ok (Hp' & Hb' & Hs' & _ & ->)%select_Ok.
  rewrite He, Hs in Hs'. injection Hs' as <-. split; [done|]. intros Hsel.
  eapply fltb_fleb_trans; [done|exact Hp|done|exact Hsel|].
  destruct (fltb (candidate_fraction p') (candidate_fraction p)) eqn:E; [|done].
  clear -Hf E Hp Hp'. rewrite fltb_key in E by done.
  unfold fleb, SFleb in Hf. destruct (SFcompare _ _) as [[]|] eqn:Ec; try done.
  - pose proof (proj1 (feqb_key _ _ Hp Hp')) as H. unfold feqb, SFeqb in H. rewrite Ec in H.
    rewrite (H eq_refl) in E. unfold key_lt in E. lia.
  - pose proof (proj1 (fltb_key _ _ Hp Hp')) as H. unfold fltb, SFltb in H. rewrite Ec in H.
    pose proof (key_lt_trans _ _ _ E (H eq_refl)) as H'. unfold key_lt in H'. lia.
Qed.

(** Without an observer a served answer is always observed as a success, and
    an answer that raises is not observed at all: metrics gathered from the
    routes alone have as many successes as requests, however often the
    candidate fails, so [success_rate_regression] cannot be seen. *)
Theorem served_failures_are_invisible {F P V} sha (routes : list (CanaryProviderRequest (F:=F) (P:=P) (V:=V) * F))
    pid m :
  Forall (fun rw => cr_observe rw.1 = None) routes ->
  from_observations pid
    (filter (fun o => o_provider_id o = pid)
       (concat (omap (fun rw => match (route_with_canary sha rw.1 rw.2).2 with
                                | Ok res => Some (observations res) | Err _ => None end) routes))) = Ok m ->
  success_count m = request_count m.
Proof.
  intros Hobs (-> & -> & _)%from_observations_counts. do 2 f_equal.
  set (l := concat _). assert (Forall (fun o => o_success o = true) l) as Hl.
  { subst l. induction Hobs as [|[rq w] routes Hn _ IH]; [constructor|]. simpl.
    destruct (route_with_canary sha rq w) as [w' [res|e]] eqn:E; simpl; [|exact IH].
    apply Forall_app. split; [|exact IH].
    apply route_Ok in E as (bid & cid & t & _ & _ & _ & _ & E).
    destruct (t_mode t); [unfold route_shadow in E|unfold route_canary in E];
      apply bind_Ok in E as ([v o] & w1 & E & [= -> <-]); simpl; apply Forall_singleton;
      apply call_and_observe_Ok in E as (w2 & _ & E); by apply observed_success in E as [? _]. }
  rewrite filter_all; [done|]. apply Forall_forall. intros o [_ Ho]%list_elem_of_filter.
  rewrite Forall_forall in Hl. by apply Hl.
Qed.

Definition enough_samples (p : CanaryPromotionPolicy) (cmp : CanaryComparison) : Prop :=
  min_baseline_samples p <= request_count (baseline cmp) /\ min_candidate_samples p <= request_count (candidate cmp).
Definition regresses (p : CanaryPromotionPolicy) (f : comparison_figures) : Prop :=
  fltb (success_delta f) (rollback_success_rate_delta p) = true \/
  below (rollback_quality_delta p) (quality_delta f) = true \/
  above (rollback_latency_ratio p) (latency_ratio f) = true \/
  above (rollback_cost_ratio p) (cost_ratio f) = true.
Definition improves (f : comparison_figures) : Prop :=
  fltb fzero (success_delta f) = true \/ above fzero (quality_delta f) = true \/
  below (of_Z 1) (latency_ratio f) = true \/ below (of_Z 1) (cost_ratio f) = true.

(** A candidate is rolled back exactly when both windows have their samples
    and it regresses past a threshold, and promoted only when it does not
    regress, is nowhere worse than allowed and is somewhere better. *)
Theorem promotion_is_earned cmp p d f :
  evaluate_canary cmp p = Ok d -> figures (baseline cmp) (candidate cmp) = Ok f ->
  (action d = ROLLBACK <-> enough_samples p cmp /\ regresses p f) /\
  (action d = PROMOTE -> enough_samples p cmp /\ ~ regresses p f /\ improves f /\
     fleb (min_success_rate_delta p) (success_delta f) = true).
Proof.
  unfold evaluate_canary. intros (? & _ & H)%rbind_Ok Hf. rewrite Hf in H. simpl in H.
  unfold enough_samples, regresses, improves.
  destruct (Z.ltb_spec (request_count (baseline cmp)) (min_baseline_samples p)).
  { injection H as <-. simpl. split; [split; [done|lia]|done]. }
  destruct (Z.ltb_spec (request_count (candidate cmp)) (min_candidate_samples p)).
  { injection H as <-. simpl. split; [split; [done|lia]|done]. }
  destruct (fltb (success_delta f) _) eqn:E1; [injection H as <-; simpl; split; [split; [intros _; split; [done|tauto]|done]|done]|].
  destruct (below (rollback_quality_delta p) _) eqn:E2; [injection H as <-; simpl; split; [split; [intros _; split; [done|tauto]|done]|done]|].
  destruct (above (rollback_latency_ratio p) _) eqn:E3; [injection H as <-; simpl; split; [split; [intros _; split; [done|tauto]|done]|done]|].
  destruct (above (rollback_cost_ratio p) _) eqn:E4; [injection H as <-; simpl; split; [split; [intros _; split; [done|tauto]|done]|done]|].
  assert (~ (false = true \/ false = true \/ false = true \/ false = true)) as Hno by (intros [|[|[|]]]; done).
  destruct (fleb (min_success_rate_delta p) (success_delta f)) eqn:E5; cbn [andb] in H;
    [|injection H as <-; simpl; split; [split; [done|tauto]|done]].
  destruct (_ && (_ || _ || _ || _)) eqn:E6 in H; injection H as <-; simpl.
  - split; [split; [done|tauto]|]. intros _. split; [done|]. split; [done|]. split; [|done].
    apply andb_true_iff in E6 as [_ E6]. rewrite !orb_true_iff in E6. tauto.
  - split; [split; [done|tauto]|done].
Qed.

(** ** Examples *)
Module CanarySim.
Definition answers := string -> result canary_error Z.
Definition good_or (bad : string) : answers := fun p =>
  if String.eqb p bad then Err (CallRaised "HTTPError" "500") else Ok 1.
(** A world that lists the providers called. *)
Definition call (a : answers) (p : string) : eff (list string) canary_error Z := fun w => (w ++ [p], a p).
Definition zeros (s : string) : string := String.concat EmptyString (repeat NUL 32).
Definition ones (s : string) : string := String.concat EmptyString (repeat (String (ascii_of_nat 255) EmptyString) 32).
Definition request (m : CanaryMode) (a : answers) : CanaryProviderRequest (F:=list string) (P:=string) (V:=Z) :=
  MkCanaryRequest "base" "cand" (call a) (MkRoutingPolicy m (of_dec (Dec 5 (-1))) "exp") "key" None None
    (fun p => if nonempty p then Ok p else Err (ValueError "provider must include a non-empty id")).
Definition route (sha : string -> string) (rq : CanaryProviderRequest (F:=list string) (P:=string) (V:=Z)) :=
  let '(w, r) := route_with_canary sha rq [] in
  (w, match r with Ok res => Ok (value res, served_provider_id res, map o_success (observations res)) | Err e => Err e end).

Example shadow_ex : route zeros (request SHADOW (good_or "cand")) = (["base"], Ok (1, "base", [true])).
Proof. vm_compute. reflexivity. Qed.
Example canary_failure_ex :
  route zeros (request CANARY (good_or "cand")) = (["cand"], Err (CallRaised "HTTPError" "500")).
Proof. vm_compute. reflexivity. Qed.

(** A digest of ones rounds up to [1.0], which is no bucket: the request
    fails. *)
Example full_bucket_is_refused :
  stable_traffic_bucket ones "key" "exp" = Ok (of_Z 1) /\
  route ones (request CANARY (good_or "")) =
    ([], Err (CanaryExn (ValueError "traffic_bucket must be a finite number in [0, 1)"))).
Proof. split; vm_compute; reflexivity. Qed.

Definition obs (pid : string) (ok : bool) (latency : Z) : CanaryObservation :=
  MkObservation pid ok (Some (of_int latency)) None None.
Definition verdict (b c : list CanaryObservation) : option (CanaryDecisionAction * string * list string) :=
  match (let? mb := from_observations "base" b in let? mc := from_observations "cand" c in
         let? cmp := new_comparison mb mc in evaluate_canary cmp default_promotion_policy) with
  | Ok d => Some (action d, reason d, signals d)
  | Err _ => None
  end.
Example promote_ex :
  verdict [obs "base" true 100; obs "base" true 300] [obs "cand" true 150]
  = Some (PROMOTE, "candidate_beats_baseline", ["success_rate_delta:+0.000000"; "latency_ratio:0.750000"]).
Proof. vm_compute. reflexivity. Qed.
Example rollback_ex :
  verdict [obs "base" true 100; obs "base" true 300] [obs "cand" true 150; obs "cand" false 10]
  = Some (ROLLBACK, "success_rate_regression", ["success_rate_delta:-0.500000"; "latency_ratio:0.400000"]).
Proof. vm_compute. reflexivity. Qed.
Example same_is_held_ex :
  verdict [obs "base" true 100] [obs "cand" true 100]
  = Some (HOLD, "candidate_does_not_beat_baseline", ["success_rate_delta:+0.000000"; "latency_ratio:1.000000"]).
Proof. vm_compute. reflexivity. Qed.
Example fsum_ex : fsum (repeat (of_dec (Dec 1 (-1))) 10) = of_Z 1.
Proof. vm_compute. reflexivity. Qed.
End CanarySim.


Lemma shadow_serves_baseline_witness :
  let rq := CanarySim.request SHADOW (CanarySim.good_or "cand") in
  exists w' res, route_with_canary CanarySim.zeros rq [] = (w', Ok res) /\
    exists bid o, cr_provider_id rq (cr_baseline rq) = Ok bid /\
      call_and_observe rq (cr_baseline rq) bid [] = (w', Ok (value res, o)) /\
      served_provider res = cr_baseline rq /\ observations res = [o] /\
      (is_Some (shadow_observation_task res) <-> candidate_selected res = true) /\
      forall task w1 w2 e, shadow_observation_task res = Some task -> task w1 = (w2, Err e) -> e = CallCancelled.
Proof.
  intros rq. destruct (route_with_canary CanarySim.zeros rq []) as [w' r] eqn:E.
  destruct r as [res|e]; [|exfalso; by vm_compute in E]. exists w', res. split; [done|].
  apply (shadow_serves_baseline CanarySim.zeros rq [] w' res); [reflexivity| |exact E].
  intros p i. cbn. destruct (nonempty p) eqn:Hp; [by intros [= <-]|done].
Defined.

Lemma ramp_up_keeps_traffic_witness :
  let p n := MkRoutingPolicy CANARY (of_dec (Dec n (-1))) "exp" in
  exists t t', t_bucket t' = t_bucket t /\ (t_candidate_selected t = true -> t_candidate_selected t' = true).
Proof.
  intros p.
  destruct (select_canary_traffic CanarySim.zeros (p 1) "key" None) as [t|] eqn:E; [|exfalso; by vm_compute in E].
  destruct (select_canary_traffic CanarySim.zeros (p 5) "key" None) as [t'|] eqn:E'; [|exfalso; by vm_compute in E'].
  exists t, t'. apply (ramp_up_keeps_traffic CanarySim.zeros (p 1) (p 5) "key"); [reflexivity| |exact E|exact E'].
  by vm_compute.
Defined.

Lemma served_failures_are_invisible_witness :
  let rq a := (CanarySim.request CANARY a, [] : list string) in
  let routes := [rq (CanarySim.good_or "cand"); rq (CanarySim.good_or ""); rq (CanarySim.good_or "cand")] in
  exists m, request_count m = 1 /\ success_count m = request_count m.
Proof.
  intros rq routes.
  destruct (from_observations "cand"
    (filter (fun o => o_provider_id o = "cand")
       (concat (omap (fun rw => match (route_with_canary CanarySim.zeros rw.1 rw.2).2 with
                                | Ok res => Some (observations res) | Err _ => None end) routes)))) as [m|] eqn:E;
    [|exfalso; by vm_compute in E].
  exists m. split; [vm_compute in E; injection E as <-; reflexivity|].
  apply (served_failures_are_invisible CanarySim.zeros routes "cand" m); [by repeat constructor|exact E].
Defined.

Lemma promotion_is_earned_witness :
  exists cmp d f, figures (baseline cmp) (candidate cmp) = Ok f /\
    (action d = ROLLBACK <-> enough_samples default_promotion_policy cmp /\ regresses default_promotion_policy f) /\
    (action d = PROMOTE -> enough_samples default_promotion_policy cmp /\ ~ regresses default_promotion_policy f /\
       improves f /\ fleb (min_success_rate_delta default_promotion_policy) (success_delta f) = true).
Proof.
  set (mb := MkMetrics "base" 2 2 (of_int 400) 2 dzero 0 fzero 0).
  set (mc := MkMetrics "cand" 1 1 (of_int 150) 1 dzero 0 fzero 0).
  set (cmp := MkComparison mb mc).
  destruct (evaluate_canary cmp default_promotion_policy) as [d|] eqn:E; [|exfalso; by vm_compute in E].
  destruct (figures mb mc) as [f|] eqn:Ef; [|exfalso; by vm_compute in Ef].
  exists cmp, d, f. split; [exact Ef|].
  exact (promotion_is_earned cmp default_promotion_policy d f E Ef).
Defined.
