(* ===== verification/PyOrder.v ===== *)
(** * Tuples as sort keys

    Python compares tuples component by component; the first components that
    differ decide.  [Ordering c] says that a comparison is a total preorder;
    keys are built from comparisons of their components with [lexi] and [by]. *)

From Stdlib Require Import QArith.
From S2P Require Import Prelude PyDecimal PyJson.

(** Definitions *)

Definition cmp (A : Type) : Type := A -> A -> comparison.

Record Ordering {A} (c : cmp A) : Prop := MkOrdering {
  cmp_flip : forall x y, c y x = CompOpp (c x y);
  cmp_eq : forall x y z, c x y = Eq -> c x z = c y z;
  cmp_lt : forall x y z, c x y = Lt -> c y z = Lt -> c x z = Lt;
}.

(** [by f c]: compare a component; [lexi c d]: [d] decides where [c] does not. *)
Definition by_ {A B} (f : A -> B) (c : cmp B) : cmp A := fun x y => c (f x) (f y).
Definition lexi {A} (c d : cmp A) : cmp A := fun x y => match c x y with Eq => d x y | o => o end.
Fixpoint tuple_key {A} (cs : list (cmp A)) : cmp A :=
  match cs with [] => fun _ _ => Eq | c :: cs' => lexi c (tuple_key cs') end.
Definition flipped {A} (c : cmp A) : cmp A := fun x y => c y x.
Definition less {A} (c : cmp A) (x y : A) : bool := match c x y with Lt => true | _ => false end.

(** What [sorted] leaves in front is not greater. *)
Definition no_greater {A} (c : cmp A) (x y : A) : Prop := c x y <> Gt.

(** Lemmas *)

Section Facts.
Context {A : Type} (c : cmp A) (Hc : Ordering c).

Lemma no_greater_refl x : no_greater c x x.
Proof. unfold no_greater. pose proof (cmp_flip _ Hc x x) as H. by destruct (c x x). Qed.
Lemma no_greater_trans x y z : no_greater c x y -> no_greater c y z -> no_greater c x z.
Proof.
  unfold no_greater. intros Hxy Hyz. destruct (c x y) eqn:E; [|destruct (c y z) eqn:E'|done].
  - by rewrite (cmp_eq _ Hc _ _ _ E).
  - assert (c z y = Eq) as Ez by (by rewrite (cmp_flip _ Hc), E').
    rewrite (cmp_flip _ Hc), (cmp_eq _ Hc _ _ x Ez), (cmp_flip _ Hc), E. done.
  - by rewrite (cmp_lt _ Hc _ _ _ E E').
  - done.
Qed.

Lemma sorted_no_greater l : StronglySorted (no_greater c) (sort_by (less c) l).
Proof.
  apply (sort_by_sorted_rel (less c) (fun _ => True)); [..|by apply Forall_true].
  - unfold less, no_greater. intros a b _ _. by destruct (c a b).
  - unfold less, no_greater. intros a b _ _. rewrite (cmp_flip _ Hc a b). by destruct (c a b).
  - intros x y z _ _ _. apply no_greater_trans.
Qed.

(** The first element of a sorted list is not greater than any. *)
Lemma sorted_head l x l' : sort_by (less c) l = x :: l' -> x ∈ l /\ Forall (no_greater c x) l.
Proof.
  intros E. pose proof (sorted_no_greater l) as Hs. rewrite E in Hs.
  pose proof (sort_by_perm (less c) l) as Hp. rewrite E in Hp. split; [rewrite <- Hp; constructor|].
  rewrite <- Hp. inversion Hs; subst. constructor; [apply no_greater_refl|done].
Qed.

Lemma by_ordering {B} (f : B -> A) : Ordering (by_ f c).
Proof.
  unfold by_. split; intros; [by apply (cmp_flip _ Hc)|by apply (cmp_eq _ Hc)|by eapply (cmp_lt _ Hc)].
Qed.

Lemma flipped_ordering : Ordering (flipped c).
Proof.
  unfold flipped. split.
  - intros x y. apply (cmp_flip _ Hc).
  - intros x y z E. assert (c x y = Eq) as E' by (by rewrite (cmp_flip _ Hc), E).
    by rewrite (cmp_flip _ Hc x z), (cmp_eq _ Hc _ _ z E'), <- (cmp_flip _ Hc).
  - intros x y z E1 E2. by eapply (cmp_lt _ Hc).
Qed.

Lemma lexi_ordering d : Ordering d -> Ordering (lexi c d).
Proof.
  intros Hd. unfold lexi. split.
  - intros x y. rewrite (cmp_flip _ Hc x y). destruct (c x y); simpl; [apply (cmp_flip _ Hd)|done|done].
  - intros x y z. destruct (c x y) eqn:E; [|done|done]. intros E'. rewrite (cmp_eq _ Hc _ _ z E).
    destruct (c y z); [by apply (cmp_eq _ Hd)|done|done].
  - intros x y z. destruct (c x y) eqn:E; [|destruct (c y z) eqn:E'|done].
    + rewrite (cmp_eq _ Hc _ _ z E). destruct (c y z); [by apply (cmp_lt _ Hd)|done|done].
    + intros _ _. assert (c z y = Eq) as Ez by (by rewrite (cmp_flip _ Hc), E').
      by rewrite (cmp_flip _ Hc z x), (cmp_eq _ Hc _ _ x Ez), (cmp_flip _ Hc x y), E.
    + intros _ _. by rewrite (cmp_lt _ Hc _ _ _ E E').
    + done.
Qed.
End Facts.

Lemma no_order {A} : Ordering (fun _ _ : A => Eq).
Proof. by split. Qed.
Lemma tuple_ordering {A} (cs : list (cmp A)) : Forall Ordering cs -> Ordering (tuple_key cs).
Proof. induction 1; simpl; [apply no_order|by apply lexi_ordering]. Qed.

Lemma dcompare_lt a b : dcompare a b = Lt <-> (dval a < dval b)%Q.
Proof. rewrite <- dltb_spec. unfold dltb. by destruct (dcompare a b). Qed.
Lemma dcompare_eq a b : dcompare a b = Eq <-> (dval a == dval b)%Q.
Proof. rewrite <- deqb_spec. unfold deqb. by destruct (dcompare a b). Qed.
Lemma dcompare_gt a b : dcompare a b = Gt <-> (dval b < dval a)%Q.
Proof. rewrite <- dleb_false. unfold dleb. by destruct (dcompare a b). Qed.

Lemma decimal_ordering : Ordering dcompare.
Proof.
  split.
  - intros x y. destruct (dcompare x y) eqn:E; simpl.
    + apply dcompare_eq. apply dcompare_eq in E. by symmetry.
    + apply dcompare_gt. by apply dcompare_lt in E.
    + apply dcompare_lt. by apply dcompare_gt in E.
  - intros x y z E%dcompare_eq. destruct (dcompare y z) eqn:E'.
    + apply dcompare_eq in E'. apply dcompare_eq. by rewrite E.
    + apply dcompare_lt in E'. apply dcompare_lt. by rewrite E.
    + apply dcompare_gt in E'. apply dcompare_gt. by rewrite E.
  - intros x y z E1%dcompare_lt E2%dcompare_lt. apply dcompare_lt. by eapply Qlt_trans.
Qed.
Lemma Z_ordering : Ordering Z.compare.
Proof.
  split.
  - intros x y. by rewrite Z.compare_antisym.
  - by intros x y z ->%Z.compare_eq.
  - intros x y z. rewrite !Z.compare_lt_iff. lia.
Qed.
Lemma string_ordering : Ordering String.compare.
Proof.
  split.
  - intros x y. apply String.compare_antisym.
  - by intros x y z ->%String.compare_eq_iff.
  - intros x y z H1 H2.
    assert (String.ltb x z = true) as H.
    { apply (str_ltb_trans x y z); unfold String.ltb; [by rewrite H1|by rewrite H2]. }
    unfold String.ltb in H. by destruct (String.compare x z).
Qed.
