(* ===== verification/Arbitrage.v ===== *)
(** * Price, latency and carbon ([routing/arbitrage.py], [routing/carbon.py])

    An option costs a weighted sum of its price, its latency and the carbon
    intensity of its region; the options are ranked by that objective, ties by
    the components and the names.  A carbon source is a function from a
    provider and a region to a decimal. *)

From Stdlib Require Import QArith.
From S2P Require Import Prelude PyDecimal PyValue PyFormat Provider PyOrder.

(** Definitions *)

(** [_non_negative_decimal] of both modules, on decimals. *)
Definition non_negative_decimal (v : pydec) (name : string) : py dec :=
  match v with
  | DFin d => if dltb d dzero then Err (ValueError (name +:+ " must be non-negative")) else Ok d
  | _ => Err (ValueError (name +:+ " must be finite"))
  end.

(** [_optional_non_empty_string]; a missing attribute counts as [None]. *)
Definition optional_non_empty_string (v : pyval) (name : string) : py (option string) :=
  match v with
  | VNone => Ok None
  | _ =>
      match as_str v with
      | None => Err (ValueError (name +:+ " must be a string"))
      | Some s =>
          let stripped := strip s in
          if negb (nonempty stripped) then Ok None
          else if String.eqb s stripped then Ok (Some stripped)
          else Err (ValueError (name +:+ " must not include surrounding whitespace"))
      end
  end.
Definition carbon_non_empty_string (v : pyval) (name : string) : py string :=
  let? o := optional_non_empty_string v name in
  match o with Some s => Ok s | None => Err (ValueError (name +:+ " must be a non-empty string")) end.

(** ** Carbon intensity *)

Record CarbonObjectiveWeights : Type := MkWeights {
  cost_weight : dec; latency_weight : dec; carbon_weight : dec }.
Definition new_weights (cost latency carbon : pydec) : py CarbonObjectiveWeights :=
  let? c := non_negative_decimal cost "cost_weight" in
  let? l := non_negative_decimal latency "latency_weight" in
  let? k := non_negative_decimal carbon "carbon_weight" in
  Ok (MkWeights c l k).

Record CarbonObjectiveScore : Type := MkCarbonScore {
  cs_objective : dec; cs_cost : dec; cs_latency : dec; cs_carbon : dec; cs_intensity : dec }.

(** [score_carbon_objective] *)
Definition score_carbon_objective (cost latency_ms intensity : pydec) (w : CarbonObjectiveWeights)
  : py CarbonObjectiveScore :=
  let? c := non_negative_decimal cost "cost" in
  let? l := non_negative_decimal latency_ms "latency_ms" in
  let? k := non_negative_decimal intensity "carbon intensity" in
  let? cost_component := dmul (cost_weight w) c in
  let? latency_component := dmul (latency_weight w) l in
  let? carbon_component := dmul (carbon_weight w) k in
  let? partial := dadd cost_component latency_component in
  let? objective := dadd partial carbon_component in
  Ok (MkCarbonScore objective cost_component latency_component carbon_component k).

(** [StaticCarbonIntensitySource] *)
Record StaticCarbonIntensitySource : Type := MkStatic {
  provider_region_intensities : gmap (string * string) dec;
  region_intensities : gmap string dec;
  default_intensity : dec;
}.
Definition new_static_source (by_provider : list (string * string * pydec)) (by_region : list (string * pydec))
    (fallback : pydec) : py StaticCarbonIntensitySource :=
  let? ps := mapR (fun e => let? p := carbon_non_empty_string (VStr e.1.1) "provider_id" in
                            let? r := carbon_non_empty_string (VStr e.1.2) "region" in
                            let? d := non_negative_decimal e.2 "carbon intensity" in Ok ((p, r), d)) by_provider in
  let? rs := mapR (fun e => let? r := carbon_non_empty_string (VStr e.1) "region" in
                            let? d := non_negative_decimal e.2 "carbon intensity" in Ok (r, d)) by_region in
  let? f := non_negative_decimal fallback "carbon intensity" in
  Ok (MkStatic (list_to_map (rev ps)) (list_to_map (rev rs)) f).

Definition static_intensity (s : StaticCarbonIntensitySource) (pid : string) (region : option string) : py pydec :=
  let? p := carbon_non_empty_string (VStr pid) "provider_id" in
  let? r := optional_non_empty_string (opt_str region) "region" in
  Ok (DFin (match r with
            | None => default_intensity s
            | Some r =>
                match provider_region_intensities s !! (p, r), region_intensities s !! r with
                | Some d, _ => d
                | None, Some d => d
                | None, None => default_intensity s
                end
            end)).

Definition DEFAULT_REGION_CARBON_INTENSITIES_GCO2_PER_KWH : list (string * Z) :=
  [("CA-MTL-1", 60); ("EU-CZ-1", 390); ("EU-RO-1", 250); ("EU-SE-1", 45); ("US-CA-1", 220); ("US-CA-2", 220);
   ("US-KS-2", 455); ("US-NY-1", 300)].
Definition DEFAULT_CARBON_INTENSITY_SOURCE : StaticCarbonIntensitySource :=
  MkStatic ∅ (list_to_map (prod_map id of_int <$> DEFAULT_REGION_CARBON_INTENSITIES_GCO2_PER_KWH)) (of_int 500).

Definition carbon_source : Type := string -> option string -> py pydec.

(** *** The region of a provider *)

Definition carbon_config_value (p : ProviderLike) (key : string) : pyval := dict_get_none key (config p).

(** [_first_optional_string] *)
Fixpoint first_optional_string (vs : list pyval) (name : string) : py (option string) :=
  match vs with
  | [] => Ok None
  | v :: vs' =>
      let? o := optional_non_empty_string v name in
      match o with Some s => Ok (Some s) | None => first_optional_string vs' name end
  end.

(** [_config_first_string]: of a list, its first non-empty string. *)
Definition config_first_string (p : ProviderLike) (key : string) : py pyval :=
  match carbon_config_value p key with
  | VList l | VTuple l => rmap opt_str (first_optional_string l key)
  | v => match as_str v with Some s => Ok v | None => Ok VNone end
  end.

(** [_provider_region]: every argument is computed before the first is looked
    at. *)
Definition provider_region (p : ProviderLike) : py (option string) :=
  let? ids := config_first_string p "dataCenterIds" in
  let? ids' := config_first_string p "data_center_ids" in
  first_optional_string
    (map (field p) ["region"; "datacenter"; "dataCenterId"; "data_center_id"; "datacenter_id"; "dc_id"] ++
     [ids; ids'] ++
     map (carbon_config_value p) ["dataCenterId"; "data_center_id"; "datacenter"; "datacenter_id"; "dc_id"]) "region".

(** [carbon_intensity_for_provider] *)
Definition carbon_intensity_for_provider (p : ProviderLike) (source : option carbon_source) : py pydec :=
  let? pid := carbon_non_empty_string (field p "id") "provider_id" in
  let? region := provider_region p in
  default (static_intensity DEFAULT_CARBON_INTENSITY_SOURCE) source pid region.

(** ** Arbitrage *)

Record ArbitrageOption : Type := MkOption {
  ao_provider_id : string; ao_gpu : string; ao_price : pydec; ao_latency_ms : pydec; ao_region : option string }.
Record ArbitrageScore : Type := MkArbitrageScore {
  as_provider_id : string; as_gpu : string; as_price : dec; as_latency_ms : dec; as_region : option string;
  as_lambda_weight : dec; as_objective : dec; as_cost_component : dec; as_latency_component : dec;
  as_carbon_weight : dec; as_carbon_intensity : dec; as_carbon_component : dec; as_cost_weight : dec }.

(** The weights and the source of one ranking. *)
Record arbitrage_weights : Type := MkArbitrageWeights {
  aw_lambda : pydec; aw_carbon : pydec; aw_source : option carbon_source; aw_cost : pydec }.

(** [score_arbitrage_option] *)
Definition score_arbitrage_option (w : arbitrage_weights) (o : ArbitrageOption) : py ArbitrageScore :=
  let? pid := carbon_non_empty_string (VStr (ao_provider_id o)) "provider_id" in
  let? gpu := carbon_non_empty_string (VStr (ao_gpu o)) "gpu" in
  let? price := non_negative_decimal (ao_price o) "price" in
  let? latency := non_negative_decimal (ao_latency_ms o) "latency_ms" in
  let? region := optional_non_empty_string (opt_str (ao_region o)) "region" in
  let? cw := non_negative_decimal (aw_cost w) "cost_weight" in
  let? lw := non_negative_decimal (aw_lambda w) "lambda_weight" in
  let? kw := non_negative_decimal (aw_carbon w) "carbon_weight" in
  let? intensity :=
    match aw_source w with
    | None => if dltb dzero kw
              then let? v := static_intensity DEFAULT_CARBON_INTENSITY_SOURCE pid region in
                   non_negative_decimal v "carbon intensity"
              else Ok dzero
    | Some s => let? v := s pid region in non_negative_decimal v "carbon intensity"
    end in
  let? b := score_carbon_objective (DFin price) (DFin latency) (DFin intensity) (MkWeights cw lw kw) in
  Ok (MkArbitrageScore pid gpu price latency region lw (cs_objective b) (cs_cost b) (cs_latency b) kw
        (cs_intensity b) (cs_carbon b) cw).

(** [_score_sort_key] *)
Definition score_sort_key : cmp ArbitrageScore :=
  tuple_key [by_ as_objective dcompare; by_ as_cost_component dcompare; by_ as_latency_ms dcompare;
             by_ as_carbon_component dcompare; by_ as_provider_id String.compare; by_ as_gpu String.compare].

Definition sort_arbitrage_options (w : arbitrage_weights) (options : list ArbitrageOption) : py (list ArbitrageScore) :=
  rmap (sort_by (less score_sort_key)) (mapR (score_arbitrage_option w) options).

Definition select_arbitrage_option (w : arbitrage_weights) (options : list ArbitrageOption) : py ArbitrageScore :=
  let? ranked := sort_arbitrage_options w options in
  match ranked with s :: _ => Ok s | [] => Err (ValueError "options must contain at least one option") end.

(** Lemmas *)

Lemma score_key_ordering : Ordering score_sort_key.
Proof.
  apply tuple_ordering. repeat constructor; apply by_ordering;
    first [exact decimal_ordering|exact string_ordering].
Qed.

Lemma mapR_elem {E A B} (f : A -> result E B) l l' :
  mapR f l = Ok l' -> (forall y, y ∈ l' -> exists x, x ∈ l /\ f x = Ok y) /\ (forall x, x ∈ l -> exists y, y ∈ l' /\ f x = Ok y).
Proof.
  intros H%mapR_Ok. split.
  - intros y Hy. induction H as [|a b l l' Hab _ IH]; [by apply elem_of_nil in Hy|].
    apply elem_of_cons in Hy as [->|Hy]; [by exists a; split; [constructor|]|].
    destruct (IH Hy) as (x & Hx & E'). by exists x; split; [constructor|].
  - intros x Hx. induction H as [|a b l l' Hab _ IH]; [by apply elem_of_nil in Hx|].
    apply elem_of_cons in Hx as [->|Hx]; [by exists b; split; [constructor|]|].
    destruct (IH Hx) as (y & Hy & E'). by exists y; split; [constructor|].
Qed.

Lemma no_greater_objective a b : no_greater score_sort_key a b -> (dval (as_objective a) <= dval (as_objective b))%Q.
Proof.
  unfold no_greater, score_sort_key. simpl tuple_key. unfold lexi at 1, by_ at 1. intros H.
  apply dleb_spec. unfold dleb. destruct (dcompare _ _); [done|done|done].
Qed.

(** ** Theorem *)

(** The selected option minimises the weighted sum of price, latency and
    carbon over all options, each scored exactly as the selected one, and ties
    go to the smaller key; a selection fails only when an option is malformed
    or there is none. *)
Theorem arbitrage_selects_minimum w options s :
  select_arbitrage_option w options = Ok s ->
  (exists o, o ∈ options /\ score_arbitrage_option w o = Ok s) /\
  forall o, o ∈ options -> exists so, score_arbitrage_option w o = Ok so /\
    (dval (as_objective s) <= dval (as_objective so))%Q /\ no_greater score_sort_key s so.
Proof.
  unfold select_arbitrage_option, sort_arbitrage_options. intros (r & (l & Hl & ->)%rmap_Ok & H)%rbind_Ok.
  destruct (sort_by _ l) as [|s' l'] eqn:E; [done|]. injection H as <-.
  apply (sorted_head _ score_key_ordering) in E as [Hs Hmin]. apply mapR_elem in Hl as [Hback Hto]. split.
  - destruct (Hback _ Hs) as (o & Ho & Eo). by exists o.
  - intros o Ho. destruct (Hto _ Ho) as (so & Hso & Eo). exists so. split; [done|].
    rewrite Forall_forall in Hmin. pose proof (Hmin _ Hso). split; [by apply no_greater_objective|done].
Qed.

(** ** Examples *)
Module ArbitrageSim.
Definition gpu_at (pid region : string) (price latency : Z) : ArbitrageOption :=
  MkOption pid "A100" (DFin (of_int price)) (DFin (of_int latency)) (Some region).
Definition weights (lambda carbon : Z) : arbitrage_weights :=
  MkArbitrageWeights (DFin (of_int lambda)) (DFin (of_int carbon)) None (DFin (of_int 1)).
Definition options : list ArbitrageOption := [gpu_at "a" "US-KS-2" 2 10; gpu_at "b" "EU-SE-1" 3 10].
Definition chosen (w : arbitrage_weights) : option string :=
  match select_arbitrage_option w options with Ok s => Some (as_provider_id s) | Err _ => None end.
Example cheapest_ex : chosen (weights 1 0) = Some "a".
Proof. vm_compute. reflexivity. Qed.
Example greenest_ex : chosen (weights 1 1) = Some "b".
Proof. vm_compute. reflexivity. Qed.

(** A malformed list of data centres hides a region that is given. *)
Example bad_list_hides_region :
  provider_region (PMap [("id", VStr "p"); ("region", VStr "EU-SE-1");
                         ("config", VDict [("dataCenterIds", VList [VInt 7])])])
  = Err (ValueError "dataCenterIds must be a string").
Proof. vm_compute. reflexivity. Qed.
Example region_ex :
  carbon_intensity_for_provider (PMap [("id", VStr "p"); ("config", VDict [("dataCenterIds", VList [VStr "EU-SE-1"])])])
    None = Ok (DFin (of_int 45)).
Proof. vm_compute. reflexivity. Qed.
End ArbitrageSim.

Lemma arbitrage_selects_minimum_witness :
  exists s, as_provider_id s = "a" /\
    (exists o, o ∈ ArbitrageSim.options /\ score_arbitrage_option (ArbitrageSim.weights 1 0) o = Ok s) /\
    forall o, o ∈ ArbitrageSim.options -> exists so, score_arbitrage_option (ArbitrageSim.weights 1 0) o = Ok so /\
      (dval (as_objective s) <= dval (as_objective so))%Q /\ no_greater score_sort_key s so.
Proof.
  destruct (select_arbitrage_option (ArbitrageSim.weights 1 0) ArbitrageSim.options) as [s|] eqn:E;
    [|exfalso; by vm_compute in E].
  exists s. split; [vm_compute in E; injection E as <-; reflexivity|].
  apply (arbitrage_selects_minimum (ArbitrageSim.weights 1 0) ArbitrageSim.options s E).
Defined.
