(* ===== verification/Failover.v ===== *)
(** * Spot failover ([routing/failover.py], [providers/registry.py])

    When the provider of a spot lease reports that it was preempted, a
    checkpoint is taken, the best on-demand target is provisioned and the work
    resumed there; a resume that fails gives the target back.  Plugins, the
    checkpoint and the resume are operations of their own on the outside; the
    context and the budget gate they are handed are part of it.  [C] stands
    for credentials, [R] for what a resume returns, [X] for the exceptions the
    operations raise. *)

From Stdlib Require Import QArith.
From S2P Require Import Prelude PyDecimal PyFloat PyValue PyFormat PyTime Effects Enums Provider PyOrder Arbitrage.

(** Definitions *)

Inductive registry_error :=
| DuplicateProviderError (provider_id : string)
| ProviderNotRegisteredError (provider_id : string)
| CredentialValidationError (provider_id : string) (fields : list string).

Inductive failover_error (X : Type) :=
| FailoverExn (e : exn)
| FailoverRegistry (e : registry_error)
| FailoverRaised (x : X).
Arguments FailoverExn {X}.
Arguments FailoverRegistry {X}.
Arguments FailoverRaised {X}.

(** [ResourceStatus] *)
Inductive ResourceStatus := UNKNOWN | PROVISIONING | RUNNING | TERMINATED | FAILED.
#[global] Instance ResourceStatus_enum : StrEnum ResourceStatus := {
  members := [UNKNOWN; PROVISIONING; RUNNING; TERMINATED; FAILED];
  enum_value s := match s with UNKNOWN => "unknown" | PROVISIONING => "provisioning" | RUNNING => "running"
                             | TERMINATED => "terminated" | FAILED => "failed" end }.

Record StatusResult : Type := MkStatus {
  st_provider_id : string; st_external_id : string; st_status : ResourceStatus; st_raw : dict }.
Record ProvisionResult : Type := MkProvision {
  pr_provider_id : string; pr_external_id : option string; pr_lease_id : option string; pr_raw : dict }.

(** [_validate_non_empty] *)
Definition validate_non_empty (s name : string) : py unit :=
  if negb (nonempty (strip s)) then Err (ValueError (name +:+ " must be a non-empty string"))
  else if negb (String.eqb s (strip s)) then Err (ValueError (name +:+ " must not include surrounding whitespace"))
  else Ok tt.

Inductive FailoverCapacityMarket := SPOT | PREEMPTIBLE | ON_DEMAND.
#[global] Instance FailoverCapacityMarket_enum : StrEnum FailoverCapacityMarket := {
  members := [SPOT; PREEMPTIBLE; ON_DEMAND];
  enum_value m := match m with SPOT => "spot" | PREEMPTIBLE => "preemptible" | ON_DEMAND => "on_demand" end }.

(** [_coerce_market] *)
Definition coerce_market (v : pyval) (name : string) : py FailoverCapacityMarket :=
  match as_str v with
  | Some s => match enum_of_value s with
              | Some m => Ok m
              | None => Err (ValueError (name +:+ " is not a valid failover capacity market"))
              end
  | None => Err (TypeError (name +:+ " must be a FailoverCapacityMarket or string"))
  end.

(** [FailoverCheckpoint] *)
Record FailoverCheckpoint : Type := MkCheckpoint { cp_token : string; cp_state : dict; cp_captured_at : option datetime }.
Definition new_checkpoint (token : string) (state : dict) (captured_at : option datetime) : py FailoverCheckpoint :=
  let? _ := validate_non_empty token "token" in
  match captured_at with
  | None => Ok (MkCheckpoint token state None)
  | Some t => if dt_aware t then Ok (MkCheckpoint token state (Some (utc (dt_us t))))
              else Err (ValueError "captured_at must include timezone information")
  end.

(** ** Preemption *)

Definition PREEMPTION_MARKERS : list string := ["evicted"; "interrupted"; "outbid"; "preempted"; "preempted_by_bid"].
Definition PREEMPTION_TEXT_FIELDS : list string :=
  ["actual_status"; "cur_state"; "failure_reason"; "intended_status"; "lifecycle_state"; "next_state"; "reason";
   "state"; "status"; "status_message"; "status_msg"].

Definition normalized_text (v : pyval) : string :=
  match as_str v with Some s => lower (strip s) | None => EmptyString end.
Definition preemption_text_values (raw : dict) : list string :=
  filter (fun s => nonempty s = true) (map (fun k => normalized_text (dict_get_none k raw)) PREEMPTION_TEXT_FIELDS).
Definition failover_truthy (v : pyval) : bool :=
  match v with
  | VBool true => true
  | _ => match as_str v with Some s => bool_decide (lower (strip s) ∈ ["1"; "true"; "yes"; "on"]) | None => false end
  end.
Definition status_string (s : ResourceStatus) : string := lower (strip (enum_value s)).

(** [is_preempted_status] *)
Definition is_preempted_status (s : StatusResult) : bool :=
  failover_truthy (dict_get_none "pitwall_preempted" (st_raw s)) ||
  (String.eqb (status_string (st_status s)) "failed" &&
   existsb (fun t => existsb (fun m => str_contains m t) PREEMPTION_MARKERS) (preemption_text_values (st_raw s))).

Section Failover.
Context {F C R X : Type}.
Abbreviation error := (failover_error X).
Abbreviation op := (eff F error).

(** ** Plugins *)

Record target_request : Type := MkTargetRequest {
  tr_record : Provider; tr_credentials : C; tr_extra_env : option dict; tr_payload : dict }.

Record plugin : Type := MkPlugin {
  pl_id : string;
  pl_schema : C -> result (list string) C;      (* the fields that do not validate *)
  pl_status : Provider -> C -> string -> op StatusResult;
  pl_provision : target_request -> op ProvisionResult;
  pl_teardown : Provider -> C -> string -> op unit;
  pl_reconcile : Provider -> C -> list string -> op unit;
}.

Abbreviation plugins := (gmap string plugin).

(** [ProviderRegistry.register], [lookup] and [validate_credentials] *)
Definition register (reg : plugins) (p : plugin) (replace : bool) : result error plugins :=
  let? _ := rlift FailoverExn
              (if negb (nonempty (strip (pl_id p))) then Err (ValueError "provider id must be a non-empty string")
               else if negb (String.eqb (pl_id p) (strip (pl_id p)))
               then Err (ValueError "provider id must not include surrounding whitespace") else Ok tt) in
  match reg !! pl_id p with
  | Some _ => if replace then Ok (<[pl_id p := p]> reg) else Err (FailoverRegistry (DuplicateProviderError (pl_id p)))
  | None => Ok (<[pl_id p := p]> reg)
  end.
Definition lookup_plugin (reg : plugins) (i : string) : result error plugin :=
  match reg !! i with Some p => Ok p | None => Err (FailoverRegistry (ProviderNotRegisteredError i)) end.
Definition validate_credentials (reg : plugins) (i : string) (c : C) : result error C :=
  let? p := lookup_plugin reg i in
  match pl_schema p c with Ok c' => Ok c' | Err fields => Err (FailoverRegistry (CredentialValidationError i fields)) end.

(** ** Sources and targets *)

Record FailoverSource : Type := MkSource {
  fs_plugin_id : string; fs_record : Provider; fs_credentials : C; fs_external_id : string;
  fs_lease_id : option string; fs_market : FailoverCapacityMarket }.
Definition new_source (plugin_id : string) (record : Provider) (credentials : C) (external_id : string)
    (lease_id : option string) (market : pyval) : py FailoverSource :=
  let? _ := validate_non_empty plugin_id "provider_plugin_id" in
  let? _ := validate_non_empty external_id "external_id" in
  let? m := coerce_market market "market" in
  Ok (MkSource plugin_id record credentials external_id lease_id m).

Record FailoverTarget : Type := MkTarget {
  ft_plugin_id : string; ft_record : Provider; ft_credentials : C; ft_gpu : string; ft_price : pydec;
  ft_latency_ms : pydec; ft_market : FailoverCapacityMarket; ft_payload : dict; ft_extra_env : option dict }.
Definition new_target (plugin_id : string) (record : Provider) (credentials : C) (gpu : string)
    (price latency_ms : pydec) (market : pyval) (payload : dict) (extra_env : option dict) : py FailoverTarget :=
  let? _ := validate_non_empty plugin_id "provider_plugin_id" in
  let? _ := validate_non_empty gpu "gpu" in
  let? m := coerce_market market "market" in
  Ok (MkTarget plugin_id record credentials gpu price latency_ms m payload extra_env).

Record FailoverTargetSelection : Type := MkSelection {
  sel_target : FailoverTarget; sel_score : ArbitrageScore; sel_rank : Z }.

(** [_selection_for_target] *)
Definition target_weights (lambda_weight : pydec) : arbitrage_weights :=
  MkArbitrageWeights lambda_weight (DFin (of_int 0)) None (DFin (of_int 1)).
Definition target_option (t : FailoverTarget) : ArbitrageOption :=
  MkOption (p_id (ft_record t)) (ft_gpu t) (ft_price t) (ft_latency_ms t) None.
Definition selection_for_target (lambda_weight : pydec) (t : FailoverTarget) : py FailoverTargetSelection :=
  let? s := score_arbitrage_option (target_weights lambda_weight) (target_option t) in
  Ok (MkSelection t s 1).

(** [_selection_sort_key] *)
Definition selection_sort_key : cmp FailoverTargetSelection :=
  by_ sel_score (tuple_key [by_ as_objective dcompare; by_ as_cost_component dcompare; by_ as_latency_ms dcompare;
                            by_ as_provider_id String.compare; by_ as_gpu String.compare]).

Definition on_demand (t : FailoverTarget) : bool := match ft_market t with ON_DEMAND => true | _ => false end.

(** [sort_on_demand_failover_targets] and [select_on_demand_failover_target] *)
Definition sort_on_demand_failover_targets (lambda_weight : pydec) (targets : list FailoverTarget)
  : py (list FailoverTargetSelection) :=
  let? selections := mapR (selection_for_target lambda_weight) (filter (fun t => on_demand t = true) targets) in
  Ok (imap (fun i s => MkSelection (sel_target s) (sel_score s) (Z.of_nat (S i)))
        (sort_by (less selection_sort_key) selections)).
Definition select_on_demand_failover_target (lambda_weight : pydec) (targets : list FailoverTarget)
  : py FailoverTargetSelection :=
  let? ranked := sort_on_demand_failover_targets lambda_weight targets in
  match ranked with
  | s :: _ => Ok s
  | [] => Err (ValueError "targets must include at least one on-demand target")
  end.

(** ** The failover *)

Record FailoverRequest : Type := MkFailoverRequest {
  fr_registry : plugins;
  fr_source : FailoverSource;
  fr_targets : list FailoverTarget;
  fr_checkpoint : StatusResult -> op FailoverCheckpoint;
  fr_resume : FailoverCheckpoint -> FailoverTargetSelection -> ProvisionResult -> op R;
  fr_lambda_weight : pydec;
}.

(** What was done when the source was preempted. *)
Record failover_move : Type := MkMove {
  mv_checkpoint : FailoverCheckpoint; mv_selection : FailoverTargetSelection; mv_provision : ProvisionResult;
  mv_result : R }.
Record FailoverResult : Type := MkFailoverResult { fo_status : StatusResult; fo_move : option failover_move }.

(** [_cleanup_failed_resume] *)
Definition cleanup_failed_resume (p : plugin) (t : FailoverTarget) (credentials : C) (pr : ProvisionResult) : op unit :=
  match pr_lease_id pr with
  | Some lease => pl_teardown p (ft_record t) credentials lease
  | None =>
      match pr_external_id pr with
      | Some external => pl_reconcile p (ft_record t) credentials [external]
      | None => ret tt
      end
  end.

(** The resume; an exception of it is raised again after the clean-up. *)
Definition resume_or_clean (rq : FailoverRequest) (p : plugin) (credentials : C) (ck : FailoverCheckpoint)
    (sel : FailoverTargetSelection) (pr : ProvisionResult) : op R :=
  fun w =>
    match fr_resume rq ck sel pr w with
    | (w', Ok r) => (w', Ok r)
    | (w', Err e) => (cleanup_failed_resume p (sel_target sel) credentials pr ;! fail e) w'
    end.

Definition source_status (rq : FailoverRequest) : op StatusResult :=
  let s := fr_source rq in
  do! p := lift (lookup_plugin (fr_registry rq) (fs_plugin_id s)) in
  do! credentials := lift (validate_credentials (fr_registry rq) (fs_plugin_id s) (fs_credentials s)) in
  pl_status p (fs_record s) credentials (fs_external_id s).

(** From the captured checkpoint on. *)
Definition move_to_on_demand (rq : FailoverRequest) (ck : FailoverCheckpoint) : op failover_move :=
  do! sel := lift (rlift FailoverExn (select_on_demand_failover_target (fr_lambda_weight rq) (fr_targets rq))) in
  let t := sel_target sel in
  do! p := lift (lookup_plugin (fr_registry rq) (ft_plugin_id t)) in
  do! credentials := lift (validate_credentials (fr_registry rq) (ft_plugin_id t) (ft_credentials t)) in
  do! pr := pl_provision p (MkTargetRequest (ft_record t) credentials (ft_extra_env t) (ft_payload t)) in
  do! r := resume_or_clean rq p credentials ck sel pr in
  ret (MkMove ck sel pr r).

(** [execute_spot_failover] *)
Definition execute_spot_failover (rq : FailoverRequest) : op FailoverResult :=
  do! status := source_status rq in
  if negb (is_preempted_status status) then ret (MkFailoverResult status None)
  else
    do! ck := fr_checkpoint rq status in
    do! mv := move_to_on_demand rq ck in
    ret (MkFailoverResult status (Some mv)).
End Failover.
Arguments plugin : clear implicits.
Arguments FailoverRequest : clear implicits.
Arguments FailoverTarget : clear implicits.
Arguments FailoverSource : clear implicits.
Arguments FailoverTargetSelection : clear implicits.

(** Lemmas *)

Lemma selection_key_ordering {C} : Ordering (selection_sort_key (C:=C)).
Proof.
  apply by_ordering, tuple_ordering. repeat constructor; apply by_ordering;
    first [exact decimal_ordering|exact string_ordering].
Qed.

Lemma select_target_Ok {C} lambda (targets : list (FailoverTarget C)) sel :
  select_on_demand_failover_target lambda targets = Ok sel ->
  sel_target sel ∈ targets /\ on_demand (sel_target sel) = true /\ sel_rank sel = 1 /\
  score_arbitrage_option (target_weights lambda) (target_option (sel_target sel)) = Ok (sel_score sel) /\
  forall t, t ∈ targets -> on_demand t = true ->
    exists s, score_arbitrage_option (target_weights lambda) (target_option t) = Ok s /\
      (dval (as_objective (sel_score sel)) <= dval (as_objective s))%Q.
Proof.
  unfold select_on_demand_failover_target, sort_on_demand_failover_targets.
  intros (r & (l & Hl & [= <-])%rbind_Ok & H)%rbind_Ok.
  destruct (sort_by _ l) as [|s' l'] eqn:E; [done|]. simpl in H. injection H as <-. simpl.
  apply (sorted_head _ selection_key_ordering) in E as [Hs Hmin]. apply mapR_elem in Hl as [Hback Hto].
  destruct (Hback _ Hs) as (t & [Hd Ht]%list_elem_of_filter & (sc & Hsc & [= <-])%rbind_Ok). simpl in *.
  split; [done|]. split; [done|]. split; [done|]. split; [done|].
  intros t' Ht' Hd'. destruct (Hto t') as (s & Hin & (sc' & Hsc' & [= <-])%rbind_Ok).
  { by apply list_elem_of_filter. }
  exists sc'. split; [done|]. rewrite Forall_forall in Hmin. specialize (Hmin _ Hin).
  unfold no_greater, selection_sort_key, by_ in Hmin. simpl in Hmin. unfold lexi at 1 in Hmin.
  apply dleb_spec. unfold dleb. by destruct (dcompare _ _).
Qed.

(** ** What a failover does *)

Section Trace.
Context {F C R X : Type} (rq : FailoverRequest F C R X).
Abbreviation error := (failover_error X).

(** The calls of plugins and hooks, each with what it was given and how it
    ended. *)
Inductive failover_event :=
| EStatus (p : plugin F C X) (c : C) (r : result error StatusResult)
| ECheckpoint (st : StatusResult) (r : result error FailoverCheckpoint)
| EProvision (p : plugin F C X) (t : FailoverTarget C) (c : C) (r : result error ProvisionResult)
| EResume (ck : FailoverCheckpoint) (sel : FailoverTargetSelection C) (pr : ProvisionResult) (r : result error R)
| ETeardown (p : plugin F C X) (t : FailoverTarget C) (c : C) (lease : string) (r : result error unit)
| EReconcile (p : plugin F C X) (t : FailoverTarget C) (c : C) (external : string) (r : result error unit).

Definition performs (ev : failover_event) (w w' : F) : Prop :=
  match ev with
  | EStatus p c r => pl_status p (fs_record (fr_source rq)) c (fs_external_id (fr_source rq)) w = (w', r)
  | ECheckpoint st r => fr_checkpoint rq st w = (w', r)
  | EProvision p t c r => pl_provision p (MkTargetRequest (ft_record t) c (ft_extra_env t) (ft_payload t)) w = (w', r)
  | EResume ck sel pr r => fr_resume rq ck sel pr w = (w', r)
  | ETeardown p t c lease r => pl_teardown p (ft_record t) c lease w = (w', r)
  | EReconcile p t c external r => pl_reconcile p (ft_record t) c [external] w = (w', r)
  end.

Inductive performed : list failover_event -> F -> F -> Prop :=
| performed_nil w : performed [] w w
| performed_cons ev evs w w1 w2 : performs ev w w1 -> performed evs w1 w2 -> performed (ev :: evs) w w2.

Lemma performed_app evs evs' w w1 w2 : performed evs w w1 -> performed evs' w1 w2 -> performed (evs ++ evs') w w2.
Proof. induction 1; [done|]. intros H'. simpl. econstructor; [done|by apply IHperformed]. Qed.
Lemma performed_one ev w w' : performs ev w w' -> performed [ev] w w'.
Proof. intros H. econstructor; [done|constructor]. Qed.

Definition is_provision (ev : failover_event) : bool := match ev with EProvision _ _ _ _ => true | _ => false end.

(** The target [pr] of plugin [p] was given back: its lease torn down, or,
    without one, its resource reconciled; the resume's exception [e] reaches
    the caller when that works. *)
Definition given_back (p : plugin F C X) (t : FailoverTarget C) (c : C) (pr : ProvisionResult) (e e' : error)
    (evs : list failover_event) : Prop :=
  match pr_lease_id pr, pr_external_id pr with
  | Some lease, _ => exists r, evs = [ETeardown p t c lease r] /\ e' = match r with Ok _ => e | Err x => x end
  | None, Some external => exists r, evs = [EReconcile p t c external r] /\ e' = match r with Ok _ => e | Err x => x end
  | None, None => evs = [] /\ e' = e
  end.

Lemma lift_step {A} (r : result error A) (w w' : F) o : lift r w = (w', o) -> w' = w /\ o = r.
Proof. unfold lift. by intros [= <- <-]. Qed.

Lemma cleanup_trace p (t : FailoverTarget C) c pr (e : error) (w w' : F) (o : result error R) :
  bind (cleanup_failed_resume p t c pr) (fun _ => fail e) w = (w', o) ->
  exists evs e', performed evs w w' /\ o = Err e' /\ given_back p t c pr e e' evs.
Proof.
  unfold cleanup_failed_resume, given_back. intros H.
  destruct (pr_lease_id pr) as [lease|]; [|destruct (pr_external_id pr) as [external|]].
  - apply bind_cases in H as [(x & H & ->)|([] & w1 & H & Hk)].
    + exists [ETeardown p t c lease (Err x)], x. split; [by apply performed_one|]. split; [done|]. by eexists.
    + unfold fail in Hk. injection Hk as <- <-. exists [ETeardown p t c lease (Ok tt)], e.
      split; [by apply performed_one|]. split; [done|]. by eexists.
  - apply bind_cases in H as [(x & H & ->)|([] & w1 & H & Hk)].
    + exists [EReconcile p t c external (Err x)], x. split; [by apply performed_one|]. split; [done|]. by eexists.
    + unfold fail in Hk. injection Hk as <- <-. exists [EReconcile p t c external (Ok tt)], e.
      split; [by apply performed_one|]. split; [done|]. by eexists.
  - unfold bind, ret, fail in H. injection H as <- <-. exists [], e. split; [constructor|]. done.
Qed.

(** How a move to on-demand capacity can go: refused before anything is
    provisioned, refused by the provider, given back, or done. *)
Lemma move_trace ck (w w' : F) o :
  move_to_on_demand rq ck w = (w', o) ->
  (exists e, o = Err e /\ w' = w) \/
  (exists sel p c pr evs, select_on_demand_failover_target (fr_lambda_weight rq) (fr_targets rq) = Ok sel /\
     performed (EProvision p (sel_target sel) c pr :: evs) w w' /\
     match pr with
     | Err e => o = Err e /\ evs = []
     | Ok pr =>
         (exists r, o = Ok (MkMove ck sel pr r) /\ evs = [EResume ck sel pr (Ok r)]) \/
         (exists e e' evs', o = Err e' /\ evs = EResume ck sel pr (Err e) :: evs' /\
            given_back p (sel_target sel) c pr e e' evs')
     end).
Proof.
  unfold move_to_on_demand. intros H.
  apply bind_cases in H as [(e & [-> _]%lift_step & ->)|(sel & w1 & [-> Hsel]%lift_step & H)]; [left; by exists e|].
  apply bind_cases in H as [(e & [-> _]%lift_step & ->)|(p & w1 & [-> _]%lift_step & H)]; [left; by exists e|].
  apply bind_cases in H as [(e & [-> _]%lift_step & ->)|(c & w1 & [-> _]%lift_step & H)]; [left; by exists e|].
  right. destruct (select_on_demand_failover_target _ _) as [sel'|]; [|done]. injection Hsel as <-.
  apply bind_cases in H as [(e & Hp & ->)|(pr & w1 & Hp & H)].
  { exists sel, p, c, (Err e), []. split; [done|]. split; [by apply performed_one|done]. }
  unfold resume_or_clean in H. apply bind_cases in H as [(e & H & ->)|(r & w2 & H & H')].
  - destruct (fr_resume rq ck sel pr w1) as [w2 [r|x]] eqn:Er; [done|].
    apply cleanup_trace in H as (evs & e' & Hevs & [= ->] & Hg).
    exists sel, p, c, (Ok pr), (EResume ck sel pr (Err x) :: evs). split; [done|].
    split; [econstructor; [exact Hp|by econstructor]|]. right. by exists x, e', evs.
  - destruct (fr_resume rq ck sel pr w1) as [w3 [r'|x]] eqn:Er.
    + injection H as <- <-. unfold ret in H'. injection H' as <- <-.
      exists sel, p, c, (Ok pr), [EResume ck sel pr (Ok r')]. split; [done|].
      split; [econstructor; [exact Hp|by apply performed_one]|]. left. by exists r'.
    + by apply cleanup_trace in H as (? & ? & _ & [=] & _).
Qed.

Lemma given_back_no_provision p t c pr (e e' : error) evs :
  given_back p t c pr e e' evs -> Forall (fun ev => is_provision ev = false) evs.
Proof.
  unfold given_back. destruct (pr_lease_id pr); [|destruct (pr_external_id pr)].
  1,2: intros (r & -> & _); by constructor.
  intros [-> _]. constructor.
Qed.

(** The events of a run whose provisioning, if any, is the third one. *)
Definition provisions_third (evs : list failover_event) : Prop :=
  match evs with
  | a :: b :: c :: evs' => is_provision a = false /\ is_provision b = false /\ Forall (fun ev => is_provision ev = false) evs'
  | _ => Forall (fun ev => is_provision ev = false) evs
  end.

Lemma third_once evs : provisions_third evs -> (length (filter (fun ev => is_provision ev = true) evs) <= 1)%nat.
Proof.
  assert (forall l, Forall (fun ev => is_provision ev = false) l -> filter (fun ev => is_provision ev = true) l = []) as Hn.
  { induction 1 as [|ev l Hev _ IH]; [done|]. by rewrite filter_cons_False by congruence. }
  unfold provisions_third. destruct evs as [|a [|b [|c evs]]].
  1-3: intros H; rewrite Hn by done; simpl; lia.
  intros (Ha & Hb & H). rewrite !filter_cons, (Hn _ H). rewrite Ha, Hb. simpl. by destruct (is_provision c); simpl; lia.
Qed.
Lemma third_elem evs p t c pr : provisions_third evs -> EProvision p t c pr ∈ evs ->
  exists a b evs', evs = a :: b :: EProvision p t c pr :: evs'.
Proof.
  assert (forall l, Forall (fun ev => is_provision ev = false) l -> EProvision p t c pr ∈ l -> False) as Hn.
  { intros l Hl Hin. rewrite Forall_forall in Hl. by apply Hl in Hin. }
  unfold provisions_third. destruct evs as [|a [|b [|d evs]]].
  1-3: intros H Hin; exfalso; by eapply Hn.
  intros (Ha & Hb & H) Hin.
  apply elem_of_cons in Hin as [<-|Hin]; [done|]. apply elem_of_cons in Hin as [<-|Hin]; [done|].
  apply elem_of_cons in Hin as [<-|Hin]; [by eexists _, _, _|]. exfalso. by eapply Hn.
Qed.
End Trace.
Arguments failover_event : clear implicits.

(** A status that was read, or not. *)
Lemma status_trace {F C R X} (rq : FailoverRequest F C R X) (w w' : F) r :
  source_status rq w = (w', r) ->
  (exists e, r = Err e /\ w' = w) \/ exists p c, performs rq (EStatus p c r) w w'.
Proof.
  unfold source_status. intros H.
  apply bind_cases in H as [(e & [-> _]%lift_step & ->)|(ps & w2 & [-> _]%lift_step & H)]; [left; by exists e|].
  apply bind_cases in H as [(e & [-> _]%lift_step & ->)|(cs & w2 & [-> _]%lift_step & H)]; [left; by exists e|].
  right. by exists ps, cs.
Qed.


(** ** Theorem *)

(** The target of a failover: on demand, and cheapest by the objective. *)
Definition best_target {C} (lambda : pydec) (targets : list (FailoverTarget C)) (t : FailoverTarget C) : Prop :=
  t ∈ targets /\ on_demand t = true /\ forall t', t' ∈ targets -> on_demand t' = true ->
    exists s s', score_arbitrage_option (target_weights lambda) (target_option t) = Ok s /\
      score_arbitrage_option (target_weights lambda) (target_option t') = Ok s' /\
      (dval (as_objective s) <= dval (as_objective s'))%Q.

(** How a run that preempted sources follow up on ends. *)
Lemma preempted_trace {F C R X} (rq : FailoverRequest F C R X) st (w w' : F) o :
  (do! ck := fr_checkpoint rq st in do! mv := move_to_on_demand rq ck in ret (MkFailoverResult st (Some mv))) w
    = (w', o) ->
  (exists e, o = Err e /\ performed rq [ECheckpoint st (Err e)] w w') \/
  (exists ck e, o = Err e /\ performed rq [ECheckpoint st (Ok ck)] w w') \/
  (exists ck p t c pr evs, performed rq (ECheckpoint st (Ok ck) :: EProvision p t c pr :: evs) w w' /\
     Forall (fun ev => is_provision ev = false) evs /\ best_target (fr_lambda_weight rq) (fr_targets rq) t /\
     forall pr', pr = Ok pr' ->
       (exists mv, o = Ok (MkFailoverResult st (Some mv)) /\ mv_provision mv = pr') \/
       (exists e e' evs1 evs2, o = Err e' /\ evs = evs1 ++ evs2 /\ given_back p t c pr' e e' evs2)).
Proof.
  intros H. apply bind_cases in H as [(e & Hck & ->)|(ck & w2 & Hck & H)].
  { left. exists e. split; [done|]. by apply performed_one. }
  right. assert (exists om, move_to_on_demand rq ck w2 = (w', om) /\
      o = match om with Ok mv => Ok (MkFailoverResult st (Some mv)) | Err e => Err e end) as (om & Hm & ->).
  { apply bind_cases in H as [(e & Hm & ->)|(mv & w3 & Hm & [= <- <-])]; by eexists. }
  apply move_trace in Hm as [(e & -> & ->)|(sel & p & c & pr & evs & Hsel & Hperf & Ho)].
  { left. exists ck, e. split; [done|]. by apply performed_one. }
  right. exists ck, p, (sel_target sel), c, pr, evs. apply select_target_Ok in Hsel as (Ht & Hd & _ & Hsc & Hmin).
  split; [by econstructor|]. split; [|split].
  - destruct pr as [pr|]; [|by destruct Ho as [_ ->]].
    destruct Ho as [(r & _ & ->)|(e & e' & evs' & _ & -> & Hg)]; constructor; [done|constructor|done|].
    by eapply given_back_no_provision.
  - split; [done|]. split; [done|]. intros t' Ht' Hd'. destruct (Hmin t' Ht' Hd') as (s' & Hs' & Hle). by exists (sel_score sel), s'.
  - intros pr' ->. destruct Ho as [(r & -> & _)|(e & e' & evs' & -> & -> & Hg)].
    + left. by eexists.
    + right. by exists e, e', [EResume ck sel pr' (Err e)], evs'.
Qed.

(** What is promised of the events of a run and its result: a target is
    provisioned at most once, after a preemption and a checkpoint, and is
    either resumed on or given back. *)
Definition provisioned_well {F C R X} (rq : FailoverRequest F C R X) (o : result (failover_error X) (FailoverResult (C:=C) (R:=R)))
    (evs : list (failover_event F C R X)) : Prop :=
  (length (filter (fun ev => is_provision ev = true) evs) <= 1)%nat /\
  forall p t c pr, EProvision p t c pr ∈ evs ->
    (exists ps cs st ck evs', is_preempted_status st = true /\
       evs = EStatus ps cs (Ok st) :: ECheckpoint st (Ok ck) :: EProvision p t c pr :: evs') /\
    best_target (fr_lambda_weight rq) (fr_targets rq) t /\
    forall pr', pr = Ok pr' ->
      (exists st mv, o = Ok (MkFailoverResult st (Some mv)) /\ mv_provision mv = pr') \/
      (exists e e' evs1 evs2, o = Err e' /\ evs = evs1 ++ evs2 /\ given_back p t c pr' e e' evs2).

Lemma quiet_well {F C R X} (rq : FailoverRequest F C R X) o evs :
  provisions_third evs -> Forall (fun ev => is_provision ev = false) evs -> provisioned_well rq o evs.
Proof.
  intros H3 Hn. split; [by apply third_once|]. intros p t c pr Hin. rewrite Forall_forall in Hn. by apply Hn in Hin.
Qed.

(** Whatever plugins and hooks do, a failover provisions at most one target,
    and only after the source's provider reported a preemption and a
    checkpoint was captured; the target is an on-demand one whose objective is
    the least.  When a target was provisioned, either the work was resumed on
    it, or the caller gets an error and the target's lease was torn down (a
    target without a lease is only reconciled). *)
Theorem failover_moves_or_gives_back {F C R X} (rq : FailoverRequest F C R X) (w w' : F) o :
  execute_spot_failover rq w = (w', o) -> exists evs, performed rq evs w w' /\ provisioned_well rq o evs.
Proof.
  unfold execute_spot_failover. intros H.
  apply bind_cases in H as [(e & H & ->)|(st & w1 & H & Hk)].
  - apply status_trace in H as [(x & _ & ->)|(ps & cs & Hps)].
    + exists []. split; [constructor|]. apply quiet_well; constructor.
    + exists [EStatus ps cs (Err e)]. split; [by apply performed_one|]. apply quiet_well; by repeat constructor.
  - apply status_trace in H as [(x & [=] & _)|(ps & cs & Hps)].
    destruct (is_preempted_status st) eqn:Hst; simpl in Hk.
    2: { injection Hk as <- <-. exists [EStatus ps cs (Ok st)]. split; [by apply performed_one|]. apply quiet_well; by repeat constructor. }
    apply preempted_trace in Hk as [(e & -> & Hp)|[(ck & e & -> & Hp)|(ck & p & t & c & pr & evs & Hp & Hn & Hb & Hpr)]].
    + exists [EStatus ps cs (Ok st); ECheckpoint st (Err e)]. split; [by econstructor|]. apply quiet_well; by repeat constructor.
    + exists [EStatus ps cs (Ok st); ECheckpoint st (Ok ck)]. split; [by econstructor|]. apply quiet_well; by repeat constructor.
    + set (all := EStatus ps cs (Ok st) :: ECheckpoint st (Ok ck) :: EProvision p t c pr :: evs).
      assert (provisions_third all) as H3 by done.
      exists all. split; [by econstructor|]. split; [by apply third_once|]. intros p' t' c' pr' Hin.
      apply (third_elem _ _ _ _ _ H3) in Hin as (a & b & evs' & Hall). injection Hall as <- <- <- <- <- <- <-.
      split; [by exists ps, cs, st, ck, evs|]. split; [done|]. intros pr'' E.
      destruct (Hpr _ E) as [(mv & -> & Hmv)|(e & e' & evs1 & evs2 & -> & -> & Hg)]; [left; by exists st, mv|].
      right. exists e, e', (EStatus ps cs (Ok st) :: ECheckpoint st (Ok ck) :: EProvision p t c pr :: evs1), evs2. done.
Qed.

(** ** Examples *)
Module FailoverSim.
Definition record (i : string) : Provider :=
  MkProvider i "cap" i POD_LEASE None None None None [] 0 true "healthy" 0 0 None None fzero None "api" None (utc 0).

(** A world that lists what was done; credentials are strings. *)
Definition log (s : string) {A} (r : result (failover_error string) A) : eff (list string) (failover_error string) A :=
  fun w => (w ++ [s], r).
Definition cloud (reported : dict) (lease : option string) : plugin (list string) string string :=
  MkPlugin "cloud" Ok
    (fun _ _ external => log "status" (Ok (MkStatus "spot" external FAILED reported)))
    (fun rq => log ("provision " +:+ p_id (tr_record rq)) (Ok (MkProvision (p_id (tr_record rq)) (Some "ext-2") lease [])))
    (fun _ _ lease => log ("teardown " +:+ lease) (Ok tt))
    (fun _ _ _ => log "reconcile" (Ok tt)).
Definition target (i : string) (price : Z) (m : FailoverCapacityMarket) : FailoverTarget string :=
  MkTarget "cloud" (record i) "key" "A100" (DFin (of_int price)) (DFin (of_int 10)) m [] None.
Definition request (reported : dict) (lease : option string) (resumed : result (failover_error string) Z)
  : FailoverRequest (list string) string Z string :=
  MkFailoverRequest {["cloud" := cloud reported lease]} (MkSource "cloud" (record "spot") "key" "ext-1" None SPOT)
    [target "dear" 3 ON_DEMAND; target "spotty" 1 SPOT; target "cheap" 2 ON_DEMAND]
    (fun _ => log "checkpoint" (Ok (MkCheckpoint "t" [] None)))
    (fun _ _ _ => log "resume" resumed) (DFin (of_int 0)).
Definition run (reported : dict) (lease : option string) (resumed : result (failover_error string) Z) :=
  let '(w, o) := execute_spot_failover (request reported lease resumed) [] in
  (w, match o with Ok r => Ok (match fo_move r with Some m => Some (mv_result m) | None => None end) | Err e => Err e end).
Definition outbid : dict := [("status_msg", VStr "Instance outbid ")].

Example moved_ex :
  run outbid (Some "l2") (Ok 7) = (["status"; "checkpoint"; "provision cheap"; "resume"], Ok (Some 7)).
Proof. vm_compute. reflexivity. Qed.
Example given_back_ex :
  run outbid (Some "l2") (Err (FailoverRaised "oom"))
  = (["status"; "checkpoint"; "provision cheap"; "resume"; "teardown l2"], Err (FailoverRaised "oom")).
Proof. vm_compute. reflexivity. Qed.
Example not_preempted_ex : run [("reason", VStr "oom")] (Some "l2") (Ok 7) = (["status"], Ok None).
Proof. vm_compute. reflexivity. Qed.

(** A target without a lease is not torn down: reconciling reads its status,
    and it keeps running. *)
Example no_lease_is_left_running :
  run outbid None (Err (FailoverRaised "oom"))
  = (["status"; "checkpoint"; "provision cheap"; "resume"; "reconcile"], Err (FailoverRaised "oom")).
Proof. vm_compute. reflexivity. Qed.

(** Markers are looked for inside words: a failure of a job that ran
    uninterrupted counts as a preemption. *)
Example uninterrupted_is_preempted :
  is_preempted_status (MkStatus "p" "e" FAILED [("status_message", VStr "ran uninterrupted, exit code 1")]) = true.
Proof. vm_compute. reflexivity. Qed.
End FailoverSim.

Lemma failover_moves_or_gives_back_witness :
  let rq := FailoverSim.request FailoverSim.outbid (Some "l2") (Err (FailoverRaised "oom")) in
  exists w' o, execute_spot_failover rq [] = (w', o) /\ last w' = Some "teardown l2" /\
    exists evs, performed rq evs [] w' /\ provisioned_well rq o evs.
Proof.
  intros rq. destruct (execute_spot_failover rq []) as [w' o] eqn:E. exists w', o. split; [done|].
  split; [vm_compute in E; injection E as <- _; reflexivity|].
  exact (failover_moves_or_gives_back rq [] w' o E).
Defined.
