(* ===== verification/Scorecards.v ===== *)
(** * Scorecards and quality routing ([observability/scorecards.py],
      [routing/quality_routing.py])

    Observations are grouped by provider and capability, each group is
    aggregated, the aggregates are normalised against each other and ranked by
    a composite score.  A quality routing option takes the quality, cost and
    latency of a card.  [math.log] and [math.exp] of the geometric composite
    are parameters. *)

From Stdlib Require Import QArith SpecFloat.
From S2P Require Import Prelude PyDecimal PyFloat PyValue PyFormat PyTime PyOrder Arbitrage.

(** Definitions *)

(** A [Decimal] or a [float]. *)
Inductive number := ADec (d : pydec) | AFloat (f : float).
Definition to_float (n : number) : float := match n with ADec d => float_of_pydec d | AFloat f => f end.

Record ScorecardObservation : Type := MkScObservation {
  so_provider_id : string; so_capability_id : string; so_cost_usd : pydec; so_latency_ms : float;
  so_quality : float; so_observed_at : option datetime }.

Record EntityScorecard : Type := MkCard {
  ec_provider_id : string; ec_capability_id : string; ec_cost_usd : number; ec_latency_ms : float; ec_quality : float;
  ec_cost_normalized : float; ec_latency_normalized : float; ec_quality_normalized : float;
  ec_composite_score : float; ec_rank : Z; ec_observation_count : Z;
  ec_window_start : option datetime; ec_window_end : option datetime }.

Inductive aggregator := mean | median | p95 | sum_all.
Inductive composite_method := arithmetic | geometric.
Inductive direction := lower_is_better | higher_is_better.

(** [ScorecardBuilder.__init__]; aggregators and methods are of their types. *)
Record ScorecardBuilder : Type := MkBuilder {
  b_cost_weight : float; b_latency_weight : float; b_quality_weight : float;
  b_cost_aggregator : aggregator; b_latency_aggregator : aggregator; b_quality_aggregator : aggregator;
  b_composite_method : composite_method }.
Definition new_builder (cost latency quality : float) (ca la qa : aggregator) (m : composite_method)
  : py ScorecardBuilder :=
  if fltb cost fzero || fltb latency fzero || fltb quality fzero then Err (ValueError "weights must be non-negative")
  else Ok (MkBuilder cost latency quality ca la qa m).
Definition default_builder : ScorecardBuilder := MkBuilder (of_Z 1) (of_Z 1) (of_Z 1) mean mean mean arithmetic.

(** ** Groups *)

Definition group_key : Type := string * string.
Definition key_of (o : ScorecardObservation) : group_key := (so_provider_id o, so_capability_id o).

(** [grouped.setdefault(key, []).append(obs)] *)
Fixpoint group_add (g : list (group_key * list ScorecardObservation)) (o : ScorecardObservation)
  : list (group_key * list ScorecardObservation) :=
  match g with
  | [] => [(key_of o, [o])]
  | (k, l) :: g' => if decide (k = key_of o) then (k, l ++ [o]) :: g' else (k, l) :: group_add g' o
  end.
Definition group_observations (l : list ScorecardObservation) : list (group_key * list ScorecardObservation) :=
  foldl group_add [] l.

(** ** Aggregates *)

Definition index {A} (l : list A) (i : Z) : py A :=
  match l !! Z.to_nat i with Some x => Ok x | None => Err (RuntimeError "list index out of range") end.
Definition middle (l : list float) : py float :=
  let s := sort_by fltb l in
  let n := Z.of_nat (List.length l) in
  let mid := n / 2 in
  if n mod 2 =? 1 then index s mid
  else let? a := index s (mid - 1) in let? b := index s mid in fdiv (fadd a b) (of_Z 2).
Definition percentile_95 (l : list float) : py float :=
  let? n := float_of_int (Z.of_nat (List.length l)) in
  let? c := fceil (fmul (of_dec (Dec 95 (-2))) n) in
  index (sort_by fltb l) (Z.max 0 (c - 1)).

Definition add_number (acc : pydec) (n : number) : py pydec :=
  match n with ADec d => pd_add acc d | AFloat _ => Err (TypeError "unsupported operand type(s) for +") end.

(** [_apply_aggregator] *)
Definition apply_aggregator (values : list number) (a : aggregator) : py number :=
  match values, a with
  | [], sum_all => Ok (ADec (DFin dzero))
  | [], _ => Ok (AFloat fzero)
  | ADec _ :: _, sum_all => rmap ADec (foldR add_number (DFin dzero) values)
  | AFloat _ :: _, sum_all => Ok (AFloat (fsum (to_float <$> values)))
  | _, mean => let? n := float_of_int (Z.of_nat (List.length values)) in
               rmap AFloat (fdiv (fsum (to_float <$> values)) n)
  | _, median => rmap AFloat (middle (to_float <$> values))
  | _, p95 => rmap AFloat (percentile_95 (to_float <$> values))
  end.

(** [min(timestamps)] and [max(timestamps)]: aware and naive times do not
    compare. *)
Definition earlier (a b : datetime) : py bool :=
  if Bool.eqb (dt_aware a) (dt_aware b) then Ok (dt_us a <? dt_us b)
  else Err (TypeError "can't compare offset-naive and offset-aware datetimes").
Definition pick (better : datetime -> datetime -> py bool) (l : list datetime) : py (option datetime) :=
  match l with
  | [] => Ok None
  | t :: l' => rmap Some (foldR (fun best t => let? b := better t best in Ok (if b : bool then t else best)) t l')
  end.

Record aggregate : Type := MkAggregate {
  ag_key : group_key; ag_cost_usd : number; ag_latency_ms : float; ag_quality : float; ag_count : Z;
  ag_start : option datetime; ag_end : option datetime }.

(** [_aggregate_group]; a group is not empty, so floats aggregate to a float. *)
Definition aggregate_group (b : ScorecardBuilder) (g : group_key * list ScorecardObservation) : py aggregate :=
  let? cost := apply_aggregator (ADec ∘ so_cost_usd <$> g.2) (b_cost_aggregator b) in
  let? latency := apply_aggregator (AFloat ∘ so_latency_ms <$> g.2) (b_latency_aggregator b) in
  let? quality := apply_aggregator (AFloat ∘ so_quality <$> g.2) (b_quality_aggregator b) in
  let timestamps := omap so_observed_at g.2 in
  let? start := pick earlier timestamps in
  let? stop := pick (fun a b => earlier b a) timestamps in
  Ok (MkAggregate g.1 cost (to_float latency) (to_float quality) (Z.of_nat (List.length g.2)) start stop).

(** ** Normalisation *)

Definition minimum (x : float) (l : list float) : float := foldl fmin x l.
Definition maximum (x : float) (l : list float) : float := foldl fmax x l.
Definition clamp (f : float) : float := fmax fzero (fmin (of_Z 1) f).

(** [_normalize] *)
Definition normalize (values : list float) (d : direction) : py (list float) :=
  match values with
  | [] => Ok []
  | x :: l =>
      let lo := minimum x l in
      let hi := maximum x l in
      if feqb hi lo then Ok (map (fun _ => of_Z 1) values)
      else mapR (fun v => rmap clamp (fdiv (match d with lower_is_better => fsub hi v | higher_is_better => fsub v lo end)
                                        (fsub hi lo))) values
  end.

Section Build.
Context (math_log math_exp : float -> py float).

(** [_composite_score] *)
Fixpoint log_sum (acc : float) (l : list (float * float)) : py (option float) :=
  match l with
  | [] => Ok (Some acc)
  | (w, n) :: l' =>
      if fleb n fzero then Ok None
      else let? x := math_log n in log_sum (fadd acc (fmul w x)) l'
  end.
Definition composite_score (b : ScorecardBuilder) (c l q : float) : py float :=
  let total := fadd (fadd (b_cost_weight b) (b_latency_weight b)) (b_quality_weight b) in
  if feqb total fzero then Ok fzero
  else match b_composite_method b with
       | arithmetic => fdiv (fadd (fadd (fmul (b_cost_weight b) c) (fmul (b_latency_weight b) l))
                               (fmul (b_quality_weight b) q)) total
       | geometric =>
           let? s := log_sum fzero [(b_cost_weight b, c); (b_latency_weight b, l); (b_quality_weight b, q)] in
           match s with None => Ok fzero | Some s => let? x := fdiv s total in math_exp x end
       end.

Fixpoint zip_scores (b : ScorecardBuilder) (aggs : list aggregate) (cs ls qs : list float) : py (list EntityScorecard) :=
  match aggs, cs, ls, qs with
  | a :: aggs', c :: cs', l :: ls', q :: qs' =>
      let? score := composite_score b c l q in
      let? rest := zip_scores b aggs' cs' ls' qs' in
      Ok (MkCard (ag_key a).1 (ag_key a).2 (ag_cost_usd a) (ag_latency_ms a) (ag_quality a) c l q score 0 (ag_count a)
            (ag_start a) (ag_end a) :: rest)
  | [], [], [], [] => Ok []
  | _, _, _, _ => Err (ValueError "zip() arguments have different lengths")
  end.

(** [(-composite, provider_id, capability_id)] *)
Definition card_before (a b : EntityScorecard) : bool :=
  let x := fneg (ec_composite_score a) in
  let y := fneg (ec_composite_score b) in
  if feqb x y
  then less (tuple_key [by_ ec_provider_id String.compare; by_ ec_capability_id String.compare]) a b
  else fltb x y.
Definition with_rank (c : EntityScorecard) (r : Z) : EntityScorecard :=
  MkCard (ec_provider_id c) (ec_capability_id c) (ec_cost_usd c) (ec_latency_ms c) (ec_quality c)
    (ec_cost_normalized c) (ec_latency_normalized c) (ec_quality_normalized c) (ec_composite_score c) r
    (ec_observation_count c) (ec_window_start c) (ec_window_end c).

(** [ScorecardBuilder.build] *)
Definition build (b : ScorecardBuilder) (l : list ScorecardObservation) : py (list EntityScorecard) :=
  match l with
  | [] => Ok []
  | _ =>
      let? aggs := mapR (aggregate_group b) (group_observations l) in
      let? cs := normalize (map (fun a => to_float (ag_cost_usd a)) aggs) lower_is_better in
      let? ls := normalize (map ag_latency_ms aggs) lower_is_better in
      let? qs := normalize (map ag_quality aggs) higher_is_better in
      let? scored := zip_scores b aggs cs ls qs in
      Ok (imap (fun i c => with_rank c (Z.of_nat (S i))) (sort_by card_before scored))
  end.
End Build.

(** ** Observations of workloads *)

(** [observations_from_workloads], for one workload. *)
Definition observed_cost (w : dict) : py pydec :=
  match dict_get_none "cost_actual_usd" w with
  | VNone => Ok (DFin (of_int 0))
  | VDec d => Ok d
  | (VInt _ | VBool _ | VFloat _ | VStr _ | VEnum _) as v => decimal_of_str v
  | _ => Ok (DFin (of_int 0))
  end.
(** [except (TypeError, ValueError)] *)
Definition or_zero (r : py float) : py float :=
  match r with Err (TypeError _) | Err (ValueError _) => Ok fzero | _ => r end.
Definition observed_latency (w : dict) : py float :=
  let? f := match dict_get_none "execution_ms" w with VNone => Ok fzero | v => or_zero (py_float v) end in
  Ok (if negb (fisfinite f) || fltb f fzero then fzero else f).
Definition observed_quality (extractor : option (dict -> py pyval)) (w : dict) : py float :=
  let? v := match extractor with
            | Some f => f w
            | None => Ok (VFloat (if is_none (dict_get_none "error" w) then of_Z 1 else fzero))
            end in
  let? f := or_zero (py_float v) in
  Ok (clamp (if fisfinite f then f else fzero)).
Definition falsy_text (v : pyval) : bool :=
  match v with VNone | VBool false | VStr EmptyString | VEnum EmptyString | VList [] | VTuple [] | VDict [] => true
             | VInt z => z =? 0 | VFloat f => is_zero_float f | VDec (DFin d) => dcoef d =? 0 | _ => false end.
Definition observation_of_workload (extractor : option (dict -> py pyval)) (w : dict)
  : py (option ScorecardObservation) :=
  let? cost := observed_cost w in
  let? latency := observed_latency w in
  let? quality := observed_quality extractor w in
  let p := dict_get_none "provider_id" w in
  let c := dict_get_none "capability_id" w in
  if falsy_text p || falsy_text c then Ok None
  else Ok (Some (MkScObservation (py_str p) (py_str c) cost latency quality
                   (match dict_get_none "completed_at" w with VTime t => Some t | _ => None end))).
Definition observations_from_workloads (extractor : option (dict -> py pyval)) (l : list dict)
  : py (list ScorecardObservation) :=
  rmap (omap id) (mapR (observation_of_workload extractor) l).

(** ** Quality routing *)

Record QualityRoutingOption : Type := MkQualityOption {
  qo_provider_id : string; qo_model_id : string; qo_quality : pydec; qo_cost_usd : number; qo_latency_ms : pydec }.
Record QualityRoutingPolicy : Type := MkQualityPolicy {
  max_cost_usd : option pydec; max_latency_ms : option pydec;
  quality_weight : pydec; qp_cost_weight : pydec; qp_latency_weight : pydec }.
Definition default_quality_policy : QualityRoutingPolicy :=
  MkQualityPolicy None None (DFin (of_int 1)) (DFin (of_int 0)) (DFin (of_int 0)).

(** What the validators return: decimals. *)
Record quality_limits : Type := MkLimits {
  ql_max_cost : option dec; ql_max_latency : option dec; ql_quality : dec; ql_cost : dec; ql_latency : dec }.
Record quality_candidate : Type := MkCandidate {
  qc_provider_id : string; qc_model_id : string; qc_quality : dec; qc_cost : dec; qc_latency : dec }.
Record QualityRoutingScore : Type := MkQualityScore {
  qs_option : quality_candidate; qs_objective : dec; qs_quality_component : dec; qs_cost_penalty : dec;
  qs_latency_penalty : dec }.

(** [_non_empty_string] *)
Definition quality_name (s name : string) : py string :=
  if negb (nonempty (strip s)) then Err (ValueError (name +:+ " must be a non-empty string"))
  else if String.eqb s (strip s) then Ok s
  else Err (ValueError (name +:+ " must not include surrounding whitespace")).
(** [_non_negative_decimal] of a field that may hold a float. *)
Definition non_negative_number (n : number) (name : string) : py dec :=
  match n with ADec d => non_negative_decimal d name | AFloat _ => Err (ValueError (name +:+ " must be a Decimal")) end.
Definition optional_decimal (o : option pydec) (name : string) : py (option dec) :=
  match o with None => Ok None | Some d => rmap Some (non_negative_decimal d name) end.

(** [_validate_option] *)
Definition validate_option (o : QualityRoutingOption) : py quality_candidate :=
  let? p := quality_name (qo_provider_id o) "provider_id" in
  let? m := quality_name (qo_model_id o) "model_id" in
  let? q := non_negative_decimal (qo_quality o) "quality" in
  let? _ := if dltb (of_int 1) q then Err (ValueError "quality must be between 0 and 1") else Ok tt in
  let? c := non_negative_number (qo_cost_usd o) "cost_usd" in
  let? l := non_negative_decimal (qo_latency_ms o) "latency_ms" in
  Ok (MkCandidate p m q c l).

(** [_validate_policy] *)
Definition validate_quality_policy (p : QualityRoutingPolicy) : py quality_limits :=
  let? mc := optional_decimal (max_cost_usd p) "max_cost_usd" in
  let? ml := optional_decimal (max_latency_ms p) "max_latency_ms" in
  let? q := non_negative_decimal (quality_weight p) "quality_weight" in
  let? c := non_negative_decimal (qp_cost_weight p) "cost_weight" in
  let? l := non_negative_decimal (qp_latency_weight p) "latency_weight" in
  if deqb q dzero && deqb c dzero && deqb l dzero
  then Err (ValueError "at least one quality routing weight must be positive")
  else Ok (MkLimits mc ml q c l).

(** [score_quality_routing_option] *)
Definition score_quality (lim : quality_limits) (o : QualityRoutingOption) : py QualityRoutingScore :=
  let? c := validate_option o in
  let? quality := dmul (ql_quality lim) (qc_quality c) in
  let? cost := dmul (ql_cost lim) (qc_cost c) in
  let? latency := dmul (ql_latency lim) (qc_latency c) in
  let? d := dsub quality cost in
  let? objective := dsub d latency in
  Ok (MkQualityScore c objective quality cost latency).
Definition score_quality_routing_option (p : QualityRoutingPolicy) (o : QualityRoutingOption) : py QualityRoutingScore :=
  let? lim := validate_quality_policy p in score_quality lim o.

(** [_passes_constraints] *)
Definition within (o : option dec) (d : dec) : bool := match o with Some m => negb (dltb m d) | None => true end.
Definition passes_constraints (lim : quality_limits) (s : QualityRoutingScore) : bool :=
  within (ql_max_cost lim) (qc_cost (qs_option s)) && within (ql_max_latency lim) (qc_latency (qs_option s)).

(** [_score_sort_key].  Negating rounds to the precision of the context; an
    objective, being a difference, already has it. *)
Definition negated (d : dec) : dec := match dfix (dneg d) with Ok n => n | Err _ => dneg d end.
Definition quality_sort_key : cmp QualityRoutingScore :=
  tuple_key [flipped (by_ qs_objective dcompare); by_ (fun s => negated (qc_quality (qs_option s))) dcompare;
             by_ (fun s => qc_cost (qs_option s)) dcompare; by_ (fun s => qc_latency (qs_option s)) dcompare;
             by_ (fun s => qc_provider_id (qs_option s)) String.compare;
             by_ (fun s => qc_model_id (qs_option s)) String.compare].

Definition sort_quality_routing_options (p : QualityRoutingPolicy) (options : list QualityRoutingOption)
  : py (list QualityRoutingScore) :=
  let? lim := validate_quality_policy p in
  let? scores := mapR (score_quality lim) options in
  Ok (sort_by (less quality_sort_key) (filter (fun s => passes_constraints lim s = true) scores)).
Definition select_quality_routing_option (p : QualityRoutingPolicy) (options : list QualityRoutingOption)
  : py QualityRoutingScore :=
  match options with
  | [] => Err (ValueError "options must contain at least one option")
  | _ =>
      let? ranked := sort_quality_routing_options p options in
      match ranked with s :: _ => Ok s | [] => Err (ValueError "no options satisfy quality routing policy") end
  end.

(** [quality_option_from_scorecard] *)
Definition quality_option_from_scorecard (c : EntityScorecard) (model_id : string) (use_normalized : bool)
  : py QualityRoutingOption :=
  let? q := decimal_of_str (VFloat (if use_normalized then ec_quality_normalized c else ec_quality c)) in
  let? l := decimal_of_str (VFloat (ec_latency_ms c)) in
  Ok (MkQualityOption (ec_provider_id c) model_id q (ec_cost_usd c) l).

(** Lemmas *)

(** *** Groups *)

(** [g] are the groups of [l]. *)
Definition groups_of (l : list ScorecardObservation) (g : list (group_key * list ScorecardObservation)) : Prop :=
  NoDup g.*1 /\
  (forall k s, (k, s) ∈ g -> s <> [] /\ s = filter (fun o => key_of o = k) l) /\
  (forall o, o ∈ l -> key_of o ∈ g.*1).

Lemma group_add_keys g o k : k ∈ (group_add g o).*1 <-> k = key_of o \/ k ∈ g.*1.
Proof.
  induction g as [|[k' s] g IH]; csimpl; [by rewrite list_elem_of_singleton, elem_of_nil; tauto|].
  destruct (decide (k' = key_of o)) as [->|Hne]; csimpl; rewrite !elem_of_cons; [tauto|]. rewrite IH. tauto.
Qed.
Lemma group_add_NoDup g o : NoDup g.*1 -> NoDup (group_add g o).*1.
Proof.
  induction g as [|[k s] g IH]; csimpl; [intros _; apply NoDup_singleton|].
  intros [Hk Hg]%NoDup_cons. destruct (decide (k = key_of o)) as [->|Hne]; csimpl; apply NoDup_cons; [done|].
  split; [|by apply IH]. rewrite group_add_keys. tauto.
Qed.
Lemma group_add_elem g o k s : NoDup g.*1 -> (k, s) ∈ group_add g o ->
  (k <> key_of o /\ (k, s) ∈ g) \/
  (k = key_of o /\ ((exists s', (k, s') ∈ g /\ s = s' ++ [o]) \/ (k ∉ g.*1 /\ s = [o]))).
Proof.
  induction g as [|[k' s'] g IH]; csimpl.
  - intros _ H%list_elem_of_singleton. injection H as -> ->. right. split; [done|]. right. split; [apply not_elem_of_nil|done].
  - intros [Hk Hg]%NoDup_cons H. destruct (decide (k' = key_of o)) as [->|Hne].
    + apply elem_of_cons in H as [H|H].
      * injection H as -> ->. right. split; [done|]. left. exists s'. split; [constructor|done].
      * left. split; [|by constructor]. intros ->. apply Hk. apply list_elem_of_fmap. by exists (key_of o, s).
    + apply elem_of_cons in H as [H|H].
      * injection H as -> ->. left. split; [done|constructor].
      * destruct (IH Hg H) as [[Hn Hin]|[-> [(s0 & Hin & ->)|[Hn ->]]]].
        -- left. split; [done|by constructor].
        -- right. split; [done|]. left. exists s0. split; [by constructor|done].
        -- right. split; [done|]. right. split; [|done]. rewrite elem_of_cons. intros [E|?]; [by subst|done].
Qed.

Lemma group_add_groups l g o : groups_of l g -> groups_of (l ++ [o]) (group_add g o).
Proof.
  intros (Hn & Hg & Ha). split; [by apply group_add_NoDup|]. split.
  - intros k s H. rewrite filter_app.
    destruct (group_add_elem _ _ _ _ Hn H) as [[Hne Hin]|[-> [(s' & Hin & ->)|[Hk ->]]]].
    + destruct (Hg _ _ Hin) as [? ->]. split; [done|]. rewrite (filter_cons_False _ o []) by congruence.
      by rewrite filter_nil, app_nil_r.
    + destruct (Hg _ _ Hin) as [_ <-]. rewrite filter_cons_True by done. split; [by destruct s'|done].
    + split; [done|]. rewrite filter_cons_True, filter_nil by done.
      destruct (filter _ l) as [|x r] eqn:E; [done|]. exfalso. apply Hk.
      assert (x ∈ filter (fun o' => key_of o' = key_of o) l) as Hx by (rewrite E; constructor).
      apply list_elem_of_filter in Hx as [<- Hx]. by apply Ha.
  - intros o' [Ho|Ho%list_elem_of_singleton]%elem_of_app; apply group_add_keys; [right; by apply Ha|left; by subst].
Qed.

Lemma group_observations_groups l : groups_of l (group_observations l).
Proof.
  unfold group_observations.
  assert (forall l1 l2 g, groups_of l1 g -> groups_of (l1 ++ l2) (foldl group_add g l2)) as H.
  { intros l1 l2. revert l1. induction l2 as [|o l2 IH]; intros l1 g Hg; simpl; [by rewrite app_nil_r|].
    rewrite cons_middle, app_assoc. by apply IH, group_add_groups. }
  apply (H [] l []). split; [constructor|]. split; [by intros ? ? ?%elem_of_nil|by intros ? ?%elem_of_nil].
Qed.

(** *** Normalised values *)

Definition in_unit (f : float) : Prop := fleb fzero f = true /\ fleb f (of_Z 1) = true.
Lemma fltb_fleb a b : fltb a b = true -> fleb a b = true.
Proof. unfold fltb, fleb, SFltb, SFleb. by destruct (SFcompare a b) as [[]|]. Qed.
Lemma clamp_unit f : in_unit (clamp f).
Proof.
  unfold clamp, fmin. destruct (fltb f (of_Z 1)) eqn:E1; unfold fmax.
  - destruct (fltb fzero f) eqn:E2; [by split; apply fltb_fleb|]. split; by vm_compute.
  - split; by vm_compute.
Qed.
Lemma normalize_unit l d l' : normalize l d = Ok l' -> Forall in_unit l' /\ length l' = length l.
Proof.
  unfold normalize. destruct l as [|x l]; [by intros [= <-]|]. destruct (feqb _ _).
  - intros [= <-]. split; [|simpl; by rewrite length_map]. change (Forall in_unit (map (fun _ => of_Z 1) (x :: l))). apply Forall_forall. intros f Hf.
    apply list_elem_of_In, in_map_iff in Hf as (y & <- & _). split; by vm_compute.
  - intros H%mapR_Ok. split; [|by rewrite (Forall2_length _ _ _ H)].
    clear -H. induction H as [|y z ys zs Hyz _ IH]; constructor; [|done].
    apply rmap_Ok in Hyz as (q & _ & ->). apply clamp_unit.
Qed.

(** *** Cards *)

Definition card_key (c : EntityScorecard) : group_key := (ec_provider_id c, ec_capability_id c).
Definition normalised (c : EntityScorecard) : Prop :=
  in_unit (ec_cost_normalized c) /\ in_unit (ec_latency_normalized c) /\ in_unit (ec_quality_normalized c).
Definition card_of (a : aggregate) (c : EntityScorecard) : Prop :=
  card_key c = ag_key a /\ ec_observation_count c = ag_count a /\ ec_cost_usd c = ag_cost_usd a.

Lemma zip_scores_cards lg ex b aggs cs ls qs cards :
  Forall in_unit cs -> Forall in_unit ls -> Forall in_unit qs ->
  zip_scores lg ex b aggs cs ls qs = Ok cards -> Forall2 card_of aggs cards /\ Forall normalised cards.
Proof.
  intros Hc. revert aggs ls qs cards. induction Hc as [|c cs Hc _ IH]; intros [|a aggs] [|l ls] [|q qs] cards Hl Hq H;
    try done.
  - injection H as <-. by split; constructor.
  - simpl in H. apply rbind_Ok in H as (score & _ & (rest & Hr & [= <-])%rbind_Ok).
    apply Forall_cons in Hl as [Hl Hls]. apply Forall_cons in Hq as [Hq Hqs].
    destruct (IH _ _ _ _ Hls Hqs Hr) as [H1 H2]. split; constructor; [|done|done|done].
    unfold card_of, card_key. simpl. by destruct (ag_key a).
Qed.

Lemma ranked_cards (l : list EntityScorecard) :
  let cards := imap (fun i c => with_rank c (Z.of_nat (S i))) l in
  card_key <$> cards = card_key <$> l /\ ec_rank <$> cards = Z.of_nat <$> seq 1 (length l) /\
  forall P : EntityScorecard -> Prop, (forall c r, P c -> P (with_rank c r)) -> Forall P l -> Forall P cards.
Proof.
  simpl. split; [|split].
  - apply list_eq. intros i. rewrite !list_lookup_fmap, list_lookup_imap. by destruct (l !! i).
  - apply list_eq. intros i. rewrite !list_lookup_fmap, list_lookup_imap.
    destruct (l !! i) as [c|] eqn:E; simpl.
    + rewrite lookup_seq_lt by (by eapply lookup_lt_Some). done.
    + rewrite lookup_seq_ge by (by apply lookup_ge_None). done.
  - intros P HP Hl. apply Forall_forall. intros c (i & Hi)%list_elem_of_lookup.
    rewrite list_lookup_imap in Hi. destruct (l !! i) as [c'|] eqn:E; [|done]. injection Hi as <-.
    apply HP. rewrite Forall_forall in Hl. apply Hl. by eapply list_elem_of_lookup_2.
Qed.

Lemma aggregate_key b g a : aggregate_group b g = Ok a ->
  ag_key a = g.1 /\ ag_count a = Z.of_nat (length g.2) /\
  apply_aggregator (ADec ∘ so_cost_usd <$> g.2) (b_cost_aggregator b) = Ok (ag_cost_usd a).
Proof.
  unfold aggregate_group. intros (c & Hc & H)%rbind_Ok. repeat (apply rbind_Ok in H as (? & _ & H)).
  injection H as <-. by rewrite Hc.
Qed.

(** The cards of a build, before and after they are ranked. *)
Lemma build_cards lg ex b l cards : build lg ex b l = Ok cards ->
  exists aggs scored, mapR (aggregate_group b) (group_observations l) = Ok aggs /\
    Forall2 card_of aggs scored /\ Forall normalised scored /\
    cards = imap (fun i c => with_rank c (Z.of_nat (S i))) (sort_by card_before scored).
Proof.
  unfold build. destruct l as [|o l]; [intros [= <-]; by exists [], []; repeat constructor|].
  intros (aggs & Ha & H)%rbind_Ok.
  apply rbind_Ok in H as (cs & [Hc _]%normalize_unit & H).
  apply rbind_Ok in H as (ls & [Hl _]%normalize_unit & H).
  apply rbind_Ok in H as (qs & [Hq _]%normalize_unit & H).
  apply rbind_Ok in H as (scored & Hs & [= <-]).
  destruct (zip_scores_cards _ _ _ _ _ _ _ _ Hc Hl Hq Hs) as [H1 H2]. by exists aggs, scored.
Qed.

Lemma scored_groups b l aggs scored :
  mapR (aggregate_group b) (group_observations l) = Ok aggs -> Forall2 card_of aggs scored ->
  card_key <$> scored = (group_observations l).*1 /\
  Forall (fun c => exists g, (card_key c, g) ∈ group_observations l /\
            ec_observation_count c = Z.of_nat (length g) /\
            apply_aggregator (ADec ∘ so_cost_usd <$> g) (b_cost_aggregator b) = Ok (ec_cost_usd c)) scored.
Proof.
  intros Ha%mapR_Ok. revert scored. induction Ha as [|g a gs aggs Hg _ IH]; intros scored Hs.
  - inversion Hs; subst. split; [done|constructor].
  - inversion Hs as [|? c ? scored' (Hk & Hn & Hc) Hs']; subst. destruct (IH _ Hs') as [E HF].
    apply aggregate_key in Hg as (Hgk & Hgn & Hgc). split; [csimpl; by rewrite Hk, Hgk, E|]. constructor.
    + exists g.2. rewrite Hk, Hgk, Hn, Hc. split; [|done]. destruct g. constructor.
    + eapply Forall_impl; [exact HF|]. intros c' (g' & Hg' & ?). exists g'. split; [by constructor|done].
Qed.

Lemma averages_to_float values a n :
  values <> [] -> a <> sum_all -> apply_aggregator values a = Ok n -> exists f, n = AFloat f.
Proof.
  intros Hne Ha. assert (forall r : py float, rmap AFloat r = Ok n -> exists f, n = AFloat f) as Hr.
  { intros r (f & _ & ->)%rmap_Ok. by eexists. }
  unfold apply_aggregator. destruct values as [|[d|f] values]; [done|..]; destruct a; try done; try apply Hr.
  all: intros (? & _ & H)%rbind_Ok; by apply Hr in H.
Qed.

Lemma quality_key_ordering : Ordering quality_sort_key.
Proof.
  apply tuple_ordering. repeat first [apply Forall_cons_2|apply Forall_nil_2];
    try (apply flipped_ordering; apply by_ordering; exact decimal_ordering); apply by_ordering;
    first [exact decimal_ordering|exact string_ordering].
Qed.

(** ** Theorems *)

(** The scorecards of a window are one per provider and capability seen in
    it, each built from exactly the observations of its pair, with every
    normalised dimension in [0, 1] whatever the floats did, and the ranks
    number them from one. *)
Theorem scorecards_partition_observations lg ex b l cards :
  build lg ex b l = Ok cards ->
  NoDup (card_key <$> cards) /\ ec_rank <$> cards = Z.of_nat <$> seq 1 (length cards) /\
  (forall o, o ∈ l -> key_of o ∈ card_key <$> cards) /\
  Forall (fun c => normalised c /\ 0 < ec_observation_count c /\
            ec_observation_count c = Z.of_nat (length (filter (fun o => key_of o = card_key c) l))) cards.
Proof.
  intros (aggs & scored & Ha & Hs & Hn & ->)%build_cards.
  destruct (scored_groups _ _ _ _ Ha Hs) as [Hk HF]. destruct (group_observations_groups l) as (Hnd & Hg & Hall).
  destruct (ranked_cards (sort_by card_before scored)) as (Ekey & Erank & Himap).
  assert (card_key <$> sort_by card_before scored ≡ₚ (group_observations l).*1) as Hp.
  { by rewrite <- Hk, sort_by_perm. }
  split; [by rewrite Ekey, Hp|]. split; [by rewrite Erank, length_imap|].
  split; [intros o Ho; rewrite Ekey, Hp; by apply Hall|]. apply Himap; [done|].
  rewrite sort_by_perm. rewrite Forall_forall in *. intros c Hc. split; [by apply Hn|].
  destruct (HF c Hc) as (g & Hin & -> & _). destruct (Hg _ _ Hin) as [Hne <-]. split; [|done].
  destruct g; [done|]. simpl. lia.
Qed.

(** A scorecard whose cost was not summed cannot be routed by quality: every
    aggregator but the sum turns costs into floats, and the router accepts
    decimals only.  This holds for the builder's defaults. *)
Theorem averaged_scorecards_cannot_be_routed lg ex b l cards c model normalized o p lim :
  b_cost_aggregator b <> sum_all -> build lg ex b l = Ok cards -> c ∈ cards ->
  quality_option_from_scorecard c model normalized = Ok o -> validate_quality_policy p = Ok lim ->
  (exists e, score_quality_routing_option p o = Err e) /\
  forall options, o ∈ options -> exists e, select_quality_routing_option p options = Err e.
Proof.
  intros Hb (aggs & scored & Ha & Hs & _ & ->)%build_cards Hc Ho Hp.
  destruct (scored_groups _ _ _ _ Ha Hs) as [_ HF].
  assert (exists f, ec_cost_usd c = AFloat f) as [f Hf].
  { destruct (ranked_cards (sort_by card_before scored)) as (_ & _ & Himap).
    assert (Forall (fun c => exists f, ec_cost_usd c = AFloat f) scored) as Hf.
    { eapply Forall_impl; [exact HF|]. intros c' (g & Hg & _ & Hagg).
      eapply averages_to_float; [|exact Hb|exact Hagg].
      destruct (group_observations_groups l) as (_ & Hgs & _). destruct (Hgs _ _ Hg) as [Hne _]. by destruct g. }
    rewrite <- (sort_by_perm card_before scored) in Hf.
    specialize (Himap (fun c => exists f, ec_cost_usd c = AFloat f) (fun _ _ H => H) Hf). rewrite Forall_forall in Himap. by apply Himap. }
  assert (exists e, score_quality lim o = Err e) as [e He].
  { unfold quality_option_from_scorecard in Ho. apply rbind_Ok in Ho as (q & _ & (lt & _ & [= <-])%rbind_Ok).
    unfold score_quality, validate_option. simpl. rewrite Hf.
    destruct (quality_name (ec_provider_id c) _); simpl; [|by eexists]. destruct (quality_name model _); simpl; [|by eexists].
    destruct (non_negative_decimal q _); simpl; [|by eexists]. destruct (dltb _ _); simpl; by eexists. }
  split; [exists e; unfold score_quality_routing_option; by rewrite Hp|].
  intros options Hin. unfold select_quality_routing_option. destruct options as [|o' options]; [by apply elem_of_nil in Hin|].
  unfold sort_quality_routing_options. rewrite Hp. cbn -[mapR].
  destruct (mapR (score_quality lim) (o' :: options)) as [ss|x] eqn:E; [|by eexists].
  apply mapR_elem in E as [_ E]. destruct (E _ Hin) as (s & _ & Hs'). congruence.
Qed.

(** Quality routing never exceeds a cap: the selected candidate is within
    both, and no candidate within them has a greater objective. *)
Theorem quality_selects_best_within_caps p options s :
  select_quality_routing_option p options = Ok s ->
  exists lim, validate_quality_policy p = Ok lim /\ passes_constraints lim s = true /\
    (exists o, o ∈ options /\ score_quality lim o = Ok s) /\
    forall o, o ∈ options -> exists so, score_quality lim o = Ok so /\
      (passes_constraints lim so = true -> (dval (qs_objective so) <= dval (qs_objective s))%Q).
Proof.
  unfold select_quality_routing_option. destruct options as [|o0 options]; [done|].
  unfold sort_quality_routing_options. intros (r & (lim & Hlim & (l & Hl & [= <-])%rbind_Ok)%rbind_Ok & H)%rbind_Ok.
  destruct (sort_by _ _) as [|s' l'] eqn:E; [done|]. injection H as <-.
  apply (sorted_head _ quality_key_ordering) in E as [[Hpass Hs]%list_elem_of_filter Hmin].
  apply mapR_elem in Hl as [Hback Hto]. exists lim. split; [done|]. split; [done|]. split.
  - destruct (Hback _ Hs) as (o & Ho & Eo). by exists o.
  - intros o Ho. destruct (Hto _ Ho) as (so & Hso & Eo). exists so. split; [done|]. intros Hp.
    rewrite Forall_forall in Hmin. assert (no_greater quality_sort_key s' so) as Hng.
    { apply Hmin. by apply list_elem_of_filter. }
    unfold no_greater, quality_sort_key in Hng. simpl tuple_key in Hng. unfold lexi at 1, flipped at 1, by_ at 1 in Hng.
    apply dleb_spec. unfold dleb. by destruct (dcompare (qs_objective so) _).
Qed.

(** ** Examples *)
Module ScorecardSim.
Definition no_math (f : float) : py float := Ok f.
Definition obs (p : string) (cost latency : Z) (quality : float) : ScorecardObservation :=
  MkScObservation p "llm" (DFin (Dec cost (-2))) (of_Z latency) quality None.
Definition window : list ScorecardObservation :=
  [obs "a" 10 100 (of_Z 1); obs "b" 20 50 (of_Z 1); obs "a" 30 300 fzero].
Definition cards_of (b : ScorecardBuilder) : list EntityScorecard :=
  match build no_math no_math b window with Ok cs => cs | Err _ => [] end.
Definition summing : ScorecardBuilder := MkBuilder (of_Z 1) (of_Z 1) (of_Z 1) sum_all mean mean arithmetic.

Example ranks_ex :
  map (fun c => (ec_provider_id c, ec_rank c, ec_observation_count c)) (cards_of default_builder)
  = [("b", 1, 1); ("a", 2, 2)].
Proof. vm_compute. reflexivity. Qed.
Definition route (b : ScorecardBuilder) : option (option string) :=
  match (let? os := mapR (fun c => quality_option_from_scorecard c "m" true) (cards_of b) in
         select_quality_routing_option default_quality_policy os) with
  | Ok s => Some (Some (qc_provider_id (qs_option s)))
  | Err (ValueError "cost_usd must be a Decimal") => Some None
  | Err _ => None
  end.
Example default_not_routed_ex : route default_builder = Some None.
Proof. vm_compute. reflexivity. Qed.
Example summed_routed_ex : route summing = Some (Some "b").
Proof. vm_compute. reflexivity. Qed.
Definition candidate (p : string) (quality cost : Z) : QualityRoutingOption :=
  MkQualityOption p "m" (DFin (Dec quality (-2))) (ADec (DFin (Dec cost (-2)))) (DFin (of_int 10)).
Definition capped : QualityRoutingPolicy :=
  MkQualityPolicy (Some (DFin (Dec 50 (-2)))) None (DFin (of_int 1)) (DFin (of_int 0)) (DFin (of_int 0)).
End ScorecardSim.

Lemma scorecards_partition_observations_witness :
  exists cards, length cards = 2%nat /\ NoDup (card_key <$> cards) /\
    ec_rank <$> cards = Z.of_nat <$> seq 1 (length cards) /\
    (forall o, o ∈ ScorecardSim.window -> key_of o ∈ card_key <$> cards) /\
    Forall (fun c => normalised c /\ 0 < ec_observation_count c /\
      ec_observation_count c = Z.of_nat (length (filter (fun o => key_of o = card_key c) ScorecardSim.window))) cards.
Proof.
  destruct (build ScorecardSim.no_math ScorecardSim.no_math default_builder ScorecardSim.window) as [cards|] eqn:E;
    [|exfalso; by vm_compute in E].
  exists cards. split; [vm_compute in E; injection E as <-; reflexivity|].
  exact (scorecards_partition_observations ScorecardSim.no_math ScorecardSim.no_math default_builder
           ScorecardSim.window cards E).
Defined.

Lemma averaged_scorecards_cannot_be_routed_witness :
  exists c o, quality_option_from_scorecard c "m" true = Ok o /\
    (exists e, score_quality_routing_option default_quality_policy o = Err e) /\
    forall options, o ∈ options -> exists e, select_quality_routing_option default_quality_policy options = Err e.
Proof.
  destruct (build ScorecardSim.no_math ScorecardSim.no_math default_builder ScorecardSim.window) as [cards|] eqn:E;
    [|exfalso; by vm_compute in E].
  destruct cards as [|c cards]; [exfalso; by vm_compute in E|].
  destruct (quality_option_from_scorecard c "m" true) as [o|] eqn:Eo;
    [|exfalso; vm_compute in E; injection E as <- _; by vm_compute in Eo].
  exists c, o. split; [done|].
  apply (averaged_scorecards_cannot_be_routed ScorecardSim.no_math ScorecardSim.no_math default_builder
           ScorecardSim.window (c :: cards) c "m" true o default_quality_policy
           (MkLimits None None (of_int 1) (of_int 0) (of_int 0))); [done|exact E|constructor|exact Eo|by vm_compute].
Defined.

Lemma quality_selects_best_within_caps_witness :
  let options := [ScorecardSim.candidate "best" 90 80; ScorecardSim.candidate "good" 80 40;
                  ScorecardSim.candidate "poor" 10 1] in
  exists s, qc_provider_id (qs_option s) = "good" /\
    exists lim, validate_quality_policy ScorecardSim.capped = Ok lim /\ passes_constraints lim s = true /\
      (exists o, o ∈ options /\ score_quality lim o = Ok s) /\
      forall o, o ∈ options -> exists so, score_quality lim o = Ok so /\
        (passes_constraints lim so = true -> (dval (qs_objective so) <= dval (qs_objective s))%Q).
Proof.
  intros options. destruct (select_quality_routing_option ScorecardSim.capped options) as [s|] eqn:E;
    [|exfalso; by vm_compute in E].
  exists s. split; [vm_compute in E; injection E as <-; reflexivity|].
  exact (quality_selects_best_within_caps ScorecardSim.capped options s E).
Defined.
