(* ===== verification/PyUrl.v ===== *)
(** * URLs, paths and IP addresses

    [urlsplit], [urlunsplit], [unquote] and [posixpath.normpath] of Python's
    library, on bytes.  The checks [urlsplit] makes of a non-empty authority
    (brackets, characters that normalise to delimiters) are a parameter.
    Then [ipaddress.ip_address] of Python 3.12 with the compressed form and
    the classification of addresses, and the host, user and port of a URL's
    authority. *)

From Stdlib Require Import Ascii.
From S2P Require Import Prelude PyDecimal PyValue PyFormat PyJson.

(** Definitions *)

(** ** [urllib.parse] *)

(** [s.split(c, 1)] *)
Fixpoint break_at (c : ascii) (s : string) : option (string * string) :=
  match s with
  | EmptyString => None
  | String d s' => if Ascii.eqb d c then Some (EmptyString, s')
                   else match break_at c s' with Some (a, b) => Some (String d a, b) | None => None end
  end.
Definition has_char (c : ascii) (s : string) : bool := match break_at c s with Some _ => true | None => false end.

Fixpoint drop_while (f : ascii -> bool) (s : string) : string :=
  match s with String c s' => if f c then drop_while f s' else s | EmptyString => EmptyString end.
Fixpoint span (f : ascii -> bool) (s : string) : string * string :=
  match s with
  | String c s' => if f c then let '(a, b) := span f s' in (String c a, b) else (EmptyString, s)
  | EmptyString => (EmptyString, EmptyString)
  end.
Fixpoint string_drop (n : nat) (s : string) : string :=
  match n, s with S n', String _ s' => string_drop n' s' | _, _ => s end.

Definition c0_or_space (c : ascii) : bool := (nat_of_ascii c <=? 32)%nat.
Definition unsafe_byte (c : ascii) : bool := let n := nat_of_ascii c in (n =? 9)%nat || (n =? 10)%nat || (n =? 13)%nat.
Definition is_alpha (c : ascii) : bool :=
  let n := nat_of_ascii c in ((65 <=? n) && (n <=? 90))%nat || ((97 <=? n) && (n <=? 122))%nat.
Definition scheme_char (c : ascii) : bool :=
  is_alpha c || is_digit c || Ascii.eqb c "+"%char || Ascii.eqb c "-"%char || Ascii.eqb c "."%char.
Definition ends_authority (c : ascii) : bool := Ascii.eqb c "/"%char || Ascii.eqb c "?"%char || Ascii.eqb c "#"%char.

Record split_result : Type := MkSplit {
  sp_scheme : string; sp_netloc : string; sp_path : string; sp_query : string; sp_fragment : string }.

Definition split_scheme (s : string) : string * string :=
  match break_at ":"%char s with
  | Some (String c _ as pre, post) => if is_alpha c && all_chars scheme_char pre then (lower pre, post) else (EmptyString, s)
  | _ => (EmptyString, s)
  end.
(** [url.split(c, 1)] when [c] is in it. *)
Definition cut (c : ascii) (s : string) : string * string :=
  match break_at c s with Some p => p | None => (s, EmptyString) end.

Section Url.
Context (check_netloc : string -> py unit).

Definition urlsplit (url : string) : py split_result :=
  let url := filter_string (fun c => negb (unsafe_byte c)) (drop_while c0_or_space url) in
  let '(scheme, url) := split_scheme url in
  let '(netloc, url) := if startswith "//" url then span (fun c => negb (ends_authority c)) (string_drop 2 url)
                        else (EmptyString, url) in
  let? _ := if nonempty netloc then check_netloc netloc else Ok tt in
  let '(url, fragment) := cut "#"%char url in
  let '(url, query) := cut "?"%char url in
  Ok (MkSplit scheme netloc url query fragment).

(** [urlunsplit] of parts with a scheme and an authority. *)
Definition urlunsplit (p : split_result) : string :=
  let path := sp_path p in
  let url := if nonempty (sp_netloc p)
             then "//" +:+ sp_netloc p +:+ (if nonempty path && negb (startswith "/" path) then "/" +:+ path else path)
             else if startswith "//" path then "//" +:+ path else path in
  let url := if nonempty (sp_scheme p) then sp_scheme p +:+ ":" +:+ url else url in
  let url := if nonempty (sp_query p) then url +:+ "?" +:+ sp_query p else url in
  if nonempty (sp_fragment p) then url +:+ "#" +:+ sp_fragment p else url.

(** [unquote] *)
Definition hex_val (c : ascii) : option nat :=
  let n := nat_of_ascii c in
  if ((48 <=? n) && (n <=? 57))%nat then Some (n - 48)%nat
  else if ((65 <=? n) && (n <=? 70))%nat then Some (n - 55)%nat
  else if ((97 <=? n) && (n <=? 102))%nat then Some (n - 87)%nat
  else None.
Fixpoint unquote (s : string) : string :=
  match s with
  | EmptyString => EmptyString
  | String c rest =>
      if Ascii.eqb c "%"%char then
        match rest with
        | String a (String b rest') =>
            match hex_val a, hex_val b with
            | Some h, Some l => String (ascii_of_nat (16 * h + l)) (unquote rest')
            | _, _ => String c (unquote rest)
            end
        | _ => String c (unquote rest)
        end
      else String c (unquote rest)
  end.

(** ** [posixpath.normpath] *)

Definition initial_slashes (path : string) : string :=
  if startswith "///" path then "/" else if startswith "//" path then "//" else if startswith "/" path then "/" else EmptyString.
(** A dot segment. *)
Definition dots (s : string) : bool := String.eqb s "." || String.eqb s "..".
Definition norm_step (rooted : bool) (comps : list string) (comp : string) : list string :=
  if negb (nonempty comp) || String.eqb comp "." then comps
  else if negb (String.eqb comp "..") || (negb rooted && bool_decide (comps = [])) || bool_decide (last comps = Some "..")
  then comps ++ [comp]
  else removelast comps.
Definition normpath (path : string) : string :=
  let root := initial_slashes path in
  let p := root +:+ String.concat "/" (foldl (norm_step (nonempty root)) [] (split_on "/"%char path)) in
  if nonempty p then p else ".".
End Url.

(** Lemmas *)

Definition isnt (c d : ascii) : bool := negb (Ascii.eqb d c).

Lemma no_char c s : has_char c s = false <-> all_chars (isnt c) s = true.
Proof.
  unfold has_char, isnt. induction s as [|d s IH]; simpl; [done|].
  destruct (Ascii.eqb d c); simpl; [done|]. rewrite <- IH. by destruct (break_at c s) as [[a b]|].
Qed.

Section Chars.
Context (f : ascii -> bool).

Lemma all_filter g s : all_chars f s = true -> all_chars f (filter_string g s) = true.
Proof.
  induction s as [|c s IH]; simpl; [done|]. intros [Hc Hs]%andb_true_iff. destruct (g c); simpl; [|by apply IH].
  by rewrite Hc, IH.
Qed.
Lemma all_drop_while g s : all_chars f s = true -> all_chars f (drop_while g s) = true.
Proof.
  induction s as [|c s IH]; simpl; [done|]. intros H. destruct (g c); [|done]. apply IH. by apply andb_true_iff in H as [_ H].
Qed.
Lemma all_drop n s : all_chars f s = true -> all_chars f (string_drop n s) = true.
Proof.
  revert s. induction n as [|n IH]; intros [|c s]; simpl; try done. intros [_ H]%andb_true_iff. by apply IH.
Qed.
Lemma all_span g s : all_chars f s = true -> all_chars f (span g s).1 = true /\ all_chars f (span g s).2 = true.
Proof.
  induction s as [|c s IH]; simpl; [done|]. intros [Hc Hs]%andb_true_iff. destruct (g c); [|simpl; by rewrite Hc].
  destruct (span g s) as [a b]. simpl in *. destruct (IH Hs). by rewrite Hc.
Qed.
Lemma all_break c s a b : all_chars f s = true -> break_at c s = Some (a, b) ->
  all_chars f a = true /\ all_chars f b = true.
Proof.
  revert a. induction s as [|d s IH]; intros a; simpl; [done|]. intros [Hd Hs]%andb_true_iff.
  destruct (Ascii.eqb d c); [by intros [= <- <-]|]. destruct (break_at c s) as [[a' b']|]; [|done].
  intros [= <- <-]. destruct (IH a' Hs eq_refl). simpl. by rewrite Hd.
Qed.
Lemma all_cut c s : all_chars f s = true -> all_chars f (cut c s).1 = true.
Proof. unfold cut. intros H. destruct (break_at c s) as [[a b]|] eqn:E; [|done]. by destruct (all_break _ _ _ _ H E). Qed.
Lemma all_split_scheme s : all_chars f s = true -> all_chars f (split_scheme s).2 = true.
Proof.
  unfold split_scheme. intros H. destruct (break_at _ s) as [[[|c a] b]|] eqn:E; [done| |done].
  destruct (_ && _); [|done]. by destruct (all_break _ _ _ _ H E).
Qed.
Lemma all_segments c s : all_chars f s = true -> Forall (fun seg => all_chars f seg = true) (split_on c s).
Proof.
  induction s as [|d s IH]; simpl; [by repeat constructor|]. intros [Hd Hs]%andb_true_iff.
  destruct (Ascii.eqb d c); [constructor; [done|by apply IH]|].
  specialize (IH Hs). destruct (split_on c s) as [|w ws].
  - apply Forall_singleton. simpl. by rewrite Hd.
  - apply Forall_cons in IH as [Hw Hws]. constructor; [|done]. simpl. by rewrite Hd.
Qed.
End Chars.

Lemma cut_no_char c s : all_chars (isnt c) (cut c s).1 = true.
Proof.
  unfold cut. destruct (break_at c s) as [[a b]|] eqn:E.
  - revert a E. induction s as [|d s IH]; intros a; simpl; [done|]. unfold isnt at 1.
    destruct (Ascii.eqb d c) eqn:Ed; [by intros [= <- <-]|]. destruct (break_at c s) as [[a' b']|]; [|done].
    intros [= <- <-]. simpl. unfold isnt. rewrite Ed. simpl. by apply IH.
  - simpl. apply no_char. unfold has_char. by rewrite E.
Qed.
Lemma segments_no_sep c s : Forall (fun seg => all_chars (isnt c) seg = true) (split_on c s).
Proof.
  induction s as [|d s IH]; simpl; [by repeat constructor|]. destruct (Ascii.eqb d c) eqn:E; [by constructor|].
  destruct (split_on c s) as [|w ws]; [constructor; [|done]; simpl; unfold isnt; by rewrite E|].
  apply Forall_cons in IH as [Hw Hws]. constructor; [|done]. simpl. unfold isnt. by rewrite E.
Qed.
(** *** Quoting and segments *)

Lemma split_some c s : exists w ws, split_on c s = w :: ws.
Proof.
  destruct s as [|d s]; simpl; [by eexists _, _|]. destruct (Ascii.eqb d c); [by eexists _, _|].
  destruct (split_on c s); by eexists _, _.
Qed.

Lemma split_app c x y : split_on c (x +:+ String c y) = split_on c x ++ split_on c y.
Proof.
  induction x as [|d x IH]; simpl; [by rewrite Ascii.eqb_refl|].
  destruct (Ascii.eqb d c) eqn:E; simpl; [by rewrite IH|]. rewrite IH.
  by destruct (split_some c x) as (w & ws & ->).
Qed.

(** A quoted byte does not reach over a slash. *)
Lemma unquote_app n : forall a b, (String.length a <= n)%nat ->
  unquote (a +:+ String "/" b) = unquote a +:+ String "/" (unquote b).
Proof.
  induction n as [|n IH]; intros [|c a] b Hn; simpl in Hn; try done; try lia.
  change (String c a +:+ String "/" b) with (String c (a +:+ String "/" b)).
  assert (unquote (a +:+ String "/" b) = unquote a +:+ String "/" (unquote b)) as Ha by (apply IH; lia).
  cbn [unquote]. destruct (Ascii.eqb c "%"); [|by rewrite Ha].
  destruct a as [|x [|y a]].
  - by destruct b.
  - change (String x EmptyString +:+ String "/" b) with (String x (String "/" b)) in *. rewrite Ha. by destruct (hex_val x).
  - change (String x (String y a) +:+ String "/" b) with (String x (String y (a +:+ String "/" b))) in *.
    rewrite Ha. simpl in Hn. destruct (hex_val x), (hex_val y); try done. rewrite (IH a) by lia. done.
Qed.

(** The decoded segments are the segments of the decoded ones. *)
Lemma split_unquote s :
  split_on "/"%char (unquote s) = concat (map (fun seg => split_on "/"%char (unquote seg)) (split_on "/"%char s)).
Proof.
  remember (split_on "/"%char s) as segs eqn:E. revert s E. induction segs as [|seg segs IH]; intros s E.
  - by destruct (split_some "/" s) as (w & ws & Hs); rewrite Hs in E.
  - assert (s = seg /\ segs = [] \/ exists t, s = seg +:+ String "/" t /\ segs = split_on "/"%char t) as [[-> ->]|(t & -> & ->)].
    { clear IH. revert seg segs E. induction s as [|c s IHs]; intros seg segs E; simpl in E.
      - injection E as -> ->. by left.
      - destruct (Ascii.eqb_spec c "/") as [->|Hc].
        + injection E as -> ->. right. by exists s.
        + destruct (split_some "/" s) as (w & ws & Hs). rewrite Hs in *.
          injection E as -> ->. destruct (IHs w ws eq_refl) as [[-> ->]|(t & -> & ->)]; [by left|]. right. by exists t. }
    + simpl. by rewrite app_nil_r.
    + rewrite (unquote_app (String.length seg)) by done. rewrite split_app. simpl. f_equal. by apply IH.
Qed.

Lemma existsb_concat {A} (f : A -> bool) ls : existsb f (concat ls) = existsb (existsb f) ls.
Proof. induction ls as [|l ls IH]; simpl; [done|]. by rewrite existsb_app, IH. Qed.

Lemma norm_steps rooted segs comps : Forall (fun seg => dots seg = false) segs ->
  foldl (norm_step rooted) comps segs = comps ++ filter (fun seg => nonempty seg = true) segs.
Proof.
  intros H. revert comps. induction H as [|seg segs Hseg _ IH]; intros comps; simpl; [by rewrite app_nil_r|].
  rewrite IH. unfold norm_step. unfold dots in Hseg. apply orb_false_iff in Hseg as [-> ->]. rewrite orb_false_r.
  rewrite filter_cons. destruct (nonempty seg) eqn:E.
  - rewrite decide_True by done. simpl. by rewrite <- app_assoc.
  - by rewrite decide_False by done.
Qed.

(** *** The parts of a split *)

Section Split.
Context (check_netloc : string -> py unit).

Lemma urlsplit_parts url p : urlsplit check_netloc url = Ok p ->
  all_chars (isnt "#") (sp_path p) = true /\ all_chars (isnt "?") (sp_path p) = true /\
  (forall f, all_chars f url = true -> all_chars f (sp_path p) = true) /\
  (nonempty (sp_netloc p) = true -> sp_path p = EmptyString \/ exists t, sp_path p = String "/" t).
Proof.
  unfold urlsplit. set (clean := filter_string _ _).
  assert (forall f, all_chars f url = true -> all_chars f clean = true) as Hclean.
  { intros f H. by apply all_filter, all_drop_while. }
  destruct (split_scheme clean) as [scheme rest] eqn:Es.
  assert (forall f, all_chars f url = true -> all_chars f rest = true) as Hrest.
  { intros f H%Hclean. pose proof (all_split_scheme f clean H) as Hs. by rewrite Es in Hs. }
  set (nr := if startswith "//" rest then _ else _).
  assert ((forall f, all_chars f url = true -> all_chars f nr.2 = true) /\
    (nonempty nr.1 = true -> nr.2 = EmptyString \/ exists c t, nr.2 = String c t /\ ends_authority c = true)) as [Hnr Hne].
  { unfold nr. destruct (startswith "//" rest); [|by split; [apply Hrest|]]. split.
    - intros f H%Hrest. by apply all_span, all_drop.
    - intros _. clear. induction (string_drop 2 rest) as [|c t IH]; simpl; [by left|].
      destruct (ends_authority c) eqn:E; simpl; [right; by exists c, t|]. by destruct (span _ t). }
  destruct nr as [netloc rest2]. simpl in *. intros (? & _ & H)%rbind_Ok.
  pose proof (cut_no_char "#" rest2) as Hh. pose proof (fun f H => all_cut f "#" rest2 H) as Hc.
  assert (rest2 = EmptyString \/ (exists c t, rest2 = String c t /\ ends_authority c = true) ->
    (cut "#" rest2).1 = EmptyString \/ exists c t, (cut "#" rest2).1 = String c t /\ (c = "/" \/ c = "?")%char) as Hstart.
  { intros [->|(c & t & -> & Hend)]; [by left|]. unfold cut. simpl. destruct (Ascii.eqb_spec c "#") as [->|Hn]; [by left|].
    assert (c = "/" \/ c = "?")%char as Hc'.
    { unfold ends_authority in Hend. destruct (Ascii.eqb_spec c "/"), (Ascii.eqb_spec c "?"), (Ascii.eqb_spec c "#"); simpl in Hend; try done; tauto. }
    destruct (break_at "#" t) as [[a b]|]; right; by eexists _, _. }
  destruct (cut "#" rest2) as [u2 fragment]. simpl in *.
  pose proof (cut_no_char "?" u2) as Hq. pose proof (fun f H => all_cut f "?" u2 H) as Hc2.
  assert ((u2 = EmptyString \/ exists c t, u2 = String c t /\ (c = "/" \/ c = "?")%char) ->
    (cut "?" u2).1 = EmptyString \/ exists t, (cut "?" u2).1 = String "/" t) as Hstart2.
  { intros [->|(c & t & -> & [->| ->])]; [by left|..]; unfold cut; simpl; [|by left].
    destruct (break_at "?" t) as [[a b]|]; right; by eexists. }
  destruct (cut "?" u2) as [path query]. simpl in *. injection H as <-. simpl.
  split; [by apply Hc2|]. split; [done|]. split; [intros f Hf; by apply Hc2, Hc, Hnr|].
  intros Hn. by apply Hstart2, Hstart, Hne.
Qed.
End Split.

(** * IP addresses *)

(** Definitions *)

Inductive ip := V4 (n : Z) | V6 (n : Z) (scope : option string).

#[export] Instance ip_eq_dec : EqDecision ip.
Proof. solve_decision. Defined.

(** ** Parsing *)

Definition digit_value (c : ascii) : Z := default 0 (digit_val c).
Definition dec_value (s : string) : Z := fold_left (fun n c => n * 10 + digit_value c) (String.list_ascii_of_string s) 0.

(** [_parse_octet] *)
Definition parse_octet (s : string) : option Z :=
  if negb (nonempty s) || negb (all_chars is_digit s) || (3 <? String.length s)%nat then None
  else if negb (String.eqb s "0") && startswith "0" s then None
  else if 255 <? dec_value s then None else Some (dec_value s).

Definition mapO {A B} (f : A -> option B) : list A -> option (list B) :=
  fix go l := match l with
              | [] => Some []
              | x :: l' => match f x, go l' with Some y, Some ys => Some (y :: ys) | _, _ => None end
              end.
(** Big-endian digits of a base. *)
Definition of_digits (base : Z) (ds : list Z) : Z := fold_left (fun n d => n * base + d) ds 0.

Definition v4_of_string (s : string) : option Z :=
  match mapO parse_octet (split_on "."%char s) with
  | Some ([_; _; _; _] as ds) => Some (of_digits 256 ds)
  | _ => None
  end.

(** [_parse_hextet]; the empty text is refused by [int]. *)
Definition hex_value (s : string) : option (list Z) :=
  mapO (fun c => Z.of_nat <$> hex_val c) (String.list_ascii_of_string s).
Definition parse_hextet (s : string) : option Z :=
  if negb (nonempty s) || (4 <? String.length s)%nat then None else of_digits 16 <$> hex_value s.

(** The parts of an IPv6 address, an IPv4 suffix as two of them. *)
Definition hex_text (n : Z) : string :=
  let digit d := String (ascii_of_nat (Z.to_nat (if d <? 10 then d + 48 else d + 87))) EmptyString in
  let d3 := n / 4096 mod 16 in let d2 := n / 256 mod 16 in let d1 := n / 16 mod 16 in
  (if 4096 <=? n then digit d3 else EmptyString) +:+ (if 256 <=? n then digit d2 else EmptyString) +:+
  (if 16 <=? n then digit d1 else EmptyString) +:+ digit (n mod 16).
Definition v6_parts (s : string) : option (list string) :=
  let parts := split_on ":"%char s in
  if (length parts <? 3)%nat then None
  else match last parts with
       | Some l => if has_char "."%char l
                   then match v4_of_string l with
                        | Some n => Some (removelast parts ++ [hex_text (n / 65536); hex_text (n mod 65536)])
                        | None => None
                        end
                   else Some parts
       | None => None
       end.

(** The empty parts between the first and the last. *)
Definition inner_gaps (parts : list string) : list nat :=
  filter (fun i => (0 < i < length parts - 1)%nat /\ parts !! i = Some EmptyString) (seq 0 (length parts)).
Definition hextets_value (parts : list string) : option Z := of_digits 65536 <$> mapO parse_hextet parts.

(** [_ip_int_from_string] *)
Definition v6_of_string (s : string) : option Z :=
  match v6_parts s with
  | None => None
  | Some parts =>
      let n := length parts in
      if (9 <? n)%nat then None
      else match inner_gaps parts with
           | [] => if negb (n =? 8)%nat then None else hextets_value parts
           | [i] =>
               let hi := if String.eqb (default "x" (head parts)) EmptyString then (i - 1)%nat else i in
               let lo := if String.eqb (default "x" (last parts)) EmptyString then (n - i - 2)%nat else (n - i - 1)%nat in
               if (String.eqb (default "x" (head parts)) EmptyString && negb (hi =? 0)%nat) ||
                  (String.eqb (default "x" (last parts)) EmptyString && negb (lo =? 0)%nat) || (7 <? hi + lo)%nat
               then None
               else match hextets_value (take hi parts), hextets_value (drop (n - lo) parts) with
                    | Some h, Some l => Some (h * 65536 ^ Z.of_nat (8 - hi) + l)
                    | _, _ => None
                    end
           | _ => None
           end
  end.

(** [ip_address]; a zone is split off an IPv6 address. *)
Definition split_scope_id (s : string) : option (string * option string) :=
  match break_at "%"%char s with
  | None => Some (s, None)
  | Some (a, zone) => if negb (nonempty zone) || has_char "%"%char zone then None else Some (a, Some zone)
  end.
Definition ip_address (s : string) : option ip :=
  if has_char "/"%char s then None
  else match v4_of_string s with
       | Some n => Some (V4 n)
       | None =>
           match split_scope_id s with
           | Some (a, zone) => match v6_of_string a with Some n => Some (V6 n zone) | None => None end
           | None => None
           end
       end.

(** ** The compressed form *)

Definition octets (n : Z) : list Z := [n / 16777216 mod 256; n / 65536 mod 256; n / 256 mod 256; n mod 256].
Definition hextets (n : Z) : list string :=
  (fun k => hex_text (n / 65536 ^ Z.of_nat k mod 65536)) <$> rev (seq 0 8).

(** Start and length of the first longest run of zeros from index [i] on. *)
Fixpoint longest_run (i : nat) (start len : nat) (best : nat * nat) (l : list string) : nat * nat :=
  match l with
  | [] => best
  | h :: l' =>
      if String.eqb h "0"
      then let start := if (len =? 0)%nat then i else start in
           let len := S len in
           longest_run (S i) start len (if (best.2 <? len)%nat then (start, len) else best) l'
      else longest_run (S i) start 0 best l'
  end.
Definition compress_hextets (l : list string) : list string :=
  let '(start, len) := longest_run 0 0 0 (0, 0)%nat l in
  if (1 <? len)%nat
  then (if (start =? 0)%nat then [EmptyString] else []) ++ take start l ++ [EmptyString] ++ drop (start + len) l ++
       (if (start + len =? length l)%nat then [EmptyString] else [])
  else l.
Definition compressed (a : ip) : string :=
  match a with
  | V4 n => String.concat "." (str_int <$> octets n)
  | V6 n zone => String.concat ":" (compress_hextets (hextets n)) +:+
                 match zone with Some z => "%" +:+ z | None => EmptyString end
  end.

(** ** Classification *)

(** [n] is in the network [base/plen] of addresses of width [w]. *)
Definition in_net (w n base plen : Z) : bool := n / 2 ^ (w - plen) =? base / 2 ^ (w - plen).
Definition in_any (w n : Z) (nets : list (Z * Z)) : bool := existsb (fun net => in_net w n net.1 net.2) nets.

Definition v4_private_networks : list (Z * Z) :=
  [(0x00000000, 8); (0x0a000000, 8); (0x7f000000, 8); (0xa9fe0000, 16); (0xac100000, 12); (0xc0000000, 24);
   (0xc00000aa, 31); (0xc0000200, 24); (0xc0a80000, 16); (0xc6120000, 15); (0xc6336400, 24); (0xcb007100, 24);
   (0xf0000000, 4); (0xffffffff, 32)].
Definition v4_private_exceptions : list (Z * Z) := [(0xc0000009, 32); (0xc000000a, 32)].
Definition v6_private_networks : list (Z * Z) :=
  [(1, 128); (0, 128); (0xffff00000000, 96); (0x0064ff9b0001 * 2 ^ 80, 48); (0x0100 * 2 ^ 112, 64);
   (0x2001 * 2 ^ 112, 23); (0x20010db8 * 2 ^ 96, 32); (0x2002 * 2 ^ 112, 16); (0xfc00 * 2 ^ 112, 7); (0xfe80 * 2 ^ 112, 10)].
Definition v6_private_exceptions : list (Z * Z) :=
  [(0x20010001 * 2 ^ 96 + 1, 128); (0x20010001 * 2 ^ 96 + 2, 128); (0x20010003 * 2 ^ 96, 32);
   (0x200100040112 * 2 ^ 80, 48); (0x20010020 * 2 ^ 96, 28); (0x20010030 * 2 ^ 96, 28)].
Definition v6_reserved_networks : list (Z * Z) :=
  (fun net => (net.1 * 2 ^ 112, net.2)) <$>
  [(0x0000, 8); (0x0100, 8); (0x0200, 7); (0x0400, 6); (0x0800, 5); (0x1000, 4); (0x4000, 3); (0x6000, 3); (0x8000, 3);
   (0xa000, 3); (0xc000, 3); (0xe000, 4); (0xf000, 5); (0xf800, 6); (0xfe00, 9)].

Definition v4_is_private (n : Z) : bool := in_any 32 n v4_private_networks && negb (in_any 32 n v4_private_exceptions).
Definition is_private (a : ip) : bool :=
  match a with
  | V4 n => v4_is_private n
  | V6 n _ => if n / 2 ^ 32 =? 0xffff then v4_is_private (n mod 2 ^ 32)
              else in_any 128 n v6_private_networks && negb (in_any 128 n v6_private_exceptions)
  end.
Definition is_global (a : ip) : bool :=
  match a with V4 n => negb (in_net 32 n 0x64400000 10) && negb (is_private a) | V6 _ _ => negb (is_private a) end.
Definition is_loopback (a : ip) : bool := match a with V4 n => in_net 32 n 0x7f000000 8 | V6 n _ => n =? 1 end.
Definition is_link_local (a : ip) : bool :=
  match a with V4 n => in_net 32 n 0xa9fe0000 16 | V6 n _ => in_net 128 n (0xfe80 * 2 ^ 112) 10 end.
Definition is_multicast (a : ip) : bool :=
  match a with V4 n => in_net 32 n 0xe0000000 4 | V6 n _ => in_net 128 n (0xff00 * 2 ^ 112) 8 end.
Definition is_reserved (a : ip) : bool :=
  match a with V4 n => in_net 32 n 0xf0000000 4 | V6 n _ => in_any 128 n v6_reserved_networks end.
Definition is_unspecified (a : ip) : bool := match a with V4 n | V6 n _ => n =? 0 end.

(** ** The authority of a URL *)

(** [s.rpartition(c)] when [c] is in it: what follows the last one. *)
Fixpoint after_last (c : ascii) (s : string) : option string :=
  match s with
  | EmptyString => None
  | String d s' => match after_last c s' with
                   | Some t => Some t
                   | None => if Ascii.eqb d c then Some s' else None
                   end
  end.
Definition has_userinfo (netloc : string) : bool := has_char "@"%char netloc.
(** [_hostinfo] *)
Definition hostinfo (netloc : string) : string * string :=
  let info := default netloc (after_last "@"%char netloc) in
  match break_at "["%char info with
  | Some (_, bracketed) =>
      let '(host, port) := cut "]"%char bracketed in (host, (cut ":"%char port).2)
  | None => cut ":"%char info
  end.
(** [hostname]: lower case up to a zone. *)
Definition hostname (netloc : string) : option string :=
  match (hostinfo netloc).1 with
  | EmptyString => None
  | h => Some (match break_at "%"%char h with Some (a, zone) => lower a +:+ "%" +:+ zone | None => lower h end)
  end.
(** [port] *)
Definition port (netloc : string) : py (option Z) :=
  match (hostinfo netloc).2 with
  | EmptyString => Ok None
  | p => if negb (all_chars is_digit p) then Err (ValueError "Port could not be cast to integer value")
         else if 65535 <? dec_value p then Err (ValueError "Port out of range 0-65535") else Ok (Some (dec_value p))
  end.

(** ** Examples *)

Definition round (s : string) : option string := compressed <$> ip_address s.
Example v4_ex : map round ["127.0.0.1"; "1.2.3"; "01.2.3.4"; "256.1.1.1"; "1.2.3.4.5"; "10.0.0.255"; ""]
  = [Some "127.0.0.1"; None; None; None; None; Some "10.0.0.255"; None].
Proof. vm_compute. reflexivity. Qed.
Example v6_ex : map round ["::1"; "::"; "2001:DB8:0:0:0:0:0:1"; "::ffff:127.0.0.1"; "1:2:3:4:5:6:7:8"; "1::8%eth0"; "fe80::";
                           "1:0:0:2:0:0:0:3"; "1:2:3:4:5:6:7::"; "::2:3:4:5:6:7:8"; "2001:db8::/32"]
  = [Some "::1"; Some "::"; Some "2001:db8::1"; Some "::ffff:7f00:1"; Some "1:2:3:4:5:6:7:8"; Some "1::8%eth0"; Some "fe80::";
     Some "1:0:0:2::3"; Some "1:2:3:4:5:6:7:0"; Some "0:2:3:4:5:6:7:8"; None].
Proof. vm_compute. reflexivity. Qed.
Example v6_bad_ex : map round ["1::2::3"; ":1::2"; "1::2:"; "1:2:3:4:5:6:7"; "1:2:3:4:5:6:7:8:9"; "12345::"; "g::"; ":::"; "1::%"; "1:2:3:4:5:6:7:8::"; ":"]
  = repeat None 11.
Proof. vm_compute. reflexivity. Qed.

(** Lemmas *)

Lemma mapO_Forall {A B} (f : A -> option B) (P : B -> Prop) l l' :
  (forall x y, f x = Some y -> P y) -> mapO f l = Some l' -> Forall P l' /\ length l' = length l.
Proof.
  intros Hf. revert l'. induction l as [|x l IH]; intros l' E; simpl in E; [by injection E as <-|].
  destruct (f x) as [y|] eqn:Ey; [|done]. destruct (mapO f l) as [ys|]; [|done]. injection E as <-.
  destruct (IH _ eq_refl) as [? ?]. split; [constructor; [by eapply Hf|done]|simpl; congruence].
Qed.

Lemma of_digits_bound base ds : 0 < base -> Forall (fun d => 0 <= d < base) ds ->
  0 <= of_digits base ds < base ^ Z.of_nat (length ds).
Proof.
  intros Hb H. unfold of_digits.
  assert (forall k n, 0 <= n < base ^ Z.of_nat k ->
    0 <= fold_left (fun n d => n * base + d) ds n < base ^ Z.of_nat (k + length ds)) as Hg.
  { induction H as [|d ds Hd _ IH]; intros k n Hn; simpl; [by rewrite Nat.add_0_r|].
    specialize (IH (S k) (n * base + d)). replace (k + S (length ds))%nat with (S k + length ds)%nat by lia. apply IH.
    rewrite Nat2Z.inj_succ, Z.pow_succ_r by lia. nia. }
  apply (Hg 0%nat 0). lia.
Qed.

Lemma dec_value_nonneg s : all_chars is_digit s = true -> 0 <= dec_value s.
Proof.
  unfold dec_value. assert (forall z, all_chars is_digit s = true -> 0 <= z ->
    0 <= fold_left (fun n c => n * 10 + digit_value c) (String.list_ascii_of_string s) z) as H; [|intros Hs; by apply H].
  induction s as [|c s IH]; intros z; simpl; [done|]. intros [Hc Hs]%andb_true_iff Hz. apply IH; [done|].
  unfold is_digit, digit_value in *. destruct (digit_val c) as [d|] eqn:E; [|done]. simpl.
  unfold digit_val in E. destruct (_ && _) eqn:Er; [|done]. injection E as <-. apply andb_true_iff in Er as [E1%Nat.leb_le _]. lia.
Qed.
Lemma parse_octet_bound s n : parse_octet s = Some n -> 0 <= n < 256.
Proof.
  unfold parse_octet. destruct (negb (nonempty s)); [done|]. destruct (all_chars is_digit s) eqn:Hd; [|done]. simpl.
  destruct (_ <? _)%nat; [done|]. destruct (_ && _); [done|]. destruct (Z.ltb_spec 255 (dec_value s)); [done|].
  intros [= <-]. split; [by apply dec_value_nonneg|lia].
Qed.

Lemma v4_bound s n : v4_of_string s = Some n -> 0 <= n < 2 ^ 32.
Proof.
  unfold v4_of_string. destruct (mapO _ _) as [ds|] eqn:E; [|done].
  apply (mapO_Forall _ (fun d => 0 <= d < 256)) in E as [H _]; [|apply parse_octet_bound].
  destruct ds as [|a [|b [|c [|d [|]]]]]; try done. intros [= <-].
  apply (of_digits_bound 256 [a; b; c; d]); [lia|done].
Qed.

Lemma hex_val_bound c d : hex_val c = Some d -> (d < 16)%nat.
Proof. unfold hex_val. repeat case_match; try done; intros [= <-]; rewrite !andb_true_iff, !Nat.leb_le in *; lia. Qed.
Lemma parse_hextet_bound s n : parse_hextet s = Some n -> 0 <= n < 65536.
Proof.
  unfold parse_hextet. destruct (negb _); [done|]. destruct (Nat.ltb_spec 4 (String.length s)); [done|]. simpl.
  destruct (hex_value s) as [ds|] eqn:E; [|done]. simpl. intros [= <-]. unfold hex_value in E.
  apply (mapO_Forall _ (fun d => 0 <= d < 16)) in E as [Hds Hl].
  - pose proof (of_digits_bound 16 ds ltac:(lia) Hds) as [H0 H1]. split; [done|]. eapply Z.lt_le_trans; [done|].
    change 65536 with (16 ^ 4). apply Z.pow_le_mono_r; [lia|]. rewrite Hl.
    assert (length (String.list_ascii_of_string s) = String.length s) as -> by (clear; induction s; simpl; congruence). lia.
  - intros x y Hx. destruct (hex_val x) eqn:Hv; [|done]. simpl in Hx. injection Hx as <-. apply hex_val_bound in Hv. lia.
Qed.
Lemma hextets_bound l n : hextets_value l = Some n -> 0 <= n < 65536 ^ Z.of_nat (length l).
Proof.
  unfold hextets_value. destruct (mapO _ _) as [ds|] eqn:E; [|done]. simpl. intros [= <-].
  apply (mapO_Forall _ (fun d => 0 <= d < 65536)) in E as [H <-]; [|apply parse_hextet_bound]. by apply of_digits_bound.
Qed.

Lemma v6_bound s n : v6_of_string s = Some n -> 0 <= n < 2 ^ 128.
Proof.
  unfold v6_of_string. destruct (v6_parts s) as [parts|]; [|done]. destruct (_ <? _)%nat; [done|].
  change (2 ^ 128) with (65536 ^ 8). destruct (inner_gaps parts) as [|i [|]]; [| |done].
  - destruct (Nat.eqb_spec (length parts) 8) as [Hl|]; [|done]. simpl. intros H%hextets_bound. by rewrite Hl in H.
  - set (hi := if String.eqb (default _ (head _)) _ then _ else _). set (lo := if String.eqb (default _ (last _)) _ then _ else _).
    destruct (_ || _) eqn:Ec; [done|]. apply orb_false_iff in Ec as [_ Ec]. apply Nat.ltb_ge in Ec.
    destruct (hextets_value (take hi parts)) as [h|] eqn:Eh; [|done]. destruct (hextets_value (drop _ parts)) as [l|] eqn:El; [|done].
    intros [= <-]. apply hextets_bound in Eh, El. rewrite length_take in Eh. rewrite length_drop in El.
    assert (h < 65536 ^ Z.of_nat hi) by (eapply Z.lt_le_trans; [apply Eh|]; apply Z.pow_le_mono_r; lia).
    assert (l < 65536 ^ Z.of_nat lo) by (eapply Z.lt_le_trans; [apply El|]; apply Z.pow_le_mono_r; lia).
    assert (65536 ^ Z.of_nat lo <= 65536 ^ Z.of_nat (8 - hi)) by (apply Z.pow_le_mono_r; lia).
    assert (65536 ^ 8 = 65536 ^ Z.of_nat hi * 65536 ^ Z.of_nat (8 - hi)) as ->.
    { rewrite <- Z.pow_add_r by lia. f_equal. lia. }
    nia.
Qed.

Definition ip_in_range (a : ip) : Prop := match a with V4 n => 0 <= n < 2 ^ 32 | V6 n _ => 0 <= n < 2 ^ 128 end.
Lemma ip_address_range s a : ip_address s = Some a -> ip_in_range a.
Proof.
  unfold ip_address. destruct (has_char _ _); [done|]. destruct (v4_of_string s) as [n|] eqn:E4.
  - intros [= <-]. by apply v4_bound in E4.
  - destruct (split_scope_id s) as [[b z]|]; [|done]. destruct (v6_of_string b) as [n|] eqn:E6; [|done].
    intros [= <-]. by apply v6_bound in E6.
Qed.

(** A network is the range of its addresses. *)
Lemma in_net_range w n base plen : 0 < 2 ^ (w - plen) ->
  in_net w n base plen = true <-> base / 2 ^ (w - plen) * 2 ^ (w - plen) <= n < (base / 2 ^ (w - plen) + 1) * 2 ^ (w - plen).
Proof.
  intros Hp. unfold in_net. rewrite Z.eqb_eq. generalize (base / 2 ^ (w - plen)). intros q.
  pose proof (Z.div_mod n (2 ^ (w - plen)) ltac:(lia)) as Hd. pose proof (Z.mod_pos_bound n (2 ^ (w - plen)) Hp). split; [intros <-; nia|].
  intros Hq. symmetry. apply Z.div_unique with (n - q * 2 ^ (w - plen)); [left; nia|ring].
Qed.
