(* ===== verification/OpenAIChain.v ===== *)
(** * The OpenAI-compatible provider chain ([routing/openai.py],
      [routing/fallback.py])

    Usable providers are ordered, capped at three attempts, and tried one
    after the other until one answers with less than 500, within a budget of
    time.  Sending a request is a parameter: it returns a response, fails
    before response headers, or escapes with another exception.  The check of
    paths and the URL of an attempt are in [OpenAIUrl]. *)

From Stdlib Require Import Ascii SpecFloat.
From S2P Require Import Prelude PyDecimal PyFloat PyValue PyFormat PyTime PyOrder Effects Enums Provider Cooldown.

(** Definitions *)

Definition DEFAULT_OPENAI_MAX_ATTEMPTS : Z := 3.
Definition OPENAI_PROVIDER_TYPES : list string :=
  [enum_value SERVERLESS_QUEUE; enum_value SERVERLESS_LB; enum_value PUBLIC_ENDPOINT].

(** ** Reading providers *)

Definition openai_provider_id (p : ProviderLike) : py string :=
  match non_empty_string (field p "id") with
  | Some i => Ok i
  | None => Err (ValueError "provider must include a non-empty id")
  end.
Definition openai_provider_name (p : ProviderLike) : string := default EmptyString (non_empty_string (field p "name")).
Definition openai_priority (p : ProviderLike) : py Z :=
  match field p "priority" with
  | VNone => Ok 0
  | VBool _ => Err (ValueError "provider priority must be an integer")
  | v => py_int v
  end.
Definition openai_provider_type (p : ProviderLike) : option string := non_empty_string (field p "provider_type").
Definition openai_enabled (p : ProviderLike) : bool :=
  match field p "enabled" with VBool false => false | _ => true end.
Definition openai_unhealthy (p : ProviderLike) : bool :=
  match non_empty_string (field p "health_status") with
  | Some s => String.eqb (lower s) "unhealthy"
  | None => false
  end.
(** [_provider_in_cooldown]: without a time nothing is cooling down. *)
Definition openai_in_cooldown (clock : datetime) (now : option datetime) (p : ProviderLike) : py bool :=
  match now with
  | None => Ok false
  | Some _ => is_in_cooldown clock (InProvider p) now
  end.

(** [is_openai_compatible_provider] *)
Definition is_openai_compatible_provider (p : ProviderLike) : bool :=
  match openai_provider_type p with
  | None => true
  | Some t => bool_decide (t ∈ OPENAI_PROVIDER_TYPES)
  end.

(** [s.rstrip("/")] and [s.lstrip("/")] *)
Fixpoint rstrip_slash (s : string) : string :=
  match s with
  | EmptyString => EmptyString
  | String c s' =>
      match rstrip_slash s' with
      | EmptyString => if Ascii.eqb c "/"%char then EmptyString else String c EmptyString
      | t => String c t
      end
  end.

(** [openai_base_url_for_provider] *)
Definition openai_endpoint_id (p : ProviderLike) : option string :=
  match non_empty_string (field p "runpod_endpoint_id") with
  | Some e => Some e
  | None =>
      match non_empty_string (config_value p "runpod_endpoint_id") with
      | Some e => Some e
      | None => non_empty_string (config_value p "endpoint_id")
      end
  end.
Definition openai_base_url_for_provider (p : ProviderLike) : option string :=
  match non_empty_string (config_value p "openai_base_url") with
  | Some url => Some (rstrip_slash url)
  | None =>
      match openai_endpoint_id p with
      | None => None
      | Some e =>
          match openai_provider_type p with
          | None => Some ("https://api.runpod.ai/v2/" +:+ e +:+ "/openai/v1")
          | Some t =>
              if String.eqb t (enum_value SERVERLESS_LB) then Some ("https://" +:+ e +:+ ".api.runpod.ai/openai/v1")
              else if String.eqb t (enum_value SERVERLESS_QUEUE) || String.eqb t (enum_value PUBLIC_ENDPOINT)
              then Some ("https://api.runpod.ai/v2/" +:+ e +:+ "/openai/v1")
              else None
          end
      end
  end.

(** [_string_tuple] *)
Fixpoint distinct_strings (seen : list string) (l : list pyval) : py (list string) :=
  match l with
  | [] => Ok (rev seen)
  | v :: l' =>
      match as_str v with
      | Some (String _ _ as s) => distinct_strings (if bool_decide (s ∈ seen) then seen else s :: seen) l'
      | _ => Err (ValueError "fallback provider ids must be non-empty strings")
      end
  end.
Definition string_tuple (v : pyval) : py (list string) :=
  match v with
  | VNone => Ok []
  | VList l | VTuple l => distinct_strings [] l
  | _ => match as_str v with
         | Some s => Ok (if nonempty s then [s] else [])
         | None => Err (ValueError "fallback provider ids must be strings or sequences of strings")
         end
  end.
(** [_explicit_fallback_chain] *)
Definition explicit_fallback_chain (p : ProviderLike) : py (list string) :=
  string_tuple (first_present [field p "fallback_chain"; config_value p "fallback_chain";
                               config_value p "fallback_provider_ids"; config_value p "fallbacks"]).

(** ** The chain *)

Definition effective_max_attempts (n : Z) : py Z :=
  if n <? 1 then Err (ValueError "max_attempts must be a positive integer") else Ok (Z.min n DEFAULT_OPENAI_MAX_ATTEMPTS).

(** [_provider_order_key] *)
Definition order_key : Type := Z * string * string.
Definition provider_order_key (p : ProviderLike) : py order_key :=
  let? prio := openai_priority p in
  let? i := openai_provider_id p in
  Ok (prio, openai_provider_name p, i).
Definition order_cmp : cmp order_key :=
  tuple_key [by_ (fun k => k.1.1) Z.compare; by_ (fun k => k.1.2) String.compare; by_ snd String.compare].

Definition usable (clock : datetime) (now : option datetime) (p : ProviderLike) : py bool :=
  if negb (is_openai_compatible_provider p) || negb (openai_enabled p) || openai_unhealthy p then Ok false
  else rmap negb (openai_in_cooldown clock now p).

Fixpoint filterR {A} (f : A -> py bool) (l : list A) : py (list A) :=
  match l with
  | [] => Ok []
  | x :: l' => let? b := f x in let? r := filterR f l' in Ok (if b : bool then x :: r else r)
  end.

(** A provider under its id; in a dict the last of an id wins. *)
Abbreviation named := (string * ProviderLike)%type.
Definition by_id (l : list named) (i : string) : option named := last (filter (fun n => n.1 = i) l).

(** [_resolve_primary_provider] *)
Definition resolve_primary (l : list named) (primary : option string) : py named :=
  match primary, l with
  | None, n :: _ => Ok n
  | None, [] => Err (RuntimeError "tuple index out of range")      (* the callers pass at least one *)
  | Some i, _ => match by_id l i with
                 | Some n => Ok n
                 | None => Err (ValueError ("primary_provider_id " +:+ repr_str i +:+ " is not available"))
                 end
  end.

(** [append_provider] *)
Definition append_provider (limit : Z) (chain : list named) (o : option named) : list named :=
  match o with
  | None => chain
  | Some n => if (limit <=? Z.of_nat (List.length chain)) || bool_decide (n.1 ∈ chain.*1) then chain else chain ++ [n]
  end.

(** [ordered_openai_providers] *)
Definition ordered_openai_providers (clock : datetime) (providers : list ProviderLike) (primary : option string)
    (max_attempts : Z) (now : option datetime) : py (list named) :=
  let? limit := effective_max_attempts max_attempts in
  let? candidates := filterR (usable clock now) providers in
  let? ordered := sort_on provider_order_key (less order_cmp) candidates in
  match ordered with
  | [] => Ok []
  | _ =>
      let? l := mapR (fun p => let? i := openai_provider_id p in Ok (i, p)) ordered in
      let? first := resolve_primary l primary in
      let? fallbacks := explicit_fallback_chain first.2 in
      let chain := append_provider limit [] (Some first) in
      let chain := foldl (fun c i => append_provider limit c (by_id l i)) chain fallbacks in
      Ok (foldl (fun c n => append_provider limit c (Some n)) chain l)
  end.

Record OpenAIChainAttempt : Type := MkChainAttempt {
  ca_provider_id : string; ca_provider : ProviderLike; ca_attempt : Z; ca_base_url : option string; ca_backoff_s : Z }.
Record OpenAIProviderChain : Type := MkChain { chain_attempts : list OpenAIChainAttempt; chain_max_attempts : Z }.
(** [_backoff_before_attempt] *)
Definition backoff_before_attempt (attempt : Z) : Z := if attempt <=? 1 then 0 else 2 ^ (attempt - 2).

(** [resolve_openai_provider_chain] *)
Definition resolve_openai_provider_chain (clock : datetime) (providers : list ProviderLike) (primary : option string)
    (max_attempts : Z) (now : option datetime) : py OpenAIProviderChain :=
  let? limit := effective_max_attempts max_attempts in
  let? ordered := ordered_openai_providers clock providers primary limit now in
  Ok (MkChain (imap (fun i n => MkChainAttempt n.1 n.2 (Z.of_nat (S i)) (openai_base_url_for_provider n.2)
                                  (backoff_before_attempt (Z.of_nat (S i)))) ordered) limit).

(** ** Execution *)

Inductive send_outcome (R : Type) :=
| Headers (status : Z) (response : R)
| NoHeaders (message : string)                    (* [TimeoutError] or [httpx.HTTPError] *)
| SendEscaped (type_name message : string).
Arguments Headers {R}.
Arguments NoHeaders {R}.
Arguments SendEscaped {R}.

Class OpenAIUpstream (F R : Type) := {
  perf_counter : F -> F * float;
  send_request : string -> float -> F -> F * send_outcome R;     (* URL and timeout *)
  close_response : R -> F -> F;
}.

Inductive proxy_error :=
| ProxyExn (e : exn)
| ProxyEscaped (type_name message : string)
| OpenAIProxyExecutionError (attempted : list string) (errors : list (string * string)) (cause : option string).

Section Execute.
Context {F R : Type} `{OpenAIUpstream F R} (build_url : string -> string -> py string).
Abbreviation op := (eff F proxy_error).

Record OpenAIProxyRequest : Type := MkProxyRequest { px_path : string; px_budget_s : float; px_max_attempts : Z }.

Record OpenAIProxyResult : Type := MkProxyResult {
  pr_response : R; pr_status : Z; pr_provider : Provider; pr_attempted : list string; pr_elapsed_s : float }.

Definition clock_now : op float := fun w => let '(w', t) := perf_counter w in (w', Ok t).
Definition do_send (url : string) (timeout : float) : op (send_outcome R) :=
  fun w => let '(w', o) := send_request url timeout w in (w', Ok o).
Definition aclose (r : R) : op unit := fun w => (close_response r w, Ok tt).

(** [_providers_with_openai_urls] *)
Definition providers_with_openai_urls (providers : list Provider) (max_attempts : Z) : list Provider :=
  take (Z.to_nat max_attempts) (filter (fun p => is_Some (openai_base_url_for_provider (PModel p))) providers).

(** [_send_until_headers] *)
Definition send_until_headers (rq : OpenAIProxyRequest) (p : Provider) (timeout : float) : op (send_outcome R) :=
  match openai_base_url_for_provider (PModel p) with
  | None => fail (ProxyExn (ValueError "provider does not have an OpenAI base URL"))
  | Some base =>
      do! url := lift (rlift ProxyExn (build_url base (px_path rq))) in
      do_send url timeout
  end.

Definition is_retryable (status : Z) : bool := (500 <=? status) && (status <? 600).

(** What the loop carries from one attempt to the next. *)
Record proxy_loop : Type := MkLoop {
  lp_attempted : list string; lp_errors : list (string * string); lp_last : option string }.

Definition proxy_failed {A} (s : proxy_loop) : op A :=
  fail (OpenAIProxyExecutionError (lp_attempted s) (lp_errors s) (lp_last s)).
Definition proxy_result (started : float) (s : proxy_loop) (p : Provider) (status : Z) (r : R) : op OpenAIProxyResult :=
  do! t := clock_now in ret (MkProxyResult r status p (lp_attempted s) (fsub t started)).

(** The loop over the eligible providers. *)
Fixpoint proxy_attempts (rq : OpenAIProxyRequest) (started deadline : float) (eligible : list Provider) (s : proxy_loop)
  : op OpenAIProxyResult :=
  match eligible with
  | [] => proxy_failed s
  | p :: rest =>
      do! t := clock_now in
      let remaining := fsub deadline t in
      if fleb remaining fzero then proxy_failed s
      else
        let attempted := lp_attempted s ++ [p_id p] in
        do! o := send_until_headers rq p remaining in
        match o with
        | SendEscaped ty msg => fail (ProxyEscaped ty msg)
        | NoHeaders msg =>
            let s' := MkLoop attempted (al_set (p_id p) msg (lp_errors s)) (Some msg) in
            match rest with
            | [] => proxy_failed s'
            | _ => do! t' := clock_now in
                   if fltb t' deadline then proxy_attempts rq started deadline rest s' else proxy_failed s'
            end
        | Headers status r =>
            if negb (is_retryable status)
            then proxy_result started (MkLoop attempted (lp_errors s) (lp_last s)) p status r
            else
              let s' := MkLoop attempted (al_set (p_id p) ("HTTP " +:+ str_int status) (lp_errors s)) (lp_last s) in
              match rest with
              | [] => proxy_result started s' p status r
              | _ => do! t' := clock_now in
                     if fleb deadline t' then proxy_result started s' p status r
                     else aclose r ;! proxy_attempts rq started deadline rest s'
              end
        end
  end.

(** [execute_openai_with_fallback], without a hook on attempts. *)
Definition execute_openai_with_fallback (rq : OpenAIProxyRequest) (providers : list Provider) : op OpenAIProxyResult :=
  if px_max_attempts rq <? 1 then fail (ProxyExn (ValueError "max_attempts must be a positive integer"))
  else if fleb (px_budget_s rq) fzero then fail (ProxyExn (ValueError "fallback_budget_s must be positive"))
  else
    do! started := clock_now in
    proxy_attempts rq started (fadd started (px_budget_s rq))
      (providers_with_openai_urls providers (Z.min (px_max_attempts rq) DEFAULT_OPENAI_MAX_ATTEMPTS))
      (MkLoop [] [] None).
End Execute.

(** Lemmas *)

Lemma order_ordering : Ordering order_cmp.
Proof.
  apply tuple_ordering. repeat first [apply Forall_cons_2|apply Forall_nil_2]; apply by_ordering;
    first [exact Z_ordering|exact string_ordering].
Qed.

Lemma filterR_elem {A} (f : A -> py bool) l r :
  filterR f l = Ok r -> forall x, x ∈ r <-> x ∈ l /\ f x = Ok true.
Proof.
  revert r. induction l as [|y l IH]; intros r H x; simpl in H.
  - injection H as <-. rewrite elem_of_nil. tauto.
  - apply rbind_Ok in H as (b & Hb & (r' & Hr & [= <-])%rbind_Ok). specialize (IH _ Hr x).
    destruct b; rewrite ?elem_of_cons, IH; split.
    + intros [->|[? ?]]; [tauto|]. split; [by right|done].
    + intros [[->|?] ?]; tauto.
    + intros [? ?]. split; [by right|done].
    + intros [[->|?] ?]; [congruence|tauto].
Qed.

(** *** Building the chain *)

Definition chain_ok (limit : Z) (l chain : list named) : Prop :=
  NoDup chain.*1 /\ Z.of_nat (length chain) <= limit /\ Forall (fun n => n ∈ l) chain.

Lemma append_ok limit l chain o :
  chain_ok limit l chain -> (forall n, o = Some n -> n ∈ l) -> chain_ok limit l (append_provider limit chain o).
Proof.
  intros (Hn & Hl & Hin) Ho. unfold append_provider. destruct o as [n|]; [|done].
  destruct (Z.leb_spec limit (Z.of_nat (length chain))); [done|]. simpl.
  destruct (bool_decide_reflect (n.1 ∈ chain.*1)); [done|]. split; [|split].
  - rewrite fmap_app. apply NoDup_app. split; [done|]. csimpl. split; [|apply NoDup_singleton].
    intros x Hx ->%list_elem_of_singleton. done.
  - rewrite length_app. simpl. lia.
  - apply Forall_app. split; [done|]. apply Forall_singleton. by apply Ho.
Qed.
Lemma append_prefix limit chain o : chain `prefix_of` append_provider limit chain o.
Proof.
  unfold append_provider. destruct o as [n|]; [|done]. destruct (_ || _); [done|]. by eexists.
Qed.

Lemma foldl_append_ok {A} limit l (f : A -> option named) xs chain :
  (forall x n, x ∈ xs -> f x = Some n -> n ∈ l) -> chain_ok limit l chain ->
  chain_ok limit l (foldl (fun c x => append_provider limit c (f x)) chain xs) /\
  chain `prefix_of` foldl (fun c x => append_provider limit c (f x)) chain xs.
Proof.
  revert chain. induction xs as [|x xs IH]; intros chain Hf Hc; simpl; [done|].
  destruct (IH (append_provider limit chain (f x))) as [H1 H2].
  - intros y n Hy. apply Hf. by constructor.
  - apply append_ok; [done|]. intros n. apply Hf. constructor.
  - split; [done|]. etrans; [apply append_prefix|done].
Qed.

(** What does not fit was left out because the chain is full. *)
Lemma foldl_append_full limit xs chain n :
  n ∈ xs -> Z.of_nat (length (foldl (fun c x => append_provider limit c (Some x)) chain xs)) < limit ->
  n.1 ∈ (foldl (fun c x => append_provider limit c (Some x)) chain xs).*1.
Proof.
  revert chain. induction xs as [|x xs IH]; intros chain Hin Hl; [by apply elem_of_nil in Hin|].
  cbn [foldl] in *. apply elem_of_cons in Hin as [->|Hin]; [|by apply IH].
  assert (forall c, c `prefix_of` foldl (fun c x => append_provider limit c (Some x)) c xs) as Hpre.
  { clear. induction xs as [|y xs IH]; intros c; [done|]. cbn [foldl]. etrans; [|apply IH]. apply append_prefix. }
  specialize (Hpre (append_provider limit chain (Some x))).
  assert (x.1 ∈ (append_provider limit chain (Some x)).*1) as Hx.
  { unfold append_provider in *. destruct (Z.leb_spec limit (Z.of_nat (length chain))).
    - cbn [orb] in *. apply prefix_length in Hpre. lia.
    - simpl. destruct (bool_decide_reflect (x.1 ∈ chain.*1)); [done|]. rewrite fmap_app. set_solver. }
  destruct Hpre as [k ->]. rewrite fmap_app. set_solver.
Qed.

Lemma by_id_elem l i n : by_id l i = Some n -> n ∈ l /\ n.1 = i.
Proof.
  unfold by_id. intros H%last_Some. destruct H as [l' H].
  assert (n ∈ filter (fun n => n.1 = i) l) as Hn by (rewrite H; set_solver).
  apply list_elem_of_filter in Hn. tauto.
Qed.

Lemma names_elem l names : mapR (fun p => let? i := openai_provider_id p in Ok (i, p)) l = Ok names ->
  (forall n, n ∈ names -> n.2 ∈ l /\ openai_provider_id n.2 = Ok n.1) /\
  (forall p, p ∈ l -> exists i, openai_provider_id p = Ok i /\ (i, p) ∈ names).
Proof.
  intros H%mapR_Ok. split.
  - induction H as [|p q l names Hpq _ IH]; intros n Hn; [by apply elem_of_nil in Hn|].
    apply rbind_Ok in Hpq as (i & Hi & [= <-]). apply elem_of_cons in Hn as [->|Hn]; [by split; [constructor|]|].
    destruct (IH _ Hn). split; [by constructor|done].
  - induction H as [|p q l names Hpq _ IH]; intros p' Hp; [by apply elem_of_nil in Hp|].
    apply rbind_Ok in Hpq as (i & Hi & [= <-]). apply elem_of_cons in Hp as [->|Hp]; [exists i; split; [done|constructor]|].
    destruct (IH _ Hp) as (i' & ? & ?). exists i'. split; [done|by constructor].
Qed.

#[local] Arguments append_provider : simpl never.

Lemma ordered_providers_spec clock providers primary n now chain :
  ordered_openai_providers clock providers primary n now = Ok chain ->
  exists limit candidates, effective_max_attempts n = Ok limit /\ filterR (usable clock now) providers = Ok candidates /\
    NoDup chain.*1 /\ Z.of_nat (length chain) <= limit /\
    Forall (fun m => m.2 ∈ candidates /\ openai_provider_id m.2 = Ok m.1) chain /\
    (Z.of_nat (length chain) < limit -> forall p, p ∈ candidates -> exists i, openai_provider_id p = Ok i /\ i ∈ chain.*1) /\
    (forall i, primary = Some i -> candidates <> [] -> fst <$> head chain = Some i).
Proof.
  unfold ordered_openai_providers. intros (limit & Hlim & (cands & Hc & (ordered & Ho & H)%rbind_Ok)%rbind_Ok)%rbind_Ok.
  exists limit, cands. split; [done|]. split; [done|]. apply sort_on_perm in Ho as Hp.
  assert (1 <= limit) as Hpos.
  { unfold effective_max_attempts in Hlim. destruct (Z.ltb_spec n 1); [done|]. injection Hlim as <-.
    unfold DEFAULT_OPENAI_MAX_ATTEMPTS. lia. }
  destruct ordered as [|p0 ordered].
  { injection H as <-. assert (cands = []) as Hnil by (by apply Permutation_nil, Hp). rewrite Hnil. split; [constructor|]. split; [simpl; lia|].
    split; [constructor|]. split; [by intros _ p ?%elem_of_nil|done]. }
  apply rbind_Ok in H as (l & Hl & (first & Hf & (fallbacks & _ & [= <-])%rbind_Ok)%rbind_Ok).
  apply names_elem in Hl as [Hback Hto].
  assert (first ∈ l /\ forall i, primary = Some i -> first.1 = i) as [Hfirst Hprim].
  { unfold resolve_primary in Hf. destruct primary as [i|].
    - destruct (by_id l i) as [m|] eqn:E; [|done]. injection Hf as <-. apply by_id_elem in E as [? ?].
      split; [done|]. by intros ? [= <-].
    - destruct l as [|m l]; [done|]. injection Hf as <-. split; [constructor|done]. }
  assert (append_provider limit [] (Some first) = [first]) as E1.
  { unfold append_provider. simpl. change (Z.of_nat 0) with 0. by destruct (Z.leb_spec limit 0); [lia|]. }
  rewrite E1. assert (chain_ok limit l [first]) as Hok0.
  { split; [apply NoDup_singleton|]. split; [simpl; lia|]. by apply Forall_singleton. }
  destruct (foldl_append_ok limit l (fun i => by_id l i) fallbacks [first]) as [Hok1 Hpre1]; [|done|].
  { intros i m _ Hm. by apply by_id_elem in Hm as [? _]. }
  set (c1 := foldl _ [first] fallbacks) in *.
  destruct (foldl_append_ok limit l Some l c1) as [(Hn & Hlen & Hin) Hpre2]; [|done|].
  { by intros x m Hx [= <-]. }
  split; [done|]. split; [done|]. split; [|split].
  - eapply Forall_impl; [exact Hin|]. intros m Hm. destruct (Hback _ Hm). split; [by rewrite <- Hp|done].
  - intros Hshort p Hpc. rewrite <- Hp in Hpc. destruct (Hto _ Hpc) as (i & Hi & Hil). exists i. split; [done|].
    apply (foldl_append_full limit l c1 (i, p)); [done|exact Hshort].
  - intros i Hi _. destruct Hpre1 as [k1 E]. destruct Hpre2 as [k2 E']. rewrite E', E. simpl. by rewrite (Hprim i).
Qed.

Lemma attempts_sound clock providers primary n now c :
  resolve_openai_provider_chain clock providers primary n now = Ok c ->
  Forall (fun a => ca_provider a ∈ providers /\ usable clock now (ca_provider a) = Ok true /\
            openai_provider_id (ca_provider a) = Ok (ca_provider_id a)) (chain_attempts c).
Proof.
  unfold resolve_openai_provider_chain. intros (limit & _ & (chain & Hc & [= <-])%rbind_Ok)%rbind_Ok.
  apply ordered_providers_spec in Hc as (_ & cands & _ & Hcands & _ & _ & Hin & _). simpl.
  apply Forall_forall. intros a (i & Hi)%list_elem_of_lookup.
  rewrite list_lookup_imap in Hi. destruct (chain !! i) as [m|] eqn:E; [|done]. injection Hi as <-. simpl.
  rewrite Forall_forall in Hin. destruct (Hin m) as [Hm Hid]; [by eapply list_elem_of_lookup_2|].
  apply (filterR_elem _ _ _ Hcands) in Hm as [? ?]. done.
Qed.

(** ** Theorem *)

(** Whatever providers are given, a resolved chain has at most three attempts
    (and no more than asked for), names each provider once, tries only
    providers of a pass-through type that are enabled, not unhealthy and, when
    a time is given, not cooling down, starts at the primary that was asked
    for, and leaves a usable provider out only when it is full. *)
Theorem openai_chain_sound clock providers primary n now c :
  resolve_openai_provider_chain clock providers primary n now = Ok c ->
  let ids := ca_provider_id <$> chain_attempts c in
  1 <= n /\ chain_max_attempts c = Z.min n 3 /\ Z.of_nat (length ids) <= Z.min n 3 /\ NoDup ids /\
  (ca_attempt <$> chain_attempts c) = Z.of_nat <$> seq 1 (length ids) /\
  Forall (fun a => ca_provider a ∈ providers /\ usable clock now (ca_provider a) = Ok true /\
            openai_provider_id (ca_provider a) = Ok (ca_provider_id a)) (chain_attempts c) /\
  (forall i p, primary = Some i -> p ∈ providers -> usable clock now p = Ok true -> head ids = Some i) /\
  (Z.of_nat (length ids) < Z.min n 3 ->
   forall p, p ∈ providers -> usable clock now p = Ok true -> exists i, openai_provider_id p = Ok i /\ i ∈ ids).
Proof.
  intros Hres. pose proof (attempts_sound _ _ _ _ _ _ Hres) as Hsound. revert Hres Hsound.
  unfold resolve_openai_provider_chain. intros (limit & Hlim & (chain & Hc & [= <-])%rbind_Ok)%rbind_Ok Hsound.
  apply ordered_providers_spec in Hc as (limit' & cands & Hlim' & Hcands & Hn & Hlen & Hin & Hfull & Hprim).
  assert (1 <= n /\ limit = Z.min n 3 /\ limit' = Z.min n 3) as (Hn1 & -> & ->).
  { unfold effective_max_attempts, DEFAULT_OPENAI_MAX_ATTEMPTS in *. destruct (Z.ltb_spec n 1); [done|].
    injection Hlim as <-. destruct (Z.ltb_spec (Z.min n 3) 1); [lia|]. injection Hlim' as <-. lia. }
  simpl. match goal with |- context [imap ?f chain] => set (attempts := imap f chain) end.
  assert (ca_provider_id <$> attempts = chain.*1) as Eids.
  { apply list_eq. intros i. unfold attempts. rewrite !list_lookup_fmap, list_lookup_imap. by destruct (chain !! i). }
  rewrite Eids, length_fmap. pose proof (filterR_elem _ _ _ Hcands) as Hmem.
  do 4 (split; [done|]). split; [|split; [|split]].
  - apply list_eq. intros i. unfold attempts. rewrite !list_lookup_fmap, list_lookup_imap.
    destruct (chain !! i) as [m|] eqn:E; simpl.
    + by rewrite lookup_seq_lt by (by eapply lookup_lt_Some).
    + by rewrite lookup_seq_ge by (by apply lookup_ge_None).
  - exact Hsound.
  - intros i p Hi Hp Hu. rewrite <- (Hprim i Hi); [by destruct chain|]. intros ->.
    by apply (elem_of_nil p), Hmem.
  - intros Hshort p Hp Hu. apply Hfull; [done|]. by apply Hmem.
Qed.

(** ** What an execution leaves open *)

Section Executed.
Context {F R : Type} `{OpenAIUpstream F R} (build_url : string -> string -> py string).
Context (opened : F -> list R).

(** A response is open from its headers until it is closed. *)
Class LawfulUpstream : Prop := {
  perf_counter_opens w : opened (perf_counter w).1 = opened w;
  send_opens url t w :
    opened (send_request url t w).1 =
    match (send_request url t w).2 with Headers _ r => opened w ++ [r] | _ => opened w end;
  close_closes r w l : opened w = l ++ [r] -> opened (close_response r w) = l;
}.
Context `{!LawfulUpstream}.

Lemma clock_step (w w' : F) (r : result proxy_error float) : clock_now w = (w', r) -> opened w' = opened w /\ exists t, r = Ok t.
Proof.
  unfold clock_now. destruct (perf_counter w) as [w1 t] eqn:E. intros [= <- <-]. split; [|by eexists].
  pose proof (perf_counter_opens w) as Hw. by rewrite E in Hw.
Qed.
Lemma send_step rq p t (w w' : F) r : send_until_headers build_url rq p t w = (w', r) ->
  match r with
  | Ok (Headers _ resp) => opened w' = opened w ++ [resp]
  | _ => opened w' = opened w
  end.
Proof.
  unfold send_until_headers. destruct (openai_base_url_for_provider _) as [base|]; [|by intros [= <- <-]].
  intros Hs. apply bind_cases in Hs as [(e & [= <- Hu] & ->)|(url & w1 & [= <- Hu] & Hs)]; [done|].
  unfold do_send in Hs. destruct (send_request url t w) as [w2 o] eqn:E. injection Hs as <- <-.
  pose proof (send_opens url t w) as Hw. rewrite E in Hw. simpl in Hw. by destruct o.
Qed.
Lemma result_step started s p status resp (w w' : F) o :
  proxy_result started s p status resp w = (w', o) -> opened w' = opened w /\
    exists e, o = Ok (MkProxyResult resp status p (lp_attempted s) e).
Proof.
  unfold proxy_result. intros Hs. apply bind_cases in Hs as [(e & [_ [t [=]]]%clock_step & _)|(t & w1 & [Ho _]%clock_step & [= <- <-])].
  split; [done|by eexists].
Qed.

(** What the loop promises from any point on. *)
Definition loop_done (eligible : list Provider) (s : proxy_loop) (w w' : F) (o : result proxy_error (OpenAIProxyResult (R:=R))) : Prop :=
  match o with
  | Ok res =>
      opened w' = opened w ++ [pr_response res] /\
      exists k, eligible !! k = Some (pr_provider res) /\
        pr_attempted res = lp_attempted s ++ (p_id <$> take (S k) eligible)
  | Err (OpenAIProxyExecutionError attempted errors _) =>
      opened w' = opened w /\
      exists k, attempted = lp_attempted s ++ (p_id <$> take k eligible) /\
        forall i, i ∈ p_id <$> take k eligible -> i ∈ errors.*1
  | Err _ => opened w' = opened w
  end.

Lemma al_set_key k v (m : list (string * string)) : k ∈ (al_set k v m).*1.
Proof. apply al_set_keys. by left. Qed.

(** Prepending an attempt that did not end the loop. *)
Lemma loop_done_cons p rest s s' (w w1 w' : F) o :
  lp_attempted s' = lp_attempted s ++ [p_id p] -> opened w1 = opened w -> p_id p ∈ (lp_errors s').*1 ->
  (forall i, i ∈ (lp_errors s').*1 -> match o with Err (OpenAIProxyExecutionError _ errors _) => i ∈ errors.*1 | _ => True end) ->
  loop_done rest s' w1 w' o -> loop_done (p :: rest) s w w' o.
Proof.
  intros Ha Hw He Hkeep. unfold loop_done. destruct o as [res|[e|t m|attempted errors cause]]; rewrite Hw; [..|done|done|].
  - intros (Ho & k & Hk & Hat). split; [done|]. exists (S k). split; [done|]. rewrite Hat, Ha. simpl. by rewrite <- app_assoc.
  - intros (Ho & k & Hat & Herr). split; [done|]. exists (S k). split; [rewrite Hat, Ha; simpl; by rewrite <- app_assoc|].
    intros i. simpl. rewrite elem_of_cons. intros [->|Hi]; [by apply Hkeep|by apply Herr].
Qed.
Lemma failed_now s (w : F) p rest s0 : lp_attempted s = lp_attempted s0 ++ [p_id p] -> p_id p ∈ (lp_errors s).*1 ->
  loop_done (p :: rest) s0 w w (Err (OpenAIProxyExecutionError (lp_attempted s) (lp_errors s) (lp_last s))).
Proof.
  intros Ha He. simpl. split; [done|]. exists 1%nat. split; [done|]. simpl. by intros i ->%list_elem_of_singleton.
Qed.

(** Errors recorded once are kept. *)
Lemma errors_kept rq started deadline eligible : forall s (w w' : F) attempted errors cause,
  proxy_attempts build_url rq started deadline eligible s w = (w', Err (OpenAIProxyExecutionError attempted errors cause)) ->
  forall i, i ∈ (lp_errors s).*1 -> i ∈ errors.*1.
Proof.
  induction eligible as [|p rest IH]; intros s w w' at' er' ca' E i Hi; simpl in E; [by injection E as _ _ <- _|].
  apply bind_cases in E as [(e & [_ [t [=]]]%clock_step & _)|(t & w1 & _ & E)].
  destruct (fleb _ _); [by injection E as _ _ <- _|].
  apply bind_cases in E as [(e & Hs & [= <-])|(o & w2 & _ & E)].
  { exfalso. unfold send_until_headers in Hs. destruct (openai_base_url_for_provider _); [|done].
    apply bind_cases in Hs as [(x & [= _ Hu] & [= <-])|(u & w3 & _ & Hs)]; [by destruct (build_url _ _)|].
    unfold do_send in Hs. by destruct (send_request _ _ _). }
  assert (forall v, i ∈ (al_set (p_id p) v (lp_errors s)).*1) as Hset.
  { intros v. apply al_set_keys. by right. }
  destruct o as [status r|msg|ty msg]; [| |done].
  - destruct (negb _). { apply result_step in E as (_ & e & [=]). }
    destruct rest as [|q rest]. { apply result_step in E as (_ & e & [=]). }
    apply bind_cases in E as [(e & [_ [t' [=]]]%clock_step & _)|(t' & w3 & _ & E)].
    destruct (fleb _ _). { apply result_step in E as (_ & e & [=]). }
    unfold aclose in E. apply bind_cases in E as [(e & [=] & _)|([] & w4 & _ & E)].
    eapply IH; [exact E|]. apply Hset.
  - destruct rest as [|q rest]. { injection E as _ _ <- _. apply Hset. }
    apply bind_cases in E as [(e & [_ [t' [=]]]%clock_step & _)|(t' & w3 & _ & E)].
    destruct (fltb _ _); [|injection E as _ _ <- _; apply Hset]. eapply IH; [exact E|]. apply Hset.
Qed.

Lemma attempts_done rq started deadline eligible : forall s (w w' : F) o,
  proxy_attempts build_url rq started deadline eligible s w = (w', o) -> loop_done eligible s w w' o.
Proof.
  induction eligible as [|p rest IH]; intros s w w' o E; simpl in E.
  { injection E as <- <-. split; [done|]. exists 0%nat. split; [by rewrite app_nil_r|]. by intros i ?%elem_of_nil. }
  apply bind_cases in E as [(e & [_ [t [=]]]%clock_step & _)|(t & w1 & [H1 _]%clock_step & E)].
  destruct (fleb _ _).
  { injection E as <- <-. split; [done|]. exists 0%nat. split; [by rewrite app_nil_r|]. by intros i ?%elem_of_nil. }
  apply bind_cases in E as [(e & Hs & ->)|(r & w2 & Hs & E)].
  { pose proof (send_step _ _ _ _ _ _ Hs) as H2. destruct e as [x|ty m|a b c]; simpl; [congruence..|].
    exfalso. unfold send_until_headers in Hs. destruct (openai_base_url_for_provider _); [|done].
    apply bind_cases in Hs as [(x & [= _ Hu] & [= <-])|(u & w3 & _ & Hs)]; [by destruct (build_url _ _)|].
    unfold do_send in Hs. by destruct (send_request _ _ _). }
  pose proof (send_step _ _ _ _ _ _ Hs) as H2. destruct r as [status resp|msg|ty msg].
  - set (s' := MkLoop _ (al_set _ _ _) _) in E.
    assert (forall s1 w3, lp_attempted s1 = lp_attempted s ++ [p_id p] -> opened w3 = opened w1 ++ [resp] ->
      proxy_result started s1 p status resp w3 = (w', o) -> loop_done (p :: rest) s w w' o) as Hret.
    { intros s1 w3 Ha H3 (Ho & e & ->)%result_step. simpl. split; [congruence|]. exists 0%nat. by rewrite Ha. }
    destruct (negb _); [eapply Hret; [..|exact E]; done|]. destruct rest as [|q rest]; [eapply Hret; [..|exact E]; done|].
    apply bind_cases in E as [(e & [_ [t' [=]]]%clock_step & _)|(t' & w3 & [H3 _]%clock_step & E)].
    destruct (fleb _ _); [eapply Hret; [..|exact E]; [done|congruence]|].
    unfold aclose in E. apply bind_cases in E as [(e & [=] & _)|([] & w4 & [= <-] & E)].
    apply (loop_done_cons p (q :: rest) s s' w (close_response resp w3)); [done| | | |by apply IH].
    + rewrite H1 in H2. rewrite (close_closes resp w3 (opened w)); [done|congruence].
    + apply al_set_key.
    + intros i Hi. destruct o as [|[| |]]; try done. by eapply errors_kept.
  - set (s' := MkLoop _ _ _) in E.
    assert (forall w3, opened w3 = opened w -> (w3, Err (OpenAIProxyExecutionError (lp_attempted s') (lp_errors s') (lp_last s'))) = (w', o) ->
      loop_done (p :: rest) s w w' o) as Hfail.
    { intros w3 H3 [= <- <-]. destruct (failed_now s' w3 p rest s) as [_ Hk]; [done|apply al_set_key|]. by split. }
    destruct rest as [|q rest]; [apply (Hfail w2); [congruence|exact E]|].
    apply bind_cases in E as [(e & [_ [t' [=]]]%clock_step & _)|(t' & w3 & [H3 _]%clock_step & E)].
    destruct (fltb _ _); [|apply (Hfail w3); [congruence|exact E]].
    apply (loop_done_cons p (q :: rest) s s' w w3); [done|congruence|apply al_set_key| |by apply IH].
    intros i Hi. destruct o as [|[| |]]; try done. by eapply errors_kept.
  - injection E as <- <-. simpl. congruence.
Qed.

Lemma execute_done rq providers (w w' : F) o :
  execute_openai_with_fallback build_url rq providers w = (w', o) ->
  loop_done (providers_with_openai_urls providers (Z.min (px_max_attempts rq) DEFAULT_OPENAI_MAX_ATTEMPTS))
    (MkLoop [] [] None) w w' o.
Proof.
  intros E. unfold execute_openai_with_fallback in E. destruct (_ <? 1); [by injection E as <- <-|].
  destruct (fleb _ _); [by injection E as <- <-|].
  apply bind_cases in E as [(e & [_ [t [=]]]%clock_step & _)|(t & w1 & [H1 _]%clock_step & E)].
  apply attempts_done in E. unfold loop_done in *. by rewrite H1 in E.
Qed.

(** A pass-through request is sent to at most three providers, in the order
    of the chain, and leaves exactly one response open, the one it returns:
    every other response was closed and every request that was not answered is
    named in the error, whatever the upstreams do and however the clock runs. *)
Theorem openai_fallback_outcome rq providers (w w' : F) o :
  execute_openai_with_fallback build_url rq providers w = (w', o) ->
  let eligible := providers_with_openai_urls providers (Z.min (px_max_attempts rq) DEFAULT_OPENAI_MAX_ATTEMPTS) in
  (length eligible <= 3)%nat /\
  match o with
  | Ok res =>
      opened w' = opened w ++ [pr_response res] /\
      exists k, eligible !! k = Some (pr_provider res) /\ pr_attempted res = p_id <$> take (S k) eligible
  | Err (OpenAIProxyExecutionError attempted errors _) =>
      opened w' = opened w /\
      exists k, attempted = p_id <$> take k eligible /\ forall i, i ∈ attempted -> i ∈ errors.*1
  | Err _ => opened w' = opened w
  end.
Proof.
  intros E eligible. split.
  { unfold eligible, providers_with_openai_urls, DEFAULT_OPENAI_MAX_ATTEMPTS. rewrite length_take. lia. }
  apply execute_done in E. fold eligible in E. destruct o as [res|[| |at' er ca]]; [done..|].
  destruct E as (Ho & k & Hat & Her). split; [done|]. exists k. split; [done|]. rewrite Hat. exact Her.
Qed.
End Executed.

(** What every look at the clock, request and close keeps, an execution keeps. *)
Section Keeping.
Context {F R : Type} `{OpenAIUpstream F R} (build_url : string -> string -> py string).
Context (K : F -> F -> Prop) `{!PreOrder K}.
Context (Kclock : forall w, K w (perf_counter w).1) (Ksend : forall url t w, K w (send_request url t w).1)
  (Kclose : forall r w, K w (close_response r w)).

Lemma keeps_clock_now : keeps K clock_now.
Proof. intros w. unfold clock_now. specialize (Kclock w). by destruct (perf_counter w). Qed.
Lemma keeps_send rq p t : keeps K (send_until_headers build_url rq p t).
Proof.
  unfold send_until_headers. destruct (openai_base_url_for_provider _) as [base|]; [|by intros w].
  apply keeps_bind; [by intros w|]. intros url w. unfold do_send. specialize (Ksend url t w). by destruct (send_request _ _ _).
Qed.
Lemma keeps_result started s p status r : keeps K (proxy_result started s p status r).
Proof. unfold proxy_result. apply keeps_bind; [apply keeps_clock_now|]. by intros t w. Qed.
Lemma keeps_attempts rq started deadline eligible : forall s, keeps K (proxy_attempts build_url rq started deadline eligible s).
Proof.
  induction eligible as [|p rest IH]; intros s; simpl; [by intros w|].
  apply keeps_bind; [apply keeps_clock_now|]. intros t. destruct (fleb _ _); [by intros w|].
  apply keeps_bind; [apply keeps_send|]. intros o. destruct o as [status r|msg|ty msg]; [| |by intros w].
  - destruct (negb _); [apply keeps_result|]. destruct rest as [|q rest]; [apply keeps_result|].
    apply keeps_bind; [apply keeps_clock_now|]. intros t'. destruct (fleb _ _); [apply keeps_result|].
    apply keeps_bind; [intros w; apply Kclose|]. intros _. apply IH.
  - destruct rest as [|q rest]; [by intros w|]. apply keeps_bind; [apply keeps_clock_now|]. intros t'.
    destruct (fltb _ _); [apply IH|by intros w].
Qed.
Lemma keeps_execute rq providers : keeps K (execute_openai_with_fallback build_url rq providers).
Proof.
  unfold execute_openai_with_fallback. destruct (_ <? 1); [by intros w|]. destruct (fleb _ _); [by intros w|].
  apply keeps_bind; [apply keeps_clock_now|]. intros t. apply keeps_attempts.
Qed.
End Keeping.

(** ** Examples *)
Module ChainSim.
(** Answers by URL, a clock that advances a tenth of a second per look, and
    the open responses, named by their URL. *)
Record world : Type := MkWorld { answers : list (string * send_outcome string); ticks : Z; open_responses : list string }.
#[global] Instance upstream : OpenAIUpstream world string := {|
  perf_counter w := (MkWorld (answers w) (ticks w + 1) (open_responses w), of_dec (Dec (ticks w) (-1)));
  send_request url _ w :=
    let o := default (NoHeaders "connect error") (al_get url (answers w)) in
    (MkWorld (answers w) (ticks w) (match o with Headers _ r => open_responses w ++ [r] | _ => open_responses w end), o);
  close_response r w := MkWorld (answers w) (ticks w) (removelast (open_responses w));
|}.
#[global] Instance lawful : LawfulUpstream open_responses.
Proof. split; [done| |]; [by intros; simpl; destruct (default _ _)|]. intros r w l H. simpl. rewrite H. apply removelast_last. Defined.

Definition provider (i : string) (prio : Z) (t : ProviderType) (config : dict) : Provider :=
  MkProvider i "cap" i t (Some i) None None None config prio true "healthy" 0 0 None None fzero
    (Some (utc 10000000)) "api" None (utc 0).
Definition chain_ids (ps : list Provider) (now : option datetime) : py (list string) :=
  rmap (fun c => ca_provider_id <$> chain_attempts c) (resolve_openai_provider_chain (utc 0) (map PModel ps) None 3 now).
Definition providers : list Provider :=
  [provider "c" 3 SERVERLESS_QUEUE []; provider "a" 1 SERVERLESS_LB [("fallbacks", VList [VStr "d"])];
   provider "b" 2 PUBLIC_ENDPOINT []; provider "d" 4 SERVERLESS_QUEUE []; provider "pod" 0 POD_LEASE []].

Example fallbacks_first_ex : chain_ids providers None = Ok ["a"; "d"; "b"].
Proof. vm_compute. reflexivity. Qed.
(** Only a caller that passes a time leaves cooling providers out. *)
Example cooldown_needs_a_time : chain_ids providers (Some (utc 5)) = Ok [].
Proof. vm_compute. reflexivity. Qed.

Definition url (base path : string) : py string := Ok (base +:+ "/" +:+ path).
Definition busy : world :=
  MkWorld [("https://a.api.runpod.ai/openai/v1/m", Headers 503 "a"); ("https://api.runpod.ai/v2/b/openai/v1/m", Headers 200 "b")]
    0 [].
Definition run (w : world) : world * result proxy_error OpenAIProxyResult :=
  execute_openai_with_fallback url (MkProxyRequest "m" (of_Z 5) 3)
    [provider "a" 1 SERVERLESS_LB []; provider "x" 1 SERVERLESS_QUEUE []; provider "b" 2 PUBLIC_ENDPOINT []] w.
Example second_answers_ex :
  (let '(w, o) := run busy in (open_responses w, match o with Ok r => Some (pr_status r, pr_attempted r) | Err _ => None end))
  = (["b"], Some (200, ["a"; "x"; "b"])).
Proof. vm_compute. reflexivity. Qed.
End ChainSim.

Lemma openai_chain_sound_witness :
  exists c, resolve_openai_provider_chain (utc 0) (map PModel ChainSim.providers) None 3 None = Ok c /\
    NoDup (ca_provider_id <$> chain_attempts c) /\ Z.of_nat (length (ca_provider_id <$> chain_attempts c)) <= Z.min 3 3.
Proof.
  destruct (resolve_openai_provider_chain (utc 0) (map PModel ChainSim.providers) None 3 None) as [c|] eqn:E;
    [|exfalso; by vm_compute in E].
  exists c. split; [done|].
  destruct (openai_chain_sound (utc 0) (map PModel ChainSim.providers) None 3 None c E) as (_ & _ & H1 & H2 & _). done.
Defined.

Lemma openai_fallback_outcome_witness :
  exists w' res, ChainSim.run ChainSim.busy = (w', Ok res) /\ ChainSim.open_responses w' = [] ++ [pr_response res].
Proof.
  destruct (ChainSim.run ChainSim.busy) as [w' [res|e]] eqn:E; [|exfalso; by vm_compute in E].
  exists w', res. split; [done|].
  destruct (openai_fallback_outcome ChainSim.url ChainSim.open_responses (MkProxyRequest "m" (of_Z 5) 3)
    [ChainSim.provider "a" 1 SERVERLESS_LB []; ChainSim.provider "x" 1 SERVERLESS_QUEUE [];
     ChainSim.provider "b" 2 PUBLIC_ENDPOINT []] ChainSim.busy w' (Ok res) E) as (_ & H & _). exact H.
Defined.
