(* ===== verification/OpenAIUrl.v ===== *)
(** * Proxy paths ([routing/openai.py], [build_openai_url])

    The path of a pass-through request is chosen by the consumer and joined to
    the base URL of a provider. *)

From Stdlib Require Import Ascii.
From S2P Require Import Prelude PyDecimal PyValue PyJson PyFormat PyUrl OpenAIChain.

(** Definitions *)

(** ** The URL of an attempt *)

Section Url.
Context (check_netloc : string -> py unit).
Abbreviation urlsplit := (urlsplit check_netloc).

Definition path_error {A} : py A := Err (ValueError "OpenAI proxy path must be a normalized relative path").

(** [_raise_for_unsafe_openai_path] *)
Definition raise_for_unsafe_openai_path (path : string) (allow_leading_slash : bool) : py unit :=
  let? parsed := urlsplit path in
  if has_char "\"%char path || startswith "//" path || nonempty (sp_scheme parsed) || nonempty (sp_netloc parsed)
  then path_error
  else if negb allow_leading_slash && startswith "/" path then path_error else Ok tt.

Definition is_slash (c : ascii) : bool := Ascii.eqb c "/"%char.

(** The path as it is appended to the base. *)
Definition relative_path (path : string) : py split_result :=
  let? _ := raise_for_unsafe_openai_path path true in
  let path := drop_while is_slash path in
  let path := if startswith "v1/" path then string_drop 3 path else path in
  let? _ := raise_for_unsafe_openai_path path false in
  let? parsed := urlsplit path in
  let decoded := unquote (sp_path parsed) in
  if startswith "//" decoded || existsb dots (split_on "/"%char decoded) then path_error
  else
    let normalized := normpath (sp_path parsed) in
    let normalized := if String.eqb normalized "." then EmptyString else normalized in
    if startswith "/" normalized || String.eqb normalized ".." || startswith "../" normalized then path_error
    else Ok (MkSplit EmptyString EmptyString normalized (sp_query parsed) (sp_fragment parsed)).

(** [build_openai_url] *)
Definition build_openai_url (openai_base_url path : string) : py string :=
  let? rel := relative_path path in
  let? base := urlsplit (rstrip_slash openai_base_url +:+ "/") in
  let target := rstrip_slash (sp_path base) +:+ "/" +:+ sp_path rel in
  Ok (urlunsplit (MkSplit (sp_scheme base) (sp_netloc base) target (sp_query rel) (sp_fragment rel))).

(** [validate_openai_proxy_path] *)
Definition validate_openai_proxy_path (path : string) : py unit :=
  let? _ := build_openai_url "https://validation.invalid/v1" path in Ok tt.
End Url.

(** Lemmas *)

Definition clear (seg : string) : Prop :=
  nonempty seg = true /\ all_chars (isnt "/") seg = true /\ all_chars (isnt "?") seg = true /\
  all_chars (isnt "#") seg = true /\ all_chars (isnt "\") seg = true.
Definition climbs (seg : string) : bool := existsb dots (split_on "/"%char (unquote seg)).

Lemma climbs_dots seg : climbs seg = false -> dots seg = false.
Proof.
  unfold climbs, dots. destruct (String.eqb_spec seg ".") as [->|_]; [done|]. by destruct (String.eqb_spec seg "..") as [->|_].
Qed.
Lemma clean_segments s : existsb dots (split_on "/"%char (unquote s)) = false ->
  Forall (fun seg => climbs seg = false) (split_on "/"%char s).
Proof.
  rewrite split_unquote, existsb_concat. generalize (split_on "/"%char s). intros segs.
  induction segs as [|seg segs IH]; simpl; [done|]. intros [H1 H2]%orb_false_iff. constructor; [done|by apply IH].
Qed.
Lemma rooted_slash s : nonempty (initial_slashes s) = true -> exists t, initial_slashes s = String "/" t.
Proof.
  unfold initial_slashes. destruct (startswith _ s); [by exists EmptyString|]. destruct (startswith _ s); [by exists "/"|].
  destruct (startswith _ s); [by exists EmptyString|done].
Qed.

(** A path that does not climb is joined from its non-empty segments. *)
Lemma normpath_relative s : Forall (fun seg => dots seg = false) (split_on "/"%char s) ->
  startswith "/" (normpath s) = false -> normpath s <> "." ->
  normpath s = String.concat "/" (filter (fun seg => nonempty seg = true) (split_on "/"%char s)).
Proof.
  intros H. unfold normpath. rewrite norm_steps by done. rewrite app_nil_l.
  destruct (nonempty (initial_slashes s)) eqn:E.
  - destruct (rooted_slash _ E) as (t & ->).
    intros Hs. exfalso. revert Hs. generalize (String.concat "/" (filter (fun seg => nonempty seg = true) (split_on "/"%char s))).
    intros x. change (String "/" t +:+ x) with (String "/" (t +:+ x)). simpl. by destruct (t +:+ x).
  - destruct (initial_slashes s); [|done]. rewrite app_nil_s. by destruct (nonempty (String.concat _ _)).
Qed.

Section Built.
Context (check_netloc : string -> py unit).

Lemma raise_safe path allow : raise_for_unsafe_openai_path check_netloc path allow = Ok tt ->
  all_chars (isnt "\") path = true.
Proof.
  unfold raise_for_unsafe_openai_path. intros (p & _ & H)%rbind_Ok. apply no_char. by destruct (has_char "\" path).
Qed.

Lemma relative_segments path rel : relative_path check_netloc path = Ok rel ->
  exists segs, sp_path rel = String.concat "/" segs /\ Forall (fun seg => clear seg /\ climbs seg = false) segs.
Proof.
  unfold relative_path. intros ([] & H1%raise_safe & H)%rbind_Ok. apply rbind_Ok in H as ([] & _ & H).
  set (p := if startswith "v1/" _ then _ else _) in H.
  assert (all_chars (isnt "\") p = true) as Hp.
  { unfold p. destruct (startswith _ _); [apply all_drop|]; by apply all_drop_while. }
  apply rbind_Ok in H as (parsed & (Hhash & Hquery & Hall & _)%urlsplit_parts & H).
  destruct (_ || existsb _ _) eqn:Ed; [done|]. apply orb_false_iff in Ed as [_ Hclimb%clean_segments].
  set (n := if String.eqb _ "." then _ else _) in H.
  destruct (_ || startswith "../" n) eqn:En; [done|]. injection H as <-. simpl.
  apply orb_false_iff in En as [[Hs _]%orb_false_iff _]. unfold n in *.
  destruct (String.eqb_spec (normpath (sp_path parsed)) ".") as [E|E]; [by exists []|].
  eexists. split; [apply normpath_relative; [|done..]|].
  - eapply Forall_impl; [exact Hclimb|]. apply climbs_dots.
  - apply Forall_forall. intros seg [Hne Hin]%list_elem_of_filter.
    assert (forall f, all_chars f (sp_path parsed) = true -> all_chars f seg = true) as Hf.
    { intros f Hf%(all_segments f "/"). by apply (Forall_forall (fun x => all_chars f x = true)) with (x := seg) in Hf. }
    split; [|by apply (Forall_forall (fun x => climbs x = false)) with (x := seg) in Hclimb].
    pose proof (segments_no_sep "/" (sp_path parsed)) as Hsep.
    apply (Forall_forall (fun x => all_chars (isnt "/") x = true)) with (x := seg) in Hsep; [|done].
    unfold clear. split_and!; auto.
Qed.
End Built.

Lemma rstrip_slash_starts t : rstrip_slash (String "/" t) = EmptyString \/ exists u, rstrip_slash (String "/" t) = String "/" u.
Proof. simpl. destruct (rstrip_slash t); [by left|right; by eexists]. Qed.

Lemma starts_own c t : startswith (String c EmptyString) (String c t) = true.
Proof. simpl. destruct (ascii_dec c c); [|done]. by destruct t. Qed.
Lemma append_if (c : bool) (u v : string) : (if c then u +:+ v else u) = u +:+ (if c then v else EmptyString).
Proof. destruct c; [done|]. by rewrite app_nil_r_s. Qed.

Section Property.
Context (check_netloc : string -> py unit).

(** C38: The URL of an attempt is the scheme, the authority and the path of the
    provider's base URL, then segments of the consumer's path, then a query or
    fragment: no segment is empty, holds a delimiter or a backslash, or
    becomes a dot segment when its quoting is undone once, so whatever the
    consumer sends, the request stays below the base of the provider. *)
Theorem proxied_url_stays_under_base base path url b :
  urlsplit check_netloc (rstrip_slash base +:+ "/") = Ok b ->
  nonempty (sp_scheme b) = true -> nonempty (sp_netloc b) = true ->
  build_openai_url check_netloc base path = Ok url ->
  exists segs rest,
    url = sp_scheme b +:+ "://" +:+ sp_netloc b +:+ rstrip_slash (sp_path b) +:+ "/" +:+ String.concat "/" segs +:+ rest /\
    Forall (fun seg => clear seg /\ climbs seg = false) segs /\
    (rest = EmptyString \/ startswith "?" rest = true \/ startswith "#" rest = true).
Proof.
  intros Hb Hsch Hnet. unfold build_openai_url. intros (rel & Hrel & H)%rbind_Ok. rewrite Hb in H. simpl in H. injection H as <-.
  apply relative_segments in Hrel as (segs & -> & Hsegs).
  assert (exists t, rstrip_slash (sp_path b) +:+ "/" +:+ String.concat "/" segs = String "/" t) as (t & Ht).
  { destruct (urlsplit_parts _ _ _ Hb) as (_ & _ & _ & Hstart). destruct (Hstart Hnet) as [->|(t & ->)]; [eexists; reflexivity|].
    destruct (rstrip_slash_starts t) as [->|(u & ->)]; eexists; reflexivity. }
  set (q := if nonempty (sp_query rel) then "?" +:+ sp_query rel else EmptyString).
  set (f := if nonempty (sp_fragment rel) then "#" +:+ sp_fragment rel else EmptyString).
  exists segs, (q +:+ f). split; [|split; [done|]].
  - unfold urlunsplit. cbn [sp_scheme sp_netloc sp_path sp_query sp_fragment]. rewrite Hsch, Hnet, Ht.
    rewrite (starts_own "/" t). rewrite andb_false_r. rewrite !append_if. fold q f.
    rewrite <- Ht. by rewrite !app_assoc_s.
  - unfold q, f. destruct (nonempty (sp_query rel)); [right; left; apply starts_own|].
    destruct (nonempty (sp_fragment rel)); [right; right; apply starts_own|by left].
Qed.
End Property.

Module UrlSim.
Definition plain_netloc (s : string) : py unit := Ok tt.
Definition at_endpoint (path : string) : py string :=
  build_openai_url plain_netloc "https://api.runpod.ai/v2/ep/openai/v1" path.
Definition accepted (path : string) : option string := match at_endpoint path with Ok u => Some u | Err _ => None end.

Example chat_ex : accepted "/chat/completions?x=1" = Some "https://api.runpod.ai/v2/ep/openai/v1/chat/completions?x=1".
Proof. vm_compute. reflexivity. Qed.
Example v1_ex : accepted "v1/chat/completions" = Some "https://api.runpod.ai/v2/ep/openai/v1/chat/completions".
Proof. vm_compute. reflexivity. Qed.
Example refused_ex :
  map accepted ["../admin"; "a/../../x"; "%2e%2e/x"; "a%2f..%2fx"; "//evil.test/x"; "https://evil.test/x"; "a\b"; "v1//evil"; " /x"]
  = repeat None 9.
Proof. vm_compute. reflexivity. Qed.
(** One level of quoting is undone, not two. *)
Example double_quoted_ex : accepted "%252e%252e/x" = Some "https://api.runpod.ai/v2/ep/openai/v1/%252e%252e/x".
Proof. vm_compute. reflexivity. Qed.

End UrlSim.

Lemma proxied_url_stays_under_base_witness :
  exists segs rest,
    "https://api.runpod.ai/v2/ep/openai/v1/chat/completions?x=1" =
      "https" +:+ "://" +:+ "api.runpod.ai" +:+ "/v2/ep/openai/v1" +:+ "/" +:+ String.concat "/" segs +:+ rest /\
    Forall (fun seg => clear seg /\ climbs seg = false) segs /\
    (rest = EmptyString \/ startswith "?" rest = true \/ startswith "#" rest = true).
Proof.
  apply (proxied_url_stays_under_base UrlSim.plain_netloc "https://api.runpod.ai/v2/ep/openai/v1" "/chat/completions?x=1"
    "https://api.runpod.ai/v2/ep/openai/v1/chat/completions?x=1"
    (MkSplit "https" "api.runpod.ai" "/v2/ep/openai/v1/" EmptyString EmptyString)); vm_compute; reflexivity.
Defined.
