(* ===== verification/OpenAIProxy.v ===== *)
(** * The pass-through route ([api/routes/openai.py])

    [openai_proxy] from the path to the response: the path is checked, the
    chain of providers resolved, the budget asked, the request sent through
    the chain, and the workload's row moved along.  Every database statement
    commits on its own and a failing transition is only logged.  [ProxyDeps]
    is the HTTP client, its responses, the clocks and the tracer; reading the
    registry, which may itself fail, is the lookup of a snapshot. *)

From Stdlib Require Import Ascii SpecFloat.
From S2P Require Import Registry.
From S2P Require Import Prelude PyDecimal PyFloat PyValue PyEq PyFormat PyTime PyJsonRead PyOrder.
From S2P Require Import Effects Enums Provider Estimator WorkloadStore BudgetGate GateTable OpenAIChain OpenAIUrl.

(** Definitions *)

(** ** What the route reads of the registry *)

(** [CapabilityRepository.get_by_name] *)
Definition get_by_name (reg : registry) (name : string) : option Capability :=
  snd <$> find_first (fun kv => String.eqb (c_name kv.2) name) (map_to_list (capabilities reg)).
(** [ProviderRepository.list] of the enabled providers of a capability. *)
Definition list_enabled (reg : registry) (capability_id : string) (limit : nat) : list Provider :=
  let rows := filter (fun p => p_capability_id p = capability_id /\ p_enabled p = true) (snd <$> map_to_list (providers reg)) in
  take limit (sort_by (less (tuple_key [by_ p_priority Z.compare; by_ p_name String.compare])) rows).

(** ** The request *)

(** A request, its headers as [dict(request.headers)]. *)
Record proxy_http : Type := MkProxyHttp {
  ph_capability : string; ph_path : string; ph_method : string; ph_query : string;
  ph_headers : list (string * string); ph_body : string }.

(** What is sent of it to a provider. *)
Record forwarded : Type := MkForwarded { fw_method : string; fw_headers : list (string * string); fw_body : string }.
Definition forwarded_headers (rq : proxy_http) : list (string * string) :=
  al_set "x-pitwall-trace" "openai-proxy"
    (al_set "x-pitwall-capability" (ph_capability rq) (al_del "host" (ph_headers rq))).
Definition forward_of (rq : proxy_http) : forwarded := MkForwarded (ph_method rq) (forwarded_headers rq) (ph_body rq).

(** [_path_with_query] *)
Definition path_with_query (rq : proxy_http) : string :=
  if nonempty (ph_query rq) then ph_path rq +:+ "?" +:+ ph_query rq else ph_path rq.

(** [_estimate_payload_from_body] *)
Definition input_bytes (body : string) : pyval := VInt (Z.of_nat (String.length body)).
Definition estimate_payload_from_body (body : string) : result json_error dict :=
  if negb (nonempty body) then Ok []
  else match loads body with
       | Err JSONDecodeError => Ok [("input_bytes", input_bytes body)]
       | Err e => Err e
       | Ok (VDict m) => Ok m
       | Ok v => Ok [("input", v); ("input_bytes", input_bytes body)]
       end.

(** The providers of a drill. *)
Definition drilled (rq : proxy_http) (ps : list Provider) : list Provider :=
  if String.eqb (lower (default EmptyString (al_get "x-pitwall-drill" (forwarded_headers rq)))) "skip-primary" &&
     (1 <? Z.of_nat (length ps))
  then drop 1 ps else ps.

Inductive route_error :=
| InvalidProxyPath
| CapabilityNotFound (name : string)
| ProviderUnavailable (name : string) (chain : list string)
| RouteExn (e : exn)
| RouteJson (e : json_error)
| RouteBudget (e : gate_error unit)
| RouteEscaped (type_name message : string).

(** [_resolve_provider_chain]: no time is passed on. *)
Definition model_of (p : ProviderLike) : option Provider := match p with PModel p => Some p | PMap _ => None end.
Definition chain_models (attempts : list OpenAIChainAttempt) : list Provider :=
  omap (fun a => model_of (ca_provider a)) attempts.
Definition resolve_provider_chain (reg : registry) (name : string) : result route_error (Capability * list Provider) :=
  match get_by_name reg name with
  | None => Err (CapabilityNotFound name)
  | Some c =>
      let? chain := rlift RouteExn (resolve_openai_provider_chain (utc 0) (PModel <$> list_enabled reg (c_id c) 100) None
                                      DEFAULT_OPENAI_MAX_ATTEMPTS None) in
      match chain_attempts chain with
      | [] => Err (ProviderUnavailable name [])
      | attempts => Ok (c, chain_models attempts)
      end
  end.

(** [_quote_proxy_cost] and its upper bound. *)
Definition quote_proxy_cost (c : Capability) (p : Provider) (body : string) : result route_error dec :=
  let? payload := rlift RouteJson (estimate_payload_from_body body) in
  rlift RouteExn (let? q := quote_cost (MkCapabilityCost (c_cost_mode c) (cd_execution_timeout_ms (c_defaults c)))
                              (InLike (PMap (p_config p))) payload in
                  quote_upper_bound q).

(** ** The outside *)

Class ProxyDeps (F R : Type) := {
  utc_clock : F -> F * datetime;
  perf_clock : F -> F * float;
  open_client : F -> F;
  close_client : F -> F;
  send : forwarded -> string -> float -> F -> F * send_outcome R;
  close_upstream : R -> F -> F;
  emit_trace : string -> F -> F * option string;       (* its status *)
  response_header : R -> string -> option string;
  response_headers : R -> list (string * string);
}.
Definition upstream_of {F R} `{ProxyDeps F R} (fw : forwarded) : OpenAIUpstream F R :=
  {| perf_counter := perf_clock; send_request := send fw; close_response := close_upstream |}.

Record streaming_response (R : Type) : Type := MkStreaming {
  sr_upstream : R; sr_status : Z; sr_headers : list (string * string) }.
Arguments MkStreaming {R}.
Arguments sr_upstream {R}.
Arguments sr_status {R}.
Arguments sr_headers {R}.

(** How the upstream's body ends. *)
Inductive stream_end := StreamEnded | StreamFailed | StreamCancelled.

Section Route.
Context {F R : Type} `{ProxyDeps F R} (check_netloc : string -> py unit).
Context (month_start : Z -> Z) (constraints_ok : workload_row -> bool).
Abbreviation op := (eff (table_world F) route_error).

(** [_content_length] *)
Definition content_length (r : R) : Z :=
  match response_header r "content-length" with
  | None => 0
  | Some s => match py_int (VStr s) with Ok n => n | Err _ => 0 end
  end.
(** [_is_sse_response] *)
Definition is_sse_response (r : R) : bool :=
  str_contains "text/event-stream" (default EmptyString (response_header r "content-type")).

(** [_relay_upstream_bytes]: the chunks sent on, then both ends are closed. *)
Definition SSE_STREAM_ERROR_EVENT : string :=
  "data: {" +:+ String quote ("error" +:+ String quote (":" +:+ String quote ("upstream stream failure" +:+
    String quote ("}" +:+ String (ascii_of_nat 10) (String (ascii_of_nat 10) EmptyString))))).
Definition relay_upstream_bytes (r : R) (chunks : list string) (ending : stream_end) (o : F) : F * list string :=
  (close_client (close_upstream r o),
   chunks ++ match ending with
             | StreamFailed => if is_sse_response r then [SSE_STREAM_ERROR_EVENT] else []
             | _ => []
             end).

Definition do_outside (f : F -> F) : op unit := fun w => (MkTableWorld (tw_db w) (f (tw_outside w)), Ok tt).

(** [try_launch_admission] *)
Definition proxy_admission (g : BudgetGate) (c : Capability) (p : Provider) (upper : dec) (new_id : string)
  : op BudgetAdmission :=
  do! clock := from_outside utc_clock in
  fun w =>
    let '(db, r) := admit_row month_start constraints_ok g clock (c_id c) (p_id p) (EBound (VDec (DFin upper)))
                      "openai_passthrough" None None new_id (tw_db w) in
    (MkTableWorld db (tw_outside w), rlift RouteBudget r).

(** A transition whose exceptions are logged. *)
Definition best_effort (f : datetime -> workload_db -> result store_error (workload_db * option dict)) : op unit :=
  do! now := from_outside utc_clock in
  fun w => (MkTableWorld (match f now (tw_db w) with Ok (db, _) => db | Err _ => tw_db w end) (tw_outside w), Ok tt).

Definition execution_ms (started : float) : op Z :=
  do! t := from_outside perf_clock in lift (rlift RouteExn (py_int (VFloat (fmul (fsub t started) (of_Z 1000))))).

(** The error a failed workload keeps. *)
Definition failure_payload (attempted : list string) (errors : list (string * string)) : dict :=
  [("error", VStr "openai proxy upstream request failed before response headers");
   ("attempted_providers", VList (VStr <$> attempted));
   ("attempted_errors", VDict ((fun kv => (kv.1, VStr kv.2)) <$> errors))].

(** The [except OpenAIProxyExecutionError] of the handler. *)
Definition all_failed {A} (name i : string) (started : float) (attempted : list string) (errors : list (string * string)) : op A :=
  do_outside close_client ;!
  do! ms := execution_ms started in
  do! _ := from_outside (emit_trace "error") in
  best_effort (fun now db => transition_to_failed db now i (Some ms) (Some (failure_payload attempted errors))
                               (Some (VStr <$> attempted)) None) ;!
  fail (ProviderUnavailable name attempted).

(** From the upstream's response headers on. *)
Definition answer_headers (name i : string) (res : OpenAIProxyResult (R:=R)) (trace : option string) : list (string * string) :=
  let hs := al_set "X-Pitwall-Provider-ID" (p_id (pr_provider res))
              (al_set "X-Pitwall-Capability" name (al_set "X-Pitwall-Workload-ID" i (response_headers (pr_response res)))) in
  match trace with Some t => al_set "X-Pitwall-Trace" t hs | None => hs end.
Definition answer (name i : string) (started : float) (res : OpenAIProxyResult (R:=R)) : op (streaming_response R) :=
  let r := pr_response res in
  do! ms := execution_ms started in
  do! trace := from_outside (emit_trace (if pr_status res <? 500 then "success" else "error")) in
  best_effort (fun now db => transition_to_completed db now i (Some ms) (Some (content_length r)) None
                               (Some (VStr <$> pr_attempted res)) None) ;!
  ret (MkStreaming r (pr_status res) (answer_headers name i res trace)).

(** From the admission of the workload on. *)
Definition DEFAULT_OPENAI_FALLBACK_BUDGET_S : float := of_Z 5.
Definition proxy_admitted (rq : proxy_http) (ps : list Provider) (started : float) (i : string) : op (streaming_response R) :=
  do_outside open_client ;!
  best_effort (fun now db => transition_to_running db now i None) ;!
  do! outcome := from_outside (execute_openai_with_fallback (H := upstream_of (forward_of rq)) (build_openai_url check_netloc)
                                 (MkProxyRequest (path_with_query rq) DEFAULT_OPENAI_FALLBACK_BUDGET_S 3) ps) in
  match outcome with
  | Ok res => answer (ph_capability rq) i started res
  | Err (OpenAIProxyExecutionError attempted errors _) => all_failed (ph_capability rq) i started attempted errors
  | Err (ProxyExn e) => fail (RouteExn e)
  | Err (ProxyEscaped t m) => fail (RouteEscaped t m)
  end.

(** [openai_proxy] *)
Definition openai_proxy (g : BudgetGate) (reg : registry) (rq : proxy_http) (new_id : string) : op (streaming_response R) :=
  do! started := from_outside perf_clock in
  match validate_openai_proxy_path check_netloc (ph_path rq) with
  | Err (ValueError _) => fail InvalidProxyPath
  | Err e => fail (RouteExn e)
  | Ok _ =>
      do! resolved := lift (resolve_provider_chain reg (ph_capability rq)) in
      match drilled rq resolved.2 with
      | [] => fail (ProviderUnavailable (ph_capability rq) [])
      | (p :: _) as ps =>
          do! upper := lift (quote_proxy_cost resolved.1 p (ph_body rq)) in
          do! adm := proxy_admission g resolved.1 p upper new_id in
          proxy_admitted rq ps started (workload_id adm)
      end
  end.
End Route.

(** ** What a request leaves behind *)

(** A figure its column takes and the model reads back. *)
Definition count_fits (n : Z) : bool := (0 <=? n) && (n <? 2 ^ 31).
Definition chain_of (attempted : list string) : pyval := opt_chain (Some (VStr <$> attempted)).

(** Lemmas *)

Definition not_blank (s : string) : Prop := nonempty (strip s) = true.

(** *** The transitions of an admitted row *)

Lemma guarded_case db i row from to patch :
  workloads db !! i = Some row -> state_of row = from -> "state" ∉ patch.*1 ->
  guarded_transition db i [from] to patch =
  let row' := assign row (("state", VStr to) :: patch) in
  if forallb column_accepts (("state", VStr to) :: patch)
  then if row_constraints row'
       then if workload_valid row' then Ok (set_workload db i row', Some row') else Err ModelValidationError
       else Err ConstraintViolation
  else Err DataError.
Proof.
  intros Hrow Hs Hp. unfold guarded_transition. rewrite Hrow, (bool_decide_false ("state" ∈ _)), (bool_decide_false ([from] = [])) by done.
  simpl orb. cbv iota. destruct (forallb _ _); [|done]. simpl negb. cbv iota.
  rewrite bool_decide_true by (rewrite Hs; set_solver). cbv zeta. destruct (row_constraints _); [|done].
  simpl negb. cbv iota. unfold workload_from_row. by destruct (workload_valid _).
Qed.

Section Rows.
Context (i cap prov : string) (z sub : Z).
Definition pass_row : workload_row := MkRow i cap prov "openai_passthrough" QUEUED (Some z) None sub None.
Definition running_row (t : datetime) : dict :=
  assign (admitted_dict pass_row) [("state", VStr "running"); ("started_at", VTime t)].

Lemma running_constraints t : row_constraints (running_row t) = negb (dltb (micro z) dzero) && true.
Proof. reflexivity. Qed.
Definition ids_valid : bool :=
  nonempty (strip i) && (nonempty (strip cap) && (nonempty (strip prov) && true)).
Lemma running_valid t : workload_valid (running_row t) = ids_valid && true && true.
Proof. reflexivity. Qed.

Definition completed_row (t t' : datetime) (ms n : Z) (chain : pyval) : dict :=
  assign (running_row t) [("state", VStr "completed"); ("completed_at", VTime t'); ("execution_ms", VInt ms);
    ("output_bytes", VInt n); ("result", VNone); ("fallback_chain", chain); ("langfuse_trace_id", VNone)].
Definition failed_row (t t' : datetime) (ms : Z) (error : dict) (chain : pyval) : dict :=
  assign (running_row t) [("state", VStr "failed"); ("completed_at", VTime t'); ("execution_ms", VInt ms);
    ("error", VDict error); ("fallback_chain", chain); ("langfuse_trace_id", VNone)].
Definition chain_valid (chain : pyval) : bool :=
  match chain with
  | VList l => forallb (fun v => match as_str v with Some s => nonempty (strip s) | None => false end) l
  | _ => true
  end.
Lemma completed_constraints t t' ms n chain : row_constraints (completed_row t t' ms n chain) = negb (dltb (micro z) dzero) && true.
Proof. reflexivity. Qed.
Lemma completed_valid t t' ms n chain :
  workload_valid (completed_row t t' ms n chain) =
  ids_valid && ((0 <=? ms) && ((0 <=? n) && true)) && chain_valid chain.
Proof. reflexivity. Qed.
Lemma failed_constraints t t' ms error chain : row_constraints (failed_row t t' ms error chain) = negb (dltb (micro z) dzero) && true.
Proof. reflexivity. Qed.
Lemma failed_valid t t' ms error chain :
  workload_valid (failed_row t t' ms error chain) = ids_valid && ((0 <=? ms) && true) && chain_valid chain.
Proof. reflexivity. Qed.

Context (Hi : not_blank i) (Hcap : not_blank cap) (Hprov : not_blank prov).
Context (Hz : row_constraints (admitted_dict pass_row) = true).

Lemma cost_kept : negb (dltb (micro z) dzero) && true = true.
Proof. exact Hz. Qed.
Lemma ids_kept : ids_valid = true.
Proof. unfold ids_valid, not_blank in *. by rewrite Hi, Hcap, Hprov. Qed.

Lemma to_running db t :
  workloads db !! i = Some (admitted_dict pass_row) ->
  transition_to_running db t i None = Ok (set_workload db i (running_row t), Some (running_row t)).
Proof.
  intros Hrow. unfold transition_to_running. rewrite (guarded_case _ _ _ _ _ _ Hrow) by (done || set_solver). cbv zeta.
  change (assign _ _) with (running_row t). by rewrite running_constraints, cost_kept, running_valid, ids_kept.
Qed.

Lemma chain_accepted attempted : column_accepts ("fallback_chain", chain_of attempted) = true.
Proof. unfold column_accepts, chain_of. destruct attempted as [|a l]; [done|]. simpl. induction l; [done|]. simpl. exact IHl. Qed.
Lemma chain_reads attempted : Forall not_blank attempted -> chain_valid (chain_of attempted) = true.
Proof.
  intros H. unfold chain_valid, chain_of. destruct H as [|a l Ha Hl]; [done|]. simpl. unfold not_blank in Ha. rewrite Ha. simpl.
  induction Hl as [|b l Hb _ IH]; [done|]. simpl. unfold not_blank in Hb. by rewrite Hb.
Qed.
Lemma count_cases n : encodes CInt (VInt n) && (0 <=? n) = count_fits n.
Proof. unfold count_fits. simpl. apply eq_true_iff_eq. rewrite !andb_true_iff, !Z.leb_le, !Z.ltb_lt. lia. Qed.

Lemma to_completed db t t' ms n attempted :
  workloads db !! i = Some (running_row t) -> Forall not_blank attempted ->
  match transition_to_completed db t' i (Some ms) (Some n) None (Some (VStr <$> attempted)) None with
  | Ok (db', _) => db'
  | Err _ => db
  end = if count_fits ms && count_fits n then set_workload db i (completed_row t t' ms n (chain_of attempted)) else db.
Proof.
  intros Hrow Hch. unfold transition_to_completed. rewrite (guarded_case _ _ _ _ _ _ Hrow) by (done || set_solver). cbv zeta.
  change (assign _ _) with (completed_row t t' ms n (chain_of attempted)).
  rewrite completed_constraints, cost_kept, completed_valid, ids_kept, (chain_reads _ Hch), <- !count_cases.
  change (forallb _ _) with (encodes CInt (VInt ms) && (encodes CInt (VInt n) && (column_accepts ("fallback_chain", chain_of attempted) && true))).
  rewrite chain_accepted. destruct (encodes CInt (VInt ms)), (encodes CInt (VInt n)), (0 <=? ms), (0 <=? n); reflexivity.
Qed.

Lemma to_failed db t t' ms error attempted :
  workloads db !! i = Some (running_row t) -> Forall not_blank attempted ->
  match transition_to_failed db t' i (Some ms) (Some error) (Some (VStr <$> attempted)) None with
  | Ok (db', _) => db'
  | Err _ => db
  end = if count_fits ms then set_workload db i (failed_row t t' ms error (chain_of attempted)) else db.
Proof.
  intros Hrow Hch. unfold transition_to_failed. rewrite (guarded_case _ _ _ _ _ _ Hrow) by (done || set_solver). cbv zeta.
  change (assign _ _) with (failed_row t t' ms error (chain_of attempted)).
  rewrite failed_constraints, cost_kept, failed_valid, ids_kept, (chain_reads _ Hch), <- !count_cases.
  change (forallb _ _) with (encodes CInt (VInt ms) && (column_accepts ("fallback_chain", chain_of attempted) && true)).
  rewrite chain_accepted. destruct (encodes CInt (VInt ms)), (0 <=? ms); reflexivity.
Qed.
End Rows.

(** *** The outside of a request *)

Section Outside.
Context {F R : Type} `{ProxyDeps F R} (check_netloc : string -> py unit).
Context (month_start : Z -> Z) (constraints_ok : workload_row -> bool).
Context (opened : F -> list R) (clients : F -> nat) (quiet : F -> F -> Prop).

(** A response is open from its headers, a client from its creation until it
    is closed; looks at a clock are quiet. *)
Class LawfulProxy : Prop := {
  quiet_preorder :: PreOrder quiet;
  quiet_keeps o o' : quiet o o' -> opened o' = opened o /\ clients o' = clients o;
  utc_quiet o : quiet o (utc_clock o).1;
  perf_quiet o : quiet o (perf_clock o).1;
  open_client_law o : opened (open_client o) = opened o /\ clients (open_client o) = S (clients o);
  close_client_law o : opened (close_client o) = opened o /\ clients (close_client o) = pred (clients o);
  trace_law s o : opened (emit_trace s o).1 = opened o /\ clients (emit_trace s o).1 = clients o;
  send_law fw url t o :
    opened (send fw url t o).1 = match (send fw url t o).2 with Headers _ r => opened o ++ [r] | _ => opened o end /\
    clients (send fw url t o).1 = clients o;
  close_upstream_clients r o : clients (close_upstream r o) = clients o;
  close_upstream_opened r o l : opened o = l ++ [r] -> opened (close_upstream r o) = l;
}.
Context `{!LawfulProxy}.

#[local] Instance upstream_lawful fw : LawfulUpstream (H := upstream_of fw) opened.
Proof.
  split; [intros w; apply (quiet_keeps w), perf_quiet|intros url t w; apply send_law|intros r w l; apply close_upstream_opened].
Qed.

(** *** Steps *)

Lemma raised {A} (r : py A) : match rlift RouteExn r with Ok _ => True | Err e => exists x, e = RouteExn x end.
Proof. destruct r; simpl; [done|by eexists]. Qed.

Lemma best_effort_step f (w w' : table_world F) r : best_effort f w = (w', r) ->
  quiet (tw_outside w) (tw_outside w') /\ r = Ok tt /\
  exists now, tw_db w' = match f now (tw_db w) with Ok (db, _) => db | Err _ => tw_db w end.
Proof.
  unfold best_effort. intros E. apply bind_cases in E as [(e & E & _)|(now & w1 & E & Hk)]; apply outside_step in E as (Hdb & Ho & [= ->]).
  injection Hk as <- <-. cbn [tw_outside tw_db]. rewrite Ho, Hdb. split; [apply utc_quiet|]. split; [done|]. by eexists.
Qed.

Lemma execution_ms_step started (w w' : table_world F) r : execution_ms started w = (w', r) ->
  tw_db w' = tw_db w /\ quiet (tw_outside w) (tw_outside w') /\
  match r with Ok _ => True | Err e => exists x, e = RouteExn x end.
Proof.
  unfold execution_ms. intros E. apply bind_cases in E as [(e & E & _)|(t & w1 & E & Hk)]; apply outside_step in E as (Hdb & Ho & [= ->]).
  injection Hk as <- <-. rewrite Ho, Hdb. split; [done|]. split; [apply perf_quiet|].
  apply raised.
Qed.

(** Whatever the upstream does while its body is relayed. *)
Lemma relay_closes r chunks ending l n (o : F) : opened o = l ++ [r] -> clients o = S n ->
  let o' := (relay_upstream_bytes r chunks ending o).1 in opened o' = l /\ clients o' = n.
Proof.
  intros Hop Hcl. simpl. destruct (close_client_law (close_upstream r o)) as [-> ->].
  rewrite close_upstream_clients, Hcl. split; [by apply close_upstream_opened|done].
Qed.

(** What an execution adds to the open responses. *)
Definition executed (ps : list Provider) (o o' : F) (r : result proxy_error OpenAIProxyResult) : Prop :=
  clients o' = clients o /\
  match r with
  | Ok res => opened o' = opened o ++ [pr_response res]
  | Err _ => opened o' = opened o
  end /\
  match r with
  | Ok res => incl (pr_attempted res) (p_id <$> ps) /\ last (pr_attempted res) = Some (p_id (pr_provider res))
  | Err (OpenAIProxyExecutionError attempted _ _) => incl attempted (p_id <$> ps)
  | Err _ => True
  end.

Lemma eligible_incl ps n k : incl (p_id <$> take k (providers_with_openai_urls ps n)) (p_id <$> ps).
Proof.
  intros i. rewrite <- !list_elem_of_In. intros (p & -> & Hp)%list_elem_of_fmap. apply list_elem_of_fmap. exists p. split; [done|].
  apply subseteq_take in Hp. unfold providers_with_openai_urls in Hp. apply subseteq_take, list_elem_of_filter in Hp. tauto.
Qed.

Lemma execute_step fw rq ps o o' r :
  execute_openai_with_fallback (H := upstream_of fw) (build_openai_url check_netloc) rq ps o = (o', r) -> executed ps o o' r.
Proof.
  intros E. split.
  - assert (PreOrder (fun a b : F => clients b = clients a)) by (split; [by intros ?|intros a b c; congruence]).
    pose proof (keeps_execute (H := upstream_of fw) (build_openai_url check_netloc) (fun a b => clients b = clients a)
      (fun w => proj2 (quiet_keeps _ _ (perf_quiet w))) (fun url t w => proj2 (send_law fw url t w))
      close_upstream_clients rq ps o) as Hc. by rewrite E in Hc.
  - pose proof (execute_done _ opened _ _ _ _ _ E) as Hd. unfold loop_done in Hd.
    destruct r as [res|[e|ty m|attempted errors cause]]; simpl in Hd; [..|done|done|].
    + destruct Hd as (Ho & k & Hk & ->). split; [done|]. split; [apply eligible_incl|].
      rewrite fmap_last. by rewrite (take_S_r _ _ _ Hk), last_snoc.
    + destruct Hd as (Ho & k & -> & _). split; [done|]. apply eligible_incl.
Qed.

(** ** What an admitted request leaves *)

Definition proxy_recorded (row : dict) (o o' : F) (r : result route_error (streaming_response R)) : Prop :=
  match r with
  | Ok resp =>
      opened o' = opened o ++ [sr_upstream resp] /\ clients o' = S (clients o) /\
      (forall chunks ending, let o2 := (relay_upstream_bytes (sr_upstream resp) chunks ending o').1 in
         opened o2 = opened o /\ clients o2 = clients o) /\
      exists ms attempted, last attempted = al_get "X-Pitwall-Provider-ID" (sr_headers resp) /\
        if count_fits ms && count_fits (content_length (sr_upstream resp))
        then state_of row = "completed" /\ dict_get_none "fallback_chain" row = chain_of attempted
        else state_of row = "running"
  | Err (ProviderUnavailable _ attempted) =>
      opened o' = opened o /\ clients o' = clients o /\
      exists ms errors,
        if count_fits ms
        then state_of row = "failed" /\ dict_get_none "error" row = VDict (failure_payload attempted errors)
        else state_of row = "running"
  | Err (RouteEscaped _ _) => opened o' = opened o /\ clients o' = S (clients o) /\ state_of row = "running"
  | Err (RouteExn _) => state_of row = "running"
  | Err _ => False
  end.

Section Admission.
Context (i cap prov : string) (z sub : Z).
Context (Hi : not_blank i) (Hcap : not_blank cap) (Hprov : not_blank prov).
Context (Hz : row_constraints (admitted_dict (pass_row i cap prov z sub)) = true).
Abbreviation running t := (running_row i cap prov z sub t).

Lemma answer_step name started res (w w' : table_world F) r t :
  workloads (tw_db w) !! i = Some (running t) -> Forall not_blank (pr_attempted res) ->
  last (pr_attempted res) = Some (p_id (pr_provider res)) ->
  answer name i started res w = (w', r) ->
  only_workload i (tw_db w) (tw_db w') /\ opened (tw_outside w') = opened (tw_outside w) /\
  clients (tw_outside w') = clients (tw_outside w) /\
  exists row, workloads (tw_db w') !! i = Some row /\
    match r with
    | Ok resp => sr_upstream resp = pr_response res /\
        exists ms, al_get "X-Pitwall-Provider-ID" (sr_headers resp) = last (pr_attempted res) /\
          if count_fits ms && count_fits (content_length (sr_upstream resp))
          then state_of row = "completed" /\ dict_get_none "fallback_chain" row = chain_of (pr_attempted res)
          else state_of row = "running"
    | Err e => state_of row = "running" /\ exists x, e = RouteExn x
    end.
Proof.
  intros Hrow Hch Hlast E. unfold answer in E.
  apply bind_cases in E as [(e & (Hdb & Hq & x & ->)%execution_ms_step & ->)|(ms & w1 & (Hdb1 & [Hq1 Hq1']%quiet_keeps & _)%execution_ms_step & E)].
  { apply quiet_keeps in Hq as [-> ->]. rewrite Hdb. do 3 (split; [done|]). exists (running t). split; [done|]. split; [done|by eexists]. }
  apply bind_cases in E as [(e & (_ & _ & [=])%outside_step & _)|(tr & w2 & (Hdb2 & Ho2 & _)%outside_step & E)].
  apply bind_cases in E as [(e & (_ & [=] & _)%best_effort_step & _)|([] & w3 & (Hq3 & _ & now & Hdb3)%best_effort_step & E)].
  injection E as <- <-. destruct (quiet_keeps _ _ Hq3) as [Hop3 Hcl3].
  rewrite Hdb2, Hdb1, (to_completed i cap prov z sub Hi Hcap Hprov Hz _ t) in Hdb3 by done.
  destruct (trace_law (if pr_status res <? 500 then "success" else "error") (tw_outside w1)) as [Hop2 Hcl2]. rewrite <- Ho2 in *.
  split; [|split; [congruence|split; [congruence|]]].
  - rewrite Hdb3. destruct (_ && _); [apply only_set_workload|done].
  - cbn [sr_upstream sr_headers]. rewrite Hdb3.
    assert (al_get "X-Pitwall-Provider-ID" (sr_headers (MkStreaming (pr_response res) (pr_status res)
      (answer_headers name i res tr))) = last (pr_attempted res)) as Hid.
    { rewrite Hlast. cbn [sr_headers]. unfold answer_headers. destruct tr; [rewrite al_get_set_ne by done|]; apply al_get_set. }
    destruct (_ && _) eqn:Ef.
    + eexists. split; [apply lookup_insert_eq|]. split; [done|]. exists ms. by rewrite Ef.
    + exists (running t). split; [exact Hrow|]. split; [done|]. exists ms. by rewrite Ef.
Qed.

Lemma give_up_step {A} name started attempted errors (w w' : table_world F) (r : result route_error A) t :
  workloads (tw_db w) !! i = Some (running t) -> Forall not_blank attempted ->
  all_failed name i started attempted errors w = (w', r) ->
  only_workload i (tw_db w) (tw_db w') /\ opened (tw_outside w') = opened (tw_outside w) /\
  clients (tw_outside w') = pred (clients (tw_outside w)) /\
  exists row, workloads (tw_db w') !! i = Some row /\
    match r with
    | Ok _ => False
    | Err (RouteExn _) => state_of row = "running"
    | Err e => e = ProviderUnavailable name attempted /\
        exists ms, if count_fits ms
          then state_of row = "failed" /\ dict_get_none "error" row = VDict (failure_payload attempted errors)
          else state_of row = "running"
    end.
Proof.
  intros Hrow Hch E. unfold all_failed in E. destruct (close_client_law (tw_outside w)) as [Hop0 Hcl0].
  apply bind_cases in E as [(e & [=] & _)|([] & w0 & [= <-] & E)]. cbn [tw_db] in *.
  apply bind_cases in E as [(e & (Hdb & Hq & x & ->)%execution_ms_step & ->)|(ms & w1 & (Hdb1 & [Hq1 Hq1']%quiet_keeps & _)%execution_ms_step & E)].
  { apply quiet_keeps in Hq as [-> ->]. rewrite Hdb. cbn [tw_outside tw_db]. do 3 (split; [done|]). by exists (running t). }
  apply bind_cases in E as [(e & (_ & _ & [=])%outside_step & _)|(tr & w2 & (Hdb2 & Ho2 & _)%outside_step & E)].
  apply bind_cases in E as [(e & (_ & [=] & _)%best_effort_step & _)|([] & w3 & (Hq3 & _ & now & Hdb3)%best_effort_step & E)].
  injection E as <- <-. destruct (quiet_keeps _ _ Hq3) as [Hop3 Hcl3]. cbn [tw_outside tw_db] in *.
  rewrite Hdb2, Hdb1, (to_failed i cap prov z sub Hi Hcap Hprov Hz _ t) in Hdb3 by done.
  destruct (trace_law "error" (tw_outside w1)) as [Hop2 Hcl2]. rewrite <- Ho2 in *.
  split; [|split; [congruence|split; [congruence|]]].
  - rewrite Hdb3. destruct (count_fits ms); [apply only_set_workload|done].
  - rewrite Hdb3. destruct (count_fits ms) eqn:Ef.
    + eexists. split; [apply lookup_insert_eq|]. split; [done|]. exists ms. by rewrite Ef.
    + exists (running t). split; [exact Hrow|]. split; [done|]. exists ms. by rewrite Ef.
Qed.

Lemma admitted_step rq ps started (w w' : table_world F) r :
  workloads (tw_db w) !! i = Some (admitted_dict (pass_row i cap prov z sub)) -> Forall not_blank (p_id <$> ps) ->
  proxy_admitted check_netloc rq ps started i w = (w', r) ->
  only_workload i (tw_db w) (tw_db w') /\
  exists row, workloads (tw_db w') !! i = Some row /\ proxy_recorded row (tw_outside w) (tw_outside w') r.
Proof.
  intros Hrow Hps E. unfold proxy_admitted in E. destruct (open_client_law (tw_outside w)) as [Hop0 Hcl0].
  apply bind_cases in E as [(e & [=] & _)|([] & w0 & [= <-] & E)].
  apply bind_cases in E as [(e & (_ & [=] & _)%best_effort_step & _)|([] & w1 & (Hq1 & _ & now & Hdb1)%best_effort_step & E)].
  destruct (quiet_keeps _ _ Hq1) as [Hop1 Hcl1]. cbn [tw_outside tw_db] in *.
  rewrite (to_running i cap prov z sub Hi Hcap Hprov Hz _ now Hrow) in Hdb1.
  assert (workloads (tw_db w1) !! i = Some (running now)) as Hrun by (rewrite Hdb1; apply lookup_insert_eq).
  assert (only_workload i (tw_db w) (tw_db w1)) as Hon1 by (rewrite Hdb1; apply only_set_workload). clear Hdb1.
  assert (forall l, incl l (p_id <$> ps) -> Forall not_blank l) as Hnb.
  { intros l Hl. apply Forall_forall. intros x Hx. rewrite Forall_forall in Hps. apply Hps. by apply list_elem_of_In, Hl, list_elem_of_In. }
  apply bind_cases in E as [(e & (_ & _ & [=])%outside_step & _)|(out & w2 & (Hdb2 & Ho2 & [= ->])%outside_step & E)].
  destruct (execute_openai_with_fallback _ _ _ (tw_outside w1)) as [o2 outcome] eqn:Ex. cbn [fst snd] in *.
  apply execute_step in Ex as (Hcl2 & Hop2 & Hat). rewrite <- Ho2 in *. rewrite <- Hdb2 in Hrun, Hon1.
  destruct outcome as [res|[e|ty m|attempted errors cause]].
  - destruct Hat as [Hat Hlast]. apply (answer_step _ _ _ _ _ _ now Hrun (Hnb _ Hat) Hlast) in E as (Hon & Hop & Hcl & row & Hr & Hp).
    split; [by etrans|]. exists row. split; [done|]. destruct r as [resp|e]; simpl.
    + destruct Hp as (Hu & ms & Hid & Hst). rewrite Hu in *.
      assert (opened (tw_outside w') = opened (tw_outside w) ++ [pr_response res]) as Hop' by congruence.
      assert (clients (tw_outside w') = S (clients (tw_outside w))) as Hcl' by congruence.
      split; [done|]. split; [done|]. split; [by intros chunks ending; apply (relay_closes _ chunks ending)|].
      exists ms, (pr_attempted res). by split.
    + by destruct Hp as (Hst & x & ->).
  - injection E as <- <-. split; [done|]. exists (running now). by split.
  - injection E as <- <-. split; [done|]. exists (running now). split; [done|]. simpl. split; [congruence|]. split; [congruence|done].
  - apply (give_up_step _ _ _ _ _ _ _ now Hrun (Hnb _ Hat)) in E as (Hon & Hop & Hcl & row & Hr & Hp).
    split; [by etrans|]. exists row. split; [done|]. destruct r as [resp|e]; [done|]. simpl.
    assert (clients (tw_outside w') = clients (tw_outside w)) as Hc by (rewrite Hcl, Hcl2, Hcl1, Hcl0; done).
    destruct e; try (destruct Hp as [[=] _]; fail); [|done].
    destruct Hp as [[= -> ->] (ms & Hst)]. split; [congruence|]. split; [done|]. by exists ms, errors.
Qed.
End Admission.

Lemma admission_step g c p upper new_id (w w' : table_world F) r :
  proxy_admission month_start constraints_ok g c p upper new_id w = (w', r) ->
  quiet (tw_outside w) (tw_outside w') /\
  match r with
  | Err _ => tw_db w' = tw_db w
  | Ok adm =>
      exists clock z sub, adm = MkAdmission new_id true /\
        let rec := pass_row new_id (c_id c) (p_id p) z sub in
        try_launch_admission (E:=unit) (A:=unit) month_start constraints_ok g clock (dt_us clock) (gate_view (tw_db w))
          (c_id c) (p_id p) (EBound (VDec (DFin upper))) "openai_passthrough" None None new_id None
        = Ok (gate_view (tw_db w) ++ [rec], adm, None) /\
        constraints_ok rec = true /\ tw_db w' = set_workload (tw_db w) new_id (admitted_dict rec)
  end.
Proof.
  intros E. unfold proxy_admission in E.
  apply bind_cases in E as [(e & (_ & _ & [=])%outside_step & _)|(clock & w1 & (Hdb & Ho & _)%outside_step & E)].
  destruct (admit_row _ _ _ _ _ _ _ _ _ _ _ _) as [db o] eqn:Ea. apply admit_cases in Ea. injection E as <- <-.
  cbn [tw_outside tw_db]. rewrite Ho. split; [apply utc_quiet|]. rewrite Hdb in Ea. destruct o as [adm|e]; simpl; [|done].
  destruct (is_new adm) eqn:En; [|by destruct Ea as [_ [=]]].
  destruct Ea as (Hi & _ & rec & -> & _ & _ & Ht). destruct (admitted_row _ _ _ _ _ _ _ _ _ _ _ _ _ _ _ _ _ Ht) as (Hok & z & ->).
  exists clock, z, (dt_us (default clock None)). assert (adm = MkAdmission new_id true) as -> by (destruct adm; simpl in *; congruence).
  done.
Qed.

Lemma resolved_elem reg name c ps : resolve_provider_chain reg name = Ok (c, ps) ->
  (exists i, capabilities reg !! i = Some c) /\ forall p, p ∈ ps -> exists i, providers reg !! i = Some p.
Proof.
  unfold resolve_provider_chain, get_by_name. destruct (find_first _ _) as [[i c']|] eqn:Ef; [|done]. simpl.
  intros (chain & Hc & E)%rbind_Ok. destruct (chain_attempts chain) as [|a l] eqn:Ea; [done|].
  injection E as <- <-.
  apply find_first_Some in Ef as [Hin _]. split.
  { exists i. by apply elem_of_map_to_list. }
  destruct (resolve_openai_provider_chain _ _ _ _ _) as [chain'|] eqn:Er; [|done]. injection Hc as ->.
  apply attempts_sound in Er. rewrite Ea in Er. rewrite Forall_forall in Er.
  intros p Hps. change (p ∈ chain_models (a :: l)) in Hps. apply list_elem_of_omap in Hps as (b & Hb & Hp). destruct (Er _ Hb) as (Hl & _).
  unfold model_of in Hp. destruct (ca_provider b); [|done]. injection Hp as ->.
  apply list_elem_of_fmap in Hl as (p' & [= <-] & Hl). unfold list_enabled in Hl. apply subseteq_take in Hl.
  rewrite sort_by_perm in Hl. apply list_elem_of_filter in Hl as [_ ([j q] & -> & Hj)%list_elem_of_fmap].
  exists j. by apply elem_of_map_to_list in Hj.
Qed.

(** ** Theorems *)

Section Theorems.
Context (reg : registry) (Hcaps : forall i c, capabilities reg !! i = Some c -> not_blank (c_id c))
  (Hprovs : forall i p, providers reg !! i = Some p -> not_blank (p_id p))
  (Hdatabase : forall r, constraints_ok r = true -> row_constraints (admitted_dict r) = true).

End Theorems.

End Outside.

(** ** Examples *)
Module ProxySim.
(** Answers by URL, a clock that advances a tenth of a second per look, the
    open responses named by their URL, and the open clients. *)
Record world : Type := MkWorld { answers : list (string * send_outcome string); ticks : Z; open_responses : list string; open_clients : nat }.
Definition with_ticks (w : world) : world := MkWorld (answers w) (ticks w + 1) (open_responses w) (open_clients w).
Definition quiet (w w' : world) : Prop :=
  answers w' = answers w /\ open_responses w' = open_responses w /\ open_clients w' = open_clients w.
#[global] Instance deps : ProxyDeps world string := {|
  utc_clock w := (with_ticks w, utc (ticks w));
  perf_clock w := (with_ticks w, of_dec (Dec (ticks w) (-1)));
  open_client w := MkWorld (answers w) (ticks w) (open_responses w) (S (open_clients w));
  close_client w := MkWorld (answers w) (ticks w) (open_responses w) (pred (open_clients w));
  send _ url _ w :=
    let o := default (NoHeaders "connect error") (al_get url (answers w)) in
    (MkWorld (answers w) (ticks w) (match o with Headers _ r => open_responses w ++ [r] | _ => open_responses w end)
       (open_clients w), o);
  close_upstream r w := MkWorld (answers w) (ticks w) (removelast (open_responses w)) (open_clients w);
  emit_trace _ w := (w, None);
  response_header r k := if String.eqb k "content-length" then Some "12" else None;
  response_headers r := [("content-length", "12")];
|}.
#[global] Instance lawful : LawfulProxy open_responses open_clients quiet.
Proof.
  split; try done.
  - split; [done|]. intros a b c (H1 & H2 & H3) (K1 & K2 & K3). unfold quiet. split_and!; congruence.
  - by intros o o' (_ & ? & ?).
  - intros r o l H. change (removelast (open_responses o) = l). rewrite H. apply removelast_last.
Defined.

Definition capability : Capability :=
  MkCapability "cap" "chat" "1" LLM None [] [] (MkDefaults 60000 60000 SYNC) PER_SECOND [] API None true (utc 0) (utc 0).
Definition provider (i : string) (prio : Z) : Provider :=
  MkProvider i "cap" i SERVERLESS_QUEUE (Some i) None None None 
    [("cost", VDict [("kind", VStr "per_request"); ("per_request", VStr "0.01")])] prio true "healthy" 0 0 None None
    fzero None "api" None (utc 0).
Definition reg : registry :=
  MkRegistry {[ "cap" := capability ]} (list_to_map ((fun p => (p_id p, p)) <$> [provider "a" 1; provider "b" 2])) [].
Definition request (path query : string) : proxy_http :=
  MkProxyHttp "chat" path "POST" query [("host", "pitwall"); ("authorization", "Bearer pitwall-token")] "".
Definition empty_db : workload_db := MkWorkloadDb ∅ ∅.
Definition run (rq : proxy_http) (answers : list (string * send_outcome string)) :
  table_world world * result route_error (streaming_response string) :=
  openai_proxy UrlSim.plain_netloc (fun _ => 0) (fun r => row_constraints (admitted_dict r)) (MkGate (Dec 100 0) (Dec 1 0)) reg rq "w1"
    (MkTableWorld empty_db (MkWorld answers 0 [] 0)).
(** Status or error, the row's state, open responses and clients. *)
Definition seen (x : table_world world * result route_error (streaming_response string)) :=
  (match x.2 with Ok r => inl (sr_status r) | Err e => inr e end,
   state_of <$> workloads (tw_db x.1) !! "w1", open_responses (tw_outside x.1), open_clients (tw_outside x.1)).
Definition at_a : string := "https://api.runpod.ai/v2/a/openai/v1/m".
Definition at_b : string := "https://api.runpod.ai/v2/b/openai/v1/m".

Example answered_ex : seen (run (request "m" "") [(at_a, Headers 503 "a"); (at_b, Headers 200 "b")])
  = (inl 200, Some "completed", ["b"], 1%nat).
Proof. vm_compute. reflexivity. Qed.
Example unavailable_ex : seen (run (request "m" "") []) = (inr (ProviderUnavailable "chat" ["a"; "b"]), Some "failed", [], 0%nat).
Proof. vm_compute. reflexivity. Qed.
(** The last provider's 503 is recorded as a completed workload. *)
Example server_error_completes : seen (run (request "m" "") [(at_a, Headers 503 "a"); (at_b, Headers 503 "b")])
  = (inl 503, Some "completed", ["b"], 1%nat).
Proof. vm_compute. reflexivity. Qed.
(** The path is checked without its query: a backslash in the query raises
    after the admission. *)
Example backslash_in_query : seen (run (request "m" "x=\") [])
  = (inr (RouteExn (ValueError "OpenAI proxy path must be a normalized relative path")), Some "running", [], 1%nat).
Proof. vm_compute. reflexivity. Qed.
(** The consumer's credentials for this service go to the provider. *)
Example authorization_is_forwarded : al_get "authorization" (forwarded_headers (request "m" "")) = Some "Bearer pitwall-token".
Proof. reflexivity. Qed.
End ProxySim.

