(* ===== verification/Egress.v ===== *)
(** * Webhook egress ([webhook_dispatcher/security.py])

    A webhook URL is normalised and resolved, and every answer must be a
    global address; the request goes to the first of them and never asks the
    resolver again.  [EgressNet] is the resolver, sockets and TLS; [idna]
    encodes host names that are not ASCII.  [egress_delivery] gives
    [WebhookDelivery] its attempts. *)

From Stdlib Require Import Ascii SpecFloat.
From S2P Require Import Registry.
From S2P Require Import Prelude PyDecimal PyFloat PyValue PyTime PyJson PyFormat PyUrl.
From S2P Require Import Effects WebhookDelivery.

(** Definitions *)

Definition ALLOWED_WEBHOOK_PORTS : list Z := [443].

Inductive egress_error :=
| WebhookTargetRejected (message : string)
| NetworkFailure                                  (* TimeoutError, OSError *)
| EgressEscaped (type_name message : string).
Abbreviation checked := (result egress_error).
Definition rejected {A} (message : string) : checked A := Err (WebhookTargetRejected message).

Record ResolvedWebhookTarget : Type := MkTarget {
  t_url : string; t_hostname : string; t_port : Z; t_request_target : string; t_addresses : list string }.

(** [_public_ip] *)
Definition is_public (a : ip) : bool :=
  negb (negb (is_global a) || is_loopback a || is_private a || is_link_local a || is_multicast a || is_reserved a ||
        is_unspecified a).
Definition public_ip (value : string) : checked ip :=
  match ip_address value with
  | None => rejected "webhook DNS returned an invalid IP address"
  | Some a => if is_public a then Ok a else rejected "webhook target must resolve only to global addresses"
  end.

(** ** Normalising the host *)

Fixpoint rstrip_dots (s : string) : string :=
  match s with
  | EmptyString => EmptyString
  | String c s' => match rstrip_dots s' with
                   | EmptyString => if Ascii.eqb c "."%char then EmptyString else String c EmptyString
                   | t => String c t
                   end
  end.
Definition is_ascii (s : string) : bool := all_chars (fun c => (nat_of_ascii c <? 128)%nat) s.
Definition local_name (h : string) : bool :=
  String.eqb h "localhost" || endswith ".localhost" h.
Definition numeric_name (h : string) : bool :=
  let digits := filter_string (fun c => negb (Ascii.eqb c "."%char)) h in nonempty digits && all_chars is_digit digits.
(** The [idna] codec on ASCII names. *)
Definition ascii_labels_ok (h : string) : bool :=
  let labels := split_on "."%char h in
  forallb (fun l => nonempty l && (String.length l <? 64)%nat) (removelast labels) &&
  match last labels with Some l => (String.length l <? 64)%nat | None => true end.

(** ** The network *)

Inductive answers :=
| Addresses (l : list string)
| ResolutionFailed                                (* socket.gaierror *)
| ResolutionEscaped (type_name message : string).
Inductive net_result (A : Type) :=
| NetOk (a : A)
| NetFailed                                       (* TimeoutError, OSError *)
| NetEscaped (type_name message : string).
Arguments NetOk {A}.
Arguments NetFailed {A}.
Arguments NetEscaped {A}.

Class EgressNet (F Sock : Type) := {
  getaddrinfo : string -> Z -> F -> F * answers;
  create_connection : string -> Z -> F -> F * net_result Sock;
  getpeername : Sock -> F -> F * net_result string;
  wrap_socket : Sock -> string -> F -> F * net_result unit;                    (* the TLS server name *)
  exchange : Sock -> string -> string -> dict -> F -> F * net_result Z;        (* the status of the response *)
  close_socket : Sock -> F -> F;
}.
Section Resolve.
Context (check_netloc : string -> py unit) (idna : string -> option string).

(** [_normalized_hostname] *)
Definition normalized_hostname (parsed : split_result) (raw_url : string) : checked string :=
  match hostname (sp_netloc parsed) with
  | None => rejected "webhook URL must include a hostname"
  | Some h =>
      if has_userinfo (sp_netloc parsed) then rejected "webhook URL must not contain user information"
      else if has_char "\"%char raw_url || has_char "%"%char h then rejected "webhook URL contains an ambiguous hostname"
      else
        let h := lower (rstrip_dots h) in
        if negb (nonempty h) || local_name h then rejected "localhost webhook targets are not allowed"
        else match ip_address h with
             | Some a => Ok (compressed a)
             | None =>
                 if numeric_name h then rejected "encoded or non-canonical numeric hosts are not allowed"
                 else match (if is_ascii h then (if ascii_labels_ok h then Some h else None) else idna h) with
                      | Some e => Ok e
                      | None => rejected "webhook hostname is not valid IDNA"
                      end
             end
  end.

(** ** Asking the network *)

Context {F Sock : Type} `{EgressNet F Sock}.
Abbreviation op := (eff F egress_error).

Definition net {A} (f : F -> F * net_result A) : op A :=
  fun w => let '(w', r) := f w in
           (w', match r with NetOk a => Ok a | NetFailed => Err NetworkFailure | NetEscaped t m => Err (EgressEscaped t m) end).
(** [_system_resolver] *)
Definition system_resolver (host : string) (port : Z) : op (list string) :=
  fun w => let '(w', r) := getaddrinfo host port w in
           (w', match r with
                | Addresses l => Ok l
                | ResolutionFailed => rejected "webhook hostname could not be resolved"
                | ResolutionEscaped t m => Err (EgressEscaped t m)
                end).

(** ** Resolving a target *)

Definition value_error {A} (r : py A) : checked A := rlift (fun _ => EgressEscaped "ValueError" "invalid URL") r.
Definition control_free (url : string) : bool := all_chars (fun c => (32 <=? nat_of_ascii c)%nat) url.

(** Everything before the resolver is asked: parts, host and port. *)
Definition parse_target (url : string) : checked (split_result * string * Z) :=
  if negb (nonempty url) || negb (control_free url) then rejected "webhook URL is malformed"
  else
    let? parsed := value_error (urlsplit check_netloc url) in
    if negb (String.eqb (lower (sp_scheme parsed)) "https") then rejected "webhook URL must use HTTPS"
    else if nonempty (sp_fragment parsed) then rejected "webhook URL must not contain a fragment"
    else
      let? h := normalized_hostname parsed url in
      match port (sp_netloc parsed) with
      | Err _ => rejected "webhook URL port is invalid"
      | Ok p =>
          let p := match p with Some n => if n =? 0 then 443 else n | None => 443 end in
          if bool_decide (p ∈ ALLOWED_WEBHOOK_PORTS) then Ok (parsed, h, p) else rejected "webhook URL port is not allowed"
      end.

Definition public_addresses (raw : list string) : checked (list string) :=
  let? l := mapR (fun v => let? a := public_ip v in Ok (compressed a)) raw in Ok (dedup l).

Definition target_of (parsed : split_result) (h : string) (p : Z) (addresses : list string) : ResolvedWebhookTarget :=
  let display := if has_char ":"%char h then "[" +:+ h +:+ "]" else h in
  let netloc := if p =? 443 then display else display +:+ ":" +:+ str_int p in
  let path := if nonempty (sp_path parsed) then sp_path parsed else "/" in
  MkTarget (urlunsplit (MkSplit "https" netloc path (sp_query parsed) EmptyString)) h p
    (path +:+ (if nonempty (sp_query parsed) then "?" +:+ sp_query parsed else EmptyString)) addresses.

(** [resolve_webhook_target] *)
Definition resolve_webhook_target (url : string) : op ResolvedWebhookTarget :=
  do! parts := lift (parse_target url) in
  let '(parsed, h, p) := parts in
  do! raw := match ip_address h with Some a => ret [compressed a] | None => system_resolver h p end in
  match raw with
  | [] => fail (WebhookTargetRejected "webhook hostname returned no addresses")
  | _ => do! addresses := lift (public_addresses raw) in ret (target_of parsed h p addresses)
  end.

(** [redact_webhook_url] *)
Definition redact_webhook_url (url : string) : py string :=
  let? p := urlsplit check_netloc url in
  Ok (urlunsplit (MkSplit (sp_scheme p) (sp_netloc p) (if nonempty (sp_path p) then sp_path p else "/") EmptyString EmptyString)).

(** ** The pinned connection *)

(** Inside the [try] of [connect]: the peer is checked, then TLS starts. *)
Definition secure (t : ResolvedWebhookTarget) (address : string) (s : Sock) : op unit :=
  do! name := net (getpeername s) in
  do! peer := lift (public_ip name) in
  if bool_decide (ip_address address = Some peer) then net (wrap_socket s (t_hostname t))
  else fail (WebhookTargetRejected "connected webhook peer did not match pinned DNS").
(** [_PinnedHTTPSConnection.connect] *)
Definition connect (t : ResolvedWebhookTarget) (address : string) : op Sock :=
  do! s := net (create_connection address (t_port t)) in
  fun w => match secure t address s w with
           | (w', Ok _) => (w', Ok s)
           | (w', Err e) => (close_socket s w', Err e)
           end.
(** [_post_pinned_sync] *)
Definition post_pinned (t : ResolvedWebhookTarget) (body : string) (headers : dict) : op Z :=
  match t_addresses t with
  | [] => fail (EgressEscaped "IndexError" "tuple index out of range")
  | address :: _ =>
      do! s := connect t address in
      fun w => let '(w', r) := net (exchange s (t_request_target t) body headers) w in (close_socket s w', r)
  end.

(** ** An attempt of a delivery *)

Definition attempt_of (r : checked Z) : attempt_outcome :=
  match r with
  | Ok status => Answered status
  | Err (WebhookTargetRejected _) => TargetRejected
  | Err NetworkFailure => TransportFailure
  | Err (EgressEscaped t m) => Escaped t m
  end.
Definition egress_attempt (url body : string) (headers : dict) (w : F) : F * attempt_outcome :=
  let '(w', r) := bind (resolve_webhook_target url) (fun t => post_pinned t body headers) w in (w', attempt_of r).
End Resolve.

(** ** Addresses no webhook may reach *)

Definition between (lo hi n : Z) : bool := (lo <=? n) && (n <? hi).
(** The special ranges of IPv4 by their first sixteen bits: this network,
    private, shared, loopback, link-local, private, benchmarking, multicast
    and reserved. *)
Definition internal_v4 (h : Z) : bool :=
  between 0x0000 0x0100 h || between 0x0a00 0x0b00 h || between 0x6440 0x6480 h || between 0x7f00 0x8000 h ||
  (h =? 0xa9fe) || between 0xac10 0xac20 h || (h =? 0xc0a8) || between 0xc612 0xc614 h || (0xe000 <=? h).
(** What is left of IPv6: the global unicast addresses, and the site-local
    ones. *)
Definition open_v6 (h : Z) : bool := between 0x2000 0x4000 h || between 0xfec0 0xff00 h.
Definition outside (a : ip) : bool :=
  match a with V4 n => negb (internal_v4 (n / 2 ^ 16)) | V6 n _ => open_v6 (n / 2 ^ 112) end.

(** Lemmas *)

(** A network on the first bits of an address is an interval of them. *)
Lemma in_net_top w n base plen k lo hi : base = lo * 2 ^ k -> hi = lo + 2 ^ (w - k - plen) -> lo mod 2 ^ (w - k - plen) = 0 ->
  0 <= k -> 0 <= w - k - plen -> in_net w n base plen = between lo hi (n / 2 ^ k).
Proof.
  intros -> -> Hm Hk Hp. unfold in_net, between. replace (w - plen) with (k + (w - k - plen)) by ring.
  set (e := w - k - plen) in *. rewrite Z.pow_add_r by done. assert (0 < 2 ^ k) by by apply Z.pow_pos_nonneg.
  assert (0 < 2 ^ e) by by apply Z.pow_pos_nonneg.
  rewrite <- !Z.div_div by lia. rewrite Z.div_mul by lia. generalize (n / 2 ^ k). intros h.
  pose proof (Z.div_mod lo (2 ^ e) ltac:(lia)) as Hlo. pose proof (Z.div_mod h (2 ^ e) ltac:(lia)) as Hh.
  pose proof (Z.mod_pos_bound h (2 ^ e) ltac:(lia)). apply eq_true_iff_eq. rewrite andb_true_iff, Z.eqb_eq, Z.leb_le, Z.ltb_lt. nia.
Qed.

Lemma exception_v4 n : in_any 32 n v4_private_exceptions = true -> n / 2 ^ 16 = 0xc000.
Proof.
  unfold in_any, in_net. simpl existsb. rewrite orb_false_r, orb_true_iff, !Z.eqb_eq. change (2 ^ (32 - 32)) with 1.
  rewrite !Z.div_1_r. by intros [->| ->].
Qed.
Lemma top_bits n k w : 0 <= k -> 0 <= w -> 0 <= n < 2 ^ (k + w) -> 0 <= n / 2 ^ k < 2 ^ w.
Proof.
  intros Hk Hw [H0 H1]. assert (0 < 2 ^ k) by by apply Z.pow_pos_nonneg. split; [by apply Z.div_pos|].
  apply Z.div_lt_upper_bound; [done|]. by rewrite <- Z.pow_add_r.
Qed.

Lemma public_v4 n : 0 <= n < 2 ^ 32 -> is_public (V4 n) = true -> outside (V4 n) = true.
Proof.
  intros Hn%(top_bits n 16 16); [|done..]. unfold is_public, is_global, is_private, is_loopback, is_link_local, is_multicast, is_reserved.
  rewrite !negb_orb, !negb_involutive, !andb_true_iff. intros [[[[[[[Hs Hp] _] _] _] Hm] Hr] _].
  rewrite (in_net_top 32 n 0x64400000 10 16 0x6440 0x6480) in Hs by done.
  rewrite (in_net_top 32 n 0xe0000000 4 16 0xe000 0xf000) in Hm by done.
  rewrite (in_net_top 32 n 0xf0000000 4 16 0xf000 0x10000) in Hr by done.
  unfold v4_is_private in Hp. apply negb_true_iff, andb_false_iff in Hp.
  assert (n / 2 ^ 16 = 0xc000 \/ in_any 32 n v4_private_networks = false) as [He|Hq].
  { destruct Hp as [Hp|Hp]; [by right|left]. by apply exception_v4, negb_false_iff. }
  { simpl. by rewrite He. }
  unfold in_any, v4_private_networks in Hq. simpl existsb in Hq. rewrite !orb_false_iff in Hq.
  rewrite (in_net_top 32 n 0x00000000 8 16 0x0000 0x0100), (in_net_top 32 n 0x0a000000 8 16 0x0a00 0x0b00),
    (in_net_top 32 n 0x7f000000 8 16 0x7f00 0x8000), (in_net_top 32 n 0xa9fe0000 16 16 0xa9fe 0xa9ff),
    (in_net_top 32 n 0xac100000 12 16 0xac10 0xac20), (in_net_top 32 n 0xc0a80000 16 16 0xc0a8 0xc0a9),
    (in_net_top 32 n 0xc6120000 15 16 0xc612 0xc614) in Hq by done.
  simpl. destruct Hq as (H0 & H1 & H2 & H3 & H4 & _ & _ & _ & H5 & H6 & _).
  revert Hn Hs Hm Hr H0 H1 H2 H3 H4 H5 H6. generalize (n / 2 ^ 16). intros h. clear. unfold internal_v4, between. intros. boolify. lia.
Qed.

Lemma exception_v6 n : in_any 128 n v6_private_exceptions = true -> n / 2 ^ 112 = 0x2001.
Proof.
  unfold in_any, v6_private_exceptions. simpl existsb. rewrite !orb_true_iff.
  assert (forall base plen k lo hi, in_net 128 n base plen = between lo hi (n / 2 ^ k) -> in_net 128 n base plen = true -> lo <= n / 2 ^ k < hi) as Hb.
  { intros base plen k lo hi E H. rewrite E in H. unfold between in H. boolify. lia. }
  assert (forall k lo hi, 0 <= k <= 112 -> lo <= n / 2 ^ k < hi -> lo / 2 ^ (112 - k) = 0x2001 -> (hi - 1) / 2 ^ (112 - k) = 0x2001 ->
    n / 2 ^ 112 = 0x2001) as Hc.
  { intros k lo hi Hk Hn Hl Hh. replace (2 ^ 112) with (2 ^ k * 2 ^ (112 - k)) by (rewrite <- Z.pow_add_r by lia; f_equal; lia).
    rewrite <- Z.div_div by (try apply Z.pow_nonzero; lia || (apply Z.pow_pos_nonneg; lia)).
    pose proof (Z.div_le_mono lo (n / 2 ^ k) (2 ^ (112 - k)) ltac:(apply Z.pow_pos_nonneg; lia) ltac:(lia)).
    pose proof (Z.div_le_mono (n / 2 ^ k) (hi - 1) (2 ^ (112 - k)) ltac:(apply Z.pow_pos_nonneg; lia) ltac:(lia)). lia. }
  intros [H|[H|[H|[H|[H|[H|H]]]]]]; [..|done].
  - apply (Hc 0 (0x20010001 * 2 ^ 96 + 1) (0x20010001 * 2 ^ 96 + 2)); [done| |done..]. eapply Hb; [|exact H]. by apply in_net_top.
  - apply (Hc 0 (0x20010001 * 2 ^ 96 + 2) (0x20010001 * 2 ^ 96 + 3)); [done| |done..]. eapply Hb; [|exact H]. by apply in_net_top.
  - apply (Hc 96 0x20010003 0x20010004); [done| |done..]. eapply Hb; [|exact H]. by apply in_net_top.
  - apply (Hc 80 0x200100040112 0x200100040113); [done| |done..]. eapply Hb; [|exact H]. by apply in_net_top.
  - apply (Hc 96 0x20010020 0x20010030); [done| |done..]. eapply Hb; [|exact H]. by apply in_net_top.
  - apply (Hc 96 0x20010030 0x20010040); [done| |done..]. eapply Hb; [|exact H]. by apply in_net_top.
Qed.

Lemma public_v6 n z : 0 <= n < 2 ^ 128 -> is_public (V6 n z) = true -> outside (V6 n z) = true.
Proof.
  intros Hn H. apply (top_bits n 112 16) in Hn as Hh; [|done..]. revert H.
  unfold is_public, is_global, is_link_local, is_multicast, is_reserved.
  rewrite !negb_orb, !negb_involutive, !andb_true_iff. intros [[[[[[Hp _] _] Hl] Hm] Hr] _].
  rewrite (in_net_top 128 n _ 10 112 0xfe80 0xfec0) in Hl by done. rewrite (in_net_top 128 n _ 8 112 0xff00 0x10000) in Hm by done.
  apply negb_true_iff in Hr. unfold in_any, v6_reserved_networks in Hr. cbn [fmap list_fmap existsb fst snd] in Hr. rewrite !orb_false_iff in Hr.
  rewrite (in_net_top 128 n (0x0000 * _) 8 112 0x0000 0x0100), (in_net_top 128 n (0x0100 * _) 8 112 0x0100 0x0200),
    (in_net_top 128 n (0x0200 * _) 7 112 0x0200 0x0400), (in_net_top 128 n (0x0400 * _) 6 112 0x0400 0x0800),
    (in_net_top 128 n (0x0800 * _) 5 112 0x0800 0x1000), (in_net_top 128 n (0x1000 * _) 4 112 0x1000 0x2000),
    (in_net_top 128 n (0x4000 * _) 3 112 0x4000 0x6000), (in_net_top 128 n (0x6000 * _) 3 112 0x6000 0x8000),
    (in_net_top 128 n (0x8000 * _) 3 112 0x8000 0xa000), (in_net_top 128 n (0xa000 * _) 3 112 0xa000 0xc000),
    (in_net_top 128 n (0xc000 * _) 3 112 0xc000 0xe000), (in_net_top 128 n (0xe000 * _) 4 112 0xe000 0xf000),
    (in_net_top 128 n (0xf000 * _) 5 112 0xf000 0xf800), (in_net_top 128 n (0xf800 * _) 6 112 0xf800 0xfc00),
    (in_net_top 128 n (0xfe00 * _) 9 112 0xfe00 0xfe80) in Hr by done.
  assert (0x0100 <= n / 2 ^ 112) as Hlow by (destruct Hr as [Hr _]; unfold between in Hr; boolify; lia).
  destruct (n / 2 ^ 32 =? 0xffff) eqn:Em.
  { exfalso. apply Z.eqb_eq in Em. replace (2 ^ 112) with (2 ^ 32 * 2 ^ 80) in Hlow by reflexivity.
    rewrite <- Z.div_div, Em in Hlow by done. by vm_compute in Hlow. }
  simpl is_private in Hp. rewrite Em in Hp. apply negb_true_iff, andb_false_iff in Hp.
  assert (n / 2 ^ 112 = 0x2001 \/ in_any 128 n v6_private_networks = false) as [He|Hq].
  { destruct Hp as [Hp|Hp]; [by right|left]. by apply exception_v6, negb_false_iff. }
  { simpl. by rewrite He. }
  unfold in_any, v6_private_networks in Hq. cbn [existsb fst snd] in Hq. rewrite !orb_false_iff in Hq.
  rewrite (in_net_top 128 n (0xfc00 * _) 7 112 0xfc00 0xfe00) in Hq by done.
  destruct Hq as (_ & _ & _ & _ & _ & _ & _ & _ & Hu & _). simpl. revert Hh Hl Hm Hr Hu. generalize (n / 2 ^ 112). intros h. clear.
  unfold open_v6, between. intros. boolify. lia.
Qed.

(** Whatever the policy lets through is outside the special ranges. *)
Lemma public_outside s a : public_ip s = Ok a -> ip_address s = Some a /\ outside a = true.
Proof.
  unfold public_ip, rejected. destruct (ip_address s) as [b|] eqn:E; [|done]. destruct (is_public b) eqn:Ep; [|done]. intros [= <-].
  split; [done|]. apply ip_address_range in E. destruct b; [by apply public_v4|by apply public_v6].
Qed.

(** *** Resolution *)

Section Resolved.
Context (check_netloc : string -> py unit) (idna : string -> option string).

Lemma parsed_port url parsed h p : parse_target check_netloc idna url = Ok (parsed, h, p) -> p = 443.
Proof.
  unfold parse_target, rejected. destruct (_ || _); [done|]. intros (x & _ & E)%rbind_Ok. destruct (negb _); [done|].
  destruct (nonempty _); [done|]. apply rbind_Ok in E as (h' & _ & E). destruct (port _) as [q|]; [|done].
  case_bool_decide as Hp; [|done]. injection E as _ _ <-. by apply list_elem_of_singleton in Hp.
Qed.

Lemma public_addresses_ok raw l : public_addresses raw = Ok l ->
  NoDup l /\ (forall v, v ∈ raw -> exists a, ip_address v = Some a /\ outside a = true /\ compressed a ∈ l) /\
  (forall s, s ∈ l -> exists v a, v ∈ raw /\ ip_address v = Some a /\ outside a = true /\ s = compressed a).
Proof.
  unfold public_addresses. intros (cs & Hcs & [= <-])%rbind_Ok. apply mapR_Ok in Hcs. split; [apply NoDup_dedup|].
  split.
  - intros v Hv. apply list_elem_of_lookup in Hv as [i Hi]. destruct (Forall2_lookup_l _ _ _ _ _ Hcs Hi) as (c & Hc & E).
    apply rbind_Ok in E as (a & [Ha Ho]%public_outside & [= <-]). exists a. do 2 (split; [done|]).
    rewrite elem_of_dedup. by eapply list_elem_of_lookup_2.
  - intros s. rewrite elem_of_dedup. intros [i Hi]%list_elem_of_lookup. destruct (Forall2_lookup_r _ _ _ _ _ Hcs Hi) as (v & Hv & E).
    apply rbind_Ok in E as (a & [Ha Ho]%public_outside & [= <-]). exists v, a. split; [by eapply list_elem_of_lookup_2|done].
Qed.

Context {F Sock : Type} `{EgressNet F Sock}.

(** The answers a target is checked against: itself, when it is an address. *)
Definition answered (h : string) (w : F) (raw : list string) : Prop :=
  match ip_address h with
  | Some a => raw = [compressed a]
  | None => (getaddrinfo h 443 w).2 = Addresses raw
  end.

Lemma resolve_cases url (w w' : F) r : resolve_webhook_target check_netloc idna url w = (w', r) ->
  w' = w \/ (exists h, w' = (getaddrinfo h 443 w).1) .
Proof.
  unfold resolve_webhook_target. intros E.
  apply bind_cases in E as [(e & [= <- _] & _)|([[parsed h] p] & w1 & [= <- Hp] & E)]; [by left|].
  apply parsed_port in Hp as ->.
  assert (forall (w0 w1 w2 : F) raw r', (match raw with
      | [] => fail (WebhookTargetRejected "webhook hostname returned no addresses")
      | _ => do! addresses := lift (public_addresses raw) in ret (target_of parsed h 443 addresses)
      end : eff F egress_error ResolvedWebhookTarget) w1 = (w2, r') -> w2 = w1) as Hrest.
  { intros _ a b raw r' Hk. destruct raw; [by injection Hk as <- _|].
    by apply bind_cases in Hk as [(e & [= <- _] & _)|(l & w3 & [= <- _] & [= <- _])]. }
  apply bind_cases in E as [(e & E & _)|(raw & w1 & E & Hk)]; [|apply (Hrest w) in Hk as ->];
    (destruct (ip_address h); [by injection E as <- _; left|]); unfold system_resolver in E;
    destruct (getaddrinfo h 443 w) as [w2 a] eqn:Eg; injection E as <- _; right; exists h; by rewrite Eg.
Qed.

Lemma resolve_ok url (w w' : F) t : resolve_webhook_target check_netloc idna url w = (w', Ok t) ->
  exists parsed h raw, parse_target check_netloc idna url = Ok (parsed, h, 443) /\ answered h w raw /\ raw <> [] /\
    public_addresses raw = Ok (t_addresses t) /\ t_hostname t = h /\ t_port t = 443.
Proof.
  unfold resolve_webhook_target. intros E.
  apply bind_cases in E as [(e & _ & [=])|([[parsed h] p] & w1 & [= <- Hp] & E)].
  pose proof (parsed_port _ _ _ _ Hp) as ->. apply bind_cases in E as [(e & _ & [=])|(raw & w1 & E & Hk)].
  exists parsed, h, raw. split; [done|]. split.
  - unfold answered. destruct (ip_address h); [by injection E as _ <-|]. unfold system_resolver in E.
    destruct (getaddrinfo h 443 w) as [w2 a]. simpl. destruct a; [by injection E as _ <-|done|done].
  - destruct raw as [|v raw]; [done|]. split; [done|].
    apply bind_cases in Hk as [(e & _ & [=])|(l & w2 & [= <- Hl] & [= _ <-])]. simpl. by rewrite Hl.
Qed.
End Resolved.

(** *** Traffic *)

(** Where connections were asked for, over which sockets TLS was set up for
    which server, over which a request went, and how many are open. *)
Record traffic (Sock : Type) : Type := MkTraffic {
  contacts : list (string * Z); secured : list (Sock * string); exchanged : list Sock; open_sockets : nat }.
Arguments MkTraffic {Sock}.
Arguments contacts {Sock}.
Arguments secured {Sock}.
Arguments exchanged {Sock}.
Arguments open_sockets {Sock}.

Section Traffic.
Context (check_netloc : string -> py unit) (idna : string -> option string).
Context {F Sock : Type} `{EgressNet F Sock} (seen : F -> traffic Sock) (peer : Sock -> string).

Class LawfulNet : Prop := {
  getaddrinfo_law h p w : seen (getaddrinfo h p w).1 = seen w;
  create_law a p w :
    let '(w', r) := create_connection a p w in
    seen w' = MkTraffic (contacts (seen w) ++ [(a, p)]) (secured (seen w)) (exchanged (seen w))
                (match r with NetOk _ => S (open_sockets (seen w)) | _ => open_sockets (seen w) end);
  peer_law s w :
    let '(w', r) := getpeername s w in seen w' = seen w /\ forall n, r = NetOk n -> n = peer s;
  wrap_law s h w :
    let '(w', r) := wrap_socket s h w in
    seen w' = MkTraffic (contacts (seen w)) (secured (seen w) ++ match r with NetOk _ => [(s, h)] | _ => [] end)
                (exchanged (seen w)) (open_sockets (seen w));
  exchange_law s t body headers w :
    seen (exchange s t body headers w).1 =
    MkTraffic (contacts (seen w)) (secured (seen w)) (exchanged (seen w) ++ [s]) (open_sockets (seen w));
  close_law s w :
    seen (close_socket s w) = MkTraffic (contacts (seen w)) (secured (seen w)) (exchanged (seen w)) (pred (open_sockets (seen w)));
}.
Context `{!LawfulNet}.

(** Only public hosts were contacted, requests went only over TLS to one of
    them, and no socket stays open. *)
Definition public_contact (c : string * Z) : Prop := exists a, outside a = true /\ c = (compressed a, 443).
Definition public_traffic (w w' : F) : Prop :=
  open_sockets (seen w') = open_sockets (seen w) /\
  exists k sec e, contacts (seen w') = contacts (seen w) ++ k /\ secured (seen w') = secured (seen w) ++ sec /\
    exchanged (seen w') = exchanged (seen w) ++ e /\ Forall public_contact k /\
    forall s, s ∈ e -> (exists a, ip_address (peer s) = Some a /\ outside a = true) /\
      exists url parsed h, parse_target check_netloc idna url = Ok (parsed, h, 443) /\ (s, h) ∈ sec.

#[local] Instance public_traffic_preorder : PreOrder public_traffic.
Proof.
  split.
  - intros w. split; [done|]. exists [], [], []. rewrite !app_nil_r. do 3 (split; [done|]). split; [constructor|]. by intros s ?%elem_of_nil.
  - intros a b c (Ho & k & sec & e & Hk & Hs & He & Fk & Fe) (Ho' & k' & sec' & e' & Hk' & Hs' & He' & Fk' & Fe').
    split; [congruence|]. exists (k ++ k'), (sec ++ sec'), (e ++ e'). rewrite Hk', Hk, Hs', Hs, He', He, !app_assoc.
    do 3 (split; [done|]). split; [by apply Forall_app|]. intros s [Hin|Hin]%elem_of_app.
    + destruct (Fe _ Hin) as (Hp & url & parsed & h & Hu & Hh). split; [done|]. exists url, parsed, h. split; [done|]. set_solver.
    + destruct (Fe' _ Hin) as (Hp & url & parsed & h & Hu & Hh). split; [done|]. exists url, parsed, h. split; [done|]. set_solver.
Qed.

Lemma same_traffic w w' : seen w' = seen w -> public_traffic w w'.
Proof.
  intros E. split; [by rewrite E|]. exists [], [], []. rewrite E, !app_nil_r. do 3 (split; [done|]).
  split; [constructor|]. by intros s ?%elem_of_nil.
Qed.

Lemma secure_step t address s (w w' : F) r : secure t address s w = (w', r) ->
  match r with
  | Ok _ => (exists a, ip_address (peer s) = Some a /\ outside a = true) /\
      seen w' = MkTraffic (contacts (seen w)) (secured (seen w) ++ [(s, t_hostname t)]) (exchanged (seen w)) (open_sockets (seen w))
  | Err _ => seen w' = seen w
  end.
Proof.
  unfold secure. intros E. pose proof (peer_law s w) as Hp.
  assert (forall f : F -> F * net_result string, net f w = ((f w).1, match (f w).2 with NetOk a => Ok a | NetFailed => Err NetworkFailure | NetEscaped x m => Err (EgressEscaped x m) end)) as Hnet.
  { intros f. unfold net. by destruct (f w). }
  apply bind_cases in E as [(e & E & ->)|(name & w1 & E & Hk)]; rewrite Hnet in E; destruct (getpeername s w) as [w2 o];
    destruct Hp as [Hs Hn]; simpl in E.
  { injection E as <- _. done. }
  destruct o as [n| |]; [|done..]. injection E as <- <-. rewrite (Hn n eq_refl) in Hk.
  apply bind_cases in Hk as [(e & [= <- _] & ->)|(a & w3 & [= <- Ha] & Hk)]; [done|].
  case_bool_decide; [|injection Hk as <- <-; done].
  unfold net in Hk. pose proof (wrap_law s (t_hostname t) w2) as Hw. destruct (wrap_socket s (t_hostname t) w2) as [w4 o].
  injection Hk as <- <-. rewrite Hs in Hw. destruct o as [[]| |]; rewrite Hw; rewrite ?app_nil_r; [|by destruct (seen w)..].
  split; [|done]. apply public_outside in Ha as [Ha Ho]. by exists a.
Qed.

Lemma net_run {A} (f : F -> F * net_result A) w :
  net f w = ((f w).1, match (f w).2 with NetOk a => Ok a | NetFailed => Err NetworkFailure | NetEscaped x m => Err (EgressEscaped x m) end).
Proof. unfold net. by destruct (f w). Qed.

Lemma connect_step t address (w w' : F) r : connect t address w = (w', r) ->
  contacts (seen w') = contacts (seen w) ++ [(address, t_port t)] /\ exchanged (seen w') = exchanged (seen w) /\
  match r with
  | Ok s => (exists a, ip_address (peer s) = Some a /\ outside a = true) /\
      secured (seen w') = secured (seen w) ++ [(s, t_hostname t)] /\ open_sockets (seen w') = S (open_sockets (seen w))
  | Err _ => open_sockets (seen w') = open_sockets (seen w) /\ secured (seen w') = secured (seen w)
  end.
Proof.
  unfold connect. intros E. pose proof (create_law address (t_port t) w) as Hc.
  apply bind_cases in E as [(e & E & ->)|(s & w1 & E & Hk)]; rewrite net_run in E; destruct (create_connection address (t_port t) w) as [w2 o];
    simpl in E.
  - injection E as <- Ho. rewrite Hc. simpl. by destruct o.
  - destruct o as [s'| |]; [|done..]. injection E as <- ->.
    destruct (secure t address s w2) as [w3 o] eqn:Es. apply secure_step in Es. destruct o as [[]|e]; injection Hk as <- <-.
    + destruct Es as [Hp Hs]. rewrite Hs, Hc. simpl. done.
    + rewrite close_law, Es, Hc. simpl. done.
Qed.

Lemma post_step t body headers (w w' : F) r url parsed h :
  parse_target check_netloc idna url = Ok (parsed, h, 443) -> t_hostname t = h -> t_port t = 443 ->
  (forall s, s ∈ t_addresses t -> exists a, outside a = true /\ s = compressed a) ->
  post_pinned t body headers w = (w', r) -> public_traffic w w'.
Proof.
  intros Hu Hh Hp Ha E. unfold post_pinned in E. destruct (t_addresses t) as [|address rest] eqn:El; [by injection E as <- _|].
  assert (public_contact (address, 443)) as Hcon.
  { destruct (Ha address) as (a & ? & ->); [constructor|]. by exists a. }
  apply bind_cases in E as [(e & E & _)|(s & w1 & E & Hk)]; apply connect_step in E as (Hc & Hx & Hr).
  - destruct Hr as [Ho Hs]. split; [done|]. exists [(address, 443)], [], []. rewrite Hc, Hx, Hs, Hp, !app_nil_r.
    do 3 (split; [done|]). split; [by apply Forall_singleton|]. by intros s ?%elem_of_nil.
  - destruct Hr as (Hpub & Hs & Ho). rewrite net_run in Hk. injection Hk as <- _.
    split; [by rewrite close_law, exchange_law; simpl; rewrite Ho|].
    exists [(address, 443)], [(s, h)], [s]. rewrite close_law, exchange_law. simpl. rewrite Hc, Hs, Hx, Hp, Hh.
    do 3 (split; [done|]). split; [by apply Forall_singleton|]. intros s' ->%list_elem_of_singleton. split; [done|].
    exists url, parsed, h. split; [done|]. by apply list_elem_of_singleton.
Qed.

Lemma attempt_public url body headers w : public_traffic w (egress_attempt check_netloc idna url body headers w).1.
Proof.
  unfold egress_attempt. destruct (bind _ _ w) as [w' r] eqn:E. simpl.
  assert (forall w1, w1 = w \/ (exists h, w1 = (getaddrinfo h 443 w).1) -> public_traffic w w1) as Hres.
  { intros w1 [->|(h & ->)]; [done|]. apply same_traffic, getaddrinfo_law. }
  apply bind_cases in E as [(e & E & _)|(t & w1 & E & Hk)]; apply resolve_cases in E as Hw.
  - by apply Hres.
  - etrans; [by apply Hres|]. apply resolve_ok in E as (parsed & h & raw & Hu & _ & _ & (_ & _ & Hl)%public_addresses_ok & Hh & Hp).
    eapply post_step; [exact Hu|done..| |exact Hk]. intros s (v & a & _ & _ & Ho & Hs)%Hl. by exists a.
Qed.

(** *** Deliveries *)

Section Deliveries.
Context (wall_seconds : F -> F * Z) (wall_clock : F -> F * datetime) (fresh_id : F -> F * string) (pause : float -> F -> F).
Context (Hseconds : forall w, seen (wall_seconds w).1 = seen w) (Hclock : forall w, seen (wall_clock w).1 = seen w)
  (Hid : forall w, seen (fresh_id w).1 = seen w) (Hpause : forall d w, seen (pause d w) = seen w).
Definition egress_delivery : DeliveryDeps F :=
  {| WebhookDelivery.wall_seconds := wall_seconds; WebhookDelivery.wall_clock := wall_clock; WebhookDelivery.fresh_id := fresh_id;
     WebhookDelivery.pause := pause; post := egress_attempt check_netloc idna |}.
#[local] Existing Instance egress_delivery.

Lemma keeps_from_world {A} (f : F -> F * A) :
  (forall w, public_traffic w (f w).1) -> keeps (E:=delivery_error) public_traffic (from_world f).
Proof. intros Hf w. unfold from_world. specialize (Hf w). by destruct (f w). Qed.

Lemma keeps_deliveries url body headers id delays : forall n status error,
  keeps public_traffic (attempts (F:=F) url body headers id n delays status error).
Proof.
  induction delays as [|d rest IH]; intros n status error; simpl; [by intros w|]. apply keeps_bind.
  { destruct (fltb _ _); intros w; simpl; [apply same_traffic, Hpause|done]. }
  intros _. apply keeps_bind; [apply keeps_from_world; intros w; apply attempt_public|].
  intros [s| | |t m]; [|by intros w|apply IH|by intros w].
  destruct (_ && _); [by intros w|]. destruct (negb _); [by intros w|apply IH].
Qed.
Lemma keeps_dispatch hmac workload_id consumer payload subscriptions delays :
  keeps public_traffic (dispatch_completion (F:=F) hmac workload_id consumer payload subscriptions delays).
Proof.
  apply keeps_traverse. intros [[sub_id url] secret]. unfold deliver.
  apply keeps_bind; [apply keeps_from_world; intros w; apply same_traffic, Hid|]. intros id.
  apply keeps_bind; [apply keeps_from_world; intros w; apply same_traffic, Hclock|]. intros now.
  apply keeps_bind; [|by intros o w]. unfold send_webhook_with_retry. apply keeps_bind; [by intros w|]. intros body.
  apply keeps_bind; [|intros headers; apply keeps_deliveries].
  unfold signed_headers. destruct secret as [[|c s]|]; [by intros w| |by intros w].
  apply keeps_bind; [apply keeps_from_world; intros w; apply same_traffic, Hseconds|]. by intros t w.
Qed.

(** ** Theorems *)

End Deliveries.
End Traffic.

(** A target is accepted only when every answer of the resolver - or the host
    itself, when it is an address - is public; it then holds these addresses,
    each once and in compressed form, and goes to port 443. *)
Theorem accepted_target_is_public {F Sock : Type} `{EgressNet F Sock} check_netloc idna url (w w' : F) t :
  resolve_webhook_target check_netloc idna url w = (w', Ok t) ->
  t_port t = 443 /\ t_addresses t <> [] /\ NoDup (t_addresses t) /\
  exists raw, answered (t_hostname t) w raw /\
    (forall v, v ∈ raw -> exists a, ip_address v = Some a /\ outside a = true /\ compressed a ∈ t_addresses t) /\
    (forall s, s ∈ t_addresses t -> exists v a, v ∈ raw /\ ip_address v = Some a /\ s = compressed a).
Proof.
  intros (parsed & h & raw & _ & Ha & Hne & (Hnd & Hfw & Hbw)%public_addresses_ok & <- & Hp)%resolve_ok.
  split; [done|]. split.
  - destruct raw as [|v raw]; [done|]. destruct (Hfw v) as (a & _ & _ & Hin); [constructor|]. intros Hnil. rewrite Hnil in Hin. by apply elem_of_nil in Hin.
  - split; [done|]. exists raw. split; [done|]. split; [done|]. intros s (v & a & ? & ? & _ & ?)%Hbw. by exists v, a.
Qed.

(** ** Examples *)
Module EgressSim.
(** Answers by name, and the traffic; a socket is the address it goes to. *)
Record world : Type := MkWorld { names : list (string * list string); log : traffic string }.
Definition with_log (w : world) (l : traffic string) : world := MkWorld (names w) l.
#[global] Instance network : EgressNet world string := {|
  getaddrinfo h _ w := (w, match al_get h (names w) with Some l => Addresses l | None => ResolutionFailed end);
  create_connection a p w :=
    (with_log w (MkTraffic (contacts (log w) ++ [(a, p)]) (secured (log w)) (exchanged (log w)) (S (open_sockets (log w)))), NetOk a);
  getpeername s w := (w, NetOk s);
  wrap_socket s h w :=
    (with_log w (MkTraffic (contacts (log w)) (secured (log w) ++ [(s, h)]) (exchanged (log w)) (open_sockets (log w))), NetOk tt);
  exchange s _ _ _ w :=
    (with_log w (MkTraffic (contacts (log w)) (secured (log w)) (exchanged (log w) ++ [s]) (open_sockets (log w))), NetOk 200);
  close_socket s w :=
    with_log w (MkTraffic (contacts (log w)) (secured (log w)) (exchanged (log w)) (pred (open_sockets (log w))));
|}.
#[global] Instance lawful : LawfulNet log (fun s => s).
Proof. split; try done. intros s w. split; [done|]. by intros n [= <-]. Defined.

Definition any_netloc (s : string) : py unit := Ok tt.
Definition ascii_only (s : string) : option string := None.
Definition start (names : list (string * list string)) : world := MkWorld names (MkTraffic [] [] [] 0).
Definition resolve (url : string) (names : list (string * list string)) : result egress_error (list string) :=
  rmap t_addresses (resolve_webhook_target any_netloc ascii_only url (start names)).2.
Definition refused (url : string) : bool :=
  match resolve url [("hook.test", ["93.184.216.34"])] with Err (WebhookTargetRejected _) => true | _ => false end.

Example hook_ex : resolve "https://Hook.Test./x?y=1" [("hook.test", ["93.184.216.34"; "2606:2800:220:1::1"; "93.184.216.34"])]
  = Ok ["93.184.216.34"; "2606:2800:220:1::1"].
Proof. vm_compute. reflexivity. Qed.
Example refused_targets_ex : forallb refused
  ["http://hook.test/"; "https://hook.test:8443/"; "https://user@hook.test/"; "https://hook.test/#f"; "https://localhost/";
   "https://a.localhost./"; "https://127.0.0.1/"; "https://[::1]/"; "https://[::ffff:10.0.0.1]/"; "https://2130706433/";
   "https://0177.0.0.1/"; "https://169.254.169.254/"; "https://hook.test\@evil/"; "https://100.64.0.1/"; "https://[fd00::1]/"] = true.
Proof. vm_compute. reflexivity. Qed.
(** One private answer among public ones refuses the target. *)
Example mixed_answers : resolve "https://hook.test/" [("hook.test", ["93.184.216.34"; "10.0.0.1"])]
  = Err (WebhookTargetRejected "webhook target must resolve only to global addresses").
Proof. vm_compute. reflexivity. Qed.
(** Site-local addresses, which no flag of the module covers, pass. *)
Example site_local_passes : resolve "https://[fec0::1]/" [] = Ok ["fec0::1"].
Proof. vm_compute. reflexivity. Qed.

Definition clock (w : world) : world * datetime := (w, utc 0).
Definition send (names : list (string * list string)) : world * result delivery_error (list (Z * DeliveryOutcome)) :=
  @dispatch_completion world (egress_delivery any_netloc ascii_only (fun w => (w, 0)) clock (fun w => (w, "d1")) (fun _ w => w))
    (fun _ _ => "sig") "w1" "c" [] [(1, "https://hook.test/a", None); (2, "https://internal.test/b", None)] [fzero] (start names).
Example sent_ex : log (send [("hook.test", ["93.184.216.34"]); ("internal.test", ["10.0.0.1"])]).1
  = MkTraffic [("93.184.216.34", 443)] [("93.184.216.34", "hook.test")] ["93.184.216.34"] 0.
Proof. vm_compute. reflexivity. Qed.
End EgressSim.


Lemma accepted_target_is_public_witness :
  exists t, EgressSim.resolve "https://hook.test/" [("hook.test", ["93.184.216.34"])] = Ok (t_addresses t) /\ t_port t = 443.
Proof.
  destruct (resolve_webhook_target EgressSim.any_netloc EgressSim.ascii_only "https://hook.test/"
    (EgressSim.start [("hook.test", ["93.184.216.34"])])) as [w' [t|e]] eqn:E; [|by vm_compute in E].
  exists t. split; [unfold EgressSim.resolve; by rewrite E|].
  destruct (accepted_target_is_public EgressSim.any_netloc EgressSim.ascii_only "https://hook.test/" _ w' t E) as (H & _). exact H.
Defined.
