(* ===== verification/Retention.v ===== *)
(** * Archive and purge of workloads ([retention/archive.py])

    One run selects a batch of old terminal workloads, writes it encrypted to
    a directory of its own, and when asked deletes the rows and what belongs
    to them, all in one transaction.  [RetentionDeps] is the clock, random
    bytes, the locks other sessions hold, and whether the next statement or
    write succeeds; the cipher, SHA-256 and base64 are parameters. *)

From Stdlib Require Import Ascii.
From S2P Require Import Prelude PyDecimal PyValue PyEq PyTime PyFormat PyJson PyJsonRead PyOrder.
From S2P Require Import Effects Enums WorkloadStore.

(** Definitions *)

Definition ARCHIVE_RETENTION_DAYS : Z := 90.
Definition DEFAULT_BATCH_SIZE : Z := 1000.
Definition MAX_BATCH_SIZE : Z := 10000.
Definition TERMINAL_STATES : list string := ["completed"; "failed"; "cancelled"; "timed_out"].

(** ** The tables and the world *)

(** Rows of the other tables under what they belong to: a RunPod job, a
    workload. *)
Record tables : Type := MkTables {
  tb_db : workload_db;
  tb_deliveries : list (string * dict);
  tb_failures : list (string * dict);
  tb_runs : list dict;
  tb_audit : list (string * string * dict);          (* entity, action, new value *)
}.
Record ret_world (F : Type) : Type := MkWorld { rw_tables : tables; rw_files : gmap string string; rw_outside : F }.
Arguments MkWorld {F}.
Arguments rw_tables {F}.
Arguments rw_files {F}.
Arguments rw_outside {F}.

(** A write that fails may have left the complete file. *)
Inductive disk_outcome := DiskOk | DiskFailed | DiskLate.

Class RetentionDeps (F : Type) := {
  utc_now : F -> F * datetime;
  run_suffix : F -> F * string;
  urandom : F -> F * string;
  row_locked : F -> string -> bool;
  statement : F -> F * bool;
  disk : F -> F * disk_outcome;
}.

Inductive ret_error :=
| RetExn (e : exn)
| RetDatabase
| RetOSError
| RetJson (e : json_error)
| RetObjects (type_name message : string).

(** The arguments of a run; [object_delete] is the adapter, and [codec] tells
    whether the pool decodes [jsonb] columns or hands them over as text. *)
Record run_options (F : Type) : Type := MkOptions {
  op_output_dir : string; op_older_than_days : Z; op_batch_size : Z; op_purge : bool; op_dry_run : bool;
  op_key : string; op_key_version : string; op_codec : bool;
  op_object_delete : option (list string -> F -> F * option (string * string)) }.
Arguments op_output_dir {F}.
Arguments op_older_than_days {F}.
Arguments op_batch_size {F}.
Arguments op_purge {F}.
Arguments op_dry_run {F}.
Arguments op_key {F}.
Arguments op_key_version {F}.
Arguments op_codec {F}.
Arguments op_object_delete {F}.

(** ** Rows *)

(** [_row_to_dict] of a value *)
Definition archived_value (v : pyval) : pyval := match v with VTime t => VStr (isoformat t) | _ => v end.

Section Rows.
Context (jsonb_text : pyval -> string) (codec : bool).

(** A [jsonb] cell as the driver returns it. *)
Definition jsonb_value (v : pyval) : pyval := if is_none v || codec then v else VStr (jsonb_text v).
Definition column_value (row : dict) (column : string) : pyval :=
  let v := dict_get_none column row in
  if bool_decide (column ∈ ["input"; "result"; "error"]) then jsonb_value v else v.

(** A row of [_SELECT_BATCH], converted. *)
Definition related (tb : tables) (i : string) (row : dict) : dict :=
  let objects l := jsonb_value (VList (VDict <$> l)) in
  [("related_idempotency_keys",
      objects ((fun kv => [("idempotency_key", VStr kv.1); ("workload_id", VStr kv.2)]) <$>
                 filter (fun kv => kv.2 = i) (map_to_list (idempotency_keys (tb_db tb)))));
   ("related_inbound_webhooks",
      objects (snd <$> filter (fun d => as_str (dict_get_none "runpod_job_id" row) = Some d.1) (tb_deliveries tb)));
   ("related_outbound_webhook_failures", objects (snd <$> filter (fun d => d.1 = i) (tb_failures tb)))].
Definition selected_row (tb : tables) (i : string) (row : dict) : dict :=
  (fun kv => (kv.1, archived_value kv.2)) <$>
    (((fun c => (c, column_value row c)) <$> workload_columns.*1) ++ related tb i row).
End Rows.

Definition submitted (row : dict) : Z := match dict_get_none "submitted_at" row with VTime t => dt_us t | _ => 0 end.
Definition expired (cutoff : datetime) (row : dict) : Prop :=
  submitted row < dt_us cutoff /\ state_of row ∈ TERMINAL_STATES.
#[global] Instance expired_dec cutoff row : Decision (expired cutoff row).
Proof. unfold expired. apply _. Defined.

(** [_SELECT_BATCH]: unlocked rows, oldest first. *)
Definition batch_order : cmp (string * dict) := tuple_key [by_ (fun kv => submitted kv.2) Z.compare; by_ fst String.compare].
Definition select_batch (locked : string -> bool) (tb : tables) (cutoff : datetime) (limit : Z) : list (string * dict) :=
  take (Z.to_nat limit) (sort_by (less batch_order)
    (filter (fun kv => expired cutoff kv.2 /\ locked kv.1 = false) (map_to_list (workloads (tb_db tb))))).

(** [_object_keys] *)
Fixpoint object_keys (v : pyval) : list string :=
  match v with
  | VDict m =>
      (fix go (m : list (string * pyval)) := match m with
        | [] => []
        | (name, child) :: m' =>
            (match child with
             | VStr s => if bool_decide (name ∈ ["r2_key"; "object_key"; "staging_key"]) then [s] else []
             | _ => []
             end) ++ object_keys child ++ go m'
        end) m
  | VList l => (fix go (l : list pyval) := match l with [] => [] | x :: l' => object_keys x ++ go l' end) l
  | _ => []
  end.
(** [sorted(_object_keys(rows))] *)
Definition external_keys (rows : list dict) : list string :=
  sort_by (less String.compare) (dedup (object_keys (VList (VDict <$> rows)))).

(** ** Deleting *)

(** [_delete_related] *)
Definition row_text (row : dict) (k : string) : option string := as_str (dict_get_none k row).
Definition delete_keys (ids : list string) (tb : tables) : tables :=
  MkTables (MkWorkloadDb (workloads (tb_db tb)) (filter (fun kv => kv.2 ∉ ids) (idempotency_keys (tb_db tb))))
    (tb_deliveries tb) (tb_failures tb) (tb_runs tb) (tb_audit tb).
Definition delete_deliveries (jobs : list string) (tb : tables) : tables :=
  MkTables (tb_db tb) (filter (fun d => d.1 ∉ jobs) (tb_deliveries tb)) (tb_failures tb) (tb_runs tb) (tb_audit tb).
Definition delete_failures (ids : list string) (tb : tables) : tables :=
  MkTables (tb_db tb) (tb_deliveries tb) (filter (fun d => d.1 ∉ ids) (tb_failures tb)) (tb_runs tb) (tb_audit tb).
Definition doomed (ids : list string) (cutoff : datetime) (kv : string * dict) : Prop := kv.1 ∈ ids /\ expired cutoff kv.2.
#[global] Instance doomed_dec ids cutoff kv : Decision (doomed ids cutoff kv).
Proof. unfold doomed. apply _. Defined.
Definition delete_workloads (ids : list string) (cutoff : datetime) (tb : tables) : tables * Z :=
  let rows := workloads (tb_db tb) in
  (MkTables (MkWorkloadDb (filter (fun kv => ~ doomed ids cutoff kv) rows) (idempotency_keys (tb_db tb)))
     (tb_deliveries tb) (tb_failures tb) (tb_runs tb) (tb_audit tb),
   Z.of_nat (size (filter (doomed ids cutoff) rows))).
Definition job_ids (rows : list dict) : list string :=
  omap (fun row => match row_text row "runpod_job_id" with Some (String _ _ as s) => Some s | _ => None end) rows.

Section Run.
Context {F : Type} `{RetentionDeps F}.
Context (jsonb_text : pyval -> string) (sha256 : string -> string).
Context (b64decode : string -> option string) (b64encode : string -> string).
Context (encrypt : string -> string -> string -> string -> string).       (* key, nonce, plaintext, aad *)
Abbreviation op := (eff (ret_world F) ret_error).

Definition raises {A} (r : py A) : op A := lift (rlift RetExn r).
Definition from_outside {A} (f : F -> F * A) : op A :=
  fun w => let '(o, a) := f (rw_outside w) in (MkWorld (rw_tables w) (rw_files w) o, Ok a).
Definition on_tables {A} (f : tables -> tables * A) : op A :=
  fun w => let '(o, ok) := statement (rw_outside w) in
           if ok : bool then let '(tb, a) := f (rw_tables w) in (MkWorld tb (rw_files w) o, Ok a)
           else (MkWorld (rw_tables w) (rw_files w) o, Err RetDatabase).
(** [conn.transaction()]: the tables of the beginning come back when the
    body or the commit fails. *)
Definition transaction {A} (m : op A) : op A :=
  fun w => match (do! a := m in on_tables (fun tb => (tb, a))) w with
           | (w', Ok a) => (w', Ok a)
           | (w', Err e) => (MkWorld (rw_tables w) (rw_files w') (rw_outside w'), Err e)
           end.
(** [_atomic_write] *)
Definition atomic_write (path data : string) : op unit :=
  fun w => let '(o, d) := disk (rw_outside w) in
           match d with
           | DiskOk => (MkWorld (rw_tables w) (<[path := data]> (rw_files w)) o, Ok tt)
           | DiskFailed => (MkWorld (rw_tables w) (rw_files w) o, Err RetOSError)
           | DiskLate => (MkWorld (rw_tables w) (<[path := data]> (rw_files w)) o, Err RetOSError)
           end.
(** [_secure_directory] *)
Definition secure_directory : op unit :=
  fun w => let '(o, d) := disk (rw_outside w) in
           (MkWorld (rw_tables w) (rw_files w) o, match d with DiskOk => Ok tt | _ => Err RetOSError end).
Definition read_file (path : string) : op string :=
  fun w => match rw_files w !! path with Some s => (w, Ok s) | None => (w, Err RetOSError) end.
Definition sha256_file (path : string) : op string := do! s := read_file path in ret (sha256 s).

(** [_canonical_json] *)
Definition canonical_json (v : pyval) : py string := dumps true true true v.
Definition newline : string := String (ascii_of_nat 10) EmptyString.
Definition line_of (row : dict) : py string := rmap (fun s => s +:+ newline) (canonical_json (VDict row)).
(** [_decode_key] *)
Definition decode_key (value : string) : py string :=
  match b64decode value with
  | None => Err (ValueError "archive encryption key must be URL-safe base64")
  | Some key => if (String.length key =? 32)%nat then Ok key
                else Err (ValueError "archive encryption key must decode to exactly 32 bytes")
  end.

(** The run id: start and random suffix. *)
Definition run_stamp (t : datetime) : string :=
  let us := dt_us t mod 86400000000 in
  let '(y, m, d) := civil_from_days (dt_us t / 86400000000) in
  let secs := us / 1000000 in
  str_int y +:+ pad_left 2 (str_int m) +:+ pad_left 2 (str_int d) +:+ "T" +:+ pad_left 2 (str_int (secs / 3600)) +:+
  pad_left 2 (str_int (secs / 60 mod 60)) +:+ pad_left 2 (str_int (secs mod 60)) +:+ "Z".
Definition mode_of (o : run_options F) : string :=
  if op_dry_run o then "dry-run" else if op_purge o then "archive-purge" else "archive".

(** What a run knows before its transaction. *)
Record run_info : Type := MkInfo { ri_started : datetime; ri_cutoff : datetime; ri_id : string }.
Definition directory (o : run_options F) (i : run_info) : string := op_output_dir o +:+ "/" +:+ ri_id i.
Definition archive_path (o : run_options F) (i : run_info) : string := directory o i +:+ "/workloads.jsonl.enc".
Definition manifest_path (o : run_options F) (i : run_info) : string := directory o i +:+ "/manifest.json".
Definition aad_of (o : run_options F) (i : run_info) : string :=
  "pitwall-retention:1:" +:+ ri_id i +:+ ":" +:+ op_key_version o.

Definition dry_manifest (o : run_options F) (i : run_info) (n : Z) : dict :=
  [("format_version", VInt 1); ("run_id", VStr (ri_id i)); ("mode", VStr (mode_of o));
   ("cutoff_at", VStr (isoformat (ri_cutoff i))); ("workload_count", VInt n); ("deleted_count", VInt 0);
   ("database_committed", VBool false)].
Definition pending_manifest (o : run_options F) (i : run_info) (n : Z) (nonce cipher sha : string) : dict :=
  [("format_version", VInt 1); ("run_id", VStr (ri_id i)); ("mode", VStr (mode_of o));
   ("started_at", VStr (isoformat (ri_started i))); ("cutoff_at", VStr (isoformat (ri_cutoff i)));
   ("workload_count", VInt n); ("deleted_count", VInt 0); ("key_version", VStr (op_key_version o));
   ("cipher", VStr "AES-256-GCM"); ("nonce_b64", VStr (b64encode nonce)); ("aad", VStr (aad_of o i));
   ("archive_file", VStr "workloads.jsonl.enc"); ("archive_size_bytes", VInt (Z.of_nat (String.length cipher)));
   ("archive_sha256", VStr sha); ("database_commit_status", VStr "pending"); ("commit_evidence_file", VStr "commit.json")].

(** The encrypted file and its manifest. *)
Definition write_archive (o : run_options F) (i : run_info) (rows : list dict) : op unit :=
  secure_directory ;!
  do! lines := raises (mapR line_of rows) in
  let plaintext := String.concat EmptyString lines in
  do! nonce := from_outside urandom in
  do! key := raises (decode_key (op_key o)) in
  let cipher := encrypt key nonce plaintext (aad_of o i) in
  atomic_write (archive_path o i) cipher ;!
  do! sha := sha256_file (archive_path o i) in
  do! manifest := raises (canonical_json (VDict (pending_manifest o i (Z.of_nat (length rows)) nonce cipher sha))) in
  atomic_write (manifest_path o i) manifest.

(** The deletions of a purge. *)
Definition delete_related (rows : list dict) (cutoff : datetime) : op Z :=
  let ids := omap (fun row => row_text row "id") rows in
  on_tables (fun tb => (delete_keys ids tb, tt)) ;!
  (match job_ids rows with [] => ret tt | jobs => on_tables (fun tb => (delete_deliveries jobs tb, tt)) end) ;!
  on_tables (fun tb => (delete_failures ids tb, tt)) ;!
  on_tables (delete_workloads ids cutoff).
Definition delete_objects (o : run_options F) (keys : list string) : op unit :=
  match keys, op_object_delete o with
  | [], _ => ret tt
  | _, None => fail (RetExn (RuntimeError "archive contains object-storage keys but no deletion adapter"))
  | _, Some f => do! r := from_outside (f keys) in
                 match r with None => ret tt | Some (t, m) => fail (RetObjects t m) end
  end.
Definition purge_rows (o : run_options F) (i : run_info) (rows : list dict) : op Z :=
  if op_purge o && negb (bool_decide (rows = []))
  then delete_objects o (external_keys rows) ;! delete_related rows (ri_cutoff i)
  else ret 0.

(** The two audit rows. *)
Definition run_row (o : run_options F) (i : run_info) (completed : datetime) (sha : string) (n deleted : Z) : dict :=
  [("id", VStr (ri_id i)); ("started_at", VTime (ri_started i)); ("completed_at", VTime completed);
   ("cutoff_at", VTime (ri_cutoff i)); ("mode", VStr (mode_of o)); ("archive_path", VStr (directory o i));
   ("manifest_sha256", VStr sha); ("workload_count", VInt n); ("deleted_count", VInt deleted);
   ("key_version", VStr (op_key_version o)); ("status", VStr "completed")].
Definition audit_action (o : run_options F) : string := if op_purge o then "purge" else "archive".
Definition insert_run (row : dict) (tb : tables) : tables :=
  MkTables (tb_db tb) (tb_deliveries tb) (tb_failures tb) (tb_runs tb ++ [row]) (tb_audit tb).
Definition insert_audit (a : string * string * dict) (tb : tables) : tables :=
  MkTables (tb_db tb) (tb_deliveries tb) (tb_failures tb) (tb_runs tb) (tb_audit tb ++ [a]).
Definition record_run (o : run_options F) (i : run_info) (n deleted : Z) : op unit :=
  do! completed := from_outside utc_now in
  do! sha := sha256_file (manifest_path o i) in
  on_tables (fun tb => (insert_run (run_row o i completed sha n deleted) tb, tt)) ;!
  on_tables (fun tb => (insert_audit (ri_id i, audit_action o, [("workload_count", VInt n); ("deleted_count", VInt deleted)]) tb, tt)).

(** The transaction: the manifest of a dry run, or the number of deleted rows. *)
Definition run_body (o : run_options F) (i : run_info) : op (dict + Z) :=
  do! w := get in
  let batch := select_batch (row_locked (rw_outside w)) (rw_tables w) (ri_cutoff i) (op_batch_size o) in
  do! rows := on_tables (fun tb => (tb, (fun kv => selected_row jsonb_text (op_codec o) tb kv.1 kv.2) <$> batch)) in
  if op_dry_run o then ret (inl (dry_manifest o i (Z.of_nat (length rows))))
  else
    write_archive o i rows ;!
    do! deleted := purge_rows o i rows in
    record_run o i (Z.of_nat (length rows)) deleted ;!
    ret (inr deleted).

(** After the commit: the evidence file and the completed manifest. *)
Definition commit_evidence (o : run_options F) (i : run_info) (deleted : Z) : op dict :=
  do! text := read_file (manifest_path o i) in
  do! v := lift (rlift RetJson (loads text)) in
  do! completed := from_outside utc_now in
  let m := match v with VDict m => m | _ => [] end in
  let m := al_set "database_committed" (VBool true)
             (al_set "completed_at" (VStr (isoformat completed)) (al_set "deleted_count" (VInt deleted) m)) in
  do! sha := sha256_file (manifest_path o i) in
  do! evidence := raises (canonical_json (VDict [("run_id", VStr (ri_id i)); ("database_committed", VBool true);
                                                  ("manifest_sha256", VStr sha)])) in
  atomic_write (directory o i +:+ "/commit.json") evidence ;!
  ret m.

(** [timedelta(days=n)] *)
Definition timedelta_days (n : Z) : py timedelta := if 999999999 <? n then Err OverflowError else Ok (n * 86400000000).

(** [archive_workloads_to_jsonl] *)
Definition archive_workloads (o : run_options F) : op dict :=
  if op_older_than_days o <? 1 then raises (Err (ValueError "older_than_days must be at least 1"))
  else if (op_batch_size o <? 1) || (MAX_BATCH_SIZE <? op_batch_size o)
  then raises (Err (ValueError "batch_size must be between 1 and 10000"))
  else if negb (op_dry_run o) && (negb (nonempty (op_key o)) || negb (nonempty (op_key_version o)))
  then raises (Err (ValueError "archive encryption key and key version are required"))
  else
    do! started := from_outside utc_now in
    do! cutoff := raises (let? d := timedelta_days (op_older_than_days o) in dt_add started (- d)) in
    do! suffix := from_outside run_suffix in
    let i := MkInfo started cutoff ("ret_" +:+ run_stamp started +:+ "_" +:+ suffix) in
    do! r := transaction (run_body o i) in
    match r with
    | inl manifest => ret manifest
    | inr deleted => commit_evidence o i deleted
    end.
End Run.

(** The primary key. *)
Definition keyed (tb : tables) : Prop := map_Forall (fun i row => dict_get_none "id" row = VStr i) (workloads (tb_db tb)).

(** ** Lemmas *)

Lemma select_batch_sound locked tb cutoff n kv :
  kv ∈ select_batch locked tb cutoff n ->
  workloads (tb_db tb) !! kv.1 = Some kv.2 /\ expired cutoff kv.2 /\ locked kv.1 = false.
Proof.
  unfold select_batch. intros H%(subseteq_take (Z.to_nat n)). rewrite elem_of_sort_by in H.
  apply list_elem_of_filter in H as [[He Hl] Hm]. destruct kv as [i row]. by apply elem_of_map_to_list in Hm.
Qed.

Lemma selected_id jsonb_text codec tb i row :
  dict_get_none "id" row = VStr i -> row_text (selected_row jsonb_text codec tb i row) "id" = Some i.
Proof. intros H. unfold row_text. cbn. unfold column_value. rewrite H. reflexivity. Qed.
Lemma batch_ids jsonb_text codec tb batch :
  Forall (fun kv => dict_get_none "id" kv.2 = VStr kv.1) batch ->
  omap (fun row => row_text row "id") ((fun kv => selected_row jsonb_text codec tb kv.1 kv.2) <$> batch) = batch.*1.
Proof.
  induction 1 as [|kv batch Hkv _ IH]; [done|]. rewrite !fmap_cons. cbn [omap list_omap].
  rewrite selected_id by done. f_equal. exact IH.
Qed.

(** What a purge leaves of the tables. *)
Definition purged (rows : list dict) (cutoff : datetime) (tb : tables) : tables :=
  let ids := omap (fun row => row_text row "id") rows in
  let tb := delete_keys ids tb in
  let tb := match job_ids rows with [] => tb | jobs => delete_deliveries jobs tb end in
  (delete_workloads ids cutoff (delete_failures ids tb)).1.

Lemma purged_workloads rows cutoff tb :
  workloads (tb_db (purged rows cutoff tb)) =
  filter (fun kv => ~ doomed (omap (fun row => row_text row "id") rows) cutoff kv) (workloads (tb_db tb)).
Proof. unfold purged. by destruct (job_ids rows). Qed.

Section Steps.
Context {F : Type} `{RetentionDeps F}.
Context (jsonb_text : pyval -> string) (sha256 : string -> string).
Context (b64decode : string -> option string) (b64encode : string -> string).
Context (encrypt : string -> string -> string -> string -> string).
Implicit Types (w : ret_world F) (o : run_options F).
Arguments run_body {F _}.

Definition same_tables : relation (ret_world F) := fun w w' => rw_tables w' = rw_tables w.
Definition same_file (path : string) : relation (ret_world F) := fun w w' => rw_files w' !! path = rw_files w !! path.
#[local] Instance same_tables_pre : PreOrder same_tables.
Proof. split; [done|]. intros a b c H1 H2. unfold same_tables in *. congruence. Qed.
#[local] Instance same_file_pre path : PreOrder (same_file path).
Proof. split; [done|]. intros a b c H1 H2. unfold same_file in *. congruence. Qed.

Lemma tables_outside {A} (f : F -> F * A) : keeps same_tables (from_outside f).
Proof. intros w. unfold from_outside. by destruct (f _). Qed.
Lemma tables_write p s : keeps same_tables (atomic_write p s).
Proof. intros w. unfold atomic_write. by destruct (disk _) as [? []]. Qed.
Lemma tables_secure : keeps same_tables secure_directory.
Proof. intros w. unfold secure_directory. by destruct (disk _). Qed.
Lemma tables_read p : keeps same_tables (read_file p).
Proof. intros w. unfold read_file. by destruct (_ !! _). Qed.
Lemma file_outside {A} p (f : F -> F * A) : keeps (same_file p) (from_outside f).
Proof. intros w. unfold from_outside. by destruct (f _). Qed.
Lemma file_write p q s : q <> p -> keeps (same_file p) (atomic_write q s).
Proof. intros Hq w. unfold atomic_write, same_file. destruct (disk _) as [? []]; simpl; by rewrite ?lookup_insert_ne. Qed.
Lemma file_read p q : keeps (same_file p) (read_file q).
Proof. intros w. unfold read_file. by destruct (_ !! _). Qed.
Lemma file_tables {A} p (f : tables -> tables * A) : keeps (same_file p) (on_tables f).
Proof. intros w. unfold on_tables. destruct (statement _) as [? []]; [|done]. by destruct (f _). Qed.
Hint Resolve tables_outside tables_write tables_secure tables_read file_outside file_read file_tables : keeps.
Hint Unfold sha256_file raises : keeps.

Lemma on_tables_Ok {A} (f : tables -> tables * A) w w' a :
  on_tables f w = (w', Ok a) -> f (rw_tables w) = (rw_tables w', a).
Proof. unfold on_tables. destruct (statement _) as [? []]; [|done]. destruct (f _). by intros [= <- <-]. Qed.
Lemma atomic_write_Ok p s w w' : atomic_write p s w = (w', Ok tt) -> rw_files w' !! p = Some s.
Proof. unfold atomic_write. destruct (disk _) as [? []]; [|done..]. intros [= <-]. apply lookup_insert_eq. Qed.
Lemma files_apart d : d +:+ "/manifest.json" <> d +:+ "/workloads.jsonl.enc" /\ d +:+ "/commit.json" <> d +:+ "/workloads.jsonl.enc".
Proof. split; by intros E%(inj (String.append d)). Qed.

(** The encrypted file of a run holds these rows. *)
Definition archived (o : run_options F) (i : run_info) (rows : list dict) (w : ret_world F) : Prop :=
  exists lines key nonce, mapR line_of rows = Ok lines /\ decode_key b64decode (op_key o) = Ok key /\
    rw_files w !! archive_path o i = Some (encrypt key nonce (String.concat EmptyString lines) (aad_of o i)).

Lemma archived_keeps {A} o i rows (m : eff (ret_world F) ret_error A) w w' r :
  keeps (same_file (archive_path o i)) m -> m w = (w', r) -> archived o i rows w -> archived o i rows w'.
Proof.
  intros Hm E (lines & key & nonce & ? & ? & Hf). specialize (Hm w). rewrite E in Hm. unfold same_file in Hm. simpl in Hm.
  exists lines, key, nonce. by rewrite Hm.
Qed.

Lemma write_archive_tables o i rows : keeps same_tables (write_archive sha256 b64decode b64encode encrypt o i rows).
Proof. unfold write_archive, sha256_file, raises. keep. Qed.
Lemma write_archive_Ok o i rows w w' :
  write_archive sha256 b64decode b64encode encrypt o i rows w = (w', Ok tt) -> archived o i rows w'.
Proof.
  unfold write_archive, raises. intros ([] & w1 & _ & E)%bind_Ok. apply bind_Ok in E as (lines & w2 & E2 & E).
  apply bind_Ok in E as (nonce & w3 & _ & E). apply bind_Ok in E as (key & w4 & E4 & E). apply bind_Ok in E as ([] & w5 & E5 & E).
  eapply (archived_keeps o i rows); [|exact E|].
  - destruct (files_apart (directory o i)). unfold sha256_file, raises. keep. by apply file_write.
  - injection E2 as _ E2. injection E4 as _ E4. apply rlift_Ok in E2, E4. exists lines, key, nonce.
    split; [done|]. split; [done|]. by apply atomic_write_Ok in E5.
Qed.

Lemma purge_rows_file p o i rows : keeps (same_file p) (purge_rows o i rows).
Proof.
  unfold purge_rows, delete_objects, delete_related, raises. destruct (_ && _); [|keep]. keep.
Qed.
Lemma record_run_file p o i n deleted : keeps (same_file p) (record_run sha256 o i n deleted).
Proof. unfold record_run, sha256_file. keep. Qed.

Lemma delete_objects_tables o keys : keeps same_tables (delete_objects o keys).
Proof. unfold delete_objects. keep. Qed.

Lemma delete_related_Ok rows cutoff w w' n :
  delete_related rows cutoff w = (w', Ok n) -> rw_tables w' = purged rows cutoff (rw_tables w).
Proof.
  unfold delete_related, purged. intros ([] & w1 & E1%on_tables_Ok & E)%bind_Ok. injection E1 as E1.
  apply bind_Ok in E as ([] & w2 & E2 & E). apply bind_Ok in E as ([] & w3 & E3%on_tables_Ok & E%on_tables_Ok). injection E3 as E3.
  rewrite <- E3 in E. rewrite E1. destruct (job_ids rows).
  - injection E2 as ->. by rewrite E.
  - apply on_tables_Ok in E2. injection E2 as E2. rewrite E2. by rewrite E.
Qed.

Definition purges (o : run_options F) (rows : list dict) : bool := op_purge o && negb (bool_decide (rows = [])).
Lemma purge_rows_Ok o i rows w w' n :
  purge_rows o i rows w = (w', Ok n) ->
  rw_tables w' = if purges o rows then purged rows (ri_cutoff i) (rw_tables w) else rw_tables w.
Proof.
  unfold purge_rows, purges. destruct (_ && _); [|by intros [= <- _]].
  intros ([] & w1 & E1 & E%delete_related_Ok)%bind_Ok. rewrite E. f_equal.
  pose proof (delete_objects_tables o (external_keys rows) w) as Ht. by rewrite E1 in Ht.
Qed.

(** A run in the run table and in the audit table. *)
Definition recorded (i : run_info) (tb tb' : tables) : Prop :=
  exists run audit, tb' = insert_audit audit (insert_run run tb) /\ dict_get_none "id" run = VStr (ri_id i) /\ audit.1.1 = ri_id i.
Lemma record_run_Ok o i n deleted w w' :
  record_run sha256 o i n deleted w = (w', Ok tt) -> recorded i (rw_tables w) (rw_tables w').
Proof.
  unfold record_run. intros (t & w1 & E1 & E)%bind_Ok. apply bind_Ok in E as (sha & w2 & E2 & E).
  apply bind_Ok in E as ([] & w3 & E3%on_tables_Ok & E%on_tables_Ok). injection E3 as E3. injection E as E.
  rewrite <- E3 in E. assert (rw_tables w2 = rw_tables w) as Hw.
  { pose proof (tables_outside utc_now w) as H1. rewrite E1 in H1. unfold same_tables in H1. simpl in H1. rewrite <- H1.
    unfold sha256_file in E2. apply bind_Ok in E2 as (s & w4 & E4 & [= <- _]). pose proof (tables_read (manifest_path o i) w1) as H2. by rewrite E4 in H2. }
  rewrite Hw in E. by do 2 eexists.
Qed.

(** What a transaction that succeeds has done: nothing, or the archive was
    written, the run recorded and the batch deleted. *)
Section Batch.
Variables (o : run_options F) (i : run_info) (w : ret_world F).
Definition batch_of : list (string * dict) :=
  select_batch (row_locked (rw_outside w)) (rw_tables w) (ri_cutoff i) (op_batch_size o).
Definition rows_of : list dict := (fun kv => selected_row jsonb_text (op_codec o) (rw_tables w) kv.1 kv.2) <$> batch_of.
Definition committed (w' : ret_world F) : Prop :=
  op_dry_run o = false /\ archived o i rows_of w' /\
  recorded i (if purges o rows_of then purged rows_of (ri_cutoff i) (rw_tables w) else rw_tables w) (rw_tables w').

Lemma run_body_Ok w' r :
  run_body jsonb_text sha256 b64decode b64encode encrypt o i w = (w', Ok r) ->
  match r with inl _ => rw_tables w' = rw_tables w | inr _ => committed w' end.
Proof.
  unfold run_body. intros (w0 & w1 & [= <- <-] & E)%bind_Ok. apply bind_Ok in E as (rows & w2 & E2%on_tables_Ok & E).
  injection E2 as Ht Hrows. fold batch_of in Hrows. fold rows_of in Hrows. subst rows.
  destruct (op_dry_run o) eqn:Hdry; [by injection E as <- <-|].
  apply bind_Ok in E as ([] & w3 & E3 & E). apply bind_Ok in E as (n & w4 & E4 & E). apply bind_Ok in E as ([] & w5 & E5 & E).
  injection E as <- <-. split; [done|]. split.
  - eapply archived_keeps; [apply record_run_file|exact E5|].
    eapply archived_keeps; [apply purge_rows_file|exact E4|]. by eapply write_archive_Ok.
  - apply record_run_Ok in E5. apply purge_rows_Ok in E4. rewrite E4 in E5.
    pose proof (write_archive_tables o i rows_of w2) as H3. rewrite E3 in H3. unfold same_tables in H3. simpl in H3.
    by rewrite H3, <- Ht in E5.
Qed.
End Batch.

Lemma transaction_cases {A} (m : eff (ret_world F) ret_error A) w w' r :
  transaction m w = (w', r) ->
  (exists e, r = Err e /\ rw_tables w' = rw_tables w) \/
  (exists a w1, r = Ok a /\ m w = (w1, Ok a) /\ rw_tables w' = rw_tables w1 /\ rw_files w' = rw_files w1).
Proof.
  unfold transaction. destruct (bind _ _ w) as [w1 [a|e]] eqn:E; intros [= <- <-]; [right|left; by exists e].
  apply bind_Ok in E as (b & w2 & E2 & E). exists a, w2. unfold on_tables in E. destruct (statement _) as [? []]; [|done].
  injection E as <- <-. done.
Qed.

Lemma commit_evidence_tables o i n : keeps same_tables (commit_evidence sha256 o i n).
Proof. unfold commit_evidence, sha256_file, raises. keep. Qed.
Lemma commit_evidence_archive o i n : keeps (same_file (archive_path o i)) (commit_evidence sha256 o i n).
Proof. unfold commit_evidence, sha256_file, raises. destruct (files_apart (directory o i)). keep. by apply file_write. Qed.

(** A whole run. *)
Definition started_at (w : ret_world F) : datetime := (utc_now (rw_outside w)).2.
Definition at_selection (w : ret_world F) : ret_world F :=
  MkWorld (rw_tables w) (rw_files w) (run_suffix (utc_now (rw_outside w)).1).1.
Lemma archive_outcome o w w' r :
  archive_workloads jsonb_text sha256 b64decode b64encode encrypt o w = (w', r) ->
  rw_tables w' = rw_tables w \/
  exists i, dt_us (ri_cutoff i) = dt_us (started_at w) - op_older_than_days o * 86400000000 /\ committed o i (at_selection w) w'.
Proof.
  unfold archive_workloads. destruct (_ <? 1); [by intros [= <- _]; left|]. destruct (_ || _); [by intros [= <- _]; left|].
  destruct (negb _ && _); [by intros [= <- _]; left|]. unfold bind at 1, from_outside at 1.
  unfold at_selection, started_at. destruct (utc_now _) as [o1 started] eqn:Et. simpl.
  intros E. apply bind_cases in E as [(e & E & ->)|(cutoff & w1 & E & Hk)]; [injection E as <- _; by left|].
  injection E as <- Hcut%rlift_Ok. revert Hk. unfold bind at 1, from_outside at 1. simpl. destruct (run_suffix o1) as [o2 suffix]. simpl.
  set (i := MkInfo _ _ _). set (w2 := MkWorld _ _ o2). intros E.
  apply bind_cases in E as [(e & E & ->)|(a & w1 & E & Hk)].
  { apply transaction_cases in E as [(e' & _ & ->)|(a & w1 & ? & _)]; [by left|done]. }
  apply transaction_cases in E as [(e' & ? & _)|(a' & w1' & [= <-] & Hb & Ht & Hf)]; [done|].
  apply run_body_Ok in Hb. destruct a as [m|n].
  { injection Hk as <- _. left. by rewrite Ht. }
  right. exists i. split.
  { apply rbind_Ok in Hcut as (d & Hd & Hadd). unfold timedelta_days in Hd. destruct (_ <? _); [done|]. injection Hd as <-.
    simpl. unfold dt_add in Hadd. destruct (_ || _); [done|]. injection Hadd as <-. simpl. lia. }
  destruct Hb as (Hdry & Ha & Hr). split; [done|]. split.
  - eapply archived_keeps; [apply commit_evidence_archive|exact Hk|]. destruct Ha as (lines & key & nonce & ? & ? & ?).
    exists lines, key, nonce. by rewrite Hf.
  - pose proof (commit_evidence_tables o i n w1) as H1. rewrite Hk in H1. unfold same_tables in H1. simpl in H1.
    by rewrite H1, Ht.
Qed.
End Steps.

Lemma line_in_file (lines : list string) line :
  line ∈ lines -> exists before after, String.concat EmptyString lines = before +:+ line +:+ after.
Proof.
  induction lines as [|l lines IH]; [by intros ?%elem_of_nil|]. intros [->|Hin]%elem_of_cons.
  - exists EmptyString. destruct lines as [|l' lines]; [exists EmptyString; by rewrite app_nil_r_s|].
    by exists (String.concat EmptyString (l' :: lines)).
  - destruct (IH Hin) as (a & b & E). exists (l +:+ a), b. destruct lines as [|l' lines]; [by apply elem_of_nil in Hin|].
    change (String.concat EmptyString (l :: l' :: lines)) with (l +:+ String.concat EmptyString (l' :: lines)).
    by rewrite E, app_assoc_s.
Qed.

(** ** Properties *)

Section Property.
Context {F : Type} `{RetentionDeps F}.
Context (jsonb_text : pyval -> string) (sha256 : string -> string).
Context (b64decode : string -> option string) (b64encode : string -> string).
Context (encrypt : string -> string -> string -> string -> string).

(** C33: A run leaves every workload as it is or deletes it, and deletes only
    with the purge flag and outside a dry run, only a workload that ended
    and was submitted before the retention period, whose row nobody else has
    locked, and whose line is in the plaintext of the encrypted file the run
    leaves behind; then the run is in the run table and in the audit table.
    A run that deletes nothing has either recorded itself too or changed no
    table. *)
Theorem purge_deletes_only_archived o w w' r :
  keyed (rw_tables w) ->
  archive_workloads jsonb_text sha256 b64decode b64encode encrypt o w = (w', r) ->
  workloads (tb_db (rw_tables w')) ⊆ workloads (tb_db (rw_tables w)) /\
  (rw_tables w' = rw_tables w \/
   exists i tb, recorded i tb (rw_tables w') /\ op_dry_run o = false /\
     tb_runs tb = tb_runs (rw_tables w) /\ tb_audit tb = tb_audit (rw_tables w) /\
     forall k row, workloads (tb_db (rw_tables w)) !! k = Some row -> workloads (tb_db (rw_tables w')) !! k = None ->
       op_purge o = true /\ state_of row ∈ TERMINAL_STATES /\
       submitted row < dt_us (started_at w) - op_older_than_days o * 86400000000 /\
       row_locked (rw_outside (at_selection w)) k = false /\
       exists key nonce before line after,
         decode_key b64decode (op_key o) = Ok key /\
         line_of (selected_row jsonb_text (op_codec o) (rw_tables w) k row) = Ok line /\
         rw_files w' !! archive_path o i = Some (encrypt key nonce (before +:+ line +:+ after) (aad_of o i))).
Proof.
  intros Hkeyed E. apply archive_outcome in E as [Ht|(i & Hcut & Hdry & (lines & key & nonce & Hlines & Hkey & Hfile) & Hrec)].
  { rewrite Ht. by split; [|left]. }
  set (rows := rows_of jsonb_text o i (at_selection w)) in *. set (tb := if purges o rows then _ else _) in Hrec.
  change (rw_tables (at_selection w)) with (rw_tables w) in tb.
  assert (workloads (tb_db (rw_tables w')) = workloads (tb_db tb)) as Hw by (by destruct Hrec as (? & ? & -> & _)).
  assert (tb_runs tb = tb_runs (rw_tables w) /\ tb_audit tb = tb_audit (rw_tables w)) as [Hruns Haudit].
  { unfold tb, purged. destruct (purges o rows); [|done]. by destruct (job_ids rows). }
  rewrite Hw. split.
  { unfold tb. destruct (purges o rows); [|done]. rewrite purged_workloads. apply map_filter_subseteq. }
  right. exists i, tb. do 4 (split; [done|]). intros k row Hk Hnone. subst tb. unfold purges in Hnone.
  destruct (op_purge o); cbn [andb] in Hnone; [|congruence]. destruct (bool_decide _); cbn [negb] in Hnone; [congruence|].
  rewrite purged_workloads in Hnone. apply map_lookup_filter_None in Hnone as [?|Hd]; [congruence|].
  specialize (Hd row Hk). apply dec_stable in Hd as [Hin _]. simpl in Hin.
  set (batch := batch_of o i (at_selection w)) in *. unfold rows, rows_of in Hin. fold batch in Hin.
  rewrite batch_ids in Hin.
  2:{ apply Forall_forall. intros kv Hkv%select_batch_sound. apply (Hkeyed kv.1 kv.2), Hkv. }
  apply list_elem_of_fmap in Hin as ([k' row'] & -> & Hin). simpl in Hk.
  pose proof (select_batch_sound _ _ _ _ _ Hin) as (Hk' & [Hsub Hterm] & Hlock). simpl in *.
  assert (row' = row) as -> by congruence. split; [done|]. split; [done|]. split; [lia|]. split; [done|].
  apply mapR_Ok in Hlines. assert (selected_row jsonb_text (op_codec o) (rw_tables w) k' row ∈ rows) as Hrow.
  { apply list_elem_of_fmap. by exists (k', row). }
  apply list_elem_of_lookup in Hrow as (n & Hn). destruct (Forall2_lookup_l _ _ _ _ _ Hlines Hn) as (line & Hl & Hline).
  destruct (line_in_file lines line) as (before & after & Hcat); [by apply list_elem_of_lookup; exists n|].
  exists key, nonce, before, line, after. by rewrite <- Hcat.
Qed.
End Property.

Module RetentionSim.
(** Whether each next statement succeeds, and what the adapter deleted. *)
Record site : Type := MkSite { statements : list bool; removed : list (list string) }.
#[global] Instance deps : RetentionDeps site := {|
  utc_now s := (s, utc 1767225600000000);                       (* 2026-01-01 *)
  run_suffix s := (s, "0123456789ab");
  urandom s := (s, "nonce");
  row_locked _ k := bool_decide (k = "w3");
  statement s := match statements s with b :: l => (MkSite l (removed s), b) | [] => (s, true) end;
  disk s := (s, DiskOk);
|}.
Definition remove_objects (keys : list string) (s : site) : site * option (string * string) :=
  (MkSite (statements s) (removed s ++ [keys]), None).
Definition key32 : string := "0123456789abcdef0123456789abcdef".
Definition options (purge codec : bool) (adapter : bool) : run_options site :=
  MkOptions _ "/archive" 90 1000 purge false key32 "v1" codec (if adapter then Some remove_objects else None).
Definition job_row (i state : string) (day : Z) (input : pyval) : dict :=
  [("id", VStr i); ("state", VStr state); ("runpod_job_id", VStr ("job-" +:+ i));
   ("submitted_at", VTime (utc (1767225600000000 - day * 86400000000))); ("input", input)].
Definition staged : pyval := VDict [("staging", VDict [("staging_key", VStr "uploads/w1")])].
(** One old row that ended, one recent, one locked, one still running. *)
Definition rows : gmap string dict :=
  list_to_map [("w1", job_row "w1" "completed" 100 staged); ("w2", job_row "w2" "failed" 10 VNone);
               ("w3", job_row "w3" "completed" 100 VNone); ("w4", job_row "w4" "running" 100 VNone)].
Definition start (l : list bool) : ret_world site :=
  MkWorld (MkTables (MkWorkloadDb rows (list_to_map [("k1", "w1")])) [("job-w1", []); ("job-w2", [])] [("w1", [])] [] [])
    ∅ (MkSite l []).
(** No encryption, so that the file can be read. *)
Definition run (o : run_options site) (l : list bool) : ret_world site * result ret_error dict :=
  archive_workloads (fun _ => "json") (fun s => s) (fun s => Some s) (fun s => s) (fun _ _ plain _ => plain) o (start l).

(** The workloads left, how many rows of the other tables, what was deleted
    in object storage, and the answer. *)
Definition seen (wr : ret_world site * result ret_error dict) :=
  let '(w, r) := wr in
  (sort_by (less String.compare) (map_to_list (workloads (tb_db (rw_tables w)))).*1,
   (length (tb_deliveries (rw_tables w)), length (tb_failures (rw_tables w)), length (tb_runs (rw_tables w))),
   removed (rw_outside w), match r with Ok m => al_get "deleted_count" m | Err _ => None end).

Example purge_ex :
  seen (run (options true true true) []) = (["w2"; "w3"; "w4"], (1, 0, 1)%nat, [["uploads/w1"]], Some (VInt 1)).
Proof. vm_compute. reflexivity. Qed.
Example archive_only_ex :
  seen (run (options false true false) []) = (["w1"; "w2"; "w3"; "w4"], (2, 1, 1)%nat, [], Some (VInt 0)).
Proof. vm_compute. reflexivity. Qed.
(** Rows that name objects are not purged without an adapter. *)
Example no_adapter_ex :
  seen (run (options true true false) []) = (["w1"; "w2"; "w3"; "w4"], (2, 1, 0)%nat, [], None).
Proof. vm_compute. reflexivity. Qed.
(** On the pool of the command line, whose [jsonb] columns are text, they
    are, and their objects stay. *)
Example undecoded_purge_ex :
  seen (run (options true false false) []) = (["w2"; "w3"; "w4"], (1, 0, 1)%nat, [], Some (VInt 1)).
Proof. vm_compute. reflexivity. Qed.
(** A statement that fails after the adapter ran brings the rows back, not
    the objects. *)
Example objects_lost_ex :
  seen (run (options true true true) [true; false]) = (["w1"; "w2"; "w3"; "w4"], (2, 1, 0)%nat, [["uploads/w1"]], None).
Proof. vm_compute. reflexivity. Qed.
End RetentionSim.

Lemma purge_deletes_only_archived_witness :
  let w := RetentionSim.start [] in
  let o := RetentionSim.options true true true in
  let w' := (RetentionSim.run o []).1 in
  exists i, state_of (RetentionSim.job_row "w1" "completed" 100 RetentionSim.staged) ∈ TERMINAL_STATES /\
    row_locked (rw_outside (at_selection w)) "w1" = false /\
    exists line before after,
      line_of (selected_row (fun _ => "json") true (rw_tables w) "w1" (RetentionSim.job_row "w1" "completed" 100 RetentionSim.staged)) = Ok line /\
      rw_files w' !! archive_path o i = Some (before +:+ line +:+ after).
Proof.
  intros w o w'.
  destruct (purge_deletes_only_archived (fun _ => "json") (fun s => s) (fun s => Some s) (fun s => s) (fun _ _ plain _ => plain)
    o w w' (RetentionSim.run o []).2) as [_ [Ht|(i & tb & _ & _ & _ & _ & Hrows)]].
  - apply map_Forall_to_list. vm_compute. repeat (constructor; [reflexivity|]). constructor.
  - apply surjective_pairing.
  - apply (f_equal (fun t => length (tb_runs t))) in Ht. vm_compute in Ht. discriminate.
  - exists i. destruct (Hrows "w1" (RetentionSim.job_row "w1" "completed" 100 RetentionSim.staged))
      as (_ & Hs & _ & Hl & key & nonce & before & line & after & _ & Hline & Hfile); [vm_compute; reflexivity..|].
    split; [exact Hs|]. split; [exact Hl|]. exists line, before, after. split; [exact Hline|exact Hfile].
Defined.
