(* ===== verification/Simulator.v ===== *)
(** * What-if projections ([cost/simulator.py])

    A simulator replays the planner on a frozen context, with provider prices
    overridden and a budget of its own, and quotes the providers of the plan.
    A batch carries the projected spend from one workload to the next. *)

From Stdlib Require Import QArith Lqa.
From S2P Require Import Prelude PyDecimal PyFloat PyValue PyFormat Enums Provider RoutingTypes Availability Planner Estimator.
#[local] Open Scope Z_scope.

(** Definitions *)

(** [_usd], [_signed_usd] and [_quantize_usd] *)
Definition quantize_amount (d : dec) (name : string) : py dec :=
  match quantize_usd d with
  | Err DecimalInvalidOperation => Err (ValueError (name +:+ " is out of representable USD range: " +:+ str_dec_fin d))
  | r => r
  end.
Definition usd (v : pyval) (name : string) : py dec :=
  let? d := finite_decimal v name in
  if dltb d dzero then Err (ValueError (name +:+ " must be non-negative")) else quantize_amount d name.
Definition signed_usd (v : pyval) (name : string) : py dec :=
  let? d := finite_decimal v name in quantize_amount d name.
Definition optional_usd (v : pyval) (name : string) : py (option dec) :=
  match v with VNone => Ok None | _ => rmap Some (usd v name) end.
Definition usd_or_zero (v : pyval) (name : string) : py dec :=
  match v with VNone => Ok (micro 0) | _ => usd v name end.
Definition amount (d : dec) : pyval := VDec (DFin d).

(** [_budget_headroom] *)
Definition budget_headroom (budget : option dec) (projected : dec) : py (option dec) :=
  match budget with
  | None => Ok None
  | Some b => let? h := dsub b projected in rmap Some (signed_usd (amount h) "budget_headroom_usd")
  end.
Definition exceeds (headroom : option dec) : option bool := (fun h => dltb h dzero) <$> headroom.

(** ** Price overrides *)

(** [_provider_id] of a frozen provider *)
Definition snapshot_id (p : dict) : py string :=
  match as_str (dict_get_none "id" p) with
  | Some (String _ _ as s) => Ok s
  | _ => Err (ValueError "provider must include a non-empty id")
  end.
(** [_thaw_value] and [_mutable_mapping] make tuples of sequences, as
    freezing does. *)
Definition mutable_mapping (m : dict) : dict := freeze_mapping m.

(** [_override_cost_mapping] *)
Definition override_cost_mapping (i : string) (override : pyval) : py dict :=
  match as_dict override with
  | None => Err (ValueError ("price override for provider " +:+ repr_str i +:+ " must be a mapping"))
  | Some m =>
      match nested_cost (dict_get_none "config" m) with
      | Some c => Ok c
      | None => Ok (default m (as_dict (dict_get_none "cost" m)))
      end
  end.

(** [_score_rate] *)
Definition score_rate (cost : dict) : py (option dec) :=
  match dict_get "per_second_active" cost with
  | Some v => rmap Some (finite_decimal v "per_second_active")
  | None =>
      let kind := as_str (match dict_get "kind" cost with Some k => k | None => dict_get_none "model" cost end) in
      match dict_get "rate_per_second" cost with
      | Some v => if bool_decide (kind = Some "per_second" \/ kind = Some "per_vm_second")
                  then rmap Some (finite_decimal v "rate_per_second") else Ok None
      | None => Ok None
      end
  end.
Definition with_rate (rate : pyval) (m : dict) : dict :=
  al_set "per_second_active" rate (al_set "cost_per_second_active" rate m).

(** [_provider_with_price_override]: the configuration is one object, which
    the copy refers to while it is filled in. *)
Definition provider_with_price_override (p overrides : dict) : py dict :=
  let? i := snapshot_id p in
  match dict_get_none i overrides with
  | VNone => Ok p
  | override =>
      let copy := mutable_mapping p in
      let? override_cost := override_cost_mapping i override in
      let cost := mutable_mapping override_cost in
      let config := al_set "cost" (VDict cost) (default [] (as_dict (dict_get_none "config" copy))) in
      let? rate := score_rate cost in
      let filled m := match rate with Some r => with_rate (VStr (str_dec_fin r)) m | None => m end in
      Ok (filled (al_set "cost" (VDict cost) (al_set "config" (VDict (filled config)) copy)))
  end.
Definition overridden (overrides : dict) (p : ProviderLike) : py ProviderLike :=
  match p with
  | PMap m => rmap PMap (provider_with_price_override m overrides)
  | PModel _ => Err (AttributeError "get")
  end.

(** [_context_with_price_overrides] *)
Definition context_with_price_overrides (ctx : PlanningContext) (overrides : dict) : py PlanningContext :=
  let? ps := mapR (overridden overrides) (ctx_providers ctx) in
  replay (ctx_now ctx) (Some (availability_snapshot ctx)) [] ps (ctx_capability ctx).

(** ** The simulator *)

(** A capability, with what estimation reads of it. *)
Record priced_capability : Type := MkPriced { pc_route : Capability; pc_cost : CapabilityCost }.

(** [ws_capability] is the capability of the context. *)
Record WhatIfSimulator : Type := MkSimulator {
  ws_context : PlanningContext;
  ws_capability : option priced_capability;
  ws_price_overrides : dict;
  ws_budget_usd : option dec;
  ws_current_spend_usd : dec;
  ws_max_attempts : Z;
  ws_backoff_base_s : float;
}.
(** [WhatIfSimulator(...)] and [from_inputs] *)
Definition what_if_simulator (ctx : PlanningContext) (cap : option priced_capability) (overrides : dict)
    (budget_usd current_spend_usd : pyval) (max_attempts : Z) (backoff_base_s : float) : py WhatIfSimulator :=
  let? b := optional_usd budget_usd "budget_usd" in
  let? s := usd_or_zero current_spend_usd "current_spend_usd" in
  Ok (MkSimulator ctx cap overrides b s max_attempts backoff_base_s).
Definition from_inputs (now : datetime) (ps : list ProviderLike) (cap : option priced_capability)
    (s : option AvailabilitySnapshot) (es : list (string * string * string * Z * bool)) (overrides : dict)
    (budget_usd current_spend_usd : pyval) (max_attempts : Z) (backoff_base_s : float) : py WhatIfSimulator :=
  let? ctx := replay now s es ps (pc_route <$> cap) in
  what_if_simulator ctx cap overrides budget_usd current_spend_usd max_attempts backoff_base_s.

Record ProviderCostProjection : Type := MkCostProjection {
  cp_provider_id : string; cp_attempt : Z; cp_estimate_usd : dec; cp_upper_bound_usd : dec;
  cp_pricing : PricingModel; cp_selected : bool }.
Record WhatIfProjection : Type := MkProjection {
  wp_plan : RoutePlan;
  attempt_costs : list ProviderCostProjection;
  reserved_usd : dec;
  current_spend_usd : dec;
  projected_spend_usd : dec;
  wp_budget_usd : option dec;
  budget_headroom_usd : option dec;
  would_exceed_budget : option bool;
}.
Record WhatIfBatchProjection : Type := MkBatch {
  projections : list WhatIfProjection;
  total_reserved_usd : dec;
  starting_spend_usd : dec;
  batch_projected_spend_usd : dec;
  batch_budget_usd : option dec;
  batch_headroom_usd : option dec;
  batch_would_exceed : option bool;
}.
(** [WhatIfProjection.selected_cost] *)
Definition selected_cost (p : WhatIfProjection) : option ProviderCostProjection :=
  find_first cp_selected (attempt_costs p).

Record WhatIfWorkload : Type := MkWorkload { ww_request : RoutingRequest; ww_payload : dict }.

(** The optional arguments of [simulate]. *)
Record simulate_options : Type := MkSimulate {
  so_capability : option priced_capability; so_hints : option Hints; so_observed : option Observed;
  so_price_overrides : dict; so_budget_usd : pyval; so_current_spend_usd : pyval;
  so_max_attempts : option Z; so_backoff_base_s : option float }.

(** [_attempt_costs] *)
Definition attempt_cost (cap : CapabilityCost) (payload : dict) (a : RouteAttempt) : py ProviderCostProjection :=
  let? q := quote_cost cap (InLike (ra_provider a)) payload in
  let? e := quote_estimate q in
  let? u := quote_upper_bound q in
  Ok (MkCostProjection (ra_provider_id a) (ra_attempt a) e u (q_pricing q) (ra_attempt a =? 1)).

Section Simulate.
Context (clock : datetime) (mono : float) (global : AvailabilityCache) (s : WhatIfSimulator).

(** [_context_for], [_resolve_budget], [_resolve_current_spend] and
    [_resolve_capability] *)
Definition context_for (overrides : dict) : py PlanningContext :=
  match foldl (fun m kv => al_set kv.1 kv.2 m) (ws_price_overrides s) overrides with
  | [] => Ok (ws_context s)
  | merged => context_with_price_overrides (ws_context s) merged
  end.
Definition resolve_budget (v : pyval) : py (option dec) :=
  match v with VNone => Ok (ws_budget_usd s) | _ => optional_usd v "budget_usd" end.
Definition resolve_current_spend (v : pyval) : py dec :=
  match v with VNone => Ok (ws_current_spend_usd s) | _ => usd v "current_spend_usd" end.
Definition resolve_capability (cap : option priced_capability) : py priced_capability :=
  match cap, ws_capability s with
  | Some c, _ | None, Some c => Ok c
  | None, None => Err (ValueError "capability must be supplied directly or through PlanningContext")
  end.

(** [simulate] *)
Definition reserved_of (costs : list ProviderCostProjection) : dec :=
  match costs with c :: _ => cp_upper_bound_usd c | [] => micro 0 end.
Definition simulate (request : RoutingRequest) (payload : dict) (o : simulate_options) : py WhatIfProjection :=
  let? ctx := context_for (so_price_overrides o) in
  let? cap := resolve_capability (so_capability o) in
  let? budget := resolve_budget (so_budget_usd o) in
  let? spend := resolve_current_spend (so_current_spend_usd o) in
  let? plan := plan_route clock mono global request None
    (MkOptions (Some (pc_route cap)) None (so_hints o) (so_observed o) None (Some ctx) None
       (default (ws_max_attempts s) (so_max_attempts o)) (default (ws_backoff_base_s s) (so_backoff_base_s o)) None None) in
  let? costs := mapR (attempt_cost (pc_cost cap) payload) (attempts plan) in
  let? total := dadd spend (reserved_of costs) in
  let? projected := usd (amount total) "projected_spend_usd" in
  let? headroom := budget_headroom budget projected in
  Ok (MkProjection plan costs (reserved_of costs) spend projected budget headroom (exceeds headroom)).

(** [simulate_workloads] *)
Definition optional_amount (b : option dec) : pyval := match b with Some d => amount d | None => VNone end.
Definition simulate_next (overrides : dict) (budget : option dec) (acc : dec * list WhatIfProjection) (w : WhatIfWorkload)
  : py (dec * list WhatIfProjection) :=
  let? p := simulate (ww_request w) (ww_payload w)
    (MkSimulate None None None overrides (optional_amount budget) (amount acc.1) None None) in
  Ok (projected_spend_usd p, acc.2 ++ [p]).
Definition simulate_workloads (workloads : list WhatIfWorkload) (overrides : dict) (budget_usd spend_usd : pyval)
  : py WhatIfBatchProjection :=
  let? budget := resolve_budget budget_usd in
  let? start := resolve_current_spend spend_usd in
  let? (spend, ps) := foldR (simulate_next overrides budget) (start, []) workloads in
  let? total := dsum dzero (reserved_usd <$> ps) in
  let? reserved := usd (amount total) "total_reserved_usd" in
  let? headroom := budget_headroom budget spend in
  Ok (MkBatch ps reserved start spend budget headroom (exceeds headroom)).
End Simulate.

(** ** Lemmas *)

Lemma upper_bound_micro p c payload u :
  rates_ok p -> 0 <= execution_timeout_ms c -> upper_bound p c payload = Ok u ->
  exists z, usd_is u z.
Proof.
  intros Hp Ht H.
  assert ((exists d, estimate_usd d = Ok u) /\ (0 <= dval u)%Q) as [(d & Hd) Hn].
  { assert (forall r, rate_for_seconds r c = Ok u -> exists d, estimate_usd d = Ok u) as Hr.
    { intros r Hr. unfold rate_for_seconds in Hr. apply rbind_Ok in Hr as (? & _ & Hr). apply rbind_Ok in Hr as (? & _ & Hr). eauto. }
    assert (forall r, 0 <= dcoef r -> rate_for_seconds r c = Ok u -> (0 <= dval u)%Q) as Hrate.
    { intros r Hr0 He. by destruct (rate_for_seconds_mono c r r u u Ht Hr0 (Qle_refl _) He He). }
    destruct p as [r|r|r b|ri ro|r]; simpl in *.
    - split; [by eapply Hr|]. by apply (Hrate r).
    - split; [by exists r|]. eapply quantize_nonneg; [|apply estimate_usd_quantize; exact H]. by apply dcoef_nonneg.
    - split; [by eapply Hr|]. destruct Hp as [Hr0 Hb]. eapply Hrate; [|exact H]. destruct b as [b|]; [|done].
      unfold dmax. by destruct (dltb r b).
    - apply rbind_Ok in H as (i & Hi & H). apply rbind_Ok in H as (o & Ho & H). destruct Hp as [Hri Hro]. split.
      + unfold tokens_to_usd in H. repeat (apply rbind_Ok in H as (? & _ & H)). eauto.
      + eapply tokens_to_usd_nonneg; [exact Hri|exact Hro|by eapply input_token_nonneg| |exact H].
        unfold output_token_upper_bound in Ho. destruct (first_present_of _ _); [|done]. by eapply cost_decimal_nonneg.
    - split; [by eapply Hr|]. by apply (Hrate r). }
  apply estimate_usd_quantize, quantize_usd_micro in Hd as [-> Hlt]. exists (dcoef u). split; [done|].
  apply dcoef_nonneg in Hn. cbn [micro dcoef] in *. lia.
Qed.

Lemma quantize_amount_Ok d name q : quantize_amount d name = Ok q -> quantize_usd d = Ok q.
Proof. unfold quantize_amount. by destruct (quantize_usd d) as [|[]]. Qed.

Lemma usd_Ok v name q : usd v name = Ok q -> exists d, finite_decimal v name = Ok d /\ quantize_usd d = Ok q /\ exists z, usd_is q z.
Proof.
  unfold usd. intros (d & Hd & H)%rbind_Ok. destruct (dltb d dzero) eqn:E; [done|]. apply quantize_amount_Ok in H.
  exists d. split; [done|]. split; [done|]. destruct (quantize_usd_micro _ _ H) as [Hq Hlt]. exists (dcoef q). split; [done|].
  assert (0 <= dcoef q); [|lia]. apply dcoef_nonneg. eapply quantize_nonneg; [|exact H]. apply dltb_false in E.
  unfold dzero in E. by rewrite dval_zero in E.
Qed.
Lemma negative_micro z : dltb (micro z) dzero = (z <? 0).
Proof.
  rewrite <- dltb_micro. apply eq_true_iff_eq. rewrite !dltb_spec. unfold dzero, micro. by rewrite !dval_zero.
Qed.

Lemma usd_amount d z name : usd_is d z -> usd (amount d) name = Ok d.
Proof.
  intros [-> Hz]. unfold usd, quantize_amount. simpl.
  replace (dltb (micro z) dzero) with false by (rewrite negative_micro; symmetry; apply Z.ltb_ge; lia).
  by rewrite quantize_usd_id by lia.
Qed.

(** The headroom of a budget, exactly. *)
Lemma headroom_exact b p zb zp h :
  usd_is b zb -> usd_is p zp -> budget_headroom (Some b) p = Ok h -> exceeds h = Some (zb <? zp).
Proof.
  intros [-> Hb] [-> Hp]. unfold budget_headroom. rewrite dsub_micro by lia. cbn [rbind].
  intros (d & Hd & ->)%rmap_Ok. unfold signed_usd in Hd. cbn [finite_decimal amount decimal_of_str rbind] in Hd.
  apply quantize_amount_Ok in Hd. rewrite quantize_usd_id in Hd by lia. injection Hd as <-. cbn [exceeds fmap option_fmap option_map]. f_equal.
  rewrite negative_micro. apply eq_true_iff_eq. rewrite !Z.ltb_lt. lia.
Qed.

(** A simulator as its constructors make it. *)
Definition sim_wf (s : WhatIfSimulator) : Prop :=
  (exists z, usd_is (ws_current_spend_usd s) z) /\
  (forall b, ws_budget_usd s = Some b -> exists z, usd_is b z) /\
  (forall cap, ws_capability s = Some cap -> 0 <= execution_timeout_ms (pc_cost cap)).
Lemma optional_usd_Ok v name o b : optional_usd v name = Ok o -> o = Some b -> exists z, usd_is b z.
Proof.
  unfold optional_usd. intros H ->. destruct v; [done|..]; apply rmap_Ok in H as (x & Hx & [= <-]);
    by apply usd_Ok in Hx as (? & _ & _ & Hz).
Qed.
Lemma what_if_simulator_wf ctx cap overrides b sp n base s :
  what_if_simulator ctx cap overrides b sp n base = Ok s ->
  (forall k, cap = Some k -> 0 <= execution_timeout_ms (pc_cost k)) -> sim_wf s.
Proof.
  unfold what_if_simulator. intros (o & Ho & H)%rbind_Ok Hcap. apply rbind_Ok in H as (d & Hd & [= <-]).
  split; [|split; [|done]]; simpl.
  - unfold usd_or_zero in Hd. destruct sp; [by injection Hd as <-; exists 0|..]; by apply usd_Ok in Hd as (? & _ & _ & Hz).
  - intros x Hx. by eapply optional_usd_Ok.
Qed.

(** What a batch reserves is an amount, whatever the simulator. *)
Lemma batch_reserved_usd clock mono global s ws overrides budget_usd spend_usd b :
  simulate_workloads clock mono global s ws overrides budget_usd spend_usd = Ok b -> exists z, usd_is (total_reserved_usd b) z.
Proof.
  unfold simulate_workloads. intros (? & _ & H)%rbind_Ok. apply rbind_Ok in H as (? & _ & H).
  apply rbind_Ok in H as ([spend ps] & _ & H). apply rbind_Ok in H as (? & _ & H). apply rbind_Ok in H as (rs & Hrs & H).
  apply rbind_Ok in H as (? & _ & [= <-]). by apply usd_Ok in Hrs as (? & _ & _ & Hz).
Qed.

Section Facts.
Context (clock : datetime) (mono : float) (global : AvailabilityCache) (s : WhatIfSimulator).
Hypothesis Hwf : sim_wf s.

Lemma attempt_cost_usd cap payload a p :
  0 <= execution_timeout_ms cap -> attempt_cost cap payload a = Ok p -> exists z, usd_is (cp_upper_bound_usd p) z.
Proof.
  intros Ht. unfold attempt_cost, quote_cost. intros (q & Hq & H)%rbind_Ok. apply rbind_Ok in Hq as (pm & Hpm & [= <-]).
  apply rbind_Ok in H as (e & _ & H). apply rbind_Ok in H as (u & Hu & [= <-]). simpl.
  eapply upper_bound_micro; [by eapply parse_rates_ok|exact Ht|exact Hu].
Qed.
Lemma reserved_of_usd cap payload ats costs :
  0 <= execution_timeout_ms cap -> mapR (attempt_cost cap payload) ats = Ok costs -> exists z, usd_is (reserved_of costs) z.
Proof.
  intros Ht H%mapR_Ok. destruct H as [|a p ats costs Hp _]; [by exists 0|]. by eapply attempt_cost_usd.
Qed.

(** One step of a batch. *)
Lemma simulate_next_exact overrides budget spend ps w z acc :
  usd_is spend z -> simulate_next clock mono global s overrides budget (spend, ps) w = Ok acc ->
  exists p r, acc = (projected_spend_usd p, ps ++ [p]) /\ usd_is (reserved_usd p) r /\ usd_is (projected_spend_usd p) (z + r).
Proof.
  unfold simulate_next. intros Hz (p & Hp & [= <-])%rbind_Ok. exists p. unfold simulate in Hp. cbn [so_capability so_current_spend_usd] in Hp.
  apply rbind_Ok in Hp as (ctx & _ & Hp). apply rbind_Ok in Hp as (cap & Hcap & Hp). apply rbind_Ok in Hp as (b & _ & Hp).
  apply rbind_Ok in Hp as (sp & Hsp & Hp). apply rbind_Ok in Hp as (plan & _ & Hp). apply rbind_Ok in Hp as (costs & Hcosts & Hp).
  apply rbind_Ok in Hp as (t & Ht & Hp). apply rbind_Ok in Hp as (pr & Hpr & Hp). apply rbind_Ok in Hp as (h & _ & [= <-]).
  cbn [projected_spend_usd reserved_usd].
  assert (sp = spend) as -> by (simpl in Hsp; rewrite (usd_amount _ _ _ Hz) in Hsp; congruence).
  destruct (reserved_of_usd (pc_cost cap) (ww_payload w) (attempts plan) costs) as (r & Hr); [|done|].
  { destruct Hwf as (_ & _ & Hc). apply Hc. unfold resolve_capability in Hcap. destruct (ws_capability s); [|done]. congruence. }
  exists r. split; [done|]. split; [done|]. apply usd_Ok in Hpr as (d & [= <-] & Hq & _).
  destruct (quantized_sum spend (reserved_of costs) z r t pr) as [Hlt ->]; [left; apply Hz|apply Hz|done..|].
  destruct Hz as [_ Hz], Hr as [_ Hr]. split; [done|lia].
Qed.

Lemma simulate_all_exact overrides budget ws : forall spend ps z acc,
  usd_is spend z -> foldR (simulate_next clock mono global s overrides budget) (spend, ps) ws = Ok acc ->
  exists qs zs, acc.2 = ps ++ qs /\ length qs = length ws /\ amounts_are (reserved_usd <$> qs) zs /\
    usd_is acc.1 (z + zsum zs).
Proof.
  induction ws as [|w ws IH]; intros spend ps z acc Hz; simpl.
  - intros [= <-]. exists [], []. rewrite app_nil_r. cbn. rewrite Z.add_0_r. repeat split; try done; try apply Hz. constructor.
  - intros (a & Ha & H)%rbind_Ok. destruct (simulate_next_exact _ _ _ _ _ _ _ Hz Ha) as (p & r & -> & Hr & Hp).
    destruct (IH _ _ _ _ Hp H) as (qs & zs & Hacc & Hlen & Ham & Hs). exists (p :: qs), (r :: zs).
    rewrite Hacc, <- app_assoc. split; [done|]. split; [simpl; lia|]. split; [by constructor|]. simpl. by rewrite Z.add_assoc.
Qed.
End Facts.

(** ** Properties *)

(** The projection of a batch is exact: the projected spend is the starting
    spend and everything the workloads reserve, to the last micro-dollar, the
    total is what they reserve, nothing is negative, and the batch exceeds
    its budget exactly when the projected spend is above it.  An amount that
    would have to be rounded is an error instead. *)
Theorem batch_projection_exact clock mono global s workloads overrides budget_usd spend_usd b :
  sim_wf s -> simulate_workloads clock mono global s workloads overrides budget_usd spend_usd = Ok b ->
  exists z0 zs,
    usd_is (starting_spend_usd b) z0 /\ length (projections b) = length workloads /\
    amounts_are (reserved_usd <$> projections b) zs /\ usd_is (total_reserved_usd b) (zsum zs) /\
    usd_is (batch_projected_spend_usd b) (z0 + zsum zs) /\
    match batch_budget_usd b with
    | None => batch_would_exceed b = None
    | Some budget => exists zb, usd_is budget zb /\ batch_would_exceed b = Some (zb <? z0 + zsum zs)
    end.
Proof.
  intros Hwf. unfold simulate_workloads. intros (budget & Hbudget & H)%rbind_Ok. apply rbind_Ok in H as (start & Hstart & H).
  apply rbind_Ok in H as ([spend ps] & Hloop & H). apply rbind_Ok in H as (t & Ht & H). apply rbind_Ok in H as (rs & Hrs & H).
  apply rbind_Ok in H as (h & Hh & [= <-]). simpl.
  assert (exists z0, usd_is start z0) as (z0 & Hz0).
  { unfold resolve_current_spend in Hstart. destruct spend_usd; [injection Hstart as <-; exact (proj1 Hwf)|..];
      by apply usd_Ok in Hstart as (? & _ & _ & ?). }
  destruct (simulate_all_exact _ _ _ _ Hwf _ _ _ _ _ _ _ Hz0 Hloop) as (qs & zs & Hps & Hlen & Ham & Hsp). simpl in Hps, Hsp. subst qs.
  exists z0, zs. split; [done|]. split; [done|]. split; [done|].
  pose proof (amounts_nonneg _ _ Ham) as Hn. destruct Hz0 as [Hs0 Hz0], Hsp as [Hsp Hlt]. split; [|split; [done|]].
  - destruct (dsum_amounts _ zs dzero 0 Ham) as (t' & Ht' & Hm); [by right|lia|lia|]. rewrite Ht in Ht'. injection Ht' as <-.
    apply usd_Ok in Hrs as (d & [= <-] & Hq & _). rewrite (is_micro_quantize _ _ Hm) in Hq by lia. injection Hq as <-.
    split; [done|lia].
  - destruct budget as [bd|]; [|by injection Hh as <-].
    assert (exists zb, usd_is bd zb) as (zb & Hzb).
    { unfold resolve_budget in Hbudget. destruct budget_usd; [injection Hbudget as Hbudget; by apply (proj1 (proj2 Hwf))|..];
        by eapply optional_usd_Ok. }
    exists zb. split; [done|]. by eapply headroom_exact.
Qed.

Module WhatIfSim.
Definition cost (rate : string) : pyval := VDict [("kind", VStr "per_second"); ("rate_per_second", VStr rate)].
Definition fleet : list ProviderLike :=
  [routed_provider "a" [("cost", cost "0.001"); ("cost_per_second_active", VStr "0.001")];
   routed_provider "b" [("cost", cost "0.002"); ("cost_per_second_active", VStr "0.002")]].
Definition capability : priced_capability := MkPriced (MkCapability "chat" "chat") (MkCapabilityCost PER_SECOND 60000).
Definition simulator (budget : pyval) : py WhatIfSimulator :=
  from_inputs plan_clock fleet (Some capability) None [] [] budget (VStr "1") 3 (of_Z 1).
Definition budget10 : WhatIfSimulator :=
  match simulator (VStr "1.10") with Ok s => s | Err _ => MkSimulator (MkContext plan_clock (MkSnapshot []) [] None) None [] None dzero 0 (of_Z 0) end.
Definition workloads (n : nat) : list WhatIfWorkload := replicate n (MkWorkload plain_request []).
Definition batch (n : nat) (overrides : dict) : py WhatIfBatchProjection :=
  simulate_workloads plan_clock (of_Z 0) new_cache budget10 (workloads n) overrides VNone VNone.
Definition seen (b : WhatIfBatchProjection) :=
  ((fun p => cp_provider_id <$> selected_cost p) <$> projections b, str_dec_fin (total_reserved_usd b),
   str_dec_fin (batch_projected_spend_usd b), batch_would_exceed b).

Example one_ex : rmap seen (batch 1 []) = Ok ([Some "a"], "0.060000", "1.060000", Some false).
Proof. vm_compute. reflexivity. Qed.
Example two_ex : rmap seen (batch 2 []) = Ok ([Some "a"; Some "a"], "0.120000", "1.120000", Some true).
Proof. vm_compute. reflexivity. Qed.
(** An override changes the price. *)
Example override_ex :
  rmap seen (batch 2 [("a", VDict [("cost", cost "0.0001")])])
  = Ok ([Some "a"; Some "a"], "0.012000", "1.012000", Some false).
Proof. vm_compute. reflexivity. Qed.
Lemma budget10_wf : sim_wf budget10.
Proof.
  apply (what_if_simulator_wf (ws_context budget10) (Some capability) [] (VStr "1.10") (VStr "1") 3 (of_Z 1)).
  - vm_compute. reflexivity.
  - intros k [= <-]. vm_compute. discriminate.
Qed.
End WhatIfSim.

Lemma batch_projection_exact_witness :
  match WhatIfSim.batch 2 [] with
  | Ok b => exists z0 zs,
      usd_is (starting_spend_usd b) z0 /\ length (projections b) = 2%nat /\
      amounts_are (reserved_usd <$> projections b) zs /\ usd_is (total_reserved_usd b) (zsum zs) /\
      usd_is (batch_projected_spend_usd b) (z0 + zsum zs) /\
      match batch_budget_usd b with
      | None => batch_would_exceed b = None
      | Some budget => exists zb, usd_is budget zb /\ batch_would_exceed b = Some (zb <? z0 + zsum zs)
      end
  | Err _ => False
  end.
Proof.
  destruct (WhatIfSim.batch 2 []) as [b|e] eqn:E; [|vm_compute in E; discriminate].
  exact (batch_projection_exact plan_clock (of_Z 0) new_cache WhatIfSim.budget10 (WhatIfSim.workloads 2) [] VNone VNone b
    WhatIfSim.budget10_wf E).
Defined.
