(* ===== verification/Autopilot.v ===== *)
(** * The autopilot ([autopilot/controller.py], [autopilot/schema.py])

    Signals become actions, and every action passes the policy, the what-if
    simulation, the hard limits and the circuit breaker before an executor
    applies it.  [WhatIf] is the simulator an action is projected with, which
    Simulator implements; [AutopilotExecutor] and the signal sources are
    operations on the outside. *)

From S2P Require Import Policy.
From S2P Require Import Prelude PyDecimal PyFloat PyValue PyEq PyTime PyFormat PyOrder.
From S2P Require Import Effects Enums CircuitBreaker RoutingTypes Simulator.

(** Definitions *)

Inductive AutopilotMode := SHADOW | APPLY.
#[global] Instance AutopilotMode_eq_dec : EqDecision AutopilotMode.
Proof. solve_decision. Defined.
#[global] Instance AutopilotMode_enum : StrEnum AutopilotMode := {
  members := [SHADOW; APPLY];
  enum_value m := match m with SHADOW => "shadow" | APPLY => "apply" end }.

Inductive AutopilotActionKind := SET_WARM_CAPACITY | MARK_PROVIDER_UNHEALTHY | RESERVE_CAPACITY | ADJUST_PROVIDER_PRIORITY.
#[global] Instance AutopilotActionKind_enum : StrEnum AutopilotActionKind := {
  members := [SET_WARM_CAPACITY; MARK_PROVIDER_UNHEALTHY; RESERVE_CAPACITY; ADJUST_PROVIDER_PRIORITY];
  enum_value m := match m with
    | SET_WARM_CAPACITY => "set_warm_capacity" | MARK_PROVIDER_UNHEALTHY => "mark_provider_unhealthy"
    | RESERVE_CAPACITY => "reserve_capacity" | ADJUST_PROVIDER_PRIORITY => "adjust_provider_priority" end }.

(** ** Validation *)

(** [_decimal], [_usd] and [_optional_usd] *)
Definition schema_decimal (v : pyval) (name : string) : py dec :=
  let compatible := Err (ValueError (name +:+ " must be decimal-compatible")) in
  let finite d := match d with DFin x => Ok x | _ => Err (ValueError (name +:+ " must be finite")) end in
  match v with
  | VDec d => finite d
  | VInt _ | VStr _ | VEnum _ =>
      match decimal_of_str v with
      | Ok d => finite d
      | Err DecimalInvalidOperation => compatible
      | Err e => Err e
      end
  | _ => compatible
  end.
Definition schema_usd (v : pyval) (name : string) : py dec :=
  let? d := schema_decimal v name in
  if dltb d dzero then Err (ValueError (name +:+ " must be >= 0")) else quantize ROUND_HALF_EVEN d (-6).
Definition schema_optional_usd (v : pyval) (name : string) : py (option dec) :=
  match v with VNone => Ok None | _ => rmap Some (schema_usd v name) end.
(** [_require_non_empty] *)
Definition require_non_empty (s name : string) : py unit :=
  if nonempty (strip s) then Ok tt else Err (ValueError (name +:+ " must be non-empty")).
(** [_freeze_mapping] *)
Definition freeze (m : dict) : dict := sort_by (less (by_ fst String.compare)) m.

Record AutopilotHardLimits : Type := MkLimits {
  max_actions_per_run : Z;
  max_reserved_usd_per_action : option dec;
  max_reserved_usd_per_run : option dec;
  max_projected_spend_usd : option dec;
}.
Definition hard_limits (actions : Z) (per_action per_run projected : pyval) : py AutopilotHardLimits :=
  if actions <? 0 then Err (ValueError "max_actions_per_run must be >= 0") else
  let? a := schema_optional_usd per_action "max_reserved_usd_per_action" in
  let? r := schema_optional_usd per_run "max_reserved_usd_per_run" in
  let? p := schema_optional_usd projected "max_projected_spend_usd" in
  Ok (MkLimits actions a r p).

Record AutopilotSignal : Type := MkSignal {
  sg_signal_id : string; sg_source : string; sg_kind : AutopilotActionKind; sg_target_kind : string;
  sg_target_id : string; sg_reason : string; sg_priority : Z; sg_confidence : dec; sg_params : dict;
  sg_policy_provider : option dict; sg_policy_workloads : list dict; sg_policy_capability : option dict;
  sg_workloads : list WhatIfWorkload;
}.
(** [AutopilotSignal.__post_init__] *)
Definition new_signal (s : AutopilotSignal) (confidence : pyval) : py AutopilotSignal :=
  let? _ := require_non_empty (sg_signal_id s) "signal_id" in
  let? _ := require_non_empty (sg_source s) "source" in
  let? _ := require_non_empty (sg_target_kind s) "target_kind" in
  let? _ := require_non_empty (sg_target_id s) "target_id" in
  let? _ := require_non_empty (sg_reason s) "reason" in
  let? c := schema_decimal confidence "confidence" in
  if dltb c dzero || dltb (of_int 1) c then Err (ValueError "confidence must be between 0 and 1") else
  Ok (MkSignal (sg_signal_id s) (sg_source s) (sg_kind s) (sg_target_kind s) (sg_target_id s) (sg_reason s) (sg_priority s) c
        (freeze (sg_params s)) (freeze <$> sg_policy_provider s) (freeze <$> sg_policy_workloads s)
        (freeze <$> sg_policy_capability s) (sg_workloads s)).

(** An action: its id and the signal it was derived from, frozen again. *)
Record AutopilotAction : Type := MkAction { aa_action_id : string; aa_signal : AutopilotSignal }.
Definition from_signal (s : AutopilotSignal) : py AutopilotAction :=
  let? _ := require_non_empty ("ap-" +:+ sg_signal_id s) "action_id" in
  let? _ := require_non_empty (sg_signal_id s) "signal_id" in
  Ok (MkAction ("ap-" +:+ sg_signal_id s)
        (MkSignal (sg_signal_id s) (sg_source s) (sg_kind s) (sg_target_kind s) (sg_target_id s) (sg_reason s) (sg_priority s)
           (sg_confidence s) (freeze (sg_params s)) (freeze <$> sg_policy_provider s) (freeze <$> sg_policy_workloads s)
           (freeze <$> sg_policy_capability s) (sg_workloads s))).
(** [policy_provider_snapshot] *)
Definition policy_provider_snapshot (a : AutopilotAction) : dict :=
  match sg_policy_provider (aa_signal a) with
  | Some p => p
  | None => [("id", VStr (sg_target_id (aa_signal a))); ("provider_type", VStr (enum_value (sg_kind (aa_signal a))));
             ("config", VDict [("autopilot", VDict (sg_params (aa_signal a)))])]
  end.

Record AutopilotGateResult : Type := MkGate { gr_name : string; gr_passed : bool; gr_reason : string; gr_details : dict }.
Definition gate_result (name : string) (passed : bool) (reason : string) (details : dict) : py AutopilotGateResult :=
  let? _ := require_non_empty name "name" in
  let? _ := require_non_empty reason "reason" in
  Ok (MkGate name passed reason (freeze details)).
Record ActionApplyResult : Type := MkApply { ar_action_id : string; ar_applied : bool; ar_message : string; ar_details : dict }.
Definition action_apply_result (action_id : string) (applied : bool) (message : string) (details : dict) : py ActionApplyResult :=
  let? _ := require_non_empty action_id "action_id" in
  let? _ := require_non_empty message "message" in
  Ok (MkApply action_id applied message (freeze details)).

Inductive AutopilotOutcome := applied | shadowed | denied.
#[global] Instance AutopilotOutcome_eq_dec : EqDecision AutopilotOutcome.
Proof. solve_decision. Defined.
Record AutopilotDecision : Type := MkAutopilotDecision {
  de_action : AutopilotAction; de_outcome : AutopilotOutcome; de_gates : list AutopilotGateResult;
  de_simulation : option WhatIfBatchProjection; de_apply_result : option ActionApplyResult;
}.
Record AutopilotRunResult : Type := MkRunResult {
  rr_now : datetime; rr_mode : AutopilotMode; rr_limits : AutopilotHardLimits; rr_decisions : list AutopilotDecision }.
(** [AutopilotRunResult.applied_count] *)
Definition applied_count (r : AutopilotRunResult) : Z :=
  Z.of_nat (length (filter (fun d => de_outcome d = applied) (rr_decisions r))).

(** ** The controller *)

(** [_WhatIfSimulator], and what the hard limits rely on. *)
Class WhatIf (S : Type) := { simulate_batch : S -> list WhatIfWorkload -> py WhatIfBatchProjection }.
Class LawfulWhatIf (S : Type) `{WhatIf S} := {
  reserved_is_usd : forall s ws b, simulate_batch s ws = Ok b -> exists z, usd_is (total_reserved_usd b) z;
}.
(** The planner's simulator as the controller calls it. *)
Section Planner.
Context (clock : datetime) (mono : float) (global : Availability.AvailabilityCache).
Definition planner_what_if : WhatIf WhatIfSimulator :=
  {| simulate_batch s ws := simulate_workloads clock mono global s ws [] VNone VNone |}.
Definition planner_lawful : @LawfulWhatIf WhatIfSimulator planner_what_if.
Proof. constructor. intros s ws b. apply batch_reserved_usd. Defined.
End Planner.
(** [AutopilotExecutor] *)
Class AutopilotExecutor (F : Type) := { apply_action : AutopilotAction -> eff F exn ActionApplyResult }.

(** A controller; [has_executor] is whether one was supplied. *)
Record AutopilotController (S : Type) : Type := MkController {
  ac_policies : list Policy; ac_simulator : S; ac_has_executor : bool; ac_mode : AutopilotMode; ac_limits : AutopilotHardLimits }.
Arguments MkController {S}.
Arguments ac_policies {S}.
Arguments ac_simulator {S}.
Arguments ac_has_executor {S}.
Arguments ac_mode {S}.
Arguments ac_limits {S}.

Section Controller.
Context {S F : Type} `{WhatIf S, AutopilotExecutor F}.
Context (getattr : pyval -> string -> option pyval) (re_search : string -> string -> py bool).
Context (dump_violation : PolicyViolation -> pyval).                     (* [model_dump] of pydantic *)
Context (c : AutopilotController S).

(** [_evaluate_policy]: the snapshot is read by attribute. *)
Definition evaluate_policy (a : AutopilotAction) : py PolicyEvaluationResult :=
  evaluate_policies getattr re_search (ac_policies c)
    (VDict [("providers", VTuple [VDict (policy_provider_snapshot a)]);
            ("workloads", VTuple (VDict <$> sg_policy_workloads (aa_signal a)));
            ("capability", match sg_policy_capability (aa_signal a) with Some m => VDict m | None => VNone end)]).
(** [_policy_gate] *)
Definition policy_gate (r : PolicyEvaluationResult) : py AutopilotGateResult :=
  gate_result "policy" (allowed r) (if allowed r then "policy allowed action" else "policy denied action")
    [("decision", VStr (decision r)); ("violations", VList (dump_violation <$> violations r))].

(** [_simulate] *)
Record SimulationEvaluation : Type := MkSimEvaluation {
  se_passed : bool; se_reason : string; se_projection : option WhatIfBatchProjection }.
Definition simulate_action (a : AutopilotAction) : py SimulationEvaluation :=
  match sg_workloads (aa_signal a) with
  | [] => Ok (MkSimEvaluation false "action has no simulation workload" None)
  | ws =>
      match simulate_batch (ac_simulator c) ws with
      | Err (ValueError m) => Ok (MkSimEvaluation false ("simulation failed: " +:+ m) None)
      | Err e => Err e
      | Ok p => if bool_decide (batch_would_exceed p = Some true)
                then Ok (MkSimEvaluation false "simulation would exceed budget" (Some p))
                else Ok (MkSimEvaluation true "simulation passed" (Some p))
      end
  end.
Definition optional_bool (b : option bool) : pyval := match b with Some b => VBool b | None => VNone end.
Definition projection_details (p : WhatIfBatchProjection) : dict :=
  [("total_reserved_usd", amount (total_reserved_usd p)); ("projected_spend_usd", amount (batch_projected_spend_usd p));
   ("would_exceed_budget", optional_bool (batch_would_exceed p))].
(** [_simulation_gate] *)
Definition simulation_gate (e : SimulationEvaluation) : py AutopilotGateResult :=
  match se_projection e with
  | None => gate_result "simulation" false (if se_passed e then "simulation result missing" else se_reason e) []
  | Some p => gate_result "simulation" (se_passed e) (se_reason e) (projection_details p)
  end.

(** [_evaluate_hard_limits] *)
Definition evaluate_hard_limits (p : WhatIfBatchProjection) (count : Z) (accepted : dec) : py (bool * string) :=
  let l := ac_limits c in
  let over (limit : option dec) (x : dec) := match limit with Some m => dltb m x | None => false end in
  if max_actions_per_run l <=? count then Ok (false, "max actions per run reached")
  else if over (max_reserved_usd_per_action l) (total_reserved_usd p)
  then Ok (false, "action reserved cost exceeds hard limit")
  else
    let? run_over := match max_reserved_usd_per_run l with
                     | Some m => rmap (dltb m) (dadd accepted (total_reserved_usd p))
                     | None => Ok false
                     end in
    if run_over : bool then Ok (false, "run reserved cost exceeds hard limit")
    else if over (max_projected_spend_usd l) (batch_projected_spend_usd p)
    then Ok (false, "projected spend exceeds hard limit")
    else Ok (true, "hard limits passed").

(** [_breaker_gate] *)
Definition action_name (a : BreakerAction) : string :=
  match a with allow => "allow" | downgrade => "downgrade" | block => "block" end.
Definition state_name (s : CircuitBreakerState) : string :=
  match s with closed => "closed" | open => "open" | half_open => "half-open" end.
Definition breaker_gate (d : option CircuitBreakerDecision) : py AutopilotGateResult :=
  match d with
  | None => gate_result "circuit_breaker" true "no breaker decision supplied" []
  | Some d =>
      let details := [("action", VStr (action_name (action d))); ("state", VStr (state_name (state d)));
                      ("headroom_usd", amount (headroom_usd d)); ("headroom_pct", amount (headroom_pct d));
                      ("runway_hours", optional_amount (runway_hours d))] in
      match action d with
      | allow => gate_result "circuit_breaker" true (reason d) details
      | other => gate_result "circuit_breaker" false
                   ("breaker requested " +:+ action_name other +:+ ": " +:+ reason d) details
      end
  end.

(** [_decide] *)
Definition decided (a : AutopilotAction) (o : AutopilotOutcome) (gates : list AutopilotGateResult)
    (p : option WhatIfBatchProjection) (r : option ActionApplyResult) : eff F exn AutopilotDecision :=
  ret (MkAutopilotDecision a o gates p r).
(** The last gates: the mode, then the executor. *)
Definition apply_stage (a : AutopilotAction) (p : WhatIfBatchProjection) (gates : list AutopilotGateResult)
  : eff F exn AutopilotDecision :=
  match ac_mode c with
  | SHADOW =>
      do! g := lift (gate_result "mode" false "shadow mode; apply skipped" []) in
      decided a shadowed (gates ++ [g]) (Some p) None
  | APPLY =>
      if negb (ac_has_executor c) then
        do! g := lift (gate_result "executor" false "apply mode requires an executor" []) in
        decided a denied (gates ++ [g]) (Some p) None
      else
        do! r := apply_action a in
        do! g := lift (gate_result "executor" (ar_applied r) (ar_message r) (ar_details r)) in
        decided a (if ar_applied r then applied else denied) (gates ++ [g]) (Some p) (Some r)
  end.
Definition limits_details (p : WhatIfBatchProjection) (count : Z) (accepted : dec) : dict :=
  [("reserved_usd", amount (total_reserved_usd p)); ("accepted_reserved_usd", amount accepted); ("applied_count", VInt count)].
Definition decide_action (breaker : option CircuitBreakerDecision) (a : AutopilotAction) (count : Z) (accepted : dec)
  : eff F exn AutopilotDecision :=
  do! policy := lift (evaluate_policy a) in
  do! g1 := lift (policy_gate policy) in
  if negb (gr_passed g1) then decided a denied [g1] None None else
  do! e := lift (simulate_action a) in
  do! g2 := lift (simulation_gate e) in
  match se_passed e, se_projection e with
  | true, Some p =>
      do! limit := lift (evaluate_hard_limits p count accepted) in
      do! g3 := lift (gate_result "hard_limits" limit.1 limit.2 (limits_details p count accepted)) in
      if negb limit.1 then decided a denied [g1; g2; g3] (Some p) None else
      do! g4 := lift (breaker_gate breaker) in
      if negb (gr_passed g4) then decided a denied [g1; g2; g3; g4] (Some p) None
      else apply_stage a p [g1; g2; g3; g4]
  | _, _ => decided a denied [g1; g2] None None
  end.

(** The loop of [run]. *)
Fixpoint decide_all (breaker : option CircuitBreakerDecision) (actions : list AutopilotAction) (count : Z) (accepted : dec)
  : eff F exn (list AutopilotDecision) :=
  match actions with
  | [] => ret []
  | a :: rest =>
      do! d := decide_action breaker a count accepted in
      do! after := lift match de_outcome d, de_simulation d with
                        | applied, Some p => rmap (pair (count + 1)) (dadd accepted (total_reserved_usd p))
                        | _, _ => Ok (count, accepted)
                        end in
      do! ds := decide_all breaker rest after.1 after.2 in
      ret (d :: ds)
  end.

(** [_collect_signals]: a source is asked at the time of the run. *)
Definition signal_order : cmp AutopilotSignal :=
  tuple_key [by_ sg_priority Z.compare; by_ sg_source String.compare; by_ sg_signal_id String.compare;
             by_ sg_target_kind String.compare; by_ sg_target_id String.compare].
Definition collect_signals (now : datetime) (signals : list AutopilotSignal) (sources : list (datetime -> eff F exn (list AutopilotSignal)))
  : eff F exn (list AutopilotSignal) :=
  do! more := traverse (fun source => source now) sources in
  ret (sort_by (less signal_order) (signals ++ concat more)).

(** [run] *)
Definition run (now : datetime) (signals : list AutopilotSignal) (sources : list (datetime -> eff F exn (list AutopilotSignal)))
    (breaker : option CircuitBreakerDecision) : eff F exn AutopilotRunResult :=
  do! now := lift (require_utc now "now") in
  do! collected := collect_signals now signals sources in
  do! actions := lift (mapR from_signal collected) in
  do! ds := decide_all breaker actions 0 (micro 0) in
  ret (MkRunResult now (ac_mode c) (ac_limits c) ds).
End Controller.

(** ** Lemmas *)

(** A sum under a cap was not rounded to get there. *)
Lemma capped_sum a b c s :
  0 <= a < micro_limit -> 0 <= b < micro_limit -> c < micro_limit ->
  dadd (micro a) (micro b) = Ok s -> dltb (micro c) s = false -> a + b <= c /\ s = micro (a + b).
Proof.
  intros Ha Hb Hc Hs Hle. destruct (decide (a + b < micro_limit)) as [Hlt|Hge].
  - rewrite dadd_micro in Hs by lia. injection Hs as <-. rewrite dltb_micro in Hle. apply Z.ltb_ge in Hle. done.
  - exfalso. apply dltb_false in Hle.
    pose proof (dadd_reaches_top a b s Ha Hb ltac:(lia) Hs) as Hm.
    pose proof (QArith_base.Qle_trans _ _ _ Hm Hle) as H.
    assert (dltb (micro c) micro_top = true) as E; [|apply dltb_false in H; congruence].
    unfold dltb, dcompare, micro, micro_top. cbn [dcoef dexp]. change (Z.min (-6) (-5)) with (-6).
    change (10 ^ (-6 - -6)) with 1. change (10 ^ 27 * 10 ^ (-5 - -6)) with micro_limit.
    rewrite Z.mul_1_r. by destruct (Z.compare_spec c micro_limit); [lia| |lia].
Qed.

Lemma gate_passed name b why details g : gate_result name b why details = Ok g -> gr_passed g = b.
Proof. unfold gate_result. intros (? & _ & H)%rbind_Ok. apply rbind_Ok in H as (? & _ & [= <-]). done. Qed.

Section Facts.
Context {S F : Type} `{LawfulWhatIf S, AutopilotExecutor F}.
Context (getattr : pyval -> string -> option pyval) (re_search : string -> string -> py bool).
Context (dump_violation : PolicyViolation -> pyval) (c : AutopilotController S).
Abbreviation limits := (ac_limits c).

(** What the executor was called with and answered. *)
Record call : Type := MkCall { ca_action : AutopilotAction; ca_projection : WhatIfBatchProjection; ca_answer : result exn ActionApplyResult }.
Inductive executed : F -> list call -> F -> Prop :=
| executed_nil f : executed f [] f
| executed_cons f a p r f1 calls f2 :
    apply_action a f = (f1, r) -> executed f1 calls f2 -> executed f (MkCall a p r :: calls) f2.
Definition took (k : call) : Prop := match ca_answer k with Ok r => ar_applied r = true | Err _ => False end.
#[global] Instance took_dec k : Decision (took k).
Proof. unfold took. destruct (ca_answer k); apply _. Defined.

(** The rails of one action. *)
Definition under (limit : option dec) (x : dec) : Prop := match limit with Some m => dltb m x = false | None => True end.
Record railed (breaker : option CircuitBreakerDecision) (a : AutopilotAction) (p : WhatIfBatchProjection) : Prop := MkRailed {
  ra_mode : ac_mode c = APPLY /\ ac_has_executor c = true;
  ra_policy : exists res, evaluate_policy getattr re_search c a = Ok res /\ allowed res = true;
  ra_projection : simulate_batch (ac_simulator c) (sg_workloads (aa_signal a)) = Ok p;
  ra_budget : batch_would_exceed p <> Some true;
  ra_action : under (max_reserved_usd_per_action limits) (total_reserved_usd p);
  ra_spend : under (max_projected_spend_usd limits) (batch_projected_spend_usd p);
  ra_breaker : match breaker with Some d => action d = allow | None => True end;
}.

Lemma simulate_action_passed a e p :
  simulate_action c a = Ok e -> se_passed e = true -> se_projection e = Some p ->
  simulate_batch (ac_simulator c) (sg_workloads (aa_signal a)) = Ok p /\ batch_would_exceed p <> Some true.
Proof.
  unfold simulate_action. destruct (sg_workloads _) as [|w ws]; [by intros [= <-]|].
  destruct (simulate_batch _ _) as [q|[]] eqn:E; try (by intros [= <-]); [|done..].
  case_bool_decide; intros [= <-]; simpl; [done|]. by intros _ [= <-].
Qed.

Lemma hard_limits_passed p count accepted why :
  evaluate_hard_limits c p count accepted = Ok (true, why) ->
  count < max_actions_per_run limits /\ under (max_reserved_usd_per_action limits) (total_reserved_usd p) /\
  under (max_projected_spend_usd limits) (batch_projected_spend_usd p) /\
  match max_reserved_usd_per_run limits with
  | Some m => exists s, dadd accepted (total_reserved_usd p) = Ok s /\ dltb m s = false
  | None => True
  end.
Proof.
  unfold evaluate_hard_limits, under. destruct (_ <=? _) eqn:Hc; [done|]. boolify.
  destruct (match max_reserved_usd_per_action _ with Some _ => _ | None => _ end) eqn:Ha; [done|].
  intros (o & Ho & Hrest)%rbind_Ok. destruct o; [done|]. revert Hrest.
  destruct (match max_projected_spend_usd _ with Some _ => _ | None => _ end) eqn:Hp; [done|].
  split; [lia|]. split; [by destruct (max_reserved_usd_per_action _)|]. split; [by destruct (max_projected_spend_usd _)|].
  destruct (max_reserved_usd_per_run _); [|done]. apply rmap_Ok in Ho as (s & Hs & Ho). by exists s.
Qed.

Lemma breaker_gate_passed d g : breaker_gate d = Ok g -> gr_passed g = true -> match d with Some d => action d = allow | None => True end.
Proof. unfold breaker_gate. destruct d as [d|]; [|done]. by destruct (action d); intros ->%gate_passed. Qed.

(** A decision either leaves the executor alone, or calls it once for an
    action on the rails. *)
Definition idle (r : result exn AutopilotDecision) : Prop := forall d, r = Ok d -> de_outcome d <> applied.
Lemma idle_lift {A} (g : py A) (k : A -> eff F exn AutopilotDecision) f f' r (P : Prop) :
  bind (lift g) k f = (f', r) ->
  (forall x, g = Ok x -> k x f = (f', r) -> (f' = f /\ idle r) \/ P) -> (f' = f /\ idle r) \/ P.
Proof.
  intros E Hk. apply bind_cases in E as [(e & E & ->)|(x & f1 & E & Hx)].
  - injection E as <- _. left. by split.
  - injection E as <- ->. by apply (Hk x).
Qed.
Lemma idle_denied a o gates p q (f f' : F) r (P : Prop) :
  o <> applied -> decided a o gates p q f = (f', r) -> (f' = f /\ idle r) \/ P.
Proof. intros Ho [= <- <-]. left. split; [done|]. by intros d [= <-]. Qed.
Ltac idle E := eapply idle_denied; [|exact E]; done.

Definition called (breaker : option CircuitBreakerDecision) (a : AutopilotAction) (count : Z) (accepted : dec)
    (f f' : F) (r : result exn AutopilotDecision) : Prop :=
  exists p res why, railed breaker a p /\ evaluate_hard_limits c p count accepted = Ok (true, why) /\
    apply_action a f = (f', res) /\
    forall d, r = Ok d -> de_action d = a /\ de_simulation d = Some p /\ (de_outcome d = applied <-> took (MkCall a p res)).
Lemma apply_stage_cases breaker a p gates count accepted f f' r why :
  (ac_mode c = APPLY /\ ac_has_executor c = true -> railed breaker a p) ->
  evaluate_hard_limits c p count accepted = Ok (true, why) ->
  apply_stage c a p gates f = (f', r) -> (f' = f /\ idle r) \/ called breaker a count accepted f f' r.
Proof.
  intros Hrail Hlim E. unfold apply_stage in E. destruct (ac_mode c).
  { apply (idle_lift _ _ _ _ _ _ E). intros g _ E1. idle E1. }
  destruct (ac_has_executor c); simpl in E.
  2:{ apply (idle_lift _ _ _ _ _ _ E). intros g _ E1. idle E1. }
  right. apply bind_cases in E as [(e & E & ->)|(x & f1 & E & Hk)].
  { exists p, (Err e), why. do 3 (split; [auto; done|]). done. }
  exists p, (Ok x), why. split; [auto|]. split; [done|]. apply bind_cases in Hk as [(e & E2 & ->)|(g & f2 & E2 & Hd)].
  - injection E2 as <- _. by split.
  - injection E2 as <- _. injection Hd as <- <-. split; [done|]. intros d [= <-]. simpl. do 2 (split; [done|]).
    unfold took. simpl. by destruct (ar_applied x).
Qed.

Lemma decide_cases breaker a count accepted f f' r :
  decide_action getattr re_search dump_violation c breaker a count accepted f = (f', r) ->
  (f' = f /\ idle r) \/ called breaker a count accepted f f' r.
Proof.
  unfold decide_action. intros E.
  apply (idle_lift _ _ _ _ _ _ E). clear E. intros policy Hpol E. apply (idle_lift _ _ _ _ _ _ E). clear E. intros g1 Hg1 E.
  destruct (gr_passed g1) eqn:Hp1; simpl in E; [|idle E].
  apply (idle_lift _ _ _ _ _ _ E). clear E. intros e He E. apply (idle_lift _ _ _ _ _ _ E). clear E. intros g2 _ E.
  destruct (se_passed e) eqn:Hpass; [|idle E].
  destruct (se_projection e) as [p|] eqn:Hproj; [|idle E].
  apply (idle_lift _ _ _ _ _ _ E). clear E. intros [ok why] Hlim E. apply (idle_lift _ _ _ _ _ _ E). clear E. intros g3 _ E.
  simpl in E. destruct ok; simpl in E; [|idle E].
  apply (idle_lift _ _ _ _ _ _ E). clear E. intros g4 Hg4 E.
  destruct (gr_passed g4) eqn:Hp4; simpl in E; [|idle E].
  eapply apply_stage_cases; [|exact Hlim|exact E]. intros Hmode.
  destruct (simulate_action_passed a e p He Hpass Hproj) as [Hsim Hbudget].
  destruct (hard_limits_passed p count accepted why Hlim) as (_ & Hact & Hspend & _).
  apply breaker_gate_passed in Hg4; [|done]. constructor; try done.
  exists policy. split; [done|]. unfold policy_gate in Hg1. apply gate_passed in Hg1. congruence.
Qed.

(** What a loop leaves: the calls it made, on the rails, and what was
    accepted under the limits of the run. *)
Definition capped (accepted : dec) (za : Z) : Prop :=
  forall cap zc, max_reserved_usd_per_run limits = Some cap -> usd_is cap zc -> accepted = micro za /\ 0 <= za <= zc.
Record loop_rails (breaker : option CircuitBreakerDecision) (count za : Z) (f f' : F) (r : result exn (list AutopilotDecision))
    (calls : list call) : Prop := MkLoopRails {
  lr_executed : executed f calls f';
  lr_railed : Forall (fun k => railed breaker (ca_action k) (ca_projection k)) calls;
  lr_count : count + Z.of_nat (length (filter took calls)) <= max_actions_per_run limits;
  lr_sum : exists zs, amounts_are ((fun k => total_reserved_usd (ca_projection k)) <$> filter took calls) zs /\
             forall cap zc, max_reserved_usd_per_run limits = Some cap -> usd_is cap zc -> za + zsum zs <= zc;
  lr_decisions : forall ds, r = Ok ds ->
    de_action <$> filter (fun d => de_outcome d = applied) ds = ca_action <$> filter took calls;
}.

Lemma loop_rails_nil breaker count accepted za f r :
  count <= max_actions_per_run limits -> capped accepted za ->
  (forall ds, r = Ok ds -> filter (fun d => de_outcome d = applied) ds = []) -> loop_rails breaker count za f f r [].
Proof.
  intros Hc Hcap Hds. constructor; [constructor|constructor|simpl; lia| |intros ds Hd; by rewrite (Hds ds Hd)].
  exists []. split; [constructor|]. intros cap zc Hm Hu. destruct (Hcap cap zc Hm Hu). simpl. lia.
Qed.
(** One call before the rest. *)
Lemma loop_rails_cons breaker a p res count za z f f1 f2 r r' calls :
  railed breaker a p -> apply_action a f = (f1, res) -> usd_is (total_reserved_usd p) z ->
  let b := bool_decide (took (MkCall a p res)) in
  loop_rails breaker (if b then count + 1 else count) (if b then za + z else za) f1 f2 r calls ->
  (forall ds, r' = Ok ds -> exists d ds', ds = d :: ds' /\ r = Ok ds' /\ de_action d = a /\ (de_outcome d = applied <-> took (MkCall a p res))) ->
  loop_rails breaker count za f f2 r' (MkCall a p res :: calls).
Proof.
  intros Hrail Hcall Hz b [He Hr Hn (zs & Hzs & Hsum) Hd] Hds.
  assert (filter took (MkCall a p res :: calls) = if b then MkCall a p res :: filter took calls else filter took calls) as Hf.
  { rewrite filter_cons. unfold b. by repeat case_decide; case_bool_decide. }
  constructor; rewrite ?Hf.
  - by econstructor.
  - by constructor.
  - destruct b; simpl; lia.
  - destruct b; [exists (z :: zs); split; [by constructor|]|by exists zs].
    intros cap zc Hm Hu. specialize (Hsum cap zc Hm Hu). change (zsum (z :: zs)) with (z + zsum zs). lia.
  - intros ds Hok. destruct (Hds ds Hok) as (d & ds' & -> & -> & Ha & Ho). specialize (Hd ds' eq_refl). rewrite filter_cons.
    unfold b in *. case_bool_decide as Hb; case_decide as Hk; try tauto. by rewrite !fmap_cons, Ha, Hd.
Qed.

(** What passing the limits says about the next sum. *)
Lemma limits_next p count accepted za why z :
  evaluate_hard_limits c p count accepted = Ok (true, why) -> capped accepted za -> usd_is (total_reserved_usd p) z ->
  count < max_actions_per_run limits /\
  (forall s, dadd accepted (total_reserved_usd p) = Ok s -> capped s (za + z)) /\ exists s, capped s (za + z).
Proof.
  intros Hl Hcap Hz. apply hard_limits_passed in Hl as (Hc & _ & _ & Hrun). split; [done|].
  assert (forall s, dadd accepted (total_reserved_usd p) = Ok s -> capped s (za + z)) as Hall.
  { intros s Hs cap zc Hm Hu. destruct (Hcap cap zc Hm Hu) as [-> Hza]. rewrite Hm in Hrun. destruct Hrun as (s' & Hs' & Hle).
    assert (s' = s) as -> by congruence. destruct Hu as [-> Hzc], Hz as [Hp Hz]. rewrite Hp in Hs'.
    destruct (capped_sum za z zc s) as [Hsum ->]; [lia|lia|lia|done|done|]. split; [done|lia]. }
  split; [done|]. unfold capped. destruct (max_reserved_usd_per_run limits) eqn:Em; [|by exists dzero].
  destruct Hrun as (s & Hs & _). exists s. intros cap zc Hm. apply (Hall s Hs). congruence.
Qed.
Lemma loop_rails_stop breaker a p res why count accepted za f f1 e :
  railed breaker a p -> evaluate_hard_limits c p count accepted = Ok (true, why) -> capped accepted za ->
  apply_action a f = (f1, res) -> count <= max_actions_per_run limits ->
  loop_rails breaker count za f f1 (Err e) [MkCall a p res].
Proof.
  intros Hrail Hlim Hcap Hcall Hc. destruct (reserved_is_usd _ _ _ (ra_projection _ _ _ Hrail)) as (z & Hz).
  destruct (limits_next _ _ _ _ _ _ Hlim Hcap Hz) as (Hn & _ & s & Hs).
  eapply (loop_rails_cons breaker a p res count za z f f1 f1 (Err e)); [done|done|done| |done].
  case_bool_decide; (eapply loop_rails_nil; [lia|done|done]).
Qed.

Lemma decide_all_rails breaker actions : forall count accepted za f f' r,
  decide_all getattr re_search dump_violation c breaker actions count accepted f = (f', r) ->
  count <= max_actions_per_run limits -> capped accepted za -> exists calls, loop_rails breaker count za f f' r calls.
Proof.
  induction actions as [|a actions IH]; intros count accepted za f f' r E Hc Hcap; simpl in E.
  { injection E as <- <-. exists []. eapply loop_rails_nil; [done|done|]. by intros ds [= <-]. }
  apply bind_cases in E as [(e & E & ->)|(d & f1 & E & Hk)].
  { apply decide_cases in E as [[-> _]|(p & res & why & Hrail & Hlim & Hcall & _)].
    - exists []. by eapply loop_rails_nil.
    - exists [MkCall a p res]. by eapply loop_rails_stop. }
  apply bind_cases in Hk as [(e & Ea & ->)|([count' accepted'] & f2 & Ea & Hk)].
  { apply decide_cases in E as [[-> Hidle]|(p & res & why & Hrail & Hlim & Hcall & _)].
    - injection Ea as -> Ea. exists []. by eapply loop_rails_nil.
    - injection Ea as -> Ea. exists [MkCall a p res]. by eapply loop_rails_stop. }
  injection Ea as <- Ea. simpl in Hk. unfold bind in Hk. destruct (decide_all _ _ _ _ _ _ _ _ f1) as [f3 rr] eqn:Er.
  assert (f' = f3 /\ forall ds, r = Ok ds -> exists ds', ds = d :: ds' /\ rr = Ok ds') as [-> Hds].
  { destruct rr as [ds|e]; injection Hk as <- <-; (split; [done|]); [|done]. intros ? [= <-]. by exists ds. }
  apply decide_cases in E as [[-> Hidle]|(p & res & why & Hrail & Hlim & Hcall & Hd)].
  - specialize (Hidle d eq_refl). assert ((count', accepted') = (count, accepted)) as [= -> ->] by (destruct (de_outcome d); congruence).
    destruct (IH _ _ _ _ _ _ Er Hc Hcap) as (calls & [He Hr Hn Hs Hdec]). exists calls. constructor; [done..|].
    intros ds Hok. destruct (Hds ds Hok) as (ds' & -> & Hrr). rewrite filter_cons. by case_decide; [|apply Hdec].
  - destruct (Hd d eq_refl) as (Ha & Hsim & Ho). destruct (reserved_is_usd _ _ _ (ra_projection _ _ _ Hrail)) as (z & Hz).
    destruct (limits_next _ _ _ _ _ _ Hlim Hcap Hz) as (Hn & Hnext & _). rewrite Hsim in Ea.
    assert (exists calls, loop_rails breaker (if bool_decide (took (MkCall a p res)) then count + 1 else count)
              (if bool_decide (took (MkCall a p res)) then za + z else za) f1 f3 rr calls) as (calls & Hcalls).
    { case_bool_decide as Hb.
      - rewrite (proj2 Ho Hb) in Ea. apply rmap_Ok in Ea as (s & Hs & [= -> ->]). eapply IH; [exact Er|lia|by apply Hnext].
      - assert ((count', accepted') = (count, accepted)) as [= -> ->] by (destruct (de_outcome d); [tauto|congruence..]).
        by eapply IH. }
    exists (MkCall a p res :: calls). eapply loop_rails_cons; [done|done|exact Hz|exact Hcalls|].
    intros ds Hok. destruct (Hds ds Hok) as (ds' & -> & Hrr). by exists d, ds'.
Qed.
Lemma capped_start : capped (micro 0) 0.
Proof. intros cap zc _ [_ Hzc]. split; [done|lia]. Qed.
End Facts.

Lemma schema_optional_usd_Ok v name o b : schema_optional_usd v name = Ok o -> o = Some b -> exists z, usd_is b z.
Proof.
  unfold schema_optional_usd. intros E ->.
  assert (schema_usd v name = Ok b) as Eb by (destruct v; [done|..]; apply rmap_Ok in E as (x & Hx & [= <-]); done).
  unfold schema_usd in Eb. apply rbind_Ok in Eb as (d & _ & Eb). destruct (dltb d dzero) eqn:Hd; [done|].
  apply dltb_false in Hd. unfold dzero in Hd. rewrite dval_zero in Hd.
  pose proof (quantize_nonneg _ _ _ _ Hd Eb) as Hn%dcoef_nonneg. apply quantize_Ok in Eb as (-> & Hdig & _). cbn [dcoef] in *.
  exists (rescale ROUND_HALF_EVEN d (-6)). split; [done|]. split; [done|]. set (n := rescale _ _ _) in *.
  destruct (decide (n = 0)) as [->|Hne]; [done|]. destruct (ndigits_spec n Hne) as (_ & _ & Hhi). unfold dprec in Hdig.
  rewrite Z.abs_eq in Hhi by done. eapply Z.lt_le_trans; [done|]. apply Z.pow_le_mono_r; lia.
Qed.
Lemma hard_limits_usd n a r p l :
  hard_limits n a r p = Ok l ->
  0 <= max_actions_per_run l /\ forall cap, max_reserved_usd_per_run l = Some cap -> exists zc, usd_is cap zc.
Proof.
  unfold hard_limits. destruct (n <? 0) eqn:Hn; [done|]. intros (x & _ & E)%rbind_Ok. apply rbind_Ok in E as (y & Hy & E).
  apply rbind_Ok in E as (w & _ & [= <-]). boolify. split; [done|]. intros cap Hc. by eapply schema_optional_usd_Ok.
Qed.

(** ** Properties *)

Section Property.
Context {S F : Type} `{LawfulWhatIf S, AutopilotExecutor F}.
Context (getattr : pyval -> string -> option pyval) (re_search : string -> string -> py bool).
Context (dump_violation : PolicyViolation -> pyval).

(** C17: However a run ends, once the signals are collected it has only called
    the executor, in apply mode, and only for actions that the policies
    allow, whose projection does not exceed the budget and the limits of an
    action, with the circuit breaker not objecting; what the executor says
    it applied is no more actions and no more reserved cost than the limits
    of a run; and the decisions of a run that returns name exactly those
    actions as applied. *)
Theorem autopilot_stays_on_rails (c : AutopilotController S) now signals sources breaker (f f' : F) r actions per_action per_run projected :
  hard_limits actions per_action per_run projected = Ok (ac_limits c) ->
  run getattr re_search dump_violation c now signals sources breaker f = (f', r) ->
  let f1 := (collect_signals now signals sources f).1 in
  dt_aware now = false /\ f' = f \/ exists calls,
    executed f1 calls f' /\
    Forall (fun k => railed getattr re_search c breaker (ca_action k) (ca_projection k)) calls /\
    Z.of_nat (length (filter took calls)) <= max_actions_per_run (ac_limits c) /\
    (exists zs, amounts_are ((fun k => total_reserved_usd (ca_projection k)) <$> filter took calls) zs /\
       forall cap, max_reserved_usd_per_run (ac_limits c) = Some cap -> exists zc, usd_is cap zc /\ zsum zs <= zc) /\
    (forall res, r = Ok res ->
       de_action <$> filter (fun d => de_outcome d = applied) (rr_decisions res) = ca_action <$> filter took calls).
Proof.
  intros Hlim E f1. apply hard_limits_usd in Hlim as [Hmax Hcap]. unfold run in E.
  apply bind_cases in E as [(e & E & ->)|(n & f0 & E & E1)]; unfold require_utc in E.
  { left. destruct (dt_aware now); [done|]. injection E as <- _. done. }
  destruct (dt_aware now); [|done]. injection E as <- <-. right.
  assert (exists calls, loop_rails getattr re_search c breaker 0 0 f1 f' (rmap rr_decisions r) calls) as (calls & [He Hr Hn (zs & Hzs & Hsum) Hd]).
  { assert (forall e, loop_rails getattr re_search c breaker 0 0 f1 f1 (Err e) []) as Hnil.
    { intros e. apply (loop_rails_nil _ _ _ _ 0 (micro 0)); [done|apply capped_start|done]. }
    unfold f1 in *. apply bind_cases in E1 as [(e & E & ->)|(l & f2 & E & E2)]; [rewrite E in Hnil |- *; eauto|].
    rewrite E in Hnil |- *. simpl in Hnil |- *. apply bind_cases in E2 as [(e & E2 & ->)|(as_ & f3 & E2 & E3)].
    { injection E2 as <- _. eauto. }
    injection E2 as <- _. apply bind_cases in E3 as [(e & E3 & ->)|(ds & f4 & E3 & [= <- <-])].
    - eapply decide_all_rails in E3 as (calls & Hc); [|exact Hmax|apply capped_start]. by exists calls.
    - eapply decide_all_rails in E3 as (calls & Hc); [|exact Hmax|apply capped_start]. by exists calls. }
  exists calls. split; [done|]. split; [done|]. split; [done|]. split.
  - exists zs. split; [done|]. intros cap Hc. destruct (Hcap cap Hc) as (zc & Hzc). exists zc. split; [done|]. by eapply Hsum.
  - intros res ->. by apply Hd.
Qed.
End Property.

Module AutopilotSim.
(** An executor that writes down what it applies and fails on one target. *)
#[global] Instance executor : AutopilotExecutor (list string) := {|
  apply_action a log := (log ++ [sg_target_id (aa_signal a)],
    action_apply_result (aa_action_id a) (negb (String.eqb (sg_target_id (aa_signal a)) "stuck")) "done" []);
|}.
#[global] Instance what_if : WhatIf WhatIfSimulator := planner_what_if Planner.plan_clock (of_Z 0) Availability.new_cache.
#[global] Instance lawful : LawfulWhatIf WhatIfSimulator := planner_lawful Planner.plan_clock (of_Z 0) Availability.new_cache.

Definition signal (i : string) (priority : Z) (n : nat) : AutopilotSignal :=
  MkSignal i "prewarm" RESERVE_CAPACITY "provider" i "forecast" priority (of_int 1) [] (Some [("region", VStr "EU")]) [] None
    (WhatIfSim.workloads n).
Definition limits (actions : Z) (per_run : pyval) : AutopilotHardLimits :=
  match hard_limits actions VNone per_run VNone with Ok l => l | Err _ => MkLimits 0 None None None end.
Definition controller (mode : AutopilotMode) (l : AutopilotHardLimits) : AutopilotController WhatIfSimulator :=
  MkController [] WhatIfSim.budget10 true mode l.
Definition go (mode : AutopilotMode) (l : AutopilotHardLimits) (breaker : option CircuitBreakerDecision) (ss : list AutopilotSignal) :=
  run no_attributes no_regex (fun _ => VNone) (controller mode l) Planner.plan_clock ss [] breaker [].
Definition seen (r : list string * result exn AutopilotRunResult) :=
  (r.1, match r.2 with Ok res => (fun d => (aa_action_id (de_action d), de_outcome d)) <$> rr_decisions res | Err _ => [] end).
Definition tripped : CircuitBreakerDecision := MkDecision downgrade "low headroom" open (of_int 1) (of_int 1) None.

Example apply_ex :
  seen (go APPLY (limits 5 (VStr "1")) None [signal "a" 2 1; signal "stuck" 1 1])
  = (["stuck"; "a"], [("ap-stuck", denied); ("ap-a", applied)]).
Proof. vm_compute. reflexivity. Qed.
Example shadow_mode_ex : seen (go SHADOW (limits 5 VNone) None [signal "a" 1 1]) = ([], [("ap-a", shadowed)]).
Proof. vm_compute. reflexivity. Qed.
Example over_budget_ex : seen (go APPLY (limits 5 VNone) None [signal "a" 1 2]) = ([], [("ap-a", denied)]).
Proof. vm_compute. reflexivity. Qed.
Example run_limit_ex :
  seen (go APPLY (limits 5 (VStr "0.1")) None [signal "a" 1 1; signal "b" 2 1]) = (["a"], [("ap-a", applied); ("ap-b", denied)]).
Proof. vm_compute. reflexivity. Qed.
Example breaker_ex : seen (go APPLY (limits 5 VNone) (Some tripped) [signal "a" 1 1]) = ([], [("ap-a", denied)]).
Proof. vm_compute. reflexivity. Qed.
(** Every action is simulated from the same spend: two that exceed the
    budget of 1.10 together are both applied. *)
Example budget_is_per_action :
  seen (go APPLY (limits 5 VNone) None [signal "a" 1 1; signal "b" 2 1]) = (["a"; "b"], [("ap-a", applied); ("ap-b", applied)]) /\
  rmap batch_would_exceed (WhatIfSim.batch 2 []) = Ok (Some true).
Proof. split; vm_compute; reflexivity. Qed.
(** An action the executor reports as not applied does not count. *)
Example failures_are_not_counted :
  (go APPLY (limits 1 VNone) None [signal "stuck" 1 1; signal "stuck" 2 1; signal "a" 3 1]).1 = ["stuck"; "stuck"; "a"].
Proof. vm_compute. reflexivity. Qed.
End AutopilotSim.

Lemma autopilot_stays_on_rails_witness :
  let c := AutopilotSim.controller APPLY (AutopilotSim.limits 5 (VStr "0.1")) in
  let r := AutopilotSim.go APPLY (AutopilotSim.limits 5 (VStr "0.1")) None [AutopilotSim.signal "a" 1 1; AutopilotSim.signal "b" 2 1] in
  exists calls, executed [] calls r.1 /\
    Forall (fun k => railed no_attributes no_regex c None (ca_action k) (ca_projection k)) calls /\
    exists zs, amounts_are ((fun k => total_reserved_usd (ca_projection k)) <$> filter took calls) zs /\
      exists zc, usd_is (micro 100000) zc /\ zsum zs <= zc.
Proof.
  intros c r.
  destruct (autopilot_stays_on_rails no_attributes no_regex (fun _ => VNone) c Planner.plan_clock
    [AutopilotSim.signal "a" 1 1; AutopilotSim.signal "b" 2 1] [] None [] r.1 r.2 5 VNone (VStr "0.1") VNone)
    as [[Hn _]|(calls & He & Hr & _ & (zs & Hzs & Hsum) & _)].
  - vm_compute. reflexivity.
  - apply surjective_pairing.
  - vm_compute in Hn. discriminate.
  - exists calls. split; [exact He|]. split; [exact Hr|]. exists zs. split; [exact Hzs|]. apply (Hsum (micro 100000)). vm_compute. reflexivity.
Defined.
