(* ===== verification/KillEscalation.v ===== *)
(** * From a spent budget to the kill switch ([cost/budget_kill_escalation.py])

    A decision of the circuit breaker fires the kill switch when the mode is
    armed, the breaker blocks and the headroom is at or below a floor.  The
    switch is anything that can be activated with a reason; the witness uses
    the cloud kill switch of KillSwitch. *)

From Stdlib Require Import QArith Lqa.
From S2P Require Import Prelude PyDecimal PyValue PyFormat Effects CircuitBreaker Simulator Autopilot.
#[local] Open Scope Z_scope.

(** Definitions *)

Inductive KillEscalationMode := disabled | shadow | armed.
#[global] Instance KillEscalationMode_eq_dec : EqDecision KillEscalationMode.
Proof. solve_decision. Defined.

Record KillEscalationPolicy : Type := MkKillPolicy { require_block : bool; headroom_floor_usd : dec }.
Definition default_policy : KillEscalationPolicy := MkKillPolicy true dzero.

Record KillEscalationDecision : Type := MkKillDecision { kd_should_fire : bool; kd_mode : KillEscalationMode; kd_reason : string }.
Record KillEscalationOutcome (R : Type) : Type := MkKillOutcome {
  ko_fired : bool; ko_mode : KillEscalationMode; ko_reason : string; ko_report : option R }.
Arguments MkKillOutcome {R}.
Arguments ko_fired {R}.
Arguments ko_mode {R}.
Arguments ko_reason {R}.
Arguments ko_report {R}.

(** [_normalize_mode] *)
Definition normalize_mode (mode : string) : KillEscalationMode * option string :=
  if String.eqb mode "disabled" then (disabled, None)
  else if String.eqb mode "shadow" then (shadow, None)
  else if String.eqb mode "armed" then (armed, None)
  else (disabled, Some ("invalid budget-breach kill mode " +:+ repr_str mode +:+ "; fail-closed to mode='disabled'")).

(** [evaluate_kill_escalation] *)
Definition evaluate_kill_escalation (d : CircuitBreakerDecision) (mode : string) (policy : option KillEscalationPolicy)
  : KillEscalationDecision :=
  let p := default default_policy policy in
  let '(m, invalid) := normalize_mode mode in
  match invalid with
  | Some why => MkKillDecision false m why
  | None =>
      match m with
      | disabled => MkKillDecision false m "budget-breach kill escalation inert (mode='disabled')"
      | _ =>
          let block_ok := bool_decide (action d = block) || negb (require_block p) in
          let headroom_breached := dleb (headroom_usd d) (headroom_floor_usd p) in
          if negb (block_ok && headroom_breached)
          then MkKillDecision false m ("no escalation (action=" +:+ action_name (action d) +:+ ", headroom=" +:+
                 str_dec_fin (headroom_usd d) +:+ " vs floor=" +:+ str_dec_fin (headroom_floor_usd p) +:+ ")")
          else MkKillDecision true m ("budget breach: action=" +:+ action_name (action d) +:+ ", headroom " +:+
                 str_dec_fin (headroom_usd d) +:+ " <= floor " +:+ str_dec_fin (headroom_floor_usd p) +:+ " (" +:+ reason d +:+ ")")
      end
  end.

Section Escalate.
Context {F E R : Type} (activate : string -> F -> F * result E R).

(** [maybe_escalate_to_kill] *)
Definition maybe_escalate_to_kill (d : CircuitBreakerDecision) (mode : string) (policy : option KillEscalationPolicy)
  : eff F E (KillEscalationOutcome R) :=
  let decided := evaluate_kill_escalation d mode policy in
  if negb (kd_should_fire decided) then ret (MkKillOutcome false (kd_mode decided) (kd_reason decided) None)
  else if negb (bool_decide (kd_mode decided = armed))
  then ret (MkKillOutcome false (kd_mode decided) ("SHADOW (no-fire): " +:+ kd_reason decided) None)
  else do! report := activate ("budget-breach auto-kill: " +:+ kd_reason decided) in
       ret (MkKillOutcome true armed (kd_reason decided) (Some report)).

(** ** Lemmas *)

(** The headroom of amounts of money is not rounded. *)
Lemma headroom_amounts budget spend zb zs h pct :
  usd_is budget zb -> usd_is spend zs -> headroom budget spend = Ok (h, pct) ->
  dleb h dzero = (zb <=? zs).
Proof.
  intros [-> Hb] [-> Hs]. unfold headroom. rewrite dsub_micro by lia. cbn [rbind].
  intros (p & _ & [= <- _])%rbind_Ok. rewrite negative_micro. destruct (zb - zs <? 0) eqn:Hneg; boolify.
  - symmetry. apply Z.leb_le. lia.
  - transitivity (dleb (micro (zb - zs)) (micro 0)).
    { apply eq_true_iff_eq. rewrite !dleb_spec. unfold dzero, micro. by rewrite !dval_zero. }
    rewrite dleb_micro. apply eq_true_iff_eq. rewrite !Z.leb_le. lia.
Qed.

(** ** Properties *)

(** Compute is killed exactly when the money is gone: on a decision of the
    circuit breaker about a budget and a spend, whatever its state and the
    burn rate, the armed escalation activates the switch if the spend has
    reached the budget, and does nothing otherwise; in every other mode,
    known or not, it never touches the switch. *)
Theorem kill_escalation_exact b budget spend zb zs now burn b' d mode f :
  evaluate b budget spend now burn = Ok (b', d) -> usd_is budget zb -> usd_is spend zs ->
  (0 <= dval (headroom_trip_pct b))%Q -> (0 <= dval (downgrade_headroom_pct b))%Q -> (0 < dval (recovery_headroom_pct b))%Q ->
  if String.eqb mode "armed" && (zb <=? zs)
  then exists why, maybe_escalate_to_kill d mode None f =
         match activate ("budget-breach auto-kill: " +:+ why) f with
         | (f', Ok report) => (f', Ok (MkKillOutcome true armed why (Some report)))
         | (f', Err e) => (f', Err e)
         end
  else exists m why, maybe_escalate_to_kill d mode None f = (f, Ok (MkKillOutcome false m why None)).
Proof.
  intros (h & pct & rw & act & breaker_why & _ & Hh & _ & Htr & -> & _)%evaluate_inv Hb Hs Ht Hd Hr.
  assert (zb <= zs -> act = block) as Hblock.
  { intros Hle. destruct (headroom_exhausted budget spend h pct) as [_ Hp]; [|done|by eapply transition_exhausted].
    destruct Hb as [-> _], Hs as [-> _]. apply dleb_spec. rewrite dleb_micro. by apply Z.leb_le. }
  unfold maybe_escalate_to_kill, evaluate_kill_escalation, normalize_mode. cbn [default headroom_floor_usd default_policy].
  cbn [headroom_usd]. rewrite (headroom_amounts _ _ _ _ _ _ Hb Hs Hh). destruct (String.eqb mode "armed") eqn:Ea.
  - apply String.eqb_eq in Ea as ->. simpl. destruct (zb <=? zs) eqn:Hle.
    + rewrite Hblock by (by apply Z.leb_le). simpl. eexists. unfold bind, ret. reflexivity.
    + rewrite andb_false_r. simpl. by do 2 eexists.
  - simpl. destruct (String.eqb mode "disabled"); [by do 2 eexists|]. destruct (String.eqb mode "shadow"); [|by do 2 eexists].
    destruct (negb (_ && _)); simpl; by do 2 eexists.
Qed.
End Escalate.

Module EscalationSim.
(** A switch that writes down why it was activated. *)
Definition switch (why : string) (log : list string) : list string * result exn unit := (log ++ [why], Ok tt).
Definition decide_at (budget spend : Z) : py (BudgetCircuitBreaker * CircuitBreakerDecision) :=
  evaluate default_breaker (micro budget) (micro spend) breaker_now None.
Definition escalate (mode : string) (policy : option KillEscalationPolicy) (budget spend : Z) : list (list string * bool) :=
  match decide_at budget spend with
  | Ok (_, d) => match maybe_escalate_to_kill switch d mode policy [] with (log, Ok o) => [(log, ko_fired o)] | _ => [] end
  | Err _ => []
  end.
Example armed_ex :
  escalate "armed" None 5000000 5000000 =
  [(["budget-breach auto-kill: budget breach: action=block, headroom 0.000000 <= floor 0 (budget exhausted)"], true)].
Proof. vm_compute. reflexivity. Qed.
Example one_micro_dollar_left_ex : escalate "armed" None 5000000 4999999 = [([], false)].
Proof. vm_compute. reflexivity. Qed.
Example shadow_ex' : escalate "shadow" None 5000000 6000000 = [([], false)].
Proof. vm_compute. reflexivity. Qed.
Example unknown_mode_ex : escalate "ARMED" None 5000000 6000000 = [([], false)].
Proof. vm_compute. reflexivity. Qed.
(** A relaxed policy kills while requests are still let through. *)
Example relaxed_policy_ex :
  (fun x => x.2) <$> escalate "armed" (Some (MkKillPolicy false (of_int 3))) 5000000 2000000 = [true].
Proof. vm_compute. reflexivity. Qed.
(** A budget of zero is spent from the start. *)
Example zero_budget_ex : (fun x => x.2) <$> escalate "armed" None 0 0 = [true].
Proof. vm_compute. reflexivity. Qed.
End EscalationSim.

Lemma kill_escalation_exact_witness :
  match EscalationSim.decide_at 5000000 6000000 with
  | Ok (_, d) => exists why, maybe_escalate_to_kill EscalationSim.switch d "armed" None [] =
                   (["budget-breach auto-kill: " +:+ why], Ok (MkKillOutcome true armed why (Some tt)))
  | Err _ => False
  end.
Proof.
  destruct (EscalationSim.decide_at 5000000 6000000) as [[b' d]|e] eqn:He; [|vm_compute in He; discriminate].
  refine (kill_escalation_exact EscalationSim.switch default_breaker (micro 5000000) (micro 6000000) 5000000 6000000 breaker_now None
    b' d "armed" [] He _ _ _ _ _); first [split; [reflexivity|vm_compute; by split]|apply Qle_bool_iff; vm_compute; reflexivity|vm_compute; reflexivity].
Defined.
