(* ===== verification/BurnRate.v ===== *)
(** * Burn-rate forecasts ([finops/burn_rate.py])

    Daily spend becomes a burn rate, a trend, a confidence and the day the
    budget runs out.  Days are proleptic ordinals; [square] is [x ** 2] of a
    [Decimal], whose last digit the library does not specify. *)

From Stdlib Require Import SpecFloat QArith Lqa.
From S2P Require Import Prelude PyDecimal PyFloat PyValue PyTime PyFormat PyOrder.
#[local] Open Scope Z_scope.

(** Definitions *)

Inductive Trend := increasing | decreasing | stable | insufficient_data.
Record SpendPoint : Type := MkSpendPoint { sp_day : Z; sp_cost_usd : dec }.
Record BurnRateForecast : Type := MkForecast {
  burn_rate_usd_per_day : dec;
  projected_exhaustion : option datetime;
  bf_trend : Trend;
  confidence : dec;
  bf_budget_usd : dec;
  remaining_budget_usd : dec;
  runway_days : option dec;
}.

Definition TREND_THRESHOLD : dec := Dec 105 (-2).
Definition TREND_DOWN_THRESHOLD : dec := Dec 95 (-2).
Definition CONFIDENCE_WINDOW_DAYS : Z := 7.

(** ** What the forecast uses of Python's library *)

(** [math.sqrt] of a non-negative float and [Decimal(x)] of a finite one. *)
Definition fsqrt (x : float) : float := SFsqrt fprec femax x.
Definition dec_of_float (x : float) : option dec :=
  match x with
  | S754_zero _ => Some dzero
  | S754_finite s m e =>
      let z := if s then Zneg m else Zpos m in
      Some (if 0 <=? e then Dec (z * 2 ^ e) 0 else Dec (z * 5 ^ (- e)) e)
  | _ => None
  end.
(** ** The forecaster *)

Section Forecaster.
Context (square : dec -> py dec).

Definition costs (points : list SpendPoint) : list dec := sp_cost_usd <$> points.

(** [_compute_trend] of the points in order *)
Definition average (points : list SpendPoint) : py dec :=
  match points with
  | [] => Ok dzero
  | _ => let? s := dsum dzero (costs points) in ddiv s (of_int (Z.of_nat (length points)))
  end.
Definition compute_trend (points : list SpendPoint) : py Trend :=
  let n := length points in
  if (n <? 2)%nat then Ok insufficient_data else
  let mid := (n / 2)%nat in
  let? first_avg := average (take mid points) in
  let? second_avg := average (drop mid points) in
  if deqb first_avg dzero then Ok (if dltb dzero second_avg then increasing else stable) else
  let? ratio := ddiv second_avg first_avg in
  Ok (if dltb TREND_THRESHOLD ratio then increasing else if dltb ratio TREND_DOWN_THRESHOLD then decreasing else stable).

(** [_compute_confidence] *)
Definition point_factor (n : Z) : py dec :=
  let? q := fdiv (fsqrt (of_Z n)) (fsqrt (of_Z CONFIDENCE_WINDOW_DAYS)) in
  Ok (default dzero (dec_of_float (fmin (of_Z 1) q))).
(** [max(0, 1 - cv)]; [None] is an infinite deviation. *)
Definition variance_factor (std_dev : option dec) (mean : dec) : py dec :=
  match std_dev with
  | Some s => let? cv := ddiv s mean in let? v := dsub (of_int 1) cv in Ok (dmax dzero v)
  | None => if dltb dzero mean then Ok dzero else Err DecimalInvalidOperation
  end.
Definition clamp (d : dec) : dec := if dltb d dzero then dzero else if dltb (of_int 1) d then of_int 1 else d.
Definition compute_confidence (points : list SpendPoint) (total : dec) : py dec :=
  let n := Z.of_nat (length points) in
  if n <? 2 then Ok dzero else
  let? mean := ddiv total (of_int n) in
  if deqb mean dzero then let? f := point_factor n in quantize_usd f
  else
    let? deviations := mapR (fun c => let? x := dsub c mean in square x) (costs points) in
    let? s := dsum dzero deviations in
    let? variance := ddiv s (of_int n) in
    let std_dev := if dltb dzero variance then dec_of_float (fsqrt (of_dec variance)) else Some dzero in
    let? v := variance_factor std_dev mean in
    let? f := point_factor n in
    let? product := dmul f v in
    rmap clamp (quantize_usd product).

(** The days a window of points spans. *)
Definition day_span (points : list SpendPoint) : Z :=
  match points, last points with
  | [], _ | _, None => 0
  | [_], _ => 1
  | p :: _, Some q => Z.max 1 (sp_day q - sp_day p + 1)
  end.

(** [forecast] *)
Definition forecast (points : list SpendPoint) (budget_usd mtd_spend_usd : dec) (now : datetime) : py BurnRateForecast :=
  let? observed_at := require_utc now "now" in
  let points := sort_by (less (by_ sp_day Z.compare)) points in
  let? total := dsum dzero (costs points) in
  let span := day_span points in
  let? rate := if 0 <? span then let? q := ddiv total (of_int span) in quantize_usd q else Ok dzero in
  let? trend := compute_trend points in
  let? conf := compute_confidence points total in
  let? unspent := dsub budget_usd mtd_spend_usd in
  let? remaining := quantize_usd unspent in
  let remaining := if dltb remaining dzero then dzero else remaining in
  if dltb dzero remaining && dltb dzero rate then
    let? q := ddiv remaining rate in
    let? runway := quantize_usd q in
    let? exhaustion := match (let? d := timedelta_of us_per_day (of_dec runway) in dt_add observed_at d) with
                       | Err OverflowError => Ok None
                       | r => rmap Some r
                       end in
    Ok (MkForecast rate exhaustion trend conf budget_usd remaining (Some runway))
  else Ok (MkForecast rate None trend conf budget_usd remaining None).
End Forecaster.

(** ** [forecast_from_cost_daily] *)

(** The rows of the last days; the query orders them, and the forecast does
    so again. *)
Definition window_rows (observed_day window_days : Z) (rows : list SpendPoint) : list SpendPoint :=
  filter (fun p => observed_day - (window_days - 1) <= sp_day p) rows.
Definition forecast_from_cost_daily (square : dec -> py dec) (rows : list SpendPoint) (budget_usd mtd_spend_usd : dec)
    (now : datetime) (window_days : Z) : py BurnRateForecast :=
  let? observed_at := require_utc now "now" in
  forecast square (window_rows (dt_us observed_at / us_per_day) window_days rows) budget_usd mtd_spend_usd observed_at.

Module BurnRateSim.
Definition square (d : dec) : py dec := dmul d d.
Definition now : datetime := utc 1767225600000000.
Definition day : Z := 1767225600000000 / us_per_day.
Definition spend (cs : list Z) : list SpendPoint := imap (fun i c => MkSpendPoint (day - Z.of_nat i) (micro (c * 1000000))) cs.
Definition run (cs : list Z) : py BurnRateForecast := forecast square (spend cs) (of_int 100) (of_int 40) now.
Definition seen (f : BurnRateForecast) :=
  (str_dec_fin (burn_rate_usd_per_day f), bf_trend f, str_dec_fin (confidence f), str_dec_fin (remaining_budget_usd f),
   str_dec_fin <$> runway_days f, isoformat <$> projected_exhaustion f).
Example steady_ex :
  rmap seen (run [4; 4; 4; 4]) =
  Ok ("4.000000", stable, "0.755929", "60.000000", Some "15.000000", Some "2026-01-16T00:00:00+00:00").
Proof. vm_compute. reflexivity. Qed.
Example rising_ex : rmap seen (run [9; 1]) =
  Ok ("5.000000", increasing, "0.106904", "60.000000", Some "12.000000", Some "2026-01-13T00:00:00+00:00").
Proof. vm_compute. reflexivity. Qed.
(** Past the year 9999 there is no exhaustion. *)
Example far_ex : rmap (fun f => projected_exhaustion f) (forecast square [MkSpendPoint day (micro 1)] (of_int 100) dzero now) = Ok None.
Proof. vm_compute. reflexivity. Qed.
Example empty_ex : rmap seen (run []) = Ok ("0", insufficient_data, "0", "60.000000", None, None).
Proof. vm_compute. reflexivity. Qed.
End BurnRateSim.
