(* ===== verification/Reservations.v ===== *)
(** * Reservation recommendations ([finops/reservations.py])

    Candidate plans of reserved and warm capacity are priced by replaying the
    demand through the what-if simulator, and the cheapest plan that meets
    the demand is recommended; on-demand routing is one of them. *)

From Stdlib Require Import QArith Lqa.
From S2P Require Import Prelude PyDecimal PyFloat PyValue PyFormat PyOrder.
From S2P Require Import Provider RoutingTypes Availability Planner Estimator Simulator BurnRate.
#[local] Open Scope Z_scope.

(** Definitions *)

(** [_quantize], [_usd], [_signed_usd] and [_non_negative_decimal] *)
Definition quantize_money (d : dec) (name : string) : py dec :=
  match quantize_usd d with
  | Err DecimalInvalidOperation => Err (ValueError (name +:+ " is out of representable range: " +:+ str_dec_fin d))
  | r => r
  end.
Definition non_negative_decimal (v : pyval) (name : string) : py dec :=
  let? d := finite_decimal v name in
  if dltb d dzero then Err (ValueError (name +:+ " must be non-negative")) else Ok d.
Definition money (v : pyval) (name : string) : py dec := let? d := non_negative_decimal v name in quantize_money d name.
Definition signed_money (v : pyval) (name : string) : py dec := let? d := finite_decimal v name in quantize_money d name.
Definition non_negative_int (z : Z) (name : string) : py unit :=
  if z <? 0 then Err (ValueError (name +:+ " must be a non-negative integer")) else Ok tt.

Record DemandForecast : Type := MkDemand { df_name : string; df_workloads : list WhatIfWorkload; window_hours : dec }.
Definition demand_forecast (name : string) (ws : list WhatIfWorkload) (hours : pyval) : py DemandForecast :=
  if negb (nonempty name) then Err (ValueError "demand forecast name must be non-empty") else
  let? h := non_negative_decimal hours "window_hours" in Ok (MkDemand name ws h).
Definition workload_count (d : DemandForecast) : Z := Z.of_nat (length (df_workloads d)).

Record ReservationLine : Type := MkLine {
  rl_provider_id : string; reserved_units : Z; warm_pool_size : Z; unit_capacity : Z;
  hourly_commitment_usd : dec; upfront_usd : dec }.
Definition total_units (l : ReservationLine) : Z := reserved_units l + warm_pool_size l.
Definition capacity_workloads (l : ReservationLine) : Z := total_units l * unit_capacity l.
Definition reservation_line (provider_id : string) (units warm capacity : Z) (hourly upfront : pyval) : py ReservationLine :=
  if negb (nonempty provider_id) then Err (ValueError "provider_id must be non-empty") else
  let? _ := non_negative_int units "reserved_units" in
  let? _ := non_negative_int warm "warm_pool_size" in
  if capacity <? 1 then Err (ValueError "unit_capacity must be >= 1") else
  if units + warm <? 1 then Err (ValueError "reservation line must include reserved_units or warm_pool_size") else
  let? h := money hourly "hourly_commitment_usd" in
  let? u := money upfront "upfront_usd" in
  Ok (MkLine provider_id units warm capacity h u).
(** [ReservationLine.fixed_cost_usd] *)
Definition line_fixed_cost (hours : dec) (l : ReservationLine) : py dec :=
  let? x := dmul (hourly_commitment_usd l) (of_int (total_units l)) in
  let? y := dmul x hours in
  let? z := dadd (upfront_usd l) y in
  money (amount z) "fixed_cost_usd".

Record ReservationCandidate : Type := MkCandidate { plan_id : string; reserves : list ReservationLine; price_overrides : dict }.
Definition reservation_candidate (i : string) (lines : list ReservationLine) (overrides : dict) : py ReservationCandidate :=
  if negb (nonempty i) then Err (ValueError "plan_id must be non-empty") else
  if forallb (fun kv => bool_decide (kv.1 ∈ rl_provider_id <$> lines)) overrides
  then Ok (MkCandidate i lines (freeze_mapping overrides))
  else Err (ValueError "price_overrides must reference reserved providers").
(** [capacity_by_provider] and [_increment_count] on dicts of counts. *)
Definition count_of (i : string) (m : list (string * Z)) : Z := default 0 (al_get i m).
Definition add_count (i : string) (n : Z) (m : list (string * Z)) : list (string * Z) := al_set i (count_of i m + n) m.
Definition capacity_by_provider (c : ReservationCandidate) : list (string * Z) :=
  foldl (fun m l => add_count (rl_provider_id l) (capacity_workloads l) m) [] (reserves c).
(** [ReservationCandidate.fixed_cost_usd] *)
Definition candidate_fixed_cost (hours : dec) (c : ReservationCandidate) : py dec :=
  let? fs := mapR (line_fixed_cost hours) (reserves c) in
  let? s := dsum dzero fs in money (amount s) "fixed_cost_usd".

Record PlanEvaluation : Type := MkPlanEvaluation {
  pe_plan : ReservationCandidate;
  pe_fixed : dec; pe_marginal : dec; pe_total : dec; pe_savings : dec;
  pe_covered : Z; pe_overflow : Z; pe_unmet : Z; pe_meets_demand : bool;
  pe_selected : list (string * Z); pe_budget_after : option dec; pe_runway_after : option dec }.
(** [PlanEvaluation.__post_init__] *)
Definition optional_signed (o : option dec) : py (option dec) :=
  match o with Some d => rmap Some (signed_money (amount d) "budget_after_plan_usd") | None => Ok None end.
Definition optional_runway (o : option dec) : py (option dec) :=
  match o with Some d => rmap Some (non_negative_decimal (amount d) "runway_days_after_plan") | None => Ok None end.
Definition plan_evaluation (e : PlanEvaluation) : py PlanEvaluation :=
  let? fixed := money (amount (pe_fixed e)) "fixed_cost_usd" in
  let? marginal := money (amount (pe_marginal e)) "marginal_cost_usd" in
  let? total := money (amount (pe_total e)) "total_cost_usd" in
  let? savings := signed_money (amount (pe_savings e)) "projected_savings_usd" in
  let? _ := non_negative_int (pe_covered e) "covered_workloads" in
  let? _ := non_negative_int (pe_overflow e) "on_demand_overflow_workloads" in
  let? _ := non_negative_int (pe_unmet e) "unmet_workloads" in
  let? after := optional_signed (pe_budget_after e) in
  let? runway := optional_runway (pe_runway_after e) in
  Ok (MkPlanEvaluation (pe_plan e) fixed marginal total savings (pe_covered e) (pe_overflow e) (pe_unmet e) (pe_meets_demand e)
        (sort_by (less (by_ fst String.compare)) (pe_selected e)) after runway).

Inductive RecommendationAction := reserve | on_demand | blocked.
Record ReservationRecommendation : Type := MkRecommendation {
  re_demand : DemandForecast; re_baseline : PlanEvaluation; re_evaluations : list PlanEvaluation;
  re_recommended : PlanEvaluation; re_action : RecommendationAction; re_forecast : option BurnRateForecast }.

(** [_budget_metadata] *)
Definition budget_metadata (total : dec) (forecast : option BurnRateForecast) : py (option dec * option dec) :=
  match forecast with
  | None => Ok (None, None)
  | Some f =>
      let? x := dsub (remaining_budget_usd f) total in
      let? after := signed_money (amount x) "budget_after_plan_usd" in
      if dleb after dzero || dleb (burn_rate_usd_per_day f) dzero then Ok (Some after, None)
      else let? q := ddiv after (burn_rate_usd_per_day f) in
           let? runway := non_negative_decimal (amount q) "runway_days_after_plan" in
           Ok (Some after, Some runway)
  end.

(** [_selected_provider_counts] *)
Definition selected_provider_counts (ps : list WhatIfProjection) : list (string * Z) :=
  foldl (fun m p => match selected_cost p with Some c => add_count (cp_provider_id c) 1 m | None => m end) [] ps.
(** [_baseline_evaluation] *)
Definition unselected (ps : list WhatIfProjection) : Z :=
  Z.of_nat (length (filter (fun p => selected_cost p = None) ps)).
Definition on_demand_plan : ReservationCandidate := MkCandidate "on_demand" [] [].
Definition baseline_evaluation (d : DemandForecast) (b : WhatIfBatchProjection) (f : option BurnRateForecast) : py PlanEvaluation :=
  let unmet := unselected (projections b) in
  let? (after, runway) := budget_metadata (total_reserved_usd b) f in
  plan_evaluation (MkPlanEvaluation on_demand_plan dzero (total_reserved_usd b) (total_reserved_usd b) dzero 0
    (workload_count d - unmet) unmet (unmet =? 0) (selected_provider_counts (projections b)) after runway).

(** [_active_price_overrides] *)
Definition active_price_overrides (c : ReservationCandidate) (remaining : list (string * Z)) : dict :=
  filter (fun kv => 0 < count_of kv.1 remaining) (price_overrides c).

Section Recommend.
Context (clock : datetime) (mono : float) (global : AvailabilityCache) (s : WhatIfSimulator).

(** [_simulate_reserved_projection] *)
Definition simulate_reserved_projection (w : WhatIfWorkload) (c : ReservationCandidate) (remaining : list (string * Z))
  : py (option WhatIfProjection) :=
  match active_price_overrides c remaining with
  | [] => Ok None
  | active => rmap Some (simulate clock mono global s (ww_request w) (ww_payload w)
                           (MkSimulate None None None active VNone VNone None None))
  end.

(** The loop of [_evaluate_candidate]. *)
Record demand_fit : Type := MkFit {
  ft_remaining : list (string * Z); ft_marginal : dec; ft_covered : Z; ft_overflow : Z; ft_unmet : Z; ft_selected : list (string * Z) }.
Definition covers (remaining : list (string * Z)) (p : option WhatIfProjection) : option ProviderCostProjection :=
  match p with
  | Some p => match selected_cost p with
              | Some c => if 0 <? count_of (cp_provider_id c) remaining then Some c else None
              | None => None
              end
  | None => None
  end.
Definition fit_workload (c : ReservationCandidate) (t : demand_fit) (wb : WhatIfWorkload * WhatIfProjection) : py demand_fit :=
  let? p := simulate_reserved_projection wb.1 c (ft_remaining t) in
  match covers (ft_remaining t) p with
  | Some k =>
      let? m := dadd (ft_marginal t) (cp_upper_bound_usd k) in
      Ok (MkFit (add_count (cp_provider_id k) (-1) (ft_remaining t)) m (ft_covered t + 1) (ft_overflow t) (ft_unmet t)
            (add_count (cp_provider_id k) 1 (ft_selected t)))
  | None =>
      match selected_cost wb.2 with
      | None => Ok (MkFit (ft_remaining t) (ft_marginal t) (ft_covered t) (ft_overflow t) (ft_unmet t + 1) (ft_selected t))
      | Some k =>
          let? m := dadd (ft_marginal t) (reserved_usd wb.2) in
          Ok (MkFit (ft_remaining t) m (ft_covered t) (ft_overflow t + 1) (ft_unmet t)
                (add_count (cp_provider_id k) 1 (ft_selected t)))
      end
  end.
(** [_evaluate_candidate] *)
Definition evaluate_candidate (d : DemandForecast) (baseline : list WhatIfProjection) (baseline_total : dec)
    (f : option BurnRateForecast) (c : ReservationCandidate) : py PlanEvaluation :=
  let? fixed := candidate_fixed_cost (window_hours d) c in
  let? t := foldR (fit_workload c) (MkFit (capacity_by_provider c) dzero 0 0 0 []) (zip (df_workloads d) baseline) in
  if negb (length (df_workloads d) =? length baseline)%nat then Err (ValueError "zip() arguments differ in length") else
  let? marginal := money (amount (ft_marginal t)) "marginal_cost_usd" in
  let? sum := dadd fixed marginal in
  let? total := money (amount sum) "total_cost_usd" in
  let? (after, runway) := budget_metadata total f in
  let? saved := dsub baseline_total total in
  let? savings := signed_money (amount saved) "projected_savings_usd" in
  plan_evaluation (MkPlanEvaluation c fixed marginal total savings (ft_covered t) (ft_overflow t) (ft_unmet t) (ft_unmet t =? 0)
    (ft_selected t) after runway).

(** [_recommendation_sort_key] *)
Definition on_demand_priority (e : PlanEvaluation) : Z := if String.eqb (plan_id (pe_plan e)) "on_demand" then 0 else 1.
Definition recommendation_order : cmp PlanEvaluation :=
  tuple_key [by_ pe_total dcompare; by_ on_demand_priority Z.compare; by_ (fun e => plan_id (pe_plan e)) String.compare].
(** [recommend_reservations] *)
Definition recommend_reservations (d : DemandForecast) (candidates : list ReservationCandidate) (f : option BurnRateForecast)
  : py ReservationRecommendation :=
  let? b := simulate_workloads clock mono global s (df_workloads d) [] VNone VNone in
  let? baseline := baseline_evaluation d b f in
  let? evaluations := mapR (evaluate_candidate d (projections b) (pe_total baseline) f) candidates in
  match sort_by (less recommendation_order) (filter (fun e => pe_meets_demand e = true) (baseline :: evaluations)) with
  | [] => Ok (MkRecommendation d baseline evaluations baseline blocked f)
  | best :: _ => Ok (MkRecommendation d baseline evaluations best
                       (if String.eqb (plan_id (pe_plan best)) "on_demand" then on_demand else reserve) f)
  end.
End Recommend.

(** ** Lemmas *)

Lemma quantize_money_Ok d name q : quantize_money d name = Ok q -> quantize_usd d = Ok q.
Proof. unfold quantize_money. by destruct (quantize_usd d) as [|[]]. Qed.
Lemma money_Ok d name q : money (amount d) name = Ok q -> quantize_usd d = Ok q /\ exists z, usd_is q z.
Proof.
  unfold money, non_negative_decimal. cbn [finite_decimal amount decimal_of_str rbind]. destruct (dltb d dzero) eqn:E; [done|].
  cbn [rbind]. intros H%quantize_money_Ok. split; [done|]. destruct (quantize_usd_micro _ _ H) as [Hq Hlt].
  exists (dcoef q). split; [done|]. assert (0 <= dcoef q); [|lia]. apply dcoef_nonneg. eapply quantize_nonneg; [|exact H].
  apply dltb_false in E. unfold dzero in E. by rewrite dval_zero in E.
Qed.
Lemma money_same d z name q : is_micro d z -> 0 <= z < micro_limit -> money (amount d) name = Ok q -> q = micro z.
Proof. intros Hd Hz [Hq _]%money_Ok. rewrite (is_micro_quantize _ _ Hd) in Hq by lia. by injection Hq. Qed.
Lemma signed_money_same z name q : Z.abs z < micro_limit -> signed_money (amount (micro z)) name = Ok q -> q = micro z.
Proof.
  intros Hz. unfold signed_money. cbn [finite_decimal amount decimal_of_str rbind]. intros H%quantize_money_Ok.
  rewrite quantize_usd_id in H by done. by injection H.
Qed.

(** Counting: the capacity left, over all providers. *)
Definition capacity_total (m : list (string * Z)) : Z := zsum m.*2.
Lemma capacity_cons k x m : capacity_total ((k, x) :: m) = x + capacity_total m.
Proof. done. Qed.
Lemma spend_capacity i m :
  0 < count_of i m -> Forall (fun kv => 0 <= kv.2) m ->
  Forall (fun kv => 0 <= kv.2) (add_count i (-1) m) /\ capacity_total (add_count i (-1) m) = capacity_total m - 1.
Proof.
  unfold add_count, count_of. intros Hpos Hm. remember (default 0 (al_get i m)) as v eqn:Hv.
  revert Hv. induction Hm as [|[k x] m Hx Hm IH]; simpl; [by intros ->|]. simpl in Hx. case_decide as E; simpl.
  - intros ->. split; [by constructor; [simpl; lia|]|]. rewrite !capacity_cons. lia.
  - intros Hv. destruct (IH Hv) as [H1 H2]. split; [by constructor|]. rewrite !capacity_cons. lia.
Qed.
Lemma add_capacity i n m :
  0 <= n -> Forall (fun kv => 0 <= kv.2) m ->
  Forall (fun kv => 0 <= kv.2) (add_count i n m) /\ capacity_total (add_count i n m) = capacity_total m + n.
Proof.
  unfold add_count, count_of. intros Hn Hm. remember (default 0 (al_get i m)) as v eqn:Hv.
  revert Hv. induction Hm as [|[k x] m Hx Hm IH]; simpl.
  { intros ->. split; [constructor; [simpl; lia|constructor]|]. rewrite capacity_cons. lia. }
  simpl in Hx. case_decide as E; simpl.
  - intros ->. split; [by constructor; [simpl; lia|]|]. rewrite !capacity_cons. lia.
  - intros Hv. destruct (IH Hv) as [H1 H2]. split; [by constructor|]. rewrite !capacity_cons. lia.
Qed.

(** What a plan can carry. *)
Definition plan_capacity (c : ReservationCandidate) : Z := zsum (capacity_workloads <$> reserves c).
Definition candidate_ok (c : ReservationCandidate) : Prop := Forall (fun l => 0 <= capacity_workloads l) (reserves c).
Lemma reservation_line_ok i u w k h up l : reservation_line i u w k h up = Ok l -> 0 <= capacity_workloads l.
Proof.
  unfold reservation_line, non_negative_int. destruct (negb _); [done|]. destruct (u <? 0); [done|]. destruct (w <? 0); [done|].
  cbn [rbind]. destruct (k <? 1) eqn:Hk; [done|]. destruct (u + w <? 1) eqn:Hu; [done|].
  intros (x & _ & H)%rbind_Ok. apply rbind_Ok in H as (y & _ & [= <-]). boolify.
  unfold capacity_workloads, total_units. simpl. nia.
Qed.
Lemma capacity_start c :
  candidate_ok c ->
  Forall (fun kv => 0 <= kv.2) (capacity_by_provider c) /\ capacity_total (capacity_by_provider c) = plan_capacity c.
Proof.
  unfold candidate_ok, capacity_by_provider, plan_capacity. intros Hc.
  assert (forall m, Forall (fun kv => 0 <= kv.2) m ->
    let r := foldl (fun m l => add_count (rl_provider_id l) (capacity_workloads l) m) m (reserves c) in
    Forall (fun kv => 0 <= kv.2) r /\ capacity_total r = capacity_total m + zsum (capacity_workloads <$> reserves c)) as Hm.
  { induction Hc as [|l ls Hl _ IH]; intros m Hm; simpl; [split; [done|]; unfold zsum; simpl; lia|].
    destruct (add_capacity (rl_provider_id l) (capacity_workloads l) m Hl Hm) as [H1 H2]. destruct (IH _ H1) as [H3 H4].
    split; [done|]. rewrite H4, H2. by rewrite <- Z.add_assoc. }
  destruct (Hm [] ltac:(constructor)) as [H1 H2]. split; [done|]. rewrite H2. done.
Qed.

Section Facts.
Context (clock : datetime) (mono : float) (global : AvailabilityCache) (s : WhatIfSimulator).

(** The loop accounts for every workload and spends capacity one by one. *)
Record fit_inv (c : ReservationCandidate) (n : Z) (t : demand_fit) : Prop := MkFitInv {
  fi_capacity : Forall (fun kv => 0 <= kv.2) (ft_remaining t);
  fi_covered : ft_covered t + capacity_total (ft_remaining t) = plan_capacity c;
  fi_count : ft_covered t + ft_overflow t + ft_unmet t = n;
  fi_nonneg : 0 <= ft_covered t /\ 0 <= ft_overflow t /\ 0 <= ft_unmet t;
}.
Lemma fit_workload_inv c n t wb t' : fit_inv c n t -> fit_workload clock mono global s c t wb = Ok t' -> fit_inv c (n + 1) t'.
Proof.
  intros [Hc Hcov Hn Hnn]. unfold fit_workload. intros (p & _ & H)%rbind_Ok. destruct (covers (ft_remaining t) p) as [k|] eqn:Hk.
  - apply rbind_Ok in H as (m & _ & [= <-]). assert (0 < count_of (cp_provider_id k) (ft_remaining t)) as Hpos.
    { unfold covers in Hk. destruct p as [p|]; [|done]. destruct (selected_cost p) as [k'|]; [|done].
      destruct (0 <? _) eqn:E; [|done]. boolify. congruence. }
    destruct (spend_capacity _ _ Hpos Hc) as [H1 H2]. constructor; simpl; [done|lia..].
  - destruct (selected_cost wb.2) as [k|].
    + apply rbind_Ok in H as (m & _ & [= <-]). constructor; simpl; [done|lia..].
    + injection H as <-. constructor; simpl; [done|lia..].
Qed.
Lemma fit_all_inv c l : forall n t t', fit_inv c n t -> foldR (fit_workload clock mono global s c) t l = Ok t' ->
  fit_inv c (n + Z.of_nat (length l)) t'.
Proof.
  induction l as [|wb l IH]; intros n t t' Ht; simpl; [intros [= <-]; by rewrite Z.add_0_r|].
  intros (t1 & H1 & H)%rbind_Ok. replace (n + Z.of_nat (S (length l))) with (n + 1 + Z.of_nat (length l)) by lia.
  eapply IH; [|exact H]. by eapply fit_workload_inv.
Qed.

(** What every evaluation promises. *)
Record evaluated (d : DemandForecast) (e : PlanEvaluation) : Prop := MkEvaluated {
  ev_count : pe_covered e + pe_overflow e + pe_unmet e = workload_count d;
  ev_nonneg : 0 <= pe_covered e /\ 0 <= pe_overflow e /\ 0 <= pe_unmet e;
  ev_capacity : pe_covered e <= plan_capacity (pe_plan e);
  ev_meets : pe_meets_demand e = true <-> pe_unmet e = 0;
  ev_total : exists f m, usd_is (pe_fixed e) f /\ usd_is (pe_marginal e) m /\ usd_is (pe_total e) (f + m);
}.
Lemma plan_evaluation_inv e e' zf zm z :
  plan_evaluation e = Ok e' -> is_micro (pe_fixed e) zf -> is_micro (pe_marginal e) zm -> is_micro (pe_total e) z ->
  0 <= zf < micro_limit -> 0 <= zm < micro_limit -> 0 <= z < micro_limit ->
  pe_fixed e' = micro zf /\ pe_marginal e' = micro zm /\ pe_total e' = micro z /\ pe_plan e' = pe_plan e /\
  pe_covered e' = pe_covered e /\ pe_overflow e' = pe_overflow e /\ pe_unmet e' = pe_unmet e /\
  pe_meets_demand e' = pe_meets_demand e /\ 0 <= pe_covered e /\ 0 <= pe_overflow e /\ 0 <= pe_unmet e.
Proof.
  intros H Hf Hm Ht Hzf Hzm Hz. unfold plan_evaluation, non_negative_int in H.
  apply rbind_Ok in H as (f & Hf' & H). apply rbind_Ok in H as (m & Hm' & H). apply rbind_Ok in H as (t & Ht' & H).
  apply rbind_Ok in H as (sv & _ & H). destruct (pe_covered e <? 0) eqn:E1; [done|]. destruct (pe_overflow e <? 0) eqn:E2; [done|].
  destruct (pe_unmet e <? 0) eqn:E3; [done|]. cbn [rbind] in H. apply rbind_Ok in H as (a & _ & H).
  apply rbind_Ok in H as (r & _ & [= <-]). boolify. cbn [pe_fixed pe_marginal pe_total pe_plan pe_covered pe_overflow pe_unmet pe_meets_demand].
  rewrite (money_same _ _ _ _ Hf Hzf Hf'), (money_same _ _ _ _ Hm Hzm Hm'), (money_same _ _ _ _ Ht Hz Ht').
  repeat split; lia.
Qed.

Lemma baseline_evaluated d b f e :
  (exists z, usd_is (total_reserved_usd b) z) -> baseline_evaluation d b f = Ok e ->
  evaluated d e /\ pe_plan e = on_demand_plan.
Proof.
  intros (z & Hz) H. unfold baseline_evaluation in H. apply rbind_Ok in H as ([after runway] & _ & H).
  destruct (plan_evaluation_inv _ _ 0 z z H) as (Hf & Hm & Ht & Hp & Hc & Ho & Hu & Hmd & Hn); cbn [pe_fixed pe_marginal pe_total] in *;
    [by right|left; apply Hz|left; apply Hz|done|apply Hz|apply Hz|].
  cbn [pe_plan pe_covered pe_overflow pe_unmet pe_meets_demand] in *. split; [|done]. constructor; rewrite ?Hc, ?Ho, ?Hu, ?Hmd, ?Hp.
  - lia.
  - done.
  - done.
  - by rewrite Z.eqb_eq.
  - exists 0, z. rewrite Hf, Hm, Ht. destruct Hz as [_ Hz]. done.
Qed.

Lemma candidate_evaluated d baseline total f c e :
  candidate_ok c -> evaluate_candidate clock mono global s d baseline total f c = Ok e -> evaluated d e /\ pe_plan e = c.
Proof.
  intros Hc H. unfold evaluate_candidate in H. apply rbind_Ok in H as (fixed & Hfixed & H). apply rbind_Ok in H as (t & Ht & H).
  destruct (negb _) eqn:Hlen; [done|]. apply negb_false_iff, Nat.eqb_eq in Hlen.
  apply rbind_Ok in H as (m & Hm & H). apply rbind_Ok in H as (sm & Hsm & H). apply rbind_Ok in H as (tot & Htot & H).
  apply rbind_Ok in H as ([after runway] & _ & H). apply rbind_Ok in H as (sv & _ & H). apply rbind_Ok in H as (sg & _ & H).
  unfold candidate_fixed_cost in Hfixed. apply rbind_Ok in Hfixed as (fs & _ & Hfixed). apply rbind_Ok in Hfixed as (fsum & _ & Hfixed).
  apply money_Ok in Hfixed as (_ & zf & Hzf), Hm as (_ & zm & Hzm), Htot as (Hq & _).
  destruct (quantized_sum fixed m zf zm sm tot) as [Hlt Hz]; [left; apply Hzf|apply Hzf|done..|].
  destruct (capacity_start c Hc) as [Hcap Htotal].
  assert (fit_inv c 0 (MkFit (capacity_by_provider c) dzero 0 0 0 [])) as Hstart.
  { constructor; simpl; [done|by rewrite Htotal|done|done]. }
  destruct (fit_all_inv c _ 0 _ _ Hstart Ht) as [Hr Hcov Hcount Hnn].
  assert (0 <= capacity_total (ft_remaining t)) as Hrest.
  { clear -Hr. induction Hr as [|[k x] l Hx _ IH]; [done|]. rewrite capacity_cons. simpl in Hx. lia. }
  destruct (plan_evaluation_inv _ _ zf zm (zf + zm) H) as (Hf & Hm' & Ht' & Hp & Hc' & Ho & Hu & Hmd & _); cbn [pe_fixed pe_marginal pe_total] in *;
    [left; apply Hzf|left; apply Hzm|by left|apply Hzf|apply Hzm|destruct Hzf, Hzm; lia|].
  cbn [pe_plan pe_covered pe_overflow pe_unmet pe_meets_demand] in *. split; [|done]. constructor; rewrite ?Hc', ?Ho, ?Hu, ?Hmd, ?Hp.
  - rewrite Hcount, length_zip_with. unfold workload_count. lia.
  - done.
  - lia.
  - by rewrite Z.eqb_eq.
  - exists zf, zm. rewrite Hf, Hm', Ht'. destruct Hzf as [_ Hzf], Hzm as [_ Hzm]. repeat split; lia.
Qed.

Lemma recommendation_ordering : Ordering recommendation_order.
Proof.
  apply tuple_ordering. constructor; [apply by_ordering, decimal_ordering|]. constructor; [apply by_ordering, Z_ordering|].
  constructor; [apply by_ordering, string_ordering|constructor].
Qed.
End Facts.

(** ** Properties *)


Module ReservationSim.
Definition line (units : Z) (hourly : string) : ReservationLine :=
  match reservation_line "a" units 0 1 (VStr hourly) (VStr "0") with Ok l => l | Err _ => MkLine "a" 0 0 1 dzero dzero end.
Definition plan (i : string) (units : Z) (hourly : string) : ReservationCandidate :=
  MkCandidate i [line units hourly] [("a", VDict [("cost", WhatIfSim.cost "0.0001")])].
Definition demand (n : nat) : DemandForecast := MkDemand "peak" (WhatIfSim.workloads n) (of_int 1).
Definition recommend (n : nat) (cs : list ReservationCandidate) : py ReservationRecommendation :=
  recommend_reservations plan_clock (of_Z 0) new_cache WhatIfSim.budget10 (demand n) cs None.
Definition seen (r : ReservationRecommendation) :=
  (re_action r, plan_id (pe_plan (re_recommended r)),
   (fun e => (str_dec_fin (pe_total e), pe_covered e, pe_overflow e)) <$> re_baseline r :: re_evaluations r).

(** Two workloads at 0.06 each on demand, or at 0.006 each on two reserved
    units; one unit covers one of them. *)
Example reserve_ex :
  rmap seen (recommend 2 [plan "two" 2 "0.01"; plan "one" 1 "0.01"])
  = Ok (reserve, "two", [("0.120000", 0, 2); ("0.032000", 2, 0); ("0.076000", 1, 1)]).
Proof. vm_compute. reflexivity. Qed.
Example too_dear_ex :
  rmap seen (recommend 2 [plan "two" 2 "1"]) = Ok (on_demand, "on_demand", [("0.120000", 0, 2); ("2.012000", 2, 0)]).
Proof. vm_compute. reflexivity. Qed.
(** A plan of that name is recommended as routing on demand. *)
Example misnamed_plan_ex :
  rmap (fun r => (re_action r, capacity_by_provider (pe_plan (re_recommended r)))) (recommend 2 [plan "on_demand" 2 "0.01"])
  = Ok (on_demand, [("a", 2)]).
Proof. vm_compute. reflexivity. Qed.
Lemma plans_ok : Forall candidate_ok [plan "two" 2 "0.01"; plan "one" 1 "0.01"].
Proof. repeat constructor; vm_compute; discriminate. Qed.
End ReservationSim.

