(* ===== verification/Discovery.v ===== *)
(** * The RunPod catalog ([runpod_client/discovery.py])

    Live GraphQL reads become an immutable snapshot of GPU types and
    datacenters; a service caches it for a while behind a lock.  What the
    GraphQL client returns is given to each step; [mono] is the reading of the
    event loop's clock. *)

From S2P Require Import Prelude PyDecimal PyFloat PyValue PyTime Enums Provider RoutingTypes Availability.

(** Definitions *)

(** ** The GraphQL records, as far as the catalog reads them *)

Record RunpodLowestPrice : Type := MkLowestPrice {
  lp_minimum_bid_price : option dec; lp_uninterruptable_price : option dec;
  lp_stock_status : option string; lp_available_gpu_counts : list Z }.
Record RunpodGpuAvailability : Type := MkGpuAvailability {
  ga_available : option bool; ga_gpu_type_id : option string; ga_id : option string }.
Record RunpodDatacenter : Type := MkRunpodDatacenter {
  rd_id : string; rd_name : option string; rd_location : option string;
  rd_global_network : bool; rd_storage_support : bool; rd_listed : bool;
  rd_gpu_availability : list RunpodGpuAvailability; rd_compliance : list string }.
Record RunpodGpuType : Type := MkRunpodGpuType {
  rg_id : string; rg_display_name : option string; rg_manufacturer : option string;
  rg_memory_in_gb : option Z; rg_cuda_cores : option Z; rg_secure_cloud : bool; rg_community_cloud : bool;
  rg_secure_price : option dec; rg_community_price : option dec;
  rg_secure_spot_price : option dec; rg_community_spot_price : option dec;
  rg_max_gpu_count : option Z; rg_node_group_datacenters : list RunpodDatacenter;
  rg_lowest_price : option RunpodLowestPrice }.

(** ** The snapshot *)

Record GpuCatalogEntry : Type := MkGpuEntry {
  gpu_type_id : string; display_name : option string; manufacturer : option string;
  memory_in_gb : option Z; cuda_cores : option Z; secure_cloud : bool; community_cloud : bool;
  secure_price : option dec; community_price : option dec;
  secure_spot_price : option dec; community_spot_price : option dec;
  lowest_bid_price : option dec; uninterruptable_price : option dec;
  datacenter_ids : list string; available_gpu_counts : list Z;
  stock_status : option string; max_gpu_count : option Z }.
Record DatacenterCatalogEntry : Type := MkDatacenterEntry {
  datacenter_id : string; dc_name : option string; location : option string;
  global_network : bool; storage_support : bool; listed : bool; compliance : list string;
  gpu_types : list string; gpu_availability : list (string * bool) }.
Record GpuDiscoverySnapshot : Type := MkDiscoverySnapshot {
  fetched_at : datetime; gpus : list GpuCatalogEntry; datacenters : list DatacenterCatalogEntry }.

(** [sorted(set(...))] *)
Definition sorted_set {A} `{EqDecision A} (ltb : A -> A -> bool) (l : list A) : list A := sort_by ltb (remove_dups l).
Definition sorted_names (l : list string) : list string := sorted_set String.ltb l.

(** [_normalize_gpu] *)
Definition normalize_gpu (g : RunpodGpuType) : GpuCatalogEntry :=
  let counts := match rg_lowest_price g with Some p => lp_available_gpu_counts p | None => [] end in
  MkGpuEntry (rg_id g) (rg_display_name g) (rg_manufacturer g) (rg_memory_in_gb g) (rg_cuda_cores g)
    (rg_secure_cloud g) (rg_community_cloud g) (rg_secure_price g) (rg_community_price g)
    (rg_secure_spot_price g) (rg_community_spot_price g)
    (rg_lowest_price g ≫= lp_minimum_bid_price) (rg_lowest_price g ≫= lp_uninterruptable_price)
    (sorted_names (filter (fun i => nonempty i = true) (rd_id <$> rg_node_group_datacenters g)))
    (sorted_set Z.ltb counts) (rg_lowest_price g ≫= lp_stock_status) (rg_max_gpu_count g).

(** [avail.gpu_type_id or avail.id] *)
Definition truthy_string (o : option string) : option string :=
  match o with Some s => if nonempty s then Some s else None | None => None end.
Definition lane_id (a : RunpodGpuAvailability) : option string :=
  match truthy_string (ga_gpu_type_id a) with Some s => Some s | None => truthy_string (ga_id a) end.
(** [_normalize_datacenter] *)
Definition lanes (d : RunpodDatacenter) : list (string * bool) :=
  omap (fun a => (fun i => (i, default false (ga_available a))) <$> lane_id a) (rd_gpu_availability d).
Definition normalize_datacenter (d : RunpodDatacenter) : DatacenterCatalogEntry :=
  MkDatacenterEntry (rd_id d) (rd_name d) (rd_location d) (rd_global_network d) (rd_storage_support d)
    (rd_listed d) (rd_compliance d) (sorted_names (lanes d).*1)
    (foldl (fun m kv => al_set kv.1 kv.2 m) [] (lanes d)).
(** [_build_snapshot] *)
Definition build_snapshot (now : datetime) (gs : list RunpodGpuType) (ds : list RunpodDatacenter) : GpuDiscoverySnapshot :=
  MkDiscoverySnapshot now (normalize_gpu <$> gs) (normalize_datacenter <$> ds).

Definition gpu_by_id (s : GpuDiscoverySnapshot) (i : string) : option GpuCatalogEntry :=
  List.find (fun g => String.eqb (gpu_type_id g) i) (gpus s).
Definition datacenter_by_id (s : GpuDiscoverySnapshot) (i : string) : option DatacenterCatalogEntry :=
  List.find (fun d => String.eqb (datacenter_id d) i) (datacenters s).
(** [dc.gpu_availability.get(gpu_type_id, False)] *)
Definition lane_available (d : DatacenterCatalogEntry) (gpu : string) : bool := default false (al_get gpu (gpu_availability d)).

(** [_cloud_types_for_gpu] *)
Definition cloud_types_for_gpu (g : GpuCatalogEntry) (override : option string) : list string :=
  match override with
  | Some c => [upper c]
  | None =>
      match (if secure_cloud g then ["SECURE"] else []) ++ (if community_cloud g then ["COMMUNITY"] else []) with
      | [] => ["SECURE"]
      | clouds => clouds
      end
  end.
(** [to_availability_entries] *)
Definition availability_entry : Type := string * string * string * Z * bool.
Definition gpu_entries (s : GpuDiscoverySnapshot) (gpu_count : Z) (cloud_type : option string) (g : GpuCatalogEntry)
  : list availability_entry :=
  d ← datacenter_ids g;
  match datacenter_by_id s d with
  | None => []
  | Some dc =>
      count ← (match available_gpu_counts g with [] => [gpu_count] | counts => counts end);
      (fun cloud => (d, gpu_type_id g, cloud, count, lane_available dc (gpu_type_id g))) <$> cloud_types_for_gpu g cloud_type
  end.
Definition to_availability_entries (s : GpuDiscoverySnapshot) (gpu_count : Z) (cloud_type : option string)
  : list availability_entry := gpus s ≫= gpu_entries s gpu_count cloud_type.
Definition to_availability_snapshot (s : GpuDiscoverySnapshot) (gpu_count : Z) (cloud_type : option string)
  : py AvailabilitySnapshot := from_entries (to_availability_entries s gpu_count cloud_type).

(** ** The service *)

Definition DEFAULT_DISCOVERY_TTL_S : float := of_Z 60.

Section Service.
Context {X : Type} (ttl_s : float).

(** What a caller of [get_snapshot] is doing. *)
Inductive phase :=
| AtLock
| ReadingGpus
| ReadingDatacenters (gs : list RunpodGpuType)
| Answered (r : result X GpuDiscoverySnapshot).
(** Newest first: a caller of [get_snapshot] starts to fetch, is served from
    the cache; a fetch ends; the cache is invalidated. *)
Inductive event :=
| Started (mono : float)
| Served (mono : float) (s : GpuDiscoverySnapshot)
| Fetched (mono : float) (s : GpuDiscoverySnapshot)
| Invalidated.
Record discovery : Type := MkDiscovery {
  cached : option GpuDiscoverySnapshot;
  last_fetched_at : float;
  lock_holder : option nat;
  callers : gmap nat phase;
  history : list event }.
Definition new_discovery : discovery := MkDiscovery None (of_Z 0) None ∅ [].
(** [GpuDiscoveryService(...)] *)
Definition gpu_discovery_service : py discovery :=
  if fltb ttl_s (of_Z 0) then Err (ValueError "ttl_s must be non-negative") else Ok new_discovery.

(** [_is_stale] *)
Definition is_stale (last mono : float) : bool :=
  if feqb ttl_s (of_Z 0) then true else fltb ttl_s (fsub mono last).
Definition fresh_snapshot (s : discovery) (mono : float) : option GpuDiscoverySnapshot :=
  match cached s with
  | Some x => if is_stale (last_fetched_at s) mono then None else Some x
  | None => None
  end.
(** [get_gpu] and [get_datacenter] *)
Definition get_gpu (s : discovery) (i : string) : option GpuCatalogEntry := cached s ≫= fun x => gpu_by_id x i.
Definition get_datacenter (s : discovery) (i : string) : option DatacenterCatalogEntry := cached s ≫= fun x => datacenter_by_id x i.

Definition set_phase (i : nat) (p : phase) (s : discovery) : discovery :=
  MkDiscovery (cached s) (last_fetched_at s) (lock_holder s) (<[i := p]> (callers s)) (history s).
Definition set_lock (o : option nat) (s : discovery) : discovery :=
  MkDiscovery (cached s) (last_fetched_at s) o (callers s) (history s).
Definition record_event (e : event) (s : discovery) : discovery :=
  MkDiscovery (cached s) (last_fetched_at s) (lock_holder s) (callers s) (e :: history s).
(** What [refresh] stores, and the log line of it. *)
Definition store_snapshot (x : GpuDiscoverySnapshot) (mono : float) (s : discovery) : discovery :=
  MkDiscovery (Some x) mono (lock_holder s) (callers s) (Fetched mono x :: history s).
(** [invalidate] *)
Definition invalidate_discovery (s : discovery) : discovery :=
  MkDiscovery (cached s) (of_Z 0) (lock_holder s) (callers s) (Invalidated :: history s).

(** [get_snapshot], between two awaits: a first look at the cache, the same
    look under the lock, and the two reads of [refresh]. *)
Inductive action :=
| Call (i : nat) (mono : float)
| Acquire (i : nat) (mono : float)
| GpusRead (i : nat) (r : result X (list RunpodGpuType))
| DatacentersRead (i : nat) (r : result X (list RunpodDatacenter)) (now : datetime) (mono : float)
| Cancel (i : nat)
| Refreshed (gs : list RunpodGpuType) (ds : list RunpodDatacenter) (now : datetime) (mono : float)
| Invalidate.

Definition act (a : action) (s : discovery) : option discovery :=
  match a with
  | Call i mono =>
      match callers s !! i with
      | Some _ => None
      | None => Some (match fresh_snapshot s mono with
                      | Some x => record_event (Served mono x) (set_phase i (Answered (Ok x)) s)
                      | None => set_phase i AtLock s
                      end)
      end
  | Acquire i mono =>
      match callers s !! i, lock_holder s with
      | Some AtLock, None =>
          Some (match fresh_snapshot s mono with
                | Some x => record_event (Served mono x) (set_phase i (Answered (Ok x)) s)
                | None => record_event (Started mono) (set_lock (Some i) (set_phase i ReadingGpus s))
                end)
      | _, _ => None
      end
  | GpusRead i r =>
      match callers s !! i with
      | Some ReadingGpus =>
          Some (match r with
                | Ok gs => set_phase i (ReadingDatacenters gs) s
                | Err e => set_lock None (set_phase i (Answered (Err e)) s)
                end)
      | _ => None
      end
  | DatacentersRead i r now mono =>
      match callers s !! i with
      | Some (ReadingDatacenters gs) =>
          Some (match r with
                | Ok ds => let x := build_snapshot now gs ds in
                           set_lock None (set_phase i (Answered (Ok x)) (store_snapshot x mono s))
                | Err e => set_lock None (set_phase i (Answered (Err e)) s)
                end)
      | _ => None
      end
  | Cancel i =>
      let gone s := MkDiscovery (cached s) (last_fetched_at s) (lock_holder s) (delete i (callers s)) (history s) in
      match callers s !! i with
      | Some AtLock => Some (gone s)
      | Some ReadingGpus | Some (ReadingDatacenters _) => Some (set_lock None (gone s))
      | _ => None
      end
  | Refreshed gs ds now mono => Some (store_snapshot (build_snapshot now gs ds) mono s)
  | Invalidate => Some (invalidate_discovery s)
  end.
Definition run_actions (l : list action) (s : discovery) : option discovery :=
  foldl (fun o a => o ≫= act a) (Some s) l.

Inductive discovery_reach : discovery -> Prop :=
| DReachNew : discovery_reach new_discovery
| DReachAct s a s' : discovery_reach s -> act a s = Some s' -> discovery_reach s'.

(** What a history says about the cache. *)
Fixpoint latest (l : list event) : option (float * GpuDiscoverySnapshot) :=
  match l with
  | [] => None
  | Fetched t x :: _ => Some (t, x)
  | Invalidated :: l' => (fun p => (of_Z 0, p.2)) <$> latest l'
  | _ :: l' => latest l'
  end.
(** An event that its past justifies. *)
Definition justified (e : event) (past : list event) : Prop :=
  match e with
  | Started t => match latest past with Some (t0, _) => is_stale t0 t = true | None => True end
  | Served t x => exists t0, latest past = Some (t0, x) /\ is_stale t0 t = false
  | _ => True
  end.
Fixpoint all_justified (l : list event) : Prop :=
  match l with [] => True | e :: l' => justified e l' /\ all_justified l' end.
Definition reading (s : discovery) (i : nat) : Prop :=
  match callers s !! i with Some ReadingGpus | Some (ReadingDatacenters _) => True | _ => False end.
Definition builds (x : GpuDiscoverySnapshot) (l : list event) : Prop := exists t, Fetched t x ∈ l.

Record discovery_inv (s : discovery) : Prop := MkDiscoveryInv {
  di_lock : forall i, reading s i <-> lock_holder s = Some i;
  di_cache : latest (history s) = (fun x => (last_fetched_at s, x)) <$> cached s;
  di_history : all_justified (history s);
  di_answers : forall i x, callers s !! i = Some (Answered (Ok x)) -> builds x (history s);
}.
End Service.

(** ** Lemmas *)

Section Facts.
Context {X : Type} (ttl : float).
Abbreviation inv := (discovery_inv (X:=X) ttl).

Lemma fresh_snapshot_latest (s : discovery) mono x :
  fresh_snapshot (X:=X) ttl s mono = Some x -> cached s = Some x /\ is_stale ttl (last_fetched_at s) mono = false.
Proof. unfold fresh_snapshot. destruct (cached s); [|done]. by destruct (is_stale _ _ _) eqn:E; intros [= <-]. Qed.

Lemma served_justified (s : discovery) mono x :
  inv s -> fresh_snapshot ttl s mono = Some x -> justified ttl (Served mono x) (history s).
Proof.
  intros Hs [Hc Hf]%fresh_snapshot_latest. exists (last_fetched_at s). split; [|done].
  by rewrite (di_cache _ _ Hs), Hc.
Qed.
Lemma started_justified (s : discovery) mono :
  inv s -> fresh_snapshot ttl s mono = None -> justified ttl (Started mono) (history s).
Proof.
  intros Hs. simpl. rewrite (di_cache _ _ Hs). unfold fresh_snapshot.
  destruct (cached s); simpl; [|done]. by destruct (is_stale _ _ _).
Qed.
Lemma latest_builds l t x : latest l = Some (t, x) -> builds x l.
Proof.
  revert t. induction l as [|e l IH]; intros t; [done|]. destruct e; simpl.
  - intros (t' & H)%IH. exists t'. by right.
  - intros (t' & H)%IH. exists t'. by right.
  - intros [= <- <-]. eexists. left.
  - destruct (latest l) as [[t' y]|]; [|done]. intros [= <- <-]. destruct (IH t' eq_refl) as [t'' H]. exists t''. by right.
Qed.
Lemma builds_cons x e l : builds x l -> builds x (e :: l).
Proof. intros [t H]. exists t. by right. Qed.

(** What a step does to the readers and the lock. *)
Lemma reading_set (s : discovery (X:=X)) i p j :
  reading (set_phase i p s) j <->
  (i = j /\ match p with ReadingGpus | ReadingDatacenters _ => True | _ => False end) \/ (i <> j /\ reading s j).
Proof.
  unfold reading. simpl. rewrite lookup_insert. case_decide; [subst; naive_solver|naive_solver].
Qed.

(** Every step keeps the lock with the caller that reads. *)
Lemma act_lock (s : discovery (X:=X)) a s' :
  (forall j, reading s j <-> lock_holder s = Some j) -> act ttl a s = Some s' ->
  forall j, reading s' j <-> lock_holder s' = Some j.
Proof.
  intros Hl. destruct a as [i mono|i mono|i r|i r now mono|i|gs ds now mono|]; simpl; intros Hact j;
    try (pose proof (Hl i) as Hi); pose proof (Hl j) as Hj; unfold reading in *; simpl in *;
    repeat case_match; simplify_eq; simpl in *; rewrite ?lookup_insert, ?lookup_delete in *;
    repeat (case_decide; subst); simplify_eq; simpl in *; naive_solver.
Qed.

Lemma act_history (s : discovery) a s' : inv s -> act ttl a s = Some s' ->
  latest (history s') = (fun x => (last_fetched_at s', x)) <$> cached s' /\ all_justified ttl (history s').
Proof.
  intros Hs. pose proof (di_cache _ _ Hs) as Hc. pose proof (di_history _ _ Hs) as Hh.
  pose proof (fun mono x => served_justified s mono x Hs) as Hserved. pose proof (fun mono => started_justified s mono Hs) as Hstarted.
  destruct a as [i mono|i mono|i r|i r now mono|i|gs ds now mono|]; simpl; intros Hact;
    try specialize (Hserved mono); try specialize (Hstarted mono);
    repeat case_match; simplify_eq; simpl; rewrite ?Hc; try (split; [done|]); auto.
  1,2: specialize (Hserved _ eq_refl); simpl in Hserved; by rewrite Hc in Hserved.
  - specialize (Hstarted eq_refl). simpl in Hstarted. by rewrite Hc in Hstarted.
  - by destruct (cached s).
Qed.

Lemma act_answers (s : discovery) a s' : inv s -> act ttl a s = Some s' ->
  forall j x, callers s' !! j = Some (Answered (Ok x)) -> builds x (history s').
Proof.
  intros Hs. pose proof (di_answers _ _ Hs) as Ha. pose proof (di_cache _ _ Hs) as Hc.
  assert (forall mono x, fresh_snapshot ttl s mono = Some x -> builds x (history s)) as Hb.
  { intros mono x [Hx _]%fresh_snapshot_latest. rewrite Hx in Hc. by eapply latest_builds. }
  destruct a as [i mono|i mono|i r|i r now mono|i|gs ds now mono|]; simpl; intros Hact j x;
    repeat case_match; simplify_eq; simpl; rewrite ?lookup_insert, ?lookup_delete; repeat (case_decide; subst);
    intros Hx; simplify_eq; try (by eauto using builds_cons); eexists; left.
Qed.

Lemma reach_inv s : discovery_reach (X:=X) ttl s -> inv s.
Proof.
  induction 1 as [|s a s' _ IH Hact].
  - split; [|done..]. intros i. unfold reading. simpl. by rewrite lookup_empty.
  - destruct (act_history _ _ _ IH Hact). split; [|done..|by eapply act_answers].
    eapply act_lock; [apply (di_lock _ _ IH)|done].
Qed.

(** In every interleaving of callers, fetches, failures, cancellations,
    direct refreshes and invalidations: one caller of [get_snapshot] at a
    time reads from RunPod, and it holds the lock; such a fetch starts only
    where there is no snapshot or the latest is stale; a caller served from
    the cache gets the latest snapshot while it is fresh; and every answer
    is a snapshot that some fetch has built. *)
Theorem discovery_fetches_when_stale (s : discovery (X:=X)) :
  discovery_reach ttl s ->
  (forall i j, reading s i -> reading s j -> i = j) /\
  (forall l1 e l2, history s = l1 ++ e :: l2 -> justified ttl e l2) /\
  (forall i x, callers s !! i = Some (Answered (Ok x)) -> builds x (history s)).
Proof.
  intros Hs%reach_inv. split; [|split].
  - intros i j Hi Hj. apply (di_lock _ _ Hs) in Hi, Hj. congruence.
  - intros l1 e l2 E. pose proof (di_history _ _ Hs) as H. rewrite E in H. clear E.
    induction l1 as [|e' l1 IH]; [by destruct H|]. destruct H as [_ H]. by apply IH.
  - apply (di_answers _ _ Hs).
Qed.
End Facts.

(** ** The snapshot handed to the planner *)

Lemma gpu_entries_true s n cloud g d gpu c k b :
  (d, gpu, c, k, b) ∈ gpu_entries s n cloud g ->
  exists dc, datacenter_by_id s d = Some dc /\ b = lane_available dc gpu.
Proof.
  unfold gpu_entries. intros (d' & H & _)%list_elem_of_bind. destruct (datacenter_by_id s d') as [dc|] eqn:E; [|by apply elem_of_nil in H].
  apply list_elem_of_bind in H as (count & H & _). apply list_elem_of_fmap in H as (c' & [= -> -> _ _ ->] & _). by exists dc.
Qed.

Lemma availability_key_names d g c k key : availability_key d g c k = Ok key -> ak_datacenter key = d /\ ak_gpu_name key = g.
Proof. unfold availability_key. repeat case_match; try done. by intros [= <-]. Qed.

(** What the planner reads in a snapshot of the catalog, the catalog's
    datacenter reports. *)
Theorem availability_snapshot_is_reported s n cloud a d gpu c k b :
  to_availability_snapshot s n cloud = Ok a -> snapshot_is_available a d gpu c k = Ok (Some b) ->
  exists dc, datacenter_by_id s d = Some dc /\ b = lane_available dc gpu.
Proof.
  unfold to_availability_snapshot, from_entries. intros (es & Hes & ->)%rmap_Ok.
  unfold snapshot_is_available. intros (key & Hk & [= Hb])%rbind_Ok.
  apply al_get_Some_elem in Hb. rewrite elem_of_reverse in Hb. simpl in Hb.
  apply mapR_Ok in Hes. apply list_elem_of_lookup in Hb as [i Hb].
  destruct (Forall2_lookup_r _ _ _ _ _ Hes Hb) as ([[[[d' gpu'] c'] k'] b'] & Hi & (key' & Hk' & [= -> ->])%rbind_Ok).
  apply list_elem_of_lookup_2 in Hi. unfold to_availability_entries in Hi.
  apply list_elem_of_bind in Hi as (g & Hg & _).
  assert (d' = d /\ gpu' = gpu) as [-> ->].
  { apply availability_key_names in Hk as [<- <-]. by apply availability_key_names in Hk' as [<- <-]. }
  by apply gpu_entries_true in Hg.
Qed.

Module CatalogSim.
Definition day : datetime := utc 1767225600000000.
Definition lane (gpu : string) (b : option bool) : RunpodGpuAvailability := MkGpuAvailability b (Some gpu) None.
Definition dc (i : string) (ls : list RunpodGpuAvailability) : RunpodDatacenter :=
  MkRunpodDatacenter i None None false false true ls [].
Definition gpu (i : string) (dcs : list string) (price : Z) : RunpodGpuType :=
  MkRunpodGpuType i None None None None true false (Some (Dec price (-2))) None None None None
    ((fun d => dc d []) <$> dcs) (Some (MkLowestPrice None None None [2; 1; 2])).
Definition catalog : GpuDiscoverySnapshot :=
  build_snapshot day [gpu "L4" ["EU-2"; "EU-1"; "EU-2"; ""] 43]
    [dc "EU-1" [lane "L4" (Some true); lane "H100" None]; dc "EU-2" [lane "L4" (Some true); lane "L4" None]].

Example catalog_ex :
  (datacenter_ids <$> gpus catalog) = [["EU-1"; "EU-2"]] /\
  (gpu_types <$> datacenters catalog) = [["H100"; "L4"]; ["L4"]] /\
  to_availability_entries catalog 8 None =
    [("EU-1", "L4", "SECURE", 1, true); ("EU-1", "L4", "SECURE", 2, true);
     ("EU-2", "L4", "SECURE", 1, false); ("EU-2", "L4", "SECURE", 2, false)].
Proof. vm_compute. done. Qed.

Definition mono (t : Z) : float := of_Z t.
Definition step_on (l : list (action (X:=unit))) : option (discovery (X:=unit)) := run_actions DEFAULT_DISCOVERY_TTL_S l new_discovery.
(** A caller fetches at [t]. *)
Definition fetch (i : nat) (t : Z) : list (action (X:=unit)) :=
  [Call i (mono t); Acquire i (mono t); GpusRead i (Ok [gpu "L4" ["EU-1"] 43]); DatacentersRead i (Ok []) day (mono t)].
Definition kinds (s : discovery (X:=unit)) : list string :=
  (fun e => match e with Started _ => "started" | Served _ _ => "served" | Fetched _ _ => "fetched" | Invalidated => "invalidated" end)
    <$> rev (history s).
(** Two callers meet: one fetches, the other is served behind it. *)
Example shared_fetch_ex :
  kinds <$> step_on ([Call 0 (mono 100); Call 1 (mono 100); Acquire 0 (mono 100)] ++ drop 2 (fetch 0 101) ++ [Acquire 1 (mono 101)])
  = Some ["started"; "fetched"; "served"].
Proof. vm_compute. done. Qed.
(** [invalidate] sets the time of the last fetch to zero, which is recent
    while the clock of the loop is young. *)
Example invalidate_early_ex :
  kinds <$> step_on (fetch 0 5 ++ [Invalidate; Call 1 (mono 20)]) = Some ["started"; "fetched"; "invalidated"; "served"] /\
  kinds <$> step_on (fetch 0 500 ++ Invalidate :: fetch 1 520) = Some ["started"; "fetched"; "invalidated"; "started"; "fetched"].
Proof. vm_compute. done. Qed.
End CatalogSim.
Import CatalogSim.

Lemma run_reach {X} ttl l : forall s s', discovery_reach (X:=X) ttl s -> run_actions ttl l s = Some s' -> discovery_reach ttl s'.
Proof.
  induction l as [|a l IH]; intros s s' Hs; unfold run_actions; simpl; [by intros [= <-]|].
  destruct (act ttl a s) as [s1|] eqn:E; [apply IH; by eapply DReachAct|].
  intros H. assert (forall l, foldl (fun o a => o ≫= act (X:=X) ttl a) None l = None) as Hn by (by induction l0).
  by rewrite Hn in H.
Qed.

Lemma discovery_fetches_when_stale_witness :
  exists s, step_on (fetch 0 5 ++ fetch 1 100) = Some s /\
  forall l1 e l2, history s = l1 ++ e :: l2 -> justified DEFAULT_DISCOVERY_TTL_S e l2.
Proof.
  destruct (step_on (fetch 0 5 ++ fetch 1 100)) as [s|] eqn:Hs; [|by vm_compute in Hs]. exists s. split; [done|].
  apply (discovery_fetches_when_stale DEFAULT_DISCOVERY_TTL_S s). eapply run_reach; [apply DReachNew|exact Hs].
Defined.

Lemma availability_snapshot_is_reported_witness :
  exists dc, datacenter_by_id catalog "EU-1" = Some dc /\ true = lane_available dc "L4".
Proof.
  destruct (to_availability_snapshot catalog 1 None) as [a|e] eqn:E; [|by vm_compute in E].
  apply (availability_snapshot_is_reported catalog 1 None a "EU-1" "L4" "SECURE" 2 true); [done|].
  vm_compute in E. injection E as <-. by vm_compute.
Defined.
