(* ===== verification/Drift.v ===== *)
(** * Provider drift ([providers/drift.py])

    A provider's record against what was observed of it: one finding for each
    field where they differ, and the observation made of a catalog snapshot.
    A price is compared in micro-dollars per second. *)

From Stdlib Require Import Ascii.
From stdpp Require Import sorting.
From S2P Require Import Prelude PyDecimal PyValue PyFormat PyTime Enums Provider Estimator Failover Discovery.
#[local] Open Scope Z_scope.

(** Definitions *)

Inductive DriftSeverity := CRITICAL | HIGH | MEDIUM | LOW | INFO.
#[global] Instance DriftSeverity_enum : StrEnum DriftSeverity := {
  members := [CRITICAL; HIGH; MEDIUM; LOW; INFO];
  enum_value s := match s with CRITICAL => "critical" | HIGH => "high" | MEDIUM => "medium" | LOW => "low" | INFO => "info" end }.
#[global] Instance DriftSeverity_eq_dec : EqDecision DriftSeverity.
Proof. solve_decision. Defined.
#[global] Instance ResourceStatus_eq_dec : EqDecision ResourceStatus.
Proof. solve_decision. Defined.

Record DriftFinding : Type := MkDrift {
  dr_provider_id : string; dr_field : string; dr_expected : pyval; dr_observed : pyval;
  dr_severity : DriftSeverity; dr_message : string }.
Record ProviderObservedState : Type := MkObserved {
  ob_provider_id : string; ob_status : option ResourceStatus; ob_price_per_second : option dec;
  ob_availability : option bool; ob_raw : dict }.

(** ** The comparison *)

(** [_compare_enabled] *)
Definition compare_enabled (p : Provider) (o : ProviderObservedState) : list DriftFinding :=
  (if negb (p_enabled p) && bool_decide (ob_status o = Some RUNNING)
   then [MkDrift (p_id p) "enabled" (VBool (p_enabled p)) (VBool true) HIGH
           "Provider is disabled but a running resource was observed"] else []) ++
  (if p_enabled p && bool_decide (ob_status o = Some TERMINATED)
   then [MkDrift (p_id p) "enabled" (VBool (p_enabled p)) (VBool false) MEDIUM
           "Provider is enabled but observed resource is terminated"] else []).

(** [_status_to_health] *)
Definition status_to_health (s : ResourceStatus) : string :=
  match s with RUNNING => "healthy" | PROVISIONING | UNKNOWN => "unknown" | _ => "unhealthy" end.
(** [_compare_health_status] *)
Definition expected_health (p : Provider) : string := strip (lower (p_health_status p)).
Definition compare_health_status (p : Provider) (o : ProviderObservedState) : list DriftFinding :=
  match ob_status o with
  | None => []
  | Some s =>
      if String.eqb (expected_health p) (status_to_health s) then []
      else [MkDrift (p_id p) "health_status" (VStr (p_health_status p)) (VStr (enum_value s)) HIGH
              ("Expected health " +:+ repr_str (p_health_status p) +:+ ", observed " +:+ repr_str (enum_value s))]
  end.

(** [_extract_rate_per_second] *)
Definition extract_rate_per_second (m : PricingModel) : option dec :=
  match m with
  | GpuHourPricing r | PerSecondPricing r _ | PerVmSecondPricing r => Some r
  | _ => None
  end.
(** [_price_rates_match] *)
Definition price_rates_match (expected observed : dec) : py bool :=
  let? e := quantize_usd expected in
  let? o := quantize_usd observed in
  Ok (deqb e o).
(** [_compare_price] *)
Definition expected_rate (p : Provider) (cost_mode : option CostMode) : py (option dec) :=
  match parse_pricing_model (InLike (PModel p)) (enum_value <$> cost_mode) with
  | Ok m => Ok (extract_rate_per_second m)
  | Err (ValueError _) => Ok None
  | Err e => Err e
  end.
Definition compare_price (p : Provider) (o : ProviderObservedState) (cost_mode : option CostMode) : py (list DriftFinding) :=
  match ob_price_per_second o with
  | None => Ok []
  | Some price =>
      let? expected := expected_rate p cost_mode in
      match expected with
      | None => Ok []
      | Some rate =>
          let? same := price_rates_match rate price in
          Ok (if same then []
              else [MkDrift (p_id p) "price_per_second" (VDec (DFin rate)) (VDec (DFin price)) MEDIUM
                      "Observed price differs from configured price"])
      end
  end.

(** [_compare_availability] *)
Definition compare_availability (p : Provider) (o : ProviderObservedState) : list DriftFinding :=
  match ob_availability o with
  | None => []
  | Some b =>
      if p_enabled p && negb b
      then [MkDrift (p_id p) "availability" (VBool true) (VBool false) HIGH "Provider is enabled but observed as unavailable"]
      else if negb (p_enabled p) && b
      then [MkDrift (p_id p) "availability" (VBool false) (VBool true) LOW "Provider is disabled but observed as available"]
      else []
  end.

(** [detect_drift]; of a capability it reads the cost mode. *)
Definition detect_drift (p : Provider) (o : ProviderObservedState) (cost_mode : option CostMode) : py (list DriftFinding) :=
  if negb (String.eqb (ob_provider_id o) (p_id p))
  then Ok [MkDrift (p_id p) "provider_id" (VStr (p_id p)) (VStr (ob_provider_id o)) CRITICAL
             "Observed provider id does not match expected"]
  else
    let? price := compare_price p o cost_mode in
    Ok (compare_enabled p o ++ compare_health_status p o ++ price ++ compare_availability p o).

(** ** Observations *)

(** [observe_from_status_result] *)
Definition observe_from_status_result (i : string) (s : ResourceStatus) (raw : option dict) : ProviderObservedState :=
  MkObserved i (Some s) None None (default [] raw).

(** [_config_str] *)
Fixpoint config_str (config : dict) (keys : list string) : option string :=
  match keys with
  | [] => None
  | k :: ks => match non_empty_string (dict_get_none k config) with Some s => Some s | None => config_str config ks end
  end.
(** [_config_str_list] *)
Definition str_items (v : pyval) : list string :=
  match v with
  | VStr s | VEnum s => omap (fun w => non_empty_string (VStr w)) (split_on ","%char s)
  | VList l | VTuple l => omap non_empty_string l
  | _ => []
  end.
Fixpoint config_str_list (config : dict) (keys : list string) : list string :=
  match keys with
  | [] => []
  | k :: ks => match str_items (dict_get_none k config) with [] => config_str_list config ks | items => items end
  end.
(** [_runpod_datacenter_ids] *)
Definition runpod_datacenter_ids (p : Provider) (explicit : option string) : list string :=
  match non_empty_string (opt_str explicit) with
  | Some d => [d]
  | None =>
      match config_str (p_config p) ["data_center_id"; "dataCenterId"; "datacenter_id"; "dc_id"] with
      | Some d => [d]
      | None =>
          match config_str_list (p_config p) ["data_center_ids"; "dataCenterIds"; "datacenter_ids"] with
          | [] => match non_empty_string (opt_str (p_region p)) with Some r => [r] | None => [] end
          | ds => ds
          end
      end
  end.

(** [_runpod_price_per_second] *)
Definition lane_price (g : GpuCatalogEntry) (cloud_type : string) : option dec :=
  if String.eqb cloud_type "COMMUNITY" then community_price g
  else if String.eqb cloud_type "SECURE_SPOT" then secure_spot_price g
  else if String.eqb cloud_type "COMMUNITY_SPOT" then community_spot_price g
  else secure_price g.
Definition runpod_price_per_second (g : GpuCatalogEntry) (cloud_type : string) : py (option dec) :=
  match lane_price g cloud_type with
  | None => Ok None
  | Some price => rmap Some (ddiv price (of_int 3600))
  end.
(** [_runpod_availability] *)
Definition runpod_availability (g : GpuCatalogEntry) (ids : list string) (dcs : list DatacenterCatalogEntry) : bool :=
  match ids with
  | [] => existsb (fun d => bool_decide (gpu_type_id g ∈ gpu_types d) && lane_available d (gpu_type_id g)) dcs
  | _ => existsb (fun d => bool_decide (datacenter_id d ∈ ids) && lane_available d (gpu_type_id g)) dcs
  end.

(** [observe_from_runpod_snapshot] *)
Definition or_string (o o' : option string) : option string := match truthy_string o with Some s => Some s | None => o' end.
Definition observed_gpu_type (p : Provider) (gpu : option string) : option string :=
  or_string gpu (config_str (p_config p) ["gpu_type_id"; "gpu_type"]).
Definition observed_cloud (p : Provider) (cloud : option string) : string :=
  upper (default "SECURE" (or_string cloud (or_string (p_cloud_type p) (config_str (p_config p) ["cloud_type"])))).
Definition observe_from_runpod_snapshot (p : Provider) (s : GpuDiscoverySnapshot) (gpu datacenter cloud : option string)
  : py ProviderObservedState :=
  let gpu_id := observed_gpu_type p gpu in
  let ids := runpod_datacenter_ids p datacenter in
  let cloud := observed_cloud p cloud in
  let? seen := match gpu_id ≫= gpu_by_id s with
               | None => Ok (None, false)
               | Some g => let? price := runpod_price_per_second g cloud in
                           Ok (price, runpod_availability g ids (datacenters s))
               end in
  Ok (MkObserved (p_id p) None seen.1 (Some seen.2)
        [("gpu_type_id", opt_str gpu_id);
         ("datacenter_id", match ids with [d] => VStr d | _ => VNone end);
         ("datacenter_ids", VTuple (VStr <$> ids));
         ("cloud_type", VStr cloud);
         ("snapshot_fetched_at", VStr (isoformat (fetched_at s)))]).

(** ** Lemmas *)

(** What it means for the two to agree. *)
Definition agrees_status (p : Provider) (o : ProviderObservedState) : Prop :=
  match ob_status o with
  | None => True
  | Some s => expected_health p = status_to_health s /\
      (p_enabled p = false -> s <> RUNNING) /\ (p_enabled p = true -> s <> TERMINATED)
  end.
Definition agrees_price (p : Provider) (o : ProviderObservedState) (cost_mode : option CostMode) : Prop :=
  forall price rate, ob_price_per_second o = Some price -> expected_rate p cost_mode = Ok (Some rate) ->
  price_rates_match rate price = Ok true.
Definition agrees_availability (p : Provider) (o : ProviderObservedState) : Prop :=
  match ob_availability o with None => True | Some b => b = p_enabled p end.

Lemma compare_status_nil p o : compare_enabled p o ++ compare_health_status p o = [] <-> agrees_status p o.
Proof.
  unfold compare_enabled, compare_health_status, agrees_status. destruct (ob_status o) as [s|]; [|by destruct (p_enabled p)].
  destruct (String.eqb_spec (expected_health p) (status_to_health s)) as [->|Hne].
  - destruct s, (p_enabled p); simpl; naive_solver.
  - split; [|by intros [? _]]. by intros [_ ?]%app_eq_nil.
Qed.
Lemma compare_availability_nil p o : compare_availability p o = [] <-> agrees_availability p o.
Proof. unfold compare_availability, agrees_availability. destruct (ob_availability o) as [[]|], (p_enabled p); simpl; naive_solver. Qed.
Lemma compare_price_nil p o c fs : compare_price p o c = Ok fs -> fs = [] <-> agrees_price p o c.
Proof.
  unfold compare_price, agrees_price. destruct (ob_price_per_second o) as [price|]; [|intros [= <-]; naive_solver].
  intros ([rate|] & -> & H)%rbind_Ok; [|injection H as <-; split; [by intros _ ? ? _ [=]|done]].
  apply rbind_Ok in H as (b & Hb & [= <-]). split.
  - intros Hb' ? ? [= <-] [= <-]. by destruct b.
  - intros Hm. specialize (Hm _ _ eq_refl eq_refl). rewrite Hb in Hm. by injection Hm as ->.
Qed.

(** Which fields the findings name, and where. *)
Definition drift_fields : list string := ["enabled"; "health_status"; "price_per_second"; "availability"].
Lemma compare_price_fields p o c fs : compare_price p o c = Ok fs -> dr_field <$> fs `sublist_of` ["price_per_second"].
Proof.
  unfold compare_price. destruct (ob_price_per_second o); [|intros [= <-]; simpl; apply sublist_nil_l].
  intros ([rate|] & _ & H)%rbind_Ok; [|injection H as <-; apply sublist_nil_l].
  apply rbind_Ok in H as (b & _ & [= <-]). by destruct b; [apply sublist_nil_l|].
Qed.
Lemma compare_enabled_fields p o : dr_field <$> compare_enabled p o `sublist_of` ["enabled"].
Proof. unfold compare_enabled. destruct (p_enabled p); simpl; repeat case_bool_decide; simpl; try done; apply sublist_nil_l. Qed.
Lemma compare_health_fields p o : dr_field <$> compare_health_status p o `sublist_of` ["health_status"].
Proof. unfold compare_health_status. repeat case_match; simpl; try done; apply sublist_nil_l. Qed.
Lemma compare_availability_fields p o : dr_field <$> compare_availability p o `sublist_of` ["availability"].
Proof. unfold compare_availability. repeat case_match; simpl; try done; apply sublist_nil_l. Qed.

Abbreviation named p := (Forall (fun f => dr_provider_id f = p_id p)).
Lemma compare_enabled_id p o : named p (compare_enabled p o).
Proof. unfold compare_enabled. apply Forall_app. split; repeat case_match; by repeat constructor. Qed.
Lemma compare_health_id p o : named p (compare_health_status p o).
Proof. unfold compare_health_status. repeat case_match; by repeat constructor. Qed.
Lemma compare_availability_id p o : named p (compare_availability p o).
Proof. unfold compare_availability. repeat case_match; by repeat constructor. Qed.
Lemma compare_price_id p o c fs : compare_price p o c = Ok fs -> named p fs.
Proof.
  unfold compare_price. destruct (ob_price_per_second o); [|intros [= <-]; constructor].
  intros ([rate|] & _ & H)%rbind_Ok; [|injection H as <-; constructor].
  apply rbind_Ok in H as (b & _ & [= <-]). destruct b; by repeat constructor.
Qed.

(** Drift is found exactly where record and observation differ: for the same
    provider, no finding means that status, health, price and availability
    agree as far as they were observed and configured, and conversely; and
    the findings name each field once, in a fixed order. *)
Theorem drift_found_exactly p o cost_mode fs :
  detect_drift p o cost_mode = Ok fs ->
  (fs = [] <-> ob_provider_id o = p_id p /\ agrees_status p o /\ agrees_price p o cost_mode /\ agrees_availability p o) /\
  (ob_provider_id o = p_id p -> dr_field <$> fs `sublist_of` drift_fields) /\
  Forall (fun f => dr_provider_id f = p_id p) fs.
Proof.
  unfold detect_drift. destruct (String.eqb_spec (ob_provider_id o) (p_id p)) as [Hid|Hid]; simpl.
  - intros (price & Hp & [= <-])%rbind_Ok. split; [|split].
    + pose proof (compare_status_nil p o) as Hs. pose proof (compare_availability_nil p o) as Ha.
      pose proof (compare_price_nil _ _ _ _ Hp) as Hr. rewrite !app_nil in *. tauto.
    + intros _. rewrite !fmap_app. change drift_fields with (["enabled"] ++ ["health_status"] ++ ["price_per_second"] ++ ["availability"]).
      repeat apply sublist_app; eauto using compare_enabled_fields, compare_health_fields, compare_price_fields, compare_availability_fields.
    + rewrite !Forall_app. eauto using compare_enabled_id, compare_health_id, compare_price_id, compare_availability_id.
  - intros [= <-]. split; [|split; [done|by repeat constructor]]. split; [done|]. by intros [? _].
Qed.

(** An observation that a provider is available comes from a datacenter of
    the catalog that reports its GPU as available, one of the configured
    ones where any is configured. *)
Theorem observed_availability_is_reported p s gpu datacenter cloud o :
  observe_from_runpod_snapshot p s gpu datacenter cloud = Ok o -> ob_availability o = Some true ->
  exists i d, observed_gpu_type p gpu = Some i /\ d ∈ datacenters s /\ lane_available d i = true /\
    (runpod_datacenter_ids p datacenter <> [] -> datacenter_id d ∈ runpod_datacenter_ids p datacenter).
Proof.
  unfold observe_from_runpod_snapshot. intros (seen & Hseen & [= <-])%rbind_Ok [= Ha].
  destruct (observed_gpu_type p gpu) as [i|]; simpl in Hseen; [|by injection Hseen as <-].
  unfold gpu_by_id in Hseen. destruct (List.find _ (gpus s)) as [g|] eqn:Hg; [|by injection Hseen as <-].
  apply find_some in Hg as [_ Hi%String.eqb_eq]. apply rbind_Ok in Hseen as (price & _ & [= <-]). simpl in Ha.
  exists i. unfold runpod_availability in Ha. rewrite Hi in Ha.
  destruct (runpod_datacenter_ids p datacenter) as [|x ids];
    apply existsb_exists in Ha as (d & Hd%list_elem_of_In & [Hb Hav]%andb_prop); exists d; repeat split; try done.
  intros _. by apply bool_decide_eq_true in Hb.
Qed.

Module DriftSim.
Definition provider (enabled : bool) (health : string) (config : dict) : Provider :=
  MkProvider "p" "c" "p" POD_LEASE None None (Some "EU-1") None config 0 enabled health 0 0 None None (PyFloat.of_Z 0) None "api" None
    (utc 0).
Definition priced (rate : string) : dict :=
  [("gpu_type_id", VStr "L4"); ("cost", VDict [("kind", VStr "gpu_hour"); ("per_second_active", VStr rate)])].
Definition look (o : py ProviderObservedState) : option (option dec * option bool) :=
  match o with Ok o => Some (ob_price_per_second o, ob_availability o) | Err _ => None end.
Definition found (fs : py (list DriftFinding)) : option (list (string * DriftSeverity)) :=
  match fs with Ok fs => Some ((fun f => (dr_field f, dr_severity f)) <$> fs) | Err _ => None end.
Definition observe (p : Provider) : py ProviderObservedState := observe_from_runpod_snapshot p CatalogSim.catalog None None None.

Example drift_ex : look (observe (provider true "healthy" (priced "0.00012"))) = Some (Some (Dec 1194444444444444444444444444 (-31)), Some true) /\
  found (rbind (observe (provider true "healthy" (priced "0.00012"))) (fun o => detect_drift (provider true "healthy" (priced "0.00012")) o None))
    = Some [("price_per_second", MEDIUM)] /\
  found (rbind (observe (provider true "healthy" (priced "0.000119"))) (fun o => detect_drift (provider true "healthy" (priced "0.000119")) o None))
    = Some [] /\
  found (detect_drift (provider false " Healthy " []) (observe_from_status_result "p" RUNNING None) None) = Some [("enabled", HIGH)] /\
  found (detect_drift (provider true "unknown" []) (observe_from_status_result "p" TERMINATED None) None)
    = Some [("enabled", MEDIUM); ("health_status", HIGH)].
Proof. vm_compute. done. Qed.
(** A provider that names no GPU type is not looked for and still counts as
    unavailable. *)
Example no_gpu_type_ex :
  found (rbind (observe (provider true "healthy" [])) (fun o => detect_drift (provider true "healthy" []) o None)) = Some [("availability", HIGH)].
Proof. vm_compute. done. Qed.
End DriftSim.
Import DriftSim.

Lemma drift_found_exactly_witness :
  exists fs, detect_drift (provider true "unknown" []) (observe_from_status_result "p" TERMINATED None) None = Ok fs /\
  dr_field <$> fs `sublist_of` drift_fields.
Proof.
  eexists. split; [vm_compute; reflexivity|].
  refine (proj1 (proj2 (drift_found_exactly (provider true "unknown" []) (observe_from_status_result "p" TERMINATED None) None _ _)) _);
    vm_compute; reflexivity.
Defined.

Lemma observed_availability_is_reported_witness :
  exists i d, observed_gpu_type (provider true "healthy" (priced "0.1")) None = Some i /\ d ∈ datacenters CatalogSim.catalog /\
    lane_available d i = true /\
    (runpod_datacenter_ids (provider true "healthy" (priced "0.1")) None <> [] ->
     datacenter_id d ∈ runpod_datacenter_ids (provider true "healthy" (priced "0.1")) None).
Proof.
  destruct (observe (provider true "healthy" (priced "0.1"))) as [o|e] eqn:E; [|by vm_compute in E].
  apply (observed_availability_is_reported (provider true "healthy" (priced "0.1")) CatalogSim.catalog None None None o E).
  vm_compute in E. by injection E as <-.
Defined.
