(* ===== verification/Recommendations.v ===== *)
(** * Operator recommendations ([recommendations/engine.py])

    Drift findings, a burn-rate forecast, a reservation recommendation and
    scorecards become one ranked list of advice. *)

From Stdlib Require Import SpecFloat QArith Lqa.
From S2P Require Import Prelude PyDecimal PyFloat PyValue PyTime PyFormat PyOrder Enums Simulator BurnRate Reservations Drift.
#[local] Open Scope Z_scope.

(** Definitions *)

(** ** Validation *)

(** [_quantize] *)
Definition quantize_advice (d : dec) (name : string) : py dec :=
  match quantize_usd d with
  | Ok q => Ok q
  | Err _ => Err (ValueError (name +:+ " is out of representable range: " +:+ str_dec_fin d))
  end.
(** [_clamp_01] *)
Definition clamp_01 (v : pyval) : py dec :=
  match decimal_of_str v with
  | Err _ => Err (ValueError "value must be a decimal between 0 and 1")
  | Ok (DFin d) => Ok (if dltb d dzero then of_int 0 else if dltb (of_int 1) d then of_int 1 else d)
  | Ok _ => Err (ValueError "value must be finite")
  end.
Definition unit_interval (v : pyval) (name : string) : py dec := let? d := clamp_01 v in quantize_advice d name.
(** [_positive_decimal] and [_signed_usd] *)
Definition positive_decimal (v : pyval) (name : string) : py dec :=
  let? d := finite_decimal v name in
  if dleb d dzero then Err (ValueError (name +:+ " must be positive")) else Ok d.
Definition impact_usd (v : pyval) (name : string) : py dec := let? d := finite_decimal v name in quantize_advice d name.

Definition required (s message : string) : py unit := if nonempty s then Ok tt else Err (ValueError message).

(** [ScorecardMetric] *)
Record ScorecardMetric : Type := MkMetric {
  sm_capability_id : string; sm_provider_id : string; sm_dimension : string;
  sm_score : dec; sm_benchmark : dec; sm_message : string }.
Definition scorecard_metric (capability provider dimension : string) (score benchmark : pyval) (message : string) : py ScorecardMetric :=
  let? _ := required capability "capability_id must be non-empty" in
  let? _ := required provider "provider_id must be non-empty" in
  let? _ := required dimension "dimension must be non-empty" in
  let? s := unit_interval score "score" in
  let? b := unit_interval benchmark "benchmark" in
  Ok (MkMetric capability provider dimension s b message).

Inductive RecommendationCategory := DRIFT | BUDGET | CAPACITY | SCORECARD.
Record Recommendation : Type := MkAdvice {
  ad_action : string; ad_category : RecommendationCategory;
  target_provider_id : option string; target_capability_id : option string;
  rationale : string; estimated_impact_usd : dec; ad_confidence : dec;
  source_signals : list string; ad_priority : Z }.
(** [Recommendation(...)] *)
Definition recommendation (r : Recommendation) : py Recommendation :=
  let? _ := required (ad_action r) "action must be non-empty" in
  let? _ := required (rationale r) "rationale must be non-empty" in
  let? impact := impact_usd (amount (estimated_impact_usd r)) "estimated_impact_usd" in
  let? conf := unit_interval (amount (ad_confidence r)) "confidence" in
  if ad_priority r <? 1 then Err (ValueError "priority must be >= 1")
  else Ok (MkAdvice (ad_action r) (ad_category r) (target_provider_id r) (target_capability_id r) (rationale r)
             impact conf (source_signals r) (ad_priority r)).

(** [RecommendationEngine] *)
Record RecommendationEngine : Type := MkEngine {
  runway_critical_days : dec; runway_warning_days : dec; scorecard_threshold : dec }.
Definition recommendation_engine (critical warning threshold : pyval) : py RecommendationEngine :=
  let? c := positive_decimal critical "runway_critical_days" in
  let? w := positive_decimal warning "runway_warning_days" in
  let? t := unit_interval threshold "scorecard_threshold" in
  Ok (MkEngine c w t).
Definition default_engine : py RecommendationEngine := recommendation_engine (VStr "3") (VStr "7") (VStr "0.15").

(** ** The mappers *)

(** [_drift_priority] *)
Definition drift_priority (s : DriftSeverity) : Z :=
  match s with CRITICAL => 1 | HIGH => 5 | MEDIUM => 10 | LOW => 15 | INFO => 20 end.

(** [_drift_finding_to_recommendation] *)
Definition is_bool (v : pyval) (b : bool) : bool := match v with VBool b' => Bool.eqb b b' | _ => false end.
Definition drift_advice (f : DriftFinding) (action why : string) (conf : dec) : Recommendation :=
  MkAdvice action DRIFT (Some (dr_provider_id f)) None why dzero conf ["drift:" +:+ dr_field f] (drift_priority (dr_severity f)).
Definition drift_finding_advice (f : DriftFinding) : option Recommendation :=
  let names name := String.eqb (dr_field f) name in
  if names "provider_id" then
    Some (drift_advice f "investigate_provider_id_mismatch"
            ("Observed provider id " +:+ py_repr (dr_observed f) +:+ " does not match expected " +:+ py_repr (dr_expected f)) (of_int 1))
  else if names "enabled" then
    if is_bool (dr_expected f) false && is_bool (dr_observed f) true
    then Some (drift_advice f "disable_or_investigate_running_provider"
                 ("Provider " +:+ dr_provider_id f +:+ " is disabled but a running resource was observed") (Dec 9 (-1)))
    else Some (drift_advice f "reconcile_provider_enablement"
                 ("Provider " +:+ dr_provider_id f +:+ " is enabled but observed resource is terminated") (Dec 8 (-1)))
  else if names "health_status" then
    Some (drift_advice f "investigate_provider_health"
            ("Expected health " +:+ py_repr (dr_expected f) +:+ ", observed " +:+ py_repr (dr_observed f)) (Dec 85 (-2)))
  else if names "price_per_second" then
    Some (drift_advice f "update_provider_pricing_or_switch"
            ("Observed price " +:+ py_str (dr_observed f) +:+ " differs from configured price " +:+ py_str (dr_expected f)) (Dec 75 (-2)))
  else if names "availability" then
    Some (drift_advice f "check_provider_availability"
            (if nonempty (dr_message f) then dr_message f
             else "Provider " +:+ dr_provider_id f +:+ " availability drift detected") (Dec 8 (-1)))
  else None.
(** [_from_drift] *)
Definition from_drift (fs : list DriftFinding) : py (list Recommendation) := mapR recommendation (omap drift_finding_advice fs).

(** [_from_burn_rate] *)
Definition trend_text (t : Trend) : string :=
  match t with increasing => "increasing" | decreasing => "decreasing" | stable => "stable" | insufficient_data => "insufficient_data" end.
Definition budget_advice (b : BurnRateForecast) (action why signal : string) (prio : Z) : Recommendation :=
  MkAdvice action BUDGET None None why (remaining_budget_usd b) (confidence b) [signal] prio.
Definition within (runway : option dec) (days : dec) : bool := match runway with Some r => dleb r days | None => false end.
Definition runway_text (b : BurnRateForecast) : string := match runway_days b with Some r => str_dec_fin r | None => "None" end.
Definition runway_advice (b : BurnRateForecast) (e : RecommendationEngine) : list Recommendation :=
  if within (runway_days b) (runway_critical_days e) then
    [budget_advice b "reduce_spend_or_increase_budget"
       ("Budget runway is critically short: " +:+ runway_text b +:+ " days (burn rate " +:+
        str_dec_fin (burn_rate_usd_per_day b) +:+ " USD/day)") "burn_rate:runway" 2]
  else if within (runway_days b) (runway_warning_days e) then
    [budget_advice b "review_spend_trend"
       ("Budget runway is " +:+ runway_text b +:+ " days; monitor closely (trend: " +:+ trend_text (bf_trend b) +:+ ")") "burn_rate:runway" 6]
  else [].
Definition trend_advice (b : BurnRateForecast) : list Recommendation :=
  match bf_trend b with
  | increasing => [budget_advice b "investigate_spend_acceleration"
                     ("Spend is accelerating (burn rate " +:+ str_dec_fin (burn_rate_usd_per_day b) +:+ " USD/day)") "burn_rate:trend" 8]
  | _ => []
  end.
Definition from_burn_rate (o : option BurnRateForecast) (e : RecommendationEngine) : py (list Recommendation) :=
  match o with
  | None => Ok []
  | Some b => mapR recommendation (runway_advice b e ++ trend_advice b)
  end.

(** [_from_reservation] *)
Definition capacity_advice (action why signal : string) (impact conf : dec) (prio : Z) : Recommendation :=
  MkAdvice action CAPACITY None None why impact conf [signal] prio.
Definition reservation_advice (r : ReservationRecommendation) : list Recommendation :=
  let savings := pe_savings (re_recommended r) in
  match re_action r with
  | reserve =>
      [capacity_advice "reserve_capacity"
         ("Reservation plan " +:+ repr_str (plan_id (pe_plan (re_recommended r))) +:+ " saves " +:+ str_dec_fin savings +:+
          " USD vs on-demand") "reservation:recommendation" savings (Dec 9 (-1)) 4]
  | blocked =>
      [capacity_advice "review_provider_pool" "No viable reservation plan meets demand; review provider pool and pricing"
         "reservation:blocked" dzero (Dec 7 (-1)) 3]
  | on_demand => []
  end.
Definition from_reservation (o : option ReservationRecommendation) : py (list Recommendation) :=
  match o with None => Ok [] | Some r => mapR recommendation (reservation_advice r) end.

(** [_from_scorecards]: twice the gap as a float is the confidence. *)
Definition gap_confidence (gap : dec) : py dec :=
  let doubled := fmul (of_dec gap) (of_Z 2) in
  let x := if fltb doubled (of_Z 1) then doubled else of_Z 1 in
  match dec_of_float x with
  | Some d => quantize_advice d "confidence"
  | None => Err (ValueError "confidence is out of representable range")
  end.
Definition scorecard_advice (e : RecommendationEngine) (m : ScorecardMetric) : py (list Recommendation) :=
  let? gap := dsub (sm_benchmark m) (sm_score m) in
  if dltb (scorecard_threshold e) gap then
    let? conf := gap_confidence gap in
    let? r := recommendation (MkAdvice "switch_to_better_provider" SCORECARD (Some (sm_provider_id m)) (Some (sm_capability_id m))
      (sm_dimension m +:+ " score " +:+ str_dec_fin (sm_score m) +:+ " is " +:+ str_dec_fin gap +:+ " below benchmark " +:+
       str_dec_fin (sm_benchmark m) +:+ (if nonempty (sm_message m) then "; " +:+ sm_message m else ""))
      dzero conf ["scorecard:" +:+ sm_dimension m] 12) in
    Ok [r]
  else Ok [].
Definition from_scorecards (ms : list ScorecardMetric) (e : RecommendationEngine) : py (list Recommendation) :=
  rmap mjoin (mapR (scorecard_advice e) ms).

(** ** Ranking *)

(** [_recommendation_sort_key] *)
Definition advice_key : Type := Z * dec * string.
Definition sort_key (r : Recommendation) : py advice_key :=
  let? doubt := dsub (of_int 1) (ad_confidence r) in Ok (ad_priority r, doubt, ad_action r).
Definition key_order : cmp advice_key :=
  tuple_key [by_ (fun k => k.1.1) Z.compare; by_ (fun k => k.1.2) dcompare; by_ snd String.compare].
(** [recommend] *)
Definition recommend (e : RecommendationEngine) (scorecards : list ScorecardMetric) (drift : list DriftFinding)
    (burn_rate : option BurnRateForecast) (reservation : option ReservationRecommendation) : py (list Recommendation) :=
  let? d := from_drift drift in
  let? b := from_burn_rate burn_rate e in
  let? r := from_reservation reservation in
  let? s := from_scorecards scorecards e in
  sort_on sort_key (less key_order) (d ++ b ++ r ++ s).

(** ** Lemmas *)

(** Advice as it is shown: urgency from 1 to 20, a confidence in [0, 1] in
    micro-units, something to do and why. *)
Record advice_ok (r : Recommendation) : Prop := MkAdviceOk {
  ao_priority : 1 <= ad_priority r <= 20;
  ao_confidence : exists z, ad_confidence r = micro z /\ 0 <= z <= 1000000;
  ao_action : nonempty (ad_action r) = true;
  ao_rationale : nonempty (rationale r) = true;
}.
Definition ranked (x y : Recommendation) : Prop :=
  exists kx ky, sort_key x = Ok kx /\ sort_key y = Ok ky /\ no_greater key_order kx ky.
(** What validation leaves alone. *)
Definition same_advice (r r' : Recommendation) : Prop :=
  ad_action r' = ad_action r /\ ad_category r' = ad_category r /\ target_provider_id r' = target_provider_id r /\
  target_capability_id r' = target_capability_id r /\ rationale r' = rationale r /\
  source_signals r' = source_signals r /\ ad_priority r' = ad_priority r.

Lemma key_ordering : Ordering key_order.
Proof.
  apply tuple_ordering. repeat constructor; first [apply by_ordering, Z_ordering|apply by_ordering, decimal_ordering|apply by_ordering, string_ordering].
Qed.

Lemma unit_interval_Ok v name q : unit_interval v name = Ok q -> exists z, q = micro z /\ 0 <= z <= 1000000.
Proof.
  unfold unit_interval. intros (d & Hd & Hq)%rbind_Ok. unfold quantize_advice in Hq.
  destruct (quantize_usd d) as [q'|] eqn:E; [|done]. injection Hq as ->.
  destruct (quantize_usd_micro _ _ E) as [Hz _]. exists (dcoef q). split; [done|].
  assert ((0 <= dval d)%Q /\ (dval d <= dval (of_int 1))%Q) as [H0 H1].
  { unfold clamp_01 in Hd. destruct (decimal_of_str v) as [[x| |]|]; try done. injection Hd as <-.
    destruct (dltb x dzero) eqn:Ez; [by vm_compute|]. destruct (dltb (of_int 1) x) eqn:Eo; [by vm_compute|].
    apply dltb_false in Ez, Eo. assert (dval dzero == 0)%Q as Hz0 by reflexivity. split; [lra|done]. }
  pose proof (quantize_nonneg _ _ _ _ H0 E) as Hn.
  assert (quantize_usd (of_int 1) = Ok (micro 1000000)) as E1 by (by vm_compute).
  pose proof (quantize_mono ROUND_HALF_UP _ _ _ _ _ ltac:(done) H0 H1 E E1) as Hm.
  rewrite Hz in Hn, Hm. rewrite !dval_micro in *. change (ten (-6)) with (1 # 1000000)%Q in *.
  split; rewrite Zle_Qle; [change (inject_Z 0) with 0%Q|]; lra.
Qed.

Lemma recommendation_Ok r r' : recommendation r = Ok r' -> 1 <= ad_priority r <= 20 -> same_advice r r' /\ advice_ok r'.
Proof.
  unfold recommendation. intros (u & Ha & H)%rbind_Ok Hp. apply rbind_Ok in H as (u' & Hr & H).
  apply rbind_Ok in H as (impact & _ & H). apply rbind_Ok in H as (conf & Hc%unit_interval_Ok & H).
  destruct (ad_priority r <? 1); [done|]. injection H as <-. unfold required in Ha, Hr.
  split; [done|]. split; simpl; [done|done|by destruct (nonempty _)|by destruct (nonempty (rationale r))].
Qed.

Lemma advised l l' :
  mapR recommendation l = Ok l' -> Forall (fun r => 1 <= ad_priority r <= 20) l ->
  Forall2 same_advice l l' /\ Forall advice_ok l'.
Proof.
  intros H%mapR_Ok. induction H as [|r r' l l' Hr _ IH]; intros Hp; [by split|].
  apply Forall_cons in Hp as [Hp Hps]. destruct (IH Hps) as [Hs Ho]. destruct (recommendation_Ok _ _ Hr Hp) as [Hs' Ho'].
  split; by constructor.
Qed.

(** ** What each mapper advises *)

(** The signal that a piece of advice answers. *)
Definition answers (e : RecommendationEngine) (sc : list ScorecardMetric) (dr : list DriftFinding) (br : option BurnRateForecast)
    (rv : option ReservationRecommendation) (r : Recommendation) : Prop :=
  match ad_category r with
  | DRIFT => exists f, f ∈ dr /\ target_provider_id r = Some (dr_provider_id f) /\ ad_priority r = drift_priority (dr_severity f) /\
      source_signals r = ["drift:" +:+ dr_field f]
  | BUDGET => exists b, br = Some b /\ (within (runway_days b) (runway_critical_days e) = true \/
      within (runway_days b) (runway_warning_days e) = true \/ bf_trend b = increasing)
  | CAPACITY => exists v, rv = Some v /\ re_action v <> on_demand
  | SCORECARD => exists m gap, m ∈ sc /\ target_provider_id r = Some (sm_provider_id m) /\
      dsub (sm_benchmark m) (sm_score m) = Ok gap /\ dltb (scorecard_threshold e) gap = true
  end.
Definition known_field (f : DriftFinding) : bool := bool_decide (is_Some (drift_finding_advice f)).

Lemma drift_advice_of f r : drift_finding_advice f = Some r ->
  ad_category r = DRIFT /\ target_provider_id r = Some (dr_provider_id f) /\ ad_priority r = drift_priority (dr_severity f) /\
  source_signals r = ["drift:" +:+ dr_field f].
Proof. unfold drift_finding_advice. intros H. repeat case_match; simplify_eq; done. Qed.
Lemma drift_priority_bound s : 1 <= drift_priority s <= 20.
Proof. by destruct s. Qed.

Section Mappers.
Context (e : RecommendationEngine) (sc : list ScorecardMetric) (dr : list DriftFinding) (br : option BurnRateForecast)
        (rv : option ReservationRecommendation).
Abbreviation sound l := (Forall advice_ok l /\ Forall (answers e sc dr br rv) l).

Lemma answers_same r r' : same_advice r r' -> answers e sc dr br rv r -> answers e sc dr br rv r'.
Proof. intros (? & Hc & Hp & ? & ? & Hs & Hq). unfold answers. by rewrite Hc, Hp, Hs, Hq. Qed.
Lemma sound_of l l' :
  mapR recommendation l = Ok l' -> Forall (fun r => 1 <= ad_priority r <= 20 /\ answers e sc dr br rv r) l ->
  sound l' /\ Forall2 same_advice l l'.
Proof.
  intros H Hl. destruct (advised l l' H) as [Hs Ho]; [eapply Forall_impl; [exact Hl|by intros ? []]|].
  split; [|done]. split; [done|]. clear H Ho. induction Hs; [done|].
  apply Forall_cons in Hl as [[_ Ha] Hl]. constructor; [by eapply answers_same|by apply IHHs].
Qed.

Lemma drift_sound l : from_drift dr = Ok l ->
  sound l /\ (forall f, f ∈ dr -> known_field f = true -> exists r, r ∈ l /\ target_provider_id r = Some (dr_provider_id f) /\
    ad_priority r = drift_priority (dr_severity f) /\ source_signals r = ["drift:" +:+ dr_field f]).
Proof.
  unfold from_drift. intros H. apply sound_of in H as [Hs H2].
  - split; [done|]. intros f Hf Hk. apply bool_decide_eq_true in Hk as [r Hr].
    assert (r ∈ omap drift_finding_advice dr) as Hin by (apply list_elem_of_omap; by exists f).
    apply list_elem_of_lookup in Hin as [i Hi]. destruct (Forall2_lookup_l _ _ _ _ _ H2 Hi) as (r' & Hi' & (_ & _ & Ht & _ & _ & Hsig & Hp)).
    destruct (drift_advice_of _ _ Hr) as (_ & Ht' & Hp' & Hs'). exists r'. split; [by eapply list_elem_of_lookup_2|]. by rewrite Ht, Hp, Hsig.
  - apply Forall_forall. intros r (f & Hf & Hr)%list_elem_of_omap. destruct (drift_advice_of _ _ Hr) as (Hc & Ht & Hp & Hsig).
    split; [rewrite Hp; apply drift_priority_bound|]. unfold answers. rewrite Hc. by exists f.
Qed.

Lemma budget_sound l : from_burn_rate br e = Ok l ->
  sound l /\ (forall b, br = Some b -> within (runway_days b) (runway_critical_days e) = true -> exists r, r ∈ l /\
    ad_action r = "reduce_spend_or_increase_budget" /\ ad_priority r = 2).
Proof.
  unfold from_burn_rate. destruct br as [b|] eqn:Eb; [|by intros [= <-]]. intros H.
  apply sound_of in H as [Hs H2].
  - rewrite Eb in Hs. split; [done|]. intros b' [= <-] Hw. unfold runway_advice in H2. rewrite Hw in H2.
    inversion H2 as [|x r xs rs' (Ha & _ & _ & _ & _ & _ & Hp) _ E1 E2]; subst. exists r. split; [left|]. by rewrite Ha, Hp.
  - unfold runway_advice, trend_advice. apply Forall_app. rewrite Eb. split.
    + repeat case_match; repeat constructor; simpl; try lia; exists b; auto.
    + repeat case_match; repeat constructor; simpl; try lia; exists b; auto.
Qed.

Lemma capacity_sound l : from_reservation rv = Ok l -> sound l.
Proof.
  unfold from_reservation. destruct rv as [v|] eqn:Ev; [|by intros [= <-]]. intros H. apply sound_of in H as [Hs _].
  - by rewrite Ev in Hs.
  - rewrite Ev. unfold reservation_advice. destruct (re_action v) eqn:Ea; repeat constructor; simpl; try lia; exists v; by rewrite Ea.
Qed.

Lemma metric_sound m l : m ∈ sc -> scorecard_advice e m = Ok l -> sound l.
Proof.
  unfold scorecard_advice. intros Hm (gap & Hg & H)%rbind_Ok. destruct (dltb _ gap) eqn:Hlt; [|by injection H as <-].
  apply rbind_Ok in H as (conf & _ & H). apply rbind_Ok in H as (r & Hr & [= <-]).
  apply recommendation_Ok in Hr as [Hs Ho]; [|simpl; lia]. split; apply Forall_singleton; [done|].
  eapply answers_same; [exact Hs|]. by exists m, gap.
Qed.
Lemma scorecard_sound l : from_scorecards sc e = Ok l -> sound l.
Proof.
  unfold from_scorecards. intros (ls & H%mapR_Ok & ->)%rmap_Ok.
  assert (forall x, x ∈ ls -> sound x) as Hls.
  { intros x [i Hi]%list_elem_of_lookup. destruct (Forall2_lookup_r _ _ _ _ _ H Hi) as (m & Hm & Hx).
    apply (metric_sound m); [by eapply list_elem_of_lookup_2|done]. }
  clear H. induction ls as [|x ls IH]; simpl; [by split|].
  destruct (Hls x) as [H1 H2]; [left|]. destruct IH as [H3 H4]; [intros y Hy; apply Hls; by right|].
  split; by apply Forall_app.
Qed.
End Mappers.

(** What the engine advises is ranked, well formed and answers a signal:
    drift findings, the burn rate, the reservation or a scorecard below its
    benchmark by more than the threshold.  No finding on a known field goes
    unanswered, and neither does a runway at or below the critical number of
    days; more urgent advice comes first, then the more confident. *)
Theorem recommendations_ranked e sc dr br rv rs :
  recommend e sc dr br rv = Ok rs ->
  StronglySorted ranked rs /\ Forall advice_ok rs /\ Forall (answers e sc dr br rv) rs /\
  (forall f, f ∈ dr -> known_field f = true -> exists r, r ∈ rs /\ target_provider_id r = Some (dr_provider_id f) /\
     ad_priority r = drift_priority (dr_severity f) /\ source_signals r = ["drift:" +:+ dr_field f]) /\
  (forall b, br = Some b -> within (runway_days b) (runway_critical_days e) = true -> exists r, r ∈ rs /\
     ad_action r = "reduce_spend_or_increase_budget" /\ ad_priority r = 2).
Proof.
  unfold recommend. intros (d & Hd & H)%rbind_Ok. apply rbind_Ok in H as (b & Hb & H). apply rbind_Ok in H as (v & Hv & H).
  apply rbind_Ok in H as (s & Hs & H).
  destruct (drift_sound e sc dr br rv d Hd) as [[Hd1 Hd2] Hd3]. destruct (budget_sound e sc dr br rv b Hb) as [[Hb1 Hb2] Hb3].
  destruct (capacity_sound e sc dr br rv v Hv) as [Hv1 Hv2]. destruct (scorecard_sound e sc dr br rv s Hs) as [Hs1 Hs2].
  pose proof (sort_on_perm _ _ _ _ H) as Hp. split; [|rewrite Hp; split; [|split; [|split]]].
  - eapply (sort_on_sorted _ _ (fun _ => True) (no_greater key_order)); [..|exact H].
    + unfold less, no_greater. intros x y _ _. by destruct (key_order x y).
    + unfold less, no_greater. intros x y _ _. rewrite (cmp_flip _ key_ordering x y). by destruct (key_order x y).
    + intros x y z _ _ _. apply (no_greater_trans _ key_ordering).
    + done.
  - by rewrite !Forall_app.
  - by rewrite !Forall_app.
  - intros f Hf Hk. destruct (Hd3 f Hf Hk) as (r & Hr & ?). exists r. rewrite Hp. set_solver.
  - intros b' Hb' Hw. destruct (Hb3 b' Hb' Hw) as (r & Hr & ?). exists r. rewrite Hp. set_solver.
Qed.

Module AdviceSim.
Definition finding (field : string) (sev : DriftSeverity) : DriftFinding := MkDrift "p" field (VBool false) (VBool true) sev "".
Definition metric (score benchmark : string) : py ScorecardMetric := scorecard_metric "c" "p" "cost" (VStr score) (VStr benchmark) "".
Definition shown (rs : py (list Recommendation)) : option (list (Z * string * string)) :=
  match rs with Ok rs => Some ((fun r => (ad_priority r, ad_action r, str_dec_fin (ad_confidence r))) <$> rs) | Err _ => None end.
Definition advise (fs : list DriftFinding) (ms : list (py ScorecardMetric)) (days : list Z) : py (list Recommendation) :=
  let? e := default_engine in let? ms := mapR id ms in let? b := BurnRateSim.run days in recommend e ms fs (Some b) None.

Example advice_ex :
  shown (advise [finding "availability" HIGH; finding "enabled" HIGH; finding "colour" CRITICAL; finding "provider_id" CRITICAL]
           [metric "0.4" "0.9"; metric "0.6" "0.9"; metric "0.8" "0.9"] [45; 1]) =
  Some [(1, "investigate_provider_id_mismatch", "1.000000"); (2, "reduce_spend_or_increase_budget", "0.023240"); (5, "disable_or_investigate_running_provider", "0.900000");
        (5, "check_provider_availability", "0.800000"); (8, "investigate_spend_acceleration", "0.023240");
        (12, "switch_to_better_provider", "1.000000"); (12, "switch_to_better_provider", "0.600000")].
Proof. vm_compute. reflexivity. Qed.
End AdviceSim.
Import AdviceSim.

Definition sample_engine : RecommendationEngine := MkEngine (of_int 3) (of_int 7) (micro 150000).
Lemma recommendations_ranked_witness :
  exists rs, recommend sample_engine [] [finding "enabled" HIGH; finding "provider_id" CRITICAL] None None = Ok rs /\
  StronglySorted ranked rs /\ exists r, r ∈ rs /\ ad_priority r = 1.
Proof.
  destruct (recommend sample_engine [] [finding "enabled" HIGH; finding "provider_id" CRITICAL] None None) as [rs|x] eqn:E;
    [|by vm_compute in E].
  exists rs. split; [done|].
  destruct (recommendations_ranked sample_engine [] [finding "enabled" HIGH; finding "provider_id" CRITICAL] None None rs E)
    as (H1 & _ & _ & H2 & _).
  split; [done|]. destruct (H2 (finding "provider_id" CRITICAL)) as (r & Hr & _ & Hp & _); [right; left|by vm_compute|].
  exists r. split; [done|]. by rewrite Hp.
Defined.
