(* ===== verification/TimeMachine.v ===== *)
(** * Counterfactual replay ([finops/time_machine.py])

    Historical routing decisions are replayed by the what-if simulator in a
    scenario that adds, removes or changes providers, prices, availability
    and budget; the report compares routes and costs. *)

From Stdlib Require Import QArith Lqa.
From S2P Require Import Prelude PyDecimal PyFloat PyValue PyTime PyOrder Enums Provider RoutingTypes Availability Planner Estimator Simulator.
From S2P Require Import BurnRate Reservations.
#[local] Open Scope Z_scope.

(** Definitions *)

(** ** Decisions and scenarios *)

(** [_non_empty_string] and [_string_tuple] *)
Definition text_of (v : pyval) (name : string) : py string :=
  match as_str v with
  | Some s => if nonempty s then Ok s else Err (ValueError (name +:+ " must be a non-empty string"))
  | None => Err (ValueError (name +:+ " must be a non-empty string"))
  end.
Definition text_items (l : list pyval) (name : string) : py (list string) := mapR (fun v => text_of v name) l.

Record HistoricalRoutingDecision : Type := MkDecision {
  hd_workload_id : string; hd_request : RoutingRequest; actual_provider_id : option string;
  actual_cost_usd : dec; hd_payload : dict; actual_fallback_chain : list string }.
(** [_optional_non_empty_string] *)
Definition optional_text (v : pyval) (name : string) : py (option string) :=
  match v with VNone => Ok None | _ => rmap Some (text_of v name) end.
(** [_fallback_chain] *)
Definition chain_of (values : list pyval) (actual : option string) : py (list string) :=
  let? chain := text_items values "actual_fallback_chain" in
  Ok (match chain, actual with [], Some i => [i] | _, _ => chain end).
(** [HistoricalRoutingDecision(...)] *)
Definition historical_decision (workload_id : pyval) (request : RoutingRequest) (actual cost : pyval) (payload : dict)
    (chain : list pyval) : py HistoricalRoutingDecision :=
  let? w := text_of workload_id "workload_id" in
  let? a := optional_text actual "actual_provider_id" in
  let? c := usd cost "actual_cost_usd" in
  let? l := chain_of chain a in
  Ok (MkDecision w request a c (freeze_mapping payload) l).

Record CounterfactualScenario : Type := MkScenario {
  scenario_id : string; description : string;
  sc_price_overrides : dict; provider_overrides : list (string * dict);
  removed_provider_ids : list string; additional_providers : list ProviderLike;
  sc_availability_snapshot : option AvailabilitySnapshot;
  availability_entries : list (string * string * string * Z * bool);
  sc_hints : option Hints; sc_observed : option Observed;
  sc_budget_usd : option dec; sc_current_spend_usd : option dec;
  sc_max_attempts : option Z; sc_backoff_base_s : option float }.
(** [_freeze_provider_overrides] *)
Definition freeze_provider_overrides (l : list (pyval * dict)) : py (list (string * dict)) :=
  rmap (foldl (fun m kv => al_set kv.1 kv.2 m) [])
    (mapR (fun kv => let? i := text_of kv.1 "provider_id" in Ok (i, freeze_mapping kv.2)) l).
(** [_validate_max_attempts] and [_validate_backoff_base_s] *)
Definition validate_max_attempts (o : option Z) : py unit :=
  match o with Some n => if n <? 1 then Err (ValueError "max_attempts must be >= 1") else Ok tt | None => Ok tt end.
Definition validate_backoff_base_s (o : option float) : py unit :=
  match o with
  | Some x => if negb (fisfinite x) || fltb x (of_Z 0)
              then Err (ValueError "backoff_base_s must be a finite non-negative number") else Ok tt
  | None => Ok tt
  end.
(** [CounterfactualScenario(...)] *)
Definition counterfactual_scenario (i : pyval) (description : string) (prices : dict) (overrides : list (pyval * dict))
    (removed : list pyval) (additional : list ProviderLike) (snapshot : option AvailabilitySnapshot)
    (es : list (string * string * string * Z * bool)) (hints : option Hints) (observed : option Observed)
    (budget_usd current_spend_usd : pyval) (max_attempts : option Z) (backoff_base_s : option float) : py CounterfactualScenario :=
  let? i := text_of i "scenario_id" in
  let? o := freeze_provider_overrides overrides in
  let? r := text_items removed "removed_provider_ids" in
  match snapshot, es with
  | Some _, _ :: _ => Err (ValueError "availability_snapshot and availability_entries are mutually exclusive")
  | _, _ =>
      let? b := optional_usd budget_usd "budget_usd" in
      let? s := optional_usd current_spend_usd "current_spend_usd" in
      let? _ := validate_max_attempts max_attempts in
      let? _ := validate_backoff_base_s backoff_base_s in
      Ok (MkScenario i description (freeze_mapping prices) o r (freeze_provider_snapshot additional) snapshot es hints observed
            b s max_attempts backoff_base_s)
  end.

(** ** The counterfactual context *)

(** [_merge_mapping]: an override replaces values and descends into
    mappings on both sides. *)
Fixpoint merge_value (existing value : pyval) : pyval :=
  match value, existing with
  | VDict o, VDict b =>
      VDict ((fix go (m : dict) (o : dict) : dict :=
                match o with
                | [] => m
                | (k, v) :: o' => go (al_set k (merge_value (dict_get_none k m) v) m) o'
                end) (mutable_mapping b) o)
  | _, _ => freeze_value value
  end.
Definition merge_mapping (base override : dict) : dict :=
  match merge_value (VDict base) (VDict override) with VDict m => m | _ => base end.

(** [_providers_for_scenario]: the providers by id, in order. *)
Definition add_provider (removed : list string) (m : list (string * dict)) (p : ProviderLike) : py (list (string * dict)) :=
  let copy := freeze_provider p in
  let? i := snapshot_id copy in
  if bool_decide (i ∈ removed) then Ok m
  else match al_get i m with
       | Some _ => Err (ValueError ("provider " +:+ PyFormat.repr_str i +:+ " appears more than once"))
       | None => Ok (al_set i copy m)
       end.
Definition override_provider (m : list (string * dict)) (kv : string * dict) : py (list (string * dict)) :=
  match al_get kv.1 m with
  | None => Err (ValueError ("provider override " +:+ PyFormat.repr_str kv.1 +:+ " did not match a provider"))
  | Some p => Ok (al_set kv.1 (merge_mapping p kv.2) m)
  end.
Definition providers_for_scenario (ctx : PlanningContext) (sc : CounterfactualScenario) : py (list ProviderLike) :=
  let? m := foldR (add_provider (removed_provider_ids sc)) [] (ctx_providers ctx ++ additional_providers sc) in
  let? m := foldR override_provider m (provider_overrides sc) in
  Ok (freeze_provider_snapshot (PMap <$> m.*2)).
(** [_availability_for_scenario] *)
Definition availability_for_scenario (ctx : PlanningContext) (sc : CounterfactualScenario) : py AvailabilitySnapshot :=
  match sc_availability_snapshot sc, availability_entries sc with
  | Some s, _ => Ok s
  | None, [] => Ok (availability_snapshot ctx)
  | None, es => from_entries es
  end.
(** [_context_for_scenario] *)
Definition context_for_scenario (ctx : PlanningContext) (sc : CounterfactualScenario) : py PlanningContext :=
  let? ps := providers_for_scenario ctx sc in
  let? s := availability_for_scenario ctx sc in
  replay (ctx_now ctx) (Some s) [] ps (ctx_capability ctx).

(** ** Replay *)

Record TimeMachineWorkloadReport : Type := MkWorkloadReport {
  wr_workload_id : string; wr_actual_provider_id : option string; wr_actual_fallback_chain : list string; wr_actual_cost_usd : dec;
  counterfactual_provider_id : option string; counterfactual_fallback_chain : list string; counterfactual_cost_usd : dec;
  wr_cost_delta_usd : dec; routed_differently : bool; wr_projection : WhatIfProjection }.
Record TimeMachineSummary : Type := MkSummary {
  ts_workload_count : Z; changed_route_count : Z; unroutable_count : Z;
  actual_total_usd : dec; counterfactual_total_usd : dec; ts_cost_delta_usd : dec;
  actual_provider_counts : list (string * Z); counterfactual_provider_counts : list (string * Z) }.
Record TimeMachineReport : Type := MkReport {
  tr_scenario : CounterfactualScenario; tr_workloads : list TimeMachineWorkloadReport; tr_summary : TimeMachineSummary }.

(** [_provider_counts] and [_freeze_counts] *)
Definition sorted_counts (m : list (string * Z)) : list (string * Z) := sort_by (less (by_ fst String.compare)) m.
Definition provider_counts (ids : list (option string)) : list (string * Z) :=
  sorted_counts (foldl (fun m o => match o with Some i => add_count i 1 m | None => m end) [] ids).
Definition freeze_counts (m : list (string * Z)) (name : string) : py (list (string * Z)) :=
  rmap sorted_counts
    (mapR (fun kv => let? i := text_of (VStr kv.1) (name +:+ " key") in
                     let? _ := non_negative_int kv.2 (name +:+ "[" +:+ i +:+ "]") in Ok (i, kv.2)) m).
(** [TimeMachineSummary(...)] *)
Definition time_machine_summary (t : TimeMachineSummary) : py TimeMachineSummary :=
  let? _ := non_negative_int (ts_workload_count t) "workload_count" in
  let? _ := non_negative_int (changed_route_count t) "changed_route_count" in
  let? _ := non_negative_int (unroutable_count t) "unroutable_count" in
  let? a := usd (amount (actual_total_usd t)) "actual_total_usd" in
  let? c := usd (amount (counterfactual_total_usd t)) "counterfactual_total_usd" in
  let? d := signed_usd (amount (ts_cost_delta_usd t)) "cost_delta_usd" in
  let? pa := freeze_counts (actual_provider_counts t) "actual_provider_counts" in
  let? pc := freeze_counts (counterfactual_provider_counts t) "counterfactual_provider_counts" in
  Ok (MkSummary (ts_workload_count t) (changed_route_count t) (unroutable_count t) a c d pa pc).

(** [_summary] *)
Definition count_if {A} (f : A -> bool) (l : list A) : Z := Z.of_nat (length (filter (fun x => f x = true) l)).
Definition unroutable (w : TimeMachineWorkloadReport) : bool := bool_decide (counterfactual_provider_id w = None).
Definition summary (ws : list TimeMachineWorkloadReport) : py TimeMachineSummary :=
  let? a := dsum (micro 0) (wr_actual_cost_usd <$> ws) in
  let? actual := usd (amount a) "actual_total_usd" in
  let? c := dsum (micro 0) (counterfactual_cost_usd <$> ws) in
  let? counterfactual := usd (amount c) "counterfactual_total_usd" in
  let? d := dsub counterfactual actual in
  let? delta := signed_usd (amount d) "cost_delta_usd" in
  time_machine_summary (MkSummary (Z.of_nat (length ws)) (count_if routed_differently ws) (count_if unroutable ws)
    actual counterfactual delta (provider_counts (wr_actual_provider_id <$> ws)) (provider_counts (counterfactual_provider_id <$> ws))).

(** [_empty_projection]: where no provider is left. *)
Definition empty_projection (request : RoutingRequest) (sc : CounterfactualScenario) : py WhatIfProjection :=
  let spend := match sc_current_spend_usd sc with
               | Some d => if deqb d dzero then micro 0 else d
               | None => micro 0
               end in
  let? headroom := budget_headroom (sc_budget_usd sc) spend in
  Ok (MkProjection (MkPlan request [] [] [] [] (default DEFAULT_MAX_ATTEMPTS (sc_max_attempts sc)))
        [] (micro 0) spend spend (sc_budget_usd sc) headroom (exceeds headroom)).

Section Replay.
Context (clock : datetime) (mono : float) (global : AvailabilityCache).

(** [_workload_report] *)
Definition workload_report (sc : CounterfactualScenario) (ctx : PlanningContext) (s : WhatIfSimulator) (d : HistoricalRoutingDecision)
  : py TimeMachineWorkloadReport :=
  let? p := match ctx_providers ctx with
            | [] => empty_projection (hd_request d) sc
            | _ => simulate clock mono global s (hd_request d) (hd_payload d)
                     (MkSimulate None (sc_hints sc) (sc_observed sc) [] VNone VNone (sc_max_attempts sc) (sc_backoff_base_s sc))
            end in
  let i := selected_provider_id (wp_plan p) in
  let chain := fallback_chain (wp_plan p) in
  let? x := dsub (reserved_usd p) (actual_cost_usd d) in
  let? delta := signed_usd (amount x) "cost_delta_usd" in
  Ok (MkWorkloadReport (hd_workload_id d) (actual_provider_id d) (actual_fallback_chain d) (actual_cost_usd d)
        i chain (reserved_usd p) delta
        (negb (bool_decide (actual_provider_id d = i)) || negb (bool_decide (actual_fallback_chain d = chain))) p).

(** [TimeMachineReplay.replay]; [cap] is the capability of the context. *)
Definition scenario_simulator (ctx : PlanningContext) (cap : option priced_capability) (sc : CounterfactualScenario) : py WhatIfSimulator :=
  what_if_simulator ctx cap (sc_price_overrides sc) (optional_amount (sc_budget_usd sc)) (optional_amount (sc_current_spend_usd sc))
    (default DEFAULT_MAX_ATTEMPTS (sc_max_attempts sc)) (default DEFAULT_BACKOFF_BASE_S (sc_backoff_base_s sc)).
Definition time_machine_replay (historical : PlanningContext) (cap : option priced_capability) (sc : CounterfactualScenario)
    (ds : list HistoricalRoutingDecision) : py TimeMachineReport :=
  let? ctx := context_for_scenario historical sc in
  let? s := scenario_simulator ctx cap sc in
  let? ws := mapR (workload_report sc ctx s) ds in
  let? t := summary ws in
  Ok (MkReport sc ws t).
End Replay.

(** ** Lemmas *)

(** Counts by provider add up to the workloads that have one. *)
Definition total (m : list (string * Z)) : Z := capacity_total m.
Lemma total_perm m m' : m ≡ₚ m' -> total m = total m'.
Proof. intros H. unfold total, capacity_total. apply zsum_perm. by rewrite H. Qed.
Lemma count_all ids : forall m, Forall (fun kv => 0 <= kv.2) m ->
  Forall (fun kv => 0 <= kv.2) (foldl (fun m o => match o with Some i => add_count i 1 m | None => m end) m ids) /\
  total (foldl (fun m o => match o with Some i => add_count i 1 m | None => m end) m ids) =
    total m + count_if (fun o => bool_decide (is_Some o)) ids.
Proof.
  induction ids as [|o ids IH]; intros m Hm; simpl; [split; [done|unfold count_if; simpl; lia]|].
  destruct o as [i|].
  - destruct (add_capacity i 1 m ltac:(lia) Hm) as [Hm' Ht]. destruct (IH _ Hm') as [H1 ->]. split; [done|].
    unfold total in *. rewrite Ht. unfold count_if. rewrite filter_cons, decide_True by done. simpl. lia.
  - destruct (IH _ Hm) as [H1 ->]. split; [done|]. unfold count_if. by rewrite filter_cons, decide_False by done.
Qed.
Lemma freeze_counts_total m name m' : freeze_counts m name = Ok m' -> total m' = total m.
Proof.
  unfold freeze_counts. intros (l & Hl & ->)%rmap_Ok. unfold sorted_counts. rewrite (total_perm _ l) by apply sort_by_perm.
  apply mapR_Ok in Hl. induction Hl as [|[k x] [k' x'] m l Hkv _ IH]; [done|].
  apply rbind_Ok in Hkv as (i & Hi & Hkv). apply rbind_Ok in Hkv as (u & _ & [= <- <-]).
  unfold total in *. simpl. rewrite !capacity_cons. lia.
Qed.
Lemma provider_counts_total ids : total (provider_counts ids) = count_if (fun o => bool_decide (is_Some o)) ids.
Proof.
  unfold provider_counts, sorted_counts. rewrite (total_perm _ (foldl (fun m o => match o with Some i => add_count i 1 m | None => m end) [] ids))
    by apply sort_by_perm. by destruct (count_all ids [] ltac:(constructor)) as [_ ->].
Qed.

Lemma count_if_fmap {A B} (f : A -> B) (g : B -> bool) l : count_if g (f <$> l) = count_if (fun x => g (f x)) l.
Proof. unfold count_if. induction l as [|x l IH]; [done|]. rewrite fmap_cons, !filter_cons. case_decide; simpl; lia. Qed.
Lemma count_if_not {A} (f g : A -> bool) l : (forall x, g x = negb (f x)) -> count_if f l + count_if g l = Z.of_nat (length l).
Proof.
  intros H. unfold count_if. induction l as [|x l IH]; [done|]. rewrite !filter_cons, H.
  destruct (f x); simpl; repeat case_decide; simpl; try done; lia.
Qed.

(** ** Money *)

Lemma signed_usd_same z name q : Z.abs z < micro_limit -> signed_usd (amount (micro z)) name = Ok q -> q = micro z.
Proof.
  intros Hz. unfold signed_usd. cbn [finite_decimal amount decimal_of_str rbind]. intros H%quantize_amount_Ok.
  rewrite quantize_usd_id in H by done. by injection H.
Qed.
Lemma delta_exact a b x y d name q :
  usd_is a x -> usd_is b y -> dsub b a = Ok d -> signed_usd (amount d) name = Ok q -> q = micro (y - x).
Proof.
  intros [-> Hx] [-> Hy] Hd Hq. rewrite dsub_micro in Hd by lia. injection Hd as <-. apply signed_usd_same in Hq; [done|lia].
Qed.
Lemma sum_exact ds zs s name q :
  amounts_are ds zs -> dsum (micro 0) ds = Ok s -> usd (amount s) name = Ok q -> usd_is q (zsum zs).
Proof.
  intros Ha Hs (d & [= <-] & Hq & _)%usd_Ok.
  destruct (quantized_dsum ds zs (micro 0) 0 s q) as [Hlt ->]; [done|by left|done..|].
  split; [done|]. pose proof (amounts_nonneg _ _ Ha). lia.
Qed.
Lemma usd_same d z name q : usd_is d z -> usd (amount d) name = Ok q -> q = d.
Proof. intros Hd. rewrite (usd_amount _ _ _ Hd). by intros [= ->]. Qed.

Lemma summary_exact ws t zs ys :
  amounts_are (wr_actual_cost_usd <$> ws) zs -> amounts_are (counterfactual_cost_usd <$> ws) ys -> summary ws = Ok t ->
  usd_is (actual_total_usd t) (zsum zs) /\ usd_is (counterfactual_total_usd t) (zsum ys) /\
  ts_cost_delta_usd t = micro (zsum ys - zsum zs) /\ ts_workload_count t = Z.of_nat (length ws) /\
  total (counterfactual_provider_counts t) + unroutable_count t = ts_workload_count t /\
  total (actual_provider_counts t) = count_if (fun o => bool_decide (is_Some o)) (wr_actual_provider_id <$> ws).
Proof.
  intros Ha Hc H. unfold summary in H. apply rbind_Ok in H as (a & Hsa & H). apply rbind_Ok in H as (actual & Hua & H).
  apply rbind_Ok in H as (c & Hsc & H). apply rbind_Ok in H as (cf & Huc & H). apply rbind_Ok in H as (d & Hd & H).
  apply rbind_Ok in H as (delta & Hdelta & H). pose proof (sum_exact _ _ _ _ _ Ha Hsa Hua) as Hta. pose proof (sum_exact _ _ _ _ _ Hc Hsc Huc) as Htc.
  pose proof (delta_exact _ _ _ _ _ _ _ Hta Htc Hd Hdelta) as Htd. clear Hsa Hua Hsc Huc Hd Hdelta.
  unfold time_machine_summary in H. cbn [ts_workload_count changed_route_count unroutable_count actual_total_usd counterfactual_total_usd
    ts_cost_delta_usd actual_provider_counts counterfactual_provider_counts] in H.
  apply rbind_Ok in H as (? & _ & H). apply rbind_Ok in H as (? & _ & H). apply rbind_Ok in H as (? & _ & H).
  apply rbind_Ok in H as (a' & Ha' & H). apply rbind_Ok in H as (c' & Hc' & H). apply rbind_Ok in H as (d' & Hd' & H).
  apply rbind_Ok in H as (pa & Hpa & H). apply rbind_Ok in H as (pc & Hpc & [= <-]).
  cbn [ts_workload_count changed_route_count unroutable_count actual_total_usd counterfactual_total_usd
    ts_cost_delta_usd actual_provider_counts counterfactual_provider_counts].
  rewrite (usd_same _ _ _ _ Hta Ha'), (usd_same _ _ _ _ Htc Hc'). split; [done|]. split; [done|].
  subst delta. destruct Hta as [_ Hta], Htc as [_ Htc]. apply signed_usd_same in Hd' as ->; [|lia]. split; [done|]. split; [done|].
  apply freeze_counts_total in Hpa as ->. apply freeze_counts_total in Hpc as ->. rewrite !provider_counts_total. split; [|done].
  rewrite count_if_fmap. apply count_if_not. intros w. unfold unroutable. by destruct (counterfactual_provider_id w).
Qed.

Definition caps_ok (cap : option priced_capability) : Prop := forall c, cap = Some c -> 0 <= execution_timeout_ms (pc_cost c).

Section Facts.
Context (clock : datetime) (mono : float) (global : AvailabilityCache).

Lemma simulated_reserved s request payload o p :
  caps_ok (ws_capability s) -> so_capability o = None -> simulate clock mono global s request payload o = Ok p ->
  exists z, usd_is (reserved_usd p) z.
Proof.
  intros Hcap Ho H. unfold simulate in H. rewrite Ho in H. apply rbind_Ok in H as (ctx & _ & H). apply rbind_Ok in H as (cap & Hc & H).
  apply rbind_Ok in H as (b & _ & H). apply rbind_Ok in H as (sp & _ & H). apply rbind_Ok in H as (plan & _ & H).
  apply rbind_Ok in H as (costs & Hcosts & H). apply rbind_Ok in H as (t & _ & H). apply rbind_Ok in H as (pr & _ & H).
  apply rbind_Ok in H as (h & _ & [= <-]). cbn [reserved_usd].
  eapply reserved_of_usd; [|exact Hcosts]. unfold resolve_capability in Hc. destruct (ws_capability s) eqn:E; [|done].
  apply Hcap. congruence.
Qed.

(** What one report says. *)
Record reported (d : HistoricalRoutingDecision) (w : TimeMachineWorkloadReport) (x y : Z) : Prop := MkReported {
  rp_id : wr_workload_id w = hd_workload_id d;
  rp_actual : usd_is (wr_actual_cost_usd w) x;
  rp_same : wr_actual_cost_usd w = actual_cost_usd d /\ wr_actual_provider_id w = actual_provider_id d;
  rp_counterfactual : usd_is (counterfactual_cost_usd w) y;
  rp_delta : wr_cost_delta_usd w = micro (y - x);
  rp_routes : routed_differently w = false <->
    counterfactual_provider_id w = actual_provider_id d /\ counterfactual_fallback_chain w = actual_fallback_chain d;
}.
Lemma workload_reported sc ctx s d w x :
  caps_ok (ws_capability s) -> usd_is (actual_cost_usd d) x -> workload_report clock mono global sc ctx s d = Ok w ->
  exists y, reported d w x y.
Proof.
  intros Hcap Hx. unfold workload_report. intros (p & Hp & H)%rbind_Ok. apply rbind_Ok in H as (t & Ht & H).
  apply rbind_Ok in H as (delta & Hd & [= <-]).
  assert (exists y, usd_is (reserved_usd p) y) as (y & Hy).
  { destruct (ctx_providers ctx).
    - unfold empty_projection in Hp. apply rbind_Ok in Hp as (h & _ & [= <-]). by exists 0.
    - eapply simulated_reserved; [exact Hcap| |exact Hp]; done. }
  exists y. split; simpl; try done.
  - by eapply delta_exact.
  - rewrite orb_false_iff, !negb_false_iff, !bool_decide_eq_true. naive_solver.
Qed.
Lemma workloads_reported sc ctx s ds ws zs :
  caps_ok (ws_capability s) -> amounts_are (actual_cost_usd <$> ds) zs -> mapR (workload_report clock mono global sc ctx s) ds = Ok ws ->
  exists ys, amounts_are (wr_actual_cost_usd <$> ws) zs /\ amounts_are (counterfactual_cost_usd <$> ws) ys /\
    Forall2 (fun d w => exists x y, reported d w x y) ds ws.
Proof.
  intros Hcap Hz H%mapR_Ok. revert zs Hz. induction H as [|d w ds ws Hw _ IH]; intros zs Hz.
  - exists []. inversion Hz; subst. by repeat split; constructor.
  - unfold amounts_are in Hz. csimpl in *. inversion Hz as [|d' x ds' zs' Hx Hzs E1 E2]; subst.
    destruct (workload_reported _ _ _ _ _ _ Hcap Hx Hw) as (y & Hr). destruct (IH _ Hzs) as (ys & H1 & H2 & H3).
    exists (y :: ys). split; [constructor; [apply Hr|done]|]. split; [constructor; [apply Hr|done]|]. constructor; [by exists x, y|done].
Qed.
End Facts.

(** ** Properties *)

(** A replay report accounts for every decision, exactly: each report pairs a
    decision with what the scenario would have reserved and says whether the
    route differs; the totals are the sums of the costs to the last
    micro-dollar and the delta is their difference; and the providers'
    counts add up to the workloads that were, or would be, routed. *)
Theorem replay_accounts_exactly clock mono global historical cap sc ds zs r :
  caps_ok cap -> amounts_are (actual_cost_usd <$> ds) zs ->
  time_machine_replay clock mono global historical cap sc ds = Ok r ->
  let t := tr_summary r in
  exists ys,
    Forall2 (fun d w => exists x y, reported d w x y) ds (tr_workloads r) /\
    amounts_are (counterfactual_cost_usd <$> tr_workloads r) ys /\
    usd_is (actual_total_usd t) (zsum zs) /\ usd_is (counterfactual_total_usd t) (zsum ys) /\
    ts_cost_delta_usd t = micro (zsum ys - zsum zs) /\
    ts_workload_count t = Z.of_nat (length ds) /\
    total (counterfactual_provider_counts t) + unroutable_count t = ts_workload_count t /\
    total (actual_provider_counts t) = count_if (fun d => bool_decide (is_Some (actual_provider_id d))) ds.
Proof.
  intros Hcap Hz H t. unfold time_machine_replay in H. apply rbind_Ok in H as (ctx & _ & H). apply rbind_Ok in H as (s & Hs & H).
  apply rbind_Ok in H as (ws & Hws & H). apply rbind_Ok in H as (t' & Ht & [= <-]). simpl in t. subst t.
  assert (ws_capability s = cap) as Hsc.
  { unfold scenario_simulator, what_if_simulator in Hs. apply rbind_Ok in Hs as (b & _ & Hs). by apply rbind_Ok in Hs as (sp & _ & [= <-]). }
  destruct (workloads_reported clock mono global sc ctx s ds ws zs) as (ys & Ha & Hc & Hr); [by rewrite Hsc|done|done|].
  exists ys. split; [done|]. split; [done|]. apply summary_exact with (zs := zs) (ys := ys) in Ht as (H1 & H2 & H3 & H4 & H5 & H6); [|done|done].
  rewrite H4, H6, (Forall2_length _ _ _ Hr). repeat (split; [done|]). split; [by rewrite <- H4|].
  rewrite count_if_fmap. clear -Hr. unfold count_if. induction Hr as [|d w ds ws (x & y & Hw) _ IH]; [done|].
  rewrite !filter_cons. destruct (rp_same _ _ _ _ Hw) as [_ ->]. case_decide; simpl; lia.
Qed.

Module ReplaySim.
Definition context : PlanningContext := ws_context WhatIfSim.budget10.
Definition decision (w p cost : string) : HistoricalRoutingDecision :=
  match historical_decision (VStr w) plain_request (VStr p) (VStr cost) [] [] with
  | Ok d => d | Err _ => MkDecision w plain_request None dzero [] [] end.
Definition day : list HistoricalRoutingDecision := [decision "w1" "a" "0.06"; decision "w2" "b" "0.13"].
Definition scenario (removed : list string) (overrides : list (pyval * dict)) (budget : pyval) : py CounterfactualScenario :=
  counterfactual_scenario (VStr "s") "" [] overrides (VStr <$> removed) [] None [] None None budget (VStr "1") None None.
Definition play (sc : py CounterfactualScenario) : py TimeMachineReport :=
  let? sc := sc in time_machine_replay plan_clock (of_Z 0) new_cache context (Some WhatIfSim.capability) sc day.
Definition seen (r : TimeMachineReport) :=
  ((fun w => (wr_workload_id w, counterfactual_fallback_chain w, PyFormat.str_dec_fin (wr_cost_delta_usd w), routed_differently w,
              would_exceed_budget (wr_projection w))) <$> tr_workloads r,
   PyFormat.str_dec_fin (ts_cost_delta_usd (tr_summary r)), changed_route_count (tr_summary r), unroutable_count (tr_summary r),
   counterfactual_provider_counts (tr_summary r)).

Example as_it_was_ex : rmap seen (play (scenario [] [] VNone)) =
  Ok ([("w1", ["a"], "0.000000", false, None); ("w2", ["a"], "-0.070000", true, None)], "-0.070000", 1, 0, [("a", 2)]).
Proof. vm_compute. reflexivity. Qed.
Example without_a_ex : rmap seen (play (scenario ["a"] [] VNone)) =
  Ok ([("w1", ["b"], "0.060000", true, None); ("w2", ["b"], "-0.010000", false, None)], "0.050000", 1, 0, [("b", 2)]).
Proof. vm_compute. reflexivity. Qed.
Example nobody_ex : rmap seen (play (scenario ["a"; "b"] [] (VStr "0.5"))) =
  Ok ([("w1", [], "-0.060000", true, Some true); ("w2", [], "-0.130000", true, Some true)], "-0.190000", 2, 2, []).
Proof. vm_compute. reflexivity. Qed.
(** An override descends into the cost of a provider. *)
Example override_merges_ex :
  rmap seen (play (scenario ["b"] [(VStr "a", [("config", VDict [("cost", VDict [("rate_per_second", VStr "0.01")])])])] VNone)) =
  Ok ([("w1", ["a"], "0.540000", false, None); ("w2", ["a"], "0.470000", true, None)], "1.010000", 1, 0, [("a", 2)]).
Proof. vm_compute. reflexivity. Qed.
(** Every workload is projected from the same spend: two that exceed the
    budget together do not exceed it in the report. *)
Example budget_per_workload_ex : rmap seen (play (scenario ["b"] [] (VStr "1.10"))) =
  Ok ([("w1", ["a"], "0.000000", false, Some false); ("w2", ["a"], "-0.070000", true, Some false)], "-0.070000", 1, 0, [("a", 2)]).
Proof. vm_compute. reflexivity. Qed.
Example unknown_override_ex : exists m, play (scenario [] [(VStr "z", [])] VNone) = Err (ValueError m).
Proof. by eexists. Qed.
End ReplaySim.

Lemma replay_accounts_exactly_witness :
  exists sc r, ReplaySim.scenario ["a"] [] VNone = Ok sc /\
    time_machine_replay plan_clock (of_Z 0) new_cache ReplaySim.context (Some WhatIfSim.capability) sc ReplaySim.day = Ok r /\
    let t := tr_summary r in
    exists ys,
      Forall2 (fun d w => exists x y, reported d w x y) ReplaySim.day (tr_workloads r) /\
      amounts_are (counterfactual_cost_usd <$> tr_workloads r) ys /\
      usd_is (actual_total_usd t) (zsum [60000; 130000]) /\ usd_is (counterfactual_total_usd t) (zsum ys) /\
      ts_cost_delta_usd t = micro (zsum ys - zsum [60000; 130000]) /\
      ts_workload_count t = Z.of_nat (length ReplaySim.day) /\
      total (counterfactual_provider_counts t) + unroutable_count t = ts_workload_count t /\
      total (actual_provider_counts t) = count_if (fun d => bool_decide (is_Some (actual_provider_id d))) ReplaySim.day.
Proof.
  destruct (ReplaySim.scenario ["a"] [] VNone) as [sc|e] eqn:Es; [|by vm_compute in Es].
  destruct (time_machine_replay plan_clock (of_Z 0) new_cache ReplaySim.context (Some WhatIfSim.capability) sc ReplaySim.day) as [r|e] eqn:Er.
  - exists sc, r. split; [done|]. split; [done|].
    apply (replay_accounts_exactly plan_clock (of_Z 0) new_cache ReplaySim.context (Some WhatIfSim.capability) sc ReplaySim.day [60000; 130000] r).
    + intros c [= <-]. by vm_compute.
    + repeat constructor; vm_compute; done.
    + exact Er.
  - exfalso. vm_compute in Es. injection Es as <-. by vm_compute in Er.
Defined.
