(* ===== verification/Prewarm.v ===== *)
(** * Prewarming and signals ([routing/prewarm.py], [autopilot/schema.py])

    Recent request counts are forecast into the next window; where the
    forecast exceeds the warm capacity of a provider, the plan recommends to
    raise it, in time for the window.

    Prewarm recommendations and drift findings become the signals the
    controller of Autopilot acts on.  The id of a signal names the action the
    executor sees, so different findings must not share one. *)

From S2P Require Import Prelude PyDecimal PyFloat PyValue PyTime PyOrder Enums Provider Cooldown Planner.
#[local] Open Scope Z_scope.

(** Definitions *)

(** [POD_LEASE] is [WARM_PODS] here, beside the provider type of that name. *)
Inductive PrewarmTargetKind := ENDPOINT_WORKERS | WARM_PODS.
#[global] Instance PrewarmTargetKind_enum : StrEnum PrewarmTargetKind := {
  members := [ENDPOINT_WORKERS; WARM_PODS];
  enum_value k := match k with ENDPOINT_WORKERS => "endpoint_workers" | WARM_PODS => "pod_lease" end }.
Definition SUPPORTED_PREWARM_TYPES : list string := enum_value <$> [SERVERLESS_LB; SERVERLESS_QUEUE; POD_LEASE].

Definition check (b : bool) (message : string) : py unit := if b then Ok tt else Err (ValueError message).

Record DemandSample : Type := MkSample { ds_capability_id : string; ds_observed_at : datetime; request_count : Z }.
(** [DemandSample(...)] *)
Definition demand_sample (capability : string) (at_ : datetime) (count : Z) : py DemandSample :=
  let? _ := check (nonempty capability) "capability_id must be non-empty" in
  let? _ := check (0 <=? count) "request_count must be >= 0" in
  let? t := require_utc at_ "observed_at" in
  Ok (MkSample capability t count).

Record PrewarmPolicy : Type := MkPrewarmPolicy {
  lookback : timedelta; sample_window : timedelta; forecast_window : timedelta; forecast_horizon : timedelta;
  headroom : float; default_requests_per_warm_unit : Z; min_forecast_requests : Z; max_targets_per_capability : Z;
  default_lead_time : timedelta; recommendation_ttl : timedelta }.
(** [PrewarmPolicy(...)] *)
Definition prewarm_policy (p : PrewarmPolicy) : py PrewarmPolicy :=
  let? _ := check (0 <? lookback p) "lookback must be positive" in
  let? _ := check (0 <? sample_window p) "sample_window must be positive" in
  let? _ := check (0 <? forecast_window p) "forecast_window must be positive" in
  let? _ := check (0 <=? forecast_horizon p) "forecast_horizon must be >= 0" in
  let? _ := check (0 <=? default_lead_time p) "default_lead_time must be >= 0" in
  let? _ := check (0 <=? recommendation_ttl p) "recommendation_ttl must be >= 0" in
  let? _ := check (sample_window p <=? lookback p) "lookback must be >= sample_window" in
  let? _ := check (fisfinite (headroom p) && negb (fltb (headroom p) (of_Z 1))) "headroom must be a finite number >= 1" in
  let? _ := check (1 <=? default_requests_per_warm_unit p) "default_requests_per_warm_unit must be >= 1" in
  let? _ := check (0 <=? min_forecast_requests p) "min_forecast_requests must be >= 0" in
  let? _ := check (1 <=? max_targets_per_capability p) "max_targets_per_capability must be >= 1" in
  Ok p.
Definition minutes (n : Z) : timedelta := n * 60000000.
Definition DEFAULT_PREWARM_POLICY : PrewarmPolicy :=
  MkPrewarmPolicy (minutes 30) (minutes 5) (minutes 5) (minutes 5) (of_dec (Dec 125 (-2))) 20 1 1 (minutes 5) (minutes 15).

Record DemandForecast : Type := MkForecastDemand {
  fo_capability_id : string; window_start : datetime; window_end : datetime; observed_counts : list Z;
  projected_requests : Z; source_window_start : datetime; source_window_end : datetime }.
(** [projected_rps] *)
Definition projected_rps (f : DemandForecast) : py float :=
  let? s := total_seconds (dt_sub (window_end f) (window_start f)) in
  if fleb s (of_Z 0) then Ok fzero
  else let? n := float_of_int (projected_requests f) in fdiv n s.

Record PrewarmRecommendation : Type := MkPrewarm {
  pw_capability_id : string; pw_provider_id : string; pw_provider_type : string; target_kind : PrewarmTargetKind;
  target_count : Z; current_warm_count : Z; requests_per_warm_unit : Z; forecast_requests : Z;
  start_at : datetime; ready_by : datetime; expires_at : datetime; pw_reason : string; pw_target : dict; pw_rank : Z }.
(** [PrewarmRecommendation(...)] and [delta] *)
Definition prewarm_recommendation (r : PrewarmRecommendation) : py PrewarmRecommendation :=
  let? _ := check (nonempty (pw_capability_id r)) "capability_id must be non-empty" in
  let? _ := check (nonempty (pw_provider_id r)) "provider_id must be non-empty" in
  let? _ := check (0 <=? target_count r) "target_count must be >= 0" in
  let? _ := check (0 <=? current_warm_count r) "current_warm_count must be >= 0" in
  let? _ := check (1 <=? requests_per_warm_unit r) "requests_per_warm_unit must be >= 1" in
  let? _ := check (0 <=? forecast_requests r) "forecast_requests must be >= 0" in
  let? _ := check (1 <=? pw_rank r) "rank must be >= 1" in
  let? _ := require_utc (start_at r) "start_at" in
  let? _ := require_utc (ready_by r) "ready_by" in
  let? _ := require_utc (expires_at r) "expires_at" in
  Ok r.
Definition delta (r : PrewarmRecommendation) : Z := Z.max 0 (target_count r - current_warm_count r).
Record PrewarmPlan : Type := MkPrewarmPlan {
  pp_now : datetime; forecasts : list DemandForecast; recommendations : list PrewarmRecommendation }.

(** ** Forecasting *)

Section Forecast.
Context (policy : PrewarmPolicy).

(** [_sample_window_count] *)
Definition sample_window_count : py Z :=
  let? q := int_truediv (lookback policy) (sample_window policy) in
  let? n := fceil q in Ok (Z.max 1 n).

(** [_project_requests] *)
Definition positive_trend (counts : list Z) : py float :=
  match counts, last counts with
  | _ :: _ :: _, Some l =>
      let? slope := int_truediv (l - nth 0 counts 0) (Z.of_nat (length counts) - 1) in Ok (fmax fzero slope)
  | _, _ => Ok fzero
  end.
Definition project_requests (counts : list Z) : py Z :=
  match last counts with
  | None => Ok 0
  | Some l =>
      let? trend := positive_trend counts in
      let? now := float_of_int l in
      fceil (fmul (fmax fzero (fadd now trend)) (headroom policy))
  end.

(** [_validate_sample] *)
Definition validate_sample (s : DemandSample) : py unit :=
  let? _ := check (0 <=? request_count s) "request_count must be >= 0" in
  let? _ := require_utc (ds_observed_at s) "observed_at" in Ok tt.
(** The bucket of a sample, if it has one. *)
Definition bucket_index (source_start observed_at : datetime) (n : Z) (s : DemandSample) : py (option Z) :=
  if dt_ltb (ds_observed_at s) source_start || dt_leb observed_at (ds_observed_at s) then Ok None
  else
    let? q := int_truediv (dt_sub (ds_observed_at s) source_start) (sample_window policy) in
    let? i := py_int (VFloat q) in
    Ok (if (i <? 0) || (n <=? i) then None else Some i).
(** [counts[index] += request_count] *)
Definition add_requests (n : Z) (m : list (string * list Z)) (c : string) (i count : Z) : list (string * list Z) :=
  let counts := default (replicate (Z.to_nat n) 0) (al_get c m) in
  al_set c (alter (Z.add count) (Z.to_nat i) counts) m.
Definition bucket_sample (source_start observed_at : datetime) (n : Z) (m : list (string * list Z)) (s : DemandSample)
  : py (list (string * list Z)) :=
  let? _ := validate_sample s in
  let? i := bucket_index source_start observed_at n s in
  Ok (match i with Some i => add_requests n m (ds_capability_id s) i (request_count s) | None => m end).

Definition sample_order : cmp DemandSample := tuple_key [by_ ds_capability_id String.compare; by_ (fun s => dt_us (ds_observed_at s)) Z.compare].
Definition bucket_order : cmp (string * list Z) := by_ fst String.compare.

(** [forecast_demand] *)
Definition source_start_of (observed_at : datetime) (n : Z) : py datetime :=
  let? span := timedelta_checked (sample_window policy * n) in dt_add observed_at (- span).
Definition forecast_of (source_start observed_at forecast_start forecast_end : datetime) (kv : string * list Z) : py DemandForecast :=
  let? projected := project_requests kv.2 in
  Ok (MkForecastDemand kv.1 forecast_start forecast_end kv.2 projected source_start observed_at).
Definition forecast_demand (history : list DemandSample) (now : datetime) : py (list DemandForecast) :=
  let? observed_at := require_utc now "now" in
  let? n := sample_window_count in
  let? source_start := source_start_of observed_at n in
  let? buckets := foldR (bucket_sample source_start observed_at n) [] (sort_by (less sample_order) history) in
  let? forecast_start := dt_add observed_at (forecast_horizon policy) in
  let? forecast_end := dt_add forecast_start (forecast_window policy) in
  mapR (forecast_of source_start observed_at forecast_start forecast_end) (sort_by (less bucket_order) buckets).
End Forecast.

(** ** Reading providers *)

(** [_string_field] of this module strips the text. *)
Definition stripped_field (p : ProviderLike) (key : string) : option string := non_empty_string (field p key).
(** [_provider_id], [_capability_id], [_provider_type] and [_name] *)
Definition prewarm_provider_id (p : ProviderLike) : py string :=
  match stripped_field p "id" with Some s => Ok s | None => Err (ValueError "provider must include a non-empty id") end.
Definition prewarm_capability_id (p : ProviderLike) : py string :=
  match stripped_field p "capability_id" with Some s => Ok s | None => Err (ValueError "provider must include a non-empty capability_id") end.
Definition prewarm_provider_type (p : ProviderLike) : option string := stripped_field p "provider_type".
Definition prewarm_name (p : ProviderLike) : string := default "" (stripped_field p "name").
(** [_prewarm_config] *)
Definition prewarm_config (p : ProviderLike) : dict := default [] (as_dict (config_value p "prewarm")).

(** [_positive_int], [_non_negative_int] and [_non_negative_float] *)
Definition positive_int (v : pyval) (name : string) : py Z :=
  match v with
  | VBool _ => Err (ValueError (name +:+ " must be a positive integer"))
  | _ => let? n := py_int v in if n <? 1 then Err (ValueError (name +:+ " must be >= 1")) else Ok n
  end.
Definition warm_count (v : pyval) (name : string) : py Z :=
  match v with
  | VNone => Ok 0
  | VBool _ => Err (ValueError (name +:+ " must be a non-negative integer"))
  | _ => let? n := py_int v in if n <? 0 then Err (ValueError (name +:+ " must be >= 0")) else Ok n
  end.
Definition non_negative_float (v : pyval) (name : string) : py float :=
  match v with
  | VBool _ => Err (ValueError (name +:+ " must be a non-negative number"))
  | _ => let? x := py_float v in
         if negb (fisfinite x) || fltb x fzero then Err (ValueError (name +:+ " must be a finite non-negative number")) else Ok x
  end.

(** [_is_prewarm_eligible] *)
Definition is_false (v : pyval) : bool := match v with VBool b => negb b | _ => false end.
Definition unhealthy (p : ProviderLike) : bool := String.eqb (lower (default "unknown" (stripped_field p "health_status"))) "unhealthy".
Definition supported_type (o : option string) : bool := match o with Some s => bool_decide (s ∈ SUPPORTED_PREWARM_TYPES) | None => false end.
Definition is_prewarm_eligible (now : datetime) (p : ProviderLike) : py bool :=
  if is_false (field p "enabled") || unhealthy p then Ok false
  else let? cooling := is_in_cooldown now (InProvider p) (Some now) in
       Ok (negb cooling && supported_type (prewarm_provider_type p)).

(** [_target_kind_for_provider_type] *)
Definition target_kind_for_provider_type (t : string) : option PrewarmTargetKind :=
  if bool_decide (t ∈ enum_value <$> [SERVERLESS_LB; SERVERLESS_QUEUE]) then Some ENDPOINT_WORKERS
  else if String.eqb t (enum_value POD_LEASE) then Some WARM_PODS else None.

(** [_requests_per_warm_unit] *)
Definition warm_unit_keys (k : PrewarmTargetKind) : list string :=
  match k with
  | WARM_PODS => ["requests_per_warm_pod"; "requests_per_warm_pod_per_window"]
  | ENDPOINT_WORKERS => ["requests_per_warm_worker"; "requests_per_warm_worker_per_window"]
  end ++ ["requests_per_warm_unit"; "requests_per_warm_unit_per_window"].
Fixpoint requests_from (p : ProviderLike) (keys : list string) (fallback : Z) : py Z :=
  match keys with
  | [] => Ok fallback
  | k :: ks => match first_present [dict_get_none k (prewarm_config p); config_value p k] with
               | VNone => requests_from p ks fallback
               | v => positive_int v k
               end
  end.
Definition requests_per_unit (policy : PrewarmPolicy) (p : ProviderLike) (k : PrewarmTargetKind) : py Z :=
  requests_from p (warm_unit_keys k) (default_requests_per_warm_unit policy).

(** [_current_warm_count] *)
Definition current_warm (p : ProviderLike) (k : PrewarmTargetKind) : py Z :=
  let pre key := dict_get_none key (prewarm_config p) in
  match k with
  | WARM_PODS => warm_count (first_present [pre "warm_pods"; config_value p "warm_pods"; field p "warm_pods"]) "warm_pods"
  | ENDPOINT_WORKERS =>
      let worker_min := match as_dict (config_value p "workers") with
                        | Some w => first_present [dict_get_none "workers_min" w; dict_get_none "workersMin" w]
                        | None => VNone
                        end in
      warm_count (first_present [pre "workers_min"; pre "workersMin"; worker_min; config_value p "workers_min";
                                 config_value p "workersMin"; config_value p "warm_workers"; field p "warm_workers"]) "workers_min"
  end.

(** [_provider_lead_time]: a lead time of zero counts as none. *)
Definition provider_lead_time (p : ProviderLike) : py timedelta :=
  let v := first_present [dict_get_none "lead_time_s" (prewarm_config p); config_value p "prewarm_lead_time_s"] in
  if truthy v then let? s := non_negative_float v "lead_time_s" in timedelta_of 1000000 s
  else match field p "cold_start_p95_ms" with
       | VNone => Ok 0
       | ms => let? x := non_negative_float ms "cold_start_p95_ms" in timedelta_of 1000 x
       end.
(** [_recommendation_start_at] *)
Definition recommendation_start_at (policy : PrewarmPolicy) (p : ProviderLike) (now ready : datetime) : py datetime :=
  let? lead := provider_lead_time p in
  let? t := dt_add ready (- Z.max (default_lead_time policy) lead) in
  Ok (if dt_ltb t now then now else t).

(** [_capacity_gpu_name]; the other readers of capacity are the planner's. *)
Fixpoint first_listed_gpu (p : ProviderLike) (keys : list string) : option string :=
  match keys with
  | [] => None
  | k :: ks =>
      match config_value p k with
      | (VStr s | VEnum s) as v => if String.eqb s "availability" then first_listed_gpu p ks else non_empty_string v
      | VList l | VTuple l => match first_non_empty l with Some s => Some s | None => first_listed_gpu p ks end
      | _ => first_listed_gpu p ks
      end
  end.
Definition capacity_gpu_name (p : ProviderLike) : option string :=
  match first_config_or_field_string p ["gpu_name"; "gpu_type"; "gpu_type_id"; "gpu_class"] with
  | Some s => Some s
  | None => first_listed_gpu p ["gpu_names"; "gpu_types"; "gpuTypeIds"; "gpu_classes"; "gpu_type_priority"]
  end.
Definition prewarm_datacenter (p : ProviderLike) : option string := capacity_datacenter p.
Definition prewarm_cloud_type (p : ProviderLike) : string := capacity_cloud_type p.
Definition prewarm_gpu_count (p : ProviderLike) : py (option Z) := capacity_gpu_count p.
(** [_target_payload] *)
Definition present (key : string) (o : option string) : dict := match o with Some s => [(key, VStr s)] | None => [] end.
Definition target_payload (p : ProviderLike) (k : PrewarmTargetKind) : py dict :=
  match k with
  | ENDPOINT_WORKERS => Ok (present "runpod_endpoint_id" (stripped_field p "runpod_endpoint_id"))
  | WARM_PODS =>
      let? n := prewarm_gpu_count p in
      Ok (present "runpod_template_id" (stripped_field p "runpod_template_id") ++ present "datacenter" (prewarm_datacenter p) ++
          present "gpu_name" (capacity_gpu_name p) ++ match n with Some n => [("gpu_count", VInt n)] | None => [] end ++
          [("cloud_type", VStr (prewarm_cloud_type p))])
  end.

(** ** The plan *)

(** [_eligible_providers_by_capability] and [_provider_sort_key] *)
Definition group_provider (now : datetime) (m : list (string * list ProviderLike)) (p : ProviderLike) : py (list (string * list ProviderLike)) :=
  let? ok := is_prewarm_eligible now p in
  if ok then let? c := prewarm_capability_id p in Ok (al_set c (default [] (al_get c m) ++ [p]) m) else Ok m.
Definition provider_key : Type := Z * string * string.
Definition provider_sort_key (p : ProviderLike) : py provider_key :=
  let? n := priority p in
  let? i := prewarm_provider_id p in
  Ok (n, prewarm_name p, i).
Definition provider_key_order : cmp provider_key :=
  tuple_key [by_ (fun k => k.1.1) Z.compare; by_ (fun k => k.1.2) String.compare; by_ snd String.compare].
Definition sort_group (kv : string * list ProviderLike) : py (string * list ProviderLike) :=
  let? ps := sort_on provider_sort_key (less provider_key_order) kv.2 in Ok (kv.1, ps).
Definition eligible_providers_by_capability (now : datetime) (ps : list ProviderLike) : py (list (string * list ProviderLike)) :=
  let? groups := foldR (group_provider now) [] ps in
  mapR sort_group (sort_by (less (by_ fst String.compare)) groups).

(** [_recommendation_for_provider] *)
Definition recommendation_for_provider (policy : PrewarmPolicy) (now : datetime) (f : DemandForecast) (rank : Z) (p : ProviderLike)
  : py (option PrewarmRecommendation) :=
  match prewarm_provider_type p with
  | None => Ok None
  | Some t =>
      match target_kind_for_provider_type t with
      | None => Ok None
      | Some k =>
          let? unit := requests_per_unit policy p k in
          let? q := int_truediv (projected_requests f) unit in
          let? target := fceil q in
          let? current := current_warm p k in
          if target <=? current then Ok None
          else
            let? i := prewarm_provider_id p in
            let? start := recommendation_start_at policy p now (window_start f) in
            let? expires := dt_add (window_end f) (recommendation_ttl policy) in
            let? payload := target_payload p k in
            rmap Some (prewarm_recommendation
              (MkPrewarm (fo_capability_id f) i t k target current unit (projected_requests f) start (window_start f) expires
                 "forecast_exceeds_warm_capacity" payload rank))
      end
  end.
(** [plan_prewarm] *)
Definition recommend_for (policy : PrewarmPolicy) (now : datetime) (groups : list (string * list ProviderLike)) (f : DemandForecast)
  : py (list PrewarmRecommendation) :=
  if projected_requests f <? min_forecast_requests policy then Ok []
  else
    let eligible := take (Z.to_nat (max_targets_per_capability policy)) (default [] (al_get (fo_capability_id f) groups)) in
    rmap (omap id) (mapR (fun ip => recommendation_for_provider policy now f ip.1 ip.2) (enumerate1 eligible)).
Definition plan_prewarm (policy : PrewarmPolicy) (history : list DemandSample) (ps : list ProviderLike) (now : datetime) : py PrewarmPlan :=
  let? observed_at := require_utc now "now" in
  let? fs := forecast_demand policy history observed_at in
  let? groups := eligible_providers_by_capability observed_at ps in
  let? rs := mapR (recommend_for policy observed_at groups) fs in
  Ok (MkPrewarmPlan observed_at fs (mjoin rs)).

(** ** Lemmas *)

Lemma check_Ok b m u : check b m = Ok u -> b = true.
Proof. by destruct b. Qed.

(** The reference: how many requests of a capability fall into a bucket. *)
Section Buckets.
Context (policy : PrewarmPolicy) (source_start observed_at : datetime) (n : Z).

Definition bucket (s : DemandSample) : option Z :=
  match bucket_index policy source_start observed_at n s with Ok o => o | Err _ => None end.
Definition falls_into (c : string) (i : Z) (s : DemandSample) : bool :=
  bool_decide (ds_capability_id s = c) && bool_decide (bucket s = Some i).
Definition requests_in (l : list DemandSample) (c : string) (i : Z) : Z :=
  zsum (request_count <$> filter (fun s => falls_into c i s = true) l).
Definition counts_of (l : list DemandSample) (c : string) : list Z :=
  (fun i => requests_in l c (Z.of_nat i)) <$> seq 0 (Z.to_nat n).
Definition counted (l : list DemandSample) (c : string) : Prop := Exists (fun s => ds_capability_id s = c /\ is_Some (bucket s)) l.
#[local] Instance counted_dec l c : Decision (counted l c).
Proof. unfold counted. apply _. Defined.

Record bucket_inv (l : list DemandSample) (m : list (string * list Z)) : Prop := MkBucketInv {
  bi_wf : al_wf m;
  bi_get : forall c, al_get c m = if bool_decide (counted l c) then Some (counts_of l c) else None;
}.

Lemma requests_snoc l s c i :
  requests_in (l ++ [s]) c i = requests_in l c i + (if falls_into c i s then request_count s else 0).
Proof.
  unfold requests_in. rewrite filter_app, fmap_app, zsum_app. f_equal. rewrite filter_cons.
  destruct (falls_into c i s); simpl; unfold zsum; simpl; lia.
Qed.
Lemma requests_perm l l' c i : l ≡ₚ l' -> requests_in l c i = requests_in l' c i.
Proof. intros H. unfold requests_in. apply zsum_perm. by rewrite H. Qed.
Lemma bucket_inv_perm l l' m : l ≡ₚ l' -> bucket_inv l m -> bucket_inv l' m.
Proof.
  intros H [Hwf Hget]. split; [done|]. intros c. rewrite Hget. unfold counted, counts_of.
  rewrite (bool_decide_ext _ (Exists (fun s => ds_capability_id s = c /\ is_Some (bucket s)) l')) by (by rewrite H).
  destruct (bool_decide _); [|done]. f_equal. apply list_fmap_ext. intros i x _. by apply requests_perm.
Qed.

Lemma counts_none l c : ~ counted l c -> counts_of l c = replicate (Z.to_nat n) 0.
Proof.
  intros Hc. apply list_eq. intros i. unfold counts_of. rewrite list_lookup_fmap.
  destruct (decide (i < Z.to_nat n)%nat) as [Hi|Hi].
  - rewrite lookup_seq_lt by done. rewrite (proj2 (lookup_replicate _ _ _ _)) by done. simpl. f_equal. unfold requests_in.
    destruct (filter _ l) as [|s l'] eqn:E; [done|]. exfalso. apply Hc, Exists_exists.
    assert (s ∈ filter (fun s => falls_into c (Z.of_nat i) s = true) l) as [Hf Hs]%list_elem_of_filter by (rewrite E; left).
    apply andb_prop in Hf as [Hf1%bool_decide_eq_true Hf2%bool_decide_eq_true]. exists s. by rewrite Hf2.
  - rewrite lookup_seq_ge by lia. symmetry. apply lookup_replicate_None. lia.
Qed.
Lemma counts_add l s i : bucket s = Some i -> 0 <= i < n ->
  alter (Z.add (request_count s)) (Z.to_nat i) (counts_of l (ds_capability_id s)) = counts_of (l ++ [s]) (ds_capability_id s).
Proof.
  intros Hb Hi. apply list_eq. intros j. unfold counts_of. rewrite list_lookup_fmap.
  destruct (decide (Z.to_nat i = j)) as [<-|Hne].
  - rewrite list_lookup_alter, list_lookup_fmap, lookup_seq_lt by lia. simpl. rewrite requests_snoc. unfold falls_into.
    rewrite Hb, !bool_decide_eq_true_2 by (done || (f_equal; lia)). simpl.
    rewrite decide_True by done. f_equal. lia.
  - rewrite list_lookup_alter_ne, list_lookup_fmap by done. destruct (seq 0 (Z.to_nat n) !! j) as [x|] eqn:Ex; [|done].
    apply lookup_seq in Ex as [-> Hj]. simpl. f_equal. rewrite requests_snoc. unfold falls_into. rewrite Hb.
    rewrite (bool_decide_eq_false_2 (Some i = _)) by (intros [= ->]; lia). rewrite andb_false_r. lia.
Qed.

Lemma bucket_index_bound s i : bucket s = Some i -> 0 <= i < n.
Proof.
  unfold bucket, bucket_index. destruct (_ || _); [done|]. destruct (int_truediv _ _) as [q|]; [|done]. cbn [rbind].
  destruct (py_int (VFloat q)) as [z|]; [|done]. cbn [rbind]. destruct (_ || _) eqn:E; [done|]. intros [= <-].
  apply orb_false_iff in E as [E1%Z.ltb_ge E2%Z.leb_gt]. done.
Qed.

Lemma bucket_sample_inv l m s m' :
  bucket_inv l m -> bucket_sample policy source_start observed_at n m s = Ok m' -> bucket_inv (l ++ [s]) m'.
Proof.
  intros [Hwf Hget]. unfold bucket_sample. intros (u & _ & H)%rbind_Ok. apply rbind_Ok in H as (o & Ho & [= <-]).
  assert (bucket s = o) as Hb by (unfold bucket; by rewrite Ho).
  assert (forall c, counted (l ++ [s]) c <-> counted l c \/ (ds_capability_id s = c /\ is_Some o)) as Hc.
  { intros c. unfold counted. rewrite Exists_app, Exists_cons, Exists_nil, Hb. tauto. }
  assert (forall c, ~ (ds_capability_id s = c /\ is_Some o) -> counts_of (l ++ [s]) c = counts_of l c) as Hsame.
  { intros c Hn. unfold counts_of. apply list_fmap_ext. intros j x _. rewrite requests_snoc. unfold falls_into. rewrite Hb.
    destruct (bool_decide_reflect (ds_capability_id s = c)), (bool_decide_reflect (o = Some (Z.of_nat x))); simpl; try lia.
    exfalso. apply Hn. by subst o. }
  destruct o as [i|]; [|split; [done|]].
  - split; [by apply al_set_wf|]. intros c. destruct (decide (ds_capability_id s = c)) as [<-|Hne].
    + unfold add_requests. rewrite al_get_set, bool_decide_eq_true_2 by (apply Hc; right; by split). f_equal.
      rewrite <- (counts_add l s i) by (done || by apply (bucket_index_bound s)). f_equal. rewrite Hget.
      destruct (bool_decide_reflect (counted l (ds_capability_id s))); [done|]. by rewrite counts_none.
    + unfold add_requests. rewrite al_get_set_ne by done. rewrite Hget, Hsame by (by intros [? _]).
      rewrite (bool_decide_ext _ (counted (l ++ [s]) c)); [done|]. rewrite Hc. naive_solver.
  - intros c. rewrite Hget, Hsame by (intros [_ [? ?]]; done).
    rewrite (bool_decide_ext _ (counted (l ++ [s]) c)); [done|]. rewrite Hc. split; [by left|]. by intros [?|[_ [? ?]]].
Qed.
Lemma bucket_all_inv l : forall l0 m m', bucket_inv l0 m ->
  foldR (bucket_sample policy source_start observed_at n) m l = Ok m' -> bucket_inv (l0 ++ l) m'.
Proof.
  induction l as [|s l IH]; intros l0 m m' Hm; simpl; [intros [= <-]; by rewrite app_nil_r|].
  intros (m1 & H1 & H)%rbind_Ok. change (s :: l) with ([s] ++ l). rewrite app_assoc. eapply IH; [|exact H]. by eapply bucket_sample_inv.
Qed.
Lemma buckets_inv history m :
  foldR (bucket_sample policy source_start observed_at n) [] (sort_by (less sample_order) history) = Ok m -> bucket_inv history m.
Proof.
  intros H. apply (bucket_inv_perm (sort_by (less sample_order) history)); [apply sort_by_perm|].
  apply (bucket_all_inv _ [] [] m); [|done]. split; [apply NoDup_nil_2|]. intros c. by rewrite bool_decide_eq_false_2 by (by intros ?%Exists_nil).
Qed.
End Buckets.

Lemma string_by_ordering {A} (f : A -> string) : Ordering (by_ f String.compare).
Proof. apply by_ordering, string_ordering. Qed.

(** A forecast, by its reference definition. *)
Definition forecasts_spec (policy : PrewarmPolicy) (history : list DemandSample) (now : datetime) (fs : list DemandForecast) : Prop :=
  exists n start, sample_window_count policy = Ok n /\ source_start_of policy now n = Ok start /\
    NoDup (fo_capability_id <$> fs) /\
    StronglySorted (no_greater (by_ fo_capability_id String.compare)) fs /\
    (forall c, c ∈ fo_capability_id <$> fs <-> counted policy start now n history c) /\
    Forall (fun f => observed_counts f = counts_of policy start now n history (fo_capability_id f) /\
                     project_requests policy (observed_counts f) = Ok (projected_requests f) /\
                     dt_add now (forecast_horizon policy) = Ok (window_start f) /\
                     dt_add (window_start f) (forecast_window policy) = Ok (window_end f)) fs.

Lemma forecasts_of start now fstart fend policy l fs :
  mapR (forecast_of policy start now fstart fend) l = Ok fs ->
  (fo_capability_id <$> fs = l.*1) /\ (observed_counts <$> fs = l.*2) /\
  Forall (fun f => project_requests policy (observed_counts f) = Ok (projected_requests f) /\ window_start f = fstart /\ window_end f = fend) fs.
Proof.
  intros H%mapR_Ok. induction H as [|kv f l fs Hf _ (IH1 & IH2 & IH3)]; [done|].
  apply rbind_Ok in Hf as (p & Hp & [= <-]). csimpl. rewrite IH1, IH2. split; [done|]. split; [done|]. by constructor.
Qed.

Lemma forecast_demand_spec policy history now fs : forecast_demand policy history now = Ok fs -> forecasts_spec policy history now fs.
Proof.
  unfold forecast_demand. intros (t & Ht & H)%rbind_Ok. apply rbind_Ok in H as (n & Hn & H).
  assert (t = now) as -> by (unfold require_utc in Ht; destruct (dt_aware now); congruence).
  apply rbind_Ok in H as (start & Hstart & H). apply rbind_Ok in H as (m & Hm & H). apply rbind_Ok in H as (fstart & Hfs & H).
  apply rbind_Ok in H as (fend & Hfe & H). apply buckets_inv in Hm as [Hwf Hget].
  pose proof (forecasts_of _ _ _ _ _ _ _ H) as (Hids & Hcounts & Hall). set (l := sort_by (less bucket_order) m) in *.
  assert (l ≡ₚ m) as Hp by apply sort_by_perm. exists n, start. split; [done|]. split; [done|].
  split; [rewrite Hids, Hp; exact Hwf|]. split; [|split].
  - pose proof (sorted_no_greater bucket_order (string_by_ordering fst) m) as Hs. fold l in Hs.
    clear -Hs Hids. revert fs Hids. induction Hs as [|kv l _ IH Hkv]; intros [|f fs] Hids; try done; [constructor|].
    csimpl in *. injection Hids as Hf Hfs. constructor; [by apply IH|].
    apply Forall_forall. intros g Hg. apply (list_elem_of_fmap_2 fo_capability_id) in Hg. rewrite Hfs in Hg.
    apply list_elem_of_fmap in Hg as (kv' & Hkv' & Hin). rewrite Forall_forall in Hkv. specialize (Hkv _ Hin).
    unfold no_greater, by_, bucket_order in *. by rewrite Hf, Hkv'.
  - intros c. rewrite Hids, Hp. destruct (bool_decide_reflect (counted policy start now n history c)) as [Hc|Hc].
    + split; [done|]. intros _. specialize (Hget c). rewrite bool_decide_eq_true_2 in Hget by done.
      apply al_get_Some_elem, (list_elem_of_fmap_2 fst) in Hget. exact Hget.
    + split; [|done]. specialize (Hget c). rewrite bool_decide_eq_false_2 in Hget by done. apply al_get_None in Hget. done.
  - apply Forall_forall. intros f Hf. rewrite Forall_forall in Hall. destruct (Hall f Hf) as (Hpr & -> & ->).
    split; [|done]. apply list_elem_of_lookup in Hf as [i Hi].
    assert (l !! i = Some (fo_capability_id f, observed_counts f)) as Hl.
    { assert ((fo_capability_id <$> fs) !! i = Some (fo_capability_id f)) as H1 by (by rewrite list_lookup_fmap, Hi).
      assert ((observed_counts <$> fs) !! i = Some (observed_counts f)) as H2 by (by rewrite list_lookup_fmap, Hi).
      rewrite Hids in H1. rewrite Hcounts in H2. rewrite list_lookup_fmap in H1. rewrite list_lookup_fmap in H2. destruct (l !! i) as [[k v]|]; [|done].
      simpl in *. congruence. }
    apply list_elem_of_lookup_2 in Hl. rewrite Hp in Hl. apply al_get_elem in Hl; [|done]. rewrite Hget in Hl.
    destruct (bool_decide _); [by injection Hl|done].
Qed.

(** ** Providers *)

Lemma groups_sound now (ps : list ProviderLike) : forall m m', (forall c l p, al_get c m = Some l -> p ∈ l -> p ∈ ps /\ is_prewarm_eligible now p = Ok true /\ prewarm_capability_id p = Ok c) ->
  forall ps' : list ProviderLike, (forall p, p ∈ ps' -> p ∈ ps) -> foldR (group_provider now) m ps' = Ok m' ->
  (forall c l p, al_get c m' = Some l -> p ∈ l -> p ∈ ps /\ is_prewarm_eligible now p = Ok true /\ prewarm_capability_id p = Ok c).
Proof.
  intros m m' Hm ps'. revert m Hm. induction ps' as [|p ps' IH]; intros m Hm Hin; simpl; [by intros [= <-]|].
  intros (m1 & H1 & H)%rbind_Ok. apply (IH m1); [|intros q Hq; apply Hin; by right|done]. clear IH H.
  unfold group_provider in H1. apply rbind_Ok in H1 as (ok & Hok & H1). destruct ok; [|by injection H1 as <-].
  apply rbind_Ok in H1 as (c & Hc & [= <-]). intros c' l q Hget Hq. destruct (decide (c = c')) as [<-|Hne].
  - rewrite al_get_set in Hget. injection Hget as <-. apply elem_of_app in Hq as [Hq|Hq].
    + destruct (al_get c m) as [l|] eqn:El; [by eapply Hm|]. by apply elem_of_nil in Hq.
    + apply list_elem_of_singleton in Hq as ->. split; [apply Hin; left|]. by split.
  - rewrite al_get_set_ne in Hget by done. by eapply Hm.
Qed.

Lemma sort_groups_get groups groups' c :
  mapR sort_group groups = Ok groups' -> al_get c groups' = None \/
  exists l l', al_get c groups = Some l /\ al_get c groups' = Some l' /\ l' ≡ₚ l.
Proof.
  intros H%mapR_Ok. induction H as [|[k l] [k' l'] gs gs' Hkv _ IH]; [by left|].
  apply rbind_Ok in Hkv as (ps & Hs & [= <- <-]). simpl in *. case_decide; [|done].
  right. exists l, ps. split; [done|]. split; [done|]. by eapply sort_on_perm.
Qed.
Lemma al_get_perm {K V} `{EqDecision K} (m m' : list (K * V)) k : al_wf m -> m ≡ₚ m' -> al_get k m = al_get k m'.
Proof.
  intros Hwf Hp. assert (al_wf m') as Hwf' by (unfold al_wf in *; by rewrite <- Hp).
  destruct (al_get k m) as [v|] eqn:E.
  - apply al_get_Some_elem in E. rewrite Hp in E. symmetry. by apply al_get_elem.
  - destruct (al_get k m') as [v|] eqn:E'; [|done]. apply al_get_Some_elem in E'. rewrite <- Hp in E'. apply al_get_elem in E'; [congruence|done].
Qed.
Lemma group_wf now m p m' : al_wf m -> group_provider now m p = Ok m' -> al_wf m'.
Proof.
  intros Hm. unfold group_provider. intros (ok & _ & H)%rbind_Ok. destruct ok; [|by injection H as <-].
  apply rbind_Ok in H as (c & _ & [= <-]). by apply al_set_wf.
Qed.
Lemma groups_wf now ps : forall m m', al_wf m -> foldR (group_provider now) m ps = Ok m' -> al_wf m'.
Proof.
  induction ps as [|p ps IH]; intros m m' Hm; simpl; [by intros [= <-]|].
  intros (m1 & H1 & H)%rbind_Ok. eapply IH; [|exact H]. by eapply group_wf.
Qed.

(** The providers of a capability are eligible ones of that capability. *)
Lemma eligible_sound now ps groups c l p :
  eligible_providers_by_capability now ps = Ok groups -> al_get c groups = Some l -> p ∈ l ->
  p ∈ ps /\ is_prewarm_eligible now p = Ok true /\ prewarm_capability_id p = Ok c.
Proof.
  unfold eligible_providers_by_capability. intros (m & Hm & H)%rbind_Ok Hl Hp.
  assert (al_wf m) as Hwf by (apply (groups_wf now ps [] m); [apply NoDup_nil_2|exact Hm]).
  destruct (sort_groups_get _ _ c H) as [E|(l0 & l1 & H0 & H1 & Hperm)]; [congruence|].
  rewrite <- (al_get_perm m) in H0 by (done || (symmetry; apply sort_by_perm)).
  eapply (groups_sound now ps [] m); [by intros ? ? ? H2|by intros|exact Hm|exact H0|]. rewrite <- Hperm. congruence.
Qed.

(** ** Recommendations *)

(** What a recommendation says of its forecast and its provider. *)
Record warranted (policy : PrewarmPolicy) (now : datetime) (f : DemandForecast) (p : ProviderLike) (r : PrewarmRecommendation) : Prop :=
  MkWarranted {
  wa_forecast : pw_capability_id r = fo_capability_id f /\ forecast_requests r = projected_requests f /\ ready_by r = window_start f;
  wa_provider : prewarm_provider_id p = Ok (pw_provider_id r) /\ prewarm_provider_type p = Some (pw_provider_type r) /\
    target_kind_for_provider_type (pw_provider_type r) = Some (target_kind r);
  wa_unit : requests_per_unit policy p (target_kind r) = Ok (requests_per_warm_unit r) /\ 1 <= requests_per_warm_unit r;
  wa_target : exists q, int_truediv (projected_requests f) (requests_per_warm_unit r) = Ok q /\ fceil q = Ok (target_count r);
  wa_current : current_warm p (target_kind r) = Ok (current_warm_count r) /\ 0 <= current_warm_count r < target_count r;
  wa_start : dt_us now <= dt_us (start_at r) <= Z.max (dt_us now) (dt_us (ready_by r) - default_lead_time policy);
  wa_expires : dt_add (window_end f) (recommendation_ttl policy) = Ok (expires_at r);
}.

Lemma start_at_bounds policy p now ready t :
  0 <= default_lead_time policy -> recommendation_start_at policy p now ready = Ok t ->
  dt_us now <= dt_us t <= Z.max (dt_us now) (dt_us ready - default_lead_time policy).
Proof.
  intros Hl. unfold recommendation_start_at. intros (lead & _ & H)%rbind_Ok. apply rbind_Ok in H as (t' & Ht' & [= <-]).
  unfold dt_add in Ht'. destruct (_ || _); [done|]. injection Ht' as <-. unfold dt_ltb. cbn [dt_us].
  destruct (_ <? _) eqn:E; boolify; cbn [dt_us]; lia.
Qed.

Lemma recommendation_warranted policy now f rank p r :
  0 <= default_lead_time policy -> recommendation_for_provider policy now f rank p = Ok (Some r) ->
  warranted policy now f p r /\ pw_rank r = rank /\ nonempty (pw_provider_id r) = true.
Proof.
  intros Hl. unfold recommendation_for_provider. destruct (prewarm_provider_type p) as [t|] eqn:Et; [|done].
  destruct (target_kind_for_provider_type t) as [k|] eqn:Ek; [|done].
  intros (unit & Hu & H)%rbind_Ok. apply rbind_Ok in H as (q & Hq & H). apply rbind_Ok in H as (target & Ht & H).
  apply rbind_Ok in H as (current & Hc & H). destruct (target <=? current) eqn:Elt; [done|]. boolify.
  apply rbind_Ok in H as (i & Hi & H). apply rbind_Ok in H as (start & Hs & H). apply rbind_Ok in H as (expires & He & H).
  apply rbind_Ok in H as (payload & _ & H). apply rmap_Ok in H as (r' & Hr & [= <-]).
  unfold prewarm_recommendation in Hr. cbn [pw_capability_id pw_provider_id target_count current_warm_count requests_per_warm_unit forecast_requests pw_rank start_at ready_by expires_at] in Hr.
  apply rbind_Ok in Hr as (? & _ & Hr). apply rbind_Ok in Hr as (? & Hne%check_Ok & Hr). apply rbind_Ok in Hr as (? & _ & Hr).
  apply rbind_Ok in Hr as (? & Hcur%check_Ok & Hr). apply rbind_Ok in Hr as (? & Hun%check_Ok & Hr).
  apply rbind_Ok in Hr as (? & _ & Hr). apply rbind_Ok in Hr as (? & _ & Hr). apply rbind_Ok in Hr as (? & _ & Hr).
  apply rbind_Ok in Hr as (? & _ & Hr). apply rbind_Ok in Hr as (? & _ & [= <-]). boolify.
  split; [|done]. split; simpl; try done; [by exists q|by eapply start_at_bounds].
Qed.

Lemma recommended_for policy now groups f rs :
  0 <= default_lead_time policy -> recommend_for policy now groups f = Ok rs ->
  (rs <> [] -> min_forecast_requests policy <= projected_requests f) /\
  (length rs <= Z.to_nat (max_targets_per_capability policy))%nat /\
  Forall (fun r => exists l p, al_get (fo_capability_id f) groups = Some l /\ p ∈ l /\ warranted policy now f p r /\
                     1 <= pw_rank r <= max_targets_per_capability policy) rs.
Proof.
  intros Hl. unfold recommend_for. destruct (_ <? _) eqn:E; [intros [= <-]; split; [done|split; [simpl; lia|done]]|]. boolify.
  intros (os & Hos & ->)%rmap_Ok. apply mapR_Ok in Hos. split; [done|]. split.
  - assert (length os = length (enumerate1 (take (Z.to_nat (max_targets_per_capability policy)) (default [] (al_get (fo_capability_id f) groups))))) as Hlen
      by (symmetry; by eapply Forall2_length).
    unfold enumerate1 in Hlen. rewrite length_imap, length_take in Hlen.
    assert (length (omap id os) <= length os)%nat; [|lia]. clear. induction os as [|[r|] os IH]; csimpl; lia.
  - apply Forall_forall. intros r (o & Ho & Hr)%list_elem_of_omap. simpl in Hr. subst o.
    apply list_elem_of_lookup in Ho as [j Hj]. destruct (Forall2_lookup_r _ _ _ _ _ Hos Hj) as ([rank p] & Hip & Hrec).
    unfold enumerate1 in Hip. rewrite list_lookup_imap in Hip. destruct (take _ _ !! j) as [p'|] eqn:Ep; [|done]. simpl in Hip. injection Hip as <- <-.
    apply lookup_take_Some in Ep as [Ep Hj'].
    destruct (al_get (fo_capability_id f) groups) as [l|] eqn:El; [|done]. simpl in Ep.
    destruct (recommendation_warranted policy now f _ _ r Hl Hrec) as (Hw & Hrank & _).
    exists l, p'. split; [done|]. split; [by eapply list_elem_of_lookup_2|]. split; [done|]. rewrite Hrank. cbn [fst]. lia.
Qed.

Lemma policy_bounds p q : prewarm_policy p = Ok q -> 0 <= default_lead_time p /\ 1 <= max_targets_per_capability p.
Proof.
  unfold prewarm_policy. intros H. repeat (apply rbind_Ok in H as (? & ?%check_Ok & H)). boolify. lia.
Qed.

(** Advice on one capability comes from one forecast. *)
Lemma recommendations_bounded policy now groups fs rss c :
  0 <= default_lead_time policy -> 1 <= max_targets_per_capability policy -> NoDup (fo_capability_id <$> fs) ->
  Forall2 (fun f rs => recommend_for policy now groups f = Ok rs) fs rss ->
  Z.of_nat (length (filter (fun r => pw_capability_id r = c) (mjoin rss))) <= max_targets_per_capability policy.
Proof.
  intros Hlead Hmax. assert (forall f rs, recommend_for policy now groups f = Ok rs -> fo_capability_id f <> c ->
    length (filter (fun r => pw_capability_id r = c) rs) = 0%nat) as Hother.
  { intros f rs Hrec Hne. destruct (recommended_for _ _ _ _ _ Hlead Hrec) as (_ & _ & Hall).
    destruct (filter _ rs) as [|r l] eqn:E; [done|]. exfalso.
    assert (r ∈ filter (fun r => pw_capability_id r = c) rs) as [Hc Hr]%list_elem_of_filter by (rewrite E; left).
    rewrite Forall_forall in Hall. destruct (Hall r Hr) as (? & ? & _ & _ & Hw & _). destruct (wa_forecast _ _ _ _ _ Hw) as [Hf _]. congruence. }
  intros Hnd Hrs. revert Hnd. induction Hrs as [|f rs fs rss Hrec Hrs IH]; [simpl; lia|].
  csimpl. rewrite NoDup_cons. intros [Hn Hnd]. rewrite filter_app, length_app. specialize (IH Hnd).
  destruct (decide (fo_capability_id f = c)) as [Hc|Hne]; [|rewrite (Hother f rs) by done; lia].
  assert (length (filter (fun r => pw_capability_id r = c) (mjoin rss)) = 0%nat) as ->.
  { clear IH Hnd Hrec. induction Hrs as [|g rs' fs rss Hrec _ IH]; [done|]. csimpl in *. rewrite not_elem_of_cons in Hn.
    rewrite filter_app, length_app, IH by tauto. rewrite (Hother g rs') by (done || (intros E; destruct Hn as [Hn _]; congruence)). done. }
  destruct (recommended_for _ _ _ _ _ Hlead Hrec) as (_ & Hlen & _).
  pose proof (length_filter (fun r => pw_capability_id r = c) rs). lia.
Qed.

(** ** Properties *)


(** Every recommendation of a plan is warranted by one of its forecasts, at
    least as large as the policy asks, and by an eligible provider of the
    capability whose warm capacity is below the target; it starts no earlier
    than now and, unless that is too late already, the lead time before the
    window; and a capability gets no more recommendations than the policy
    allows. *)
Theorem prewarm_is_warranted policy history ps now plan :
  prewarm_policy policy = Ok policy -> plan_prewarm policy history ps now = Ok plan ->
  Forall (fun r => exists f p, f ∈ forecasts plan /\ p ∈ ps /\ min_forecast_requests policy <= projected_requests f /\
            is_prewarm_eligible now p = Ok true /\ prewarm_capability_id p = Ok (pw_capability_id r) /\
            warranted policy now f p r /\ 1 <= pw_rank r <= max_targets_per_capability policy) (recommendations plan) /\
  forall c, Z.of_nat (length (filter (fun r => pw_capability_id r = c) (recommendations plan))) <= max_targets_per_capability policy.
Proof.
  intros Hpol H. assert (0 <= default_lead_time policy /\ 1 <= max_targets_per_capability policy) as [Hlead Hmax] by (by apply (policy_bounds policy policy)).
  unfold plan_prewarm in H. apply rbind_Ok in H as (t & Ht & H).
  assert (t = now) as -> by (unfold require_utc in Ht; destruct (dt_aware now); [congruence|done]).
  apply rbind_Ok in H as (fs & Hfs & H). apply rbind_Ok in H as (groups & Hg & H). apply rbind_Ok in H as (rss & Hrs & [= <-]).
  cbn [recommendations forecasts]. apply forecast_demand_spec in Hfs as (n & start & _ & _ & Hnd & _). apply mapR_Ok in Hrs. split.
  - apply Forall_forall. intros r (rs & Hr & Hin)%list_elem_of_join. apply list_elem_of_lookup in Hin as [i Hi].
    destruct (Forall2_lookup_r _ _ _ _ _ Hrs Hi) as (f & Hf & Hrec). apply list_elem_of_lookup_2 in Hf.
    destruct (recommended_for _ _ _ _ _ Hlead Hrec) as (Hmin & _ & Hall). rewrite Forall_forall in Hall.
    destruct (Hall r Hr) as (l & p & Hl & Hp & Hw & Hrank). destruct (eligible_sound _ _ _ _ _ _ Hg Hl Hp) as (H1 & H2 & H3).
    destruct (wa_forecast _ _ _ _ _ Hw) as (Hc & _). exists f, p. rewrite Hc. split; [done|]. split; [done|].
    split; [apply Hmin; by intros ->; apply elem_of_nil in Hr|]. done.
  - intros c. by apply (recommendations_bounded policy now groups fs rss c Hlead Hmax).
Qed.

Module PrewarmSim.
Definition clock (m : Z) : datetime := utc (1767225600000000 + minutes m).
Definition sample (c : string) (m count : Z) : DemandSample := MkSample c (clock m) count.
(** Half an hour of calls, in buckets of five minutes. *)
Definition calls : list DemandSample :=
  [sample "chat" (-1) 60; sample "chat" (-4) 40; sample "chat" (-29) 10; sample "chat" (-30) 15; sample "chat" (-31) 1000;
   sample "chat" 0 1000; sample "idle" (-20) 5].
Definition pod (i : string) (prio : Z) (extra config : dict) : ProviderLike :=
  PMap ([("id", VStr i); ("capability_id", VStr " chat "); ("provider_type", VEnum "pod_lease"); ("name", VStr i); ("priority", VInt prio);
         ("config", VDict config)] ++ extra).
Definition plan_of (policy : PrewarmPolicy) (ps : list ProviderLike) : py PrewarmPlan := plan_prewarm policy calls ps (clock 0).
Definition shown (p : PrewarmPlan) :=
  ((fun r => (pw_provider_id r, target_count r, current_warm_count r, dt_us (start_at r) - dt_us (clock 0), pw_rank r)) <$> recommendations p).
Example forecast_ex :
  rmap (fmap (fun f => (fo_capability_id f, observed_counts f, projected_requests f))) (forecast_demand DEFAULT_PREWARM_POLICY calls (clock 0))
  = Ok [("chat", [25; 0; 0; 0; 0; 100], 144); ("idle", [0; 0; 5; 0; 0; 0], 0)].
Proof. vm_compute. reflexivity. Qed.
Example prewarm_plan_ex :
  rmap shown (plan_of DEFAULT_PREWARM_POLICY
    [pod "b" 2 [] []; pod "a" 1 [] [("prewarm", VDict [("warm_pods", VInt 2); ("lead_time_s", VInt 60)])]; pod "off" 0 [("enabled", VBool false)] []])
  = Ok [("a", 8, 2, 0, 1)].
Proof. vm_compute. reflexivity. Qed.
(** Each target is sized for the whole forecast. *)
Definition two_targets : PrewarmPolicy :=
  MkPrewarmPolicy (minutes 30) (minutes 5) (minutes 5) (minutes 5) (of_Z 1) 20 1 2 (minutes 5) (minutes 15).
Example two_targets_ex : rmap shown (plan_of two_targets [pod "b" 2 [] []; pod "a" 1 [] []]) = Ok [("a", 6, 0, 0, 1); ("b", 6, 0, 0, 2)].
Proof. vm_compute. reflexivity. Qed.
(** A configured lead time of zero is read as none: the cold start counts. *)
Example zero_lead_time_ex :
  provider_lead_time (pod "a" 1 [("cold_start_p95_ms", VInt 900000)] [("prewarm", VDict [("lead_time_s", VInt 0)])]) = Ok (minutes 15) /\
  provider_lead_time (pod "a" 1 [("cold_start_p95_ms", VInt 900000)] [("prewarm", VDict [("lead_time_s", VInt 1)])]) = Ok 1000000.
Proof. vm_compute. done. Qed.
(** One provider with an unreadable size stops the plan of every capability. *)
Example one_bad_provider_ex :
  exists m, plan_of DEFAULT_PREWARM_POLICY [pod "a" 1 [] []; pod "z" 0 [] [("requests_per_warm_unit", VStr "2.5")]] = Err (ValueError m).
Proof. eexists. vm_compute. reflexivity. Qed.
End PrewarmSim.
Import PrewarmSim.


Lemma prewarm_is_warranted_witness :
  exists plan, plan_of two_targets [pod "b" 2 [] []; pod "a" 1 [] []] = Ok plan /\ length (recommendations plan) = 2%nat /\
  forall c, Z.of_nat (length (filter (fun r => pw_capability_id r = c) (recommendations plan))) <= 2.
Proof.
  destruct (plan_of two_targets [pod "b" 2 [] []; pod "a" 1 [] []]) as [plan|e] eqn:E; [|exfalso; by vm_compute in E].
  exists plan. split; [done|]. split; [vm_compute in E; by injection E as <-|].
  refine (proj2 (prewarm_is_warranted two_targets calls [pod "b" 2 [] []; pod "a" 1 [] []] (clock 0) plan _ E)). by vm_compute.
Defined.

(** * Signals for the autopilot *)

From Stdlib Require Import Ascii.
From S2P Require Import Policy.
From S2P Require Import Prelude PyDecimal PyFloat PyValue PyTime PyFormat PyJson PyJsonRead Enums Provider Simulator Autopilot Discovery Failover Drift.

(** Definitions *)

(** [from_prewarm_recommendation] *)
Definition prewarm_params (r : PrewarmRecommendation) : dict :=
  [("capability_id", VStr (pw_capability_id r)); ("provider_type", VStr (pw_provider_type r));
   ("target_kind", VStr (enum_value (target_kind r))); ("target_count", VInt (target_count r));
   ("current_warm_count", VInt (current_warm_count r)); ("delta", VInt (delta r));
   ("ready_by", VTime (ready_by r)); ("expires_at", VTime (expires_at r)); ("target", VDict (pw_target r))].
Definition prewarm_signal_id (r : PrewarmRecommendation) : string := "prewarm-" +:+ pw_provider_id r +:+ "-" +:+ str_int (pw_rank r).
Definition from_prewarm_recommendation (r : PrewarmRecommendation) (ws : list WhatIfWorkload) (policy_provider : option dict)
  : py AutopilotSignal :=
  new_signal (MkSignal (prewarm_signal_id r) "prewarm" SET_WARM_CAPACITY "provider" (pw_provider_id r) (pw_reason r) (pw_rank r)
    dzero (prewarm_params r) policy_provider [] None ws) (VDec (DFin (Dec 90 (-2)))).

(** [_priority_for_drift], [_confidence_for_drift] and
    [_action_kind_for_drift] *)
Definition priority_for_drift (s : DriftSeverity) : Z := match s with CRITICAL => 0 | HIGH => 10 | MEDIUM => 50 | LOW => 80 | INFO => 100 end.
Definition confidence_for_drift (s : DriftSeverity) : dec :=
  match s with CRITICAL | HIGH => Dec 95 (-2) | MEDIUM => Dec 85 (-2) | _ => Dec 75 (-2) end.
Definition action_kind_for_drift (f : DriftFinding) : AutopilotActionKind :=
  if bool_decide (dr_field f ∈ ["availability"; "health_status"; "provider_id"; "enabled"]) then MARK_PROVIDER_UNHEALTHY else ADJUST_PROVIDER_PRIORITY.
(** [from_drift_finding] *)
Definition drift_params (f : DriftFinding) : dict :=
  [("field", VStr (dr_field f)); ("expected", dr_expected f); ("observed", dr_observed f);
   ("severity", VStr (enum_value (dr_severity f))); ("message", VStr (dr_message f))].
Definition drift_signal_id (f : DriftFinding) : string := "drift-" +:+ dr_provider_id f +:+ "-" +:+ dr_field f.
Definition drift_reason (f : DriftFinding) : string :=
  if nonempty (dr_message f) then dr_message f else dr_field f +:+ " drift detected".
Definition from_drift_finding (f : DriftFinding) (ws : list WhatIfWorkload) (policy_provider : option dict) : py AutopilotSignal :=
  new_signal (MkSignal (drift_signal_id f) "drift" (action_kind_for_drift f) "provider" (dr_provider_id f) (drift_reason f)
    (priority_for_drift (dr_severity f)) dzero (drift_params f) policy_provider [] None ws)
    (VDec (DFin (confidence_for_drift (dr_severity f)))).

(** ** Lemmas *)

Definition no_dash (s : string) : bool := all_chars (fun c => negb (Ascii.eqb c "-"%char)) s.

Lemma no_dash_app p s : no_dash (p +:+ String "-" s) = false.
Proof. unfold no_dash. induction p as [|c p IH]; [done|]. simpl. by rewrite IH, andb_false_r. Qed.
(** What follows the last dash is what was put there. *)
Lemma dashed_inj p p' f f' :
  no_dash f = true -> no_dash f' = true -> p +:+ String "-" f = p' +:+ String "-" f' -> p = p' /\ f = f'.
Proof.
  intros Hf Hf'. revert p'. induction p as [|c p IH]; intros [|c' p']; simpl.
  - by intros [= ->].
  - intros [= _ ->]. by rewrite no_dash_app in Hf.
  - intros [= _ <-]. by rewrite no_dash_app in Hf'.
  - intros [= -> E]. by destruct (IH _ E) as [-> ->].
Qed.
Lemma str_int_no_dash z : 0 <= z -> no_dash (str_int z) = true.
Proof.
  intros Hz. apply (all_chars_impl is_digit); [|by apply str_int_digits]. intros c. unfold is_digit, digit_val.
  destruct (Ascii.eqb_spec c "-"%char) as [->|]; [by vm_compute|done].
Qed.
Lemma str_int_inj a b : 0 <= a -> 0 <= b -> str_int a = str_int b -> a = b.
Proof. intros Ha Hb E. pose proof (parse_nat_str_int a Ha) as H. rewrite E, parse_nat_str_int in H by done. by injection H. Qed.

Definition drift_field_names : list string := "provider_id" :: drift_fields.
Lemma drift_field_no_dash f : f ∈ drift_field_names -> no_dash f = true.
Proof. intros H. repeat (apply elem_of_cons in H as [->|H]; [done|]). by apply elem_of_nil in H. Qed.

(** Which findings and recommendations there are. *)
Definition known_finding (f : DriftFinding) : Prop := dr_field f ∈ drift_field_names /\ nonempty (strip (dr_provider_id f)) = true.
Lemma detected_known p o cost_mode fs :
  nonempty (strip (p_id p)) = true -> detect_drift p o cost_mode = Ok fs -> Forall known_finding fs /\ NoDup (dr_field <$> fs).
Proof.
  intros Hid H. unfold detect_drift in H. destruct (negb _) eqn:E.
  - injection H as <-. split; [|apply NoDup_singleton]. apply Forall_singleton. split; [left|done].
  - apply rbind_Ok in H as (price & Hp & [= <-]).
    assert (dr_field <$> compare_enabled p o ++ compare_health_status p o ++ price ++ compare_availability p o `sublist_of` drift_fields) as Hsub.
    { rewrite !fmap_app. change drift_fields with (["enabled"] ++ ["health_status"] ++ ["price_per_second"] ++ ["availability"]).
      repeat apply sublist_app; eauto using compare_enabled_fields, compare_health_fields, compare_price_fields, compare_availability_fields. }
    assert (Forall (fun f => dr_provider_id f = p_id p) (compare_enabled p o ++ compare_health_status p o ++ price ++ compare_availability p o)) as Hids.
    { rewrite !Forall_app. eauto using compare_enabled_id, compare_health_id, compare_price_id, compare_availability_id. }
    split.
    + apply Forall_forall. intros f Hf. split.
      * right. apply (list_elem_of_fmap_2 dr_field) in Hf. eapply elem_of_submseteq; [exact Hf|by apply sublist_submseteq].
      * rewrite Forall_forall in Hids. by rewrite (Hids f Hf).
    + eapply sublist_NoDup; [|exact Hsub]. repeat constructor; set_solver.
Qed.

Lemma new_signal_Ok s c r : new_signal s c = Ok r ->
  sg_signal_id r = sg_signal_id s /\ sg_target_id r = sg_target_id s /\ sg_kind r = sg_kind s /\ sg_priority r = sg_priority s.
Proof.
  unfold new_signal. intros H. repeat (apply rbind_Ok in H as (? & _ & H)). destruct (_ || _); [done|]. by injection H as <-.
Qed.
Lemma nonblank_prefix a s : nonempty (strip (String a s)) = true \/ is_space a = true.
Proof.
  unfold strip. simpl. destruct (is_space a) eqn:E; [by right|left]. simpl. rewrite E. by destruct (rstrip s).
Qed.
Lemma known_reason f : known_finding f -> nonempty (strip (dr_message f)) = true \/ dr_message f = "" -> nonempty (strip (drift_reason f)) = true.
Proof.
  intros [Hf _] Hm. unfold drift_reason. destruct (nonempty (dr_message f)) eqn:E; [destruct Hm as [|Hm]; [done|by rewrite Hm in E]|].
  repeat (apply elem_of_cons in Hf as [->|Hf]; [by vm_compute|]). by apply elem_of_nil in Hf.
Qed.

(** ** Properties *)

(** Every known finding of the drift detector becomes a signal, and signals
    of different findings, or of different recommendations, carry different
    ids: the executor never takes one action for another. *)
Theorem signal_ids_tell_findings_apart :
  (forall f ws pp, known_finding f -> nonempty (strip (dr_message f)) = true \/ dr_message f = "" ->
     exists s, from_drift_finding f ws pp = Ok s /\ sg_signal_id s = drift_signal_id f /\ sg_target_id s = dr_provider_id f) /\
  (forall f g, dr_field f ∈ drift_field_names -> dr_field g ∈ drift_field_names -> drift_signal_id f = drift_signal_id g ->
     dr_provider_id f = dr_provider_id g /\ dr_field f = dr_field g) /\
  (forall r r', 1 <= pw_rank r -> 1 <= pw_rank r' -> prewarm_signal_id r = prewarm_signal_id r' ->
     pw_provider_id r = pw_provider_id r' /\ pw_rank r = pw_rank r') /\
  (forall f r, drift_signal_id f <> prewarm_signal_id r).
Proof.
  split; [|split; [|split]].
  - intros f ws pp Hk Hm. pose proof (known_reason f Hk Hm) as Hr. destruct Hk as [_ Hid].
    assert (exists s, from_drift_finding f ws pp = Ok s) as [s Hs].
    { unfold from_drift_finding, new_signal, require_non_empty. cbn [sg_signal_id sg_source sg_target_kind sg_target_id sg_reason].
      unfold drift_signal_id. destruct (nonblank_prefix "d"%char ("rift-" +:+ dr_provider_id f +:+ "-" +:+ dr_field f)) as [H|H]; [|done].
      change ("drift-" +:+ dr_provider_id f +:+ "-" +:+ dr_field f) with (String "d" ("rift-" +:+ dr_provider_id f +:+ "-" +:+ dr_field f)).
      rewrite H, Hid, Hr. cbn [rbind]. destruct (dr_severity f); by eexists. }
    exists s. split; [done|]. apply new_signal_Ok in Hs as (-> & -> & _). done.
  - intros f g Hf Hg E. unfold drift_signal_id in E. apply (inj (String.append "drift-")) in E.
    apply dashed_inj in E; [done|by apply drift_field_no_dash..].
  - intros r r' Hr Hr' E. unfold prewarm_signal_id in E. apply (inj (String.append "prewarm-")) in E.
    apply dashed_inj in E as [-> E]; [|apply str_int_no_dash; lia..]. split; [done|]. apply str_int_inj; [lia|lia|done].
  - intros f r. unfold drift_signal_id, prewarm_signal_id. discriminate.
Qed.

Module SignalSim.
Definition seen (s : py AutopilotSignal) := rmap (fun s => (sg_signal_id s, sg_kind s, sg_priority s, sg_reason s)) s.
Example drift_signal_ex :
  rmap seen (rmap (fun fs => match fs with f :: _ => from_drift_finding f [] None | [] => Err AssertionError end)
    (detect_drift (DriftSim.provider true "unknown" []) (observe_from_status_result "p" TERMINATED None) None))
  = Ok (Ok ("drift-p-enabled", MARK_PROVIDER_UNHEALTHY, 50, "Provider is enabled but observed resource is terminated")).
Proof. vm_compute. reflexivity. Qed.
Example prewarm_signal_ex :
  rmap (fun p => (fun r => seen (from_prewarm_recommendation r [] None)) <$> recommendations p)
    (PrewarmSim.plan_of PrewarmSim.two_targets [PrewarmSim.pod "b" 2 [] []; PrewarmSim.pod "a" 1 [] []])
  = Ok [Ok ("prewarm-a-1", SET_WARM_CAPACITY, 1, "forecast_exceeds_warm_capacity"); Ok ("prewarm-b-2", SET_WARM_CAPACITY, 2, "forecast_exceeds_warm_capacity")].
Proof. vm_compute. reflexivity. Qed.
(** A disabled provider that is seen available is marked unhealthy, like one
    that is enabled and unavailable. *)
Example spare_capacity_ex :
  rmap (fun fs => (fun f => seen (from_drift_finding f [] None)) <$> fs)
    (detect_drift (DriftSim.provider false "healthy" []) (MkObserved "p" None None (Some true) []) None)
  = Ok [Ok ("drift-p-availability", MARK_PROVIDER_UNHEALTHY, 80, "Provider is disabled but observed as available")].
Proof. vm_compute. reflexivity. Qed.
End SignalSim.
