(* ===== verification/CostLedger.v ===== *)
(** * The cost ledger ([cost/reconcile_cost.py], [reconciler/cost_daily_rollup.py])

    [cost_daily] holds a row per day, capability class and provider type.
    The rollup fills it from the ended workloads; the truth-up compares it
    with what providers billed and sets the rows that differ.  Amounts of the
    table are whole micro-dollars, as its [NUMERIC(12,6)] column keeps them.
    [CostDeps] is whether the next statement succeeds and the date the
    database reads.  The [isinstance] guards hold by the types here. *)

From Stdlib Require Import QArith.
From S2P Require Import Registry.
From S2P Require Import Prelude PyDecimal PyFloat PyValue PyOrder Effects Enums Provider WorkloadStore Retention.
#[local] Open Scope Z_scope.

(** Definitions *)

(** ** Windows and amounts *)

Definition ZERO_USD : dec := micro 0.

Record CostReconcileWindow : Type := MkCostWindow { cw_day : Z; cw_class : string; cw_provider_type : string }.
#[global] Instance cost_window_eq_dec : EqDecision CostReconcileWindow.
Proof. solve_decision. Defined.
#[global] Instance cost_window_countable : Countable CostReconcileWindow.
Proof.
  refine (inj_countable' (fun w => (cw_day w, cw_class w, cw_provider_type w)) (fun t => MkCostWindow t.1.1 t.1.2 t.2) _).
  by intros [].
Defined.
(** [order=True] *)
Definition window_order : cmp CostReconcileWindow :=
  tuple_key [by_ cw_day Z.compare; by_ cw_class String.compare; by_ cw_provider_type String.compare].

(** [_non_empty_string], [_finite_usd], [_non_negative_usd] *)
Definition ledger_text (s name : string) : py string :=
  if nonempty (strip s) then Ok (strip s) else Err (ValueError (name +:+ " must be non-empty")).
Definition finite_usd (d : pydec) (name : string) : py dec :=
  match d with DFin d => quantize_usd d | _ => Err (ValueError (name +:+ " must be finite")) end.
Definition at_least_zero_usd (d : pydec) (name : string) : py dec :=
  let? q := finite_usd d name in
  if dltb q dzero then Err (ValueError (name +:+ " must be non-negative")) else Ok q.

Definition cost_reconcile_window (day : Z) (class provider_type : string) : py CostReconcileWindow :=
  let? c := ledger_text class "capability_class" in
  let? p := ledger_text provider_type "provider_type" in
  Ok (MkCostWindow day c p).

Record RecordedCostWindow : Type := MkRecorded { rw_window : CostReconcileWindow; rw_recorded : dec; rw_count : Z }.
Definition recorded_cost_window (w : CostReconcileWindow) (d : pydec) (n : Z) : py RecordedCostWindow :=
  let? q := at_least_zero_usd d "recorded_usd" in
  if n <? 0 then Err (ValueError "workload_count must be non-negative") else Ok (MkRecorded w q n).

Record ProviderActualCostWindow : Type := MkActual { pa_window : CostReconcileWindow; pa_actual : dec; pa_source : string }.
Definition provider_actual_cost_window (w : CostReconcileWindow) (d : pydec) (source : string) : py ProviderActualCostWindow :=
  let? q := at_least_zero_usd d "actual_usd" in
  let? s := ledger_text source "source" in
  Ok (MkActual w q s).

(** ** Adjustments *)

Record CostReconcileAdjustment : Type := MkAdjustment {
  ad_window : CostReconcileWindow; ad_recorded : dec; ad_actual : dec; ad_adjustment : dec; ad_sources : list string }.
Definition cost_reconcile_adjustment (w : CostReconcileWindow) (recorded actual adjustment : dec) (sources : list string)
  : py CostReconcileAdjustment :=
  let? r := at_least_zero_usd (DFin recorded) "recorded_usd" in
  let? a := at_least_zero_usd (DFin actual) "provider_actual_usd" in
  let? d := finite_usd (DFin adjustment) "adjustment_usd" in
  let? ss := mapR (fun s => ledger_text s "source") sources in
  Ok (MkAdjustment w r a d (sort_by (less String.compare) (dedup ss))).
Definition direction (a : CostReconcileAdjustment) : string :=
  if dltb dzero (ad_adjustment a) then "increase" else "decrease".

Record CostReconcilePlan : Type := MkCostPlan { adjustments : list CostReconcileAdjustment; window_count : Z }.
Definition total_adjustment_usd (p : CostReconcilePlan) : py dec :=
  foldR (fun total a => let? s := dadd total (ad_adjustment a) in quantize_usd s) ZERO_USD (adjustments p).

(** [_aggregate_recorded] and [_aggregate_actuals]: one amount per window. *)
Definition add_amount (m : list (CostReconcileWindow * dec)) (w : CostReconcileWindow) (d : dec)
  : py (list (CostReconcileWindow * dec)) :=
  let? s := dadd (default ZERO_USD (al_get w m)) d in
  let? q := quantize_usd s in
  Ok (al_set w q m).
Definition aggregate_recorded (l : list RecordedCostWindow) : py (list (CostReconcileWindow * dec)) :=
  foldR (fun m r => add_amount m (rw_window r) (rw_recorded r)) [] l.
Definition add_source (m : list (CostReconcileWindow * list string)) (a : ProviderActualCostWindow) :=
  al_set (pa_window a) (default [] (al_get (pa_window a) m) ++ [pa_source a]) m.
Definition aggregate_actuals (l : list ProviderActualCostWindow)
  : py (list (CostReconcileWindow * dec) * list (CostReconcileWindow * list string)) :=
  foldR (fun acc a => let? m := add_amount acc.1 (pa_window a) (pa_actual a) in Ok (m, add_source acc.2 a)) ([], []) l.

(** [abs(d)] *)
Definition dabs (d : dec) : py dec := dfix (Dec (Z.abs (dcoef d)) (dexp d)).

(** One round of the loop of [reconcile_cost]. *)
Definition compare_window (tolerance : dec) (recorded actual : list (CostReconcileWindow * dec))
    (sources : list (CostReconcileWindow * list string)) (acc : list CostReconcileAdjustment) (w : CostReconcileWindow)
  : py (list CostReconcileAdjustment) :=
  let r := default ZERO_USD (al_get w recorded) in
  let a := default ZERO_USD (al_get w actual) in
  let? x := dsub a r in
  let? delta := quantize_usd x in
  let? size := dabs delta in
  if dleb size tolerance then Ok acc else
  let ss := sort_by (less String.compare) (dedup (default [] (al_get w sources))) in
  let? adj := cost_reconcile_adjustment w r a delta ss in
  Ok (acc ++ [adj]).
Definition compared_windows (recorded actual : list (CostReconcileWindow * dec)) : list CostReconcileWindow :=
  sort_by (less window_order) (dedup (recorded.*1 ++ actual.*1)).
Definition reconcile_cost (recorded : list RecordedCostWindow) (actuals : list ProviderActualCostWindow) (tolerance_usd : pydec)
  : py CostReconcilePlan :=
  let? tolerance := at_least_zero_usd tolerance_usd "tolerance_usd" in
  let? rs := aggregate_recorded recorded in
  let? (acts, sources) := aggregate_actuals actuals in
  let ws := compared_windows rs acts in
  let? adjs := foldR (compare_window tolerance rs acts sources) [] ws in
  Ok (MkCostPlan adjs (Z.of_nat (length ws))).

(** ** The tables *)

Record ledger_row : Type := MkLedgerRow { lr_count : Z; lr_micros : Z }.
Abbreviation ledger := (gmap CostReconcileWindow ledger_row).
Record volume : Type := MkVolume { v_size_gb : Z; v_monthly : option dec }.
Record volume_row : Type := MkVolumeRow { vr_micros : Z; vr_size_gb : Z; vr_rate : dec }.
Record cost_tables : Type := MkCostTables {
  ct_ledger : ledger; ct_volume_ledger : gmap (Z * string) volume_row;
  ct_db : workload_db; ct_registry : registry; ct_volumes : gmap string volume }.

(** [NUMERIC(12,6)] *)
Definition fits_numeric (micros : Z) : bool := Z.abs micros <? 10 ^ 12.
Definition to_micros (d : dec) : Z := rescale ROUND_HALF_UP d (-6).

(** [_FETCH_RECORDED_SQL] *)
Definition recorded_rows (start_day end_day : Z) (l : ledger) : list (CostReconcileWindow * ledger_row) :=
  sort_by (less (by_ fst window_order)) (filter (fun kv => start_day <= cw_day kv.1 < end_day) (map_to_list l)).
(** [_recorded_from_row] *)
Definition recorded_from_row (kv : CostReconcileWindow * ledger_row) : py RecordedCostWindow :=
  let? w := cost_reconcile_window (cw_day kv.1) (cw_class kv.1) (cw_provider_type kv.1) in
  recorded_cost_window w (DFin (micro (lr_micros kv.2))) (lr_count kv.2).
(** [_APPLY_ADJUSTMENT_SQL] *)
Definition set_cost (l : ledger) (w : CostReconcileWindow) (micros : Z) : ledger :=
  <[w := MkLedgerRow (match l !! w with Some r => lr_count r | None => 0 end) micros]> l.
(** [executemany]: all rows or none. *)
Definition apply_all (adjs : list CostReconcileAdjustment) (l : ledger) : option ledger :=
  if forallb (fun a => fits_numeric (to_micros (ad_actual a))) adjs
  then Some (foldl (fun l a => set_cost l (ad_window a) (to_micros (ad_actual a))) l adjs)
  else None.

(** The rows [_AGGREGATE_DAILY_SQL] groups. *)
Definition joined_row (reg : registry) (row : dict) : option (CostReconcileWindow * option dec) :=
  if bool_decide (state_of row ∈ TERMINAL_STATES) then
    i ← as_str (dict_get_none "capability_id" row); c ← capabilities reg !! i;
    j ← as_str (dict_get_none "provider_id" row); p ← providers reg !! j;
    Some (MkCostWindow (submitted row / us_per_day) (enum_value (c_class c)) (enum_value (p_provider_type p)),
          match dict_get_none "cost_actual_usd" row with VDec (DFin d) => Some d | _ => None end)
  else None.
Definition joined (reg : registry) (db : workload_db) : list (CostReconcileWindow * option dec) :=
  omap (fun kv => joined_row reg kv.2) (map_to_list (workloads db)).
(** [COUNT] and [SUM] of a group, as the columns keep them. *)
Definition exact_sum (l : list (option dec)) : dec := foldr (fun o s => match o with Some d => dadd_exact d s | None => s end) dzero l.
Definition rolled (rows : list (CostReconcileWindow * option dec)) (w : CostReconcileWindow) : ledger_row :=
  let group := filter (fun r => r.1 = w) rows in
  MkLedgerRow (Z.of_nat (length group)) (to_micros (exact_sum (snd <$> group))).
Definition aggregate_daily (rows : list (CostReconcileWindow * option dec)) (l : ledger) : option ledger :=
  let ws := dedup rows.*1 in
  if forallb (fun w => int4 (lr_count (rolled rows w)) && fits_numeric (lr_micros (rolled rows w))) ws
  then Some (foldl (fun l w => <[w := rolled rows w]> l) l ws)
  else None.

(** [_VOLUME_STORAGE_DAILY_SQL] *)
Definition VOLUME_TIER1_RATE_PER_GB_MO : dec := Dec 7 (-2).
Definition VOLUME_TIER2_RATE_PER_GB_MO : dec := Dec 5 (-2).
Definition VOLUME_TIER1_SIZE_GB : Z := 1000.
Definition DAYS_PER_MONTH : Z := 30.
Definition tiered_rate (size_gb : Z) : dec :=
  if size_gb <=? VOLUME_TIER1_SIZE_GB then VOLUME_TIER1_RATE_PER_GB_MO else VOLUME_TIER2_RATE_PER_GB_MO.
(** The division never falls halfway between two micro-dollars. *)
Definition daily_volume_micros (size_gb : Z) : Z :=
  rdiv ROUND_HALF_UP (size_gb * dcoef (tiered_rate size_gb) * 10 ^ 4) DAYS_PER_MONTH.
Definition accrue_volumes (today : Z) (vs : gmap string volume) (l : gmap (Z * string) volume_row)
  : option (gmap (Z * string) volume_row) :=
  let due := filter (fun kv => v_monthly kv.2 = None) (map_to_list vs) in
  if forallb (fun kv => fits_numeric (daily_volume_micros (v_size_gb kv.2))) due
  then Some (foldl (fun l kv => let n := v_size_gb kv.2 in
                       <[(today, kv.1) := MkVolumeRow (daily_volume_micros n) n (tiered_rate n)]> l) l due)
  else None.

(** ** The jobs *)

Class CostDeps (F : Type) := { statement : F -> F * bool; current_date : F -> Z }.
Record cost_world (F : Type) : Type := MkCostWorld { cw_tables : cost_tables; cw_outside : F }.
Arguments MkCostWorld {F}.
Arguments cw_tables {F}.
Arguments cw_outside {F}.
Inductive cost_error := CostExn (e : exn) | CostDatabase | CostRedis.

Section Jobs.
Context {F : Type} `{CostDeps F}.
Abbreviation op := (eff (cost_world F) cost_error).

(** A statement of its own transaction; [None] is a constraint that fails. *)
Definition execute (f : F -> cost_tables -> option cost_tables) : op unit :=
  fun w => let '(o, ok) := statement (cw_outside w) in
           if ok : bool then
             match f (cw_outside w) (cw_tables w) with
             | Some t => (MkCostWorld t o, Ok tt)
             | None => (MkCostWorld (cw_tables w) o, Err CostDatabase)
             end
           else (MkCostWorld (cw_tables w) o, Err CostDatabase).
Definition query {A} (f : cost_tables -> A) : op A :=
  fun w => let '(o, ok) := statement (cw_outside w) in
           (MkCostWorld (cw_tables w) o, if ok : bool then Ok (f (cw_tables w)) else Err CostDatabase).
Definition with_ledger (t : cost_tables) (l : ledger) : cost_tables :=
  MkCostTables l (ct_volume_ledger t) (ct_db t) (ct_registry t) (ct_volumes t).

(** [fetch_recorded_windows], with [_validate_date_window] *)
Definition fetch_recorded_windows (start_day end_day : Z) : op (list RecordedCostWindow) :=
  if end_day <=? start_day then fail (CostExn (ValueError "end_day must be after start_day")) else
  do! rows := query (fun t => recorded_rows start_day end_day (ct_ledger t)) in
  lift (rlift CostExn (mapR recorded_from_row rows)).
Definition apply_adjustments (adjs : list CostReconcileAdjustment) : op Z :=
  match adjs with
  | [] => ret 0
  | _ => execute (fun _ t => l ← apply_all adjs (ct_ledger t); Some (with_ledger t l)) ;!
         ret (Z.of_nat (length adjs))
  end.
Definition truth_up_cost_daily (start_day end_day : Z) (actuals : list ProviderActualCostWindow) (tolerance_usd : pydec)
  : op CostReconcilePlan :=
  do! recorded := fetch_recorded_windows start_day end_day in
  do! plan := lift (rlift CostExn (reconcile_cost recorded actuals tolerance_usd)) in
  do! _ := apply_adjustments (adjustments plan) in
  ret plan.

(** [run_rollup] *)
Definition run_rollup (after_rollup : option (op unit)) : op unit :=
  execute (fun _ t => l ← aggregate_daily (joined (ct_registry t) (ct_db t)) (ct_ledger t); Some (with_ledger t l)) ;!
  execute (fun o t => l ← accrue_volumes (current_date o) (ct_volumes t) (ct_volume_ledger t);
             Some (MkCostTables (ct_ledger t) l (ct_db t) (ct_registry t) (ct_volumes t))) ;!
  match after_rollup with Some hook => hook | None => ret tt end.
End Jobs.

(** ** What the jobs promise *)

(** A billed window as its constructor builds it. *)
Definition valid_actual (a : ProviderActualCostWindow) : Prop :=
  (exists class provider_type, cost_reconcile_window (cw_day (pa_window a)) class provider_type = Ok (pa_window a)) /\
  (exists d source, provider_actual_cost_window (pa_window a) d source = Ok a).
(** What providers billed for a window, what the ledger records. *)
Definition billed (l : list ProviderActualCostWindow) (w : CostReconcileWindow) : Z :=
  zsum ((fun a => dcoef (pa_actual a)) <$> filter (fun a => pa_window a = w) l).
Definition cost_of (l : ledger) (w : CostReconcileWindow) : Z := match l !! w with Some r => lr_micros r | None => 0 end.
Definition count_in (l : ledger) (w : CostReconcileWindow) : Z := match l !! w with Some r => lr_count r | None => 0 end.
Definition recorded_in (start_day end_day : Z) (l : ledger) (w : CostReconcileWindow) : Z :=
  if bool_decide (start_day <= cw_day w < end_day) then cost_of l w else 0.
Definition stripped_window (w : CostReconcileWindow) : Prop :=
  cost_reconcile_window (cw_day w) (cw_class w) (cw_provider_type w) = Ok w.
(** The names of a ledger have no blank around them, its amounts fit. *)
Definition ledger_ok (l : ledger) : Prop :=
  map_Forall (fun w r => stripped_window w /\ fits_numeric (lr_micros r) = true) l.

(** Lemmas *)

Lemma ledger_text_Ok s n t : ledger_text s n = Ok t -> t = strip s /\ ledger_text t n = Ok t.
Proof.
  unfold ledger_text. destruct (nonempty (strip s)) eqn:E; [|done]. intros [= <-]. by rewrite strip_strip, E.
Qed.
Lemma constructed_window d c p w : cost_reconcile_window d c p = Ok w -> cw_day w = d /\ stripped_window w.
Proof.
  unfold stripped_window, cost_reconcile_window.
  intros (c' & [-> Hc]%ledger_text_Ok & (p' & [-> Hp]%ledger_text_Ok & [= <-])%rbind_Ok)%rbind_Ok.
  cbn [cw_day cw_class cw_provider_type]. rewrite Hc. cbn [rbind]. by rewrite Hp.
Qed.

Lemma at_least_zero_usd_Ok d n q : at_least_zero_usd d n = Ok q -> usd_is q (dcoef q).
Proof.
  unfold at_least_zero_usd, finite_usd. intros (x & Hx & H)%rbind_Ok. destruct d as [d| |]; try done.
  destruct (quantize_usd_micro _ _ Hx) as [Hm Hl]. destruct (dltb x dzero) eqn:E; [done|]. injection H as <-.
  split; [done|]. apply dltb_false in E.
  assert (0 <= dcoef x) by (apply dcoef_nonneg; eapply Qle_trans; [|exact E]; done). lia.
Qed.
Lemma at_least_zero_usd_micro z n : 0 <= z < micro_limit -> at_least_zero_usd (DFin (micro z)) n = Ok (micro z).
Proof.
  intros Hz. unfold at_least_zero_usd, finite_usd. rewrite quantize_usd_id by lia. cbn [rbind].
  replace (dltb (micro z) dzero) with false; [done|]. symmetry. apply dltb_false.
  eapply Qle_trans; [|apply micro_nonneg; lia]. done.
Qed.
Lemma dabs_micro z : Z.abs z < micro_limit -> dabs (micro z) = Ok (micro (Z.abs z)).
Proof. intros H. unfold dabs. apply dfix_small; cbn [dcoef dexp micro]; [unfold micro_limit in H; lia|by unfold etiny, etop; simpl]. Qed.
Lemma to_micros_micro z : to_micros (micro z) = z.
Proof.
  unfold to_micros, rescale, micro. cbn [dcoef dexp]. destruct (z =? 0) eqn:E; boolify; [done|].
  rewrite Z.leb_refl, Z.sub_diag. lia.
Qed.

Lemma window_ordering : Ordering window_order.
Proof.
  apply tuple_ordering. repeat first [apply Forall_cons_2|apply Forall_nil_2]; apply by_ordering;
    first [exact Z_ordering|exact string_ordering].
Qed.
Lemma in_filter {A} (P : A -> Prop) `{forall x, Decision (P x)} (x : A) (l : list A) : x ∈ filter P l <-> P x /\ x ∈ l.
Proof. apply list_elem_of_filter. Qed.

(** ** One amount per window *)

Section Totals.

(** [m] holds the sum [f w] for every window, under the keys [ws]. *)
Record totals (m : list (CostReconcileWindow * dec)) (f : CostReconcileWindow -> Z) (ws : list CostReconcileWindow) : Prop := {
  totals_wf : al_wf m;
  totals_sum : forall w, usd_is (default ZERO_USD (al_get w m)) (f w);
  totals_keys : forall w, w ∈ m.*1 <-> w ∈ ws }.
#[local] Arguments totals_sum {m f ws}.

Lemma totals_nil : totals [] (fun _ => 0) [].
Proof. split; [constructor|by intros w|done]. Qed.

Lemma add_amount_totals m f ws w d b m' :
  totals m f ws -> usd_is d b -> add_amount m w d = Ok m' ->
  totals m' (fun v => if decide (v = w) then f v + b else f v) (w :: ws).
Proof.
  intros [Hwf Hs Hk] Hd (s & Hadd & (q & Hq & [= <-])%rbind_Ok)%rbind_Ok.
  destruct (Hs w) as [Ew Hw].
  assert (is_micro (default ZERO_USD (al_get w m)) (f w)) as Hm by (by left).
  destruct (quantized_sum _ _ _ _ _ _ Hm Hw Hd Hadd Hq) as [Hlt ->]. destruct Hd as [_ Hb].
  split; [by apply al_set_wf| |intros v; rewrite al_set_keys, elem_of_cons, Hk; done].
  intros v. case_decide as E; [subst; rewrite al_get_set; split; [done|lia]|]. rewrite al_get_set_ne by done. apply Hs.
Qed.

Context {A : Type} (win : A -> CostReconcileWindow) (amt : A -> dec).
Definition window_sum (l : list A) (w : CostReconcileWindow) : Z := zsum ((fun a => dcoef (amt a)) <$> filter (fun a => win a = w) l).

Lemma add_amounts m f ws l m' :
  totals m f ws -> Forall (fun a => usd_is (amt a) (dcoef (amt a))) l ->
  foldR (fun m a => add_amount m (win a) (amt a)) m l = Ok m' ->
  exists ws', totals m' (fun w => f w + window_sum l w) ws' /\ forall w, w ∈ ws' <-> w ∈ ws \/ w ∈ win <$> l.
Proof.
  revert m f ws. induction l as [|a l IH]; intros m f ws Ht Hl; csimpl.
  - intros [= <-]. exists ws. split.
    + destruct Ht as [? Hs ?]. split; [done| |done]. intros w. unfold window_sum. simpl. rewrite Z.add_0_r. apply Hs.
    + intros w. rewrite elem_of_nil. naive_solver.
  - intros (m1 & Hm1 & H)%rbind_Ok. apply Forall_cons in Hl as [Ha Hl].
    pose proof (add_amount_totals _ _ _ _ _ _ _ Ht Ha Hm1) as Ht1.
    destruct (IH _ _ _ Ht1 Hl H) as (ws' & [Hwf Hs Hk] & Hws). exists ws'. split.
    + split; [done| |done]. intros w. destruct (Hs w) as [E Hb]. unfold window_sum in *. rewrite filter_cons.
      destruct (decide (win a = w)) as [Ew|Hne].
      * rewrite decide_True in E, Hb by congruence. csimpl. rewrite Z.add_assoc. by split.
      * rewrite decide_False in E, Hb by congruence. by split.
    + intros w. rewrite Hws, !elem_of_cons. naive_solver.
Qed.
Lemma window_sum_absent l w : w ∉ win <$> l -> window_sum l w = 0.
Proof.
  intros Hw. unfold window_sum. replace (filter (fun a => win a = w) l) with (@nil A); [done|].
  symmetry. apply elem_of_nil_inv. intros a [<- Ha]%in_filter. apply Hw. by apply list_elem_of_fmap_2.
Qed.
End Totals.

Lemma aggregate_recorded_totals l m :
  Forall (fun r => usd_is (rw_recorded r) (dcoef (rw_recorded r))) l -> aggregate_recorded l = Ok m ->
  exists ws, totals m (window_sum rw_window rw_recorded l) ws /\ forall w, w ∈ ws <-> w ∈ rw_window <$> l.
Proof.
  intros Hl H. destruct (add_amounts rw_window rw_recorded [] _ [] l m totals_nil Hl H) as (ws & [? Hs ?] & Hw).
  exists ws. split; [by split|]. intros w. rewrite Hw, elem_of_nil. naive_solver.
Qed.
Lemma aggregate_actuals_totals l m ss :
  Forall (fun a => usd_is (pa_actual a) (dcoef (pa_actual a))) l -> aggregate_actuals l = Ok (m, ss) ->
  exists ws, totals m (billed l) ws /\ forall w, w ∈ ws <-> w ∈ pa_window <$> l.
Proof.
  intros Hl H. assert (foldR (fun m a => add_amount m (pa_window a) (pa_actual a)) [] l = Ok m) as H'.
  { revert H. unfold aggregate_actuals. change (@nil (CostReconcileWindow * dec)) with (@nil (CostReconcileWindow * dec), @nil (CostReconcileWindow * list string)).1 at 2.
    generalize (@nil (CostReconcileWindow * dec), @nil (CostReconcileWindow * list string)). clear Hl.
    induction l as [|a l IH]; intros acc; csimpl; [by intros [= ->]|].
    intros (acc1 & (m1 & Hm1 & [= <-])%rbind_Ok & H)%rbind_Ok. rewrite Hm1. cbn [rbind]. by apply (IH (m1, add_source acc.2 a)). }
  destruct (add_amounts pa_window pa_actual [] _ [] l m totals_nil Hl H') as (ws & [? Hs ?] & Hw).
  exists ws. split; [by split|]. intros w. rewrite Hw, elem_of_nil. naive_solver.
Qed.

(** ** The plan *)

(** What the plan says of a window recorded as [f] and billed as [g]. *)
Definition adjusts (f g : CostReconcileWindow -> Z) (a : CostReconcileAdjustment) (w : CostReconcileWindow) : Prop :=
  ad_window a = w /\ ad_recorded a = micro (f w) /\ ad_actual a = micro (g w) /\ ad_adjustment a = micro (g w - f w) /\
  direction a = if f w <? g w then "increase" else "decrease".
Definition differs (t : Z) (f g : CostReconcileWindow -> Z) (w : CostReconcileWindow) : Prop := t < Z.abs (g w - f w).
#[global] Instance differs_dec t f g w : Decision (differs t f g w).
Proof. unfold differs. apply _. Defined.

Lemma compare_window_Ok t rs acts ss acc w acc' f g ws vs :
  totals rs f ws -> totals acts g vs -> 0 <= t < micro_limit ->
  compare_window (micro t) rs acts ss acc w = Ok acc' ->
  (differs t f g w /\ exists a, acc' = acc ++ [a] /\ adjusts f g a w) \/ (~ differs t f g w /\ acc' = acc).
Proof.
  intros [_ Hf _] [_ Hg _] Ht. destruct (Hf w) as [Ef Bf]. destruct (Hg w) as [Eg Bg]. unfold compare_window.
  rewrite Ef, Eg, dsub_micro by lia. cbn [rbind]. rewrite quantize_usd_id by lia. cbn [rbind].
  rewrite dabs_micro by lia. cbn [rbind]. rewrite dleb_micro. unfold differs.
  destruct (_ <=? t) eqn:E; boolify; [intros [= <-]; right; split; [lia|done]|].
  intros (a & Ha & [= <-])%rbind_Ok. left. split; [lia|]. exists a. split; [done|].
  unfold cost_reconcile_adjustment in Ha. rewrite !at_least_zero_usd_micro in Ha by done. cbn [rbind] in Ha.
  unfold finite_usd in Ha. rewrite quantize_usd_id in Ha by lia. cbn [rbind] in Ha.
  apply rbind_Ok in Ha as (sources & _ & [= <-]). unfold adjusts, direction. cbn [ad_window ad_recorded ad_actual ad_adjustment].
  repeat split. change dzero with (Dec 0 0). unfold dltb, dcompare. cbn [dcoef dexp micro].
  change (Z.min 0 (-6)) with (-6). rewrite Z.sub_diag, Z.pow_0_r, Z.mul_0_l, Z.mul_1_r. fold (Z.ltb 0 (g w - f w)).
  destruct (0 <? _) eqn:E1, (f w <? g w) eqn:E2; boolify; first [done|lia].
Qed.

Lemma compare_loop t rs acts ss f g ws vs l acc adjs :
  totals rs f ws -> totals acts g vs -> 0 <= t < micro_limit ->
  foldR (compare_window (micro t) rs acts ss) acc l = Ok adjs ->
  exists new, adjs = acc ++ new /\ Forall2 (adjusts f g) new (filter (differs t f g) l).
Proof.
  intros Hr Ha Ht. revert acc. induction l as [|w l IH]; intros acc; csimpl.
  - intros [= <-]. exists []. by rewrite app_nil_r.
  - intros (acc1 & H1 & H)%rbind_Ok. destruct (IH _ H) as (new & -> & Hn). rewrite filter_cons.
    destruct (compare_window_Ok _ _ _ _ _ _ _ _ _ _ _ Hr Ha Ht H1) as [[Hd (a & -> & Had)]|[Hd ->]].
    + rewrite decide_True by done. exists (a :: new). rewrite <- app_assoc. split; [done|by constructor].
    + rewrite decide_False by done. by exists new.
Qed.

Lemma reconcile_cost_Ok rs acts tol plan :
  Forall (fun r => usd_is (rw_recorded r) (dcoef (rw_recorded r))) rs ->
  Forall (fun a => usd_is (pa_actual a) (dcoef (pa_actual a))) acts ->
  reconcile_cost rs acts tol = Ok plan ->
  exists t ws, at_least_zero_usd tol "tolerance_usd" = Ok (micro t) /\ 0 <= t < micro_limit /\
    NoDup ws /\ StronglySorted (no_greater window_order) ws /\
    Forall2 (adjusts (window_sum rw_window rw_recorded rs) (billed acts)) (adjustments plan) ws /\
    (forall w, w ∈ ws <-> differs t (window_sum rw_window rw_recorded rs) (billed acts) w) /\
    forall w, billed acts w < micro_limit.
Proof.
  intros Hr Ha. unfold reconcile_cost. intros (tol' & Htol & H)%rbind_Ok.
  destruct (at_least_zero_usd_Ok _ _ _ Htol) as [Et Bt]. rewrite Et in Htol. set (t := dcoef tol') in *.
  apply rbind_Ok in H as (m & Hm & ([m' ss] & Hm' & (adjs & Hadjs & [= <-])%rbind_Ok)%rbind_Ok).
  destruct (aggregate_recorded_totals _ _ Hr Hm) as (ks & Hks & Hk).
  destruct (aggregate_actuals_totals _ _ _ Ha Hm') as (ls & Hls & Hl).
  rewrite Et in Hadjs.
  destruct (compare_loop _ _ _ _ _ _ _ _ _ _ _ Hks Hls Bt Hadjs) as (new & -> & Hnew). cbn [adjustments app].
  set (f := window_sum rw_window rw_recorded rs) in *.
  pose proof (sort_by_perm (less window_order) (dedup (m.*1 ++ m'.*1))) as Hp. fold (compared_windows m m') in Hp.
  exists t, (filter (differs t f (billed acts)) (compared_windows m m')). split; [exact Htol|]. split; [exact Bt|].
  split; [apply NoDup_filter; rewrite Hp; apply NoDup_dedup|]. split.
  { pose proof (sorted_no_greater window_order window_ordering (dedup (m.*1 ++ m'.*1))) as Hs. fold (compared_windows m m') in Hs.
    clear -Hs. induction Hs as [|w l Hs IH Hw]; [constructor|]. rewrite filter_cons. case_decide; [|done].
    constructor; [done|]. apply Forall_forall. intros v [_ Hv]%in_filter. rewrite Forall_forall in Hw. by apply Hw. }
  split; [exact Hnew|]. split.
  - intros w. rewrite in_filter. split; [by intros []|]. intros Hd. split; [done|]. rewrite Hp, elem_of_dedup, elem_of_app.
    rewrite (totals_keys _ _ _ Hks), (totals_keys _ _ _ Hls), Hk, Hl.
    destruct (decide (w ∈ rw_window <$> rs)); [by left|]. destruct (decide (w ∈ pa_window <$> acts)); [by right|].
    exfalso. unfold differs, f in Hd. rewrite window_sum_absent in Hd by done.
    change (billed acts w) with (window_sum pa_window pa_actual acts w) in Hd. rewrite window_sum_absent in Hd by done. lia.
  - intros w. pose proof (totals_sum _ _ _ Hls w) as [_ ?]. lia.
Qed.

(** ** The table *)

Lemma set_costs l L v :
  (v ∉ ad_window <$> l -> foldl (fun l a => set_cost l (ad_window a) (to_micros (ad_actual a))) L l !! v = L !! v) /\
  (forall a, NoDup (ad_window <$> l) -> a ∈ l -> ad_window a = v ->
     foldl (fun l a => set_cost l (ad_window a) (to_micros (ad_actual a))) L l !! v =
       Some (MkLedgerRow (count_in L v) (to_micros (ad_actual a)))).
Proof.
  revert L. induction l as [|b l IH]; intros L; csimpl.
  { split; [done|]. by intros a _ ?%elem_of_nil. }
  destruct (IH (set_cost L (ad_window b) (to_micros (ad_actual b)))) as [Hout Hin]. split.
  - rewrite not_elem_of_cons. intros [Hne Hv]. rewrite Hout by done. unfold set_cost. by rewrite lookup_insert_ne.
  - intros a [Hb Hn]%NoDup_cons [->|Ha]%elem_of_cons <-.
    + rewrite (proj1 (IH _)); [|done..]. unfold set_cost. by rewrite lookup_insert_eq.
    + rewrite (Hin a) by done. unfold count_in, set_cost. rewrite lookup_insert_ne; [done|].
      intros E. apply Hb. rewrite E. by apply list_elem_of_fmap_2.
Qed.

Lemma recorded_from_row_Ok kv r :
  stripped_window kv.1 -> recorded_from_row kv = Ok r ->
  rw_window r = kv.1 /\ usd_is (rw_recorded r) (lr_micros kv.2) \/ fits_numeric (lr_micros kv.2) = false.
Proof.
  intros Hs. destruct (fits_numeric _) eqn:Hf; [|by right]. left. revert H. unfold recorded_from_row. rewrite Hs. cbn [rbind].
  unfold recorded_cost_window. intros (q & Hq & H)%rbind_Ok. pose proof (at_least_zero_usd_Ok _ _ _ Hq) as [Eq Bq].
  unfold fits_numeric in Hf. boolify. assert (q = micro (lr_micros kv.2)) as ->.
  { unfold at_least_zero_usd, finite_usd in Hq. rewrite quantize_usd_id in Hq by (unfold micro_limit; lia). cbn [rbind] in Hq.
    destruct (dltb _ _); [done|]. by injection Hq. }
  destruct (_ <? 0); [done|]. injection H as <-. by split.
Qed.

Lemma keyed_sum (l : list (CostReconcileWindow * ledger_row)) v :
  (v ∉ l.*1 -> zsum ((fun kv => lr_micros kv.2) <$> filter (fun kv => kv.1 = v) l) = 0) /\
  (forall r, NoDup l.*1 -> (v, r) ∈ l -> zsum ((fun kv => lr_micros kv.2) <$> filter (fun kv => kv.1 = v) l) = lr_micros r).
Proof.
  induction l as [|[k x] l [IH1 IH2]]; csimpl; [by split; [|intros r _ ?%elem_of_nil]|]. rewrite filter_cons. cbn [fst].
  split.
  - rewrite not_elem_of_cons. intros [Hne Hv]. rewrite decide_False by done. by apply IH1.
  - intros r [Hk Hn]%NoDup_cons [[= -> ->]|Hr]%elem_of_cons.
    + rewrite decide_True by done. unfold zsum in *. csimpl. rewrite IH1 by done. lia.
    + rewrite decide_False; [by apply IH2|]. intros ->. apply Hk. change v with (v, r).1. by apply list_elem_of_fmap_2.
Qed.

Lemma recorded_sum s e L rs v :
  ledger_ok L -> mapR recorded_from_row (recorded_rows s e L) = Ok rs ->
  Forall (fun r => usd_is (rw_recorded r) (dcoef (rw_recorded r))) rs /\
  window_sum rw_window rw_recorded rs v = recorded_in s e L v.
Proof.
  intros HL Hrs%mapR_Ok. set (rows := recorded_rows s e L) in *.
  assert (rows ≡ₚ filter (fun kv => s <= cw_day kv.1 < e) (map_to_list L)) as Hp by apply sort_by_perm.
  assert (Forall2 (fun kv r => rw_window r = kv.1 /\ usd_is (rw_recorded r) (lr_micros kv.2)) rows rs) as H2.
  { assert (forall kv, kv ∈ rows -> stripped_window kv.1 /\ fits_numeric (lr_micros kv.2) = true) as Hall.
    { intros [k x]. rewrite Hp, in_filter, elem_of_map_to_list. intros [_ Hkv]. by apply (HL k x). }
    clear Hp. induction Hrs as [|kv r rows' rs Hr _ IH]; constructor.
    - destruct (Hall kv) as [Hs Hf]; [by left|]. destruct (recorded_from_row_Ok _ _ Hs Hr) as [?|?]; [done|congruence].
    - apply IH. intros x Hx. apply Hall. by right. }
  split.
  { clear -H2. induction H2 as [|kv r ? ? [_ [E ?]]]; constructor; [rewrite E; by split|done]. }
  transitivity (zsum ((fun kv => lr_micros kv.2) <$> filter (fun kv => kv.1 = v) rows)).
  { clear -H2. induction H2 as [|kv r ? ? [Hw [E ?]] _ IH]; [done|]. unfold window_sum in *. rewrite !filter_cons, Hw.
    case_decide; [|done]. unfold zsum in *. csimpl. rewrite E. cbn [dcoef micro]. by rewrite IH. }
  assert (NoDup rows.*1) as Hn.
  { rewrite Hp. eapply (sublist_NoDup _ (map_to_list L).*1); [apply NoDup_fst_map_to_list|apply fmap_sublist, sublist_filter]. }
  unfold recorded_in, cost_of. case_bool_decide as Hd.
  - destruct (L !! v) as [r|] eqn:E.
    + apply (proj2 (keyed_sum rows v)); [done|]. rewrite Hp, in_filter, elem_of_map_to_list. by split.
    + apply (proj1 (keyed_sum rows v)). intros ([k x] & -> & Hx)%list_elem_of_fmap. revert Hx.
      rewrite Hp, in_filter, elem_of_map_to_list. intros [_ ?]. simpl in *. congruence.
  - apply (proj1 (keyed_sum rows v)). intros ([k x] & -> & Hx)%list_elem_of_fmap. revert Hx.
    rewrite Hp, in_filter. by intros [? _].
Qed.

Section Truth.
Context {F : Type} `{CostDeps F}.

Lemma fetch_Ok s e (w w' : cost_world F) rs :
  fetch_recorded_windows s e w = (w', Ok rs) ->
  cw_tables w' = cw_tables w /\ mapR recorded_from_row (recorded_rows s e (ct_ledger (cw_tables w))) = Ok rs.
Proof.
  unfold fetch_recorded_windows. destruct (e <=? s); [done|].
  intros (w1 & rows & H1 & [= -> H2%rlift_Ok])%bind_Ok. unfold query in H1.
  destruct (statement _) as [o []]; [|done]. injection H1 as <- <-. by split.
Qed.
Lemma fetch_tables s e (w : cost_world F) : cw_tables (fetch_recorded_windows s e w).1 = cw_tables w.
Proof.
  unfold fetch_recorded_windows. destruct (e <=? s); [done|]. unfold bind, query. by destruct (statement _) as [o []].
Qed.

Lemma apply_adjustments_cases adjs (w : cost_world F) :
  let '(w', r) := apply_adjustments adjs w in
  match r with
  | Err _ => cw_tables w' = cw_tables w
  | Ok _ => exists L, apply_all adjs (ct_ledger (cw_tables w)) = Some L /\ cw_tables w' = with_ledger (cw_tables w) L
  end.
Proof.
  destruct adjs as [|a adjs]; [exists (ct_ledger (cw_tables w)); split; [done|by destruct w as [[]]]|].
  unfold apply_adjustments, bind, execute, ret. set (l := a :: adjs). destruct (statement _) as [o []]; [|done].
  destruct (apply_all l _) as [L|] eqn:E; [|done]. csimpl. by exists L.
Qed.

Lemma adjusted_table f g adjs ws L L' :
  Forall2 (adjusts f g) adjs ws -> NoDup ws -> apply_all adjs L = Some L' ->
  (forall v, v ∉ ws -> L' !! v = L !! v) /\
  (forall v, v ∈ ws -> L' !! v = Some (MkLedgerRow (count_in L v) (g v)) /\ fits_numeric (g v) = true).
Proof.
  intros H2 Hn. unfold apply_all. destruct (forallb _ adjs) eqn:Hfit; [|done]. intros [= <-]. boolify.
  assert (ad_window <$> adjs = ws) as Hw.
  { clear -H2. induction H2 as [|a w ? ? (Hw & _) _ IH]; csimpl; [done|]. by rewrite Hw, IH. }
  split; [intros v Hv; apply (proj1 (set_costs adjs L v)); by rewrite Hw|].
  intros v Hv. destruct (list_elem_of_lookup_1 _ _ Hv) as [i Hi].
  destruct (Forall2_lookup_r _ _ _ _ _ H2 Hi) as (a & Ha & Had & _ & Hact & _). apply list_elem_of_lookup_2 in Ha.
  rewrite (proj2 (set_costs adjs L v) a) by (try done; by rewrite Hw). rewrite Hact, to_micros_micro.
  split; [done|]. rewrite forallb_forall in Hfit. specialize (Hfit a). rewrite Hact, to_micros_micro in Hfit.
  apply Hfit. by apply list_elem_of_In.
Qed.
End Truth.

Lemma valid_actuals acts :
  Forall valid_actual acts -> Forall (fun a => usd_is (pa_actual a) (dcoef (pa_actual a))) acts.
Proof.
  intros Hl. eapply Forall_impl; [exact Hl|]. intros a [_ (d & s & H)]. unfold provider_actual_cost_window in H.
  apply rbind_Ok in H as (q & Hq%at_least_zero_usd_Ok & (s' & _ & [= E])%rbind_Ok). by rewrite <- E.
Qed.

Lemma billed_window acts v : Forall valid_actual acts -> billed acts v <> 0 -> stripped_window v.
Proof.
  intros Ha Hb. destruct (decide (v ∈ pa_window <$> acts)) as [(a & -> & Hin)%list_elem_of_fmap|Hn].
  - rewrite Forall_forall in Ha. destruct (Ha a Hin) as [(c & p & Hw) _]. by apply constructed_window in Hw as [_ ?].
  - exfalso. apply Hb. by apply (window_sum_absent pa_window pa_actual).
Qed.
Lemma settled_ok f acts t L L' adjs ws :
  ledger_ok L -> Forall valid_actual acts -> (forall v, f v = 0 \/ f v = cost_of L v) -> 0 <= t ->
  Forall2 (adjusts f (billed acts)) adjs ws -> NoDup ws -> (forall v, v ∈ ws -> differs t f (billed acts) v) ->
  apply_all adjs L = Some L' -> ledger_ok L'.
Proof.
  intros HL Ha Hf Ht H2 Hn Hin Hall v r Hr. destruct (adjusted_table _ _ _ _ _ _ H2 Hn Hall) as [Hout Hset].
  destruct (decide (v ∈ ws)) as [Hv|Hv]; [|rewrite Hout in Hr by done; by apply HL].
  destruct (Hset v Hv) as [E Hfit]. rewrite E in Hr. injection Hr as <-. split; [|exact Hfit].
  destruct (decide (billed acts v = 0)) as [E0|]; [|by eapply billed_window].
  destruct (L !! v) as [r|] eqn:Ev; [by apply (HL v r)|]. exfalso. specialize (Hin v Hv). unfold differs in Hin.
  destruct (Hf v) as [Ef|Ef]; rewrite Ef in Hin; unfold cost_of in Hin; rewrite ?Ev in Hin; lia.
Qed.

(** ** The rollup *)

Lemma set_rolled rows ws (L : ledger) v :
  foldl (fun l w => <[w := rolled rows w]> l) L ws !! v = if bool_decide (v ∈ ws) then Some (rolled rows v) else L !! v.
Proof.
  revert L. induction ws as [|x ws IH]; intros L; cbn [foldl].
  { case_bool_decide as E; [by apply elem_of_nil in E|done]. }
  rewrite IH. destruct (decide (v ∈ ws)) as [Hv|Hv].
  - rewrite !bool_decide_true; [done|by right|done].
  - rewrite (bool_decide_false (v ∈ ws)) by done. destruct (decide (v = x)) as [->|Hne].
    + rewrite bool_decide_true by left. by rewrite lookup_insert_eq.
    + rewrite bool_decide_false by (rewrite not_elem_of_cons; done). by rewrite lookup_insert_ne.
Qed.
Lemma aggregate_lookup rows L L' :
  aggregate_daily rows L = Some L' ->
  forall v, L' !! v = if bool_decide (v ∈ rows.*1) then Some (rolled rows v) else L !! v.
Proof.
  unfold aggregate_daily. destruct (forallb _ _); [|done]. intros [= <-] v. rewrite set_rolled.
  by rewrite (bool_decide_ext _ (v ∈ rows.*1)) by apply elem_of_dedup.
Qed.

(** Every row falls in exactly one of distinct windows that cover all. *)
Lemma grouped_count (rows : list (CostReconcileWindow * option dec)) ws :
  NoDup ws -> (forall r, r ∈ rows -> r.1 ∈ ws) ->
  zsum ((fun v => lr_count (rolled rows v)) <$> ws) = Z.of_nat (length rows).
Proof.
  intros Hn. induction rows as [|r rows IH]; intros Hin.
  { clear. unfold zsum. induction ws as [|x ws IH]; [done|]. rewrite fmap_cons. cbn [foldr]. by rewrite IH. }
  assert (forall vs, NoDup vs -> zsum ((fun v => lr_count (rolled (r :: rows) v)) <$> vs) =
            (if bool_decide (r.1 ∈ vs) then 1 else 0) + zsum ((fun v => lr_count (rolled rows v)) <$> vs)) as Hstep.
  { clear. unfold zsum, rolled. cbn [lr_count]. induction vs as [|x vs IH]; csimpl; [done|].
    intros [Hx Hn]%NoDup_cons. rewrite IH by done. rewrite filter_cons. destruct (decide (r.1 = x)) as [E|E].
    - subst x. rewrite (bool_decide_true (_ ∈ r.1 :: _)) by left. rewrite bool_decide_false by done. csimpl. lia.
    - destruct (decide (r.1 ∈ vs)); [rewrite !bool_decide_true by (try right; done); lia|].
      rewrite !bool_decide_false by (try rewrite not_elem_of_cons; done). lia. }
  rewrite Hstep by done. rewrite IH by (intros x Hx; apply Hin; by right).
  rewrite bool_decide_true by (apply Hin; left). csimpl. lia.
Qed.
Lemma counted_once rows : zsum ((fun v => lr_count (rolled rows v)) <$> dedup rows.*1) = Z.of_nat (length rows).
Proof.
  apply grouped_count; [apply NoDup_dedup|]. intros r Hr. apply elem_of_dedup. by apply list_elem_of_fmap_2.
Qed.

Lemma run_rollup_cases {F} `{CostDeps F} (w w' : cost_world F) r :
  run_rollup None w = (w', r) ->
  let t := cw_tables w in let t' := cw_tables w' in
  ct_db t' = ct_db t /\ ct_registry t' = ct_registry t /\
  (aggregate_daily (joined (ct_registry t) (ct_db t)) (ct_ledger t) = Some (ct_ledger t') \/
   is_ok r = false /\ ct_ledger t' = ct_ledger t).
Proof.
  cbv zeta. unfold run_rollup, bind. intros H1. destruct w as [[l vl db reg vs] o]. unfold execute at 1 in H1.
  cbn [cw_outside cw_tables ct_registry ct_db ct_ledger] in *. destruct (statement o) as [o1 []]; [|injection H1 as <- <-; by auto].
  destruct (aggregate_daily _ l) as [L|] eqn:E; [|injection H1 as <- <-; by auto].
  cbn [mbind option_bind] in H1. unfold execute, with_ledger in H1. cbn [cw_outside cw_tables ct_registry ct_db ct_ledger] in H1.
  destruct (statement o1) as [o2 []]; [|injection H1 as <- <-; by auto].
  cbn [ct_volumes ct_volume_ledger] in H1. destruct (accrue_volumes _ _ _); injection H1 as <- <-; by auto.
Qed.

(** Properties *)


(** The rollup sets the row of every window with ended workloads to their
    number and the sum of their costs, whatever the row was before, leaves
    every other row alone, and counts each ended workload once.  A run that
    fails has done this or nothing to the ledger; a second run changes no
    row.  In particular the corrections of a truth-up are gone after it. *)
Theorem rollup_rebuilds_ledger {F} `{CostDeps F} (w w' : cost_world F) (r : result cost_error unit) :
  run_rollup None w = (w', r) ->
  let t := cw_tables w in let t' := cw_tables w' in let rows := joined (ct_registry t) (ct_db t) in
  ct_db t' = ct_db t /\ ct_registry t' = ct_registry t /\
  zsum ((fun v => lr_count (rolled rows v)) <$> dedup rows.*1) = Z.of_nat (length rows) /\
  let rebuilt := forall v, ct_ledger t' !! v = if bool_decide (v ∈ rows.*1) then Some (rolled rows v) else ct_ledger t !! v in
  (is_ok r = true -> rebuilt) /\ (rebuilt \/ ct_ledger t' = ct_ledger t) /\
  forall w'' r', run_rollup None w' = (w'', r') -> is_ok r = true -> ct_ledger (cw_tables w'') = ct_ledger t'.
Proof.
  intros Hrun. cbv zeta. destruct (run_rollup_cases _ _ _ Hrun) as (Hdb & Hreg & Hall).
  split; [done|]. split; [done|]. split; [apply counted_once|]. split; [|split].
  - intros Hr. destruct Hall as [Hb|[E _]]; [by apply aggregate_lookup|congruence].
  - destruct Hall as [Hb|[_ Hk]]; [left; by apply aggregate_lookup|by right].
  - intros w'' r' Hrun' Hr. destruct Hall as [Hb|[E _]]; [|congruence].
    destruct (run_rollup_cases _ _ _ Hrun') as (_ & _ & [Hb'|[_ Hk']]); [|done].
    rewrite Hdb, Hreg in Hb'. apply map_eq. intros v.
    rewrite (aggregate_lookup _ _ _ Hb'), (aggregate_lookup _ _ _ Hb). by case_bool_decide.
Qed.

(** One day of a lane: two ended workloads, what the provider billed. *)
Module LedgerSim.
#[local] Instance script_deps : CostDeps (list bool) := {
  statement o := match o with [] => ([], true) | b :: o' => (o', b) end;
  current_date _ := 20455 }.
Definition noon (d : Z) : datetime := utc (d * us_per_day + us_per_day / 2).
Definition capability (i : string) (k : CapabilityClass) : Capability :=
  MkCapability i i "v1" k None [] [] (MkDefaults 60000 60000 SYNC) PER_SECOND [] API None true (utc 0) (utc 0).
Definition provider (i c : string) (t : ProviderType) : Provider :=
  MkProvider i c i t None None None None [] 1 true "healthy" 0 0 None None (of_Z 0) None "api" None (utc 0).
Definition ended (i state : string) (d cents : Z) : dict :=
  [("id", VStr i); ("capability_id", VStr "cap"); ("provider_id", VStr "prov"); ("state", VStr state);
   ("submitted_at", VTime (noon d)); ("cost_actual_usd", VDec (DFin (Dec cents (-2))))].
Definition reg : registry :=
  MkRegistry {["cap" := capability "cap" LLM]} {["prov" := provider "prov" "cap" POD_LEASE]} [].
Definition rows : list (string * dict) :=
  [("w1", ended "w1" "completed" 20454 150); ("w2", ended "w2" "failed" 20454 50); ("w3", ended "w3" "running" 20454 900)].
Definition tables_with (l : ledger) (ws : list (string * dict)) : cost_tables :=
  MkCostTables l ∅ (MkWorkloadDb (list_to_map ws) ∅) reg {["vol" := MkVolume 100 None]}.
Definition world_with (l : ledger) (ws : list (string * dict)) (o : list bool) : cost_world (list bool) :=
  MkCostWorld (tables_with l ws) o.
Definition lane : CostReconcileWindow := MkCostWindow 20454 "llm" "pod_lease".
Definition bill (micros : Z) : ProviderActualCostWindow := MkActual lane (micro micros) "invoice".
Definition costs (w : cost_world (list bool)) : list (CostReconcileWindow * Z) :=
  (fun kv => (kv.1, lr_micros kv.2)) <$> map_to_list (ct_ledger (cw_tables w)).
Definition after {A} (m : eff (cost_world (list bool)) cost_error A) (w : cost_world (list bool)) := (m w).1.

Definition rolled_up : cost_world (list bool) := after (run_rollup None) (world_with ∅ rows []).
Definition settling : cost_world (list bool) * result cost_error CostReconcilePlan :=
  truth_up_cost_daily 20454 20455 [bill 1000000; bill 250000] (DFin ZERO_USD) rolled_up.
Definition settled : cost_world (list bool) := settling.1.

Example rolled_up_ex : costs rolled_up = [(lane, 2000000)].
Proof. vm_compute. reflexivity. Qed.
Example volume_ex : vr_micros <$> ct_volume_ledger (cw_tables rolled_up) !! (20455, "vol") = Some 233333.
Proof. vm_compute. reflexivity. Qed.
Example settled_ex : costs settled = [(lane, 1250000)].
Proof. vm_compute. reflexivity. Qed.
Example tolerated_ex :
  costs (after (truth_up_cost_daily 20454 20455 [bill 1999999] (DFin (micro 1))) rolled_up) = [(lane, 2000000)].
Proof. vm_compute. reflexivity. Qed.
Definition undone : cost_world (list bool) * result cost_error unit := run_rollup None settled.
(** The next rollup writes the recorded cost over the billed one. *)
Example rollup_undoes_truth_up_ex : costs undone.1 = [(lane, 2000000)].
Proof. vm_compute. reflexivity. Qed.
(** When retention has purged one of the workloads of a day, the next rollup
    takes its cost out of the ledger. *)
Example rollup_after_purge_ex :
  costs (after (run_rollup None) (world_with (ct_ledger (cw_tables rolled_up)) (drop 1 rows) [])) = [(lane, 500000)].
Proof. vm_compute. reflexivity. Qed.
(** A lane nobody billed is taken for one that cost nothing. *)
Example unbilled_lane_ex : costs (after (truth_up_cost_daily 20454 20455 [] (DFin ZERO_USD)) rolled_up) = [(lane, 0)].
Proof. vm_compute. reflexivity. Qed.
Example failed_write_ex :
  (truth_up_cost_daily 20454 20455 [bill 1] (DFin ZERO_USD) (world_with (ct_ledger (cw_tables rolled_up)) rows [true; false])).2 =
    Err CostDatabase.
Proof. vm_compute. reflexivity. Qed.
Lemma rolled_up_ok : ledger_ok (ct_ledger (cw_tables rolled_up)).
Proof.
  apply map_Forall_to_list.
  assert (map_to_list (ct_ledger (cw_tables rolled_up)) = [(lane, MkLedgerRow 2 2000000)]) as -> by (vm_compute; reflexivity).
  constructor; [|constructor]. split; vm_compute; reflexivity.
Qed.
Lemma bill_valid z : 0 <= z < micro_limit -> valid_actual (bill z).
Proof.
  intros Hz. split; [exists "llm", "pod_lease"; vm_compute; reflexivity|]. exists (DFin (micro z)), "invoice".
  unfold provider_actual_cost_window. by rewrite at_least_zero_usd_micro.
Qed.
Lemma bills_valid : Forall valid_actual [bill 1000000; bill 250000].
Proof. apply Forall_cons_2; [|apply Forall_cons_2; [|apply Forall_nil_2]]; apply bill_valid; unfold micro_limit; lia. Qed.
Lemma settling_run : truth_up_cost_daily 20454 20455 [bill 1000000; bill 250000] (DFin ZERO_USD) rolled_up = (settling.1, settling.2).
Proof. apply surjective_pairing. Qed.
Lemma settling_returned : exists plan, settling.2 = Ok plan /\ length (adjustments plan) = 1%nat.
Proof. eexists. split; [vm_compute; reflexivity|reflexivity]. Qed.
Lemma undone_run : run_rollup None settled = (undone.1, undone.2).
Proof. apply surjective_pairing. Qed.
End LedgerSim.


Lemma rollup_rebuilds_ledger_witness :
  ct_ledger (cw_tables LedgerSim.undone.1) !! LedgerSim.lane = Some (MkLedgerRow 2 2000000).
Proof.
  pose proof (rollup_rebuilds_ledger _ _ _ LedgerSim.undone_run) as (_ & _ & _ & Hr & _).
  specialize (Hr ltac:(vm_compute; reflexivity) LedgerSim.lane). rewrite Hr. vm_compute. reflexivity.
Defined.
