(* ===== verification/Alerts.v ===== *)
(** * Cost alerts ([cost/alerts.py], [cost/threshold_alerts.py], [cost/notifications.py], [cost/hibernate_alerts.py])

    The monthly budget alert after the daily rollup, the crossing of budget
    thresholds, and the daily sweep over load-balanced endpoints that should
    be asleep, with the notifiers that carry them.  [AlertDeps] is the
    clocks, the databases, the Redis server, the endpoint reads and Resend;
    [environ] is the environment.  Log lines other than alerts are left out. *)

From Stdlib Require Import Ascii SpecFloat.
From S2P Require Import Registry.
From S2P Require Import Prelude PyDecimal PyFloat PyValue PyEq PyTime PyFormat PyJson PyJsonRead PyOrder.
From S2P Require Import Effects Enums Provider WorkloadStore Retention CostLedger.

(** Definitions *)

(** ** The world *)

Record email : Type := MkEmail { em_from : string; em_to : string; em_subject : string; em_text : string }.
(** The answer to an email; a missing module has a name and a text. *)
Inductive resend_outcome := Sent (id : option pyval) | ModuleMissing (name text : string) | SendRaised (text : string).

Class AlertDeps (F : Type) := {
  alert_statement : F -> F * bool;
  alert_date : F -> Z;
  wall_clock : F -> F * datetime;
  redis_answers : F -> F * bool;
  redis_time : F -> Z;
  send_email : email -> F -> F * resend_outcome;
  read_endpoint : string -> F -> F * option pyval }.

(** Redis keys with their expiry, the table [alert_events], the emails Resend
    was asked to send and the alerts written to the log, latest first. *)
Record alert_world (F : Type) : Type := MkAlertWorld {
  al_redis : gmap string (string * option Z); al_events : gmap (string * Z) datetime;
  al_emails : list email; al_log : list (string * string); al_outside : F }.
Arguments MkAlertWorld {F}.
Arguments al_redis {F}.
Arguments al_events {F}.
Arguments al_emails {F}.
Arguments al_log {F}.
Arguments al_outside {F}.

Definition set_outside {F} (a : alert_world F) (o : F) : alert_world F :=
  MkAlertWorld (al_redis a) (al_events a) (al_emails a) (al_log a) o.
#[global] Instance alert_cost_deps {F} `{AlertDeps F} : CostDeps (alert_world F) := {
  statement a := let '(o, b) := alert_statement (al_outside a) in (set_outside a o, b);
  current_date a := alert_date (al_outside a) }.

Record NotificationResult : Type := MkNotification {
  n_threshold_pct : option Z; n_email_id : option string; n_error : option string; n_ok : bool }.
Definition delivered (id : option string) : NotificationResult := MkNotification None id None true.
Definition not_delivered (e : string) : NotificationResult := MkNotification None None (Some e) false.

(** ** Texts *)

Definition nl : string := String (ascii_of_nat 10) EmptyString.
(** [format(f, ".nf")] *)
Definition fmt_float (n : nat) (f : float) : string :=
  match float_exact f with DFin d => fmt_fixed n d | DInf s => if s then "-inf" else "inf" | DNaN => "nan" end.
(** [f >= z] *)
Definition float_at_least (f : float) (z : Z) : bool :=
  match float_exact f with DFin d => dleb (of_int z) d | DInf s => negb s | DNaN => false end.
(** [t.strftime("%Y-%m")] *)
Definition month_of (t : datetime) : Z * Z := let '(y, m, _) := civil_from_days (dt_us t / us_per_day) in (y, m).
Definition month_name (t : datetime) : string := let '(y, m) := month_of t in str_int y +:+ "-" +:+ pad_left 2 (str_int m).

Section Alerts.
Context {F : Type} `{AlertDeps F} (environ : string -> option string).
Abbreviation op := (eff (cost_world (alert_world F)) cost_error).

Definition on_alerts {A} (f : alert_world F -> alert_world F * A) : op A :=
  fun w => let '(a, x) := f (cw_outside w) in (MkCostWorld (cw_tables w) a, Ok x).
Definition ask {A} (f : F -> F * A) : op A := on_alerts (fun a => let '(o, x) := f (al_outside a) in (set_outside a o, x)).

(** ** Notifiers *)

Inductive notifier :=
| LogNotifier
| ResendNotifier (api_key sender recipient : option string)
| CustomNotifier (send : string -> string -> F -> F * result string NotificationResult).

(** [_get_first_env] *)
Fixpoint get_first_env (names : list string) : string :=
  match names with
  | [] => EmptyString
  | n :: names' => match environ n with Some (String _ _ as v) => v | _ => get_first_env names' end
  end.
(** [given or fallback] *)
Definition given_or (o : option string) (fallback : string) : string :=
  match o with Some (String _ _ as v) => v | _ => fallback end.
Definition get_notifier : notifier :=
  if nonempty (get_first_env ["RESEND_API_KEY"]) then ResendNotifier None None None else LogNotifier.

(** [_extract_email_id] *)
Definition extract_email_id (id : option pyval) : option string :=
  match id with Some VNone | None => None | Some v => Some (py_str v) end.
Definition missing_module (name text : string) : string :=
  if String.eqb name "resend" || str_contains "resend" text
  then "resend package is not installed; install pitwall[email] to enable email" else text.

(** [ResendNotifier.send] *)
Definition resend_send (api_key sender recipient : option string) (subject body : string) : op NotificationResult :=
  let key := given_or api_key (default EmptyString (environ "RESEND_API_KEY")) in
  if negb (nonempty key) then ret (not_delivered "RESEND_API_KEY environment variable is not set") else
  let from := given_or sender (get_first_env ["PITWALL_ALERT_FROM"; "RESEND_SENDER_EMAIL"]) in
  if negb (nonempty from)
  then ret (not_delivered "PITWALL_ALERT_FROM environment variable is not set (fallback RESEND_SENDER_EMAIL is also unset)") else
  let to := given_or recipient (get_first_env ["PITWALL_ALERT_TO"; "RESEND_BUDGET_ALERT_EMAIL"]) in
  if negb (nonempty to)
  then ret (not_delivered "PITWALL_ALERT_TO environment variable is not set (fallback RESEND_BUDGET_ALERT_EMAIL is also unset)") else
  let m := MkEmail from to subject body in
  on_alerts (fun a =>
    let '(o, out) := send_email m (al_outside a) in
    match out with
    | ModuleMissing name text => (set_outside a o, not_delivered (missing_module name text))
    | SendRaised text => (MkAlertWorld (al_redis a) (al_events a) (m :: al_emails a) (al_log a) o, not_delivered text)
    | Sent id => (MkAlertWorld (al_redis a) (al_events a) (m :: al_emails a) (al_log a) o, delivered (extract_email_id id))
    end).
(** [LogNotifier.send] *)
Definition log_send (subject body : string) : op NotificationResult :=
  on_alerts (fun a => (MkAlertWorld (al_redis a) (al_events a) (al_emails a) ((subject, body) :: al_log a) (al_outside a), delivered None)).
(** The [try] around [(notifier or get_notifier()).send]. *)
Definition notify (n : option notifier) (subject body : string) : op NotificationResult :=
  match default get_notifier n with
  | LogNotifier => log_send subject body
  | ResendNotifier k s r => resend_send k s r subject body
  | CustomNotifier send => do! r := ask (send subject body) in
                           ret (match r with Ok x => x | Err text => not_delivered text end)
  end.

(** ** The monthly budget alert *)

Definition BUDGET_ALERT_THRESHOLD : Z := 80.
Definition BUDGET_ALERT_TTL_SECONDS : Z := 45 * 24 * 60 * 60.
Definition alert_key (month : string) (threshold_pct : Z) : string :=
  "pitwall:budget-alert:" +:+ month +:+ ":" +:+ str_int threshold_pct.

Record BudgetAlertResult : Type := MkBudgetAlert {
  ba_mtd_spend_usd : dec; ba_monthly_budget_usd : pydec; ba_budget_pct : float;
  ba_email_sent : bool; ba_email_id : option string; ba_error : option string; ba_skipped_duplicate : bool }.

(** [_get_monthly_budget] *)
Definition get_monthly_budget : py pydec :=
  match environ "PITWALL_MONTHLY_BUDGET_USD" with
  | Some (String _ _ as v) => match parse_decimal v with Some d => Ok d | None => Err DecimalInvalidOperation end
  | _ => Err (ValueError "PITWALL_MONTHLY_BUDGET_USD environment variable is not set")
  end.
Definition not_positive (d : pydec) : py bool :=
  match d with DFin d => Ok (dleb d dzero) | DInf s => Ok s | DNaN => Err DecimalInvalidOperation end.

(** [_compute_mtd_spend]: the rows of the month and what they add up to. *)
Definition ALERT_STATES : list string := ["queued"; "running"; "completed"].
Definition row_cost (row : dict) : option dec :=
  match dict_get_none "cost_actual_usd" row with VDec (DFin d) => Some d | _ => None end.
Definition month_rows (now : datetime) (db : workload_db) : list dict :=
  filter (fun row => month_of (utc (submitted row)) = month_of now /\ state_of row ∈ ALERT_STATES) (map_to_list (workloads db)).*2.
Definition mtd_total (now : datetime) (db : workload_db) : dec := exact_sum (row_cost <$> month_rows now db).
Definition compute_mtd_spend (now : datetime) : op dec :=
  if dt_aware now then query (fun t => mtd_total now (ct_db t)) else fail CostDatabase.
Definition budget_pct_of (spend : dec) (budget : pydec) : py float :=
  match budget with
  | DFin b => let? q := ddiv spend b in let? p := dmul q (of_int 100) in Ok (of_dec p)
  | _ => Ok fzero
  end.

(** A client whose calls answer, and one whose calls return an awaitable that
    is never awaited. *)
Inductive redis_client := SyncRedis | AsyncRedis.
Definition redis_command {A} (f : gmap string (string * option Z) -> Z -> gmap string (string * option Z) * A) : op A :=
  fun w => let a := cw_outside w in let '(o, ok) := redis_answers (al_outside a) in
           if ok : bool then
             let '(r, x) := f (al_redis a) (redis_time (al_outside a)) in
             (MkCostWorld (cw_tables w) (MkAlertWorld r (al_events a) (al_emails a) (al_log a) o), Ok x)
           else (MkCostWorld (cw_tables w) (set_outside a o), Err CostRedis).
Definition alive (r : gmap string (string * option Z)) (t : Z) (key : string) : option string :=
  match r !! key with
  | Some (v, Some e) => if t <? e then Some v else None
  | Some (v, None) => Some v
  | None => None
  end.
(** [bool(redis_client.exists(key))] *)
Definition redis_exists (c : redis_client) (key : string) : op bool :=
  match c with
  | AsyncRedis => ret true
  | SyncRedis => redis_command (fun r t => (r, bool_decide (is_Some (alive r t key))))
  end.
Definition redis_set (c : redis_client) (key value : string) (ttl_seconds : Z) : op unit :=
  match c with
  | AsyncRedis => ret tt
  | SyncRedis => redis_command (fun r t => (<[key := (value, Some (t + td_seconds ttl_seconds))]> r, tt))
  end.

(** [_send_budget_notification] *)
Definition budget_subject (pct : float) : string := "[Pitwall] Budget alert: " +:+ fmt_float 1 pct +:+ "% of monthly budget".
Definition budget_body (spend : dec) (budget : pydec) (pct : float) : string :=
  "Budget Alert: 80% threshold crossed" +:+ nl +:+ nl +:+ "Spend: $" +:+ fmt_fixed 2 spend +:+ nl +:+
  "Budget: $" +:+ (match budget with DFin b => fmt_fixed 2 b | _ => str_dec budget end) +:+ nl +:+
  "Percent: " +:+ fmt_float 1 pct +:+ "%" +:+ nl +:+ "Threshold: 80%".

(** From the crossing on: not twice a month, and remembered once sent. *)
Definition send_unless_sent (c : redis_client) (n : option notifier) (t : datetime) (spend : dec) (budget : pydec) (pct : float)
  : op BudgetAlertResult :=
  let key := alert_key (month_name t) BUDGET_ALERT_THRESHOLD in
  do! already := redis_exists c key in
  if already : bool then ret (MkBudgetAlert spend budget pct false None None true) else
  do! sent := notify n (budget_subject pct) (budget_body spend budget pct) in
  (if n_ok sent then redis_set c key (given_or (n_email_id sent) "ok") BUDGET_ALERT_TTL_SECONDS else ret tt) ;!
  ret (MkBudgetAlert spend budget pct (n_ok sent) (n_email_id sent) (n_error sent) false).

Definition check_and_send_budget_alert (c : redis_client) (now : option datetime) (n : option notifier) : op BudgetAlertResult :=
  do! t := match now with Some t => ret t | None => ask wall_clock end in
  do! budget := lift (rlift CostExn get_monthly_budget) in
  do! bad := lift (rlift CostExn (not_positive budget)) in
  if bad : bool
  then ret (MkBudgetAlert dzero budget fzero false None (Some "Monthly budget is not positive") false) else
  do! spend := compute_mtd_spend t in
  do! pct := lift (rlift CostExn (budget_pct_of spend budget)) in
  if float_at_least pct BUDGET_ALERT_THRESHOLD then send_unless_sent c n t spend budget pct
  else ret (MkBudgetAlert spend budget pct false None None false).

(** [_rollup_job] with a pool; [suppress(Exception)] around the alert. *)
Definition suppressed (m : op unit) : op unit := fun w => ((m w).1, Ok tt).
Definition after_rollup_hook (redis : option redis_client) : op unit :=
  match redis with
  | None => ret tt
  | Some c => suppressed (do! _ := check_and_send_budget_alert c None None in ret tt)
  end.
Definition rollup_job (redis : option redis_client) : op unit := run_rollup (Some (after_rollup_hook redis)).

(** ** Threshold crossings *)

Definition DEFAULT_THRESHOLDS : list Z := [50; 75; 90].
Record ThresholdCrossing : Type := MkCrossing { tc_threshold_pct : Z; tc_spend_usd : float; tc_budget_usd : float; tc_budget_pct : float }.
Definition crossing_pct (spend budget : float) : py float :=
  if is_zero_float budget then Ok fzero else let? q := fdiv spend budget in Ok (fmul q (of_Z 100)).
Definition recorded_thresholds (month : string) (events : gmap (string * Z) datetime) : list Z :=
  (fun kv => kv.1.2) <$> filter (fun kv => kv.1.1 = month) (map_to_list events).
Definition crossed (pct : float) (recorded : list Z) (threshold : Z) : Prop :=
  threshold ∉ recorded /\ float_at_least pct threshold = true.
#[global] Instance crossed_dec pct recorded threshold : Decision (crossed pct recorded threshold).
Proof. unfold crossed. apply _. Defined.
Definition read_events {A} (f : gmap (string * Z) datetime -> A) : op A :=
  fun w => let '(a, ok) := statement (cw_outside w) in
           (MkCostWorld (cw_tables w) a, if ok : bool then Ok (f (al_events (cw_outside w))) else Err CostDatabase).
Definition evaluate_crossings (budget_usd : float) (thresholds : option (list Z)) (now : option datetime) : op (list ThresholdCrossing) :=
  match default DEFAULT_THRESHOLDS thresholds with
  | [] => ret []
  | ts =>
      do! t := match now with Some t => ret t | None => ask wall_clock end in
      do! total := compute_mtd_spend t in
      let spend := of_dec total in
      do! recorded := read_events (recorded_thresholds (month_name t)) in
      do! pct := lift (rlift CostExn (crossing_pct spend budget_usd)) in
      ret ((fun z => MkCrossing z spend budget_usd pct) <$> filter (crossed pct recorded) ts)
  end.

(** The insert of one crossing; the column is an [INTEGER]. *)
Definition insert_event (month : string) (t : datetime) (threshold : Z) : op unit :=
  fun w => let '(a, ok) := statement (cw_outside w) in
           if ok && int4 threshold && dt_aware t then
             let events := match al_events a !! (month, threshold) with
                           | Some _ => al_events a
                           | None => <[(month, threshold) := t]> (al_events a)
                           end in
             (MkCostWorld (cw_tables w) (MkAlertWorld (al_redis a) events (al_emails a) (al_log a) (al_outside a)), Ok tt)
           else (MkCostWorld (cw_tables w) a, Err CostDatabase).
Definition record_crossings (cs : list ThresholdCrossing) (now : option datetime) : op unit :=
  match cs with
  | [] => ret tt
  | _ =>
      do! t := match now with Some t => ret t | None => ask wall_clock end in
      do! _ := traverse (fun c => insert_event (month_name t) t (tc_threshold_pct c)) cs in
      ret tt
  end.

(** [_build_email_subject], [_build_email_body], [send_threshold_email] *)
Definition crossing_body (c : ThresholdCrossing) : string :=
  "Budget Alert: " +:+ str_int (tc_threshold_pct c) +:+ "% threshold crossed" +:+ nl +:+ nl +:+
  "Spend: $" +:+ fmt_float 2 (tc_spend_usd c) +:+ nl +:+ "Budget: $" +:+ fmt_float 2 (tc_budget_usd c) +:+ nl +:+
  "Percent: " +:+ fmt_float 1 (tc_budget_pct c) +:+ "%" +:+ nl +:+ "Threshold: " +:+ str_int (tc_threshold_pct c) +:+ "%".
Definition send_threshold_email (n : option notifier) (c : ThresholdCrossing) : op NotificationResult :=
  do! r := notify n (budget_subject (tc_budget_pct c)) (crossing_body c) in
  ret (MkNotification (Some (tc_threshold_pct c)) (n_email_id r) (n_error r) (n_ok r)).
Definition send_crossing_notifications (cs : list ThresholdCrossing) : op (list NotificationResult) :=
  traverse (send_threshold_email None) cs.
End Alerts.

(** ** The hibernation sweep ([_lb_endpoint_hibernate_sweep]) *)

Definition HIBERNATE_SWEEP_WARM_THRESHOLD_HOURS : Z := 24.
Definition L14_DAILY_BURN_PER_WORKER_USD : float := of_Z 100.

Record HibernateSweepAlert : Type := MkHibernate {
  ha_provider_id : string; ha_provider_name : string; ha_endpoint_id : string;
  ha_workers_min : pyval; ha_duration_hours : float; ha_burn_estimate_usd : float }.
Record HibernateAlertResult : Type := MkHibernateResult {
  hr_provider_id : string; hr_endpoint_id : string; hr_email_id : option string; hr_error : option string }.

(** [v > 0], and the product with the burn of a worker. *)
Definition above_zero (v : pyval) : py bool :=
  match v with
  | VBool b => Ok b
  | VInt z => Ok (0 <? z)
  | VFloat f => Ok (fltb fzero f)
  | _ => Err (TypeError "'>' not supported between instances")
  end.
Definition burn_estimate (v : pyval) : py float :=
  let? f := py_float v in Ok (fmul L14_DAILY_BURN_PER_WORKER_USD f).

(** [json.dumps] of a flat object. *)
Definition dump_flat (m : dict) : py string :=
  let? items := mapR (fun kv => let? j := to_json false true kv.2 in Ok (json_str true kv.1 +:+ ": " +:+ render true j)) m in
  Ok ("{" +:+ String.concat ", " items +:+ "}").

(** What the previous observation adds: the hours since it was made, when it
    and the current one show workers. *)
Definition previous_observation (text : string) : option dict :=
  match loads text with Ok (VDict m) => Some m | _ => None end.
Definition continuous_warm_hours (now : datetime) (current : pyval) (text : string) : option float :=
  prev ← previous_observation text;
  match above_zero (default (VInt 0) (dict_get "workers_min" prev)), above_zero current with
  | Ok true, Ok true =>
      t ← match dict_get "observed_at" prev with Some (VStr s) => fromisoformat s | _ => None end;
      match total_seconds (dt_us now - dt_us t) with
      | Ok s => match fdiv s (of_Z 3600) with Ok h => Some h | Err _ => None end
      | Err _ => None
      end
  | _, _ => None
  end.
Definition observation (now : datetime) (current : pyval) (hours : option float) : dict :=
  [("workers_min", current); ("observed_at", VStr (isoformat now))] ++
  match hours with Some h => [("continuous_warm_hours", VFloat h)] | None => [] end.
(** The alert after the observation. *)
Definition hibernate_alert (p : Provider) (endpoint_id : string) (current : pyval) (hours : option float)
  : py (option HibernateSweepAlert) :=
  let? warm := above_zero current in
  let h := default fzero hours in
  if warm && float_at_least h HIBERNATE_SWEEP_WARM_THRESHOLD_HOURS then
    let? burn := burn_estimate current in
    Ok (Some (MkHibernate (p_id p) (p_name p) endpoint_id current h burn))
  else Ok None.

(** [_build_alert_subject], [_build_alert_body] *)
Definition hibernate_subject (a : HibernateSweepAlert) : string :=
  "[Pitwall] L14 Alert: " +:+ ha_provider_name a +:+ " endpoint " +:+ ha_endpoint_id a +:+ " has workersMin=" +:+
  py_str (ha_workers_min a).
Definition total_burn (a : HibernateSweepAlert) : py float :=
  let? days := fdiv (ha_duration_hours a) (of_Z 24) in Ok (fmul (ha_burn_estimate_usd a) days).
Definition hibernate_body (a : HibernateSweepAlert) : py string :=
  let? total := total_burn a in
  Ok ("L14 Hibernate Sweep Alert: Endpoint needs attention" +:+ nl +:+ nl +:+
      "Provider: " +:+ ha_provider_name a +:+ " (" +:+ ha_provider_id a +:+ ")" +:+ nl +:+
      "Endpoint: " +:+ ha_endpoint_id a +:+ nl +:+ "Workers Min: " +:+ py_str (ha_workers_min a) +:+ nl +:+
      "Duration: " +:+ fmt_float 1 (ha_duration_hours a) +:+ " hours" +:+ nl +:+
      "Burn Estimate: $" +:+ fmt_float 2 (ha_burn_estimate_usd a) +:+ "/day" +:+ nl +:+
      "Total Burn: $" +:+ fmt_float 2 total +:+ nl).

Section Sweep.
Context {F : Type} `{AlertDeps F} (environ : string -> option string).
Abbreviation op := (eff (cost_world (alert_world F)) cost_error).

Definition send_hibernate_sweep_alert (a : HibernateSweepAlert) (n : option (notifier (F:=F))) : op HibernateAlertResult :=
  match hibernate_body a with
  | Err _ => ret (MkHibernateResult (ha_provider_id a) (ha_endpoint_id a) None (Some "float division by zero"))
  | Ok body =>
      do! r := notify environ n (hibernate_subject a) body in
      ret (if n_ok r then MkHibernateResult (ha_provider_id a) (ha_endpoint_id a) (n_email_id r) None
           else MkHibernateResult (ha_provider_id a) (ha_endpoint_id a) None (n_error r))
  end.

(** [_LB_HIBERNATE_SWEEP_PROVIDERS_SQL] *)
Definition sweep_providers (reg : registry) : list Provider :=
  filter (fun p => p_enabled p = true /\ is_Some (p_runpod_endpoint_id p) /\ p_provider_type p = SERVERLESS_LB)
    (map_to_list (providers reg)).*2.
Definition observation_key (provider_id : string) : string := "pitwall:hibernate_sweep:workers_min:" +:+ provider_id.

(** Reading and replacing the observation; any exception ends it, with the
    hours it has added by then. *)
Definition observe (now : datetime) (p : Provider) (current : pyval) : op (option float) :=
  fun w =>
    match redis_command (fun r t => (r, alive r t (observation_key (p_id p)))) w with
    | (w', Err _) => (w', Ok None)
    | (w', Ok existing) =>
        let hours := match existing with Some (String _ _ as text) => continuous_warm_hours now current text | _ => None end in
        match dump_flat (observation now current hours) with
        | Err _ => (w', Ok hours)
        | Ok text =>
            ((redis_command (fun r t => (<[observation_key (p_id p) := (text, Some (t + td_seconds (86400 * 7)))]> r, tt)) w').1, Ok hours)
        end
    end.
Definition sweep_one (redis : bool) (p : Provider) : op unit :=
  match p_runpod_endpoint_id p with
  | Some (String _ _ as endpoint_id) =>
      do! answer := ask (read_endpoint endpoint_id) in
      match answer with
      | Some (VDict data) =>
          let current := default (VInt 0) (dict_get "workersMin" data) in
          if redis then
            do! now := ask wall_clock in
            do! hours := observe now p current in
            do! alert := lift (rlift CostExn (hibernate_alert p endpoint_id current hours)) in
            match alert with
            | Some a => do! _ := send_hibernate_sweep_alert a None in ret tt
            | None => ret tt
            end
          else ret tt
      | _ => ret tt
      end
  | _ => ret tt
  end.
Definition lb_endpoint_hibernate_sweep (redis : bool) : op unit :=
  if negb (nonempty (get_first_env environ ["RUNPOD_API_KEY"])) then ret tt else
  fun w => match query (fun t => sweep_providers (ct_registry t)) w with
           | (w', Err _) => (w', Ok tt)
           | (w', Ok ps) => (do! _ := traverse (sweep_one redis) ps in ret tt) w'
           end.
End Sweep.

(** Lemmas *)

Section Facts.
Context {F : Type} `{AlertDeps F} (environ : string -> option string).
Abbreviation world := (cost_world (alert_world F)).

(** Whatever a notifier does, Redis and the tables are as before. *)
Lemma ask_keeps {A} (f : F -> F * A) (w : world) :
  let w' := (ask f w).1 in cw_tables w' = cw_tables w /\ al_redis (cw_outside w') = al_redis (cw_outside w) /\
  al_emails (cw_outside w') = al_emails (cw_outside w) /\ al_log (cw_outside w') = al_log (cw_outside w) /\
  al_events (cw_outside w') = al_events (cw_outside w).
Proof. unfold ask, on_alerts. by destruct (f _). Qed.
Lemma notify_keeps n subject body (w : world) :
  let w' := (notify environ n subject body w).1 in cw_tables w' = cw_tables w /\ al_redis (cw_outside w') = al_redis (cw_outside w) /\
  al_events (cw_outside w') = al_events (cw_outside w).
Proof.
  unfold notify. destruct (default _ n) as [|k s r|send].
  - done.
  - unfold resend_send, ret, on_alerts. repeat case_match; simplify_eq; done.
  - unfold bind, ask, on_alerts. by destruct (send _ _ _).
Qed.
Lemma notify_ok n subject body (w : world) : exists r, (notify environ n subject body w).2 = Ok r.
Proof.
  unfold notify. destruct (default _ n) as [|k s r|send].
  - by eexists.
  - unfold resend_send, ret, on_alerts. repeat case_match; simplify_eq; by eexists.
  - unfold bind, ask, on_alerts. destruct (send _ _ _). by eexists.
Qed.
Lemma query_keeps {A} (f : cost_tables -> A) (w : world) :
  let w' := (query f w).1 in cw_tables w' = cw_tables w /\ al_redis (cw_outside w') = al_redis (cw_outside w) /\
  al_emails (cw_outside w') = al_emails (cw_outside w) /\ al_log (cw_outside w') = al_log (cw_outside w) /\
  al_events (cw_outside w') = al_events (cw_outside w).
Proof. unfold query. cbn. destruct (alert_statement _). done. Qed.
End Facts.

(** ** One check of the budget *)

Definition sent_ok (r : result cost_error BudgetAlertResult) : Prop := exists b, r = Ok b /\ ba_email_sent b = true.
#[global] Instance sent_ok_dec r : Decision (sent_ok r).
Proof.
  destruct r as [b|e]; [|right; by intros (? & ? & _)].
  destruct (ba_email_sent b) eqn:E; [left; by exists b|right; intros (? & [= <-] & E'); congruence].
Defined.

Section Once.
Context {F : Type} `{AlertDeps F} (environ : string -> option string).
Abbreviation world := (cost_world (alert_world F)).

(** The clock of the Redis server does not go back. *)
Definition redis_now (w : world) : Z := redis_time (al_outside (cw_outside w)).
Record clock_advances : Prop := {
  adv_statement : forall o, redis_time o <= redis_time (alert_statement o).1;
  adv_clock : forall o, redis_time o <= redis_time (wall_clock o).1;
  adv_redis : forall o, redis_time o <= redis_time (redis_answers o).1;
  adv_email : forall m o, redis_time o <= redis_time (send_email m o).1 }.
Definition sends_later (n : option notifier) : Prop :=
  match n with
  | Some (CustomNotifier send) => forall s b (o : F), redis_time o <= redis_time (send s b o).1
  | _ => True
  end.

Lemma notify_later n subject body (w : world) :
  clock_advances -> sends_later n -> redis_now w <= redis_now (notify environ n subject body w).1.
Proof.
  intros Hadv Hn. unfold notify, redis_now. assert (sends_later (Some (default (get_notifier environ) n))) as Hs.
  { destruct n as [n|]; [exact Hn|]. unfold get_notifier. by destruct (nonempty _). }
  destruct (default _ n) as [|k s r|send].
  - cbn. lia.
  - unfold resend_send, ret, on_alerts. repeat case_match; simplify_eq; cbn; try lia;
      match goal with E : send_email ?m ?o = _ |- _ => pose proof (adv_email Hadv m o) as Hm; rewrite E in Hm; exact Hm end.
  - unfold bind, ask, on_alerts, ret. cbn in Hs. specialize (Hs subject body (al_outside (cw_outside w))).
    destruct (send _ _ _) as [o r]. exact Hs.
Qed.

(** How a step of the check can end: the alert went out and is remembered, or
    Redis is as before. *)
Definition alert_step (c : redis_client) (key : string) (w w' : world) (r : result cost_error BudgetAlertResult) : Prop :=
  cw_tables w' = cw_tables w /\ redis_now w <= redis_now w' /\
  (sent_ok r /\ c = SyncRedis /\
     (exists v t1 t2, redis_now w <= t1 <= redis_now w' /\ redis_now w <= t2 <= redis_now w' /\
       alive (al_redis (cw_outside w)) t1 key = None /\
       al_redis (cw_outside w') = <[key := (v, Some (t2 + td_seconds BUDGET_ALERT_TTL_SECONDS))]> (al_redis (cw_outside w))) \/
   ~ sent_ok r /\ al_redis (cw_outside w') = al_redis (cw_outside w) /\
     (c = AsyncRedis -> al_emails (cw_outside w') = al_emails (cw_outside w) /\ al_log (cw_outside w') = al_log (cw_outside w))).

Lemma unsent b : ba_email_sent b = false -> ~ sent_ok (Ok b).
Proof. intros E (b' & [= <-] & E'). congruence. Qed.
Lemma failed_unsent e : ~ sent_ok (Err e).
Proof. by intros (? & ? & _). Qed.

Lemma send_unless_sent_step c n t spend budget pct (w w' : world) r :
  clock_advances -> sends_later n ->
  send_unless_sent environ c n t spend budget pct w = (w', r) ->
  alert_step c (alert_key (month_name t) BUDGET_ALERT_THRESHOLD) w w' r.
Proof.
  intros Hadv Hn. unfold send_unless_sent. set (key := alert_key _ _). unfold alert_step, redis_exists. destruct c.
  2:{ intros [= <- <-]. split; [done|]. split; [lia|]. right. split; [by apply unsent|done]. }
  unfold bind at 1, redis_command. pose proof (adv_redis Hadv (al_outside (cw_outside w))) as H1. unfold redis_now at 1 2 3 5.
  destruct (redis_answers _) as [o1 []]; cbn [fst] in H1.
  2:{ intros [= <- <-]. split; [done|]. split; [exact H1|]. right. split; [apply failed_unsent|done]. }
  case_bool_decide as Hal; cbn [negb].
  { intros [= <- <-]. split; [done|]. split; [exact H1|]. right. split; [by apply unsent|done]. }
  set (w1 := MkCostWorld _ _) in *. unfold bind at 1.
  destruct (notify_ok environ n (budget_subject pct) (budget_body spend budget pct) w1) as [x Hx].
  pose proof (notify_keeps environ n (budget_subject pct) (budget_body spend budget pct) w1) as (Ht & Hr & _).
  pose proof (notify_later n (budget_subject pct) (budget_body spend budget pct) w1 Hadv Hn) as H2.
  destruct (notify _ _ _ _ w1) as [w2 rx]. cbn [fst snd] in *. subst rx. unfold bind.
  assert (redis_now w <= redis_now w1) as H1' by exact H1. fold (redis_now w). fold (redis_now w').
  destruct (n_ok x) eqn:Eok.
  2:{ intros [= <- <-]. split; [done|]. split; [lia|]. right. split; [by apply unsent|done]. }
  unfold redis_set, redis_command. pose proof (adv_redis Hadv (al_outside (cw_outside w2))) as H3.
  destruct (redis_answers _) as [o3 []]; cbn [fst] in H3.
  2:{ intros [= <- <-]. split; [done|]. split; [unfold redis_now in *; cbn; lia|]. right. split; [apply failed_unsent|done]. }
  intros [= <- <-]. split; [done|]. split; [unfold redis_now in *; cbn; lia|]. left.
  split; [by eexists|]. split; [done|].
  exists (given_or (n_email_id x) "ok"), (redis_now w), (redis_now w2). unfold redis_now in *. cbn in *.
  split; [lia|]. split; [lia|]. split; [|by rewrite Hr].
  destruct (alive _ _ key) eqn:E; [|done]. exfalso. apply Hal. by eexists.
Qed.

Lemma check_step c t n (w w' : world) r :
  clock_advances -> sends_later n -> check_and_send_budget_alert environ c (Some t) n w = (w', r) ->
  alert_step c (alert_key (month_name t) BUDGET_ALERT_THRESHOLD) w w' r.
Proof.
  intros Hadv Hn. unfold check_and_send_budget_alert, bind, ret, lift.
  assert (forall b, ~ sent_ok b -> alert_step c (alert_key (month_name t) BUDGET_ALERT_THRESHOLD) w w b) as Hsame.
  { intros b Hb. split; [done|]. split; [lia|]. by right. }
  destruct (get_monthly_budget environ) as [budget|]; cbn [rlift]; [|intros [= <- <-]; apply Hsame, failed_unsent].
  destruct (not_positive budget) as [[]|]; cbn [rlift]; [intros [= <- <-]; by apply Hsame, unsent| |intros [= <- <-]; apply Hsame, failed_unsent].
  unfold compute_mtd_spend. destruct (dt_aware t); [|intros [= <- <-]; apply Hsame, failed_unsent].
  unfold query. cbn -[mtd_total budget_pct_of]. pose proof (adv_statement Hadv (al_outside (cw_outside w))) as H1.
  destruct (alert_statement _) as [o ok]. cbn [fst] in H1.
  set (w1 := MkCostWorld (cw_tables w) (set_outside (cw_outside w) o)).
  assert (forall b, ~ sent_ok b -> alert_step c (alert_key (month_name t) BUDGET_ALERT_THRESHOLD) w w1 b) as Hsame1.
  { intros b Hb. split; [done|]. split; [exact H1|]. by right. }
  destruct ok; [|intros [= <- <-]; apply Hsame1, failed_unsent].
  destruct (budget_pct_of _ budget) as [pct|]; cbn [rlift]; [|intros [= <- <-]; apply Hsame1, failed_unsent].
  destruct (float_at_least pct _); [|intros [= <- <-]; by apply Hsame1, unsent].
  intros Hs. pose proof (send_unless_sent_step _ _ _ _ _ _ _ _ _ Hadv Hn Hs) as (Ht & Hle & Hc).
  assert (redis_now w <= redis_now w1) by exact H1. split; [done|]. split; [lia|].
  destruct Hc as [(Hs' & -> & v & t1 & t2 & ? & ? & Hal & Hr)|Hc]; [left|right; exact Hc].
  split; [done|]. split; [done|]. exists v, t1, t2. split; [lia|]. split; [lia|]. by split.
Qed.
End Once.

(** ** Many checks *)

Section Many.
Context {F : Type} `{AlertDeps F} (environ : string -> option string).
Abbreviation world := (cost_world (alert_world F)).

(** Checks one after another, each at its time and over the tables as they
    are then. *)
Fixpoint run_checks (c : redis_client) (n : option notifier) (runs : list (datetime * cost_tables)) (w : world)
  : world * list (result cost_error BudgetAlertResult) :=
  match runs with
  | [] => (w, [])
  | (t, tables) :: runs' =>
      let '(w1, r) := check_and_send_budget_alert environ c (Some t) n (MkCostWorld tables (cw_outside w)) in
      let '(w2, rs) := run_checks c n runs' w1 in
      (w2, r :: rs)
  end.

Lemma runs_later c n runs (w : world) :
  clock_advances (F:=F) -> sends_later n -> redis_now w <= redis_now (run_checks c n runs w).1.
Proof.
  intros Hadv Hn. revert w. induction runs as [|[t tb] runs IH]; intros w; csimpl; [lia|].
  destruct (check_and_send_budget_alert _ _ _ _ _) as [w1 r] eqn:E. pose proof (check_step environ _ _ _ _ _ _ Hadv Hn E) as (_ & Hle & _).
  specialize (IH w1). destruct (run_checks c n runs w1) as [w2 rs]. unfold redis_now in *. cbn in *. lia.
Qed.

(** While the key lives nothing more goes out. *)
Lemma runs_silent c n runs (w w' : world) rs key v e :
  clock_advances (F:=F) -> sends_later n -> Forall (fun run => alert_key (month_name run.1) BUDGET_ALERT_THRESHOLD = key) runs ->
  al_redis (cw_outside w) !! key = Some (v, Some e) -> run_checks c n runs w = (w', rs) -> redis_now w' < e ->
  filter sent_ok rs = [].
Proof.
  intros Hadv Hn. revert w rs. induction runs as [|[t tb] runs IH]; intros w rs; csimpl; [intros _ _ E _; injection E as _ <-; reflexivity|].
  intros [Ht Hall]%Forall_cons Hk. destruct (check_and_send_budget_alert _ _ _ _ _) as [w1 r] eqn:E.
  pose proof (runs_later c n runs w1 Hadv Hn) as Hlater. destruct (run_checks c n runs w1) as [w2 rs'] eqn:E2. intros [= <- <-] He.
  cbn [fst] in *. rewrite filter_cons.
  destruct (check_step environ _ _ _ _ _ _ Hadv Hn E) as (_ & Hle & [(_ & _ & v' & t1 & t2 & Ht1 & _ & Hal & _)|(Hno & Hr & _)]).
  - exfalso. cbn [cw_outside fst] in *. rewrite Ht in Hal. unfold alive in Hal. rewrite Hk in Hal.
    destruct (t1 <? e) eqn:El; [done|]. boolify. lia.
  - rewrite decide_False by done. eapply (IH w1); [done| |exact E2|done]. rewrite Hr. exact Hk.
Qed.
End Many.

(** Properties *)

(** In a month at most one check of the budget reports that it sent the
    alert, as long as the Redis server has not run through the time to live
    of its key: whatever the spend does in between, whatever else fails, and
    however often the check runs. *)
Theorem budget_alert_once_per_month {F} `{AlertDeps F} (environ : string -> option string) (c : redis_client)
    (n : option notifier) (runs : list (datetime * cost_tables)) (w w' : cost_world (alert_world F)) rs (month : string) :
  clock_advances (F:=F) -> sends_later n -> Forall (fun run => month_name run.1 = month) runs ->
  run_checks environ c n runs w = (w', rs) ->
  redis_now w' < redis_now w + td_seconds BUDGET_ALERT_TTL_SECONDS ->
  (length (filter sent_ok rs) <= 1)%nat.
Proof.
  intros Hadv Hn. revert w rs. induction runs as [|[t tb] runs IH]; intros w rs; csimpl; [intros _ E _; injection E as _ <-; simpl; lia|].
  intros [Ht Hall]%Forall_cons. destruct (check_and_send_budget_alert _ _ _ _ _) as [w1 r] eqn:E.
  destruct (run_checks environ c n runs w1) as [w2 rs'] eqn:E2. intros [= <- <-] Hend. cbn [fst] in Ht. rewrite filter_cons.
  destruct (check_step environ _ _ _ _ _ _ Hadv Hn E) as (_ & Hle & [(Hs & _ & v & t1 & t2 & Ht1 & Ht2 & _ & Hr)|(Hno & Hr & _)]).
  - rewrite decide_True by done. cbn [length]. rewrite (runs_silent environ c n runs w1 w2 rs'
      (alert_key (month_name t) BUDGET_ALERT_THRESHOLD) v (t2 + td_seconds BUDGET_ALERT_TTL_SECONDS)); [simpl; lia|done|done| | |done|].
    + eapply Forall_impl; [exact Hall|]. intros run Hrun. by rewrite Hrun, Ht.
    + rewrite Hr. by rewrite lookup_insert_eq.
    + change (redis_now (MkCostWorld tb (cw_outside w))) with (redis_now w) in *. lia.
  - rewrite decide_False by done. eapply (IH w1); [done|exact E2|].
    change (redis_now (MkCostWorld tb (cw_outside w))) with (redis_now w) in *. lia.
Qed.

(** The scheduled job hands the alert a Redis client whose calls must be
    awaited, and the alert does not await them: the nightly job never sends
    or logs an alert, whatever the spend, and it rolls the ledger up exactly
    as without the alert. *)
Theorem scheduled_alert_is_silent {F} `{AlertDeps F} (environ : string -> option string) (w w' : cost_world (alert_world F)) r :
  clock_advances (F:=F) ->
  rollup_job environ (Some AsyncRedis) w = (w', r) ->
  al_emails (cw_outside w') = al_emails (cw_outside w) /\ al_log (cw_outside w') = al_log (cw_outside w) /\
  al_redis (cw_outside w') = al_redis (cw_outside w) /\
  cw_tables w' = cw_tables (run_rollup None w).1 /\ r = (run_rollup None w).2.
Proof.
  intros Hadv Hrun. unfold rollup_job, run_rollup in *.
  assert (forall (f : alert_world F -> cost_tables -> option cost_tables) (v : cost_world (alert_world F)),
    let v' := (execute f v).1 in al_emails (cw_outside v') = al_emails (cw_outside v) /\
    al_log (cw_outside v') = al_log (cw_outside v) /\ al_redis (cw_outside v') = al_redis (cw_outside v)) as Hex.
  { intros f v. unfold execute. cbn. destruct (alert_statement _) as [o []]; [|done]. by destruct (f _ _). }
  unfold bind in Hrun |- *.
  match type of Hrun with context [execute ?f w] => pose proof (Hex f w) as H1; destruct (execute f w) as [w1 [[]|e]]; [|injection Hrun as <- <-; cbn [fst snd] in *; destruct H1 as (? & ? & ?); by repeat split] end.
  match type of Hrun with context [execute ?f w1] => pose proof (Hex f w1) as H2; destruct (execute f w1) as [w2 [[]|e]] end;
    cbn [fst] in H1, H2; destruct H1 as (E1 & L1 & R1), H2 as (E2 & L2 & R2).
  2:{ injection Hrun as <- <-. rewrite E2, L2, R2. done. }
  cbn [after_rollup_hook] in Hrun. unfold suppressed, bind in Hrun. injection Hrun as <- <-.
  unfold ret. cbn [fst snd].
  assert (exists t w3, check_and_send_budget_alert environ AsyncRedis None None w2 =
            check_and_send_budget_alert environ AsyncRedis (Some t) None w3 /\
            cw_tables w3 = cw_tables w2 /\ al_emails (cw_outside w3) = al_emails (cw_outside w2) /\
            al_log (cw_outside w3) = al_log (cw_outside w2) /\ al_redis (cw_outside w3) = al_redis (cw_outside w2))
    as (t & w3 & -> & Ht & He & Hl & Hr).
  { unfold check_and_send_budget_alert at 1, bind at 1, ask, on_alerts.
    destruct (wall_clock _) as [o t] eqn:Eo. eexists t, _. split; [reflexivity|]. done. }
  destruct (check_and_send_budget_alert _ _ _ _ w3) as [w4 r4] eqn:E4.
  pose proof (check_step environ AsyncRedis t None w3 w4 r4 Hadv I E4) as (Ht4 & _ & [(_ & ? & _)|(_ & Hr4 & Hs)]); [done|].
  destruct (Hs eq_refl) as [He4 Hl4]. destruct r4; cbn [fst]; rewrite He4, Hl4, Hr4, Ht4, He, Hl, Hr, Ht, E2, L2, R2; done.
Qed.

(** ** Crossings *)

Section Crossings.
Context {F : Type} `{AlertDeps F} (environ : string -> option string).
Abbreviation world := (cost_world (alert_world F)).

Lemma evaluate_Ok budget thresholds t (w w' : world) cs :
  evaluate_crossings budget thresholds (Some t) w = (w', Ok cs) ->
  al_events (cw_outside w') = al_events (cw_outside w) /\
  (cs = [] /\ default DEFAULT_THRESHOLDS thresholds = [] \/
   exists pct, crossing_pct (of_dec (mtd_total t (ct_db (cw_tables w)))) budget = Ok pct /\
     cs = (fun z => MkCrossing z (of_dec (mtd_total t (ct_db (cw_tables w)))) budget pct) <$>
            filter (crossed pct (recorded_thresholds (month_name t) (al_events (cw_outside w)))) (default DEFAULT_THRESHOLDS thresholds)).
Proof.
  unfold evaluate_crossings. destruct (default DEFAULT_THRESHOLDS thresholds) as [|z zs] eqn:E; [by intros [= <- <-]; split; [|left]|].
  unfold bind, ret, compute_mtd_spend. destruct (dt_aware t); [|done]. unfold query. cbn -[filter mtd_total].
  destruct (alert_statement _) as [o1 []]; [|done]. unfold read_events. cbn -[filter mtd_total].
  destruct (alert_statement _) as [o2 []]; [|done]. unfold lift. destruct (crossing_pct _ _) as [pct|]; [|done].
  cbn -[filter mtd_total]. intros [= <- <-]. split; [done|]. right. by exists pct.
Qed.

Lemma insert_event_Ok m t z (w w' : world) :
  insert_event m t z w = (w', Ok tt) -> forall k, al_events (cw_outside w') !! k =
    match al_events (cw_outside w) !! k with Some x => Some x | None => if bool_decide (k = (m, z)) then Some t else None end.
Proof.
  unfold insert_event. cbn. destruct (alert_statement _) as [o ok]. destruct (ok && _ && _); [|done]. intros [= <-] k. cbn.
  destruct (al_events (cw_outside w) !! (m, z)) as [x|] eqn:E.
  - destruct (al_events (cw_outside w) !! k) eqn:Ek; [done|]. rewrite bool_decide_false; [done|]. intros ->. congruence.
  - destruct (decide (k = (m, z))) as [->|Hk].
    + rewrite lookup_insert_eq, E, bool_decide_true by done. done.
    + rewrite lookup_insert_ne, bool_decide_false by done. by destruct (_ !! k).
Qed.
Lemma record_Ok cs t (w w' : world) :
  record_crossings cs (Some t) w = (w', Ok tt) ->
  (forall k, is_Some (al_events (cw_outside w) !! k) -> is_Some (al_events (cw_outside w') !! k)) /\
  forall c, c ∈ cs -> is_Some (al_events (cw_outside w') !! (month_name t, tc_threshold_pct c)).
Proof.
  destruct cs as [|c0 cs0]; [intros [= <-]; split; [done|by intros c ?%elem_of_nil]|].
  unfold record_crossings. generalize (c0 :: cs0) as cs. intros cs. intros (t1 & s1 & [= <- <-] & (us & w1 & H1 & [= ->])%bind_Ok)%bind_Ok.
  revert us w H1. induction cs as [|c cs IH]; intros us w H1.
  { injection H1 as <- _. split; [done|by intros c ?%elem_of_nil]. }
  cbn [traverse] in H1. apply bind_Ok in H1 as ([] & w2 & H2 & (us' & w3 & H3 & [= -> _])%bind_Ok).
  pose proof (insert_event_Ok _ _ _ _ _ H2) as Hi. destruct (IH _ _ H3) as [Hkeep Hin].
  split.
  - intros k [x Hx]. apply Hkeep. rewrite Hi, Hx. by eexists.
  - intros c' [->|Hc]%elem_of_cons; [|by apply Hin]. apply Hkeep. rewrite Hi.
    destruct (_ !! _); [by eexists|]. rewrite bool_decide_true by done. by eexists.
Qed.
End Crossings.
Lemma elem_of_recorded m z events : z ∈ recorded_thresholds m events <-> is_Some (events !! (m, z)).
Proof.
  unfold recorded_thresholds. rewrite list_elem_of_fmap. split.
  - intros ([[m' z'] t] & -> & [E Hin]%list_elem_of_filter). cbn in *. subst m'. apply elem_of_map_to_list in Hin. by eexists.
  - intros [t Ht]. exists ((m, z), t). split; [done|]. rewrite list_elem_of_filter. split; [done|]. by apply elem_of_map_to_list.
Qed.

(** An evaluation reports exactly the thresholds the spend of the month has
    reached and the month's events do not hold, and once its report is
    recorded no evaluation in that month reports one of them again, whatever
    the spend does. *)
Theorem crossing_reported_once {F} `{AlertDeps F} (w1 w2 w3 w4 w5 w6 : cost_world (alert_world F))
    (budget1 budget2 : float) (thresholds1 thresholds2 : option (list Z)) (t1 t2 t3 : datetime) (cs cs' : list ThresholdCrossing) :
  evaluate_crossings budget1 thresholds1 (Some t1) w1 = (w2, Ok cs) ->
  record_crossings cs (Some t2) w3 = (w4, Ok tt) ->
  (forall k, is_Some (al_events (cw_outside w4) !! k) -> is_Some (al_events (cw_outside w5) !! k)) ->
  month_name t3 = month_name t2 ->
  evaluate_crossings budget2 thresholds2 (Some t3) w5 = (w6, Ok cs') ->
  (forall c c', c ∈ cs -> c' ∈ cs' -> tc_threshold_pct c <> tc_threshold_pct c') /\
  (forall z, (exists c, c ∈ cs /\ tc_threshold_pct c = z) <->
     z ∈ default DEFAULT_THRESHOLDS thresholds1 /\ al_events (cw_outside w1) !! (month_name t1, z) = None /\
     exists pct, crossing_pct (of_dec (mtd_total t1 (ct_db (cw_tables w1)))) budget1 = Ok pct /\ float_at_least pct z = true).
Proof.
  intros H1 H2 Hkeep Ht H3. destruct (record_Ok _ _ _ _ H2) as [_ Hrec]. split.
  - intros c c' Hc Hc' E. destruct (evaluate_Ok _ _ _ _ _ _ H3) as [_ [[-> _]|(pct & _ & ->)]]; [by apply elem_of_nil in Hc'|].
    apply list_elem_of_fmap in Hc' as (z & -> & [[Hnot _] _]%list_elem_of_filter). cbn in E. apply Hnot.
    apply elem_of_recorded, Hkeep. rewrite Ht, <- E. by apply Hrec.
  - intros z. destruct (evaluate_Ok _ _ _ _ _ _ H1) as [_ [[-> ->]|(pct & Hp & ->)]].
    { split; [by intros (? & ?%elem_of_nil & _)|by intros [?%elem_of_nil _]]. }
    split.
    + intros (c & (z' & -> & [[Hnot Hge] Hin]%list_elem_of_filter)%list_elem_of_fmap & <-). cbn. split; [done|]. split; [|by exists pct].
      apply eq_None_not_Some. rewrite <- elem_of_recorded. exact Hnot.
    + intros (Hin & Hnot & pct' & Hp' & Hge). assert (pct' = pct) as -> by congruence. exists (MkCrossing z (of_dec (mtd_total t1 (ct_db (cw_tables w1)))) budget1 pct).
      split; [|done]. apply list_elem_of_fmap. exists z. split; [done|]. apply list_elem_of_filter. split; [|done]. split; [|done]. rewrite elem_of_recorded, Hnot. by intros [].
Qed.

(** ** Runs *)
Module AlertSim.
(** A Redis clock; everything answers, and one endpoint keeps two workers. *)
Record sim : Type := MkSim { sim_now : Z; sim_answers : list pyval }.
#[local] Instance sim_deps : AlertDeps sim := {
  alert_statement o := (o, true);
  alert_date o := sim_now o / us_per_day;
  wall_clock o := (o, utc (sim_now o));
  redis_answers o := (o, true);
  redis_time o := sim_now o;
  send_email m o := (o, Sent (Some (VStr "em_1")));
  read_endpoint i o := match sim_answers o with [] => (o, None) | v :: vs => (MkSim (sim_now o) vs, Some v) end }.
Definition env (n : string) : option string :=
  al_get n [("PITWALL_MONTHLY_BUDGET_USD", "100"); ("RESEND_API_KEY", "key"); ("PITWALL_ALERT_FROM", "broker@example.org");
            ("PITWALL_ALERT_TO", "ops@example.org"); ("RUNPOD_API_KEY", "rp")].
Definition start : Z := 1767268800000000.                          (* 2026-01-01T12:00:00Z *)
Definition spent (cents : Z) : cost_tables :=
  LedgerSim.tables_with ∅ [("w1", LedgerSim.ended "w1" "completed" (start / us_per_day) cents)].
Definition world_at (us cents : Z) : cost_world (alert_world sim) :=
  MkCostWorld (spent cents) (MkAlertWorld ∅ ∅ [] [] (MkSim us [])).
Definition sent (rs : list (result cost_error BudgetAlertResult)) : list (option bool) :=
  (fun r => match r with Ok b => Some (ba_email_sent b) | Err _ => None end) <$> rs.
Definition days (n : Z) : datetime := utc (start + n * us_per_day).
Definition month_of_checks := run_checks env SyncRedis None [(days 0, spent 7999); (days 1, spent 8000); (days 2, spent 12000)] (world_at start 0).

Example month_of_checks_ex : sent month_of_checks.2 = [Some false; Some true; Some false].
Proof. vm_compute. reflexivity. Qed.
Example alert_text_ex :
  em_subject <$> al_emails (cw_outside month_of_checks.1) = ["[Pitwall] Budget alert: 80.0% of monthly budget"].
Proof. vm_compute. reflexivity. Qed.
(** The nightly job of the worker: 120% of the budget and not a word. *)
Example nightly_job_ex :
  al_emails (cw_outside (rollup_job env (Some AsyncRedis) (world_at start 12000)).1) = [] /\
  length (al_emails (cw_outside (rollup_job env (Some SyncRedis) (world_at start 12000)).1)) = 1%nat.
Proof. vm_compute. split; reflexivity. Qed.
(** A workload that failed has cost its money, and the alert does not count it. *)
Example failed_cost_ex :
  mtd_total (days 0) (ct_db (LedgerSim.tables_with ∅ [("w1", LedgerSim.ended "w1" "failed" (start / us_per_day) 9900)])) = dzero.
Proof. vm_compute. reflexivity. Qed.

(** Sweeps at given instants over an endpoint that always shows two workers. *)
Definition lb : Provider :=
  MkProvider "p1" "cap" "embedder" SERVERLESS_LB (Some "ep1") None None None [] 1 true "healthy" 0 0 None None (of_Z 0) None "api" None (utc 0).
Definition lb_tables : cost_tables := MkCostTables ∅ ∅ (MkWorkloadDb ∅ ∅) (MkRegistry ∅ {["p1" := lb]} []) ∅.
Definition sweep_at (w : cost_world (alert_world sim)) (us : Z) : cost_world (alert_world sim) :=
  let a := cw_outside w in
  (lb_endpoint_hibernate_sweep env true
     (MkCostWorld lb_tables (set_outside a (MkSim us [VDict [("workersMin", VInt 2)]])))).1.
Definition sweeps (instants : list Z) : list string :=
  em_subject <$> al_emails (cw_outside (foldl sweep_at (world_at start 0) instants)).
Definition hours (n : Z) : Z := start + n * 3600000000.

(** Sweeps a full day apart alert from the second on; what they report as
    the duration is the day between two sweeps, however long it has lasted. *)
Example daily_sweeps_ex : length (sweeps [hours 0; hours 24; hours 48; hours 72]) = 3%nat.
Proof. vm_compute. reflexivity. Qed.
Definition texts (instants : list Z) : list string :=
  em_text <$> al_emails (cw_outside (foldl sweep_at (world_at start 0) instants)).
Example daily_duration_ex : forallb (str_contains "Duration: 24.0 hours") (texts [hours 0; hours 24; hours 48; hours 72]) = true.
Proof. vm_compute. reflexivity. Qed.
(** A second less than a day apart, and no sweep alerts any more. *)
Example early_sweeps_ex : sweeps ((fun n => start + n * (us_per_day - 1000000)) <$> [0; 1; 2; 3; 4; 5; 6]) = [].
Proof. vm_compute. reflexivity. Qed.
(** An endpoint that answers without a number ends the sweep for all. *)
Example null_workers_ex :
  (lb_endpoint_hibernate_sweep env true
     (MkCostWorld lb_tables (MkAlertWorld ∅ ∅ [] [] (MkSim start [VDict [("workersMin", VNone)]])))).2 =
    Err (CostExn (TypeError "'>' not supported between instances")).
Proof. vm_compute. reflexivity. Qed.

Lemma sim_advances : clock_advances (F:=sim).
Proof. split; intros; cbn; lia. Qed.
Lemma checks_run : run_checks env SyncRedis None [(days 0, spent 7999); (days 1, spent 8000); (days 2, spent 12000)] (world_at start 0) =
  (month_of_checks.1, month_of_checks.2).
Proof. apply surjective_pairing. Qed.
Lemma checks_month :
  Forall (fun run => month_name run.1 = "2026-01") [(days 0, spent 7999); (days 1, spent 8000); (days 2, spent 12000)].
Proof. repeat (apply Forall_cons_2; [vm_compute; reflexivity|]). apply Forall_nil_2. Qed.
Lemma checks_end : redis_now month_of_checks.1 < redis_now (world_at start 0) + td_seconds BUDGET_ALERT_TTL_SECONDS.
Proof. vm_compute. reflexivity. Qed.
Definition nightly := rollup_job env (Some AsyncRedis) (world_at start 12000).
Lemma nightly_run : rollup_job env (Some AsyncRedis) (world_at start 12000) = (nightly.1, nightly.2).
Proof. apply surjective_pairing. Qed.
Definition found := evaluate_crossings (of_Z 100) None (Some (days 1)) (world_at start 8000).
Definition kept := record_crossings (match found.2 with Ok cs => cs | Err _ => [] end) (Some (days 1)) found.1.
Definition found_later := evaluate_crossings (of_Z 100) None (Some (days 2)) (MkCostWorld (spent 9500) (cw_outside kept.1)).
Definition thresholds_of (r : result cost_error (list ThresholdCrossing)) : list Z :=
  match r with Ok cs => tc_threshold_pct <$> cs | Err _ => [] end.
Example crossings_ex : thresholds_of found.2 = [50; 75] /\ thresholds_of found_later.2 = [90].
Proof. vm_compute. split; reflexivity. Qed.
Lemma found_returns : exists cs cs', found.2 = Ok cs /\ found_later.2 = Ok cs' /\ kept.2 = Ok tt.
Proof. eexists _, _. split; [vm_compute; reflexivity|]. split; vm_compute; reflexivity. Qed.
End AlertSim.

Lemma budget_alert_once_per_month_witness : (length (filter sent_ok AlertSim.month_of_checks.2) <= 1)%nat.
Proof.
  apply (budget_alert_once_per_month (H:=AlertSim.sim_deps) AlertSim.env SyncRedis None
    [(AlertSim.days 0, AlertSim.spent 7999); (AlertSim.days 1, AlertSim.spent 8000); (AlertSim.days 2, AlertSim.spent 12000)]
    (AlertSim.world_at AlertSim.start 0) AlertSim.month_of_checks.1 AlertSim.month_of_checks.2 "2026-01").
  - exact AlertSim.sim_advances.
  - exact I.
  - exact AlertSim.checks_month.
  - exact AlertSim.checks_run.
  - exact AlertSim.checks_end.
Defined.
Lemma scheduled_alert_is_silent_witness :
  al_emails (cw_outside AlertSim.nightly.1) = [] /\ al_log (cw_outside AlertSim.nightly.1) = [].
Proof.
  pose proof (scheduled_alert_is_silent (H:=AlertSim.sim_deps) _ _ _ _ AlertSim.sim_advances AlertSim.nightly_run) as (He & Hl & _).
  exact (conj He Hl).
Defined.
Lemma crossing_reported_once_witness : exists cs cs',
  AlertSim.found.2 = Ok cs /\ AlertSim.found_later.2 = Ok cs' /\ forall c c', c ∈ cs -> c' ∈ cs' -> tc_threshold_pct c <> tc_threshold_pct c'.
Proof.
  destruct AlertSim.found_returns as (cs & cs' & E1 & E2 & E3).
  pose proof (crossing_reported_once (H:=AlertSim.sim_deps) (AlertSim.world_at AlertSim.start 8000) AlertSim.found.1
    AlertSim.found.1 AlertSim.kept.1 (MkCostWorld (AlertSim.spent 9500) (cw_outside AlertSim.kept.1)) AlertSim.found_later.1
    (of_Z 100) (of_Z 100) None None (AlertSim.days 1) (AlertSim.days 1) (AlertSim.days 2) cs cs') as Hthm.
  exists cs, cs'. split; [exact E1|]. split; [exact E2|]. apply Hthm; [..|reflexivity|].
  - rewrite <- E1. apply surjective_pairing.
  - unfold AlertSim.kept in *. rewrite E1 in *. rewrite <- E3. apply surjective_pairing.
  - intros k Hk. exact Hk.
  - rewrite <- E2. apply surjective_pairing.
Defined.
