(* ===== verification/Resolver.v ===== *)
(** * Capability resolution ([resolver/service.py], [resolver/provider_urls.py])

    The synchronous path needs the first two stages of routing only: hard
    constraints, then health and cooldown.  Among the survivors the lowest
    priority number wins.  Reading the registry is the lookup of a snapshot.
    The URLs of a provider are built from its endpoint id, which must match a
    pattern. *)

From Stdlib Require Import Ascii.
From S2P Require Import Registry.
From S2P Require Import Prelude PyFloat PyValue PyTime PyFormat PyJson PyOrder PyUrl Enums Provider Cooldown.
From S2P Require Import RoutingTypes Constraints Availability Planner OpenAIProxy.
Abbreviation Capability := Registry.Capability.

(** Definitions *)

Inductive resolver_error :=
| CapabilityNotFoundError (name : string)
| CapabilityDisabledError (name : string)
| NoHealthyProviderError (name : string)
| ProviderNotFoundError (id : string)
| ResolverExn (e : exn).

Record Stage12Resolution : Type := MkResolution {
  s12_capability : Capability; s12_provider : Provider;
  s12_eligible : list Provider; s12_eliminated : list RouteElimination }.
Definition selected_provider_id (r : Stage12Resolution) : string := p_id (s12_provider r).

(** What routing reads of the model. *)
Definition routed_capability (c : Capability) : RoutingTypes.Capability := RoutingTypes.MkCapability (c_id c) (c_name c).

Definition resolve_capability_record (reg : registry) (name : string) : result resolver_error Capability :=
  match get_by_name reg name with
  | Some c => Ok c
  | None => match capabilities reg !! name with Some c => Ok c | None => Err (CapabilityNotFoundError name) end
  end.

(** [_request_for_capability] *)
Definition request_for_capability (request : option RoutingRequest) (c : Capability) : RoutingRequest :=
  match request with
  | None => MkRequest (c_name c) None None None None None (Some (c_id c)) None None false
  | Some r => MkRequest (c_name c) (payload_bytes r) (required_gpu_class r) (required_region r) (required_volume_id r)
                (req_hints r) (Some (c_id c)) (required_cuda_min r) (required_cuda_version r) (req_stream r)
  end.

(** [_providers_for_request] *)
Definition providers_for_request (reg : registry) (c : Capability) (provider_id : option string) (limit : nat)
  : result resolver_error (list Provider) :=
  match provider_id with
  | Some i => match providers reg !! i with Some p => Ok [p] | None => Err (ProviderNotFoundError i) end
  | None => Ok (list_enabled reg (c_id c) limit)
  end.

(** [_stage2_reasons] *)
Definition stage2_reasons (clock : datetime) (p : Provider) (now : datetime) : py (list ProviderEliminated) :=
  let rs := if p_enabled p then [] else [DISABLED] in
  let rs := if String.eqb (lower (p_health_status p)) "healthy" then rs else rs ++ [HEALTH_UNHEALTHY] in
  let? cooling := is_in_cooldown clock (InProvider (PModel p)) (Some now) in
  Ok (if cooling then rs ++ [HEALTH_COOLDOWN] else rs).

(** [_provider_priority_key] *)
Definition provider_order : cmp Provider := tuple_key [by_ p_priority Z.compare; by_ p_name String.compare; by_ p_id String.compare].

(** [_observed_at], with [_normalize_now] *)
Definition observed_at (clock : datetime) (context : option PlanningContext) (now : option datetime) : py datetime :=
  match context, now with
  | Some _, Some _ => Err (ValueError "context and now are mutually exclusive")
  | Some ctx, None => Ok (ctx_now ctx)
  | None, Some t => require_utc t "now"
  | None, None => Ok clock
  end.

(** [_stage1_elimination] *)
Definition resolver_stage1 (item : ConstraintResult) : py RouteElimination :=
  let? reasons := mapR provider_eliminated_from_stage1 (cr_reasons item) in
  match reasons with
  | [] => Err (ValueError "Stage 1 elimination must include at least one reason")
  | r :: _ => Ok (route_elimination (cr_provider_id item) 1 r reasons)
  end.

(** The loop over the survivors of stage 1. *)
Definition stage2_round (clock now : datetime) (acc : list Provider * list RouteElimination) (p : Provider)
  : py (list Provider * list RouteElimination) :=
  let? rs := stage2_reasons clock p now in
  Ok (match rs with
      | [] => (acc.1 ++ [p], acc.2)
      | r :: _ => (acc.1, acc.2 ++ [route_elimination (p_id p) 2 r rs])
      end).
Definition passed_models (r : HardConstraintFilterResult) : list Provider := omap model_of (f_passed r).

Definition select_stage12_provider (clock : datetime) (request : RoutingRequest) (ps : list Provider) (c : Capability)
    (context : option PlanningContext) (now : option datetime) : result resolver_error Stage12Resolution :=
  let? t := rlift ResolverExn (observed_at clock context now) in
  let? stage1 := rlift ResolverExn (filter_hard_constraints request (PModel <$> ps) (Some (routed_capability c)) None) in
  let? elim1 := rlift ResolverExn (mapR resolver_stage1 (f_eliminated stage1)) in
  let? r := rlift ResolverExn (foldR (stage2_round clock t) ([], []) (passed_models stage1)) in
  match sort_by (less provider_order) r.1 with
  | [] => Err (NoHealthyProviderError (c_name c))
  | p :: ranked => Ok (MkResolution c p (p :: ranked) (elim1 ++ r.2))
  end.

Definition resolve_capability (clock : datetime) (reg : registry) (name : string) (provider_id : option string)
    (request : option RoutingRequest) (context : option PlanningContext) (now : option datetime) (limit : nat)
  : result resolver_error Stage12Resolution :=
  let? c := resolve_capability_record reg name in
  if negb (c_enabled c) then Err (CapabilityDisabledError (c_name c)) else
  let? ps := providers_for_request reg c provider_id limit in
  select_stage12_provider clock (request_for_capability request c) ps c context now.

(** [resolve_inference_target] of [core/inference.py] *)
Definition resolve_inference_target (clock : datetime) (reg : registry) (name : string) (provider_id : option string)
    (payload : Z) : result resolver_error Stage12Resolution :=
  resolve_capability clock reg name provider_id
    (Some (MkRequest name (Some payload) None None None None (Some name) None None false)) None None 10.

(** ** URLs *)

(** [_ENDPOINT_ID_RE.match]: [$] also matches before a final newline. *)
Definition is_alnum (ch : ascii) : bool := is_alpha ch || is_digit ch.
Definition id_char (ch : ascii) : bool := is_alnum ch || Ascii.eqb ch "_"%char || Ascii.eqb ch "-"%char.
Definition endpoint_token (s : string) : bool :=
  match s with
  | String a rest => is_alnum a && all_chars id_char rest && (1 <=? String.length rest)%nat && (String.length rest <=? 63)%nat
  | EmptyString => false
  end.
Fixpoint without_newline (s : string) : option string :=
  match s with
  | EmptyString => None
  | String a EmptyString => if (nat_of_ascii a =? 10)%nat then Some EmptyString else None
  | String a s' => option_map (String a) (without_newline s')
  end.
Definition endpoint_matches (s : string) : bool :=
  endpoint_token s || match without_newline s with Some t => endpoint_token t | None => false end.

(** [_require_endpoint_id]; the repr of the pattern is left out of the text. *)
Definition require_endpoint_id (p : Provider) : py string :=
  match p_runpod_endpoint_id p with
  | Some (String _ _ as e) =>
      if endpoint_matches e then Ok e
      else Err (ValueError ("provider " +:+ repr_str (p_id p) +:+ " has an invalid runpod_endpoint_id"))
  | _ => Err (ValueError ("provider " +:+ repr_str (p_id p) +:+ " has no runpod_endpoint_id configured"))
  end.

Definition openai_base_url (p : Provider) : py string :=
  match p_provider_type p with
  | POD_LEASE => Err (ValueError "pod_lease providers do not expose an OpenAI-compatible URL")
  | t => let? e := require_endpoint_id p in
         Ok (match t with
             | SERVERLESS_LB => "https://" +:+ e +:+ ".api.runpod.ai/openai/v1"
             | _ => "https://api.runpod.ai/v2/" +:+ e +:+ "/openai/v1"
             end)
  end.
Definition inapplicable (what : string) (t : ProviderType) : exn :=
  ValueError (what +:+ " is not applicable to provider_type=" +:+ repr_str (enum_value t)).
Definition queue_url (p : Provider) (path : string) : py string :=
  let? e := require_endpoint_id p in
  match p_provider_type p with
  | SERVERLESS_QUEUE | PUBLIC_ENDPOINT => Ok ("https://api.runpod.ai/v2/" +:+ e +:+ path)
  | t => Err (inapplicable "queue_url" t)
  end.
Definition lb_url (p : Provider) (path : string) : py string :=
  let? e := require_endpoint_id p in
  match p_provider_type p with
  | SERVERLESS_LB => Ok ("https://" +:+ e +:+ ".api.runpod.ai" +:+ (if startswith "/" path then path else "/" +:+ path))
  | t => Err (inapplicable "lb_url" t)
  end.
Definition public_endpoint_url (p : Provider) : py string :=
  let? e := require_endpoint_id p in
  match p_provider_type p with
  | PUBLIC_ENDPOINT => Ok ("https://api.runpod.ai/v2/" +:+ e +:+ "/openai/v1")
  | t => Err (inapplicable "public_endpoint_url" t)
  end.
Definition provider_url (p : Provider) : py string :=
  match p_provider_type p with
  | SERVERLESS_QUEUE => queue_url p EmptyString
  | SERVERLESS_LB => lb_url p "/"
  | PUBLIC_ENDPOINT => public_endpoint_url p
  | POD_LEASE => Err (ValueError "pod_lease providers do not have a single primary URL")
  end.

(** What a provider must be to be chosen. *)
Definition eligible_at (clock t : datetime) (request : RoutingRequest) (c : Capability) (p : Provider) : Prop :=
  (exists res, evaluate_hard_constraints request (Some (routed_capability c)) (Some (c_id c)) (PModel p) = Ok res /\ passed res = true) /\
  p_enabled p = true /\ lower (p_health_status p) = "healthy" /\ is_in_cooldown clock (InProvider (PModel p)) (Some t) = Ok false.

(** The lower priority number first, then the name, then the id. *)
Definition ranks_first (q p : Provider) : Prop :=
  p_priority q <= p_priority p /\
  (p_priority q = p_priority p -> String.compare (p_name q) (p_name p) <> Gt /\
    (p_name q = p_name p -> String.compare (p_id q) (p_id p) <> Gt)).

(** Lemmas *)

Lemma order_ranks q p : no_greater provider_order q p -> ranks_first q p.
Proof.
  unfold no_greater, provider_order, ranks_first. cbn [tuple_key]. unfold lexi, by_.
  destruct (Z.compare_spec (p_priority q) (p_priority p)) as [E|E|E]; [|by split; lia|done].
  destruct (String.compare (p_name q) (p_name p)) eqn:En; intros Hc; split; try lia; intros _; split; try done.
  - intros _. by destruct (String.compare (p_id q) (p_id p)).
  - intros E'. rewrite E' in En. pose proof (cmp_flip _ string_ordering (p_name p) (p_name p)) as Hf. by rewrite En in Hf.
Qed.

Lemma provider_ordering : Ordering provider_order.
Proof.
  apply tuple_ordering. repeat first [apply Forall_cons_2|apply Forall_nil_2]; apply by_ordering;
    first [exact Z_ordering|exact string_ordering].
Qed.

Lemma stage2_reasons_none clock p t rs :
  stage2_reasons clock p t = Ok rs ->
  rs = [] <-> p_enabled p = true /\ lower (p_health_status p) = "healthy" /\ is_in_cooldown clock (InProvider (PModel p)) (Some t) = Ok false.
Proof.
  unfold stage2_reasons. intros (cooling & -> & [= <-])%rbind_Ok.
  destruct (p_enabled p), (String.eqb (lower (p_health_status p)) "healthy") eqn:E, cooling; boolify; simpl; split;
    first [done|by intros (? & ? & ?)|by intros (? & ? & [=])|naive_solver].
Qed.

Lemma stage2_rounds clock t ps acc r :
  foldR (stage2_round clock t) acc ps = Ok r ->
  exists el elim, r = (acc.1 ++ el, acc.2 ++ elim) /\ (length el + length elim = length ps)%nat /\
    forall p, p ∈ el <-> p ∈ ps /\ p_enabled p = true /\ lower (p_health_status p) = "healthy" /\
                         is_in_cooldown clock (InProvider (PModel p)) (Some t) = Ok false.
Proof.
  revert acc. induction ps as [|p ps IH]; intros acc; csimpl.
  - intros [= <-]. exists [], []. rewrite !app_nil_r. split; [by destruct acc|]. split; [done|]. intros p.
    rewrite elem_of_nil. naive_solver.
  - intros (acc1 & (rs & Hrs & [= <-])%rbind_Ok & H)%rbind_Ok. destruct (IH _ H) as (el & elim & -> & Hlen & Hel).
    pose proof (stage2_reasons_none _ _ _ _ Hrs) as Hn. destruct rs as [|x rs].
    + exists (p :: el), elim. cbn [fst snd]. rewrite <- app_assoc. split; [done|]. split; [simpl; lia|].
      intros q. rewrite !elem_of_cons, Hel. destruct Hn as [Hn _]. specialize (Hn eq_refl). naive_solver.
    + exists el, (route_elimination (p_id p) 2 x (x :: rs) :: elim). cbn [fst snd]. rewrite <- app_assoc.
      split; [done|]. split; [simpl; lia|]. intros q. rewrite elem_of_cons, Hel. split; [naive_solver|].
      intros [[->|Hq] Hc]; [|by split]. apply Hn in Hc. done.
Qed.

Lemma passed_spec request c ps r p :
  filter_hard_constraints request (PModel <$> ps) (Some (routed_capability c)) None = Ok r ->
  p ∈ passed_models r <->
  p ∈ ps /\ exists res, evaluate_hard_constraints request (Some (routed_capability c)) (Some (c_id c)) (PModel p) = Ok res /\ passed res = true.
Proof.
  intros H. unfold passed_models. rewrite list_elem_of_omap. split.
  - intros ([q|m] & Hin & Hm); [|done]. injection Hm as ->.
    destruct (filter_hard_constraints_survivor _ _ _ _ _ _ H Hin) as [Hp Hres]. split; [|exact Hres].
    apply list_elem_of_fmap in Hp as (q & [= ->] & Hq). done.
  - intros [Hp (res & Hres & Hpass)]. exists (PModel p). split; [|done].
    apply filter_hard_constraints_inv in H as (Hm & -> & _). apply mapR_Ok in Hm.
    apply list_elem_of_lookup in Hp as [i Hi]. assert ((PModel <$> ps) !! i = Some (PModel p)) as Hi' by (by rewrite list_lookup_fmap, Hi).
    destruct (Forall2_lookup_l _ _ _ _ _ Hm Hi') as (res' & Hr & He). cbn [capability_id_for routed_capability RoutingTypes.capability_model_id] in He.
    rewrite Hres in He. injection He as <-. apply list_elem_of_fmap. exists (PModel p, res). split; [done|].
    apply list_elem_of_filter. split; [done|]. apply (list_elem_of_lookup_2 _ i). by apply lookup_zip_Some.
Qed.
Lemma passed_models_length request c ps r :
  filter_hard_constraints request (PModel <$> ps) (Some (routed_capability c)) None = Ok r ->
  (length (passed_models r) + length (f_eliminated r) = length ps)%nat.
Proof.
  intros H. pose proof (filter_hard_constraints_count _ _ _ _ _ H) as Hc. rewrite length_fmap in Hc. rewrite <- Hc. f_equal.
  unfold passed_models. assert (Forall (fun p => is_Some (model_of p)) (f_passed r)) as Hall.
  { apply Forall_forall. intros p Hp. destruct (filter_hard_constraints_survivor _ _ _ _ _ _ H Hp) as [Hin _].
    apply list_elem_of_fmap in Hin as (q & -> & _). by eexists. }
  clear -Hall. induction Hall as [|p l [q Hq] _ IH]; csimpl; [done|]. rewrite Hq. simpl. by rewrite IH.
Qed.

Lemma stage12_Ok clock rq ps c context now r :
  select_stage12_provider clock rq ps c context now = r ->
  match r with
  | Ok r => exists t, observed_at clock context now = Ok t /\ s12_capability r = c /\
      (forall p, p ∈ s12_eligible r <-> p ∈ ps /\ eligible_at clock t rq c p) /\
      StronglySorted (no_greater provider_order) (s12_eligible r) /\ head (s12_eligible r) = Some (s12_provider r) /\
      (length (s12_eligible r) + length (s12_eliminated r) = length ps)%nat
  | Err (NoHealthyProviderError n) => n = c_name c /\ exists t, observed_at clock context now = Ok t /\ forall p, p ∈ ps -> ~ eligible_at clock t rq c p
  | Err (ResolverExn _) => True
  | Err _ => False
  end.
Proof.
  unfold select_stage12_provider. destruct (observed_at clock context now) as [t|]; cbn [rlift rbind]; [|by intros <-].
  destruct (filter_hard_constraints _ _ _ _) as [st1|] eqn:E1; cbn [rlift rbind]; [|by intros <-].
  destruct (mapR resolver_stage1 _) as [el1|] eqn:E2; cbn [rlift rbind]; [|by intros <-].
  destruct (foldR _ _ _) as [[el elim]|] eqn:E3; cbn [rlift rbind fst snd]; [|by intros <-].
  destruct (stage2_rounds _ _ _ _ _ E3) as (el' & elim' & [= -> ->] & Hlen & Hel). cbn [app] in *.
  assert (forall p, p ∈ sort_by (less provider_order) el' <-> p ∈ ps /\ eligible_at clock t rq c p) as Hin.
  { intros p. rewrite elem_of_sort_by, Hel, (passed_spec _ _ _ _ _ E1). unfold eligible_at. tauto. }
  pose proof (sort_by_length (less provider_order) el') as Hsl. pose proof (sorted_no_greater _ provider_ordering el') as Hso.
  pose proof (passed_models_length _ _ _ _ E1) as Hpl. apply mapR_length in E2.
  destruct (sort_by _ el') as [|p ranked] eqn:Es; intros <-.
  - split; [done|]. exists t. split; [done|]. intros p Hp He. assert (p ∈ []) as Hf by (apply Hin; by split). by apply elem_of_nil in Hf.
  - exists t. cbn [s12_capability s12_eligible s12_provider s12_eliminated head]. rewrite length_app.
    split; [done|]. split; [done|]. split; [exact Hin|]. split; [exact Hso|]. split; [done|]. simpl in *. lia.
Qed.

Lemma resolve_record reg name :
  match resolve_capability_record reg name with
  | Ok c => get_by_name reg name = Some c \/ get_by_name reg name = None /\ capabilities reg !! name = Some c
  | Err e => e = CapabilityNotFoundError name
  end.
Proof. unfold resolve_capability_record. destruct (get_by_name reg name); [by left|]. destruct (_ !! _); [by right|done]. Qed.

(** Properties *)

(** C24: Resolution finds the capability by its name, else by its id, refuses a
    disabled one, and returns exactly the eligible ones of the providers it
    read, with the first by priority, name and id in front; every other is
    accounted for as eliminated.  It reports no healthy provider only when
    none of the providers it read was eligible. *)
Theorem resolution_is_best (clock : datetime) (reg : registry) (name : string) (provider_id : option string)
    (request : option RoutingRequest) (context : option PlanningContext) (now : option datetime) (limit : nat)
    (r : result resolver_error Stage12Resolution) :
  resolve_capability clock reg name provider_id request context now limit = r ->
  let found c := c_enabled c = true /\
    (get_by_name reg name = Some c \/ get_by_name reg name = None /\ capabilities reg !! name = Some c) in
  match r with
  | Ok r =>
      found (s12_capability r) /\
      exists ps t, providers_for_request reg (s12_capability r) provider_id limit = Ok ps /\ observed_at clock context now = Ok t /\
        let rq := request_for_capability request (s12_capability r) in
        (forall p, p ∈ s12_eligible r <-> p ∈ ps /\ eligible_at clock t rq (s12_capability r) p) /\
        s12_provider r ∈ ps /\ eligible_at clock t rq (s12_capability r) (s12_provider r) /\
        (forall p, p ∈ ps -> eligible_at clock t rq (s12_capability r) p -> ranks_first (s12_provider r) p) /\
        (length (s12_eligible r) + length (s12_eliminated r) = length ps)%nat
  | Err (NoHealthyProviderError n) =>
      exists c ps t, found c /\ n = c_name c /\ providers_for_request reg c provider_id limit = Ok ps /\
        observed_at clock context now = Ok t /\ forall p, p ∈ ps -> ~ eligible_at clock t (request_for_capability request c) c p
  | Err _ => True
  end.
Proof.
  cbv zeta. unfold resolve_capability. pose proof (resolve_record reg name) as Hc.
  destruct (resolve_capability_record reg name) as [c|e]; cbn [rbind]; [|by intros <-; destruct e].
  destruct (c_enabled c) eqn:En; cbn [negb]; [|by intros <-].
  destruct (providers_for_request _ _ _ _) as [ps|e] eqn:Ep; cbn [rbind];
    [|intros <-; unfold providers_for_request in Ep; destruct provider_id as [i|]; [|done];
      destruct (providers reg !! i); [done|]; by injection Ep as <-].
  intros Hs. pose proof (stage12_Ok _ _ _ _ _ _ _ Hs) as Hok. destruct r as [r|e].
  - destruct Hok as (t & Ht & Hcap & Hin & Hso & Hh & Hlen). rewrite Hcap. split; [by split|].
    exists ps, t. split; [done|]. split; [done|]. split; [exact Hin|].
    destruct (s12_eligible r) as [|p l] eqn:El; [done|]. injection Hh as Hh. subst p.
    destruct (proj1 (Hin (s12_provider r)) ltac:(left)) as [Hp He]. split; [done|]. split; [done|]. split; [|done].
    intros p Hps Hpe. pose proof (proj2 (Hin p) (conj Hps Hpe)) as Hpin. apply StronglySorted_inv in Hso as [_ Hall].
    apply order_ranks. apply elem_of_cons in Hpin as [->|Hpin]; [apply no_greater_refl, provider_ordering|].
    rewrite Forall_forall in Hall. by apply Hall.
  - destruct e as [| |n| |]; try done. destruct Hok as (-> & t & Ht & Hno). exists c, ps, t. split; [by split|]. done.
Qed.

(** What may stand in the host of a URL: no separator, no blank. *)
Definition host_char (ch : ascii) : bool := id_char ch || Ascii.eqb ch "."%char || (nat_of_ascii ch =? 10)%nat.
Definition runpod_host (host : string) : Prop :=
  all_chars host_char host = true /\ (host = "api.runpod.ai" \/ exists e, host = e +:+ ".api.runpod.ai").

Lemma token_chars s : endpoint_token s = true -> all_chars host_char s = true.
Proof.
  destruct s as [|a s]; [done|]. cbn [endpoint_token]. intros Ht. boolify. cbn [all_chars]. apply andb_true_intro. split.
  - unfold host_char, id_char. by match goal with Ha : is_alnum a = true |- _ => rewrite Ha end.
  - match goal with Hs : all_chars id_char s = true |- _ => revert Hs end. clear. induction s as [|b s IH]; cbn [all_chars]; [done|].
    intros [Hb Hs]%andb_prop. rewrite IH by done. unfold host_char. by rewrite Hb.
Qed.
Lemma without_newline_chars s t : without_newline s = Some t -> all_chars host_char t = true -> all_chars host_char s = true.
Proof.
  revert t. induction s as [|a s IH]; intros t; cbn [without_newline]; [done|]. destruct s as [|b s].
  - destruct (_ =? 10)%nat eqn:E; [|done]. intros _ _. cbn [all_chars]. unfold host_char. by rewrite E, !orb_true_r.
  - destruct (without_newline (String b s)) as [u|]; [|done]. intros [= <-]. cbn [all_chars]. intros [Ha Hu]%andb_prop.
    rewrite Ha. by apply (IH u).
Qed.
Lemma required_id p e : require_endpoint_id p = Ok e -> all_chars host_char e = true.
Proof.
  unfold require_endpoint_id. destruct (p_runpod_endpoint_id p) as [[|a s]|]; [done| |done].
  destruct (endpoint_matches _) eqn:E; [|done]. intros [= <-]. unfold endpoint_matches in E. apply orb_prop in E as [E|E].
  - by apply token_chars.
  - destruct (without_newline _) as [t|] eqn:Et; [|done]. eapply without_newline_chars; [exact Et|by apply token_chars].
Qed.
Lemma chars_app f s t : all_chars f (s +:+ t) = all_chars f s && all_chars f t.
Proof.
  induction s as [|a s IH]; [done|]. change (String a s +:+ t) with (String a (s +:+ t)). cbn [all_chars].
  by rewrite IH, andb_assoc.
Qed.
Lemma string_app_assoc (a b c : string) : a +:+ (b +:+ c) = (a +:+ b) +:+ c.
Proof.
  induction a as [|x a IH]; [done|]. change (String x (a +:+ (b +:+ c)) = String x ((a +:+ b) +:+ c)). by rewrite IH.
Qed.

Lemma endpoint_host e : all_chars host_char e = true -> runpod_host (e +:+ ".api.runpod.ai").
Proof. intros He. split; [by rewrite chars_app, He|right; by exists e]. Qed.
Lemma api_host : runpod_host "api.runpod.ai".
Proof. split; [reflexivity|by left]. Qed.

(** Whatever endpoint id a provider has and whatever path the caller gives,
    a URL built for it goes to RunPod's API host or to a subdomain of it:
    neither can end the host early or add a port or user info. *)
Theorem endpoint_url_host (p : Provider) (path u : string) :
  openai_base_url p = Ok u \/ queue_url p path = Ok u \/ lb_url p path = Ok u \/ public_endpoint_url p = Ok u \/
  provider_url p = Ok u ->
  exists host rest, u = "https://" +:+ host +:+ rest /\ runpod_host host /\ startswith "/" rest = true.
Proof.
  assert (forall e rest, all_chars host_char e = true -> startswith "/" rest = true -> u = "https://" +:+ e +:+ ".api.runpod.ai" +:+ rest ->
    exists host rest, u = "https://" +:+ host +:+ rest /\ runpod_host host /\ startswith "/" rest = true) as Hlb.
  { intros e rest He Hr ->. exists (e +:+ ".api.runpod.ai"), rest. rewrite <- string_app_assoc.
    split; [done|]. split; [by apply endpoint_host|done]. }
  assert (forall e rest, u = "https://api.runpod.ai/v2/" +:+ e +:+ rest ->
    exists host rest, u = "https://" +:+ host +:+ rest /\ runpod_host host /\ startswith "/" rest = true) as Hapi.
  { intros e rest ->. exists "api.runpod.ai", ("/v2/" +:+ e +:+ rest). split; [done|]. split; [apply api_host|done]. }
  assert (forall q, queue_url p q = Ok u -> exists host rest, u = "https://" +:+ host +:+ rest /\ runpod_host host /\ startswith "/" rest = true) as Hq.
  { intros q. unfold queue_url. intros (e & _ & H)%rbind_Ok. destruct (p_provider_type p); try done; injection H as <-; by eapply Hapi. }
  assert (forall q, lb_url p q = Ok u -> exists host rest, u = "https://" +:+ host +:+ rest /\ runpod_host host /\ startswith "/" rest = true) as Hl.
  { intros q. unfold lb_url. intros (e & He%required_id & H)%rbind_Ok. destruct (p_provider_type p); try done. injection H as <-.
    eapply (Hlb e); [exact He| |reflexivity]. destruct (startswith "/" q) eqn:E; [exact E|by destruct q]. }
  assert (public_endpoint_url p = Ok u -> exists host rest, u = "https://" +:+ host +:+ rest /\ runpod_host host /\ startswith "/" rest = true) as Hp.
  { unfold public_endpoint_url. intros (e & _ & H)%rbind_Ok. destruct (p_provider_type p); try done. injection H as <-. by eapply Hapi. }
  intros [H|[H|[H|[H|H]]]]; [|by eapply Hq|by eapply Hl|by apply Hp|].
  - unfold openai_base_url in H. destruct (p_provider_type p); try done; apply rbind_Ok in H as (e & He%required_id & [= <-]);
      [by eapply Hapi|by apply (Hlb e "/openai/v1")|by eapply Hapi].
  - unfold provider_url in H. destruct (p_provider_type p); [by eapply Hq|by eapply Hl|by apply Hp|done].
Qed.

Module ResolverSim.
Definition clock : datetime := utc 1767225600000000.
Definition chat (enabled : bool) : Capability :=
  Registry.MkCapability "cap_chat" "chat" "v1" LLM None [] [] (MkDefaults 60000 60000 SYNC) PER_SECOND [] API None enabled (utc 0) (utc 0).
Definition lane (i status : string) (priority : Z) : Provider :=
  MkProvider i "cap_chat" i SERVERLESS_LB (Some ("ep" +:+ i)) None None None [] priority true status 0 0 None None (of_Z 0) None "api" None (utc 0).
Definition reg_of (enabled : bool) (ps : list Provider) : registry :=
  MkRegistry {["cap_chat" := chat enabled]} (list_to_map ((fun p => (p_id p, p)) <$> ps)) [].
Definition chosen (r : result resolver_error Stage12Resolution) : option (string * list string * list string) :=
  match r with
  | Ok r => Some (selected_provider_id r, p_id <$> s12_eligible r, re_provider_id <$> s12_eliminated r)
  | Err _ => None
  end.
Definition lanes : list Provider := [lane "slow" "healthy" 5; lane "fast" "Healthy" 1; lane "new" "unknown" 0; lane "down" "unhealthy" 2].
Definition resolved := resolve_inference_target clock (reg_of true lanes) "chat" None 512.

Example resolved_ex : chosen resolved = Some ("fast", ["fast"; "slow"], ["new"; "down"]).
Proof. vm_compute. reflexivity. Qed.
Example by_id_ex : chosen (resolve_inference_target clock (reg_of true lanes) "cap_chat" (Some "slow") 512) = Some ("slow", ["slow"], []).
Proof. vm_compute. reflexivity. Qed.
Example disabled_ex : resolve_inference_target clock (reg_of false lanes) "chat" None 512 = Err (CapabilityDisabledError "chat").
Proof. vm_compute. reflexivity. Qed.
Example unknown_ex : resolve_inference_target clock (reg_of true lanes) "chat" (Some "gone") 512 = Err (ProviderNotFoundError "gone").
Proof. vm_compute. reflexivity. Qed.
(** Ten lanes that are down in front of a healthy one: the limit of the query
    cuts it off. *)
Definition crowd : list Provider := ((fun k => lane (str_int k) "unhealthy" k) <$> seqZ 0 10) ++ [lane "spare" "healthy" 99].
Example crowded_out_ex : resolve_inference_target clock (reg_of true crowd) "chat" None 512 = Err (NoHealthyProviderError "chat").
Proof. vm_compute. reflexivity. Qed.
(** The planner routes to a lane nobody has probed yet, the resolver does not. *)
Example unprobed_ex :
  resolve_inference_target clock (reg_of true [lane "new" "unknown" 0]) "chat" None 512 = Err (NoHealthyProviderError "chat") /\
  stage2_elimination_reasons clock (PModel (lane "new" "unknown" 0)) clock = Ok [].
Proof. vm_compute. split; reflexivity. Qed.
Example lb_url_ex : lb_url (lane "a" "healthy" 1) "embed" = Ok "https://epa.api.runpod.ai/embed".
Proof. vm_compute. reflexivity. Qed.
Definition with_id (e : string) : Provider :=
  MkProvider "p" "cap_chat" "p" SERVERLESS_LB (Some e) None None None [] 1 true "healthy" 0 0 None None (of_Z 0) None "api" None (utc 0).
Example bad_ids_ex :
  forallb (fun e => negb (is_ok (lb_url (with_id e) "/"))) ["a"; "-ab"; "a.b"; "ab/"; "ab@evil"; "ab:80"; "a b"; ""] = true.
Proof. vm_compute. reflexivity. Qed.
(** The pattern lets a final line break through. *)
Example newline_ex : endpoint_matches ("ep1" +:+ String (ascii_of_nat 10) EmptyString) = true.
Proof. vm_compute. reflexivity. Qed.
Lemma resolved_run : resolve_capability clock (reg_of true lanes) "chat" None
  (Some (MkRequest "chat" (Some 512) None None None None (Some "chat") None None false)) None None 10 = resolved.
Proof. reflexivity. Qed.
End ResolverSim.

Lemma resolution_is_best_witness : exists r, ResolverSim.resolved = Ok r /\ selected_provider_id r = "fast" /\ c_enabled (s12_capability r) = true.
Proof.
  pose proof (resolution_is_best _ _ _ _ _ _ _ _ _ ResolverSim.resolved_run) as Hthm.
  assert (exists r, ResolverSim.resolved = Ok r /\ selected_provider_id r = "fast") as (r & E & Es)
    by (eexists; split; [vm_compute; reflexivity|vm_compute; reflexivity]).
  rewrite E in Hthm. exists r. split; [exact E|]. split; [exact Es|]. exact (proj1 (proj1 Hthm)).
Defined.
Lemma endpoint_url_host_witness : exists host rest,
  "https://epa.api.runpod.ai/embed" = "https://" +:+ host +:+ rest /\ runpod_host host /\ startswith "/" rest = true.
Proof. apply (endpoint_url_host (ResolverSim.lane "a" "healthy" 1) "embed"). right. right. left. vm_compute. reflexivity. Defined.
