(* ===== verification/Staging.v ===== *)
(** * Staging storage ([staging_store.py], [r2_temp_credentials.py], [r2_staging_cleanup.py])

    The staging store vends pods short-lived R2 credentials and deletes what
    pods left behind when they are killed.  [StagingDeps] is Cloudflare's API,
    the bucket and the clock; a text is given for what an exception of a
    library prints.  An environment is a function; the process environment
    falls back to the settings.  [LawfulBucket] is what the bucket promises:
    a listing has the objects with a prefix in pages and changes nothing, and
    a deletion touches its object only.  Instants are in UTC. *)

From Stdlib Require Import Ascii.
From S2P Require Import Prelude PyValue PyTime PyFormat PyJson PyOrder Effects OpenAIChain Pods Launch KillSwitch.

(** Definitions *)

Definition DEFAULT_R2_TEMP_CREDENTIAL_TTL_S : Z := 21600.
Definition MAX_R2_TEMP_CREDENTIAL_TTL_S : Z := 604800.
Definition DEFAULT_R2_TEMP_CREDENTIAL_PERMISSION : string := "object-read-write".
Definition DEFAULT_R2_DEBUG_LOG_PREFIX : string := "debug-logs/".
Definition R2_PERMISSIONS : list string := ["admin-read-only"; "admin-read-write"; "object-read-only"; "object-read-write"].

(** [R2TempCredentialConfigError], [R2TempCredentialError],
    [R2StagingCleanupError], what escapes as another exception, and a listing
    that has not come to its end. *)
Inductive r2_error := R2Config (text : string) | R2Failed (text : string) | StagingCleanup (text : string) | R2Exn (e : exn) | StillListing.
Abbreviation r2 := (result r2_error).

(** ** The environment *)

Abbreviation environment := (string -> option string).
(** [_non_empty] of a text, [_first_env] *)
Definition non_blank (o : option string) : option string :=
  match o with Some s => if nonempty (strip s) then Some (strip s) else None | None => None end.
Fixpoint first_env (env : environment) (names : list string) : option string :=
  match names with
  | [] => None
  | n :: names' => match non_blank (env n) with Some v => Some v | None => first_env env names' end
  end.
Definition bool_env (env : environment) (names : list string) : r2 (option bool) :=
  match first_env env names with
  | None => Ok None
  | Some raw =>
      let v := lower (strip raw) in
      if bool_decide (v ∈ ["1"; "true"; "yes"; "on"]) then Ok (Some true)
      else if bool_decide (v ∈ ["0"; "false"; "no"; "off"]) then Ok (Some false)
      else Err (R2Config (String.concat "/" names +:+ " must be true or false"))
  end.
Definition split_csv (raw : option string) : list string :=
  match raw with None => [] | Some s => filter (fun t => nonempty t = true) (strip <$> split_on ","%char s) end.
Definition validate_ttl (n : Z) : r2 Z :=
  if n <=? 0 then Err (R2Config "R2 temporary credential ttl_seconds must be > 0")
  else if MAX_R2_TEMP_CREDENTIAL_TTL_S <? n
  then Err (R2Config ("R2 temporary credential ttl_seconds must be <= " +:+ str_int MAX_R2_TEMP_CREDENTIAL_TTL_S))
  else Ok n.
Definition parse_ttl (raw : option string) : r2 Z :=
  match raw with
  | None => Ok DEFAULT_R2_TEMP_CREDENTIAL_TTL_S
  | Some s => match parse_int s with
              | Some n => validate_ttl n
              | None => Err (R2Config "R2 temporary credential ttl_seconds must be an integer")
              end
  end.
Definition validate_permission (value : string) : r2 string :=
  if bool_decide (strip value ∈ R2_PERMISSIONS) then Ok (strip value)
  else Err (R2Config ("unsupported R2 temporary credential permission " +:+ repr_str value +:+ "; allowed: " +:+
                      String.concat ", " R2_PERMISSIONS)).
Definition or_text (o : option string) (d : string) : string := default d o.
Definition as_folder (prefix : string) : string := rstrip_slash prefix +:+ "/".
Definition default_prefixes (env : environment) : list string :=
  [as_folder (or_text (non_blank (env "PITWALL_DEBUG_LOG_PREFIX")) DEFAULT_R2_DEBUG_LOG_PREFIX)].

Definition ACCOUNT_ID_ENV : list string := ["CLOUDFLARE_ACCOUNT_ID"; "CF_ACCOUNT_ID"; "R2_ACCOUNT_ID"].
Definition API_TOKEN_ENV : list string := ["CLOUDFLARE_API_TOKEN"; "CF_API_TOKEN"; "R2_TEMP_CREDENTIAL_API_TOKEN"].
Definition PARENT_ACCESS_KEY_ENV : list string :=
  ["R2_PARENT_ACCESS_KEY_ID"; "CLOUDFLARE_R2_PARENT_ACCESS_KEY_ID"; "R2_ACCESS_KEY_ID"; "R2_ACCESS_KEY"].
Definition ENABLED_ENV : list string := ["R2_TEMP_CREDENTIALS_ENABLED"; "PITWALL_R2_TEMP_CREDENTIALS_ENABLED"].
Definition REQUIRED_ENV : list string := ["R2_TEMP_CREDENTIALS_REQUIRED"; "PITWALL_R2_TEMP_CREDENTIALS_REQUIRED"].
Definition TTL_ENV : list string :=
  ["R2_TEMP_CREDENTIAL_TTL_S"; "R2_TEMP_CREDENTIALS_TTL_S"; "R2_TEMP_CREDENTIAL_TTL_SECONDS"; "R2_TEMP_CREDENTIALS_TTL_SECONDS";
   "PITWALL_R2_TEMP_CREDENTIAL_TTL_S"; "PITWALL_R2_TEMP_CREDENTIALS_TTL_S"; "PITWALL_R2_TEMP_CREDENTIAL_TTL_SECONDS";
   "PITWALL_R2_TEMP_CREDENTIALS_TTL_SECONDS"].
Definition PERMISSION_ENV : list string :=
  ["R2_TEMP_CREDENTIAL_PERMISSION"; "R2_TEMP_CREDENTIALS_PERMISSION"; "PITWALL_R2_TEMP_CREDENTIAL_PERMISSION";
   "PITWALL_R2_TEMP_CREDENTIALS_PERMISSION"].
Definition PREFIXES_ENV : list string := ["R2_TEMP_CREDENTIAL_PREFIXES"; "PITWALL_R2_TEMP_CREDENTIAL_PREFIXES"].
Definition OBJECTS_ENV : list string := ["R2_TEMP_CREDENTIAL_OBJECTS"; "PITWALL_R2_TEMP_CREDENTIAL_OBJECTS"].
Definition STS_CREDENTIAL_ENV_KEYS : list string :=
  ["AWS_ACCESS_KEY_ID"; "AWS_SECRET_ACCESS_KEY"; "AWS_SESSION_TOKEN"; "R2_SESSION_TOKEN"; "R2_CREDENTIAL_EXPIRES_AT";
   "R2_CREDENTIAL_TTL_SECONDS"].

Record R2TempCredentialEnvConfig : Type := MkR2Config {
  rc_endpoint : string; rc_bucket : string; rc_account_id : string; rc_api_token : string; rc_parent : string;
  rc_ttl_seconds : Z; rc_permission : string; rc_prefixes : list string; rc_objects : list string }.

(** [R2TempCredentialEnvConfig.from_env] *)
Definition missing_names (values : list (string * option string)) : list string :=
  omap (fun nv => match nv.2 with None => Some nv.1 | Some _ => None end) values.
Definition config_prefixes (env : environment) (given : option (list string)) : list string :=
  match split_csv (first_env env PREFIXES_ENV), given with
  | [], Some ((_ :: _) as ps) => ps
  | [], _ => default_prefixes env
  | ps, _ => ps
  end.
Definition config_from_env (env : environment) (given_prefixes : option (list string)) : r2 (option R2TempCredentialEnvConfig) :=
  let? enabled := bool_env env ENABLED_ENV in
  let? required := bool_env env REQUIRED_ENV in
  if bool_decide (enabled = Some false) then Ok None else
  let endpoint := first_env env ["R2_ENDPOINT"] in
  let bucket := first_env env ["R2_BUCKET_STAGING"; "R2_BUCKET"] in
  let account := first_env env ACCOUNT_ID_ENV in
  let token := first_env env API_TOKEN_ENV in
  let parent := first_env env PARENT_ACCESS_KEY_ENV in
  match missing_names [("R2_ENDPOINT", endpoint); ("R2_BUCKET_STAGING", bucket); ("CLOUDFLARE_ACCOUNT_ID", account);
                       ("CLOUDFLARE_API_TOKEN", token); ("R2_PARENT_ACCESS_KEY_ID", parent)] with
  | [] =>
      let? permission := validate_permission (or_text (first_env env PERMISSION_ENV) DEFAULT_R2_TEMP_CREDENTIAL_PERMISSION) in
      let? ttl := parse_ttl (first_env env TTL_ENV) in
      Ok (Some (MkR2Config (or_text endpoint "") (or_text bucket "") (or_text account "") (or_text token "") (or_text parent "")
                  ttl permission (config_prefixes env given_prefixes) (split_csv (first_env env OBJECTS_ENV))))
  | names =>
      if bool_decide (enabled = Some true) || default false required
      then Err (R2Config ("R2 temporary credentials are enabled but missing: " +:+ String.concat ", " names))
      else Ok None
  end.

(** ** Credentials *)

Record R2TemporaryCredentials : Type := MkCredentials {
  tc_access_key_id : string; tc_secret_access_key : string; tc_session_token : string; tc_ttl_seconds : Z;
  tc_bucket : string; tc_permission : string; tc_prefixes : list string; tc_objects : list string; tc_issued_at : datetime }.
Definition refuse_blank (s text : string) : r2 unit := if nonempty (strip s) then Ok tt else Err (R2Failed text).
Definition temporary_credentials (c : R2TemporaryCredentials) : r2 R2TemporaryCredentials :=
  let? _ := refuse_blank (tc_access_key_id c) "temporary R2 access_key_id is empty" in
  let? _ := refuse_blank (tc_secret_access_key c) "temporary R2 secret_access_key is empty" in
  let? _ := refuse_blank (tc_session_token c) "temporary R2 session_token is empty" in
  let? _ := refuse_blank (tc_bucket c) "temporary R2 bucket is empty" in
  let? _ := validate_ttl (tc_ttl_seconds c) in
  let? _ := validate_permission (tc_permission c) in
  Ok c.
Definition expires_at (c : R2TemporaryCredentials) : r2 datetime := rlift R2Exn (dt_add (tc_issued_at c) (td_seconds (tc_ttl_seconds c))).
(** [_zulu] *)
Definition zulu (t : datetime) : string := isoformat (Datetime (dt_us t) false) +:+ "Z".
Definition as_pod_env (c : R2TemporaryCredentials) (endpoint bucket : string) : r2 (list (string * string)) :=
  let b := strip (if nonempty bucket then bucket else tc_bucket c) in
  if negb (nonempty (strip endpoint)) then Err (R2Config "R2 endpoint is required for pod env") else
  if negb (nonempty b) then Err (R2Config "R2 bucket is required for pod env") else
  let? e := expires_at c in
  Ok [("R2_ENDPOINT", strip endpoint); ("R2_BUCKET_STAGING", b); ("AWS_ACCESS_KEY_ID", tc_access_key_id c);
      ("AWS_SECRET_ACCESS_KEY", tc_secret_access_key c); ("AWS_SESSION_TOKEN", tc_session_token c);
      ("AWS_DEFAULT_REGION", "auto"); ("R2_SESSION_TOKEN", tc_session_token c);
      ("R2_CREDENTIAL_TTL_SECONDS", str_int (tc_ttl_seconds c)); ("R2_CREDENTIAL_EXPIRES_AT", zulu e)].

(** ** The outside *)

Record credential_request : Type := MkRequest { cq_path : string; cq_token : string; cq_body : dict }.
Inductive http_outcome := HttpFailed (text : string) | HttpAnswer (status : Z) (text : string) (json : option pyval).
Inductive client_outcome := ClientMade | ClientMissing | ClientRaised (text : string).
(** A page is its keys and where the next one starts. *)
Abbreviation page := (list (option string) * option string)%type.
Class StagingDeps (F : Type) := {
  cloudflare : credential_request -> F -> F * http_outcome;
  staging_clock : F -> F * datetime;
  make_client : string -> string -> string -> F -> F * client_outcome;
  list_page : string -> string -> option string -> F -> F * result string page;
  delete_object : string -> string -> F -> F * result string unit }.

(** The requests to Cloudflare, latest first, and the rest. *)
Record staging_world (F : Type) : Type := MkStaging { sw_requests : list credential_request; sw_outside : F }.
Arguments MkStaging {F}.
Arguments sw_requests {F}.
Arguments sw_outside {F}.

Section Vend.
Context {F : Type} `{StagingDeps F}.
Abbreviation op := (eff (staging_world F) r2_error).

Definition from_staging {A} (f : F -> F * A) : op A :=
  fun w => let '(o, a) := f (sw_outside w) in (MkStaging (sw_requests w) o, Ok a).
Definition post_request (q : credential_request) : op http_outcome :=
  fun w => let '(o, r) := cloudflare q (sw_outside w) in (MkStaging (q :: sw_requests w) o, Ok r).

(** [_non_empty] of a value *)
Definition text_value (v : pyval) : option string := non_blank (as_str v).
(** The reading of the answer. *)
Definition read_answer (r : http_outcome) : r2 dict :=
  match r with
  | HttpFailed text => Err (R2Failed ("Cloudflare R2 temporary credential request failed: " +:+ text))
  | HttpAnswer status text json =>
      if 400 <=? status
      then Err (R2Failed ("Cloudflare R2 temporary credential request returned HTTP " +:+ str_int status +:+ ": " +:+ text)) else
      match json with
      | None => Err (R2Failed "Cloudflare R2 temporary credential response was not JSON")
      | Some (VDict payload) =>
          match truthy (dict_get_none "success" payload), dict_get_none "result" payload with
          | true, VDict result => Ok result
          | _, _ => let errors := dict_get_none "errors" payload in
                    Err (R2Failed ("Cloudflare R2 temporary credential response was unsuccessful: " +:+
                                   py_repr (if truthy errors then errors else VDict payload)))
          end
      | Some _ => Err (R2Exn (AttributeError "get"))
      end
  end.

(** [CloudflareR2TempCredentialClient.create] *)
Definition clean (l : list string) : list string := filter (fun s => nonempty s = true) (strip <$> l).
Definition request_body (bucket parent permission : string) (ttl : Z) (prefixes objects : list string) : dict :=
  [("bucket", VStr bucket); ("parentAccessKeyId", VStr parent); ("permission", VStr permission); ("ttlSeconds", VInt ttl)] ++
  match prefixes with [] => [] | _ => [("prefixes", VList (VStr <$> prefixes))] end ++
  match objects with [] => [] | _ => [("objects", VList (VStr <$> objects))] end.
Definition create_credentials (account_id api_token bucket parent : string) (ttl : Z) (permission : string)
    (prefixes objects : list string) (issued_at : option datetime) : op R2TemporaryCredentials :=
  if negb (nonempty (strip account_id)) then fail (R2Config "account_id is required") else
  if negb (nonempty (strip api_token)) then fail (R2Config "api_token is required") else
  if negb (nonempty (strip bucket)) then fail (R2Config "bucket is required") else
  if negb (nonempty (strip parent)) then fail (R2Config "parent_access_key_id is required") else
  do! ttl := lift (validate_ttl ttl) in
  do! permission := lift (validate_permission permission) in
  do! answer := post_request (MkRequest ("accounts/" +:+ strip account_id +:+ "/r2/temp-access-credentials") (strip api_token)
                  (request_body (strip bucket) (strip parent) permission ttl (clean prefixes) (clean objects))) in
  do! result := lift (read_answer answer) in
  match text_value (dict_get_none "accessKeyId" result), text_value (dict_get_none "secretAccessKey" result),
        text_value (dict_get_none "sessionToken" result) with
  | Some key, Some secret, Some token =>
      do! t := match issued_at with Some t => ret t | None => from_staging staging_clock end in
      lift (temporary_credentials (MkCredentials key secret token ttl (strip bucket) permission (clean prefixes) (clean objects) t))
  | _, _, _ => fail (R2Failed "Cloudflare R2 temporary credential response omitted required fields")
  end.

(** [vend_r2_temp_credential_pod_env] *)
Definition sts_env (env : environment) : list (string * string) :=
  omap (fun k => match env k with Some (String _ _ as v) => Some (k, v) | _ => None end) STS_CREDENTIAL_ENV_KEYS.
Definition vend_pod_env (env : environment) (given_prefixes : option (list string)) (issued_at : option datetime)
  : op (list (string * string)) :=
  match sts_env env with
  | (_ :: _) as vars => ret vars
  | [] =>
      do! config := lift (config_from_env env given_prefixes) in
      match config with
      | None => ret []
      | Some c =>
          do! credentials := create_credentials (rc_account_id c) (rc_api_token c) (rc_bucket c) (rc_parent c) (rc_ttl_seconds c)
                               (rc_permission c) (rc_prefixes c) (rc_objects c) issued_at in
          lift (as_pod_env credentials (rc_endpoint c) (rc_bucket c))
      end
  end.
End Vend.

(** ** Cleanup *)

Record StagedPodArtifacts : Type := MkArtifacts {
  sa_pod_id : string; sa_pod_name : string; sa_objects_deleted : Z; sa_errors : list string }.
Record cleanup_config : Type := MkCleanupConfig {
  cc_endpoint : string; cc_access_key : string; cc_secret_key : string; cc_bucket : string; cc_prefix : string }.

Section Cleanup.
Context {F : Type} `{StagingDeps F}.
Abbreviation op := (eff (staging_world F) r2_error).
(** Objects deleted so far, and what was only logged. *)
Abbreviation tally := (Z * list string)%type.

(** The loop over the keys of a page. *)
Fixpoint delete_keys (bucket : string) (ks : list (option string)) (t : tally) : op tally :=
  match ks with
  | [] => ret t
  | Some (String _ _ as k) :: ks' =>
      do! r := from_staging (delete_object bucket k) in
      delete_keys bucket ks' (match r with Ok _ => (t.1 + 1, t.2) | Err text => (t.1, t.2 ++ ["delete " +:+ k +:+ ": " +:+ text]) end)
  | _ :: ks' => delete_keys bucket ks' t
  end.
(** The loop over the pages, in its [try]. *)
Fixpoint delete_pages (fuel : nat) (bucket pattern : string) (token : option string) (t : tally) : op tally :=
  match fuel with
  | O => fail StillListing
  | S fuel' =>
      do! r := from_staging (list_page bucket pattern token) in
      match r with
      | Err text => ret (t.1, t.2 ++ ["list/iterate " +:+ pattern +:+ ": " +:+ text])
      | Ok (ks, next) =>
          do! t' := delete_keys bucket ks t in
          match next with
          | Some token' => delete_pages fuel' bucket pattern (Some token') t'
          | None => ret t'
          end
      end
  end.
Definition prefix_patterns (prefix pod_id : string) : list string := [prefix +:+ pod_id +:+ "/"; prefix +:+ pod_id +:+ ".log"].
Fixpoint delete_patterns (fuel : nat) (bucket : string) (patterns : list string) (t : tally) : op tally :=
  match patterns with
  | [] => ret t
  | p :: ps => do! t' := delete_pages fuel bucket p None t in delete_patterns fuel bucket ps t'
  end.

Definition cleanup_required (what s : string) : r2 unit :=
  if nonempty (strip s) then Ok tt else Err (StagingCleanup (what +:+ " is required for staging cleanup")).
(** [_r2_client] *)
Definition r2_client (c : cleanup_config) : op unit :=
  do! out := from_staging (make_client (cc_endpoint c) (cc_access_key c) (cc_secret_key c)) in
  match out with
  | ClientMade => ret tt
  | ClientMissing => fail (StagingCleanup "R2 staging cleanup requires the optional storage dependencies")
  | ClientRaised text => fail (R2Exn (ValueError text))
  end.
Definition checked_config (c : cleanup_config) : r2 unit :=
  let? _ := cleanup_required "R2 endpoint" (cc_endpoint c) in
  let? _ := cleanup_required "R2 access key" (cc_access_key c) in
  let? _ := cleanup_required "R2 secret key" (cc_secret_key c) in
  cleanup_required "R2 bucket" (cc_bucket c).
Definition delete_pod_staging_prefix (fuel : nat) (c : cleanup_config) (pod_id : pyval) : op Z :=
  do! _ := lift (checked_config c) in
  match pod_id with
  | VStr i =>
      do! _ := lift (cleanup_required "pod_id" i) in
      do! _ := r2_client c in
      do! t := delete_patterns fuel (cc_bucket c) (prefix_patterns (cc_prefix c) i) (0, []) in
      ret t.1
  | _ => fail (R2Exn (AttributeError "strip"))
  end.

(** One pod of [cleanup_staging_for_pods]; only [R2StagingCleanupError] is
    caught. *)
Definition clean_pod (fuel : nat) (c : cleanup_config) (pod : pyval * string) : op StagedPodArtifacts :=
  if negb (truthy pod.1) then ret (MkArtifacts "<unknown>" pod.2 0 ["pod has no id"]) else
  fun w => match delete_pod_staging_prefix fuel c pod.1 w with
           | (w', Ok n) => (w', Ok (MkArtifacts (py_str pod.1) pod.2 n []))
           | (w', Err (StagingCleanup text)) => (w', Ok (MkArtifacts (py_str pod.1) pod.2 0 [text]))
           | (w', Err e) => (w', Err e)
           end.
Definition cleanup_staging_for_pods (fuel : nat) (c : cleanup_config) (pods : list (pyval * string)) : op (list StagedPodArtifacts) :=
  traverse (clean_pod fuel c) pods.

(** ** The stores *)

Record r2_settings : Type := MkSettings {
  st_r2_endpoint : option string; st_r2_access_key : option string; st_r2_secret_key : option string;
  st_r2_bucket_staging : option string; st_r2_temp_credential_prefixes : option string }.

(** [env.get(a) or env.get(b)] *)
Definition either_env (env : environment) (a b : string) : option string :=
  match env a with Some (String _ _ as v) => Some v | _ => env b end.
Definition cleanup_config_of (o : option string * option string * option string * option string) (prefix : option string)
  : option cleanup_config :=
  match o with
  | (Some e, Some a, Some s, Some b) => Some (MkCleanupConfig e a s b (as_folder (or_text prefix DEFAULT_R2_DEBUG_LOG_PREFIX)))
  | _ => None
  end.
Definition env_cleanup (env : environment) : option string * option string * option string * option string :=
  (non_blank (env "R2_ENDPOINT"), non_blank (env "R2_ACCESS_KEY"), non_blank (env "R2_SECRET_KEY"),
   non_blank (either_env env "R2_BUCKET_STAGING" "R2_BUCKET")).
Definition env_prefix (env : environment) : option string :=
  match non_blank (env "R2_TEMP_CREDENTIAL_PREFIXES") with Some p => Some p | None => non_blank (env "PITWALL_R2_TEMP_CREDENTIAL_PREFIXES") end.
(** [_r2_cleanup_config]: [environ], the process environment, and the
    settings, which may fail to load. *)
Definition r2_cleanup_config (environ : option environment) (process : environment) (settings : option r2_settings)
  : option cleanup_config :=
  let env := default process environ in
  match cleanup_config_of (env_cleanup env) (env_prefix env) with
  | Some c => Some c
  | None =>
      match environ, settings with
      | None, Some st =>
          cleanup_config_of (non_blank (st_r2_endpoint st), non_blank (st_r2_access_key st), non_blank (st_r2_secret_key st),
                             non_blank (st_r2_bucket_staging st))
            (match env_prefix env with Some p => Some p | None => non_blank (st_r2_temp_credential_prefixes st) end)
      | _, _ => None
      end
  end.

Inductive staging_store := NoOpStagingStore | CloudflareR2StagingStore (environ : option environment).
Definition STS_POD_ENV_KEYS : list string :=
  ["R2_ENDPOINT"; "R2_BUCKET_STAGING"; "AWS_ACCESS_KEY_ID"; "AWS_SECRET_ACCESS_KEY"; "AWS_SESSION_TOKEN"].
Definition has_complete_sts_pod_env (env : environment) : bool :=
  forallb (fun k => bool_decide (is_Some (non_blank (env k)))) STS_POD_ENV_KEYS.
Definition has_complete_r2_cleanup_env (env : environment) : bool :=
  match env_cleanup env with (Some _, Some _, Some _, Some _) => true | _ => false end.
Definition get_staging_store (environ : option environment) (process : environment) : r2 staging_store :=
  let env := default process environ in
  if has_complete_sts_pod_env env then Ok (CloudflareR2StagingStore environ) else
  let? config := config_from_env env None in
  match config with
  | Some _ => Ok (CloudflareR2StagingStore environ)
  | None => Ok (if has_complete_r2_cleanup_env env then CloudflareR2StagingStore environ else NoOpStagingStore)
  end.

Definition vend_pod_credentials_of (s : staging_store) (process : environment) : op (list (string * string)) :=
  match s with
  | NoOpStagingStore => ret []
  | CloudflareR2StagingStore environ => vend_pod_env (default process environ) None None
  end.
Definition cleanup_pod_artifacts_of (fuel : nat) (s : staging_store) (process : environment) (settings : option r2_settings)
    (pods : list (pyval * string)) : op (list StagedPodArtifacts) :=
  match s with
  | NoOpStagingStore => ret []
  | CloudflareR2StagingStore environ =>
      match r2_cleanup_config environ process settings with
      | None => ret []
      | Some c => cleanup_staging_for_pods fuel c pods
      end
  end.
End Cleanup.

(** ** What the stores are to launches and the kill switch *)

Definition error_text (e : r2_error) : string :=
  match e with R2Config t | R2Failed t | StagingCleanup t => t | R2Exn _ | StillListing => EmptyString end.
Definition seen {S A} (m : eff S r2_error A) : S -> S * result string A :=
  fun w => match m w with (w', Ok a) => (w', Ok a) | (w', Err e) => (w', Err (error_text e)) end.
(** [get_staging_store().vend_pod_credentials()] *)
Definition store_vendor {F} `{StagingDeps F} (process : environment) : StagingVendor (staging_world F) := {|
  vend_pod_credentials := seen (do! s := lift (get_staging_store None process) in vend_pod_credentials_of s process) |}.
(** [get_staging_store().cleanup_pod_artifacts(pods)], as [KillDeps] has it *)
Definition store_cleanup {F} `{StagingDeps F} (fuel : nat) (process : environment) (settings : option r2_settings)
    (pods : list (pyval * string)) : staging_world F -> staging_world F * result string (list CleanupResult) :=
  seen (do! s := lift (get_staging_store None process) in
        do! l := cleanup_pod_artifacts_of fuel s process settings pods in
        ret ((fun a => MkCleanup (sa_pod_id a) (sa_errors a)) <$> l)).

(** ** What the bucket promises *)

Class LawfulBucket (F : Type) `{StagingDeps F} := {
  objects : string -> F -> gset string;
  (** the key is not in a page before the token *)
  pending : option string -> string -> Prop;
  pages_left : string -> string -> option string -> F -> nat;
  pending_start k : pending None k;
  client_keeps b e a s w : objects b (make_client e a s w).1 = objects b w;
  list_keeps b p t w : objects b (list_page b p t w).1 = objects b w;
  list_sound b p t w ks next k :
    (list_page b p t w).2 = Ok (ks, next) -> Some k ∈ ks -> startswith p k = true;
  list_complete b p t w ks next k :
    (list_page b p t w).2 = Ok (ks, next) -> k ∈ objects b w -> startswith p k = true -> pending t k ->
    Some k ∈ ks \/ exists t', next = Some t' /\ pending (Some t') k;
  delete_only b k w : objects b w ∖ {[k]} ⊆ objects b (delete_object b k w).1 /\ objects b (delete_object b k w).1 ⊆ objects b w;
  delete_done b k w : (delete_object b k w).2 = Ok tt -> k ∉ objects b (delete_object b k w).1;
  client_pages b p e a s w : (pages_left b p None (make_client e a s w).1 <= pages_left b p None w)%nat;
  list_advances b p t w ks t' :
    (list_page b p t w).2 = Ok (ks, Some t') -> (pages_left b p (Some t') (list_page b p t w).1 < pages_left b p t w)%nat;
  list_pages b p p' t w : (pages_left b p' None (list_page b p t w).1 <= pages_left b p' None w)%nat;
  delete_pages_left b p t k w : (pages_left b p t (delete_object b k w).1 <= pages_left b p t w)%nat }.

(** The objects that belong to a pod. *)
Definition owned (prefix pod_id k : string) : Prop := exists p, p ∈ prefix_patterns prefix pod_id /\ startswith p k = true.
(** Every listing and deletion succeeds, the library is there. *)
Definition answers (F : Type) `{StagingDeps F} : Prop :=
  (forall b p t w, is_ok (list_page b p t w).2 = true) /\ (forall b k w, (delete_object b k w).2 = Ok tt) /\
  (forall e a s w, (make_client e a s w).2 = ClientMade).

(** Lemmas *)

Lemma rstrip_blank s : nonempty (rstrip s) = negb (all_chars is_space s).
Proof.
  induction s as [|c s IH]; [done|]. cbn [rstrip all_chars]. destruct (rstrip s) as [|c' s'].
  - destruct (all_chars is_space s); [|done]. by destruct (is_space c).
  - destruct (all_chars is_space s); [done|]. by rewrite andb_false_r.
Qed.
Lemma strip_blank s : nonempty (strip s) = negb (all_chars is_space s).
Proof.
  unfold strip. rewrite rstrip_blank. f_equal. induction s as [|c s IH]; [done|]. cbn [lstrip].
  destruct (is_space c) eqn:E; cbn [all_chars]; rewrite E; [exact IH|done].
Qed.
Lemma folder_not_blank t : nonempty (strip (as_folder t)) = true.
Proof.
  unfold as_folder. rewrite strip_blank. generalize (rstrip_slash t) as u. intros u.
  assert (all_chars is_space (u +:+ "/") = false) as ->; [|done].
  induction u as [|c u IH]; [done|]. change (String c u +:+ "/") with (String c (u +:+ "/")). cbn [all_chars].
  rewrite IH. apply andb_false_r.
Qed.

Definition not_blank (s : string) : Prop := nonempty (strip s) = true.
Lemma clean_not_blank l : Forall not_blank (clean l).
Proof.
  unfold clean. apply Forall_forall. intros s [Hs (t & -> & _)%list_elem_of_fmap]%list_elem_of_filter.
  unfold not_blank. by rewrite strip_strip.
Qed.
Lemma clean_some l s : s ∈ l -> not_blank s -> clean l <> [].
Proof.
  intros Hin Hs E. assert (strip s ∈ clean l) as H; [|rewrite E in H; by apply elem_of_nil in H].
  unfold clean. apply list_elem_of_filter. split; [exact Hs|]. apply list_elem_of_fmap. by exists s.
Qed.
Lemma split_csv_not_blank raw : Forall not_blank (split_csv raw).
Proof.
  unfold split_csv. destruct raw as [s|]; [|done]. apply Forall_forall.
  intros t [Ht (u & -> & _)%list_elem_of_fmap]%list_elem_of_filter. unfold not_blank. by rewrite strip_strip.
Qed.
Lemma config_prefixes_scoped env : clean (config_prefixes env None) <> [].
Proof.
  unfold config_prefixes. pose proof (split_csv_not_blank (first_env env PREFIXES_ENV)) as H.
  destruct (split_csv _) as [|p ps].
  - apply (clean_some _ (as_folder (or_text (non_blank (env "PITWALL_DEBUG_LOG_PREFIX")) DEFAULT_R2_DEBUG_LOG_PREFIX)));
      [by left|apply folder_not_blank].
  - apply (clean_some _ p); [by left|]. by apply Forall_cons in H as [H _].
Qed.

Lemma validate_ttl_Ok n t : validate_ttl n = Ok t -> t = n /\ 0 < n <= MAX_R2_TEMP_CREDENTIAL_TTL_S.
Proof. unfold validate_ttl. destruct (n <=? 0) eqn:E1; [done|]. destruct (_ <? n) eqn:E2; [done|]. intros [= <-]. boolify. lia. Qed.
Lemma validate_permission_Ok v p : validate_permission v = Ok p -> p = strip v /\ p ∈ R2_PERMISSIONS.
Proof. unfold validate_permission. case_bool_decide; [|done]. by intros [= <-]. Qed.

(** ** What is asked of Cloudflare *)

(** A request for keys to the bucket of the configuration that is limited in
    time, in what it permits and in the objects it covers. *)
Definition scoped (c : R2TempCredentialEnvConfig) (q : credential_request) : Prop :=
  dict_get "bucket" (cq_body q) = Some (VStr (strip (rc_bucket c))) /\
  (exists ttl, dict_get "ttlSeconds" (cq_body q) = Some (VInt ttl) /\ 0 < ttl <= MAX_R2_TEMP_CREDENTIAL_TTL_S) /\
  (exists p, dict_get "permission" (cq_body q) = Some (VStr p) /\ p ∈ R2_PERMISSIONS) /\
  (exists ps, dict_get "prefixes" (cq_body q) = Some (VList (VStr <$> ps)) /\ ps <> [] /\ Forall not_blank ps /\ ps = clean (rc_prefixes c)).

Lemma body_scoped c path token parent ttl p objs :
  0 < ttl <= MAX_R2_TEMP_CREDENTIAL_TTL_S -> p ∈ R2_PERMISSIONS -> clean (rc_prefixes c) <> [] ->
  scoped c (MkRequest path token (request_body (strip (rc_bucket c)) parent p ttl (clean (rc_prefixes c)) objs)).
Proof.
  intros Ht Hp Hc. unfold scoped, request_body. cbn [cq_body]. pose proof (clean_not_blank (rc_prefixes c)) as Hb.
  destruct (clean (rc_prefixes c)) as [|s ps]; [done|].
  split; [done|]. split; [by exists ttl|]. split; [by exists p|]. exists (s :: ps). by repeat split.
Qed.

Section Vended.
Context {F : Type} `{StagingDeps F}.
Abbreviation world := (staging_world F).

Definition same_requests (w w' : world) : Prop := sw_requests w' = sw_requests w.
#[local] Instance same_requests_order : PreOrder same_requests.
Proof. split; [done|]. unfold same_requests. intros x y z -> ->. done. Qed.
Lemma from_staging_requests {A} (f : F -> F * A) : keeps same_requests (from_staging f).
Proof. intros w. unfold from_staging. by destruct (f _). Qed.

Lemma create_requests acc tok c parent ttl perm objs issued (w w' : world) r :
  clean (rc_prefixes c) <> [] ->
  create_credentials acc tok (rc_bucket c) parent ttl perm (rc_prefixes c) objs issued w = (w', r) ->
  sw_requests w' = sw_requests w /\ is_ok r = false \/ exists q, sw_requests w' = q :: sw_requests w /\ scoped c q.
Proof.
  intros Hc. unfold create_credentials. repeat (destruct (negb _); [by intros [= <- <-]; left|]).
  unfold bind at 1, lift at 1. destruct (validate_ttl ttl) as [t|] eqn:Et; [|by intros [= <- <-]; left].
  apply validate_ttl_Ok in Et as [-> Ht].
  unfold bind at 1, lift at 1. destruct (validate_permission perm) as [p|] eqn:Ep; [|by intros [= <- <-]; left].
  apply validate_permission_Ok in Ep as [_ Hp].
  unfold bind at 1, post_request. destruct (cloudflare _ _) as [o a].
  match goal with |- ?k ?w1 = _ -> _ => assert (keeps same_requests k) as Hk; [|intros E; pose proof (Hk w1) as Hr; rewrite E in Hr] end.
  - apply keeps_bind; [apply keeps_lift|intros result]. destruct (text_value _); [|apply keeps_fail].
    destruct (text_value _); [|apply keeps_fail]. destruct (text_value _); [|apply keeps_fail].
    apply keeps_bind; [|intros; apply keeps_lift]. destruct issued; [apply keeps_ret|apply from_staging_requests].
  - right. eexists. split; [exact Hr|]. by apply body_scoped.
Qed.

Lemma text_not_blank v s : text_value v = Some s -> not_blank s.
Proof.
  unfold text_value, non_blank, not_blank. destruct (as_str v) as [t|]; [|done].
  destruct (nonempty (strip t)) eqn:E; [|done]. intros [= <-]. by rewrite strip_strip.
Qed.
Lemma create_Ok acc tok b parent ttl perm prefixes objs issued (w w' : world) k :
  create_credentials acc tok b parent ttl perm prefixes objs issued w = (w', Ok k) ->
  tc_ttl_seconds k = ttl /\ not_blank (tc_session_token k) /\ not_blank (tc_access_key_id k) /\
  not_blank (tc_secret_access_key k) /\ default (tc_issued_at k) issued = tc_issued_at k.
Proof.
  unfold create_credentials. repeat (destruct (negb _); [done|]).
  intros (t & w1 & [= <- Et] & H1)%bind_Ok. apply validate_ttl_Ok in Et as [-> Ht].
  apply bind_Ok in H1 as (p & w2 & [= <- Ep] & H2). apply bind_Ok in H2 as (a & w3 & _ & H3).
  apply bind_Ok in H3 as (result & w4 & _ & H4).
  destruct (text_value (dict_get_none "accessKeyId" _)) as [key|] eqn:E1; [|done].
  destruct (text_value (dict_get_none "secretAccessKey" _)) as [secret|] eqn:E2; [|done].
  destruct (text_value (dict_get_none "sessionToken" _)) as [token|] eqn:E3; [|done].
  apply text_not_blank in E1, E2, E3. apply bind_Ok in H4 as (t & w5 & H5 & [= _ H6]).
  unfold temporary_credentials in H6. repeat (apply rbind_Ok in H6 as (? & _ & H6)). injection H6 as <-.
  cbn. repeat split; try done. destruct issued; [by injection H5|done].
Qed.

Lemma config_Ok env given c :
  config_from_env env given = Ok (Some c) ->
  0 < rc_ttl_seconds c <= MAX_R2_TEMP_CREDENTIAL_TTL_S /\ rc_permission c ∈ R2_PERMISSIONS /\ rc_prefixes c = config_prefixes env given.
Proof.
  unfold config_from_env. intros (enabled & _ & (required & _ & H1)%rbind_Ok)%rbind_Ok. case_bool_decide; [done|].
  destruct (missing_names _); [|by destruct (_ || _)].
  apply rbind_Ok in H1 as (p & [_ Hp]%validate_permission_Ok & (t & Ht & [= <-])%rbind_Ok). cbn. split; [|done].
  unfold parse_ttl in Ht. destruct (first_env env TTL_ENV); [|injection Ht as <-; by vm_compute].
  destruct (parse_int _); [|done]. by apply validate_ttl_Ok in Ht as [-> ?].
Qed.
End Vended.

(** ** What is deleted *)

Section Cleaned.
Context {F : Type} `{LawfulBucket F}.
Abbreviation world := (staging_world F).
Abbreviation stored b w := (objects b (sw_outside w)).

(** Only objects of [P] are gone from the bucket, and no listing got longer. *)
Definition removes_only (b : string) (P : string -> Prop) (w w' : world) : Prop :=
  sw_requests w' = sw_requests w /\ stored b w' ⊆ stored b w /\
  (forall k, k ∈ stored b w -> k ∉ stored b w' -> P k) /\
  forall p, (pages_left b p None (sw_outside w') <= pages_left b p None (sw_outside w))%nat.
#[export] Instance removes_only_order b P : PreOrder (removes_only b P).
Proof.
  split; [by repeat split|]. intros x y z (R1 & S1 & D1 & L1) (R2 & S2 & D2 & L2). split; [congruence|]. split; [set_solver|].
  split; [|intros p; specialize (L1 p); specialize (L2 p); lia].
  intros k Hk Hn. destruct (decide (k ∈ stored b y)); [by apply D2|by apply D1].
Qed.
Lemma removes_mono b (P Q : string -> Prop) (w w' : world) : (forall k, P k -> Q k) -> removes_only b P w w' -> removes_only b Q w w'.
Proof. intros HPQ (R & S & D & L). repeat split; auto. Qed.

Lemma list_removes b b' p t P (w : world) : b' = b -> removes_only b P w (from_staging (list_page b' p t) w).1.
Proof.
  intros ->. pose proof (list_keeps b p t (sw_outside w)) as Hk. pose proof (fun p' => list_pages b p p' t (sw_outside w)) as Hl.
  unfold from_staging, removes_only. destruct (list_page _ _ _ _) as [o r]. cbn in *. rewrite Hk. by repeat split.
Qed.
Lemma delete_removes b k (P : string -> Prop) : P k -> keeps (removes_only b P) (from_staging (delete_object b k)).
Proof.
  intros Hp w. pose proof (delete_only b k (sw_outside w)) as [H1 H2].
  pose proof (fun p => delete_pages_left b p None k (sw_outside w)) as Hl.
  unfold from_staging, removes_only. destruct (delete_object _ _ _) as [o r]. cbn in *. split; [done|]. split; [done|]. split; [|done].
  intros k' Hk Hn. destruct (decide (k' = k)) as [->|Hne]; [done|set_solver].
Qed.
Lemma client_removes b P c : keeps (removes_only b P) (r2_client c).
Proof.
  unfold r2_client. apply keeps_bind; [|intros []; [apply keeps_ret|apply keeps_fail|apply keeps_fail]].
  intros w. pose proof (client_keeps b (cc_endpoint c) (cc_access_key c) (cc_secret_key c) (sw_outside w)) as Hk.
  pose proof (fun p => client_pages b p (cc_endpoint c) (cc_access_key c) (cc_secret_key c) (sw_outside w)) as Hl.
  unfold from_staging, removes_only. destruct (make_client _ _ _ _). cbn in *. rewrite Hk. by repeat split.
Qed.
Lemma keys_removes b ks t (P : string -> Prop) : (forall k, Some k ∈ ks -> P k) -> keeps (removes_only b P) (delete_keys b ks t).
Proof.
  revert t. induction ks as [|o ks IH]; intros t HP; cbn [delete_keys]; [apply keeps_ret|].
  assert (forall t, keeps (removes_only b P) (delete_keys b ks t)) as Hks by (intros t'; apply IH; intros k Hk; apply HP; by right).
  destruct o as [[|a k]|]; [apply Hks| |apply Hks]. apply keeps_bind; [apply delete_removes, HP; left|intros; apply Hks].
Qed.
Lemma pages_removes fuel b p tok t (P : string -> Prop) :
  (forall k, startswith p k = true -> P k) -> keeps (removes_only b P) (delete_pages fuel b p tok t).
Proof.
  intros HP. revert tok t. induction fuel as [|fuel IH]; intros tok t w; [apply keeps_fail|]. cbn [delete_pages].
  pose proof (list_removes b b p tok P w eq_refl) as Hl. pose proof (list_sound b p tok (sw_outside w)) as Hs.
  unfold bind at 1. unfold from_staging in *. destruct (list_page _ _ _ _) as [o [[ks next]|text]]; cbn [fst snd] in *; [|exact Hl].
  etrans; [exact Hl|]. apply keeps_bind; [apply keys_removes; intros k Hk; apply HP; by eapply Hs|].
  intros t'. destruct next; [apply IH|apply keeps_ret].
Qed.
Lemma patterns_removes fuel b ps t (P : string -> Prop) :
  (forall p k, p ∈ ps -> startswith p k = true -> P k) -> keeps (removes_only b P) (delete_patterns fuel b ps t).
Proof.
  revert t. induction ps as [|p ps IH]; intros t HP; cbn [delete_patterns]; [apply keeps_ret|].
  apply keeps_bind; [apply pages_removes; intros k; apply HP; left|intros; apply IH; intros q k Hq; apply HP; by right].
Qed.
Lemma pod_removes fuel c pod :
  keeps (removes_only (cc_bucket c) (fun k => exists i, pod.1 = VStr i /\ not_blank i /\ owned (cc_prefix c) i k)) (clean_pod fuel c pod).
Proof.
  unfold clean_pod. destruct (truthy pod.1); [|apply keeps_ret]. intros w. cbn [negb].
  assert (keeps (removes_only (cc_bucket c) (fun k => exists i, pod.1 = VStr i /\ not_blank i /\ owned (cc_prefix c) i k))
    (delete_pod_staging_prefix fuel c pod.1)) as Hd.
  { unfold delete_pod_staging_prefix. apply keeps_bind; [apply keeps_lift|intros _]. destruct pod.1 as [| | | | |i| | | | |]; try apply keeps_fail.
    intros v. unfold bind at 1, lift, cleanup_required. destruct (nonempty (strip i)) eqn:Ei; [|reflexivity].
    apply keeps_bind; [apply client_removes|intros _]. apply keeps_bind; [|intros; apply keeps_ret].
    apply patterns_removes. intros p k Hp Hk. exists i. split; [done|]. split; [done|]. by exists p. }
  specialize (Hd w). destruct (delete_pod_staging_prefix _ _ _ _) as [w' [n|[]]]; exact Hd.
Qed.
(** ** How a cleanup ends *)

Definition gone (b : string) (w : world) (k : string) : Prop := k ∉ stored b w.
Lemma gone_after b P (w w' : world) k : removes_only b P w w' -> gone b w k -> gone b w' k.
Proof. unfold gone. intros (_ & S & _). set_solver. Qed.
Lemma keys_end b ks t (w : world) :
  exists w' t', delete_keys b ks t w = (w', Ok t') /\
    (forall p tok, (pages_left b p tok (sw_outside w') <= pages_left b p tok (sw_outside w))%nat) /\
    (answers F -> forall k, Some k ∈ ks -> k <> EmptyString -> gone b w' k).
Proof.
  revert t w. induction ks as [|o ks IH]; intros t w; cbn [delete_keys].
  { exists w, t. split; [done|]. split; [done|]. by intros _ k ?%elem_of_nil. }
  destruct o as [[|a k]|].
  1,3: destruct (IH t w) as (w' & t' & E & Hl & Hg); exists w', t'; split; [exact E|]; split; [exact Hl|];
    intros Ha k' [Hk|Hk]%elem_of_cons Hne; [congruence|by apply Hg].
  pose proof (delete_done b (String a k) (sw_outside w)) as Hd.
  pose proof (fun p tok => delete_pages_left b p tok (String a k) (sw_outside w)) as Hp.
  unfold bind, from_staging. destruct (delete_object b (String a k) (sw_outside w)) as [o r] eqn:Eo. cbn [fst snd] in *.
  match goal with |- context [delete_keys b ks ?t2 ?w2] => destruct (IH t2 w2) as (w' & t' & E & Hl & Hg);
    pose proof (keys_removes b ks t2 (fun _ => True) (fun _ _ => I) w2) as Hr end.
  exists w', t'. split; [exact E|]. rewrite E in Hr. cbn [fst sw_outside] in *. split.
  - intros p tok. specialize (Hl p tok). specialize (Hp p tok). lia.
  - intros Ha k' [[= ->]|Hk]%elem_of_cons Hne; [|by apply Hg]. eapply gone_after; [exact Hr|]. unfold gone. cbn. apply Hd.
    destruct Ha as (_ & Ha & _). specialize (Ha b (String a k) (sw_outside w)). by rewrite Eo in Ha.
Qed.
Lemma prefix_of_empty p : startswith p EmptyString = true -> p = EmptyString.
Proof. by destruct p. Qed.
Lemma pages_end fuel b p tok t (w : world) :
  p <> EmptyString -> (pages_left b p tok (sw_outside w) < fuel)%nat ->
  exists w' t', delete_pages fuel b p tok t w = (w', Ok t') /\
    (answers F -> forall k, startswith p k = true -> pending tok k -> gone b w' k).
Proof.
  intros Hp. revert tok t w. induction fuel as [|fuel IH]; intros tok t w Hf; [lia|]. cbn [delete_pages].
  pose proof (list_keeps b p tok (sw_outside w)) as Hk. pose proof (list_advances b p tok (sw_outside w)) as Hadv.
  pose proof (list_complete b p tok (sw_outside w)) as Hc.
  unfold bind at 1. unfold from_staging. destruct (list_page b p tok (sw_outside w)) as [o r] eqn:El.
  destruct r as [[ks next]|text]; cbn [fst snd] in *.
  2:{ eexists _, _. split; [reflexivity|]. intros (Ha & _). specialize (Ha b p tok (sw_outside w)). by rewrite El in Ha. }
  destruct (keys_end b ks t (MkStaging (sw_requests w) o)) as (w1 & t1 & E1 & Hl1 & Hg1).
  pose proof (keys_removes b ks t (fun _ => True) (fun _ _ => I) (MkStaging (sw_requests w) o)) as Hr1. rewrite E1 in Hr1.
  unfold bind. rewrite E1. cbn [fst sw_outside] in *.
  assert (forall k, gone b w k -> gone b w1 k) as Hout.
  { intros k Hgone. eapply gone_after; [exact Hr1|]. unfold gone in *. cbn. by rewrite Hk. }
  destruct next as [tok'|].
  - specialize (Hadv ks tok' eq_refl). specialize (Hl1 p (Some tok')).
    destruct (IH (Some tok') t1 w1) as (w' & t' & E & Hg); [lia|]. exists w', t'. split; [exact E|]. intros Ha k Hpk Hpend.
    pose proof (pages_removes fuel b p (Some tok') t1 (fun _ => True) (fun _ _ => I) w1) as Hr. rewrite E in Hr.
    destruct (decide (k ∈ stored b w)) as [Hin|Hn]; [|eapply gone_after; [exact Hr|by apply Hout]].
    destruct (Hc ks (Some tok') k eq_refl Hin Hpk Hpend) as [Hks|(t2 & [= <-] & Ht2)]; [|by apply Hg].
    eapply gone_after; [exact Hr|]. apply Hg1; [done|done|]. by intros ->; apply prefix_of_empty in Hpk.
  - exists w1, t1. split; [done|]. intros Ha k Hpk Hpend.
    destruct (decide (k ∈ stored b w)) as [Hin|Hn]; [|by apply Hout].
    destruct (Hc ks None k eq_refl Hin Hpk Hpend) as [Hks|(t2 & ? & _)]; [|done].
    apply Hg1; [done|done|]. by intros ->; apply prefix_of_empty in Hpk.
Qed.
Lemma patterns_end fuel b ps t (w : world) :
  (forall p, p ∈ ps -> p <> EmptyString) -> (forall p, (pages_left b p None (sw_outside w) < fuel)%nat) ->
  exists w' t', delete_patterns fuel b ps t w = (w', Ok t') /\
    (answers F -> forall p k, p ∈ ps -> startswith p k = true -> gone b w' k).
Proof.
  revert t w. induction ps as [|p ps IH]; intros t w Hne Hf; cbn [delete_patterns].
  { exists w, t. split; [done|]. by intros _ p k ?%elem_of_nil. }
  destruct (pages_end fuel b p None t w) as (w1 & t1 & E1 & Hg1); [apply Hne; left|apply Hf|].
  pose proof (pages_removes fuel b p None t (fun _ => True) (fun _ _ => I) w) as Hr1. rewrite E1 in Hr1. cbn [fst] in Hr1.
  unfold bind. rewrite E1. destruct (IH t1 w1) as (w' & t' & E & Hg).
  - intros q Hq. apply Hne. by right.
  - intros q. destruct Hr1 as (_ & _ & _ & Hl). specialize (Hl q). specialize (Hf q). lia.
  - pose proof (patterns_removes fuel b ps t1 (fun _ => True) (fun _ _ _ _ => I) w1) as Hr. rewrite E in Hr.
    exists w', t'. split; [exact E|]. intros Ha q k [->|Hq]%elem_of_cons Hk; [|by eapply Hg].
    eapply gone_after; [exact Hr|]. apply Hg1; [done|done|apply pending_start].
Qed.
Lemma pattern_not_empty prefix i p : p ∈ prefix_patterns prefix i -> p <> EmptyString.
Proof.
  intros Hp. assert (forall s t, t <> EmptyString -> s +:+ t <> EmptyString) as Happ by (intros [|a s] t Ht; [done|done]).
  apply elem_of_cons in Hp as [->|[->|?%elem_of_nil]%elem_of_cons]; [| |done]; by do 2 apply Happ.
Qed.
Lemma required_Err what t e : cleanup_required what t = Err e -> exists text, e = StagingCleanup text.
Proof. unfold cleanup_required. destruct (nonempty _); [done|]. intros [= <-]. by eexists. Qed.
Lemma checked_Err c e : checked_config c = Err e -> exists text, e = StagingCleanup text.
Proof.
  unfold checked_config. destruct (cleanup_required _ (cc_endpoint c)) eqn:E1; [|intros [= <-]; by eapply required_Err].
  destruct (cleanup_required _ (cc_access_key c)) eqn:E2; [|intros [= <-]; by eapply required_Err].
  destruct (cleanup_required _ (cc_secret_key c)) eqn:E3; [|intros [= <-]; by eapply required_Err]. apply required_Err.
Qed.
(** The deletion for a pod whose id is text. *)
Lemma text_pod_end fuel c i (w : world) :
  (forall p, (pages_left (cc_bucket c) p None (sw_outside w) < fuel)%nat) ->
  let run := delete_pod_staging_prefix fuel c (VStr i) w in
  run.2 <> Err StillListing /\
  (answers F -> checked_config c = Ok tt ->
   (exists n, run.2 = Ok n) /\ (forall k, owned (cc_prefix c) i k -> gone (cc_bucket c) run.1 k) \/
   ~ not_blank i /\ exists text, run.2 = Err (StagingCleanup text)).
Proof.
  intros Hf. cbv zeta. destruct (delete_pod_staging_prefix fuel c (VStr i) w) as [w' r] eqn:E. cbn [fst snd].
  unfold delete_pod_staging_prefix in E. apply bind_cases in E as [(e & [= _ Ec] & ->)|([] & w0 & [= <- Ec] & E)].
  { apply checked_Err in Ec as Hc. destruct Hc as [text ->]. split; [done|]. intros _. by rewrite Ec. }
  apply bind_cases in E as [(e & [= _ Ei] & ->)|([] & w0 & [= <- Ei] & E)].
  { pose proof (required_Err _ _ _ Ei) as [text ->]. split; [done|]. intros _ _. right. split; [|by eexists].
    unfold not_blank. unfold cleanup_required in Ei. by destruct (nonempty (strip i)). }
  pose proof (client_removes (cc_bucket c) (fun _ => True) c w) as Hr.
  apply bind_cases in E as [(e & Er & ->)|([] & w1 & Er & E)]; rewrite Er in Hr; cbn [fst] in Hr.
  - unfold r2_client, bind, from_staging in Er. destruct (make_client _ _ _ _) as [o out] eqn:Em.
    destruct out; [done| |]; injection Er as <- <-; (split; [done|]); intros (_ & _ & Ha) _; exfalso;
      specialize (Ha (cc_endpoint c) (cc_access_key c) (cc_secret_key c) (sw_outside w)); by rewrite Em in Ha.
  - destruct (patterns_end fuel (cc_bucket c) (prefix_patterns (cc_prefix c) i) (0, []) w1) as (w2 & t & Ep & Hg).
    + apply pattern_not_empty.
    + intros p. destruct Hr as (_ & _ & _ & Hl). specialize (Hl p). specialize (Hf p). lia.
    + unfold bind in E. rewrite Ep in E. injection E as <- <-. split; [done|]. intros Ha _. left. split; [by eexists|].
      intros k (p & Hp & Hk). by apply (Hg Ha p).
Qed.
Lemma pod_end fuel c pod (w : world) :
  (forall p, (pages_left (cc_bucket c) p None (sw_outside w) < fuel)%nat) ->
  (clean_pod fuel c pod w).2 <> Err StillListing /\
  (answers F -> checked_config c = Ok tt -> (exists i, pod.1 = VStr i) -> is_ok (clean_pod fuel c pod w).2 = true /\
     forall i k, pod.1 = VStr i -> not_blank i -> owned (cc_prefix c) i k -> gone (cc_bucket c) (clean_pod fuel c pod w).1 k).
Proof.
  intros Hf. unfold clean_pod. destruct (truthy pod.1) eqn:Et; cbn [negb].
  2:{ split; [done|]. intros _ _ _. split; [done|]. intros i k Hi Hb. rewrite Hi in Et. by destruct i. }
  assert ((exists i, pod.1 = VStr i) \/ forall i, pod.1 <> VStr i) as [[i Hi]|Hno] by (destruct pod.1; eauto; by right).
  - rewrite Hi. destruct (text_pod_end fuel c i w Hf) as [Hs He]. destruct (delete_pod_staging_prefix fuel c (VStr i) w) as [w' r].
    cbn [fst snd] in *. split; [destruct r as [n|[]]; done|]. intros Ha Hc _. destruct (He Ha Hc) as [[[n ->] Hg]|[Hb [text ->]]].
    + split; [done|]. intros j k [= <-] _ Hk. by apply Hg.
    + split; [done|]. by intros j k [= <-] Hj.
  - split; [|intros _ _ [i Hi]; by apply Hno in Hi]. unfold delete_pod_staging_prefix, bind, lift.
    destruct (checked_config c) as [[]|e] eqn:Ec; [|apply checked_Err in Ec as [text ->]; done].
    destruct pod.1 as [| | | | |i| | | | |]; try done. by destruct (Hno i).
Qed.
Lemma pods_end fuel c pods (w : world) :
  (forall p, (pages_left (cc_bucket c) p None (sw_outside w) < fuel)%nat) ->
  let run := cleanup_staging_for_pods fuel c pods w in
  run.2 <> Err StillListing /\
  (answers F -> checked_config c = Ok tt -> Forall (fun pod => exists i, pod.1 = VStr i) pods -> is_ok run.2 = true /\
     forall i name k, (VStr i, name) ∈ pods -> not_blank i -> owned (cc_prefix c) i k -> gone (cc_bucket c) run.1 k).
Proof.
  cbv zeta. unfold cleanup_staging_for_pods. revert w. induction pods as [|pod pods IH]; intros w Hf; cbn [traverse].
  { split; [done|]. intros _ _ _. split; [done|]. by intros i name k ?%elem_of_nil. }
  destruct (pod_end fuel c pod w Hf) as [Hs He]. pose proof (pod_removes fuel c pod w) as Hr. unfold bind.
  destruct (clean_pod fuel c pod w) as [w1 [a|e]]; cbn [fst snd] in *.
  2:{ split; [intros [= ->]; done|]. intros Ha Hc [Hp _]%Forall_cons. by destruct (He Ha Hc Hp). }
  destruct (IH w1) as [Hs1 He1]; [intros p; destruct Hr as (_ & _ & _ & Hl); specialize (Hl p); specialize (Hf p); lia|].
  assert (removes_only (cc_bucket c) (fun _ => True) w1 (traverse (clean_pod fuel c) pods w1).1) as Hr1.
  { apply keeps_traverse. intros pod' v. eapply removes_mono; [|apply pod_removes]. done. }
  destruct (traverse (clean_pod fuel c) pods w1) as [w2 r2]. cbn [fst snd] in *.
  split; [destruct r2; [done|by intros [= ->]]|]. intros Ha Hc [Hp Hps]%Forall_cons. destruct (He1 Ha Hc Hps) as [Hok Hg1].
  destruct r2 as [l|]; [|done]. split; [done|]. intros i name k [<-|Hin]%elem_of_cons Hb Ho; [|by eapply Hg1].
  eapply gone_after; [exact Hr1|]. by apply (proj2 (He Ha Hc Hp) i).
Qed.
End Cleaned.

(** Properties *)


(** C40: A cleanup removes nothing but objects under the folder or the log of a
    pod it was given, whatever the bucket answers and wherever it stops, and
    asks Cloudflare for nothing.  It comes to an end once the fuel exceeds the
    pages of any listing.  When every answer is a success, no object of such
    a pod is left. *)
Theorem cleanup_is_exact {F} `{LawfulBucket F} (fuel : nat) (c : cleanup_config) (pods : list (pyval * string)) (w w' : staging_world F) r :
  cleanup_staging_for_pods fuel c pods w = (w', r) ->
  let before := objects (cc_bucket c) (sw_outside w) in let after := objects (cc_bucket c) (sw_outside w') in
  let mine k := exists i name, (VStr i, name) ∈ pods /\ not_blank i /\ owned (cc_prefix c) i k in
  sw_requests w' = sw_requests w /\ after ⊆ before /\ (forall k, k ∈ before -> k ∉ after -> mine k) /\
  ((forall p, (pages_left (cc_bucket c) p None (sw_outside w) < fuel)%nat) ->
   r <> Err StillListing /\
   (answers F -> checked_config c = Ok tt -> Forall (fun pod => exists i, pod.1 = VStr i) pods ->
    is_ok r = true /\ forall k, k ∈ after <-> k ∈ before /\ ~ mine k)).
Proof.
  intros Hrun. cbv zeta.
  assert (removes_only (cc_bucket c) (fun k => exists i name, (VStr i, name) ∈ pods /\ not_blank i /\ owned (cc_prefix c) i k) w w')
    as (Hq & Hsub & Hdel & _).
  { replace w' with (cleanup_staging_for_pods fuel c pods w).1 by (by rewrite Hrun). unfold cleanup_staging_for_pods.
    apply (traverse_inv (removes_only _ _ w)); [|reflexivity]. intros [v name] w1 Hin H1. etrans; [exact H1|].
    eapply removes_mono; [|apply pod_removes]. cbn [fst]. intros k (i & -> & Hb & Ho). by exists i, name. }
  split; [done|]. split; [done|]. split; [done|]. intros Hf. pose proof (pods_end fuel c pods w Hf) as Hend. rewrite Hrun in Hend.
  cbv zeta in Hend. cbn [fst snd] in Hend. destruct Hend as [Hs He]. split; [done|]. intros Ha Hc Hp. destruct (He Ha Hc Hp) as [Hok Hg].
  split; [done|]. intros k. split.
  - intros Hk. split; [by apply Hsub|]. intros (i & name & Hin & Hb & Ho). by apply (Hg i name k).
  - intros [Hk Hn]. destruct (decide (k ∈ objects (cc_bucket c) (sw_outside w'))); [done|]. destruct Hn. by apply Hdel.
Qed.

(** ** Runs *)
Module StagingSim.
(** A bucket that lists short keys first, and refuses to delete some. *)
Definition short (k : string) : bool := (String.length k <? 20)%nat.
Definition keys_with (p : string) (w : gset string) : list string := filter (fun k => startswith p k = true) (elements w).
Definition listing (p : string) (t : option string) (w : gset string) : page :=
  match t with
  | None => (Some <$> filter (fun k => short k = true) (keys_with p w), Some "long")
  | Some _ => (Some <$> filter (fun k => short k = false) (keys_with p w), None)
  end.
Definition answer : pyval :=
  VDict [("success", VBool true);
         ("result", VDict [("accessKeyId", VStr "key"); ("secretAccessKey", VStr "secret"); ("sessionToken", VStr "token")])].
Definition noon : datetime := utc 1767268800000000.                  (* 2026-01-01T12:00:00Z *)
Definition deps (refused : string -> bool) : StagingDeps (gset string) := {|
  cloudflare q w := (w, HttpAnswer 200 "" (Some answer));
  staging_clock w := (w, noon);
  make_client e a s w := (w, ClientMade);
  list_page b p t w := (w, Ok (listing p t w));
  delete_object b k w := if refused k then (w, Err "AccessDenied") else (w ∖ {[k]}, Ok tt) |}.
#[local] Instance sim_deps : StagingDeps (gset string) := deps (fun _ => false).
Definition sim_pending (t : option string) (k : string) : Prop := match t with None => True | Some _ => short k = false end.
Definition sim_pages (t : option string) : nat := match t with None => 2 | Some _ => 1 end.
#[local] Program Instance sim_lawful : LawfulBucket (gset string) := {|
  objects b w := w;
  pending := sim_pending;
  pages_left b p t w := sim_pages t |}.
Next Obligation. done. Qed.
Next Obligation. done. Qed.
Next Obligation. done. Qed.
Next Obligation.
  cbn. intros b p t w ks next k [= E]. assert (ks = (listing p t w).1) as -> by (by rewrite E). clear E next.
  destruct t; cbn; intros (k' & [= ->] & [_ [Hp _]%list_elem_of_filter]%list_elem_of_filter)%list_elem_of_fmap; exact Hp.
Qed.
Next Obligation.
  cbn. intros b p t w ks next k [= E] Hk Hp Ht. assert (ks = (listing p t w).1 /\ next = (listing p t w).2) as [-> ->] by (by rewrite E).
  clear E. assert (k ∈ keys_with p w) as Hin by (apply list_elem_of_filter; split; [done|by apply elem_of_elements]).
  destruct (short k) eqn:Es; destruct t; cbn in *; [congruence| | |].
  - left. apply list_elem_of_fmap. exists k. split; [done|]. by apply list_elem_of_filter.
  - left. apply list_elem_of_fmap. exists k. split; [done|]. by apply list_elem_of_filter.
  - right. by exists "long".
Qed.
Next Obligation. cbn. set_solver. Qed.
Next Obligation. cbn. set_solver. Qed.
Next Obligation. done. Qed.
Next Obligation. cbn. intros b p t w ks t' [= E]. destruct t; [done|cbn; lia]. Qed.
Next Obligation. done. Qed.
Next Obligation. done. Qed.
Lemma sim_answers : answers (gset string).
Proof. done. Qed.

Definition env_of (l : list (string * string)) : environment := fun n => al_get n l.
Definition vending : list (string * string) :=
  [("R2_ENDPOINT", "https://r2"); ("R2_BUCKET", "staging"); ("CF_ACCOUNT_ID", "acc"); ("CF_API_TOKEN", "api"); ("R2_ACCESS_KEY", "parent")].
Definition cleaning : list (string * string) :=
  [("R2_ENDPOINT", "https://r2"); ("R2_ACCESS_KEY", "k"); ("R2_SECRET_KEY", "s"); ("R2_BUCKET", "staging")].
Definition bucket : gset string :=
  {["debug-logs/p1/a"; "debug-logs/p1/deep/er/b"; "debug-logs/p1.log"; "debug-logs/p10/a"; "debug-logs/p2.log"; "other/p1/a"]}.
Definition start : staging_world (gset string) := MkStaging [] bucket.
Definition vended := vend_pod_env (env_of vending) None (Some noon) start.
Definition config : cleanup_config := MkCleanupConfig "https://r2" "k" "s" "staging" "debug-logs/".
Definition cleaned := cleanup_staging_for_pods 3 config [(VStr "p1", "one"); (VNone, "none")] start.

Example vended_ex : match vended.2 with Ok vars => al_get "AWS_SESSION_TOKEN" vars | _ => None end = Some "token" /\
  match vended.2 with Ok vars => al_get "R2_CREDENTIAL_EXPIRES_AT" vars | _ => None end = Some "2026-01-01T18:00:00Z" /\
  (fun q => dict_get "prefixes" (cq_body q)) <$> sw_requests vended.1 = [Some (VList [VStr "debug-logs/"])].
Proof. vm_compute. repeat split. Qed.
Example cleaned_ex : cleaned.2 = Ok [MkArtifacts "p1" "one" 3 []; MkArtifacts "<unknown>" "none" 0 ["pod has no id"]] /\
  (fun k => bool_decide (k ∈ sw_outside cleaned.1)) <$> ["debug-logs/p1/a"; "debug-logs/p1.log"; "debug-logs/p10/a"; "debug-logs/p2.log"; "other/p1/a"] =
  [false; false; true; true; true].
Proof. vm_compute. split; reflexivity. Qed.
(** The keys of the broker itself count as temporary keys: they go to the
    pods, without a token that would limit them. *)
Example own_keys_ex :
  (vend_pod_env (env_of ([("AWS_ACCESS_KEY_ID", "AKIA"); ("AWS_SECRET_ACCESS_KEY", "broker")] ++ vending)) None None start).2 =
  Ok [("AWS_ACCESS_KEY_ID", "AKIA"); ("AWS_SECRET_ACCESS_KEY", "broker")].
Proof. vm_compute. reflexivity. Qed.
(** Two prefixes for the keys, one with a comma in it for the cleanup. *)
Example prefix_list_ex :
  let env := env_of ([("R2_TEMP_CREDENTIAL_PREFIXES", "a/,b/")] ++ cleaning) in
  config_prefixes env None = ["a/"; "b/"] /\ cc_prefix <$> r2_cleanup_config (Some env) env None = Some "a/,b/".
Proof. vm_compute. split; reflexivity. Qed.
(** What could not be deleted is only logged: the kill switch sees a cleanup
    without errors. *)
Example kept_objects_ex :
  let run := @store_cleanup _ (deps (fun _ => true)) 3 (env_of cleaning) None [(VStr "p1", "one")] start in
  run.2 = Ok [MkCleanup "p1" []] /\ bool_decide ("debug-logs/p1/a" ∈ sw_outside run.1) = true.
Proof. vm_compute. split; reflexivity. Qed.
Example unconfigured_ex : get_staging_store None (env_of []) = Ok NoOpStagingStore.
Proof. vm_compute. reflexivity. Qed.
Lemma cleaned_run : cleanup_staging_for_pods 3 config [(VStr "p1", "one"); (VStr "", "none")] start =
  ((cleanup_staging_for_pods 3 config [(VStr "p1", "one"); (VStr "", "none")] start).1,
   (cleanup_staging_for_pods 3 config [(VStr "p1", "one"); (VStr "", "none")] start).2).
Proof. by destruct (cleanup_staging_for_pods _ _ _ _). Qed.
End StagingSim.

Lemma cleanup_is_exact_witness : is_ok (cleanup_staging_for_pods 3 StagingSim.config [(VStr "p1", "one"); (VStr "", "none")] StagingSim.start (H:=StagingSim.sim_deps)).2 = true.
Proof.
  destruct (cleanup_is_exact (H:=StagingSim.sim_deps) (H0:=StagingSim.sim_lawful) 3 StagingSim.config [(VStr "p1", "one"); (VStr "", "none")] StagingSim.start _ _
    StagingSim.cleaned_run) as (_ & _ & _ & Hend).
  destruct Hend as [_ Hend]; [intros p; cbn; lia|].
  apply (Hend StagingSim.sim_answers); [vm_compute; reflexivity|].
  apply Forall_cons. split; [by exists "p1"|]. apply Forall_cons. split; [by exists ""|]. by apply Forall_nil.
Defined.
